(* ===== verification/_CoqProject ===== *)
-Q . S2P
Prelude.v
Bufq.v
BufqHeap.v
BufqMoves.v
Xp.v
Prims.v
Timers.v
Txc.v
Lsc.v
Rc.v
LscCtl.v
Monitors.v
Requests.v
Lmi.v
Ctl.v
Invariant.v
Machine.v
System.v
Congest.v
ErrorRate.v
Header.v
Arq.v
Retransmit.v
Retrieval.v
Receive.v
Link.v
Hdlc.v
SoftHdlc.v
Spans.v
Ring.v
HdlcBits.v
HdlcTables.v
HdlcRx.v
HdlcTx.v
HdlcTrip.v
SpanSlots.v
StrQueue.v
StrSpec.v
StrRefine.v
StrSys.v
StrFlow.v
StrFaults.v
StrPort.v
Os7Queue.v
Os7Laws.v
Os7Order.v
Os7Run.v
SdlConfig.v
Ioctl.v
IoctlLaws.v
CommitLaws.v
IoctlOk.v
IoctlFaults.v
Isr.v
IsrLaws.v
IsrRecover.v
IsrLoop.v
IsrFaults.v
Partial.v
Life.v
LifeLaws.v
LifeRefs.v
LifeFaults.v
Msg.v
MsgLaws.v
MsgRefs.v
MsgOk.v
MsgRefine.v
MsgFaults.v
