(* ===== verification/Prelude.v ===== *)
(** * SS7 level 2 of OpenSS7: a verification library

    The signalling link of the OpenSS7 project as [src/src/drivers/sl_x100p.c]
    implements it for E1 and T1 cards: Message Transfer Part level 2 (Q.703,
    T1.111.3) over a software HDLC, below a STREAMS interface.  Frames arrive as
    octets in blocks of a span; the Soft-HDLC delimits them, reception control
    checks and acknowledges signal units and delivers messages, transmission
    control sends units and keeps messages until they are acknowledged, link
    state control aligns the link and takes it out of service, and the error
    monitors, timers and congestion control watch over it.

    ** The model

    A channel is the record [xp] of [Xp] with the fields of [struct xp]; its
    flags are booleans, its state variables enumerations with the codes of the
    headers, its counters integers with the wrap-around of their C type written
    out ([u8], [u16], [u32], [s32] below).  A function of the driver is a function
    from channel to channel with its return code where the code uses it; names
    are those of the source.  Effects outside the channel are the record [env]:
    a schedule of allocation failures and of flow control, the read queue, and a
    log of what was sent upstream and which queues were enabled.  Undefined reads
    set a flag ([fault]) and go on.

    - [Bufq], [BufqHeap], [BufqMoves]: the message queues of
      [include/sys/os7/bufq.h] as lists with counters, as a heap of linked cells,
      and the moving of whole queues.
    - [Xp], [Prims], [Timers]: the private structure, the primitives sent
      upstream, the timers with [include/sys/os7/timer.h].
    - [Txc]: congestion control, transmission control, the headers of units,
      acknowledgement, retransmission, retrieval ([sl_txc_*], [sl_daedt_*],
      [sl_check_congestion]).
    - [Lsc], [LscCtl]: link state, initial alignment and processor outage control
      ([sl_lsc_*], [sl_iac_*], [sl_poc_*]).
    - [Rc]: reception control ([sl_rc_*]).  [Monitors]: [sl_aerm_*], [sl_suerm_*],
      [sl_eim_*], [sl_daedr_*], and [xp_t1_timeout] to [xp_t8_timeout].
    - [Requests], [Lmi]: the requests of the user and of management, dispatch,
      defaults, allocation ([sl_*_req], [sdt_*_req], [sdl_*_req], [lmi_*_req],
      [xp_w_proto], [xp_alloc_priv]).
    - [Hdlc], [SoftHdlc]: the tables and the block functions of the Soft-HDLC
      ([tx_table_valueN], [rx_table_valueN], [bc_table_value], [xp_tx_block],
      [xp_rx_block]).
    - [Spans]: the processing of spans, the card tasklets and the elastic buffer
      ([xp_e1c_process] and its siblings, [xp_e1_card_tasklet], [xp_overflow]).
    - [SdlConfig], [Ioctl]: the input-output controls ([xp_w_ioctl] with its 48
      commands, the tests and commits of configurations, statistics and
      notification), on a world of channels, spans and cards of which a channel has
      a lock; [None] is a crash, a wait for a lock already held included.
    - [Isr]: the interrupt routine of E1 and T1 cards ([xp_e1_interrupt],
      [xp_t1_interrupt]): burst, alarms and their recovery, loop codes, violation
      counts, clock source, lamps.  The values read of the registers of a card are
      an argument, what is written to them a result.
    - [Life]: opening and closing of streams, allocation and freeing of channels,
      spans and cards with their reference counts ([xp_open], [xp_close],
      [xp_alloc_priv], [xp_free_priv], [xp_alloc_sp], [xp_free_cd] and the like), on
      a heap; [None] is an access to memory that is not allocated.
    - [Link]: two channels and a line that keeps order and may lose units.
    - [StrQueue]: the STREAMS message queues below every driver
      ([src/src/kernel/strutil.c], [include/sys/openss7/stream.h]): [putq],
      [putbq], [insq], [getq], [rmvq], [flushq], [flushband], [bcanputnext] and
      what they call, on a store of linked messages, the queue and its chain of
      priority bands; [None] is a bad pointer.  [StrSpec] is their contract: a
      list of messages by class, each band a count, water marks and two flags.
    - [StrPort]: what a driver may rely on of its queues, as the classes
      [Queue_ops] and [Queue_laws]; [StrQueue]'s queues and the contract are
      instances.  [Os7Queue]: the put and service procedures every driver shares
      ([src/src/kernel/os7compat.c]: [ss7_putq], [ss7_srvq], [ss7_trylockq],
      [ss7_unlockq], [ss7_oput], [ss7_osrv], flushing) over that interface, with
      the driver's procedures as parameters; [srvp_fast] of the scheduler.

    - [Partial]: computations on a state that may end in a bad access, the monad of
      [Life] and [Msg].
    - [Msg]: STREAMS message blocks ([src/src/kernel/strutil.c],
      [include/sys/openss7/stream.h], [mdbblock_alloc] and [mdbblock_free] of
      [kernel/strsched.c]): combined blocks, data blocks shared by counted
      references, the buffers, and [allocb], [esballoc], [dupb], [copyb], [freeb],
      [linkb], [unlinkb], [rmvb], [adjmsg], [pullupmsg], [msgpullup] and what goes
      with them.  [None] is an access to memory that is free or beyond a buffer.

    Components interact as in the code: [SoftHdlc] calls [Monitors], which calls
    [Rc] and [Txc]; [Rc] calls [Lsc] and [Txc]; [Lsc] calls back into all of them;
    [Requests], [Lmi], [Ioctl] and [Life] are the entry points from above, [Spans]
    and [Isr] those from the card: the routine of [Isr] fills the ring that the
    tasklet of [Spans] drains.

    ** The theorems

    - The link as a state machine ([Ctl], [Invariant], [Machine], [System]): a
      transition relation of all events, an invariant of all reachable states
      tying timers to states, progress of an aligning link, what a timeout does
      and that none is lost.  [Ctl] projects the channel to the variables the
      invariant is about and computes the effect of each operation on them.
    - Error correction ([Arq], [Retransmit], [Retrieval], [Receive], [Link]):
      the transmitter loses, repeats and reorders no message and keeps its window;
      retransmission sends what is unacknowledged; the receiver delivers exactly
      the accepted units in the order of their numbers; and the run of two
      channels in which an acknowledgement during a retransmission makes them lose
      one message and deliver another twice.
    - Monitors and congestion ([ErrorRate], [Congest]): SUERM as a leaky bucket,
      thresholds of AERM and EIM, congestion as hysteresis.
    - Formats ([Header]): the window test, the round trip of headers, and the
      misread extended header.
    - Queues ([BufqHeap], [BufqMoves]): the linked queues refine the lists.
    - Soft-HDLC ([HdlcBits], [HdlcTables], [HdlcRx], [HdlcTx], [HdlcTrip]): the
      tables are the bitwise CRC, zero insertion and zero deletion; a frame sent
      is received, whatever the alignment of its octets; a block carries the
      octets.  [HdlcBits] relates integers to bit strings, [HdlcRx] follows a
      frame through the receiver, [HdlcTx] through the transmitter.
    - STREAMS queues ([StrRefine], [StrSys], [StrFlow], [StrFaults]): the linked
      queues refine the contract for every sequence of calls; each class of
      messages is read in order; what full and not full say of the bytes on a
      band; a writer told to wait is scheduled when there is room again; and
      runs of the band operations that break the queue.
    - Queue procedures ([Os7Laws], [Os7Order], [Os7Run]): each step in terms of the
      contract; a machine that interleaves arrivals, scheduling and the put and
      service procedures at the points where the lock is held, in which no message
      is lost, doubled, reordered or forgotten; the procedures are runs of it and
      service ends; and a run in which a refused message loses its place.
    - Spans ([Ring], [SpanSlots]): the ring refines two queues, the tasklet's
      rescheduling ends, and the channels of a channelized span share an octet.
    - Input-output controls ([IoctlLaws], [CommitLaws], [IoctlOk], [IoctlFaults]): the
      configurations of channels and spans keep fitting their types; a control that
      fails changes nothing; none crashes but those that are named; what was set is
      read back; runs of the commands that overrun, deadlock or go unanswered.
    - Interrupts ([IsrLaws], [IsrRecover], [IsrLoop], [IsrFaults]): no clock from a span
      in alarm, the end of a recovery, the loop codes that have no effect; runs in
      which an alarm is no longer told to the other side and the register of the
      clock stays wrong.  A reconfiguration by a control is an event that asks for
      a new clock source.
    - Life ([LifeLaws], [LifeRefs], [LifeFaults]): the device number an open finds;
      exact reference counts, and no access to freed memory, over any sequence of
      opens, closes, attachments and detachments; closed channels that are never
      freed, and the span that is used after it was.
    - Message blocks ([MsgLaws], [MsgRefs], [MsgOk], [MsgRefine], [MsgFaults]): what a
      heap with exact counts shows at each block, unchanged at all others by every
      operation; sequences of calls behave as on messages that share nothing; all
      memory is given back; runs in which [adjmsg], [msgpullup], [pullupmsg] and a
      failed copy go wrong.  The calls are [allocb], [dupmsg], [copymsg], [freemsg],
      [linkb], [unlinkb] and [adjmsg] from the head; [esballoc], [rmvb],
      [pullupmsg] and [msgpullup] are modelled and not among them.

    ** Fuel and bounds

    The loop over acknowledged messages has fuel [sn_mask + 1], the number of
    sequence numbers: [Arq] shows it ends earlier whenever the acknowledgement is
    in the window.  The receiver's loop over whole bytes has the number of bits in
    the residue as fuel, of which every turn takes eight.  The loop of rescheduled
    tasklets ([Ring]) has 128 turns for a ring of 128 blocks.  The
    walks over linked messages have one turn more than there are messages in the
    store and the allocation of bands one for each band number; [StrRefine] shows
    them enough.  The loop of the service procedure needs one turn more than there
    are messages ([Os7Run]); the walks along a message of [Msg] have one more than there
    are blocks ([MsgOk]).  The size of the buffer of a block, [FASTBUF], and what the
    kernel makes of the size of a buffer, [ktruesize] and [skb_size], are parameters;
    that the latter are no less than was asked for is a hypothesis.  All other recursion is structural.  Sequence numbers,
    counters and octets wrap at their C width; the theorems on frames bound the
    length of a frame by the configured maximum below 2^28.

    ** Not modelled

    Spin locks, but for that of a channel in [Ioctl]: every handler of the driver is
    atomic, a run of the tasklet is one step with respect to interrupts, and the
    critical sections of the queue procedures are steps; queues are taken to be open
    ([QPROCS]).  In [Msg] a free block is memory that is not allocated, its count changes
    in one step, and a free routine of a user is only recorded.  PCI probing, the mapping of registers and module load, which are
    calls of the kernel; the removal of a card, [xp_free_cd], is modelled, and as
    [LifeFaults] shows it accesses a freed span.  In [Ioctl] sizes are those of
    pointers of eight octets and the span of a channel has a card.
    The other drivers of the repository - level 2 for other cards, MTP
    level 3 and above, SIGTRAN, SCTP, X.25, media - are separate programs, not
    reached yet. *)
From Stdlib Require Export ZArith Lia Bool.
From stdpp Require Export base tactics decidable list list_numbers option.
#[global] Open Scope Z_scope.

(** ** Functional record update *)

(** [fset f u r] is the record [r] with its field [f] replaced by [u (f r)]. *)
Class Setter {R T : Type} (f : R → T) := fset : (T → T) → R → R.
Arguments fset {R T} f {_} u r : simpl never.

Declare Scope os7_scope.
Delimit Scope os7_scope with os7.
#[global] Open Scope os7_scope.

Notation "r <| f := v |>" := (fset f (fun _ => v) r)
  (at level 1, left associativity, f at level 9, v at level 99) : os7_scope.
Notation "r <| f ; g := v |>" := (fset f (fset g (fun _ => v)) r)
  (at level 1, left associativity, f at level 9, g at level 9, v at level 99) : os7_scope.
Notation "r <| f ; g ; h := v |>" := (fset f (fset g (fset h (fun _ => v))) r)
  (at level 1, left associativity, f at level 9, g at level 9, h at level 9, v at level 99)
  : os7_scope.
Notation "r <| f ; g ; h ; i := v |>" := (fset f (fset g (fset h (fset i (fun _ => v)))) r)
  (at level 1, left associativity, f at level 9, g at level 9, h at level 9, i at level 9,
   v at level 99) : os7_scope.

(** [Eta R] gives the eta-expansion of the records of type [R]; [mk_setter]
    derives the setter of a field from it. *)
Class Eta (R : Type) := eta : R → R.

Ltac mk_setter :=
  lazymatch goal with
  | |- @Setter ?R ?T ?f =>
      let u := fresh "u" in let r := fresh "r" in
      unfold Setter; intros u r;
      let e := eval hnf in (_ : Eta R) in
      let b := eval cbv beta in (e r) in
      let p := eval pattern (f r) in b in
      lazymatch p with ?g _ => let x := eval cbv beta in (g (u (f r))) in exact x end
  end.

(** [upd] computes the fields of an updated record: a projection of an update
    of the same field is the new value, of another field the old one. *)
Ltac upd_rewrite f g T i u r H :=
  let x := fresh "x" in
  first
    [ constr_eq f g;
      assert (H : ∀ x, f (@fset _ T g i u x) = u (f x)) by (intros x; reflexivity)
    | assert (H : ∀ x, f (@fset _ T g i u x) = f x) by (intros x; reflexivity) ];
  cbv beta in H.
Ltac upd_step :=
  match goal with
  | |- context [?f (@fset ?R ?T ?g ?i ?u ?r)] =>
      let _ := constr:(ltac:(apply _) : Setter f) in
      let H := fresh in upd_rewrite f g T i u r H; rewrite (H r); clear H
  end.
Ltac upd := repeat upd_step.
Ltac upd_in_step H :=
  match type of H with
  | context [?f (@fset ?R ?T ?g ?i ?u ?r)] =>
      let _ := constr:(ltac:(apply _) : Setter f) in
      let E := fresh in upd_rewrite f g T i u r E; rewrite (E r) in H; clear E
  end.
Ltac upd_in H := repeat upd_in_step H.
Tactic Notation "upd" "in" hyp(H) := upd_in H.

(** ** Machine integers *)

Definition u8 (x : Z) : Z := x mod 2 ^ 8.
Definition u16 (x : Z) : Z := x mod 2 ^ 16.
Definition u32 (x : Z) : Z := x mod 2 ^ 32.
(** A 32-bit two's complement value. *)
Definition s32 (x : Z) : Z := (x + 2 ^ 31) mod 2 ^ 32 - 2 ^ 31.

Arguments Z.land : simpl never.
Arguments Z.lor : simpl never.
Arguments Z.lxor : simpl never.
Arguments Z.shiftl : simpl never.
Arguments Z.shiftr : simpl never.
Arguments Z.add : simpl never.
Arguments Z.sub : simpl never.
Arguments Z.mul : simpl never.
Arguments Z.pow : simpl never.
Arguments Z.modulo : simpl never.
Arguments Z.eqb : simpl nomatch.
Arguments u8 : simpl never.
Arguments u16 : simpl never.
Arguments u32 : simpl never.
Arguments s32 : simpl never.

(** ** Shared lemmas and tactics *)

(** A property of a small range is checked value by value. *)
Lemma forall_range n (P : Z → bool) :
  forallb P (seqZ 0 n) = true → ∀ x, 0 <= x < n → P x = true.
Proof.
  intros H x Hx. rewrite forallb_forall in H. apply H, list_elem_of_In, elem_of_seqZ. lia.
Qed.
(** [by_range] proves a decidable goal about [x] by computing it for each value of
    the range [H] gives. *)
Ltac by_range x H :=
  match type of H with
  | 0 <= x < ?n =>
      apply (bool_decide_unpack _); apply Is_true_true; revert x H; apply (forall_range n);
      vm_compute; reflexivity
  end.

(** [proj_field P] drops an update that the projection [P] does not see. *)
Ltac proj_field P :=
  match goal with
  | |- context [P (@fset ?R ?T ?f ?i ?u ?r)] =>
      let H := fresh in let x := fresh in
      assert (H : ∀ x, P (@fset R T f i u x) = P x) by (intros x; reflexivity);
      rewrite (H r); clear H
  end.
