(* ===== verification/Bufq.v ===== *)
(** * Buffer queues

    Model of the message queues of [include/sys/os7/bufq.h]: the receive,
    transmission and retransmission buffers of a signalling link are such
    queues.  A message is a chain of data blocks ([b_cont]), a queue the list
    of its messages in the order of their [b_next] links, with the two counters
    the code keeps beside the links.  The spin lock is not modelled: every
    operation is one atomic step. *)
From S2P Require Import Prelude.

(** ** Messages *)

(** A message block chain.  [m_id] is the address of the first block,
    [m_blks] the bytes between [b_rptr] and [b_wptr] of each block. *)
Record mblk := Mblk { m_id : Z; m_blks : list (list Z) }.
#[export] Instance eta_mblk : Eta mblk := fun r => Mblk r.(m_id) r.(m_blks).
#[export] Instance set_m_id : Setter m_id := ltac:(mk_setter).
#[export] Instance set_m_blks : Setter m_blks := ltac:(mk_setter).
#[export] Instance mblk_eq_dec : EqDecision mblk.
Proof. solve_decision. Defined.

Definition blen (b : list Z) : Z := Z.of_nat (length b).

(** [msgdsize] of a message of data blocks. *)
Fixpoint blks_size (l : list (list Z)) : Z :=
  match l with [] => 0 | b :: l => blen b + blks_size l end.
Definition msgsize (m : mblk) : Z := blks_size m.(m_blks).

(** The bytes of a message, its blocks concatenated. *)
Definition m_data (m : mblk) : list Z := concat m.(m_blks).

(** ** Queues *)

Record bufq := Bufq { q_list : list mblk; q_msgs : Z; q_count : Z }.
#[export] Instance eta_bufq : Eta bufq := fun r => Bufq r.(q_list) r.(q_msgs) r.(q_count).
#[export] Instance set_q_list : Setter q_list := ltac:(mk_setter).
#[export] Instance set_q_msgs : Setter q_msgs := ltac:(mk_setter).
#[export] Instance set_q_count : Setter q_count := ltac:(mk_setter).

Definition bufq_init : bufq := Bufq [] 0 0.
Definition bufq_length (q : bufq) : Z := q.(q_msgs).
Definition bufq_size (q : bufq) : Z := q.(q_count).
Definition bufq_head (q : bufq) : option mblk := head q.(q_list).
Definition bufq_tail (q : bufq) : option mblk := list.last q.(q_list).

(** The loops of [__bufq_add] and [__bufq_sub] over the blocks of a message. *)
Fixpoint count_add (md : list (list Z)) (c : Z) : Z :=
  match md with
  | [] => c
  | b :: md => count_add md (if 0 <? blen b then c + blen b else c)
  end.
Fixpoint count_sub (md : list (list Z)) (c : Z) : Z :=
  match md with
  | [] => c
  | b :: md =>
      count_sub md (if 0 <? blen b then (if blen b <=? c then c - blen b else 0) else c)
  end.

(** The counters once a message is linked in, or unlinked. *)
Definition __bufq_add (mp : mblk) (q : bufq) : bufq :=
  let q := q <| q_msgs := q.(q_msgs) + 1 |> in
  q <| q_count := count_add mp.(m_blks) q.(q_count) |>.
Definition __bufq_sub (mp : mblk) (q : bufq) : bufq :=
  let q := q <| q_count := count_sub mp.(m_blks) q.(q_count) |> in
  let q := q <| q_msgs := q.(q_msgs) - 1 |> in
  if q.(q_msgs) =? 0 then q <| q_count := 0 |> else q.

Definition __bufq_queue (q : bufq) (mp : mblk) : bufq :=
  __bufq_add mp (q <| q_list := q.(q_list) ++ [mp] |>).
Definition bufq_queue (q : bufq) (mp : mblk) : bufq := __bufq_queue q mp.
Definition bufq_queue_head (q : bufq) (mp : mblk) : bufq :=
  __bufq_add mp (q <| q_list := mp :: q.(q_list) |>).

(** Insertion before, and after, the message at address [i]. *)
Fixpoint list_insert_before (i : Z) (np : mblk) (l : list mblk) : list mblk :=
  match l with
  | [] => []
  | m :: l => if m.(m_id) =? i then np :: m :: l else m :: list_insert_before i np l
  end.
Fixpoint list_insert_after (i : Z) (np : mblk) (l : list mblk) : list mblk :=
  match l with
  | [] => []
  | m :: l => if m.(m_id) =? i then m :: np :: l else m :: list_insert_after i np l
  end.
Definition bufq_insert (q : bufq) (i : Z) (np : mblk) : bufq :=
  __bufq_add np (q <| q_list := list_insert_before i np q.(q_list) |>).
Definition bufq_append (q : bufq) (i : Z) (np : mblk) : bufq :=
  __bufq_add np (q <| q_list := list_insert_after i np q.(q_list) |>).

Definition __bufq_dequeue (q : bufq) : option mblk * bufq :=
  match q.(q_list) with
  | [] => (None, q)
  | mp :: l => (Some mp, __bufq_sub mp (q <| q_list := l |>))
  end.
Definition bufq_dequeue (q : bufq) : option mblk * bufq := __bufq_dequeue q.

Definition __bufq_dequeue_tail (q : bufq) : option mblk * bufq :=
  match list.last q.(q_list) with
  | None => (None, q)
  | Some mp => (Some mp, __bufq_sub mp (q <| q_list := removelast q.(q_list) |>))
  end.
Definition bufq_dequeue_tail (q : bufq) : option mblk * bufq := __bufq_dequeue_tail q.

(** [__bufq_unlink] of the message at address [i]; [None] is the [swerr()] exit
    for a message that is on no queue. *)
Definition list_find_id (i : Z) (l : list mblk) : option mblk :=
  List.find (fun m => m.(m_id) =? i) l.
Fixpoint list_remove_id (i : Z) (l : list mblk) : list mblk :=
  match l with
  | [] => []
  | m :: l => if m.(m_id) =? i then l else m :: list_remove_id i l
  end.
Definition __bufq_unlink (q : bufq) (i : Z) : option mblk * bufq :=
  match list_find_id i q.(q_list) with
  | None => (None, q)
  | Some mp => (Some mp, __bufq_sub mp (q <| q_list := list_remove_id i q.(q_list) |>))
  end.
Definition bufq_unlink (q : bufq) (i : Z) : bufq := (__bufq_unlink q i).2.

(** The splicing loops; the fuel is the number of messages to move. *)
Fixpoint splice_head_loop (fuel : nat) (q1 q2 : bufq) : bufq * bufq :=
  match fuel with
  | O => (q1, q2)
  | S fuel =>
      match bufq_dequeue_tail q2 with
      | (Some mp, q2) => splice_head_loop fuel (bufq_queue_head q1 mp) q2
      | (None, q2) => (q1, q2)
      end
  end.
Definition bufq_splice_head (q1 q2 : bufq) : bufq * bufq :=
  splice_head_loop (length q2.(q_list)) q1 q2.
Fixpoint splice_tail_loop (fuel : nat) (q1 q2 : bufq) : bufq * bufq :=
  match fuel with
  | O => (q1, q2)
  | S fuel =>
      match bufq_dequeue q2 with
      | (Some mp, q2) => splice_tail_loop fuel (bufq_queue q1 mp) q2
      | (None, q2) => (q1, q2)
      end
  end.
Definition bufq_splice_tail (q1 q2 : bufq) : bufq * bufq :=
  splice_tail_loop (length q2.(q_list)) q1 q2.

Definition bufq_freehead (q : bufq) : bufq := (__bufq_dequeue q).2.
Fixpoint purge_loop (fuel : nat) (q : bufq) : bufq :=
  match fuel with
  | O => q
  | S fuel =>
      match q.(q_list) with
      | [] => q
      | _ :: _ => purge_loop fuel (__bufq_dequeue q).2
      end
  end.
Definition bufq_purge (q : bufq) : bufq := purge_loop (length q.(q_list)) q.

(** [__bufq_supply]: each block of the chain is emptied and queued, while the
    rest of the chain still hangs on its [b_cont]. *)
Fixpoint supply_loop (i : Z) (md : list (list Z)) (q : bufq) : bufq :=
  match md with
  | [] => q
  | _ :: rest =>
      let q := __bufq_queue q (Mblk i ([] :: rest)) in
      (* unlinkb *)
      let q := q <| q_list := removelast q.(q_list) ++ [Mblk i [[]]] |> in
      supply_loop (i + 1) rest q
  end.
Definition __bufq_supply (q : bufq) (mp : mblk) : bufq := supply_loop mp.(m_id) mp.(m_blks) q.
Definition bufq_supply (q : bufq) (mp : mblk) : bufq := __bufq_supply q mp.
Definition bufq_resupply (q : bufq) (mp : mblk) (maxsize maxcount : Z) : option mblk * bufq :=
  if (maxcount <? bufq_length q) || (maxsize <? bufq_size q) then (Some mp, q)
  else (None, __bufq_supply q mp).

(** [b_next] of the message at address [i], and a write to its blocks in place
    (through the message itself or through a [dupmsg] that shares them). *)
Fixpoint list_next_id (i : Z) (l : list mblk) : option mblk :=
  match l with
  | [] => None
  | m :: l => if m.(m_id) =? i then head l else list_next_id i l
  end.
Definition bufq_next (q : bufq) (i : Z) : option mblk := list_next_id i q.(q_list).
Definition bufq_poke (q : bufq) (i : Z) (f : list (list Z) → list (list Z)) : bufq :=
  q <| q_list := (fun m => if m.(m_id) =? i then m <| m_blks := f m.(m_blks) |> else m)
                   <$> q.(q_list) |>.

(** ** The counters *)

(** The counters of a queue are those of its messages. *)
Definition list_size (l : list mblk) : Z := foldr (fun m n => msgsize m + n) 0 l.
Definition bufq_ok (q : bufq) : Prop :=
  q.(q_msgs) = Z.of_nat (length q.(q_list)) ∧ q.(q_count) = list_size q.(q_list).

Lemma blen_nonneg b : 0 <= blen b.
Proof. unfold blen. lia. Qed.
Lemma blks_size_nonneg l : 0 <= blks_size l.
Proof. induction l as [|b l IH]; cbn [blks_size]; [lia|]. pose proof (blen_nonneg b). lia. Qed.
Lemma msgsize_nonneg m : 0 <= msgsize m.
Proof. apply blks_size_nonneg. Qed.
Lemma list_size_cons m l : list_size (m :: l) = msgsize m + list_size l.
Proof. done. Qed.
Lemma list_size_nonneg l : 0 <= list_size l.
Proof.
  induction l as [|m l IH]; [done|]. rewrite list_size_cons. pose proof (msgsize_nonneg m). lia.
Qed.
Lemma list_size_app l k : list_size (l ++ k) = list_size l + list_size k.
Proof.
  induction l as [|m l IH]; cbn [app]; [done|]. rewrite !list_size_cons, IH. lia.
Qed.

Lemma count_add_size md c : count_add md c = c + blks_size md.
Proof.
  revert c; induction md as [|b md IH]; intros c; cbn [count_add blks_size]; [lia|].
  rewrite IH. pose proof (blen_nonneg b). destruct (Z.ltb_spec 0 (blen b)); lia.
Qed.
Lemma count_sub_size md c : blks_size md <= c → count_sub md c = c - blks_size md.
Proof.
  revert c; induction md as [|b md IH]; intros c; cbn [count_sub blks_size]; [lia|].
  intros H. pose proof (blen_nonneg b). pose proof (blks_size_nonneg md).
  rewrite IH; destruct (Z.ltb_spec 0 (blen b)), (Z.leb_spec (blen b) c); lia.
Qed.
(** Linking a message in keeps the counters right, wherever it goes. *)
Lemma bufq_add_ok q l mp :
  q.(q_msgs) + 1 = Z.of_nat (length l) → q.(q_count) + msgsize mp = list_size l →
  bufq_ok (__bufq_add mp (q <| q_list := l |>)).
Proof.
  intros H1 H2. unfold __bufq_add. cbv zeta. split; upd; [done|].
  rewrite count_add_size. exact H2.
Qed.
Lemma bufq_sub_ok q l mp :
  q.(q_msgs) = Z.of_nat (length l) + 1 → q.(q_count) = list_size l + msgsize mp →
  bufq_ok (__bufq_sub mp (q <| q_list := l |>)) ∧
  (__bufq_sub mp (q <| q_list := l |>)).(q_list) = l.
Proof.
  intros H1 H2. pose proof (list_size_nonneg l). unfold msgsize in *.
  unfold __bufq_sub. cbv zeta. upd. rewrite count_sub_size by lia.
  destruct (Z.eqb_spec (q_msgs q - 1) 0); (split; [split|]); upd; try done; try lia.
  destruct l; [done|cbn in *; lia].
Qed.

Lemma bufq_queue_ok q mp :
  bufq_ok q → bufq_ok (bufq_queue q mp) ∧ (bufq_queue q mp).(q_list) = q.(q_list) ++ [mp].
Proof.
  intros [H1 H2]. split; [|done].
  apply bufq_add_ok; rewrite ?length_app, ?list_size_app, ?list_size_cons; cbn; lia.
Qed.
Lemma bufq_queue_head_ok q mp :
  bufq_ok q → bufq_ok (bufq_queue_head q mp) ∧ (bufq_queue_head q mp).(q_list) = mp :: q.(q_list).
Proof.
  intros [H1 H2]. split; [|done]. apply bufq_add_ok; rewrite ?list_size_cons; cbn [length]; lia.
Qed.
Lemma bufq_dequeue_ok q :
  bufq_ok q →
  match q.(q_list) with
  | [] => bufq_dequeue q = (None, q)
  | mp :: l => ∃ q', bufq_dequeue q = (Some mp, q') ∧ bufq_ok q' ∧ q'.(q_list) = l
  end.
Proof.
  intros [H1 H2]. unfold bufq_dequeue, __bufq_dequeue. destruct (q_list q) as [|mp l] eqn:E; [done|].
  eexists. split; [reflexivity|]. apply bufq_sub_ok; [rewrite H1|rewrite H2, list_size_cons]; cbn [length]; lia.
Qed.
