(* ===== verification/BufqHeap.v ===== *)
(** * Buffer queues as linked structures

    The operations of [include/sys/os7/bufq.h] on the doubly linked messages
    themselves: a store of message blocks with their [b_next] and [b_prev], and
    the head and tail of a queue.  [None] is the dereference of a pointer that
    points to no message.  Every operation refines the one on lists. *)
From S2P Require Import Prelude Bufq.
From stdpp Require Import gmap.
#[local] Open Scope Z_scope.
#[local] Open Scope os7_scope.
#[local] Set Warnings "-clear-no-such-hyp".

(** ** Operations *)

Record cell := Cell { b_next : option Z; b_prev : option Z; b_blks : list (list Z) }.
#[export] Instance eta_cell : Eta cell := fun r => Cell r.(b_next) r.(b_prev) r.(b_blks).
#[export] Instance set_b_next : Setter b_next := ltac:(mk_setter).
#[export] Instance set_b_prev : Setter b_prev := ltac:(mk_setter).
#[export] Instance set_b_blks : Setter b_blks := ltac:(mk_setter).
Record hbufq := Hbufq {
  hq_head : option Z; hq_tail : option Z; hq_msgs : Z; hq_count : Z }.
#[export] Instance eta_hbufq : Eta hbufq := fun r =>
  Hbufq r.(hq_head) r.(hq_tail) r.(hq_msgs) r.(hq_count).
#[export] Instance set_hq_head : Setter hq_head := ltac:(mk_setter).
#[export] Instance set_hq_tail : Setter hq_tail := ltac:(mk_setter).
#[export] Instance set_hq_msgs : Setter hq_msgs := ltac:(mk_setter).
#[export] Instance set_hq_count : Setter hq_count := ltac:(mk_setter).

(** [mp->b_next = v] and [mp->b_prev = v]. *)
Definition set_next (mp : Z) (v : option Z) (h : gmap Z cell) : option (gmap Z cell) :=
  c ← h !! mp; Some (<[mp := c <| b_next := v |>]> h).
Definition set_prev (mp : Z) (v : option Z) (h : gmap Z cell) : option (gmap Z cell) :=
  c ← h !! mp; Some (<[mp := c <| b_prev := v |>]> h).

Definition h_bufq_add (h : gmap Z cell) (q : hbufq) (mp : Z) : option hbufq :=
  c ← h !! mp;
  let q := q <| hq_msgs := q.(hq_msgs) + 1 |> in
  Some (q <| hq_count := count_add c.(b_blks) q.(hq_count) |>).
Definition h_bufq_sub (h : gmap Z cell) (q : hbufq) (mp : Z) : option hbufq :=
  c ← h !! mp;
  let q := q <| hq_count := count_sub c.(b_blks) q.(hq_count) |> in
  let q := q <| hq_msgs := q.(hq_msgs) - 1 |> in
  Some (if q.(hq_msgs) =? 0 then q <| hq_count := 0 |> else q).

Definition h_bufq_queue (h : gmap Z cell) (q : hbufq) (mp : Z) : option (gmap Z cell * hbufq) :=
  h ← set_prev mp q.(hq_tail) h;
  '(h, q) ← match q.(hq_tail) with
            | Some t => h ← set_next t (Some mp) h; Some (h, q)
            | None => Some (h, q <| hq_head := Some mp |>)
            end;
  h ← set_next mp None h;
  let q := q <| hq_tail := Some mp |> in
  q ← h_bufq_add h q mp;
  Some (h, q).
Definition h_bufq_queue_head (h : gmap Z cell) (q : hbufq) (mp : Z) : option (gmap Z cell * hbufq) :=
  h ← set_next mp q.(hq_head) h;
  '(h, q) ← match q.(hq_head) with
            | Some t => h ← set_prev t (Some mp) h; Some (h, q)
            | None => Some (h, q <| hq_tail := Some mp |>)
            end;
  h ← set_prev mp None h;
  let q := q <| hq_head := Some mp |> in
  q ← h_bufq_add h q mp;
  Some (h, q).
Definition h_bufq_dequeue (h : gmap Z cell) (q : hbufq) : option (option Z * gmap Z cell * hbufq) :=
  match q.(hq_head) with
  | None => Some (None, h, q)
  | Some mp =>
      c ← h !! mp;
      let q := q <| hq_head := c.(b_next) |> in
      '(h, q) ← match c.(b_next) with
                | Some n => h ← set_prev n None h; Some (h, q)
                | None => Some (h, q <| hq_tail := None |>)
                end;
      h ← set_next mp None h;
      h ← set_prev mp None h;
      q ← h_bufq_sub h q mp;
      Some (Some mp, h, q)
  end.
Definition h_bufq_dequeue_tail (h : gmap Z cell) (q : hbufq) : option (option Z * gmap Z cell * hbufq) :=
  match q.(hq_tail) with
  | None => Some (None, h, q)
  | Some mp =>
      c ← h !! mp;
      let q := q <| hq_tail := c.(b_prev) |> in
      '(h, q) ← match c.(b_prev) with
                | Some n => h ← set_next n None h; Some (h, q)
                | None => Some (h, q <| hq_head := None |>)
                end;
      h ← set_next mp None h;
      h ← set_prev mp None h;
      q ← h_bufq_sub h q mp;
      Some (Some mp, h, q)
  end.
(** [np] is linked in before [mp]. *)
Definition h_bufq_insert (h : gmap Z cell) (q : hbufq) (mp np : Z) : option (gmap Z cell * hbufq) :=
  c ← h !! mp;
  h ← set_prev np c.(b_prev) h;
  '(h, q) ← match c.(b_prev) with
            | Some p => h ← set_next p (Some np) h; Some (h, q)
            | None => Some (h, q <| hq_head := Some np |>)
            end;
  h ← set_prev mp (Some np) h;
  h ← set_next np (Some mp) h;
  q ← h_bufq_add h q np;
  Some (h, q).
(** [np] is linked in after [mp]. *)
Definition h_bufq_append (h : gmap Z cell) (q : hbufq) (mp np : Z) : option (gmap Z cell * hbufq) :=
  c ← h !! mp;
  h ← set_next np c.(b_next) h;
  '(h, q) ← match c.(b_next) with
            | Some p => h ← set_prev p (Some np) h; Some (h, q)
            | None => Some (h, q <| hq_tail := Some np |>)
            end;
  h ← set_next mp (Some np) h;
  h ← set_prev np (Some mp) h;
  q ← h_bufq_add h q np;
  Some (h, q).
(** The two tests of [__bufq_unlink]; [false] is its [swerr()] exit. *)
Definition h_bufq_unlink (h : gmap Z cell) (q : hbufq) (mp : Z) : option (bool * gmap Z cell * hbufq) :=
  c ← h !! mp;
  '(ok, h, q) ← match c.(b_next) with
                | Some n => h ← set_prev n c.(b_prev) h; Some (true, h, q)
                | None =>
                    if decide (q.(hq_tail) = Some mp)
                    then Some (true, h, q <| hq_tail := c.(b_prev) |>)
                    else Some (false, h, q)
                end;
  if negb ok then Some (false, h, q)
  else
    '(ok, h, q) ← match c.(b_prev) with
                  | Some p => h ← set_next p c.(b_next) h; Some (true, h, q)
                  | None =>
                      if decide (q.(hq_head) = Some mp)
                      then Some (true, h, q <| hq_head := c.(b_next) |>)
                      else Some (false, h, q)
                  end;
    if negb (ok : bool) then Some (false, h, q)
    else
      h ← set_next mp None h;
      h ← set_prev mp None h;
      q ← h_bufq_sub h q mp;
      Some (true, h, q).

(** ** The queue a structure represents *)

Definition first_id (l : list mblk) (n : option Z) : option Z :=
  match l with [] => n | m :: _ => Some m.(m_id) end.
Definition last_id (p : option Z) (l : list mblk) : option Z :=
  match list.last l with None => p | Some m => Some m.(m_id) end.
Arguments last_id : simpl never.
(** The messages of [l] are linked one after the other; [p] is the [b_prev] of
    the first, [n] the [b_next] of the last. *)
Fixpoint linked (h : gmap Z cell) (p : option Z) (l : list mblk) (n : option Z) : Prop :=
  match l with
  | [] => True
  | m :: l => h !! m.(m_id) = Some (Cell (first_id l n) p m.(m_blks)) ∧
              linked h (Some m.(m_id)) l n
  end.
Record repr (h : gmap Z cell) (hq : hbufq) (q : bufq) : Prop := {
  re_nodup : NoDup (m_id <$> q.(q_list));
  re_head : hq.(hq_head) = first_id q.(q_list) None;
  re_tail : hq.(hq_tail) = last_id None q.(q_list);
  re_linked : linked h None q.(q_list) None;
  re_msgs : hq.(hq_msgs) = q.(q_msgs);
  re_count : hq.(hq_count) = q.(q_count) }.

Lemma first_id_app l k n : first_id (l ++ k) n = first_id l (first_id k n).
Proof. by destruct l. Qed.
Lemma last_id_nil p : last_id p [] = p.
Proof. done. Qed.
Lemma last_id_snoc p l m : last_id p (l ++ [m]) = Some m.(m_id).
Proof. unfold last_id. by rewrite last_snoc. Qed.
Lemma last_id_cons p m l : last_id p (m :: l) = last_id (Some m.(m_id)) l.
Proof. destruct l; [done|]. unfold last_id. rewrite last_cons_cons. by destruct (last _) eqn:E;
  [|apply last_None in E]. Qed.
Lemma last_id_app p l k : last_id p (l ++ k) = last_id (last_id p l) k.
Proof.
  revert p; induction l as [|m l IH]; intros p; [done|]. cbn [app]. by rewrite !last_id_cons, IH.
Qed.
Lemma linked_app h p l k n :
  linked h p (l ++ k) n ↔ linked h p l (first_id k n) ∧ linked h (last_id p l) k n.
Proof.
  revert p; induction l as [|m l IH]; intros p; cbn [app linked]; [naive_solver|].
  rewrite IH, first_id_app, last_id_cons. tauto.
Qed.
Lemma linked_insert h p l n a c :
  a ∉ m_id <$> l → linked (<[a := c]> h) p l n ↔ linked h p l n.
Proof.
  revert p; induction l as [|m l IH]; intros p Ha; cbn [linked]; [done|].
  rewrite fmap_cons, not_elem_of_cons in Ha. destruct Ha as [Hm Ha].
  rewrite lookup_insert_ne by done. by rewrite IH.
Qed.
Lemma list_snoc_inv (l : list mblk) : l = [] ∨ ∃ k m, l = k ++ [m].
Proof. destruct l as [|m k _] using rev_ind; eauto. Qed.

(** *** Running the operations *)

Lemma set_next_ok a v h c :
  h !! a = Some c → set_next a v h = Some (<[a := Cell v c.(b_prev) c.(b_blks)]> h).
Proof. intros H. unfold set_next. by rewrite H. Qed.
Lemma set_prev_ok a v h c :
  h !! a = Some c → set_prev a v h = Some (<[a := Cell c.(b_next) v c.(b_blks)]> h).
Proof. intros H. unfold set_prev. by rewrite H. Qed.
Lemma h_add_ok (h : gmap Z cell) hq a c :
  h !! a = Some c →
  h_bufq_add h hq a = Some (Hbufq hq.(hq_head) hq.(hq_tail) (hq.(hq_msgs) + 1)
                              (count_add c.(b_blks) hq.(hq_count))).
Proof. intros H. unfold h_bufq_add. by rewrite H. Qed.
(** The counters after [__bufq_sub]. *)
Definition sub_msgs (n : Z) : Z := n - 1.
Definition sub_count (n c : Z) (md : list (list Z)) : Z :=
  if n - 1 =? 0 then 0 else count_sub md c.
Lemma h_sub_ok (h : gmap Z cell) hq a c :
  h !! a = Some c →
  h_bufq_sub h hq a = Some (Hbufq hq.(hq_head) hq.(hq_tail) (sub_msgs hq.(hq_msgs))
                              (sub_count hq.(hq_msgs) hq.(hq_count) c.(b_blks))).
Proof.
  intros H. unfold h_bufq_sub, sub_msgs, sub_count. rewrite H. cbn. upd.
  destruct (_ =? 0); by destruct hq.
Qed.
Ltac hlook := simplify_map_eq; try done.
Ltac hstep :=
  match goal with
  | |- context [set_next ?a ?v ?h] => erewrite (set_next_ok a v h) by hlook
  | |- context [set_prev ?a ?v ?h] => erewrite (set_prev_ok a v h) by hlook
  | |- context [h_bufq_add ?h ?q ?a] => erewrite (h_add_ok h q a) by hlook
  | |- context [h_bufq_sub ?h ?q ?a] => erewrite (h_sub_ok h q a) by hlook
  end; cbn [mbind option_bind].

(** The operations on lists, with their counters. *)
Lemma bufq_queue_eq q m :
  bufq_queue q m = Bufq (q.(q_list) ++ [m]) (q.(q_msgs) + 1) (count_add m.(m_blks) q.(q_count)).
Proof. by destruct q. Qed.
Lemma bufq_queue_head_eq q m :
  bufq_queue_head q m = Bufq (m :: q.(q_list)) (q.(q_msgs) + 1) (count_add m.(m_blks) q.(q_count)).
Proof. by destruct q. Qed.
Lemma bufq_sub_eq m l q :
  __bufq_sub m (q <| q_list := l |>) =
  Bufq l (sub_msgs q.(q_msgs)) (sub_count q.(q_msgs) q.(q_count) m.(m_blks)).
Proof.
  unfold __bufq_sub, sub_msgs, sub_count. cbv zeta. upd. destruct (_ =? 0); by destruct q.
Qed.

(** [ids_tac] solves membership in lists of addresses, [link_tac] the links of a
    list once the changed addresses are off the rest of it. *)
Ltac ids_tac :=
  repeat (rewrite <- app_assoc in *);
  repeat (rewrite fmap_app in * || rewrite fmap_cons in * || cbn [fmap list_fmap app] in *);
  rewrite ?NoDup_app, ?NoDup_cons in *; set_solver.
Ltac link_tac :=
  repeat (rewrite linked_insert by ids_tac); try done.
(** The links of a list put together from parts. *)
Ltac links_tac :=
  repeat (rewrite linked_app || rewrite last_id_snoc || cbn [linked first_id app]);
  repeat match goal with |- _ ∧ _ => split end; first [done | by hlook | link_tac].
Ltac ends_tac :=
  repeat (rewrite last_id_app || rewrite last_id_cons || rewrite first_id_app); try done.

(** The queue gets the message [mp] of the store at its tail. *)
Lemma h_bufq_queue_ok h hq q mp c :
  repr h hq q → h !! mp = Some c → mp ∉ m_id <$> q.(q_list) →
  ∃ h' hq', h_bufq_queue h hq mp = Some (h', hq') ∧
            repr h' hq' (bufq_queue q (Mblk mp c.(b_blks))).
Proof.
  intros [Hd Hh Ht Hl Hm Hc] Hmp Hn. unfold h_bufq_queue. rewrite bufq_queue_eq.
  destruct (list_snoc_inv (q_list q)) as [E | (k & t & E)]; rewrite E in *.
  - rewrite Ht, last_id_nil. cbn. do 3 hstep. eexists _, _. split; [reflexivity|].
    split; cbn; upd; rewrite ?Hm, ?Hc; try done; [ids_tac|]. split; [|done]. hlook.
  - rewrite Ht, last_id_snoc. cbn. apply linked_app in Hl as [Hk [Hl _]]. cbn in Hk, Hl.
    assert (m_id t ≠ mp) by ids_tac. do 4 hstep.
    eexists _, _. split; [reflexivity|].
    split; cbn; upd; rewrite ?Hm, ?Hc; try done.
    + ids_tac.
    + rewrite Hh. by destruct k.
    + by rewrite last_id_snoc.
    + apply linked_app. cbn. rewrite last_id_snoc. split; [|split; [hlook|done]].
      apply linked_app. cbn. split; [link_tac|]. split; [hlook|done].
Qed.
Lemma h_bufq_queue_head_ok h hq q mp c :
  repr h hq q → h !! mp = Some c → mp ∉ m_id <$> q.(q_list) →
  ∃ h' hq', h_bufq_queue_head h hq mp = Some (h', hq') ∧
            repr h' hq' (bufq_queue_head q (Mblk mp c.(b_blks))).
Proof.
  intros [Hd Hh Ht Hl Hm Hc] Hmp Hn. unfold h_bufq_queue_head. rewrite bufq_queue_head_eq.
  destruct (q_list q) as [|t k] eqn:E; cbn [first_id linked] in *; rewrite Hh; cbn.
  - do 3 hstep. eexists _, _. split; [reflexivity|].
    split; cbn; upd; rewrite ?Hm, ?Hc; try done; [ids_tac|]. split; [|done]. hlook.
  - destruct Hl as [Hl Hk]. assert (m_id t ≠ mp) by ids_tac. do 4 hstep.
    eexists _, _. split; [reflexivity|].
    split; cbn; upd; rewrite ?Hm, ?Hc; try done.
    + ids_tac.
    + split; [hlook|]. split; [hlook|]. link_tac.
Qed.

(** The head of the queue leaves it. *)
Lemma h_bufq_dequeue_ok h hq q m q' :
  repr h hq q → bufq_dequeue q = (Some m, q') →
  ∃ h' hq', h_bufq_dequeue h hq = Some (Some m.(m_id), h', hq') ∧ repr h' hq' q' ∧
            h' !! m.(m_id) = Some (Cell None None m.(m_blks)).
Proof.
  intros [Hd Hh Ht Hl Hm Hc] Hq. unfold bufq_dequeue, __bufq_dequeue in Hq.
  destruct (q_list q) as [|x k] eqn:E; [done|]. simplify_eq. rewrite bufq_sub_eq.
  cbn [first_id linked] in *. destruct Hl as [Hl Hk]. unfold h_bufq_dequeue. rewrite Hh, Hl.
  destruct k as [|y k]; cbn [first_id] in *; cbn.
  - do 3 hstep. eexists _, _. split; [reflexivity|].
    split; [|hlook]. split; cbn; upd; rewrite ?Hm, ?Hc; try done. ids_tac.
  - assert (m_id m ≠ m_id y) by ids_tac. cbn [linked] in Hk. destruct Hk as [Hy Hk].
    do 4 hstep. eexists _, _. split; [reflexivity|]. split; [|hlook].
    split; cbn; upd; rewrite ?Hm, ?Hc; try done.
    + ids_tac.
    + split; [hlook|]. link_tac.
Qed.
Lemma h_bufq_dequeue_none h hq q :
  repr h hq q → q.(q_list) = [] → h_bufq_dequeue h hq = Some (None, h, hq).
Proof. intros [_ Hh _ _ _ _] E. unfold h_bufq_dequeue. by rewrite Hh, E. Qed.

(** The tail of the queue leaves it. *)
Lemma h_bufq_dequeue_tail_ok h hq q m q' :
  repr h hq q → bufq_dequeue_tail q = (Some m, q') →
  ∃ h' hq', h_bufq_dequeue_tail h hq = Some (Some m.(m_id), h', hq') ∧ repr h' hq' q' ∧
            h' !! m.(m_id) = Some (Cell None None m.(m_blks)).
Proof.
  intros [Hd Hh Ht Hl Hm Hc] Hq. unfold bufq_dequeue_tail, __bufq_dequeue_tail in Hq.
  destruct (list_snoc_inv (q_list q)) as [E | (k & t & E)]; rewrite E in *; [done|].
  rewrite last_snoc in Hq. simplify_eq. rewrite removelast_last, bufq_sub_eq.
  apply linked_app in Hl as [Hk [Hl _]]. cbn in Hk, Hl.
  unfold h_bufq_dequeue_tail. rewrite Ht, last_id_snoc, Hl.
  destruct (list_snoc_inv k) as [-> | (k' & y & ->)]; cbn.
  - rewrite last_id_nil in *. cbn. do 3 hstep. eexists _, _. split; [reflexivity|].
    split; [|hlook]. split; cbn; upd; rewrite ?Hm, ?Hc; try done. ids_tac.
  - rewrite last_id_snoc in *. cbn. assert (m_id m ≠ m_id y) by ids_tac.
    apply linked_app in Hk as [Hk [Hy _]]. cbn in Hk, Hy. cbn.
    do 4 hstep. eexists _, _. split; [reflexivity|]. split; [|hlook].
    split; cbn; upd; rewrite ?Hm, ?Hc; try done.
    + ids_tac.
    + rewrite Hh. by destruct k'.
    + by rewrite last_id_snoc.
    + rewrite linked_app. cbn. split; [link_tac|]. split; [hlook|done].
Qed.

(** The operations that name a message of the queue. *)
Lemma insert_before_split x np l1 l2 :
  m_id x ∉ m_id <$> l1 →
  list_insert_before (m_id x) np (l1 ++ x :: l2) = l1 ++ np :: x :: l2.
Proof.
  induction l1 as [|m l1 IH]; intros H; cbn; [by rewrite Z.eqb_refl|].
  rewrite fmap_cons, not_elem_of_cons in H. destruct (Z.eqb_spec (m_id m) (m_id x)); [naive_solver|].
  rewrite IH by naive_solver. done.
Qed.
Lemma insert_after_split x np l1 l2 :
  m_id x ∉ m_id <$> l1 →
  list_insert_after (m_id x) np (l1 ++ x :: l2) = l1 ++ x :: np :: l2.
Proof.
  induction l1 as [|m l1 IH]; intros H; cbn; [by rewrite Z.eqb_refl|].
  rewrite fmap_cons, not_elem_of_cons in H. destruct (Z.eqb_spec (m_id m) (m_id x)); [naive_solver|].
  rewrite IH by naive_solver. done.
Qed.
Lemma unlink_split x l1 l2 :
  m_id x ∉ m_id <$> l1 →
  list_find_id (m_id x) (l1 ++ x :: l2) = Some x ∧ list_remove_id (m_id x) (l1 ++ x :: l2) = l1 ++ l2.
Proof.
  unfold list_find_id.
  induction l1 as [|m l1 IH]; intros H; cbn; [by rewrite Z.eqb_refl|].
  rewrite fmap_cons, not_elem_of_cons in H. destruct (Z.eqb_spec (m_id m) (m_id x)); [naive_solver|].
  destruct IH as [-> ->]; [naive_solver|]. done.
Qed.

Lemma h_bufq_insert_ok h hq q x np c l1 l2 :
  repr h hq q → q.(q_list) = l1 ++ x :: l2 → h !! np = Some c → np ∉ m_id <$> q.(q_list) →
  ∃ h' hq', h_bufq_insert h hq x.(m_id) np = Some (h', hq') ∧
            repr h' hq' (bufq_insert q x.(m_id) (Mblk np c.(b_blks))).
Proof.
  intros [Hd Hh Ht Hl Hm Hc] E Hnp Hn. rewrite E in *.
  assert (Hx : m_id x ∉ m_id <$> l1) by ids_tac.
  assert (m_id x ≠ np) by ids_tac.
  assert (He : bufq_insert q (m_id x) (Mblk np (b_blks c)) =
    Bufq (l1 ++ Mblk np (b_blks c) :: x :: l2) (q_msgs q + 1) (count_add (b_blks c) (q_count q))).
  { unfold bufq_insert. rewrite E, insert_before_split by done. by destruct q. }
  rewrite He. clear He. apply linked_app in Hl as [Hk [Hl Hr]].
  unfold h_bufq_insert. rewrite Hl.
  destruct (list_snoc_inv l1) as [-> | (k & y & ->)].
  - rewrite last_id_nil in *. cbn. do 4 hstep. eexists _, _. split; [reflexivity|].
    split; cbn; upd; rewrite ?Hm, ?Hc; try done; [ids_tac|].
    split; [hlook|]. split; [hlook|]. link_tac.
  - rewrite last_id_snoc in *. cbn. assert (m_id y ≠ np ∧ m_id y ≠ m_id x) as [??] by ids_tac.
    apply linked_app in Hk as [Hk [Hy _]]. cbn in Hk, Hy.
    do 5 hstep. eexists _, _. split; [reflexivity|].
    split; cbn; upd; rewrite ?Hm, ?Hc; try done.
    + ids_tac.
    + rewrite Hh. by destruct k.
    + rewrite Ht. ends_tac.
    + links_tac.
Qed.
Lemma h_bufq_append_ok h hq q x np c l1 l2 :
  repr h hq q → q.(q_list) = l1 ++ x :: l2 → h !! np = Some c → np ∉ m_id <$> q.(q_list) →
  ∃ h' hq', h_bufq_append h hq x.(m_id) np = Some (h', hq') ∧
            repr h' hq' (bufq_append q x.(m_id) (Mblk np c.(b_blks))).
Proof.
  intros [Hd Hh Ht Hl Hm Hc] E Hnp Hn. rewrite E in *.
  assert (Hx : m_id x ∉ m_id <$> l1) by ids_tac.
  assert (m_id x ≠ np) by ids_tac.
  assert (He : bufq_append q (m_id x) (Mblk np (b_blks c)) =
    Bufq (l1 ++ x :: Mblk np (b_blks c) :: l2) (q_msgs q + 1) (count_add (b_blks c) (q_count q))).
  { unfold bufq_append. rewrite E, insert_after_split by done. by destruct q. }
  rewrite He. clear He. apply linked_app in Hl as [Hk [Hl Hr]].
  unfold h_bufq_append. rewrite Hl. cbn [first_id] in Hk.
  destruct l2 as [|y l2]; cbn [first_id linked] in *; cbn.
  - do 4 hstep. eexists _, _. split; [reflexivity|].
    split; cbn; upd; rewrite ?Hm, ?Hc; try done; [ids_tac|..].
    + rewrite Hh. ends_tac.
    + ends_tac.
    + links_tac.
  - destruct Hr as [Hy Hr]. assert (m_id y ≠ np ∧ m_id y ≠ m_id x) as [??] by ids_tac.
    do 5 hstep. eexists _, _. split; [reflexivity|].
    split; cbn; upd; rewrite ?Hm, ?Hc; try done; [ids_tac|..].
    + rewrite Hh. ends_tac.
    + rewrite Ht. ends_tac.
    + links_tac.
Qed.
Lemma h_bufq_unlink_ok h hq q x l1 l2 :
  repr h hq q → q.(q_list) = l1 ++ x :: l2 →
  ∃ h' hq', h_bufq_unlink h hq x.(m_id) = Some (true, h', hq') ∧
            repr h' hq' (bufq_unlink q x.(m_id)) ∧
            h' !! x.(m_id) = Some (Cell None None x.(m_blks)).
Proof.
  intros [Hd Hh Ht Hl Hm Hc] E. rewrite E in *.
  assert (Hx : m_id x ∉ m_id <$> l1) by ids_tac.
  assert (He : bufq_unlink q (m_id x) =
    Bufq (l1 ++ l2) (sub_msgs (q_msgs q)) (sub_count (q_msgs q) (q_count q) (m_blks x))).
  { unfold bufq_unlink, __bufq_unlink. rewrite E.
    destruct (unlink_split x l1 l2 Hx) as [-> ->]. cbn [snd]. apply bufq_sub_eq. }
  rewrite He. clear He. apply linked_app in Hl as [Hk [Hl Hr]].
  unfold h_bufq_unlink. rewrite Hl.
  destruct l2 as [|z l2], (list_snoc_inv l1) as [-> | (k & y & ->)];
    rewrite ?last_id_nil, ?last_id_snoc in *; cbn [first_id linked] in *; cbn.
  - rewrite decide_True by done. cbn. upd. rewrite decide_True by done. cbn. do 3 hstep.
    eexists _, _. split; [reflexivity|]. split; [|hlook].
    split; cbn; upd; rewrite ?Hm, ?Hc; try done. ids_tac.
  - assert (m_id y ≠ m_id x) by ids_tac.
    apply linked_app in Hk as [Hk [Hy _]]. cbn in Hk, Hy.
    rewrite decide_True by (rewrite Ht; ends_tac). cbn. do 4 hstep.
    eexists _, _. split; [reflexivity|]. split; [|hlook]. rewrite app_nil_r.
    split; cbn; upd; rewrite ?Hm, ?Hc; try done; [ids_tac|..].
    + rewrite Hh. ends_tac.
    + by rewrite last_id_snoc.
    + links_tac.
  - destruct Hr as [Hz Hr]. assert (m_id z ≠ m_id x) by ids_tac. hstep. cbn.
    rewrite decide_True by done. cbn. do 3 hstep.
    eexists _, _. split; [reflexivity|]. split; [|hlook].
    split; cbn; upd; rewrite ?Hm, ?Hc; try done; [ids_tac|]. links_tac.
  - destruct Hr as [Hz Hr]. assert (m_id y ≠ m_id x ∧ m_id z ≠ m_id x) as [??] by ids_tac.
    assert (m_id y ≠ m_id z) by ids_tac.
    apply linked_app in Hk as [Hk [Hy _]]. cbn in Hk, Hy.
    hstep. cbn. hstep. cbn. do 3 hstep.
    eexists _, _. split; [reflexivity|]. split; [|hlook].
    split; cbn; upd; rewrite ?Hm, ?Hc; try done; [ids_tac|..].
    + rewrite Hh. ends_tac.
    + rewrite Ht. ends_tac.
    + links_tac.
Qed.

(** ** The refinement *)

(** An operation on a queue; [mp] is a message of the queue, [np] one that is
    on no queue. *)
Inductive bop :=
  | BQueue (np : Z) | BQueueHead (np : Z) | BInsert (mp np : Z) | BAppend (mp np : Z)
  | BDequeue | BDequeueTail | BUnlink (mp : Z).
Definition h_exec (o : bop) (h : gmap Z cell) (q : hbufq) :
    option (option Z * gmap Z cell * hbufq) :=
  match o with
  | BQueue np => '(h, q) ← h_bufq_queue h q np; Some (None, h, q)
  | BQueueHead np => '(h, q) ← h_bufq_queue_head h q np; Some (None, h, q)
  | BInsert mp np => '(h, q) ← h_bufq_insert h q mp np; Some (None, h, q)
  | BAppend mp np => '(h, q) ← h_bufq_append h q mp np; Some (None, h, q)
  | BDequeue => h_bufq_dequeue h q
  | BDequeueTail => h_bufq_dequeue_tail h q
  | BUnlink mp => '(ok, h, q) ← h_bufq_unlink h q mp; Some (Some mp, h, q)
  end.
(** The message at [np] as the store has it. *)
Definition msg_at (h : gmap Z cell) (np : Z) : mblk :=
  Mblk np (match h !! np with Some c => c.(b_blks) | None => [] end).
Definition l_exec (o : bop) (h : gmap Z cell) (q : bufq) : option mblk * bufq :=
  match o with
  | BQueue np => (None, bufq_queue q (msg_at h np))
  | BQueueHead np => (None, bufq_queue_head q (msg_at h np))
  | BInsert mp np => (None, bufq_insert q mp (msg_at h np))
  | BAppend mp np => (None, bufq_append q mp (msg_at h np))
  | BDequeue => bufq_dequeue q
  | BDequeueTail => bufq_dequeue_tail q
  | BUnlink mp => __bufq_unlink q mp
  end.
Definition fresh (h : gmap Z cell) (q : bufq) (np : Z) : Prop :=
  is_Some (h !! np) ∧ np ∉ m_id <$> q.(q_list).
Definition bop_ok (o : bop) (h : gmap Z cell) (q : bufq) : Prop :=
  match o with
  | BQueue np | BQueueHead np => fresh h q np
  | BInsert mp np | BAppend mp np => mp ∈ m_id <$> q.(q_list) ∧ fresh h q np
  | BDequeue | BDequeueTail => True
  | BUnlink mp => mp ∈ m_id <$> q.(q_list)
  end.
Lemma id_split (l : list mblk) i :
  i ∈ m_id <$> l → ∃ l1 x l2, l = l1 ++ x :: l2 ∧ m_id x = i.
Proof.
  intros H. apply list_elem_of_fmap in H as (x & -> & H).
  apply list_elem_of_split in H as (l1 & l2 & ->). by exists l1, x, l2.
Qed.

(** C11: the linked queues implement the queues on lists: on a store that
    represents a queue, every operation runs without following a bad pointer,
    returns the address of the message the list operation returns, and leaves a
    store that represents the resulting queue, its counters included. *)
Theorem bufq_refinement o h hq q :
  repr h hq q → bop_ok o h q →
  ∃ h' hq', h_exec o h hq = Some (m_id <$> (l_exec o h q).1, h', hq') ∧
            repr h' hq' (l_exec o h q).2.
Proof.
  intros Hr Ho. destruct o as [np|np|mp np|mp np| | |mp]; cbn [h_exec l_exec bop_ok fst snd] in *.
  - destruct Ho as [[c Hc] Hn]. unfold msg_at. rewrite Hc.
    destruct (h_bufq_queue_ok _ _ _ _ _ Hr Hc Hn) as (h' & hq' & -> & ?). by exists h', hq'.
  - destruct Ho as [[c Hc] Hn]. unfold msg_at. rewrite Hc.
    destruct (h_bufq_queue_head_ok _ _ _ _ _ Hr Hc Hn) as (h' & hq' & -> & ?). by exists h', hq'.
  - destruct Ho as [Hm [[c Hc] Hn]]. unfold msg_at. rewrite Hc.
    apply id_split in Hm as (l1 & x & l2 & E & <-).
    destruct (h_bufq_insert_ok _ _ _ _ _ _ _ _ Hr E Hc Hn) as (h' & hq' & -> & ?). by exists h', hq'.
  - destruct Ho as [Hm [[c Hc] Hn]]. unfold msg_at. rewrite Hc.
    apply id_split in Hm as (l1 & x & l2 & E & <-).
    destruct (h_bufq_append_ok _ _ _ _ _ _ _ _ Hr E Hc Hn) as (h' & hq' & -> & ?). by exists h', hq'.
  - destruct (bufq_dequeue q) as [[m|] q'] eqn:E.
    + destruct (h_bufq_dequeue_ok _ _ _ _ _ Hr E) as (h' & hq' & -> & ? & _). by exists h', hq'.
    + unfold bufq_dequeue, __bufq_dequeue in E. destruct (q_list q) eqn:El; simplify_eq.
      rewrite (h_bufq_dequeue_none _ _ _ Hr El). by exists h, hq.
  - destruct (bufq_dequeue_tail q) as [[m|] q'] eqn:E.
    + destruct (h_bufq_dequeue_tail_ok _ _ _ _ _ Hr E) as (h' & hq' & -> & ? & _). by exists h', hq'.
    + unfold bufq_dequeue_tail, __bufq_dequeue_tail in E. destruct (list.last (q_list q)) eqn:El;
        simplify_eq. unfold h_bufq_dequeue_tail. rewrite (re_tail _ _ _ Hr).
      unfold last_id. rewrite El. by exists h, hq.
  - apply id_split in Ho as (l1 & x & l2 & E & <-).
    destruct (h_bufq_unlink_ok _ _ _ _ _ _ Hr E) as (h' & hq' & -> & H & _).
    exists h', hq'. split; [|exact H]. unfold __bufq_unlink. rewrite E.
    destruct (unlink_split x l1 l2) as [-> _]; [|done].
    destruct Hr as [Hd _ _ _ _ _]. rewrite E in Hd. ids_tac.
Qed.

(** Two messages of a queue and a third one in the store. *)
Definition ex_store : gmap Z cell :=
  <[1 := Cell (Some 2) None [[7; 8]]]> (<[2 := Cell None (Some 1) [[9]; [4]]]>
    (<[3 := Cell None None [[5]]]> ∅)).
Definition ex_hq : hbufq := Hbufq (Some 1) (Some 2) 2 4.
Definition ex_q : bufq := Bufq [Mblk 1 [[7; 8]]; Mblk 2 [[9]; [4]]] 2 4.
Lemma ex_repr : repr ex_store ex_hq ex_q.
Proof. split; try done. cbn. by apply (bool_decide_unpack _). Qed.
Lemma ex_fresh : fresh ex_store ex_q 3.
Proof. split; [by eexists|]. by apply (bool_decide_unpack _). Qed.

Lemma bufq_refinement_witness :
  repr ex_store ex_hq ex_q ∧ bop_ok (BInsert 2 3) ex_store ex_q ∧
  ∃ h' hq', h_exec (BInsert 2 3) ex_store ex_hq = Some (None, h', hq') ∧
            repr h' hq' (Bufq [Mblk 1 [[7; 8]]; Mblk 3 [[5]]; Mblk 2 [[9]; [4]]] 3 5).
Proof.
  assert (H : bop_ok (BInsert 2 3) ex_store ex_q).
  { split; [by apply (bool_decide_unpack _)|exact ex_fresh]. }
  split; [exact ex_repr|]. split; [exact H|].
  exact (bufq_refinement (BInsert 2 3) ex_store ex_hq ex_q ex_repr H).
Defined.
