(* ===== verification/BufqMoves.v ===== *)
(** * Moving whole queues

    What splicing, purging and supplying do to the messages and to the counters
    of a queue of [Bufq]. *)
From S2P Require Import Prelude Bufq.

Lemma bufq_dequeue_tail_ok q :
  bufq_ok q →
  match list.last q.(q_list) with
  | None => bufq_dequeue_tail q = (None, q)
  | Some mp => ∃ q', bufq_dequeue_tail q = (Some mp, q') ∧ bufq_ok q' ∧
                     q.(q_list) = q'.(q_list) ++ [mp]
  end.
Proof.
  intros [H1 H2]. unfold bufq_dequeue_tail, __bufq_dequeue_tail.
  destruct (list.last (q_list q)) as [mp|] eqn:E; [|done].
  apply last_Some in E as [l E]. rewrite E, removelast_last in *.
  rewrite length_app in H1. rewrite list_size_app, list_size_cons in H2. cbn in H1, H2.
  eexists. split; [reflexivity|].
  assert (bufq_ok (__bufq_sub mp (q <| q_list := l |>)) ∧
          (__bufq_sub mp (q <| q_list := l |>)).(q_list) = l) as [? ->]; [|done].
  apply bufq_sub_ok; lia.
Qed.
Lemma bufq_ok_nil q : bufq_ok q → q.(q_list) = [] → q = bufq_init.
Proof. destruct q as [l n c]. intros [H1 H2] H. cbn in *. subst. by simplify_eq/=. Qed.
Lemma bufq_ok_eq q q' : bufq_ok q → bufq_ok q' → q.(q_list) = q'.(q_list) → q = q'.
Proof. destruct q, q'. intros [] [] ?. cbn in *. by subst. Qed.

(** The loops take one message at a time off the second queue. *)
Lemma splice_tail_loop_ok n q1 q2 :
  bufq_ok q1 → bufq_ok q2 → (length q2.(q_list) <= n)%nat →
  ∃ q', splice_tail_loop n q1 q2 = (q', bufq_init) ∧ bufq_ok q' ∧
        q'.(q_list) = q1.(q_list) ++ q2.(q_list).
Proof.
  revert q1 q2; induction n as [|n IH]; intros q1 q2 H1 H2 Hn; cbn [splice_tail_loop].
  - assert (E : q_list q2 = []) by (destruct (q_list q2); [done|cbn in Hn; lia]).
    rewrite (bufq_ok_nil q2) by done. exists q1. by rewrite app_nil_r.
  - pose proof (bufq_dequeue_ok q2 H2) as D. destruct (q_list q2) as [|mp l] eqn:E.
    + rewrite D, (bufq_ok_nil q2) by done. exists q1. by rewrite app_nil_r.
    + destruct D as (q' & -> & Hq' & El). subst l. destruct (bufq_queue_ok q1 mp H1) as [Hq El].
      destruct (IH (bufq_queue q1 mp) q' Hq Hq' ltac:(cbn in Hn; lia)) as (q & -> & ? & Eq).
      exists q. by rewrite Eq, El, <- app_assoc.
Qed.
Lemma splice_head_loop_ok n q1 q2 :
  bufq_ok q1 → bufq_ok q2 → (length q2.(q_list) <= n)%nat →
  ∃ q', splice_head_loop n q1 q2 = (q', bufq_init) ∧ bufq_ok q' ∧
        q'.(q_list) = q2.(q_list) ++ q1.(q_list).
Proof.
  revert q1 q2; induction n as [|n IH]; intros q1 q2 H1 H2 Hn; cbn [splice_head_loop].
  - assert (E : q_list q2 = []) by (destruct (q_list q2); [done|cbn in Hn; lia]).
    rewrite (bufq_ok_nil q2) by done. by exists q1.
  - pose proof (bufq_dequeue_tail_ok q2 H2) as D. destruct (list.last (q_list q2)) as [mp|] eqn:E.
    + destruct D as (q' & -> & Hq' & El). destruct (bufq_queue_head_ok q1 mp H1) as [Hq Eq].
      rewrite El, length_app in *. cbn in Hn.
      destruct (IH (bufq_queue_head q1 mp) q' Hq Hq' ltac:(lia)) as (q & -> & ? & E2).
      exists q. by rewrite E2, Eq, <- app_assoc.
    + rewrite D. apply last_None in E. rewrite (bufq_ok_nil q2) by done. by exists q1.
Qed.
Lemma purge_loop_ok n q :
  bufq_ok q → (length q.(q_list) <= n)%nat → purge_loop n q = bufq_init.
Proof.
  revert q; induction n as [|n IH]; intros q H Hn; cbn [purge_loop].
  - apply bufq_ok_nil; [done|]. destruct (q_list q); [done|cbn in Hn; lia].
  - pose proof (bufq_dequeue_ok q H) as D. destruct (q_list q) as [|mp l] eqn:E.
    + by apply bufq_ok_nil.
    + destruct D as (q' & D & Hq' & El). unfold bufq_dequeue in D. rewrite D. cbn [snd].
      apply IH; [done|]. rewrite El. cbn in Hn. lia.
Qed.

(** Splicing a queue onto the tail (the head) of another leaves the messages
    of both in order, the other queue empty and all counters right; purging
    empties a queue and brings its counters to zero. *)
Theorem bufq_splice_purge q1 q2 :
  bufq_ok q1 → bufq_ok q2 →
  bufq_splice_tail q1 q2 = (Bufq (q1.(q_list) ++ q2.(q_list)) (q1.(q_msgs) + q2.(q_msgs))
                              (q1.(q_count) + q2.(q_count)), bufq_init) ∧
  bufq_splice_head q1 q2 = (Bufq (q2.(q_list) ++ q1.(q_list)) (q1.(q_msgs) + q2.(q_msgs))
                              (q1.(q_count) + q2.(q_count)), bufq_init) ∧
  bufq_purge q1 = bufq_init.
Proof.
  intros H1 H2. split; [|split].
  - destruct (splice_tail_loop_ok _ q1 q2 H1 H2 (le_n _)) as (q & E & Hq & El).
    unfold bufq_splice_tail. rewrite E. f_equal. apply bufq_ok_eq; [done| |done].
    destruct H1, H2. split; cbn; rewrite ?length_app, ?list_size_app; lia.
  - destruct (splice_head_loop_ok _ q1 q2 H1 H2 (le_n _)) as (q & E & Hq & El).
    unfold bufq_splice_head. rewrite E. f_equal. apply bufq_ok_eq; [done| |done].
    destruct H1, H2. split; cbn; rewrite ?length_app, ?list_size_app; lia.
  - by apply purge_loop_ok.
Qed.
Definition ex_q1 : bufq := Bufq [Mblk 1 [[1; 2; 3]]; Mblk 2 [[4]; [5]]] 2 5.
Definition ex_q2 : bufq := Bufq [Mblk 3 [[6]]] 1 1.
Lemma bufq_splice_purge_witness :
  bufq_ok ex_q1 ∧ bufq_ok ex_q2 ∧
  bufq_splice_tail ex_q1 ex_q2 =
    (Bufq [Mblk 1 [[1; 2; 3]]; Mblk 2 [[4]; [5]]; Mblk 3 [[6]]] 3 6, bufq_init).
Proof.
  assert (H1 : bufq_ok ex_q1) by done. assert (H2 : bufq_ok ex_q2) by done.
  split; [exact H1|]. split; [exact H2|]. exact (proj1 (bufq_splice_purge ex_q1 ex_q2 H1 H2)).
Defined.

(** ** Supplying blocks *)

(** The bytes [__bufq_supply] adds to the counter: the ones of every block that
    still hangs on the [b_cont] of a block it queues. *)
Fixpoint supply_count (md : list (list Z)) : Z :=
  match md with [] => 0 | _ :: rest => blks_size rest + supply_count rest end.
Lemma supply_loop_ok i md q :
  (supply_loop i md q).(q_list) = q.(q_list) ++ imap (fun k _ => Mblk (i + Z.of_nat k) [[]]) md ∧
  (supply_loop i md q).(q_msgs) = q.(q_msgs) + Z.of_nat (length md) ∧
  (supply_loop i md q).(q_count) = q.(q_count) + supply_count md.
Proof.
  revert i q; induction md as [|b md IH]; intros i q; cbn [supply_loop supply_count].
  - cbn. rewrite app_nil_r. repeat split; lia.
  - set (q0 := __bufq_queue q (Mblk i ([] :: md))).
    destruct (IH (i + 1) (q0 <| q_list := removelast q0.(q_list) ++ [Mblk i [[]]] |>))
      as (-> & -> & ->). subst q0.
    upd. unfold __bufq_queue, __bufq_add. cbv zeta. upd. cbn [m_blks].
    rewrite removelast_last, count_add_size, <- app_assoc. cbn [blks_size length].
    change (blen []) with 0. repeat split; [|lia|lia].
    rewrite imap_cons, Z.add_0_r. apply (f_equal (app _)), (f_equal (cons _)), imap_ext.
    intros k x _. cbn. f_equal. lia.
Qed.

Lemma supply_count_zero md : blks_size md = 0 → supply_count md = 0.
Proof.
  induction md as [|b md IH]; cbn [blks_size supply_count]; [done|]. intros E.
  pose proof (blks_size_nonneg md). pose proof (blen_nonneg b). rewrite IH; lia.
Qed.

(** [bufq_supply] queues one emptied block for each block of the chain, and
    its message counter is right, but its byte counter grows by the blocks that
    follow in the chain each time: it is right exactly if all blocks but the
    first were empty. *)
Theorem bufq_supply_counts q mp :
  bufq_ok q →
  let q' := bufq_supply q mp in
  q'.(q_msgs) = Z.of_nat (length q'.(q_list)) ∧
  length q'.(q_list) = (length q.(q_list) + length mp.(m_blks))%nat ∧
  q'.(q_count) = list_size q'.(q_list) + supply_count mp.(m_blks) ∧
  (bufq_ok q' ↔ blks_size (tail mp.(m_blks)) = 0).
Proof.
  intros [H1 H2] q'. unfold q', bufq_supply, __bufq_supply, bufq_ok.
  destruct (supply_loop_ok (m_id mp) (m_blks mp) q) as (-> & -> & ->).
  assert (Z0 : ∀ (md : list (list Z)) i, list_size (imap (fun k _ => Mblk (i + Z.of_nat k) [[]]) md) = 0).
  { induction md as [|b md IH]; intros i; [done|]. rewrite imap_cons, list_size_cons.
    rewrite (imap_ext _ (fun k _ => Mblk (i + 1 + Z.of_nat k) [[]])), IH; [done|].
    intros k x _. cbn. f_equal. lia. }
  rewrite !length_app, !length_imap, !list_size_app, !Z0.
  assert (Hs : ∀ md, 0 <= supply_count md).
  { induction md as [|b md IH]; cbn; [lia|]. pose proof (blks_size_nonneg md). lia. }
  assert (Hz : supply_count (m_blks mp) = 0 ↔ blks_size (tail (m_blks mp)) = 0).
  { destruct (m_blks mp) as [|b md]; cbn; [done|]. specialize (Hs md) as Hsm.
    pose proof (blks_size_nonneg md). split; [lia|]. intros E. rewrite supply_count_zero; lia. }
  repeat split; try lia.
Qed.
Lemma bufq_supply_counts_witness :
  bufq_ok bufq_init ∧
  (bufq_supply bufq_init (Mblk 1 [[1]; [2; 3]; [4]])).(q_count) = 4 ∧
  ¬ bufq_ok (bufq_supply bufq_init (Mblk 1 [[1]; [2; 3]; [4]])).
Proof.
  assert (H : bufq_ok bufq_init) by done. split; [exact H|].
  destruct (bufq_supply_counts bufq_init (Mblk 1 [[1]; [2; 3]; [4]]) H) as (_ & _ & -> & E).
  split; [reflexivity|]. intros K. apply E in K. discriminate K.
Defined.
