(* ===== verification/Xp.v ===== *)
(** * The private structure of a channel

    The state of a signalling link of [drivers/sl_x100p.c]: [struct xp] with the
    state machine, configuration, timers and statistics structures of
    [include/ss7/sli_ioctl.h], [sdti_ioctl.h], [sdli_ioctl.h] and
    [lmi_ioctl.h].  The [sl_ulong] variables that hold a state are enumerations
    with the values of their [#define]s ([_code]), the flags are booleans, the
    counters and sequence numbers integers kept at their C width by the code
    that updates them. *)
From S2P Require Import Prelude Bufq.

(** ** Return codes and constants *)

(** Queue return codes of [include/sys/os7/queue.h] and the negated errno
    values the driver returns. *)
Definition QR_DONE : Z := 0.
Definition QR_ABSORBED : Z := 1.
Definition QR_TRIMMED : Z := 2.
Definition QR_LOOP : Z := 3.
Definition QR_PASSALONG : Z := 4.
Definition QR_PASSFLOW : Z := 5.
Definition QR_DISABLE : Z := 6.
Definition QR_STRIP : Z := 7.
Definition QR_RETRY : Z := 8.
Definition EIO : Z := 5.
Definition ENXIO : Z := 6.
Definition EAGAIN : Z := 11.
Definition ENOMEM : Z := 12.
Definition EFAULT : Z := 14.
Definition EBUSY : Z := 16.
Definition EINVAL : Z := 22.
Definition EPROTO : Z := 71.
Definition EMSGSIZE : Z := 90.
Definition EOPNOTSUPP : Z := 95.
Definition ENOBUFS : Z := 105.

(** Protocol variants and options of [lmi_ioctl.h]. *)
Definition SS7_PVAR_MASK : Z := 0xff00.
Definition SS7_PVAR_ITUT : Z := 0x0100.
Definition SS7_PVAR_ETSI : Z := 0x0200.
Definition SS7_PVAR_ANSI : Z := 0x0300.
Definition SS7_PVAR_JTTC : Z := 0x0400.
Definition SS7_PVAR_ITUT_88 : Z := 0x0100.
Definition SS7_PVAR_ITUT_93 : Z := 0x0101.
Definition SS7_PVAR_ITUT_96 : Z := 0x0102.
Definition SS7_PVAR_ITUT_00 : Z := 0x0103.
Definition SS7_PVAR_ETSI_88 : Z := 0x0200.
Definition SS7_PVAR_ETSI_93 : Z := 0x0201.
Definition SS7_PVAR_ETSI_96 : Z := 0x0202.
Definition SS7_PVAR_ETSI_00 : Z := 0x0203.
Definition SS7_PVAR_ANSI_88 : Z := 0x0300.
Definition SS7_PVAR_ANSI_92 : Z := 0x0301.
Definition SS7_PVAR_ANSI_96 : Z := 0x0302.
Definition SS7_PVAR_ANSI_00 : Z := 0x0303.
Definition SS7_PVAR_JTTC_94 : Z := 0x0401.
Definition SS7_POPT_MPLEV : Z := 0x01.
Definition SS7_POPT_PCR : Z := 0x02.
Definition SS7_POPT_HSL : Z := 0x04.
Definition SS7_POPT_XSN : Z := 0x08.
Definition SS7_POPT_NOPR : Z := 0x10.

(** Link status indications of [sli_ioctl.h] and failure reasons of [sli.h]. *)
Definition LSSU_SIO : Z := 0.
Definition LSSU_SIN : Z := 1.
Definition LSSU_SIE : Z := 2.
Definition LSSU_SIOS : Z := 3.
Definition LSSU_SIPO : Z := 4.
Definition LSSU_SIB : Z := 5.
Definition SL_FAIL_UNSPECIFIED : Z := 0x001.
Definition SL_FAIL_CONG_TIMEOUT : Z := 0x002.
Definition SL_FAIL_ACK_TIMEOUT : Z := 0x004.
Definition SL_FAIL_ABNORMAL_BSNR : Z := 0x008.
Definition SL_FAIL_ABNORMAL_FIBR : Z := 0x010.
Definition SL_FAIL_SUERM_EIM : Z := 0x020.
Definition SL_FAIL_ALIGNMENT_NOT_POSSIBLE : Z := 0x040.
Definition SL_FAIL_RECEIVED_SIO : Z := 0x080.
Definition SL_FAIL_RECEIVED_SIN : Z := 0x100.
Definition SL_FAIL_RECEIVED_SIE : Z := 0x200.
Definition SL_FAIL_RECEIVED_SIOS : Z := 0x400.
Definition SL_FAIL_T1_TIMEOUT : Z := 0x800.
Definition SL_EVT_CONGEST_ONSET_IND : Z := 0x4000.
Definition SL_EVT_CONGEST_DISCD_IND : Z := 0x8000.

(** ** States of the machines, with their numbers *)

Inductive lsc_st :=
  | LSC_POWER_OFF | LSC_IN_SERVICE | LSC_INITIAL_ALIGNMENT | LSC_ALIGNED_NOT_READY
  | LSC_ALIGNED_READY | LSC_OUT_OF_SERVICE | LSC_PROCESSOR_OUTAGE.
Definition lsc_code (x : lsc_st) : Z :=
  match x with
  | LSC_POWER_OFF => 0 | LSC_IN_SERVICE => 1 | LSC_INITIAL_ALIGNMENT => 2
  | LSC_ALIGNED_NOT_READY => 3 | LSC_ALIGNED_READY => 4 | LSC_OUT_OF_SERVICE => 5
  | LSC_PROCESSOR_OUTAGE => 6
  end.
Inductive iac_st := IAC_IDLE | IAC_PROVING | IAC_NOT_ALIGNED | IAC_ALIGNED.
Definition iac_code (x : iac_st) : Z :=
  match x with IAC_IDLE => 0 | IAC_PROVING => 1 | IAC_NOT_ALIGNED => 2 | IAC_ALIGNED => 3 end.
Inductive poc_st :=
  | POC_IDLE | POC_LOCAL_PROCESSOR_OUTAGE | POC_REMOTE_PROCESSOR_OUTAGE
  | POC_BOTH_PROCESSORS_OUT.
Definition poc_code (x : poc_st) : Z :=
  match x with
  | POC_IDLE => 0 | POC_LOCAL_PROCESSOR_OUTAGE => 1 | POC_REMOTE_PROCESSOR_OUTAGE => 2
  | POC_BOTH_PROCESSORS_OUT => 3
  end.
Inductive txc_st := TXC_IDLE | TXC_IN_SERVICE | TXC_SLEEPING.
Definition txc_code (x : txc_st) : Z :=
  match x with TXC_IDLE => 0 | TXC_IN_SERVICE => 1 | TXC_SLEEPING => 2 end.
Inductive cc_st := CC_NORMAL | CC_BUSY.
Definition cc_code (x : cc_st) : Z := match x with CC_NORMAL => 0 | CC_BUSY => 1 end.
(** The machines with the two states idle and in service: RC, AERM, SUERM, EIM,
    DAEDT, DAEDR and the two directions of the SDL. *)
Inductive run_st := IDLE | IN_SERVICE.
Definition run_code (x : run_st) : Z := match x with IDLE => 0 | IN_SERVICE => 1 end.
(** The interface states of [lmi.h]. *)
Inductive lmi_st :=
  | LMI_UNATTACHED | LMI_ATTACH_PENDING | LMI_UNUSABLE | LMI_DISABLED | LMI_ENABLE_PENDING
  | LMI_ENABLED | LMI_DISABLE_PENDING | LMI_DETACH_PENDING.
Definition lmi_code (x : lmi_st) : Z :=
  match x with
  | LMI_UNATTACHED => 1 | LMI_ATTACH_PENDING => 2 | LMI_UNUSABLE => 3 | LMI_DISABLED => 4
  | LMI_ENABLE_PENDING => 5 | LMI_ENABLED => 6 | LMI_DISABLE_PENDING => 7
  | LMI_DETACH_PENDING => 8
  end.

#[export] Instance lsc_st_eq_dec : EqDecision lsc_st.
Proof. solve_decision. Defined.
#[export] Instance iac_st_eq_dec : EqDecision iac_st.
Proof. solve_decision. Defined.
#[export] Instance poc_st_eq_dec : EqDecision poc_st.
Proof. solve_decision. Defined.
#[export] Instance txc_st_eq_dec : EqDecision txc_st.
Proof. solve_decision. Defined.
#[export] Instance cc_st_eq_dec : EqDecision cc_st.
Proof. solve_decision. Defined.
#[export] Instance run_st_eq_dec : EqDecision run_st.
Proof. solve_decision. Defined.
#[export] Instance lmi_st_eq_dec : EqDecision lmi_st.
Proof. solve_decision. Defined.

(** [x =s y] is the C comparison [x == y] of two state variables. *)
Notation "x =s y" := (bool_decide (x = y)) (at level 70, no associativity) : os7_scope.

(** ** The structures of the ioctl headers *)

Record lmi_option := LmiOption {
  pvar : Z;
  popt : Z
}.
#[export] Instance eta_lmi_option : Eta lmi_option := fun r =>
  LmiOption r.(pvar) r.(popt).
#[export] Instance set_pvar : Setter pvar := ltac:(mk_setter).
#[export] Instance set_popt : Setter popt := ltac:(mk_setter).

(** A running timer is [Some d] with the duration [d] it was armed with, a stopped one [None]
    (the [toid_t] 0). *)
Record sl_timers := SlTimers {
  t1 : option Z;
  t2 : option Z;
  t3 : option Z;
  t4 : option Z;
  t5 : option Z;
  t6 : option Z;
  t7 : option Z
}.
#[export] Instance eta_sl_timers : Eta sl_timers := fun r =>
  SlTimers r.(t1) r.(t2) r.(t3) r.(t4) r.(t5) r.(t6) r.(t7).
#[export] Instance set_t1 : Setter t1 := ltac:(mk_setter).
#[export] Instance set_t2 : Setter t2 := ltac:(mk_setter).
#[export] Instance set_t3 : Setter t3 := ltac:(mk_setter).
#[export] Instance set_t4 : Setter t4 := ltac:(mk_setter).
#[export] Instance set_t5 : Setter t5 := ltac:(mk_setter).
#[export] Instance set_t6 : Setter t6 := ltac:(mk_setter).
#[export] Instance set_t7 : Setter t7 := ltac:(mk_setter).

Record sl_config := SlConfig {
  cf_t1 : Z;
  cf_t2 : Z;
  cf_t2l : Z;
  cf_t2h : Z;
  cf_t3 : Z;
  cf_t4n : Z;
  cf_t4e : Z;
  cf_t5 : Z;
  cf_t6 : Z;
  cf_t7 : Z;
  rb_abate : Z;
  rb_accept : Z;
  rb_discard : Z;
  tb_abate_1 : Z;
  tb_onset_1 : Z;
  tb_discd_1 : Z;
  tb_abate_2 : Z;
  tb_onset_2 : Z;
  tb_discd_2 : Z;
  tb_abate_3 : Z;
  tb_onset_3 : Z;
  tb_discd_3 : Z;
  cf_N1 : Z;
  cf_N2 : Z;
  cf_M : Z
}.
#[export] Instance eta_sl_config : Eta sl_config := fun r =>
  SlConfig r.(cf_t1) r.(cf_t2) r.(cf_t2l) r.(cf_t2h) r.(cf_t3) r.(cf_t4n) r.(cf_t4e)
    r.(cf_t5) r.(cf_t6) r.(cf_t7) r.(rb_abate) r.(rb_accept) r.(rb_discard) r.(tb_abate_1)
    r.(tb_onset_1) r.(tb_discd_1) r.(tb_abate_2) r.(tb_onset_2) r.(tb_discd_2)
    r.(tb_abate_3) r.(tb_onset_3) r.(tb_discd_3) r.(cf_N1) r.(cf_N2) r.(cf_M).
#[export] Instance set_cf_t1 : Setter cf_t1 := ltac:(mk_setter).
#[export] Instance set_cf_t2 : Setter cf_t2 := ltac:(mk_setter).
#[export] Instance set_cf_t2l : Setter cf_t2l := ltac:(mk_setter).
#[export] Instance set_cf_t2h : Setter cf_t2h := ltac:(mk_setter).
#[export] Instance set_cf_t3 : Setter cf_t3 := ltac:(mk_setter).
#[export] Instance set_cf_t4n : Setter cf_t4n := ltac:(mk_setter).
#[export] Instance set_cf_t4e : Setter cf_t4e := ltac:(mk_setter).
#[export] Instance set_cf_t5 : Setter cf_t5 := ltac:(mk_setter).
#[export] Instance set_cf_t6 : Setter cf_t6 := ltac:(mk_setter).
#[export] Instance set_cf_t7 : Setter cf_t7 := ltac:(mk_setter).
#[export] Instance set_rb_abate : Setter rb_abate := ltac:(mk_setter).
#[export] Instance set_rb_accept : Setter rb_accept := ltac:(mk_setter).
#[export] Instance set_rb_discard : Setter rb_discard := ltac:(mk_setter).
#[export] Instance set_tb_abate_1 : Setter tb_abate_1 := ltac:(mk_setter).
#[export] Instance set_tb_onset_1 : Setter tb_onset_1 := ltac:(mk_setter).
#[export] Instance set_tb_discd_1 : Setter tb_discd_1 := ltac:(mk_setter).
#[export] Instance set_tb_abate_2 : Setter tb_abate_2 := ltac:(mk_setter).
#[export] Instance set_tb_onset_2 : Setter tb_onset_2 := ltac:(mk_setter).
#[export] Instance set_tb_discd_2 : Setter tb_discd_2 := ltac:(mk_setter).
#[export] Instance set_tb_abate_3 : Setter tb_abate_3 := ltac:(mk_setter).
#[export] Instance set_tb_onset_3 : Setter tb_onset_3 := ltac:(mk_setter).
#[export] Instance set_tb_discd_3 : Setter tb_discd_3 := ltac:(mk_setter).
#[export] Instance set_cf_N1 : Setter cf_N1 := ltac:(mk_setter).
#[export] Instance set_cf_N2 : Setter cf_N2 := ltac:(mk_setter).
#[export] Instance set_cf_M : Setter cf_M := ltac:(mk_setter).

Record sni := Sni {
  bib : Z;
  bsn : Z;
  fib : Z;
  fsn : Z
}.
#[export] Instance eta_sni : Eta sni := fun r =>
  Sni r.(bib) r.(bsn) r.(fib) r.(fsn).
#[export] Instance set_bib : Setter bib := ltac:(mk_setter).
#[export] Instance set_bsn : Setter bsn := ltac:(mk_setter).
#[export] Instance set_fib : Setter fib := ltac:(mk_setter).
#[export] Instance set_fsn : Setter fsn := ltac:(mk_setter).

Record tx_sni := TxSni {
  tN : sni;  (* normal *)
  tF : sni;  (* first in RTB *)
  tL : sni;  (* last in RTB *)
  tC : sni;  (* RTB clear *)
  tX : sni;  (* expected *)
  tR : sni;  (* received *)
  t_sio : Z;
  t_len : Z
}.
#[export] Instance eta_tx_sni : Eta tx_sni := fun r =>
  TxSni r.(tN) r.(tF) r.(tL) r.(tC) r.(tX) r.(tR) r.(t_sio) r.(t_len).
#[export] Instance set_tN : Setter tN := ltac:(mk_setter).
#[export] Instance set_tF : Setter tF := ltac:(mk_setter).
#[export] Instance set_tL : Setter tL := ltac:(mk_setter).
#[export] Instance set_tC : Setter tC := ltac:(mk_setter).
#[export] Instance set_tX : Setter tX := ltac:(mk_setter).
#[export] Instance set_tR : Setter tR := ltac:(mk_setter).
#[export] Instance set_t_sio : Setter t_sio := ltac:(mk_setter).
#[export] Instance set_t_len : Setter t_len := ltac:(mk_setter).

Record rx_sni := RxSni {
  rX : sni;  (* expected *)
  rF : sni;
  rR : sni;  (* received *)
  rT : sni;  (* transmitted *)
  r_sio : Z;
  r_len : Z
}.
#[export] Instance eta_rx_sni : Eta rx_sni := fun r =>
  RxSni r.(rX) r.(rF) r.(rR) r.(rT) r.(r_sio) r.(r_len).
#[export] Instance set_rX : Setter rX := ltac:(mk_setter).
#[export] Instance set_rF : Setter rF := ltac:(mk_setter).
#[export] Instance set_rR : Setter rR := ltac:(mk_setter).
#[export] Instance set_rT : Setter rT := ltac:(mk_setter).
#[export] Instance set_r_sio : Setter r_sio := ltac:(mk_setter).
#[export] Instance set_r_len : Setter r_len := ltac:(mk_setter).

(** The link state machine; [z_ptr] is the address of a message of the retransmission buffer. *)
Record sl_statem_t := SlStatem {
  lsc_state : lsc_st;
  local_processor_outage : bool;
  remote_processor_outage : bool;
  processor_outage : bool;
  emergency : bool;
  l3_indication_received : bool;
  failure_reason : Z;
  iac_state : iac_st;
  further_proving : bool;
  t4v : Z;
  Cp : Z;
  ib_mask : Z;
  sn_mask : Z;
  txc_state : txc_st;
  tx : tx_sni;
  msu_inhibited : bool;
  lssu_available : bool;
  rtb_full : bool;
  clear_rtb : bool;
  sib_received : bool;
  retrans_cycle : bool;
  forced_retransmission : bool;
  Cm : Z;
  Ct : Z;
  cong_status : Z;
  disc_status : Z;
  Zsn : Z;  (* Z *)
  z_ptr : option Z;
  rc_state : run_st;
  rx : rx_sni;
  rtr : bool;
  unb : Z;
  unf : Z;
  msu_fisu_accepted : bool;
  abnormal_bsnr : Z;
  abnormal_fibr : Z;
  congestion_discard : bool;
  congestion_accept : bool;
  l2_congestion_detect : bool;
  l3_congestion_detect : bool;
  Cr : Z;
  cc_state : cc_st;
  poc_state : poc_st
}.
#[export] Instance eta_sl_statem_t : Eta sl_statem_t := fun r =>
  SlStatem r.(lsc_state) r.(local_processor_outage) r.(remote_processor_outage)
    r.(processor_outage) r.(emergency) r.(l3_indication_received) r.(failure_reason)
    r.(iac_state) r.(further_proving) r.(t4v) r.(Cp) r.(ib_mask) r.(sn_mask) r.(txc_state)
    r.(tx) r.(msu_inhibited) r.(lssu_available) r.(rtb_full) r.(clear_rtb) r.(sib_received)
    r.(retrans_cycle) r.(forced_retransmission) r.(Cm) r.(Ct) r.(cong_status)
    r.(disc_status) r.(Zsn) r.(z_ptr) r.(rc_state) r.(rx) r.(rtr) r.(unb) r.(unf)
    r.(msu_fisu_accepted) r.(abnormal_bsnr) r.(abnormal_fibr) r.(congestion_discard)
    r.(congestion_accept) r.(l2_congestion_detect) r.(l3_congestion_detect) r.(Cr)
    r.(cc_state) r.(poc_state).
#[export] Instance set_lsc_state : Setter lsc_state := ltac:(mk_setter).
#[export] Instance set_local_processor_outage : Setter local_processor_outage := ltac:(mk_setter).
#[export] Instance set_remote_processor_outage : Setter remote_processor_outage := ltac:(mk_setter).
#[export] Instance set_processor_outage : Setter processor_outage := ltac:(mk_setter).
#[export] Instance set_emergency : Setter emergency := ltac:(mk_setter).
#[export] Instance set_l3_indication_received : Setter l3_indication_received := ltac:(mk_setter).
#[export] Instance set_failure_reason : Setter failure_reason := ltac:(mk_setter).
#[export] Instance set_iac_state : Setter iac_state := ltac:(mk_setter).
#[export] Instance set_further_proving : Setter further_proving := ltac:(mk_setter).
#[export] Instance set_t4v : Setter t4v := ltac:(mk_setter).
#[export] Instance set_Cp : Setter Cp := ltac:(mk_setter).
#[export] Instance set_ib_mask : Setter ib_mask := ltac:(mk_setter).
#[export] Instance set_sn_mask : Setter sn_mask := ltac:(mk_setter).
#[export] Instance set_txc_state : Setter txc_state := ltac:(mk_setter).
#[export] Instance set_tx : Setter tx := ltac:(mk_setter).
#[export] Instance set_msu_inhibited : Setter msu_inhibited := ltac:(mk_setter).
#[export] Instance set_lssu_available : Setter lssu_available := ltac:(mk_setter).
#[export] Instance set_rtb_full : Setter rtb_full := ltac:(mk_setter).
#[export] Instance set_clear_rtb : Setter clear_rtb := ltac:(mk_setter).
#[export] Instance set_sib_received : Setter sib_received := ltac:(mk_setter).
#[export] Instance set_retrans_cycle : Setter retrans_cycle := ltac:(mk_setter).
#[export] Instance set_forced_retransmission : Setter forced_retransmission := ltac:(mk_setter).
#[export] Instance set_Cm : Setter Cm := ltac:(mk_setter).
#[export] Instance set_Ct : Setter Ct := ltac:(mk_setter).
#[export] Instance set_cong_status : Setter cong_status := ltac:(mk_setter).
#[export] Instance set_disc_status : Setter disc_status := ltac:(mk_setter).
#[export] Instance set_Zsn : Setter Zsn := ltac:(mk_setter).
#[export] Instance set_z_ptr : Setter z_ptr := ltac:(mk_setter).
#[export] Instance set_rc_state : Setter rc_state := ltac:(mk_setter).
#[export] Instance set_rx : Setter rx := ltac:(mk_setter).
#[export] Instance set_rtr : Setter rtr := ltac:(mk_setter).
#[export] Instance set_unb : Setter unb := ltac:(mk_setter).
#[export] Instance set_unf : Setter unf := ltac:(mk_setter).
#[export] Instance set_msu_fisu_accepted : Setter msu_fisu_accepted := ltac:(mk_setter).
#[export] Instance set_abnormal_bsnr : Setter abnormal_bsnr := ltac:(mk_setter).
#[export] Instance set_abnormal_fibr : Setter abnormal_fibr := ltac:(mk_setter).
#[export] Instance set_congestion_discard : Setter congestion_discard := ltac:(mk_setter).
#[export] Instance set_congestion_accept : Setter congestion_accept := ltac:(mk_setter).
#[export] Instance set_l2_congestion_detect : Setter l2_congestion_detect := ltac:(mk_setter).
#[export] Instance set_l3_congestion_detect : Setter l3_congestion_detect := ltac:(mk_setter).
#[export] Instance set_Cr : Setter Cr := ltac:(mk_setter).
#[export] Instance set_cc_state : Setter cc_state := ltac:(mk_setter).
#[export] Instance set_poc_state : Setter poc_state := ltac:(mk_setter).

(** The statistics the link state machines update. *)
Record sl_stats := SlStats {
  sl_cong_onset_ind : list Z;
  sl_cong_discd_ind : list Z
}.
#[export] Instance eta_sl_stats : Eta sl_stats := fun r =>
  SlStats r.(sl_cong_onset_ind) r.(sl_cong_discd_ind).
#[export] Instance set_sl_cong_onset_ind : Setter sl_cong_onset_ind := ltac:(mk_setter).
#[export] Instance set_sl_cong_discd_ind : Setter sl_cong_discd_ind := ltac:(mk_setter).

Record sdt_config := SdtConfig {
  cf_t8 : Z;
  Tin : Z;
  Tie : Z;
  cf_T : Z;
  cf_D : Z;
  Te : Z;
  De : Z;
  Ue : Z;
  cf_N : Z;
  cf_m : Z;
  cf_b : Z;
  cf_f : Z
}.
#[export] Instance eta_sdt_config : Eta sdt_config := fun r =>
  SdtConfig r.(cf_t8) r.(Tin) r.(Tie) r.(cf_T) r.(cf_D) r.(Te) r.(De) r.(Ue) r.(cf_N)
    r.(cf_m) r.(cf_b) r.(cf_f).
#[export] Instance set_cf_t8 : Setter cf_t8 := ltac:(mk_setter).
#[export] Instance set_Tin : Setter Tin := ltac:(mk_setter).
#[export] Instance set_Tie : Setter Tie := ltac:(mk_setter).
#[export] Instance set_cf_T : Setter cf_T := ltac:(mk_setter).
#[export] Instance set_cf_D : Setter cf_D := ltac:(mk_setter).
#[export] Instance set_Te : Setter Te := ltac:(mk_setter).
#[export] Instance set_De : Setter De := ltac:(mk_setter).
#[export] Instance set_Ue : Setter Ue := ltac:(mk_setter).
#[export] Instance set_cf_N : Setter cf_N := ltac:(mk_setter).
#[export] Instance set_cf_m : Setter cf_m := ltac:(mk_setter).
#[export] Instance set_cf_b : Setter cf_b := ltac:(mk_setter).
#[export] Instance set_cf_f : Setter cf_f := ltac:(mk_setter).

Record sdt_statem_t := SdtStatem {
  aerm_state : run_st;
  aborted_proving : bool;
  Ca : Z;
  Ti : Z;
  suerm_state : run_st;
  Cs : Z;
  Ns : Z;
  eim_state : run_st;
  Ce : Z;
  su_received : bool;
  interval_error : bool;
  daedt_state : run_st;
  daedr_state : run_st;
  octet_counting_mode : bool
}.
#[export] Instance eta_sdt_statem_t : Eta sdt_statem_t := fun r =>
  SdtStatem r.(aerm_state) r.(aborted_proving) r.(Ca) r.(Ti) r.(suerm_state) r.(Cs) r.(Ns)
    r.(eim_state) r.(Ce) r.(su_received) r.(interval_error) r.(daedt_state) r.(daedr_state)
    r.(octet_counting_mode).
#[export] Instance set_aerm_state : Setter aerm_state := ltac:(mk_setter).
#[export] Instance set_aborted_proving : Setter aborted_proving := ltac:(mk_setter).
#[export] Instance set_Ca : Setter Ca := ltac:(mk_setter).
#[export] Instance set_Ti : Setter Ti := ltac:(mk_setter).
#[export] Instance set_suerm_state : Setter suerm_state := ltac:(mk_setter).
#[export] Instance set_Cs : Setter Cs := ltac:(mk_setter).
#[export] Instance set_Ns : Setter Ns := ltac:(mk_setter).
#[export] Instance set_eim_state : Setter eim_state := ltac:(mk_setter).
#[export] Instance set_Ce : Setter Ce := ltac:(mk_setter).
#[export] Instance set_su_received : Setter su_received := ltac:(mk_setter).
#[export] Instance set_interval_error : Setter interval_error := ltac:(mk_setter).
#[export] Instance set_daedt_state : Setter daedt_state := ltac:(mk_setter).
#[export] Instance set_daedr_state : Setter daedr_state := ltac:(mk_setter).
#[export] Instance set_octet_counting_mode : Setter octet_counting_mode := ltac:(mk_setter).

Record sdt_stats_t := SdtStats {
  tx_bytes : Z;
  tx_sus : Z;
  tx_sus_repeated : Z;
  tx_underruns : Z;
  tx_aborts : Z;
  tx_buffer_overflows : Z;
  tx_sus_in_error : Z;
  rx_bytes : Z;
  rx_sus : Z;
  rx_sus_compressed : Z;
  rx_overruns : Z;
  rx_aborts : Z;
  rx_buffer_overflows : Z;
  rx_sus_in_error : Z;
  rx_sync_transitions : Z;
  rx_bits_octet_counted : Z;
  rx_crc_errors : Z;
  rx_frame_errors : Z;
  rx_frame_overflows : Z;
  rx_frame_too_long : Z;
  rx_frame_too_short : Z;
  rx_residue_errors : Z;
  rx_length_error : Z
}.
#[export] Instance eta_sdt_stats_t : Eta sdt_stats_t := fun r =>
  SdtStats r.(tx_bytes) r.(tx_sus) r.(tx_sus_repeated) r.(tx_underruns) r.(tx_aborts)
    r.(tx_buffer_overflows) r.(tx_sus_in_error) r.(rx_bytes) r.(rx_sus)
    r.(rx_sus_compressed) r.(rx_overruns) r.(rx_aborts) r.(rx_buffer_overflows)
    r.(rx_sus_in_error) r.(rx_sync_transitions) r.(rx_bits_octet_counted) r.(rx_crc_errors)
    r.(rx_frame_errors) r.(rx_frame_overflows) r.(rx_frame_too_long) r.(rx_frame_too_short)
    r.(rx_residue_errors) r.(rx_length_error).
#[export] Instance set_tx_bytes : Setter tx_bytes := ltac:(mk_setter).
#[export] Instance set_tx_sus : Setter tx_sus := ltac:(mk_setter).
#[export] Instance set_tx_sus_repeated : Setter tx_sus_repeated := ltac:(mk_setter).
#[export] Instance set_tx_underruns : Setter tx_underruns := ltac:(mk_setter).
#[export] Instance set_tx_aborts : Setter tx_aborts := ltac:(mk_setter).
#[export] Instance set_tx_buffer_overflows : Setter tx_buffer_overflows := ltac:(mk_setter).
#[export] Instance set_tx_sus_in_error : Setter tx_sus_in_error := ltac:(mk_setter).
#[export] Instance set_rx_bytes : Setter rx_bytes := ltac:(mk_setter).
#[export] Instance set_rx_sus : Setter rx_sus := ltac:(mk_setter).
#[export] Instance set_rx_sus_compressed : Setter rx_sus_compressed := ltac:(mk_setter).
#[export] Instance set_rx_overruns : Setter rx_overruns := ltac:(mk_setter).
#[export] Instance set_rx_aborts : Setter rx_aborts := ltac:(mk_setter).
#[export] Instance set_rx_buffer_overflows : Setter rx_buffer_overflows := ltac:(mk_setter).
#[export] Instance set_rx_sus_in_error : Setter rx_sus_in_error := ltac:(mk_setter).
#[export] Instance set_rx_sync_transitions : Setter rx_sync_transitions := ltac:(mk_setter).
#[export] Instance set_rx_bits_octet_counted : Setter rx_bits_octet_counted := ltac:(mk_setter).
#[export] Instance set_rx_crc_errors : Setter rx_crc_errors := ltac:(mk_setter).
#[export] Instance set_rx_frame_errors : Setter rx_frame_errors := ltac:(mk_setter).
#[export] Instance set_rx_frame_overflows : Setter rx_frame_overflows := ltac:(mk_setter).
#[export] Instance set_rx_frame_too_long : Setter rx_frame_too_long := ltac:(mk_setter).
#[export] Instance set_rx_frame_too_short : Setter rx_frame_too_short := ltac:(mk_setter).
#[export] Instance set_rx_residue_errors : Setter rx_residue_errors := ltac:(mk_setter).
#[export] Instance set_rx_length_error : Setter rx_length_error := ltac:(mk_setter).

Record sdl_statem_t := SdlStatem {
  tx_state : run_st;
  rx_state : run_st
}.
#[export] Instance eta_sdl_statem_t : Eta sdl_statem_t := fun r =>
  SdlStatem r.(tx_state) r.(rx_state).
#[export] Instance set_tx_state : Setter tx_state := ltac:(mk_setter).
#[export] Instance set_rx_state : Setter rx_state := ltac:(mk_setter).

Record sdl_config := SdlConfig {
  ifflags : Z;
  iftype : Z;
  ifrate : Z;
  ifgtype : Z;
  ifgrate : Z;
  ifmode : Z;
  ifgmode : Z;
  ifgcrc : Z;
  ifclock : Z;
  ifcoding : Z;
  ifframing : Z;
  ifblksize : Z;
  ifleads : Z;
  ifbpv : Z;
  ifalarms : Z;
  ifrxlevel : Z;
  iftxlevel : Z;
  ifsync : Z
}.
#[export] Instance eta_sdl_config : Eta sdl_config := fun r =>
  SdlConfig r.(ifflags) r.(iftype) r.(ifrate) r.(ifgtype) r.(ifgrate) r.(ifmode) r.(ifgmode)
    r.(ifgcrc) r.(ifclock) r.(ifcoding) r.(ifframing) r.(ifblksize) r.(ifleads) r.(ifbpv)
    r.(ifalarms) r.(ifrxlevel) r.(iftxlevel) r.(ifsync).
#[export] Instance set_ifflags : Setter ifflags := ltac:(mk_setter).
#[export] Instance set_iftype : Setter iftype := ltac:(mk_setter).
#[export] Instance set_ifrate : Setter ifrate := ltac:(mk_setter).
#[export] Instance set_ifgtype : Setter ifgtype := ltac:(mk_setter).
#[export] Instance set_ifgrate : Setter ifgrate := ltac:(mk_setter).
#[export] Instance set_ifmode : Setter ifmode := ltac:(mk_setter).
#[export] Instance set_ifgmode : Setter ifgmode := ltac:(mk_setter).
#[export] Instance set_ifgcrc : Setter ifgcrc := ltac:(mk_setter).
#[export] Instance set_ifclock : Setter ifclock := ltac:(mk_setter).
#[export] Instance set_ifcoding : Setter ifcoding := ltac:(mk_setter).
#[export] Instance set_ifframing : Setter ifframing := ltac:(mk_setter).
#[export] Instance set_ifblksize : Setter ifblksize := ltac:(mk_setter).
#[export] Instance set_ifleads : Setter ifleads := ltac:(mk_setter).
#[export] Instance set_ifbpv : Setter ifbpv := ltac:(mk_setter).
#[export] Instance set_ifalarms : Setter ifalarms := ltac:(mk_setter).
#[export] Instance set_ifrxlevel : Setter ifrxlevel := ltac:(mk_setter).
#[export] Instance set_iftxlevel : Setter iftxlevel := ltac:(mk_setter).
#[export] Instance set_ifsync : Setter ifsync := ltac:(mk_setter).

Record sdl_stats_t := SdlStats {
  sdl_rx_octets : Z;
  sdl_tx_octets : Z;
  sdl_rx_overruns : Z;
  sdl_tx_underruns : Z;
  sdl_rx_buffer_overflows : Z;
  sdl_tx_buffer_overflows : Z;
  lead_cts_lost : Z;
  lead_dcd_lost : Z;
  carrier_lost : Z
}.
#[export] Instance eta_sdl_stats_t : Eta sdl_stats_t := fun r =>
  SdlStats r.(sdl_rx_octets) r.(sdl_tx_octets) r.(sdl_rx_overruns) r.(sdl_tx_underruns)
    r.(sdl_rx_buffer_overflows) r.(sdl_tx_buffer_overflows) r.(lead_cts_lost)
    r.(lead_dcd_lost) r.(carrier_lost).
#[export] Instance set_sdl_rx_octets : Setter sdl_rx_octets := ltac:(mk_setter).
#[export] Instance set_sdl_tx_octets : Setter sdl_tx_octets := ltac:(mk_setter).
#[export] Instance set_sdl_rx_overruns : Setter sdl_rx_overruns := ltac:(mk_setter).
#[export] Instance set_sdl_tx_underruns : Setter sdl_tx_underruns := ltac:(mk_setter).
#[export] Instance set_sdl_rx_buffer_overflows : Setter sdl_rx_buffer_overflows := ltac:(mk_setter).
#[export] Instance set_sdl_tx_buffer_overflows : Setter sdl_tx_buffer_overflows := ltac:(mk_setter).
#[export] Instance set_lead_cts_lost : Setter lead_cts_lost := ltac:(mk_setter).
#[export] Instance set_lead_dcd_lost : Setter lead_dcd_lost := ltac:(mk_setter).
#[export] Instance set_carrier_lost : Setter carrier_lost := ltac:(mk_setter).

(** ** Messages passed upstream, and the trace *)

(** The primitives built on the read side, with the fields the code fills in. *)
Inductive prim :=
  | M_ERROR (rerr werr : Z)
  | M_DATA (dp : mblk)
  | SL_PDU_IND (dp : mblk)
  | SL_LINK_CONGESTED_IND (cong disc : Z)
  | SL_LINK_CONGESTION_CEASED_IND (cong disc : Z)
  | SL_RETRIEVED_MESSAGE_IND (dp : mblk)
  | SL_RETRIEVAL_COMPLETE_IND
  | SL_RB_CLEARED_IND
  | SL_BSNT_IND (bsnt : Z)
  | SL_IN_SERVICE_IND
  | SL_OUT_OF_SERVICE_IND (reason : Z)
  | SL_REMOTE_PROCESSOR_OUTAGE_IND
  | SL_REMOTE_PROCESSOR_RECOVERED_IND
  | SL_RTB_CLEARED_IND
  | SL_RETRIEVAL_NOT_POSSIBLE_IND
  | SL_BSNT_NOT_RETRIEVABLE_IND (bsnt : Z)
  | SDT_RC_SIGNAL_UNIT_IND (count : Z) (dp : option mblk)
  | SDT_RC_CONGESTION_ACCEPT_IND
  | SDT_RC_CONGESTION_DISCARD_IND
  | SDT_RC_NO_CONGESTION_IND
  | SDT_IAC_CORRECT_SU_IND
  | SDT_IAC_ABORT_PROVING_IND
  | SDT_LSC_LINK_FAILURE_IND
  | SDT_TXC_TRANSMISSION_REQUEST_IND
  | SDL_RECEIVED_BITS (dp : list Z)
  | SDL_DISCONNECT_IND
  | LMI_INFO_ACK (state max_sdu min_sdu : Z) (ppa : list Z) (flags pstate : Z)
  | LMI_OK_ACK (correct_prim state : Z)
  | LMI_ERROR_ACK (err reason error_prim state : Z)
  | LMI_ENABLE_CON (state : Z)
  | LMI_DISABLE_CON (state : Z).

(** What the driver does to its surroundings, in order. *)
Inductive event :=
  | EvPut (p : prim)      (* ss7_oput(xp->oq, ...) *)
  | EvFlushIq             (* flushq(xp->iq, FLUSHDATA) *)
  | EvFlushOq             (* flushq(xp->oq, FLUSHDATA) *)
  | EvQenable.            (* qenable(xp->iq) *)

(** ** The channel *)

(** The transmit side of [xp_path_t]; [tx_nxt] is what is left, from [b_rptr] on, of the chain being
    sent. *)
Record tx_path := TxPath {
  tx_residue : Z;
  tx_rbits : Z;
  tx_bcc : Z;
  tx_st : Z;
  tx_mode : Z;
  tx_msg : option mblk;
  tx_nxt : option (list (list Z));
  tx_cmp : option mblk;
  tx_repeat : Z
}.
#[export] Instance eta_tx_path : Eta tx_path := fun r =>
  TxPath r.(tx_residue) r.(tx_rbits) r.(tx_bcc) r.(tx_st) r.(tx_mode) r.(tx_msg) r.(tx_nxt)
    r.(tx_cmp) r.(tx_repeat).
#[export] Instance set_tx_residue : Setter tx_residue := ltac:(mk_setter).
#[export] Instance set_tx_rbits : Setter tx_rbits := ltac:(mk_setter).
#[export] Instance set_tx_bcc : Setter tx_bcc := ltac:(mk_setter).
#[export] Instance set_tx_st : Setter tx_st := ltac:(mk_setter).
#[export] Instance set_tx_mode : Setter tx_mode := ltac:(mk_setter).
#[export] Instance set_tx_msg : Setter tx_msg := ltac:(mk_setter).
#[export] Instance set_tx_nxt : Setter tx_nxt := ltac:(mk_setter).
#[export] Instance set_tx_cmp : Setter tx_cmp := ltac:(mk_setter).
#[export] Instance set_tx_repeat : Setter tx_repeat := ltac:(mk_setter).

(** The receive side of [xp_path_t]: the blocks of the frame so far and the block being filled. *)
Record rx_path := RxPath {
  rx_residue : Z;
  rx_rbits : Z;
  rx_bcc : Z;
  rx_st : Z;
  rx_mode : Z;
  rx_nbytes : Z;
  rx_msg : option (list (list Z));
  rx_nxt : option (list Z);
  rx_cmp : option mblk;
  rx_repeat : Z;
  rx_octets : Z
}.
#[export] Instance eta_rx_path : Eta rx_path := fun r =>
  RxPath r.(rx_residue) r.(rx_rbits) r.(rx_bcc) r.(rx_st) r.(rx_mode) r.(rx_nbytes)
    r.(rx_msg) r.(rx_nxt) r.(rx_cmp) r.(rx_repeat) r.(rx_octets).
#[export] Instance set_rx_residue : Setter rx_residue := ltac:(mk_setter).
#[export] Instance set_rx_rbits : Setter rx_rbits := ltac:(mk_setter).
#[export] Instance set_rx_bcc : Setter rx_bcc := ltac:(mk_setter).
#[export] Instance set_rx_st : Setter rx_st := ltac:(mk_setter).
#[export] Instance set_rx_mode : Setter rx_mode := ltac:(mk_setter).
#[export] Instance set_rx_nbytes : Setter rx_nbytes := ltac:(mk_setter).
#[export] Instance set_rx_msg : Setter rx_msg := ltac:(mk_setter).
#[export] Instance set_rx_nxt : Setter rx_nxt := ltac:(mk_setter).
#[export] Instance set_rx_cmp : Setter rx_cmp := ltac:(mk_setter).
#[export] Instance set_rx_repeat : Setter rx_repeat := ltac:(mk_setter).
#[export] Instance set_rx_octets : Setter rx_octets := ltac:(mk_setter).

(** What surrounds the channel.  [e_alloc] and [e_canput] are the outcomes of
    the next allocations and flow control tests (all succeed once the list is
    used up), [e_next] a supply of addresses for new messages, [e_iq] the
    messages on the write queue (whether [flushq] takes it, its size), [e_oq]
    the received messages on the read queue,
    [e_out] the trace.  [e_fault] records undefined behaviour of the C code: a
    dangling [z_ptr] or an access beyond a message; [e_fail] that an
    allocation has failed. *)
Record env := Env {
  e_alloc : list bool;
  e_canput : list bool;
  e_next : Z;
  e_iq : list (bool * Z);
  e_oq : list mblk;
  e_out : list event;
  e_fault : bool;
  e_fail : bool
}.
#[export] Instance eta_env : Eta env := fun r =>
  Env r.(e_alloc) r.(e_canput) r.(e_next) r.(e_iq) r.(e_oq) r.(e_out) r.(e_fault) r.(e_fail).
#[export] Instance set_e_alloc : Setter e_alloc := ltac:(mk_setter).
#[export] Instance set_e_canput : Setter e_canput := ltac:(mk_setter).
#[export] Instance set_e_next : Setter e_next := ltac:(mk_setter).
#[export] Instance set_e_iq : Setter e_iq := ltac:(mk_setter).
#[export] Instance set_e_oq : Setter e_oq := ltac:(mk_setter).
#[export] Instance set_e_out : Setter e_out := ltac:(mk_setter).
#[export] Instance set_e_fault : Setter e_fault := ltac:(mk_setter).
#[export] Instance set_e_fail : Setter e_fail := ltac:(mk_setter).

(** [struct xp], with its surroundings. *)
Record xp := Xp {
  i_state : lmi_st;
  chan : Z;
  slot : Z;
  xp_sp : option Z;  (* the card whose span it is on; xp->sp *)
  xp_tx : tx_path;
  xp_rx : rx_path;
  xoption : lmi_option;
  sl_flags : Z;
  sl_state : Z;
  sl_rb : bufq;
  sl_tb : bufq;
  sl_rtb : bufq;
  timers : sl_timers;
  sl_conf : sl_config;
  sl_statem : sl_statem_t;
  sl_notify : Z;
  sl_stat : sl_stats;
  sdt_tb : bufq;
  timer_t8 : option Z;
  sdt_conf : sdt_config;
  sdt_statem : sdt_statem_t;
  sdt_stats : sdt_stats_t;
  sdl_tb : bufq;
  sdl_conf : sdl_config;
  sdl_statem : sdl_statem_t;
  sdl_stats : sdl_stats_t;
  xenv : env
}.
#[export] Instance eta_xp : Eta xp := fun r =>
  Xp r.(i_state) r.(chan) r.(slot) r.(xp_sp) r.(xp_tx) r.(xp_rx) r.(xoption) r.(sl_flags)
    r.(sl_state) r.(sl_rb) r.(sl_tb) r.(sl_rtb) r.(timers) r.(sl_conf) r.(sl_statem)
    r.(sl_notify) r.(sl_stat) r.(sdt_tb) r.(timer_t8) r.(sdt_conf) r.(sdt_statem)
    r.(sdt_stats) r.(sdl_tb) r.(sdl_conf) r.(sdl_statem) r.(sdl_stats) r.(xenv).
#[export] Instance set_i_state : Setter i_state := ltac:(mk_setter).
#[export] Instance set_chan : Setter chan := ltac:(mk_setter).
#[export] Instance set_slot : Setter slot := ltac:(mk_setter).
#[export] Instance set_xp_sp : Setter xp_sp := ltac:(mk_setter).
#[export] Instance set_xp_tx : Setter xp_tx := ltac:(mk_setter).
#[export] Instance set_xp_rx : Setter xp_rx := ltac:(mk_setter).
#[export] Instance set_xoption : Setter xoption := ltac:(mk_setter).
#[export] Instance set_sl_flags : Setter sl_flags := ltac:(mk_setter).
#[export] Instance set_sl_state : Setter sl_state := ltac:(mk_setter).
#[export] Instance set_sl_rb : Setter sl_rb := ltac:(mk_setter).
#[export] Instance set_sl_tb : Setter sl_tb := ltac:(mk_setter).
#[export] Instance set_sl_rtb : Setter sl_rtb := ltac:(mk_setter).
#[export] Instance set_timers : Setter timers := ltac:(mk_setter).
#[export] Instance set_sl_conf : Setter sl_conf := ltac:(mk_setter).
#[export] Instance set_sl_statem : Setter sl_statem := ltac:(mk_setter).
#[export] Instance set_sl_notify : Setter sl_notify := ltac:(mk_setter).
#[export] Instance set_sl_stat : Setter sl_stat := ltac:(mk_setter).
#[export] Instance set_sdt_tb : Setter sdt_tb := ltac:(mk_setter).
#[export] Instance set_timer_t8 : Setter timer_t8 := ltac:(mk_setter).
#[export] Instance set_sdt_conf : Setter sdt_conf := ltac:(mk_setter).
#[export] Instance set_sdt_statem : Setter sdt_statem := ltac:(mk_setter).
#[export] Instance set_sdt_stats : Setter sdt_stats := ltac:(mk_setter).
#[export] Instance set_sdl_tb : Setter sdl_tb := ltac:(mk_setter).
#[export] Instance set_sdl_conf : Setter sdl_conf := ltac:(mk_setter).
#[export] Instance set_sdl_statem : Setter sdl_statem := ltac:(mk_setter).
#[export] Instance set_sdl_stats : Setter sdl_stats := ltac:(mk_setter).
#[export] Instance set_xenv : Setter xenv := ltac:(mk_setter).


(** ** Effects *)

Definition emit (e : event) (s : xp) : xp := s <| xenv; e_out := s.(xenv).(e_out) ++ [e] |>.

(** An allocation ([ss7_allocb], [allocb], [ss7_fast_allocb], [dupmsg]). *)
Definition xalloc (s : xp) : bool * xp :=
  match s.(xenv).(e_alloc) with
  | [] => (true, s)
  | true :: l => (true, s <| xenv; e_alloc := l |>)
  | false :: l => (false, s <| xenv; e_alloc := l |> <| xenv; e_fail := true |>)
  end.
(** The address of a newly allocated message. *)
Definition newid (s : xp) : Z * xp :=
  (s.(xenv).(e_next), s <| xenv; e_next := s.(xenv).(e_next) + 1 |>).
Definition xcanput (s : xp) : bool * xp :=
  match s.(xenv).(e_canput) with
  | [] => (true, s)
  | b :: l => (b, s <| xenv; e_canput := l |>)
  end.

(** [xp->iq->q_count]. *)
Fixpoint iq_count (l : list (bool * Z)) : Z :=
  match l with [] => 0 | (_, n) :: l => n + iq_count l end.
Definition iq_q_count (s : xp) : Z := iq_count s.(xenv).(e_iq).
Definition flushq_iq (s : xp) : xp :=
  emit EvFlushIq (s <| xenv; e_iq := List.filter (fun m => negb (fst m)) s.(xenv).(e_iq) |>).
Definition flushq_oq (s : xp) : xp := emit EvFlushOq (s <| xenv; e_oq := [] |>).
(** [putq(xp->oq, mp)]. *)
Definition putq_oq (mp : mblk) (s : xp) : xp := s <| xenv; e_oq := s.(xenv).(e_oq) ++ [mp] |>.
Definition qenable_iq (s : xp) : xp := emit EvQenable s.
Definition fault (s : xp) : xp := s <| xenv; e_fault := true |>.

(** [popt & flag] as a condition, and the comparisons of [pvar]. *)
Definition popt_has (f : Z) (s : xp) : bool := negb (Z.land s.(xoption).(popt) f =? 0).
Definition is_pcr (s : xp) : bool := popt_has SS7_POPT_PCR s.
Definition is_xsn (s : xp) : bool := popt_has SS7_POPT_XSN s.
Definition pvar_is (v : Z) (s : xp) : bool := s.(xoption).(pvar) =? v.
(** The three-way [switch (xp->option.pvar)] of the link state control. *)
Inductive pvar_case := PV_ITU | PV_ANSI | PV_OTHER.
Definition pvar_switch (s : xp) : pvar_case :=
  if pvar_is SS7_PVAR_ITUT_93 s || pvar_is SS7_PVAR_ITUT_96 s then PV_ITU
  else if pvar_is SS7_PVAR_ANSI_92 s then PV_ANSI else PV_OTHER.

(** [if ((err = e)) return (err); k]. *)
Notation "'let?' s := e 'in' k" :=
  (let '(err, s) := e in if err =? 0 then k else (err, s))
  (at level 10, s name, e at level 200, k at level 200) : os7_scope.
(** A call whose result is ignored. *)
Notation "'let!' s := e 'in' k" := (let s := snd e in k)
  (at level 10, s name, e at level 200, k at level 200) : os7_scope.
