(* ===== verification/Prims.v ===== *)
(** * Primitives sent upstream

    The functions of [drivers/sl_x100p.c] that build a message and put it on the
    read queue.  Every one allocates the message first: when the allocation
    fails it returns [-ENOBUFS] and changes nothing else. *)
From S2P Require Import Prelude Bufq Xp.

(** The body they share: allocate, fill in, [ss7_oput]. *)
Definition put_ind (p : prim) (s : xp) : Z * xp :=
  let '(ok, s) := xalloc s in
  if ok then (QR_DONE, emit (EvPut p) s) else (- ENOBUFS, s).

Definition m_error (err : Z) (s : xp) : Z * xp :=
  put_ind (M_ERROR (u8 (if err <? 0 then - err else err)) (u8 (if err <? 0 then - err else err))) s.
Definition sl_pdu_ind (dp : mblk) (s : xp) : Z * xp :=
  let '(ok, s) := xalloc s in
  if ok then (QR_ABSORBED, emit (EvPut (SL_PDU_IND dp)) s) else (- ENOBUFS, s).
Definition sl_link_congested_ind (cong disc : Z) (s : xp) : Z * xp :=
  put_ind (SL_LINK_CONGESTED_IND cong disc) s.
Definition sl_link_congestion_ceased_ind (cong disc : Z) (s : xp) : Z * xp :=
  put_ind (SL_LINK_CONGESTION_CEASED_IND cong disc) s.
Definition sl_retrieved_message_ind (dp : mblk) (s : xp) : Z * xp :=
  put_ind (SL_RETRIEVED_MESSAGE_IND dp) s.
Definition sl_retrieval_complete_ind (s : xp) : Z * xp := put_ind SL_RETRIEVAL_COMPLETE_IND s.
Definition sl_rb_cleared_ind (s : xp) : Z * xp := put_ind SL_RB_CLEARED_IND s.
Definition sl_bsnt_ind (bsnt : Z) (s : xp) : Z * xp := put_ind (SL_BSNT_IND bsnt) s.
Definition sl_in_service_ind (s : xp) : Z * xp := put_ind SL_IN_SERVICE_IND s.
Definition sl_out_of_service_ind (reason : Z) (s : xp) : Z * xp :=
  put_ind (SL_OUT_OF_SERVICE_IND reason) s.
Definition sl_remote_processor_outage_ind (s : xp) : Z * xp :=
  put_ind SL_REMOTE_PROCESSOR_OUTAGE_IND s.
Definition sl_remote_processor_recovered_ind (s : xp) : Z * xp :=
  put_ind SL_REMOTE_PROCESSOR_RECOVERED_IND s.
Definition sl_rtb_cleared_ind (s : xp) : Z * xp := put_ind SL_RTB_CLEARED_IND s.
Definition sl_retrieval_not_possible_ind (s : xp) : Z * xp := put_ind SL_RETRIEVAL_NOT_POSSIBLE_IND s.
Definition sl_bsnt_not_retrievable_ind (bsnt : Z) (s : xp) : Z * xp :=
  put_ind (SL_BSNT_NOT_RETRIEVABLE_IND bsnt) s.
Definition sdt_rc_congestion_accept_ind (s : xp) : Z * xp := put_ind SDT_RC_CONGESTION_ACCEPT_IND s.
Definition sdt_rc_congestion_discard_ind (s : xp) : Z * xp := put_ind SDT_RC_CONGESTION_DISCARD_IND s.
Definition sdt_rc_no_congestion_ind (s : xp) : Z * xp := put_ind SDT_RC_NO_CONGESTION_IND s.
Definition sdt_iac_abort_proving_ind (s : xp) : Z * xp := put_ind SDT_IAC_ABORT_PROVING_IND s.
Definition sdt_lsc_link_failure_ind (s : xp) : Z * xp := put_ind SDT_LSC_LINK_FAILURE_IND s.
Definition sdt_txc_transmission_request_ind (s : xp) : Z * xp :=
  put_ind SDT_TXC_TRANSMISSION_REQUEST_IND s.
Definition sdl_disconnect_ind (s : xp) : Z * xp := put_ind SDL_DISCONNECT_IND s.

(** The two that test the flow control of the read queue first. *)
Definition sdt_rc_signal_unit_ind (dp : option mblk) (count : Z) (s : xp) : Z * xp :=
  if negb (count =? 0) then
    let '(can, s) := xcanput s in
    if can then
      let '(ok, s) := xalloc s in
      if ok then (QR_ABSORBED, emit (EvPut (SDT_RC_SIGNAL_UNIT_IND count dp)) s)
      else (- ENOBUFS, s)
    else (- EBUSY, s)
  else (- EFAULT, s).
Definition sdt_iac_correct_su_ind (s : xp) : Z * xp :=
  let '(can, s) := xcanput s in
  if can then put_ind SDT_IAC_CORRECT_SU_IND s else (- EBUSY, s).
(** The block is passed up, or emptied for the caller to fill again; the second
    component is what it then holds. *)
Definition sdl_received_bits_ind (dp : list Z) (s : xp) : Z * list Z * xp :=
  let '(can, s) := xcanput s in
  if can then (QR_ABSORBED, dp, emit (EvPut (SDL_RECEIVED_BITS dp)) s)
  else (- EBUSY, [], s).

(** ** Local management *)

(** Primitive numbers of [lmi.h] quoted in acknowledgements. *)
Definition LMI_ATTACH_REQ : Z := 18.
Definition LMI_DETACH_REQ : Z := 19.
Definition LMI_ENABLE_REQ : Z := 20.
Definition LMI_DISABLE_REQ : Z := 21.
(** Reasons of [LMI_ERROR_ACK]. *)
Definition LMI_BADPPA : Z := 458752.
Definition LMI_BADPRIM : Z := 524288.
Definition LMI_OUTSTATE : Z := 917504.
Definition LMI_SYSERR : Z := 1048576.

Definition lmi_info_ack (ppa : list Z) (s : xp) : Z * xp :=
  let hdr := if is_xsn s then 6 else 3 in
  put_ind (LMI_INFO_ACK (lmi_code s.(i_state)) (u32 (s.(sdt_conf).(cf_m) + 1 + hdr)) hdr
             ppa s.(sl_flags) s.(sl_state)) s.
Definition lmi_ok_ack (state : lmi_st) (prim : Z) (s : xp) : Z * xp :=
  let '(ok, s) := xalloc s in
  if ok then
    let s := s <| i_state := state |> in
    (QR_DONE, emit (EvPut (LMI_OK_ACK prim (lmi_code state))) s)
  else (- ENOBUFS, s).
Definition lmi_error_ack (state : lmi_st) (prim errno reason : Z) (s : xp) : Z * xp :=
  let '(ok, s) := xalloc s in
  if ok then
    let s := s <| i_state := state |> in
    (QR_DONE, emit (EvPut (LMI_ERROR_ACK errno reason prim (lmi_code state))) s)
  else (- ENOBUFS, s).
Definition lmi_enable_con (s : xp) : Z * xp :=
  let '(ok, s) := xalloc s in
  if ok then
    let s := s <| i_state := LMI_ENABLED |> in
    (QR_DONE, emit (EvPut (LMI_ENABLE_CON (lmi_code LMI_ENABLED))) s)
  else (- ENOBUFS, s).
Definition lmi_disable_con (s : xp) : Z * xp :=
  let '(ok, s) := xalloc s in
  if ok then
    let s := s <| i_state := LMI_DISABLED |> in
    (QR_DONE, emit (EvPut (LMI_DISABLE_CON (lmi_code LMI_DISABLED))) s)
  else (- ENOBUFS, s).
