(* ===== verification/Timers.v ===== *)
(** * Timers

    The timers of [drivers/sl_x100p.c] and the expiry, stop and start functions
    of [include/sys/os7/timer.h].  A timer is [Some d] while it runs.  The
    reference counts the functions keep on the channel are not modelled. *)
From S2P Require Import Prelude Bufq Xp.

(** [enum { tall, t1, ... t9 }]. *)
Inductive timer := tall | T1 | T2 | T3 | T4 | T5 | T6 | T7 | T8 | T9.
#[export] Instance timer_eq_dec : EqDecision timer.
Proof. solve_decision. Defined.

(** The [toid_t] of a timer; [tall] and the unused T9 have none. *)
Definition toid (t : timer) (s : xp) : option Z :=
  match t with
  | T1 => s.(timers).(t1) | T2 => s.(timers).(t2) | T3 => s.(timers).(t3)
  | T4 => s.(timers).(t4) | T5 => s.(timers).(t5) | T6 => s.(timers).(t6)
  | T7 => s.(timers).(t7) | T8 => s.(timer_t8) | tall | T9 => None
  end.
Definition set_toid (t : timer) (v : option Z) (s : xp) : xp :=
  match t with
  | T1 => s <| timers; t1 := v |> | T2 => s <| timers; t2 := v |>
  | T3 => s <| timers; t3 := v |> | T4 => s <| timers; t4 := v |>
  | T5 => s <| timers; t5 := v |> | T6 => s <| timers; t6 := v |>
  | T7 => s <| timers; t7 := v |> | T8 => s <| timer_t8 := v |>
  | tall | T9 => s
  end.

Definition ss7_stop_timer (t : timer) (s : xp) : xp := set_toid t None s.
Definition ss7_start_timer (t : timer) (val : Z) (s : xp) : xp := set_toid t (Some val) s.

(** [ss7_do_timeout]: [free] is the outcome of the test that the channel is not
    locked and has no users.  An expiry that cannot be handled now, and one
    whose handler ran out of memory, is retried two ticks later. *)
Definition ss7_retry (err : Z) : bool :=
  (err =? - ENOMEM) || (err =? - ENOBUFS) || (err =? - EBUSY) || (err =? - EAGAIN).
Definition ss7_do_timeout (t : timer) (to_fnc : xp → Z * xp) (free : bool) (s : xp) : xp :=
  match toid t s with
  | None => s
  | Some _ =>
      let s := set_toid t None s in
      if free then
        let '(err, s) := to_fnc s in
        if ss7_retry err then set_toid t (Some 2) s else s
      else set_toid t (Some 2) s
  end.

Definition xp_stop_timer_t1 (s : xp) : xp := ss7_stop_timer T1 s.
Definition xp_stop_timer_t2 (s : xp) : xp := ss7_stop_timer T2 s.
Definition xp_stop_timer_t3 (s : xp) : xp := ss7_stop_timer T3 s.
Definition xp_stop_timer_t4 (s : xp) : xp := ss7_stop_timer T4 s.
Definition xp_stop_timer_t5 (s : xp) : xp := ss7_stop_timer T5 s.
Definition xp_stop_timer_t6 (s : xp) : xp := ss7_stop_timer T6 s.
Definition xp_stop_timer_t7 (s : xp) : xp := ss7_stop_timer T7 s.
Definition xp_stop_timer_t8 (s : xp) : xp := ss7_stop_timer T8 s.

(** T4 is armed with the proving period the state machine chose, the others
    with their configured duration. *)
Definition xp_start_timer_t1 (s : xp) : xp := ss7_start_timer T1 s.(sl_conf).(cf_t1) s.
Definition xp_start_timer_t2 (s : xp) : xp := ss7_start_timer T2 s.(sl_conf).(cf_t2) s.
Definition xp_start_timer_t3 (s : xp) : xp := ss7_start_timer T3 s.(sl_conf).(cf_t3) s.
Definition xp_start_timer_t4 (s : xp) : xp := ss7_start_timer T4 s.(sl_statem).(t4v) s.
Definition xp_start_timer_t5 (s : xp) : xp := ss7_start_timer T5 s.(sl_conf).(cf_t5) s.
Definition xp_start_timer_t6 (s : xp) : xp := ss7_start_timer T6 s.(sl_conf).(cf_t6) s.
Definition xp_start_timer_t7 (s : xp) : xp := ss7_start_timer T7 s.(sl_conf).(cf_t7) s.
Definition xp_start_timer_t8 (s : xp) : xp := ss7_start_timer T8 s.(sdt_conf).(cf_t8) s.

Definition __xp_timer_stop (t : timer) (s : xp) : xp :=
  match t with
  | tall =>
      let s := xp_stop_timer_t1 s in
      let s := xp_stop_timer_t2 s in
      let s := xp_stop_timer_t3 s in
      let s := xp_stop_timer_t4 s in
      let s := xp_stop_timer_t5 s in
      let s := xp_stop_timer_t6 s in
      let s := xp_stop_timer_t7 s in
      xp_stop_timer_t8 s
  | T1 => xp_stop_timer_t1 s
  | T2 => xp_stop_timer_t2 s
  | T3 => xp_stop_timer_t3 s
  | T4 => xp_stop_timer_t4 s
  | T5 => xp_stop_timer_t5 s
  | T6 => xp_stop_timer_t6 s
  | T7 => xp_stop_timer_t7 s
  | T8 => xp_stop_timer_t8 s
  | T9 => s (* swerr *)
  end.
Definition xp_timer_stop (t : timer) (s : xp) : xp := __xp_timer_stop t s.
Definition xp_timer_start (t : timer) (s : xp) : xp :=
  let s := __xp_timer_stop t s in
  match t with
  | T1 => xp_start_timer_t1 s
  | T2 => xp_start_timer_t2 s
  | T3 => xp_start_timer_t3 s
  | T4 => xp_start_timer_t4 s
  | T5 => xp_start_timer_t5 s
  | T6 => xp_start_timer_t6 s
  | T7 => xp_start_timer_t7 s
  | T8 => xp_start_timer_t8 s
  | tall | T9 => s (* swerr *)
  end.
