(* ===== verification/Txc.v ===== *)
(** * Transmission control

    Congestion control, transmission control (TXC) and the parts of the
    machines it calls, of [drivers/sl_x100p.c]: what is sent next, the header
    of each signal unit, acknowledgement and retransmission. *)
From S2P Require Import Prelude Bufq Xp Prims Timers.

(** The macro [SN_OUTSIDE]. *)
Definition SN_OUTSIDE (lower middle upper : Z) : bool :=
  if lower <=? upper then (middle <? lower) || (upper <? middle)
  else (middle <? lower) && (upper <? middle).

(** ** Stopping the machines *)

Definition sl_cc_normal (s : xp) : xp :=
  let s := xp_timer_stop T5 s in
  s <| sl_statem; cc_state := CC_NORMAL |>.
Definition sl_cc_stop (s : xp) : xp := sl_cc_normal s.
Definition sl_rc_stop (s : xp) : xp :=
  let s := sl_cc_normal s in
  s <| sl_statem; rc_state := IDLE |>.
Definition sl_aerm_stop (s : xp) : xp :=
  let s := s <| sdt_statem; aerm_state := IDLE |> in
  s <| sdt_statem; Ti := s.(sdt_conf).(Tin) |>.
Definition sl_iac_stop (s : xp) : xp :=
  if negb (s.(sl_statem).(iac_state) =s IAC_IDLE) then
    let s := xp_timer_stop T3 s in
    let s := xp_timer_stop T2 s in
    let s := xp_timer_stop T4 s in
    let s := sl_aerm_stop s in
    let s := s <| sl_statem; emergency := false |> in
    s <| sl_statem; iac_state := IAC_IDLE |>
  else s.
Definition sl_txc_send_sios (s : xp) : xp :=
  let s := xp_timer_stop T7 s in
  let s := if pvar_is SS7_PVAR_ANSI_92 s then xp_timer_stop T6 s else s in
  let s := s <| sl_statem; lssu_available := true |> in
  s <| sl_statem; tx; t_sio := LSSU_SIOS |>.
Definition sl_poc_stop (s : xp) : xp := s <| sl_statem; poc_state := POC_IDLE |>.
Definition sl_eim_stop (s : xp) : xp :=
  let s := s <| sdt_statem; eim_state := IDLE |> in
  xp_timer_stop T8 s.
Definition sl_suerm_stop (s : xp) : xp :=
  let s := sl_eim_stop s in
  s <| sdt_statem; suerm_state := IDLE |>.

Definition sl_lsc_link_failure (reason : Z) (s : xp) : Z * xp :=
  if negb (s.(sl_statem).(lsc_state) =s LSC_OUT_OF_SERVICE) then
    let? s := sl_out_of_service_ind reason s in
    let s := s <| sl_statem; failure_reason := u32 reason |> in
    let s := sl_iac_stop s in
    let s := xp_timer_stop T1 s in
    let s := sl_suerm_stop s in
    let s := sl_rc_stop s in
    let s := sl_txc_send_sios s in
    let s := sl_poc_stop s in
    let s := s <| sl_statem; emergency := false |> in
    let s := s <| sl_statem; local_processor_outage := false |> in
    let s := s <| sl_statem; remote_processor_outage := false |> in
    let s := s <| sl_statem; lsc_state := LSC_OUT_OF_SERVICE |> in
    (QR_DONE, s)
  else (QR_DONE, s).

(** ** What to send *)

Definition sl_txc_send_sib (s : xp) : xp :=
  let s := s <| sl_statem; tx; t_sio := LSSU_SIB |> in
  s <| sl_statem; lssu_available := true |>.
Definition sl_txc_send_sipo (s : xp) : xp :=
  let s := xp_timer_stop T7 s in
  let s := if pvar_is SS7_PVAR_ANSI_92 s then xp_timer_stop T6 s else s in
  let s := s <| sl_statem; tx; t_sio := LSSU_SIPO |> in
  s <| sl_statem; lssu_available := true |>.
Definition sl_txc_send_sio (s : xp) : xp :=
  let s := s <| sl_statem; tx; t_sio := LSSU_SIO |> in
  s <| sl_statem; lssu_available := true |>.
Definition sl_txc_send_sin (s : xp) : xp :=
  let s := s <| sl_statem; tx; t_sio := LSSU_SIN |> in
  s <| sl_statem; lssu_available := true |>.
Definition sl_txc_send_sie (s : xp) : xp :=
  let s := s <| sl_statem; tx; t_sio := LSSU_SIE |> in
  s <| sl_statem; lssu_available := true |>.
Definition sl_txc_send_msu (s : xp) : xp :=
  let s := if negb (s.(sl_rtb).(q_count) =? 0) then xp_timer_start T7 s else s in
  let s := s <| sl_statem; msu_inhibited := false |> in
  s <| sl_statem; lssu_available := false |>.
Definition sl_txc_send_fisu (s : xp) : xp :=
  let s := xp_timer_stop T7 s in
  let s := if pvar_is SS7_PVAR_ANSI_92 s && negb (is_pcr s) then xp_timer_stop T6 s else s in
  let s := s <| sl_statem; msu_inhibited := true |> in
  s <| sl_statem; lssu_available := false |>.
Definition sl_txc_fsnx_value (s : xp) : xp :=
  if negb (s.(sl_statem).(tx).(tX).(fsn) =? s.(sl_statem).(rx).(rX).(fsn)) then
    s <| sl_statem; tx; tX; fsn := s.(sl_statem).(rx).(rX).(fsn) |>
  else s.
Definition sl_txc_nack_to_be_sent (s : xp) : xp :=
  s <| sl_statem; tx; tN; bib :=
         if negb (s.(sl_statem).(tx).(tN).(bib) =? 0) then 0 else s.(sl_statem).(ib_mask) |>.

Definition sl_lsc_rtb_cleared (s : xp) : Z * xp :=
  if s.(sl_statem).(lsc_state) =s LSC_PROCESSOR_OUTAGE then
    let s := s <| sl_statem; remote_processor_outage := false |> in
    if s.(sl_statem).(local_processor_outage) then (QR_DONE, s)
    else
      let? s := sl_remote_processor_recovered_ind s in
      let? s := sl_rtb_cleared_ind s in
      let s := sl_txc_send_msu s in
      let s := s <| sl_statem; lsc_state := LSC_IN_SERVICE |> in
      (QR_DONE, s)
  else (QR_DONE, s).

(** ** Congestion *)

(** The occupancy is an [unsigned int]. *)
Definition occupancy (s : xp) : Z :=
  u32 (iq_q_count s + s.(sl_tb).(q_count) + s.(sl_rtb).(q_count)).

Definition set_cong (c : Z) (s : xp) : xp := s <| sl_statem; cong_status := c |>.
Definition set_disc (d : Z) (s : xp) : xp := s <| sl_statem; disc_status := d |>.

(** The [switch] on the congestion status. *)
Definition congestion_switch (occ : Z) (multi : bool) (s : xp) : xp :=
  let c := s.(sl_conf) in
  match s.(sl_statem).(cong_status) with
  | 0 =>
      if c.(tb_onset_1) <=? occ then
        let s := set_cong 1 s in
        if c.(tb_discd_1) <=? occ then
          let s := set_disc 1 s in
          if negb multi then s
          else if c.(tb_onset_2) <=? occ then
            let s := set_cong 2 s in
            if c.(tb_discd_2) <=? occ then
              let s := set_disc 2 s in
              if c.(tb_onset_3) <=? occ then
                let s := set_cong 3 s in
                if c.(tb_discd_3) <=? occ then set_disc 3 s else s
              else s
            else s
          else s
        else s
      else s
  | 1 =>
      if occ <? c.(tb_abate_1) then set_disc 0 (set_cong 0 s)
      else if negb multi then s
      else if c.(tb_onset_2) <=? occ then
        let s := set_cong 2 s in
        if c.(tb_discd_2) <=? occ then
          let s := set_disc 2 s in
          if c.(tb_onset_3) <=? occ then
            let s := set_cong 3 s in
            if c.(tb_discd_3) <=? occ then set_disc 3 s else s
          else s
        else s
      else s
  | 2 =>
      if negb multi then set_disc 1 (set_cong 1 s)
      else if occ <? c.(tb_abate_2) then
        let s := set_disc 1 (set_cong 1 s) in
        if occ <? c.(tb_abate_1) then set_disc 0 (set_cong 0 s) else s
      else if c.(tb_onset_3) <=? occ then
        let s := set_cong 3 s in
        if c.(tb_discd_3) <=? occ then set_disc 3 s else s
      else s
  | 3 =>
      if negb multi then set_disc 1 (set_cong 1 s)
      else if occ <? c.(tb_abate_3) then
        let s := set_disc 2 (set_cong 2 s) in
        if occ <? c.(tb_abate_2) then
          let s := set_disc 1 (set_cong 1 s) in
          if occ <? c.(tb_abate_1) then set_disc 0 (set_cong 0 s) else s
        else s
      else s
  | _ => s
  end.

(** [stats\[i\]++]. *)
Definition incr_stat (i : Z) (l : list Z) : list Z := alter (fun n => u32 (n + 1)) (Z.to_nat i) l.
Definition notify_has (ev : Z) (s : xp) : bool := negb (Z.land s.(sl_notify) ev =? 0).

(** The results of the indications are ignored. *)
Definition sl_check_congestion (s : xp) : xp :=
  let occ := occupancy s in
  let old_cong_status := s.(sl_statem).(cong_status) in
  let old_disc_status := s.(sl_statem).(disc_status) in
  let multi := popt_has SS7_POPT_MPLEV s in
  let s := congestion_switch occ multi s in
  let cong := s.(sl_statem).(cong_status) in
  let disc := s.(sl_statem).(disc_status) in
  if negb (cong =? old_cong_status) || negb (disc =? old_disc_status) then
    if cong <? old_cong_status then (sl_link_congestion_ceased_ind cong disc s).2
    else
      let s :=
        if old_cong_status <? cong then
          if notify_has SL_EVT_CONGEST_ONSET_IND s then
            s <| sl_stat; sl_cong_onset_ind := incr_stat cong s.(sl_stat).(sl_cong_onset_ind) |>
          else s
        else
          if notify_has SL_EVT_CONGEST_DISCD_IND s then
            s <| sl_stat; sl_cong_discd_ind := incr_stat disc s.(sl_stat).(sl_cong_discd_ind) |>
          else s in
      (sl_link_congested_ind cong disc s).2
  else s.

(** ** Acknowledgement *)

Definition FSN_add (s : xp) (x d : Z) : Z := Z.land (x + d) s.(sl_statem).(sn_mask).

(** The body of the loop that frees acknowledged messages, and the loop: it ends
    when the first FSN of the retransmission buffer is [target], at most
    [sn_mask + 1] turns later. *)
Definition ack_body (s : xp) : xp :=
  let s := s <| sl_rtb := (bufq_dequeue s.(sl_rtb)).2 |> in
  let s := s <| sl_statem; Ct := u32 (s.(sl_statem).(Ct) - 1) |> in
  s <| sl_statem; tx; tF; fsn := FSN_add s s.(sl_statem).(tx).(tF).(fsn) 1 |>.
Fixpoint ack_loop (fuel : nat) (target : Z) (s : xp) : xp :=
  match fuel with
  | O => s
  | S fuel =>
      let s := ack_body s in
      if s.(sl_statem).(tx).(tF).(fsn) =? target then s else ack_loop fuel target s
  end.
Definition ack_fuel (s : xp) : nat := S (Z.to_nat s.(sl_statem).(sn_mask)).

(** [sib_received] is reset, with T6, by every sign of life of the far end. *)
Definition sib_clear (s : xp) : xp :=
  if s.(sl_statem).(sib_received) then
    let s := s <| sl_statem; sib_received := false |> in
    xp_timer_stop T6 s
  else s.

(** The three parts of [sl_txc_bsnr_and_bibr]: the buffer was cleared and the
    numbering restarts from the first unit received, messages are acknowledged,
    the far end inverted its indicator bit to ask for retransmission. *)
Definition txc_restart (s : xp) : xp :=
  let s := s <| sl_rtb := bufq_purge s.(sl_rtb) |> in
  let s := s <| sl_statem; Ct := 0 |> in
  let s := sl_check_congestion s in
  let s := s <| sl_statem; tx; tF; fsn := FSN_add s s.(sl_statem).(tx).(tR).(bsn) 1 |> in
  let s := s <| sl_statem; tx; tL; fsn := s.(sl_statem).(tx).(tR).(bsn) |> in
  let s := s <| sl_statem; tx; tN; fsn := s.(sl_statem).(tx).(tR).(bsn) |> in
  let s := s <| sl_statem; tx; tN; fib := s.(sl_statem).(tx).(tR).(bib) |> in
  let s := s <| sl_statem; Zsn := FSN_add s s.(sl_statem).(tx).(tR).(bsn) 1 |> in
  let s := s <| sl_statem; z_ptr := None |> in
  let! s := sl_lsc_rtb_cleared s in
  let s := s <| sl_statem; clear_rtb := false |> in
  s <| sl_statem; rtb_full := false |>.
Definition ack_target (s : xp) : Z := FSN_add s s.(sl_statem).(tx).(tR).(bsn) 1.
(** What follows the release of the messages. *)
Definition ack_timer (s : xp) : xp :=
  if s.(sl_rtb).(q_count) =? 0 then xp_timer_stop T7 s else xp_timer_start T7 s.
Definition ack_not_full (s : xp) : xp :=
  if negb (is_pcr s) || ((s.(sl_rtb).(q_msgs) <? s.(sl_conf).(cf_N1)) &&
                         (s.(sl_rtb).(q_count) <? s.(sl_conf).(cf_N2)))
  then s <| sl_statem; rtb_full := false |> else s.
Definition ack_z (s : xp) : xp :=
  if SN_OUTSIDE s.(sl_statem).(tx).(tF).(fsn) s.(sl_statem).(Zsn) s.(sl_statem).(tx).(tL).(fsn)
     || (s.(sl_rtb).(q_count) =? 0)
  then
    let s := s <| sl_statem; Zsn := s.(sl_statem).(tx).(tF).(fsn) |> in
    s <| sl_statem; z_ptr := m_id <$> bufq_head s.(sl_rtb) |>
  else s.
Definition txc_ack (s : xp) : xp :=
  if negb (s.(sl_statem).(tx).(tF).(fsn) =? ack_target s) then
    let s := sib_clear s in
    let s := ack_loop (ack_fuel s) (ack_target s) s in
    let s := sl_check_congestion s in
    let s := ack_timer s in
    let s := ack_not_full s in
    ack_z s
  else s.
Definition txc_nack (s : xp) : xp :=
  if negb (s.(sl_statem).(tx).(tN).(fib) =? s.(sl_statem).(tx).(tR).(bib)) then
    let s := sib_clear s in
    let s := s <| sl_statem; tx; tN; fib := s.(sl_statem).(tx).(tR).(bib) |> in
    let s := s <| sl_statem; tx; tN; fsn := FSN_add s s.(sl_statem).(tx).(tF).(fsn) (-1) |> in
    let s := s <| sl_statem; z_ptr := m_id <$> bufq_head s.(sl_rtb) |> in
    match s.(sl_statem).(z_ptr) with
    | Some _ => s <| sl_statem; retrans_cycle := true |>
    | None => s
    end
  else s.
Definition sl_txc_bsnr_and_bibr (s : xp) : xp :=
  let pcr := is_pcr s in
  let s := s <| sl_statem; tx; tR; bsn := s.(sl_statem).(rx).(rR).(bsn) |> in
  let s := s <| sl_statem; tx; tR; bib := s.(sl_statem).(rx).(rR).(bib) |> in
  if s.(sl_statem).(clear_rtb) then txc_restart s
  else
    let s := txc_ack s in
    if pcr then s else txc_nack s.

Definition sl_txc_sib_received (s : xp) : xp :=
  if pvar_is SS7_PVAR_ANSI_92 s && s.(sl_statem).(lssu_available) &&
     negb (s.(sl_statem).(tx).(t_sio) =? LSSU_SIB) then s
  else if negb (pvar_is SS7_PVAR_ITUT_93 s) && (s.(sl_rtb).(q_count) =? 0) then s
  else
    let s :=
      if negb s.(sl_statem).(sib_received) then
        let s := xp_timer_start T6 s in
        s <| sl_statem; sib_received := true |>
      else s in
    xp_timer_start T7 s.

(** ** Clearing the buffers *)

Definition sl_txc_clear_rtb (s : xp) : xp :=
  let s := s <| sl_rtb := bufq_purge s.(sl_rtb) |> in
  let s := s <| sl_statem; Ct := 0 |> in
  let s := s <| sl_statem; clear_rtb := true |> in
  let s := s <| sl_statem; rtb_full := false |> in
  sl_check_congestion s.
Definition sl_txc_clear_tb (s : xp) : xp :=
  let s := s <| sl_tb := bufq_purge s.(sl_tb) |> in
  let s := flushq_iq s in
  let s := s <| sl_statem; Cm := 0 |> in
  sl_check_congestion s.
Definition sl_txc_flush_buffers (s : xp) : xp :=
  let s := s <| sl_rtb := bufq_purge s.(sl_rtb) |> in
  let s := s <| sl_statem; rtb_full := false |> in
  let s := s <| sl_statem; Ct := 0 |> in
  let s := s <| sl_tb := bufq_purge s.(sl_tb) |> in
  let s := flushq_iq s in
  let s := s <| sl_statem; Cm := 0 |> in
  let s := s <| sl_statem; Zsn := 0 |> in
  let s := s <| sl_statem; z_ptr := None |> in
  let s := s <| sl_statem; tx; tF; fsn := FSN_add s s.(sl_statem).(tx).(tR).(bsn) 1 |> in
  let s := s <| sl_statem; Zsn := s.(sl_statem).(tx).(tF).(fsn) |> in
  let s := s <| sl_statem; tx; tL; fsn := s.(sl_statem).(rx).(rR).(bsn) |> in
  let s := s <| sl_statem; rx; rT; fsn := s.(sl_statem).(rx).(rR).(bsn) |> in
  xp_timer_stop T7 s.
Definition sl_rc_fsnt_value (s : xp) : xp :=
  s <| sl_statem; rx; rT; fsn := s.(sl_statem).(tx).(tN).(fsn) |>.

(** ** Retrieval *)

(** The three loops of the retrieval: release what the far end acknowledged,
    move the transmission buffer behind the retransmission buffer, and pass the
    messages up until the queue is empty or an indication fails. *)
Fixpoint retrieval_ack_loop (fuel : nat) (target : Z) (s : xp) : xp :=
  match fuel with
  | O => s
  | S fuel =>
      if negb (s.(sl_rtb).(q_count) =? 0) && negb (s.(sl_statem).(tx).(tF).(fsn) =? target)
      then retrieval_ack_loop fuel target (ack_body s)
      else s
  end.
Fixpoint retrieval_move_loop (fuel : nat) (s : xp) : xp :=
  match fuel with
  | O => s
  | S fuel =>
      match bufq_dequeue s.(sl_tb) with
      | (None, _) => s
      | (Some mp, q) =>
          let s := s <| sl_tb := q |> in
          let s := s <| sl_statem; Cm := u32 (s.(sl_statem).(Cm) - 1) |> in
          let s := s <| sl_rtb := bufq_queue s.(sl_rtb) mp |> in
          let s := s <| sl_statem; Ct := u32 (s.(sl_statem).(Ct) + 1) |> in
          let s := if s.(sl_statem).(Cm) =? 0 then qenable_iq s else s in
          retrieval_move_loop fuel s
      end
  end.
Fixpoint retrieval_ind_loop (fuel : nat) (s : xp) : Z * xp :=
  match fuel with
  | O => (QR_DONE, s)
  | S fuel =>
      match bufq_dequeue s.(sl_rtb) with
      | (None, _) => (QR_DONE, s)
      | (Some mp, q) =>
          let s := s <| sl_rtb := q |> in
          let s := s <| sl_statem; Ct := u32 (s.(sl_statem).(Ct) - 1) |> in
          let? s := sl_retrieved_message_ind mp s in
          retrieval_ind_loop fuel s
      end
  end.
Definition sl_txc_retrieval_request_and_fsnc (fsnc : Z) (s : xp) : Z * xp :=
  let s := s <| sl_statem; tx; tC; fsn := FSN_add s fsnc 0 |> in
  let s := retrieval_ack_loop (length s.(sl_rtb).(q_list) + ack_fuel s)
             (FSN_add s fsnc 1) s in
  let s := retrieval_move_loop (length s.(sl_tb).(q_list)) s in
  let s := s <| sl_statem; tx; tF; fsn := FSN_add s s.(sl_statem).(tx).(tC).(fsn) 1 |> in
  let s := s <| sl_statem; Zsn := s.(sl_statem).(tx).(tF).(fsn) |> in
  let? s := retrieval_ind_loop (length s.(sl_rtb).(q_list)) s in
  let s := s <| sl_statem; rtb_full := false |> in
  let? s := sl_retrieval_complete_ind s in
  let s := s <| sl_statem; Cm := 0 |> in
  let s := s <| sl_statem; Ct := 0 |> in
  let s := s <| sl_statem; tx; tL; fsn := s.(sl_statem).(tx).(tC).(fsn) |> in
  let s := s <| sl_statem; tx; tN; fsn := s.(sl_statem).(tx).(tC).(fsn) |> in
  (QR_DONE, s).

(** ** Signal unit headers *)

(** A 16-bit value in network byte order ([htons]). *)
Definition be16 (x : Z) : list Z := [u8 (Z.shiftr x 8); u8 x].

(** Backward, forward sequence number and indicator bits, and the length
    indicator, in 3 bytes, or 6 with extended sequence numbers. *)
Definition su_header (s : xp) (li : Z) : list Z :=
  let n := s.(sl_statem).(tx).(tN) in
  if is_xsn s then
    be16 (Z.lor n.(bsn) n.(bib)) ++ be16 (Z.lor n.(fsn) n.(fib)) ++ be16 li
  else [u8 (Z.lor n.(bsn) n.(bib)); u8 (Z.lor n.(fsn) n.(fib)); u8 li].

Definition sl_daedt_fisu (s : xp) (mp : list Z) : list Z := mp ++ su_header s 0.
Definition sl_daedt_lssu (s : xp) (mp : list Z) : list Z :=
  mp ++ su_header s 1 ++ [u8 s.(sl_statem).(tx).(t_sio)].

(** The bytes of a block from [b_rptr] on are overwritten; the header of a
    message unit fits in its first block, [sl_lsc_pdu] saw to it. *)
Definition put_header (hdr : list Z) (blks : list (list Z)) : list (list Z) :=
  match blks with
  | [] => []
  | b :: l => (hdr ++ drop (length hdr) b) :: l
  end.
Definition header_fits (hdr : list Z) (m : mblk) : bool :=
  match m.(m_blks) with
  | [] => false
  | b :: _ => Z.of_nat (length hdr) <=? blen b
  end.
(** [mp] is a [dupmsg] of the message at address [orig] of the retransmission
    buffer: they share their data blocks. *)
Definition sl_daedt_msu (orig : Z) (mp : mblk) (s : xp) : mblk * xp :=
  let len := msgsize mp in
  let hdr :=
    su_header s (if is_xsn s then (if len - 6 <? 512 then len - 6 else 511)
                 else (if len - 3 <? 64 then len - 3 else 63)) in
  let s := if header_fits hdr mp then s else fault s in
  let s := s <| sl_rtb := bufq_poke s.(sl_rtb) orig (put_header hdr) |> in
  (mp <| m_blks := put_header hdr mp.(m_blks) |>, s).

(** ** The transmission request *)

(** [ss7_fast_allocb], [dupmsg]. *)
Definition new_msg (s : xp) : option Z * xp :=
  let '(ok, s) := xalloc s in
  if ok then let '(i, s) := newid s in (Some i, s) else (None, s).
Definition dupmsg (bp : mblk) (s : xp) : option mblk * xp :=
  let '(i, s) := new_msg s in
  ((fun i => bp <| m_id := i |>) <$> i, s).

(** The header fields of the unit sent next, but for the FSN. *)
Definition set_bsn (s : xp) : xp :=
  s <| sl_statem; tx; tN; bsn := FSN_add s s.(sl_statem).(tx).(tX).(fsn) (-1) |>.

Definition txc_send_lssu (s : xp) : option mblk * xp :=
  let '(i, s) := new_msg s in
  match i with
  | None => (None, s)
  | Some i =>
      let s := if s.(sl_statem).(tx).(t_sio) =? LSSU_SIB
               then s <| sl_statem; lssu_available := false |> else s in
      let s := s <| sl_statem; tx; tN; fsn := s.(sl_statem).(tx).(tL).(fsn) |> in
      let s := set_bsn s in
      (Some (Mblk i [sl_daedt_lssu s []]), s)
  end.
Definition txc_send_fisu (s : xp) : option mblk * xp :=
  let '(i, s) := new_msg s in
  match i with
  | None => (None, s)
  | Some i =>
      let s := s <| sl_statem; tx; tN; fsn := s.(sl_statem).(tx).(tL).(fsn) |> in
      let s := set_bsn s in
      (Some (Mblk i [sl_daedt_fisu s []]), s)
  end.

(** The message [z_ptr] points to; a pointer to a message that has left the
    retransmission buffer is dangling. *)
Definition z_deref (s : xp) : option mblk * xp :=
  match s.(sl_statem).(z_ptr) with
  | None => (None, s)
  | Some i =>
      match list_find_id i s.(sl_rtb).(q_list) with
      | Some m => (Some m, s)
      | None => (None, fault s)
      end
  end.

(** Retransmission of the message at [bp], duplicated as [mp]: the sequence
    number it is sent with, and the end of the retransmission cycle. *)
Definition resend_number (pcr : bool) (s : xp) : xp :=
  if pcr then
    let s := s <| sl_statem; tx; tN; fsn := s.(sl_statem).(Zsn) |> in
    let s := set_bsn s in
    s <| sl_statem; Zsn := FSN_add s s.(sl_statem).(Zsn) 1 |>
  else
    let s := s <| sl_statem; tx; tN; fsn := FSN_add s s.(sl_statem).(tx).(tN).(fsn) 1 |> in
    set_bsn s.
Definition resend_end (s : xp) : xp :=
  if (s.(sl_statem).(tx).(tN).(fsn) =? s.(sl_statem).(tx).(tL).(fsn)) ||
     bool_decide (s.(sl_statem).(z_ptr) = None)
  then s <| sl_statem; retrans_cycle := false |> else s.
Definition txc_resend (pcr : bool) (bp mp : mblk) (s : xp) : option mblk * xp :=
  let s := s <| sl_statem; z_ptr := m_id <$> bufq_next s.(sl_rtb) bp.(m_id) |> in
  let s := resend_number pcr s in
  let '(mp, s) := sl_daedt_msu bp.(m_id) mp s in
  (Some mp, resend_end s).
Definition txc_retransmit (pcr : bool) (s : xp) : option mblk * xp :=
  let '(bp, s) := z_deref s in
  match bp with
  | Some bp =>
      let '(mp, s) := dupmsg bp s in
      match mp with None => (None, s) | Some mp => txc_resend pcr bp mp s end
  | None =>
      if pcr then
        let bp := bufq_head s.(sl_rtb) in
        let s := s <| sl_statem; z_ptr := m_id <$> bp |> in
        match bp with
        | Some bp =>
            let '(mp, s) := dupmsg bp s in
            match mp with
            | None => (None, s)
            | Some mp =>
                let s := s <| sl_statem; Zsn := s.(sl_statem).(tx).(tF).(fsn) |> in
                txc_resend pcr bp mp s
            end
        | None => (None, s <| sl_statem; Zsn := s.(sl_statem).(tx).(tF).(fsn) |>)
        end
      else (None, s)
  end.

(** A message of the transmission buffer is sent for the first time: it moves
    to the retransmission buffer under the next sequence number. *)
Definition send_new_number (s : xp) : xp :=
  let s := s <| sl_statem; Cm := u32 (s.(sl_statem).(Cm) - 1) |> in
  let s := if s.(sl_statem).(Cm) =? 0 then qenable_iq s else s in
  let s := s <| sl_statem; tx; tL; fsn := FSN_add s s.(sl_statem).(tx).(tL).(fsn) 1 |> in
  let s := s <| sl_statem; tx; tN; fsn := s.(sl_statem).(tx).(tL).(fsn) |> in
  if s.(sl_rtb).(q_count) =? 0 then xp_timer_start T7 s else s.
Definition send_new_full (pcr : bool) (s : xp) : xp :=
  let full := (s.(sl_conf).(cf_N1) <=? s.(sl_rtb).(q_msgs)) ||
              (s.(sl_conf).(cf_N2) <=? s.(sl_rtb).(q_count)) in
  if pcr then
    if full then
      let s := s <| sl_statem; rtb_full := true |> in
      s <| sl_statem; forced_retransmission := true |>
    else s
  else
    if full || (s.(sl_statem).(tx).(tL).(fsn) =? FSN_add s s.(sl_statem).(tx).(tF).(fsn) (-2))
    then s <| sl_statem; rtb_full := true |> else s.
Definition send_new_move (hd : mblk) (s : xp) : xp :=
  let s := s <| sl_tb := (bufq_dequeue s.(sl_tb)).2 |> in
  let s := send_new_number s in
  let s := s <| sl_rtb := bufq_queue s.(sl_rtb) hd |> in
  let s := s <| sl_statem; Ct := u32 (s.(sl_statem).(Ct) + 1) |> in
  sl_rc_fsnt_value s.
Definition txc_send_new (pcr : bool) (s : xp) : option mblk * xp :=
  match bufq_head s.(sl_tb) with
  | None => (None, s)
  | Some hd =>
      let '(mp, s) := dupmsg hd s in
      match mp with
      | None => (None, s)
      | Some mp =>
          let s := send_new_move hd s in
          let s := set_bsn (send_new_full pcr s) in
          let '(mp, s) := sl_daedt_msu hd.(m_id) mp s in
          (Some mp, s)
      end
  end.

Definition sl_txc_transmission_request (s : xp) : option mblk * xp :=
  if negb (s.(sl_statem).(txc_state) =s TXC_IN_SERVICE) then (None, s)
  else
    let pcr := is_pcr s in
    if s.(sl_statem).(lssu_available) then txc_send_lssu s
    else if s.(sl_statem).(msu_inhibited) then txc_send_fisu s
    else
      let s :=
        if pcr then
          let s :=
            if (s.(sl_rtb).(q_msgs) <? s.(sl_conf).(cf_N1)) &&
               (s.(sl_rtb).(q_count) <? s.(sl_conf).(cf_N2)) then
              let s := s <| sl_statem; forced_retransmission := false |> in
              s <| sl_statem; rtb_full := false |>
            else s in
          if negb (s.(sl_tb).(q_count) =? 0) && s.(sl_statem).(rtb_full)
          then s <| sl_statem; forced_retransmission := true |> else s
        else s in
      let tbc := s.(sl_tb).(q_count) in
      let rtbc := s.(sl_rtb).(q_count) in
      if (negb pcr && s.(sl_statem).(retrans_cycle)) ||
         (pcr && (s.(sl_statem).(forced_retransmission) ||
                  ((tbc =? 0) && negb (rtbc =? 0))))
      then txc_retransmit pcr s
      else if (negb pcr && ((tbc =? 0) || s.(sl_statem).(rtb_full))) ||
              (pcr && ((tbc =? 0) && (rtbc =? 0)))
      then txc_send_fisu s
      else txc_send_new pcr s.
