(* ===== verification/Lsc.v ===== *)
(** * Link state control and initial alignment

    The handlers of LSC, IAC, POC, CC and the monitors of
    [drivers/sl_x100p.c], in the order of the file: what each link status
    signal unit, message unit, request and result of proving does to the link. *)
From S2P Require Import Prelude Bufq Xp Prims Timers Txc.

Definition SDL_IF_UP : Z := 1.
Definition SDL_IF_RX_RUNNING : Z := 2.
Definition SDL_IF_TX_RUNNING : Z := 4.

(** ** Reception control *)

Definition sl_daedr_start (s : xp) : xp :=
  let s := s <| sdt_statem; daedr_state := IN_SERVICE |> in
  let s := s <| sdl_statem; rx_state := IN_SERVICE |> in
  s <| sdl_conf; ifflags := Z.lor s.(sdl_conf).(ifflags) (Z.lor SDL_IF_UP SDL_IF_RX_RUNNING) |>.

Definition sl_rc_start (s : xp) : xp :=
  if s.(sl_statem).(rc_state) =s IDLE then
    let s := s <| sl_statem; rx; rX; fsn := 0 |> in
    let s := s <| sl_statem; rx; rX; fib := s.(sl_statem).(ib_mask) |> in
    let s := s <| sl_statem; rx; rF; fsn := 0 |> in
    let s := s <| sl_statem; rx; rT; fsn := s.(sl_statem).(sn_mask) |> in
    let s := s <| sl_statem; rtr := false |> in
    let s := s <| sl_statem; msu_fisu_accepted := pvar_is SS7_PVAR_ANSI_92 s |> in
    let s := s <| sl_statem; abnormal_bsnr := 0 |> in
    let s := s <| sl_statem; abnormal_fibr := 0 |> in
    let s := s <| sl_statem; congestion_discard := false |> in
    let s := s <| sl_statem; congestion_accept := false |> in
    let s := sl_daedr_start s in
    s <| sl_statem; rc_state := IN_SERVICE |>
  else s.
Definition sl_rc_reject_msu_fisu (s : xp) : xp := s <| sl_statem; msu_fisu_accepted := false |>.
Definition sl_rc_accept_msu_fisu (s : xp) : xp := s <| sl_statem; msu_fisu_accepted := true |>.
Definition sl_rc_retrieve_fsnx (s : xp) : xp :=
  let s := sl_txc_fsnx_value s in
  let s := s <| sl_statem; congestion_discard := false |> in
  let s := s <| sl_statem; congestion_accept := false |> in
  let s := sl_cc_normal s in
  s <| sl_statem; rtr := false |>.
Definition sl_rc_align_fsnx (s : xp) : xp := sl_txc_fsnx_value s.
Definition sl_rc_clear_rb (s : xp) : Z * xp :=
  let s := s <| sl_rb := bufq_purge s.(sl_rb) |> in
  let s := flushq_oq s in
  let s := s <| sl_statem; Cr := 0 |> in
  sl_rb_cleared_ind s.
Definition sl_rc_retrieve_bsnt (s : xp) : Z * xp :=
  let s := s <| sl_statem; rx; rT; bsn := Z.land (s.(sl_statem).(rx).(rX).(fsn) - 1) 0x7F |> in
  sl_bsnt_ind s.(sl_statem).(rx).(rT).(bsn) s.
Definition sl_cc_busy (s : xp) : xp :=
  if s.(sl_statem).(cc_state) =s CC_NORMAL then
    let s := sl_txc_send_sib s in
    let s := xp_timer_start T5 s in
    s <| sl_statem; cc_state := CC_BUSY |>
  else s.
Definition sl_rc_congestion_discard (s : xp) : xp :=
  sl_cc_busy (s <| sl_statem; congestion_discard := true |>).
Definition sl_rc_congestion_accept (s : xp) : xp :=
  sl_cc_busy (s <| sl_statem; congestion_accept := true |>).
(** [x ? 0 : ib_mask]. *)
Definition flip_ib (s : xp) (x : Z) : Z := if negb (x =? 0) then 0 else s.(sl_statem).(ib_mask).
Definition sl_rc_no_congestion (s : xp) : xp :=
  let s := s <| sl_statem; congestion_discard := false |> in
  let s := s <| sl_statem; congestion_accept := false |> in
  let s := sl_cc_normal s in
  let s := sl_txc_fsnx_value s in
  if s.(sl_statem).(rtr) then
    let s := sl_txc_nack_to_be_sent s in
    s <| sl_statem; rx; rX; fib := flip_ib s s.(sl_statem).(rx).(rX).(fib) |>
  else s.
Definition sl_lsc_congestion_discard (s : xp) : xp :=
  let s := sl_rc_congestion_discard s in
  s <| sl_statem; l3_congestion_detect := true |>.
Definition sl_lsc_congestion_accept (s : xp) : xp :=
  let s := sl_rc_congestion_accept s in
  s <| sl_statem; l3_congestion_detect := true |>.
Definition sl_lsc_no_congestion (s : xp) : xp :=
  let s := sl_rc_no_congestion s in
  s <| sl_statem; l3_congestion_detect := false |>.

(** ** Link status signal units *)

Definition sl_lsc_sio (s : xp) : xp :=
  match s.(sl_statem).(lsc_state) with
  | LSC_OUT_OF_SERVICE | LSC_INITIAL_ALIGNMENT => s
  | _ =>
      let s := xp_timer_stop T1 s in
      let! s := sl_out_of_service_ind SL_FAIL_RECEIVED_SIO s in
      let s := s <| sl_statem; failure_reason := SL_FAIL_RECEIVED_SIO |> in
      let s := sl_rc_stop s in
      let s := sl_suerm_stop s in
      let s := sl_poc_stop s in
      let s := sl_txc_send_sios s in
      let s := s <| sl_statem; emergency := false |> in
      let s := s <| sl_statem; local_processor_outage := false |> in
      let s := s <| sl_statem; remote_processor_outage := false |> in
      s <| sl_statem; lsc_state := LSC_OUT_OF_SERVICE |>
  end.

Definition sl_lsc_alignment_not_possible (s : xp) : Z * xp :=
  let? s := sl_out_of_service_ind SL_FAIL_ALIGNMENT_NOT_POSSIBLE s in
  let s := s <| sl_statem; failure_reason := SL_FAIL_ALIGNMENT_NOT_POSSIBLE |> in
  let s := sl_rc_stop s in
  let s := sl_txc_send_sios s in
  let s := s <| sl_statem; local_processor_outage := false |> in
  let s := s <| sl_statem; emergency := false |> in
  let s := s <| sl_statem; lsc_state := LSC_OUT_OF_SERVICE |> in
  (QR_DONE, s).

Definition sl_iac_sio (s : xp) : xp :=
  match s.(sl_statem).(iac_state) with
  | IAC_NOT_ALIGNED =>
      let s := xp_timer_stop T2 s in
      let s :=
        if s.(sl_statem).(emergency) then
          sl_txc_send_sie (s <| sl_statem; t4v := s.(sl_conf).(cf_t4e) |>)
        else sl_txc_send_sin (s <| sl_statem; t4v := s.(sl_conf).(cf_t4n) |>) in
      let s := xp_timer_start T3 s in
      s <| sl_statem; iac_state := IAC_ALIGNED |>
  | IAC_PROVING =>
      let s := xp_timer_stop T4 s in
      let s := sl_aerm_stop s in
      let s := xp_timer_start T3 s in
      s <| sl_statem; iac_state := IAC_ALIGNED |>
  | _ => s
  end.

(** The result of the indication is ignored. *)
Definition sl_iac_sios (s : xp) : xp :=
  match s.(sl_statem).(iac_state) with
  | IAC_ALIGNED | IAC_PROVING =>
      let s := xp_timer_stop T4 s in
      let! s := sl_lsc_alignment_not_possible s in
      let s := sl_aerm_stop s in
      let s := xp_timer_stop T3 s in
      let s := s <| sl_statem; emergency := false |> in
      s <| sl_statem; iac_state := IAC_IDLE |>
  | _ => s
  end.

(** The exit to the state out of service the LSC handlers of SIOS, SIN and SIE
    share. *)
Definition sl_lsc_sios (s : xp) : xp :=
  let oos s :=
    let! s := sl_out_of_service_ind SL_FAIL_RECEIVED_SIOS s in
    let s := s <| sl_statem; failure_reason := SL_FAIL_RECEIVED_SIOS |> in
    let s := sl_suerm_stop s in
    let s := sl_rc_stop s in
    let s := sl_poc_stop s in
    let s := sl_txc_send_sios s in
    let s := s <| sl_statem; emergency := false |> in
    let s := s <| sl_statem; local_processor_outage := false |> in
    let s := s <| sl_statem; remote_processor_outage := false |> in
    s <| sl_statem; lsc_state := LSC_OUT_OF_SERVICE |> in
  match s.(sl_statem).(lsc_state) with
  | LSC_ALIGNED_READY | LSC_ALIGNED_NOT_READY => oos (xp_timer_stop T1 s)
  | LSC_IN_SERVICE | LSC_PROCESSOR_OUTAGE => oos s
  | _ => s
  end.

Definition sl_lsc_no_processor_outage (s : xp) : xp :=
  if s.(sl_statem).(lsc_state) =s LSC_PROCESSOR_OUTAGE then
    let s := s <| sl_statem; processor_outage := false |> in
    if negb s.(sl_statem).(l3_indication_received) then s
    else
      let s := s <| sl_statem; l3_indication_received := false |> in
      let s := sl_txc_send_msu s in
      let s := s <| sl_statem; local_processor_outage := false |> in
      let s := sl_rc_accept_msu_fisu s in
      s <| sl_statem; lsc_state := LSC_IN_SERVICE |>
  else s.
Definition sl_poc_remote_processor_recovered (s : xp) : xp :=
  match s.(sl_statem).(poc_state) with
  | POC_REMOTE_PROCESSOR_OUTAGE =>
      let s := sl_lsc_no_processor_outage s in
      s <| sl_statem; poc_state := POC_IDLE |>
  | POC_BOTH_PROCESSORS_OUT => s <| sl_statem; poc_state := POC_LOCAL_PROCESSOR_OUTAGE |>
  | _ => s
  end.

Definition sl_lsc_fisu_msu_received (s : xp) : Z * xp :=
  match s.(sl_statem).(lsc_state) with
  | LSC_ALIGNED_READY =>
      let? s := sl_in_service_ind s in
      let s := if pvar_is SS7_PVAR_ITUT_93 s then sl_rc_accept_msu_fisu s else s in
      let s := xp_timer_stop T1 s in
      let s := sl_txc_send_msu s in
      let s := s <| sl_statem; lsc_state := LSC_IN_SERVICE |> in
      (QR_DONE, s)
  | LSC_ALIGNED_NOT_READY =>
      let? s := sl_in_service_ind s in
      let s := xp_timer_stop T1 s in
      let s := s <| sl_statem; lsc_state := LSC_PROCESSOR_OUTAGE |> in
      (QR_DONE, s)
  | LSC_PROCESSOR_OUTAGE =>
      match pvar_switch s with
      | PV_ITU =>
          let s := sl_poc_remote_processor_recovered s in
          sl_remote_processor_recovered_ind s
      | PV_ANSI =>
          let s := s <| sl_statem; remote_processor_outage := false |> in
          sl_remote_processor_recovered_ind s
      | PV_OTHER =>
          if s.(sl_statem).(remote_processor_outage) then
            let s := s <| sl_statem; remote_processor_outage := false |> in
            sl_remote_processor_recovered_ind s
          else (QR_DONE, s)
      end
  | _ => (QR_DONE, s)
  end.

Definition sl_poc_remote_processor_outage (s : xp) : xp :=
  match s.(sl_statem).(poc_state) with
  | POC_IDLE => s <| sl_statem; poc_state := POC_REMOTE_PROCESSOR_OUTAGE |>
  | POC_LOCAL_PROCESSOR_OUTAGE => s <| sl_statem; poc_state := POC_BOTH_PROCESSORS_OUT |>
  | _ => s
  end.
Definition sl_lsc_sib (s : xp) : xp :=
  match s.(sl_statem).(lsc_state) with
  | LSC_IN_SERVICE | LSC_PROCESSOR_OUTAGE => sl_txc_sib_received s
  | _ => s
  end.

Definition sl_lsc_sipo (s : xp) : Z * xp :=
  match s.(sl_statem).(lsc_state) with
  | LSC_ALIGNED_READY =>
      match pvar_switch s with
      | PV_ITU =>
          let s := xp_timer_stop T1 s in
          let? s := sl_remote_processor_outage_ind s in
          let s := sl_poc_remote_processor_outage s in
          (QR_DONE, s <| sl_statem; lsc_state := LSC_PROCESSOR_OUTAGE |>)
      | PV_ANSI =>
          let s := xp_timer_stop T1 s in
          let? s := sl_remote_processor_outage_ind s in
          let s := s <| sl_statem; remote_processor_outage := true |> in
          (QR_DONE, s <| sl_statem; lsc_state := LSC_PROCESSOR_OUTAGE |>)
      | PV_OTHER => (QR_DONE, s)
      end
  | LSC_ALIGNED_NOT_READY =>
      match pvar_switch s with
      | PV_ITU =>
          let? s := sl_remote_processor_outage_ind s in
          let s := sl_poc_remote_processor_outage s in
          let s := xp_timer_stop T1 s in
          (QR_DONE, s <| sl_statem; lsc_state := LSC_PROCESSOR_OUTAGE |>)
      | PV_ANSI =>
          let? s := sl_remote_processor_outage_ind s in
          let s := s <| sl_statem; remote_processor_outage := true |> in
          let s := xp_timer_stop T1 s in
          (QR_DONE, s <| sl_statem; lsc_state := LSC_PROCESSOR_OUTAGE |>)
      | PV_OTHER => (QR_DONE, s)
      end
  | LSC_IN_SERVICE =>
      match pvar_switch s with
      | PV_ITU =>
          let s := sl_txc_send_fisu s in
          let? s := sl_remote_processor_outage_ind s in
          let s := sl_poc_remote_processor_outage s in
          let s := s <| sl_statem; processor_outage := true |> in
          (QR_DONE, s <| sl_statem; lsc_state := LSC_PROCESSOR_OUTAGE |>)
      | PV_ANSI =>
          let s := sl_txc_send_fisu s in
          let? s := sl_remote_processor_outage_ind s in
          let s := s <| sl_statem; remote_processor_outage := true |> in
          let s := sl_rc_align_fsnx s in
          let s := sl_cc_stop s in
          (QR_DONE, s <| sl_statem; lsc_state := LSC_PROCESSOR_OUTAGE |>)
      | PV_OTHER => (QR_DONE, s)
      end
  | LSC_PROCESSOR_OUTAGE =>
      match pvar_switch s with
      | PV_ITU =>
          let? s := sl_remote_processor_outage_ind s in
          (QR_DONE, sl_poc_remote_processor_outage s)
      | PV_ANSI =>
          let s := s <| sl_statem; remote_processor_outage := true |> in
          sl_remote_processor_outage_ind s
      | PV_OTHER =>
          if negb s.(sl_statem).(remote_processor_outage) then
            let s := s <| sl_statem; remote_processor_outage := true |> in
            sl_remote_processor_outage_ind s
          else (QR_DONE, s)
      end
  | _ => (QR_DONE, s)
  end.
Definition sl_poc_local_processor_outage (s : xp) : xp :=
  match s.(sl_statem).(poc_state) with
  | POC_IDLE => s <| sl_statem; poc_state := POC_LOCAL_PROCESSOR_OUTAGE |>
  | POC_REMOTE_PROCESSOR_OUTAGE => s <| sl_statem; poc_state := POC_BOTH_PROCESSORS_OUT |>
  | _ => s
  end.

(** ** Proving *)

Definition sl_eim_start (s : xp) : xp :=
  let s := s <| sdt_statem; Ce := 0 |> in
  let s := s <| sdt_statem; interval_error := false |> in
  let s := s <| sdt_statem; su_received := false |> in
  let s := xp_timer_start T8 s in
  s <| sdt_statem; eim_state := IN_SERVICE |>.
Definition sl_suerm_start (s : xp) : xp :=
  if popt_has SS7_POPT_HSL s then sl_eim_start s
  else
    let s := s <| sdt_statem; Cs := 0 |> in
    let s := s <| sdt_statem; Ns := 0 |> in
    s <| sdt_statem; suerm_state := IN_SERVICE |>.

Definition sl_lsc_alignment_complete (s : xp) : xp :=
  if s.(sl_statem).(lsc_state) =s LSC_INITIAL_ALIGNMENT then
    let s := sl_suerm_start s in
    let s := xp_timer_start T1 s in
    if s.(sl_statem).(local_processor_outage) then
      let s := if negb (pvar_is SS7_PVAR_ANSI_92 s) then sl_poc_local_processor_outage s else s in
      let s := sl_txc_send_sipo s in
      let s := if negb (pvar_is SS7_PVAR_ITUT_93 s) then sl_rc_reject_msu_fisu s else s in
      s <| sl_statem; lsc_state := LSC_ALIGNED_NOT_READY |>
    else
      let s := sl_txc_send_msu s in
      let s := sl_rc_accept_msu_fisu s in
      s <| sl_statem; lsc_state := LSC_ALIGNED_READY |>
  else s.

Definition sl_lsc_sin (s : xp) : xp :=
  match s.(sl_statem).(lsc_state) with
  | LSC_IN_SERVICE =>
      let! s := sl_out_of_service_ind SL_FAIL_RECEIVED_SIN s in
      let s := s <| sl_statem; failure_reason := SL_FAIL_RECEIVED_SIN |> in
      let s := sl_suerm_stop s in
      let s := sl_rc_stop s in
      let s := sl_txc_send_sios s in
      let s := s <| sl_statem; emergency := false |> in
      s <| sl_statem; lsc_state := LSC_OUT_OF_SERVICE |>
  | LSC_PROCESSOR_OUTAGE =>
      let! s := sl_out_of_service_ind SL_FAIL_RECEIVED_SIN s in
      let s := s <| sl_statem; failure_reason := SL_FAIL_RECEIVED_SIN |> in
      let s := sl_suerm_stop s in
      let s := sl_rc_stop s in
      let s := sl_poc_stop s in
      let s := sl_txc_send_sios s in
      let s := s <| sl_statem; emergency := false |> in
      let s := s <| sl_statem; local_processor_outage := false |> in
      let s := s <| sl_statem; remote_processor_outage := false |> in
      s <| sl_statem; lsc_state := LSC_OUT_OF_SERVICE |>
  | _ => s
  end.
Definition sl_aerm_set_ti_to_tie (s : xp) : xp :=
  if s.(sdt_statem).(aerm_state) =s IDLE
  then s <| sdt_statem; Ti := s.(sdt_conf).(Tie) |> else s.
Definition sl_aerm_start (s : xp) : xp :=
  let s := s <| sdt_statem; Ca := 0 |> in
  let s := s <| sdt_statem; aborted_proving := false |> in
  s <| sdt_statem; aerm_state := IN_SERVICE |>.

Definition sl_iac_sin (s : xp) : xp :=
  match s.(sl_statem).(iac_state) with
  | IAC_NOT_ALIGNED =>
      let s := xp_timer_stop T2 s in
      let s :=
        if s.(sl_statem).(emergency) then
          sl_txc_send_sie (s <| sl_statem; t4v := s.(sl_conf).(cf_t4e) |>)
        else sl_txc_send_sin (s <| sl_statem; t4v := s.(sl_conf).(cf_t4n) |>) in
      let s := xp_timer_start T3 s in
      s <| sl_statem; iac_state := IAC_ALIGNED |>
  | IAC_ALIGNED =>
      let s := xp_timer_stop T3 s in
      let s := if s.(sl_statem).(t4v) =? s.(sl_conf).(cf_t4e)
               then sl_aerm_set_ti_to_tie s else s in
      let s := sl_aerm_start s in
      let s := xp_timer_start T4 s in
      let s := s <| sl_statem; further_proving := false |> in
      let s := s <| sl_statem; Cp := 0 |> in
      s <| sl_statem; iac_state := IAC_PROVING |>
  | _ => s
  end.

Definition sl_lsc_sie (s : xp) : xp :=
  match s.(sl_statem).(lsc_state) with
  | LSC_IN_SERVICE =>
      let! s := sl_out_of_service_ind SL_FAIL_RECEIVED_SIE s in
      let s := s <| sl_statem; failure_reason := SL_FAIL_RECEIVED_SIE |> in
      let s := sl_suerm_stop s in
      let s := sl_rc_stop s in
      let s := sl_txc_send_sios s in
      let s := s <| sl_statem; emergency := false |> in
      s <| sl_statem; lsc_state := LSC_OUT_OF_SERVICE |>
  | LSC_PROCESSOR_OUTAGE =>
      let! s := sl_out_of_service_ind SL_FAIL_RECEIVED_SIE s in
      let s := s <| sl_statem; failure_reason := SL_FAIL_RECEIVED_SIE |> in
      let s := sl_suerm_stop s in
      let s := sl_rc_stop s in
      let s := sl_poc_stop s in
      let s := sl_txc_send_sios s in
      let s := s <| sl_statem; emergency := false |> in
      let s := s <| sl_statem; local_processor_outage := false |> in
      let s := s <| sl_statem; remote_processor_outage := false |> in
      s <| sl_statem; lsc_state := LSC_OUT_OF_SERVICE |>
  | _ => s
  end.

Definition sl_iac_sie (s : xp) : xp :=
  match s.(sl_statem).(iac_state) with
  | IAC_NOT_ALIGNED =>
      let s := xp_timer_stop T2 s in
      let s :=
        if s.(sl_statem).(emergency) then
          sl_txc_send_sie (s <| sl_statem; t4v := s.(sl_conf).(cf_t4e) |>)
        else sl_txc_send_sin (s <| sl_statem; t4v := s.(sl_conf).(cf_t4e) |>) in
      let s := xp_timer_start T3 s in
      s <| sl_statem; iac_state := IAC_ALIGNED |>
  | IAC_ALIGNED =>
      let s := s <| sl_statem; t4v := s.(sl_conf).(cf_t4e) |> in
      let s := xp_timer_stop T3 s in
      let s := sl_aerm_set_ti_to_tie s in
      let s := sl_aerm_start s in
      let s := xp_timer_start T4 s in
      let s := s <| sl_statem; further_proving := false |> in
      let s := s <| sl_statem; Cp := 0 |> in
      s <| sl_statem; iac_state := IAC_PROVING |>
  | IAC_PROVING =>
      if s.(sl_statem).(t4v) =? s.(sl_conf).(cf_t4e) then s
      else
        let s := xp_timer_stop T4 s in
        let s := s <| sl_statem; t4v := s.(sl_conf).(cf_t4e) |> in
        let s := sl_aerm_stop s in
        let s := sl_aerm_set_ti_to_tie s in
        let s := sl_aerm_start s in
        let s := xp_timer_start T4 s in
        s <| sl_statem; further_proving := false |>
  | _ => s
  end.
