(* ===== verification/Rc.v ===== *)
(** * Reception of signal units

    [sl_rc_signal_unit] of [drivers/sl_x100p.c]: the header of a received frame
    is parsed, link status units go to IAC and LSC, and fill-in and message
    units pass the checks of the backward sequence number, the forward indicator
    bit and the forward sequence number. *)
From S2P Require Import Prelude Bufq Xp Prims Timers Txc Lsc.

(** [l3_congestion_detect] is set by the user of the link, [l2_congestion_detect]
    here, from the number of messages waiting and the flow control upstream. *)
(** [c || !canput(...)]: the flow control is only asked when [c] is false. *)
Definition or_not_canput (c : bool) (s : xp) : bool * xp :=
  if c then (true, s) else let '(can, s) := xcanput s in (negb can, s).
Definition sl_rb_congestion_function (s : xp) : xp :=
  if negb s.(sl_statem).(l3_congestion_detect) then
    if s.(sl_statem).(l2_congestion_detect) then
      if s.(sl_statem).(Cr) <=? s.(sl_conf).(rb_abate) then
        let '(cpn, s) := xcanput s in
        if cpn then
          let s := sl_rc_no_congestion s in
          s <| sl_statem; l2_congestion_detect := false |>
        else s
      else s
    else
      let '(discard, s) := or_not_canput (s.(sl_conf).(rb_discard) <=? s.(sl_statem).(Cr)) s in
      if discard then
        let s := sl_rc_congestion_discard s in
        s <| sl_statem; l2_congestion_detect := true |>
      else
        let '(accept, s) := or_not_canput (s.(sl_conf).(rb_accept) <=? s.(sl_statem).(Cr)) s in
        if accept then
          let s := sl_rc_congestion_accept s in
          s <| sl_statem; l2_congestion_detect := true |>
        else s
  else s.

(** ** Parsing *)

(** The first block of the message, its byte and 16-bit word at an offset. *)
Definition first_block (mp : mblk) : list Z :=
  match mp.(m_blks) with [] => [] | b :: _ => b end.
Definition byte_at (b : list Z) (i : nat) : Z := nth i b 0.
Definition ntohs_at (b : list Z) (i : nat) : Z := 256 * byte_at b i + byte_at b (S i).
(** [b_rptr] is advanced by [n]. *)
Definition skip (n : nat) (mp : mblk) : mblk :=
  mp <| m_blks := match mp.(m_blks) with [] => [] | b :: l => drop n b :: l end |>.
(** Reading past [b_wptr] is undefined. *)
Definition check_len (n : nat) (mp : mblk) (s : xp) : xp :=
  if (n <=? length (first_block mp))%nat then s else fault s.

Definition set_rx_header (bsnr bibr fsnr fibr len : Z) (s : xp) : xp :=
  let s := s <| sl_statem; rx; rR; bsn := bsnr |> in
  let s := s <| sl_statem; rx; rR; bib := bibr |> in
  let s := s <| sl_statem; rx; rR; fsn := fsnr |> in
  let s := s <| sl_statem; rx; rR; fib := fibr |> in
  s <| sl_statem; rx; r_len := len |>.

(** Each post-increment of [mp->b_rptr] in the extended format steps one byte, the
    cast to [sl_ushort] applies to its result.
    The message comes back with [b_rptr] past what was read. *)
Definition rc_parse_header (mp : mblk) (s : xp) : mblk * xp :=
  let b := first_block mp in
  if is_xsn s then
    let s := check_len 4 mp s in
    (skip 3 mp,
     set_rx_header (Z.land (ntohs_at b 0) 0x0fff) (Z.land (ntohs_at b 0) 0x8000)
       (Z.land (ntohs_at b 1) 0x0fff) (Z.land (ntohs_at b 1) 0x8000)
       (Z.land (ntohs_at b 2) 0x01ff) s)
  else
    let s := check_len 3 mp s in
    (skip 3 mp,
     set_rx_header (Z.land (byte_at b 0) 0x7f) (Z.land (byte_at b 0) 0x80)
       (Z.land (byte_at b 1) 0x7f) (Z.land (byte_at b 1) 0x80)
       (Z.land (byte_at b 2) 0x3f) s).
Definition rc_parse_sio (mp : mblk) (s : xp) : mblk * xp :=
  let s := check_len 1 mp s in
  (skip 1 mp, s <| sl_statem; rx; r_sio := Z.land (byte_at (first_block mp) 0) 0x07 |>).
Definition rc_parse (mp : mblk) (s : xp) : mblk * xp :=
  let '(mp, s) := rc_parse_header mp s in
  let '(mp, s) :=
    if s.(sl_statem).(rx).(r_len) =? 1 then rc_parse_sio mp s else (mp, s) in
  if s.(sl_statem).(rx).(r_len) =? 2 then
    let '(mp, s) := rc_parse_sio mp s in rc_parse_sio mp s
  else (mp, s).

(** ** The signal unit *)

Definition rc_lssu (s : xp) : xp :=
  let sio := s.(sl_statem).(rx).(r_sio) in
  if sio =? LSSU_SIO then sl_lsc_sio (sl_iac_sio s)
  else if sio =? LSSU_SIN then sl_lsc_sin (sl_iac_sin s)
  else if sio =? LSSU_SIE then sl_lsc_sie (sl_iac_sie s)
  else if sio =? LSSU_SIOS then sl_lsc_sios (sl_iac_sios s)
  else if sio =? LSSU_SIPO then (sl_lsc_sipo s).2
  else if sio =? LSSU_SIB then sl_lsc_sib s
  else s.

Definition set_rF (s : xp) : xp :=
  s <| sl_statem; rx; rF; fsn := FSN_add s s.(sl_statem).(rx).(rR).(bsn) 1 |>.
(** The expected message is put on the read queue. *)
Definition rc_deliver (mp : mblk) (s : xp) : xp :=
  let s := putq_oq mp s in
  let s := s <| sl_statem; Cr := u32 (s.(sl_statem).(Cr) + 1) |> in
  if s.(sl_statem).(congestion_accept) then sl_cc_busy s else sl_txc_fsnx_value s.
Definition rc_expected (s : xp) : bool :=
  (s.(sl_statem).(rx).(rR).(fsn) =? s.(sl_statem).(rx).(rX).(fsn)) &&
  (2 <? s.(sl_statem).(rx).(r_len)).
Definition rc_next_fsnx (s : xp) : xp :=
  s <| sl_statem; rx; rX; fsn := FSN_add s s.(sl_statem).(rx).(rX).(fsn) 1 |>.

(** What both methods do with an acceptable backward sequence number. *)
Definition rc_acknowledge (s : xp) : xp :=
  let! s := sl_lsc_fisu_msu_received s in
  let s := sl_txc_bsnr_and_bibr s in
  set_rF s.
(** Preventive cyclic retransmission: no negative acknowledgements. *)
Definition rc_pcr (mp : mblk) (s : xp) : xp :=
  let s := rc_acknowledge s in
  if negb s.(sl_statem).(msu_fisu_accepted) then s
  else
    let s := sl_rb_congestion_function s in
    if s.(sl_statem).(congestion_discard) then sl_cc_busy s
    else if rc_expected s then rc_deliver mp (rc_next_fsnx s)
    else s.

(** The basic method. *)
Definition rc_basic_accept (mp : mblk) (s : xp) : xp :=
  let s := rc_acknowledge s in
  if negb s.(sl_statem).(msu_fisu_accepted) then s
  else
    let s := sl_rb_congestion_function s in
    if s.(sl_statem).(congestion_discard) then
      sl_cc_busy (s <| sl_statem; rtr := true |>)
    else if rc_expected s then
      let s := rc_next_fsnx s in
      rc_deliver mp (s <| sl_statem; rtr := false |>)
    else if s.(sl_statem).(rx).(rR).(fsn) =? FSN_add s s.(sl_statem).(rx).(rX).(fsn) (-1) then s
    else if s.(sl_statem).(congestion_accept) then
      sl_cc_busy (s <| sl_statem; rtr := true |>)
    else
      let s := sl_txc_nack_to_be_sent s in
      let s := s <| sl_statem; rtr := true |> in
      s <| sl_statem; rx; rX; fib := flip_ib s s.(sl_statem).(rx).(rX).(fib) |>.
Definition rc_basic (mp : mblk) (s : xp) : xp :=
  if s.(sl_statem).(rx).(rR).(fib) =? s.(sl_statem).(rx).(rX).(fib) then
    if negb (s.(sl_statem).(abnormal_fibr) =? 0) then
      if s.(sl_statem).(unf) =? 1 then
        rc_basic_accept mp (s <| sl_statem; abnormal_fibr := 0 |>)
      else s <| sl_statem; unf := 1 |>
    else rc_basic_accept mp s
  else
    if negb (s.(sl_statem).(abnormal_fibr) =? 0) then
      (sl_lsc_link_failure SL_FAIL_ABNORMAL_FIBR s).2
    else if s.(sl_statem).(rtr) then
      let s := sl_txc_bsnr_and_bibr s in
      set_rF s
    else
      let s := s <| sl_statem; abnormal_fibr := 1 |> in
      s <| sl_statem; unf := 0 |>.

(** A backward sequence number outside the messages that wait for an
    acknowledgement is tolerated once in a row. *)
Definition rc_bsnr_outside (s : xp) : bool :=
  SN_OUTSIDE (FSN_add s s.(sl_statem).(rx).(rF).(fsn) (-1)) s.(sl_statem).(rx).(rR).(bsn)
    s.(sl_statem).(rx).(rT).(fsn).
Definition rc_fisu_msu (mp : mblk) (s : xp) : xp :=
  if rc_bsnr_outside s then
    if negb (s.(sl_statem).(abnormal_bsnr) =? 0) then
      let! s := sl_lsc_link_failure SL_FAIL_ABNORMAL_BSNR s in
      s <| sl_statem; rc_state := IDLE |>
    else
      let s := s <| sl_statem; abnormal_bsnr := 1 |> in
      s <| sl_statem; unb := 0 |>
  else
    let go s := if is_pcr s then rc_pcr mp s else rc_basic mp s in
    if negb (s.(sl_statem).(abnormal_bsnr) =? 0) then
      if s.(sl_statem).(unb) =? 1 then go (s <| sl_statem; abnormal_bsnr := 0 |>)
      else s <| sl_statem; unb := 1 |>
    else go s.

Definition sl_rc_signal_unit (mp : mblk) (s : xp) : xp :=
  if negb (s.(sl_statem).(rc_state) =s IN_SERVICE) then s
  else
    let '(mp, s) := rc_parse mp s in
    let len := s.(sl_statem).(rx).(r_len) in
    if (len =? 1) || (len =? 2) then rc_lssu s else rc_fisu_msu mp s.
