(* ===== verification/LscCtl.v ===== *)
(** * Link control

    The operations the user of the link asks for, and those that start the
    machines, of [drivers/sl_x100p.c] from [sl_lsc_stop] to
    [sl_lsc_power_on]. *)
From S2P Require Import Prelude Bufq Xp Prims Timers Txc Lsc.

Definition sl_lsc_stop (s : xp) : xp :=
  if negb (s.(sl_statem).(lsc_state) =s LSC_OUT_OF_SERVICE) then
    let s := sl_iac_stop s in
    let s := xp_timer_stop T1 s in
    let s := sl_rc_stop s in
    let s := sl_suerm_stop s in
    let s := sl_poc_stop s in
    let s := sl_txc_send_sios s in
    let s := s <| sl_statem; emergency := false |> in
    let s := s <| sl_statem; local_processor_outage := false |> in
    let s := s <| sl_statem; remote_processor_outage := false |> in
    s <| sl_statem; lsc_state := LSC_OUT_OF_SERVICE |>
  else s.
Definition sl_lsc_clear_rtb (s : xp) : xp :=
  if s.(sl_statem).(lsc_state) =s LSC_PROCESSOR_OUTAGE then
    let s := s <| sl_statem; local_processor_outage := false |> in
    let s := sl_txc_send_fisu s in
    sl_txc_clear_rtb s
  else s.

Definition sl_iac_correct_su (s : xp) : xp :=
  if s.(sl_statem).(iac_state) =s IAC_PROVING then
    if s.(sl_statem).(further_proving) then
      let s := xp_timer_stop T4 s in
      let s := sl_aerm_start s in
      let s := xp_timer_start T4 s in
      s <| sl_statem; further_proving := false |>
    else s
  else s.
(** The result of the indication is ignored. *)
Definition sl_iac_abort_proving (s : xp) : xp :=
  if s.(sl_statem).(iac_state) =s IAC_PROVING then
    let s := s <| sl_statem; Cp := u32 (s.(sl_statem).(Cp) + 1) |> in
    if s.(sl_statem).(Cp) =? s.(sl_conf).(cf_M) then
      let! s := sl_lsc_alignment_not_possible s in
      let s := xp_timer_stop T4 s in
      let s := sl_aerm_stop s in
      let s := s <| sl_statem; emergency := false |> in
      s <| sl_statem; iac_state := IAC_IDLE |>
    else s <| sl_statem; further_proving := true |>
  else s.

Definition sl_lsc_clear_buffers (s : xp) : Z * xp :=
  match s.(sl_statem).(lsc_state) with
  | LSC_OUT_OF_SERVICE | LSC_INITIAL_ALIGNMENT =>
      match pvar_switch s with
      | PV_ITU => (QR_DONE, s)
      | PV_ANSI =>
          let? s := sl_rtb_cleared_ind s in
          (QR_DONE, s <| sl_statem; local_processor_outage := false |>)
      | PV_OTHER => (QR_DONE, s)
      end
  | LSC_ALIGNED_NOT_READY =>
      match pvar_switch s with
      | PV_ITU => (QR_DONE, s)
      | PV_ANSI =>
          let? s := sl_rtb_cleared_ind s in
          let s := s <| sl_statem; local_processor_outage := false |> in
          let s := sl_txc_send_fisu s in
          (QR_DONE, s <| sl_statem; lsc_state := LSC_ALIGNED_READY |>)
      | PV_OTHER => (QR_DONE, s)
      end
  | LSC_PROCESSOR_OUTAGE =>
      match pvar_switch s with
      | PV_ITU =>
          let s := sl_txc_flush_buffers s in
          let s := s <| sl_statem; l3_indication_received := true |> in
          if s.(sl_statem).(processor_outage) then (QR_DONE, s)
          else
            let s := s <| sl_statem; l3_indication_received := false |> in
            let s := sl_txc_send_msu s in
            let s := s <| sl_statem; local_processor_outage := false |> in
            let s := sl_rc_accept_msu_fisu s in
            (QR_DONE, s <| sl_statem; lsc_state := LSC_IN_SERVICE |>)
      | PV_ANSI =>
          let s := s <| sl_statem; local_processor_outage := false |> in
          let? s := sl_rc_clear_rb s in
          let s := sl_rc_accept_msu_fisu s in
          let s := sl_txc_send_fisu s in
          let s := sl_txc_clear_tb s in
          (QR_DONE, sl_txc_clear_rtb s)
      | PV_OTHER => (QR_DONE, s)
      end
  | _ => (QR_DONE, s)
  end.

(** Not called by the driver. *)
Definition sl_lsc_continue (s : xp) : xp :=
  if s.(sl_statem).(lsc_state) =s LSC_PROCESSOR_OUTAGE then
    if s.(sl_statem).(processor_outage) then s
    else
      let s := s <| sl_statem; l3_indication_received := false |> in
      let s := sl_txc_send_msu s in
      let s := s <| sl_statem; local_processor_outage := false |> in
      let s := sl_rc_accept_msu_fisu s in
      s <| sl_statem; lsc_state := LSC_IN_SERVICE |>
  else s.

Definition sl_poc_local_processor_recovered (s : xp) : xp :=
  match s.(sl_statem).(poc_state) with
  | POC_LOCAL_PROCESSOR_OUTAGE =>
      let s := sl_lsc_no_processor_outage s in
      s <| sl_statem; poc_state := POC_IDLE |>
  | POC_BOTH_PROCESSORS_OUT => s <| sl_statem; poc_state := POC_REMOTE_PROCESSOR_OUTAGE |>
  | _ => s
  end.

Definition sl_lsc_local_processor_recovered (s : xp) : xp :=
  match s.(sl_statem).(lsc_state) with
  | LSC_OUT_OF_SERVICE | LSC_INITIAL_ALIGNMENT =>
      s <| sl_statem; local_processor_outage := false |>
  | LSC_ALIGNED_READY => s
  | LSC_ALIGNED_NOT_READY =>
      let s := if negb (pvar_is SS7_PVAR_ANSI_92 s)
               then sl_poc_local_processor_recovered s else s in
      let s := s <| sl_statem; local_processor_outage := false |> in
      let s := sl_txc_send_fisu s in
      let s := if pvar_is SS7_PVAR_ITUT_96 s then sl_rc_accept_msu_fisu s else s in
      s <| sl_statem; lsc_state := LSC_ALIGNED_READY |>
  | LSC_PROCESSOR_OUTAGE =>
      match pvar_switch s with
      | PV_ITU =>
          let s := sl_poc_local_processor_recovered s in
          let s := sl_rc_retrieve_fsnx s in
          let s := sl_txc_send_fisu s in
          s <| sl_statem; lsc_state := LSC_IN_SERVICE |>
      | PV_ANSI =>
          let s := s <| sl_statem; local_processor_outage := false |> in
          let s := sl_rc_accept_msu_fisu s in
          if s.(sl_statem).(remote_processor_outage) then
            let s := sl_txc_send_fisu s in
            let! s := sl_remote_processor_outage_ind s in
            s
          else
            let s := sl_txc_send_msu s in
            s <| sl_statem; lsc_state := LSC_IN_SERVICE |>
      | PV_OTHER => s
      end
  | _ => s
  end.
(** [#define sl_lsc_resume sl_lsc_local_processor_recovered]. *)
Definition sl_lsc_resume (s : xp) : xp := sl_lsc_local_processor_recovered s.

Definition sl_lsc_local_processor_outage (s : xp) : xp :=
  match s.(sl_statem).(lsc_state) with
  | LSC_OUT_OF_SERVICE | LSC_INITIAL_ALIGNMENT =>
      s <| sl_statem; local_processor_outage := true |>
  | LSC_ALIGNED_READY =>
      let s := if pvar_is SS7_PVAR_ANSI_92 s
               then s <| sl_statem; local_processor_outage := true |>
               else sl_poc_local_processor_outage s in
      let s := sl_txc_send_sipo s in
      let s := if negb (pvar_is SS7_PVAR_ITUT_93 s) then sl_rc_reject_msu_fisu s else s in
      s <| sl_statem; lsc_state := LSC_ALIGNED_NOT_READY |>
  | LSC_IN_SERVICE =>
      let s := if pvar_is SS7_PVAR_ANSI_92 s
               then s <| sl_statem; local_processor_outage := true |>
               else sl_poc_local_processor_outage s <| sl_statem; processor_outage := true |> in
      let s := sl_txc_send_sipo s in
      let s := sl_rc_reject_msu_fisu s in
      let s := if pvar_is SS7_PVAR_ANSI_92 s then sl_cc_stop (sl_rc_align_fsnx s) else s in
      s <| sl_statem; lsc_state := LSC_PROCESSOR_OUTAGE |>
  | LSC_PROCESSOR_OUTAGE =>
      let s := if pvar_is SS7_PVAR_ANSI_92 s
               then s <| sl_statem; local_processor_outage := true |>
               else sl_poc_local_processor_outage s in
      sl_txc_send_sipo s
  | _ => s
  end.

Definition sl_iac_emergency (s : xp) : xp :=
  match s.(sl_statem).(iac_state) with
  | IAC_PROVING =>
      let s := sl_txc_send_sie s in
      let s := xp_timer_stop T4 s in
      let s := s <| sl_statem; t4v := s.(sl_conf).(cf_t4e) |> in
      let s := sl_aerm_stop s in
      let s := sl_aerm_set_ti_to_tie s in
      let s := sl_aerm_start s in
      let s := xp_timer_start T4 s in
      s <| sl_statem; further_proving := false |>
  | IAC_ALIGNED =>
      let s := sl_txc_send_sie s in
      s <| sl_statem; t4v := s.(sl_conf).(cf_t4e) |>
  | IAC_IDLE | IAC_NOT_ALIGNED => s <| sl_statem; emergency := true |>
  end.
Definition sl_lsc_emergency (s : xp) : xp :=
  sl_iac_emergency (s <| sl_statem; emergency := true |>).
Definition sl_lsc_emergency_ceases (s : xp) : xp := s <| sl_statem; emergency := false |>.
Definition sl_iac_start (s : xp) : xp :=
  if s.(sl_statem).(iac_state) =s IAC_IDLE then
    let s := sl_txc_send_sio s in
    let s := xp_timer_start T2 s in
    s <| sl_statem; iac_state := IAC_NOT_ALIGNED |>
  else s.
Definition sl_daedt_start (s : xp) : xp :=
  let s := s <| sdt_statem; daedt_state := IN_SERVICE |> in
  let s := s <| sdl_statem; tx_state := IN_SERVICE |> in
  s <| sdl_conf; ifflags := Z.lor s.(sdl_conf).(ifflags) (Z.lor SDL_IF_UP SDL_IF_TX_RUNNING) |>.

Definition sl_txc_start (s : xp) : xp :=
  let s := s <| sl_statem; forced_retransmission := false |> in
  let s := s <| sl_statem; sib_received := false |> in
  let s := s <| sl_statem; Ct := 0 |> in
  let s := s <| sl_statem; rtb_full := false |> in
  let s := s <| sl_statem; clear_rtb := false |> in
  let s :=
    if pvar_is SS7_PVAR_ANSI_92 s then
      let s := s <| sl_statem; tx; t_sio := LSSU_SIOS |> in
      s <| sl_statem; lssu_available := true |>
    else s in
  let s := s <| sl_statem; msu_inhibited := false |> in
  let s :=
    if is_xsn s then
      let s := s <| sl_statem; sn_mask := 0x7fff |> in
      s <| sl_statem; ib_mask := 0x8000 |>
    else
      let s := s <| sl_statem; sn_mask := 0x7f |> in
      s <| sl_statem; ib_mask := 0x80 |> in
  let s := s <| sl_statem; tx; tN; fsn := s.(sl_statem).(sn_mask) |> in
  let s := s <| sl_statem; tx; tL; fsn := s.(sl_statem).(tx).(tN).(fsn) |> in
  let s := s <| sl_statem; tx; tX; fsn := 0 |> in
  let s := s <| sl_statem; tx; tN; bib := s.(sl_statem).(ib_mask) |> in
  let s := s <| sl_statem; tx; tN; fib := s.(sl_statem).(tx).(tN).(bib) |> in
  let s := s <| sl_statem; tx; tF; fsn := 0 |> in
  let s := s <| sl_statem; Cm := 0 |> in
  let s := s <| sl_statem; Zsn := 0 |> in
  let s := s <| sl_statem; z_ptr := None |> in
  let s :=
    if s.(sl_statem).(txc_state) =s TXC_IDLE then
      let s := if negb (pvar_is SS7_PVAR_ANSI_92 s)
               then s <| sl_statem; lssu_available := false |> else s in
      sl_daedt_start s
    else s in
  s <| sl_statem; txc_state := TXC_IN_SERVICE |>.

Definition sl_lsc_start (s : xp) : xp :=
  if s.(sl_statem).(lsc_state) =s LSC_OUT_OF_SERVICE then
    let s := sl_rc_start s in
    let s := sl_txc_start s in
    let s := if s.(sl_statem).(emergency) then sl_iac_emergency s else s in
    let s := sl_iac_start s in
    s <| sl_statem; lsc_state := LSC_INITIAL_ALIGNMENT |>
  else s.
Definition sl_lsc_retrieve_bsnt (s : xp) : Z * xp :=
  match s.(sl_statem).(lsc_state) with
  | LSC_OUT_OF_SERVICE | LSC_PROCESSOR_OUTAGE => sl_rc_retrieve_bsnt s
  | _ => (QR_DONE, s)
  end.
Definition sl_lsc_retrieval_request_and_fsnc (fsnc : Z) (s : xp) : Z * xp :=
  match s.(sl_statem).(lsc_state) with
  | LSC_OUT_OF_SERVICE | LSC_PROCESSOR_OUTAGE => sl_txc_retrieval_request_and_fsnc fsnc s
  | _ => (QR_DONE, s)
  end.
Definition sl_aerm_set_ti_to_tin (s : xp) : xp :=
  if s.(sdt_statem).(aerm_state) =s IDLE
  then s <| sdt_statem; Ti := s.(sdt_conf).(Tin) |> else s.
Definition sl_lsc_power_on (s : xp) : xp :=
  if s.(sl_statem).(lsc_state) =s LSC_POWER_OFF then
    let s := sl_txc_start s in
    let s := sl_txc_send_sios s in
    let s := sl_aerm_set_ti_to_tin s in
    let s := s <| sl_statem; local_processor_outage := false |> in
    let s := s <| sl_statem; emergency := false |> in
    s <| sl_statem; lsc_state := LSC_OUT_OF_SERVICE |>
  else s.
