(* ===== verification/Monitors.v ===== *)
(** * Error monitors, the interface to the framer, and timeouts

    AERM, SUERM and EIM count signal units in error; [sl_daedr_*] and
    [sl_daedt_*] are what the Soft-HDLC calls for each frame received and each
    frame to send; [xp_t1_timeout] to [xp_t8_timeout] are the handlers of the
    timers ([drivers/sl_x100p.c]). *)
From S2P Require Import Prelude Bufq Xp Prims Timers Txc Lsc Rc LscCtl.

(** ** Messages from the user *)

(** A message of the write queue: [w_data] for [M_DATA], else [M_PROTO] with
    the primitive in the first block; [w_room] is [b_rptr - db_base] of its
    first block, [w_junk] what the header block holds before it is written. *)
Record wmsg := WMsg {
  w_id : Z; w_data : bool; w_room : Z; w_junk : list Z; w_blks : list (list Z) }.

Definition sl_txc_message_for_transmission (mp : mblk) (s : xp) : xp :=
  let s := s <| sl_tb := bufq_queue s.(sl_tb) mp |> in
  let s := s <| sl_statem; Cm := u32 (s.(sl_statem).(Cm) + 1) |> in
  sl_check_congestion s.

Definition hlen (s : xp) : nat := if is_xsn s then 6%nat else 3%nat.
Definition junk_block (n : nat) (w : wmsg) : list Z := take n (w.(w_junk) ++ repeat 0 n).

(** The header goes in the block of the primitive, in front of the data if
    there is room, or in a block of its own. *)
Definition sl_lsc_pdu (w : wmsg) (s : xp) : Z * xp :=
  let hl := hlen s in
  if 1024 <? s.(sl_tb).(q_count) then (- ENOBUFS, s)
  else if w.(w_data) then
    if Z.of_nat hl <=? - w.(w_room) then
      let blks := match w.(w_blks) with
                  | [] => [junk_block hl w] | b :: l => (junk_block hl w ++ b) :: l end in
      (QR_ABSORBED, sl_txc_message_for_transmission (Mblk w.(w_id) blks) s)
    else
      let '(i, s) := new_msg s in
      match i with
      | Some i =>
          (QR_ABSORBED,
           sl_txc_message_for_transmission (Mblk i (junk_block hl w :: w.(w_blks))) s)
      | None => (- ENOBUFS, s)
      end
  else
    match w.(w_blks) with
    | [] | [_] => (- EFAULT, s)
    | _ :: dp =>
        (QR_ABSORBED, sl_txc_message_for_transmission (Mblk w.(w_id) (junk_block hl w :: dp)) s)
    end.

(** ** AERM, SUERM and EIM *)

Definition sl_aerm_su_in_error (s : xp) : xp :=
  if s.(sdt_statem).(aerm_state) =s IN_SERVICE then
    let s := s <| sdt_statem; Ca := s32 (s.(sdt_statem).(Ca) + 1) |> in
    if u32 s.(sdt_statem).(Ca) =? s.(sdt_statem).(Ti) then
      let s := s <| sdt_statem; aborted_proving := true |> in
      let s := sl_iac_abort_proving s in
      let s := s <| sdt_statem; Ca := s32 (s.(sdt_statem).(Ca) - 1) |> in
      s <| sdt_statem; aerm_state := IDLE |>
    else s
  else s.
Definition sl_aerm_correct_su (s : xp) : xp :=
  if s.(sdt_statem).(aerm_state) =s IDLE then
    if s.(sdt_statem).(aborted_proving) then
      let s := sl_iac_correct_su s in
      s <| sdt_statem; aborted_proving := false |>
    else s
  else s.

(** One signal unit of the interval of D units that lets an error expire. *)
Definition suerm_count_su (s : xp) : xp :=
  let s := s <| sdt_statem; Ns := u32 (s.(sdt_statem).(Ns) + 1) |> in
  if s.(sdt_conf).(cf_D) <=? s.(sdt_statem).(Ns) then
    let s := s <| sdt_statem; Ns := 0 |> in
    if negb (s.(sdt_statem).(Cs) =? 0)
    then s <| sdt_statem; Cs := s32 (s.(sdt_statem).(Cs) - 1) |> else s
  else s.
Definition sl_suerm_su_in_error (s : xp) : xp :=
  if s.(sdt_statem).(suerm_state) =s IN_SERVICE then
    let s := s <| sdt_statem; Cs := s32 (s.(sdt_statem).(Cs) + 1) |> in
    if s.(sdt_conf).(cf_T) <=? u32 s.(sdt_statem).(Cs) then
      let! s := sl_lsc_link_failure SL_FAIL_SUERM_EIM s in
      let s := s <| sdt_statem; Ca := s32 (s.(sdt_statem).(Ca) - 1) |> in
      s <| sdt_statem; suerm_state := IDLE |>
    else suerm_count_su s
  else s.
Definition sl_eim_su_in_error (s : xp) : xp :=
  if s.(sdt_statem).(eim_state) =s IN_SERVICE
  then s <| sdt_statem; interval_error := true |> else s.
Definition sl_suerm_correct_su (s : xp) : xp :=
  if s.(sdt_statem).(suerm_state) =s IN_SERVICE then suerm_count_su s else s.
Definition sl_eim_correct_su (s : xp) : xp :=
  if s.(sdt_statem).(eim_state) =s IN_SERVICE
  then s <| sdt_statem; su_received := true |> else s.

(** ** Frames received *)

Definition sl_daedr_correct_su (s : xp) : xp :=
  let s := sl_eim_correct_su s in
  let s := sl_suerm_correct_su s in
  sl_aerm_correct_su s.
Definition sl_daedr_su_in_error (s : xp) : xp :=
  if negb (s.(sl_statem).(lsc_state) =s LSC_POWER_OFF) then
    let s := sl_eim_su_in_error s in
    let s := sl_suerm_su_in_error s in
    sl_aerm_su_in_error s
  else
    match s.(xp_rx).(rx_cmp) with
    | Some _ => s <| xp_rx; rx_cmp := None |>
    | None => s
    end.

(** A short frame equal to the last short frame is only counted; [rx_cmp] is
    the copy it is compared with. *)
Definition sdt_compressed (mp : mblk) (s : xp) : bool :=
  let mlen := if is_xsn s then 8 else 5 in
  let len := msgsize mp in
  match s.(xp_rx).(rx_cmp) with
  | None => false
  | Some cmp =>
      negb ((mlen <? len) || negb (len =? msgsize cmp)) &&
      bool_decide (m_data mp = m_data cmp)
  end.
Definition incr_sdt (f : sdt_stats_t → Z) `{!Setter f} (s : xp) : xp :=
  s <| sdt_stats; f := u32 (f s.(sdt_stats) + 1) |>.
Definition sl_daedr_received_bits (mp : option mblk) (s : xp) : xp :=
  if negb (s.(sl_statem).(lsc_state) =s LSC_POWER_OFF) then
    match mp with
    | Some mp => sl_daedr_correct_su (sl_rc_signal_unit mp s)
    | None =>
        sl_daedr_correct_su (if s.(sl_statem).(rc_state) =s IN_SERVICE then fault s else s)
    end
  else
    match mp with
    | None => s (* swerr *)
    | Some mp =>
        let mlen := if is_xsn s then 8 else 5 in
        let len := msgsize mp in
        if sdt_compressed mp s then
          let s := s <| xp_rx; rx_repeat := u32 (s.(xp_rx).(rx_repeat) + 1) |> in
          incr_sdt rx_sus_compressed s
        else
          let s :=
            match s.(xp_rx).(rx_cmp) with
            | Some _ => s <| xp_rx; rx_repeat := 0 |>
            | None => s
            end in
          let s :=
            if len <=? mlen then
              let '(have, s) :=
                match s.(xp_rx).(rx_cmp) with
                | Some cmp => (Some cmp.(m_id), s)
                | None => new_msg s
                end in
              match have with
              | Some i =>
                  let s := s <| xp_rx; rx_cmp := Some (Mblk i [m_data mp]) |> in
                  s <| xp_rx; rx_repeat := 0 |>
              | None => s
              end
            else s in
          let '(r, s) := sdt_rc_signal_unit_ind (Some mp) 1 s in
          if negb (r =? QR_ABSORBED) then incr_sdt rx_buffer_overflows s else s
    end.

(** ** Frames to send *)

(** The test whether a frame queued by the user may be repeated while the queue
    is empty. *)
Definition daedt_no_repeat (b : list Z) (len : Z) (s : xp) : bool :=
  let hl := Z.of_nat (hlen s) in
  let mlen := hl + 2 in
  if mlen <? len then true
  else if (mlen =? len + 1) || (mlen =? len + 2) then
    let '(li, sio) :=
      if is_xsn s then
        (Z.land (Z.lor (Z.shiftl (byte_at b 5) 8) (byte_at b 4)) 0x1ff, byte_at b 6)
      else (Z.land (byte_at b 2) 0x3f, byte_at b 3) in
    negb (li =? mlen - len) || negb ((0 <=? sio) && (sio <=? LSSU_SIPO))
  else false.
(** The copy that is repeated, with its length indicator corrected. *)
Definition repeat_copy (b : list Z) (len : Z) (s : xp) : list Z :=
  let hl := Z.of_nat (hlen s) in
  let c := take (Z.to_nat len) b in
  if is_xsn s then
    let c := <[4%nat := Z.land (byte_at c 4) 0x00]> c in
    let c := <[5%nat := Z.land (byte_at c 5) 0xfe]> c in
    <[4%nat := u8 (byte_at c 4 + (len - hl))]> c
  else
    let c := <[2%nat := Z.land (byte_at c 2) 0xc0]> c in
    <[2%nat := u8 (byte_at c 2 + (len - hl))]> c.

Definition sdt_transmission_request (s : xp) : option mblk * xp :=
  match bufq_dequeue s.(sdt_tb) with
  | (Some mp, q) =>
      let s := s <| sdt_tb := q |> in
      let len := msgsize mp in
      let mlen := Z.of_nat (hlen s) + 2 in
      let s :=
        if negb (s.(sdt_tb).(q_count) <? 512) && negb (iq_q_count s =? 0)
        then qenable_iq s else s in
      let b := m_data mp in
      let dont_repeat s := (Some mp, s <| xp_tx; tx_cmp := None |>) in
      if daedt_no_repeat b len s then dont_repeat s
      else
        let '(have, s) :=
          match s.(xp_tx).(tx_cmp) with
          | Some cmp => (Some cmp.(m_id), s)
          | None => new_msg s
          end in
        match have with
        | Some i =>
            let len := if mlen <? len then Z.of_nat (hlen s) else len in
            let s := s <| xp_tx; tx_cmp := Some (Mblk i [repeat_copy b len s]) |> in
            (Some mp, s <| xp_tx; tx_repeat := 0 |>)
        | None => dont_repeat s
        end
  | (None, _) =>
      match s.(xp_tx).(tx_cmp) with
      | Some mp =>
          let s := incr_sdt tx_sus_repeated s in
          (Some mp, s <| xp_tx; tx_repeat := u32 (s.(xp_tx).(tx_repeat) + 1) |>)
      | None => (None, incr_sdt tx_buffer_overflows s)
      end
  end.

Definition sl_daedt_transmission_request (s : xp) : option mblk * xp :=
  if negb (s.(sl_statem).(lsc_state) =s LSC_POWER_OFF) then
    let '(mp, s) := sl_txc_transmission_request s in
    (mp, match mp with None => incr_sdt tx_buffer_overflows s | Some _ => s end)
  else if negb (s.(sdt_statem).(daedt_state) =s IDLE) then sdt_transmission_request s
  else if negb (s.(sdl_statem).(tx_state) =s IDLE) then
    match bufq_dequeue s.(sdl_tb) with
    | (Some mp, q) =>
        let s := s <| sdl_tb := q |> in
        (Some mp, if (s.(sdl_tb).(q_count) <? 32) && negb (iq_q_count s =? 0)
                  then qenable_iq s else s)
    | (None, _) =>
        (None, s <| sdl_stats; sdl_tx_buffer_overflows :=
                      u32 (s.(sdl_stats).(sdl_tx_buffer_overflows) + 1) |>)
    end
  else (None, s).

(** ** Timeouts *)

Definition xp_t1_timeout (s : xp) : Z * xp :=
  let? s := sl_out_of_service_ind SL_FAIL_T1_TIMEOUT s in
  let s := s <| sl_statem; failure_reason := SL_FAIL_T1_TIMEOUT |> in
  let s := sl_rc_stop s in
  let s := sl_suerm_stop s in
  let s := sl_txc_send_sios s in
  let s := s <| sl_statem; emergency := false |> in
  let s :=
    if s.(sl_statem).(lsc_state) =s LSC_ALIGNED_NOT_READY then
      let s := sl_poc_stop s in
      s <| sl_statem; local_processor_outage := false |>
    else s in
  let s := s <| sl_statem; lsc_state := LSC_OUT_OF_SERVICE |> in
  (QR_DONE, s).
Definition xp_t2_timeout (s : xp) : Z * xp :=
  if s.(sl_statem).(iac_state) =s IAC_NOT_ALIGNED then
    let? s := sl_lsc_alignment_not_possible s in
    let s := s <| sl_statem; emergency := false |> in
    (QR_DONE, s <| sl_statem; iac_state := IAC_IDLE |>)
  else (QR_DONE, s).
Definition xp_t3_timeout (s : xp) : Z * xp :=
  if s.(sl_statem).(iac_state) =s IAC_ALIGNED then
    let? s := sl_lsc_alignment_not_possible s in
    let s := s <| sl_statem; emergency := false |> in
    (QR_DONE, s <| sl_statem; iac_state := IAC_IDLE |>)
  else (QR_DONE, s).
Definition xp_t4_timeout (s : xp) : Z * xp :=
  if s.(sl_statem).(iac_state) =s IAC_PROVING then
    if s.(sl_statem).(further_proving) then
      let s := sl_aerm_start s in
      let s := xp_timer_start T4 s in
      (QR_DONE, s <| sl_statem; further_proving := false |>)
    else
      let s := sl_lsc_alignment_complete s in
      let s := sl_aerm_stop s in
      let s := s <| sl_statem; emergency := false |> in
      (QR_DONE, s <| sl_statem; iac_state := IAC_IDLE |>)
  else (QR_DONE, s).
Definition xp_t5_timeout (s : xp) : Z * xp :=
  if s.(sl_statem).(cc_state) =s CC_BUSY then
    let s := sl_txc_send_sib s in
    (QR_DONE, xp_timer_start T5 s)
  else (QR_DONE, s).
Definition xp_t6_timeout (s : xp) : Z * xp :=
  let? s := sl_lsc_link_failure SL_FAIL_CONG_TIMEOUT s in
  let s := s <| sl_statem; sib_received := false |> in
  (QR_DONE, xp_timer_stop T7 s).
Definition xp_t7_timeout (s : xp) : Z * xp :=
  let? s := sl_lsc_link_failure SL_FAIL_ACK_TIMEOUT s in
  let s := xp_timer_stop T6 s in
  (QR_DONE, if pvar_is SS7_PVAR_ITUT_96 s
            then s <| sl_statem; sib_received := false |> else s).
(** The error count of EIM falls by De in an interval with a correct unit and
    no error, and rises by Ue in any other. *)
Definition eim_rise (s : xp) : Z * xp :=
  let s := s <| sdt_statem; Ce := s32 (s.(sdt_statem).(Ce) + s.(sdt_conf).(Ue)) |> in
  if s.(sdt_conf).(Te) <? u32 s.(sdt_statem).(Ce) then
    let '(err, s) := sl_lsc_link_failure SL_FAIL_SUERM_EIM s in
    if negb (err =? 0) then
      (err, s <| sdt_statem; Ce := s32 (s.(sdt_statem).(Ce) - s.(sdt_conf).(Ue)) |>)
    else
      let s := s <| sdt_statem; eim_state := IDLE |> in
      (QR_DONE, s <| sdt_statem; interval_error := false |>)
  else (QR_DONE, s <| sdt_statem; interval_error := false |>).
Definition eim_fall (s : xp) : xp :=
  let s := s <| sdt_statem; Ce := s32 (s.(sdt_statem).(Ce) - s.(sdt_conf).(De)) |> in
  if s.(sdt_statem).(Ce) <? 0 then s <| sdt_statem; Ce := 0 |> else s.
Definition xp_t8_timeout (s : xp) : Z * xp :=
  if s.(sdt_statem).(eim_state) =s IN_SERVICE then
    let s := xp_timer_start T8 s in
    if s.(sdt_statem).(su_received) then
      let s := s <| sdt_statem; su_received := false |> in
      if negb s.(sdt_statem).(interval_error) then (QR_DONE, eim_fall s) else eim_rise s
    else eim_rise s
  else (QR_DONE, s).

(** The expiry functions [xp_t1_expiry] to [xp_t8_expiry]. *)
Definition xp_t1_expiry (free : bool) (s : xp) : xp := ss7_do_timeout T1 xp_t1_timeout free s.
Definition xp_t2_expiry (free : bool) (s : xp) : xp := ss7_do_timeout T2 xp_t2_timeout free s.
Definition xp_t3_expiry (free : bool) (s : xp) : xp := ss7_do_timeout T3 xp_t3_timeout free s.
Definition xp_t4_expiry (free : bool) (s : xp) : xp := ss7_do_timeout T4 xp_t4_timeout free s.
Definition xp_t5_expiry (free : bool) (s : xp) : xp := ss7_do_timeout T5 xp_t5_timeout free s.
Definition xp_t6_expiry (free : bool) (s : xp) : xp := ss7_do_timeout T6 xp_t6_timeout free s.
Definition xp_t7_expiry (free : bool) (s : xp) : xp := ss7_do_timeout T7 xp_t7_timeout free s.
Definition xp_t8_expiry (free : bool) (s : xp) : xp := ss7_do_timeout T8 xp_t8_timeout free s.
