(* ===== verification/Requests.v ===== *)
(** * Requests from above, and the read side

    The handlers of the primitives the user of a channel sends, of the data and
    flush messages, and of the read queue ([drivers/sl_x100p.c] from
    [xp_send_data] to [sdl_disconnect_req], [xp_r_data], [xp_w_flush]). *)
From S2P Require Import Prelude Bufq Xp Prims Timers Txc Lsc Rc LscCtl Monitors.

(** The guard every handler starts with. *)
Definition enabled (s : xp) : bool := s.(i_state) =s LMI_ENABLED.

(** The first block of the request, little endian 32-bit words. *)
Definition req_block (w : wmsg) : list Z := match w.(w_blks) with [] => [] | b :: _ => b end.
Definition le32_at (b : list Z) (i : nat) : Z :=
  byte_at b i + 2 ^ 8 * byte_at b (i + 1) + 2 ^ 16 * byte_at b (i + 2) +
  2 ^ 24 * byte_at b (i + 3).

(** ** Data *)

Definition wmsg_msg (w : wmsg) : mblk := Mblk w.(w_id) w.(w_blks).
Definition xp_send_data (w : wmsg) (s : xp) : Z * xp :=
  if negb (enabled s) then m_error EPROTO s
  else if negb (s.(sl_statem).(lsc_state) =s LSC_POWER_OFF) then sl_lsc_pdu w s
  else if negb (s.(sdt_statem).(daedt_state) =s IDLE) then
    if 1024 <? s.(sdt_tb).(q_count) then (- EBUSY, s)
    else (QR_ABSORBED, s <| sdt_tb := bufq_queue s.(sdt_tb) (wmsg_msg w) |>)
  else if negb (s.(sdl_statem).(tx_state) =s IDLE) then
    if 64 <? s.(sdl_tb).(q_count) then (- EBUSY, s)
    else (QR_ABSORBED, s <| sdl_tb := bufq_queue s.(sdl_tb) (wmsg_msg w) |>)
  else (QR_DONE, s).
Definition sl_pdu_req (w : wmsg) (s : xp) : Z * xp :=
  if negb (enabled s) then (QR_DONE, s) else sl_lsc_pdu w s.

(** ** Link *)

Definition sl_emergency_req (s : xp) : Z * xp :=
  if negb (enabled s) then m_error EPROTO s else (QR_DONE, sl_lsc_emergency s).
Definition sl_emergency_ceases_req (s : xp) : Z * xp :=
  if negb (enabled s) then m_error EPROTO s else (QR_DONE, sl_lsc_emergency_ceases s).
Definition sl_start_req (s : xp) : Z * xp :=
  if negb (enabled s) then m_error EPROTO s else (QR_DONE, sl_lsc_start s).
Definition sl_stop_req (s : xp) : Z * xp :=
  if negb (enabled s) then m_error EPROTO s else (QR_DONE, sl_lsc_stop s).
Definition sl_retrieve_bsnt_req (s : xp) : Z * xp :=
  if negb (enabled s) then m_error EPROTO s else sl_lsc_retrieve_bsnt s.
(** [sizeof(sl_retrieval_req_and_fsnc_t)] is 8. *)
Definition sl_retrieval_request_and_fsnc_req (w : wmsg) (s : xp) : Z * xp :=
  let b := req_block w in
  if 8 <=? blen b then
    if negb (enabled s) then m_error EPROTO s
    else sl_lsc_retrieval_request_and_fsnc (le32_at b 4) s
  else (- EMSGSIZE, s).
Definition sl_resume_req (s : xp) : Z * xp :=
  if negb (enabled s) then m_error EPROTO s else (QR_DONE, sl_lsc_resume s).
Definition sl_clear_buffers_req (s : xp) : Z * xp :=
  if negb (enabled s) then m_error EPROTO s else sl_lsc_clear_buffers s.
Definition sl_clear_rtb_req (s : xp) : Z * xp :=
  if negb (enabled s) then m_error EPROTO s else (QR_DONE, sl_lsc_clear_rtb s).
Definition sl_local_processor_outage_req (s : xp) : Z * xp :=
  if negb (enabled s) then m_error EPROTO s else (QR_DONE, sl_lsc_local_processor_outage s).
Definition sl_congestion_discard_req (s : xp) : Z * xp :=
  if negb (enabled s) then m_error EPROTO s else (QR_DONE, sl_lsc_congestion_discard s).
Definition sl_congestion_accept_req (s : xp) : Z * xp :=
  if negb (enabled s) then m_error EPROTO s else (QR_DONE, sl_lsc_congestion_accept s).
Definition sl_no_congestion_req (s : xp) : Z * xp :=
  if negb (enabled s) then m_error EPROTO s else (QR_DONE, sl_lsc_no_congestion s).
Definition sl_power_on_req (s : xp) : Z * xp :=
  if negb (enabled s) then m_error EPROTO s else (QR_DONE, sl_lsc_power_on s).

(** ** Signalling data terminal *)

Definition sdt_daedt_transmission_req (s : xp) : Z * xp := (QR_STRIP, s).
Definition sdt_daedt_start_req (s : xp) : Z * xp :=
  if negb (enabled s) then m_error EPROTO s else (QR_DONE, sl_daedt_start s).
Definition sdt_daedr_start_req (s : xp) : Z * xp :=
  if negb (enabled s) then m_error EPROTO s else (QR_DONE, sl_daedr_start s).
Definition sdt_aerm_start_req (s : xp) : Z * xp :=
  if negb (enabled s) then m_error EPROTO s else (QR_DONE, sl_aerm_start s).
Definition sdt_aerm_stop_req (s : xp) : Z * xp :=
  if negb (enabled s) then m_error EPROTO s else (QR_DONE, sl_aerm_stop s).
Definition sdt_aerm_set_ti_to_tin_req (s : xp) : Z * xp :=
  if negb (enabled s) then m_error EPROTO s else (QR_DONE, sl_aerm_set_ti_to_tin s).
Definition sdt_aerm_set_ti_to_tie_req (s : xp) : Z * xp :=
  if negb (enabled s) then m_error EPROTO s else (QR_DONE, sl_aerm_set_ti_to_tie s).
Definition sdt_suerm_start_req (s : xp) : Z * xp :=
  if negb (enabled s) then m_error EPROTO s else (QR_DONE, sl_suerm_start s).
Definition sdt_suerm_stop_req (s : xp) : Z * xp :=
  if negb (enabled s) then m_error EPROTO s else (QR_DONE, sl_suerm_stop s).

(** ** Signalling data link *)

Definition sdl_bits_for_transmission_req (s : xp) : Z * xp := (QR_STRIP, s).
Definition SDL_RX_DIRECTION : Z := 0x1.
Definition SDL_TX_DIRECTION : Z := 0x2.
Definition bit_set (x f : Z) : bool := negb (Z.land x f =? 0).
Definition set_ifflags (f : Z) (s : xp) : xp := s <| sdl_conf; ifflags := f |>.
Definition clear_flag (x f : Z) : Z := Z.land x (Z.lnot f).
(** [sizeof(sdl_connect_req_t)] is 8, the directions are its second word. *)
Definition sdl_connect_req (w : wmsg) (s : xp) : Z * xp :=
  let b := req_block w in
  if blen b <? 8 then m_error EPROTO s
  else if negb (enabled s) then m_error EPROTO s
  else
    let dir := le32_at b 4 in
    let s :=
      if bit_set dir SDL_RX_DIRECTION then
        let s := set_ifflags (Z.lor s.(sdl_conf).(ifflags) SDL_IF_RX_RUNNING) s in
        s <| sdl_statem; rx_state := IN_SERVICE |>
      else s in
    let s :=
      if bit_set dir SDL_TX_DIRECTION then
        let s := set_ifflags (Z.lor s.(sdl_conf).(ifflags) SDL_IF_TX_RUNNING) s in
        s <| sdl_statem; tx_state := IN_SERVICE |>
      else s in
    let s :=
      if bit_set s.(sdl_conf).(ifflags) (Z.lor SDL_IF_TX_RUNNING SDL_IF_RX_RUNNING)
      then set_ifflags (Z.lor s.(sdl_conf).(ifflags) SDL_IF_UP) s else s in
    (QR_DONE, s).
Definition sdl_disconnect_req (w : wmsg) (s : xp) : Z * xp :=
  let b := req_block w in
  if blen b <? 8 then m_error EPROTO s
  else if negb (enabled s) then m_error EPROTO s
  else
    let dir := le32_at b 4 in
    let s :=
      if bit_set dir SDL_RX_DIRECTION then
        let s := set_ifflags (clear_flag s.(sdl_conf).(ifflags) SDL_IF_RX_RUNNING) s in
        s <| sdl_statem; rx_state := IDLE |>
      else s in
    let s :=
      if bit_set dir SDL_TX_DIRECTION then
        let s := set_ifflags (clear_flag s.(sdl_conf).(ifflags) SDL_IF_TX_RUNNING) s in
        s <| sdl_statem; tx_state := IDLE |>
      else s in
    let s :=
      if negb (bit_set s.(sdl_conf).(ifflags) (Z.lor SDL_IF_TX_RUNNING SDL_IF_RX_RUNNING))
      then set_ifflags (clear_flag s.(sdl_conf).(ifflags) SDL_IF_UP) s else s in
    (QR_DONE, s).

(** ** The read queue and flushing *)

(** A received message leaves the read queue when the stream above accepts it;
    refused, it stays at the head. *)
Definition xp_r_data (s : xp) : Z * xp :=
  match s.(xenv).(e_oq) with
  | [] => (QR_DONE, s)
  | mp :: l =>
      let '(cpn, s) := xcanput s in
      if cpn then
        let s := s <| sl_statem; Cr := u32 (s.(sl_statem).(Cr) - 1) |> in
        let s := s <| xenv; e_oq := l |> in
        (QR_ABSORBED, emit (EvPut (M_DATA mp)) s)
      else (- EBUSY, s)
  end.
Definition FLUSHR : Z := 1.
Definition FLUSHW : Z := 2.
(** [M_FLUSH] of the whole queues; flushing one band is not modelled. *)
Definition xp_w_flush (flags : Z) (s : xp) : xp :=
  let s :=
    if bit_set flags FLUSHW then
      let s :=
        match s.(xp_tx).(tx_cmp) with
        | Some _ => s <| xp_tx; tx_cmp := None |> <| xp_tx; tx_repeat := 0 |>
        | None => s
        end in
      flushq_iq s
    else s in
  if bit_set flags FLUSHR then
    let s :=
      match s.(xp_rx).(rx_cmp) with
      | Some _ => s <| xp_rx; rx_cmp := None |> <| xp_rx; rx_repeat := 0 |>
      | None => s
      end in
    flushq_oq s
  else s.
