(* ===== verification/Lmi.v ===== *)
(** * Local management and allocation of a channel

    The default configurations, the allocation of the private structure, the
    requests [LMI_*_REQ] and the dispatch of the primitives of the write side
    ([drivers/sl_x100p.c]: defaults, [xp_alloc_priv], [lmi_*_req],
    [xp_w_proto]).  What [lmi_enable_req] writes to the registers of the framer
    and [lmi_disable_req] to the buffer of the card is not modelled. *)
From S2P Require Import Prelude Bufq Xp Prims Timers Txc Lsc Rc LscCtl Monitors Requests.

Definition SDL_TYPE_DS0 : Z := 2.
Definition SDL_TYPE_DS0A : Z := 3.
Definition SDL_TYPE_E1 : Z := 4.
Definition SDL_TYPE_T1 : Z := 5.
Definition SDL_GTYPE_T1 : Z := 1.
Definition SDL_GTYPE_E1 : Z := 2.
Definition SDL_MODE_PEER : Z := 7.

(** ** Cards, spans and timeslots *)

(** A card of the X100P has one span.  [sp_slots] holds, for each of the 32
    timeslots of the backplane, the channel (named by its minor) it is given to. *)
Record span := Span { sp_span : Z; sp_conf : sdl_config; sp_slots : list (option Z) }.
#[export] Instance eta_span : Eta span := fun r => Span r.(sp_span) r.(sp_conf) r.(sp_slots).
#[export] Instance set_sp_span : Setter sp_span := ltac:(mk_setter).
#[export] Instance set_sp_conf : Setter sp_conf := ltac:(mk_setter).
#[export] Instance set_sp_slots : Setter sp_slots := ltac:(mk_setter).
Record card := Card { cd_card : Z; cd_conf : sdl_config; cd_span0 : option span }.
#[export] Instance eta_card : Eta card := fun r => Card r.(cd_card) r.(cd_conf) r.(cd_span0).
#[export] Instance set_cd_card : Setter cd_card := ltac:(mk_setter).
#[export] Instance set_cd_conf : Setter cd_conf := ltac:(mk_setter).
#[export] Instance set_cd_span0 : Setter cd_span0 := ltac:(mk_setter).

(** [x100p_cards], and the walk along it. *)
Definition find_card (n : Z) (cards : list card) : option card :=
  List.find (fun cd => cd.(cd_card) =? n) cards.
Fixpoint put_card (cd : card) (cards : list card) : list card :=
  match cards with
  | [] => []
  | c :: l => if c.(cd_card) =? cd.(cd_card) then cd :: l else c :: put_card cd l
  end.

Definition xp_t1_tx_chan_map : list Z :=
  [2; 1; 0; 6; 5; 4; 10; 9; 8; 14; 13; 12;
   18; 17; 16; 22; 21; 20; 26; 25; 24; 30; 29; 28].
Definition xp_e1_tx_chan_map : list Z :=
  [2; 1; 0; 7; 6; 5; 4; 11; 10; 9; 8; 15; 14; 13; 12; 19;
   18; 17; 16; 23; 22; 21; 20; 27; 26; 25; 24; 31; 30; 29; 28].
Definition slot_of (map : list Z) (c : Z) : Z := nth (Z.to_nat c) map 0.
Definition slot_used (sp : span) (i : Z) : bool :=
  match nth (Z.to_nat i) sp.(sp_slots) None with Some _ => true | None => false end.
Definition take_slot (self i : Z) (sp : span) : span :=
  sp <| sp_slots := <[Z.to_nat i := Some self]> sp.(sp_slots) |>.

(** ** Defaults *)

Section Defaults.
(** The clock ticks in a second, [HZ]: a constant of the kernel. *)
Context (HZ : Z).

Definition lmi_default_e1_chan : lmi_option := LmiOption SS7_PVAR_ITUT_00 0.
Definition lmi_default_t1_chan : lmi_option := LmiOption SS7_PVAR_ANSI_00 SS7_POPT_MPLEV.
Definition lmi_default_e1_span : lmi_option :=
  LmiOption SS7_PVAR_ITUT_00 (Z.lor SS7_POPT_HSL SS7_POPT_XSN).
Definition lmi_default_t1_span : lmi_option :=
  LmiOption SS7_PVAR_ANSI_00 (Z.lor (Z.lor SS7_POPT_MPLEV SS7_POPT_HSL) SS7_POPT_XSN).
Definition sl_default_e1_chan : sl_config := {|
  cf_t1 := 45 * HZ; cf_t2 := 5 * HZ; cf_t2l := 20 * HZ; cf_t2h := 100 * HZ; cf_t3 := 1 * HZ;
  cf_t4n := 8 * HZ; cf_t4e := 500 * HZ / 1000; cf_t5 := 100 * HZ / 1000; cf_t6 := 4 * HZ;
  cf_t7 := 1 * HZ; rb_abate := 3; rb_accept := 6; rb_discard := 9;
  tb_abate_1 := 128 * 272; tb_onset_1 := 256 * 272; tb_discd_1 := 384 * 272;
  tb_abate_2 := 512 * 272; tb_onset_2 := 640 * 272; tb_discd_2 := 768 * 272;
  tb_abate_3 := 896 * 272; tb_onset_3 := 1024 * 272; tb_discd_3 := 1152 * 272;
  cf_N1 := 127; cf_N2 := 8192; cf_M := 5 |}.
(** The four tables have the same values. *)
Definition sl_default_e1_span : sl_config := sl_default_e1_chan.
Definition sl_default_t1_chan : sl_config := sl_default_e1_chan.
Definition sl_default_t1_span : sl_config := sl_default_e1_chan.
Definition sdt_default_e1_chan : sdt_config := {|
  Tin := 4; Tie := 1; cf_T := 64; cf_D := 256; cf_t8 := 100 * HZ / 1000; Te := 793544;
  De := 11328000; Ue := 198384000; cf_N := 16; cf_m := 272; cf_b := 8; cf_f := 0 |}.
Definition sdt_default_e1_span : sdt_config := sdt_default_e1_chan.
Definition sdt_default_t1_chan : sdt_config := {|
  Tin := 4; Tie := 1; cf_T := 64; cf_D := 256; cf_t8 := 100 * HZ / 1000; Te := 577169;
  De := 9308000; Ue := 144292000; cf_N := 16; cf_m := 272; cf_b := 8; cf_f := 0 |}.
Definition sdt_default_t1_span : sdt_config := sdt_default_t1_chan.
Definition sdl_default_e1_chan : sdl_config := {|
  ifflags := 0; iftype := SDL_TYPE_DS0; ifrate := 64000; ifgtype := SDL_GTYPE_E1;
  ifgrate := 2048000; ifmode := SDL_MODE_PEER; ifgmode := 0; ifgcrc := 2; ifclock := 5;
  ifcoding := 6; ifframing := 1; ifblksize := 8; ifleads := 0; ifbpv := 0; ifalarms := 0;
  ifrxlevel := 0; iftxlevel := 0; ifsync := 0 |}.
Definition sdl_default_t1_chan : sdl_config := {|
  ifflags := 0; iftype := SDL_TYPE_DS0; ifrate := 64000; ifgtype := SDL_GTYPE_T1;
  ifgrate := 1544000; ifmode := SDL_MODE_PEER; ifgmode := 0; ifgcrc := 3; ifclock := 5;
  ifcoding := 3; ifframing := 3; ifblksize := 8; ifleads := 0; ifbpv := 0; ifalarms := 0;
  ifrxlevel := 0; iftxlevel := 0; ifsync := 0 |}.

(** The structures as [bzero] leaves them. *)
Definition sni0 : sni := Sni 0 0 0 0.
Definition tx_sni0 : tx_sni := TxSni sni0 sni0 sni0 sni0 sni0 sni0 0 0.
Definition rx_sni0 : rx_sni := RxSni sni0 sni0 sni0 sni0 0 0.
Definition tx_path0 : tx_path := TxPath 0 0 0 0 0 None None None 0.
Definition rx_path0 : rx_path := RxPath 0 0 0 0 0 0 None None None 0 0.
Definition sl_statem0 : sl_statem_t := {|
  lsc_state := LSC_POWER_OFF; local_processor_outage := false;
  remote_processor_outage := false; processor_outage := false; emergency := false;
  l3_indication_received := false; failure_reason := 0; iac_state := IAC_IDLE;
  further_proving := false; t4v := 0; Cp := 0; ib_mask := 0; sn_mask := 0;
  txc_state := TXC_IDLE; tx := tx_sni0; msu_inhibited := false; lssu_available := false;
  rtb_full := false; clear_rtb := false; sib_received := false; retrans_cycle := false;
  forced_retransmission := false; Cm := 0; Ct := 0; cong_status := 0; disc_status := 0;
  Zsn := 0; z_ptr := None; rc_state := IDLE; rx := rx_sni0; rtr := false; unb := 0; unf := 0;
  msu_fisu_accepted := false; abnormal_bsnr := 0; abnormal_fibr := 0;
  congestion_discard := false; congestion_accept := false; l2_congestion_detect := false;
  l3_congestion_detect := false; Cr := 0; cc_state := CC_NORMAL; poc_state := POC_IDLE |}.
Definition sdt_statem0 : sdt_statem_t := {|
  aerm_state := IDLE; aborted_proving := false; Ca := 0; Ti := 0; suerm_state := IDLE;
  Cs := 0; Ns := 0; eim_state := IDLE; Ce := 0; su_received := false;
  interval_error := false; daedt_state := IDLE; daedr_state := IDLE;
  octet_counting_mode := false |}.
Definition sdt_stats0 : sdt_stats_t :=
  SdtStats 0 0 0 0 0 0 0 0 0 0 0 0 0 0 0 0 0 0 0 0 0 0 0.

(** [xp_alloc_priv]: a channel at the opening of its stream, in the
    surroundings [v]. *)
Definition xp_alloc_priv (v : env) : xp := {|
  i_state := LMI_UNATTACHED; chan := 0; slot := 0; xp_sp := None;
  xp_tx := tx_path0; xp_rx := rx_path0; xoption := lmi_default_e1_chan;
  sl_flags := 0; sl_state := 0; sl_rb := bufq_init; sl_tb := bufq_init; sl_rtb := bufq_init;
  timers := SlTimers None None None None None None None; sl_conf := sl_default_e1_chan;
  sl_statem := sl_statem0; sl_notify := 0; sl_stat := SlStats [0; 0; 0; 0] [0; 0; 0; 0];
  sdt_tb := bufq_init; timer_t8 := None; sdt_conf := sdt_default_e1_chan;
  sdt_statem := sdt_statem0; sdt_stats := sdt_stats0; sdl_tb := bufq_init;
  sdl_conf := sdl_default_e1_chan; sdl_statem := SdlStatem IDLE IDLE;
  sdl_stats := SdlStats 0 0 0 0 0 0 0 0 0; xenv := v |}.

(** ** Requests *)

(** [MBLKIN]: the bytes are within the first block. *)
Definition MBLKIN (b : list Z) (off len : Z) : bool := (0 <=? off) && (off + len <=? blen b).

Definition xp_span (cards : list card) (s : xp) : option (card * span) :=
  match s.(xp_sp) with
  | None => None
  | Some n =>
      match find_card n cards with
      | None => None
      | Some cd => (fun sp => (cd, sp)) <$> cd.(cd_span0)
      end
  end.

Definition lmi_info_req (cards : list card) (s : xp) : Z * xp :=
  let plain := lmi_info_ack [] s in
  match s.(i_state) with
  | LMI_ENABLED | LMI_DISABLED =>
      match xp_span cards s with
      | Some (cd, sp) =>
          let ppa := Z.lor (Z.lor (Z.land s.(chan) 0xff)
                       (Z.shiftl (Z.land sp.(sp_span) 0x0f) 8))
                       (Z.shiftl (Z.land cd.(cd_card) 0x0f) 12) in
          lmi_info_ack [u8 ppa; u8 (Z.shiftr ppa 8)] s
      | None => plain
      end
  | _ => plain
  end.

(** The committing part of an attachment: what the span and the channel are
    set to, for one timeslot or the entire span. *)
Record attachment := Attachment {
  at_type : Z; at_rate : Z; at_blk : Z; at_slots : list Z; at_chan : Z; at_slot : Z;
  at_sdt : sdt_config; at_sl : sl_config; at_opt : lmi_option }.
Definition attach_span (self : Z) (a : attachment) (sp : span) : span :=
  let sp := foldl (fun sp i => take_slot self i sp) sp a.(at_slots) in
  let sp := sp <| sp_conf; iftype := a.(at_type) |> in
  let sp := sp <| sp_conf; ifrate := a.(at_rate) |> in
  let sp := sp <| sp_conf; ifmode := SDL_MODE_PEER |> in
  sp <| sp_conf; ifblksize := a.(at_blk) |>.
Definition attach_chan (a : attachment) (n : Z) (sp : span) (s : xp) : xp :=
  let s := s <| xp_sp := Some n |> in
  let s := s <| i_state := LMI_DISABLED |> in
  let s := s <| chan := a.(at_chan) |> in
  let s := s <| slot := a.(at_slot) |> in
  let s := s <| sdl_statem; rx_state := IDLE |> in
  let s := s <| sdl_statem; tx_state := IDLE |> in
  let s := s <| sdl_conf := sp.(sp_conf) |> in
  let s := s <| sdl_conf; ifflags := 0 |> in
  let s := s <| sdt_statem; daedr_state := IDLE |> in
  let s := s <| sdt_statem; daedt_state := IDLE |> in
  let s := s <| sdt_conf := a.(at_sdt) |> in
  let s := s <| sl_conf := a.(at_sl) |> in
  s <| xoption := a.(at_opt) |>.
Definition attach_commit (self : Z) (a : attachment) (cards : list card) (cd : card)
    (sp : span) (s : xp) : Z * list card * xp :=
  let '(err, s) := lmi_ok_ack LMI_DISABLED LMI_ATTACH_REQ s in
  if negb (err =? 0) then (err, cards, s)
  else
    let sp := attach_span self a sp in
    (QR_DONE, put_card (cd <| cd_span0 := Some sp |>) cards,
     attach_chan a cd.(cd_card) sp s).

(** The attachment the address asks for, or the reason it is refused. *)
Definition attach_chan_req (map : list Z) (n : Z) (sp : span) (c : Z) (type rate blk : Z)
    (sdtc : sdt_config) (slc : sl_config) (opt : lmi_option) : attachment + Z :=
  if (c <? 1) || (n <? c) then inr LMI_BADPPA
  else
    let slot := slot_of map (c - 1) in
    if slot_used sp slot then inr LMI_BADPPA
    else inl (Attachment type rate blk [slot] c slot sdtc slc opt).
Definition attach_span_req (map : list Z) (sp : span) (c : Z) (type rate blk : Z)
    (sdtc : sdt_config) (slc : sl_config) (opt : lmi_option) : attachment + Z :=
  if existsb (slot_used sp) map then inr LMI_BADPPA
  else inl (Attachment type rate blk map c 0 sdtc slc opt).
Definition attach_plan (cd : card) (sp : span) (c : Z) : attachment + Z :=
  let g := cd.(cd_conf).(ifgtype) in
  if negb (c =? 0) then
    if g =? SDL_GTYPE_E1 then
      attach_chan_req xp_e1_tx_chan_map 31 sp c SDL_TYPE_DS0 64000 8
        sdt_default_e1_chan sl_default_e1_chan lmi_default_e1_chan
    else if g =? SDL_GTYPE_T1 then
      attach_chan_req xp_t1_tx_chan_map 24 sp c SDL_TYPE_DS0 64000 8
        sdt_default_t1_chan sl_default_t1_chan lmi_default_t1_chan
    else inr LMI_SYSERR
  else
    if g =? SDL_GTYPE_E1 then
      attach_span_req xp_e1_tx_chan_map sp c SDL_TYPE_E1 2048000 64
        sdt_default_e1_span sl_default_e1_span lmi_default_e1_span
    else if g =? SDL_GTYPE_T1 then
      attach_span_req xp_t1_tx_chan_map sp c SDL_TYPE_T1 1544000 64
        sdt_default_t1_span sl_default_t1_span lmi_default_t1_span
    else inr LMI_SYSERR.
Definition attach_error (reason : Z) (cards : list card) (s : xp) : Z * list card * xp :=
  let '(r, s) := lmi_error_ack LMI_UNATTACHED LMI_ATTACH_REQ
                   (if reason =? LMI_SYSERR then EFAULT else 0) reason s in
  (r, cards, s).
Definition lmi_attach_req (self : Z) (w : wmsg) (cards : list card) (s : xp) :
    Z * list card * xp :=
  let b := req_block w in
  if negb (MBLKIN b 0 12) then attach_error LMI_BADPRIM cards s
  else if negb (s.(i_state) =s LMI_UNATTACHED) then attach_error LMI_OUTSTATE cards s
  else
    let len := le32_at b 4 in
    let off := le32_at b 8 in
    if negb (MBLKIN b off len) then attach_error LMI_BADPPA cards s
    else if negb (len =? 2) then attach_error LMI_BADPPA cards s
    else
      let s := s <| i_state := LMI_ATTACH_PENDING |> in
      let ppa := byte_at b (Z.to_nat off) + 2 ^ 8 * byte_at b (Z.to_nat off + 1) in
      match find_card (Z.land (Z.shiftr ppa 12) 0x0f) cards with
      | None => attach_error LMI_BADPPA cards s
      | Some cd =>
          if negb (Z.land (Z.shiftr ppa 8) 0x0f =? 0) then attach_error LMI_BADPPA cards s
          else
            match cd.(cd_span0) with
            | None => attach_error LMI_BADPPA cards s
            | Some sp =>
                if negb (sp.(sp_conf).(ifgtype) =? SDL_GTYPE_E1) &&
                   negb (sp.(sp_conf).(ifgtype) =? SDL_GTYPE_T1)
                then attach_error LMI_SYSERR cards s
                else
                  match attach_plan cd sp (Z.land ppa 0xff) with
                  | inl a => attach_commit self a cards cd sp s
                  | inr reason => attach_error reason cards s
                  end
            end
      end.

(** The timeslots given to the channel are released. *)
Definition release_slots (self : Z) (sp : span) : span :=
  sp <| sp_slots := (fun o : option Z => if decide (o = Some self) then None else o)
                      <$> sp.(sp_slots) |>.
Definition lmi_detach_req (self : Z) (cards : list card) (s : xp) : Z * list card * xp :=
  if negb (s.(i_state) =s LMI_DISABLED) then
    let '(r, s) := lmi_error_ack s.(i_state) LMI_DETACH_REQ 0 LMI_OUTSTATE s in (r, cards, s)
  else
    match xp_span cards s with
    | None => let '(r, s) := m_error EFAULT s in (r, cards, s)
    | Some (cd, sp) =>
        let s := s <| i_state := LMI_DETACH_PENDING |> in
        let '(err, s) := lmi_ok_ack LMI_UNATTACHED LMI_DETACH_REQ s in
        if negb (err =? 0) then (err, cards, s)
        else
          (QR_DONE, put_card (cd <| cd_span0 := Some (release_slots self sp) |>) cards,
           s <| xp_sp := None |> <| chan := 0 |>)
    end.

(** The rate and block size of a channel follow from its type. *)
Definition enable_rate (s : xp) : xp :=
  let ty := s.(sdl_conf).(iftype) in
  let set r b s := s <| sdl_conf; ifrate := r |> <| sdl_conf; ifblksize := b |> in
  if ty =? SDL_TYPE_E1 then set 2048000 64 s
  else if ty =? SDL_TYPE_T1 then set 1544000 64 s
  else if ty =? SDL_TYPE_DS0 then set 64000 8 s
  else if ty =? SDL_TYPE_DS0A then set 56000 8 s
  else s.
Definition enable_inherit (cd : card) (sp : span) (s : xp) : xp :=
  let c := sp.(sp_conf) in
  let s := s <| sdl_conf; ifgtype := c.(ifgtype) |> in
  let s := s <| sdl_conf; ifgrate := c.(ifgrate) |> in
  let s := s <| sdl_conf; ifmode := c.(ifmode) |> in
  let s := s <| sdl_conf; ifgmode := c.(ifgmode) |> in
  let s := s <| sdl_conf; ifgcrc := c.(ifgcrc) |> in
  let s := s <| sdl_conf; ifclock := c.(ifclock) |> in
  let s := s <| sdl_conf; ifcoding := c.(ifcoding) |> in
  let s := s <| sdl_conf; ifframing := c.(ifframing) |> in
  let s := s <| sdl_conf; ifleads := c.(ifleads) |> in
  let s := s <| sdl_conf; ifbpv := c.(ifbpv) |> in
  let s := s <| sdl_conf; ifalarms := c.(ifalarms) |> in
  let s := s <| sdl_conf; ifrxlevel := c.(ifrxlevel) |> in
  let s := s <| sdl_conf; iftxlevel := c.(iftxlevel) |> in
  s <| sdl_conf; ifsync := cd.(cd_conf).(ifsync) |>.
(** The span is brought up with its first channel. *)
Definition span_up (cd : card) (sp : span) : span :=
  if negb (Z.land sp.(sp_conf).(ifflags) SDL_IF_UP =? 0) then sp
  else if (cd.(cd_conf).(ifgtype) =? SDL_GTYPE_E1) || (cd.(cd_conf).(ifgtype) =? SDL_GTYPE_T1)
  then sp <| sp_conf; ifflags := Z.lor sp.(sp_conf).(ifflags)
                (Z.lor (Z.lor SDL_IF_UP SDL_IF_TX_RUNNING) SDL_IF_RX_RUNNING) |>
  else sp.
Definition enable_refused (cards : list card) (s : xp) : Z * list card * xp :=
  let '(r, s) := lmi_error_ack s.(i_state) LMI_ENABLE_REQ 0 LMI_OUTSTATE s in (r, cards, s).
Definition lmi_enable_req (cards : list card) (s : xp) : Z * list card * xp :=
  if negb (s.(i_state) =s LMI_DISABLED) then enable_refused cards s
  else
    match xp_span cards s with
    | None => enable_refused cards s
    | Some (cd, sp) =>
        if negb (Z.land s.(sdl_conf).(ifflags) SDL_IF_UP =? 0) then enable_refused cards s
        else
          let '(err, s) := lmi_enable_con s in
          if negb (err =? 0) then (err, cards, s)
          else
            let s := s <| i_state := LMI_ENABLE_PENDING |> in
            let s := s <| sdl_conf; ifflags := Z.lor s.(sdl_conf).(ifflags) SDL_IF_UP |> in
            let s := enable_rate s in
            let s := enable_inherit cd sp s in
            let s := s <| i_state := LMI_ENABLED |> in
            (QR_DONE, put_card (cd <| cd_span0 := Some (span_up cd sp) |>) cards, s)
    end.

(** What the commit of [lmi_disable_req] resets; the link state machines, their
    timers and buffers are left as they are. *)
Definition disable_commit (s : xp) : xp :=
  let s := s <| sdl_conf; ifflags := 0 |> in
  let s := s <| sdl_statem; tx_state := IDLE |> in
  let s := s <| sdl_statem; rx_state := IDLE |> in
  let s := s <| sdt_statem; daedt_state := IDLE |> in
  let s := s <| sdt_statem; daedr_state := IDLE |> in
  let s := s <| sdt_statem; aerm_state := IDLE |> in
  let s := s <| sdt_statem; Ti := s.(sdt_conf).(Tin) |> in
  let s := s <| sdt_statem; eim_state := IDLE |> in
  let s := s <| timer_t8 := None |> in
  let s := s <| sdt_statem; suerm_state := IDLE |> in
  let s := s <| xp_tx := tx_path0 |> in
  s <| xp_rx := rx_path0 |>.
Definition lmi_disable_req (cards : list card) (s : xp) : Z * xp :=
  if negb (s.(i_state) =s LMI_ENABLED) then
    lmi_error_ack s.(i_state) LMI_DISABLE_REQ 0 LMI_OUTSTATE s
  else
    let s := s <| i_state := LMI_DISABLE_PENDING |> in
    let '(err, s) := lmi_disable_con s in
    if negb (err =? 0) then (err, s)
    else
      match xp_span cards s with
      | Some _ => (QR_DONE, disable_commit s)
      | None => (QR_DONE, s) (* swerr *)
      end.
Definition lmi_optmgmt_req (s : xp) : Z * xp := (QR_PASSALONG, s).

(** ** Dispatch of the write side *)

(** [switch (prim)] of [xp_w_proto], the request numbers as in the headers:
    [SL_PROTO_BASE] is 64, [SDT_PROTO_BASE] 48, [SDL_PROTO_BASE] 32,
    [LMI_PROTO_BASE] 16. *)
Definition w_dispatch (self prim : Z) (w : wmsg) (cards : list card) (s : xp) :
    Z * list card * xp :=
  let on (r : Z * xp) := (r.1, cards, r.2) in
  match prim with
  | 65 => on (sl_pdu_req w s)
  | 66 => on (sl_emergency_req s)
  | 67 => on (sl_emergency_ceases_req s)
  | 68 => on (sl_start_req s)
  | 69 => on (sl_stop_req s)
  | 70 => on (sl_retrieve_bsnt_req s)
  | 71 => on (sl_retrieval_request_and_fsnc_req w s)
  | 76 => on (sl_resume_req s)
  | 72 => on (sl_clear_buffers_req s)
  | 73 => on (sl_clear_rtb_req s)
  | 75 => on (sl_local_processor_outage_req s)
  | 77 => on (sl_congestion_discard_req s)
  | 78 => on (sl_congestion_accept_req s)
  | 79 => on (sl_no_congestion_req s)
  | 80 => on (sl_power_on_req s)
  | 49 => on (sdt_daedt_transmission_req s)
  | 50 => on (sdt_daedt_start_req s)
  | 51 => on (sdt_daedr_start_req s)
  | 52 => on (sdt_aerm_start_req s)
  | 53 => on (sdt_aerm_stop_req s)
  | 54 => on (sdt_aerm_set_ti_to_tin_req s)
  | 55 => on (sdt_aerm_set_ti_to_tie_req s)
  | 56 => on (sdt_suerm_start_req s)
  | 57 => on (sdt_suerm_stop_req s)
  | 33 => on (sdl_bits_for_transmission_req s)
  | 34 => on (sdl_connect_req w s)
  | 35 => on (sdl_disconnect_req w s)
  | 17 => on (lmi_info_req cards s)
  | 18 => lmi_attach_req self w cards s
  | 19 => lmi_detach_req self cards s
  | 20 => lmi_enable_req cards s
  | 21 => on (lmi_disable_req cards s)
  | 22 => on (lmi_optmgmt_req s)
  | _ => (- EOPNOTSUPP, cards, s)
  end.
(** A negative result puts the interface state back. *)
Definition xp_w_proto (self prim : Z) (w : wmsg) (cards : list card) (s : xp) :
    Z * list card * xp :=
  let oldstate := s.(i_state) in
  let '(rtn, cards, s) := w_dispatch self prim w cards s in
  (rtn, cards, if rtn <? 0 then s <| i_state := oldstate |> else s).
End Defaults.
