(* ===== verification/Ctl.v ===== *)
(** * The control part of the link

    The state of LSC, IAC, RC, CC and EIM with the timers that guard it, as a
    projection of the channel, and the effect of every operation on it. *)
From S2P Require Import Prelude Bufq Xp Prims Timers Txc Lsc Rc LscCtl Monitors Requests.

(** Whether a timer runs. *)
Definition armed (t : option Z) : bool := match t with Some _ => true | None => false end.

Record ctl := Ctl {
  k_lsc : lsc_st; k_iac : iac_st; k_rc : run_st; k_cc : cc_st; k_eim : run_st;
  k_t1 : bool; k_t2 : bool; k_t3 : bool; k_t4 : bool; k_t5 : bool; k_t8 : bool;
  k_fail : bool }.
#[export] Instance eta_ctl : Eta ctl := fun r =>
  Ctl r.(k_lsc) r.(k_iac) r.(k_rc) r.(k_cc) r.(k_eim) r.(k_t1) r.(k_t2) r.(k_t3)
    r.(k_t4) r.(k_t5) r.(k_t8) r.(k_fail).
#[export] Instance set_k_lsc : Setter k_lsc := ltac:(mk_setter).
#[export] Instance set_k_iac : Setter k_iac := ltac:(mk_setter).
#[export] Instance set_k_rc : Setter k_rc := ltac:(mk_setter).
#[export] Instance set_k_cc : Setter k_cc := ltac:(mk_setter).
#[export] Instance set_k_eim : Setter k_eim := ltac:(mk_setter).
#[export] Instance set_k_t1 : Setter k_t1 := ltac:(mk_setter).
#[export] Instance set_k_t2 : Setter k_t2 := ltac:(mk_setter).
#[export] Instance set_k_t3 : Setter k_t3 := ltac:(mk_setter).
#[export] Instance set_k_t4 : Setter k_t4 := ltac:(mk_setter).
#[export] Instance set_k_t5 : Setter k_t5 := ltac:(mk_setter).
#[export] Instance set_k_t8 : Setter k_t8 := ltac:(mk_setter).
#[export] Instance set_k_fail : Setter k_fail := ltac:(mk_setter).

Definition ctl_of (s : xp) : ctl :=
  Ctl s.(sl_statem).(lsc_state) s.(sl_statem).(iac_state) s.(sl_statem).(rc_state)
    s.(sl_statem).(cc_state) s.(sdt_statem).(eim_state)
    (armed s.(timers).(t1)) (armed s.(timers).(t2)) (armed s.(timers).(t3))
    (armed s.(timers).(t4)) (armed s.(timers).(t5)) (armed s.(timer_t8)) s.(xenv).(e_fail).

(** An allocation failed, or not. *)
Definition cfail (b : bool) (c : ctl) : ctl := c <| k_fail := c.(k_fail) || b |>.

(** ** Outcomes of the effects *)

Lemma xp_eta (s : xp) : s <| xenv := s.(xenv) |> = s.
Proof. by destruct s. Qed.

Definition ctl_env (b : bool) (s : xp) (v : env) : Prop :=
  ctl_of (s <| xenv := v |>) = cfail b (ctl_of s).

Lemma cfail_false c : cfail false c = c.
Proof. destruct c. unfold cfail. simpl. by rewrite orb_false_r. Qed.
Lemma cfail_cfail a b c : cfail a (cfail b c) = cfail (b || a) c.
Proof. unfold cfail. upd. rewrite <- orb_assoc. reflexivity. Qed.

Lemma xalloc_cases s : ∃ b v, xalloc s = (b, s <| xenv := v |>) ∧ ctl_env (negb b) s v.
Proof.
  unfold xalloc, ctl_env. destruct (e_alloc (xenv s)) as [|[] l].
  - exists true, (xenv s). by rewrite xp_eta, cfail_false.
  - eexists true, _. split; [reflexivity|]. simpl. rewrite cfail_false. reflexivity.
  - eexists false, _. split; [reflexivity|]. simpl. unfold cfail.
    rewrite orb_true_r. reflexivity.
Qed.
Lemma xcanput_cases s : ∃ b v, xcanput s = (b, s <| xenv := v |>) ∧ ctl_env false s v.
Proof.
  unfold xcanput, ctl_env. setoid_rewrite cfail_false. destruct (e_canput (xenv s)) as [|b l].
  - exists true, (xenv s). by rewrite xp_eta.
  - eexists b, _. split; reflexivity.
Qed.
(** An indication is delivered, or fails with [-ENOBUFS]; either way only the
    surroundings change. *)
Lemma put_ind_cases p s :
  (∃ v, put_ind p s = (0, s <| xenv := v |>) ∧ ctl_env false s v) ∨
  (∃ v, put_ind p s = (-105, s <| xenv := v |>) ∧ ctl_env true s v).
Proof.
  unfold put_ind. destruct (xalloc_cases s) as (b & v & -> & H). destruct b; [left|right].
  - eexists; split; [reflexivity|]. exact H.
  - eexists; split; [reflexivity|]. exact H.
Qed.
Lemma new_msg_cases s : ∃ i b v, new_msg s = (i, s <| xenv := v |>) ∧ ctl_env b s v.
Proof.
  unfold new_msg. destruct (xalloc_cases s) as (b & v & -> & H).
  destruct b; eexists _, _, _; split; try reflexivity; exact H.
Qed.

(** ** Computing the projection *)

Lemma ctl_set_lsc v s :
  ctl_of (s <| sl_statem; lsc_state := v |>) = (ctl_of s) <| k_lsc := v |>.
Proof. done. Qed.
Lemma ctl_set_iac v s :
  ctl_of (s <| sl_statem; iac_state := v |>) = (ctl_of s) <| k_iac := v |>.
Proof. done. Qed.
Lemma ctl_set_rc v s :
  ctl_of (s <| sl_statem; rc_state := v |>) = (ctl_of s) <| k_rc := v |>.
Proof. done. Qed.
Lemma ctl_set_cc v s :
  ctl_of (s <| sl_statem; cc_state := v |>) = (ctl_of s) <| k_cc := v |>.
Proof. done. Qed.
Lemma ctl_set_eim v s :
  ctl_of (s <| sdt_statem; eim_state := v |>) = (ctl_of s) <| k_eim := v |>.
Proof. done. Qed.

(** [ctl_field] pushes [ctl_of] through one update: a field of [ctl] is updated,
    any other update is dropped. *)
Ltac ctl_field :=
  match goal with
  | H : ctl_env _ ?s ?v |- context [ctl_of (fset xenv (fun _ => ?v) ?s)] =>
      rewrite (H : ctl_of (fset xenv (fun _ => v) s) = _)
  | |- context [ctl_of (fset sl_statem (fset lsc_state (fun _ => ?v)) ?r)] =>
      rewrite (ctl_set_lsc v r)
  | |- context [ctl_of (fset sl_statem (fset iac_state (fun _ => ?v)) ?r)] =>
      rewrite (ctl_set_iac v r)
  | |- context [ctl_of (fset sl_statem (fset rc_state (fun _ => ?v)) ?r)] =>
      rewrite (ctl_set_rc v r)
  | |- context [ctl_of (fset sl_statem (fset cc_state (fun _ => ?v)) ?r)] =>
      rewrite (ctl_set_cc v r)
  | |- context [ctl_of (fset sdt_statem (fset eim_state (fun _ => ?v)) ?r)] =>
      rewrite (ctl_set_eim v r)
  | |- context [ctl_of (@fset ?R ?T ?f ?i ?u ?r)] =>
      let H := fresh in let x := fresh in
      assert (H : ∀ x, ctl_of (@fset R T f i u x) = ctl_of x) by (intros x; reflexivity);
      rewrite (H r); clear H
  end.

(** The state variables read in guards are those of the projection. *)
Lemma lsc_ctl s : lsc_state (sl_statem s) = k_lsc (ctl_of s). Proof. done. Qed.
Lemma iac_ctl s : iac_state (sl_statem s) = k_iac (ctl_of s). Proof. done. Qed.
Lemma rc_ctl s : rc_state (sl_statem s) = k_rc (ctl_of s). Proof. done. Qed.
Lemma cc_ctl s : cc_state (sl_statem s) = k_cc (ctl_of s). Proof. done. Qed.
Lemma eim_ctl s : eim_state (sdt_statem s) = k_eim (ctl_of s). Proof. done. Qed.
Ltac to_ctl := rewrite ?lsc_ctl, ?iac_ctl, ?rc_ctl, ?cc_ctl, ?eim_ctl in *.

Create Rewrite HintDb ctl.
(** A [let] of a frame proof: the value keeps the projection, and only that is
    remembered of it. *)
Lemma ctl_let (e : xp) (k : xp → xp) c :
  ctl_of e = c → (∀ x, ctl_of x = c → ctl_of (k x) = c) → ctl_of (let x := e in k x) = c.
Proof. intros H K. exact (K e H). Qed.
Ltac ctl_norm := cbn [fst snd]; repeat (ctl_field || (progress autorewrite with ctl)).

(** *** Timers *)

Lemma ctl_stop_t1 s : ctl_of (xp_timer_stop T1 s) = (ctl_of s) <| k_t1 := false |>.
Proof. done. Qed.
Lemma ctl_stop_t2 s : ctl_of (xp_timer_stop T2 s) = (ctl_of s) <| k_t2 := false |>.
Proof. done. Qed.
Lemma ctl_stop_t3 s : ctl_of (xp_timer_stop T3 s) = (ctl_of s) <| k_t3 := false |>.
Proof. done. Qed.
Lemma ctl_stop_t4 s : ctl_of (xp_timer_stop T4 s) = (ctl_of s) <| k_t4 := false |>.
Proof. done. Qed.
Lemma ctl_stop_t5 s : ctl_of (xp_timer_stop T5 s) = (ctl_of s) <| k_t5 := false |>.
Proof. done. Qed.
Lemma ctl_stop_t6 s : ctl_of (xp_timer_stop T6 s) = ctl_of s. Proof. done. Qed.
Lemma ctl_stop_t7 s : ctl_of (xp_timer_stop T7 s) = ctl_of s. Proof. done. Qed.
Lemma ctl_stop_t8 s : ctl_of (xp_timer_stop T8 s) = (ctl_of s) <| k_t8 := false |>.
Proof. done. Qed.
Lemma ctl_start_t1 s : ctl_of (xp_timer_start T1 s) = (ctl_of s) <| k_t1 := true |>.
Proof. done. Qed.
Lemma ctl_start_t2 s : ctl_of (xp_timer_start T2 s) = (ctl_of s) <| k_t2 := true |>.
Proof. done. Qed.
Lemma ctl_start_t3 s : ctl_of (xp_timer_start T3 s) = (ctl_of s) <| k_t3 := true |>.
Proof. done. Qed.
Lemma ctl_start_t4 s : ctl_of (xp_timer_start T4 s) = (ctl_of s) <| k_t4 := true |>.
Proof. done. Qed.
Lemma ctl_start_t5 s : ctl_of (xp_timer_start T5 s) = (ctl_of s) <| k_t5 := true |>.
Proof. done. Qed.
Lemma ctl_start_t6 s : ctl_of (xp_timer_start T6 s) = ctl_of s. Proof. done. Qed.
Lemma ctl_start_t7 s : ctl_of (xp_timer_start T7 s) = ctl_of s. Proof. done. Qed.
Lemma ctl_start_t8 s : ctl_of (xp_timer_start T8 s) = (ctl_of s) <| k_t8 := true |>.
Proof. done. Qed.
#[export] Hint Rewrite ctl_stop_t1 ctl_stop_t2 ctl_stop_t3 ctl_stop_t4 ctl_stop_t5 ctl_stop_t6
  ctl_stop_t7 ctl_stop_t8 ctl_start_t1 ctl_start_t2 ctl_start_t3 ctl_start_t4 ctl_start_t5
  ctl_start_t6 ctl_start_t7 ctl_start_t8 : ctl.

(** *** Operations without indications *)

(** Solves [ctl_of (f s) = ...] when [f] only updates, tests and calls operations of
    the hint database. *)
Ltac ctl_frame := intros; cbv zeta; repeat (ctl_norm; try reflexivity; case_match); ctl_norm;
  try reflexivity.

Lemma ctl_cc_normal s :
  ctl_of (sl_cc_normal s) = (ctl_of s) <| k_t5 := false |> <| k_cc := CC_NORMAL |>.
Proof. done. Qed.
Lemma ctl_cc_stop s :
  ctl_of (sl_cc_stop s) = (ctl_of s) <| k_t5 := false |> <| k_cc := CC_NORMAL |>.
Proof. done. Qed.
Lemma ctl_rc_stop s :
  ctl_of (sl_rc_stop s) =
  (ctl_of s) <| k_t5 := false |> <| k_cc := CC_NORMAL |> <| k_rc := IDLE |>.
Proof. done. Qed.
Lemma ctl_aerm_stop s : ctl_of (sl_aerm_stop s) = ctl_of s. Proof. done. Qed.
#[export] Hint Rewrite ctl_cc_normal ctl_cc_stop ctl_rc_stop ctl_aerm_stop : ctl.
Definition kg_iac_stop (c : ctl) : ctl :=
  if c.(k_iac) =s IAC_IDLE then c
  else c <| k_t3 := false |> <| k_t2 := false |> <| k_t4 := false |> <| k_iac := IAC_IDLE |>.
Lemma ctl_iac_stop s : ctl_of (sl_iac_stop s) = kg_iac_stop (ctl_of s).
Proof.
  unfold sl_iac_stop, kg_iac_stop. to_ctl. destruct (k_iac (ctl_of s) =s IAC_IDLE); reflexivity.
Qed.
Lemma ctl_send_sios s : ctl_of (sl_txc_send_sios s) = ctl_of s.
Proof. unfold sl_txc_send_sios. ctl_frame. Qed.
Lemma ctl_poc_stop s : ctl_of (sl_poc_stop s) = ctl_of s. Proof. done. Qed.
Lemma ctl_eim_stop s :
  ctl_of (sl_eim_stop s) = (ctl_of s) <| k_eim := IDLE |> <| k_t8 := false |>.
Proof. done. Qed.
Lemma ctl_suerm_stop s :
  ctl_of (sl_suerm_stop s) = (ctl_of s) <| k_eim := IDLE |> <| k_t8 := false |>.
Proof. done. Qed.
Lemma ctl_send_sib s : ctl_of (sl_txc_send_sib s) = ctl_of s. Proof. done. Qed.
Lemma ctl_send_sipo s : ctl_of (sl_txc_send_sipo s) = ctl_of s.
Proof. unfold sl_txc_send_sipo. ctl_frame. Qed.
Lemma ctl_send_sio s : ctl_of (sl_txc_send_sio s) = ctl_of s. Proof. done. Qed.
Lemma ctl_send_sin s : ctl_of (sl_txc_send_sin s) = ctl_of s. Proof. done. Qed.
Lemma ctl_send_sie s : ctl_of (sl_txc_send_sie s) = ctl_of s. Proof. done. Qed.
Lemma ctl_send_msu s : ctl_of (sl_txc_send_msu s) = ctl_of s.
Proof. unfold sl_txc_send_msu. ctl_frame. Qed.
Lemma ctl_send_fisu s : ctl_of (sl_txc_send_fisu s) = ctl_of s.
Proof. unfold sl_txc_send_fisu. ctl_frame. Qed.
Lemma ctl_fsnx_value s : ctl_of (sl_txc_fsnx_value s) = ctl_of s.
Proof. unfold sl_txc_fsnx_value. ctl_frame. Qed.
Lemma ctl_nack_to_be_sent s : ctl_of (sl_txc_nack_to_be_sent s) = ctl_of s. Proof. done. Qed.
#[export] Hint Rewrite ctl_iac_stop ctl_send_sios ctl_poc_stop ctl_eim_stop ctl_suerm_stop
  ctl_send_sib ctl_send_sipo ctl_send_sio ctl_send_sin ctl_send_sie ctl_send_msu ctl_send_fisu
  ctl_fsnx_value ctl_nack_to_be_sent : ctl.
Lemma ctl_sib_clear s : ctl_of (sib_clear s) = ctl_of s.
Proof. unfold sib_clear. ctl_frame. Qed.
Lemma ctl_sib_received s : ctl_of (sl_txc_sib_received s) = ctl_of s.
Proof. unfold sl_txc_sib_received. ctl_frame. Qed.
Lemma ctl_lsc_sib s : ctl_of (sl_lsc_sib s) = ctl_of s.
Proof. unfold sl_lsc_sib. case_match; rewrite ?ctl_sib_received; done. Qed.
Lemma ctl_ack_body s : ctl_of (ack_body s) = ctl_of s. Proof. done. Qed.
Lemma ctl_ack_loop n t s : ctl_of (ack_loop n t s) = ctl_of s.
Proof.
  revert s; induction n as [|n IH]; intros s; [done|]. cbn [ack_loop]. cbv zeta.
  destruct (_ =? t); rewrite ?IH; done.
Qed.
Lemma ctl_congestion_switch o m s : ctl_of (congestion_switch o m s) = ctl_of s.
Proof. unfold congestion_switch, set_cong, set_disc. cbv zeta. repeat case_match; reflexivity. Qed.
Lemma ctl_flushq_iq s : ctl_of (flushq_iq s) = ctl_of s. Proof. done. Qed.
Lemma ctl_flushq_oq s : ctl_of (flushq_oq s) = ctl_of s. Proof. done. Qed.
Lemma ctl_putq_oq m s : ctl_of (putq_oq m s) = ctl_of s. Proof. done. Qed.
Lemma ctl_qenable s : ctl_of (qenable_iq s) = ctl_of s. Proof. done. Qed.
Lemma ctl_fault s : ctl_of (fault s) = ctl_of s. Proof. done. Qed.
Lemma ctl_emit e s : ctl_of (emit e s) = ctl_of s. Proof. done. Qed.
#[export] Hint Rewrite ctl_sib_clear ctl_sib_received ctl_lsc_sib ctl_ack_body ctl_ack_loop
  ctl_congestion_switch ctl_flushq_iq ctl_flushq_oq ctl_putq_oq ctl_qenable ctl_fault
  ctl_emit : ctl.

(** *** Operations that may fail to send an indication *)

(** [f] acts as [g] on the projection, and may see an allocation fail. *)
Definition ctl_fx (f : xp → xp) (g : ctl → ctl) : Prop :=
  ∀ s, ∃ b, ctl_of (f s) = cfail b (g (ctl_of s)).

Lemma ctl_fx_id f : (∀ s, ctl_of (f s) = ctl_of s) → ctl_fx f id.
Proof. intros H s. exists false. by rewrite H, cfail_false. Qed.

(** [fx_split] splits on the outcome of the indication at the head of the goal. *)
Ltac ind_unfold :=
  unfold sl_link_congested_ind, sl_link_congestion_ceased_ind, sl_retrieved_message_ind,
    sl_retrieval_complete_ind, sl_rb_cleared_ind, sl_bsnt_ind, sl_in_service_ind,
    sl_out_of_service_ind, sl_remote_processor_outage_ind, sl_remote_processor_recovered_ind,
    sl_rtb_cleared_ind, m_error in *.
Ltac ind_split :=
  match goal with
  | |- context [put_ind ?p ?s] =>
      let v := fresh "v" in let E := fresh "E" in let H := fresh "Hv" in
      destruct (put_ind_cases p s) as [(v & E & H)|(v & E & H)]; rewrite E; clear E;
      cbn [fst snd Z.eqb]; cbv beta iota
  end.

Lemma fx_check_congestion : ctl_fx sl_check_congestion id.
Proof.
  intros s. unfold sl_check_congestion. ind_unfold. cbv zeta.
  repeat case_match; try (ind_split; ctl_norm; eexists; reflexivity).
  ctl_norm. exists false. by rewrite cfail_false.
Qed.
Lemma fx_clear_rtb : ctl_fx sl_txc_clear_rtb id.
Proof.
  intros s. unfold sl_txc_clear_rtb. cbv zeta.
  match goal with |- context [sl_check_congestion ?x] =>
    destruct (fx_check_congestion x) as [b ->] end.
  unfold id. ctl_norm. by exists b.
Qed.
Lemma fx_clear_tb : ctl_fx sl_txc_clear_tb id.
Proof.
  intros s. unfold sl_txc_clear_tb. cbv zeta.
  match goal with |- context [sl_check_congestion ?x] =>
    destruct (fx_check_congestion x) as [b ->] end.
  unfold id. ctl_norm. by exists b.
Qed.
Lemma ctl_flush_buffers s : ctl_of (sl_txc_flush_buffers s) = ctl_of s.
Proof. done. Qed.
#[export] Hint Rewrite ctl_flush_buffers : ctl.

(** An operation that reports an error: it fails with [-ENOBUFS] before it
    changes anything, or takes effect [g]. *)
Definition ctl_try (f : xp → Z * xp) (g : ctl → ctl) : Prop :=
  ∀ s, (∃ s', f s = (0, s') ∧ ctl_of s' = g (ctl_of s)) ∨
       (∃ v, f s = (-105, s <| xenv := v |>) ∧ ctl_env true s v).

Definition kg_link_failure (c : ctl) : ctl :=
  if c.(k_lsc) =s LSC_OUT_OF_SERVICE then c
  else
    (kg_iac_stop c) <| k_t1 := false |> <| k_eim := IDLE |> <| k_t8 := false |>
      <| k_t5 := false |> <| k_cc := CC_NORMAL |> <| k_rc := IDLE |>
      <| k_lsc := LSC_OUT_OF_SERVICE |>.
Lemma try_link_failure r : ctl_try (sl_lsc_link_failure r) kg_link_failure.
Proof.
  intros s. unfold sl_lsc_link_failure, kg_link_failure. ind_unfold. to_ctl.
  destruct (k_lsc (ctl_of s) =s LSC_OUT_OF_SERVICE); cbn [negb].
  - left. by eexists.
  - ind_split.
    + left. eexists. split; [reflexivity|]. cbv zeta. ctl_norm. by rewrite cfail_false.
    + right. by eexists.
Qed.
Definition kg_not_possible (c : ctl) : ctl :=
  c <| k_t5 := false |> <| k_cc := CC_NORMAL |> <| k_rc := IDLE |>
    <| k_lsc := LSC_OUT_OF_SERVICE |>.
Lemma try_not_possible : ctl_try sl_lsc_alignment_not_possible kg_not_possible.
Proof.
  intros s. unfold sl_lsc_alignment_not_possible, kg_not_possible. ind_unfold. ind_split.
  - left. eexists. split; [reflexivity|]. cbv zeta. ctl_norm. by rewrite cfail_false.
  - right. by eexists.
Qed.

(** The retransmission buffer was cleared while the processor outage lasted: the
    link may go back in service. *)
Definition kg_rtb_cleared (back : bool) (c : ctl) : ctl :=
  if back && (c.(k_lsc) =s LSC_PROCESSOR_OUTAGE) then c <| k_lsc := LSC_IN_SERVICE |> else c.
Lemma fx_rtb_cleared s :
  ∃ b back, ctl_of (sl_lsc_rtb_cleared s).2 = cfail b (kg_rtb_cleared back (ctl_of s)).
Proof.
  unfold sl_lsc_rtb_cleared, kg_rtb_cleared. ind_unfold. to_ctl.
  destruct (k_lsc (ctl_of s) =s LSC_PROCESSOR_OUTAGE).
  - cbv zeta. case_match; [exists false, false; ctl_norm; by rewrite cfail_false|].
    ind_split; [|exists true, false; by ctl_norm].
    ind_split; [|exists true, false; ctl_norm; by rewrite cfail_false].
    exists false, true. cbv zeta. ctl_norm. by rewrite !cfail_false.
  - exists false, false. by rewrite cfail_false.
Qed.

(** [fx_use L f] replaces a call of [f] in the goal by its effect, by [L]. *)
Tactic Notation "fx_use" constr(L) constr(f) :=
  match goal with
  | |- context [f ?x] => let b := fresh "b" in destruct (L x) as [b ->]; unfold id
  end.

Lemma fx_restart s :
  ∃ b back, ctl_of (txc_restart s) = cfail b (kg_rtb_cleared back (ctl_of s)).
Proof.
  unfold txc_restart. cbv zeta. ctl_norm.
  match goal with |- context [sl_lsc_rtb_cleared ?x] =>
    destruct (fx_rtb_cleared x) as (b & back & ->) end.
  ctl_norm. fx_use fx_check_congestion sl_check_congestion. ctl_norm.
  exists (b0 || b), back. rewrite <- cfail_cfail. unfold kg_rtb_cleared. by destruct (back && _).
Qed.
Lemma ctl_ack_timer s : ctl_of (ack_timer s) = ctl_of s.
Proof. unfold ack_timer. ctl_frame. Qed.
Lemma ctl_ack_not_full s : ctl_of (ack_not_full s) = ctl_of s.
Proof. unfold ack_not_full. ctl_frame. Qed.
Lemma ctl_ack_z s : ctl_of (ack_z s) = ctl_of s.
Proof. unfold ack_z. ctl_frame. Qed.
#[export] Hint Rewrite ctl_ack_timer ctl_ack_not_full ctl_ack_z : ctl.
Lemma fx_ack : ctl_fx txc_ack id.
Proof.
  intros s. unfold txc_ack. case_match; [|exists false; by rewrite cfail_false].
  cbv zeta. ctl_norm. fx_use fx_check_congestion sl_check_congestion. ctl_norm. by exists b.
Qed.
Lemma ctl_nack s : ctl_of (txc_nack s) = ctl_of s.
Proof. unfold txc_nack. ctl_frame. Qed.
#[export] Hint Rewrite ctl_nack : ctl.
Lemma fx_bsnr_and_bibr s :
  ∃ b back, ctl_of (sl_txc_bsnr_and_bibr s) = cfail b (kg_rtb_cleared back (ctl_of s)).
Proof.
  unfold sl_txc_bsnr_and_bibr. cbv zeta. case_match.
  - match goal with |- context [txc_restart ?x] =>
      destruct (fx_restart x) as (b & back & ->) end. ctl_norm. by exists b, back.
  - case_match; ctl_norm; fx_use fx_ack txc_ack; ctl_norm; by exists b, false.
Qed.

(** *** More operations without effect on the projection *)

Lemma ctl_rc_reject s : ctl_of (sl_rc_reject_msu_fisu s) = ctl_of s. Proof. done. Qed.
Lemma ctl_rc_accept s : ctl_of (sl_rc_accept_msu_fisu s) = ctl_of s. Proof. done. Qed.
Lemma ctl_rc_align_fsnx s : ctl_of (sl_rc_align_fsnx s) = ctl_of s.
Proof. apply ctl_fsnx_value. Qed.
Lemma ctl_poc_rpo s : ctl_of (sl_poc_remote_processor_outage s) = ctl_of s.
Proof. unfold sl_poc_remote_processor_outage. ctl_frame. Qed.
Lemma ctl_poc_lpo s : ctl_of (sl_poc_local_processor_outage s) = ctl_of s.
Proof. unfold sl_poc_local_processor_outage. ctl_frame. Qed.
Lemma ctl_daedr_start s : ctl_of (sl_daedr_start s) = ctl_of s. Proof. done. Qed.
Lemma ctl_daedt_start s : ctl_of (sl_daedt_start s) = ctl_of s. Proof. done. Qed.
Lemma ctl_aerm_start s : ctl_of (sl_aerm_start s) = ctl_of s. Proof. done. Qed.
Lemma ctl_tin s : ctl_of (sl_aerm_set_ti_to_tin s) = ctl_of s.
Proof. unfold sl_aerm_set_ti_to_tin. ctl_frame. Qed.
Lemma ctl_tie s : ctl_of (sl_aerm_set_ti_to_tie s) = ctl_of s.
Proof. unfold sl_aerm_set_ti_to_tie. ctl_frame. Qed.
#[export] Hint Rewrite ctl_rc_reject ctl_rc_accept ctl_rc_align_fsnx ctl_poc_rpo ctl_poc_lpo
  ctl_daedr_start ctl_daedt_start ctl_aerm_start ctl_tin ctl_tie : ctl.
(** [ctl_lets] proves a frame one [let] at a time. *)
Ltac ctl_lets :=
  lazymatch goal with
  | |- ctl_of (let x := ?e in @?k x) = ?c =>
      let y := fresh "s" in let Hy := fresh "Hs" in
      refine (ctl_let e k c _ _);
      [ ctl_frame; try eassumption | intros y Hy; cbv beta; ctl_lets ]
  | |- _ => ctl_frame; try eassumption
  end.
Lemma ctl_txc_start s : ctl_of (sl_txc_start s) = ctl_of s.
Proof. cbv delta [sl_txc_start] beta. ctl_lets. Qed.
Lemma ctl_check_len n m s : ctl_of (check_len n m s) = ctl_of s.
Proof. unfold check_len. ctl_frame. Qed.
Lemma ctl_set_rx_header a b c d e s : ctl_of (set_rx_header a b c d e s) = ctl_of s.
Proof. done. Qed.
#[export] Hint Rewrite ctl_txc_start ctl_check_len ctl_set_rx_header : ctl.
Lemma ctl_parse_header m s : ctl_of (rc_parse_header m s).2 = ctl_of s.
Proof. unfold rc_parse_header. case_match; cbn [snd]; ctl_norm; done. Qed.
Lemma ctl_parse_sio m s : ctl_of (rc_parse_sio m s).2 = ctl_of s.
Proof. unfold rc_parse_sio. cbn [snd]. by ctl_norm. Qed.
Lemma ctl_parse m s : ctl_of (rc_parse m s).2 = ctl_of s.
Proof.
  unfold rc_parse. destruct (rc_parse_header m s) as [m1 s1] eqn:E1.
  assert (H1 : ctl_of s1 = ctl_of s) by (rewrite <- (ctl_parse_header m s), E1; done).
  set (p := if _ =? 1 then _ else _).
  assert (H2 : ctl_of p.2 = ctl_of s1).
  { unfold p. case_match; [apply ctl_parse_sio|done]. }
  destruct p as [m2 s2]. cbn [snd] in H2. rewrite <- H1, <- H2.
  case_match; [|done]. destruct (rc_parse_sio m2 s2) as [m3 s3] eqn:E3.
  rewrite ctl_parse_sio, <- (ctl_parse_sio m2 s2), E3. done.
Qed.

Definition kg_busy (c : ctl) : ctl :=
  if c.(k_cc) =s CC_NORMAL then c <| k_t5 := true |> <| k_cc := CC_BUSY |> else c.
Lemma ctl_cc_busy s : ctl_of (sl_cc_busy s) = kg_busy (ctl_of s).
Proof. unfold sl_cc_busy, kg_busy. to_ctl. case_match; ctl_norm; done. Qed.
Lemma ctl_congestion_discard s : ctl_of (sl_rc_congestion_discard s) = kg_busy (ctl_of s).
Proof. unfold sl_rc_congestion_discard. by rewrite ctl_cc_busy. Qed.
Lemma ctl_congestion_accept s : ctl_of (sl_rc_congestion_accept s) = kg_busy (ctl_of s).
Proof. unfold sl_rc_congestion_accept. by rewrite ctl_cc_busy. Qed.
Lemma ctl_no_congestion s :
  ctl_of (sl_rc_no_congestion s) = (ctl_of s) <| k_t5 := false |> <| k_cc := CC_NORMAL |>.
Proof.
  cbv delta [sl_rc_no_congestion] beta.
  match goal with |- ctl_of (let x := ?e in @?k x) = ?c => change (ctl_of (k e) = c) end.
  cbv beta.
  match goal with |- ctl_of (let x := ?e in @?k x) = ?c => change (ctl_of (k e) = c) end.
  cbv beta. ctl_lets.
Qed.
Lemma ctl_retrieve_fsnx s :
  ctl_of (sl_rc_retrieve_fsnx s) = (ctl_of s) <| k_t5 := false |> <| k_cc := CC_NORMAL |>.
Proof. unfold sl_rc_retrieve_fsnx. ctl_frame. Qed.
#[export] Hint Rewrite ctl_cc_busy ctl_congestion_discard ctl_congestion_accept
  ctl_no_congestion ctl_retrieve_fsnx : ctl.

(** The local or remote processor recovered: LSC goes back in service if the
    user has already cleared or continued. *)
Definition kg_no_po (back : bool) (c : ctl) : ctl :=
  if back && (c.(k_lsc) =s LSC_PROCESSOR_OUTAGE) then c <| k_lsc := LSC_IN_SERVICE |> else c.
Lemma ctl_no_processor_outage s :
  ctl_of (sl_lsc_no_processor_outage s) =
  kg_no_po s.(sl_statem).(l3_indication_received) (ctl_of s).
Proof.
  unfold sl_lsc_no_processor_outage, kg_no_po. to_ctl.
  destruct (k_lsc (ctl_of s) =s LSC_PROCESSOR_OUTAGE); [|by rewrite andb_false_r].
  cbv zeta. upd. destruct (l3_indication_received (sl_statem s)); cbn [negb andb];
    ctl_norm; reflexivity.
Qed.
Lemma ctl_poc_rpr s :
  ∃ back, ctl_of (sl_poc_remote_processor_recovered s) = kg_no_po back (ctl_of s).
Proof.
  unfold sl_poc_remote_processor_recovered. case_match; try by exists false.
  eexists. cbv zeta. ctl_norm. apply ctl_no_processor_outage.
Qed.
Lemma ctl_poc_lpr s :
  ∃ back, ctl_of (sl_poc_local_processor_recovered s) = kg_no_po back (ctl_of s).
Proof.
  unfold sl_poc_local_processor_recovered. case_match; try by exists false.
  eexists. cbv zeta. ctl_norm. apply ctl_no_processor_outage.
Qed.

(** *** Retrieval *)

Lemma ctl_retrieval_ack_loop n t s : ctl_of (retrieval_ack_loop n t s) = ctl_of s.
Proof.
  revert s; induction n as [|n IH]; intros s; [done|]. cbn [retrieval_ack_loop].
  case_match; rewrite ?IH; done.
Qed.
Lemma ctl_retrieval_move_loop n s : ctl_of (retrieval_move_loop n s) = ctl_of s.
Proof.
  revert s; induction n as [|n IH]; intros s; [done|]. cbn [retrieval_move_loop]. cbv zeta.
  repeat case_match; rewrite ?IH; ctl_norm; done.
Qed.
#[export] Hint Rewrite ctl_retrieval_ack_loop ctl_retrieval_move_loop : ctl.
Lemma fx_retrieval_ind_loop n s :
  ∃ b, ctl_of (retrieval_ind_loop n s).2 = cfail b (ctl_of s).
Proof.
  revert s; induction n as [|n IH]; intros s; [by exists false; rewrite cfail_false|].
  cbn [retrieval_ind_loop]. cbv zeta. case_match. case_match.
  - ind_unfold. ind_split.
    + match goal with |- context [retrieval_ind_loop _ ?x] => destruct (IH x) as [b' ->] end.
      ctl_norm. rewrite cfail_false. by exists b'.
    + ctl_norm. by exists true.
  - by exists false; rewrite cfail_false.
Qed.
Lemma fx_retrieval f s :
  ∃ b, ctl_of (sl_txc_retrieval_request_and_fsnc f s).2 = cfail b (ctl_of s).
Proof.
  unfold sl_txc_retrieval_request_and_fsnc. cbv zeta.
  match goal with |- context [retrieval_ind_loop ?n ?x] =>
    destruct (fx_retrieval_ind_loop n x) as [b Hb];
    destruct (retrieval_ind_loop n x) as [r s'] end.
  revert Hb. cbn [snd]. ctl_norm. intros Hb. case_match; [|by exists b].
  ind_unfold. ind_split; ctl_norm; rewrite Hb, cfail_cfail; eexists; done.
Qed.
