(* ===== verification/Invariant.v ===== *)
(** * The link invariant

    Which timers run in which state, preserved by every operation of the link. *)
From S2P Require Import Prelude Bufq Xp Prims Timers Txc Lsc Rc LscCtl Monitors Requests Ctl.

Definition aligned (x : lsc_st) : bool :=
  match x with LSC_ALIGNED_READY | LSC_ALIGNED_NOT_READY => true | _ => false end.
Definition down (x : lsc_st) : bool :=
  match x with LSC_POWER_OFF | LSC_OUT_OF_SERVICE => true | _ => false end.

(** T2, T3 and T4 run exactly in the three states of the initial alignment, T5
    while the receiver is busy, T1 only between the alignment and the first
    message; EIM never monitors without T8; the initial alignment is only under
    way while LSC waits for it, and nothing is received while the link is down. *)
Record inv (c : ctl) : Prop := {
  inv_t2 : k_t2 c = (k_iac c =s IAC_NOT_ALIGNED);
  inv_t3 : k_t3 c = (k_iac c =s IAC_ALIGNED);
  inv_t4 : k_t4 c = (k_iac c =s IAC_PROVING);
  inv_t5 : k_t5 c = (k_cc c =s CC_BUSY);
  inv_t8 : implb (k_eim c =s IN_SERVICE) (k_t8 c) = true;
  inv_iac : (k_iac c =s IAC_IDLE) || (k_lsc c =s LSC_INITIAL_ALIGNMENT) = true;
  inv_t1 : implb (k_t1 c) (aligned (k_lsc c)) = true;
  inv_rc : implb (down (k_lsc c)) (k_rc c =s IDLE) = true;
  (** As long as no allocation has failed, a link that waits has a timer. *)
  inv_live : k_fail c ||
    (implb (k_lsc c =s LSC_INITIAL_ALIGNMENT) (negb (k_iac c =s IAC_IDLE)) &&
     implb (aligned (k_lsc c)) (k_t1 c)) = true }.

Definition pres (f : xp → xp) : Prop := ∀ s, inv (ctl_of s) → inv (ctl_of (f s)).

(** [inv_crush] decides what is left once the projection is computed: it
    takes the projection apart and evaluates. *)
Ltac inv_eval :=
  unfold kg_iac_stop, kg_link_failure, kg_not_possible, kg_rtb_cleared, cfail, id in *;
  cbn in *.
Ltac inv_case x := destruct x; cbn in *; try discriminate; try (split; cbn; reflexivity).
Ltac inv_crush :=
  to_ctl;
  repeat match goal with
  | s : xp |- _ =>
      match goal with
      | |- context [ctl_of s] => idtac
      | H : context [ctl_of s] |- _ => idtac
      end;
      generalize dependent (ctl_of s); intros
  end;
  repeat match goal with H : inv ?c |- _ => destruct H; destruct c end;
  inv_eval; subst; cbn in *;
  repeat match goal with
  | x : lsc_st |- _ => inv_case x
  | x : iac_st |- _ => inv_case x
  end;
  repeat match goal with
  | x : cc_st |- _ => inv_case x
  | x : run_st |- _ => inv_case x
  | x : bool |- _ => inv_case x
  end.

Lemma inv_cfail b c : inv c → inv (cfail b c).
Proof.
  intros []. split; unfold cfail; upd; auto. rewrite orb_comm, orb_assoc.
  rewrite orb_comm in inv_live0. by rewrite inv_live0.
Qed.
Lemma pres_id f : (∀ s, ctl_of (f s) = ctl_of s) → pres f.
Proof. intros H s. by rewrite H. Qed.
Lemma pres_fx f : ctl_fx f id → pres f.
Proof. intros H s Hs. destruct (H s) as [b ->]. by apply inv_cfail. Qed.
Lemma pres_comp f g : pres f → pres g → pres (fun s => g (f s)).
Proof. intros Hf Hg s Hs. by apply Hg, Hf. Qed.

(** [pres_tac] runs through the branches of an operation; [pres_ind] also splits
    on the outcomes of its indications. *)
Ltac pres_branch := repeat (case_match; ctl_norm); try done.
Ltac pres_tac := cbv zeta; pres_branch; inv_crush.
Ltac pres_ind :=
  cbv zeta; ind_unfold; repeat (case_match; ctl_norm); try done;
  repeat (ind_split; ctl_norm); try done; try inv_crush.
(** [try_use L f] splits on the result of a call of [f], by [L]. *)
Tactic Notation "try_use" constr(L) constr(f) :=
  match goal with
  | |- context [f ?x] =>
      let s' := fresh "s'" in let v := fresh "v" in let E := fresh in let H := fresh "Hf" in
      destruct (L x) as [(s' & E & H)|(v & E & H)]; rewrite E; clear E; cbn [fst snd];
      [ctl_norm; rewrite ?H | ctl_norm]; ctl_norm
  end.

(** ** Alignment *)

Lemma pres_iac_sio : pres sl_iac_sio.
Proof. intros s Hs. unfold sl_iac_sio. pres_tac. Qed.
Lemma pres_iac_sin : pres sl_iac_sin.
Proof. intros s Hs. unfold sl_iac_sin, sl_aerm_set_ti_to_tie, sl_aerm_start. pres_tac. Qed.
Lemma pres_iac_sie : pres sl_iac_sie.
Proof. intros s Hs. unfold sl_iac_sie, sl_aerm_set_ti_to_tie, sl_aerm_start. pres_tac. Qed.
Lemma pres_iac_sios : pres sl_iac_sios.
Proof.
  intros s Hs. unfold sl_iac_sios. cbv zeta. case_match; try done; ctl_norm;
    try_use try_not_possible sl_lsc_alignment_not_possible; inv_crush.
Qed.
Lemma pres_iac_emergency : pres sl_iac_emergency.
Proof.
  intros s Hs. unfold sl_iac_emergency, sl_aerm_set_ti_to_tie, sl_aerm_start. pres_tac.
Qed.
Lemma pres_iac_correct_su : pres sl_iac_correct_su.
Proof. intros s Hs. unfold sl_iac_correct_su, sl_aerm_start. pres_tac. Qed.
Lemma pres_iac_abort_proving : pres sl_iac_abort_proving.
Proof.
  intros s Hs. unfold sl_iac_abort_proving. cbv zeta. do 2 (case_match; ctl_norm; try done).
  try_use try_not_possible sl_lsc_alignment_not_possible; inv_crush.
Qed.

(** ** Link state control *)

Lemma pres_link_failure r : pres (fun s => (sl_lsc_link_failure r s).2).
Proof.
  intros s Hs. cbv beta. try_use (try_link_failure r) (sl_lsc_link_failure r).
  - inv_crush.
  - by apply inv_cfail.
Qed.
Lemma pres_lsc_sio s : k_rc (ctl_of s) = IN_SERVICE → inv (ctl_of s) → inv (ctl_of (sl_lsc_sio s)).
Proof. intros Hr Hs. unfold sl_lsc_sio. pres_ind. Qed.
Lemma pres_lsc_sios : pres sl_lsc_sios.
Proof. intros s Hs. unfold sl_lsc_sios. pres_ind. Qed.
Lemma pres_lsc_sin : pres sl_lsc_sin.
Proof. intros s Hs. unfold sl_lsc_sin. pres_ind. Qed.
Lemma pres_lsc_sie : pres sl_lsc_sie.
Proof. intros s Hs. unfold sl_lsc_sie. pres_ind. Qed.
Lemma pres_no_po back c : inv c → inv (kg_no_po back c).
Proof. intros H. unfold kg_no_po. case_match; [|done]. destruct back; inv_crush. Qed.
Lemma pres_poc_rpr : pres sl_poc_remote_processor_recovered.
Proof. intros s Hs. destruct (ctl_poc_rpr s) as [back ->]. by apply pres_no_po. Qed.
Lemma pres_poc_lpr : pres sl_poc_local_processor_recovered.
Proof. intros s Hs. destruct (ctl_poc_lpr s) as [back ->]. by apply pres_no_po. Qed.

Lemma pres_put p f : pres f → pres (fun s => (put_ind p (f s)).2).
Proof.
  intros Hf s Hs. specialize (Hf s Hs). cbv beta. ind_split; ctl_norm; by apply inv_cfail.
Qed.
Lemma pres_fisu_msu_received : pres (fun s => (sl_lsc_fisu_msu_received s).2).
Proof.
  intros s Hs. unfold sl_lsc_fisu_msu_received. ind_unfold. cbv zeta.
  destruct (lsc_state (sl_statem s)) eqn:El; try done.
  - ind_split; ctl_norm; [inv_crush|by apply inv_cfail].
  - ind_split; ctl_norm; [|by apply inv_cfail]. case_match; ctl_norm; inv_crush.
  - case_match.
    + by apply (pres_put _ _ pres_poc_rpr).
    + ind_split; ctl_norm; by apply inv_cfail.
    + case_match; [|done]. ind_split; ctl_norm; by apply inv_cfail.
Qed.
Lemma pres_lsc_sipo : pres (fun s => (sl_lsc_sipo s).2).
Proof.
  intros s Hs. unfold sl_lsc_sipo. ind_unfold. cbv zeta.
  destruct (lsc_state (sl_statem s)) eqn:El; try done; destruct (pvar_switch s); try done;
    repeat (first [ind_split | case_match]; ctl_norm); try done; try by apply inv_cfail.
  all: solve [inv_crush].
Qed.

Lemma pres_bsnr_and_bibr : pres sl_txc_bsnr_and_bibr.
Proof.
  intros s Hs. destruct (fx_bsnr_and_bibr s) as (b & back & ->). apply inv_cfail.
  by apply (pres_no_po back).
Qed.
Lemma pres_busy : pres sl_cc_busy.
Proof. intros s Hs. ctl_norm. unfold kg_busy. case_match; [inv_crush|done]. Qed.
Lemma pres_no_congestion : pres sl_rc_no_congestion.
Proof. intros s Hs. ctl_norm. inv_crush. Qed.
Lemma or_not_canput_cases c s :
  ∃ b v, or_not_canput c s = (b, s <| xenv := v |>) ∧ ctl_env false s v.
Proof.
  unfold or_not_canput. destruct c.
  - exists true, (xenv s). split; [by rewrite xp_eta|].
    unfold ctl_env. by rewrite xp_eta, cfail_false.
  - destruct (xcanput_cases s) as (b & v & -> & H). by exists (negb b), v.
Qed.
Lemma pres_rb_congestion : pres sl_rb_congestion_function.
Proof.
  intros s Hs. unfold sl_rb_congestion_function. case_match; [|done]. case_match.
  - case_match; [|done]. destruct (xcanput_cases s) as (b & v & -> & Hv). cbv beta iota zeta.
    case_match; ctl_norm; rewrite cfail_false; [inv_crush|done].
  - destruct (or_not_canput_cases (rb_discard (sl_conf s) <=? Cr (sl_statem s)) s)
      as (b & v & -> & Hv). cbv beta iota zeta.
    case_match; [ctl_norm; rewrite cfail_false, <- ctl_cc_busy; by apply pres_busy|].
    match goal with |- context [or_not_canput ?c ?x] =>
      destruct (or_not_canput_cases c x) as (b' & v' & -> & Hv') end. cbv beta iota zeta.
    case_match; ctl_norm; rewrite !cfail_false; [rewrite <- ctl_cc_busy; by apply pres_busy|done].
Qed.

(** ** The user of the link *)

Lemma pres_lsc_stop : pres sl_lsc_stop.
Proof. intros s Hs. unfold sl_lsc_stop. pres_tac. Qed.
Lemma pres_lsc_clear_rtb : pres sl_lsc_clear_rtb.
Proof.
  intros s Hs. unfold sl_lsc_clear_rtb. cbv zeta. case_match; [|done].
  fx_use fx_clear_rtb sl_txc_clear_rtb. ctl_norm. by apply inv_cfail.
Qed.
Lemma pres_clear_buffers : pres (fun s => (sl_lsc_clear_buffers s).2).
Proof.
  intros s Hs. unfold sl_lsc_clear_buffers, sl_rc_clear_rb. ind_unfold. cbv zeta.
  destruct (lsc_state (sl_statem s)) eqn:El; try done; destruct (pvar_switch s); try done.
  1-3: ind_split; ctl_norm; try by apply inv_cfail. 1: inv_crush.
  - case_match; ctl_norm; [done|inv_crush].
  - ind_split; ctl_norm; [|by apply inv_cfail].
    fx_use fx_clear_rtb sl_txc_clear_rtb. ctl_norm. fx_use fx_clear_tb sl_txc_clear_tb.
    ctl_norm. by repeat apply inv_cfail.
Qed.
Lemma inv_let c (e : xp) (k : xp → xp) :
  ctl_of e = c → (∀ x, ctl_of x = c → inv (ctl_of (k x))) → inv (ctl_of (let x := e in k x)).
Proof. intros H K. exact (K e H). Qed.
(** [inv_lets] goes through the [let]s that keep the projection [c]. *)
Ltac inv_let c :=
  match goal with
  | |- inv (ctl_of (let x := ?e in @?k x)) =>
      let y := fresh "s" in let Hy := fresh "Hs" in
      refine (inv_let c e k _ _);
      [ ctl_frame; try eassumption | intros y Hy; cbv beta ]
  end.
Lemma pres_lpr : pres sl_lsc_local_processor_recovered.
Proof.
  intros s Hs. destruct (ctl_poc_lpr s) as [back Hb].
  cbv delta [sl_lsc_local_processor_recovered] beta.
  destruct (lsc_state (sl_statem s)) eqn:El; try done.
  - inv_let (ctl_of s).
    { rewrite Hb. unfold kg_no_po. to_ctl. rewrite El. by rewrite andb_false_r. }
    do 3 inv_let (ctl_of s). ctl_norm. rewrite Hs3. clear - Hs El. inv_crush.
  - ind_unfold. destruct (pvar_switch s); cbv zeta; ctl_norm.
    + rewrite Hb. clear - Hs El. unfold kg_no_po; case_match; inv_crush.
    + case_match; [ind_split; ctl_norm; by apply inv_cfail|]. ctl_norm. clear - Hs El. inv_crush.
    + done.
Qed.
Lemma pres_lpo : pres sl_lsc_local_processor_outage.
Proof. intros s Hs. unfold sl_lsc_local_processor_outage. pres_tac. Qed.
Lemma pres_lsc_emergency : pres sl_lsc_emergency.
Proof. intros s Hs. apply pres_iac_emergency. by ctl_norm. Qed.
Definition kg_rc_start (c : ctl) : ctl := c <| k_rc := IN_SERVICE |>.
Lemma ctl_rc_start s : ctl_of (sl_rc_start s) = kg_rc_start (ctl_of s).
Proof.
  unfold kg_rc_start. cbv delta [sl_rc_start] beta. to_ctl.
  destruct (k_rc (ctl_of s)) eqn:E; cbn [bool_decide decide].
  - rewrite bool_decide_eq_true_2 by done.
    repeat (match goal with
           | |- ctl_of (let x := ?e in @?k x) = ?c => change (ctl_of (k e) = c)
           end; cbv beta). ctl_norm. done.
  - rewrite bool_decide_eq_false_2 by done. rewrite <- E. by destruct (ctl_of s).
Qed.
#[export] Hint Rewrite ctl_rc_start : ctl.
Lemma ctl_iac_emergency_idle s :
  k_iac (ctl_of s) = IAC_IDLE → ctl_of (sl_iac_emergency s) = ctl_of s.
Proof. intros H. unfold sl_iac_emergency. to_ctl. by rewrite H. Qed.
Lemma ctl_iac_start_idle s :
  k_iac (ctl_of s) = IAC_IDLE →
  ctl_of (sl_iac_start s) = (ctl_of s) <| k_t2 := true |> <| k_iac := IAC_NOT_ALIGNED |>.
Proof. intros H. unfold sl_iac_start. to_ctl. rewrite H. done. Qed.
Lemma pres_lsc_start : pres sl_lsc_start.
Proof.
  intros s Hs. cbv delta [sl_lsc_start] beta. to_ctl.
  destruct (k_lsc (ctl_of s) =s LSC_OUT_OF_SERVICE) eqn:El; [|done].
  apply bool_decide_eq_true in El.
  assert (Hi : k_iac (ctl_of s) = IAC_IDLE).
  { destruct Hs. rewrite El, orb_false_r in inv_iac0. by apply bool_decide_eq_true in inv_iac0. }
  inv_let (kg_rc_start (ctl_of s)). inv_let (kg_rc_start (ctl_of s)).
  assert (Hi1 : k_iac (ctl_of s1) = IAC_IDLE) by (rewrite Hs1; exact Hi).
  inv_let (kg_rc_start (ctl_of s)).
  { by rewrite ctl_iac_emergency_idle. }
  cbv zeta. ctl_norm. rewrite ctl_iac_start_idle by (rewrite Hs2; exact Hi).
  rewrite Hs2. clear - Hs El Hi. unfold kg_rc_start. inv_crush.
Qed.
Lemma pres_retrieve_bsnt : pres (fun s => (sl_lsc_retrieve_bsnt s).2).
Proof.
  intros s Hs. unfold sl_lsc_retrieve_bsnt, sl_rc_retrieve_bsnt. ind_unfold. cbv zeta.
  case_match; try done; ind_split; ctl_norm; by apply inv_cfail.
Qed.
Lemma pres_retrieval f : pres (fun s => (sl_lsc_retrieval_request_and_fsnc f s).2).
Proof.
  intros s Hs. unfold sl_lsc_retrieval_request_and_fsnc.
  case_match; try done; destruct (fx_retrieval f s) as [b ->]; by apply inv_cfail.
Qed.
Lemma pres_power_on : pres sl_lsc_power_on.
Proof.
  intros s Hs. unfold sl_lsc_power_on. cbv zeta. case_match; [|done]. ctl_norm. inv_crush.
Qed.

(** ** Reception *)

Lemma pres_deliver m : pres (rc_deliver m).
Proof.
  intros s Hs. unfold rc_deliver. cbv zeta. case_match.
  - rewrite ctl_cc_busy. ctl_norm. rewrite <- ctl_cc_busy. by apply pres_busy.
  - by ctl_norm.
Qed.
Lemma pres_upd f s : (∀ x, ctl_of (f x) = ctl_of x) → inv (ctl_of s) → inv (ctl_of (f s)).
Proof. intros H. by rewrite H. Qed.
(** [pres_step L] discharges a call by the preservation lemma [L]. *)
Lemma pres_lssu s : k_rc (ctl_of s) = IN_SERVICE → inv (ctl_of s) → inv (ctl_of (rc_lssu s)).
Proof.
  intros Hr Hs. unfold rc_lssu. cbv zeta.
  repeat case_match; auto using pres_lsc_sin, pres_iac_sin, pres_lsc_sie, pres_iac_sie,
    pres_lsc_sios, pres_iac_sios.
  - apply pres_lsc_sio; [|by apply pres_iac_sio].
    unfold sl_iac_sio. cbv zeta. repeat (case_match; ctl_norm); done.
  - by apply (pres_lsc_sipo s).
  - by rewrite ctl_lsc_sib.
Qed.
Lemma ctl_set_rF s : ctl_of (set_rF s) = ctl_of s. Proof. done. Qed.
Lemma ctl_next_fsnx s : ctl_of (rc_next_fsnx s) = ctl_of s. Proof. done. Qed.
#[export] Hint Rewrite ctl_set_rF ctl_next_fsnx : ctl.
Lemma pres_acknowledge : pres rc_acknowledge.
Proof.
  intros s Hs. unfold rc_acknowledge. rewrite ctl_set_rF.
  by apply pres_bsnr_and_bibr, pres_fisu_msu_received.
Qed.
(** [pres_next f L] names the state after [f], which [L] says is fine. *)
Ltac pres_next f L Hs :=
  match goal with
  | |- context [f ?x] =>
      let y := fresh "s" in
      apply (L x) in Hs; set (y := f x) in *; clearbody y
  end.
Lemma pres_pcr m : pres (rc_pcr m).
Proof.
  intros s Hs. unfold rc_pcr. pres_next rc_acknowledge pres_acknowledge Hs.
  case_match; [done|]. pres_next sl_rb_congestion_function pres_rb_congestion Hs.
  case_match; [by apply pres_busy|]. case_match; [|done]. apply pres_deliver. by ctl_norm.
Qed.
Lemma pres_basic_accept m : pres (rc_basic_accept m).
Proof.
  intros s Hs. unfold rc_basic_accept. pres_next rc_acknowledge pres_acknowledge Hs.
  case_match; [done|]. pres_next sl_rb_congestion_function pres_rb_congestion Hs.
  case_match; [apply pres_busy; by ctl_norm|].
  case_match; [apply pres_deliver; by ctl_norm|].
  case_match; [done|]. case_match; [apply pres_busy; by ctl_norm|]. by ctl_norm.
Qed.
Lemma pres_basic m : pres (rc_basic m).
Proof.
  intros s Hs. unfold rc_basic. cbv zeta. case_match; case_match.
  - case_match; [by apply pres_basic_accept|done].
  - by apply pres_basic_accept.
  - by apply pres_link_failure.
  - case_match; [|by ctl_norm]. rewrite ctl_set_rF. by apply pres_bsnr_and_bibr.
Qed.
Lemma pres_fisu_msu m : pres (rc_fisu_msu m).
Proof.
  intros s Hs. unfold rc_fisu_msu. cbv zeta. case_match; case_match.
  - apply (pres_link_failure SL_FAIL_ABNORMAL_BSNR) in Hs. revert Hs.
    set (s1 := (_ s).2). clearbody s1. intros Hs. ctl_norm. clear - Hs. inv_crush.
  - done.
  - case_match; [|done]. case_match; [by apply pres_pcr|by apply pres_basic].
  - case_match; [by apply pres_pcr|by apply pres_basic].
Qed.
Lemma pres_signal_unit m : pres (sl_rc_signal_unit m).
Proof.
  intros s Hs. unfold sl_rc_signal_unit. to_ctl.
  destruct (k_rc (ctl_of s) =s IN_SERVICE) eqn:Hr; [|done]. cbn [negb].
  apply bool_decide_eq_true in Hr. pose proof (ctl_parse m s) as Hp.
  destruct (rc_parse m s) as [m' s']. cbn [snd] in Hp. rewrite <- Hp in *. cbv zeta.
  case_match; [by apply pres_lssu|by apply pres_fisu_msu].
Qed.

(** ** Monitors *)

Lemma pres_aerm_su_in_error : pres sl_aerm_su_in_error.
Proof.
  intros s Hs. unfold sl_aerm_su_in_error. cbv zeta. do 2 (case_match; [|done]). ctl_norm.
  by apply pres_iac_abort_proving.
Qed.
Lemma pres_aerm_correct_su : pres sl_aerm_correct_su.
Proof.
  intros s Hs. unfold sl_aerm_correct_su. cbv zeta. do 2 (case_match; [|done]). ctl_norm.
  by apply pres_iac_correct_su.
Qed.
Lemma ctl_count_su s : ctl_of (suerm_count_su s) = ctl_of s.
Proof. unfold suerm_count_su. ctl_frame. Qed.
#[export] Hint Rewrite ctl_count_su : ctl.
Lemma pres_suerm_su_in_error : pres sl_suerm_su_in_error.
Proof.
  intros s Hs. unfold sl_suerm_su_in_error. cbv zeta. do 2 (case_match; ctl_norm; try done).
  by apply pres_link_failure.
Qed.
Lemma ctl_eim_su_in_error s : ctl_of (sl_eim_su_in_error s) = ctl_of s.
Proof. unfold sl_eim_su_in_error. ctl_frame. Qed.
Lemma ctl_eim_correct_su s : ctl_of (sl_eim_correct_su s) = ctl_of s.
Proof. unfold sl_eim_correct_su. ctl_frame. Qed.
Lemma ctl_suerm_correct_su s : ctl_of (sl_suerm_correct_su s) = ctl_of s.
Proof. unfold sl_suerm_correct_su. ctl_frame. Qed.
#[export] Hint Rewrite ctl_eim_su_in_error ctl_eim_correct_su ctl_suerm_correct_su : ctl.
Lemma pres_daedr_correct_su : pres sl_daedr_correct_su.
Proof. intros s Hs. unfold sl_daedr_correct_su. apply pres_aerm_correct_su. by ctl_norm. Qed.
Lemma pres_daedr_su_in_error : pres sl_daedr_su_in_error.
Proof.
  intros s Hs. unfold sl_daedr_su_in_error. cbv zeta. repeat case_match; try by ctl_norm.
  apply pres_aerm_su_in_error, pres_suerm_su_in_error. by ctl_norm.
Qed.
