(* ===== verification/Machine.v ===== *)
(** * Preservation by every event

    The link invariant is preserved by the transmission and reception hooks of
    the Soft-HDLC, the expiry of each timer and every request of the user. *)
From S2P Require Import Prelude Bufq Xp Prims Timers Txc Lsc Rc LscCtl Monitors Requests.
From S2P Require Import Lmi Ctl Invariant.

(** ** Operations that pass data *)

Lemma fx_message_for_transmission m : ctl_fx (sl_txc_message_for_transmission m) id.
Proof.
  intros s. unfold sl_txc_message_for_transmission. cbv zeta.
  fx_use fx_check_congestion sl_check_congestion. ctl_norm. by exists b.
Qed.
Lemma pres_pdu w : pres (fun s => (sl_lsc_pdu w s).2).
Proof.
  intros s Hs. unfold sl_lsc_pdu. cbv zeta. case_match; [done|]. case_match.
  - case_match; cbn [snd].
    + apply pres_fx; [apply fx_message_for_transmission|done].
    + destruct (new_msg_cases s) as (i & b & v & -> & Hv). cbv beta iota.
      case_match; cbn [snd].
      * apply pres_fx; [apply fx_message_for_transmission|]. ctl_norm. by apply inv_cfail.
      * ctl_norm. by apply inv_cfail.
  - repeat case_match; try done. cbn [snd].
    apply pres_fx; [apply fx_message_for_transmission|done].
Qed.

Lemma fx_sdt_ind m n s : ∃ b, ctl_of (sdt_rc_signal_unit_ind m n s).2 = cfail b (ctl_of s).
Proof.
  unfold sdt_rc_signal_unit_ind. case_match; [|by exists false; rewrite cfail_false].
  destruct (xcanput_cases s) as (b & v & -> & Hv). cbv beta iota zeta. case_match.
  - match goal with |- context [xalloc ?x] =>
      destruct (xalloc_cases x) as (b' & v' & -> & Hv') end.
    cbv beta iota zeta. case_match; ctl_norm; rewrite cfail_cfail; by eexists.
  - ctl_norm. by exists false.
Qed.
Lemma ctl_incr_sdt f `{!Setter f} s : ctl_of (incr_sdt f s) = ctl_of s.
Proof. done. Qed.
#[export] Hint Rewrite @ctl_incr_sdt : ctl.
Lemma pres_received_bits m : pres (sl_daedr_received_bits m).
Proof.
  intros s Hs. unfold sl_daedr_received_bits. case_match.
  - case_match.
    + apply pres_daedr_correct_su. by apply pres_signal_unit.
    + apply pres_daedr_correct_su. case_match; by ctl_norm.
  - case_match; [|done]. cbv zeta. case_match; [by ctl_norm|].
    match goal with |- context [if _ <=? _ then _ else ?x] => set (s1 := x) end.
    assert (Es1 : ctl_of s1 = ctl_of s) by (unfold s1; case_match; by ctl_norm). clearbody s1.
    match goal with |- context [sdt_rc_signal_unit_ind _ _ ?x] => set (s2 := x) end.
    assert (Es2 : inv (ctl_of s2)).
    { unfold s2. destruct (_ <=? _); [|by rewrite Es1]. destruct (rx_cmp (xp_rx s1)).
      - by ctl_norm; rewrite Es1.
      - destruct (new_msg_cases s1) as (i & b & v & -> & Hv). cbv beta iota.
        destruct i; ctl_norm; apply inv_cfail; by rewrite Es1. }
    clearbody s2. destruct (fx_sdt_ind (Some m0) 1 s2) as [b Hb].
    destruct (sdt_rc_signal_unit_ind (Some m0) 1 s2) as [r s3]. cbn [snd] in Hb.
    case_match; ctl_norm; rewrite Hb; by apply inv_cfail.
Qed.

(** A function that returns a frame keeps the projection. *)
Definition ctl_frame2 (f : xp → option mblk * xp) : Prop :=
  ∀ s, ∃ b, ctl_of (f s).2 = cfail b (ctl_of s).
Lemma fx_none s : ∃ b, ctl_of s = cfail b (ctl_of s).
Proof. exists false. by rewrite cfail_false. Qed.
Lemma ctl_set_bsn s : ctl_of (set_bsn s) = ctl_of s. Proof. done. Qed.
Lemma ctl_rc_fsnt s : ctl_of (sl_rc_fsnt_value s) = ctl_of s. Proof. done. Qed.
#[export] Hint Rewrite ctl_set_bsn ctl_rc_fsnt : ctl.
Lemma ctl_daedt_msu o m s : ctl_of (sl_daedt_msu o m s).2 = ctl_of s.
Proof.
  cbv delta [sl_daedt_msu] beta. generalize (su_header s). intros h. cbv zeta. cbn [snd].
  case_match; by ctl_norm.
Qed.
Ltac new_msg_split :=
  match goal with
  | |- context [new_msg ?x] =>
      let i := fresh "i" in let b := fresh "b" in let v := fresh "v" in let H := fresh "Hv" in
      destruct (new_msg_cases x) as (i & b & v & -> & H); cbv beta iota;
      destruct i; cbn [fmap option_fmap option_map]
  end.
Lemma fx_send_lssu : ctl_frame2 txc_send_lssu.
Proof.
  intros s. unfold txc_send_lssu. new_msg_split; cbv zeta; ctl_norm; [case_match|];
    ctl_norm; by exists b.
Qed.
Lemma fx_send_fisu : ctl_frame2 txc_send_fisu.
Proof.
  intros s. unfold txc_send_fisu. new_msg_split; cbv zeta; ctl_norm; by exists b.
Qed.
Lemma ctl_resend_number p s : ctl_of (resend_number p s) = ctl_of s.
Proof. unfold resend_number. ctl_frame. Qed.
Lemma ctl_resend_end s : ctl_of (resend_end s) = ctl_of s.
Proof. unfold resend_end. ctl_frame. Qed.
Lemma ctl_resend p b m s : ctl_of (txc_resend p b m s).2 = ctl_of s.
Proof.
  unfold txc_resend. cbv zeta.
  match goal with |- context [sl_daedt_msu ?o ?x ?y] =>
    pose proof (ctl_daedt_msu o x y) as H; destruct (sl_daedt_msu o x y) as [m' s'] end.
  cbn [snd] in *. rewrite ctl_resend_end, H, ctl_resend_number. by ctl_norm.
Qed.
Lemma ctl_z_deref s : ctl_of (z_deref s).2 = ctl_of s.
Proof. unfold z_deref. repeat case_match; done. Qed.
Lemma fx_retransmit p : ctl_frame2 (txc_retransmit p).
Proof.
  intros s. unfold txc_retransmit. pose proof (ctl_z_deref s) as Hz.
  destruct (z_deref s) as [[bp|] s1]; cbn [snd] in Hz; rewrite <- Hz; cbv beta iota.
  - unfold dupmsg. new_msg_split; rewrite ?ctl_resend; ctl_norm; by exists b.
  - destruct p; [|by apply fx_none]. cbv zeta. destruct (bufq_head _) as [bp|].
    + unfold dupmsg. new_msg_split; rewrite ?ctl_resend; ctl_norm; by exists b.
    + ctl_norm. apply fx_none.
Qed.
Lemma ctl_send_new_number s : ctl_of (send_new_number s) = ctl_of s.
Proof. cbv delta [send_new_number] beta. ctl_lets. Qed.
Lemma ctl_send_new_full p s : ctl_of (send_new_full p s) = ctl_of s.
Proof. unfold send_new_full. ctl_frame. Qed.
#[export] Hint Rewrite ctl_send_new_number ctl_send_new_full : ctl.
Lemma ctl_send_new_move hd s : ctl_of (send_new_move hd s) = ctl_of s.
Proof. unfold send_new_move. cbv zeta. by ctl_norm. Qed.
#[export] Hint Rewrite ctl_send_new_move : ctl.
Lemma fx_send_new p : ctl_frame2 (txc_send_new p).
Proof.
  intros s. unfold txc_send_new. destruct (bufq_head _) as [hd|]; [|by apply fx_none].
  unfold dupmsg. new_msg_split; [|ctl_norm; by exists b]. cbv zeta.
  match goal with |- context [sl_daedt_msu ?o ?x ?y] =>
    pose proof (ctl_daedt_msu o x y) as H; destruct (sl_daedt_msu o x y) as [m' s'] end.
  cbn [snd] in *. exists b. rewrite H. by ctl_norm.
Qed.
Lemma fx_txc_request : ctl_frame2 sl_txc_transmission_request.
Proof.
  intros s. unfold sl_txc_transmission_request. case_match; [by apply fx_none|]. cbv zeta.
  case_match; [apply fx_send_lssu|]. case_match; [apply fx_send_fisu|].
  match goal with |- context [txc_retransmit _ ?x] => set (s1 := x) end.
  assert (Es : ctl_of s1 = ctl_of s) by (unfold s1; ctl_frame). clearbody s1.
  rewrite <- Es. case_match; [apply fx_retransmit|].
  case_match; [apply fx_send_fisu|apply fx_send_new].
Qed.

(** ** Frames to send *)

Lemma fx_sdt_transmission_request : ctl_frame2 sdt_transmission_request.
Proof.
  intros s. unfold sdt_transmission_request.
  destruct (bufq_dequeue (sdt_tb s)) as [[mp|] q].
  - cbv zeta.
    match goal with |- context [daedt_no_repeat _ _ ?x] => set (s1 := x) end.
    assert (Es : ctl_of s1 = ctl_of s) by (unfold s1; ctl_frame). clearbody s1. rewrite <- Es.
    case_match; [cbn [snd]; ctl_norm; by apply fx_none|].
    destruct (tx_cmp (xp_tx s1)) as [c|].
    + cbn [snd]. ctl_norm. by apply fx_none.
    + new_msg_split; cbn [snd]; ctl_norm; by exists b.
  - case_match; cbn [snd]; ctl_norm; by apply fx_none.
Qed.
Lemma fx_daedt_transmission_request : ctl_frame2 sl_daedt_transmission_request.
Proof.
  intros s. unfold sl_daedt_transmission_request. case_match.
  - destruct (fx_txc_request s) as [b Hb]. destruct (sl_txc_transmission_request s) as [[m|] s'];
      cbn [snd] in *; ctl_norm; by exists b.
  - case_match; [apply fx_sdt_transmission_request|]. case_match; [|by apply fx_none].
    destruct (bufq_dequeue (sdl_tb s)) as [[mp|] q]; cbn [snd];
      [cbv zeta; case_match|]; ctl_norm; by apply fx_none.
Qed.

(** ** Timeouts *)

Lemma ctl_set_toid1 v s : ctl_of (set_toid T1 v s) = (ctl_of s) <| k_t1 := armed v |>.
Proof. done. Qed.
Lemma ctl_set_toid2 v s : ctl_of (set_toid T2 v s) = (ctl_of s) <| k_t2 := armed v |>.
Proof. done. Qed.
Lemma ctl_set_toid3 v s : ctl_of (set_toid T3 v s) = (ctl_of s) <| k_t3 := armed v |>.
Proof. done. Qed.
Lemma ctl_set_toid4 v s : ctl_of (set_toid T4 v s) = (ctl_of s) <| k_t4 := armed v |>.
Proof. done. Qed.
Lemma ctl_set_toid5 v s : ctl_of (set_toid T5 v s) = (ctl_of s) <| k_t5 := armed v |>.
Proof. done. Qed.
Lemma ctl_set_toid6 v s : ctl_of (set_toid T6 v s) = ctl_of s. Proof. done. Qed.
Lemma ctl_set_toid7 v s : ctl_of (set_toid T7 v s) = ctl_of s. Proof. done. Qed.
Lemma ctl_set_toid8 v s : ctl_of (set_toid T8 v s) = (ctl_of s) <| k_t8 := armed v |>.
Proof. done. Qed.
#[export] Hint Rewrite ctl_set_toid1 ctl_set_toid2 ctl_set_toid3 ctl_set_toid4 ctl_set_toid5
  ctl_set_toid6 ctl_set_toid7 ctl_set_toid8 : ctl.
Lemma armed_toid1 s : toid T1 s ≠ None → k_t1 (ctl_of s) = true.
Proof. cbn. unfold armed. by case_match. Qed.
Lemma armed_toid2 s : toid T2 s ≠ None → k_t2 (ctl_of s) = true.
Proof. cbn. unfold armed. by case_match. Qed.
Lemma armed_toid3 s : toid T3 s ≠ None → k_t3 (ctl_of s) = true.
Proof. cbn. unfold armed. by case_match. Qed.
Lemma armed_toid4 s : toid T4 s ≠ None → k_t4 (ctl_of s) = true.
Proof. cbn. unfold armed. by case_match. Qed.
Lemma armed_toid5 s : toid T5 s ≠ None → k_t5 (ctl_of s) = true.
Proof. cbn. unfold armed. by case_match. Qed.
Lemma armed_toid8 s : toid T8 s ≠ None → k_t8 (ctl_of s) = true.
Proof. cbn. unfold armed. by case_match. Qed.

(** The expiry of a timer: nothing, or the handler took effect, or the timer
    runs again with the rest unchanged. *)
Lemma do_timeout_cases t f g free s :
  ctl_try f g →
  ss7_do_timeout t f free s = s ∨
  (toid t s ≠ None ∧ ctl_of (ss7_do_timeout t f free s) = g (ctl_of (set_toid t None s))) ∨
  (toid t s ≠ None ∧ ∃ b, ctl_of (ss7_do_timeout t f free s) =
                          cfail b (ctl_of (set_toid t (Some 2) s))).
Proof.
  intros Hf. unfold ss7_do_timeout. destruct (toid t s) eqn:Ht; [right|by left].
  destruct free.
  - destruct (Hf (set_toid t None s)) as [(s' & -> & H)|(v & -> & H)]; [left|right];
      (split; [done|]); cbv zeta beta iota; [exact H|].
    exists true. unfold ctl_env in H. change (ss7_retry (-105)) with true. cbv iota.
    destruct t; try discriminate Ht; ctl_norm; rewrite H; ctl_norm; reflexivity.
  - right. split; [done|]. exists false. rewrite cfail_false. by destruct t.
Qed.

Definition kg_t1 (c : ctl) : ctl :=
  c <| k_t5 := false |> <| k_cc := CC_NORMAL |> <| k_rc := IDLE |> <| k_eim := IDLE |>
    <| k_t8 := false |> <| k_lsc := LSC_OUT_OF_SERVICE |>.
Lemma try_t1 : ctl_try xp_t1_timeout kg_t1.
Proof.
  intros s. unfold xp_t1_timeout, kg_t1. ind_unfold. ind_split; [left|right; by eexists].
  eexists. split; [reflexivity|]. cbv zeta. case_match; ctl_norm; by rewrite cfail_false.
Qed.
Lemma try_t2 : ctl_try xp_t2_timeout (fun c =>
  if k_iac c =s IAC_NOT_ALIGNED then (kg_not_possible c) <| k_iac := IAC_IDLE |> else c).
Proof.
  intros s. unfold xp_t2_timeout. to_ctl. case_match; [|left; by eexists].
  destruct (try_not_possible s) as [(s' & -> & Hs')|(v & -> & Hv)]; [left|right; by eexists].
  eexists. split; [reflexivity|]. ctl_norm. by rewrite Hs'.
Qed.
Lemma try_t3 : ctl_try xp_t3_timeout (fun c =>
  if k_iac c =s IAC_ALIGNED then (kg_not_possible c) <| k_iac := IAC_IDLE |> else c).
Proof.
  intros s. unfold xp_t3_timeout. to_ctl. case_match; [|left; by eexists].
  destruct (try_not_possible s) as [(s' & -> & Hs')|(v & -> & Hv)]; [left|right; by eexists].
  eexists. split; [reflexivity|]. ctl_norm. by rewrite Hs'.
Qed.
(** [expiry_tac L A] proves the preservation by an expiry from the effect [L] of
    its handler; [A] is the timer that was running. *)
Tactic Notation "expiry_tac" constr(L) constr(A) :=
  match goal with
  | |- inv (ctl_of (ss7_do_timeout ?t ?f ?free ?s)) =>
      let Ht := fresh "Ht" in let Hc := fresh "Hc" in let b := fresh "b" in
      destruct (do_timeout_cases t f _ free s L) as [->|[[Ht Hc]|[Ht [b Hc]]]];
        [done|rewrite Hc; apply A in Ht; ctl_norm; cbn [armed]..];
        [|apply inv_cfail]; clear Hc; inv_crush
  end.
Lemma pres_t1_expiry free : pres (xp_t1_expiry free).
Proof. intros s Hs. unfold xp_t1_expiry. expiry_tac try_t1 armed_toid1. Qed.
Lemma pres_t2_expiry free : pres (xp_t2_expiry free).
Proof. intros s Hs. unfold xp_t2_expiry. expiry_tac try_t2 armed_toid2. Qed.
Lemma pres_t3_expiry free : pres (xp_t3_expiry free).
Proof. intros s Hs. unfold xp_t3_expiry. expiry_tac try_t3 armed_toid3. Qed.
Lemma ctl_suerm_start_eim s :
  ∃ m, ctl_of (sl_suerm_start s) =
       if m : bool then (ctl_of s) <| k_t8 := true |> <| k_eim := IN_SERVICE |> else ctl_of s.
Proof.
  unfold sl_suerm_start, sl_eim_start. exists (popt_has SS7_POPT_HSL s). case_match; by ctl_norm.
Qed.
(** The link is aligned: T1 starts. *)
Lemma ctl_alignment_complete s :
  ∃ m x, aligned x = true ∧
    ctl_of (sl_lsc_alignment_complete s) =
    if k_lsc (ctl_of s) =s LSC_INITIAL_ALIGNMENT
    then (if m : bool then (ctl_of s) <| k_t8 := true |> <| k_eim := IN_SERVICE |> else ctl_of s)
           <| k_t1 := true |> <| k_lsc := x |>
    else ctl_of s.
Proof.
  unfold sl_lsc_alignment_complete. to_ctl. cbv zeta.
  destruct (k_lsc (ctl_of s) =s LSC_INITIAL_ALIGNMENT);
    [|by exists false, LSC_ALIGNED_READY].
  destruct (ctl_suerm_start_eim s) as [m Hm]. exists m.
  revert Hm. generalize (sl_suerm_start s). intros s1 Hm.
  destruct (local_processor_outage _).
  - exists LSC_ALIGNED_NOT_READY. split; [done|]. rewrite <- Hm. ctl_frame.
  - exists LSC_ALIGNED_READY. split; [done|]. rewrite <- Hm. ctl_frame.
Qed.
Lemma pres_t4_expiry free : pres (xp_t4_expiry free).
Proof.
  intros s Hs. unfold xp_t4_expiry, ss7_do_timeout. case_match eqn:Ht; [|done].
  assert (Ha : k_t4 (ctl_of s) = true) by (apply armed_toid4; by rewrite Ht).
  cbv zeta. destruct free; [|ctl_norm; cbn [armed]; inv_crush].
  unfold xp_t4_timeout. rewrite iac_ctl. ctl_norm. cbn [armed].
  set (s1 := set_toid T4 None s).
  assert (E1 : ctl_of s1 = (ctl_of s) <| k_t4 := false |>) by done. clearbody s1.
  destruct (_ =s IAC_PROVING) eqn:Ei; [|inv_crush].
  destruct (further_proving _).
  - unfold sl_aerm_start. cbn [ss7_retry QR_DONE]. cbv iota beta zeta.
    change (ss7_retry QR_DONE) with false. cbv iota. ctl_norm. rewrite E1. inv_crush.
  - cbv zeta. change (ss7_retry QR_DONE) with false. cbv iota. ctl_norm.
    destruct (ctl_alignment_complete s1) as (m & x & Hx & ->). rewrite E1.
    clear E1. destruct m; inv_crush.
Qed.
Lemma pres_t5_expiry free : pres (xp_t5_expiry free).
Proof.
  intros s Hs. unfold xp_t5_expiry, ss7_do_timeout. case_match eqn:Ht; [|done].
  assert (Ha : k_t5 (ctl_of s) = true) by (apply armed_toid5; by rewrite Ht).
  cbv zeta. destruct free; [|ctl_norm; cbn [armed]; inv_crush].
  unfold xp_t5_timeout. rewrite cc_ctl. ctl_norm. cbn [armed].
  set (s1 := set_toid T5 None s).
  assert (E1 : ctl_of s1 = (ctl_of s) <| k_t5 := false |>) by done. clearbody s1.
  destruct (_ =s CC_BUSY) eqn:Ec; cbv zeta; change (ss7_retry QR_DONE) with false; cbv iota;
    ctl_norm; rewrite ?E1; inv_crush.
Qed.
Lemma pres_link_timer t f r free :
  (t = T6 ∨ t = T7) →
  (∀ s, ∃ e s', sl_lsc_link_failure r s = (e, s') ∧
        (f s = (e, s') ∨ ∃ s'', f s = (0, s'') ∧ e = 0 ∧ ctl_of s'' = ctl_of s')) →
  pres (ss7_do_timeout t f free).
Proof.
  intros Ht Hf s Hs. unfold ss7_do_timeout. case_match; [|done].
  assert (Hn : ∀ v x, ctl_of (set_toid t v x) = ctl_of x) by (intros; by destruct Ht as [->| ->]).
  cbv zeta. destruct free; [|by rewrite !Hn].
  destruct (Hf (set_toid t None s)) as (e & s' & E & Hfs).
  assert (Hs' : inv (ctl_of s')).
  { replace s' with (sl_lsc_link_failure r (set_toid t None s)).2 by (by rewrite E).
    apply pres_link_failure. by rewrite Hn. }
  destruct Hfs as [->|(s'' & -> & -> & Es)]; case_match; rewrite ?Hn, ?Es; done.
Qed.
Lemma pres_t6_expiry free : pres (xp_t6_expiry free).
Proof.
  apply (pres_link_timer _ _ SL_FAIL_CONG_TIMEOUT); [by left|]. intros s.
  unfold xp_t6_timeout. destruct (sl_lsc_link_failure _ s) as [e s'] eqn:E.
  exists e, s'. split; [done|]. destruct (e =? 0) eqn:He; [right|by left].
  eexists. split; [reflexivity|]. split; [by apply Z.eqb_eq|by ctl_norm].
Qed.
Lemma pres_t7_expiry free : pres (xp_t7_expiry free).
Proof.
  apply (pres_link_timer _ _ SL_FAIL_ACK_TIMEOUT); [by right|]. intros s.
  unfold xp_t7_timeout. destruct (sl_lsc_link_failure _ s) as [e s'] eqn:E.
  exists e, s'. split; [done|]. destruct (e =? 0) eqn:He; [right|by left].
  eexists. split; [reflexivity|]. split; [by apply Z.eqb_eq|cbv zeta; case_match; by ctl_norm].
Qed.
Lemma ctl_eim_fall s : ctl_of (eim_fall s) = ctl_of s.
Proof. unfold eim_fall. ctl_frame. Qed.
Lemma inv_eim_idle c : inv c → inv (c <| k_eim := IDLE |>).
Proof. intros []. split; upd; auto. Qed.
Lemma inv_t8_armed c b : inv c → k_eim c = IDLE ∨ b = true → inv (c <| k_t8 := b |>).
Proof. intros [] [Hi | ->]; split; upd; auto; [by rewrite Hi|by destruct (_ =s IN_SERVICE)]. Qed.
Lemma pres_eim_rise : pres (fun s => (eim_rise s).2).
Proof.
  intros s Hs. unfold eim_rise. cbv zeta. case_match; [|by cbn [snd]; ctl_norm].
  match goal with |- context [sl_lsc_link_failure ?r ?x] =>
    assert (Hx : inv (ctl_of (sl_lsc_link_failure r x).2))
      by (apply pres_link_failure; by ctl_norm);
    destruct (sl_lsc_link_failure r x) as [e s'] end.
  cbn [snd] in Hx. case_match; cbn [snd]; ctl_norm; [done|by apply inv_eim_idle].
Qed.
(** Whatever its result, the handler of T8 leaves T8 armed if EIM still monitors. *)
Lemma pres_t8_timeout s :
  inv ((ctl_of s) <| k_t8 := true |>) → inv (ctl_of (xp_t8_timeout s).2).
Proof.
  intros Hs. unfold xp_t8_timeout. destruct (_ =s IN_SERVICE) eqn:Ee.
  - cbv zeta. rewrite <- ctl_start_t8 in Hs.
    repeat (case_match; try by cbn [snd]; rewrite ctl_eim_fall; ctl_norm);
      apply pres_eim_rise; by ctl_norm.
  - cbn [snd]. apply bool_decide_eq_false in Ee. rewrite eim_ctl in Ee.
    apply (inv_t8_armed _ (k_t8 (ctl_of s))) in Hs.
    + by destruct (ctl_of s).
    + left. upd. by destruct (k_eim (ctl_of s)).
Qed.
Lemma pres_t8_expiry free : pres (xp_t8_expiry free).
Proof.
  intros s Hs. unfold xp_t8_expiry, ss7_do_timeout. case_match eqn:Ht; [|done].
  assert (Ha : inv (ctl_of (set_toid T8 (Some 2) s)))
    by (ctl_norm; apply inv_t8_armed; auto).
  cbv zeta. destruct free; [|exact Ha].
  pose proof (pres_t8_timeout (set_toid T8 None s)) as H.
  destruct (xp_t8_timeout (set_toid T8 None s)) as [e s'].
  cbn [snd] in H. specialize (H Ha). case_match; [|done]. ctl_norm. apply inv_t8_armed; auto.
Qed.

(** ** Requests *)

Definition pres2 (f : xp → Z * xp) : Prop := ∀ s, inv (ctl_of s) → inv (ctl_of (f s).2).
Definition pres3 (f : xp → Z * list card * xp) : Prop :=
  ∀ s, inv (ctl_of s) → inv (ctl_of (f s).2).

Lemma pres_put_ind p : pres2 (put_ind p).
Proof. intros s Hs. ind_split; ctl_norm; by apply inv_cfail. Qed.
Lemma pres_guard f : pres2 f → pres2 (fun s => if negb (enabled s) then m_error EPROTO s else f s).
Proof. intros Hf s Hs. cbv beta. case_match; [by apply pres_put_ind|by apply Hf]. Qed.
Lemma pres_guard1 f :
  pres f → pres2 (fun s => if negb (enabled s) then m_error EPROTO s else (QR_DONE, f s)).
Proof. intros Hf. by apply (pres_guard (fun s => (QR_DONE, f s))). Qed.
Lemma pres_lsc_congestion_discard : pres sl_lsc_congestion_discard.
Proof.
  intros s Hs. unfold sl_lsc_congestion_discard. cbv zeta. ctl_norm. rewrite <- ctl_cc_busy.
  by apply pres_busy.
Qed.
Lemma pres_lsc_congestion_accept : pres sl_lsc_congestion_accept.
Proof.
  intros s Hs. unfold sl_lsc_congestion_accept. cbv zeta. ctl_norm. rewrite <- ctl_cc_busy.
  by apply pres_busy.
Qed.
Lemma pres_lsc_no_congestion : pres sl_lsc_no_congestion.
Proof. intros s Hs. unfold sl_lsc_no_congestion. cbv zeta. ctl_norm. inv_crush. Qed.
Lemma pres_suerm_stop : pres sl_suerm_stop.
Proof. intros s Hs. ctl_norm. inv_crush. Qed.
Lemma pres_suerm_start : pres sl_suerm_start.
Proof.
  intros s Hs. destruct (ctl_suerm_start_eim s) as [[] ->]; [|done]. inv_crush.
Qed.
Lemma pres_send_data w : pres2 (xp_send_data w).
Proof.
  intros s Hs. unfold xp_send_data. cbv zeta. repeat case_match; try done;
    try (by apply pres_pdu); try (by apply pres_put_ind); cbn [snd]; by ctl_norm.
Qed.
Lemma pres_sdl_connect w : pres2 (sdl_connect_req w).
Proof.
  intros s Hs. unfold sdl_connect_req, set_ifflags. cbv zeta.
  case_match; [by apply pres_put_ind|]. case_match; [by apply pres_put_ind|].
  cbn [snd]. repeat (ctl_norm; try done; case_match); by ctl_norm.
Qed.
Lemma pres_sdl_disconnect w : pres2 (sdl_disconnect_req w).
Proof.
  intros s Hs. unfold sdl_disconnect_req, set_ifflags. cbv zeta.
  case_match; [by apply pres_put_ind|]. case_match; [by apply pres_put_ind|].
  cbn [snd]. repeat (ctl_norm; try done; case_match); by ctl_norm.
Qed.

(** Local management only touches EIM, when the channel is disabled. *)
Lemma pres_lmi_ok st p : pres2 (lmi_ok_ack st p).
Proof.
  intros s Hs. unfold lmi_ok_ack. destruct (xalloc_cases s) as (b & v & -> & Hv).
  cbv beta iota zeta. case_match; cbn [snd]; ctl_norm; by apply inv_cfail.
Qed.
Lemma pres_lmi_error st p e r : pres2 (lmi_error_ack st p e r).
Proof.
  intros s Hs. unfold lmi_error_ack. destruct (xalloc_cases s) as (b & v & -> & Hv).
  cbv beta iota zeta. case_match; cbn [snd]; ctl_norm; by apply inv_cfail.
Qed.
Lemma pres_enable_con : pres2 lmi_enable_con.
Proof.
  intros s Hs. unfold lmi_enable_con. destruct (xalloc_cases s) as (b & v & -> & Hv).
  cbv beta iota zeta. case_match; cbn [snd]; ctl_norm; by apply inv_cfail.
Qed.
Lemma pres_disable_con : pres2 lmi_disable_con.
Proof.
  intros s Hs. unfold lmi_disable_con. destruct (xalloc_cases s) as (b & v & -> & Hv).
  cbv beta iota zeta. case_match; cbn [snd]; ctl_norm; by apply inv_cfail.
Qed.
Lemma pres_info_req cards : pres2 (lmi_info_req cards).
Proof.
  intros s Hs. unfold lmi_info_req, lmi_info_ack. cbv zeta.
  repeat case_match; by apply pres_put_ind.
Qed.
Lemma pres_attach_error r cards : pres3 (attach_error r cards).
Proof.
  intros s Hs. unfold attach_error.
  match goal with |- context [lmi_error_ack ?a ?b ?c ?d ?x] =>
    pose proof (pres_lmi_error a b c d x Hs) as H; destruct (lmi_error_ack a b c d x) end.
  exact H.
Qed.
Lemma ctl_attach_chan a n sp s : ctl_of (attach_chan a n sp s) = ctl_of s.
Proof. cbv delta [attach_chan] beta. ctl_lets. Qed.
Lemma pres_attach_commit self a cards cd sp : pres3 (attach_commit self a cards cd sp).
Proof.
  intros s Hs. unfold attach_commit.
  pose proof (pres_lmi_ok LMI_DISABLED LMI_ATTACH_REQ s Hs) as H.
  destruct (lmi_ok_ack _ _ s) as [e s']. cbv beta iota zeta. case_match; cbn [snd]; [exact H|].
  by rewrite ctl_attach_chan.
Qed.
Lemma pres_attach HZ self w cards : pres3 (lmi_attach_req HZ self w cards).
Proof.
  intros s Hs. unfold lmi_attach_req. cbv zeta.
  repeat (case_match; [by apply pres_attach_error|]).
  assert (Hp : inv (ctl_of (s <| i_state := LMI_ATTACH_PENDING |>))) by by ctl_norm.
  revert Hp. generalize (s <| i_state := LMI_ATTACH_PENDING |>). intros x Hp.
  destruct (find_card _ _); [|by apply pres_attach_error].
  case_match; [by apply pres_attach_error|]. destruct (cd_span0 _); [|by apply pres_attach_error].
  case_match; [by apply pres_attach_error|].
  destruct (attach_plan _ _ _ _); [by apply pres_attach_commit|by apply pres_attach_error].
Qed.
Lemma pres_detach self cards : pres3 (lmi_detach_req self cards).
Proof.
  intros s Hs. unfold lmi_detach_req. case_match.
  - match goal with |- context [lmi_error_ack ?a ?b ?c ?d ?x] =>
      pose proof (pres_lmi_error a b c d x Hs) as Hp; destruct (lmi_error_ack a b c d x) end.
    exact Hp.
  - destruct (xp_span cards s) as [[cd sp]|].
    + assert (Hp : inv (ctl_of (s <| i_state := LMI_DETACH_PENDING |>))) by by ctl_norm.
      revert Hp. cbv zeta. generalize (s <| i_state := LMI_DETACH_PENDING |>). intros x Hp.
      pose proof (pres_lmi_ok LMI_UNATTACHED LMI_DETACH_REQ x Hp) as Hq.
      destruct (lmi_ok_ack _ _ x) as [e s']. case_match; cbn [snd]; [exact Hq|]. by ctl_norm.
    + pose proof (pres_put_ind (M_ERROR (u8 EFAULT) (u8 EFAULT)) s Hs) as Hp.
      unfold m_error. cbn [Z.ltb EFAULT]. change (14 <? 0) with false. cbv iota.
      destruct (put_ind _ s). exact Hp.
Qed.
Lemma ctl_enable_rate s : ctl_of (enable_rate s) = ctl_of s.
Proof. unfold enable_rate. cbv zeta. repeat case_match; by ctl_norm. Qed.
Lemma ctl_enable_inherit cd sp s : ctl_of (enable_inherit cd sp s) = ctl_of s.
Proof.
  cbv delta [enable_inherit] beta. generalize (sp_conf sp). intros c.
  match goal with |- ctl_of (let x := ?e in @?k x) = ?c => change (ctl_of (k e) = c) end.
  cbv beta. ctl_lets.
Qed.
#[export] Hint Rewrite ctl_enable_rate ctl_enable_inherit : ctl.
Lemma pres_enable_refused cards : pres3 (enable_refused cards).
Proof.
  intros s Hs. unfold enable_refused.
  match goal with |- context [lmi_error_ack ?a ?b ?c ?d ?x] =>
    pose proof (pres_lmi_error a b c d x Hs) as Hp; destruct (lmi_error_ack a b c d x) end.
  exact Hp.
Qed.
Lemma pres_enable cards : pres3 (lmi_enable_req cards).
Proof.
  intros s Hs. unfold lmi_enable_req. case_match; [by apply pres_enable_refused|].
  destruct (xp_span cards s) as [[cd sp]|]; [|by apply pres_enable_refused].
  case_match; [by apply pres_enable_refused|].
  pose proof (pres_enable_con s Hs) as Hp. destruct (lmi_enable_con s) as [e s'].
  cbn [snd] in Hp. case_match; cbn [snd]; [exact Hp|]. cbv zeta. by ctl_norm.
Qed.
Lemma ctl_disable_commit s :
  ctl_of (disable_commit s) = (ctl_of s) <| k_eim := IDLE |> <| k_t8 := false |>.
Proof.
  cbv delta [disable_commit] beta.
  repeat (match goal with
          | |- ctl_of (let x := ?e in @?k x) = ?c => change (ctl_of (k e) = c)
          end; cbv beta). by ctl_norm.
Qed.
Lemma pres_disable cards : pres2 (lmi_disable_req cards).
Proof.
  intros s Hs. unfold lmi_disable_req. case_match; [by apply pres_lmi_error|].
  assert (Hp : inv (ctl_of (s <| i_state := LMI_DISABLE_PENDING |>))) by by ctl_norm.
  revert Hp. cbv zeta. generalize (s <| i_state := LMI_DISABLE_PENDING |>). intros x Hp.
  pose proof (pres_disable_con x Hp) as Hq. destruct (lmi_disable_con x) as [e s'].
  cbn [snd] in Hq. case_match; cbn [snd]; [exact Hq|]. case_match; cbn [snd]; [|exact Hq].
  rewrite ctl_disable_commit. clear -Hq. inv_crush.
Qed.

Lemma pres_sl_emergency_req : pres2 sl_emergency_req.
Proof. exact (pres_guard1 _ pres_lsc_emergency). Qed.
Lemma pres_sl_stop_req : pres2 sl_stop_req.
Proof. exact (pres_guard1 _ pres_lsc_stop). Qed.
Lemma pres_sl_start_req : pres2 sl_start_req.
Proof. exact (pres_guard1 _ pres_lsc_start). Qed.
Lemma pres_sl_retrieve_bsnt_req : pres2 sl_retrieve_bsnt_req.
Proof. exact (pres_guard _ pres_retrieve_bsnt). Qed.
Lemma pres_sl_resume_req : pres2 sl_resume_req.
Proof. exact (pres_guard1 _ pres_lpr). Qed.
Lemma pres_sl_clear_buffers_req : pres2 sl_clear_buffers_req.
Proof. exact (pres_guard _ pres_clear_buffers). Qed.
Lemma pres_sl_clear_rtb_req : pres2 sl_clear_rtb_req.
Proof. exact (pres_guard1 _ pres_lsc_clear_rtb). Qed.
Lemma pres_sl_local_processor_outage_req : pres2 sl_local_processor_outage_req.
Proof. exact (pres_guard1 _ pres_lpo). Qed.
Lemma pres_sl_congestion_discard_req : pres2 sl_congestion_discard_req.
Proof. exact (pres_guard1 _ pres_lsc_congestion_discard). Qed.
Lemma pres_sl_congestion_accept_req : pres2 sl_congestion_accept_req.
Proof. exact (pres_guard1 _ pres_lsc_congestion_accept). Qed.
Lemma pres_sl_no_congestion_req : pres2 sl_no_congestion_req.
Proof. exact (pres_guard1 _ pres_lsc_no_congestion). Qed.
Lemma pres_sl_power_on_req : pres2 sl_power_on_req.
Proof. exact (pres_guard1 _ pres_power_on). Qed.
Lemma pres_sl_emergency_ceases_req : pres2 sl_emergency_ceases_req.
Proof. exact (pres_guard1 _ (pres_id sl_lsc_emergency_ceases (fun _ => eq_refl))). Qed.
Lemma pres_sdt_daedt_start_req : pres2 sdt_daedt_start_req.
Proof. exact (pres_guard1 _ (pres_id _ ctl_daedt_start)). Qed.
Lemma pres_sdt_daedr_start_req : pres2 sdt_daedr_start_req.
Proof. exact (pres_guard1 _ (pres_id _ ctl_daedr_start)). Qed.
Lemma pres_sdt_aerm_start_req : pres2 sdt_aerm_start_req.
Proof. exact (pres_guard1 _ (pres_id _ ctl_aerm_start)). Qed.
Lemma pres_sdt_aerm_stop_req : pres2 sdt_aerm_stop_req.
Proof. exact (pres_guard1 _ (pres_id _ ctl_aerm_stop)). Qed.
Lemma pres_sdt_aerm_set_ti_to_tin_req : pres2 sdt_aerm_set_ti_to_tin_req.
Proof. exact (pres_guard1 _ (pres_id _ ctl_tin)). Qed.
Lemma pres_sdt_aerm_set_ti_to_tie_req : pres2 sdt_aerm_set_ti_to_tie_req.
Proof. exact (pres_guard1 _ (pres_id _ ctl_tie)). Qed.
Lemma pres_sdt_suerm_start_req : pres2 sdt_suerm_start_req.
Proof. exact (pres_guard1 _ pres_suerm_start). Qed.
Lemma pres_sdt_suerm_stop_req : pres2 sdt_suerm_stop_req.
Proof. exact (pres_guard1 _ pres_suerm_stop). Qed.
Lemma pres_sl_pdu_req w : pres2 (sl_pdu_req w).
Proof. intros s Hs. unfold sl_pdu_req. case_match; [done|by apply pres_pdu]. Qed.
Lemma pres_sl_retrieval_req w : pres2 (sl_retrieval_request_and_fsnc_req w).
Proof.
  intros s Hs. unfold sl_retrieval_request_and_fsnc_req. cbv zeta. case_match; [|done].
  case_match; [by apply pres_put_ind|by apply pres_retrieval].
Qed.
Create HintDb pres discriminated.
#[export] Hint Resolve pres_sl_pdu_req pres_sl_retrieval_req pres_sdl_connect pres_sdl_disconnect
  pres_info_req pres_attach pres_detach pres_enable pres_disable
  pres_sl_emergency_req pres_sl_stop_req pres_sl_start_req pres_sl_retrieve_bsnt_req pres_sl_resume_req pres_sl_clear_buffers_req
  pres_sl_clear_rtb_req pres_sl_local_processor_outage_req pres_sl_congestion_discard_req pres_sl_congestion_accept_req pres_sl_no_congestion_req pres_sl_power_on_req
  pres_sl_emergency_ceases_req pres_sdt_daedt_start_req pres_sdt_daedr_start_req pres_sdt_aerm_start_req pres_sdt_aerm_stop_req pres_sdt_aerm_set_ti_to_tin_req pres_sdt_aerm_set_ti_to_tie_req pres_sdt_suerm_start_req pres_sdt_suerm_stop_req : pres.
Lemma pres_dispatch HZ self prim w cards : pres3 (w_dispatch HZ self prim w cards).
Proof.
  intros s Hs. unfold w_dispatch. cbv zeta.
  repeat (case_match; try exact Hs); cbn [fst snd];
    match goal with
    | |- inv (ctl_of (?f s).2) =>
        first [refine ((_ : pres2 f) s Hs) | refine ((_ : pres3 f) s Hs)]; auto with pres
    end.
Qed.
Lemma pres_proto HZ self prim w cards : pres3 (xp_w_proto HZ self prim w cards).
Proof.
  intros s Hs. unfold xp_w_proto. cbv zeta.
  pose proof (pres_dispatch HZ self prim w cards s Hs) as Hp.
  destruct (w_dispatch _ _ _ _ _ s) as [[r c] s']. cbn [snd] in *. case_match; [|done].
  by ctl_norm.
Qed.
Lemma pres_r_data : pres2 xp_r_data.
Proof.
  intros s Hs. unfold xp_r_data. case_match; [done|].
  destruct (xcanput_cases s) as (b & v & -> & Hv). cbv beta iota zeta.
  case_match; cbn [snd]; ctl_norm; by apply inv_cfail.
Qed.
Lemma ctl_w_flush f s : ctl_of (xp_w_flush f s) = ctl_of s.
Proof.
  unfold xp_w_flush. cbv zeta. repeat (ctl_norm; try done; case_match); by ctl_norm.
Qed.
