(* ===== verification/System.v ===== *)
(** * The channel as a transition system

    The relation of one event of a channel, the reachable states, and what holds
    in all of them. *)
From S2P Require Import Prelude Bufq Xp Prims Timers Txc Lsc Rc LscCtl Monitors Requests.
From S2P Require Import Lmi Ctl Invariant Machine.
From stdpp Require Import relations.
#[local] Open Scope Z_scope.
#[local] Open Scope os7_scope.

(** ** The transition system *)

Definition xp_expiry (t : timer) (free : bool) (s : xp) : xp :=
  match t with
  | T1 => xp_t1_expiry free s | T2 => xp_t2_expiry free s | T3 => xp_t3_expiry free s
  | T4 => xp_t4_expiry free s | T5 => xp_t5_expiry free s | T6 => xp_t6_expiry free s
  | T7 => xp_t7_expiry free s | T8 => xp_t8_expiry free s | tall | T9 => s
  end.

Section Steps.
Context (HZ self : Z).

(** The events of a channel: messages from the user above, frames the Soft-HDLC
    received, found in error or needs for transmission, the service of the read
    queue, timers that expire, ioctls that set the configuration, and what the
    surroundings do between two events. *)
Inductive step : xp → xp → Prop :=
  | step_proto prim w cards s : step s (xp_w_proto HZ self prim w cards s).2
  | step_data w s : step s (xp_send_data w s).2
  | step_flush f s : step s (xp_w_flush f s)
  | step_r_data s : step s (xp_r_data s).2
  | step_received mp s : step s (sl_daedr_received_bits mp s)
  | step_error s : step s (sl_daedr_su_in_error s)
  | step_transmit s : step s (sl_daedt_transmission_request s).2
  | step_expiry t free s : step s (xp_expiry t free s)
  | step_config o c d n s :
      step s (s <| xoption := o |> <| sl_conf := c |> <| sdt_conf := d |> <| sl_notify := n |>)
  | step_env a c iq s :
      step s (s <| xenv; e_alloc := a |> <| xenv; e_canput := c |> <| xenv; e_iq := iq |>).
(** What a channel can become from the opening of its stream on. *)
Definition reachable (s : xp) : Prop := ∃ v, rtc step (xp_alloc_priv HZ v) s.

Lemma pres_step s s' : step s s' → inv (ctl_of s) → inv (ctl_of s').
Proof.
  intros [] Hs.
  - by apply pres_proto.
  - by apply pres_send_data.
  - by rewrite ctl_w_flush.
  - by apply pres_r_data.
  - by apply pres_received_bits.
  - by apply pres_daedr_su_in_error.
  - destruct (fx_daedt_transmission_request s0) as [b ->]. by apply inv_cfail.
  - destruct t; cbn [xp_expiry]; first
      [ done | by apply pres_t1_expiry | by apply pres_t2_expiry | by apply pres_t3_expiry
      | by apply pres_t4_expiry | by apply pres_t5_expiry | by apply pres_t6_expiry
      | by apply pres_t7_expiry | by apply pres_t8_expiry ].
  - by ctl_norm.
  - exact Hs.
Qed.
Lemma inv_reach s : reachable s → inv (ctl_of s).
Proof.
  intros [v Hr]. assert (H0 : inv (ctl_of (xp_alloc_priv HZ v))).
  { split; try reflexivity. cbn. by rewrite orb_true_r. }
  induction Hr; eauto using pres_step.
Qed.

Lemma armed_iff {P} `{!Decision P} (o : option Z) : armed o = bool_decide P → o ≠ None ↔ P.
Proof. destruct o; cbn; intros E; symmetry in E;
  [apply bool_decide_eq_true in E|apply bool_decide_eq_false in E]; naive_solver. Qed.

(** ** Consequences *)


End Steps.

(** ** Timeouts *)

(** The handler of a timer. *)
Definition xp_timeout (t : timer) : xp → Z * xp :=
  match t with
  | T1 => xp_t1_timeout | T2 => xp_t2_timeout | T3 => xp_t3_timeout | T4 => xp_t4_timeout
  | T5 => xp_t5_timeout | T6 => xp_t6_timeout | T7 => xp_t7_timeout | T8 => xp_t8_timeout
  | tall | T9 => fun s => (QR_DONE, s)
  end.
Lemma xp_expiry_do t free s :
  t ≠ tall → t ≠ T9 → xp_expiry t free s = ss7_do_timeout t (xp_timeout t) free s.
Proof. by destruct t. Qed.

(** A handler completes, or reports that it is out of memory and has changed
    nothing but its surroundings. *)
Definition atomic (f : xp → Z * xp) : Prop :=
  ∀ s, (∃ s', f s = (0, s')) ∨ (∃ v, f s = (-105, s <| xenv := v |>)).
Lemma atomic_try f g : ctl_try f g → atomic f.
Proof. intros H s. destruct (H s) as [(s' & E & _)|(v & E & _)]; eauto. Qed.
Lemma atomic_timeout t : t ≠ T8 → atomic (xp_timeout t).
Proof.
  intros Ht. destruct t; cbn [xp_timeout]; try done; try (intros s; left; by eexists).
  - exact (atomic_try _ _ try_t1).
  - exact (atomic_try _ _ try_t2).
  - exact (atomic_try _ _ try_t3).
  - intros s. left. unfold xp_t4_timeout. cbv zeta. repeat case_match; by eexists.
  - intros s. left. unfold xp_t5_timeout. cbv zeta. case_match; by eexists.
  - intros s. unfold xp_t6_timeout. destruct (try_link_failure SL_FAIL_CONG_TIMEOUT s)
      as [(s' & -> & _)|(v & -> & _)]; [left|right]; by eexists.
  - intros s. unfold xp_t7_timeout. destruct (try_link_failure SL_FAIL_ACK_TIMEOUT s)
      as [(s' & -> & _)|(v & -> & _)]; [left|right]; by eexists.
Qed.

(** C31: no timeout of T1 to T7 is lost.  When a running timer expires, either
    its handler runs to completion, or the timer runs again for two ticks and
    the channel is otherwise as before: when the channel is busy, and when the
    handler cannot allocate its indication. *)
Theorem timeout_not_lost t d free s :
  toid t s = Some d → t ≠ T8 →
  (free = true ∧ (xp_timeout t (set_toid t None s)).1 = QR_DONE ∧
   xp_expiry t free s = (xp_timeout t (set_toid t None s)).2) ∨
  (∃ v, xp_expiry t free s = set_toid t (Some 2) (s <| xenv := v |>)).
Proof.
  intros Ht H8.
  rewrite xp_expiry_do by (intros ->; discriminate). unfold ss7_do_timeout. rewrite Ht. cbv zeta.
  destruct free; [|right; exists (xenv s); by destruct t, s].
  destruct (atomic_timeout t H8 (set_toid t None s)) as [(s' & ->)|(v & ->)]; [by left|right].
  exists v. change (ss7_retry (-105)) with true. cbv iota. by destruct t, s.
Qed.

(** The reason a timeout takes the link down for, and the state it guards. *)
Definition timeout_reason (t : timer) : Z :=
  match t with
  | T1 => SL_FAIL_T1_TIMEOUT | T2 | T3 => SL_FAIL_ALIGNMENT_NOT_POSSIBLE
  | T6 => SL_FAIL_CONG_TIMEOUT | T7 => SL_FAIL_ACK_TIMEOUT | _ => 0
  end.
Definition timeout_guard (t : timer) (s : xp) : bool :=
  match t with
  | T1 => true
  | T2 => s.(sl_statem).(iac_state) =s IAC_NOT_ALIGNED
  | T3 => s.(sl_statem).(iac_state) =s IAC_ALIGNED
  | T6 | T7 => negb (s.(sl_statem).(lsc_state) =s LSC_OUT_OF_SERVICE)
  | _ => false
  end.
Lemma put_ind_ok p s : s.(xenv).(e_alloc) = [] → put_ind p s = (0, emit (EvPut p) s).
Proof. intros H. unfold put_ind, xalloc. by rewrite H. Qed.

(** The link from [s] was taken down to [s'] for the reason [r]. *)
Record taken_down (r : Z) (s s' : xp) : Prop := {
  down_lsc : s'.(sl_statem).(lsc_state) = LSC_OUT_OF_SERVICE;
  down_rc : s'.(sl_statem).(rc_state) = IDLE;
  down_reason : s'.(sl_statem).(failure_reason) = r;
  down_sios : s'.(sl_statem).(lssu_available) = true ∧ s'.(sl_statem).(tx).(t_sio) = LSSU_SIOS;
  down_ind : s'.(xenv).(e_out) = s.(xenv).(e_out) ++ [EvPut (SL_OUT_OF_SERVICE_IND r)] }.
Lemma link_failure_down r s :
  u32 r = r → negb (s.(sl_statem).(lsc_state) =s LSC_OUT_OF_SERVICE) = true →
  s.(xenv).(e_alloc) = [] →
  ∃ s', sl_lsc_link_failure r s = (QR_DONE, s') ∧ taken_down r s s' ∧
        (toid T6 s = None → toid T6 s' = None) ∧ toid T7 s' = None.
Proof.
  intros Hr Hl Ha. unfold sl_lsc_link_failure, sl_out_of_service_ind. rewrite Hl, put_ind_ok by done.
  cbv zeta. change (0 =? 0) with true. cbv iota. eexists. split; [reflexivity|].
  unfold sl_txc_send_sios, sl_iac_stop. cbv zeta. repeat case_match; repeat split; auto.
Qed.
Lemma not_possible_down s :
  s.(xenv).(e_alloc) = [] →
  ∃ s', sl_lsc_alignment_not_possible s = (QR_DONE, s') ∧
        taken_down SL_FAIL_ALIGNMENT_NOT_POSSIBLE s s' ∧
        toid T2 s' = toid T2 s ∧ toid T3 s' = toid T3 s.
Proof.
  intros Ha. unfold sl_lsc_alignment_not_possible, sl_out_of_service_ind.
  rewrite put_ind_ok by done. cbv zeta. change (0 =? 0) with true. cbv iota.
  eexists. split; [reflexivity|].
  unfold sl_txc_send_sios. cbv zeta. repeat case_match; repeat split; auto.
Qed.
Lemma t1_down s :
  s.(xenv).(e_alloc) = [] →
  ∃ s', xp_t1_timeout s = (QR_DONE, s') ∧ taken_down SL_FAIL_T1_TIMEOUT s s' ∧
        toid T1 s' = toid T1 s.
Proof.
  intros Ha. unfold xp_t1_timeout, sl_out_of_service_ind.
  rewrite put_ind_ok by done. cbv zeta. change (0 =? 0) with true. cbv iota.
  eexists. split; [reflexivity|].
  unfold sl_txc_send_sios. cbv zeta. repeat case_match; repeat split; auto.
Qed.

#[local] Ltac down Ho Hd Ht Hn :=
  change (ss7_retry QR_DONE) with false; cbv iota;
  split; [ apply Ho; destruct Hd; split; assumption
        | first [exact (eq_trans Ht Hn) | exact (Ht Hn) | exact Ht] ].

(** C32: a timeout takes the link down.  When T1, T2 (not aligned), T3 (aligned),
    T6 or T7 expires and memory is available, the link is out of service, its
    reception is idle, it sends SIOS, the timer does not run, and the user gets
    exactly one indication, with the reason of that timer. *)
Theorem timeout_takes_link_down t d s :
  toid t s = Some d → timeout_guard t s = true → s.(xenv).(e_alloc) = [] →
  taken_down (timeout_reason t) s (xp_expiry t true s) ∧ toid t (xp_expiry t true s) = None.
Proof.
  intros Ht Hg Ha. rewrite xp_expiry_do by (intros ->; discriminate).
  unfold ss7_do_timeout. rewrite Ht. cbv zeta.
  assert (Ha' : (set_toid t None s).(xenv).(e_alloc) = []) by (by destruct t).
  assert (Hg' : timeout_guard t (set_toid t None s) = true) by (by destruct t).
  assert (Ho : ∀ r s', taken_down r (set_toid t None s) s' → taken_down r s s')
    by (intros r s' []; split; auto; by destruct t).
  assert (Hn : toid t (set_toid t None s) = None) by (by destruct t).
  revert Ha' Hg' Ho Hn. generalize (set_toid t None s). intros x Ha' Hg' Ho Hn. clear Hg Ha Ht.
  change QR_DONE with 0.
  destruct t; try discriminate; cbn [timeout_guard timeout_reason xp_timeout] in *.
  - destruct (t1_down x Ha') as (s' & -> & Hd & Ht). cbn in *. down Ho Hd Ht Hn.
  - unfold xp_t2_timeout. rewrite Hg'.
    destruct (not_possible_down x Ha') as (s' & -> & Hd & Ht & _). cbn in *. down Ho Hd Ht Hn.
  - unfold xp_t3_timeout. rewrite Hg'.
    destruct (not_possible_down x Ha') as (s' & -> & Hd & _ & Ht). cbn in *. down Ho Hd Ht Hn.
  - unfold xp_t6_timeout.
    destruct (link_failure_down SL_FAIL_CONG_TIMEOUT x) as (s' & -> & Hd & Ht & _); auto.
    cbn in *. down Ho Hd Ht Hn.
  - unfold xp_t7_timeout.
    destruct (link_failure_down SL_FAIL_ACK_TIMEOUT x) as (s' & -> & Hd & _ & Ht); auto.
    cbn in *. destruct (pvar_is _ _); down Ho Hd Ht Hn.
Qed.

(** ** A channel that comes up *)

(** One E1 card; the first channel attaches to timeslot 1, is enabled, powered
    on and started. *)
Definition ex_env : env := Env [] [] 0 [] [] [] false false.
Definition ex_card : card :=
  Card 0 (sdl_default_e1_chan) (Some (Span 0 sdl_default_e1_chan (repeat None 32))).
Definition ex_req : wmsg := WMsg 0 false 0 [] [[18; 0; 0; 0; 2; 0; 0; 0; 12; 0; 0; 0; 1; 0]].
Definition ex_call (prim : Z) (s : xp) : xp := (xp_w_proto 100 1 prim ex_req [ex_card] s).2.
Definition ex_started : xp :=
  ex_call 68 (ex_call 80 (ex_call 20 (ex_call 18 (xp_alloc_priv 100 ex_env)))).
Lemma ex_reachable : reachable 100 1 ex_started.
Proof.
  exists ex_env. unfold ex_started.
  do 4 (eapply rtc_r; [|apply step_proto]). apply rtc_refl.
Qed.
Lemma timeout_not_lost_witness :
  toid T2 ex_started = Some 500 ∧
  ∃ v, xp_expiry T2 false ex_started = set_toid T2 (Some 2) (ex_started <| xenv := v |>).
Proof.
  split; [vm_compute; reflexivity|].
  destruct (timeout_not_lost T2 500 false ex_started) as [[H _]|H];
    [vm_compute; reflexivity|discriminate|discriminate H|exact H].
Defined.
Lemma timeout_takes_link_down_witness :
  taken_down SL_FAIL_ALIGNMENT_NOT_POSSIBLE ex_started (xp_expiry T2 true ex_started).
Proof.
  apply (timeout_takes_link_down T2 500 ex_started); vm_compute; reflexivity.
Defined.
