(* ===== verification/Congest.v ===== *)
(** * Transmit congestion control

    What [sl_check_congestion] promises: the congestion status follows the
    occupancy of the buffers with hysteresis, the discard status follows it, and
    the user is told about every change, once. *)
From S2P Require Import Prelude Bufq Xp Prims Timers Txc Lmi.

(** ** The specification *)

(** The status the occupancy forces from below (the onset thresholds passed) and
    allows from above (the abatement thresholds not undercut). *)
Definition up_level (c : sl_config) (occ : Z) : Z :=
  if c.(tb_onset_3) <=? occ then 3 else if c.(tb_onset_2) <=? occ then 2
  else if c.(tb_onset_1) <=? occ then 1 else 0.
Definition down_level (c : sl_config) (occ : Z) : Z :=
  if c.(tb_abate_3) <=? occ then 3 else if c.(tb_abate_2) <=? occ then 2
  else if c.(tb_abate_1) <=? occ then 1 else 0.
(** The old status is moved into the interval between the two, no further. *)
Definition hysteresis (c : sl_config) (occ old : Z) : Z :=
  Z.max (up_level c occ) (Z.min old (down_level c occ)).

Definition tb_discd (c : sl_config) (n : Z) : Z :=
  match n with 1 => c.(tb_discd_1) | 2 => c.(tb_discd_2) | _ => c.(tb_discd_3) end.
(** The discard status: it is the congestion status when that falls; when that
    rises, by more than one level or past the discard threshold, it follows. *)
Definition discard (c : sl_config) (occ old old_disc new : Z) : Z :=
  if new =? old then old_disc
  else if new <? old then new
  else if tb_discd c new <=? occ then new
  else if old + 1 <? new then new - 1 else old_disc.

(** The thresholds increase: abatement below onset below discard, level by
    level. *)
Record thresholds_ordered (c : sl_config) : Prop := {
  th_a1 : c.(tb_abate_1) <= c.(tb_onset_1); th_d1 : c.(tb_onset_1) <= c.(tb_discd_1);
  th_a2 : c.(tb_abate_2) <= c.(tb_onset_2); th_d2 : c.(tb_onset_2) <= c.(tb_discd_2);
  th_a3 : c.(tb_abate_3) <= c.(tb_onset_3); th_d3 : c.(tb_onset_3) <= c.(tb_discd_3);
  th_a12 : c.(tb_abate_1) <= c.(tb_abate_2); th_a23 : c.(tb_abate_2) <= c.(tb_abate_3);
  th_12 : c.(tb_discd_1) <= c.(tb_onset_2); th_23 : c.(tb_discd_2) <= c.(tb_onset_3) }.

(** ** The switch *)

Lemma set_cong_disc d c s :
  set_disc d (set_cong c s) = s <| sl_statem; cong_status := c |> <| sl_statem; disc_status := d |>.
Proof. done. Qed.
Definition levels (s : xp) : Z * Z := (s.(sl_statem).(cong_status), s.(sl_statem).(disc_status)).

Ltac comparisons :=
  repeat match goal with
  | |- context [?x <=? ?y] => destruct (Z.leb_spec x y)
  | |- context [?x <? ?y] => destruct (Z.ltb_spec x y)
  end.
(** Everything but the two status variables is left alone. *)
Definition only_levels (s s' : xp) : Prop := ∃ c d, s' = set_disc d (set_cong c s).
Lemma only_levels_refl s : only_levels s s.
Proof. exists s.(sl_statem).(cong_status), s.(sl_statem).(disc_status). by destruct s as [? ? ? ? ? ? ? ? ? ? ? ? ? ? []]. Qed.
Lemma only_levels_cong c s s' : only_levels s s' → only_levels s (set_cong c s').
Proof. intros (c' & d & ->). by exists c, d. Qed.
Lemma only_levels_disc d s s' : only_levels s s' → only_levels s (set_disc d s').
Proof. intros (c & d' & ->). by exists c, d. Qed.
Lemma congestion_switch_frame occ multi s : only_levels s (congestion_switch occ multi s).
Proof.
  unfold congestion_switch. cbv zeta.
  repeat case_match; auto 12 using only_levels_refl, only_levels_cong, only_levels_disc.
Qed.

(** On the two status variables it computes the specification. *)
Lemma congestion_switch_multi occ s :
  thresholds_ordered s.(sl_conf) → 0 <= s.(sl_statem).(cong_status) <= 3 →
  let old := s.(sl_statem).(cong_status) in
  let new := hysteresis s.(sl_conf) occ old in
  levels (congestion_switch occ true s) =
    (new, discard s.(sl_conf) occ old s.(sl_statem).(disc_status) new).
Proof.
  intros [] Hc. cbv zeta. unfold levels, congestion_switch, hysteresis, up_level, down_level.
  cbv zeta. cbn [negb].
  assert (E : s.(sl_statem).(cong_status) = 0 ∨ s.(sl_statem).(cong_status) = 1 ∨
              s.(sl_statem).(cong_status) = 2 ∨ s.(sl_statem).(cong_status) = 3) by lia.
  destruct E as [E|[E|[E|E]]]; rewrite E; cbv iota;
    comparisons; try lia; unfold set_cong, set_disc; upd; rewrite ?E; f_equal; try reflexivity;
    cbv [Z.max Z.min Z.compare Pos.compare Pos.compare_cont discard tb_discd
         Z.eqb Pos.eqb Z.ltb Z.add Pos.add Pos.succ Z.sub Z.opp Z.pos_sub Pos.pred_double];
    comparisons; try lia; try reflexivity.
Qed.
(** Without multiple levels there is only level one. *)
Lemma congestion_switch_single occ s :
  thresholds_ordered s.(sl_conf) → 0 <= s.(sl_statem).(cong_status) <= 3 →
  let old := s.(sl_statem).(cong_status) in
  (congestion_switch occ false s).(sl_statem).(cong_status) =
    if 1 <? old then 1 else Z.min 1 (hysteresis s.(sl_conf) occ old).
Proof.
  intros [] Hc. cbv zeta. unfold congestion_switch, hysteresis, up_level, down_level.
  cbv zeta. cbn [negb].
  assert (E : s.(sl_statem).(cong_status) = 0 ∨ s.(sl_statem).(cong_status) = 1 ∨
              s.(sl_statem).(cong_status) = 2 ∨ s.(sl_statem).(cong_status) = 3) by lia.
  destruct E as [E|[E|[E|E]]]; rewrite E; cbv iota;
    comparisons; try lia; unfold set_cong, set_disc; upd; rewrite ?E; reflexivity.
Qed.

(** ** The indications *)

Lemma put_ind_statem p s : (put_ind p s).2.(sl_statem) = s.(sl_statem).
Proof. unfold put_ind, xalloc. repeat case_match; simplify_eq; reflexivity. Qed.
Lemma put_ind_out p s :
  s.(xenv).(e_alloc) = [] →
  (put_ind p s).2.(xenv).(e_out) = s.(xenv).(e_out) ++ [EvPut p].
Proof. intros H. unfold put_ind, xalloc. by rewrite H. Qed.

(** What is sent for a change of the levels. *)
Definition cong_events (old new : Z * Z) : list event :=
  if bool_decide (new = old) then []
  else if new.1 <? old.1 then [EvPut (SL_LINK_CONGESTION_CEASED_IND new.1 new.2)]
  else [EvPut (SL_LINK_CONGESTED_IND new.1 new.2)].
(** The state the switch leaves, before the indications. *)
Definition switched (s : xp) : xp :=
  congestion_switch (occupancy s) (popt_has SS7_POPT_MPLEV s) s.
Lemma switched_env s : (switched s).(xenv) = s.(xenv).
Proof. destruct (congestion_switch_frame (occupancy s) (popt_has SS7_POPT_MPLEV s) s)
  as (c & d & E). unfold switched. by rewrite E. Qed.

Lemma check_congestion_effect s :
  (sl_check_congestion s).(sl_statem) = (switched s).(sl_statem) ∧
  (s.(xenv).(e_alloc) = [] →
   (sl_check_congestion s).(xenv).(e_out) =
     s.(xenv).(e_out) ++ cong_events (levels s) (levels (switched s))).
Proof.
  rewrite <- (switched_env s). unfold sl_check_congestion. cbv zeta. fold (switched s).
  generalize (switched s). intros x. unfold cong_events, levels. cbn [fst snd].
  destruct (Z.eqb_spec (cong_status (sl_statem x)) (cong_status (sl_statem s))) as [Ec|Ec],
           (Z.eqb_spec (disc_status (sl_statem x)) (disc_status (sl_statem s))) as [Ed|Ed];
    cbn [negb orb].
  - rewrite bool_decide_true by congruence. rewrite app_nil_r. done.
  - rewrite bool_decide_false by congruence.
    unfold sl_link_congestion_ceased_ind, sl_link_congested_ind. repeat case_match;
      rewrite put_ind_statem; (split; [done|]); intros Ha; rewrite put_ind_out by exact Ha; done.
  - rewrite bool_decide_false by congruence.
    unfold sl_link_congestion_ceased_ind, sl_link_congested_ind. repeat case_match;
      rewrite put_ind_statem; (split; [done|]); intros Ha; rewrite put_ind_out by exact Ha; done.
  - rewrite bool_decide_false by congruence.
    unfold sl_link_congestion_ceased_ind, sl_link_congested_ind. repeat case_match;
      rewrite put_ind_statem; (split; [done|]); intros Ha; rewrite put_ind_out by exact Ha; done.
Qed.

(** ** Properties *)

(** C15: congestion control is a hysteresis.  With multiple congestion levels
    and increasing thresholds, the new congestion status is the old one moved
    into the interval between the highest onset threshold reached and the
    highest abatement threshold not undercut; the discard status follows it as
    [discard] says; and the user gets one indication exactly if either status
    changed, that the congestion ceased if the congestion status fell, that the
    link is congested otherwise. *)
Theorem congestion_hysteresis s :
  popt_has SS7_POPT_MPLEV s = true → thresholds_ordered s.(sl_conf) →
  0 <= s.(sl_statem).(cong_status) <= 3 → s.(xenv).(e_alloc) = [] →
  let s' := sl_check_congestion s in
  let old := s.(sl_statem).(cong_status) in
  let new := hysteresis s.(sl_conf) (occupancy s) old in
  levels s' = (new, discard s.(sl_conf) (occupancy s) old s.(sl_statem).(disc_status) new) ∧
  s'.(xenv).(e_out) = s.(xenv).(e_out) ++ cong_events (levels s) (levels s').
Proof.
  intros Hm Ht Hc Ha. cbv zeta. destruct (check_congestion_effect s) as [Es Eo].
  assert (El : levels (sl_check_congestion s) = levels (switched s))
    by (unfold levels; by rewrite Es).
  rewrite El, (Eo Ha). split; [|done]. unfold switched. rewrite Hm.
  by apply (congestion_switch_multi (occupancy s) s).
Qed.

(** Without multiple levels the congestion status stays at most 1: it is
    the hysteresis on the first pair of thresholds, and a status above 1 that
    multiple levels left behind falls to 1. *)
Theorem congestion_single_level s :
  popt_has SS7_POPT_MPLEV s = false → thresholds_ordered s.(sl_conf) →
  0 <= s.(sl_statem).(cong_status) <= 3 →
  (sl_check_congestion s).(sl_statem).(cong_status) =
    if 1 <? s.(sl_statem).(cong_status) then 1
    else Z.min 1 (hysteresis s.(sl_conf) (occupancy s) s.(sl_statem).(cong_status)).
Proof.
  intros Hm Ht Hc. destruct (check_congestion_effect s) as [-> _]. unfold switched. rewrite Hm.
  by apply congestion_switch_single.
Qed.

(** When the congestion abates the discard status can rise.  A link at
    congestion level 2 that discards nothing, because no discard threshold was
    ever reached, is at discard level 1 once its occupancy has fallen below the
    abatement threshold of level 2, however far below the discard threshold of
    level 1 it is. *)
Theorem abatement_raises_discard s :
  popt_has SS7_POPT_MPLEV s = true → thresholds_ordered s.(sl_conf) →
  levels s = (2, 0) → s.(xenv).(e_alloc) = [] →
  s.(sl_conf).(tb_abate_1) <= occupancy s < s.(sl_conf).(tb_abate_2) →
  occupancy s < s.(sl_conf).(tb_discd_1) →
  levels (sl_check_congestion s) = (1, 1).
Proof.
  intros Hm Ht Hl Ha Ho Hd. assert (Hc : s.(sl_statem).(cong_status) = 2) by (by injection Hl).
  destruct (check_congestion_effect s) as [Es _]. unfold levels. rewrite Es.
  fold (levels (switched s)). unfold switched. rewrite Hm.
  rewrite congestion_switch_multi by (done || lia). rewrite Hc.
  assert (E : hysteresis (sl_conf s) (occupancy s) 2 = 1).
  { destruct Ht. unfold hysteresis, up_level, down_level. comparisons; lia. }
  rewrite E. reflexivity.
Qed.

(** ** A channel with the default thresholds *)

(** The channel at the levels [c] and [d] with [occ] bytes waiting upstream. *)
Definition ex_cong (popt occ c d : Z) : xp :=
  (xp_alloc_priv 100 (Env [] [] 0 [(true, occ)] [] [] false false))
    <| xoption := LmiOption SS7_PVAR_ITUT_96 popt |>
    <| sl_statem; cong_status := c |> <| sl_statem; disc_status := d |>.
Lemma ex_ordered popt occ c d : thresholds_ordered (ex_cong popt occ c d).(sl_conf).
Proof. split; by vm_compute. Qed.

Lemma congestion_hysteresis_witness :
  let s := sl_check_congestion (ex_cong SS7_POPT_MPLEV (700 * 272) 0 0) in
  levels s = (2, 1) ∧ s.(xenv).(e_out) = [EvPut (SL_LINK_CONGESTED_IND 2 1)].
Proof.
  destruct (congestion_hysteresis (ex_cong SS7_POPT_MPLEV (700 * 272) 0 0)) as [H1 H2];
    [vm_compute; reflexivity|apply ex_ordered|vm_compute; intuition congruence|reflexivity|].
  cbv zeta in H1, H2 |- *. rewrite H2, H1. vm_compute. split; reflexivity.
Defined.
Lemma congestion_single_level_witness :
  (sl_check_congestion (ex_cong 0 (700 * 272) 0 0)).(sl_statem).(cong_status) = 1.
Proof.
  rewrite (congestion_single_level (ex_cong 0 (700 * 272) 0 0));
    [vm_compute; reflexivity|vm_compute; reflexivity|apply ex_ordered|vm_compute; intuition congruence].
Defined.
Lemma abatement_raises_discard_witness :
  levels (sl_check_congestion (ex_cong SS7_POPT_MPLEV (200 * 272) 2 0)) = (1, 1).
Proof.
  apply (abatement_raises_discard (ex_cong SS7_POPT_MPLEV (200 * 272) 2 0));
    [vm_compute; reflexivity|apply ex_ordered|reflexivity|reflexivity
    |vm_compute; intuition congruence|vm_compute; reflexivity].
Defined.
