(* ===== verification/ErrorRate.v ===== *)
(** * The error rate monitors

    SUERM is a leaky bucket, AERM a threshold, EIM an up and down counter.  Each
    is compared with a reference that has nothing but its counters. *)
From S2P Require Import Prelude Bufq Xp Prims Timers Txc Lsc Rc LscCtl Monitors Requests.
From S2P Require Import Lmi Ctl Invariant Machine System.

(** ** SUERM: the leaky bucket *)

(** The reference: the fill of the bucket and the units since the last leak; the
    bucket overflows ([None]) when an error fills it to [T], and loses one error
    every [D] units. *)
Definition bucket (T D : Z) (e : bool) (b : Z * Z) : option (Z * Z) :=
  let c := if e then b.1 + 1 else b.1 in
  if e && (T <=? c) then None
  else if D <=? b.2 + 1 then Some (Z.max 0 (c - 1), 0) else Some (c, b.2 + 1).
Fixpoint buckets (T D : Z) (l : list bool) (b : Z * Z) : option (Z * Z) :=
  match l with
  | [] => Some b
  | e :: l => match bucket T D e b with None => None | Some b => buckets T D l b end
  end.
Definition errors (l : list bool) : Z := Z.of_nat (count_occ bool_dec l true).
Definition units (l : list bool) : Z := Z.of_nat (length l).

(** The fill never exceeds the errors, and misses at most one for every [D]
    units. *)
Lemma buckets_bounds T D l c n :
  0 < D → 0 <= n < D → 0 <= c < T →
  match buckets T D l (c, n) with
  | Some (c', n') =>
      0 <= c' < T ∧ n' = (n + units l) mod D ∧
      c + errors l - (n + units l) / D <= c' <= c + errors l
  | None => T <= c + errors l
  end.
Proof.
  intros HD. revert c n; induction l as [|e l IH]; intros c n Hn Hc; cbn [buckets].
  - unfold units, errors. cbn. rewrite Z.add_0_r, Z.mod_small, Z.div_small by lia. lia.
  - assert (Hu : units (e :: l) = units l + 1) by (unfold units; cbn; lia).
    assert (He : errors (e :: l) = errors l + if e then 1 else 0)
      by (unfold errors; destruct e; cbn; lia).
    assert (H0 : 0 <= errors l) by (unfold errors; lia).
    unfold bucket. cbn [fst snd].
    destruct (e && (T <=? (if e then c + 1 else c))) eqn:Ef.
    + apply andb_prop in Ef as [-> Ef]. apply Z.leb_le in Ef. lia.
    + assert ((if e then c + 1 else c) < T).
      { destruct e; [|lia]. cbn in Ef. apply Z.leb_gt in Ef. exact Ef. }
      rewrite Hu, He. destruct (Z.leb_spec D (n + 1)).
      * assert (n = D - 1) as -> by lia.
        specialize (IH (Z.max 0 ((if e then c + 1 else c) - 1)) 0 ltac:(lia) ltac:(destruct e; lia)).
        replace (D - 1 + (units l + 1)) with (units l + 1 * D) by lia.
        rewrite Z.mod_add, Z.div_add by lia. rewrite Z.add_0_l in IH.
        destruct (buckets _ _ _ _) as [[c' n']|]; destruct e; lia.
      * specialize (IH (if e then c + 1 else c) (n + 1) ltac:(lia) ltac:(destruct e; lia)).
        replace (n + (units l + 1)) with (n + 1 + units l) by lia.
        destruct (buckets _ _ _ _) as [[c' n']|]; destruct e; lia.
Qed.

(** The units SUERM sees. *)
Definition suerm_unit (e : bool) (s : xp) : xp :=
  if e then sl_suerm_su_in_error s else sl_suerm_correct_su s.
Definition suerm_units (l : list bool) (s : xp) : xp := fold_left (fun s e => suerm_unit e s) l s.

Definition suerm_set (c n : Z) (s : xp) : xp :=
  s <| sdt_statem; Cs := c |> <| sdt_statem; Ns := n |>.
Lemma suerm_set_eta s : suerm_set s.(sdt_statem).(Cs) s.(sdt_statem).(Ns) s = s.
Proof. by destruct s as [? ? ? ? ? ? ? ? ? ? ? ? ? ? ? ? ? ? ? ? [] ? ? ? ? ? ?]. Qed.
Lemma suerm_set_zero s :
  s.(sdt_statem).(Cs) = 0 → s.(sdt_statem).(Ns) = 0 → suerm_set 0 0 s = s.
Proof. intros Hc Hn. rewrite <- (suerm_set_eta s) at 2. by rewrite Hc, Hn. Qed.
Lemma s32_small x : 0 <= x < 2 ^ 31 → s32 x = x.
Proof. intros H. unfold s32. rewrite Z.mod_small; lia. Qed.
Lemma u32_small x : 0 <= x < 2 ^ 32 → u32 x = x.
Proof. apply Z.mod_small. Qed.

(** SUERM of [s] monitors, with [T] and [D] in range. *)
Record suerm_on (s : xp) : Prop := {
  su_on : s.(sdt_statem).(suerm_state) = IN_SERVICE;
  su_lsc : s.(sl_statem).(lsc_state) ≠ LSC_OUT_OF_SERVICE;
  su_mem : s.(xenv).(e_alloc) = [];
  su_T : 0 < s.(sdt_conf).(cf_T) < 2 ^ 31;
  su_D : 0 < s.(sdt_conf).(cf_D) < 2 ^ 32 }.
(** SUERM has failed the link of [s]. *)
Record suerm_failed (s s' : xp) : Prop := {
  sf_down : taken_down SL_FAIL_SUERM_EIM s s';
  sf_off : s'.(sdt_statem).(suerm_state) = IDLE }.

Lemma suerm_count_ok c n s :
  0 < s.(sdt_conf).(cf_D) < 2 ^ 32 → 0 <= n < s.(sdt_conf).(cf_D) → 0 <= c < 2 ^ 31 →
  suerm_count_su (suerm_set c n s) =
    if s.(sdt_conf).(cf_D) <=? n + 1 then suerm_set (Z.max 0 (c - 1)) 0 s
    else suerm_set c (n + 1) s.
Proof.
  intros HD Hn Hc. unfold suerm_count_su, suerm_set. cbv zeta. upd.
  rewrite u32_small by lia. destruct (_ <=? _); [|reflexivity].
  destruct (Z.eqb_spec c 0) as [->|H0]; cbn [negb]; [reflexivity|].
  rewrite s32_small by lia. rewrite Z.max_r by lia. reflexivity.
Qed.
Lemma suerm_unit_ok e c n s :
  suerm_on s → 0 <= c < s.(sdt_conf).(cf_T) → 0 <= n < s.(sdt_conf).(cf_D) →
  match bucket s.(sdt_conf).(cf_T) s.(sdt_conf).(cf_D) e (c, n) with
  | Some (c', n') => suerm_unit e (suerm_set c n s) = suerm_set c' n' s
  | None => suerm_failed s (suerm_unit e (suerm_set c n s))
  end.
Proof.
  intros [Hon Hl Ha HT HD] Hc Hn. unfold bucket. cbn [fst snd]. destruct e; cbn [andb suerm_unit].
  - unfold sl_suerm_su_in_error.
    rewrite bool_decide_true by exact Hon. cbv zeta.
    change (Cs (sdt_statem (suerm_set c n s))) with c. rewrite s32_small by lia.
    change ((suerm_set c n s) <| sdt_statem; Cs := c + 1 |>) with (suerm_set (c + 1) n s).
    change (Cs (sdt_statem (suerm_set (c + 1) n s))) with (c + 1). rewrite u32_small by lia.
    change (cf_T (sdt_conf (suerm_set (c + 1) n s))) with (cf_T (sdt_conf s)).
    destruct (Z.leb_spec (cf_T (sdt_conf s)) (c + 1)).
    + destruct (link_failure_down SL_FAIL_SUERM_EIM (suerm_set (c + 1) n s)) as (s' & -> & Hd & _);
        [reflexivity|by rewrite bool_decide_false|exact Ha|].
      destruct Hd. split; [split|]; assumption || reflexivity.
    + rewrite suerm_count_ok by lia. by destruct (_ <=? _).
  - unfold sl_suerm_correct_su. rewrite bool_decide_true by exact Hon.
    rewrite suerm_count_ok by lia. by destruct (_ <=? _).
Qed.
Lemma suerm_units_off l s : s.(sdt_statem).(suerm_state) = IDLE → suerm_units l s = s.
Proof.
  intros H. induction l as [|e l IH]; [done|]. cbn [suerm_units fold_left].
  replace (suerm_unit e s) with s; [exact IH|].
  destruct e; cbn; unfold sl_suerm_su_in_error, sl_suerm_correct_su; by rewrite H.
Qed.
Lemma suerm_units_ok l c n s :
  suerm_on s → 0 <= c < s.(sdt_conf).(cf_T) → 0 <= n < s.(sdt_conf).(cf_D) →
  match buckets s.(sdt_conf).(cf_T) s.(sdt_conf).(cf_D) l (c, n) with
  | Some (c', n') => suerm_units l (suerm_set c n s) = suerm_set c' n' s
  | None => suerm_failed s (suerm_units l (suerm_set c n s))
  end.
Proof.
  intros Hs. revert c n; induction l as [|e l IH]; intros c n Hc Hn; cbn [buckets]; [done|].
  change (suerm_units (e :: l) (suerm_set c n s)) with
    (suerm_units l (suerm_unit e (suerm_set c n s))).
  pose proof (suerm_unit_ok e c n s Hs Hc Hn) as Hu. destruct Hs as [_ _ _ HT HD].
  pose proof (buckets_bounds (cf_T (sdt_conf s)) (cf_D (sdt_conf s)) [e] c n ltac:(lia) Hn Hc) as Hb.
  cbn [buckets] in Hb. destruct (bucket _ _ e (c, n)) as [[c' n']|].
  - rewrite Hu. apply IH; [lia|]. destruct Hb as (_ & -> & _). apply Z.mod_pos_bound. lia.
  - rewrite suerm_units_off; [exact Hu|]. by destruct Hu.
Qed.

(** C24: SUERM is a leaky bucket.  From the start of the monitor, any sequence
    of correct units and units in error leaves the two counters of the
    reference bucket and changes nothing else, until the bucket overflows: then
    the link has been taken out of service with the reason of SUERM, and the
    monitor is idle. *)
Theorem suerm_is_leaky_bucket l s :
  suerm_on s → s.(sdt_statem).(Cs) = 0 → s.(sdt_statem).(Ns) = 0 →
  match buckets s.(sdt_conf).(cf_T) s.(sdt_conf).(cf_D) l (0, 0) with
  | Some (c, n) => suerm_units l s = suerm_set c n s
  | None => suerm_failed s (suerm_units l s)
  end.
Proof.
  intros Hs Hc Hn. pose proof Hs as [_ _ _ HT HD].
  pose proof (suerm_units_ok l 0 0 s Hs ltac:(lia) ltac:(lia)) as Hu.
  by rewrite (suerm_set_zero s Hc Hn) in Hu.
Qed.

(** The bounds of SUERM.  Fewer than T units in error in all never fail the
    link; as many units in error as T and the number of completed intervals of
    D units have failed it. *)
Theorem suerm_bounds l s :
  suerm_on s → s.(sdt_statem).(Cs) = 0 → s.(sdt_statem).(Ns) = 0 →
  let T := s.(sdt_conf).(cf_T) in
  let D := s.(sdt_conf).(cf_D) in
  let s' := suerm_units l s in
  (errors l < T → s'.(sl_statem) = s.(sl_statem) ∧ s'.(xenv) = s.(xenv) ∧
                  errors l - units l / D <= s'.(sdt_statem).(Cs) <= errors l) ∧
  (T + units l / D <= errors l → suerm_failed s s').
Proof.
  intros Hs Hc Hn. pose proof Hs as [_ _ _ HT HD]. cbv zeta.
  pose proof (suerm_units_ok l 0 0 s Hs ltac:(lia) ltac:(lia)) as Hu.
  pose proof (buckets_bounds (cf_T (sdt_conf s)) (cf_D (sdt_conf s)) l 0 0 ltac:(lia) ltac:(lia)
    ltac:(lia)) as Hb.
  rewrite (suerm_set_zero s Hc Hn) in Hu. rewrite Z.add_0_l in Hb.
  destruct (buckets _ _ l (0, 0)) as [[c' n']|]; split; intros He; try lia.
  - rewrite Hu. change (Cs (sdt_statem (suerm_set c' n' s))) with c'. repeat split; lia.
  - exact Hu.
Qed.

(** ** AERM: the errors of one proving period *)

Definition aerm_errors (n : nat) (s : xp) : xp := Nat.iter n sl_aerm_su_in_error s.
Definition aerm_set (c : Z) (s : xp) : xp := s <| sdt_statem; Ca := c |>.
Lemma aerm_set_eta s : aerm_set s.(sdt_statem).(Ca) s = s.
Proof. by destruct s as [? ? ? ? ? ? ? ? ? ? ? ? ? ? ? ? ? ? ? ? [] ? ? ? ? ? ?]. Qed.
Lemma aerm_error_below c s :
  s.(sdt_statem).(aerm_state) = IN_SERVICE → 0 <= c → c + 1 < s.(sdt_statem).(Ti) < 2 ^ 31 →
  sl_aerm_su_in_error (aerm_set c s) = aerm_set (c + 1) s.
Proof.
  intros Hs Hc Ht. unfold sl_aerm_su_in_error. rewrite bool_decide_true by exact Hs. cbv zeta.
  change (Ca (sdt_statem (aerm_set c s))) with c. rewrite s32_small by lia.
  change ((aerm_set c s) <| sdt_statem; Ca := c + 1 |>) with (aerm_set (c + 1) s).
  change (Ca (sdt_statem (aerm_set (c + 1) s))) with (c + 1). rewrite u32_small by lia.
  change (Ti (sdt_statem (aerm_set (c + 1) s))) with (Ti (sdt_statem s)).
  destruct (Z.eqb_spec (c + 1) (Ti (sdt_statem s))); [lia|done].
Qed.
Lemma aerm_errors_below n s :
  s.(sdt_statem).(aerm_state) = IN_SERVICE → s.(sdt_statem).(Ca) = 0 →
  Z.of_nat n < s.(sdt_statem).(Ti) < 2 ^ 31 →
  aerm_errors n s = aerm_set (Z.of_nat n) s.
Proof.
  intros Hs Hc Ht. induction n as [|n IH].
  - change (s = aerm_set 0 s). rewrite <- Hc. symmetry. apply aerm_set_eta.
  - change (aerm_errors (S n) s) with (sl_aerm_su_in_error (aerm_errors n s)).
    rewrite IH by lia. rewrite aerm_error_below by (done || lia). f_equal. lia.
Qed.

Lemma not_possible_frame s :
  let s' := (sl_lsc_alignment_not_possible s).2 in
  s'.(sl_statem).(Cp) = s.(sl_statem).(Cp) ∧
  s'.(sdt_statem).(aborted_proving) = s.(sdt_statem).(aborted_proving).
Proof.
  cbv zeta. unfold sl_lsc_alignment_not_possible, sl_out_of_service_ind.
  destruct (put_ind_cases (SL_OUT_OF_SERVICE_IND SL_FAIL_ALIGNMENT_NOT_POSSIBLE) s)
    as [(v & -> & _)|(v & -> & _)]; [|by split].
  cbv zeta. change (0 =? 0) with true. cbv iota.
  unfold sl_txc_send_sios. cbv zeta. repeat case_match; by split.
Qed.

(** A proving period survives fewer than Ti units in error, which only
    count up, and the one that makes them Ti ends it: AERM is idle and has
    recorded the abort, and of the alignment that was proving either the
    proving period is to be repeated (fewer than M were aborted), or, after
    the M-th abort, the link is out of service and the initial alignment idle. *)
Theorem aerm_threshold n s :
  s.(sdt_statem).(aerm_state) = IN_SERVICE → s.(sdt_statem).(Ca) = 0 →
  0 < s.(sdt_statem).(Ti) < 2 ^ 31 → s.(xenv).(e_alloc) = [] →
  s.(sl_statem).(iac_state) = IAC_PROVING → 0 <= s.(sl_statem).(Cp) < s.(sl_conf).(cf_M) →
  s.(sl_conf).(cf_M) < 2 ^ 32 →
  (Z.of_nat n < s.(sdt_statem).(Ti) → aerm_errors n s = aerm_set (Z.of_nat n) s) ∧
  (Z.of_nat n = s.(sdt_statem).(Ti) →
   let s' := aerm_errors n s in
   s'.(sdt_statem).(aerm_state) = IDLE ∧ s'.(sdt_statem).(aborted_proving) = true ∧
   s'.(sl_statem).(Cp) = s.(sl_statem).(Cp) + 1 ∧
   if s.(sl_statem).(Cp) + 1 =? s.(sl_conf).(cf_M) then
     s'.(sl_statem).(lsc_state) = LSC_OUT_OF_SERVICE ∧ s'.(sl_statem).(iac_state) = IAC_IDLE ∧
     toid T4 s' = None ∧
     s'.(xenv).(e_out) =
       s.(xenv).(e_out) ++ [EvPut (SL_OUT_OF_SERVICE_IND SL_FAIL_ALIGNMENT_NOT_POSSIBLE)]
   else
     s'.(sl_statem).(further_proving) = true ∧ s'.(sl_statem).(iac_state) = IAC_PROVING ∧
     s'.(xenv) = s.(xenv)).
Proof.
  intros Hs Hc Ht Ha Hp HM HM'. split; [intros Hn; apply aerm_errors_below; [done..|lia]|].
  intros Hn. cbv zeta. destruct n as [|n]; [lia|].
  change (aerm_errors (S n) s) with (sl_aerm_su_in_error (aerm_errors n s)).
  rewrite aerm_errors_below by (done || lia). unfold sl_aerm_su_in_error.
  rewrite bool_decide_true by exact Hs. cbv zeta.
  change (Ca (sdt_statem (aerm_set (Z.of_nat n) s))) with (Z.of_nat n).
  rewrite s32_small by lia. upd. rewrite u32_small by lia.
  change (Ti (sdt_statem (aerm_set (Z.of_nat n) s))) with (Ti (sdt_statem s)).
  rewrite (proj2 (Z.eqb_eq _ _)) by lia. unfold sl_iac_abort_proving.
  rewrite bool_decide_true by exact Hp. cbv zeta. upd.
  change (Cp (sl_statem (aerm_set (Z.of_nat n) s))) with (Cp (sl_statem s)).
  change (sl_conf (aerm_set (Z.of_nat n) s)) with (sl_conf s).
  rewrite u32_small by lia.
  destruct (Z.eqb_spec (Cp (sl_statem s) + 1) (cf_M (sl_conf s))) as [E|E].
  - match goal with |- context [sl_lsc_alignment_not_possible ?x] => set (y := x) end.
    destruct (not_possible_frame y) as [Ep Eb].
    destruct (not_possible_down y Ha) as (s' & E' & [] & _). rewrite E' in *. cbn [snd] in *.
    repeat split; upd; done.
  - repeat split. exact Hp.
Qed.

(** ** EIM: the interval errors of a high speed link *)

(** The reference: the count after an interval without trouble, or with. *)
Definition eim_count (De Ue : Z) (good : bool) (c : Z) : Z :=
  if good then Z.max 0 (c - De) else c + Ue.
Definition eim_good (s : xp) : bool :=
  s.(sdt_statem).(su_received) && negb s.(sdt_statem).(interval_error).

(** EIM of [s] monitors, with its counter and parameters in range. *)
Record eim_on (s : xp) : Prop := {
  ei_on : s.(sdt_statem).(eim_state) = IN_SERVICE;
  ei_lsc : s.(sl_statem).(lsc_state) ≠ LSC_OUT_OF_SERVICE;
  ei_mem : s.(xenv).(e_alloc) = [];
  ei_ce : 0 <= s.(sdt_statem).(Ce) <= s.(sdt_conf).(Te);
  ei_ue : 0 <= s.(sdt_conf).(Ue) ∧ s.(sdt_conf).(Te) + s.(sdt_conf).(Ue) < 2 ^ 31;
  ei_de : 0 <= s.(sdt_conf).(De) <= 2 ^ 31 }.
Lemma s32_range x : - 2 ^ 31 <= x < 2 ^ 31 → s32 x = x.
Proof. intros H. unfold s32. rewrite Z.mod_small; lia. Qed.

(** The end of a bad interval. *)
Lemma eim_rise_ok s :
  eim_on s →
  let c := s.(sdt_statem).(Ce) + s.(sdt_conf).(Ue) in
  (c <= s.(sdt_conf).(Te) →
   eim_rise s = (QR_DONE, s <| sdt_statem; Ce := c |> <| sdt_statem; interval_error := false |>)) ∧
  (s.(sdt_conf).(Te) < c →
   ∃ s', eim_rise s = (QR_DONE, s') ∧ taken_down SL_FAIL_SUERM_EIM s s' ∧
         s'.(sdt_statem).(eim_state) = IDLE).
Proof.
  intros [Hon Hl Ha Hc [Hu Hu'] Hd]. cbv zeta. unfold eim_rise. cbv zeta.
  rewrite s32_range by lia.
  set (y := s <| sdt_statem; Ce := Ce (sdt_statem s) + Ue (sdt_conf s) |>).
  change (Ce (sdt_statem y)) with (Ce (sdt_statem s) + Ue (sdt_conf s)).
  change (Te (sdt_conf y)) with (Te (sdt_conf s)). rewrite u32_small by lia.
  split; intros H.
  - rewrite (proj2 (Z.ltb_ge _ _)) by lia. reflexivity.
  - rewrite (proj2 (Z.ltb_lt _ _)) by lia.
    destruct (link_failure_down SL_FAIL_SUERM_EIM y) as (s' & -> & [] & _);
      [reflexivity|by rewrite bool_decide_false|exact Ha|].
    cbn [negb]. change (QR_DONE =? 0) with true. cbn [negb]. cbv iota.
    eexists. split; [reflexivity|]. split; [split; assumption|reflexivity].
Qed.

(** What an interval does to the parts the user sees. *)
Definition eim_step (s s' : xp) (c : Z) : Prop :=
  s'.(sdt_statem).(Ce) = c ∧ s'.(sdt_statem).(su_received) = false ∧
  s'.(sdt_statem).(interval_error) = false ∧ toid T8 s' = Some s.(sdt_conf).(cf_t8) ∧
  s'.(sl_statem) = s.(sl_statem) ∧ s'.(xenv) = s.(xenv) ∧ eim_on s'.
(** A bad interval, seen from [x] where T8 runs again and [su_received] is
    reset. *)
Lemma eim_bad s x :
  eim_on x → x.(sdt_statem).(su_received) = false → toid T8 x = Some s.(sdt_conf).(cf_t8) →
  x.(sl_statem) = s.(sl_statem) → x.(xenv) = s.(xenv) →
  let c := x.(sdt_statem).(Ce) + x.(sdt_conf).(Ue) in
  let s' := (eim_rise x).2 in
  (eim_rise x).1 = QR_DONE ∧
  (c <= x.(sdt_conf).(Te) → eim_step s s' c) ∧
  (x.(sdt_conf).(Te) < c →
   taken_down SL_FAIL_SUERM_EIM s s' ∧ s'.(sdt_statem).(eim_state) = IDLE).
Proof.
  intros Hx Hr Ht Hl He. destruct (eim_rise_ok x Hx) as [Hlo Hhi]. cbv zeta in *.
  destruct (Z.le_gt_cases (Ce (sdt_statem x) + Ue (sdt_conf x)) (Te (sdt_conf x))) as [H|H].
  - rewrite (Hlo H). cbn [fst snd]. split; [done|]. split; [|lia]. intros _.
    repeat split; try assumption; upd; try done; destruct Hx; try assumption; try lia.
  - destruct (Hhi ltac:(lia)) as (s' & -> & [] & Hi). cbn [fst snd]. split; [done|].
    split; [lia|]. intros _. split; [|done]. split; try assumption. by rewrite <- He.
Qed.

(** EIM counts intervals.  At the end of an interval of T8 the timer runs
    again and the count falls by De, not below 0, if a correct unit and no error
    was seen, and rises by Ue otherwise; the flags of the interval are reset;
    and the link is taken out of service exactly when the count passes Te. *)
Theorem eim_interval s :
  eim_on s →
  let c := eim_count s.(sdt_conf).(De) s.(sdt_conf).(Ue) (eim_good s) s.(sdt_statem).(Ce) in
  let s' := (xp_t8_timeout s).2 in
  (xp_t8_timeout s).1 = QR_DONE ∧
  (c <= s.(sdt_conf).(Te) → eim_step s s' c) ∧
  (s.(sdt_conf).(Te) < c →
   taken_down SL_FAIL_SUERM_EIM s s' ∧ s'.(sdt_statem).(eim_state) = IDLE).
Proof.
  intros Hs. cbv zeta. pose proof Hs as [Hon Hl Ha Hc [Hu Hu'] Hd].
  unfold xp_t8_timeout, eim_good. rewrite bool_decide_true by exact Hon. cbv zeta.
  change (su_received (sdt_statem (xp_timer_start T8 s))) with (su_received (sdt_statem s)).
  assert (Hy : eim_on (xp_timer_start T8 s)) by (split; assumption || by split).
  revert Hy. generalize (eq_refl (toid T8 (xp_timer_start T8 s))).
  change (toid T8 (xp_timer_start T8 s)) with (Some (cf_t8 (sdt_conf s))) at 2.
  destruct (su_received (sdt_statem s)) eqn:Er; intros Ht Hy; cbn [andb].
  - change (interval_error (sdt_statem ((xp_timer_start T8 s) <| sdt_statem; su_received := false |>)))
      with (interval_error (sdt_statem s)).
    destruct (interval_error (sdt_statem s)) eqn:Ei; cbn [negb fst snd eim_count].
    + set (z := (xp_timer_start T8 s) <| sdt_statem; su_received := false |>).
      assert (Hz : eim_on z) by (destruct Hy; split; assumption).
      exact (eim_bad s z Hz eq_refl eq_refl eq_refl eq_refl).
    + split; [done|]. split; [|lia]. intros _. unfold eim_fall. cbv zeta. upd.
      change (Ce (sdt_statem (xp_timer_start T8 s))) with (Ce (sdt_statem s)).
      change (De (sdt_conf (xp_timer_start T8 s))) with (De (sdt_conf s)).
      rewrite s32_range by lia.
      destruct (Z.ltb_spec (Ce (sdt_statem s) - De (sdt_conf s)) 0);
        [rewrite Z.max_l by lia|rewrite Z.max_r by lia];
        (repeat split; try exact Ei; try reflexivity; try assumption; upd; try lia; try apply Hy).
      all: change (Te (sdt_conf (xp_timer_start T8 s))) with (Te (sdt_conf s)); lia.
  - exact (eim_bad s (xp_timer_start T8 s) Hy Er eq_refl eq_refl eq_refl).
Qed.

(** With the default parameters of either rate, a single bad interval takes
    a high speed link out of service: Ue alone exceeds Te. *)
Theorem eim_default_trips HZ s :
  eim_on s → s.(sdt_conf) = sdt_default_e1_chan HZ ∨ s.(sdt_conf) = sdt_default_t1_chan HZ →
  eim_good s = false →
  taken_down SL_FAIL_SUERM_EIM s (xp_t8_timeout s).2.
Proof.
  intros Hs Hc Hg. pose proof Hs as [Hon Hl Ha Hce _ _].
  unfold xp_t8_timeout, eim_good in *. rewrite bool_decide_true by exact Hon. cbv zeta.
  set (y := xp_timer_start T8 s). change (su_received (sdt_statem y)) with (su_received (sdt_statem s)).
  assert (Hy : eim_on y) by (split; assumption || by destruct Hs).
  assert (Ht : ∀ x, eim_on x → x.(sdt_conf) = s.(sdt_conf) → x.(sl_statem) = s.(sl_statem) →
            x.(xenv) = s.(xenv) → taken_down SL_FAIL_SUERM_EIM s (eim_rise x).2).
  { intros x Hx Ec El Ee. destruct (eim_rise_ok x Hx) as [_ Hhi]. cbv zeta in Hhi.
    destruct Hhi as (s' & -> & [] & _).
    - destruct Hx. rewrite Ec. destruct Hc as [-> | ->]; cbn; lia.
    - cbn [snd]. split; try assumption. by rewrite <- Ee. }
  destruct (su_received (sdt_statem s)) eqn:Er; [|by apply Ht].
  cbn [andb] in Hg. apply negb_false_iff in Hg.
  set (z := y <| sdt_statem; su_received := false |>).
  change (interval_error (sdt_statem z)) with (interval_error (sdt_statem s)). rewrite Hg.
  cbn [negb]. apply Ht; [|done..]. destruct Hy; split; assumption.
Qed.

(** ** Channels the monitors run on *)

(** A channel in service, SUERM or EIM just started. *)
Definition ex_suerm : xp :=
  (xp_alloc_priv 100 ex_env) <| sl_statem; lsc_state := LSC_IN_SERVICE |>
    <| sdt_statem; suerm_state := IN_SERVICE |>.
Definition ex_eim : xp :=
  (sl_eim_start (xp_alloc_priv 100 ex_env)) <| sl_statem; lsc_state := LSC_IN_SERVICE |>.
Lemma ex_suerm_on : suerm_on ex_suerm.
Proof. by split; vm_compute. Qed.
Lemma ex_eim_on : eim_on ex_eim.
Proof. by split; vm_compute. Qed.
(** The channel of [ex_started] once the proving started. *)
Definition ex_proving : xp := sl_iac_sin (sl_iac_sio ex_started).

Lemma suerm_is_leaky_bucket_witness :
  suerm_on ex_suerm ∧
  suerm_units (repeat true 10 ++ repeat false 256) ex_suerm = suerm_set 9 10 ex_suerm ∧
  suerm_failed ex_suerm (suerm_units (repeat true 64) ex_suerm).
Proof.
  split; [exact ex_suerm_on|]. split.
  - exact (suerm_is_leaky_bucket (repeat true 10 ++ repeat false 256) ex_suerm ex_suerm_on
             eq_refl eq_refl).
  - exact (suerm_is_leaky_bucket (repeat true 64) ex_suerm ex_suerm_on eq_refl eq_refl).
Defined.
Lemma suerm_bounds_witness :
  (suerm_units (repeat true 63) ex_suerm).(sl_statem).(lsc_state) = LSC_IN_SERVICE ∧
  suerm_failed ex_suerm (suerm_units (repeat true 64 ++ repeat false 100) ex_suerm).
Proof.
  split.
  - destruct (suerm_bounds (repeat true 63) ex_suerm ex_suerm_on eq_refl eq_refl) as [H _].
    destruct H as (-> & _); vm_compute; reflexivity.
  - apply (suerm_bounds (repeat true 64 ++ repeat false 100) ex_suerm ex_suerm_on eq_refl eq_refl).
    vm_compute. discriminate.
Defined.
Lemma aerm_threshold_witness :
  ex_proving.(sl_statem).(iac_state) = IAC_PROVING ∧
  (aerm_errors 4 ex_proving).(sl_statem).(further_proving) = true.
Proof.
  split; [vm_compute; reflexivity|].
  destruct (aerm_threshold 4 ex_proving) as [_ H];
    [vm_compute; reflexivity|vm_compute; reflexivity|vm_compute; split; reflexivity
    |vm_compute; reflexivity|vm_compute; reflexivity
    |vm_compute; split; [discriminate|reflexivity]|vm_compute; reflexivity|].
  destruct H as (_ & _ & _ & H); [vm_compute; reflexivity|].
  revert H. replace (_ =? _) with false by (vm_compute; reflexivity). intros [H _]. exact H.
Defined.
Lemma eim_interval_witness :
  eim_on (ex_eim <| sdt_statem; su_received := true |>) ∧
  toid T8 (xp_t8_timeout (ex_eim <| sdt_statem; su_received := true |>)).2 = Some 10.
Proof.
  assert (H : eim_on (ex_eim <| sdt_statem; su_received := true |>)) by (by split; vm_compute).
  split; [exact H|]. destruct (eim_interval _ H) as (_ & H' & _).
  apply H'. vm_compute. discriminate.
Defined.
Lemma eim_default_trips_witness :
  (xp_t8_timeout ex_eim).2.(sl_statem).(lsc_state) = LSC_OUT_OF_SERVICE.
Proof.
  exact (down_lsc _ _ _ (eim_default_trips 100 ex_eim ex_eim_on (or_introl eq_refl) eq_refl)).
Defined.
