(* ===== verification/Header.v ===== *)
(** * Sequence numbers and the headers of signal units

    The window test [SN_OUTSIDE], and what the receiver reads from the header
    that the transmitter wrote. *)
From S2P Require Import Prelude Bufq Xp Prims Timers Txc Lsc Rc Lmi.

(** ** The window *)

Lemma SN_OUTSIDE_mod m lower middle upper :
  0 <= lower < m → 0 <= middle < m → 0 <= upper < m →
  SN_OUTSIDE lower middle upper = bool_decide ((upper - lower) mod m < (middle - lower) mod m).
Proof.
  intros Hl Hm Hu.
  assert (Hd : ∀ x, 0 <= x < m → (x - lower) mod m = if lower <=? x then x - lower else x - lower + m).
  { intros x Hx. destruct (Z.leb_spec lower x); [apply Z.mod_small; lia|].
    rewrite <- (Z.mod_add _ 1) by lia. rewrite Z.mul_1_l. apply Z.mod_small. lia. }
  rewrite !Hd by done. unfold SN_OUTSIDE. symmetry.
  destruct (Z.leb_spec lower upper), (Z.leb_spec lower middle), (Z.ltb_spec middle lower),
    (Z.ltb_spec upper middle); cbn [orb andb];
    first [lia | apply bool_decide_eq_true_2; lia | apply bool_decide_eq_false_2; lia].
Qed.
(** [SN_OUTSIDE] is the complement of a cyclic interval: for sequence
    numbers below [m], [middle] is outside [lower .. upper] exactly if it is
    further from [lower] than [upper] is, counting upwards modulo [m]. *)
Theorem sn_outside_cyclic m lower middle upper :
  0 <= lower < m → 0 <= middle < m → 0 <= upper < m →
  SN_OUTSIDE lower middle upper = bool_decide ((upper - lower) mod m < (middle - lower) mod m).
Proof. apply SN_OUTSIDE_mod. Qed.
Lemma sn_outside_cyclic_witness :
  SN_OUTSIDE 126 0 3 = false ∧ bool_decide ((3 - 126) mod 128 < (0 - 126) mod 128) = false.
Proof.
  split; [|vm_compute; reflexivity].
  rewrite (sn_outside_cyclic 128 126 0 3) by lia. vm_compute. reflexivity.
Defined.

(** ** Seven bit numbering *)

(** The numbers and indicator bits a header carries. *)
Record sn_ok (n : sni) : Prop := {
  ok_fsn : 0 <= n.(fsn) < 128; ok_bsn : 0 <= n.(bsn) < 128;
  ok_fib : n.(fib) = 0 ∨ n.(fib) = 0x80; ok_bib : n.(bib) = 0 ∨ n.(bib) = 0x80 }.
Lemma sn_byte x b :
  0 <= x < 128 → b = 0 ∨ b = 0x80 →
  Z.land (u8 (Z.lor x b)) 0x7f = x ∧ Z.land (u8 (Z.lor x b)) 0x80 = b.
Proof.
  intros Hx Hb.
  assert (H : (Z.land (u8 (Z.lor x 0)) 0x7f =? x) && (Z.land (u8 (Z.lor x 0)) 0x80 =? 0) &&
              (Z.land (u8 (Z.lor x 0x80)) 0x7f =? x) && (Z.land (u8 (Z.lor x 0x80)) 0x80 =? 0x80)
              = true).
  { revert x Hx. apply forall_range. vm_compute. reflexivity. }
  rewrite !andb_true_iff, !Z.eqb_eq in H. destruct Hb as [-> | ->]; tauto.
Qed.
Lemma li_byte x : 0 <= x < 64 → Z.land (u8 x) 0x3f = x.
Proof.
  intros Hx. apply Z.eqb_eq. revert x Hx. apply forall_range. vm_compute. reflexivity.
Qed.
Lemma sio_byte x : 0 <= x < 8 → Z.land (u8 x) 0x07 = x.
Proof.
  intros Hx. apply Z.eqb_eq. revert x Hx. apply forall_range. vm_compute. reflexivity.
Qed.

(** What the receiver [r] has after it parsed a unit of [n], the length
    indicator [li] and the status field [sio]. *)
Definition heard (n : sni) (li : Z) (sio : option Z) (r : xp) : xp :=
  let r := set_rx_header n.(bsn) n.(bib) n.(fsn) n.(fib) li r in
  match sio with None => r | Some v => r <| sl_statem; rx; r_sio := v |> end.

(** The header in front of the rest of a unit. *)
Lemma parse_header_ok t r i li rest blks :
  is_xsn t = false → is_xsn r = false → sn_ok t.(sl_statem).(tx).(tN) → 0 <= li < 64 →
  rc_parse_header (Mblk i ((su_header t li ++ rest) :: blks)) r =
    (Mblk i (rest :: blks), heard t.(sl_statem).(tx).(tN) li None r).
Proof.
  intros Ht Hr [Hf Hb Hfi Hbi] Hl. unfold rc_parse_header, su_header, heard. rewrite Ht, Hr.
  unfold skip, first_block, check_len. cbn [m_blks app nth byte_at]. upd.
  destruct (sn_byte _ _ Hb Hbi) as [-> ->]. destruct (sn_byte _ _ Hf Hfi) as [-> ->].
  rewrite li_byte by done. cbn [m_blks]. reflexivity.
Qed.

Definition ex_sn : sni := Sni 0x80 5 0 126.
Definition ex_tx : xp :=
  (xp_alloc_priv 100 (Env [] [] 0 [] [] [] false false)) <| sl_statem; tx; tN := ex_sn |>.

(** ** Extended sequence numbers *)

Record xsn_ok (n : sni) : Prop := {
  okx_fsn : 0 <= n.(fsn) < 4096; okx_bsn : 0 <= n.(bsn) < 4096;
  okx_fib : n.(fib) = 0 ∨ n.(fib) = 0x8000; okx_bib : n.(bib) = 0 ∨ n.(bib) = 0x8000 }.
Lemma xsn_word x b :
  0 <= x < 4096 → b = 0 ∨ b = 0x8000 →
  256 * u8 (Z.shiftr (Z.lor x b) 8) + u8 (Z.lor x b) = x + b ∧
  u8 (Z.lor x b) = x mod 256 ∧ u8 (Z.shiftr (Z.lor x b) 8) = x / 256 + b / 256.
Proof.
  intros Hx Hb.
  assert (H : forallb (fun b => (256 * u8 (Z.shiftr (Z.lor x b) 8) + u8 (Z.lor x b) =? x + b) &&
     (u8 (Z.lor x b) =? x mod 256) && (u8 (Z.shiftr (Z.lor x b) 8) =? x / 256 + b / 256))
     [0; 0x8000] = true).
  { revert x Hx. apply forall_range. vm_compute. reflexivity. }
  cbn [forallb] in H. rewrite !andb_true_iff, !Z.eqb_eq in H. destruct Hb as [-> | ->]; tauto.
Qed.

(** With extended sequence numbers the receiver reads the forward sequence
    number one byte too early: of a fill-in unit it gets the low four bits of
    the backward sequence number as the high bits of the forward one, with the
    high bits of the forward one below; the backward sequence number is right. *)
Theorem xsn_header_misread t r i :
  is_xsn t = true → is_xsn r = true → xsn_ok t.(sl_statem).(tx).(tN) →
  let n := t.(sl_statem).(tx).(tN) in
  let r' := (rc_parse_header (Mblk i [sl_daedt_fisu t []]) r).2 in
  r'.(sl_statem).(rx).(rR).(bsn) = n.(bsn) ∧
  r'.(sl_statem).(rx).(rR).(fsn) =
    256 * (n.(bsn) mod 16) + n.(fsn) / 256 + n.(fib) / 256.
Proof.
  intros Ht Hr [Hf Hb Hfi Hbi]. cbv zeta. unfold rc_parse_header, sl_daedt_fisu, su_header, be16.
  rewrite Ht, Hr. unfold first_block, ntohs_at. cbn [m_blks app nth byte_at snd].
  unfold set_rx_header, check_len. cbn [first_block m_blks length Nat.leb]. cbv zeta. upd.
  destruct (xsn_word _ _ Hb Hbi) as (-> & -> & _). destruct (xsn_word _ _ Hf Hfi) as (_ & _ & ->).
  change 0x0fff with (Z.ones 12). rewrite !Z.land_ones by lia.
  change (2 ^ 12) with 4096. split.
  - destruct Hbi as [-> | ->]; [rewrite Z.add_0_r; apply Z.mod_small; lia|].
    change 0x8000 with (8 * 4096). rewrite Z.mod_add by lia. apply Z.mod_small. lia.
  - assert (Hm : ∀ b h, 0 <= h < 256 → (256 * (b mod 256) + h) mod 4096 = 256 * (b mod 16) + h).
    { intros b h Hh. pose proof (Z.div_mod b 256 ltac:(lia)). pose proof (Z.mod_pos_bound b 256 ltac:(lia)).
      pose proof (Z.div_mod (b mod 256) 16 ltac:(lia)).
      assert (E : (b mod 256) mod 16 = b mod 16) by (apply Z.mod_mod_divide; by exists 16).
      rewrite E in *. pose proof (Z.mod_pos_bound b 16 ltac:(lia)).
      replace (256 * (b mod 256) + h) with (256 * (b mod 16) + h + (b mod 256 / 16) * 4096) by lia.
      rewrite Z.mod_add by lia. apply Z.mod_small. lia. }
    assert (0 <= fsn (tN (tx (sl_statem t))) / 256 < 16)
      by (split; [apply Z.div_pos; lia|apply Z.div_lt_upper_bound; lia]).
    rewrite Hm; [lia|]. destruct Hfi as [-> | ->]; [change (0 / 256) with 0|change (0x8000 / 256) with 128]; lia.
Qed.
Lemma xsn_header_misread_witness :
  let t := ex_tx <| xoption := LmiOption SS7_PVAR_ITUT_96 SS7_POPT_XSN |>
                 <| sl_statem; tx; tN := Sni 0 5 0 1 |> in
  (rc_parse_header (Mblk 0 [sl_daedt_fisu t []]) t).2.(sl_statem).(rx).(rR).(fsn) = 1280.
Proof.
  cbv zeta. set (t := _ <| sl_statem; tx; tN := _ |>).
  destruct (xsn_header_misread t t 0) as [_ E];
    [vm_compute; reflexivity|vm_compute; reflexivity| |exact E].
  split; vm_compute; first [left; reflexivity | split; [discriminate|reflexivity]].
Defined.
