(* ===== verification/Arq.v ===== *)
(** * The error correction of the transmitter

    What the retransmission buffer and the sequence numbers of TXC have to do
    with each other: the messages that wait for an acknowledgement are numbered
    from [tx.F.fsn] to [tx.L.fsn], and what the user sent is in the two buffers,
    in order, until it is acknowledged.  [view] is the part of the channel this
    is about; the other parts do not touch it. *)
From S2P Require Import Prelude Bufq BufqMoves Xp Prims Timers Txc Lsc Rc LscCtl Monitors Lmi Ctl Congest Header.
From stdpp Require Import sets.
#[local] Open Scope Z_scope.
#[local] Open Scope os7_scope.
#[local] Set Warnings "-clear-no-such-hyp".

(** ** The view *)

Record view := View {
  v_rtb : bufq; v_tb : bufq; v_F : Z; v_L : Z; v_Z : Z; v_Ct : Z; v_Cm : Z; v_mask : Z;
  v_rF : Z; v_rT : Z; v_rR : Z; v_z : option Z; v_full : bool; v_clear : bool; v_opt : lmi_option }.
#[export] Instance eta_view : Eta view := fun r =>
  View r.(v_rtb) r.(v_tb) r.(v_F) r.(v_L) r.(v_Z) r.(v_Ct) r.(v_Cm) r.(v_mask) r.(v_rF)
    r.(v_rT) r.(v_rR) r.(v_z) r.(v_full) r.(v_clear) r.(v_opt).
#[export] Instance set_v_rtb : Setter v_rtb := ltac:(mk_setter).
#[export] Instance set_v_tb : Setter v_tb := ltac:(mk_setter).
#[export] Instance set_v_F : Setter v_F := ltac:(mk_setter).
#[export] Instance set_v_L : Setter v_L := ltac:(mk_setter).
#[export] Instance set_v_Z : Setter v_Z := ltac:(mk_setter).
#[export] Instance set_v_Ct : Setter v_Ct := ltac:(mk_setter).
#[export] Instance set_v_Cm : Setter v_Cm := ltac:(mk_setter).
#[export] Instance set_v_rF : Setter v_rF := ltac:(mk_setter).
#[export] Instance set_v_rT : Setter v_rT := ltac:(mk_setter).
#[export] Instance set_v_rR : Setter v_rR := ltac:(mk_setter).
#[export] Instance set_v_z : Setter v_z := ltac:(mk_setter).
#[export] Instance set_v_full : Setter v_full := ltac:(mk_setter).

Definition view_of (s : xp) : view :=
  View s.(sl_rtb) s.(sl_tb) s.(sl_statem).(tx).(tF).(fsn) s.(sl_statem).(tx).(tL).(fsn)
    s.(sl_statem).(Zsn) s.(sl_statem).(Ct) s.(sl_statem).(Cm) s.(sl_statem).(sn_mask)
    s.(sl_statem).(rx).(rF).(fsn) s.(sl_statem).(rx).(rT).(fsn) s.(sl_statem).(rx).(rR).(bsn)
    s.(sl_statem).(z_ptr)
    s.(sl_statem).(rtb_full) s.(sl_statem).(clear_rtb) s.(xoption).

Lemma view_env v s : view_of (s <| xenv := v |>) = view_of s.
Proof. done. Qed.
Lemma view_put_ind p s : view_of (put_ind p s).2 = view_of s.
Proof. unfold put_ind, xalloc. repeat case_match; simplify_eq; reflexivity. Qed.
Lemma view_check_congestion s : view_of (sl_check_congestion s) = view_of s.
Proof.
  unfold sl_check_congestion. cbv zeta.
  pose proof (congestion_switch_frame (occupancy s) (popt_has SS7_POPT_MPLEV s) s) as (c & d & E).
  rewrite E. unfold sl_link_congestion_ceased_ind, sl_link_congested_ind.
  repeat case_match; try rewrite view_put_ind; reflexivity.
Qed.
Lemma view_new_msg s : view_of (new_msg s).2 = view_of s.
Proof. destruct (new_msg_cases s) as (i & b & v & -> & _). done. Qed.
Lemma view_dupmsg bp s : view_of (dupmsg bp s).2 = view_of s.
Proof. unfold dupmsg. destruct (new_msg_cases s) as (i & b & v & -> & _). done. Qed.

(** ** Modular arithmetic *)

(** The sequence numbers are those of [p] bits. *)
Definition mask_ok (m : Z) : Prop := m = 0x7f ∨ m = 0x7fff.
Lemma mask_land m x : mask_ok m → Z.land x m = x mod (m + 1).
Proof. intros [-> | ->]; [exact (Z.land_ones x 7 ltac:(lia))|exact (Z.land_ones x 15 ltac:(lia))]. Qed.
Lemma FSN_add_mod s x d :
  mask_ok s.(sl_statem).(sn_mask) → FSN_add s x d = (x + d) mod (s.(sl_statem).(sn_mask) + 1).
Proof. apply mask_land. Qed.
Lemma mod_add_cases x d m :
  0 < m → 0 <= x < m → - m <= d < m →
  (x + d) mod m = if x + d <? 0 then x + d + m else if x + d <? m then x + d else x + d - m.
Proof.
  intros Hm Hx Hd. destruct (Z.ltb_spec (x + d) 0); [|destruct (Z.ltb_spec (x + d) m)].
  - rewrite <- (Z.mod_add _ 1), Z.mul_1_l by lia. apply Z.mod_small. lia.
  - apply Z.mod_small. lia.
  - rewrite <- (Z.mod_add _ (-1)) by lia. replace (x + d + -1 * m) with (x + d - m) by lia.
    apply Z.mod_small. lia.
Qed.

Lemma mod_sub_cases x d m :
  0 < m → 0 <= x < m → 0 <= d < m →
  (x - d) mod m = if x - d <? 0 then x - d + m else x - d.
Proof.
  intros Hm Hx Hd. rewrite <- Z.add_opp_r, mod_add_cases by lia.
  rewrite Z.add_opp_r. destruct (Z.ltb_spec (x - d) 0); [done|].
  rewrite (proj2 (Z.ltb_lt _ _)) by lia. done.
Qed.

(** ** The messages *)

(** A message without the header that transmission writes. *)
Definition body (hl : nat) (m : mblk) : Z * list (list Z) :=
  (m.(m_id), match m.(m_blks) with [] => [] | b :: l => drop hl b :: l end).
Definition has_room (hl : nat) (m : mblk) : Prop :=
  match m.(m_blks) with [] => False | b :: _ => (hl <= length b)%nat end.
Definition hl_of (o : lmi_option) : nat :=
  if negb (Z.land o.(popt) SS7_POPT_XSN =? 0) then 6%nat else 3%nat.
Lemma hl_of_pos o : (3 <= hl_of o)%nat.
Proof. unfold hl_of. case_match; lia. Qed.
Lemma length_su_header s li : length (su_header s li) = hl_of s.(xoption).
Proof. unfold su_header, hl_of, is_xsn, popt_has. by case_match. Qed.

(** ** The invariant *)

(** The unacknowledged messages are fewer than the modulus and are numbered from
    F to L; the window of the receiver of acknowledgements agrees; in the basic
    method Z stays at F; the counters are the lengths of the buffers; and the
    pointer of the retransmission cycle points into the buffer. *)
Record txc_ok (v : view) : Prop := {
  ok_mask : mask_ok v.(v_mask);
  ok_F : 0 <= v.(v_F) <= v.(v_mask);
  ok_len : Z.of_nat (length v.(v_rtb).(q_list)) <= v.(v_mask);
  ok_L : v.(v_L) = (v.(v_F) + Z.of_nat (length v.(v_rtb).(q_list)) - 1) mod (v.(v_mask) + 1);
  ok_Z : v.(v_Z) = v.(v_F);
  ok_rF : v.(v_rF) = v.(v_F);
  ok_rT : v.(v_rT) = v.(v_L);
  ok_Ct : v.(v_Ct) = Z.of_nat (length v.(v_rtb).(q_list));
  ok_Cm : v.(v_Cm) = u32 (Z.of_nat (length v.(v_tb).(q_list)));
  ok_rtb : bufq_ok v.(v_rtb);
  ok_tb : bufq_ok v.(v_tb);
  ok_ids : NoDup (m_id <$> v.(v_rtb).(q_list) ++ v.(v_tb).(q_list));
  ok_room : Forall (has_room (hl_of v.(v_opt))) (v.(v_rtb).(q_list) ++ v.(v_tb).(q_list));
  ok_z : ∀ i, v.(v_z) = Some i → i ∈ m_id <$> v.(v_rtb).(q_list);
  ok_clear : v.(v_clear) = false;
  ok_full : v.(v_full) = false → Z.of_nat (length v.(v_rtb).(q_list)) < v.(v_mask) }.

(** Messages with room for a header are not empty, so the byte counters the code
    tests are zero exactly for empty queues. *)
Lemma room_size hl m : (0 < hl)%nat → has_room hl m → 0 < msgsize m.
Proof.
  intros H. unfold has_room, msgsize. destruct (m_blks m) as [|b l]; [done|].
  intros Hb. cbn [blks_size].
  pose proof (blks_size_nonneg l). unfold blen. lia.
Qed.
Lemma count_zero hl q :
  (0 < hl)%nat → bufq_ok q → Forall (has_room hl) q.(q_list) →
  (q.(q_count) =? 0) = bool_decide (q.(q_list) = []).
Proof.
  intros Hh [_ Hc] Hr. rewrite Hc. destruct (q_list q) as [|m l]; [done|].
  inversion Hr as [|? ? Hm]; subst. pose proof (room_size hl m Hh Hm).
  rewrite list_size_cons. pose proof (list_size_nonneg l).
  destruct (Z.eqb_spec (msgsize m + list_size l) 0); [lia|done].
Qed.

(** ** Acknowledgement *)

(** The first [k] messages leave the retransmission buffer. *)
Definition bufq_of (l : list mblk) : bufq := Bufq l (Z.of_nat (length l)) (list_size l).
Lemma bufq_of_ok l : bufq_ok (bufq_of l).
Proof. done. Qed.
Lemma bufq_of_eq q : bufq_ok q → q = bufq_of q.(q_list).
Proof. destruct q. intros [H1 H2]. cbn in *. by subst. Qed.
Lemma bufq_of_dequeue m l : (bufq_dequeue (bufq_of (m :: l))).2 = bufq_of l.
Proof.
  destruct (bufq_dequeue_ok (bufq_of (m :: l)) (bufq_of_ok _)) as (q & -> & Hq & <-).
  cbn [snd]. by apply bufq_of_eq.
Qed.
Lemma bufq_of_queue l m : bufq_queue (bufq_of l) m = bufq_of (l ++ [m]).
Proof. destruct (bufq_queue_ok (bufq_of l) m (bufq_of_ok _)) as [H1 H2].
  rewrite (bufq_of_eq _ H1). by rewrite H2. Qed.

Definition acked (k : nat) (v : view) : view :=
  v <| v_rtb := bufq_of (drop k v.(v_rtb).(q_list)) |>
    <| v_Ct := v.(v_Ct) - Z.of_nat k |>
    <| v_F := (v.(v_F) + Z.of_nat k) mod (v.(v_mask) + 1) |>.
Lemma acked_0 v :
  bufq_ok v.(v_rtb) → 0 <= v.(v_F) <= v.(v_mask) → acked 0 v = v.
Proof.
  intros Hq HF. unfold acked. rewrite drop_0, Z.sub_0_r, Z.add_0_r, Z.mod_small by lia.
  rewrite <- bufq_of_eq by done. by destruct v.
Qed.
(** One turn of the loop. *)
Lemma view_ack_body s k v :
  view_of s = acked k v → mask_ok v.(v_mask) → (k < length v.(v_rtb).(q_list))%nat →
  v.(v_Ct) = Z.of_nat (length v.(v_rtb).(q_list)) → Z.of_nat (length v.(v_rtb).(q_list)) <= v.(v_mask) →
  view_of (ack_body s) = acked (S k) v.
Proof.
  intros E Hm Hk Hc Hl.
  assert (Hd : drop k v.(v_rtb).(q_list) ≠ []).
  { intros D. apply (f_equal length) in D. rewrite length_drop in D. cbn in D. lia. }
  destruct (drop k (q_list (v_rtb v))) as [|m l] eqn:Ed; [done|].
  assert (Es : drop (S k) (q_list (v_rtb v)) = l)
    by (rewrite <- Nat.add_1_r, <- drop_drop, Ed; done).
  assert (Hv : view_of (ack_body s) =
    (view_of s) <| v_rtb := (bufq_dequeue (view_of s).(v_rtb)).2 |>
      <| v_Ct := u32 ((view_of s).(v_Ct) - 1) |>
      <| v_F := Z.land ((view_of s).(v_F) + 1) (view_of s).(v_mask) |>) by done.
  rewrite Hv, E. unfold acked. rewrite Es, Ed. upd.
  change (v_mask (v <| v_rtb := bufq_of (m :: l) |> <| v_Ct := v_Ct v - Z.of_nat k |>
    <| v_F := (v_F v + Z.of_nat k) mod (v_mask v + 1) |>)) with (v_mask v).
  rewrite bufq_of_dequeue, mask_land by done. rewrite Z.add_mod_idemp_l by (destruct Hm; lia).
  assert (v.(v_mask) < 2 ^ 32) by (destruct Hm as [-> | ->]; lia).
  unfold u32. rewrite (Z.mod_small (v_Ct v - _ - 1)) by lia.
  replace (v_Ct v - Z.of_nat k - 1) with (v_Ct v - Z.of_nat (S k)) by lia.
  replace (v_F v + Z.of_nat k + 1) with (v_F v + Z.of_nat (S k)) by lia. done.
Qed.
(** The loop releases the messages up to its target, and ends. *)
Lemma view_ack_loop n k fuel s v :
  view_of s = acked k v → mask_ok v.(v_mask) → 0 <= v.(v_F) <= v.(v_mask) →
  (k + S n <= length v.(v_rtb).(q_list))%nat → (n < fuel)%nat →
  v.(v_Ct) = Z.of_nat (length v.(v_rtb).(q_list)) → Z.of_nat (length v.(v_rtb).(q_list)) <= v.(v_mask) →
  view_of (ack_loop fuel ((v.(v_F) + Z.of_nat (k + S n)) mod (v.(v_mask) + 1)) s) = acked (k + S n) v.
Proof.
  revert k fuel s; induction n as [|n IH]; intros k [|fuel] s E Hm HF Hk Hf Hc Hl; try lia;
    cbn [ack_loop]; cbv zeta; assert (Hb := view_ack_body s k v E Hm ltac:(lia) Hc Hl).
  all: assert (HFb : fsn (tF (tx (sl_statem (ack_body s)))) =
         (v_F v + Z.of_nat (S k)) mod (v_mask v + 1))
    by (change (fsn _) with (v_F (view_of (ack_body s))); by rewrite Hb).
  all: assert (0 <= v_mask v) by (destruct Hm; lia).
  - rewrite HFb. replace (k + 1)%nat with (S k) by lia. by rewrite Z.eqb_refl.
  - rewrite HFb. rewrite (proj2 (Z.eqb_neq _ _)).
    + replace (k + S (S n))%nat with (S k + S n)%nat by lia. apply IH; try done; lia.
    + rewrite !mod_add_cases by lia. repeat case_match; lia.
Qed.

(** What an acknowledgement of [k] messages leaves. *)
Definition acked_z (k : nat) (v : view) : view :=
  (acked k v) <| v_full := false |>
    <| v_Z := (acked k v).(v_F) |>
    <| v_z := m_id <$> head (acked k v).(v_rtb).(q_list) |>.
(** The number of messages the backward sequence number [b] acknowledges. *)
Definition ack_count (v : view) (b : Z) : nat := Z.to_nat ((b + 1 - v.(v_F)) mod (v.(v_mask) + 1)).
(** [b] is in the window of the messages sent. *)
Definition in_window (v : view) (b : Z) : Prop :=
  0 <= b <= v.(v_mask) ∧ (ack_count v b <= length v.(v_rtb).(q_list))%nat.

Lemma mod_shift_back F x m : 0 < m → 0 <= F < m → 0 <= x < m → (F + (x - F) mod m) mod m = x.
Proof. intros Hm HF Hx. rewrite Z.add_mod_idemp_r by lia. replace (F + (x - F)) with x by lia.
  by apply Z.mod_small. Qed.

Lemma view_sib_clear s : view_of (sib_clear s) = view_of s.
Proof. unfold sib_clear. by case_match. Qed.
(** The frame of what follows the loop. *)
Lemma view_ack_timer s : view_of (ack_timer s) = view_of s.
Proof. unfold ack_timer. by case_match. Qed.
Lemma view_ack_not_full s :
  is_pcr s = false → view_of (ack_not_full s) = (view_of s) <| v_full := false |>.
Proof. intros H. unfold ack_not_full. rewrite H. done. Qed.

Definition opt_pcr (o : lmi_option) : bool := negb (Z.land o.(popt) SS7_POPT_PCR =? 0).
Lemma view_ack_z s v :
  view_of s = v → SN_OUTSIDE v.(v_F) v.(v_Z) v.(v_L) || (v.(v_rtb).(q_count) =? 0) = true →
  view_of (ack_z s) = v <| v_Z := v.(v_F) |> <| v_z := m_id <$> head v.(v_rtb).(q_list) |>.
Proof.
  intros <- H. unfold ack_z.
  change (SN_OUTSIDE _ _ _) with (SN_OUTSIDE (view_of s).(v_F) (view_of s).(v_Z) (view_of s).(v_L)).
  change (sl_rtb s) with (v_rtb (view_of s)) at 1. rewrite H. done.
Qed.

(** After an acknowledgement Z, which was F, is outside the window. *)
Lemma ack_z_outside m F k len :
  0 < m → 0 <= F < m → 0 < k <= len → len < m →
  SN_OUTSIDE ((F + k) mod m) F ((F + len - 1) mod m) = true ∨ k = len.
Proof.
  intros Hm HF Hk Hl. destruct (decide (k = len)); [by right|left].
  rewrite (SN_OUTSIDE_mod m) by (try apply Z.mod_pos_bound; lia).
  apply bool_decide_eq_true_2.
  replace (F + len - 1) with (F + (len - 1)) by lia.
  rewrite (mod_add_cases F k), (mod_add_cases F (len - 1)) by lia.
  comparisons; try lia; rewrite !mod_sub_cases by lia; comparisons; lia.
Qed.

Lemma view_txc_ack s :
  is_pcr s = false → txc_ok (view_of s) → in_window (view_of s) s.(sl_statem).(tx).(tR).(bsn) →
  let k := ack_count (view_of s) s.(sl_statem).(tx).(tR).(bsn) in
  view_of (txc_ack s) = if Nat.eqb k 0 then view_of s else acked_z k (view_of s).
Proof.
  intros Hp Hok [Hb Hk]. cbv zeta. destruct Hok as [Hm HF Hl HL HZ _ _ Hct _ Hq _ _ Hr _ _ _].
  set (v := view_of s) in *. set (b := bsn (tR (tx (sl_statem s)))) in *.
  assert (HM : 0 <= v_mask v) by (destruct Hm; lia).
  assert (Ht : ack_target s = (v_F v + Z.of_nat (ack_count v b)) mod (v_mask v + 1)).
  { unfold ack_target. rewrite FSN_add_mod by exact Hm. unfold ack_count.
    change (sn_mask (sl_statem s)) with (v_mask v). fold b.
    pose proof (Z.mod_pos_bound (b + 1 - v_F v) (v_mask v + 1) ltac:(lia)).
    rewrite Z2Nat.id by lia. rewrite Z.add_mod_idemp_r by lia. f_equal. lia. }
  assert (HFs : fsn (tF (tx (sl_statem s))) = v_F v) by done.
  unfold txc_ack. rewrite Ht, HFs. destruct (ack_count v b) as [|n] eqn:Ek; cbn [Nat.eqb].
  - rewrite Z.add_0_r, Z.mod_small, Z.eqb_refl by lia. done.
  - rewrite (proj2 (Z.eqb_neq _ _)) by (rewrite mod_add_cases by lia; repeat case_match; lia).
    cbn [negb]. cbv zeta.
    assert (E0 : view_of (sib_clear s) = acked 0 v)
      by (rewrite view_sib_clear, acked_0; done).
    assert (Ef : ack_fuel (sib_clear s) = S (Z.to_nat (v_mask v))).
    { unfold ack_fuel. change (sn_mask _) with (v_mask (view_of (sib_clear s))).
      by rewrite view_sib_clear. }
    assert (Et : ack_target (sib_clear s) = ack_target s) by (unfold sib_clear; by case_match).
    assert (Hpl : is_pcr (sib_clear s) = false) by (unfold sib_clear; by case_match).
    rewrite Ef, Et, Ht.
    pose proof (view_ack_loop n 0 (S (Z.to_nat (v_mask v))) (sib_clear s) v E0 Hm HF
      ltac:(lia) ltac:(lia) Hct Hl) as Hloop. cbn [Nat.add] in Hloop.
    revert Hloop. generalize (ack_loop (S (Z.to_nat (v_mask v)))
      ((v_F v + Z.of_nat (S n)) mod (v_mask v + 1)) (sib_clear s)). intros x Hx.
    assert (Hy : view_of (ack_not_full (ack_timer (sl_check_congestion x))) =
                 (acked (S n) v) <| v_full := false |>).
    { rewrite view_ack_not_full, view_ack_timer, view_check_congestion, Hx; [done|].
      change (is_pcr ?z) with (opt_pcr (v_opt (view_of z))).
      rewrite view_ack_timer, view_check_congestion, Hx. exact Hp. }
    rewrite (view_ack_z _ _ Hy); [done|]. upd. apply orb_true_iff.
    assert (Hlen : length (q_list (v_rtb (acked (S n) v))) =
                   (length (q_list (v_rtb v)) - S n)%nat)
      by (unfold acked; upd; apply length_drop).
    destruct (ack_z_outside (v_mask v + 1) (v_F v) (Z.of_nat (S n))
      (Z.of_nat (length (q_list (v_rtb v))))) as [Ho|Ho]; [lia|lia|lia|lia|left|right].
    + unfold acked. upd. rewrite HZ, HL. exact Ho.
    + unfold acked. upd. rewrite drop_ge by lia. done.
Qed.

Lemma ok_set_z v :
  txc_ok v → txc_ok (v <| v_z := m_id <$> head v.(v_rtb).(q_list) |>).
Proof.
  intros []. split; upd; try assumption. intros i. destruct (q_list (v_rtb v)) as [|m l]; [done|].
  cbn. intros [= <-]. apply list_elem_of_here.
Qed.
Lemma view_txc_nack s :
  view_of (txc_nack s) = view_of s ∨
  view_of (txc_nack s) = (view_of s) <| v_z := m_id <$> head (view_of s).(v_rtb).(q_list) |>.
Proof.
  unfold txc_nack. case_match; [|by left]. right. cbv zeta.
  assert (E : ∀ x, sib_clear s = x → view_of x = view_of s)
    by (intros x <-; apply view_sib_clear).
  destruct (sib_clear s) as [] eqn:Es. rewrite <- (E _ eq_refl). case_match; reflexivity.
Qed.

Lemma acked_z_ok k v :
  txc_ok v → (0 < k <= length v.(v_rtb).(q_list))%nat →
  txc_ok ((acked_z k v) <| v_rF := (acked k v).(v_F) |>).
Proof.
  intros [Hm HF Hl HL HZ HrF HrT Hct Hcm Hq Ht Hi Hr Hz Hc Hf] Hk.
  assert (HM : 0 <= v_mask v) by (destruct Hm; lia).
  rewrite <- (take_drop k (q_list (v_rtb v))), <- app_assoc, fmap_app in Hi.
  apply list.NoDup_app in Hi as (_ & _ & Hi).
  rewrite <- (take_drop k (q_list (v_rtb v))), <- app_assoc, list.Forall_app in Hr.
  destruct Hr as [_ Hr].
  assert (Hld : length (drop k (q_list (v_rtb v))) = (length (q_list (v_rtb v)) - k)%nat)
    by apply length_drop.
  unfold acked_z, acked. split; upd; cbn [bufq_of q_list];
    change (v_mask _) with (v_mask v); change (v_L _) with (v_L v);
    change (v_tb _) with (v_tb v); rewrite ?Hld; try done; try lia.
  - pose proof (Z.mod_pos_bound (v_F v + Z.of_nat k) (v_mask v + 1) ltac:(lia)). lia.
  - rewrite HL, <- (Z.add_sub_assoc (_ mod _)), Z.add_mod_idemp_l by lia. f_equal. lia.
  - intros i. destruct (drop k (q_list (v_rtb v))) as [|m l]; [done|]. cbn. intros [= <-].
    apply list_elem_of_here.
Qed.

(** The check of the receiver is the window of the transmitter. *)
Lemma bsnr_window s :
  txc_ok (view_of s) → rc_bsnr_outside s = false →
  0 <= s.(sl_statem).(rx).(rR).(bsn) <= s.(sl_statem).(sn_mask) →
  in_window (view_of s) s.(sl_statem).(rx).(rR).(bsn).
Proof.
  intros [Hm HF Hl HL HZ HrF HrT _ _ _ _ _ _ _ _ _] Ho Hb.
  set (v := view_of s) in *. set (b := bsn (rR (rx (sl_statem s)))) in *.
  change (sn_mask (sl_statem s)) with (v_mask v) in Hb.
  assert (HM : 0 < v_mask v) by (destruct Hm; lia).
  split; [exact Hb|]. unfold rc_bsnr_outside in Ho. rewrite FSN_add_mod in Ho by exact Hm.
  change (fsn (rF (rx (sl_statem s)))) with (v_rF v) in Ho.
  change (fsn (rT (rx (sl_statem s)))) with (v_rT v) in Ho.
  change (sn_mask (sl_statem s)) with (v_mask v) in Ho. fold b in Ho.
  rewrite HrF, HrT, HL in Ho.
  rewrite (SN_OUTSIDE_mod (v_mask v + 1)) in Ho by (try apply Z.mod_pos_bound; lia).
  apply bool_decide_eq_false in Ho. unfold ack_count. apply Nat2Z.inj_le.
  set (n := Z.of_nat (length (q_list (v_rtb v)))) in *.
  rewrite Z2Nat.id by (apply Z.mod_pos_bound; lia).
  assert (E1 : (b + 1 - v_F v) mod (v_mask v + 1) =
               (b - (v_F v + -1) mod (v_mask v + 1)) mod (v_mask v + 1))
    by (rewrite Zminus_mod_idemp_r; f_equal; lia).
  assert (E2 : ((v_F v + n - 1) mod (v_mask v + 1) - (v_F v + -1) mod (v_mask v + 1)) mod (v_mask v + 1) = n).
  { rewrite <- Zminus_mod. replace (v_F v + n - 1 - (v_F v + -1)) with n by lia.
    apply Z.mod_small. subst n. lia. }
  rewrite E1. rewrite E2 in Ho. lia.
Qed.

(** A backward sequence number accepted by the receiver. *)
Definition rc_ack (s : xp) : xp := set_rF (sl_txc_bsnr_and_bibr s).
Lemma head_z_cases v v' :
  v' = v ∨ v' = v <| v_z := m_id <$> head v.(v_rtb).(q_list) |> →
  (txc_ok v → txc_ok v') ∧ v'.(v_rtb) = v.(v_rtb) ∧ v'.(v_tb) = v.(v_tb) ∧ v'.(v_F) = v.(v_F) ∧
  v'.(v_L) = v.(v_L) ∧ v'.(v_mask) = v.(v_mask).
Proof. intros [-> | ->]; [done|]. split; [apply ok_set_z|done]. Qed.
(** What the acknowledgement [k] does to the view. *)
Definition acked_view (k : nat) (v : view) : view :=
  if Nat.eqb k 0 then v else (acked_z k v) <| v_rF := (acked k v).(v_F) |>.
Lemma acked_view_ok k v :
  txc_ok v → (k <= length v.(v_rtb).(q_list))%nat → txc_ok (acked_view k v).
Proof.
  intros Hv Hk. unfold acked_view. destruct (Nat.eqb_spec k 0); [done|]. apply acked_z_ok; [done|lia].
Qed.
Lemma view_rc_ack s :
  is_pcr s = false → txc_ok (view_of s) →
  in_window (view_of s) s.(sl_statem).(rx).(rR).(bsn) →
  let v := acked_view (ack_count (view_of s) s.(sl_statem).(rx).(rR).(bsn)) (view_of s) in
  view_of (rc_ack s) = v ∨ view_of (rc_ack s) = v <| v_z := m_id <$> head v.(v_rtb).(q_list) |>.
Proof.
  intros Hp Hok Hw. cbv zeta. unfold rc_ack, sl_txc_bsnr_and_bibr. cbv zeta.
  set (x := s <| sl_statem; tx; tR; bsn := bsn (rR (rx (sl_statem s))) |>).
  set (y := x <| sl_statem; tx; tR; bib := bib (rR (rx (sl_statem x))) |>).
  change (clear_rtb (sl_statem y)) with (v_clear (view_of s)). rewrite (ok_clear _ Hok), Hp.
  set (b := bsn (rR (rx (sl_statem s)))) in *.
  pose proof (view_txc_ack y Hp Hok Hw) as Ha. cbv zeta in Ha.
  change (view_of y) with (view_of s) in Ha. change (bsn (tR (tx (sl_statem y)))) with b in Ha.
  set (z := txc_nack (txc_ack y)).
  assert (Hs : view_of (set_rF z) = (view_of z) <| v_rF :=
    Z.land ((view_of z).(v_rR) + 1) (view_of z).(v_mask) |>) by done.
  assert (Hz : view_of z = view_of (txc_ack y) ∨ view_of z =
    (view_of (txc_ack y)) <| v_z := m_id <$> head (view_of (txc_ack y)).(v_rtb).(q_list) |>)
    by apply view_txc_nack.
  rewrite Hs. rewrite Ha in Hz. clear Ha Hs. revert Hz. generalize (view_of z). intros w Hw'.
  destruct Hok as [Hm HF _ _ _ HrF _ _ _ _ _ _ _ _ _ _]. destruct Hw as [Hb _].
  change b with (v_rR (view_of s)) in *. set (v := view_of s) in *.
  assert (HM : 0 <= v_mask v) by (destruct Hm; lia).
  assert (v_rR w = v_rR v ∧ v_mask w = v_mask v) as [-> ->]
    by (destruct Hw' as [-> | ->]; case_match; done).
  rewrite mask_land by done.
  unfold acked_view. destruct (Nat.eqb_spec (ack_count v (v_rR v)) 0) as [E|E].
  - assert (Er : (v_rR v + 1) mod (v_mask v + 1) = v_F v).
    { unfold ack_count in E.
      assert ((v_rR v + 1 - v_F v) mod (v_mask v + 1) = 0)
        by (pose proof (Z.mod_pos_bound (v_rR v + 1 - v_F v) (v_mask v + 1)); lia).
      rewrite <- (Z.mod_small (v_F v) (v_mask v + 1)) by lia.
      replace (v_rR v + 1) with (v_rR v + 1 - v_F v + v_F v) by lia.
      rewrite <- Z.add_mod_idemp_l by lia. rewrite H. f_equal. }
    rewrite Er, <- HrF. destruct Hw' as [-> | ->]; [left|right]; by destruct v.
  - assert (Er : (v_rR v + 1) mod (v_mask v + 1) = v_F (acked (ack_count v (v_rR v)) v)).
    { unfold acked, ack_count. upd. rewrite Z2Nat.id by (apply Z.mod_pos_bound; lia).
      rewrite Z.add_mod_idemp_r by lia. f_equal. lia. }
    rewrite Er. set (A := acked_z _ v) in *. generalize (v_F (acked (ack_count v (v_rR v)) v)).
    intros F. destruct Hw' as [-> | ->]; [by left|right].
    clearbody A. reflexivity.
Qed.

(** ** Transmission *)

Lemma put_header_body hdr hl m :
  length hdr = hl → has_room hl m →
  let m' := m <| m_blks := put_header hdr m.(m_blks) |> in
  body hl m' = body hl m ∧ msgsize m' = msgsize m ∧ has_room hl m'.
Proof.
  intros Hh. unfold has_room, body, msgsize. upd. destruct m as [i [|b l]]; cbn; [done|]. intros Hb.
  rewrite Hh. split; [|split].
  - do 2 f_equal. by rewrite <- Hh, drop_app_length.
  - unfold blen. rewrite length_app, length_drop. lia.
  - rewrite length_app. lia.
Qed.
(** Writing a header into a message of a queue. *)
Lemma poke_list hdr hl i l :
  length hdr = hl → Forall (has_room hl) l →
  let f m := if m.(m_id) =? i then m <| m_blks := put_header hdr m.(m_blks) |> else m in
  body hl <$> (f <$> l) = body hl <$> l ∧ m_id <$> (f <$> l) = m_id <$> l ∧
  list_size (f <$> l) = list_size l ∧ Forall (has_room hl) (f <$> l) ∧
  length (f <$> l) = length l.
Proof.
  intros Hh. cbv zeta. induction 1 as [|m l Hm Hl IH]; [done|].
  destruct IH as (E1 & E2 & E3 & E4 & E5). rewrite !fmap_cons, !list_size_cons. cbn [length].
  destruct (put_header_body hdr hl m Hh Hm) as (B1 & B2 & B3).
  destruct (m_id m =? i); rewrite E1, E2, E3, E5; repeat split; try constructor; try done;
    by rewrite ?B1, ?B2.
Qed.
Lemma ok_poke v i hdr :
  txc_ok v → length hdr = hl_of v.(v_opt) →
  let v' := v <| v_rtb := bufq_poke v.(v_rtb) i (put_header hdr) |> in
  txc_ok v' ∧ body (hl_of v.(v_opt)) <$> v'.(v_rtb).(q_list) = body (hl_of v.(v_opt)) <$> v.(v_rtb).(q_list).
Proof.
  intros [] Hh. cbv zeta. apply list.Forall_app in ok_room0 as [Hr Ht].
  destruct (poke_list hdr _ i (q_list (v_rtb v)) Hh Hr) as (E1 & E2 & E3 & E4 & E5).
  destruct ok_rtb0 as [Hc Hs].
  split; [|exact E1]. split; upd; unfold bufq_poke; upd; rewrite ?E5; try assumption.
  - split; upd; [by rewrite E5|by rewrite E3].
  - rewrite fmap_app, E2, <- fmap_app. done.
  - by apply list.Forall_app.
  - intros j Hj. rewrite E2. by apply ok_z0.
Qed.
Lemma list_next_id_in i l m : list_next_id i l = Some m → m_id m ∈ m_id <$> l.
Proof.
  induction l as [|x l IH]; cbn; [done|]. destruct (_ =? _).
  - destruct l as [|y l]; [done|]. cbn. intros [= ->]. set_solver.
  - intros H. apply IH in H. set_solver.
Qed.
Lemma ok_next v i :
  txc_ok v → txc_ok (v <| v_z := m_id <$> bufq_next v.(v_rtb) i |>).
Proof.
  intros []. split; upd; try assumption. intros j. unfold bufq_next.
  destruct (list_next_id i _) as [m|] eqn:E; [|done]. cbn. intros [= <-].
  by apply list_next_id_in in E.
Qed.

(** A message moves from the transmission to the retransmission buffer. *)
Definition moved (hd : mblk) (l : list mblk) (full : bool) (v : view) : view :=
  v <| v_tb := bufq_of l |> <| v_Cm := u32 (v.(v_Cm) - 1) |>
    <| v_L := Z.land (v.(v_L) + 1) v.(v_mask) |>
    <| v_rtb := bufq_queue v.(v_rtb) hd |> <| v_Ct := u32 (v.(v_Ct) + 1) |>
    <| v_rT := Z.land (v.(v_L) + 1) v.(v_mask) |> <| v_full := full |>.
Lemma moved_L hd l full v : v_L (moved hd l full v) = Z.land (v.(v_L) + 1) v.(v_mask).
Proof. done. Qed.
Lemma moved_F hd l full v : v_F (moved hd l full v) = v.(v_F).
Proof. done. Qed.
Lemma moved_mask hd l full v : v_mask (moved hd l full v) = v.(v_mask).
Proof. done. Qed.
Lemma moved_ok hd l full v :
  txc_ok v → v.(v_tb).(q_list) = hd :: l → v.(v_full) = false →
  (full = false → Z.of_nat (length v.(v_rtb).(q_list)) + 1 < v.(v_mask)) →
  txc_ok (moved hd l full v) ∧
  (moved hd l full v).(v_rtb).(q_list) = v.(v_rtb).(q_list) ++ [hd].
Proof.
  intros [] Etb Hf Hfull. specialize (ok_full0 Hf).
  assert (HM : 0 <= v_mask v < 2 ^ 32) by (destruct ok_mask0 as [-> | ->]; lia).
  assert (Eq : bufq_queue (v_rtb v) hd = bufq_of (q_list (v_rtb v) ++ [hd]))
    by (rewrite (bufq_of_eq (v_rtb v)) by done; apply bufq_of_queue).
  unfold moved. rewrite Eq. split; [|done].
  assert (El : Z.land (v_L v + 1) (v_mask v) =
    (v_F v + Z.of_nat (length (q_list (v_rtb v) ++ [hd])) - 1) mod (v_mask v + 1)).
  { rewrite mask_land, ok_L0, Z.add_mod_idemp_l by (done || lia). f_equal. rewrite length_app.
    cbn. lia. }
  rewrite El. rewrite Etb in *. split; upd; cbn [bufq_of q_list];
    change (v_mask _) with (v_mask v); change (v_F _) with (v_F v); try assumption;
    rewrite ?length_app in *; cbn [length] in *; try done; try lia.
  - rewrite ok_Ct0. unfold u32. rewrite Z.mod_small; lia.
  - rewrite ok_Cm0. unfold u32. rewrite Zminus_mod_idemp_l. f_equal. lia.
  - by rewrite <- app_assoc.
  - by rewrite <- app_assoc.
  - intros i Hi. apply ok_z0 in Hi. set_solver.
  - intros H. specialize (Hfull H). lia.
Qed.

Lemma view_daedt_msu orig mp s :
  ∃ hdr, length hdr = hl_of (view_of s).(v_opt) ∧
    view_of (sl_daedt_msu orig mp s).2 =
      (view_of s) <| v_rtb := bufq_poke (view_of s).(v_rtb) orig (put_header hdr) |>.
Proof.
  unfold sl_daedt_msu. cbv zeta. set (hdr := su_header s _).
  exists hdr. split; [apply length_su_header|]. by destruct (header_fits hdr mp).
Qed.
Lemma view_send_lssu s : view_of (txc_send_lssu s).2 = view_of s.
Proof.
  unfold txc_send_lssu. destruct (new_msg_cases s) as (i & b & v & -> & _).
  destruct i; [|done]. cbv zeta. by case_match.
Qed.
Lemma view_send_fisu s : view_of (txc_send_fisu s).2 = view_of s.
Proof.
  unfold txc_send_fisu. destruct (new_msg_cases s) as (i & b & v & -> & _). by destruct i.
Qed.

(** What every transmission keeps: the invariant, the bodies of the messages
    that are waiting, in order, and the first sequence number. *)
Definition kept (v v' : view) : Prop :=
  txc_ok v' ∧ v'.(v_F) = v.(v_F) ∧ v'.(v_mask) = v.(v_mask) ∧ v'.(v_opt) = v.(v_opt) ∧
  body (hl_of v.(v_opt)) <$> (v'.(v_rtb).(q_list) ++ v'.(v_tb).(q_list)) =
  body (hl_of v.(v_opt)) <$> (v.(v_rtb).(q_list) ++ v.(v_tb).(q_list)).
Lemma kept_refl v : txc_ok v → kept v v.
Proof. split; [done|]; repeat split. Qed.
Lemma kept_trans v1 v2 v3 : kept v1 v2 → kept v2 v3 → kept v1 v3.
Proof.
  intros (_ & E1 & E2 & E3 & E4) (H & F1 & F2 & F3 & F4). rewrite E3 in *.
  repeat split; try apply H; congruence.
Qed.
Lemma kept_poke v i hdr :
  txc_ok v → length hdr = hl_of v.(v_opt) →
  kept v (v <| v_rtb := bufq_poke v.(v_rtb) i (put_header hdr) |>).
Proof.
  intros Hv Hh. destruct (ok_poke v i hdr Hv Hh) as [H1 H2]. split; [done|]. upd.
  repeat split. rewrite !fmap_app. by f_equal.
Qed.
Lemma kept_next v i : txc_ok v → kept v (v <| v_z := m_id <$> bufq_next v.(v_rtb) i |>).
Proof. intros H. split; [by apply ok_next|]. done. Qed.
Lemma kept_moved hd l full v :
  txc_ok v → v.(v_tb).(q_list) = hd :: l → v.(v_full) = false →
  (full = false → Z.of_nat (length v.(v_rtb).(q_list)) + 1 < v.(v_mask)) →
  kept v (moved hd l full v).
Proof.
  intros Hv Et Hf Hl. destruct (moved_ok hd l full v Hv Et Hf Hl) as [H E]. split; [done|].
  repeat split. rewrite E, Et. unfold moved. upd. by rewrite <- app_assoc.
Qed.

Lemma resend_kept bp mp s :
  txc_ok (view_of s) → kept (view_of s) (view_of (txc_resend false bp mp s).2).
Proof.
  intros Hv. unfold txc_resend. cbv zeta.
  set (x := s <| sl_statem; z_ptr := m_id <$> bufq_next (sl_rtb s) (m_id bp) |>).
  assert (Hx : kept (view_of s) (view_of x)) by (by apply kept_next).
  assert (Hn : view_of (resend_number false x) = view_of x) by done.
  destruct (view_daedt_msu (m_id bp) mp (resend_number false x)) as (hdr & Hh & Hm).
  destruct (sl_daedt_msu (m_id bp) mp (resend_number false x)) as [mp' y]. cbn [snd] in *.
  assert (He : view_of (resend_end y) = view_of y) by (unfold resend_end; by case_match).
  rewrite He, Hm, Hn. eapply kept_trans; [exact Hx|]. apply kept_poke; [apply Hx|exact Hh].
Qed.
Lemma retransmit_kept s :
  txc_ok (view_of s) → kept (view_of s) (view_of (txc_retransmit false s).2).
Proof.
  intros Hv. unfold txc_retransmit.
  assert (Hz : view_of (z_deref s).2 = view_of s) by (unfold z_deref; by repeat case_match).
  destruct (z_deref s) as [[bp|] x]; cbn [snd] in *; [|rewrite Hz; by apply kept_refl].
  pose proof (view_dupmsg bp x) as Hd. destruct (dupmsg bp x) as [[mp|] y]; cbn [snd] in *.
  - rewrite <- Hz, <- Hd in *. by apply resend_kept.
  - rewrite Hd, Hz. by apply kept_refl.
Qed.

Lemma send_new_number_ok s :
  view_of (send_new_number s) =
    (view_of s) <| v_Cm := u32 (s.(sl_statem).(Cm) - 1) |>
                <| v_L := FSN_add s s.(sl_statem).(tx).(tL).(fsn) 1 |> ∧
  (send_new_number s).(sl_statem).(tx).(tN).(fsn) = FSN_add s s.(sl_statem).(tx).(tL).(fsn) 1.
Proof. unfold send_new_number. cbv zeta. by repeat case_match. Qed.
(** The buffer is marked full before the window closes. *)
Lemma send_new_full_ok s :
  mask_ok s.(sl_statem).(sn_mask) →
  let full := (view_of (send_new_full false s)).(v_full) in
  view_of (send_new_full false s) = (view_of s) <| v_full := full |> ∧
  (full = false → s.(sl_statem).(tx).(tL).(fsn) ≠
     (s.(sl_statem).(tx).(tF).(fsn) - 2) mod (s.(sl_statem).(sn_mask) + 1)).
Proof.
  intros Hm. cbv zeta. unfold send_new_full. cbv zeta. rewrite FSN_add_mod by done.
  destruct (_ || (_ =? _)) eqn:E; [done|]. split; [done|]. intros _.
  apply orb_false_iff in E as [_ E]. by apply Z.eqb_neq in E.
Qed.
Lemma send_new_move_ok hd l s :
  txc_ok (view_of s) → (view_of s).(v_tb).(q_list) = hd :: l → (view_of s).(v_full) = false →
  view_of (send_new_move hd s) = moved hd l false (view_of s).
Proof.
  intros Hv Et Hf. unfold send_new_move. cbv zeta.
  set (x1 := s <| sl_tb := (bufq_dequeue (sl_tb s)).2 |>).
  assert (Hx1 : view_of x1 = (view_of s) <| v_tb := bufq_of l |>).
  { unfold x1. change (sl_tb s) with (v_tb (view_of s)).
    rewrite (bufq_of_eq (v_tb (view_of s)) (ok_tb _ Hv)), Et, bufq_of_dequeue. done. }
  clearbody x1. destruct (send_new_number_ok x1) as [Hx2 Hn].
  revert Hx2 Hn. generalize (send_new_number x1). intros x2 Hx2 Hn.
  assert (E : view_of (sl_rc_fsnt_value ((x2 <| sl_rtb := bufq_queue (sl_rtb x2) hd |>)
      <| sl_statem; Ct := u32 (Ct (sl_statem (x2 <| sl_rtb := bufq_queue (sl_rtb x2) hd |>)) + 1) |>)) =
    (view_of x2) <| v_rtb := bufq_queue (view_of x2).(v_rtb) hd |>
      <| v_Ct := u32 ((view_of x2).(v_Ct) + 1) |> <| v_rT := x2.(sl_statem).(tx).(tN).(fsn) |>) by done.
  rewrite E, Hn, Hx2. unfold FSN_add.
  change (Cm (sl_statem x1)) with (v_Cm (view_of x1)).
  change (fsn (tL (tx (sl_statem x1)))) with (v_L (view_of x1)).
  change (sn_mask (sl_statem x1)) with (v_mask (view_of x1)). rewrite Hx1.
  unfold moved. rewrite <- Hf. by destruct (view_of s).
Qed.
Lemma send_new_move_kept hd l s x :
  txc_ok (view_of s) → (view_of s).(v_tb).(q_list) = hd :: l → (view_of s).(v_full) = false →
  view_of x = moved hd l false (view_of s) →
  kept (view_of s) (view_of (send_new_full false x)).
Proof.
  intros Hv Et Hf Hx.
  assert (Hm : mask_ok (v_mask (view_of x))) by (rewrite Hx; apply Hv).
  destruct (send_new_full_ok x Hm) as [Hx5 Hfull].
  change (fsn (tL (tx (sl_statem x)))) with (v_L (view_of x)) in Hfull.
  change (fsn (tF (tx (sl_statem x)))) with (v_F (view_of x)) in Hfull.
  change (sn_mask (sl_statem x)) with (v_mask (view_of x)) in Hfull. rewrite Hx in *.
  rewrite Hx5. revert Hfull. generalize (v_full (view_of (send_new_full false x))). intros full Hfull.
  apply (kept_moved hd l full); [done|done|done|]. intros Hff. specialize (Hfull Hff).
  destruct Hv as [Hmk HF _ HL _ _ _ _ _ _ _ _ _ _ _ Hfl]. specialize (Hfl Hf).
  rewrite moved_L, moved_F, moved_mask, mask_land, HL, Z.add_mod_idemp_l in Hfull
    by (done || destruct Hmk; lia).
  apply Z.le_neq. split; [lia|]. intros E. apply Hfull.
  rewrite <- (Z.mod_add (v_F (view_of s) - 2) 1) by (destruct Hmk; lia). f_equal. lia.
Qed.

Lemma send_new_kept s :
  txc_ok (view_of s) → s.(sl_statem).(rtb_full) = false →
  kept (view_of s) (view_of (txc_send_new false s).2).
Proof.
  intros Hv Hf. unfold txc_send_new. destruct (bufq_head (sl_tb s)) as [hd|] eqn:Eh;
    [|by apply kept_refl].
  destruct (dupmsg hd s) as [mp x] eqn:Ed. pose proof (view_dupmsg hd s) as Hd. rewrite Ed in Hd.
  cbn [snd] in Hd. destruct mp as [mp|]; cbn [snd]; [|rewrite Hd; by apply kept_refl].
  rewrite <- Hd in *. assert (Hfx : v_full (view_of x) = false) by (by rewrite Hd).
  assert (Ehx : head (q_list (v_tb (view_of x))) = Some hd) by (by rewrite Hd).
  clear Hd Hf Eh Ed s. cbv zeta.
  destruct (q_list (v_tb (view_of x))) as [|h l] eqn:Et; [done|]. cbn in Ehx. simplify_eq.
  assert (Hk := send_new_move_kept hd l x (send_new_move hd x) Hv Et Hfx (send_new_move_ok hd l x Hv Et Hfx)).
  revert Hk. generalize (send_new_full false (send_new_move hd x)).
  intros y Hk.
  destruct (view_daedt_msu (m_id hd) mp (set_bsn y)) as (hdr & Hh & Hm).
  destruct (sl_daedt_msu (m_id hd) mp (set_bsn y)) as [mp' z]. cbn [snd] in *. rewrite Hm.
  assert (Hb : view_of (set_bsn y) = view_of y) by done. rewrite Hb in *. clear Hb Hm.
  eapply kept_trans; [exact Hk|]. exact (kept_poke (view_of y) (m_id hd) hdr (proj1 Hk) Hh).
Qed.

Lemma request_kept s :
  is_pcr s = false → txc_ok (view_of s) →
  kept (view_of s) (view_of (sl_txc_transmission_request s).2).
Proof.
  intros Hp Hv. unfold sl_txc_transmission_request. rewrite Hp. cbn [negb andb orb]. cbv zeta.
  destruct (negb (_ =s TXC_IN_SERVICE)); [by apply kept_refl|].
  destruct (lssu_available (sl_statem s)); [rewrite view_send_lssu; by apply kept_refl|].
  destruct (msu_inhibited (sl_statem s)); [rewrite view_send_fisu; by apply kept_refl|].
  rewrite !orb_false_r. destruct (retrans_cycle (sl_statem s)); [by apply retransmit_kept|].
  destruct ((_ =? 0) || _) eqn:E; [rewrite view_send_fisu; by apply kept_refl|].
  apply orb_false_iff in E as [_ E]. by apply send_new_kept.
Qed.
Lemma pcr_view s : is_pcr s = opt_pcr (view_of s).(v_opt).
Proof. done. Qed.

(** ** The user's messages *)

Definition fresh_msg (s : xp) (mp : mblk) : Prop :=
  (mp.(m_id) ∉ (m_id <$> (s.(sl_rtb).(q_list) ++ s.(sl_tb).(q_list)))) ∧
  has_room (hl_of s.(xoption)) mp.
Lemma message_ok mp s :
  txc_ok (view_of s) → fresh_msg s mp →
  view_of (sl_txc_message_for_transmission mp s) =
    (view_of s) <| v_tb := bufq_of (s.(sl_tb).(q_list) ++ [mp]) |>
                <| v_Cm := u32 (s.(sl_statem).(Cm) + 1) |> ∧
  txc_ok (view_of (sl_txc_message_for_transmission mp s)).
Proof.
  intros Hv [Hf Hr].
  assert (E : view_of (sl_txc_message_for_transmission mp s) =
    (view_of s) <| v_tb := bufq_of (s.(sl_tb).(q_list) ++ [mp]) |>
                <| v_Cm := u32 (s.(sl_statem).(Cm) + 1) |>).
  { unfold sl_txc_message_for_transmission. cbv zeta. rewrite view_check_congestion.
    rewrite <- bufq_of_queue, <- bufq_of_eq by apply Hv. done. }
  split; [exact E|]. rewrite E. clear E. change (sl_tb s) with (v_tb (view_of s)) in *.
  change (sl_rtb s) with (v_rtb (view_of s)) in *. change (xoption s) with (v_opt (view_of s)) in *.
  change (Cm (sl_statem s)) with (v_Cm (view_of s)) in *.
  destruct Hv. split; upd; cbn [bufq_of q_list]; try assumption; try done.
  - rewrite ok_Cm0, length_app. unfold u32. rewrite Zplus_mod_idemp_l. f_equal. cbn. lia.
  - rewrite app_assoc, fmap_app. apply list.NoDup_app. split; [done|]. split.
    + intros i Hi Hm. apply Hf. cbn in Hm. apply list_elem_of_singleton in Hm. by subst.
    + apply NoDup_singleton.
  - rewrite app_assoc. apply list.Forall_app. split; [done|]. by constructor.
Qed.

(** ** Runs *)

(** What happens to the transmitter: a unit is asked for, a unit with a backward
    sequence number and indicator bit is received and passes or fails the check
    of the receiver, a message of the user comes. *)
Inductive arq_event := ASend | AAck (b bi : Z) | AMsg (mp : mblk).
Definition hear (b bi : Z) (s : xp) : xp :=
  s <| sl_statem; rx; rR; bsn := b |> <| sl_statem; rx; rR; bib := bi |>.
Definition arq_exec (e : arq_event) (s : xp) : xp :=
  match e with
  | ASend => (sl_txc_transmission_request s).2
  | AAck b bi => let s := hear b bi s in if rc_bsnr_outside s then s else rc_ack s
  | AMsg mp => sl_txc_message_for_transmission mp s
  end.
Definition event_ok (e : arq_event) (s : xp) : Prop :=
  match e with
  | ASend => True
  | AAck b _ => 0 <= b <= s.(sl_statem).(sn_mask)
  | AMsg mp => fresh_msg s mp
  end.
Fixpoint arq_run (l : list arq_event) (s : xp) : xp :=
  match l with [] => s | e :: l => arq_run l (arq_exec e s) end.
Fixpoint run_ok (l : list arq_event) (s : xp) : Prop :=
  match l with [] => True | e :: l => event_ok e s ∧ run_ok l (arq_exec e s) end.
(** The messages of the user in a run. *)
Fixpoint arq_msgs (l : list arq_event) : list mblk :=
  match l with [] => [] | AMsg mp :: l => mp :: arq_msgs l | _ :: l => arq_msgs l end.

(** The bodies of the messages that wait, the unacknowledged ones first. *)
Definition waiting (v : view) : list (Z * list (list Z)) :=
  body (hl_of v.(v_opt)) <$> (v.(v_rtb).(q_list) ++ v.(v_tb).(q_list)).
(** [k] messages have been acknowledged between [v] and [v'], [new] were added. *)
Definition progress (k : nat) (new : list mblk) (v v' : view) : Prop :=
  txc_ok v' ∧ v'.(v_opt) = v.(v_opt) ∧ v'.(v_mask) = v.(v_mask) ∧
  (k <= length (waiting v ++ (body (hl_of v.(v_opt)) <$> new)))%nat ∧
  waiting v' = drop k (waiting v ++ (body (hl_of v.(v_opt)) <$> new)) ∧
  v'.(v_F) = (v.(v_F) + Z.of_nat k) mod (v.(v_mask) + 1).

Lemma kept_progress v v' : txc_ok v → kept v v' → progress 0 [] v v'.
Proof.
  intros Hv (H & EF & Em & Eo & Ew). split; [done|]. repeat split; try done; try lia.
  - rewrite drop_0, app_nil_r. unfold waiting. by rewrite Eo.
  - rewrite EF, Z.add_0_r. symmetry. apply Z.mod_small. destruct Hv. lia.
Qed.
Lemma progress_trans k1 k2 n1 n2 v1 v2 v3 :
  mask_ok v1.(v_mask) →
  progress k1 n1 v1 v2 → progress k2 n2 v2 v3 → progress (k1 + k2) (n1 ++ n2) v1 v3.
Proof.
  intros Hm (_ & O1 & M1 & L1 & W1 & F1) (H & O2 & M2 & L2 & W2 & F2).
  rewrite O1, M1, F1, W1 in *. split; [done|]. split; [congruence|]. split; [congruence|].
  rewrite fmap_app, app_assoc. rewrite !length_app, length_drop, ?length_app in *.
  split; [lia|]. split.
  - rewrite W2, <- drop_drop. f_equal. symmetry. apply drop_app_le. rewrite length_app. lia.
  - rewrite F2, Z.add_mod_idemp_l by (destruct Hm; lia). f_equal. lia.
Qed.

Lemma ack_progress v v' b :
  txc_ok v → in_window v b →
  v' = acked_view (ack_count v b) v ∨
  v' = (acked_view (ack_count v b) v)
         <| v_z := m_id <$> head (acked_view (ack_count v b) v).(v_rtb).(q_list) |> →
  progress (ack_count v b) [] v v'.
Proof.
  intros Hv [Hb Hk] E. set (k := ack_count v b) in *.
  assert (Hp : progress k [] v (acked_view k v)).
  { split; [by apply acked_view_ok|].
    assert (Hw : waiting (acked_view k v) = drop k (waiting v)).
    { unfold waiting, acked_view, acked_z, acked. rewrite <- fmap_drop, drop_app_le by done.
      destruct (Nat.eqb_spec k 0) as [->|]; [by rewrite drop_0|]. reflexivity. }
    rewrite Hw, app_nil_r. split; [unfold acked_view; by destruct (Nat.eqb k 0)|].
    split; [unfold acked_view; by destruct (Nat.eqb k 0)|]. split.
    - unfold waiting. rewrite length_fmap, length_app. lia.
    - split; [done|]. unfold acked_view. destruct (Nat.eqb_spec k 0) as [->|]; [|done].
      rewrite Z.add_0_r. symmetry. apply Z.mod_small. destruct Hv. lia. }
  destruct Hp as [H1 H2]. destruct E as [-> | ->]; [by split|]. split; [by apply ok_set_z|exact H2].
Qed.
Lemma exec_progress e s :
  is_pcr s = false → txc_ok (view_of s) → event_ok e s →
  ∃ k, progress k (arq_msgs [e]) (view_of s) (view_of (arq_exec e s)).
Proof.
  intros Hp Hv He. destruct e as [|b bi|mp]; cbn [arq_exec arq_msgs event_ok] in *.
  - exists 0%nat. apply kept_progress; [done|]. by apply request_kept.
  - set (x := hear b bi s).
    assert (Hx : view_of x = (view_of s) <| v_rR := b |>) by done.
    assert (Hvx : txc_ok (view_of x)) by (rewrite Hx; destruct Hv; split; assumption).
    assert (Hr : ∀ k v', progress k [] (view_of x) v' → progress k [] (view_of s) v')
      by (intros k v' H; rewrite Hx in H; exact H).
    destruct (rc_bsnr_outside x) eqn:Ho.
    + exists 0%nat. apply Hr, kept_progress; [done|]. by apply kept_refl.
    + assert (Hw : in_window (view_of x) b) by exact (bsnr_window x Hvx Ho He).
      exists (ack_count (view_of x) b). apply Hr, ack_progress; [done|done|].
      exact (view_rc_ack x Hp Hvx Hw).
  - exists 0%nat. destruct (message_ok mp s Hv He) as [E H]. split; [done|].
    rewrite E. repeat split; [cbn; lia|..].
    + rewrite drop_0. unfold waiting. upd. change (v_opt _) with (v_opt (view_of s)).
      cbn [bufq_of q_list]. change (v_rtb _) with (v_rtb (view_of s)).
      change (sl_tb s) with (v_tb (view_of s)). by rewrite app_assoc, fmap_app.
    + rewrite Z.add_0_r. symmetry. apply Z.mod_small. destruct Hv.
      change (v_F _) with (v_F (view_of s)). lia.
Qed.
Lemma run_progress l s :
  is_pcr s = false → txc_ok (view_of s) → run_ok l s →
  ∃ k, progress k (arq_msgs l) (view_of s) (view_of (arq_run l s)).
Proof.
  revert s; induction l as [|e l IH]; intros s Hp Hv Hr.
  - exists 0%nat. apply kept_progress; [done|]. by apply kept_refl.
  - destruct Hr as [He Hr]. destruct (exec_progress e s Hp Hv He) as [k Hk].
    destruct (IH (arq_exec e s)) as [k' Hk'].
    + rewrite pcr_view. destruct Hk as (_ & -> & _). exact Hp.
    + apply Hk.
    + exact Hr.
    + exists (k + k')%nat. assert (Em : arq_msgs (e :: l) = arq_msgs [e] ++ arq_msgs l) by (by destruct e).
      rewrite Em. eapply progress_trans; [apply Hv|exact Hk|exact Hk'].
Qed.

Lemma find_id_in i l : i ∈ m_id <$> l → list_find_id i l ≠ None.
Proof.
  unfold list_find_id. induction l as [|m l IH]; cbn; [by intros ?%not_elem_of_nil|].
  intros H. destruct (Z.eqb_spec (m_id m) i); [done|]. apply IH. set_solver.
Qed.

(** C1: error correction loses nothing.  In any run of the basic method, of
    transmissions, acknowledgements (genuine or not) and new messages, the
    messages that wait, first in the retransmission and then in the transmission
    buffer, are at every moment those that waited at the start followed by those
    the user sent since, in order and with their data, without the first [k]; [k]
    is what the first sequence number moved by; and the window invariant holds. *)
Theorem arq_conservation l s :
  is_pcr s = false → txc_ok (view_of s) → run_ok l s →
  let s' := arq_run l s in
  let hl := hl_of s.(xoption) in
  txc_ok (view_of s') ∧
  ∃ k, (k <= length (s.(sl_rtb).(q_list) ++ s.(sl_tb).(q_list) ++ arq_msgs l))%nat ∧
    body hl <$> (s'.(sl_rtb).(q_list) ++ s'.(sl_tb).(q_list)) =
      drop k (body hl <$> (s.(sl_rtb).(q_list) ++ s.(sl_tb).(q_list) ++ arq_msgs l)) ∧
    s'.(sl_statem).(tx).(tF).(fsn) =
      (s.(sl_statem).(tx).(tF).(fsn) + Z.of_nat k) mod (s.(sl_statem).(sn_mask) + 1).
Proof.
  intros Hp Hv Hr. cbv zeta. destruct (run_progress l s Hp Hv Hr) as (k & H & Ho & Hm & Hl & Hw & HF).
  split; [done|]. exists k. unfold waiting in *. rewrite Ho in Hw.
  rewrite <- fmap_app, <- app_assoc in *. rewrite length_fmap in Hl. by repeat split.
Qed.

(** C10: the transmitter is bounded by its window.  In any such run the
    unacknowledged messages are at most 127 (32767 with extended sequence
    numbers), they are numbered consecutively from F to L, the counters Ct and
    Cm are the lengths of the buffers, and the retransmission pointer is null or
    points to one of them. *)
Theorem arq_window l s :
  is_pcr s = false → txc_ok (view_of s) → run_ok l s →
  let s' := arq_run l s in
  let n := Z.of_nat (length s'.(sl_rtb).(q_list)) in
  n <= s'.(sl_statem).(sn_mask) ∧
  s'.(sl_statem).(tx).(tL).(fsn) =
    (s'.(sl_statem).(tx).(tF).(fsn) + n - 1) mod (s'.(sl_statem).(sn_mask) + 1) ∧
  s'.(sl_statem).(Ct) = n ∧ s'.(sl_rtb).(q_msgs) = n ∧
  s'.(sl_statem).(Cm) = u32 (Z.of_nat (length s'.(sl_tb).(q_list))) ∧
  (∀ i, s'.(sl_statem).(z_ptr) = Some i → list_find_id i s'.(sl_rtb).(q_list) ≠ None).
Proof.
  intros Hp Hv Hr. cbv zeta. destruct (run_progress l s Hp Hv Hr) as (k & [] & _).
  split; [done|]. split; [done|]. split; [done|]. split; [apply ok_rtb0|]. split; [done|].
  intros i Hi. by apply find_id_in, ok_z0.
Qed.

(** ** The start of the link *)

Lemma view_txc_start s :
  let m := if is_xsn s then 0x7fff else 0x7f in
  view_of (sl_txc_start s) =
    View s.(sl_rtb) s.(sl_tb) 0 m 0 0 0 m s.(sl_statem).(rx).(rF).(fsn)
      s.(sl_statem).(rx).(rT).(fsn) s.(sl_statem).(rx).(rR).(bsn) None false false s.(xoption).
Proof.
  cbv delta [sl_txc_start] beta.
  assert (Hx : ∀ x, xoption x = xoption s → is_xsn x = is_xsn s)
    by (intros x E; unfold is_xsn, popt_has; by rewrite E).
  assert (Hp : ∀ x, xoption x = xoption s → pvar_is SS7_PVAR_ANSI_92 x = pvar_is SS7_PVAR_ANSI_92 s)
    by (intros x E; unfold pvar_is; by rewrite E).
  destruct (is_xsn s), (pvar_is SS7_PVAR_ANSI_92 s); lazy zeta;
    repeat first [rewrite Hp by reflexivity | rewrite Hx by reflexivity]; cbn [negb];
    match goal with |- context [bool_decide ?p] => destruct (bool_decide p) end; reflexivity.
Qed.
Lemma view_lsc_start s :
  s.(sl_statem).(lsc_state) = LSC_OUT_OF_SERVICE → s.(sl_statem).(rc_state) = IDLE →
  let m := if is_xsn s then 0x7fff else 0x7f in
  view_of (sl_lsc_start s) =
    View s.(sl_rtb) s.(sl_tb) 0 m 0 0 0 m 0 s.(sl_statem).(sn_mask)
      s.(sl_statem).(rx).(rR).(bsn) None false false s.(xoption).
Proof.
  intros Hl Hr. unfold sl_lsc_start. rewrite bool_decide_true by done. cbv zeta.
  assert (Ei : ∀ x, view_of (sl_iac_start x) = view_of x)
    by (intros x; unfold sl_iac_start; by repeat case_match).
  assert (Ee : ∀ x, view_of (sl_iac_emergency x) = view_of x)
    by (intros x; unfold sl_iac_emergency; cbv zeta; by repeat case_match).
  assert (E : ∀ x, view_of (x <| sl_statem; lsc_state := LSC_INITIAL_ALIGNMENT |>) = view_of x)
    by done.
  rewrite E, Ei. clear E Ei.
  assert (E : view_of (sl_rc_start s) = (view_of s) <| v_rF := 0 |>
                                        <| v_rT := s.(sl_statem).(sn_mask) |>).
  { unfold sl_rc_start. rewrite bool_decide_true by done. done. }
  assert (Ex : is_xsn (sl_rc_start s) = is_xsn s)
    by (change (is_xsn ?z) with (negb (Z.land (popt (v_opt (view_of z))) SS7_POPT_XSN =? 0));
        by rewrite E).
  pose proof (view_txc_start (sl_rc_start s)) as Ht. cbv zeta in Ht. rewrite Ex in Ht.
  revert Ht. generalize (sl_txc_start (sl_rc_start s)). intros x Ht.
  assert (Hx : view_of (if emergency (sl_statem x) then sl_iac_emergency x else x) = view_of x)
    by (destruct (emergency (sl_statem x)); [apply Ee|done]).
  rewrite Hx, Ht.
  change (sl_rtb (sl_rc_start s)) with (v_rtb (view_of (sl_rc_start s))).
  change (sl_tb (sl_rc_start s)) with (v_tb (view_of (sl_rc_start s))).
  change (fsn (rF (rx (sl_statem (sl_rc_start s))))) with (v_rF (view_of (sl_rc_start s))).
  change (fsn (rT (rx (sl_statem (sl_rc_start s))))) with (v_rT (view_of (sl_rc_start s))).
  change (bsn (rR (rx (sl_statem (sl_rc_start s))))) with (v_rR (view_of (sl_rc_start s))).
  change (xoption (sl_rc_start s)) with (v_opt (view_of (sl_rc_start s))).
  rewrite E. done.
Qed.

(** A start establishes the invariant of error correction exactly when both
    buffers are empty: it resets every number and counter, and keeps the
    messages a failed link left behind. *)
Theorem start_numbering s :
  s.(sl_statem).(lsc_state) = LSC_OUT_OF_SERVICE → s.(sl_statem).(rc_state) = IDLE →
  s.(sl_statem).(sn_mask) = (if is_xsn s then 0x7fff else 0x7f) →
  bufq_ok s.(sl_rtb) → bufq_ok s.(sl_tb) → Z.of_nat (length s.(sl_tb).(q_list)) < 2 ^ 32 →
  (sl_lsc_start s).(sl_rtb) = s.(sl_rtb) ∧ (sl_lsc_start s).(sl_tb) = s.(sl_tb) ∧
  (sl_lsc_start s).(sl_statem).(Ct) = 0 ∧ (sl_lsc_start s).(sl_statem).(tx).(tF).(fsn) = 0 ∧
  (txc_ok (view_of (sl_lsc_start s)) ↔
   s.(sl_rtb).(q_list) = [] ∧ s.(sl_tb).(q_list) = []).
Proof.
  intros Hl Hr Hm Hq Ht Hn.
  change ((sl_lsc_start s).(sl_rtb)) with (view_of (sl_lsc_start s)).(v_rtb).
  change ((sl_lsc_start s).(sl_tb)) with (view_of (sl_lsc_start s)).(v_tb).
  change ((sl_lsc_start s).(sl_statem).(Ct)) with (view_of (sl_lsc_start s)).(v_Ct).
  change ((sl_lsc_start s).(sl_statem).(tx).(tF).(fsn)) with (view_of (sl_lsc_start s)).(v_F).
  rewrite (view_lsc_start s Hl Hr), Hm. cbv zeta. set (m := if is_xsn s then _ else _).
  assert (Hmk : mask_ok m) by (subst m; unfold mask_ok; destruct (is_xsn s); tauto).
  assert (HM : 0 < m) by (destruct Hmk; lia). clearbody m.
  do 4 (split; [done|]). split.
  - intros H. pose proof (ok_Ct _ H) as H1. pose proof (ok_Cm _ H) as H2. cbn in *. split.
    + apply length_zero_iff_nil. lia.
    + apply length_zero_iff_nil. unfold u32 in H2. rewrite Z.mod_small in H2; lia.
  - intros [E1 E2]. split; cbn; rewrite ?E1, ?E2; cbn [length]; try done; try lia; try by constructor.
    rewrite <- (Z.mod_add _ 1) by lia. rewrite Z.mod_small; lia.
Qed.

(** ** Runs of a channel *)

(** The channel as [sl_lsc_start] leaves it, sending fill-in and message units;
    [old] is in its retransmission buffer. *)
Definition ex_powered (old : list mblk) : xp :=
  (sl_lsc_power_on (xp_alloc_priv 100 (Env [] [] 10 [] [] [] false false)))
    <| sl_rtb := bufq_of old |>.
Definition ex_arq (old : list mblk) : xp :=
  sl_txc_send_msu (sl_lsc_start (ex_powered old)).
Definition ex_msg (i : Z) : mblk := Mblk i [[0; 0; 0; i; i + 1; i + 2]].
Definition ex_run : list arq_event :=
  [AMsg (ex_msg 1); AMsg (ex_msg 2); AMsg (ex_msg 3); ASend; ASend; AAck 0 0x80; ASend].
Lemma ex_arq_ok : txc_ok (view_of (ex_arq [])).
Proof.
  split; vm_compute; try done; try (by left); try by constructor.
Qed.
Lemma ex_run_ok : run_ok ex_run (ex_arq []).
Proof.
  repeat split; try (apply (bool_decide_unpack _); vm_compute; exact I); vm_compute;
    try (intros; discriminate); repeat constructor.
Qed.
Lemma arq_conservation_witness :
  run_ok ex_run (ex_arq []) ∧
  let s' := arq_run ex_run (ex_arq []) in
  ∃ k, body 3 <$> (s'.(sl_rtb).(q_list) ++ s'.(sl_tb).(q_list)) =
    drop k (body 3 <$> [ex_msg 1; ex_msg 2; ex_msg 3]).
Proof.
  split; [exact ex_run_ok|]. cbv zeta.
  destruct (arq_conservation ex_run (ex_arq []) eq_refl ex_arq_ok ex_run_ok) as (_ & k & _ & H & _).
  exists k. exact H.
Defined.
Lemma arq_window_witness :
  Z.of_nat (length (arq_run ex_run (ex_arq [])).(sl_rtb).(q_list)) <= 127.
Proof. exact (proj1 (arq_window ex_run (ex_arq []) eq_refl ex_arq_ok ex_run_ok)). Defined.
Lemma start_numbering_witness :
  (sl_lsc_start (ex_powered [ex_msg 7])).(sl_rtb).(q_list) = [ex_msg 7] ∧
  (sl_lsc_start (ex_powered [ex_msg 7])).(sl_statem).(Ct) = 0 ∧
  ¬ txc_ok (view_of (sl_lsc_start (ex_powered [ex_msg 7]))).
Proof.
  destruct (start_numbering (ex_powered [ex_msg 7])) as (H1 & _ & H2 & _ & H3);
    [vm_compute; reflexivity|vm_compute; reflexivity|vm_compute; reflexivity|done|done
    |vm_compute; reflexivity|].
  rewrite H1. split; [reflexivity|]. split; [exact H2|]. intros H. apply H3 in H as [H _].
  discriminate H.
Defined.
