(* ===== verification/Retransmit.v ===== *)
(** * Retransmission

    A negative acknowledgement starts a cycle that sends the messages of the
    retransmission buffer again, in order and under their own numbers, as long
    as no acknowledgement interferes; what goes wrong when one does. *)
From S2P Require Import Prelude Bufq BufqMoves Xp Prims Timers Txc Lsc Rc LscCtl Monitors Lmi Ctl Congest Header Arq.
From stdpp Require Import sets.
#[local] Open Scope Z_scope.
#[local] Open Scope os7_scope.
#[local] Set Warnings "-clear-no-such-hyp".

(** ** Messages by their position *)

Lemma find_lookup l j m :
  NoDup (m_id <$> l) → l !! j = Some m → list_find_id m.(m_id) l = Some m.
Proof.
  unfold list_find_id. revert j; induction l as [|x l IH]; intros j Hd Hj; [done|].
  cbn [List.find]. rewrite fmap_cons, NoDup_cons in Hd. destruct Hd as [Hx Hd].
  destruct j as [|j]; cbn in Hj; [simplify_eq; by rewrite Z.eqb_refl|].
  rewrite (proj2 (Z.eqb_neq _ _)); [by apply (IH j)|]. intros E. apply Hx. rewrite E.
  apply list_elem_of_fmap. exists m. split; [done|]. by eapply list_elem_of_lookup_2.
Qed.
Lemma next_lookup l j m :
  NoDup (m_id <$> l) → l !! j = Some m → list_next_id m.(m_id) l = l !! S j.
Proof.
  revert j; induction l as [|x l IH]; intros j Hd Hj; [done|].
  cbn [list_next_id]. rewrite fmap_cons, NoDup_cons in Hd. destruct Hd as [Hx Hd].
  destruct j as [|j]; cbn in Hj; [simplify_eq; rewrite Z.eqb_refl; by destruct l|].
  rewrite (proj2 (Z.eqb_neq _ _)); [by apply IH|]. intros E. apply Hx. rewrite E.
  apply list_elem_of_fmap. exists m. split; [done|]. by eapply list_elem_of_lookup_2.
Qed.

Lemma rtb_ids v : txc_ok v → NoDup (m_id <$> v.(v_rtb).(q_list)).
Proof. intros H. apply ok_ids in H. rewrite fmap_app in H. by apply list.NoDup_app in H as [? _]. Qed.
Lemma poke_lookup_id q i f j :
  m_id <$> (bufq_poke q i f).(q_list) !! j = m_id <$> q.(q_list) !! j.
Proof.
  unfold bufq_poke. upd. rewrite list_lookup_fmap. destruct (q_list q !! j) as [m|]; [|done].
  cbn. by destruct (m_id m =? i).
Qed.
Lemma poke_length q i f : length (bufq_poke q i f).(q_list) = length q.(q_list).
Proof. apply length_fmap. Qed.

(** ** The cycle *)

(** The channel sends message units, memory is available, and the next message of
    the cycle is the [j]-th that waits, with the number before the next one in
    [tx.N.fsn]. *)
Record cycle (j : nat) (s : xp) : Prop := {
  cy_ok : txc_ok (view_of s);
  cy_pcr : is_pcr s = false;
  cy_on : s.(sl_statem).(txc_state) = TXC_IN_SERVICE;
  cy_lssu : s.(sl_statem).(lssu_available) = false;
  cy_msu : s.(sl_statem).(msu_inhibited) = false;
  cy_mem : s.(xenv).(e_alloc) = [];
  cy_rc : s.(sl_statem).(retrans_cycle) = true;
  cy_j : (j < length s.(sl_rtb).(q_list))%nat;
  cy_z : s.(sl_statem).(z_ptr) = m_id <$> s.(sl_rtb).(q_list) !! j;
  cy_N : s.(sl_statem).(tx).(tN).(fsn) =
    (s.(sl_statem).(tx).(tF).(fsn) + Z.of_nat j - 1) mod (s.(sl_statem).(sn_mask) + 1) }.

(** The unit [mp] carries the data of [m] under the header of [s]. *)
Definition carries (m mp : mblk) (s : xp) : Prop :=
  ∃ li, mp.(m_blks) = put_header (su_header s li) m.(m_blks).

Lemma su_header_env s v li : su_header (s <| xenv := v |>) li = su_header s li.
Proof. done. Qed.
Lemma daedt_msu_carries orig mp s :
  carries mp (sl_daedt_msu orig mp s).1 (sl_daedt_msu orig mp s).2.
Proof.
  unfold sl_daedt_msu. cbv zeta. set (hdr := su_header s _). cbn [fst snd].
  eexists. unfold hdr. destruct (header_fits _ mp); reflexivity.
Qed.
(** What the transmission of a message leaves alone, and what it takes from the
    surroundings. *)
Lemma daedt_msu_frame orig mp s :
  ∃ hdr b, length hdr = hl_of s.(xoption) ∧
    (sl_daedt_msu orig mp s).2 =
      s <| xenv; e_fault := b |> <| sl_rtb := bufq_poke s.(sl_rtb) orig (put_header hdr) |>.
Proof.
  unfold sl_daedt_msu. cbv zeta. set (hdr := su_header s _). exists hdr.
  destruct (header_fits hdr mp).
  - exists s.(xenv).(e_fault). split; [apply length_su_header|]. cbn [snd]. f_equal.
    by destruct s as [? ? ? ? ? ? ? ? ? ? ? ? ? ? ? ? ? ? ? ? ? ? ? ? ? ? []].
  - exists true. split; [apply length_su_header|]. done.
Qed.

Lemma resend_end_N s : tN (tx (sl_statem (resend_end s))) = tN (tx (sl_statem s)).
Proof. unfold resend_end. by case_match. Qed.
Lemma resend_end_rtb s : sl_rtb (resend_end s) = sl_rtb s.
Proof. unfold resend_end. by case_match. Qed.
Lemma carries_resend_end m mp s : carries m mp (resend_end s) ↔ carries m mp s.
Proof.
  unfold carries. assert (E : ∀ li, su_header (resend_end s) li = su_header s li)
    by (intros li; unfold resend_end; by case_match). by setoid_rewrite E.
Qed.
(** The cycle ends after the last message. *)
Lemma resend_end_cases j n F m z s :
  s.(sl_statem).(tx).(tN).(fsn) = (F + Z.of_nat j) mod m →
  s.(sl_statem).(tx).(tL).(fsn) = (F + Z.of_nat n - 1) mod m →
  s.(sl_statem).(z_ptr) = z → (z = None ↔ (n <= S j)%nat) → (j < n)%nat →
  0 <= F < m → Z.of_nat n < m →
  resend_end s = if decide (S j = n) then s <| sl_statem; retrans_cycle := false |> else s.
Proof.
  intros HN HL Hz Hn Hj HF Hm. unfold resend_end. rewrite HN, HL, Hz.
  destruct (decide (S j = n)) as [<-|Hd].
  - rewrite (bool_decide_true (z = None)) by (apply Hn; lia). by rewrite orb_true_r.
  - rewrite (bool_decide_false (z = None)) by (rewrite Hn; lia). rewrite orb_false_r.
    rewrite (proj2 (Z.eqb_neq _ _)); [done|].
    replace (F + Z.of_nat n - 1) with (F + (Z.of_nat n - 1)) by lia.
    rewrite !mod_add_cases by lia. comparisons; lia.
Qed.
(** A request while the pointer of the cycle is at [m]. *)
Lemma request_resend j m s :
  txc_ok (view_of s) → is_pcr s = false → s.(sl_statem).(txc_state) = TXC_IN_SERVICE →
  s.(sl_statem).(lssu_available) = false → s.(sl_statem).(msu_inhibited) = false →
  s.(xenv).(e_alloc) = [] → s.(sl_statem).(retrans_cycle) = true →
  s.(sl_rtb).(q_list) !! j = Some m → s.(sl_statem).(z_ptr) = Some m.(m_id) →
  sl_txc_transmission_request s =
    txc_resend false m (m <| m_id := s.(xenv).(e_next) |>)
      (s <| xenv; e_next := s.(xenv).(e_next) + 1 |>).
Proof.
  intros Hv Hp Hon Hls Hms Hm Hrc Em Hz.
  unfold sl_txc_transmission_request. rewrite bool_decide_true by done.
  rewrite Hp, Hls, Hms, Hrc. cbn [negb andb orb]. cbv zeta. unfold txc_retransmit, z_deref.
  rewrite Hz. rewrite (find_lookup _ j); [|exact (rtb_ids _ Hv)|done].
  unfold dupmsg, new_msg, xalloc. rewrite Hm. done.
Qed.
(** The state after the [j]-th message of a cycle was sent with [m] on it. *)
Lemma cycle_step j m s :
  cycle j s → s.(sl_rtb).(q_list) !! j = Some m →
  let r := sl_txc_transmission_request s in
  (∃ mp, r.1 = Some mp ∧ carries m mp r.2) ∧
  r.2.(sl_statem).(tx).(tN).(fsn) =
    (s.(sl_statem).(tx).(tF).(fsn) + Z.of_nat j) mod (s.(sl_statem).(sn_mask) + 1) ∧
  kept (view_of s) (view_of r.2) ∧
  body (hl_of s.(xoption)) <$> r.2.(sl_rtb).(q_list) = body (hl_of s.(xoption)) <$> s.(sl_rtb).(q_list) ∧
  if decide (S j = length s.(sl_rtb).(q_list)) then r.2.(sl_statem).(retrans_cycle) = false
  else cycle (S j) r.2.
Proof.
  intros [Hv Hp Hon Hls Hms Hm Hrc Hj Hz HN] Em. cbv zeta.
  assert (Hk := request_kept s Hp Hv). revert Hk.
  rewrite (request_resend j m s) by (done || by rewrite Hz, Em).
  set (x := s <| xenv; e_next := s.(xenv).(e_next) + 1 |>). unfold txc_resend. cbv zeta.
  set (x1 := x <| sl_statem; z_ptr := m_id <$> bufq_next (sl_rtb x) (m_id m) |>).
  set (x2 := resend_number false x1).
  assert (HN2 : x2.(sl_statem).(tx).(tN).(fsn) =
    (s.(sl_statem).(tx).(tF).(fsn) + Z.of_nat j) mod (s.(sl_statem).(sn_mask) + 1)).
  { assert (E : x2.(sl_statem).(tx).(tN).(fsn) = Z.land (s.(sl_statem).(tx).(tN).(fsn) + 1)
                  s.(sl_statem).(sn_mask)) by done.
    assert (Hmk : mask_ok (sn_mask (sl_statem s))) by apply Hv.
    rewrite E, mask_land, HN, Z.add_mod_idemp_l by (done || destruct Hmk; lia). f_equal. lia. }
  assert (Hz2 : x2.(sl_statem).(z_ptr) = m_id <$> s.(sl_rtb).(q_list) !! S j).
  { change (z_ptr (sl_statem x2)) with (m_id <$> list_next_id (m_id m) (q_list (sl_rtb s))).
    by rewrite (next_lookup _ j) by (done || exact (rtb_ids _ Hv)). }
  assert (Hx2 : is_pcr x2 = false ∧ txc_state (sl_statem x2) = TXC_IN_SERVICE ∧
    lssu_available (sl_statem x2) = false ∧ msu_inhibited (sl_statem x2) = false ∧
    e_alloc (xenv x2) = [] ∧ retrans_cycle (sl_statem x2) = true ∧ sl_rtb x2 = sl_rtb s ∧
    tF (tx (sl_statem x2)) = tF (tx (sl_statem s)) ∧ tL (tx (sl_statem x2)) = tL (tx (sl_statem s)) ∧
    sn_mask (sl_statem x2) = sn_mask (sl_statem s) ∧ xoption x2 = xoption s) by done.
  clearbody x2. destruct Hx2 as (Hp2 & Hon2 & Hls2 & Hms2 & Hm2 & Hrc2 & Hr2 & HF2 & HL2 & Hmk2 & Ho2).
  pose proof (daedt_msu_carries (m_id m) (m <| m_id := e_next (xenv s) |>) x2) as Hc.
  destruct (daedt_msu_frame (m_id m) (m <| m_id := e_next (xenv s) |>) x2) as (hdr & b & Hh & Hy).
  destruct (sl_daedt_msu (m_id m) _ x2) as [mp y]. cbn [fst snd] in *. intros Hk.
  assert (HNy : tN (tx (sl_statem y)) = tN (tx (sl_statem x2))) by (rewrite Hy; done).
  assert (HLy : fsn (tL (tx (sl_statem y))) =
    (fsn (tF (tx (sl_statem s))) + Z.of_nat (length (q_list (sl_rtb s))) - 1)
      mod (sn_mask (sl_statem s) + 1))
    by (rewrite Hy; change (fsn (tL (tx (sl_statem x2))) = (fsn (tF (tx (sl_statem s))) + Z.of_nat (length (q_list (sl_rtb s))) - 1)
      mod (sn_mask (sl_statem s) + 1)); rewrite HL2; apply Hv).
  split; [|split; [|split; [exact Hk|split]]].
  - exists mp. split; [done|]. by rewrite carries_resend_end.
  - by rewrite resend_end_N, HNy.
  - rewrite resend_end_rtb, Hy.
    change (body (hl_of (xoption s)) <$> q_list (bufq_poke (sl_rtb x2) (m_id m) (put_header hdr)) =
      body (hl_of (xoption s)) <$> q_list (sl_rtb s)).
    rewrite Hr2. apply ok_room in Hv. apply list.Forall_app in Hv as [Hroom _].
    apply (poke_list hdr); [by rewrite Hh, Ho2|exact Hroom].
  - destruct Hv as [Hmk HFr Hlen _ _ _ _ _ _ _ _ _ _ _ _ _].
    change (v_F (view_of s)) with (fsn (tF (tx (sl_statem s)))) in *.
    change (v_mask (view_of s)) with (sn_mask (sl_statem s)) in *.
    change (v_rtb (view_of s)) with (sl_rtb s) in *.
    assert (Ee := resend_end_cases j (length (q_list (sl_rtb s))) (fsn (tF (tx (sl_statem s))))
      (sn_mask (sl_statem s) + 1) (m_id <$> q_list (sl_rtb s) !! S j) y).
    rewrite Ee in Hk |- *; clear Ee; [| by rewrite HNy | exact HLy | rewrite Hy; exact Hz2 | | lia | lia | lia
      | by rewrite HNy | exact HLy | rewrite Hy; exact Hz2 | | lia | lia | lia ].
    + destruct (decide (S j = length (q_list (sl_rtb s)))) as [|Hne]; [done|].
      destruct Hk as (Hok & _). rewrite Hy. split.
      * by rewrite <- Hy.
      * exact Hp2.
      * exact Hon2.
      * exact Hls2.
      * exact Hms2.
      * exact Hm2.
      * exact Hrc2.
      * change (S j < length (q_list (bufq_poke (sl_rtb x2) (m_id m) (put_header hdr))))%nat.
        rewrite poke_length, Hr2. lia.
      * change (z_ptr (sl_statem x2) =
          m_id <$> (bufq_poke (sl_rtb x2) (m_id m) (put_header hdr)).(q_list) !! S j).
        by rewrite poke_lookup_id, Hr2.
      * change (fsn (tN (tx (sl_statem x2))) =
          (fsn (tF (tx (sl_statem x2))) + Z.of_nat (S j) - 1) mod (sn_mask (sl_statem x2) + 1)).
        rewrite HN2, HF2, Hmk2. f_equal. lia.
    + rewrite fmap_None. apply lookup_ge_None.
    + rewrite fmap_None. apply lookup_ge_None.
Qed.

(** ** A whole cycle *)

Definition requests (n : nat) (s : xp) : xp :=
  Nat.iter n (fun s => (sl_txc_transmission_request s).2) s.
Lemma requests_S n s : requests (S n) s = requests n (sl_txc_transmission_request s).2.
Proof. unfold requests. by rewrite Nat.iter_succ_r. Qed.
(** A unit that carries the data of a message, whatever its old header was. *)
Definition same_data (hl : nat) (m mp : mblk) : Prop := (body hl mp).2 = (body hl m).2.
Lemma carries_body m mp s :
  carries m mp s → has_room (hl_of s.(xoption)) m → same_data (hl_of s.(xoption)) m mp.
Proof.
  intros [li E] Hr. unfold same_data, body. rewrite E. cbn.
  pose proof (length_su_header s li) as Hl. unfold has_room in Hr.
  destruct (m_blks m) as [|b l]; [done|]. cbn. f_equal. by rewrite <- Hl, drop_app_length.
Qed.

(** The cycle from its [j]-th message on. *)
Lemma cycle_run i j s :
  cycle j s → (j + i < length s.(sl_rtb).(q_list))%nat →
  let x := requests i s in
  cycle (j + i) x ∧ kept (view_of s) (view_of x) ∧
  body (hl_of s.(xoption)) <$> x.(sl_rtb).(q_list) = body (hl_of s.(xoption)) <$> s.(sl_rtb).(q_list).
Proof.
  revert j s; induction i as [|i IH]; intros j s Hc Hi; cbv zeta.
  - cbn. rewrite Nat.add_0_r. split; [done|]. split; [apply kept_refl, Hc|done].
  - rewrite requests_S. destruct (lookup_lt_is_Some_2 (q_list (sl_rtb s)) j) as [m Em]; [lia|].
    destruct (cycle_step j m s Hc Em) as (_ & _ & Hk & Hb & H).
    rewrite decide_False in H by lia.
    revert Hk Hb H. generalize (sl_txc_transmission_request s).2. intros y Hk Hb H.
    assert (Hl : length (q_list (sl_rtb y)) = length (q_list (sl_rtb s)))
      by (apply (f_equal length) in Hb; by rewrite !length_fmap in Hb).
    assert (Ho : xoption y = xoption s) by apply Hk.
    destruct (IH (S j) y H) as (H1 & H2 & H3); [lia|]. rewrite Ho in H3.
    replace (j + S i)%nat with (S j + i)%nat by lia. split; [done|].
    split; [by eapply kept_trans|by rewrite H3].
Qed.

(** A negative acknowledgement that acknowledges nothing. *)
Lemma nack_cycle s :
  txc_ok (view_of s) → is_pcr s = false → s.(sl_statem).(txc_state) = TXC_IN_SERVICE →
  s.(sl_statem).(lssu_available) = false → s.(sl_statem).(msu_inhibited) = false →
  s.(xenv).(e_alloc) = [] → s.(sl_rtb).(q_list) ≠ [] →
  s.(sl_statem).(tx).(tN).(fib) ≠ s.(sl_statem).(tx).(tR).(bib) →
  cycle 0 (txc_nack s) ∧ (txc_nack s).(sl_rtb) = s.(sl_rtb) ∧
  (txc_nack s).(xoption) = s.(xoption) ∧
  (txc_nack s).(sl_statem).(tx).(tN).(fib) = s.(sl_statem).(tx).(tR).(bib) ∧
  (txc_nack s).(sl_statem).(tx).(tF).(fsn) = s.(sl_statem).(tx).(tF).(fsn) ∧
  (txc_nack s).(sl_statem).(sn_mask) = s.(sl_statem).(sn_mask).
Proof.
  intros Hv Hp Hon Hls Hms Hm Hr Hb. unfold txc_nack. rewrite (proj2 (Z.eqb_neq _ _)) by done.
  cbn [negb]. cbv zeta.
  assert (Hy : view_of (sib_clear s) = view_of s ∧ is_pcr (sib_clear s) = false ∧
    txc_state (sl_statem (sib_clear s)) = TXC_IN_SERVICE ∧
    lssu_available (sl_statem (sib_clear s)) = false ∧
    msu_inhibited (sl_statem (sib_clear s)) = false ∧ e_alloc (xenv (sib_clear s)) = [] ∧
    sl_rtb (sib_clear s) = sl_rtb s ∧ xoption (sib_clear s) = xoption s ∧
    tR (tx (sl_statem (sib_clear s))) = tR (tx (sl_statem s)) ∧
    tF (tx (sl_statem (sib_clear s))) = tF (tx (sl_statem s)) ∧
    sn_mask (sl_statem (sib_clear s)) = sn_mask (sl_statem s))
    by (unfold sib_clear; by case_match).
  destruct Hy as (Ev & Hp' & Hon' & Hls' & Hms' & Hm' & Er & Eo & ER & EF & Em).
  revert Ev Hp' Hon' Hls' Hms' Hm' Er Eo ER EF Em. generalize (sib_clear s). intros y.
  intros. rewrite ER.
  set (y1 := y <| sl_statem; tx; tN; fib := bib (tR (tx (sl_statem s))) |>).
  set (y2 := y1 <| sl_statem; tx; tN; fsn := FSN_add y1 (fsn (tF (tx (sl_statem y1)))) (-1) |>).
  set (y3 := y2 <| sl_statem; z_ptr := m_id <$> bufq_head (sl_rtb y2) |>).
  change (z_ptr (sl_statem y3)) with (m_id <$> head (q_list (sl_rtb y))).
  destruct (q_list (sl_rtb s)) as [|m l] eqn:El; [done|].
  rewrite Er, El. cbn [head fmap option_fmap option_map].
  assert (Hv3 : view_of (y3 <| sl_statem; retrans_cycle := true |>) =
    (view_of s) <| v_z := m_id <$> head (view_of s).(v_rtb).(q_list) |>) by (rewrite <- Ev; done).
  split; [|by rewrite <- Er, <- Eo, <- EF, <- Em]. split; try done.
  - rewrite Hv3. by apply ok_set_z.
  - change (0 < length (q_list (sl_rtb y)))%nat. rewrite Er, El. cbn. lia.
  - change (m_id <$> head (q_list (sl_rtb y)) = m_id <$> q_list (sl_rtb y) !! 0%nat).
    by rewrite Er, El.
  - change (FSN_add y (fsn (tF (tx (sl_statem y)))) (-1) =
      (fsn (tF (tx (sl_statem y))) + Z.of_nat 0 - 1) mod (sn_mask (sl_statem y) + 1)).
    rewrite FSN_add_mod by (rewrite Em; apply Hv). f_equal. lia.
Qed.


(** ** An acknowledgement during the cycle *)

(** What the acknowledgement leaves alone. *)
Definition flags (s : xp) :=
  (s.(sl_statem).(txc_state), s.(sl_statem).(lssu_available), s.(sl_statem).(msu_inhibited),
   s.(sl_statem).(retrans_cycle), s.(sl_statem).(tx).(tN), s.(sl_statem).(tx).(tR)).
Lemma put_ind_mem p s : s.(xenv).(e_alloc) = [] → (put_ind p s).2.(xenv).(e_alloc) = [].
Proof. intros H. unfold put_ind, xalloc. by rewrite H. Qed.
Lemma flags_check_congestion s :
  flags (sl_check_congestion s) = flags s ∧
  (s.(xenv).(e_alloc) = [] → (sl_check_congestion s).(xenv).(e_alloc) = []).
Proof.
  split.
  - unfold flags. destruct (check_congestion_effect s) as [-> _].
    destruct (congestion_switch_frame (occupancy s) (popt_has SS7_POPT_MPLEV s) s) as (c & d & E).
    unfold switched. by rewrite E.
  - rewrite <- (switched_env s). unfold sl_check_congestion. cbv zeta. fold (switched s).
    generalize (switched s). intros x Hx.
    unfold sl_link_congestion_ceased_ind, sl_link_congested_ind.
    repeat case_match; first [done | by apply put_ind_mem].
Qed.
Lemma flags_ack_loop n tgt s :
  flags (ack_loop n tgt s) = flags s ∧ xenv (ack_loop n tgt s) = xenv s.
Proof.
  revert s; induction n as [|n IH]; intros s; [done|]. cbn [ack_loop]. cbv zeta.
  case_match; [done|]. destruct (IH (ack_body s)) as [-> ->]. done.
Qed.
Lemma flags_txc_ack s :
  s.(xenv).(e_alloc) = [] → flags (txc_ack s) = flags s ∧ (txc_ack s).(xenv).(e_alloc) = [].
Proof.
  intros Hm. unfold txc_ack. case_match; [|done]. cbv zeta.
  assert (H1 : flags (sib_clear s) = flags s ∧ e_alloc (xenv (sib_clear s)) = [])
    by (unfold sib_clear; by case_match).
  revert H1. generalize (sib_clear s). intros x [H1 H1'].
  destruct (flags_ack_loop (ack_fuel x) (ack_target x) x) as [H2 H2'].
  revert H2 H2'. generalize (ack_loop (ack_fuel x) (ack_target x) x). intros y H2 H2'.
  destruct (flags_check_congestion y) as [H3 H3'].
  specialize (H3' ltac:(by rewrite H2')). revert H3 H3'. generalize (sl_check_congestion y).
  intros z H3 H3'.
  assert (H4 : flags (ack_z (ack_not_full (ack_timer z))) = flags z ∧
    e_alloc (xenv (ack_z (ack_not_full (ack_timer z)))) = e_alloc (xenv z))
    by (unfold ack_z, ack_not_full, ack_timer; repeat case_match; done).
  destruct H4 as [-> ->]. split; [congruence|done].
Qed.
Lemma resend_carries bp mp s :
  let r := txc_resend false bp mp s in
  (∃ mp', r.1 = Some mp' ∧ carries mp mp' r.2) ∧
  r.2.(sl_statem).(tx).(tN).(fsn) = FSN_add s s.(sl_statem).(tx).(tN).(fsn) 1 ∧
  r.2.(xoption) = s.(xoption).
Proof.
  cbv zeta. unfold txc_resend. cbv zeta.
  set (x1 := s <| sl_statem; z_ptr := m_id <$> bufq_next (sl_rtb s) (m_id bp) |>).
  assert (H : fsn (tN (tx (sl_statem (resend_number false x1)))) =
              FSN_add s (fsn (tN (tx (sl_statem s)))) 1 ∧
              xoption (resend_number false x1) = xoption s) by done.
  revert H. generalize (resend_number false x1). intros x2 [HN Ho].
  pose proof (daedt_msu_carries (m_id bp) mp x2) as Hc.
  destruct (daedt_msu_frame (m_id bp) mp x2) as (hdr & b & _ & Hy).
  destruct (sl_daedt_msu (m_id bp) mp x2) as [mp' y]. cbn [fst snd] in *.
  split; [exists mp'; split; [done|by rewrite carries_resend_end]|].
  rewrite resend_end_N. split; [by rewrite Hy|].
  assert (E : xoption (resend_end y) = xoption y) by (unfold resend_end; by case_match).
  rewrite E, Hy. exact Ho.
Qed.

(** An acknowledgement during a retransmission cycle makes the basic method
    send messages under wrong numbers.  When the next message of the cycle is the
    [j]-th and the far end acknowledges [k] messages, the cycle restarts with the
    first message that still waits, whose number is F+k, but goes on counting: that
    message is sent under the number F+j of another one. *)
Theorem ack_in_cycle_misnumbers s j b m :
  cycle j s → 0 <= b <= s.(sl_statem).(sn_mask) →
  let h := hear b s.(sl_statem).(tx).(tN).(fib) s in
  rc_bsnr_outside h = false →
  let k := ack_count (view_of s) b in
  (0 < k)%nat → s.(sl_rtb).(q_list) !! k = Some m →
  let x := rc_ack h in
  let r := sl_txc_transmission_request x in
  let F := s.(sl_statem).(tx).(tF).(fsn) in
  let M := s.(sl_statem).(sn_mask) + 1 in
  x.(sl_statem).(tx).(tF).(fsn) = (F + Z.of_nat k) mod M ∧
  head x.(sl_rtb).(q_list) = Some m ∧
  (∃ mp, r.1 = Some mp ∧ same_data (hl_of s.(xoption)) m mp) ∧
  r.2.(sl_statem).(tx).(tN).(fsn) = (F + Z.of_nat j) mod M.
Proof.
  intros [Hv Hp Hon Hls Hms Hm Hrc Hj Hz HN] Hb h Ho k Hk Em. cbv zeta.
  assert (Hh : view_of h = (view_of s) <| v_rR := b |>) by done.
  assert (Hvh : txc_ok (view_of h)) by (rewrite Hh; destruct Hv; split; assumption).
  assert (Hw : in_window (view_of h) b) by exact (bsnr_window h Hvh Ho Hb).
  (* no retransmission is asked for *)
  set (y := h <| sl_statem; tx; tR; bsn := b |> <| sl_statem; tx; tR; bib := fib (tN (tx (sl_statem s))) |>).
  destruct (flags_txc_ack y Hm) as [Hf Hmy].
  assert (Hvy : txc_ok (view_of y)) by exact Hvh.
  pose proof (view_txc_ack y Hp Hvy Hw) as Ha. cbv zeta in Ha.
  change (ack_count (view_of y) (bsn (tR (tx (sl_statem y))))) with k in Ha.
  rewrite (proj2 (Nat.eqb_neq k 0)) in Ha by lia.
  assert (Ex : rc_ack h = set_rF (txc_ack y)).
  { unfold rc_ack, sl_txc_bsnr_and_bibr. cbv zeta.
    match goal with |- context [clear_rtb (sl_statem ?q)] => change q with y end.
    change (clear_rtb (sl_statem y)) with (v_clear (view_of h)). rewrite (ok_clear _ Hvh).
    change (is_pcr h) with (is_pcr s). rewrite Hp. f_equal. unfold txc_nack.
    assert (HN' : tN (tx (sl_statem (txc_ack y))) = tN (tx (sl_statem s)) ∧
                  bib (tR (tx (sl_statem (txc_ack y)))) = fib (tN (tx (sl_statem s)))).
    { rewrite (f_equal (λ p, p.1.2) Hf : tN (tx (sl_statem (txc_ack y))) = tN (tx (sl_statem y))).
      by rewrite (f_equal snd Hf : tR (tx (sl_statem (txc_ack y))) = tR (tx (sl_statem y))). }
    destruct HN' as [-> ->]. by rewrite Z.eqb_refl. }
  rewrite Ex. clear Ex. revert Hf Hmy Ha. generalize (txc_ack y). intros z Hf Hmy Ha.
  change (view_of y) with (view_of h) in Ha. rewrite Hh in Ha.
  set (v := view_of s) in *. set (x := set_rF z).
  assert (Hvx : txc_ok (view_of x)).
  { assert (Ev : view_of x = (view_of z) <| v_rF := Z.land ((view_of z).(v_rR) + 1) (view_of z).(v_mask) |>)
      by done.
    rewrite Ev, Ha. destruct Hw as [_ Hwk].
    pose proof (acked_z_ok k (v <| v_rR := b |>) ltac:(by rewrite <- Hh) ltac:(split; [exact Hk|exact Hwk])) as Hok.
    assert (EF : Z.land (b + 1) (v_mask v) = v_F (acked k v)).
    { unfold acked, k, ack_count. fold v. cbn [v_F]. upd. rewrite mask_land by apply Hv.
      assert (mask_ok (v_mask v)) as Hmk by apply Hv.
      rewrite Z2Nat.id by (apply Z.mod_pos_bound; destruct Hmk; lia).
      rewrite Z.add_mod_idemp_r by (destruct Hmk; lia). f_equal. lia. }
    change (v_rR (acked_z k (v <| v_rR := b |>))) with b.
    change (v_mask (acked_z k (v <| v_rR := b |>))) with (v_mask v). rewrite EF. exact Hok. }
  assert (Hxr : sl_rtb x = bufq_of (drop k (q_list (sl_rtb s))))
    by (change (sl_rtb x) with (v_rtb (view_of z)); rewrite Ha; done).
  assert (Hxz : z_ptr (sl_statem x) = Some (m_id m)).
  { change (z_ptr (sl_statem x)) with (v_z (view_of z)). rewrite Ha.
    change (m_id <$> head (drop k (q_list (sl_rtb s))) = Some (m_id m)).
    by rewrite (drop_S _ _ _ Em). }
  assert (HxF : fsn (tF (tx (sl_statem x))) = (fsn (tF (tx (sl_statem s))) + Z.of_nat k)
             mod (sn_mask (sl_statem s) + 1))
    by (change (fsn (tF (tx (sl_statem x)))) with (v_F (view_of z)); by rewrite Ha).
  assert (Hxo : xoption x = xoption s)
    by (change (xoption x) with (v_opt (view_of z)); by rewrite Ha).
  assert (Hxm : sn_mask (sl_statem x) = sn_mask (sl_statem s))
    by (change (sn_mask (sl_statem x)) with (v_mask (view_of z)); by rewrite Ha).
  assert (Hfx : txc_state (sl_statem x) = TXC_IN_SERVICE ∧ lssu_available (sl_statem x) = false ∧
    msu_inhibited (sl_statem x) = false ∧ retrans_cycle (sl_statem x) = true ∧
    tN (tx (sl_statem x)) = tN (tx (sl_statem s))).
  { assert (Hfs : flags z = flags y) by done. unfold flags in Hfs.
    assert (Hi : ∀ A B C D E G (a a' : A) (b b' : B) (c c' : C) (d d' : D) (e e' : E) (g g' : G),
      (a, b, c, d, e, g) = (a', b', c', d', e', g') → a = a' ∧ b = b' ∧ c = c' ∧ d = d' ∧ e = e')
      by (intros; by simplify_eq).
    apply Hi in Hfs as (F1 & F2 & F3 & F4 & F5).
    split; [exact (eq_trans F1 Hon)|]. split; [exact (eq_trans F2 Hls)|].
    split; [exact (eq_trans F3 Hms)|]. split; [exact (eq_trans F4 Hrc)|exact F5]. }
  destruct Hfx as (Hx1 & Hx2 & Hx3 & Hx4 & Hx5).
  assert (Hxl : sl_rtb x = bufq_of (m :: drop (S k) (q_list (sl_rtb s))))
    by (by rewrite Hxr, (drop_S _ _ _ Em)).
  split; [exact HxF|]. split; [by rewrite Hxl|].
  rewrite (request_resend 0 m x); try done.
  - destruct (resend_carries m (m <| m_id := e_next (xenv x) |>)
      (x <| xenv; e_next := e_next (xenv x) + 1 |>)) as ((mp & E1 & E2) & E3 & E4).
    change (xoption (x <| xenv; e_next := e_next (xenv x) + 1 |>)) with (xoption x) in E4.
    split.
    + exists mp. split; [exact E1|]. apply carries_body in E2.
      * by rewrite E4, Hxo in E2.
      * rewrite E4. pose proof (ok_room _ Hvx) as Hr. change (v_opt (view_of x)) with (xoption x) in Hr.
        change (v_rtb (view_of x)) with (sl_rtb x) in Hr. rewrite Hxl in Hr.
        apply list.Forall_app in Hr as [Hr _]. cbn [bufq_of q_list] in Hr. by inversion Hr.
    + rewrite E3. change (FSN_add x (fsn (tN (tx (sl_statem x)))) 1 =
        (fsn (tF (tx (sl_statem s))) + Z.of_nat j) mod (sn_mask (sl_statem s) + 1)).
      rewrite FSN_add_mod by apply Hvx. rewrite Hxm, Hx5, HN.
      assert (mask_ok (sn_mask (sl_statem s))) as Hmk by apply Hv.
      rewrite Z.add_mod_idemp_l by (destruct Hmk; lia). f_equal. lia.
  - rewrite pcr_view. change (v_opt (view_of x)) with (xoption x). by rewrite Hxo.
  - by rewrite Hxl.
Qed.

(** ** A channel that retransmits *)

(** Five messages sent and not acknowledged; the far end has inverted its
    indicator bit; three messages of the cycle are out. *)
Definition ex_sent : xp :=
  (arq_run [AMsg (ex_msg 1); AMsg (ex_msg 2); AMsg (ex_msg 3); AMsg (ex_msg 4); AMsg (ex_msg 5);
            ASend; ASend; ASend; ASend; ASend] (ex_arq []))
    <| sl_statem; tx; tR; bib := 0 |>.
Definition ex_cycle : xp := requests 3 (txc_nack ex_sent).
Lemma ex_sent_ok : txc_ok (view_of ex_sent).
Proof.
  split; try (apply (bool_decide_unpack _); vm_compute; exact I); vm_compute; try done;
    try (by left); repeat constructor; auto 20 with lia.
Qed.
Lemma ex_cycle_ok : cycle 3 ex_cycle.
Proof.
  split; try (vm_compute; reflexivity); [|vm_compute; lia].
  split; try (apply (bool_decide_unpack _); vm_compute; exact I);
    try (intros ? Hi; vm_compute in Hi; injection Hi as <-; apply (bool_decide_unpack _); vm_compute; exact I);
    vm_compute; try done; try (by left); repeat constructor; auto 20 with lia.
Qed.
Lemma ack_in_cycle_misnumbers_witness :
  let r := sl_txc_transmission_request (rc_ack (hear 0 0 ex_cycle)) in
  (∃ mp, r.1 = Some mp ∧ same_data 3 (ex_msg 2) mp) ∧
  r.2.(sl_statem).(tx).(tN).(fsn) = 3.
Proof.
  destruct (ack_in_cycle_misnumbers ex_cycle 3 0 (Mblk 2 [[255; 1; 3; 2; 3; 4]]) ex_cycle_ok)
    as (_ & _ & H1 & H2);
    [vm_compute; split; discriminate|vm_compute; reflexivity|vm_compute; lia|vm_compute; reflexivity|].
  split; [exact H1|exact H2].
Defined.
