(* ===== verification/Retrieval.v ===== *)
(** * Retrieval

    After a changeover the user retrieves the messages the far end has not
    acknowledged and those not sent: [sl_txc_retrieval_request_and_fsnc]. *)
From S2P Require Import Prelude Bufq BufqMoves Xp Prims Timers Txc Lsc Rc LscCtl Monitors Lmi Ctl Congest Header Arq.
From stdpp Require Import sets.
#[local] Open Scope Z_scope.
#[local] Open Scope os7_scope.
#[local] Set Warnings "-clear-no-such-hyp".

(** ** The release of acknowledged messages *)

(** One turn of the loop needs no more of the state than the view. *)
Lemma retrieval_ack_loop_ok d i K kk fuel s v :
  view_of s = acked i v → txc_ok v → K = Nat.min kk (length v.(v_rtb).(q_list)) →
  (Z.of_nat kk <= v.(v_mask)) → (i + d = K)%nat → (d < fuel)%nat →
  let s' := retrieval_ack_loop fuel ((v.(v_F) + Z.of_nat kk) mod (v.(v_mask) + 1)) s in
  view_of s' = acked K v ∧ s'.(xenv) = s.(xenv) ∧
  s'.(sl_statem).(tx).(tC) = s.(sl_statem).(tx).(tC).
Proof.
  revert i fuel s. induction d as [|d IH]; intros i [|fuel] s E Hv HK Hkk Hd Hf; try lia;
    cbv zeta; cbn [retrieval_ack_loop];
    pose proof Hv as [Hm HF Hl _ _ _ _ Hct _ Hq _ _ Hr _ _ _];
    assert (0 <= v_mask v) by (destruct Hm; lia);
    apply list.Forall_app in Hr as [Hr _];
    change (sl_rtb s) with (v_rtb (view_of s));
    change (fsn (tF (tx (sl_statem s)))) with (v_F (view_of s)); rewrite E;
    change (v_rtb (acked i v)) with (bufq_of (drop i (q_list (v_rtb v))));
    change (v_F (acked i v)) with ((v_F v + Z.of_nat i) mod (v_mask v + 1));
    rewrite (count_zero (hl_of (v_opt v))) by
      (first [pose proof (hl_of_pos (v_opt v)); lia | done | by apply Forall_drop]);
    cbn [bufq_of q_list].
  - assert (i = K) as -> by lia.
    destruct (decide (kk <= length (q_list (v_rtb v)))%nat) as [Hle|Hgt].
    + assert (K = kk) as -> by lia. by rewrite Z.eqb_refl, andb_false_r.
    + rewrite drop_ge by lia. rewrite bool_decide_true by done. done.
  - rewrite bool_decide_false by (intros D; apply (f_equal length) in D; rewrite length_drop in D; cbn in D; lia).
    rewrite (proj2 (Z.eqb_neq _ _)) by (rewrite !mod_add_cases by lia; comparisons; lia).
    cbn [negb andb].
    assert (E' := view_ack_body s i v E Hm ltac:(lia) Hct Hl).
    destruct (IH (S i) fuel (ack_body s) E' Hv HK Hkk ltac:(lia) ltac:(lia)) as (H1 & H2 & H3).
    done.
Qed.

(** ** The messages that were not sent *)

(** [qenable] once, when the last message has left the transmission buffer. *)
Definition enables (l : list mblk) : list event := match l with [] => [] | _ => [EvQenable] end.
Definition env_out (s : xp) : list bool * list bool * list event :=
  (s.(xenv).(e_alloc), s.(xenv).(e_canput), s.(xenv).(e_out)).
Lemma retrieval_move_loop_ok l r s :
  s.(sl_tb) = bufq_of l → s.(sl_rtb) = bufq_of r →
  s.(sl_statem).(Cm) = Z.of_nat (length l) → Z.of_nat (length l) < 2 ^ 32 →
  let s' := retrieval_move_loop (length l) s in
  s'.(sl_tb) = bufq_of [] ∧ s'.(sl_rtb) = bufq_of (r ++ l) ∧
  s'.(xenv).(e_alloc) = s.(xenv).(e_alloc) ∧
  s'.(xenv).(e_out) = s.(xenv).(e_out) ++ enables l ∧
  s'.(sl_statem).(tx).(tC) = s.(sl_statem).(tx).(tC) ∧
  s'.(sl_statem).(sn_mask) = s.(sl_statem).(sn_mask).
Proof.
  revert r s. induction l as [|m l IH]; intros r s Et Er Hc Hl; cbv zeta; cbn [length retrieval_move_loop].
  - rewrite !app_nil_r. by repeat split.
  - pose proof (bufq_dequeue_ok (sl_tb s) ltac:(by rewrite Et)) as Hd. rewrite Et in Hd.
    cbn [bufq_of q_list] in Hd. destruct Hd as (q & Eq & Hq & Eql).
    assert (q = bufq_of l) as -> by (rewrite <- Eql; by apply bufq_of_eq). rewrite Et, Eq. cbv zeta.
    cbn [length] in *.
    match goal with |- context [retrieval_move_loop (length l) ?x] => set (y := x) end.
    assert (Hy : sl_tb y = bufq_of l ∧ sl_rtb y = bufq_queue (sl_rtb s) m ∧
      Cm (sl_statem y) = u32 (Cm (sl_statem s) - 1) ∧ e_alloc (xenv y) = e_alloc (xenv s) ∧
      e_out (xenv y) = e_out (xenv s) ++ (if u32 (Cm (sl_statem s) - 1) =? 0 then [EvQenable] else []) ∧
      tC (tx (sl_statem y)) = tC (tx (sl_statem s)) ∧ sn_mask (sl_statem y) = sn_mask (sl_statem s)).
    { unfold y. match goal with |- context [if ?c then _ else _] => change c with (u32 (Cm (sl_statem s) - 1) =? 0) end.
      destruct (_ =? 0); rewrite ?app_nil_r; done. }
    clearbody y. destruct Hy as (Y1 & Y2 & Y3 & Y4 & Y5 & Y6 & Y7).
    rewrite Er, bufq_of_queue in Y2.
    assert (Eu : u32 (Cm (sl_statem s) - 1) = Z.of_nat (length l))
      by (unfold u32; rewrite Z.mod_small; lia).
    rewrite Eu in *. destruct (IH (r ++ [m]) y Y1 Y2 Y3 ltac:(lia)) as (H1 & H2 & H3 & H4 & H5 & H6).
    rewrite H1, H2, H3, H4, H5, H6, Y4, Y5, Y6, Y7, <- !app_assoc. repeat split; try done.
    f_equal. by destruct l.
Qed.

(** ** The indications *)

Definition retrieved (l : list mblk) : list event :=
  (λ m, EvPut (SL_RETRIEVED_MESSAGE_IND m)) <$> l.
(** The indications go out in order until the first one that cannot be
    allocated; [ok] is the number that can. *)
Lemma retrieval_ind_loop_step m l s :
  s.(sl_rtb) = bufq_of (m :: l) →
  ∃ x, x.(sl_rtb) = bufq_of l ∧ x.(sl_tb) = s.(sl_tb) ∧ x.(xenv) = s.(xenv) ∧
    x.(sl_statem).(tx) = s.(sl_statem).(tx) ∧ x.(sl_statem).(sn_mask) = s.(sl_statem).(sn_mask) ∧
    ∀ n, retrieval_ind_loop (S n) s =
      (let? s := sl_retrieved_message_ind m x in retrieval_ind_loop n s).
Proof.
  intros Er. pose proof (bufq_dequeue_ok (sl_rtb s) ltac:(by rewrite Er)) as Hd. rewrite Er in Hd.
  cbn [bufq_of q_list] in Hd. destruct Hd as (q & Eq & Hq & Eql).
  assert (q = bufq_of l) as -> by (rewrite <- Eql; by apply bufq_of_eq).
  exists (s <| sl_rtb := bufq_of l |> <| sl_statem; Ct := u32 (s.(sl_statem).(Ct) - 1) |>).
  repeat split. intros n. cbn [retrieval_ind_loop]. rewrite Er, Eq. done.
Qed.
Lemma retrieval_ind_loop_ok l s :
  s.(sl_rtb) = bufq_of l → s.(xenv).(e_alloc) = [] →
  ∃ s', retrieval_ind_loop (length l) s = (QR_DONE, s') ∧ s'.(sl_rtb) = bufq_of [] ∧
    s'.(xenv).(e_alloc) = [] ∧ s'.(xenv).(e_out) = s.(xenv).(e_out) ++ retrieved l ∧
    s'.(sl_tb) = s.(sl_tb) ∧ tC (tx (sl_statem s')) = tC (tx (sl_statem s)).
Proof.
  revert s; induction l as [|m l IH]; intros s Er Ha.
  - exists s. cbn. by rewrite app_nil_r.
  - destruct (retrieval_ind_loop_step m l s Er) as (x & Xr & Xb & Xe & Xt & _ & Hx).
    cbn [length]. rewrite Hx. unfold sl_retrieved_message_ind, put_ind, xalloc.
    rewrite Xe, Ha. change (QR_DONE =? 0) with true. cbv iota.
    destruct (IH (emit (EvPut (SL_RETRIEVED_MESSAGE_IND m)) x)) as (s' & E & H1 & H2 & H3 & H4 & H5).
    + exact Xr.
    + change (e_alloc (xenv x) = []). by rewrite Xe.
    + exists s'. rewrite E, H3, H5. split; [done|]. split; [done|]. split; [done|].
      rewrite H4. change (e_out (xenv (emit ?e x))) with (e_out (xenv x) ++ [e]).
      change (tx (sl_statem (emit ?e x))) with (tx (sl_statem x)).
      rewrite Xe, Xt, <- app_assoc. split; [done|]. by split.
Qed.
Lemma retrieval_ind_loop_fail l1 m l2 al s :
  s.(sl_rtb) = bufq_of (l1 ++ m :: l2) → s.(xenv).(e_alloc) = repeat true (length l1) ++ false :: al →
  ∃ s', retrieval_ind_loop (length (l1 ++ m :: l2)) s = (- ENOBUFS, s') ∧
    s'.(sl_rtb) = bufq_of l2 ∧ s'.(xenv).(e_out) = s.(xenv).(e_out) ++ retrieved l1 ∧
    s'.(xenv).(e_oq) = s.(xenv).(e_oq).
Proof.
  revert s; induction l1 as [|m1 l1 IH]; intros s Er Ha.
  - destruct (retrieval_ind_loop_step m l2 s Er) as (x & Xr & Xb & Xe & _ & _ & Hx).
    cbn [length app]. rewrite Hx. unfold sl_retrieved_message_ind, put_ind, xalloc.
    rewrite Xe, Ha. cbn [repeat length app]. change (- ENOBUFS =? 0) with false. cbv iota.
    eexists. split; [reflexivity|]. cbn [retrieved fmap list_fmap]. rewrite app_nil_r.
    split; [exact Xr|]. by rewrite <- Xe.
  - destruct (retrieval_ind_loop_step m1 (l1 ++ m :: l2) s Er) as (x & Xr & Xb & Xe & _ & _ & Hx).
    cbn [length app]. rewrite Hx. unfold sl_retrieved_message_ind, put_ind, xalloc.
    rewrite Xe, Ha. cbn [repeat length app]. change (QR_DONE =? 0) with true. cbv iota.
    destruct (IH (emit (EvPut (SL_RETRIEVED_MESSAGE_IND m1))
      (x <| xenv; e_alloc := repeat true (length l1) ++ false :: al |>)))
      as (s' & E & H1 & H2 & H3); [exact Xr|reflexivity|].
    exists s'. rewrite E, H2, H3. split; [done|]. split; [done|]. rewrite <- Xe. split; [|done].
    change (e_out (xenv (emit ?e ?y))) with (e_out (xenv y) ++ [e]). by rewrite <- app_assoc.
Qed.

(** ** The request *)

(** The messages that [fsnc] does not acknowledge, and those never sent. *)
Definition unacknowledged (fsnc : Z) (s : xp) : list mblk :=
  drop (ack_count (view_of s) fsnc) s.(sl_rtb).(q_list) ++ s.(sl_tb).(q_list).
(** The request up to the indications. *)
Lemma retrieval_prepare fsnc s :
  txc_ok (view_of s) → Z.of_nat (length s.(sl_tb).(q_list)) < 2 ^ 32 →
  ∃ x, sl_txc_retrieval_request_and_fsnc fsnc s =
      (let? s := retrieval_ind_loop (length x.(sl_rtb).(q_list)) x in
       let s := s <| sl_statem; rtb_full := false |> in
       let? s := sl_retrieval_complete_ind s in
       let s := s <| sl_statem; Cm := 0 |> in
       let s := s <| sl_statem; Ct := 0 |> in
       let s := s <| sl_statem; tx; tL; fsn := s.(sl_statem).(tx).(tC).(fsn) |> in
       let s := s <| sl_statem; tx; tN; fsn := s.(sl_statem).(tx).(tC).(fsn) |> in
       (QR_DONE, s)) ∧
    x.(sl_rtb) = bufq_of (unacknowledged fsnc s) ∧ x.(sl_tb) = bufq_of [] ∧
    x.(xenv).(e_alloc) = s.(xenv).(e_alloc) ∧
    x.(xenv).(e_out) = s.(xenv).(e_out) ++ enables s.(sl_tb).(q_list) ∧
    x.(sl_statem).(tx).(tC).(fsn) = fsnc mod (s.(sl_statem).(sn_mask) + 1).
Proof.
  intros Hv Hl. pose proof Hv as [Hm HF Hlen _ _ _ _ _ Hcm Hq Ht _ _ _ _ _].
  set (s1 := s <| sl_statem; tx; tC; fsn := FSN_add s fsnc 0 |>).
  set (kk := ack_count (view_of s) fsnc).
  assert (HM : 0 <= v_mask (view_of s)) by (destruct Hm; lia).
  assert (Htg : FSN_add s1 fsnc 1 = (v_F (view_of s) + Z.of_nat kk) mod (v_mask (view_of s) + 1)).
  { change (FSN_add s1 fsnc 1) with (Z.land (fsnc + 1) (v_mask (view_of s))).
    rewrite mask_land by done. unfold kk, ack_count.
    rewrite Z2Nat.id by (apply Z.mod_pos_bound; lia). rewrite Z.add_mod_idemp_r by lia. f_equal. lia. }
  assert (Hkk : Z.of_nat kk <= v_mask (view_of s)).
  { unfold kk, ack_count. pose proof (Z.mod_pos_bound (fsnc + 1 - v_F (view_of s)) (v_mask (view_of s) + 1)).
    lia. }
  set (K := Nat.min kk (length (q_list (v_rtb (view_of s))))).
  destruct (retrieval_ack_loop_ok K 0 K kk (length (q_list (sl_rtb s1)) + ack_fuel s1) s1 (view_of s))
    as (Hv2 & He2 & Hc2); try done.
  { symmetry. by apply acked_0. }
  { change (sl_rtb s1) with (v_rtb (view_of s)). unfold ack_fuel. lia. }
  rewrite <- Htg in Hv2, He2, Hc2.
  unfold sl_txc_retrieval_request_and_fsnc. cbv zeta. fold s1. revert Hv2 He2 Hc2.
  generalize (retrieval_ack_loop (length (q_list (sl_rtb s1)) + ack_fuel s1) (FSN_add s1 fsnc 1) s1).
  intros y Hv2 He2 Hc2.
  assert (Yr : sl_rtb y = bufq_of (drop kk (q_list (sl_rtb s)))).
  { change (sl_rtb y) with (v_rtb (view_of y)). rewrite Hv2.
    change (bufq_of (drop K (q_list (sl_rtb s))) = bufq_of (drop kk (q_list (sl_rtb s)))). f_equal.
    unfold K. change (v_rtb (view_of s)) with (sl_rtb s).
    destruct (decide (kk <= length (q_list (sl_rtb s)))%nat); [by rewrite Nat.min_l|].
    rewrite Nat.min_r by lia. by rewrite !drop_ge by lia. }
  assert (Yt : sl_tb y = bufq_of (q_list (sl_tb s))).
  { change (sl_tb y) with (v_tb (view_of y)). rewrite Hv2. by apply bufq_of_eq. }
  assert (Yc : Cm (sl_statem y) = Z.of_nat (length (q_list (sl_tb s)))).
  { change (Cm (sl_statem y)) with (v_Cm (view_of y)). rewrite Hv2.
    change (v_Cm (acked K (view_of s))) with (v_Cm (view_of s)). rewrite Hcm.
    unfold u32. apply Z.mod_small. change (v_tb (view_of s)) with (sl_tb s). lia. }
  destruct (retrieval_move_loop_ok _ _ y Yt Yr Yc Hl) as (H1 & H2 & H3 & H4 & H5 & _).
  rewrite Yt. cbn [bufq_of q_list]. revert H1 H2 H3 H4 H5.
  generalize (retrieval_move_loop (length (q_list (sl_tb s))) y). intros z H1 H2 H3 H4 H5.
  eexists. split; [reflexivity|]. split; [exact H2|]. split; [exact H1|].
  rewrite He2 in H3, H4. split; [exact H3|]. split; [exact H4|].
  change (fsn (tC (tx (sl_statem z))) = fsnc mod (sn_mask (sl_statem s) + 1)).
  rewrite H5, Hc2. change (FSN_add s fsnc 0 = fsnc mod (sn_mask (sl_statem s) + 1)).
  rewrite FSN_add_mod by exact Hm. by rewrite Z.add_0_r.
Qed.

(** C39: retrieval hands over every message once.  While memory is available, a
    retrieval request indicates, in the order they were given, the messages of
    the retransmission buffer that the sequence number of the request does not
    acknowledge and then those of the transmission buffer, then that it is
    complete; both buffers are empty and the counters zero. *)
Theorem retrieval_complete fsnc s :
  txc_ok (view_of s) → Z.of_nat (length s.(sl_tb).(q_list)) < 2 ^ 32 →
  s.(xenv).(e_alloc) = [] →
  let r := sl_txc_retrieval_request_and_fsnc fsnc s in
  r.1 = QR_DONE ∧ r.2.(sl_rtb) = bufq_of [] ∧ r.2.(sl_tb) = bufq_of [] ∧
  r.2.(sl_statem).(Ct) = 0 ∧ r.2.(sl_statem).(Cm) = 0 ∧
  r.2.(xenv).(e_out) = s.(xenv).(e_out) ++ enables s.(sl_tb).(q_list) ++
    retrieved (unacknowledged fsnc s) ++ [EvPut SL_RETRIEVAL_COMPLETE_IND] ∧
  r.2.(sl_statem).(tx).(tL).(fsn) = fsnc mod (s.(sl_statem).(sn_mask) + 1).
Proof.
  intros Hv Hl Ha. cbv zeta.
  destruct (retrieval_prepare fsnc s Hv Hl) as (x & -> & Hr & Ht & Hal & Ho & Hc).
  destruct (retrieval_ind_loop_ok _ x Hr ltac:(by rewrite Hal)) as (y & E & Yr & Ya & Yo & Yt & Yc).
  rewrite Hr. cbn [bufq_of q_list]. rewrite E. change (QR_DONE =? 0) with true. cbv iota zeta.
  unfold sl_retrieval_complete_ind, put_ind, xalloc.
  change (e_alloc (xenv (y <| sl_statem; rtb_full := false |>))) with (e_alloc (xenv y)). rewrite Ya.
  change (QR_DONE =? 0) with true. cbv iota. cbn [fst snd].
  split; [done|]. split; [exact Yr|]. split; [exact (eq_trans Yt Ht)|]. split; [done|].
  split; [done|]. split.
  - transitivity (e_out (xenv y) ++ [EvPut SL_RETRIEVAL_COMPLETE_IND]); [done|].
    by rewrite Yo, Ho, <- !app_assoc.
  - rewrite <- Hc. change (fsn (tC (tx (sl_statem y))) = fsn (tC (tx (sl_statem x)))). by rewrite Yc.
Qed.

(** A retrieval that runs out of memory loses a message.  If the indication
    of one of the messages cannot be allocated, the request fails with ENOBUFS
    and that message is neither indicated nor in a buffer any more: those before
    it were indicated, those after it wait for another request. *)
Theorem retrieval_loses_message fsnc s l1 m l2 al :
  txc_ok (view_of s) → Z.of_nat (length s.(sl_tb).(q_list)) < 2 ^ 32 →
  unacknowledged fsnc s = l1 ++ m :: l2 →
  s.(xenv).(e_alloc) = repeat true (length l1) ++ false :: al →
  let r := sl_txc_retrieval_request_and_fsnc fsnc s in
  r.1 = - ENOBUFS ∧ r.2.(sl_rtb) = bufq_of l2 ∧
  r.2.(xenv).(e_out) = s.(xenv).(e_out) ++ enables s.(sl_tb).(q_list) ++ retrieved l1.
Proof.
  intros Hv Hl Hu Ha. cbv zeta.
  destruct (retrieval_prepare fsnc s Hv Hl) as (x & -> & Hr & Ht & Hal & Ho & Hc).
  rewrite Hu in Hr. rewrite Ha in Hal.
  destruct (retrieval_ind_loop_fail l1 m l2 al x Hr Hal) as (y & E & Yr & Yo & _).
  rewrite Hr. cbn [bufq_of q_list]. rewrite E. change (- ENOBUFS =? 0) with false. cbv iota.
  cbn [fst snd]. split; [done|]. split; [done|]. by rewrite Yo, Ho, <- app_assoc.
Qed.

(** Two messages sent, one not; the far end has the first. *)
Definition ex_kept : xp :=
  arq_run [AMsg (ex_msg 1); AMsg (ex_msg 2); ASend; ASend; AMsg (ex_msg 3)] (ex_arq []).
Lemma ex_kept_ok : txc_ok (view_of ex_kept).
Proof.
  split; try (apply (bool_decide_unpack _); vm_compute; exact I); vm_compute; try done;
    try (by left); repeat constructor; auto 20 with lia.
Qed.
Lemma retrieval_complete_witness :
  retrieved (unacknowledged 0 ex_kept) =
    [EvPut (SL_RETRIEVED_MESSAGE_IND (Mblk 2 [[255; 129; 3; 2; 3; 4]]));
     EvPut (SL_RETRIEVED_MESSAGE_IND (ex_msg 3))] ∧
  (sl_txc_retrieval_request_and_fsnc 0 ex_kept).2.(sl_rtb) = bufq_of [].
Proof.
  split; [vm_compute; reflexivity|].
  apply (retrieval_complete 0 ex_kept ex_kept_ok); vm_compute; reflexivity.
Defined.
Lemma retrieval_loses_message_witness :
  (sl_txc_retrieval_request_and_fsnc 0 (ex_kept <| xenv; e_alloc := [true; false] |>)).2.(sl_rtb) =
    bufq_of [].
Proof.
  apply (retrieval_loses_message 0 (ex_kept <| xenv; e_alloc := [true; false] |>)
    [Mblk 2 [[255; 129; 3; 2; 3; 4]]] (ex_msg 3) [] []);
    [exact ex_kept_ok|vm_compute; reflexivity..].
Defined.

