(* ===== verification/Receive.v ===== *)
(** * Delivery of the received messages

    What [sl_rc_signal_unit] does to the queue of received messages: the messages
    handed to the user are those of the units whose forward sequence numbers
    follow each other, whatever else is received in between. *)
From S2P Require Import Prelude Bufq Xp Prims Timers Txc Lsc Rc LscCtl Monitors Requests Lmi Machine System.
#[local] Open Scope Z_scope.
#[local] Open Scope os7_scope.
#[local] Set Warnings "-clear-no-such-hyp".

(** ** The receiver's part of the channel

    The messages on the read queue, the next sequence number expected [X.fsn],
    the counter [Cr], what the arithmetic on numbers depends on, and the number and
    length indicator of the unit in hand. *)
Record inbox := Inbox {
  i_oq : list mblk; i_fsn : Z; i_cr : Z; i_mask : Z; i_opt : lmi_option }.
Definition inbox_of (s : xp) : inbox :=
  Inbox s.(xenv).(e_oq) s.(sl_statem).(rx).(rX).(fsn) s.(sl_statem).(Cr)
    s.(sl_statem).(sn_mask) s.(xoption).
Definition hdr_of (s : xp) : Z * Z :=
  (s.(sl_statem).(rx).(rR).(fsn), s.(sl_statem).(rx).(r_len)).
(** With them, the paths of the Soft-HDLC and its parameters. *)
Definition path_of (s : xp) :=
  (s.(xp_rx).(rx_st), s.(xp_rx).(rx_mode), s.(xp_rx).(rx_msg), s.(xp_rx).(rx_nxt),
   s.(sdt_conf),
   (s.(xp_tx).(tx_residue), s.(xp_tx).(tx_rbits), s.(xp_tx).(tx_mode))).
Definition rx_of (s : xp) := (inbox_of s, hdr_of s, path_of s).
Definition keeps (f : xp → xp) : Prop := ∀ s, rx_of (f s) = rx_of s.

(** *** Automation

    Each operation of the machines the receiver calls keeps this part.  The
    frames are proved one [let] at a time: [rx_go] follows the text of the
    operation and [rx_norm] drops the updates and calls that keep it. *)
Create Rewrite HintDb rxq.
Lemma rx_let (e : xp) (k : xp → xp) c :
  rx_of e = c → (∀ x, rx_of x = c → rx_of (k x) = c) → rx_of (let x := e in k x) = c.
Proof. intros H K. exact (K e H). Qed.
Lemma rx_let2 {B} (e : xp) (k : xp → B * xp) c :
  rx_of e = c → (∀ x, rx_of x = c → rx_of (k x).2 = c) → rx_of (let x := e in k x).2 = c.
Proof. intros H K. exact (K e H). Qed.
Lemma rx_pair {A} (e : A * xp) (k : A → xp → xp) c :
  rx_of e.2 = c → (∀ a x, rx_of x = c → rx_of (k a x) = c) →
  rx_of (let '(a, x) := e in k a x) = c.
Proof. destruct e as [a x]. intros H K. exact (K a x H). Qed.
Lemma rx_pair2 {A B} (e : A * xp) (k : A → xp → B * xp) c :
  rx_of e.2 = c → (∀ a x, rx_of x = c → rx_of (k a x).2 = c) →
  rx_of (let '(a, x) := e in k a x).2 = c.
Proof. destruct e as [a x]. intros H K. exact (K a x H). Qed.
Ltac rx_norm := cbn [fst snd]; repeat (proj_field rx_of || (progress autorewrite with rxq)).
Ltac rx_go :=
  lazymatch goal with
  | |- rx_of (let x := ?e in @?k x) = ?c =>
      lazymatch type of e with
      | xp => refine (rx_let e k c _ _); [rx_go | intros ? ?; cbv beta; rx_go]
      | _ => change (rx_of (k e) = c); cbv beta; rx_go
      end
  | |- rx_of (let x := ?e in @?k x).2 = ?c =>
      lazymatch type of e with
      | xp => refine (rx_let2 e k c _ _); [rx_go | intros ? ?; cbv beta; rx_go]
      | _ => change (rx_of (k e).2 = c); cbv beta; rx_go
      end
  | |- rx_of (match ?e with (a, x) => @?k a x end) = ?c =>
      lazymatch type of e with
      | (_ * xp)%type => refine (rx_pair e k c _ _); [rx_go | intros ? ? ?; cbv beta; rx_go]
      | _ => destruct e; rx_go
      end
  | |- rx_of (match ?e with (a, x) => @?k a x end).2 = ?c =>
      lazymatch type of e with
      | (_ * xp)%type => refine (rx_pair2 e k c _ _); [rx_go | intros ? ? ?; cbv beta; rx_go]
      | _ => destruct e; rx_go
      end
  | |- rx_of (match ?e with _ => _ end) = ?c => case_match; rx_go
  | |- rx_of (match ?e with _ => _ end).2 = ?c => case_match; rx_go
  | |- rx_of (_, ?x).2 = ?c => change (rx_of x = c); rx_go
  | |- _ => rx_norm; first [reflexivity | assumption]
  end.
Ltac rx_frame f := let s := fresh "s" in intros s; cbv delta [f] beta; rx_go.

(** *** The effects and the timers *)

Lemma rx_alloc s : rx_of (xalloc s).2 = rx_of s.
Proof. unfold xalloc. repeat case_match; done. Qed.
Lemma rx_canput s : rx_of (xcanput s).2 = rx_of s.
Proof. unfold xcanput. case_match; done. Qed.
Lemma rx_emit e s : rx_of (emit e s) = rx_of s. Proof. done. Qed.
#[export] Hint Rewrite rx_alloc rx_canput rx_emit : rxq.
Lemma rx_put_ind p s : rx_of (put_ind p s).2 = rx_of s.
Proof. cbv delta [put_ind] beta. rx_go. Qed.
Lemma rx_stop t s : rx_of (xp_timer_stop t s) = rx_of s.
Proof. by destruct t. Qed.
Lemma rx_start t s : rx_of (xp_timer_start t s) = rx_of s.
Proof. by destruct t. Qed.
#[export] Hint Rewrite rx_put_ind rx_stop rx_start : rxq.

(** *** Transmission control *)

Lemma rx_cc_normal : keeps sl_cc_normal. Proof. rx_frame sl_cc_normal. Qed.
#[export] Hint Rewrite rx_cc_normal : rxq.
Lemma rx_cc_stop : keeps sl_cc_stop. Proof. rx_frame sl_cc_stop. Qed.
Lemma rx_rc_stop : keeps sl_rc_stop. Proof. rx_frame sl_rc_stop. Qed.
Lemma rx_aerm_stop : keeps sl_aerm_stop. Proof. rx_frame sl_aerm_stop. Qed.
Lemma rx_send_sios : keeps sl_txc_send_sios. Proof. rx_frame sl_txc_send_sios. Qed.
Lemma rx_poc_stop : keeps sl_poc_stop. Proof. rx_frame sl_poc_stop. Qed.
Lemma rx_eim_stop : keeps sl_eim_stop. Proof. rx_frame sl_eim_stop. Qed.
#[export] Hint Rewrite rx_cc_stop rx_rc_stop rx_aerm_stop rx_send_sios rx_poc_stop
  rx_eim_stop : rxq.
Lemma rx_iac_stop : keeps sl_iac_stop. Proof. rx_frame sl_iac_stop. Qed.
Lemma rx_suerm_stop : keeps sl_suerm_stop. Proof. rx_frame sl_suerm_stop. Qed.
#[export] Hint Rewrite rx_iac_stop rx_suerm_stop : rxq.
Lemma rx_link_failure r s : rx_of (sl_lsc_link_failure r s).2 = rx_of s.
Proof. cbv delta [sl_lsc_link_failure sl_out_of_service_ind] beta. rx_go. Qed.
Lemma rx_send_sib : keeps sl_txc_send_sib. Proof. rx_frame sl_txc_send_sib. Qed.
Lemma rx_send_sio : keeps sl_txc_send_sio. Proof. rx_frame sl_txc_send_sio. Qed.
Lemma rx_send_sin : keeps sl_txc_send_sin. Proof. rx_frame sl_txc_send_sin. Qed.
Lemma rx_send_sie : keeps sl_txc_send_sie. Proof. rx_frame sl_txc_send_sie. Qed.
Lemma rx_send_sipo : keeps sl_txc_send_sipo. Proof. rx_frame sl_txc_send_sipo. Qed.
Lemma rx_send_msu : keeps sl_txc_send_msu. Proof. rx_frame sl_txc_send_msu. Qed.
Lemma rx_send_fisu : keeps sl_txc_send_fisu. Proof. rx_frame sl_txc_send_fisu. Qed.
Lemma rx_fsnx_value : keeps sl_txc_fsnx_value. Proof. rx_frame sl_txc_fsnx_value. Qed.
Lemma rx_nack_to_be_sent : keeps sl_txc_nack_to_be_sent.
Proof. rx_frame sl_txc_nack_to_be_sent. Qed.
#[export] Hint Rewrite rx_link_failure rx_send_sib rx_send_sio rx_send_sin rx_send_sie
  rx_send_sipo rx_send_msu rx_send_fisu rx_fsnx_value rx_nack_to_be_sent : rxq.
Lemma rx_rtb_cleared s : rx_of (sl_lsc_rtb_cleared s).2 = rx_of s.
Proof.
  cbv delta [sl_lsc_rtb_cleared sl_remote_processor_recovered_ind sl_rtb_cleared_ind] beta.
  rx_go.
Qed.
Lemma rx_congestion_switch o m : keeps (congestion_switch o m).
Proof.
  intros s. cbv delta [congestion_switch set_cong set_disc] beta. cbv zeta.
  repeat case_match; reflexivity.
Qed.
#[export] Hint Rewrite rx_rtb_cleared rx_congestion_switch : rxq.
Lemma rx_check_congestion : keeps sl_check_congestion.
Proof.
  intros s. unfold sl_check_congestion. cbv zeta.
  cbv delta [sl_link_congestion_ceased_ind sl_link_congested_ind] beta.
  repeat case_match; rx_norm; reflexivity.
Qed.
Lemma rx_ack_loop n t : keeps (ack_loop n t).
Proof.
  induction n as [|n IH]; intros s; [done|]. cbn [ack_loop]. cbv zeta.
  case_match; rewrite ?IH; done.
Qed.
Lemma rx_sib_clear : keeps sib_clear. Proof. rx_frame sib_clear. Qed.
#[export] Hint Rewrite rx_check_congestion rx_ack_loop rx_sib_clear : rxq.
Lemma rx_restart : keeps txc_restart. Proof. rx_frame txc_restart. Qed.
Lemma rx_ack_timer : keeps ack_timer. Proof. rx_frame ack_timer. Qed.
Lemma rx_ack_not_full : keeps ack_not_full. Proof. rx_frame ack_not_full. Qed.
Lemma rx_ack_z : keeps ack_z. Proof. rx_frame ack_z. Qed.
#[export] Hint Rewrite rx_restart rx_ack_timer rx_ack_not_full rx_ack_z : rxq.
Lemma rx_ack : keeps txc_ack. Proof. rx_frame txc_ack. Qed.
Lemma rx_nack : keeps txc_nack. Proof. rx_frame txc_nack. Qed.
#[export] Hint Rewrite rx_ack rx_nack : rxq.
Lemma rx_bsnr_and_bibr : keeps sl_txc_bsnr_and_bibr.
Proof.
  intros s. unfold sl_txc_bsnr_and_bibr. cbv zeta. repeat case_match; rx_norm; reflexivity.
Qed.
Lemma rx_sib_received : keeps sl_txc_sib_received. Proof. rx_frame sl_txc_sib_received. Qed.
#[export] Hint Rewrite rx_bsnr_and_bibr rx_sib_received : rxq.

(** *** Link state control *)

Lemma rx_cc_busy : keeps sl_cc_busy. Proof. rx_frame sl_cc_busy. Qed.
#[export] Hint Rewrite rx_cc_busy : rxq.
Lemma rx_congestion_discard : keeps sl_rc_congestion_discard.
Proof. rx_frame sl_rc_congestion_discard. Qed.
Lemma rx_congestion_accept : keeps sl_rc_congestion_accept.
Proof. rx_frame sl_rc_congestion_accept. Qed.
Lemma rx_no_congestion : keeps sl_rc_no_congestion.
Proof. rx_frame sl_rc_no_congestion. Qed.
Lemma rx_lsc_sio : keeps sl_lsc_sio.
Proof. intros s. unfold sl_lsc_sio, sl_out_of_service_ind. cbv zeta. case_match; rx_norm; done. Qed.
Lemma rx_not_possible s : rx_of (sl_lsc_alignment_not_possible s).2 = rx_of s.
Proof. cbv delta [sl_lsc_alignment_not_possible sl_out_of_service_ind] beta. rx_go. Qed.
#[export] Hint Rewrite rx_congestion_discard rx_congestion_accept rx_no_congestion rx_lsc_sio
  rx_not_possible : rxq.
Lemma rx_iac_sio : keeps sl_iac_sio. Proof. rx_frame sl_iac_sio. Qed.
Lemma rx_iac_sios : keeps sl_iac_sios. Proof. rx_frame sl_iac_sios. Qed.
Lemma rx_lsc_sios : keeps sl_lsc_sios.
Proof.
  intros s. unfold sl_lsc_sios, sl_out_of_service_ind. cbv zeta. case_match; rx_norm; done.
Qed.
Lemma rx_rc_reject : keeps sl_rc_reject_msu_fisu. Proof. rx_frame sl_rc_reject_msu_fisu. Qed.
Lemma rx_rc_accept : keeps sl_rc_accept_msu_fisu. Proof. rx_frame sl_rc_accept_msu_fisu. Qed.
#[export] Hint Rewrite rx_iac_sio rx_iac_sios rx_lsc_sios rx_rc_reject rx_rc_accept : rxq.
Lemma rx_no_po : keeps sl_lsc_no_processor_outage. Proof. rx_frame sl_lsc_no_processor_outage. Qed.
#[export] Hint Rewrite rx_no_po : rxq.
Lemma rx_poc_rpr : keeps sl_poc_remote_processor_recovered.
Proof. rx_frame sl_poc_remote_processor_recovered. Qed.
Lemma rx_poc_rpo : keeps sl_poc_remote_processor_outage.
Proof. rx_frame sl_poc_remote_processor_outage. Qed.
#[export] Hint Rewrite rx_poc_rpr rx_poc_rpo : rxq.
Lemma rx_fisu_msu_received s : rx_of (sl_lsc_fisu_msu_received s).2 = rx_of s.
Proof.
  cbv delta [sl_lsc_fisu_msu_received sl_in_service_ind sl_remote_processor_recovered_ind] beta.
  rx_go.
Qed.
Lemma rx_lsc_sib : keeps sl_lsc_sib. Proof. rx_frame sl_lsc_sib. Qed.
Lemma rx_align_fsnx : keeps sl_rc_align_fsnx. Proof. rx_frame sl_rc_align_fsnx. Qed.
#[export] Hint Rewrite rx_fisu_msu_received rx_lsc_sib rx_align_fsnx : rxq.
Lemma rx_lsc_sipo s : rx_of (sl_lsc_sipo s).2 = rx_of s.
Proof. cbv delta [sl_lsc_sipo sl_remote_processor_outage_ind] beta. rx_go. Qed.
Lemma rx_aerm_start : keeps sl_aerm_start. Proof. rx_frame sl_aerm_start. Qed.
Lemma rx_tie : keeps sl_aerm_set_ti_to_tie. Proof. rx_frame sl_aerm_set_ti_to_tie. Qed.
#[export] Hint Rewrite rx_lsc_sipo rx_aerm_start rx_tie : rxq.
Lemma rx_lsc_sin : keeps sl_lsc_sin.
Proof.
  intros s. unfold sl_lsc_sin, sl_out_of_service_ind. cbv zeta. case_match; rx_norm; done.
Qed.
Lemma rx_lsc_sie : keeps sl_lsc_sie.
Proof.
  intros s. unfold sl_lsc_sie, sl_out_of_service_ind. cbv zeta. case_match; rx_norm; done.
Qed.
Lemma rx_iac_sin : keeps sl_iac_sin. Proof. rx_frame sl_iac_sin. Qed.
Lemma rx_iac_sie : keeps sl_iac_sie. Proof. rx_frame sl_iac_sie. Qed.
#[export] Hint Rewrite rx_lsc_sin rx_lsc_sie rx_iac_sin rx_iac_sie : rxq.

(** *** Reception control *)

Lemma rx_rb_congestion : keeps sl_rb_congestion_function.
Proof. cbv delta [sl_rb_congestion_function or_not_canput] beta. intros s. rx_go. Qed.
Lemma rx_set_rF : keeps set_rF. Proof. done. Qed.
#[export] Hint Rewrite rx_rb_congestion rx_set_rF : rxq.
Lemma rx_lssu : keeps rc_lssu.
Proof. intros s. unfold rc_lssu. cbv zeta. repeat case_match; rx_norm; done. Qed.
Lemma rx_acknowledge : keeps rc_acknowledge.
Proof. intros s. unfold rc_acknowledge. cbv zeta. rx_norm. done. Qed.
Lemma rx_check_len n m : keeps (check_len n m).
Proof. intros s. unfold check_len. by case_match. Qed.
#[export] Hint Rewrite rx_lssu rx_acknowledge rx_check_len : rxq.

(** *** Parsing

    Parsing only sets the numbers of the unit in hand; what it reads depends on
    the unit and the format of the sequence numbers. *)
Definition unread (s : xp) : xp :=
  s <| sl_statem; rx; rR := Sni 0 0 0 0 |> <| sl_statem; rx; r_len := 0 |>
    <| sl_statem; rx; r_sio := 0 |> <| xenv; e_fault := false |>.
Lemma unread_check_len n m s : unread (check_len n m s) = unread s.
Proof. unfold check_len. by case_match. Qed.
Lemma unread_header m s : unread (rc_parse_header m s).2 = unread s.
Proof.
  unfold rc_parse_header. cbv zeta. case_match; cbn [snd];
    rewrite <- (unread_check_len (if is_xsn s then 4 else 3) m s), H; done.
Qed.
Lemma unread_sio m s : unread (rc_parse_sio m s).2 = unread s.
Proof. unfold rc_parse_sio. cbn [snd]. rewrite <- (unread_check_len 1 m s). done. Qed.
Lemma unread_parse m s : unread (rc_parse m s).2 = unread s.
Proof.
  unfold rc_parse. destruct (rc_parse_header m s) as [m1 s1] eqn:E1.
  pose proof (unread_header m s) as H1. rewrite E1 in H1. cbn [snd] in H1. rewrite <- H1.
  set (p := if _ =? 1 then _ else _).
  assert (H2 : unread p.2 = unread s1) by (unfold p; case_match; [apply unread_sio|done]).
  destruct p as [m2 s2]. cbn [snd] in H2. rewrite <- H2.
  case_match; [|done]. destruct (rc_parse_sio m2 s2) as [m3 s3] eqn:E3.
  rewrite unread_sio, <- (unread_sio m2 s2), E3. done.
Qed.

(** What a unit says: its forward sequence number, its length indicator and the
    message after the header. *)
Record su := Su { su_fsn : Z; su_len : Z; su_body : mblk }.
Definition su_of (s : xp) (mp : mblk) : su :=
  let '(b, p) := rc_parse mp s in
  Su p.(sl_statem).(rx).(rR).(fsn) p.(sl_statem).(rx).(r_len) b.
Lemma hdr_check_len n m s : hdr_of (check_len n m s) = hdr_of s.
Proof. unfold check_len. by case_match. Qed.
Lemma hdr_sio m s : hdr_of (rc_parse_sio m s).2 = hdr_of s.
Proof. unfold rc_parse_sio. cbn [snd]. rewrite <- (hdr_check_len 1 m s). done. Qed.
Lemma parse_hdr m s : hdr_of (rc_parse m s).2 = hdr_of (rc_parse_header m s).2.
Proof.
  unfold rc_parse. destruct (rc_parse_header m s) as [m1 s1]. cbn [snd].
  set (p := if _ =? 1 then _ else _).
  assert (H2 : hdr_of p.2 = hdr_of s1) by (unfold p; case_match; [apply hdr_sio|done]).
  destruct p as [m2 s2]. cbn [snd] in H2. rewrite <- H2.
  case_match; [|done]. destruct (rc_parse_sio m2 s2) as [m3 s3] eqn:E3.
  rewrite hdr_sio, <- (hdr_sio m2 s2), E3. done.
Qed.
Lemma parse_body m s :
  (rc_parse m s).1 =
  let n := (hdr_of (rc_parse_header m s).2).2 in
  if n =? 1 then skip 1 (skip 3 m) else if n =? 2 then skip 1 (skip 1 (skip 3 m)) else skip 3 m.
Proof.
  unfold rc_parse. destruct (rc_parse_header m s) as [m1 s1] eqn:E1.
  assert (Em : m1 = skip 3 m).
  { change m1 with (m1, s1).1. rewrite <- E1. unfold rc_parse_header. by case_match. }
  subst m1. cbn [snd]. cbv zeta. unfold hdr_of. cbn [snd].
  destruct (Z.eqb_spec (r_len (rx (sl_statem s1))) 1) as [E|E].
  - pose proof (f_equal snd (hdr_sio (skip 3 m) s1)) as H. unfold hdr_of in H. cbn [snd] in H.
    destruct (rc_parse_sio (skip 3 m) s1) as [m2 s2] eqn:E2. cbn [snd] in H.
    rewrite H, E. change (1 =? 2) with false. cbv iota. cbn [fst].
    change m2 with (m2, s2).1. by rewrite <- E2.
  - case_match; [|done]. by destruct (rc_parse_sio (skip 3 m) s1) as [m2 s2] eqn:E2;
      injection E2 as <- <-.
Qed.
Lemma su_of_format s t mp : xoption s = xoption t → su_of s mp = su_of t mp.
Proof.
  intros E.
  assert (H : hdr_of (rc_parse_header mp s).2 = hdr_of (rc_parse_header mp t).2).
  { unfold rc_parse_header, is_xsn, popt_has. rewrite E. cbv zeta. by case_match. }
  unfold su_of. pose proof (parse_hdr mp s) as Hs. pose proof (parse_hdr mp t) as Ht.
  pose proof (parse_body mp s) as Bs. pose proof (parse_body mp t) as Bt.
  destruct (rc_parse mp s) as [b p], (rc_parse mp t) as [b' p']. cbn [fst snd] in *.
  rewrite H in Hs, Bs. cbv zeta in *. unfold hdr_of in Hs at 1, Ht at 1.
  rewrite <- Ht in Hs. injection Hs as -> ->. by rewrite Bs, Bt.
Qed.

(** ** One unit *)

(** The inbox after message [b] was accepted. *)
Definition took (b : mblk) (q : inbox) : inbox :=
  Inbox (q.(i_oq) ++ [b]) (Z.land (q.(i_fsn) + 1) q.(i_mask)) (u32 (q.(i_cr) + 1))
    q.(i_mask) q.(i_opt).
Definition takes (b : mblk) (s s' : xp) : Prop :=
  (inbox_of s' = inbox_of s ∨ (rc_expected s = true ∧ inbox_of s' = took b (inbox_of s))) ∧
  path_of s' = path_of s.
Lemma rx_keeps_path s t : rx_of s = rx_of t → path_of s = path_of t.
Proof. intros H. exact (f_equal snd H). Qed.
Lemma rx_inbox s t : rx_of s = rx_of t → inbox_of s = inbox_of t.
Proof. intros H. exact (f_equal (λ p, p.1.1) H). Qed.
Lemma rx_expected s t : rx_of s = rx_of t → rc_expected s = rc_expected t.
Proof.
  intros H. unfold rc_expected.
  change (rX (rx (sl_statem s))).(fsn) with (rx_of s).1.1.(i_fsn).
  change (rR (rx (sl_statem s))).(fsn) with (rx_of s).1.2.1.
  change (r_len (rx (sl_statem s))) with (rx_of s).1.2.2. by rewrite H.
Qed.
Lemma takes_rx b s t : rx_of t = rx_of s → takes b s t.
Proof. intros H. split; [left; by apply rx_inbox|by apply rx_keeps_path]. Qed.
Lemma takes_from b s t t' : rx_of t = rx_of s → takes b t t' → takes b s t'.
Proof.
  intros H Ht. unfold takes in *.
  rewrite (rx_inbox _ _ H), (rx_expected _ _ H), (rx_keeps_path _ _ H) in Ht. exact Ht.
Qed.
Lemma deliver_takes b s x :
  rc_expected s = true → inbox_of x = inbox_of (rc_next_fsnx s) → path_of x = path_of s →
  takes b s (rc_deliver b x).
Proof.
  intros He Hx Hp. split.
  2: { rewrite <- Hp. unfold rc_deliver. cbv zeta.
       case_match; [by rewrite (rx_keeps_path _ _ (rx_cc_busy _))|by rewrite (rx_keeps_path _ _ (rx_fsnx_value _))]. }
  right. split; [exact He|].
  change (took b (inbox_of s)) with
    ((λ q, Inbox (q.(i_oq) ++ [b]) q.(i_fsn) (u32 (q.(i_cr) + 1)) q.(i_mask) q.(i_opt))
       (inbox_of (rc_next_fsnx s))).
  rewrite <- Hx. unfold rc_deliver. cbv zeta.
  case_match; [rewrite (rx_inbox _ _ (rx_cc_busy _))|rewrite (rx_inbox _ _ (rx_fsnx_value _))]; done.
Qed.
Lemma pcr_takes b s : takes b s (rc_pcr b s).
Proof.
  unfold rc_pcr. cbv zeta. apply (takes_from b s (rc_acknowledge s)); [apply rx_acknowledge|].
  generalize (rc_acknowledge s). clear s. intros s.
  case_match; [by apply takes_rx|].
  apply (takes_from b s (sl_rb_congestion_function s)); [apply rx_rb_congestion|].
  generalize (sl_rb_congestion_function s). clear s H. intros s.
  case_match; [apply takes_rx, rx_cc_busy|]. case_match; [|by apply takes_rx].
  by apply deliver_takes.
Qed.
Lemma basic_accept_takes b s : takes b s (rc_basic_accept b s).
Proof.
  unfold rc_basic_accept. cbv zeta.
  apply (takes_from b s (rc_acknowledge s)); [apply rx_acknowledge|].
  generalize (rc_acknowledge s). clear s. intros s.
  case_match; [by apply takes_rx|].
  apply (takes_from b s (sl_rb_congestion_function s)); [apply rx_rb_congestion|].
  generalize (sl_rb_congestion_function s). clear s H. intros s.
  case_match; [apply takes_rx; by rewrite rx_cc_busy|].
  case_match eqn:He.
  - by apply deliver_takes.
  - case_match; [by apply takes_rx|]. case_match; apply takes_rx.
    + by rewrite rx_cc_busy.
    + rx_norm. apply rx_nack_to_be_sent.
Qed.
Lemma basic_takes b s : takes b s (rc_basic b s).
Proof.
  unfold rc_basic. cbv zeta. case_match; [case_match; [case_match|]|case_match; [|case_match]].
  - eapply takes_from; [|apply basic_accept_takes]. done.
  - by apply takes_rx.
  - apply basic_accept_takes.
  - apply takes_rx, rx_link_failure.
  - apply takes_rx. rewrite rx_set_rF. apply rx_bsnr_and_bibr.
  - by apply takes_rx.
Qed.
Lemma fisu_msu_takes b s : takes b s (rc_fisu_msu b s).
Proof.
  assert (Hgo : ∀ t, takes b t (if is_pcr t then rc_pcr b t else rc_basic b t)).
  { intros t. case_match; [apply pcr_takes|apply basic_takes]. }
  unfold rc_fisu_msu. cbv zeta. case_match; case_match.
  - apply takes_rx. rx_norm. reflexivity.
  - by apply takes_rx.
  - case_match; [|by apply takes_rx]. by eapply takes_from; [|apply Hgo].
  - apply Hgo.
Qed.
Lemma unread_inbox s t : unread s = unread t → inbox_of s = inbox_of t.
Proof.
  intros H. change (inbox_of s) with (inbox_of (unread s)). by rewrite H.
Qed.
Lemma unread_path s t : unread s = unread t → path_of s = path_of t.
Proof.
  intros H. change (path_of s) with (path_of (unread s)). by rewrite H.
Qed.
(** A unit is dropped, or it is the message expected and is put on the queue. *)
Lemma signal_unit_takes mp s :
  let u := su_of s mp in
  (inbox_of (sl_rc_signal_unit mp s) = inbox_of s ∨
   (u.(su_fsn) = s.(sl_statem).(rx).(rX).(fsn) ∧ 2 < u.(su_len) ∧
    inbox_of (sl_rc_signal_unit mp s) = took u.(su_body) (inbox_of s))) ∧
  path_of (sl_rc_signal_unit mp s) = path_of s.
Proof.
  cbv zeta. unfold sl_rc_signal_unit. case_match; [split; [by left|done]|].
  unfold su_of. pose proof (unread_inbox _ _ (unread_parse mp s)) as Hp.
  pose proof (unread_path _ _ (unread_parse mp s)) as Hq.
  destruct (rc_parse mp s) as [b p]. cbn [snd] in Hp, Hq. cbv zeta.
  case_match.
  { split; [left; rewrite <- Hp; apply rx_inbox, rx_lssu|].
    rewrite <- Hq. apply rx_keeps_path, rx_lssu. }
  destruct (fisu_msu_takes b p) as [Ht Hpath]. split; [|by rewrite Hpath].
  destruct Ht as [E|[He E]]; rewrite Hp in E; [by left|right].
  unfold rc_expected in He. rewrite andb_true_iff, Z.eqb_eq, Z.ltb_lt in He.
  split; [|split; [apply He|exact E]]. cbn [su_fsn].
  rewrite (proj1 He). exact (f_equal i_fsn Hp).
Qed.

(** ** What happens between two units

    Nothing a channel does between two units touches the inbox: frames sent and
    frames in error, timers that expire, messages of the user. *)

Lemma rx_new_msg s : rx_of (new_msg s).2 = rx_of s.
Proof. cbv delta [new_msg newid] beta. rx_go. Qed.
#[export] Hint Rewrite rx_new_msg : rxq.
Lemma rx_dupmsg m s : rx_of (dupmsg m s).2 = rx_of s.
Proof. cbv delta [dupmsg] beta. rx_go. Qed.
Lemma rx_z_deref s : rx_of (z_deref s).2 = rx_of s.
Proof. unfold z_deref. repeat case_match; done. Qed.
Lemma rx_set_bsn : keeps set_bsn. Proof. done. Qed.
#[export] Hint Rewrite rx_dupmsg rx_z_deref rx_set_bsn : rxq.
Lemma rx_send_lssu s : rx_of (txc_send_lssu s).2 = rx_of s.
Proof. cbv delta [txc_send_lssu] beta. rx_go. Qed.
Lemma rx_send_fisu_unit s : rx_of (txc_send_fisu s).2 = rx_of s.
Proof. cbv delta [txc_send_fisu] beta. rx_go. Qed.
Lemma rx_daedt_msu i m s : rx_of (sl_daedt_msu i m s).2 = rx_of s.
Proof. unfold sl_daedt_msu. cbv zeta. cbn [snd]. rx_norm. by case_match. Qed.
Lemma rx_resend_number p : keeps (resend_number p).
Proof. intros s. cbv delta [resend_number] beta. rx_go. Qed.
Lemma rx_resend_end : keeps resend_end. Proof. rx_frame resend_end. Qed.
Lemma rx_send_new_number : keeps send_new_number.
Proof. cbv delta [send_new_number qenable_iq] beta. intros s. rx_go. Qed.
Lemma rx_send_new_full p : keeps (send_new_full p).
Proof. intros s. unfold send_new_full. cbv zeta. repeat case_match; rx_norm; reflexivity. Qed.
Lemma rx_fsnt : keeps sl_rc_fsnt_value. Proof. done. Qed.
#[export] Hint Rewrite rx_send_lssu rx_send_fisu_unit rx_daedt_msu rx_resend_number rx_resend_end
  rx_send_new_number rx_send_new_full rx_fsnt : rxq.
Lemma rx_send_new_move m : keeps (send_new_move m).
Proof. intros s. cbv delta [send_new_move] beta. rx_go. Qed.
#[export] Hint Rewrite rx_send_new_move : rxq.
Lemma rx_resend p b m s : rx_of (txc_resend p b m s).2 = rx_of s.
Proof. cbv delta [txc_resend] beta. rx_go. Qed.
#[export] Hint Rewrite rx_resend : rxq.
Lemma rx_retransmit p s : rx_of (txc_retransmit p s).2 = rx_of s.
Proof. cbv delta [txc_retransmit] beta. rx_go. Qed.
Lemma rx_send_new p s : rx_of (txc_send_new p s).2 = rx_of s.
Proof. cbv delta [txc_send_new] beta. rx_go. Qed.
#[export] Hint Rewrite rx_retransmit rx_send_new : rxq.
Lemma rx_txc_request s : rx_of (sl_txc_transmission_request s).2 = rx_of s.
Proof.
  unfold sl_txc_transmission_request. cbv zeta. repeat case_match; rx_norm; reflexivity.
Qed.
#[export] Hint Rewrite rx_txc_request : rxq.
Lemma rx_incr_sdt f `{!Setter f} : keeps (incr_sdt f).
Proof. done. Qed.
#[export] Hint Rewrite @rx_incr_sdt : rxq.
Lemma rx_sdt_request s : rx_of (sdt_transmission_request s).2 = rx_of s.
Proof.
  cbv delta [sdt_transmission_request qenable_iq] beta.
  destruct (bufq_dequeue (sdt_tb s)) as [[m|] q]; rx_go.
Qed.
#[export] Hint Rewrite rx_sdt_request : rxq.
Lemma rx_daedt_request s : rx_of (sl_daedt_transmission_request s).2 = rx_of s.
Proof. cbv delta [sl_daedt_transmission_request qenable_iq] beta. rx_go. Qed.

(** *** Timers and monitors *)

Lemma rx_eim_start : keeps sl_eim_start. Proof. rx_frame sl_eim_start. Qed.
Lemma rx_poc_lpo : keeps sl_poc_local_processor_outage.
Proof. rx_frame sl_poc_local_processor_outage. Qed.
#[export] Hint Rewrite rx_eim_start rx_poc_lpo : rxq.
Lemma rx_suerm_start : keeps sl_suerm_start. Proof. rx_frame sl_suerm_start. Qed.
#[export] Hint Rewrite rx_suerm_start : rxq.
Lemma rx_alignment_complete : keeps sl_lsc_alignment_complete.
Proof. rx_frame sl_lsc_alignment_complete. Qed.
#[export] Hint Rewrite rx_alignment_complete : rxq.
Lemma rx_t1 s : rx_of (xp_t1_timeout s).2 = rx_of s.
Proof. cbv delta [xp_t1_timeout sl_out_of_service_ind] beta. rx_go. Qed.
Lemma rx_t2 s : rx_of (xp_t2_timeout s).2 = rx_of s.
Proof. cbv delta [xp_t2_timeout] beta. rx_go. Qed.
Lemma rx_t3 s : rx_of (xp_t3_timeout s).2 = rx_of s.
Proof. cbv delta [xp_t3_timeout] beta. rx_go. Qed.
Lemma rx_t4 s : rx_of (xp_t4_timeout s).2 = rx_of s.
Proof. cbv delta [xp_t4_timeout] beta. rx_go. Qed.
Lemma rx_t5 s : rx_of (xp_t5_timeout s).2 = rx_of s.
Proof. cbv delta [xp_t5_timeout] beta. rx_go. Qed.
Lemma rx_t6 s : rx_of (xp_t6_timeout s).2 = rx_of s.
Proof. cbv delta [xp_t6_timeout] beta. rx_go. Qed.
Lemma rx_t7 s : rx_of (xp_t7_timeout s).2 = rx_of s.
Proof. cbv delta [xp_t7_timeout] beta. rx_go. Qed.
Lemma rx_eim_fall : keeps eim_fall. Proof. rx_frame eim_fall. Qed.
Lemma rx_eim_rise s : rx_of (eim_rise s).2 = rx_of s.
Proof. cbv delta [eim_rise] beta. rx_go. Qed.
#[export] Hint Rewrite rx_eim_fall rx_eim_rise : rxq.
Lemma rx_t8 s : rx_of (xp_t8_timeout s).2 = rx_of s.
Proof. cbv delta [xp_t8_timeout] beta. rx_go. Qed.
Lemma rx_set_toid t v : keeps (set_toid t v).
Proof. intros s. by destruct t. Qed.
#[export] Hint Rewrite rx_t1 rx_t2 rx_t3 rx_t4 rx_t5 rx_t6 rx_t7 rx_t8 rx_set_toid : rxq.
Lemma rx_do_timeout t f b :
  (∀ s, rx_of (f s).2 = rx_of s) → keeps (ss7_do_timeout t f b).
Proof.
  intros Hf s. unfold ss7_do_timeout. cbv zeta. case_match; [|done]. case_match; [|rx_go].
  pose proof (Hf (set_toid t None s)) as E. destruct (f (set_toid t None s)) as [err y].
  cbn [snd] in E. case_match; rx_norm; rewrite E; apply rx_set_toid.
Qed.
Lemma rx_expiry t b : keeps (xp_expiry t b).
Proof.
  intros s. destruct t; try done; apply rx_do_timeout; intros x; rx_norm; reflexivity.
Qed.
Lemma rx_iac_abort_proving : keeps sl_iac_abort_proving. Proof. rx_frame sl_iac_abort_proving. Qed.
Lemma rx_iac_correct_su : keeps sl_iac_correct_su. Proof. rx_frame sl_iac_correct_su. Qed.
#[export] Hint Rewrite rx_expiry rx_iac_abort_proving rx_iac_correct_su : rxq.
Lemma rx_aerm_error : keeps sl_aerm_su_in_error. Proof. rx_frame sl_aerm_su_in_error. Qed.
Lemma rx_aerm_correct : keeps sl_aerm_correct_su. Proof. rx_frame sl_aerm_correct_su. Qed.
Lemma rx_count_su : keeps suerm_count_su. Proof. rx_frame suerm_count_su. Qed.
#[export] Hint Rewrite rx_aerm_error rx_aerm_correct rx_count_su : rxq.
Lemma rx_suerm_error : keeps sl_suerm_su_in_error. Proof. rx_frame sl_suerm_su_in_error. Qed.
Lemma rx_suerm_correct : keeps sl_suerm_correct_su. Proof. rx_frame sl_suerm_correct_su. Qed.
Lemma rx_eim_error : keeps sl_eim_su_in_error. Proof. rx_frame sl_eim_su_in_error. Qed.
Lemma rx_eim_correct : keeps sl_eim_correct_su. Proof. rx_frame sl_eim_correct_su. Qed.
#[export] Hint Rewrite rx_suerm_error rx_suerm_correct rx_eim_error rx_eim_correct : rxq.
Lemma rx_correct_su : keeps sl_daedr_correct_su. Proof. rx_frame sl_daedr_correct_su. Qed.
Lemma rx_su_in_error : keeps sl_daedr_su_in_error. Proof. rx_frame sl_daedr_su_in_error. Qed.
#[export] Hint Rewrite rx_correct_su rx_su_in_error : rxq.
Lemma rx_message m : keeps (sl_txc_message_for_transmission m).
Proof. rx_frame sl_txc_message_for_transmission. Qed.
#[export] Hint Rewrite rx_message : rxq.
Lemma rx_pdu w s : rx_of (sl_lsc_pdu w s).2 = rx_of s.
Proof.
  unfold sl_lsc_pdu. case_match; [done|]. case_match; [case_match|].
  - rx_norm. done.
  - destruct (new_msg s) as [i x] eqn:E. pose proof (rx_new_msg s) as Hn. rewrite E in Hn.
    cbn [snd] in Hn. case_match; rx_norm; exact Hn.
  - repeat case_match; rx_norm; done.
Qed.

(** ** Runs *)

(** A correct frame, a frame in error, a frame to send, a timer that expires
    ([free] as in [ss7_do_timeout]), a message of the user. *)
Inductive rx_event :=
  RUnit (mp : mblk) | RBad | RSend | RExpire (t : timer) (free : bool) | RMsg (w : wmsg).
Definition rx_exec (e : rx_event) (s : xp) : xp :=
  match e with
  | RUnit mp => sl_daedr_received_bits (Some mp) s
  | RBad => sl_daedr_su_in_error s
  | RSend => (sl_daedt_transmission_request s).2
  | RExpire t free => xp_expiry t free s
  | RMsg w => (sl_lsc_pdu w s).2
  end.
Fixpoint rx_run (l : list rx_event) (s : xp) : xp :=
  match l with [] => s | e :: l => rx_run l (rx_exec e s) end.
(** The frames of a run. *)
Fixpoint rx_units (l : list rx_event) : list mblk :=
  match l with [] => [] | RUnit mp :: l => mp :: rx_units l | _ :: l => rx_units l end.
(** [n] numbers from [x] on. *)
Fixpoint numbers (mask x : Z) (n : nat) : list Z :=
  match n with O => [] | S n => x :: numbers mask (Z.land (x + 1) mask) n end.
(** The inbox after the messages of the units [ds]. *)
Definition took_all (ds : list su) (q : inbox) : inbox :=
  fold_left (fun q u => took u.(su_body) q) ds q.

Lemma rx_signal_unit_ind mp n s : rx_of (sdt_rc_signal_unit_ind mp n s).2 = rx_of s.
Proof. cbv delta [sdt_rc_signal_unit_ind] beta. rx_go. Qed.
#[export] Hint Rewrite rx_signal_unit_ind : rxq.
Lemma received_bits_takes mp s :
  let s' := sl_daedr_received_bits (Some mp) s in
  let u := su_of s mp in
  (inbox_of s' = inbox_of s ∨
   (u.(su_fsn) = s.(sl_statem).(rx).(rX).(fsn) ∧ 2 < u.(su_len) ∧
    inbox_of s' = took u.(su_body) (inbox_of s))) ∧
  path_of s' = path_of s.
Proof.
  cbv zeta. cbv delta [sl_daedr_received_bits] beta. case_match; cbv iota.
  - rewrite (rx_inbox _ _ (rx_correct_su _)), (rx_keeps_path _ _ (rx_correct_su _)).
    apply signal_unit_takes.
  - match goal with |- context [inbox_of ?x] => assert (E : rx_of x = rx_of s) by rx_go end.
    split; [left; by apply rx_inbox|by apply rx_keeps_path].
Qed.
Lemma rx_exec_takes e s :
  (inbox_of (rx_exec e s) = inbox_of s) ∨
  (∃ mp, e = RUnit mp ∧ let u := su_of s mp in
     u.(su_fsn) = s.(sl_statem).(rx).(rX).(fsn) ∧ 2 < u.(su_len) ∧
     inbox_of (rx_exec e s) = took u.(su_body) (inbox_of s)).
Proof.
  destruct e as [mp| | |t free|w]; [|left; apply rx_inbox..].
  - destruct (received_bits_takes mp s) as [[H|H] _]; [by left|right; by exists mp].
  - apply rx_su_in_error.
  - apply rx_daedt_request.
  - apply rx_expiry.
  - apply rx_pdu.
Qed.
Lemma rx_run_takes l s :
  ∃ ds, ds `sublist_of` (su_of s <$> rx_units l) ∧ Forall (λ u, 2 < u.(su_len)) ds ∧
    (su_fsn <$> ds) ++ [(rx_run l s).(sl_statem).(rx).(rX).(fsn)] =
      numbers s.(sl_statem).(sn_mask) s.(sl_statem).(rx).(rX).(fsn) (S (length ds)) ∧
    inbox_of (rx_run l s) = took_all ds (inbox_of s).
Proof.
  revert s. induction l as [|e l IH]; intros s; cbn [rx_run].
  { exists []. split; [apply sublist_nil_l|]. by split. }
  destruct (IH (rx_exec e s)) as (ds & Hsub & Hlen & Hn & Hq).
  destruct (rx_exec_takes e s) as [E|(mp & -> & Hx & Hl & E)].
  - exists ds. rewrite E in Hq. split; [|split; [done|split; [|done]]].
    + assert (Hu : (su_of (rx_exec e s) <$> rx_units l) = (su_of s <$> rx_units l)).
      { apply list_fmap_ext. intros _ m _. apply su_of_format. exact (f_equal i_opt E). }
      rewrite Hu in Hsub. destruct e; cbn [rx_units fmap list_fmap]; try done.
      by apply sublist_cons.
    + rewrite Hn. f_equal; [exact (f_equal i_mask E)|exact (f_equal i_fsn E)].
  - exists (su_of s mp :: ds). cbv zeta in *. rewrite E in Hq. split; [|split; [by constructor|split; [|done]]].
    + cbn [rx_units fmap list_fmap]. apply sublist_skip. erewrite list_fmap_ext; [exact Hsub|].
      intros _ m _. apply su_of_format. symmetry. exact (f_equal i_opt E).
    + cbn [fmap list_fmap app length]. fold (fmap (M := list) su_fsn ds). rewrite Hn.
      cbn [numbers]. rewrite Hx. f_equal.
      pose proof (f_equal i_mask E : sn_mask (sl_statem (rx_exec _ _)) = _) as Em.
      pose proof (f_equal i_fsn E : fsn (rX (rx (sl_statem (rx_exec _ _)))) = _) as Ef.
      by rewrite Em, Ef.
Qed.
Lemma took_all_oq ds q : (took_all ds q).(i_oq) = q.(i_oq) ++ (su_body <$> ds).
Proof.
  revert q. induction ds as [|u ds IH]; intros q; [by rewrite app_nil_r|].
  unfold took_all in *. cbn [fold_left]. rewrite IH. cbn [took i_oq fmap list_fmap].
  by rewrite <- app_assoc.
Qed.
Lemma took_all_cr ds q :
  u32 (took_all ds q).(i_cr) = u32 (q.(i_cr) + Z.of_nat (length ds)).
Proof.
  revert q. induction ds as [|u ds IH]; intros q; [cbn; by rewrite Z.add_0_r|].
  unfold took_all in *. cbn [fold_left]. rewrite IH. cbn [took i_cr length].
  unfold u32. rewrite Zplus_mod_idemp_l. f_equal. lia.
Qed.

(** C2: messages are delivered in sequence.  Whatever frames are received, with
    whatever happens in between, the messages put on the queue for the user are
    the contents of some of the message units among them, in the order they were
    received, and their forward sequence numbers are [X.fsn], the next one, and
    so on without a gap or a repetition; [X.fsn] is left at the number after the
    last, and [Cr] counts them. *)
Theorem in_order_delivery l s :
  let s' := rx_run l s in
  ∃ ds, ds `sublist_of` (su_of s <$> rx_units l) ∧
    Forall (λ u, 2 < u.(su_len)) ds ∧
    s'.(xenv).(e_oq) = s.(xenv).(e_oq) ++ (su_body <$> ds) ∧
    (su_fsn <$> ds) ++ [s'.(sl_statem).(rx).(rX).(fsn)] =
      numbers s.(sl_statem).(sn_mask) s.(sl_statem).(rx).(rX).(fsn) (S (length ds)) ∧
    u32 s'.(sl_statem).(Cr) = u32 (s.(sl_statem).(Cr) + Z.of_nat (length ds)).
Proof.
  destruct (rx_run_takes l s) as (ds & H1 & H2 & H3 & E). exists ds.
  split; [done|]. split; [done|]. split; [|split; [done|]].
  - rewrite <- took_all_oq with (q := inbox_of s). exact (f_equal i_oq E).
  - rewrite <- took_all_cr with (q := inbox_of s). exact (f_equal (λ q, u32 (i_cr q)) E).
Qed.

(** ** A link in service

    In the basic method, without congestion: what an acknowledgement leaves of
    what the receiver decides by. *)
Record decisions := Decisions {
  d_accepted : bool; d_accept : bool; d_discard : bool; d_l2 : bool; d_l3 : bool;
  d_rtr : bool; d_X : sni; d_bib : Z; d_mask : Z; d_conf : sl_config; d_canput : list bool }.
Definition decision (s : xp) : decisions :=
  Decisions s.(sl_statem).(msu_fisu_accepted) s.(sl_statem).(congestion_accept)
    s.(sl_statem).(congestion_discard) s.(sl_statem).(l2_congestion_detect)
    s.(sl_statem).(l3_congestion_detect) s.(sl_statem).(rtr) s.(sl_statem).(rx).(rX)
    s.(sl_statem).(tx).(tN).(bib) s.(sl_statem).(ib_mask) s.(sl_conf) s.(xenv).(e_canput).
Lemma dec_switch o m s : decision (congestion_switch o m s) = decision s.
Proof.
  cbv delta [congestion_switch set_cong set_disc] beta. cbv zeta. repeat case_match; reflexivity.
Qed.
Lemma dec_put_ind p s : decision (put_ind p s).2 = decision s.
Proof. unfold put_ind, xalloc. repeat case_match; simplify_eq; done. Qed.
Lemma dec_check_congestion s : decision (sl_check_congestion s) = decision s.
Proof.
  unfold sl_check_congestion. cbv zeta.
  cbv delta [sl_link_congestion_ceased_ind sl_link_congested_ind] beta.
  repeat case_match; rewrite ?dec_put_ind; repeat proj_field decision; apply dec_switch.
Qed.
Lemma dec_ack_loop n t s : decision (ack_loop n t s) = decision s.
Proof.
  revert s. induction n as [|n IH]; intros s; [done|]. cbn [ack_loop]. cbv zeta.
  case_match; [done|]. by rewrite IH.
Qed.
Lemma dec_sib_clear s : decision (sib_clear s) = decision s.
Proof. unfold sib_clear. by case_match. Qed.
Lemma dec_txc_ack s : decision (txc_ack s) = decision s.
Proof.
  unfold txc_ack. case_match; [|done]. cbv zeta.
  match goal with |- decision (ack_z (ack_not_full (ack_timer ?x))) = _ =>
    assert (E : decision (ack_z (ack_not_full (ack_timer x))) = decision x)
      by (generalize x; intros; unfold ack_z, ack_not_full, ack_timer; repeat case_match; done)
  end.
  by rewrite E, dec_check_congestion, dec_ack_loop, dec_sib_clear.
Qed.
Lemma dec_txc_nack s : decision (txc_nack s) = decision s.
Proof.
  unfold txc_nack. case_match; [|done]. cbv zeta.
  rewrite <- (dec_sib_clear s). generalize (sib_clear s). intros x. by case_match.
Qed.
Lemma dec_bsnr_and_bibr s :
  s.(sl_statem).(clear_rtb) = false → decision (sl_txc_bsnr_and_bibr s) = decision s.
Proof.
  intros Hc. unfold sl_txc_bsnr_and_bibr. cbv zeta.
  match goal with |- context [clear_rtb (sl_statem ?y)] => set (y0 := y) end.
  change (clear_rtb (sl_statem y0)) with (clear_rtb (sl_statem s)). rewrite Hc.
  case_match; rewrite ?dec_txc_nack, dec_txc_ack; done.
Qed.

(** The channel is in service, follows the basic method, and has room. *)
Record open_rx (s : xp) : Prop := {
  o_basic : is_pcr s = false;
  o_rc : s.(sl_statem).(rc_state) = IN_SERVICE;
  o_lsc : s.(sl_statem).(lsc_state) = LSC_IN_SERVICE;
  o_accepted : s.(sl_statem).(msu_fisu_accepted) = true;
  o_discard : s.(sl_statem).(congestion_discard) = false;
  o_accept : s.(sl_statem).(congestion_accept) = false;
  o_l2 : s.(sl_statem).(l2_congestion_detect) = false;
  o_l3 : s.(sl_statem).(l3_congestion_detect) = false;
  o_room : s.(sl_statem).(Cr) < s.(sl_conf).(rb_discard) ∧
           s.(sl_statem).(Cr) < s.(sl_conf).(rb_accept);
  o_canput : s.(xenv).(e_canput) = [];
  o_clear : s.(sl_statem).(clear_rtb) = false;
  o_bsnr : s.(sl_statem).(abnormal_bsnr) = 0;
  o_fibr : s.(sl_statem).(abnormal_fibr) = 0 }.
Lemma open_unread s t : unread t = unread s → open_rx s → open_rx t.
Proof.
  intros E [H1 H2 H3 H4 H5 H6 H7 H8 H9 H10 H11 H12 H13]. split.
  - exact (eq_trans (f_equal is_pcr E) H1).
  - exact (eq_trans (f_equal (λ x, x.(sl_statem).(rc_state)) E) H2).
  - exact (eq_trans (f_equal (λ x, x.(sl_statem).(lsc_state)) E) H3).
  - exact (eq_trans (f_equal (λ x, x.(sl_statem).(msu_fisu_accepted)) E) H4).
  - exact (eq_trans (f_equal (λ x, x.(sl_statem).(congestion_discard)) E) H5).
  - exact (eq_trans (f_equal (λ x, x.(sl_statem).(congestion_accept)) E) H6).
  - exact (eq_trans (f_equal (λ x, x.(sl_statem).(l2_congestion_detect)) E) H7).
  - exact (eq_trans (f_equal (λ x, x.(sl_statem).(l3_congestion_detect)) E) H8).
  - change (sl_conf t) with (sl_conf (unread t)).
    change (Cr (sl_statem t)) with (Cr (sl_statem (unread t))). rewrite E. exact H9.
  - exact (eq_trans (f_equal (λ x, x.(xenv).(e_canput)) E) H10).
  - exact (eq_trans (f_equal (λ x, x.(sl_statem).(clear_rtb)) E) H11).
  - exact (eq_trans (f_equal (λ x, x.(sl_statem).(abnormal_bsnr)) E) H12).
  - exact (eq_trans (f_equal (λ x, x.(sl_statem).(abnormal_fibr)) E) H13).
Qed.

(** The receiver answers nothing: its indicator bits and [rtr] stay. *)
Definition same_answer (s s' : xp) : Prop :=
  s'.(sl_statem).(rtr) = s.(sl_statem).(rtr) ∧
  s'.(sl_statem).(rx).(rX).(fib) = s.(sl_statem).(rx).(rX).(fib) ∧
  s'.(sl_statem).(tx).(tN).(bib) = s.(sl_statem).(tx).(tN).(bib).
(** It asks for a retransmission: both bits are inverted. *)
Definition nack_answer (s s' : xp) : Prop :=
  s'.(sl_statem).(rtr) = true ∧
  s'.(sl_statem).(rx).(rX).(fib) = flip_ib s s.(sl_statem).(rx).(rX).(fib) ∧
  s'.(sl_statem).(tx).(tN).(bib) = flip_ib s s.(sl_statem).(tx).(tN).(bib).
(** The three outcomes for a unit with number [n] and length indicator [len]. *)
Definition outcome (n len : Z) (b : mblk) (s s' : xp) : Prop :=
  let X := s.(sl_statem).(rx).(rX).(fsn) in
  if (n =? X) && (2 <? len) then
    inbox_of s' = took b (inbox_of s) ∧
    s'.(sl_statem).(rtr) = false ∧
    s'.(sl_statem).(rx).(rX).(fib) = s.(sl_statem).(rx).(rX).(fib) ∧
    s'.(sl_statem).(tx).(tN).(bib) = s.(sl_statem).(tx).(tN).(bib) ∧
    s'.(sl_statem).(tx).(tX).(fsn) = s'.(sl_statem).(rx).(rX).(fsn)
  else if n =? FSN_add s X (-1) then inbox_of s' = inbox_of s ∧ same_answer s s'
  else inbox_of s' = inbox_of s ∧ nack_answer s s'.

Lemma rb_congestion_open s :
  s.(sl_statem).(l3_congestion_detect) = false → s.(sl_statem).(l2_congestion_detect) = false →
  s.(sl_statem).(Cr) < s.(sl_conf).(rb_discard) → s.(sl_statem).(Cr) < s.(sl_conf).(rb_accept) →
  s.(xenv).(e_canput) = [] → sl_rb_congestion_function s = s.
Proof.
  intros H3 H2 Hd Ha Hc. unfold sl_rb_congestion_function. rewrite H3, H2. cbn [negb].
  unfold or_not_canput, xcanput. rewrite (proj2 (Z.leb_gt _ _) Hd), Hc. cbn [negb]. cbv iota beta.
  by rewrite (proj2 (Z.leb_gt _ _) Ha), Hc.
Qed.
Lemma rc_acknowledge_open p :
  open_rx p →
  decision (rc_acknowledge p) = decision p ∧ rx_of (rc_acknowledge p) = rx_of p.
Proof.
  intros Ho. split; [|apply rx_acknowledge]. unfold rc_acknowledge, sl_lsc_fisu_msu_received.
  rewrite (o_lsc _ Ho). cbv zeta. cbn [snd]. rewrite <- (dec_bsnr_and_bibr p (o_clear _ Ho)).
  done.
Qed.
Lemma fsnx_value_tX s :
  (sl_txc_fsnx_value s).(sl_statem).(tx).(tX).(fsn) = s.(sl_statem).(rx).(rX).(fsn) ∧
  decision (sl_txc_fsnx_value s) = decision s.
Proof.
  unfold sl_txc_fsnx_value.
  destruct (Z.eqb_spec (fsn (tX (tx (sl_statem s)))) (fsn (rX (rx (sl_statem s)))));
    cbn [negb]; [by split|]. by split.
Qed.
Lemma deliver_open b a p :
  decision a = decision p → rx_of a = rx_of p → p.(sl_statem).(congestion_accept) = false →
  let s' := rc_deliver b (rc_next_fsnx a <| sl_statem; rtr := false |>) in
  inbox_of s' = took b (inbox_of p) ∧
  s'.(sl_statem).(rtr) = false ∧
  s'.(sl_statem).(rx).(rX).(fib) = p.(sl_statem).(rx).(rX).(fib) ∧
  s'.(sl_statem).(tx).(tN).(bib) = p.(sl_statem).(tx).(tN).(bib) ∧
  s'.(sl_statem).(tx).(tX).(fsn) = s'.(sl_statem).(rx).(rX).(fsn).
Proof.
  intros Hd Hr Hc. cbv zeta. unfold rc_deliver. cbv zeta.
  match goal with |- context [sl_txc_fsnx_value ?x] => set (y := x) end.
  change (congestion_accept (sl_statem y)) with (d_accept (decision a)). rewrite Hd.
  cbn [decision d_accept]. rewrite Hc. destruct (fsnx_value_tX y) as [Ht Hy].
  split; [|split; [|split; [|split]]].
  - rewrite (rx_inbox _ _ (rx_fsnx_value y)). rewrite <- (rx_inbox _ _ Hr). done.
  - exact (f_equal d_rtr Hy).
  - rewrite (f_equal (λ d, fib (d_X d)) Hy : fib (rX (rx (sl_statem (sl_txc_fsnx_value y)))) = _).
    exact (f_equal (λ d, fib (d_X d)) Hd).
  - rewrite (f_equal d_bib Hy : bib (tN (tx (sl_statem (sl_txc_fsnx_value y)))) = _).
    exact (f_equal d_bib Hd).
  - rewrite Ht. exact (eq_sym (f_equal (λ d, fsn (d_X d)) Hy)).
Qed.
Lemma basic_accept_open b p :
  open_rx p →
  outcome p.(sl_statem).(rx).(rR).(fsn) p.(sl_statem).(rx).(r_len) b p (rc_basic_accept b p).
Proof.
  intros Ho. destruct (rc_acknowledge_open p Ho) as [Hd Hr].
  unfold rc_basic_accept. cbv zeta. revert Hd Hr. generalize (rc_acknowledge p). intros a Hd Hr.
  change (msu_fisu_accepted (sl_statem a)) with (d_accepted (decision a)).
  rewrite Hd. cbn [decision d_accepted]. rewrite (o_accepted _ Ho). cbn [negb].
  rewrite (rb_congestion_open a).
  2: exact (eq_trans (f_equal d_l3 Hd) (o_l3 _ Ho)).
  2: exact (eq_trans (f_equal d_l2 Hd) (o_l2 _ Ho)).
  2, 3: change (sl_conf a) with (d_conf (decision a));
    change (Cr (sl_statem a)) with ((rx_of a).1.1.(i_cr)); rewrite Hd, Hr; apply (o_room _ Ho).
  2: exact (eq_trans (f_equal d_canput Hd) (o_canput _ Ho)).
  change (congestion_discard (sl_statem a)) with (d_discard (decision a)).
  rewrite Hd. cbn [decision d_discard]. rewrite (o_discard _ Ho). unfold outcome. cbv zeta.
  rewrite (rx_expected a p Hr). fold (rc_expected p). destruct (rc_expected p).
  - exact (deliver_open b a p Hd Hr (o_accept _ Ho)).
  - change (fsn (rR (rx (sl_statem a)))) with (rx_of a).1.2.1.
    change (FSN_add a (fsn (rX (rx (sl_statem a)))) (-1)) with
      (Z.land ((rx_of a).1.1.(i_fsn) + -1) (rx_of a).1.1.(i_mask)).
    rewrite Hr. cbn [rx_of inbox_of hdr_of path_of fst snd i_fsn i_mask].
    fold (FSN_add p (fsn (rX (rx (sl_statem p)))) (-1)).
    case_match.
    + split; [exact (rx_inbox _ _ Hr)|]. split; [exact (f_equal d_rtr Hd)|].
      split; [exact (f_equal (λ d, fib (d_X d)) Hd)|exact (f_equal d_bib Hd)].
    + change (congestion_accept (sl_statem a)) with (d_accept (decision a)). rewrite Hd.
      cbn [decision d_accept]. rewrite (o_accept _ Ho).
      split; [exact (rx_inbox _ _ Hr)|]. split; [done|]. split.
      * exact (f_equal (λ d, if negb (fib (d_X d) =? 0) then 0 else d_mask d) Hd).
      * exact (f_equal (λ d, if negb (d_bib d =? 0) then 0 else d_mask d) Hd).
Qed.
Lemma basic_open b p :
  open_rx p → p.(sl_statem).(rx).(rR).(fib) = p.(sl_statem).(rx).(rX).(fib) →
  rc_bsnr_outside p = false →
  outcome p.(sl_statem).(rx).(rR).(fsn) p.(sl_statem).(rx).(r_len) b p (rc_fisu_msu b p).
Proof.
  intros Ho Hf Hb. unfold rc_fisu_msu. rewrite Hb, (o_bsnr _ Ho), (o_basic _ Ho). cbv zeta.
  cbn [negb Z.eqb]. unfold rc_basic. rewrite Hf, Z.eqb_refl, (o_fibr _ Ho). cbn [negb Z.eqb].
  by apply basic_accept_open.
Qed.


(** A started link put in service, and the first message unit of the far end. *)
Definition ex_in_service : xp :=
  (sl_lsc_start (sl_lsc_power_on (xp_alloc_priv 100 (Env [] [] 10 [] [] [] false false))))
    <| sl_statem; lsc_state := LSC_IN_SERVICE |> <| sl_statem; msu_fisu_accepted := true |>.
Definition ex_unit : mblk := Mblk 9 [[255; 128; 3; 1; 2; 3]].
