(* ===== verification/Link.v ===== *)
(** * Two channels and the line between them

    Two channels exchange signal units over a line that keeps their order and may
    lose some: the composition of transmission control on one side and reception
    control on the other. *)
From S2P Require Import Prelude Bufq Xp Prims Timers Txc Lsc Rc LscCtl Monitors Requests Lmi Machine System.
#[local] Open Scope Z_scope.
#[local] Open Scope os7_scope.

(** [l_ab] and [l_ba] are the units under way, oldest first. *)
Record link := Lnk { l_a : xp; l_b : xp; l_ab : list mblk; l_ba : list mblk }.

(** Either side sends a unit, or the oldest unit under way to it arrives or is
    lost. *)
Inductive side := SideA | SideB.
Inductive link_event := LSend (d : side) | LArrive (d : side) | LLose (d : side).
Definition send_unit (s : xp) : list mblk * xp :=
  let '(mp, s) := sl_daedt_transmission_request s in (option_list mp, s).
Definition link_exec (e : link_event) (l : link) : link :=
  let '(Lnk a b ab ba) := l in
  match e with
  | LSend SideA => let '(u, a) := send_unit a in Lnk a b (ab ++ u) ba
  | LSend SideB => let '(u, b) := send_unit b in Lnk a b ab (ba ++ u)
  | LArrive SideA =>
      match ba with
      | [] => l
      | mp :: ba => Lnk (sl_daedr_received_bits (Some mp) a) b ab ba
      end
  | LArrive SideB =>
      match ab with
      | [] => l
      | mp :: ab => Lnk a (sl_daedr_received_bits (Some mp) b) ab ba
      end
  | LLose SideA => Lnk a b ab (tail ba)
  | LLose SideB => Lnk a b (tail ab) ba
  end.
Definition link_run (es : list link_event) (l : link) : link :=
  fold_left (fun l e => link_exec e l) es l.

(** Two channels in service; the user of the first gives it messages. *)
Definition ex_side (i : Z) : xp :=
  sl_txc_send_msu (sl_lsc_start (sl_lsc_power_on (xp_alloc_priv 100
    (Env [] [] i [] [] [] false false))))
    <| sl_statem; lsc_state := LSC_IN_SERVICE |> <| sl_statem; msu_fisu_accepted := true |>.
Definition ex_user (i : Z) : mblk := Mblk i [[0; 0; 0; i; i; i]].
Definition ex_link : link :=
  Lnk (sl_txc_message_for_transmission (ex_user 3)
        (sl_txc_message_for_transmission (ex_user 2)
          (sl_txc_message_for_transmission (ex_user 1) (ex_side 10)))) (ex_side 1000) [] [].
(** The first unit is lost; the acknowledgement of its retransmission arrives
    when two units of the cycle have been sent. *)
Definition ex_events : list link_event :=
  [LSend SideA; LSend SideA; LSend SideA; LLose SideB; LArrive SideB; LArrive SideB;
   LSend SideB; LArrive SideA; LSend SideA; LSend SideA; LArrive SideB; LSend SideB;
   LArrive SideA; LSend SideA; LArrive SideB; LArrive SideB; LSend SideB; LArrive SideA].

