(* ===== verification/Hdlc.v ===== *)
(** * Soft-HDLC tables

    The lookup tables of the Soft-HDLC of [drivers/sl_x100p.c], generated as
    [xp_init_tables] does when the module is loaded: the CRC of a byte, zero
    insertion of a byte from each number of ones sent before, and zero deletion
    with flag and abort detection of an octet in each state of the receiver. *)
From S2P Require Import Prelude Bufq Xp.

(** ** Entries *)

(** [bit_length] of a [tx_entry_t] counts in excess of 8 bits. *)
Record tx_entry := TxEntry { te_bit_string : Z; te_bit_length : Z; te_state : Z }.
#[export] Instance eta_tx_entry : Eta tx_entry := fun r =>
  TxEntry r.(te_bit_string) r.(te_bit_length) r.(te_state).
#[export] Instance set_te_bit_string : Setter te_bit_string := ltac:(mk_setter).
#[export] Instance set_te_bit_length : Setter te_bit_length := ltac:(mk_setter).
#[export] Instance set_te_state : Setter te_state := ltac:(mk_setter).
Record rx_entry := RxEntry {
  re_bit_string : Z; re_bit_length : Z; re_state : Z;
  re_sync : bool; re_hunt : bool; re_flag : bool; re_idle : bool }.
#[export] Instance eta_rx_entry : Eta rx_entry := fun r =>
  RxEntry r.(re_bit_string) r.(re_bit_length) r.(re_state) r.(re_sync) r.(re_hunt)
    r.(re_flag) r.(re_idle).
#[export] Instance set_re_bit_string : Setter re_bit_string := ltac:(mk_setter).
#[export] Instance set_re_bit_length : Setter re_bit_length := ltac:(mk_setter).
#[export] Instance set_re_state : Setter re_state := ltac:(mk_setter).
#[export] Instance set_re_sync : Setter re_sync := ltac:(mk_setter).
#[export] Instance set_re_hunt : Setter re_hunt := ltac:(mk_setter).
#[export] Instance set_re_flag : Setter re_flag := ltac:(mk_setter).
#[export] Instance set_re_idle : Setter re_idle := ltac:(mk_setter).

Definition SDT_TX_STATES : nat := 5.
Definition SDT_RX_STATES : nat := 14.

(** [xp_rev]: the eight turns of the loop. *)
Fixpoint rev_loop (n : nat) (byte output : Z) : Z :=
  match n with
  | O => output
  | S n =>
      let output := u8 (Z.shiftl output 1) in
      let output := if Z.testbit byte 0 then Z.lor output 1 else output in
      rev_loop n (Z.shiftr byte 1) output
  end.
Definition xp_rev (byte : Z) : Z := rev_loop 8 byte 0.

(** ** Values *)

Fixpoint bc_table_value (bit_string : Z) (bit_length : nat) : Z :=
  match bit_length with
  | O => bit_string
  | S n =>
      bc_table_value
        (if Z.testbit bit_string 0 then Z.lxor (Z.shiftr bit_string 1) 0x8408
         else Z.shiftr bit_string 1) n
  end.

(** One turn of the loop of [tx_table_valueN] on the result, [bit_mask] and
    [byte]; the fields of the result have 10, 4 and 3 bits. *)
Definition tx_table_bit (p : tx_entry * Z * Z) : tx_entry * Z * Z :=
  let '(result, bit_mask, byte) := p in
  let '(result, bit_mask) :=
    if Z.testbit byte 0 then
      let result :=
        result <| te_bit_string := Z.land (Z.lor result.(te_bit_string) bit_mask) 0x3ff |> in
      let old := result.(te_state) in
      let result := result <| te_state := Z.land (old + 1) 7 |> in
      if old =? 4 then
        let result := result <| te_state := 0 |> in
        let result := result <| te_bit_length := Z.land (result.(te_bit_length) + 1) 15 |> in
        (result, Z.shiftl bit_mask 1)
      else (result, bit_mask)
    else (result <| te_state := 0 |>, bit_mask) in
  (result, Z.shiftl bit_mask 1, Z.shiftr byte 1).
Definition tx_table_valueN (state byte : Z) (len : nat) : tx_entry :=
  (Nat.iter len tx_table_bit (TxEntry 0 0 (Z.land state 7), 1, byte)).1.1.
Definition tx_table_value (state byte : Z) : tx_entry := tx_table_valueN state byte 8.

(** The pieces of the cases of [rx_table_valueN], on the result and [bit_mask]:
    a zero bit is put out by shifting the mask, a one bit by or-ing it first. *)
Definition rx_put0 (p : rx_entry * Z) : rx_entry * Z := (p.1, Z.shiftl p.2 1).
Definition rx_put1 (p : rx_entry * Z) : rx_entry * Z :=
  (p.1 <| re_bit_string := Z.land (Z.lor p.1.(re_bit_string) p.2) 0xffff |>, Z.shiftl p.2 1).
(** A pending zero, if [zero], and [ones] pending ones are put out. *)
Definition rx_put (zero : bool) (ones : nat) (state : Z) (p : rx_entry * Z) : rx_entry * Z :=
  let p := if zero then rx_put0 p else p in
  let '(r, m) := Nat.iter ones rx_put1 p in
  let n := (if zero then 1 else 0) + Z.of_nat ones in
  let r := r <| re_bit_length := Z.land (r.(re_bit_length) + n) 15 |> in
  (r <| re_state := state |>, m).
Definition rx_to (state : Z) (p : rx_entry * Z) : rx_entry * Z :=
  (p.1 <| re_state := state |>, p.2).
(** Seven ones after a zero, a flag after a zero, a seventh one after six ones,
    a flag that shares its first zero. *)
Definition rx_hunt (idle : bool) (p : rx_entry * Z) : rx_entry * Z :=
  let r := p.1 <| re_hunt := true |> <| re_sync := false |> <| re_flag := false |> in
  let r := if idle then r <| re_idle := true |> else r in
  (r <| re_state := 12 |>, p.2).
Definition rx_flag (p : rx_entry * Z) : rx_entry * Z :=
  let r := p.1 <| re_sync := false |> <| re_flag := true |> <| re_hunt := false |> in
  let r := r <| re_idle := false |> in
  (r <| re_state := 0 |>, p.2).
(** The bits after a flag start afresh. *)
Definition rx_after_flag (p : rx_entry * Z) : rx_entry * Z :=
  if p.1.(re_flag) && negb p.1.(re_sync) then
    (p.1 <| re_bit_string := 0 |> <| re_bit_length := 0 |> <| re_sync := true |>, 1)
  else p.
Definition rx_table_bit (b : bool) (p : rx_entry * Z) : rx_entry * Z :=
  match p.1.(re_state) with
  | 0 => let p := rx_after_flag p in if b then rx_to 8 p else rx_to 1 p
  | 1 => if b then rx_to 2 p else rx_put true 0 1 p
  | 2 => if b then rx_to 3 p else rx_put true 1 1 p
  | 3 => if b then rx_to 4 p else rx_put true 2 1 p
  | 4 => if b then rx_to 5 p else rx_put true 3 1 p
  | 5 => if b then rx_to 6 p else rx_put true 4 1 p
  | 6 => if b then rx_to 7 p else rx_put true 5 0 p
  | 7 => if b then rx_hunt false p else rx_flag p
  | 8 => if b then rx_to 9 p else rx_put false 1 1 p
  | 9 => if b then rx_to 10 p else rx_put false 2 1 p
  | 10 => if b then rx_to 11 p else rx_put false 3 1 p
  | 11 => if b then rx_to 12 p else rx_put false 4 1 p
  | 12 => if b then rx_to 13 p else rx_put false 5 0 p
  | 13 => if b then rx_hunt true p else rx_flag p
  | _ => p
  end.
Fixpoint rx_table_bits (len : nat) (byte : Z) (p : rx_entry * Z) : rx_entry * Z :=
  match len with
  | O => p
  | S n => rx_table_bits n (Z.shiftr byte 1) (rx_table_bit (Z.testbit byte 0) p)
  end.
Definition rx_table_valueN (state byte : Z) (len : nat) : rx_entry :=
  (rx_table_bits len byte (RxEntry 0 0 (Z.land state 15) false false false false, 1)).1.
Definition rx_table_value7 (state byte : Z) : rx_entry := rx_table_valueN state byte 7.
Definition rx_table_value8 (state byte : Z) : rx_entry := rx_table_valueN state byte 8.

(** ** Tables *)

Definition upto (n : nat) : list Z := Z.of_nat <$> seq 0 n.
(** The loops over states and bytes; a table is the list of its entries. *)
Definition table_generate {A} (states : nat) (value : Z → Z → A) : list A :=
  flat_map (fun j => value j <$> upto 256) (upto states).
Definition tx_table_generate : list tx_entry := table_generate SDT_TX_STATES tx_table_value.
Definition rx_table_generate7 : list rx_entry := table_generate SDT_RX_STATES rx_table_value7.
Definition rx_table_generate8 : list rx_entry := table_generate SDT_RX_STATES rx_table_value8.
(** Bit lengths 8 to 0, the bit mask halves each time. *)
Definition bc_table_generate : list Z :=
  flat_map (fun n => (fun s => bc_table_value s n) <$> upto (Nat.pow 2 n)) [8; 7; 6; 5; 4; 3; 2; 1; 0]%nat.

Definition bc_table : list Z := bc_table_generate.
Definition tx_table : list tx_entry := tx_table_generate.
Definition rx_table : list rx_entry := rx_table_generate8.
Definition rx_table7 : list rx_entry := rx_table_generate7.
Definition table_index (j k : Z) : nat := Z.to_nat (Z.lor (Z.shiftl j 8) k).
Definition tx_index (j k : Z) : tx_entry := nth (table_index j k) tx_table (TxEntry 0 0 0).
Definition rx_entry0 : rx_entry := RxEntry 0 0 0 false false false false.
Definition rx_index7 (j k : Z) : rx_entry := nth (table_index j k) rx_table7 rx_entry0.
Definition rx_index8 (j k : Z) : rx_entry := nth (table_index j k) rx_table rx_entry0.
Definition bc_index (i : Z) : Z := nth (Z.to_nat i) bc_table 0.
