(* ===== verification/SoftHdlc.v ===== *)
(** * Soft-HDLC

    The block functions of [drivers/sl_x100p.c]: [xp_tx_block] makes the octets
    of a transmit block from the frames [sl_daedt_transmission_request] supplies,
    [xp_rx_block] assembles frames from the octets of a receive block.  A block
    is a buffer of bytes and the list of the offsets that belong to the channel,
    in the order of the loops. *)
From S2P Require Import Prelude Bufq Xp Prims Timers Txc Lsc Rc LscCtl Monitors Lmi Hdlc.

(** ** Transmission *)

Definition TX_MODE_IDLE : Z := 0.
Definition TX_MODE_FLAG : Z := 1.
Definition TX_MODE_BOF : Z := 2.
Definition TX_MODE_MOF : Z := 3.
Definition TX_MODE_BCC : Z := 4.
Definition SDT_FLAGS_ONE : Z := 0.
Definition SDT_FLAGS_SHARED : Z := 1.
Definition SDT_FLAGS_TWO : Z := 2.
Definition SDT_FLAGS_THREE : Z := 3.

(** [residue |= bits << rbits; rbits += n]. *)
Definition tx_append (bits n : Z) (s : xp) : xp :=
  let tx := s.(xp_tx) in
  let s := s <| xp_tx; tx_residue := Z.lor tx.(tx_residue) (u32 (Z.shiftl bits tx.(tx_rbits))) |> in
  s <| xp_tx; tx_rbits := u32 (tx.(tx_rbits) + n) |>.
Definition xp_tx_bitstuff (byte : Z) (s : xp) : xp :=
  let t := tx_index s.(xp_tx).(tx_st) byte in
  let s := s <| xp_tx; tx_st := t.(te_state) |> in
  tx_append t.(te_bit_string) (t.(te_bit_length) + 8) s.

(** The label [next_message]. *)
Definition next_message (s : xp) : xp :=
  let '(mp, s) := sl_daedt_transmission_request s in
  let s := s <| xp_tx; tx_msg := mp |> in
  let s := s <| xp_tx; tx_nxt := m_blks <$> mp |> in
  match mp with
  | Some _ => s <| xp_tx; tx_mode := TX_MODE_BOF |>
  | None => s
  end.

(** The next byte of the frame: from the block in hand, or from the next one,
    whose first byte is read without a test that it has one. *)
Definition tx_next_byte (s : xp) : option Z * xp :=
  match s.(xp_tx).(tx_nxt) with
  | Some ((x :: b) :: l) => (Some x, s <| xp_tx; tx_nxt := Some (b :: l) |>)
  | Some ([] :: (x :: b) :: l) => (Some x, s <| xp_tx; tx_nxt := Some (b :: l) |>)
  | Some ([] :: [] :: l) => (Some 0, fault (s <| xp_tx; tx_nxt := Some ([] :: l) |>))
  | Some [[]] => (None, s <| xp_tx; tx_nxt := None |>)
  | Some [] | None => (None, fault s)
  end.
Definition bcc_byte (bcc byte : Z) : Z :=
  Z.lxor (Z.shiftr bcc 8) (bc_index (Z.land (Z.lxor bcc byte) 0x00ff)).

(** [switch (tx->mode)], up to [goto drain_rbits] or [goto next_message]. *)
Definition tx_fill (s : xp) : xp :=
  let tx := s.(xp_tx) in
  if tx.(tx_mode) =? TX_MODE_IDLE then tx_append 0xff 8 s
  else if tx.(tx_mode) =? TX_MODE_FLAG then tx_append 0x7e 8 s
  else if tx.(tx_mode) =? TX_MODE_BOF then
    let f := s.(sdt_conf).(cf_f) in
    let s :=
      if f =? SDT_FLAGS_SHARED then tx_append 0x3f7e 15 s
      else if f =? SDT_FLAGS_TWO then tx_append 0x7e7e 16 s
      else if f =? SDT_FLAGS_THREE then tx_append 0x7e7e7e 24 s
      else tx_append 0x7e 8 s in
    let s := s <| xp_tx; tx_st := 0 |> in
    let s := s <| xp_tx; tx_bcc := 0xffff |> in
    s <| xp_tx; tx_mode := TX_MODE_MOF |>
  else if tx.(tx_mode) =? TX_MODE_MOF then
    let '(byte, s) := tx_next_byte s in
    match byte with
    | Some byte =>
        let s := s <| xp_tx; tx_bcc := bcc_byte s.(xp_tx).(tx_bcc) byte |> in
        let s := xp_tx_bitstuff byte s in
        incr_sdt tx_bytes s
    | None =>
        let s := s <| xp_tx; tx_bcc := u16 (Z.lnot s.(xp_tx).(tx_bcc)) |> in
        let s := xp_tx_bitstuff (Z.land s.(xp_tx).(tx_bcc) 0x00ff) s in
        s <| xp_tx; tx_mode := TX_MODE_BCC |>
    end
  else if tx.(tx_mode) =? TX_MODE_BCC then
    let s := xp_tx_bitstuff (Z.shiftr tx.(tx_bcc) 8) s in
    let s := incr_sdt tx_sus s in
    let s := s <| xp_tx; tx_mode := TX_MODE_FLAG |> in
    next_message s
  else s (* swerr *).

(** The octet put in the block. *)
Definition tx_bits (type : Z) : Z := if type =? SDL_TYPE_DS0A then 7 else 8.
Definition tx_drain (type : Z) (s : xp) : Z * xp :=
  let residue := s.(xp_tx).(tx_residue) in
  let octet := xp_rev (if type =? SDL_TYPE_DS0A then Z.land residue 0x7f else u8 residue) in
  let s := s <| xp_tx; tx_residue := Z.shiftr residue (tx_bits type) |> in
  (octet, s <| xp_tx; tx_rbits := u32 (s.(xp_tx).(tx_rbits) - tx_bits type) |>).
(** Every mode adds at least 8 bits, so one turn fills. *)
Definition tx_octet (type : Z) (s : xp) : Z * xp :=
  tx_drain type (if tx_bits type <=? s.(xp_tx).(tx_rbits) then s else tx_fill s).
Fixpoint tx_octets (type : Z) (offs : list nat) (bp : list Z) (s : xp) : list Z * xp :=
  match offs with
  | [] => (bp, s)
  | o :: offs => let '(x, s) := tx_octet type s in tx_octets type offs (<[o := x]> bp) s
  end.

(** Without Soft-HDLC the blocks of the user go out as they are. *)
Fixpoint drop_empty (l : list (list Z)) : option (list (list Z)) :=
  match l with [] => None | [] :: l => drop_empty l | b :: l => Some (b :: l) end.
Definition sdl_tx_take (blks : list (list Z)) (s : xp) : Z * xp :=
  match blks with
  | (x :: b) :: l =>
      let s := s <| xp_tx; tx_nxt := drop_empty (b :: l) |> in
      (x, s <| sdl_stats; sdl_tx_octets := u32 (s.(sdl_stats).(sdl_tx_octets) + 1) |>)
  | _ =>
      let s := fault (s <| xp_tx; tx_nxt := drop_empty blks |>) in
      (0, s <| sdl_stats; sdl_tx_octets := u32 (s.(sdl_stats).(sdl_tx_octets) + 1) |>)
  end.
Definition sdl_tx_octet (s : xp) : option Z * xp :=
  match s.(xp_tx).(tx_nxt) ≫= drop_empty with
  | Some blks => let '(x, s) := sdl_tx_take blks s in (Some x, s)
  | None =>
      let '(mp, s) := sl_daedt_transmission_request s in
      let s := s <| xp_tx; tx_msg := mp |> in
      let s := s <| xp_tx; tx_nxt := m_blks <$> mp |> in
      match mp with
      | Some mp => let '(x, s) := sdl_tx_take mp.(m_blks) s in (Some x, s)
      | None =>
          (None, s <| sdl_stats; sdl_tx_buffer_overflows :=
                        u32 (s.(sdl_stats).(sdl_tx_buffer_overflows) + 1) |>)
      end
  end.
Fixpoint sdl_tx_loop (offs : list nat) (bp : list Z) (s : xp) : list Z * xp :=
  match offs with
  | [] => (bp, s)
  | o :: offs =>
      let '(x, s) := sdl_tx_octet s in
      match x with
      | Some x => sdl_tx_loop offs (<[o := x]> bp) s
      | None => (bp, s)
      end
  end.

(** The offsets of a channel in a block of [n] frames of 32 octets: its octet of
    each frame, or those of all channels of the span. *)
Definition octet_offsets (type : Z) (map : Z → list Z) (n : nat) : list nat :=
  flat_map (fun i => (fun c => (32 * i + Z.to_nat c)%nat) <$> map type) (seq 0 n).
Definition tx_chan_map (type : Z) : list Z :=
  if type =? SDL_TYPE_T1 then xp_t1_tx_chan_map
  else if type =? SDL_TYPE_E1 then xp_e1_tx_chan_map else [0].

(** [bp] holds 32 octets of each of [n] frames; [bp += 32] while [bp < be]. *)
Definition xp_tx_block (type : Z) (n : nat) (bp : list Z) (s : xp) : list Z * xp :=
  let offs := octet_offsets type tx_chan_map n in
  if negb (s.(sdt_statem).(daedt_state) =s IDLE) then
    let tx := s.(xp_tx) in
    let s :=
      if ((tx.(tx_mode) =? TX_MODE_IDLE) || (tx.(tx_mode) =? TX_MODE_FLAG)) &&
         bool_decide (tx.(tx_nxt) = None)
      then next_message s else s in
    tx_octets type offs bp s
  else if negb (s.(sdl_statem).(tx_state) =s IDLE) then sdl_tx_loop offs bp s
  else (bp, s).
Definition xp_tx_idle (type : Z) (n : nat) (bp : list Z) : list Z :=
  let v := if (type =? SDL_TYPE_DS0A) || (type =? SDL_TYPE_T1) then 0x7f else 0xff in
  fold_left (fun bp o => <[o := v]> bp) (octet_offsets type tx_chan_map n) bp.

(** ** Reception *)

Definition RX_MODE_HUNT : Z := 0.
Definition RX_MODE_SYNC : Z := 1.
Definition RX_MODE_MOF : Z := 2.
Definition xp_t1_rx_chan_map : list Z :=
  [6; 5; 4; 10; 9; 8; 14; 13; 12; 18; 17; 16;
   22; 21; 20; 26; 25; 24; 30; 29; 28; 2; 1; 0].
Definition xp_e1_rx_chan_map : list Z :=
  [6; 5; 4; 11; 10; 9; 8; 15; 14; 13; 12; 19; 18; 17; 16; 23;
   22; 21; 20; 27; 26; 25; 24; 31; 30; 29; 28; 3; 2; 1; 0].
Definition rx_chan_map (type : Z) : list Z :=
  if type =? SDL_TYPE_T1 then xp_t1_rx_chan_map
  else if type =? SDL_TYPE_E1 then xp_e1_rx_chan_map else [0].

Definition xp_rx_linkb (s : xp) : xp :=
  let rx := s.(xp_rx) in
  let s := s <| xp_rx; rx_msg := match rx.(rx_msg) with
                                 | Some m => Some (m ++ option_list rx.(rx_nxt))
                                 | None => (fun b => [b]) <$> rx.(rx_nxt)
                                 end |> in
  s <| xp_rx; rx_nxt := None |>.

Section Receive.
(** [FASTBUF] depends on the kernel the module is built for. *)
Context (FASTBUF : nat).

(** The labels [begin_frame], [new_frame] and [abort_frame]. *)
Definition begin_frame (r : rx_entry) (s : xp) : xp :=
  if negb (r.(re_bit_length) =? 0) then
    let s := s <| xp_rx; rx_mode := RX_MODE_MOF |> in
    let s := s <| xp_rx; rx_residue := r.(re_bit_string) |> in
    let s := s <| xp_rx; rx_rbits := r.(re_bit_length) |> in
    let s := s <| xp_rx; rx_nbytes := 0 |> in
    s <| xp_rx; rx_bcc := 0xffff |>
  else s.
Definition new_frame (r : rx_entry) (s : xp) : xp :=
  let s := s <| xp_rx; rx_mode := RX_MODE_SYNC |> in
  let s := s <| xp_rx; rx_residue := 0 |> in
  let s := s <| xp_rx; rx_rbits := 0 |> in
  let s := s <| xp_rx; rx_nbytes := 0 |> in
  let s := s <| xp_rx; rx_bcc := 0xffff |> in
  if r.(re_sync) then begin_frame r s else s.
Definition to_hunt (s : xp) : xp :=
  let s := s <| xp_rx; rx_mode := RX_MODE_HUNT |> in
  let s := incr_sdt rx_sync_transitions s in
  s <| xp_rx; rx_octets := 0 |>.
Definition abort_frame (r : rx_entry) (s : xp) : xp :=
  let s := s <| xp_rx; rx_nxt := None |> in
  let s := s <| xp_rx; rx_msg := None |> in
  let s := incr_sdt rx_sus_in_error s in
  let s := sl_daedr_su_in_error s in
  if r.(re_flag) then new_frame r s else to_hunt s.
Definition residue_error (r : rx_entry) (s : xp) : xp :=
  abort_frame r (incr_sdt rx_frame_errors (incr_sdt rx_residue_errors s)).
Definition crc_error (r : rx_entry) (s : xp) : xp := abort_frame r (incr_sdt rx_crc_errors s).
Definition frame_too_short (r : rx_entry) (s : xp) : xp :=
  abort_frame r (incr_sdt rx_frame_errors (incr_sdt rx_frame_too_short s)).
Definition length_error (r : rx_entry) (s : xp) : xp := abort_frame r (incr_sdt rx_length_error s).
Definition aborted (r : rx_entry) (s : xp) : xp :=
  abort_frame r (incr_sdt rx_frame_errors (incr_sdt rx_aborts s)).
Definition buffer_overflow (r : rx_entry) (s : xp) : xp :=
  abort_frame r (incr_sdt rx_buffer_overflows s).
Definition frame_too_long (r : rx_entry) (s : xp) : xp :=
  abort_frame r (incr_sdt rx_frame_errors (incr_sdt rx_frame_too_long s)).

(** A whole byte of the residue goes into the frame. *)
Definition rx_store (s : xp) : xp :=
  let residue := s.(xp_rx).(rx_residue) in
  let s := s <| xp_rx; rx_bcc := bcc_byte s.(xp_rx).(rx_bcc) residue |> in
  let s := s <| xp_rx; rx_nxt := Some (default [] s.(xp_rx).(rx_nxt) ++ [u8 residue]) |> in
  let s := incr_sdt rx_bytes s in
  let s := s <| xp_rx; rx_residue := Z.shiftr residue 8 |> in
  let s := s <| xp_rx; rx_rbits := u32 (s.(xp_rx).(rx_rbits) - 8) |> in
  s <| xp_rx; rx_nbytes := u32 (s.(xp_rx).(rx_nbytes) + 1) |>.
Definition rx_room (s : xp) : bool * xp :=
  let s :=
    match s.(xp_rx).(rx_nxt) with
    | Some b => if (FASTBUF <=? length b)%nat then xp_rx_linkb s else s
    | None => s
    end in
  match s.(xp_rx).(rx_nxt) with
  | Some _ => (true, s)
  | None =>
      let '(ok, s) := xalloc s in
      if ok then (true, s <| xp_rx; rx_nxt := Some [] |>) else (false, s)
  end.
(** [while (rx->rbits > 16)]: each turn takes 8 bits. *)
Fixpoint rx_bytes_loop (fuel : nat) (M : Z) (r : rx_entry) (s : xp) : xp :=
  match fuel with
  | O => s
  | S fuel =>
      if 16 <? s.(xp_rx).(rx_rbits) then
        let '(ok, s) := rx_room s in
        if negb ok then buffer_overflow r s
        else
          let s := rx_store s in
          if u32 M <? s.(xp_rx).(rx_nbytes) then frame_too_long r s
          else rx_bytes_loop fuel M r s
      else s
  end.

(** The frame the closing flag ends. *)
Definition rx_length (blks : list (list Z)) (s : xp) : Z :=
  let b := match blks with [] => [] | b :: _ => b end in
  if is_xsn s then Z.land (Z.lor (Z.shiftl (byte_at b 5) 8) (byte_at b 4)) 0x1ff
  else Z.land (byte_at b 2) 0x3f.
(** A short first block would make the reads of the length indicator undefined. *)
Definition rx_end (r : rx_entry) (s : xp) : xp :=
  let hl := Z.of_nat (hlen s) in
  let mlen := if is_xsn s then 0x1ff else 0x3f in
  if negb (s.(xp_rx).(rx_rbits) =? 16) then residue_error r s
  else if negb (Z.land (Z.lnot s.(xp_rx).(rx_bcc)) 0xffff =? Z.land s.(xp_rx).(rx_residue) 0xffff)
  then crc_error r s
  else if s.(xp_rx).(rx_nbytes) <? hl then frame_too_short r s
  else
    let s := xp_rx_linkb s in
    let blks := default [] s.(xp_rx).(rx_msg) in
    let s := if (hlen s <=? length (match blks with [] => [] | b :: _ => b end))%nat
             then s else fault s in
    let li := rx_length blks s in
    let len := u32 (s.(xp_rx).(rx_nbytes) - hl) in
    if negb (len =? li) && (negb (li =? mlen) || (len <=? li)) then length_error r s
    else
      let s := incr_sdt rx_sus s in
      let s := s <| xp_rx; rx_msg := None |> in
      let '(i, s) := newid s in
      let s := sl_daedr_received_bits (Some (Mblk i blks)) s in
      new_frame r s.

Definition rx_max (s : xp) : Z := s.(sdt_conf).(cf_m) + 1 + Z.of_nat (hlen s).
Definition rx_mof (r : rx_entry) (s : xp) : xp :=
  let s :=
    if negb r.(re_sync) && negb (r.(re_bit_length) =? 0) then
      let rx := s.(xp_rx) in
      let s := s <| xp_rx; rx_residue :=
                      Z.lor rx.(rx_residue) (u32 (Z.shiftl r.(re_bit_string) rx.(rx_rbits))) |> in
      s <| xp_rx; rx_rbits := u32 (rx.(rx_rbits) + r.(re_bit_length)) |>
    else s in
  if negb r.(re_flag) then
    if r.(re_hunt) || r.(re_idle) then aborted r s
    else rx_bytes_loop (Z.to_nat s.(xp_rx).(rx_rbits)) (rx_max s) r s
  else rx_end r s.
Definition rx_hunting (r : rx_entry) (s : xp) : xp :=
  if negb r.(re_flag) then
    let N := s.(sdt_conf).(cf_N) in
    let s := s <| xp_rx; rx_octets := u32 (s.(xp_rx).(rx_octets) + 1) |> in
    let s :=
      if N <=? s.(xp_rx).(rx_octets) then
        let s := incr_sdt rx_sus_in_error s in
        let s := sl_daedr_su_in_error s in
        s <| xp_rx; rx_octets := u32 (s.(xp_rx).(rx_octets) - N) |>
      else s in
    s <| sdt_stats; rx_bits_octet_counted := u32 (s.(sdt_stats).(rx_bits_octet_counted) + 8) |>
  else new_frame r (incr_sdt rx_sync_transitions s).

(** One octet of the block. *)
Definition rx_entry_of (type st octet : Z) : rx_entry :=
  if type =? SDL_TYPE_DS0A then rx_index7 st (xp_rev octet) else rx_index8 st (xp_rev octet).
Definition rx_octet (type octet : Z) (s : xp) : xp :=
  let r := rx_entry_of type s.(xp_rx).(rx_st) octet in
  let s := s <| xp_rx; rx_st := r.(re_state) |> in
  let mode := s.(xp_rx).(rx_mode) in
  if mode =? RX_MODE_MOF then rx_mof r s
  else if mode =? RX_MODE_SYNC then
    if negb r.(re_hunt) && negb r.(re_idle) then begin_frame r s else to_hunt s
  else if mode =? RX_MODE_HUNT then rx_hunting r s
  else abort_frame r s (* swerr *).

(** Without Soft-HDLC the octets are passed up in blocks of [ifblksize].  On a
    span the channel's offset is added to the octet, not to its address. *)
Definition sdl_rx_take (octet : Z) (s : xp) : xp :=
  let s := s <| xp_rx; rx_nxt := Some (default [] s.(xp_rx).(rx_nxt) ++ [u8 octet]) |> in
  s <| sdl_stats; sdl_rx_octets := u32 (s.(sdl_stats).(sdl_rx_octets) + 1) |>.
Definition sdl_rx_overflow (s : xp) : xp :=
  s <| sdl_stats; sdl_rx_buffer_overflows :=
         u32 (s.(sdl_stats).(sdl_rx_buffer_overflows) + 1) |>.
Definition sdl_rx_new_block (octet : Z) (s : xp) : bool * xp :=
  let '(ok, s) := xalloc s in
  if ok then (true, sdl_rx_take octet (s <| xp_rx; rx_nxt := Some [] |>))
  else (false, sdl_rx_overflow (s <| xp_rx; rx_nxt := None |>)).
Definition sdl_rx_octet (octet : Z) (s : xp) : bool * xp :=
  match s.(xp_rx).(rx_nxt) with
  | Some b =>
      if Z.of_nat (length b) <? s.(sdl_conf).(ifblksize) then (true, sdl_rx_take octet s)
      else
        let '(r, b, s) := sdl_received_bits_ind b s in
        if negb (r =? QR_ABSORBED) then
          (true, sdl_rx_take octet (s <| xp_rx; rx_nxt := Some b |>))
        else sdl_rx_new_block octet (sdl_rx_overflow s)
  | None => sdl_rx_new_block octet s
  end.

Fixpoint rx_octets_loop (type : Z) (offs : list nat) (bp : list Z) (s : xp) : xp :=
  match offs with
  | [] => s
  | o :: offs => rx_octets_loop type offs bp (rx_octet type (nth o bp 0) s)
  end.
Fixpoint sdl_rx_loop (offs : list (nat * Z)) (bp : list Z) (s : xp) : xp :=
  match offs with
  | [] => s
  | (o, c) :: offs =>
      let '(ok, s) := sdl_rx_octet (nth o bp 0 + c) s in
      if ok then sdl_rx_loop offs bp s else s
  end.
Definition xp_rx_block (type : Z) (n : nat) (bp : list Z) (s : xp) : xp :=
  if negb (s.(sdt_statem).(daedr_state) =s IDLE) then
    rx_octets_loop type (octet_offsets type rx_chan_map n) bp s
  else if negb (s.(sdl_statem).(rx_state) =s IDLE) then
    sdl_rx_loop (flat_map (fun i => (fun c => ((32 * i)%nat, c)) <$> rx_chan_map type) (seq 0 n)) bp s
  else s.
End Receive.
