(* ===== verification/Spans.v ===== *)
(** * Spans, the card tasklet and the elastic buffer

    How the tasklets of [drivers/sl_x100p.c] run the Soft-HDLC on the channels of
    a span, and how they keep up with the interrupts: the ring of 128 blocks of
    256 octets between them.  The rest of the interrupt routine is in [Isr]. *)
From S2P Require Import Prelude Bufq Xp Prims Timers Txc Lsc Rc LscCtl Monitors Requests Lmi Hdlc SoftHdlc.
From stdpp Require Import gmap.
#[local] Open Scope Z_scope.
#[local] Open Scope os7_scope.
#[local] Set Warnings "-clear-no-such-hyp".

Section Spans.
Context (FASTBUF : nat).

(** ** One channel of a block *)

(** A block holds 8 frames of 32 octets. *)
Definition block_frames : nat := 8.
Definition running (flag : Z) (s : xp) : bool := negb (Z.land s.(sdl_conf).(ifflags) flag =? 0).
Definition add_tx_octets (n : Z) (s : xp) : xp :=
  s <| sdl_stats; sdl_tx_octets := u32 (s.(sdl_stats).(sdl_tx_octets) + n) |>.
Definition add_rx_octets (n : Z) (s : xp) : xp :=
  s <| sdl_stats; sdl_rx_octets := u32 (s.(sdl_stats).(sdl_rx_octets) + n) |>.
(** Transmission of [type], or what an idle transmitter sends, then reception;
    [count] octets are accounted for. *)
Definition chan_block (type idle count : Z) (rspan wspan : list Z) (s : xp) : list Z * xp :=
  let '(wspan, s) :=
    if running SDL_IF_TX_RUNNING s then
      let '(wspan, s) := xp_tx_block type block_frames wspan s in
      (wspan, add_tx_octets count s)
    else (xp_tx_idle idle block_frames wspan, s) in
  (wspan,
   if running SDL_IF_RX_RUNNING s
   then add_rx_octets count (xp_rx_block FASTBUF type block_frames rspan s) else s).

(** ** A span *)

(** The channels by minor; a span's slots name them. *)
Definition slot_xp (slots : list (option Z)) (chans : gmap Z xp) (slot : nat) : option (Z * xp) :=
  match nth slot slots None with
  | Some i => (fun s => (i, s)) <$> chans !! i
  | None => None
  end.

(** The bodies of the loops over the timeslots: the buffers are passed as they
    are for every slot. *)
Definition e1c_slot (slots : list (option Z)) (rspan : list Z) (p : list Z * gmap Z xp)
    (slot : nat) : list Z * gmap Z xp :=
  let '(wspan, chans) := p in
  match slot_xp slots chans slot with
  | Some (i, s) =>
      if running SDL_IF_UP s then
        if negb (s.(sdl_conf).(iftype) =? SDL_TYPE_DS0A) then
          let '(wspan, s) := chan_block SDL_TYPE_DS0 SDL_TYPE_DS0 8 rspan wspan s in
          (wspan, <[i := s]> chans)
        else p
      else (xp_tx_idle SDL_TYPE_DS0 block_frames wspan, chans)
  | None => (xp_tx_idle SDL_TYPE_DS0 block_frames wspan, chans)
  end.
Definition xp_e1c_process (slots : list (option Z)) (wspan rspan : list Z) (chans : gmap Z xp) :
    list Z * gmap Z xp :=
  fold_left (e1c_slot slots rspan) (seq 1 31) (wspan, chans).
Definition t1c_slot (slots : list (option Z)) (rspan : list Z) (p : list Z * gmap Z xp)
    (slot : nat) : list Z * gmap Z xp :=
  let '(wspan, chans) := p in
  if Z.land (Z.of_nat slot) 3 =? 0 then p
  else
    match slot_xp slots chans slot with
    | Some (i, s) =>
        if running SDL_IF_UP s then
          let type := if negb (s.(sdl_conf).(iftype) =? SDL_TYPE_DS0A)
                      then SDL_TYPE_DS0 else SDL_TYPE_DS0A in
          let '(wspan, s) := chan_block type SDL_TYPE_DS0A 8 rspan wspan s in
          (wspan, <[i := s]> chans)
        else (xp_tx_idle SDL_TYPE_DS0A block_frames wspan, chans)
    | None => (xp_tx_idle SDL_TYPE_DS0A block_frames wspan, chans)
    end.
Definition xp_t1c_process (slots : list (option Z)) (wspan rspan : list Z) (chans : gmap Z xp) :
    list Z * gmap Z xp :=
  fold_left (t1c_slot slots rspan) (seq 1 31) (wspan, chans).
(** A full span runs the channel of slot 1. *)
Definition xp_e1_process (slots : list (option Z)) (wspan rspan : list Z) (chans : gmap Z xp) :
    list Z * gmap Z xp :=
  match slot_xp slots chans 1 with
  | Some (i, s) =>
      let '(wspan, s) := chan_block SDL_TYPE_E1 SDL_TYPE_E1 (8 * 31) rspan wspan s in
      (wspan, <[i := s]> chans)
  | None => (xp_tx_idle SDL_TYPE_E1 block_frames wspan, chans)
  end.
Definition xp_t1_process (slots : list (option Z)) (wspan rspan : list Z) (chans : gmap Z xp) :
    list Z * gmap Z xp :=
  match slot_xp slots chans 1 with
  | Some (i, s) =>
      let '(wspan, s) := chan_block SDL_TYPE_T1 SDL_TYPE_T1 (8 * 24) rspan wspan s in
      (wspan, <[i := s]> chans)
  | None => (xp_tx_idle SDL_TYPE_T1 block_frames wspan, chans)
  end.

(** ** The elastic buffer *)

Definition X100P_EBUFNO : Z := 128.
(** [cb_wbuf] and [cb_rbuf] are lists of 128 blocks. *)
Record card_buf := CardBuf {
  uebno : Z; lebno : Z; cb_wbuf : list (list Z); cb_rbuf : list (list Z) }.
#[export] Instance eta_card_buf : Eta card_buf := fun r =>
  CardBuf r.(uebno) r.(lebno) r.(cb_wbuf) r.(cb_rbuf).
#[export] Instance set_uebno : Setter uebno := ltac:(mk_setter).
#[export] Instance set_lebno : Setter lebno := ltac:(mk_setter).
#[export] Instance set_cb_wbuf : Setter cb_wbuf := ltac:(mk_setter).
#[export] Instance set_cb_rbuf : Setter cb_rbuf := ltac:(mk_setter).
Definition ebuf_next (n : Z) : Z := Z.land (n + 1) (X100P_EBUFNO - 1).
Definition block_of (n : Z) (l : list (list Z)) : list Z := nth (Z.to_nat n) l [].

(** The burst of the interrupt routine: a block goes out, the block [rd] the card
    received comes in, and the tasklet is scheduled; or the ring is full. *)
Definition interrupt_burst (rd : list Z) (cb : card_buf) : option (list Z) * card_buf :=
  let n := ebuf_next cb.(lebno) in
  if negb (n =? cb.(uebno)) then
    let out := block_of n cb.(cb_wbuf) in
    let cb := cb <| cb_rbuf := <[Z.to_nat n := rd]> cb.(cb_rbuf) |> in
    (Some out, cb <| lebno := n |>)
  else (None, cb).

(** [xp_overflow]: the octets are accounted as lost. *)
Definition overflow_chan (n : Z) (s : xp) : xp :=
  let s :=
    if running SDL_IF_TX_RUNNING s then
      let s := s <| sdl_stats; sdl_tx_underruns := u32 (s.(sdl_stats).(sdl_tx_underruns) + n) |> in
      s <| sdt_stats; tx_underruns := u32 (s.(sdt_stats).(tx_underruns) + n) |>
    else s in
  if running SDL_IF_RX_RUNNING s then
    let s := s <| sdl_stats; sdl_rx_overruns := u32 (s.(sdl_stats).(sdl_rx_overruns) + n) |> in
    s <| sdt_stats; rx_overruns := u32 (s.(sdt_stats).(rx_overruns) + n) |>
  else s.
Definition overflow_slot (slots : list (option Z)) (n : Z) (chans : gmap Z xp) (slot : nat) :
    gmap Z xp :=
  match slot_xp slots chans slot with
  | Some (i, s) => <[i := overflow_chan n s]> chans
  | None => chans
  end.
Definition xp_overflow (sp : option span) (chans : gmap Z xp) : gmap Z xp :=
  match sp with
  | Some sp =>
      if negb (Z.land sp.(sp_conf).(ifflags) SDL_IF_UP =? 0) then
        let t := sp.(sp_conf).(iftype) in
        if (t =? SDL_TYPE_DS0) || (t =? SDL_TYPE_DS0A) then
          fold_left (overflow_slot sp.(sp_slots) 8) (seq 1 31) chans
        else if t =? SDL_TYPE_T1 then overflow_slot sp.(sp_slots) (8 * 24) chans 1
        else if t =? SDL_TYPE_E1 then overflow_slot sp.(sp_slots) (8 * 31) chans 1
        else chans
      else chans
  | None => chans
  end.

(** The tasklet of an E1 ([e1]) or T1 card processes one block; the result says
    whether it schedules itself again. *)
Definition process_block (e1 : bool) (sp : option span) (cb : card_buf) (chans : gmap Z xp) :
    card_buf * gmap Z xp :=
  match sp with
  | Some sp =>
      if negb (Z.land sp.(sp_conf).(ifflags) SDL_IF_UP =? 0) then
        let w := block_of cb.(uebno) cb.(cb_wbuf) in
        let r := block_of cb.(uebno) cb.(cb_rbuf) in
        let t := sp.(sp_conf).(iftype) in
        let '(w, chans) :=
          if e1 then
            if t =? SDL_TYPE_E1 then xp_e1_process sp.(sp_slots) w r chans
            else xp_e1c_process sp.(sp_slots) w r chans
          else
            if t =? SDL_TYPE_T1 then xp_t1_process sp.(sp_slots) w r chans
            else xp_t1c_process sp.(sp_slots) w r chans in
        (cb <| cb_wbuf := <[Z.to_nat cb.(uebno) := w]> cb.(cb_wbuf) |>, chans)
      else (cb, chans)
  | None => (cb, chans)
  end.
Definition card_tasklet (e1 : bool) (sp : option span) (cb : card_buf) (chans : gmap Z xp) :
    bool * card_buf * gmap Z xp :=
  if negb (cb.(uebno) =? cb.(lebno)) then
    let '(cb, chans) := process_block e1 sp cb chans in
    let cb := cb <| uebno := ebuf_next cb.(uebno) |> in
    (negb (cb.(uebno) =? cb.(lebno)), cb, chans)
  else (false, cb, chans).
Definition xp_e1_card_tasklet := card_tasklet true.
Definition xp_t1_card_tasklet := card_tasklet false.
End Spans.
