(* ===== verification/Ring.v ===== *)
(** * The elastic buffer as two queues

    The ring of blocks between the interrupt routine and the card tasklet of
    [drivers/sl_x100p.c] implements two queues: the blocks received and not yet
    processed, and the blocks processed and not yet sent. *)
From S2P Require Import Prelude Bufq Xp Prims Timers Txc Lsc Rc LscCtl Monitors Requests Lmi Hdlc SoftHdlc Spans.
From stdpp Require Import gmap.
#[local] Open Scope Z_scope.
#[local] Open Scope os7_scope.
#[local] Set Warnings "-clear-no-such-hyp".

(** ** The specification *)

Record queues := Queues { to_process : list (list Z); to_send : list (list Z) }.
(** The burst: the card takes the block to send and gives the one received, unless
    none is ready. *)
Definition burst_spec (rd : list Z) (q : queues) : option (list Z) * queues :=
  match q.(to_send) with
  | o :: out => (Some o, Queues (q.(to_process) ++ [rd]) out)
  | [] => (None, q)
  end.
(** The tasklet turns the oldest block to be processed into a block to send,
    [w], but leaves the last one. *)
Definition tasklet_spec (w : list Z) (q : queues) : bool * queues :=
  match q.(to_process) with
  | _ :: x :: rest =>
      (negb (bool_decide (rest = [])), Queues (x :: rest) (q.(to_send) ++ [w]))
  | _ => (false, q)
  end.

(** ** The ring *)

Definition ring_ok (cb : card_buf) : Prop :=
  0 <= cb.(uebno) < 128 ∧ 0 <= cb.(lebno) < 128 ∧
  length cb.(cb_rbuf) = 128%nat ∧ length cb.(cb_wbuf) = 128%nat.
Definition distance (cb : card_buf) : nat := Z.to_nat ((cb.(lebno) - cb.(uebno)) mod 128).
Definition cells (buf : list (list Z)) (from : Z) (n : nat) : list (list Z) :=
  (λ i, block_of ((from + Z.of_nat i) mod 128) buf) <$> seq 0 n.
Definition queues_of (cb : card_buf) : queues :=
  Queues (cells cb.(cb_rbuf) cb.(uebno) (S (distance cb)))
         (cells cb.(cb_wbuf) (cb.(lebno) + 1) (127 - distance cb)).

Lemma ebuf_next_mod n : ebuf_next n = (n + 1) mod 128.
Proof. unfold ebuf_next. change (X100P_EBUFNO - 1) with (Z.ones 7). by rewrite Z.land_ones. Qed.
Lemma cells_S buf from n :
  cells buf from (S n) = block_of (from mod 128) buf :: cells buf (from + 1) n.
Proof.
  unfold cells. cbn [seq fmap list_fmap]. rewrite Z.add_0_r. f_equal.
  rewrite <- seq_shift, <- list_fmap_compose. apply list_fmap_ext. intros i x _. cbn.
  f_equal. f_equal. lia.
Qed.
Lemma cells_snoc buf from n :
  cells buf from (S n) = cells buf from n ++ [block_of ((from + Z.of_nat n) mod 128) buf].
Proof. unfold cells. by rewrite seq_S, fmap_app. Qed.
Lemma block_of_insert n m x buf :
  0 <= n < 128 → 0 <= m < 128 → length buf = 128%nat →
  block_of m (<[Z.to_nat n := x]> buf) = if n =? m then x else block_of m buf.
Proof.
  intros Hn Hm Hl. unfold block_of. rewrite !nth_lookup. destruct (Z.eqb_spec n m) as [-> | H].
  - rewrite list_lookup_insert_eq by lia. done.
  - rewrite list_lookup_insert_ne by lia. done.
Qed.
Lemma cells_insert n x buf from k :
  0 <= n < 128 → length buf = 128%nat →
  (∀ i, (i < k)%nat → (from + Z.of_nat i) mod 128 ≠ n) →
  cells (<[Z.to_nat n := x]> buf) from k = cells buf from k.
Proof.
  intros Hn Hl H. unfold cells. apply list_fmap_ext. intros i j Hj.
  apply lookup_seq in Hj as [-> Hi].
  rewrite block_of_insert by (done || apply Z.mod_pos_bound; lia).
  by rewrite (proj2 (Z.eqb_neq n _)) by (intros E; by eapply H).
Qed.
Lemma cells_mod buf from k : cells buf (from mod 128) k = cells buf from k.
Proof.
  unfold cells. apply list_fmap_ext. intros i j _. f_equal. by rewrite Zplus_mod_idemp_l.
Qed.
Ltac ring_lia := Z.to_euclidean_division_equations; lia.

(** *** The interrupt *)

Lemma distance_bound cb : (distance cb <= 127)%nat.
Proof. unfold distance. ring_lia. Qed.
Lemma burst_refines rd cb :
  ring_ok cb →
  ring_ok (interrupt_burst rd cb).2 ∧
  ((interrupt_burst rd cb).1, queues_of (interrupt_burst rd cb).2) = burst_spec rd (queues_of cb).
Proof.
  intros (Hu & Hl & Hr & Hw). unfold interrupt_burst. cbv zeta. rewrite ebuf_next_mod.
  remember ((lebno cb + 1) mod 128) as n eqn:En.
  assert (Hn : 0 <= n < 128) by (subst n; apply Z.mod_pos_bound; lia).
  unfold burst_spec, queues_of. cbn [to_send to_process].
  destruct (Z.eqb_spec n (uebno cb)) as [E|E]; cbn [negb].
  - split; [done|]. assert (Hd : distance cb = 127%nat) by (unfold distance; ring_lia).
    cbn [fst snd]. by rewrite Hd.
  - assert (Hd : (distance cb < 127)%nat) by (unfold distance; ring_lia).
    cbn [fst snd]. split.
    { unfold ring_ok. upd. by rewrite length_insert. }
    unfold queues_of. unfold distance at 1 2. upd.
    replace (Z.to_nat ((n - uebno cb) mod 128)) with (S (distance cb)) by (unfold distance; ring_lia).
    destruct (127 - distance cb)%nat as [|m] eqn:Em; [lia|].
    rewrite (cells_S _ (lebno cb + 1)), <- En.
    replace (127 - S (distance cb))%nat with m by lia. f_equal. f_equal.
    + rewrite (cells_snoc _ _ (S (distance cb))). f_equal.
      * apply cells_insert; [done|done|]. intros i Hi. unfold distance in *. ring_lia.
      * f_equal. rewrite block_of_insert by (done || apply Z.mod_pos_bound; lia).
        rewrite (proj2 (Z.eqb_eq _ _)); [done|]. unfold distance in *. ring_lia.
    + rewrite <- (cells_mod _ (n + 1)), <- (cells_mod _ (lebno cb + 1 + 1)). f_equal.
      rewrite En. by rewrite Zplus_mod_idemp_l.
Qed.

(** *** The tasklet *)

(** The block the span makes of the one received. *)
Definition span_block FASTBUF (e1 : bool) (sp : option span) (w r : list Z) (chans : gmap Z xp) :
    list Z * gmap Z xp :=
  match sp with
  | Some sp =>
      if negb (Z.land sp.(sp_conf).(ifflags) SDL_IF_UP =? 0) then
        let t := sp.(sp_conf).(iftype) in
        if e1 then
          if t =? SDL_TYPE_E1 then xp_e1_process FASTBUF sp.(sp_slots) w r chans
          else xp_e1c_process FASTBUF sp.(sp_slots) w r chans
        else
          if t =? SDL_TYPE_T1 then xp_t1_process FASTBUF sp.(sp_slots) w r chans
          else xp_t1c_process FASTBUF sp.(sp_slots) w r chans
      else (w, chans)
  | None => (w, chans)
  end.
Lemma process_block_eq FASTBUF e1 sp cb chans :
  ring_ok cb →
  process_block FASTBUF e1 sp cb chans =
  let '(w, chans) := span_block FASTBUF e1 sp (block_of cb.(uebno) cb.(cb_wbuf))
                       (block_of cb.(uebno) cb.(cb_rbuf)) chans in
  (cb <| cb_wbuf := <[Z.to_nat cb.(uebno) := w]> cb.(cb_wbuf) |>, chans).
Proof.
  intros (Hu & _ & _ & Hw).
  assert (E : cb = cb <| cb_wbuf :=
    <[Z.to_nat cb.(uebno) := block_of cb.(uebno) cb.(cb_wbuf)]> cb.(cb_wbuf) |>).
  { assert (E0 : <[Z.to_nat (uebno cb) := block_of (uebno cb) (cb_wbuf cb)]> (cb_wbuf cb) = cb_wbuf cb).
    { apply list_insert_id. unfold block_of.
      destruct (nth_lookup_or_length (cb_wbuf cb) (Z.to_nat (uebno cb)) []); [done|lia]. }
    rewrite E0. by destruct cb. }
  unfold process_block, span_block. destruct sp as [sp|]; [|by rewrite <- E].
  case_match; [|by rewrite <- E]. cbv zeta. reflexivity.
Qed.

Lemma tasklet_refines FASTBUF e1 sp cb chans :
  ring_ok cb →
  let '(w, chans1) := span_block FASTBUF e1 sp (block_of cb.(uebno) cb.(cb_wbuf))
                        (block_of cb.(uebno) cb.(cb_rbuf)) chans in
  let '(again, cb', chans2) := card_tasklet FASTBUF e1 sp cb chans in
  ring_ok cb' ∧ (again, queues_of cb') = tasklet_spec w (queues_of cb) ∧
  chans2 = if decide (distance cb = 0%nat) then chans else chans1.
Proof.
  intros Hok. unfold card_tasklet. rewrite process_block_eq by done.
  destruct (span_block FASTBUF e1 sp _ _ chans) as [w chans1].
  destruct Hok as (Hu & Hl & Hr & Hw). unfold queues_of, tasklet_spec. cbn [to_process to_send].
  destruct (Z.eqb_spec (uebno cb) (lebno cb)) as [E|E]; cbn [negb].
  { assert (Hd : distance cb = 0%nat) by (unfold distance; ring_lia). rewrite Hd. done. }
  destruct (distance cb) as [|m] eqn:Hd; [unfold distance in Hd; ring_lia|].
  cbv zeta. rewrite !ebuf_next_mod. upd. split; [|split; [|done]].
  { unfold ring_ok. upd. rewrite length_insert. ring_lia. }
  unfold distance at 1 2. upd. unfold distance in Hd.
  replace (Z.to_nat ((lebno cb - (uebno cb + 1) mod 128) mod 128)) with m by ring_lia.
  rewrite !(cells_S _ (uebno cb)), (cells_S _ (uebno cb + 1)). cbn [tail]. f_equal; [|f_equal].
  - f_equal. destruct m as [|m].
    + rewrite bool_decide_eq_true_2 by done. apply Z.eqb_eq. ring_lia.
    + rewrite bool_decide_eq_false_2 by (by rewrite cells_S). apply Z.eqb_neq. ring_lia.
  - by rewrite cells_mod, cells_S.
  - assert (m <= 126)%nat by ring_lia.
    replace (127 - m)%nat with (S (127 - S m)) by lia. rewrite cells_snoc. f_equal.
    + apply cells_insert; [done|done|]. intros i Hi. ring_lia.
    + f_equal. rewrite block_of_insert by (done || apply Z.mod_pos_bound; lia).
      rewrite (proj2 (Z.eqb_eq _ _)); [done|]. ring_lia.
Qed.

(** C25: the elastic buffer refines two queues.  In any state of the ring the
    burst of the interrupt routine and a run of the card tasklet do to the queues
    what the specification says: the burst sends the oldest processed block and
    appends the one received, and fails just when no processed block is left; the
    tasklet gives the span the oldest block received and appends what the span
    made of it, unless it is the only one, and asks to be scheduled again just
    when more than one block remains.  No block is lost, repeated or reordered,
    and the indices stay within the ring. *)
Theorem ring_refines_queues FASTBUF e1 sp cb chans rd :
  ring_ok cb →
  (ring_ok (interrupt_burst rd cb).2 ∧
   ((interrupt_burst rd cb).1, queues_of (interrupt_burst rd cb).2) =
     burst_spec rd (queues_of cb)) ∧
  (let '(w, chans1) := span_block FASTBUF e1 sp (block_of cb.(uebno) cb.(cb_wbuf))
                         (block_of cb.(uebno) cb.(cb_rbuf)) chans in
   let '(again, cb', chans2) := card_tasklet FASTBUF e1 sp cb chans in
   ring_ok cb' ∧ (again, queues_of cb') = tasklet_spec w (queues_of cb) ∧
   hd_error (queues_of cb).(to_process) = Some (block_of cb.(uebno) cb.(cb_rbuf)) ∧
   chans2 = if decide (distance cb = 0%nat) then chans else chans1).
Proof.
  intros Hok. split; [by apply burst_refines|].
  pose proof (tasklet_refines FASTBUF e1 sp cb chans Hok) as H.
  destruct (span_block FASTBUF e1 sp _ _ chans) as [w chans1].
  destruct (card_tasklet FASTBUF e1 sp cb chans) as [[again cb'] chans2].
  destruct H as (H1 & H2 & H3). split; [done|]. split; [done|]. split; [|done].
  unfold queues_of. cbn [to_process]. rewrite cells_S. cbn [hd_error].
  destruct Hok as (Hu & _). by rewrite Z.mod_small.
Qed.

(** *** Scheduling *)

(** The tasklet as long as it asks to be scheduled again, with no interrupt. *)
Fixpoint run_tasklet FASTBUF (fuel : nat) (e1 : bool) (sp : option span) (cb : card_buf)
    (chans : gmap Z xp) : nat * card_buf * gmap Z xp :=
  match fuel with
  | O => (O, cb, chans)
  | S fuel =>
      let '(again, cb, chans) := card_tasklet FASTBUF e1 sp cb chans in
      if again : bool then
        let '(n, cb, chans) := run_tasklet FASTBUF fuel e1 sp cb chans in (S n, cb, chans)
      else (1%nat, cb, chans)
  end.
(** The tasklet's rescheduling ends.  With [d] blocks in the ring to be
    processed and no further interrupt, it runs [d] times, once if there is none,
    whatever the channels do, then does not ask again, and nothing is left to
    process but the last block. *)
Theorem tasklet_drains FASTBUF e1 sp cb chans :
  ring_ok cb →
  let '(n, cb', chans') := run_tasklet FASTBUF 128 e1 sp cb chans in
  n = Nat.max 1 (distance cb) ∧ ring_ok cb' ∧ distance cb' = 0%nat ∧
  (card_tasklet FASTBUF e1 sp cb' chans').1.1 = false.
Proof.
  intros Hok. pose proof (distance_bound cb) as Hb.
  assert (Hgen : ∀ fuel cb chans, ring_ok cb → (distance cb < fuel)%nat →
    let '(n, cb', chans') := run_tasklet FASTBUF fuel e1 sp cb chans in
    n = Nat.max 1 (distance cb) ∧ ring_ok cb' ∧ distance cb' = 0%nat).
  { clear. intros fuel. induction fuel as [|fuel IH]; intros cb chans Hok Hd; [lia|].
    cbn [run_tasklet]. pose proof (tasklet_refines FASTBUF e1 sp cb chans Hok) as H.
    destruct (span_block FASTBUF e1 sp _ _ chans) as [w chans1].
    destruct (card_tasklet FASTBUF e1 sp cb chans) as [[again cb1] chans2].
    destruct H as (Hok1 & H & _). unfold queues_of, tasklet_spec in H. cbn [to_process to_send] in H.
    assert (Hn : ∀ c, distance c = length (tail (to_process (queues_of c)))).
    { intros c. unfold queues_of. cbn [to_process]. rewrite cells_S. cbn [tail]. unfold cells.
      by rewrite length_fmap, length_seq. }
    destruct (distance cb) as [|m] eqn:Em.
    - rewrite (cells_S _ (uebno cb) 0) in H.
      change (cells (cb_rbuf cb) (uebno cb + 1) 0) with (@nil (list Z)) in H.
      pose proof (f_equal fst H) as Ha. pose proof (f_equal (λ p, to_process p.2) H) as H1.
      cbn [fst snd to_process] in Ha, H1. rewrite Ha, Hn.
      split; [done|]. split; [done|]. unfold queues_of. cbn [to_process]. by rewrite H1.
    - rewrite !(cells_S _ (uebno cb)), (cells_S _ (uebno cb + 1)) in H.
      pose proof (f_equal fst H) as Ha. pose proof (f_equal (λ p, to_process p.2) H) as H1.
      cbn [fst snd to_process] in Ha, H1.
      assert (Hm : distance cb1 = m).
      { rewrite Hn. unfold queues_of. cbn [to_process]. rewrite H1. cbn [tail].
        unfold cells. by rewrite length_fmap, length_seq. }
      rewrite Ha. destruct m as [|m].
      + cbn. by rewrite Hm.
      + rewrite bool_decide_eq_false_2 by (by rewrite cells_S). cbn [negb].
        specialize (IH cb1 chans2 Hok1 ltac:(lia)).
        destruct (run_tasklet FASTBUF fuel e1 sp cb1 chans2) as [[n cb'] chans'].
        destruct IH as (-> & H2 & H3). rewrite Hm. split; [lia|done]. }
  specialize (Hgen 128%nat cb chans Hok ltac:(lia)).
  destruct (run_tasklet FASTBUF 128 e1 sp cb chans) as [[n cb'] chans'].
  destruct Hgen as (Hn & Hok' & Hd). split; [done|]. split; [done|]. split; [done|].
  unfold card_tasklet. destruct Hok' as (Hu & Hl & _).
  rewrite (proj2 (Z.eqb_eq _ _)); [done|]. unfold distance in Hd. ring_lia.
Qed.

(** A ring with four blocks to process, around its end. *)
Definition ex_ring : card_buf := CardBuf 126 2 (repeat [0] 128) (repeat [1] 128).
Lemma ring_refines_queues_witness :
  ring_ok (interrupt_burst [7] ex_ring).2 ∧
  ((interrupt_burst [7] ex_ring).1, queues_of (interrupt_burst [7] ex_ring).2) =
    burst_spec [7] (queues_of ex_ring).
Proof.
  apply (ring_refines_queues 64 true None ex_ring ∅ [7]).
  repeat split; cbn; lia.
Defined.
Lemma tasklet_drains_witness :
  let '(n, cb', chans') := run_tasklet 64 128 true None ex_ring ∅ in
  n = Nat.max 1 (distance ex_ring) ∧ ring_ok cb' ∧ distance cb' = 0%nat ∧
  (card_tasklet 64 true None cb' chans').1.1 = false.
Proof. apply (tasklet_drains 64 true None ex_ring ∅). repeat split; cbn; lia. Defined.
