(* ===== verification/HdlcBits.v ===== *)
(** * Bit streams, CRC and zero insertion

    The tables of the Soft-HDLC against bitwise references: the CRC of a bit
    string, insertion of a zero after five ones, and its deletion with the
    detection of flags and aborts. *)
From S2P Require Import Prelude Bufq Xp Prims Timers Txc Lsc Rc LscCtl Monitors Lmi Hdlc SoftHdlc.
#[local] Set Warnings "-clear-no-such-hyp".

(** ** Integers as bit strings, least significant bit first *)

Fixpoint bits (n : nat) (x : Z) : list bool :=
  match n with O => [] | S n => Z.testbit x 0 :: bits n (Z.shiftr x 1) end.
Fixpoint val (l : list bool) : Z :=
  match l with [] => 0 | b :: l => Z.b2z b + 2 * val l end.

Lemma length_bits n x : length (bits n x) = n.
Proof. revert x. induction n as [|n IH]; intros x; [done|]. cbn. by rewrite IH. Qed.
Lemma val_bound l : 0 <= val l < 2 ^ Z.of_nat (length l).
Proof.
  induction l as [|b l IH]; [done|]. cbn [val length].
  rewrite Nat2Z.inj_succ, Z.pow_succ_r by lia. destruct b; cbn [Z.b2z]; lia.
Qed.
Lemma val_0 b l : Z.testbit (Z.b2z b + 2 * val l) 0 = b.
Proof. rewrite Z.add_comm, Z.testbit_0_r. done. Qed.
Lemma val_shift b l : Z.shiftr (Z.b2z b + 2 * val l) 1 = val l.
Proof.
  rewrite Z.shiftr_div_pow2 by lia. change (2 ^ 1) with 2.
  rewrite Z.add_comm, Z.mul_comm, Z.div_add_l by lia.
  destruct b; cbn [Z.b2z]; [change (1 / 2) with 0|change (0 / 2) with 0]; lia.
Qed.
Lemma bits_val l : bits (length l) (val l) = l.
Proof.
  induction l as [|b l IH]; [done|]. cbn [val length bits].
  by rewrite val_0, val_shift, IH.
Qed.
Lemma val_inj l l' : length l = length l' → val l = val l' → l = l'.
Proof. intros Hl Hv. rewrite <- (bits_val l), <- (bits_val l'). by rewrite Hl, Hv. Qed.
Lemma val_app l l' : val (l ++ l') = val l + 2 ^ Z.of_nat (length l) * val l'.
Proof.
  induction l as [|b l IH]; [cbn; destruct (val l'); lia|]. cbn [app val length].
  rewrite IH, Nat2Z.inj_succ, Z.pow_succ_r by lia. ring.
Qed.
Lemma val_bits n x : val (bits n x) = x mod 2 ^ Z.of_nat n.
Proof.
  revert x. induction n as [|n IH]; intros x; [by rewrite Z.mod_1_r|].
  cbn [bits val]. rewrite IH, Nat2Z.inj_succ, Z.pow_succ_r by lia.
  rewrite Z.shiftr_div_pow2 by lia. change (2 ^ 1) with 2.
  pose proof (Z.pow_pos_nonneg 2 (Z.of_nat n) ltac:(lia) ltac:(lia)) as Hp.
  rewrite Z.rem_mul_r by lia. rewrite <- Z.bit0_mod. done.
Qed.
Lemma val_bits_small n x : 0 <= x < 2 ^ Z.of_nat n → val (bits n x) = x.
Proof. intros H. rewrite val_bits. by apply Z.mod_small. Qed.
Lemma bits_app n m x : bits (n + m) x = bits n x ++ bits m (Z.shiftr x (Z.of_nat n)).
Proof.
  revert x. induction n as [|n IH]; intros x; [by rewrite Z.shiftr_0_r|].
  cbn [Nat.add bits app]. rewrite IH, Z.shiftr_shiftr by lia.
  by replace (1 + Z.of_nat n) with (Z.of_nat (S n)) by lia.
Qed.
(** [residue |= string << rbits], and taking bits off the residue. *)
Lemma val_lor l l' : Z.lor (val l) (Z.shiftl (val l') (Z.of_nat (length l))) = val (l ++ l').
Proof.
  rewrite val_app, Z.shiftl_mul_pow2 by lia.
  rewrite (Z.mul_comm (2 ^ _)). pose proof (val_bound l). pose proof (val_bound l').
  rewrite <- Z.add_lor_land.
  replace (Z.land (val l) (val l' * 2 ^ Z.of_nat (length l))) with 0; [lia|].
  symmetry. rewrite <- (Z.mod_small (val l) (2 ^ Z.of_nat (length l))) by lia.
  rewrite <- Z.land_ones, <- Z.shiftl_mul_pow2 by lia. apply Z.bits_inj_0. intros i.
  rewrite !Z.land_spec. destruct (Z.ltb_spec i 0); [by rewrite !Z.testbit_neg_r|].
  destruct (Z.lt_ge_cases i (Z.of_nat (length l))).
  - rewrite Z.shiftl_spec_low by lia. by rewrite andb_false_r.
  - rewrite Z.ones_spec_high by lia. by rewrite andb_false_r.
Qed.
Lemma val_drop n l :
  (n <= length l)%nat → Z.shiftr (val l) (Z.of_nat n) = val (drop n l).
Proof.
  intros H. rewrite <- (take_drop n l) at 1. rewrite val_app, Z.shiftr_div_pow2 by lia.
  rewrite length_take_le by done. pose proof (val_bound (take n l)) as Hb.
  rewrite length_take_le in Hb by done.
  rewrite Z.add_comm, Z.mul_comm, Z.div_add_l by lia. rewrite Z.div_small by lia. lia.
Qed.
Lemma val_take n l : (n <= length l)%nat → val l mod 2 ^ Z.of_nat n = val (take n l).
Proof.
  intros H. rewrite <- (take_drop n l) at 1. rewrite val_app.
  rewrite length_take_le by done. pose proof (val_bound (take n l)) as Hb.
  rewrite length_take_le in Hb by done.
  rewrite Z.mul_comm, Z.mod_add by (apply Z.pow_nonzero; lia). apply Z.mod_small. lia.
Qed.
Lemma val_app_zero l n : val (l ++ repeat false n) = val l.
Proof.
  rewrite val_app. replace (val (repeat false n)) with 0; [lia|].
  induction n as [|n IH]; [done|]. cbn [repeat val Z.b2z]. lia.
Qed.

(** ** Tables *)

Lemma nth_flat_map {A} (f : Z → list A) n c j k d :
  (∀ i, length (f i) = c) → (j < n)%nat → (k < c)%nat →
  nth (c * j + k) (flat_map f (upto n)) d = nth k (f (Z.of_nat j)) d.
Proof.
  intros Hc Hj Hk. unfold upto.
  assert (H : ∀ b m i, (i < m)%nat →
    nth (c * i + k) (flat_map f (Z.of_nat <$> seq b m)) d = nth k (f (Z.of_nat (b + i))) d).
  { intros b m. revert b. induction m as [|m IH]; intros b i Hi; [lia|].
    cbn [seq fmap list_fmap flat_map]. destruct i as [|i].
    - rewrite Nat.mul_0_r, Nat.add_0_r. cbn [Nat.add]. apply app_nth1. by rewrite Hc.
    - rewrite app_nth2; rewrite Hc; [|lia].
      replace (c * S i + k - c)%nat with (c * i + k)%nat by lia.
      rewrite IH by lia. do 2 f_equal. lia. }
  rewrite H by done. f_equal.
Qed.
Lemma table_index_ok j k : 0 <= j < 14 → 0 <= k < 256 → Z.lor (Z.shiftl j 8) k = 256 * j + k.
Proof.
  intros Hj Hk. apply Z.eqb_eq. revert k Hk. apply forall_range.
  revert j Hj. apply (forall_range 14). vm_compute. reflexivity.
Qed.
Lemma table_nth {A} n (value : Z → Z → A) j k d :
  (n <= 14)%nat → 0 <= j < Z.of_nat n → 0 <= k < 256 →
  nth (table_index j k) (table_generate n value) d = value j k.
Proof.
  intros Hn Hj Hk. unfold table_index, table_generate. rewrite table_index_ok by lia.
  replace (Z.to_nat (256 * j + k)) with (256 * Z.to_nat j + Z.to_nat k)%nat by lia.
  rewrite nth_flat_map by (intros; unfold upto; rewrite ?length_fmap, ?length_seq; lia).
  rewrite Z2Nat.id by lia. unfold upto. rewrite nth_lookup, !list_lookup_fmap.
  rewrite lookup_seq_lt by lia. cbn [fmap option_fmap option_map default]. unfold id. f_equal. lia.
Qed.
Lemma tx_index_value j k : 0 <= j < 5 → 0 <= k < 256 → tx_index j k = tx_table_value j k.
Proof. intros Hj Hk. apply (table_nth 5); (done || lia). Qed.
Lemma rx_index8_value j k : 0 <= j < 14 → 0 <= k < 256 → rx_index8 j k = rx_table_value8 j k.
Proof. intros Hj Hk. apply (table_nth 14); (done || lia). Qed.
Lemma rx_index7_value j k : 0 <= j < 14 → 0 <= k < 256 → rx_index7 j k = rx_table_value7 j k.
Proof. intros Hj Hk. apply (table_nth 14); (done || lia). Qed.
Lemma bc_index_value i : 0 <= i < 256 → bc_index i = bc_table_value i 8.
Proof.
  intros Hi. apply Z.eqb_eq. revert i Hi. apply forall_range. vm_compute. reflexivity.
Qed.

(** ** The CRC *)

(** The CRC-16 register, one bit of input at a time. *)
Definition crc_shift (c : Z) : Z :=
  if Z.testbit c 0 then Z.lxor (Z.shiftr c 1) 0x8408 else Z.shiftr c 1.
Definition crc_bit (c : Z) (b : bool) : Z := crc_shift (Z.lxor c (Z.b2z b)).
Definition crc_bits (c : Z) (l : list bool) : Z := fold_left crc_bit l c.

Lemma bc_table_value_S c n : bc_table_value c (S n) = bc_table_value (crc_shift c) n.
Proof. done. Qed.
Lemma crc_shift_lxor a b : crc_shift (Z.lxor a b) = Z.lxor (crc_shift a) (crc_shift b).
Proof.
  unfold crc_shift. rewrite Z.lxor_spec, Z.shiftr_lxor.
  destruct (Z.testbit a 0), (Z.testbit b 0); cbn [xorb]; try reflexivity.
  - rewrite Z.lxor_assoc, (Z.lxor_comm (0x8408)), Z.lxor_assoc, Z.lxor_nilpotent, Z.lxor_0_r.
    reflexivity.
  - rewrite !Z.lxor_assoc. f_equal. apply Z.lxor_comm.
  - by rewrite Z.lxor_assoc.
Qed.
Lemma crc_bits_value n c x :
  0 <= x < 2 ^ Z.of_nat n → crc_bits c (bits n x) = bc_table_value (Z.lxor c x) n.
Proof.
  revert c x. induction n as [|n IH]; intros c x Hx.
  { cbn in Hx. replace x with 0 by lia. by rewrite Z.lxor_0_r. }
  cbn [bits crc_bits fold_left]. fold (crc_bits (crc_bit c (Z.testbit x 0)) (bits n (Z.shiftr x 1))).
  rewrite Nat2Z.inj_succ, Z.pow_succ_r in Hx by lia.
  rewrite IH; [|rewrite Z.shiftr_div_pow2 by lia; split; [apply Z.div_pos; lia|apply Z.div_lt_upper_bound; lia]].
  rewrite bc_table_value_S. f_equal. unfold crc_bit. rewrite !crc_shift_lxor, Z.lxor_assoc.
  f_equal. unfold crc_shift. rewrite Z.b2z_bit0.
  destruct (Z.testbit x 0) eqn:E; cbn [Z.b2z].
  - change (Z.shiftr 1 1) with 0. rewrite Z.lxor_0_l. apply Z.lxor_comm.
  - change (Z.shiftr 0 1) with 0. by rewrite Z.lxor_0_l.
Qed.
Lemma bc_table_value_high n a h :
  bc_table_value (Z.lxor a (Z.shiftl h (Z.of_nat n))) n = Z.lxor (bc_table_value a n) h.
Proof.
  revert a. induction n as [|n IH]; intros a; [by rewrite Z.shiftl_0_r|].
  rewrite !bc_table_value_S, crc_shift_lxor.
  replace (crc_shift (Z.shiftl h (Z.of_nat (S n)))) with (Z.shiftl h (Z.of_nat n)); [apply IH|].
  unfold crc_shift. rewrite Z.shiftl_spec_low by lia. rewrite Z.shiftr_shiftl_l by lia.
  f_equal. lia.
Qed.
Lemma bits_land n x : bits n (Z.land x (Z.ones (Z.of_nat n))) = bits n x.
Proof.
  apply val_inj; [by rewrite !length_bits|]. rewrite !val_bits, Z.land_ones by lia.
  apply Z.mod_mod. apply Z.pow_nonzero; lia.
Qed.
Lemma split_low c : c = Z.lxor (Z.land c 0xff) (Z.shiftl (Z.shiftr c 8) 8).
Proof.
  apply Z.bits_inj'. intros i Hi. rewrite Z.lxor_spec, Z.land_spec.
  change 0xff with (Z.ones 8). destruct (Z.lt_ge_cases i 8).
  - rewrite Z.ones_spec_low, Z.shiftl_spec_low by lia. by rewrite andb_true_r, xorb_false_r.
  - rewrite Z.ones_spec_high, Z.shiftl_spec, Z.shiftr_spec by lia.
    rewrite andb_false_r, xorb_false_l. f_equal. lia.
Qed.
(** The table computes the CRC of the low 8 bits of [x]. *)
Lemma bcc_byte_ok c x : bcc_byte c x = crc_bits c (bits 8 x).
Proof.
  unfold bcc_byte. rewrite <- (bits_land 8 x). change (Z.ones (Z.of_nat 8)) with 0xff.
  assert (Hb : ∀ y, 0 <= Z.land y 0xff < 256).
  { intros y. change 0xff with (Z.ones 8). rewrite Z.land_ones by lia. apply Z.mod_pos_bound. lia. }
  rewrite crc_bits_value by apply Hb. rewrite bc_index_value by apply Hb.
  rewrite (split_low c) at 3. rewrite Z.lxor_assoc, (Z.lxor_comm (Z.shiftl _ _)), <- Z.lxor_assoc.
  pose proof (bc_table_value_high 8 (Z.lxor (Z.land c 255) (Z.land x 255)) (Z.shiftr c 8)) as H.
  change (Z.of_nat 8) with 8 in H. rewrite H, Z.lxor_comm. f_equal. f_equal.
  apply Z.bits_inj'. intros i Hi. rewrite Z.lxor_spec, !Z.land_spec, Z.lxor_spec.
  by destruct (Z.testbit c i), (Z.testbit x i), (Z.testbit 0xff i).
Qed.
Lemma crc_bits_app c l l' : crc_bits c (l ++ l') = crc_bits (crc_bits c l) l'.
Proof. apply fold_left_app. Qed.
(** The register stays in 16 bits. *)
Lemma lxor_range n a b :
  0 <= n → 0 <= a < 2 ^ n → 0 <= b < 2 ^ n → 0 <= Z.lxor a b < 2 ^ n.
Proof.
  intros Hn Ha Hb. assert (E : Z.lxor a b = Z.lxor a b mod 2 ^ n).
  { apply Z.bits_inj'. intros i Hi. destruct (Z.lt_ge_cases i n).
    - by rewrite Z.mod_pow2_bits_low by lia.
    - rewrite Z.mod_pow2_bits_high, Z.lxor_spec by lia.
      rewrite <- (Z.mod_small a (2 ^ n)), <- (Z.mod_small b (2 ^ n)) by lia.
      by rewrite !Z.mod_pow2_bits_high by lia. }
  rewrite E. apply Z.mod_pos_bound. lia.
Qed.
Lemma crc_shift_range c : 0 <= c < 2 ^ 16 → 0 <= crc_shift c < 2 ^ 16.
Proof.
  intros Hc. assert (Hs : 0 <= Z.shiftr c 1 < 2 ^ 16).
  { rewrite Z.shiftr_div_pow2 by lia. change (2 ^ 1) with 2.
    split; [apply Z.div_pos; lia|apply Z.div_lt_upper_bound; lia]. }
  unfold crc_shift. case_match; [|done]. apply lxor_range; [done|done|]. by split.
Qed.
Lemma crc_bits_range c l : 0 <= c < 2 ^ 16 → 0 <= crc_bits c l < 2 ^ 16.
Proof.
  revert c. induction l as [|b l IH]; intros c Hc; [done|]. apply IH.
  apply crc_shift_range, lxor_range; [done|done|]. by destruct b.
Qed.

(** ** Zero insertion *)

(** A zero after every fifth one in a row; [c] ones have been sent already. *)
Fixpoint stuff (c : nat) (l : list bool) : list bool :=
  match l with
  | [] => []
  | true :: l => if (c =? 4)%nat then true :: false :: stuff 0 l else true :: stuff (S c) l
  | false :: l => false :: stuff 0 l
  end.
Fixpoint ones_after (c : nat) (l : list bool) : nat :=
  match l with
  | [] => c
  | true :: l => if (c =? 4)%nat then ones_after 0 l else ones_after (S c) l
  | false :: l => ones_after 0 l
  end.
Lemma stuff_app c l l' : stuff c (l ++ l') = stuff c l ++ stuff (ones_after c l) l'.
Proof.
  revert c. induction l as [|[] l IH]; intros c; [done| |].
  - cbn [app stuff ones_after]. case_match; cbn [app]; by rewrite IH.
  - cbn [app stuff ones_after]. by rewrite IH.
Qed.
Lemma ones_after_app c l l' : ones_after c (l ++ l') = ones_after (ones_after c l) l'.
Proof.
  revert c. induction l as [|[] l IH]; intros c; [done| |]; cbn [app ones_after].
  - case_match; apply IH.
  - apply IH.
Qed.
Lemma ones_after_bound c l : (c <= 4)%nat → (ones_after c l <= 4)%nat.
Proof.
  revert c. induction l as [|[] l IH]; intros c Hc; [done| |]; cbn [ones_after].
  - destruct (Nat.eqb_spec c 4); apply IH; lia.
  - apply IH; lia.
Qed.

(** The entry of the table for byte [x] after [c] ones. *)
Record stuffs (c : nat) (l : list bool) (t : tx_entry) : Prop := {
  st_len : 0 <= t.(te_bit_length) <= 2;
  st_bits : t.(te_bit_string) = val (stuff c l);
  st_count : Z.of_nat (length (stuff c l)) = t.(te_bit_length) + 8;
  st_state : t.(te_state) = Z.of_nat (ones_after c l) }.
Definition stuffs_b (c : nat) (l : list bool) (t : tx_entry) : bool :=
  (0 <=? t.(te_bit_length)) && (t.(te_bit_length) <=? 2) &&
  (t.(te_bit_string) =? val (stuff c l)) &&
  (Z.of_nat (length (stuff c l)) =? t.(te_bit_length) + 8) &&
  (t.(te_state) =? Z.of_nat (ones_after c l)).
Lemma tx_entry_ok c x :
  (c < 5)%nat → 0 <= x < 256 → stuffs c (bits 8 x) (tx_index (Z.of_nat c) x).
Proof.
  intros Hc Hx. rewrite tx_index_value by lia.
  assert (H : stuffs_b c (bits 8 x) (tx_table_value (Z.of_nat c) x) = true).
  { revert x Hx. apply forall_range. do 5 (destruct c as [|c]; [vm_compute; reflexivity|]). lia. }
  unfold stuffs_b in H. rewrite !andb_true_iff, !Z.leb_le, !Z.eqb_eq in H.
  destruct H as ((((H1 & H2) & H3) & H4) & H5). by split.
Qed.

(** ** Zero deletion *)

(** The bits the receiver holds back in each state, as they may belong to a flag,
    and the number of ones at their end. *)
Definition pending (st : Z) : list bool :=
  if st =? 0 then []
  else if st <=? 7 then false :: repeat true (Z.to_nat (st - 1))
  else repeat true (Z.to_nat (st - 7)).
Definition encode (p : list bool) : Z :=
  match p with
  | [] => 0
  | false :: _ => Z.of_nat (length p)
  | true :: _ => Z.of_nat (length p) + 7
  end.
Fixpoint count_ones (p : list bool) : nat :=
  match p with [] => 0%nat | true :: p => S (count_ones p) | false :: p => count_ones p end.
(** One bit: what is held back and what comes out; [None] when it completes a
    flag or an abort. *)
Definition unstuff_bit (p : list bool) (b : bool) : option (list bool * list bool) :=
  if (count_ones p =? 6)%nat then None
  else if b then Some (p ++ [true], [])
  else if (count_ones p =? 5)%nat then Some ([], p) else Some ([false], p).
Fixpoint unstuff (p : list bool) (l : list bool) : option (list bool * list bool) :=
  match l with
  | [] => Some (p, [])
  | b :: l =>
      match unstuff_bit p b with
      | None => None
      | Some (p, out) =>
          match unstuff p l with None => None | Some (p, out') => Some (p, out ++ out') end
      end
  end.
Lemma unstuff_app p l l' :
  unstuff p (l ++ l') =
  match unstuff p l with
  | None => None
  | Some (p', out) =>
      match unstuff p' l' with None => None | Some (p'', out') => Some (p'', out ++ out') end
  end.
Proof.
  revert p. induction l as [|b l IH]; intros p; cbn [app unstuff].
  - destruct (unstuff p l') as [[]|]; done.
  - destruct (unstuff_bit p b) as [[p1 o1]|]; [|done]. rewrite IH.
    destruct (unstuff p1 l) as [[p2 o2]|]; [|done].
    destruct (unstuff p2 l') as [[p3 o3]|]; [|done]. by rewrite app_assoc.
Qed.
Lemma count_ones_app p l : count_ones (p ++ l) = (count_ones p + count_ones l)%nat.
Proof. induction p as [|[] p IH]; cbn; [done| |]; rewrite IH; done. Qed.
(** Deleting the inserted zeros gives the bits back, but for those held back. *)
Lemma unstuff_stuff p l :
  (count_ones p <= 4)%nat →
  ∃ p' out, unstuff p (stuff (count_ones p) l) = Some (p', out) ∧
    out ++ p' = p ++ l ∧ count_ones p' = ones_after (count_ones p) l.
Proof.
  revert p. induction l as [|b l IH]; intros p Hp.
  { exists p, []. cbn. by rewrite app_nil_r. }
  destruct b; cbn [stuff ones_after].
  - destruct (Nat.eqb_spec (count_ones p) 4) as [E|E].
    + destruct (IH [] ltac:(cbn; lia)) as (p' & out & E1 & E2 & E3). cbn [count_ones] in *.
      exists p', ((p ++ [true]) ++ out). cbn [unstuff]. unfold unstuff_bit at 1.
      rewrite E. cbn [Nat.eqb]. unfold unstuff_bit at 1.
      rewrite count_ones_app, E. cbn [count_ones Nat.add Nat.eqb]. rewrite E1.
      split; [done|]. split; [|done]. cbn [app] in E2. rewrite <- app_assoc, E2, <- app_assoc. done.
    + destruct (IH (p ++ [true])) as (p' & out & E1 & E2 & E3).
      { rewrite count_ones_app. cbn. lia. }
      rewrite count_ones_app in *. cbn [count_ones] in *. rewrite Nat.add_1_r in *.
      exists p', out. cbn [unstuff]. unfold unstuff_bit at 1.
      rewrite (proj2 (Nat.eqb_neq _ 6)) by lia. rewrite E1. split; [done|]. split; [|done].
      by rewrite E2, <- app_assoc.
  - destruct (IH [false] ltac:(cbn; lia)) as (p' & out & E1 & E2 & E3). cbn [count_ones] in *.
    exists p', (p ++ out). cbn [unstuff]. unfold unstuff_bit at 1.
    rewrite (proj2 (Nat.eqb_neq _ 6)), (proj2 (Nat.eqb_neq _ 5)) by lia. rewrite E1.
    split; [done|]. split; [|done]. by rewrite <- app_assoc, E2.
Qed.
Definition flag_bits : list bool := [false; true; true; true; true; true; true; false].
(** Up to its last bit, a flag pushes out what is held back. *)
Lemma unstuff_flag p :
  (count_ones p <= 4)%nat → unstuff p (removelast flag_bits) = Some (removelast flag_bits, p).
Proof.
  intros Hp. cbn [flag_bits removelast unstuff]. unfold unstuff_bit at 1.
  rewrite (proj2 (Nat.eqb_neq _ 6)), (proj2 (Nat.eqb_neq _ 5)) by lia.
  cbn. by rewrite app_nil_r.
Qed.

(** The entries of the receive tables, for [n] = 7 or 8 bits.  In an octet
    without a flag or abort the entry is what deletion gives. *)
Definition plain_entry (p out : list bool) : rx_entry :=
  RxEntry (val out) (Z.of_nat (length out)) (encode p) false false false false.
#[export] Instance rx_entry_eq_dec : EqDecision rx_entry.
Proof. solve_decision. Defined.
Definition state_ok (p : list bool) : bool :=
  bool_decide (pending (encode p) = p) && (0 <=? encode p) && (encode p <? 14) &&
  (count_ones p <=? 6)%nat.
Definition plain_check (n : nat) (st x : Z) : bool :=
  match unstuff (pending st) (bits n x) with
  | None => true
  | Some (p, out) =>
      bool_decide (rx_table_valueN st x n = plain_entry p out) && state_ok p &&
      (length out <=? 13)%nat
  end.
Definition octet_bits (n : nat) : Prop := n = 7%nat ∨ n = 8%nat.
Lemma plain_checked n st x : octet_bits n → 0 <= st < 14 → 0 <= x < 256 → plain_check n st x = true.
Proof.
  intros Hn Hst Hx. revert x Hx. apply forall_range. revert st Hst. apply (forall_range 14).
  destruct Hn as [-> | ->]; vm_compute; reflexivity.
Qed.
(** A flag that is complete after [q] bits: what came before it in the octet is
    put out only if nothing follows it. *)
Definition flag_entry (last : bool) (p out : list bool) : rx_entry :=
  RxEntry (val out) (Z.of_nat (length out)) (encode p) (negb last) false true false.
Definition flag_check (n : nat) (st x : Z) (q : nat) : bool :=
  let b := bits n x in
  match unstuff (pending st) (take (pred q) b), unstuff [] (drop q b) with
  | Some (p, out), Some (p', out') =>
      if (count_ones p =? 6)%nat && negb (nth (pred q) b true) then
        let last := (q =? n)%nat in
        bool_decide (rx_table_valueN st x n =
                     flag_entry last p' (if last then out else out')) &&
        state_ok p' && (length out <=? 6)%nat && (length out' <=? 13)%nat &&
        (last || bool_decide (out = []))
      else true
  | _, _ => true
  end.
Lemma flag_checked n st x q :
  octet_bits n → (1 <= q <= n)%nat → 0 <= st < 14 → 0 <= x < 256 → flag_check n st x q = true.
Proof.
  intros Hn Hq Hst Hx. revert x Hx. apply forall_range. revert st Hst. apply (forall_range 14).
  destruct Hn as [-> | ->];
    do 9 (destruct q as [|q]; [first [lia | vm_compute; reflexivity]|]); lia.
Qed.
