(* ===== verification/HdlcTables.v ===== *)
(** * What the tables of the Soft-HDLC hold

    The three tables against the bitwise definitions they stand for: the CRC of a
    byte string, zero insertion, and zero deletion with the detection of flags and
    aborts. *)
From S2P Require Import Prelude Bufq Xp Prims Timers Txc Lsc Rc LscCtl Monitors Lmi Hdlc SoftHdlc HdlcBits.

(** C36: the CRC the byte-wise table gives is the CRC of the bits: from any state
    of the 16-bit register, feeding the low 8 bits of each byte through
    [bc_table] is shifting their bits, least significant first, through the
    register of the polynomial 0x8408. *)
Theorem crc_table_is_bitwise c l :
  fold_left bcc_byte l c = crc_bits c (flat_map (bits 8) l).
Proof.
  revert c. induction l as [|x l IH]; intros c; [done|]. cbn [fold_left flat_map].
  by rewrite IH, crc_bits_app, bcc_byte_ok.
Qed.

(** C37: an entry of [tx_table] inserts zeros: for a byte sent after [c] ones in a
    row its bit string is the byte's bits, least significant first, with a zero
    after every fifth one in a row; its length says how many zeros, none to two,
    were inserted and its state is the number of ones at the end. *)
Theorem tx_table_inserts_zeros c x :
  (c < 5)%nat → 0 <= x < 256 →
  let t := tx_index (Z.of_nat c) x in
  bits (Z.to_nat (t.(te_bit_length) + 8)) t.(te_bit_string) = stuff c (bits 8 x) ∧
  0 <= t.(te_bit_length) <= 2 ∧ t.(te_state) = Z.of_nat (ones_after c (bits 8 x)) ∧
  0 <= t.(te_state) < 5.
Proof.
  intros Hc Hx. cbv zeta. destruct (tx_entry_ok c x Hc Hx) as [H1 H2 H3 H4].
  rewrite H2, <- H3, Nat2Z.id, bits_val, H4.
  pose proof (ones_after_bound c (bits 8 x) ltac:(lia)). repeat split; lia.
Qed.
Lemma tx_table_inserts_zeros_witness :
  let t := tx_index 1 255 in
  bits (Z.to_nat (t.(te_bit_length) + 8)) t.(te_bit_string) = stuff 1 (bits 8 255) ∧
  0 <= t.(te_bit_length) <= 2 ∧ t.(te_state) = Z.of_nat (ones_after 1 (bits 8 255)) ∧
  0 <= t.(te_state) < 5.
Proof. apply (tx_table_inserts_zeros 1 255); lia. Defined.

(** The entry of the receive table for octets of [n] bits. *)
Definition rx_index (n : nat) (st x : Z) : rx_entry :=
  if (n =? 7)%nat then rx_index7 st x else rx_index8 st x.
Definition special_check (n : nat) (st x : Z) : bool :=
  match unstuff (pending st) (bits n x) with
  | None => let r := rx_table_valueN st x n in r.(re_flag) || r.(re_hunt)
  | Some _ => true
  end.
Lemma special_checked n st x :
  octet_bits n → 0 <= st < 14 → 0 <= x < 256 → special_check n st x = true.
Proof.
  intros Hn Hst Hx. revert x Hx. apply forall_range. revert st Hst. apply (forall_range 14).
  destruct Hn as [-> | ->]; vm_compute; reflexivity.
Qed.
Lemma rx_index_value n st x :
  octet_bits n → 0 <= st < 14 → 0 <= x < 256 → rx_index n st x = rx_table_valueN st x n.
Proof.
  intros [-> | ->] Hst Hx; unfold rx_index; cbn [Nat.eqb].
  - rewrite rx_index7_value by done. reflexivity.
  - rewrite rx_index8_value by done. reflexivity.
Qed.

(** C38: an entry of [rx_table] or [rx_table7] deletes the inserted zeros: with
    the bits that state [st] holds back, an octet that completes neither a flag
    nor an abort yields exactly the bits deletion gives, and the next state holds
    back what may still become a flag; an octet that completes one is marked as
    such, and only then. *)
Theorem rx_table_deletes_zeros n st x :
  n = 7%nat ∨ n = 8%nat → 0 <= st < 14 → 0 <= x < 256 →
  let r := rx_index n st x in
  match unstuff (pending st) (bits n x) with
  | Some (p, out) =>
      bits (Z.to_nat r.(re_bit_length)) r.(re_bit_string) = out ∧ pending r.(re_state) = p ∧
      r.(re_flag) = false ∧ r.(re_hunt) = false ∧ r.(re_idle) = false ∧ r.(re_sync) = false
  | None => r.(re_flag) = true ∨ r.(re_hunt) = true
  end.
Proof.
  intros Hn Hst Hx. cbv zeta. rewrite rx_index_value by done.
  pose proof (plain_checked n st x Hn Hst Hx) as Hp.
  pose proof (special_checked n st x Hn Hst Hx) as Hs.
  unfold plain_check in Hp. unfold special_check in Hs.
  destruct (unstuff (pending st) (bits n x)) as [[p out]|].
  - rewrite !andb_true_iff, bool_decide_eq_true in Hp. destruct Hp as [[-> Hok] _].
    cbn [plain_entry re_bit_length re_bit_string re_state re_flag re_hunt re_idle re_sync].
    rewrite Nat2Z.id, bits_val. unfold state_ok in Hok.
    rewrite !andb_true_iff, bool_decide_eq_true in Hok. by destruct Hok as [[[? _] _] _].
  - by apply orb_true_iff in Hs.
Qed.
Lemma rx_table_deletes_zeros_witness :
  let r := rx_index 8 3 0x7d in
  match unstuff (pending 3) (bits 8 0x7d) with
  | Some (p, out) =>
      bits (Z.to_nat r.(re_bit_length)) r.(re_bit_string) = out ∧ pending r.(re_state) = p ∧
      r.(re_flag) = false ∧ r.(re_hunt) = false ∧ r.(re_idle) = false ∧ r.(re_sync) = false
  | None => r.(re_flag) = true ∨ r.(re_hunt) = true
  end.
Proof. apply (rx_table_deletes_zeros 8 3 0x7d); [by right|lia|lia]. Defined.
