(* ===== verification/HdlcRx.v ===== *)
(** * Reception of a frame

    What [xp_rx_block] makes of the bits of a frame, whatever the boundaries of
    the octets that carry them. *)
From S2P Require Import Prelude Bufq Xp Prims Timers Txc Lsc Rc LscCtl Monitors Lmi Receive Hdlc SoftHdlc HdlcBits.
#[local] Set Warnings "-clear-no-such-hyp".

Definition byte (x : Z) : Prop := 0 <= x < 256.
Definition bytes_bits (l : list Z) : list bool := flat_map (bits 8) l.
Lemma bytes_bits_app l l' : bytes_bits (l ++ l') = bytes_bits l ++ bytes_bits l'.
Proof. apply flat_map_app. Qed.
Lemma length_bytes_bits l : length (bytes_bits l) = (8 * length l)%nat.
Proof.
  induction l as [|x l IH]; [done|]. cbn [bytes_bits flat_map]. fold (bytes_bits l).
  rewrite length_app, length_bits, IH. cbn [length]. lia.
Qed.
Lemma bytes_bits_inj l l' :
  Forall byte l → Forall byte l' → length l = length l' → bytes_bits l = bytes_bits l' → l = l'.
Proof.
  intros Hl. revert l'. induction Hl as [|x l Hx Hl IH]; intros l' Hl' Hn Hb;
    destruct l' as [|y l']; try discriminate Hn; [done|].
  apply list.Forall_cons in Hl' as [Hy Hl']. cbn [bytes_bits flat_map] in Hb.
  destruct (app_inj_1 (bits 8 x) (bits 8 y) (bytes_bits l) (bytes_bits l')) as [Hxy Hb'];
    [by rewrite !length_bits|exact Hb|].
  f_equal; [|apply IH; auto].
  rewrite <- (val_bits_small 8 x), <- (val_bits_small 8 y) by assumption. by rewrite Hxy.
Qed.

Section Rx.
Context (FASTBUF : nat).

(** ** The frame so far *)

Definition rx_blocks (s : xp) : list (list Z) :=
  default [] s.(xp_rx).(rx_msg) ++ option_list s.(xp_rx).(rx_nxt).
Definition rx_data (s : xp) : list Z := concat (rx_blocks s).
(** Everything but the path and the statistics of reception. *)
Definition rx_blank : rx_path := RxPath 0 0 0 0 0 0 None None None 0 0.
Definition outside (s : xp) : xp :=
  s <| xp_rx := rx_blank |>
    <| sdt_stats := SdtStats 0 0 0 0 0 0 0 0 0 0 0 0 0 0 0 0 0 0 0 0 0 0 0 |>.

Definition mode_of (s : xp) : Z * Z := (s.(xp_rx).(rx_st), s.(xp_rx).(rx_mode)).

(** The bits [out] of the frame have arrived, the last ones, [res], are still in
    the residue; full blocks are linked to the message. *)
Record stored (res out : list bool) (s : xp) : Prop := {
  s_out : out = bytes_bits (rx_data s) ++ res;
  s_residue : s.(xp_rx).(rx_residue) = val res;
  s_rbits : s.(xp_rx).(rx_rbits) = Z.of_nat (length res);
  s_nbytes : s.(xp_rx).(rx_nbytes) = Z.of_nat (length (rx_data s));
  s_bcc : s.(xp_rx).(rx_bcc) = crc_bits 0xffff (bytes_bits (rx_data s));
  s_bytes : Forall byte (rx_data s);
  s_full : Forall (λ b, length b = FASTBUF) (default [] s.(xp_rx).(rx_msg));
  s_nxt : match s.(xp_rx).(rx_nxt) with
          | Some b => (1 <= length b <= FASTBUF)%nat
          | None => s.(xp_rx).(rx_msg) = None
          end }.

(** *** Storing a byte *)

Lemma rx_eta (s : xp) :
  s <| xp_rx; rx_msg := s.(xp_rx).(rx_msg) |> <| xp_rx; rx_nxt := s.(xp_rx).(rx_nxt) |> = s.
Proof. destruct s as [? ? ? ? ? []]. reflexivity. Qed.
Lemma rx_room_ok res out s :
  (1 <= FASTBUF)%nat → s.(xenv).(e_alloc) = [] → stored res out s →
  ∃ m b, rx_room FASTBUF s =
      (true, s <| xp_rx; rx_msg := m |> <| xp_rx; rx_nxt := Some b |>) ∧
    concat (default [] m) ++ b = rx_data s ∧
    Forall (λ b, length b = FASTBUF) (default [] m) ∧ (length b < FASTBUF)%nat.
Proof.
  intros HF Ha Hs. pose proof (s_full _ _ _ Hs) as Hfull. pose proof (s_nxt _ _ _ Hs) as Hn.
  unfold rx_room, rx_data, rx_blocks. destruct (rx_nxt (xp_rx s)) as [b|] eqn:En.
  - destruct (Nat.leb_spec FASTBUF (length b)) as [Hb|Hb].
    + exists (Some (default [] (rx_msg (xp_rx s)) ++ [b])), [].
      unfold xp_rx_linkb. rewrite En. cbv zeta. upd. unfold xalloc. upd. rewrite Ha.
      split; [|split; [by rewrite app_nil_r|split; [|cbn; lia]]].
      * destruct (rx_msg (xp_rx s)); reflexivity.
      * apply list.Forall_app. split; [done|]. constructor; [lia|done].
    + exists (rx_msg (xp_rx s)), b. rewrite En, <- En, rx_eta. split; [done|].
      rewrite En, concat_app. change (concat (option_list (Some b))) with (b ++ []).
      rewrite app_nil_r. by repeat split.
  - rewrite En. unfold xalloc. rewrite Ha. cbv iota beta. exists None, [].
    split; [rewrite <- Hn; by destruct s as [? ? ? ? ? []]|].
    rewrite Hn. cbn [length]. repeat split; [done|lia].
Qed.
Lemma rx_store_ok res out s :
  (1 <= FASTBUF)%nat → s.(xenv).(e_alloc) = [] → stored res out s → (8 <= length res)%nat →
  Z.of_nat (length out) < 2 ^ 32 →
  ∃ s1, rx_room FASTBUF s = (true, s1) ∧ stored (drop 8 res) out (rx_store s1) ∧
    outside (rx_store s1) = outside s ∧ mode_of (rx_store s1) = mode_of s.
Proof.
  intros HF Ha Hs Hr Ho. destruct (rx_room_ok res out s HF Ha Hs) as (m & b & E & Hd & Hf & Hb).
  eexists. split; [exact E|]. clear E. split; [|split; reflexivity].
  destruct Hs as [Hout Hres Hrb Hnb Hbcc Hby _ _].
  set (s1 := s <| xp_rx; rx_msg := m |> <| xp_rx; rx_nxt := Some b |>).
  set (x := u8 (rx_residue (xp_rx s))).
  assert (Hx : byte x) by (apply Z.mod_pos_bound; lia).
  assert (Hbx : bits 8 x = take 8 res).
  { apply val_inj; [rewrite length_bits, length_take; lia|].
    rewrite val_bits_small by exact Hx. subst x. rewrite Hres. unfold u8.
    change (2 ^ 8) with (2 ^ Z.of_nat 8). by apply val_take. }
  assert (Edata : rx_data (rx_store s1) = rx_data s ++ [x]).
  { change (rx_data (rx_store s1)) with (concat (default [] m ++ [b ++ [x]])).
    rewrite concat_app. cbn [concat]. by rewrite app_nil_r, app_assoc, Hd. }
  assert (Hlen : length out = (8 * length (rx_data s) + length res)%nat)
    by (rewrite Hout, length_app, length_bytes_bits; done).
  split.
  - rewrite Edata, bytes_bits_app. cbn [bytes_bits flat_map]. rewrite app_nil_r, Hbx, <- app_assoc.
    by rewrite take_drop.
  - change (rx_residue (xp_rx (rx_store s1))) with (Z.shiftr (rx_residue (xp_rx s)) (Z.of_nat 8)).
    rewrite Hres. by apply val_drop.
  - change (rx_rbits (xp_rx (rx_store s1))) with (u32 (rx_rbits (xp_rx s) - 8)).
    rewrite Hrb, length_drop. unfold u32. rewrite Z.mod_small; lia.
  - change (rx_nbytes (xp_rx (rx_store s1))) with (u32 (rx_nbytes (xp_rx s) + 1)).
    rewrite Hnb, Edata, length_app. cbn [length]. unfold u32. rewrite Z.mod_small; lia.
  - change (rx_bcc (xp_rx (rx_store s1))) with (bcc_byte (rx_bcc (xp_rx s)) (rx_residue (xp_rx s))).
    rewrite bcc_byte_ok, Edata, bytes_bits_app, crc_bits_app, <- Hbcc. f_equal.
    cbn [bytes_bits flat_map]. rewrite app_nil_r, Hbx.
    apply val_inj; [rewrite length_bits, length_take; lia|].
    rewrite val_bits, Hres. by apply val_take.
  - rewrite Edata. apply list.Forall_app. split; [done|]. by constructor.
  - exact Hf.
  - change (rx_nxt (xp_rx (rx_store s1))) with (Some (b ++ [x])). cbv iota.
    rewrite length_app. cbn [length]. lia.
Qed.

Lemma outside_alloc s t : outside s = outside t → s.(xenv).(e_alloc) = t.(xenv).(e_alloc).
Proof. intros H. exact (f_equal (λ x, e_alloc (xenv x)) H). Qed.
(** The loop leaves at most 16 bits in the residue, and more than 8 if it took a
    byte. *)
Lemma rx_loop_ok fuel M r res out s :
  (1 <= FASTBUF)%nat → s.(xenv).(e_alloc) = [] → stored res out s →
  0 <= M < 2 ^ 28 → Z.of_nat (length out) <= 8 * M + 16 → (length res <= fuel + 16)%nat →
  let s' := rx_bytes_loop FASTBUF fuel M r s in
  ∃ res', stored res' out s' ∧ (outside s' = outside s ∧ mode_of s' = mode_of s) ∧
    (length res' <= 16)%nat ∧
    (res' = res ∨ (8 < length res')%nat).
Proof.
  intros HF. cbv zeta. revert s res. induction fuel as [|fuel IH]; intros s res Ha Hs HM Ho Hr.
  { exists res. split; [done|]. split; [done|]. split; [lia|by left]. }
  cbn [rx_bytes_loop]. rewrite (s_rbits _ _ _ Hs). destruct (Z.ltb_spec 16 (Z.of_nat (length res))).
  2: { exists res. split; [done|]. split; [done|]. split; [lia|by left]. }
  destruct (rx_store_ok res out s HF Ha Hs) as (s1 & -> & Hs1 & E1); [lia|lia|].
  destruct E1 as [E1 Ep1]. cbn [negb]. cbv iota zeta.
  assert (Hn : Z.of_nat (length (rx_data (rx_store s1))) <= M).
  { pose proof (f_equal length (s_out _ _ _ Hs1)) as Hl.
    rewrite length_app, length_bytes_bits, length_drop in Hl. lia. }
  unfold u32. rewrite Z.mod_small by lia. rewrite (s_nbytes _ _ _ Hs1).
  rewrite (proj2 (Z.ltb_ge _ _)) by lia.
  destruct (IH (rx_store s1) (drop 8 res)) as (res' & Hs' & E' & Hl & Hc); try done.
  - by rewrite (outside_alloc _ _ E1).
  - rewrite length_drop. lia.
  - exists res'. split; [done|]. split; [by rewrite <- E1, <- Ep1|]. split; [done|]. right.
    destruct Hc as [-> | Hc]; [rewrite length_drop; lia|done].
Qed.

(** ** Octets within a frame *)

(** Since the opening flag the bits [u] have been received: what deletion makes
    of them has been stored. *)
Definition collecting (out : list bool) (s : xp) : Prop :=
  match out with
  | [] => s.(xp_rx).(rx_mode) = RX_MODE_SYNC ∧ s.(xp_rx).(rx_msg) = None ∧
          s.(xp_rx).(rx_nxt) = None
  | _ => s.(xp_rx).(rx_mode) = RX_MODE_MOF ∧
         ∃ res, stored res out s ∧ (length res <= 16)%nat ∧ (res = out ∨ (8 < length res)%nat)
  end.
Definition receiving (u : list bool) (s : xp) : Prop :=
  ∃ p out, unstuff [] u = Some (p, out) ∧ s.(xp_rx).(rx_st) = encode p ∧ state_ok p = true ∧
    collecting out s.
Definition octet_size (type : Z) : nat := if type =? SDL_TYPE_DS0A then 7 else 8.
Lemma octet_size_ok type : octet_bits (octet_size type).
Proof. unfold octet_size, octet_bits. case_match; auto. Qed.
Lemma xp_rev_byte o : byte o → byte (xp_rev o).
Proof.
  intros Ho. unfold byte in *.
  assert (H : (0 <=? xp_rev o) && (xp_rev o <? 256) = true)
    by (revert o Ho; apply forall_range; vm_compute; reflexivity).
  rewrite andb_true_iff, Z.leb_le, Z.ltb_lt in H. lia.
Qed.
Lemma state_ok_spec p :
  state_ok p = true → pending (encode p) = p ∧ 0 <= encode p < 14.
Proof.
  unfold state_ok. rewrite !andb_true_iff, bool_decide_eq_true, Z.leb_le, Z.ltb_lt. tauto.
Qed.
Lemma rx_entry_of_value type st o :
  0 <= st < 14 → byte o → rx_entry_of type st o = rx_table_valueN st (xp_rev o) (octet_size type).
Proof.
  intros Hs Ho. pose proof (xp_rev_byte o Ho). unfold rx_entry_of, octet_size.
  case_match; [rewrite rx_index7_value by done|rewrite rx_index8_value by done];
    unfold rx_table_value7, rx_table_value8; reflexivity.
Qed.

(** *** The bits of an octet *)

Lemma stored_append res out o1 s t :
  stored res out s → (length res <= 16)%nat → (length o1 <= 13)%nat →
  rx_data t = rx_data s → t.(xp_rx).(rx_msg) = s.(xp_rx).(rx_msg) →
  t.(xp_rx).(rx_nxt) = s.(xp_rx).(rx_nxt) → t.(xp_rx).(rx_nbytes) = s.(xp_rx).(rx_nbytes) →
  t.(xp_rx).(rx_bcc) = s.(xp_rx).(rx_bcc) →
  t.(xp_rx).(rx_residue) = Z.lor s.(xp_rx).(rx_residue)
                             (u32 (Z.shiftl (val o1) s.(xp_rx).(rx_rbits))) →
  t.(xp_rx).(rx_rbits) = u32 (s.(xp_rx).(rx_rbits) + Z.of_nat (length o1)) →
  stored (res ++ o1) (out ++ o1) t.
Proof.
  intros [] Hr Ho Ed Em En Eb Ec Er Ek. split; rewrite ?Ed, ?Em, ?En; try congruence.
  - by rewrite app_assoc, <- s_out0.
  - rewrite Er, s_residue0, s_rbits0. unfold u32. pose proof (val_bound o1) as Hv.
    rewrite Z.mod_small; [apply val_lor|]. rewrite Z.shiftl_mul_pow2 by lia.
    assert (2 ^ Z.of_nat (length o1) <= 2 ^ 13) by (apply Z.pow_le_mono_r; lia).
    assert (2 ^ Z.of_nat (length res) <= 2 ^ 16) by (apply Z.pow_le_mono_r; lia).
    assert (0 < 2 ^ Z.of_nat (length res)) by (apply Z.pow_pos_nonneg; lia). nia.
  - rewrite Ek, s_rbits0, length_app. unfold u32. rewrite Z.mod_small; lia.
Qed.
(** The bits an entry puts out, added to the residue in the middle of a frame. *)
Definition rx_add (r : rx_entry) (s : xp) : xp :=
  if negb r.(re_sync) && negb (r.(re_bit_length) =? 0) then
    let rx := s.(xp_rx) in
    let s := s <| xp_rx; rx_residue :=
                    Z.lor rx.(rx_residue) (u32 (Z.shiftl r.(re_bit_string) rx.(rx_rbits))) |> in
    s <| xp_rx; rx_rbits := u32 (rx.(rx_rbits) + r.(re_bit_length)) |>
  else s.
Lemma rx_add_ok r o1 res out s :
  stored res out s → (length res <= 16)%nat → (length o1 <= 13)%nat → r.(re_sync) = false →
  r.(re_bit_string) = val o1 → r.(re_bit_length) = Z.of_nat (length o1) →
  stored (res ++ o1) (out ++ o1) (rx_add r s) ∧ outside (rx_add r s) = outside s.
Proof.
  intros Hs Hr Ho Hsy Hb Hl. unfold rx_add. rewrite Hsy, Hl, Hb. cbn [negb andb].
  destruct (Z.eqb_spec (Z.of_nat (length o1)) 0) as [E|E]; cbn [negb].
  - destruct o1; [|cbn in E; lia]. by rewrite !app_nil_r.
  - split; [|done]. by eapply stored_append.
Qed.

(** *** An octet without a flag *)

Lemma begin_frame_ok o1 s :
  s.(xp_rx).(rx_mode) = RX_MODE_SYNC → s.(xp_rx).(rx_msg) = None → s.(xp_rx).(rx_nxt) = None →
  (length o1 <= 13)%nat → ∀ r, r.(re_bit_string) = val o1 → r.(re_bit_length) = Z.of_nat (length o1) →
  collecting o1 (begin_frame r s) ∧ outside (begin_frame r s) = outside s.
Proof.
  intros Hm H1 H2 Ho r Hb Hl. unfold begin_frame. rewrite Hl, Hb.
  destruct (Z.eqb_spec (Z.of_nat (length o1)) 0) as [E|E]; cbn [negb].
  - destruct o1; [by repeat split|cbn in E; lia].
  - split; [|done]. destruct o1 as [|b o1]; [done|]. split; [done|]. exists (b :: o1).
    split; [|split; [lia|by left]].
    set (t := s <| xp_rx; rx_mode := RX_MODE_MOF |> <| xp_rx; rx_residue := val (b :: o1) |>
                <| xp_rx; rx_rbits := Z.of_nat (length (b :: o1)) |> <| xp_rx; rx_nbytes := 0 |>
                <| xp_rx; rx_bcc := 0xffff |>).
    assert (Ed : rx_data t = []).
    { unfold rx_data, rx_blocks. change (rx_msg (xp_rx t)) with (rx_msg (xp_rx s)).
      change (rx_nxt (xp_rx t)) with (rx_nxt (xp_rx s)). by rewrite H1, H2. }
    change (stored (b :: o1) (b :: o1) t). split; rewrite ?Ed; try done.
    + change (rx_msg (xp_rx t)) with (rx_msg (xp_rx s)). by rewrite H1.
    + change (rx_nxt (xp_rx t)) with (rx_nxt (xp_rx s)). by rewrite H2.
Qed.
Lemma begin_frame_st r s : rx_st (xp_rx (begin_frame r s)) = rx_st (xp_rx s).
Proof. unfold begin_frame. by case_match. Qed.
Lemma collecting_st out st s :
  collecting out s → collecting out (s <| xp_rx; rx_st := st |>).
Proof.
  destruct out; [done|]. intros [Hm (res & [] & Hl & Hc)]. split; [done|]. exists res.
  split; [by split|]. done.
Qed.
Lemma rx_octet_inside type o u p' out' s :
  (1 <= FASTBUF)%nat → s.(xenv).(e_alloc) = [] → 0 <= rx_max s < 2 ^ 28 → byte o →
  receiving u s →
  unstuff [] (u ++ bits (octet_size type) (xp_rev o)) = Some (p', out') →
  Z.of_nat (length out') <= 8 * rx_max s + 16 →
  receiving (u ++ bits (octet_size type) (xp_rev o)) (rx_octet FASTBUF type o s) ∧
  outside (rx_octet FASTBUF type o s) = outside s.
Proof.
  intros HF Ha HM Ho (p & out & Hu & Hst & Hok & Hc) Hu' Hlen.
  destruct (state_ok_spec p Hok) as [Hp Hr]. pose proof (xp_rev_byte o Ho) as Hx.
  pose proof (plain_checked _ _ _ (octet_size_ok type) Hr Hx) as Hplain.
  rewrite unstuff_app, Hu in Hu'. unfold plain_check in Hplain. rewrite Hp in Hplain.
  destruct (unstuff p (bits (octet_size type) (xp_rev o))) as [[p1 o1]|] eqn:E1; [|done].
  simplify_eq. rewrite !andb_true_iff, bool_decide_eq_true, Nat.leb_le in Hplain.
  destruct Hplain as [[Hentry Hok'] Ho1].
  unfold rx_octet. rewrite Hst, rx_entry_of_value, Hentry by done. cbv zeta.
  set (s1 := s <| xp_rx; rx_st := re_state (plain_entry p' o1) |>).
  assert (Hc1 : collecting out s1) by by apply collecting_st.
  assert (Hgoal : ∀ t, t.(xp_rx).(rx_st) = encode p' → collecting (out ++ o1) t →
    receiving (u ++ bits (octet_size type) (xp_rev o)) t).
  { intros t Ht Hct. exists p', (out ++ o1). rewrite unstuff_app, Hu, E1. done. }
  change (outside s) with (outside s1). destruct out as [|b out].
  - destruct Hc1 as (Hm & Hm1 & Hm2). rewrite Hm.
    change (RX_MODE_SYNC =? RX_MODE_MOF) with false.
    change (RX_MODE_SYNC =? RX_MODE_SYNC) with true. cbn [plain_entry re_hunt re_idle negb andb].
    destruct (begin_frame_ok o1 s1 Hm Hm1 Hm2 Ho1 (plain_entry p' o1)) as [H1 H2]; try done.
    split; [|done]. apply Hgoal; [|exact H1].
    apply begin_frame_st.
  - destruct Hc1 as [Hm (res & Hs & Hl & Hc1)]. rewrite Hm.
    change (RX_MODE_MOF =? RX_MODE_MOF) with true. cbv iota. unfold rx_mof.
    fold (rx_add (plain_entry p' o1) s1).
    destruct (rx_add_ok (plain_entry p' o1) o1 res (b :: out) s1 Hs Hl Ho1) as [Hs2 E2]; try done.
    assert (Hst2 : rx_st (xp_rx (rx_add (plain_entry p' o1) s1)) = encode p' ∧
                   rx_mode (xp_rx (rx_add (plain_entry p' o1) s1)) = RX_MODE_MOF)
      by (unfold rx_add; case_match; done).
    revert Hs2 E2 Hst2. generalize (rx_add (plain_entry p' o1) s1). intros s2 Hs2 E2 [Hst2 Hm2].
    cbn [plain_entry re_flag re_hunt re_idle negb orb].
    assert (EM : rx_max s2 = rx_max s) by exact (f_equal rx_max E2).
    rewrite (s_rbits _ _ _ Hs2), Nat2Z.id, EM.
    destruct (rx_loop_ok (length (res ++ o1)) (rx_max s) (plain_entry p' o1) (res ++ o1)
                ((b :: out) ++ o1) s2 HF) as (res' & Hs3 & [E3 Em3] & Hl3 & Hc3); try done; [|lia|].
    { by rewrite (outside_alloc _ _ E2). }
    split; [|by rewrite E3]. apply Hgoal.
    + by rewrite (f_equal fst Em3 : rx_st (xp_rx _) = _).
    + split; [by rewrite (f_equal snd Em3 : rx_mode (xp_rx _) = _)|]. exists res'.
      split; [exact Hs3|]. split; [done|]. destruct Hc3 as [-> | Hc3]; [|by right].
      destruct Hc1 as [-> | Hc1]; [by left|right]. rewrite length_app. lia.
Qed.

(** ** The closing flag *)

(** The frame check sequence sent after the bytes [f] of a frame: the complement
    of the CRC. *)
Definition fcs (f : list Z) : Z := u16 (Z.lnot (crc_bits 0xffff (bytes_bits f))).
Definition frame_bits (f : list Z) : list bool := bytes_bits f ++ bits 16 (fcs f).
(** The length of the frame is acceptable and its length indicator is right, or
    the greatest there is. *)
Definition frame_ok (xsn : bool) (M : Z) (f : list Z) : Prop :=
  let hl := if xsn then 6 else 3 in
  let mlen := if xsn then 0x1ff else 0x3f in
  let n := Z.of_nat (length f) in
  let li := if xsn then Z.land (Z.lor (Z.shiftl (byte_at f 5) 8) (byte_at f 4)) 0x1ff
            else Z.land (byte_at f 2) 0x3f in
  hl <= n ∧ n <= M ∧ Forall byte f ∧ (n - hl = li ∨ (li = mlen ∧ mlen < n - hl)).

Lemma length_frame_bits f : length (frame_bits f) = (8 * (length f + 2))%nat.
Proof. unfold frame_bits. rewrite length_app, length_bytes_bits, length_bits. lia. Qed.
(** When all its bits are in, the residue holds the check sequence. *)
Lemma stored_frame f res s :
  Forall byte f → stored res (frame_bits f) s → length res = 16%nat →
  rx_data s = f ∧ res = bits 16 (fcs f).
Proof.
  intros Hf Hs Hr. pose proof (s_out _ _ _ Hs) as E. unfold frame_bits in E.
  destruct (app_inj_2 (bytes_bits f) (bytes_bits (rx_data s)) (bits 16 (fcs f)) res)
    as [E1 E2]; [by rewrite Hr, length_bits|exact E|].
  split; [|done]. apply bytes_bits_inj; [apply (s_bytes _ _ _ Hs)|done| |done].
  apply (f_equal length) in E1. rewrite !length_bytes_bits in E1. lia.
Qed.
Lemma crc_matches f :
  Z.land (Z.lnot (crc_bits 0xffff (bytes_bits f))) 0xffff =
  Z.land (val (bits 16 (fcs f))) 0xffff.
Proof.
  rewrite val_bits. unfold fcs, u16. change 0xffff with (Z.ones 16).
  rewrite !Z.land_ones by lia. change (2 ^ Z.of_nat 16) with (2 ^ 16).
  by rewrite !Z.mod_mod by lia.
Qed.
(** The blocks of the frame, once linked: the first has the header. *)
Lemma linked_blocks res out s hl :
  stored res out s → (hl <= FASTBUF)%nat → (hl <= length (rx_data s))%nat →
  (1 <= hl)%nat →
  ∃ b l, default [] (xp_rx_linkb s).(xp_rx).(rx_msg) = b :: l ∧ concat (b :: l) = rx_data s ∧
    (hl <= length b)%nat.
Proof.
  intros Hs HF Hl H1. pose proof (s_full _ _ _ Hs) as Hfull. pose proof (s_nxt _ _ _ Hs) as Hn.
  unfold rx_data, rx_blocks in *.
  destruct (rx_nxt (xp_rx s)) as [nx|] eqn:En; [|rewrite Hn in Hl; cbn in Hl; lia].
  assert (E : default [] (rx_msg (xp_rx (xp_rx_linkb s))) = default [] (rx_msg (xp_rx s)) ++ [nx]).
  { unfold xp_rx_linkb. rewrite En. cbv zeta. upd. by destruct (rx_msg (xp_rx s)). }
  rewrite E. destruct (default [] (rx_msg (xp_rx s))) as [|b l].
  - exists nx, []. cbn in *. rewrite !app_nil_r in *. done.
  - exists b, (l ++ [nx]). split; [done|]. split; [done|]. inversion Hfull; subst. lia.
Qed.

(** The state [t] in which a frame is handed over, from [s]. *)
Definition handed (s t : xp) : Prop :=
  outside t = outside (newid s).2 ∧ mode_of t = mode_of s ∧
  t.(xp_rx).(rx_msg) = None ∧ t.(xp_rx).(rx_nxt) = None ∧
  t.(sdt_stats) = s.(sdt_stats) <| rx_sus := u32 (s.(sdt_stats).(rx_sus) + 1) |>.
Lemma rx_end_ok f r res s :
  (6 <= FASTBUF)%nat → 0 <= rx_max s < 2 ^ 28 → frame_ok (is_xsn s) (rx_max s) f →
  stored res (frame_bits f) s → length res = 16%nat →
  ∃ blks t, rx_end r s =
      new_frame r (sl_daedr_received_bits (Some (Mblk s.(xenv).(e_next) blks)) t) ∧
    concat blks = f ∧ handed s t.
Proof.
  intros HF HM (Hn & Hmax & Hby & Hli) Hs Hr.
  destruct (stored_frame f res s Hby Hs Hr) as [Hdata ->].
  unfold rx_end. rewrite (s_rbits _ _ _ Hs), Hr. change (Z.of_nat 16 =? 16) with true.
  cbn [negb]. cbv iota zeta.
  rewrite (s_bcc _ _ _ Hs), (s_residue _ _ _ Hs), Hdata, crc_matches, Z.eqb_refl. cbn [negb].
  rewrite (s_nbytes _ _ _ Hs), Hdata.
  assert (Hhl : Z.of_nat (hlen s) = if is_xsn s then 6 else 3) by (unfold hlen; by case_match).
  rewrite Hhl. rewrite (proj2 (Z.ltb_ge _ _) Hn).
  destruct (linked_blocks _ _ s (hlen s) Hs) as (b & l & Eb & Ec & Hb).
  { unfold hlen. case_match; lia. } { rewrite Hdata. lia. } { unfold hlen. case_match; lia. }
  rewrite Eb. change (hlen (xp_rx_linkb s)) with (hlen s). rewrite (proj2 (Nat.leb_le _ _) Hb).
  change (rx_nbytes (xp_rx (xp_rx_linkb s))) with (rx_nbytes (xp_rx s)).
  rewrite (s_nbytes _ _ _ Hs), Hdata.
  assert (Eli : rx_length (b :: l) (xp_rx_linkb s) =
    if is_xsn s then Z.land (Z.lor (Z.shiftl (byte_at f 5) 8) (byte_at f 4)) 0x1ff
    else Z.land (byte_at f 2) 0x3f).
  { unfold rx_length. change (is_xsn (xp_rx_linkb s)) with (is_xsn s). rewrite Hdata in Ec.
    assert (Hat : ∀ i, (i < length b)%nat → byte_at b i = byte_at f i).
    { intros i Hi. unfold byte_at. rewrite <- Ec. cbn [concat]. by rewrite app_nth1. }
    unfold hlen in Hb. case_match; rewrite !Hat by lia; done. }
  rewrite Eli. set (li := if is_xsn s then Z.land (Z.lor _ _) _ else _) in *.
  unfold u32. rewrite Z.mod_small by (case_match; lia).
  set (n := Z.of_nat (length f)) in *.
  match goal with |- context [if ?c then length_error _ _ else _] =>
    assert (Ecnd : c = false)
  end.
  { destruct Hli as [E|[E1 E2]].
    - rewrite (proj2 (Z.eqb_eq _ _) E). done.
    - rewrite <- E1, Z.eqb_refl, (proj2 (Z.leb_gt _ _)) by (rewrite E1; done).
      by rewrite andb_false_r. }
  rewrite Ecnd. clear Ecnd. cbv iota. unfold newid. cbn [fst snd].
  eexists (b :: l), _. split; [reflexivity|]. split; [by rewrite Ec|].
  split; [reflexivity|]. split; [reflexivity|]. split; [reflexivity|]. split; [reflexivity|].
  reflexivity.
Qed.

(** The state after the frame was handed over, with [l2] received after the
    closing flag. *)
Definition delivered (f : list Z) (l2 : list bool) (s s' : xp) : Prop :=
  ∃ r blks t,
    s' = new_frame r (sl_daedr_received_bits (Some (Mblk s.(xenv).(e_next) blks)) t) ∧
    concat blks = f ∧ outside t = outside (newid s).2 ∧
    t.(sdt_stats) = s.(sdt_stats) <| rx_sus := u32 (s.(sdt_stats).(rx_sus) + 1) |> ∧
    receiving l2 s'.
Lemma path_fields s t :
  path_of s = path_of t →
  s.(xp_rx).(rx_st) = t.(xp_rx).(rx_st) ∧ s.(xp_rx).(rx_msg) = t.(xp_rx).(rx_msg) ∧
  s.(xp_rx).(rx_nxt) = t.(xp_rx).(rx_nxt).
Proof.
  intros H. split; [exact (f_equal (λ p, p.1.1.1.1.1) H)|].
  split; [exact (f_equal (λ p, p.1.1.1.2) H)|exact (f_equal (λ p, p.1.1.2) H)].
Qed.
(** A new frame starts with what followed the flag in the octet. *)
Lemma new_frame_ok (last : bool) p2 out2 l2 mp t :
  unstuff [] l2 = Some (p2, out2) → state_ok p2 = true → (length out2 <= 13)%nat →
  (last = true → l2 = []) →
  t.(xp_rx).(rx_st) = encode p2 → t.(xp_rx).(rx_msg) = None → t.(xp_rx).(rx_nxt) = None →
  ∀ r, r.(re_sync) = negb last →
  (last = false → r.(re_bit_string) = val out2 ∧ r.(re_bit_length) = Z.of_nat (length out2)) →
  receiving l2 (new_frame r (sl_daedr_received_bits (Some mp) t)).
Proof.
  intros Hu Hok Hl Hlast Hst Hm Hn r Hsy Hr. exists p2, out2. split; [done|].
  destruct (path_fields _ _ (proj2 (received_bits_takes mp t))) as (E1 & E2 & E3).
  rewrite Hst in E1. rewrite Hm in E2. rewrite Hn in E3.
  revert E1 E2 E3. generalize (sl_daedr_received_bits (Some mp) t). intros x E1 E2 E3.
  unfold new_frame. cbv zeta. rewrite Hsy.
  match goal with |- context [begin_frame r ?y] => set (x1 := y) end.
  destruct last; cbn [negb].
  - rewrite (Hlast eq_refl) in Hu. injection Hu as <- <-. repeat split; done.
  - destruct (Hr eq_refl) as [Hb Hbl].
    destruct (begin_frame_ok out2 x1 eq_refl E2 E3 Hl r Hb Hbl) as [Hc _].
    split; [by rewrite begin_frame_st|by split].
Qed.
(** The table's entry for the octet that completes a flag. *)
Lemma entry_at_flag type o u p out l1 l2 D p2 out2 :
  byte o → unstuff [] u = Some (p, out) → state_ok p = true →
  bits (octet_size type) (xp_rev o) = (l1 ++ [false]) ++ l2 →
  unstuff [] (u ++ l1) = Some (removelast flag_bits, D) → unstuff [] l2 = Some (p2, out2) →
  ∃ last o1, D = out ++ o1 ∧
    rx_entry_of type (encode p) o = flag_entry last p2 (if last then o1 else out2) ∧
    state_ok p2 = true ∧ (length o1 <= 6)%nat ∧ (length out2 <= 13)%nat ∧
    (last = false → o1 = []) ∧ (last = true → l2 = []).
Proof.
  intros Ho Hu Hok Hb Hall Hl2. destruct (state_ok_spec p Hok) as [Hp Hr].
  pose proof (xp_rev_byte o Ho) as Hx. rewrite unstuff_app, Hu in Hall.
  destruct (unstuff p l1) as [[p1 o1]|] eqn:E1; [|done]. injection Hall as -> HD.
  pose proof (f_equal length Hb) as Hlen. rewrite length_bits, !length_app in Hlen. cbn [length] in Hlen.
  set (q := S (length l1)).
  pose proof (flag_checked _ (encode p) _ q (octet_size_ok type) ltac:(subst q; lia) Hr Hx) as Hfl.
  unfold flag_check in Hfl. rewrite Hp, Hb in Hfl.
  replace (take (pred q) ((l1 ++ [false]) ++ l2)) with l1 in Hfl
    by (cbn; rewrite <- app_assoc; by rewrite take_app_length).
  replace (drop q ((l1 ++ [false]) ++ l2)) with l2 in Hfl
    by (symmetry; apply drop_app_length'; rewrite length_app; cbn; subst q; lia).
  replace (nth (pred q) ((l1 ++ [false]) ++ l2) true) with false in Hfl
    by (symmetry; rewrite <- app_assoc; exact (nth_middle l1 l2 false true)).
  rewrite E1, Hl2 in Hfl. cbn [count_ones removelast flag_bits Nat.eqb negb andb] in Hfl.
  rewrite !andb_true_iff, bool_decide_eq_true, !Nat.leb_le in Hfl.
  destruct Hfl as ((((Hentry & Hok2) & Ho1) & Ho2) & Hlast).
  set (last := (q =? octet_size type)%nat) in *.
  assert (Hlast' : last = true → l2 = []).
  { intros E. apply Nat.eqb_eq in E. destruct l2; [done|]. cbn in Hlen. subst q. lia. }
  clearbody last. exists last, o1. split; [done|].
  split; [by rewrite rx_entry_of_value|]. split; [done|]. split; [done|]. split; [done|].
  split; [|done]. intros ->. exact (bool_decide_eq_true_1 _ Hlast).
Qed.
Lemma rx_octet_flag type o u f l1 l2 p2 out2 s :
  (6 <= FASTBUF)%nat → 0 <= rx_max s < 2 ^ 28 → byte o → receiving u s →
  bits (octet_size type) (xp_rev o) = l1 ++ l2 → l1 ≠ [] →
  u ++ l1 = stuff 0 (frame_bits f) ++ flag_bits →
  unstuff [] l2 = Some (p2, out2) → frame_ok (is_xsn s) (rx_max s) f →
  delivered f l2 s (rx_octet FASTBUF type o s).
Proof.
  intros HF HM Ho (p & out & Hu & Hst & Hok & Hc) Hb Hne Hul Hl2 Hf.
  destruct (exists_last Hne) as (l1' & b & ->). change flag_bits with (removelast flag_bits ++ [false]) in Hul.
  rewrite !app_assoc in Hul. apply app_inj_tail in Hul as [Hul ->].
  (* what deletion makes of the frame *)
  destruct (unstuff_stuff [] (frame_bits f) ltac:(cbn; lia)) as (p' & o' & Es & Eo & Ep).
  cbn [count_ones app] in *.
  assert (Hcnt : (count_ones p' <= 4)%nat) by (rewrite Ep; apply ones_after_bound; lia).
  assert (Hall : unstuff [] (u ++ l1') = Some (removelast flag_bits, frame_bits f)).
  { by rewrite Hul, unstuff_app, Es, unstuff_flag, Eo. }
  destruct (entry_at_flag type o u p out l1' l2 _ p2 out2 Ho Hu Hok Hb Hall Hl2)
    as (last & o1 & HD & Hentry & Hok2 & Ho1 & Ho2 & Hlast & Hlast').
  symmetry in HD.
  (* the frame so far *)
  pose proof (length_frame_bits f) as Hlf. pose proof (proj1 Hf) as Hhl. destruct Hf as (Hn & Hf).
  assert (Hout : length out = (8 * (length f + 2) - length o1)%nat)
    by (rewrite <- Hlf, <- HD, length_app; lia).
  assert (Hf3 : (3 <= length f)%nat) by (case_match; lia).
  unfold collecting in Hc. destruct out as [|b0 out]; [cbn in Hout; lia|].
  destruct Hc as [Hm (res & Hs & Hl & Hc)].
  unfold rx_octet. rewrite Hst, Hentry. cbv zeta.
  set (r := flag_entry last p2 (if last then o1 else out2)).
  set (s1 := s <| xp_rx; rx_st := re_state r |>).
  change (rx_mode (xp_rx s1)) with (rx_mode (xp_rx s)). rewrite Hm.
  change (RX_MODE_MOF =? RX_MODE_MOF) with true. cbv iota. unfold rx_mof. fold (rx_add r s1).
  assert (Hs1 : stored res (b0 :: out) s1) by (destruct Hs; by split).
  assert (Hadd : stored (res ++ o1) (frame_bits f) (rx_add r s1) ∧
    outside (rx_add r s1) = outside s ∧ sdt_stats (rx_add r s1) = sdt_stats s ∧
    mode_of (rx_add r s1) = mode_of s1).
  { rewrite <- HD. destruct last eqn:El.
    - destruct (rx_add_ok r o1 res (b0 :: out) s1 Hs1 Hl) as [Ha1 Ha2]; try done; [lia|].
      split; [done|]. split; [done|].
      split; unfold rx_add; destruct (negb _ && negb _); reflexivity.
    - rewrite (Hlast eq_refl), !app_nil_r. split; [exact Hs1|]. done. }
  destruct Hadd as (Hs2 & E2 & Est2 & Em2). revert Hs2 E2 Est2 Em2.
  generalize (rx_add r s1). intros s2 Hs2 E2 Est2 Em2.
  change (re_flag r) with true. cbn [negb].
  assert (Hlen2 : length (res ++ o1) = 16%nat).
  { pose proof (f_equal length (s_out _ _ _ Hs2)) as Hl2'.
    rewrite Hlf, length_app, length_bytes_bits in Hl2'. rewrite length_app in *.
    destruct Hc as [-> | Hc]; [|lia]. rewrite Hout in Hl. lia. }
  assert (EM : rx_max s2 = rx_max s) by exact (f_equal rx_max E2).
  assert (Ex : is_xsn s2 = is_xsn s) by exact (f_equal is_xsn E2).
  destruct (rx_end_ok f r (res ++ o1) s2 HF) as (blks & t & Eq & Econ & (Hh1 & Hh2 & Hh3 & Hh4 & Hh5));
    [by rewrite EM|rewrite EM, Ex; by split|done|done|].
  assert (Ei : e_next (xenv s2) = e_next (xenv s)) by exact (f_equal (λ x, e_next (xenv x)) E2).
  exists r, blks, t. rewrite Eq, Ei. split; [done|]. split; [done|].
  split; [|split; [by rewrite Hh5, Est2|]].
  - rewrite Hh1. unfold newid. cbn [snd]. rewrite Ei.
    exact (f_equal (λ x, x <| xenv; e_next := e_next (xenv s) + 1 |>) E2).
  - rewrite <- Ei, <- Eq, Eq, Ei. apply (new_frame_ok last p2 out2); try done.
    + rewrite (f_equal fst Hh2 : rx_st (xp_rx t) = rx_st (xp_rx s2)).
      exact (f_equal fst Em2).
    + intros E. unfold r. by rewrite E.
Qed.

(** ** A whole frame *)

Definition octets_bits (type : Z) (os : list Z) : list bool :=
  flat_map (fun o => bits (octet_size type) (xp_rev o)) os.
Definition rx_octets (type : Z) (os : list Z) (s : xp) : xp :=
  fold_left (fun s o => rx_octet FASTBUF type o s) os s.
Lemma rx_octets_loop_ok type offs bp s :
  rx_octets_loop FASTBUF type offs bp s = rx_octets type ((λ o, nth o bp 0) <$> offs) s.
Proof. revert s. induction offs as [|o offs IH]; intros s; [done|]. apply IH. Qed.

Lemma octets_bits_app type os os' :
  octets_bits type (os ++ os') = octets_bits type os ++ octets_bits type os'.
Proof. apply flat_map_app. Qed.
Lemma rx_octets_app type os os' s :
  rx_octets type (os ++ os') s = rx_octets type os' (rx_octets type os s).
Proof. apply fold_left_app. Qed.

(** Where deletion goes through, so it does on a prefix, with less out. *)
Lemma unstuff_prefix u v p D :
  unstuff [] (u ++ v) = Some (p, D) →
  ∃ p1 out1, unstuff [] u = Some (p1, out1) ∧ (length out1 <= length D)%nat.
Proof.
  rewrite unstuff_app. destruct (unstuff [] u) as [[p1 o1]|]; [|done].
  destruct (unstuff p1 v) as [[p2 o2]|]; [|done]. intros [= _ <-].
  exists p1, o1. split; [done|]. rewrite length_app. lia.
Qed.
Lemma suffix_split {A} (u b x l2 : list A) :
  u ++ b = x ++ l2 → (length l2 <= length b)%nat → ∃ l1, b = l1 ++ l2 ∧ u ++ l1 = x.
Proof.
  intros E Hl. exists (take (length b - length l2) b).
  assert (Hd : (u ++ take (length b - length l2) b) ++ drop (length b - length l2) b = x ++ l2)
    by by rewrite <- app_assoc, take_drop.
  apply app_inj_2 in Hd as [H1 H2]; [|rewrite length_drop; lia].
  split; [|exact H1]. transitivity (take (length b - length l2) b ++ drop (length b - length l2) b).
  - by rewrite take_drop.
  - by rewrite H2.
Qed.
(** Octets that complete no flag. *)
Lemma rx_octets_inside type os u p out s :
  (1 <= FASTBUF)%nat → s.(xenv).(e_alloc) = [] → 0 <= rx_max s < 2 ^ 28 → Forall byte os →
  receiving u s → unstuff [] (u ++ octets_bits type os) = Some (p, out) →
  Z.of_nat (length out) <= 8 * rx_max s + 16 →
  receiving (u ++ octets_bits type os) (rx_octets type os s) ∧
  outside (rx_octets type os s) = outside s.
Proof.
  intros HF Ha HM Hos. revert u s Ha HM. induction Hos as [|o os Ho Hos IH]; intros u s Ha HM Hu E Hl.
  { by rewrite app_nil_r. }
  cbn [octets_bits flat_map] in E. fold (octets_bits type os) in E. rewrite app_assoc in E.
  destruct (unstuff_prefix _ _ _ _ E) as (p1 & out1 & E1 & Hl1).
  destruct (rx_octet_inside type o u p1 out1 s HF Ha HM Ho Hu E1) as [Hr Hout]; [lia|].
  destruct (IH (u ++ bits (octet_size type) (xp_rev o)) (rx_octet FASTBUF type o s)) as [H1 H2];
    try done.
  - by rewrite (outside_alloc _ _ Hout).
  - by rewrite (f_equal rx_max Hout : rx_max (rx_octet FASTBUF type o s) = rx_max s).
  - by rewrite (f_equal rx_max Hout : rx_max (rx_octet FASTBUF type o s) = rx_max s).
  - cbn [octets_bits flat_map]. fold (octets_bits type os). rewrite app_assoc.
    split; [exact H1|]. by rewrite <- Hout, <- H2.
Qed.
(** The octets up to the one that completes the flag after [x]: all but the last
    are within [x]. *)
Lemma rx_octets_until type os u x D l2 s :
  (1 <= FASTBUF)%nat → s.(xenv).(e_alloc) = [] → 0 <= rx_max s < 2 ^ 28 → Forall byte os →
  receiving u s → unstuff [] (x ++ removelast flag_bits) = Some (removelast flag_bits, D) →
  Z.of_nat (length D) <= 8 * rx_max s + 16 →
  u ++ octets_bits type os = (x ++ flag_bits) ++ l2 → (length l2 < octet_size type)%nat →
  os ≠ [] →
  ∃ os1 o l1, os = os1 ++ [o] ∧ byte o ∧ bits (octet_size type) (xp_rev o) = l1 ++ l2 ∧ l1 ≠ [] ∧
    (u ++ octets_bits type os1) ++ l1 = x ++ flag_bits ∧
    receiving (u ++ octets_bits type os1) (rx_octets type os1 s) ∧
    outside (rx_octets type os1 s) = outside s.
Proof.
  intros HF Ha HM Hos Hu Hx HD E Hl2 Hne. destruct (exists_last Hne) as (os1 & o & ->).
  apply list.Forall_app in Hos as [Hos1 Ho]. apply list.Forall_cons in Ho as [Ho _].
  rewrite octets_bits_app, app_assoc in E. cbn [octets_bits flat_map] in E.
  rewrite app_nil_r in E. fold (octets_bits type os1) in E.
  destruct (suffix_split _ _ _ _ E) as (l1 & Hb & E1); [rewrite length_bits; lia|].
  assert (Hl1 : l1 ≠ []).
  { intros ->. apply (f_equal length) in Hb. rewrite length_bits in Hb. cbn in Hb. lia. }
  exists os1, o, l1. split; [done|]. split; [done|]. split; [done|]. split; [done|].
  split; [done|]. destruct (exists_last Hl1) as (l1' & b & ->).
  change flag_bits with (removelast flag_bits ++ [false]) in E1.
  rewrite !app_assoc in E1. apply app_inj_tail in E1 as [E1 _]. rewrite <- E1 in Hx.
  destruct (unstuff_prefix _ _ _ _ Hx) as (p1 & out1 & Hp1 & Hl).
  apply (rx_octets_inside type os1 u p1 out1); try done. lia.
Qed.

(** A frame and the flag that closes it. *)
Lemma rx_frame_octets type os u f l2 p2 out2 s :
  (6 <= FASTBUF)%nat → s.(xenv).(e_alloc) = [] → 0 <= rx_max s < 2 ^ 28 →
  frame_ok (is_xsn s) (rx_max s) f →
  Forall byte os → receiving u s →
  u ++ octets_bits type os = (stuff 0 (frame_bits f) ++ flag_bits) ++ l2 →
  (length l2 < octet_size type)%nat → os ≠ [] → unstuff [] l2 = Some (p2, out2) →
  ∃ s1, outside s1 = outside s ∧ delivered f l2 s1 (rx_octets type os s).
Proof.
  intros HF Ha HM Hf Hos Hu E Hl2 Hne Hun.
  destruct (unstuff_stuff [] (frame_bits f) ltac:(cbn; lia)) as (p' & o' & Es & Eo & Ep).
  cbn [count_ones app] in *.
  assert (Hcnt : (count_ones p' <= 4)%nat) by (rewrite Ep; apply ones_after_bound; lia).
  destruct (rx_octets_until type os u (stuff 0 (frame_bits f)) (frame_bits f) l2 s)
    as (os1 & o & l1 & -> & Ho & Hb & Hl1 & E1 & Hr & Hout); try done; [lia| | |].
  { by rewrite unstuff_app, Es, unstuff_flag, Eo. }
  { pose proof (length_frame_bits f). destruct Hf as (_ & Hmax & _). lia. }
  exists (rx_octets type os1 s). split; [done|]. rewrite rx_octets_app. cbn [rx_octets fold_left].
  eapply (rx_octet_flag type o); try done.
  - by rewrite (f_equal rx_max Hout : rx_max (rx_octets type os1 s) = rx_max s).
  - rewrite (f_equal rx_max Hout : rx_max (rx_octets type os1 s) = rx_max s).
    by rewrite (f_equal is_xsn Hout : is_xsn (rx_octets type os1 s) = is_xsn s).
Qed.

(** A flag between frames. *)
Lemma rx_octet_idle type o u l1 l2 p2 out2 s :
  byte o → receiving u s → bits (octet_size type) (xp_rev o) = l1 ++ l2 → l1 ≠ [] →
  u ++ l1 = flag_bits → unstuff [] l2 = Some (p2, out2) →
  receiving l2 (rx_octet FASTBUF type o s) ∧ outside (rx_octet FASTBUF type o s) = outside s.
Proof.
  intros Ho (p & out & Hu & Hst & Hok & Hc) Hb Hne Hul Hl2.
  destruct (exists_last Hne) as (l1' & b & ->).
  change flag_bits with (removelast flag_bits ++ [false]) in Hul.
  rewrite app_assoc in Hul. apply app_inj_tail in Hul as [Hul ->].
  assert (Hall : unstuff [] (u ++ l1') = Some (removelast flag_bits, [])) by by rewrite Hul.
  destruct (entry_at_flag type o u p out l1' l2 _ p2 out2 Ho Hu Hok Hb Hall Hl2)
    as (last & o1 & HD & Hentry & Hok2 & _ & Ho2 & _ & Hlast).
  symmetry in HD. apply app_nil in HD as [-> ->]. destruct Hc as (Hm & Hm1 & Hm2).
  unfold rx_octet. rewrite Hst, Hentry. cbv zeta.
  set (r := flag_entry last p2 _). set (s1 := s <| xp_rx; rx_st := re_state r |>).
  change (rx_mode (xp_rx s1)) with (rx_mode (xp_rx s)). rewrite Hm.
  change (RX_MODE_SYNC =? RX_MODE_MOF) with false. change (RX_MODE_SYNC =? RX_MODE_SYNC) with true.
  change (negb (re_hunt r) && negb (re_idle r)) with true. cbv iota.
  set (ob := if last then [] else out2).
  assert (Hob : out2 = ob).
  { subst ob. destruct last; [|done]. rewrite (Hlast eq_refl) in Hl2. by injection Hl2 as _ <-. }
  assert (Hl : (length ob <= 13)%nat) by by rewrite <- Hob.
  destruct (begin_frame_ok ob s1 Hm Hm1 Hm2 Hl r) as [H1 H2]; [done|done|].
  split; [|exact H2]. exists p2, ob. rewrite <- Hob at 1. split; [done|].
  split; [by rewrite begin_frame_st|by split].
Qed.
Lemma rx_flag_octets type os u l2 p2 out2 s :
  (1 <= FASTBUF)%nat → s.(xenv).(e_alloc) = [] → 0 <= rx_max s < 2 ^ 28 →
  Forall byte os → receiving u s → u ++ octets_bits type os = flag_bits ++ l2 →
  (length l2 < octet_size type)%nat → os ≠ [] → unstuff [] l2 = Some (p2, out2) →
  receiving l2 (rx_octets type os s) ∧ outside (rx_octets type os s) = outside s.
Proof.
  intros HF Ha HM Hos Hu E Hl2 Hne Hun.
  destruct (rx_octets_until type os u [] [] l2 s)
    as (os1 & o & l1 & -> & Ho & Hb & Hl1 & E1 & Hr & Hout); try done; [cbn; lia|].
  rewrite rx_octets_app. cbn [rx_octets fold_left].
  destruct (rx_octet_idle type o _ l1 l2 p2 out2 (rx_octets type os1 s) Ho Hr Hb Hl1 E1 Hun) as [H1 H2].
  split; [done|]. by rewrite <- Hout, <- H2.
Qed.
End Rx.
