(* ===== verification/HdlcTx.v ===== *)
(** * Transmission of a frame

    The bits [xp_tx_block] puts out for a frame, and the round trip: what one
    Soft-HDLC transmits the other receives, whatever the boundaries of the octets. *)
From S2P Require Import Prelude Bufq Xp Prims Timers Txc Lsc Rc LscCtl Monitors Lmi Receive Hdlc SoftHdlc HdlcBits HdlcRx.
#[local] Set Warnings "-clear-no-such-hyp".

(** ** The residue *)

(** The bits [rb] wait in the residue. *)
Definition queued (rb : list bool) (s : xp) : Prop :=
  s.(xp_tx).(tx_residue) = val rb ∧ s.(xp_tx).(tx_rbits) = Z.of_nat (length rb) ∧
  (length rb <= 31)%nat.
(** Everything but the path and the statistics of transmission. *)
Definition tx_blank : tx_path := TxPath 0 0 0 0 0 None None None 0.
Definition tx_outside (s : xp) : xp :=
  s <| xp_tx := tx_blank |>
    <| sdt_stats := SdtStats 0 0 0 0 0 0 0 0 0 0 0 0 0 0 0 0 0 0 0 0 0 0 0 |>.
(** The rest of the path of transmission. *)
Definition tx_rest (s : xp) :=
  (s.(xp_tx).(tx_mode), s.(xp_tx).(tx_nxt), s.(xp_tx).(tx_st), s.(xp_tx).(tx_bcc)).

Lemma tx_append_ok rb c v n s :
  queued rb s → (length rb <= 7)%nat → (length c <= 24)%nat → v = val c →
  n = Z.of_nat (length c) → queued (rb ++ c) (tx_append v n s).
Proof.
  intros (Hr & Hn & _) Hl Hc -> ->. unfold queued, tx_append. upd.
  rewrite Hr, Hn, length_app. pose proof (val_bound c).
  assert (2 ^ Z.of_nat (length c) <= 2 ^ 24) by (apply Z.pow_le_mono_r; lia).
  assert (2 ^ Z.of_nat (length rb) <= 2 ^ 7) by (apply Z.pow_le_mono_r; lia).
  assert (0 < 2 ^ Z.of_nat (length rb)) by (apply Z.pow_pos_nonneg; lia).
  split; [|split; [unfold u32; rewrite Z.mod_small|]; lia].
  unfold u32. rewrite Z.mod_small; [apply val_lor|]. rewrite Z.shiftl_mul_pow2 by lia. nia.
Qed.
Lemma xp_rev_rev x : byte x → xp_rev (xp_rev x) = x.
Proof.
  intros Hx. apply Z.eqb_eq. revert x Hx. unfold byte. apply forall_range. vm_compute. reflexivity.
Qed.
Lemma tx_drain_ok type rb s :
  queued rb s → (octet_size type <= length rb)%nat →
  byte (tx_drain type s).1 ∧
  bits (octet_size type) (xp_rev (tx_drain type s).1) = take (octet_size type) rb ∧
  queued (drop (octet_size type) rb) (tx_drain type s).2 ∧
  tx_rest (tx_drain type s).2 = tx_rest s ∧ tx_outside (tx_drain type s).2 = tx_outside s.
Proof.
  intros (Hr & Hn & Hl) Hs. set (n := octet_size type) in *.
  set (m := if type =? SDL_TYPE_DS0A then Z.land (tx_residue (xp_tx s)) 0x7f
            else u8 (tx_residue (xp_tx s))).
  assert (Hm : m = val rb mod 2 ^ Z.of_nat n).
  { subst m n. unfold octet_size. rewrite Hr. case_match; [|done].
    change 0x7f with (Z.ones 7). by rewrite Z.land_ones by lia. }
  assert (Hn8 : (n <= 8)%nat) by (subst n; unfold octet_size; case_match; lia).
  assert (Hb : byte m).
  { rewrite Hm. pose proof (Z.mod_pos_bound (val rb) (2 ^ Z.of_nat n) ltac:(apply Z.pow_pos_nonneg; lia)).
    assert (2 ^ Z.of_nat n <= 2 ^ 8) by (apply Z.pow_le_mono_r; lia). unfold byte. lia. }
  assert (Htx : tx_bits type = Z.of_nat n)
    by (subst n; unfold tx_bits, octet_size; by case_match).
  change (tx_drain type s).1 with (xp_rev m). split; [by apply xp_rev_byte|].
  split; [|split; [|done]].
  - rewrite xp_rev_rev by done. apply val_inj; [rewrite length_bits, length_take; lia|].
    rewrite val_bits, Hm, Z.mod_mod by (apply Z.pow_nonzero; lia). by apply val_take.
  - unfold queued, tx_drain. rewrite Htx. cbv zeta. cbn [fst snd]. upd.
    rewrite Hr, Hn, length_drop. split; [by apply val_drop|].
    unfold u32. rewrite Z.mod_small; lia.
Qed.

(** ** The bytes of a message *)

(** Past the first block, which may have been used up, no block is empty. *)
Definition msg_ok (blks : list (list Z)) : Prop :=
  blks ≠ [] ∧ Forall (λ b, b ≠ []) (tail blks) ∧ Forall byte (concat blks).
Lemma tx_next_byte_ok blks s :
  s.(xp_tx).(tx_nxt) = Some blks → msg_ok blks →
  match concat blks with
  | [] => tx_next_byte s = (None, s <| xp_tx; tx_nxt := None |>)
  | x :: d => ∃ blks', tx_next_byte s = (Some x, s <| xp_tx; tx_nxt := Some blks' |>) ∧
                msg_ok blks' ∧ concat blks' = d
  end.
Proof.
  intros Hn (Hne & Ht & Hb). unfold tx_next_byte. rewrite Hn.
  destruct blks as [|[|x b] l]; [done| |].
  - destruct l as [|[|x b] l]; [done| |].
    + cbn [tail] in Ht. by apply list.Forall_cons in Ht as [? _].
    + cbn [concat app]. exists (b :: l). split; [done|]. split; [|done].
      cbn [tail concat app] in *. apply list.Forall_cons in Ht as [_ Ht].
      apply list.Forall_cons in Hb as [_ Hb]. by repeat split.
  - cbn [concat app]. exists (b :: l). split; [done|]. split; [|done].
    cbn [concat app] in Hb. apply list.Forall_cons in Hb as [_ Hb]. by repeat split.
Qed.

(** A byte with its inserted zeros. *)
Lemma length_stuff_byte c x :
  (c < 5)%nat → byte x → (8 <= length (stuff c (bits 8 x)) <= 10)%nat.
Proof. intros Hc Hx. pose proof (tx_entry_ok c x Hc Hx) as [? _ ? _]. lia. Qed.
Lemma bitstuff_ok rb c x s :
  queued rb s → (length rb <= 7)%nat → s.(xp_tx).(tx_st) = Z.of_nat c → (c < 5)%nat → byte x →
  queued (rb ++ stuff c (bits 8 x)) (xp_tx_bitstuff x s) ∧
  tx_rest (xp_tx_bitstuff x s) =
    (s.(xp_tx).(tx_mode), s.(xp_tx).(tx_nxt), Z.of_nat (ones_after c (bits 8 x)),
     s.(xp_tx).(tx_bcc)) ∧
  tx_outside (xp_tx_bitstuff x s) = tx_outside s.
Proof.
  intros Hq Hl Hst Hc Hx. pose proof (length_stuff_byte c x Hc Hx) as Hlen.
  unfold xp_tx_bitstuff. rewrite Hst. destruct (tx_entry_ok c x Hc Hx) as [_ Hv Hn Hs].
  cbv zeta. rewrite Hs. split; [|split; reflexivity].
  apply tx_append_ok; [done|done|lia|done|lia].
Qed.

(** ** What remains to be sent *)

(** The frame check sequence from the state [c] of the CRC, after the bytes [d]. *)
Definition fcs_from (c : Z) (d : list Z) : Z := u16 (Z.lnot (crc_bits c (bytes_bits d))).
Definition opening (f : Z) : option (list bool) :=
  if f =? SDT_FLAGS_ONE then Some flag_bits
  else if f =? SDT_FLAGS_TWO then Some (flag_bits ++ flag_bits)
  else if f =? SDT_FLAGS_THREE then Some (flag_bits ++ flag_bits ++ flag_bits)
  else None.
Definition starts (l : list bool) : Prop :=
  ∀ n, (n <= 7)%nat → ∃ p out, unstuff [] (take n l) = Some (p, out).
Lemma starts_prefix l : (∃ p out, unstuff [] l = Some (p, out)) → starts l.
Proof.
  intros (p & out & H) n _. rewrite <- (take_drop n l), unstuff_app in H.
  destruct (unstuff [] (take n l)) as [[p1 o1]|]; [by exists p1, o1|done].
Qed.
Lemma starts_flag e : starts (flag_bits ++ e).
Proof.
  intros n Hn. do 8 (destruct n as [|n]; [by do 2 eexists|]). lia.
Qed.
Lemma ones_after_le c l : (c < 5)%nat → (ones_after c l < 5)%nat.
Proof. intros H. pose proof (ones_after_bound c l ltac:(lia)). lia. Qed.
Lemma starts_stuff l : starts (stuff 0 l).
Proof.
  apply starts_prefix. destruct (unstuff_stuff [] l ltac:(cbn; lia)) as (p & out & H & _).
  by exists p, out.
Qed.

Section Tx.
(** The transmitter sends a frame; [e] is the rest of the channel.  Whatever the
    state of the path, the next message requested is made of bytes. *)
Context (e : xp).
Context (Hnext : ∀ s mp s', tx_outside s = e →
  sl_daedt_transmission_request s = (Some mp, s') → msg_ok mp.(m_blks)).
Context (op : list bool) (Hop : opening e.(sdt_conf).(cf_f) = Some op).

(** The bits not yet in the residue, up to the flag that closes the frame. *)
Inductive to_send : list bool → xp → Prop :=
| send_bof s blks :
    s.(xp_tx).(tx_mode) = TX_MODE_BOF → s.(xp_tx).(tx_nxt) = Some blks → msg_ok blks →
    tx_outside s = e →
    to_send (op ++ stuff 0 (frame_bits (concat blks)) ++ flag_bits) s
| send_mof s blks c :
    s.(xp_tx).(tx_mode) = TX_MODE_MOF → s.(xp_tx).(tx_nxt) = Some blks → msg_ok blks →
    s.(xp_tx).(tx_st) = Z.of_nat c → (c < 5)%nat → tx_outside s = e →
    to_send (stuff c (bytes_bits (concat blks) ++
                      bits 16 (fcs_from s.(xp_tx).(tx_bcc) (concat blks))) ++ flag_bits) s
| send_bcc s c :
    s.(xp_tx).(tx_mode) = TX_MODE_BCC → 0 <= s.(xp_tx).(tx_bcc) < 2 ^ 16 →
    s.(xp_tx).(tx_st) = Z.of_nat c → (c < 5)%nat → tx_outside s = e →
    to_send (stuff c (bits 8 (Z.shiftr s.(xp_tx).(tx_bcc) 8)) ++ flag_bits) s
| send_flag s : s.(xp_tx).(tx_mode) = TX_MODE_FLAG → to_send flag_bits s
| send_next s blks :
    s.(xp_tx).(tx_mode) = TX_MODE_BOF → s.(xp_tx).(tx_nxt) = Some blks → msg_ok blks →
    s.(sdt_conf) = e.(sdt_conf) → to_send flag_bits s.
(** After the closing flag [x] is in the residue: another flag, or nothing and
    what comes next begins like a flag or like a frame. *)
Definition after_flag (x : list bool) (s : xp) : Prop :=
  (∃ x', x = flag_bits ++ x') ∨
  (x = [] ∧
   (s.(xp_tx).(tx_mode) = TX_MODE_FLAG ∨
    (s.(xp_tx).(tx_mode) = TX_MODE_MOF ∧ s.(xp_tx).(tx_st) = 0 ∧
     ∃ blks, s.(xp_tx).(tx_nxt) = Some blks ∧ msg_ok blks))).
Definition filled (w rb : list bool) (s : xp) : Prop :=
  ∃ c, queued (rb ++ c) s ∧ (8 <= length c)%nat ∧
    ((∃ w', w = c ++ w' ∧ to_send w' s) ∨ (∃ x, c = w ++ x ∧ after_flag x s)).

(** *** The opening flags *)

Definition tx_open (s : xp) : xp :=
  let s := tx_append (val op) (Z.of_nat (length op)) s in
  let s := s <| xp_tx; tx_st := 0 |> in
  let s := s <| xp_tx; tx_bcc := 0xffff |> in
  s <| xp_tx; tx_mode := TX_MODE_MOF |>.
Lemma opening_flags :
  ∃ x, op = flag_bits ++ x ∧ (x = [] ∨ ∃ x', x = flag_bits ++ x') ∧ (length op <= 24)%nat.
Proof.
  revert Hop. unfold opening. repeat case_match; intros [= <-].
  - exists []. split; [done|]. split; [by left|cbn; lia].
  - exists flag_bits. split; [done|]. split; [right; by exists []|cbn; lia].
  - exists (flag_bits ++ flag_bits). split; [done|]. split; [right; by exists flag_bits|cbn; lia].
Qed.
Lemma fill_bof s :
  s.(xp_tx).(tx_mode) = TX_MODE_BOF → s.(sdt_conf) = e.(sdt_conf) → tx_fill s = tx_open s.
Proof.
  intros Hm He. unfold tx_fill. cbv zeta. rewrite Hm, He. cbv iota.
  change (TX_MODE_BOF =? TX_MODE_IDLE) with false. change (TX_MODE_BOF =? TX_MODE_FLAG) with false.
  change (TX_MODE_BOF =? TX_MODE_BOF) with true. cbv iota.
  revert Hop. unfold opening, tx_open.
  destruct (Z.eqb_spec (cf_f (sdt_conf e)) SDT_FLAGS_ONE) as [-> | _]; [by intros [= <-]|].
  destruct (Z.eqb_spec (cf_f (sdt_conf e)) SDT_FLAGS_TWO) as [-> | _]; [by intros [= <-]|].
  destruct (Z.eqb_spec (cf_f (sdt_conf e)) SDT_FLAGS_THREE) as [-> | _]; by intros [= <-].
Qed.
Lemma queued_open rb s :
  queued rb s → (length rb <= 7)%nat → queued (rb ++ op) (tx_open s).
Proof.
  intros Hq Hl. destruct opening_flags as (x & _ & _ & Ho).
  by apply (tx_append_ok rb op _ _ s Hq Hl Ho).
Qed.

(** *** One turn of the switch *)

Lemma msg_bytes blks x d :
  msg_ok blks → concat blks = x :: d → byte x.
Proof. intros (_ & _ & Hb) E. rewrite E in Hb. by apply list.Forall_cons in Hb as [? _]. Qed.
Lemma fill_mof s :
  s.(xp_tx).(tx_mode) = TX_MODE_MOF →
  tx_fill s =
    let '(byte, s) := tx_next_byte s in
    match byte with
    | Some byte =>
        let s := s <| xp_tx; tx_bcc := bcc_byte s.(xp_tx).(tx_bcc) byte |> in
        incr_sdt tx_bytes (xp_tx_bitstuff byte s)
    | None =>
        let s := s <| xp_tx; tx_bcc := u16 (Z.lnot s.(xp_tx).(tx_bcc)) |> in
        let s := xp_tx_bitstuff (Z.land s.(xp_tx).(tx_bcc) 0x00ff) s in
        s <| xp_tx; tx_mode := TX_MODE_BCC |>
    end.
Proof. intros Hm. unfold tx_fill. cbv zeta. rewrite Hm. reflexivity. Qed.
Lemma rest_fields s m x st b :
  tx_rest s = (m, x, st, b) →
  s.(xp_tx).(tx_mode) = m ∧ s.(xp_tx).(tx_nxt) = x ∧ s.(xp_tx).(tx_st) = st ∧
  s.(xp_tx).(tx_bcc) = b.
Proof. by intros [= -> -> -> ->]. Qed.
Lemma incr_rest s :
  tx_rest (incr_sdt tx_bytes s) = tx_rest s ∧ tx_outside (incr_sdt tx_bytes s) = tx_outside s ∧
  ∀ rb, queued rb s → queued rb (incr_sdt tx_bytes s).
Proof. done. Qed.
Lemma mode_rest m s :
  let t := s <| xp_tx; tx_mode := m |> in
  tx_rest t = (m, (tx_rest s).1.1.2, (tx_rest s).1.2, (tx_rest s).2) ∧
  tx_outside t = tx_outside s ∧ ∀ rb, queued rb s → queued rb t.
Proof. done. Qed.
(** A byte of the message. *)
Lemma fill_byte rb s blks c x d :
  s.(xp_tx).(tx_mode) = TX_MODE_MOF → s.(xp_tx).(tx_nxt) = Some blks → msg_ok blks →
  s.(xp_tx).(tx_st) = Z.of_nat c → (c < 5)%nat → concat blks = x :: d →
  queued rb s → (length rb <= 7)%nat →
  ∃ blks', msg_ok blks' ∧ concat blks' = d ∧
    queued (rb ++ stuff c (bits 8 x)) (tx_fill s) ∧
    tx_rest (tx_fill s) = (TX_MODE_MOF, Some blks', Z.of_nat (ones_after c (bits 8 x)),
                           bcc_byte s.(xp_tx).(tx_bcc) x) ∧
    tx_outside (tx_fill s) = tx_outside s.
Proof.
  intros Hm Hn Hok Hst Hc E Hq Hl. pose proof (tx_next_byte_ok blks s Hn Hok) as Hb.
  rewrite E in Hb. destruct Hb as (blks' & Eb & Hok' & Ed). exists blks'. split; [done|].
  split; [done|]. rewrite fill_mof, Eb by done. cbv zeta iota.
  set (s1 := s <| xp_tx; tx_nxt := Some blks' |>).
  set (s2 := s1 <| xp_tx; tx_bcc := bcc_byte (tx_bcc (xp_tx s1)) x |>).
  destruct (bitstuff_ok rb c x s2 Hq Hl Hst Hc (msg_bytes blks x d Hok E)) as (H1 & H2 & H3).
  destruct (incr_rest (xp_tx_bitstuff x s2)) as (-> & -> & Hi).
  split; [exact (Hi _ H1)|]. rewrite H2, H3. split; [|done].
  change (tx_mode (xp_tx s2)) with (tx_mode (xp_tx s)). by rewrite Hm.
Qed.
(** After the last byte the low byte of the check sequence. *)
Lemma fill_fcs rb s blks c :
  s.(xp_tx).(tx_mode) = TX_MODE_MOF → s.(xp_tx).(tx_nxt) = Some blks → msg_ok blks →
  s.(xp_tx).(tx_st) = Z.of_nat c → (c < 5)%nat → concat blks = [] →
  queued rb s → (length rb <= 7)%nat →
  let f := fcs_from s.(xp_tx).(tx_bcc) [] in
  queued (rb ++ stuff c (bits 8 f)) (tx_fill s) ∧
  tx_rest (tx_fill s) = (TX_MODE_BCC, None, Z.of_nat (ones_after c (bits 8 f)), f) ∧
  tx_outside (tx_fill s) = tx_outside s.
Proof.
  intros Hm Hn Hok Hst Hc E Hq Hl. pose proof (tx_next_byte_ok blks s Hn Hok) as Hb.
  rewrite E in Hb. rewrite fill_mof, Hb by done. cbv zeta iota.
  set (s1 := s <| xp_tx; tx_nxt := None |>).
  change (fcs_from (tx_bcc (xp_tx s)) []) with (u16 (Z.lnot (tx_bcc (xp_tx s1)))).
  set (f := u16 (Z.lnot (tx_bcc (xp_tx s1)))).
  set (s2 := s1 <| xp_tx; tx_bcc := f |>). change (tx_bcc (xp_tx s2)) with f.
  rewrite <- (bits_land 8 f). change (Z.ones (Z.of_nat 8)) with 0x00ff.
  assert (Hb8 : byte (Z.land f 0x00ff)).
  { change 0x00ff with (Z.ones 8). rewrite Z.land_ones by lia. apply Z.mod_pos_bound. lia. }
  destruct (bitstuff_ok rb c (Z.land f 0x00ff) s2 Hq Hl Hst Hc Hb8) as (H1 & H2 & H3).
  destruct (mode_rest TX_MODE_BCC (xp_tx_bitstuff (Z.land f 0x00ff) s2)) as (-> & -> & Hi).
  split; [exact (Hi _ H1)|]. rewrite H2, H3. split; reflexivity.
Qed.
Lemma fill_end s :
  s.(xp_tx).(tx_mode) = TX_MODE_BCC →
  tx_fill s =
    next_message (incr_sdt tx_sus (xp_tx_bitstuff (Z.shiftr s.(xp_tx).(tx_bcc) 8) s)
                    <| xp_tx; tx_mode := TX_MODE_FLAG |>).
Proof. intros Hm. unfold tx_fill. cbv zeta. rewrite Hm. reflexivity. Qed.
(** After its high byte the next message is requested: a flag comes first in any
    case. *)
Lemma fill_bcc rb s c :
  s.(xp_tx).(tx_mode) = TX_MODE_BCC → 0 <= s.(xp_tx).(tx_bcc) < 2 ^ 16 →
  s.(xp_tx).(tx_st) = Z.of_nat c → (c < 5)%nat → tx_outside s = e →
  queued rb s → (length rb <= 7)%nat →
  queued (rb ++ stuff c (bits 8 (Z.shiftr s.(xp_tx).(tx_bcc) 8))) (tx_fill s) ∧
  to_send flag_bits (tx_fill s).
Proof.
  intros Hm Hb Hst Hc He Hq Hl. rewrite fill_end by done.
  set (x := Z.shiftr (tx_bcc (xp_tx s)) 8).
  assert (Hx : byte x).
  { unfold byte, x. rewrite Z.shiftr_div_pow2 by lia.
    split; [apply Z.div_pos; lia|apply Z.div_lt_upper_bound; lia]. }
  destruct (bitstuff_ok rb c x s Hq Hl Hst Hc Hx) as (H1 & H2 & H3). clearbody x.
  revert H1 H3. generalize (xp_tx_bitstuff x s). intros s1 H1 H3.
  set (s2 := incr_sdt tx_sus s1 <| xp_tx; tx_mode := TX_MODE_FLAG |>).
  change (queued (rb ++ stuff c (bits 8 x)) s2) in H1.
  assert (He2 : tx_outside s2 = e) by (rewrite <- He, <- H3; reflexivity).
  assert (Hm2 : tx_mode (xp_tx s2) = TX_MODE_FLAG) by done.
  clearbody s2. unfold next_message.
  destruct (sl_daedt_transmission_request s2) as [mp s3] eqn:Ed.
  pose proof (f_equal path_of (f_equal snd Ed)) as Hp. cbn [snd] in Hp.
  pose proof (rx_keeps_path _ _ (rx_daedt_request s2)) as Hp'. rewrite Hp' in Hp. clear Hp'.
  pose proof (f_equal (λ p, p.2.1.1) Hp) as Hp1. pose proof (f_equal (λ p, p.2.1.2) Hp) as Hp2.
  pose proof (f_equal (λ p, p.2.2) Hp) as Hp3. pose proof (f_equal (λ p, p.1.2) Hp) as Hp4.
  cbn [path_of fst snd] in Hp1, Hp2, Hp3, Hp4. clear Hp.
  assert (Hq3 : queued (rb ++ stuff c (bits 8 x)) s3).
  { destruct H1 as (Hr & Hn & Hlen). by rewrite Hp1, Hp2 in *. }
  cbv zeta. destruct mp as [mp|].
  - split; [exact Hq3|]. apply (send_next _ mp.(m_blks)); try done.
    + exact (Hnext s2 mp s3 He2 Ed).
    + rewrite <- He2. symmetry. exact Hp4.
  - split; [exact Hq3|]. apply send_flag. change (tx_mode (xp_tx s3) = TX_MODE_FLAG).
    by rewrite <- Hp3.
Qed.

(** *** Filling the residue *)

Lemma fill_ok w rb s :
  to_send w s → queued rb s → (length rb <= 7)%nat → filled w rb (tx_fill s).
Proof.
  intros Hs Hq Hl. destruct Hs as [s blks Hm Hn Hok He|s blks c Hm Hn Hok Hst Hc He
    |s c Hm Hb Hst Hc He|s Hm|s blks Hm Hn Hok He].
  - exists op. destruct opening_flags as (x & Hx & _ & _).
    rewrite fill_bof by (done || by rewrite <- He). split; [by apply queued_open|].
    split; [rewrite Hx, length_app; cbn; lia|]. left. eexists. split; [done|].
    exact (send_mof (tx_open s) blks 0 eq_refl Hn Hok eq_refl ltac:(lia) He).
  - destruct (concat blks) as [|x d] eqn:E.
    + destruct (fill_fcs rb s blks c Hm Hn Hok Hst Hc E Hq Hl) as (H1 & H2 & H3).
      set (f := fcs_from _ []) in *. apply rest_fields in H2 as (Hm' & _ & Hst' & Hb').
      assert (Hf : 0 <= f < 2 ^ 16) by (apply Z.mod_pos_bound; lia).
      eexists. split; [exact H1|].
      pose proof (bits_land 8 f) as El.
      assert (Hx : byte (Z.land f (Z.ones (Z.of_nat 8))))
        by (rewrite Z.land_ones by lia; apply Z.mod_pos_bound; lia).
      pose proof (length_stuff_byte c _ Hc Hx) as Hlen. rewrite El in Hlen.
      split; [lia|]. left. cbn [bytes_bits flat_map app].
      change (bits 16 f) with (bits (8 + 8) f).
      rewrite (bits_app 8 8 f), stuff_app, <- app_assoc. change (Z.of_nat 8) with 8.
      eexists. split; [done|]. rewrite <- Hb'. rewrite <- Hb' in Hf, Hst'.
      apply send_bcc; try done; [apply ones_after_le; done|by rewrite H3].
    + destruct (fill_byte rb s blks c x d Hm Hn Hok Hst Hc E Hq Hl)
        as (blks' & Hok' & <- & H1 & H2 & H3).
      apply rest_fields in H2 as (Hm' & Hn' & Hst' & Hb').
      eexists. split; [exact H1|].
      pose proof (length_stuff_byte c x Hc (msg_bytes _ _ _ Hok E)) as Hlen.
      split; [lia|]. left.
      assert (Ef : fcs_from (tx_bcc (xp_tx s)) (x :: concat blks') =
                   fcs_from (tx_bcc (xp_tx (tx_fill s))) (concat blks')).
      { rewrite Hb', bcc_byte_ok. unfold fcs_from. cbn [bytes_bits flat_map].
        by rewrite crc_bits_app. }
      cbn [bytes_bits flat_map]. rewrite <- (app_assoc (bits 8 x)), stuff_app, <- app_assoc, Ef.
      eexists. split; [done|].
      apply send_mof; try done; [apply ones_after_le; done|by rewrite H3].
  - destruct (fill_bcc rb s c Hm Hb Hst Hc He Hq Hl) as [H1 H2]. eexists. split; [exact H1|].
    assert (Hx : byte (Z.shiftr (tx_bcc (xp_tx s)) 8)).
    { unfold byte. rewrite Z.shiftr_div_pow2 by lia.
      split; [apply Z.div_pos; lia|apply Z.div_lt_upper_bound; lia]. }
    pose proof (length_stuff_byte c _ Hc Hx). split; [lia|]. left. by exists flag_bits.
  - exists flag_bits. split; [|split; [cbn; lia|]].
    + unfold tx_fill. cbv zeta. rewrite Hm. apply (tx_append_ok rb flag_bits); [done|done|cbn; lia|done|done].
    + right. exists []. split; [done|]. right. split; [done|]. left.
      unfold tx_fill. cbv zeta. by rewrite Hm.
  - exists op. rewrite fill_bof by done. destruct opening_flags as (x & Hx & Hx' & _).
    split; [by apply queued_open|]. split; [rewrite Hx, length_app; cbn; lia|].
    right. exists x. split; [done|]. destruct Hx' as [-> | [x' ->]]; [right|left; by exists x'].
    split; [done|]. right. split; [done|]. split; [done|]. by exists blks.
Qed.
Lemma after_ok rb s :
  after_flag [] s → queued rb s → (length rb <= 7)%nat →
  ∃ c, queued (rb ++ c) (tx_fill s) ∧ (8 <= length c)%nat ∧ starts c.
Proof.
  intros [[x' Hx]|[_ [Hm|(Hm & Hst & blks & Hn & Hok)]]] Hq Hl; [done| |].
  - exists flag_bits. unfold tx_fill. cbv zeta. rewrite Hm. split; [|split].
    + apply (tx_append_ok rb flag_bits); [done|done|cbn; lia|done|done].
    + cbn; lia.
    + exact (starts_flag []).
  - destruct (concat blks) as [|x d] eqn:E.
    + destruct (fill_fcs rb s blks 0 Hm Hn Hok Hst ltac:(lia) E Hq Hl) as (H1 & _).
      eexists. split; [exact H1|]. split; [|apply starts_stuff].
      set (f := fcs_from _ []). rewrite <- (bits_land 8 f).
      assert (Hx : byte (Z.land f (Z.ones (Z.of_nat 8))))
        by (rewrite Z.land_ones by lia; apply Z.mod_pos_bound; lia).
      apply (length_stuff_byte 0 _ ltac:(lia) Hx).
    + destruct (fill_byte rb s blks 0 x d Hm Hn Hok Hst ltac:(lia) E Hq Hl)
        as (blks' & _ & _ & H1 & _).
      eexists. split; [exact H1|]. split; [|apply starts_stuff].
      apply (length_stuff_byte 0 _ ltac:(lia) (msg_bytes _ _ _ Hok E)).
Qed.

(** *** The octets *)

(** The bits [w] are to be sent until the closing flag is out. *)
Definition sending (w : list bool) (s : xp) : Prop :=
  ∃ rb, queued rb s ∧
    ((∃ w', w = rb ++ w' ∧ to_send w' s) ∨ (∃ x, rb = w ++ x ∧ after_flag x s)).
Lemma to_send_rest w s t :
  to_send w s → tx_rest t = tx_rest s → tx_outside t = tx_outside s → to_send w t.
Proof.
  intros Hs Hr Ho. injection Hr as Em En Est Eb.
  assert (Hc : t.(sdt_conf) = s.(sdt_conf)) by exact (f_equal sdt_conf Ho).
  destruct Hs as [s blks Hm Hn Hok He|s blks c Hm Hn Hok Hst Hc' He|s c Hm Hb Hst Hc' He|s Hm
                 |s blks Hm Hn Hok He].
  - apply send_bof; congruence.
  - rewrite <- Eb. apply send_mof; congruence.
  - rewrite <- Eb in *. apply send_bcc; congruence.
  - apply send_flag; congruence.
  - apply (send_next _ blks); congruence.
Qed.
Lemma after_rest x s t : after_flag x s → tx_rest t = tx_rest s → after_flag x t.
Proof.
  intros Hs Hr. injection Hr as Em En Est Eb. unfold after_flag in *. by rewrite Em, En, Est.
Qed.
Lemma to_send_length w s : to_send w s → (8 <= length w)%nat.
Proof.
  intros []; rewrite ?length_app; cbn [flag_bits length]; lia.
Qed.
Lemma tx_octet_eq type s rb :
  queued rb s →
  tx_octet type s =
  tx_drain type (if (octet_size type <=? length rb)%nat then s else tx_fill s).
Proof.
  intros (_ & Hn & _). unfold tx_octet. rewrite Hn. f_equal.
  assert (E : tx_bits type = Z.of_nat (octet_size type))
    by (unfold tx_bits, octet_size; by case_match).
  rewrite E. destruct (Nat.leb_spec (octet_size type) (length rb)) as [H|H].
  - by rewrite (proj2 (Z.leb_le _ _)) by lia.
  - by rewrite (proj2 (Z.leb_gt _ _)) by lia.
Qed.
Lemma take_app_ends {A} n (l l' : list A) :
  (length l < n)%nat → take n (l ++ l') = l ++ take (n - length l) l'.
Proof. intros H. apply take_app_ge. lia. Qed.
(** One octet: within what is to be sent, or with its end. *)
Definition octet_of (n : nat) (w : list bool) (o : Z) (s : xp) : Prop :=
  byte o ∧
  if (n <=? length w)%nat then bits n (xp_rev o) = take n w ∧ sending (drop n w) s
  else ∃ l2 p2 out2, bits n (xp_rev o) = w ++ l2 ∧ unstuff [] l2 = Some (p2, out2).
Lemma drain_within type w rb s :
  queued rb s → (octet_size type <= length rb)%nat → (octet_size type <= length w)%nat →
  ((∃ w', w = rb ++ w' ∧ to_send w' s) ∨ (∃ x, rb = w ++ x ∧ after_flag x s)) →
  octet_of (octet_size type) w (tx_drain type s).1 (tx_drain type s).2.
Proof.
  intros Hq Hn Hw Hs. destruct (tx_drain_ok type rb s Hq Hn) as (Hb & Hbits & Hq' & Hr & Ho).
  split; [done|]. rewrite (proj2 (Nat.leb_le _ _)) by done. rewrite Hbits. split.
  - destruct Hs as [(w' & -> & _)|(x & -> & _)]; [by rewrite take_app_le|].
    by rewrite take_app_le.
  - exists (drop (octet_size type) rb). split; [done|].
    destruct Hs as [(w' & -> & Hs)|(x & -> & Hs)]; [left|right].
    + exists w'. rewrite drop_app_le by done. split; [done|]. by eapply to_send_rest.
    + exists x. rewrite drop_app_le by done. split; [done|]. by eapply after_rest.
Qed.
Lemma drain_end type w x rb s :
  queued rb s → (octet_size type <= length rb)%nat → rb = w ++ x → starts x →
  (0 < length w < octet_size type)%nat →
  octet_of (octet_size type) w (tx_drain type s).1 (tx_drain type s).2.
Proof.
  intros Hq Hn -> Hx Hw. destruct (tx_drain_ok type _ s Hq Hn) as (Hb & Hbits & _).
  assert (H8 : (octet_size type <= 8)%nat) by (unfold octet_size; case_match; lia).
  split; [done|]. rewrite (proj2 (Nat.leb_gt _ _)) by lia. rewrite Hbits, take_app_ends by lia.
  destruct (Hx (octet_size type - length w)%nat) as (p & out & Hu); [lia|]. by eexists _, p, out.
Qed.
Lemma tx_octet_ok type w s :
  sending w s → w ≠ [] → octet_of (octet_size type) w (tx_octet type s).1 (tx_octet type s).2.
Proof.
  intros (rb & Hq & Hs) Hw. rewrite (tx_octet_eq type s rb Hq).
  assert (H8 : (octet_size type <= 8)%nat) by (unfold octet_size; case_match; lia).
  assert (Hw0 : (0 < length w)%nat) by (destruct w; [done|cbn; lia]).
  destruct (Nat.leb_spec (octet_size type) (length rb)) as [Hn|Hn].
  - destruct (Nat.le_gt_cases (octet_size type) (length w)) as [Hl|Hl].
    + by apply (drain_within type w rb).
    + destruct Hs as [(w' & -> & Hs)|(x & -> & [[x' ->]|[-> _]])].
      * apply to_send_length in Hs. rewrite length_app in Hl. lia.
      * apply (drain_end type w (flag_bits ++ x') _ s Hq Hn eq_refl); [apply starts_flag|lia].
      * rewrite app_nil_r in Hn. lia.
  - destruct Hs as [(w' & -> & Hs)|(x & -> & Hs)].
    + destruct (fill_ok w' rb s Hs Hq ltac:(lia)) as (c & Hq' & Hc & Hs').
      apply to_send_length in Hs. apply (drain_within type _ (rb ++ c)); [done|rewrite length_app; lia..|].
      destruct Hs' as [(w2 & -> & Hs')|(x & -> & Hs')]; [left; exists w2|right; exists x];
        by rewrite <- app_assoc.
    + assert (x = []) as -> by (destruct Hs as [[x' ->]|[-> _]]; [|done];
        rewrite length_app in Hn; cbn in Hn; lia).
      rewrite app_nil_r in Hq, Hn. destruct (after_ok w s Hs Hq ltac:(lia)) as (c & Hq' & Hc & Hst).
      apply (drain_end type w c (w ++ c)); [done|rewrite length_app; lia|done|done|lia].
Qed.
(** [k] octets in a row. *)
Fixpoint tx_seq (type : Z) (k : nat) (s : xp) : list Z * xp :=
  match k with
  | O => ([], s)
  | S k =>
      let '(o, s) := tx_octet type s in
      let '(os, s) := tx_seq type k s in (o :: os, s)
  end.
Lemma tx_seq_frame type w s :
  sending w s → w ≠ [] →
  ∃ k l2 p2 out2, octets_bits type (tx_seq type k s).1 = w ++ l2 ∧
    (length l2 < octet_size type)%nat ∧ unstuff [] l2 = Some (p2, out2) ∧
    Forall byte (tx_seq type k s).1 ∧ k ≠ 0%nat.
Proof.
  assert (Hn : (0 < octet_size type <= 8)%nat) by (unfold octet_size; case_match; lia).
  remember (length w) as m eqn:Em. revert w s Em.
  induction m as [m IH] using lt_wf_ind. intros w s -> Hs Hw.
  destruct (tx_octet_ok type w s Hs Hw) as [Hb Ho].
  destruct (tx_octet type s) as [o s1] eqn:Eo. cbn [fst snd] in *.
  assert (Hone : tx_seq type 1 s = ([o], s1)) by (cbn [tx_seq]; by rewrite Eo).
  destruct (Nat.leb_spec (octet_size type) (length w)) as [Hl|Hl].
  - destruct Ho as [Hbits Hs1]. destruct (decide (drop (octet_size type) w = [])) as [Hd|Hd].
    + exists 1%nat, [], [], []. rewrite Hone. cbn [fst octets_bits flat_map].
      split; [|split; [cbn [length]; lia|split; [done|split; [by constructor|done]]]].
      rewrite Hbits, <- Hd, take_drop, Hd. by rewrite app_nil_r.
    + assert (0 < length w)%nat by (destruct w; [done|cbn; lia]).
      destruct (IH (length (drop (octet_size type) w)) ltac:(rewrite length_drop; lia) _ s1 eq_refl
                  Hs1 Hd) as (k & l2 & p2 & out2 & E1 & E2 & E3 & E4 & _).
      exists (S k), l2, p2, out2. cbn [tx_seq]. rewrite Eo.
      destruct (tx_seq type k s1) as [os s2]. cbn [fst octets_bits flat_map] in *.
      rewrite Hbits, E1, app_assoc, take_drop. split; [done|]. split; [done|]. split; [done|].
      split; [by constructor|done].
  - destruct Ho as (l2 & p2 & out2 & E1 & E2). exists 1%nat, l2, p2, out2.
    rewrite Hone. cbn [fst octets_bits flat_map]. rewrite app_nil_r, E1.
    pose proof (f_equal length E1) as El. rewrite length_bits, length_app in El.
    assert (0 < length w)%nat by (destruct w; [done|cbn; lia]).
    split; [done|]. split; [lia|].
    split; [done|]. split; [by constructor|done].
Qed.
End Tx.
