(* ===== verification/HdlcTrip.v ===== *)
(** * Soft-HDLC from end to end

    The octets one channel transmits, given to the receiver of another: a frame
    comes out as it went in. *)
From S2P Require Import Prelude Bufq Xp Prims Timers Txc Lsc Rc LscCtl Monitors Lmi System Receive Hdlc SoftHdlc HdlcBits HdlcRx HdlcTx.
#[local] Set Warnings "-clear-no-such-hyp".

(** ** Flags and a frame *)

Lemma length_stuff c l : (length l <= length (stuff c l))%nat.
Proof.
  revert c. induction l as [|[] l IH]; intros c; [done| |]; cbn [stuff length].
  - case_match; cbn [length]; [specialize (IH 0%nat)|specialize (IH (S c))]; lia.
  - specialize (IH 0%nat). lia.
Qed.
Lemma starts_app l l' : starts l → (7 <= length l)%nat → starts (l ++ l').
Proof. intros Hl H n Hn. rewrite take_app_le by lia. by apply Hl. Qed.
Definition flags (j : nat) : list bool := Nat.iter j (app flag_bits) [].
Lemma flags_add i j : flags (i + j) = flags i ++ flags j.
Proof.
  induction i as [|i IH]; [done|]. cbn [Nat.add]. change (flags (S (i + j))) with (flag_bits ++ flags (i + j)).
  rewrite IH. by rewrite app_assoc.
Qed.
Lemma opening_is_flags f op : opening f = Some op → ∃ j, op = flags j.
Proof.
  unfold opening. repeat case_match; intros [= <-]; [by exists 1%nat|by exists 2%nat|by exists 3%nat].
Qed.

(** The octets that end the bits [a], and what else they hold. *)
Lemma octets_split type os a b :
  Forall byte os → octets_bits type os = a ++ b → a ≠ [] →
  ∃ os1 os2 l2, os = os1 ++ os2 ∧ octets_bits type os1 = a ++ l2 ∧
    b = l2 ++ octets_bits type os2 ∧ (length l2 < octet_size type)%nat ∧ os1 ≠ [] ∧
    Forall byte os1 ∧ Forall byte os2.
Proof.
  intros Hos. revert a. induction Hos as [|o os Ho Hos IH]; intros a E Ha.
  { symmetry in E. by apply app_nil in E as [-> _]. }
  cbn [octets_bits flat_map] in E. fold (octets_bits type os) in E.
  set (x := bits (octet_size type) (xp_rev o)) in *.
  assert (Hx : length x = octet_size type) by apply length_bits.
  assert (Hone : octets_bits type [o] = x) by (cbn [octets_bits flat_map]; by rewrite app_nil_r).
  apply app_eq_inv in E as [(l2 & Ex & ->)|(a' & -> & E)]; cycle 1.
  - destruct a' as [|y a'].
    + exists [o], os, []. rewrite Hone, app_nil_r. cbn [app] in E. subst b.
      split; [done|]. split; [by rewrite app_nil_r|]. split; [done|].
      split; [destruct (octet_size_ok type) as [-> | ->]; cbn; lia|].
      split; [done|]. split; [by constructor|done].
    + destruct (IH (y :: a') E) as (os1 & os2 & l2 & -> & E1 & E2 & Hl & _ & H1 & H2); [done|].
      exists (o :: os1), os2, l2. split; [done|]. cbn [octets_bits flat_map].
      fold (octets_bits type os1) x. rewrite E1, <- app_assoc.
      split; [done|]. split; [done|]. split; [done|]. split; [done|]. split; [by constructor|done].
  - exists [o], os, l2. rewrite Hone. split; [done|]. split; [done|]. split; [done|].
    split; [|split; [done|split; [by constructor|done]]].
    apply (f_equal length) in Ex. rewrite length_app, Hx in Ex. destruct a; [done|cbn in Ex; lia].
Qed.
(** What was received since a flag is a beginning of the next one. *)
Lemma before_flag FASTBUF u k rest s :
  receiving FASTBUF u s → u ++ k = flag_bits ++ rest →
  ∃ a, a ≠ [] ∧ u ++ a = flag_bits ∧ k = a ++ rest.
Proof.
  intros (p & out & Hu & _) E. apply app_eq_inv in E as [(x & -> & E)|(a & Ea & ->)].
  - exfalso. rewrite unstuff_app in Hu. done.
  - exists a. split; [|done]. intros ->. rewrite app_nil_r in Ea. by rewrite <- Ea in Hu.
Qed.
Section Trip.
Context (FASTBUF : nat) (HF : (6 <= FASTBUF)%nat).
Lemma rx_flags_frame type j os u f l2 p2 out2 s :
  s.(xenv).(e_alloc) = [] → 0 <= rx_max s < 2 ^ 28 → frame_ok (is_xsn s) (rx_max s) f →
  Forall byte os → receiving FASTBUF u s →
  u ++ octets_bits type os = flags j ++ (stuff 0 (frame_bits f) ++ flag_bits) ++ l2 →
  (length l2 < octet_size type)%nat → os ≠ [] → unstuff [] l2 = Some (p2, out2) →
  ∃ s1, outside s1 = outside s ∧ delivered FASTBUF f l2 s1 (rx_octets FASTBUF type os s).
Proof.
  intros Ha HM Hf Hos Hu E Hl2 Hne Hun. revert os u s Ha HM Hf Hos Hu E Hne.
  induction j as [|j IH]; intros os u s Ha HM Hf Hos Hu E Hne.
  { by apply (rx_frame_octets FASTBUF type os u f l2 p2 out2 s). }
  change (flags (S j)) with (flag_bits ++ flags j) in E. rewrite <- app_assoc in E.
  remember (flags j ++ (stuff 0 (frame_bits f) ++ flag_bits) ++ l2) as rest eqn:Erest.
  assert (Hrest : starts rest ∧ (16 <= length rest)%nat).
  { pose proof (length_stuff 0 (frame_bits f)) as Hl. rewrite length_frame_bits in Hl.
    rewrite Erest. split; [|rewrite !length_app; lia]. destruct j as [|j].
    - change (flags 0) with (@nil bool). cbn [app]. rewrite <- app_assoc.
      apply starts_app; [apply starts_stuff|lia].
    - change (flags (S j)) with (flag_bits ++ flags j). rewrite <- app_assoc. apply starts_flag. }
  destruct Hrest as [Hst Hlen].
  destruct (before_flag FASTBUF u _ _ s Hu E) as (a & Hane & Hua & Ek).
  destruct (octets_split type os a rest Hos Ek Hane) as
    (os1 & os2 & l & -> & E1 & E2 & Hl & Hne1 & Hos1 & Hos2).
  assert (H8 : (octet_size type <= 8)%nat) by (unfold octet_size; case_match; lia).
  destruct (Hst (length l) ltac:(lia)) as (p & out & Hpl).
  rewrite E2, take_app_length in Hpl.
  destruct (rx_flag_octets FASTBUF type os1 u l p out s) as [Hr Hout]; try done; [lia| |].
  { by rewrite E1, app_assoc, Hua. }
  rewrite rx_octets_app.
  destruct (IH os2 l (rx_octets FASTBUF type os1 s)) as (s1 & Es & Hd); try done.
  - by rewrite (outside_alloc _ _ Hout).
  - by rewrite (f_equal rx_max Hout : rx_max (rx_octets FASTBUF type os1 s) = rx_max s).
  - rewrite (f_equal rx_max Hout : rx_max (rx_octets FASTBUF type os1 s) = rx_max s).
    by rewrite (f_equal is_xsn Hout : is_xsn (rx_octets FASTBUF type os1 s) = is_xsn s).
  - intros ->. rewrite E2, app_nil_r in Hlen. lia.
  - exists s1. split; [by rewrite Es|done].
Qed.
End Trip.

(** ** The round trip *)

(** C9: a frame comes out of the receiver as it went into the transmitter.  A
    channel is about to transmit the frame [f], with the bits [rb] left over in
    its residue and one, two or three flags configured between frames; another
    has received the flags before it up to the bits [u].  From the octets of 7 or 8
    bits the transmitter makes - opening flags, the bytes with zeros inserted, the
    check sequence, the closing flag, whatever comes next - the receiver delivers
    exactly the bytes of [f] to [sl_daedr_received_bits], wherever the octets
    divide them, and nothing else of the receiver's channel has changed
    before that. *)
Theorem soft_hdlc_roundtrip FASTBUF type t rb blks op u r :
  (6 <= FASTBUF)%nat →
  t.(xp_tx).(tx_mode) = TX_MODE_BOF → t.(xp_tx).(tx_nxt) = Some blks → msg_ok blks →
  opening t.(sdt_conf).(cf_f) = Some op → queued rb t →
  (∀ s mp s', tx_outside s = tx_outside t →
     sl_daedt_transmission_request s = (Some mp, s') → msg_ok mp.(m_blks)) →
  receiving FASTBUF u r → (u ++ rb = [] ∨ u ++ rb = flag_bits) →
  r.(xenv).(e_alloc) = [] → 0 <= rx_max r < 2 ^ 28 →
  frame_ok (is_xsn r) (rx_max r) (concat blks) →
  ∃ k l2 r1, outside r1 = outside r ∧
    delivered FASTBUF (concat blks) l2 r1 (rx_octets FASTBUF type (tx_seq type k t).1 r).
Proof.
  intros HF Hm Hn Hok Hop Hq Hnext Hr Hu Ha HM Hf.
  destruct (opening_is_flags _ _ Hop) as [i Ei].
  destruct (tx_seq_frame (tx_outside t) Hnext op Hop type
    (rb ++ op ++ stuff 0 (frame_bits (concat blks)) ++ flag_bits) t)
    as (k & l2 & p2 & out2 & E & Hl2 & Hun & Hby & Hk).
  { exists rb. split; [done|]. left. eexists. split; [done|]. by apply send_bof. }
  { intros H. apply (f_equal length) in H. rewrite !length_app in H. cbn in H. lia. }
  assert (Hj : ∃ j, u ++ rb = flags j) by (destruct Hu as [-> | ->]; [by exists 0%nat|by exists 1%nat]).
  destruct Hj as [j Ej].
  destruct (rx_flags_frame FASTBUF HF type (j + i) (tx_seq type k t).1 u (concat blks) l2 p2 out2 r)
    as (r1 & Hout & Hd); try done.
  - rewrite E, flags_add, <- Ej, <- Ei. by rewrite <- !app_assoc.
  - intros H. destruct k; [done|]. revert H. cbn [tx_seq].
    destruct (tx_octet type t) as [o t1]. by destruct (tx_seq type k t1).
  - by exists k, l2, r1.
Qed.

(** ** Blocks *)

Fixpoint put_all (offs : list nat) (os bp : list Z) : list Z :=
  match offs, os with
  | o :: offs, x :: os => put_all offs os (<[o := x]> bp)
  | _, _ => bp
  end.
Lemma tx_octets_seq type offs bp s :
  tx_octets type offs bp s =
    (put_all offs (tx_seq type (length offs) s).1 bp, (tx_seq type (length offs) s).2).
Proof.
  revert bp s. induction offs as [|o offs IH]; intros bp s; [done|]. cbn [tx_octets length tx_seq].
  destruct (tx_octet type s) as [x s1]. rewrite IH. by destruct (tx_seq type (length offs) s1).
Qed.
Lemma tx_seq_length type k s : length (tx_seq type k s).1 = k.
Proof.
  revert s. induction k as [|k IH]; intros s; [done|]. cbn [tx_seq].
  destruct (tx_octet type s) as [o s1]. specialize (IH s1).
  destruct (tx_seq type k s1). cbn [fst length] in *. by rewrite IH.
Qed.
Lemma put_all_other offs os bp o : o ∉ offs → nth o (put_all offs os bp) 0 = nth o bp 0.
Proof.
  revert os bp. induction offs as [|p offs IH]; intros os bp Ho; [done|].
  destruct os as [|x os]; [done|]. cbn [put_all]. apply not_elem_of_cons in Ho as [Hp Ho].
  rewrite IH by done. rewrite !nth_lookup. by rewrite list_lookup_insert_ne.
Qed.
Lemma length_put_all offs os bp : length (put_all offs os bp) = length bp.
Proof.
  revert os bp. induction offs as [|p offs IH]; intros os bp; [done|].
  destruct os as [|x os]; [done|]. cbn [put_all]. by rewrite IH, length_insert.
Qed.
Lemma put_all_read offs os bp :
  NoDup offs → Forall (λ o, (o < length bp)%nat) offs → length os = length offs →
  (λ o, nth o (put_all offs os bp) 0) <$> offs = os.
Proof.
  intros Hd. revert os bp. induction Hd as [|o offs Ho Hd IH]; intros os bp Hb Hl;
    destruct os as [|x os]; try done. injection Hl as Hl.
  apply list.Forall_cons in Hb as [Hb1 Hb]. cbn [put_all fmap list_fmap]. f_equal.
  - rewrite put_all_other, nth_lookup by done. by rewrite list_lookup_insert_eq.
  - apply IH; [by rewrite length_insert|done].
Qed.
Lemma flat_map_single {A B} (g : A → B) l : flat_map (λ i, [g i]) l = g <$> l.
Proof. induction l as [|x l IH]; [done|]. cbn [flat_map app fmap list_fmap]. by rewrite IH. Qed.
(** The first octet of each frame of 32. *)
Lemma ds0_offsets type map n :
  map type = [0] → octet_offsets type map n = (λ i, (32 * i)%nat) <$> seq 0 n.
Proof.
  intros Hm. unfold octet_offsets. rewrite Hm.
  change (flat_map (λ i, [(32 * i + 0)%nat]) (seq 0 n) = (λ i, (32 * i)%nat) <$> seq 0 n).
  rewrite flat_map_single. apply list_fmap_ext. intros. lia.
Qed.
Lemma ds0_block type n bp s :
  tx_chan_map type = [0] → rx_chan_map type = [0] → length bp = (32 * n)%nat →
  (λ o, nth o (tx_octets type (octet_offsets type tx_chan_map n) bp s).1 0) <$>
    octet_offsets type rx_chan_map n = (tx_seq type n s).1.
Proof.
  intros Ht Hr Hl. rewrite !ds0_offsets, tx_octets_seq, length_fmap, length_seq by done.
  cbn [fst]. apply put_all_read.
  - apply NoDup_fmap; [intros x y H; lia|apply NoDup_seq].
  - apply Forall_fmap, Forall_forall. intros i Hi. apply in_seq in Hi. cbn. lia.
  - by rewrite tx_seq_length, length_fmap, length_seq.
Qed.
(** When idle, transmission of a block begins with a request for a message. *)
Definition tx_ready (s : xp) : xp :=
  if ((s.(xp_tx).(tx_mode) =? TX_MODE_IDLE) || (s.(xp_tx).(tx_mode) =? TX_MODE_FLAG)) &&
     bool_decide (s.(xp_tx).(tx_nxt) = None)
  then next_message s else s.

(** On a channel of one octet per frame a block carries exactly the octets
    of the Soft-HDLC, in order: what [xp_rx_block] does with a block that
    [xp_tx_block] wrote is what it does with those octets one after the other, and
    the transmitter is left as after producing them. *)
Theorem block_carries_octets FASTBUF type n bp t r :
  type ≠ SDL_TYPE_T1 → type ≠ SDL_TYPE_E1 → length bp = (32 * n)%nat →
  t.(sdt_statem).(daedt_state) ≠ IDLE → r.(sdt_statem).(daedr_state) ≠ IDLE →
  let sent := tx_seq type n (tx_ready t) in
  xp_rx_block FASTBUF type n (xp_tx_block type n bp t).1 r = rx_octets FASTBUF type sent.1 r ∧
  (xp_tx_block type n bp t).2 = sent.2.
Proof.
  intros HT HE Hl Ht Hr. cbv zeta.
  assert (Hmap : tx_chan_map type = [0] ∧ rx_chan_map type = [0]).
  { unfold tx_chan_map, rx_chan_map.
    by rewrite (proj2 (Z.eqb_neq _ _) HT), (proj2 (Z.eqb_neq _ _) HE). }
  destruct Hmap as [Hm1 Hm2]. unfold xp_rx_block, xp_tx_block. fold (tx_ready t). cbv zeta.
  rewrite !bool_decide_eq_false_2 by done. cbn [negb].
  fold (tx_ready t). rewrite rx_octets_loop_ok, ds0_block by done.
  split; [done|]. by rewrite tx_octets_seq, ds0_offsets, length_fmap, length_seq by done.
Qed.

(** A link in service about to transmit a message unit in two blocks, another
    that has just received a flag. *)
Definition ex_frame : list (list Z) := [[255; 128; 3; 1]; [2; 3]].
Definition ex_transmit : xp :=
  ex_in_service <| xp_tx; tx_mode := TX_MODE_BOF |> <| xp_tx; tx_nxt := Some ex_frame |>.
Definition ex_receive : xp := ex_in_service <| xp_rx; rx_mode := RX_MODE_SYNC |>.
Lemma tx_outside_eta s t :
  tx_outside s = tx_outside t → s = t <| xp_tx := s.(xp_tx) |> <| sdt_stats := s.(sdt_stats) |>.
Proof.
  intros H. transitivity ((tx_outside s) <| xp_tx := xp_tx s |> <| sdt_stats := sdt_stats s |>).
  - by destruct s.
  - rewrite H. by destruct t.
Qed.
Definition msg_okb (blks : list (list Z)) : bool :=
  negb (bool_decide (blks = [])) && forallb (λ b, negb (bool_decide (b = []))) (tail blks) &&
  forallb (λ x, (0 <=? x) && (x <? 256)) (concat blks).
Lemma msg_okb_ok blks : msg_okb blks = true → msg_ok blks.
Proof.
  unfold msg_okb, msg_ok. rewrite !andb_true_iff, negb_true_iff, bool_decide_eq_false, !forallb_forall.
  intros [[H1 H2] H3]. split; [done|].
  split; apply List.Forall_forall; intros x Hx.
  - apply H2 in Hx. by apply negb_true_iff, bool_decide_eq_false in Hx.
  - apply H3 in Hx. unfold byte. lia.
Qed.
Lemma ex_next s mp s' :
  tx_outside s = tx_outside ex_transmit →
  sl_daedt_transmission_request s = (Some mp, s') → msg_ok mp.(m_blks).
Proof.
  intros E Hr. apply tx_outside_eta in E. rewrite E in Hr. apply msg_okb_ok.
  apply (f_equal fst) in Hr. revert Hr. generalize (xp_tx s) (sdt_stats s). intros a b.
  vm_compute. intros [= <-]. reflexivity.
Qed.
Lemma soft_hdlc_roundtrip_witness :
  ∃ k l2 r1, outside r1 = outside ex_receive ∧
    delivered 64 [255; 128; 3; 1; 2; 3] l2 r1
      (rx_octets 64 SDL_TYPE_DS0A (tx_seq SDL_TYPE_DS0A k ex_transmit).1 ex_receive).
Proof.
  apply (soft_hdlc_roundtrip 64 SDL_TYPE_DS0A ex_transmit [] ex_frame flag_bits []).
  - lia.
  - reflexivity.
  - reflexivity.
  - apply msg_okb_ok. vm_compute. reflexivity.
  - vm_compute. reflexivity.
  - repeat split; cbn; lia.
  - exact ex_next.
  - exists [], []. split; [reflexivity|]. split; [vm_compute; reflexivity|].
    split; [vm_compute; reflexivity|]. repeat split; vm_compute; reflexivity.
  - left. reflexivity.
  - vm_compute. reflexivity.
  - split; [|reflexivity]. vm_compute. discriminate.
  - split; [vm_compute; discriminate|]. split; [vm_compute; discriminate|]. split.
    + repeat constructor; vm_compute; congruence.
    + left. vm_compute. reflexivity.
Defined.
Lemma block_carries_octets_witness :
  let sent := tx_seq SDL_TYPE_DS0A 2 (tx_ready ex_in_service) in
  xp_rx_block 64 SDL_TYPE_DS0A 2 (xp_tx_block SDL_TYPE_DS0A 2 (repeat 0 64) ex_in_service).1
    ex_receive = rx_octets 64 SDL_TYPE_DS0A sent.1 ex_receive ∧
  (xp_tx_block SDL_TYPE_DS0A 2 (repeat 0 64) ex_in_service).2 = sent.2.
Proof.
  apply (block_carries_octets 64 SDL_TYPE_DS0A 2 (repeat 0 64) ex_in_service ex_receive).
  - done.
  - done.
  - reflexivity.
  - vm_compute. discriminate.
  - vm_compute. discriminate.
Defined.
