(* ===== verification/SpanSlots.v ===== *)
(** * The timeslots of a channelized span

    Where in the block of a span [drivers/sl_x100p.c] puts the octets of its
    channels. *)
From S2P Require Import Prelude Bufq Xp Prims Timers Txc Lsc Rc LscCtl Monitors Requests Lmi System Receive Hdlc SoftHdlc HdlcTrip Spans.
From stdpp Require Import gmap.
#[local] Open Scope Z_scope.
#[local] Open Scope os7_scope.
#[local] Set Warnings "-clear-no-such-hyp".

(** The octets of [bp'] at offsets that satisfy [P] are those of [bp]. *)
Definition same_at (P : nat → Prop) (bp bp' : list Z) : Prop :=
  length bp' = length bp ∧ ∀ o, P o → nth o bp' 0 = nth o bp 0.
Lemma same_refl P bp : same_at P bp bp. Proof. done. Qed.
Lemma same_trans P a b c : same_at P a b → same_at P b c → same_at P a c.
Proof. intros [H1 H2] [H3 H4]. split; [lia|]. intros o Ho. by rewrite H4, H2. Qed.
Lemma same_insert (P : nat → Prop) o x bp : ¬ P o → same_at P bp (<[o := x]> bp).
Proof.
  intros Ho. split; [by rewrite length_insert|]. intros i Hi. rewrite !nth_lookup.
  rewrite list_lookup_insert_ne; [done|]. by intros ->.
Qed.
#[local] Hint Resolve same_refl : core.
Section Write.
Context (P : nat → Prop).
Lemma same_octets type offs bp s :
  Forall (λ o, ¬ P o) offs → same_at P bp (tx_octets type offs bp s).1.
Proof.
  intros H. revert bp s. induction H as [|o offs Ho H IH]; intros bp s; [done|].
  cbn [tx_octets]. destruct (tx_octet type s) as [x s1].
  eapply same_trans; [by apply (same_insert P o x)|apply IH].
Qed.
Lemma same_sdl offs bp s : Forall (λ o, ¬ P o) offs → same_at P bp (sdl_tx_loop offs bp s).1.
Proof.
  intros H. revert bp s. induction H as [|o offs Ho H IH]; intros bp s; [done|].
  cbn [sdl_tx_loop]. destruct (sdl_tx_octet s) as [[x|] s1]; [|done].
  eapply same_trans; [by apply (same_insert P o x)|apply IH].
Qed.
Lemma same_idle type n bp :
  Forall (λ o, ¬ P o) (octet_offsets type tx_chan_map n) → same_at P bp (xp_tx_idle type n bp).
Proof.
  unfold xp_tx_idle. cbv zeta.
  generalize (if (type =? SDL_TYPE_DS0A) || (type =? SDL_TYPE_T1) then 0x7f else 0xff). intros v H. revert bp. induction H as [|o offs Ho H IH]; intros bp; [done|]. cbn [fold_left].
  eapply same_trans; [by apply (same_insert P o v)|apply IH].
Qed.
Lemma same_block type n bp s :
  Forall (λ o, ¬ P o) (octet_offsets type tx_chan_map n) →
  same_at P bp (xp_tx_block type n bp s).1.
Proof.
  intros H. unfold xp_tx_block. cbv zeta.
  repeat case_match; first [by apply same_octets|by apply same_sdl|done].
Qed.
Lemma same_chan FASTBUF type idle count r w s :
  Forall (λ o, ¬ P o) (octet_offsets type tx_chan_map block_frames) →
  Forall (λ o, ¬ P o) (octet_offsets idle tx_chan_map block_frames) →
  same_at P w (chan_block FASTBUF type idle count r w s).1.
Proof.
  intros H1 H2. unfold chan_block. destruct (running SDL_IF_TX_RUNNING s).
  - pose proof (same_block type block_frames w s H1) as Hb.
    by destruct (xp_tx_block type block_frames w s).
  - by apply same_idle.
Qed.
End Write.

(** Not the first octet of a frame. *)
Definition not_first (o : nat) : Prop := (o mod 32)%nat ≠ 0%nat.
Lemma ds0_first type :
  tx_chan_map type = [0] →
  Forall (λ o, ¬ not_first o) (octet_offsets type tx_chan_map block_frames).
Proof.
  intros Hm. rewrite ds0_offsets by done. apply Forall_fmap, List.Forall_forall.
  intros i _. cbn [compose]. unfold not_first, compose. rewrite Nat.mul_comm, Nat.Div0.mod_mul. lia.
Qed.
(** All the channels of a channelized span use one octet of the frame.
    [xp_e1c_process] and [xp_t1c_process] pass the buffers to every timeslot as
    they are, without the timeslot's offset; so whatever the channels send, they
    write the first octet of each frame of 32 only, over one another, and the
    other octets go out as they were. *)
Theorem channels_share_octet FASTBUF slots wspan rspan chans o :
  (o mod 32)%nat ≠ 0%nat →
  nth o (xp_e1c_process FASTBUF slots wspan rspan chans).1 0 = nth o wspan 0 ∧
  nth o (xp_t1c_process FASTBUF slots wspan rspan chans).1 0 = nth o wspan 0.
Proof.
  intros Ho.
  assert (Hfold : ∀ f : list Z * gmap Z xp → nat → list Z * gmap Z xp,
    (∀ p n, same_at not_first p.1 (f p n).1) →
    ∀ l p, same_at not_first p.1 (fold_left f l p).1).
  { intros f Hf l. induction l as [|n l IH]; intros p; [done|].
    eapply same_trans; [apply Hf|apply IH]. }
  pose proof (ds0_first SDL_TYPE_DS0 eq_refl) as H0. pose proof (ds0_first SDL_TYPE_DS0A eq_refl) as H1.
  split.
  - refine (proj2 (Hfold (e1c_slot FASTBUF slots rspan) _ (seq 1 31) (wspan, chans)) o Ho).
    intros [w c] n. unfold e1c_slot. destruct (slot_xp slots c n) as [[i s]|]; [|by apply same_idle].
    case_match; [|by apply same_idle]. case_match; [|done].
    pose proof (same_chan not_first FASTBUF SDL_TYPE_DS0 SDL_TYPE_DS0 8 rspan w s H0 H0) as Hb.
    by destruct (chan_block FASTBUF SDL_TYPE_DS0 SDL_TYPE_DS0 8 rspan w s).
  - refine (proj2 (Hfold (t1c_slot FASTBUF slots rspan) _ (seq 1 31) (wspan, chans)) o Ho).
    intros [w c] n. unfold t1c_slot. case_match; [done|].
    destruct (slot_xp slots c n) as [[i s]|]; [|by apply same_idle].
    case_match; [|by apply same_idle]. cbv zeta.
    remember (if negb (iftype (sdl_conf s) =? SDL_TYPE_DS0A) then SDL_TYPE_DS0 else SDL_TYPE_DS0A)
      as type eqn:Et.
    assert (Ht : Forall (λ o, ¬ not_first o) (octet_offsets type tx_chan_map block_frames))
      by (subst type; by case_match).
    pose proof (same_chan not_first FASTBUF type SDL_TYPE_DS0A 8 rspan w s Ht H1) as Hb.
    by destruct (chan_block FASTBUF type SDL_TYPE_DS0A 8 rspan w s).
Qed.
Lemma channels_share_octet_witness :
  nth 5 (xp_e1c_process 64 (replicate 32 (Some 1)) (repeat 9 256) (repeat 9 256)
           {[ 1 := ex_in_service ]}).1 0 = nth 5 (repeat 9 256) 0 ∧
  nth 5 (xp_t1c_process 64 (replicate 32 (Some 1)) (repeat 9 256) (repeat 9 256)
           {[ 1 := ex_in_service ]}).1 0 = nth 5 (repeat 9 256) 0.
Proof.
  apply (channels_share_octet 64 (replicate 32 (Some 1)) (repeat 9 256) (repeat 9 256)
           {[ 1 := ex_in_service ]} 5). vm_compute. discriminate.
Defined.
