(* ===== verification/StrQueue.v ===== *)
(** * STREAMS message queues

    The queue utilities of [src/src/kernel/strutil.c] on the structures they
    work on: a store of messages with their [b_next] and [b_prev], a queue with
    its head, tail, counts and flags, and its chain of priority bands.  [None]
    is the dereference of a pointer to no message.  [kmem] is the outcome of the
    allocations to come; when the list has run out they succeed. *)
From S2P Require Import Prelude.
From stdpp Require Import gmap.
#[local] Open Scope Z_scope.
#[local] Open Scope os7_scope.

(** ** Data *)

(** A [size_t] and a [ssize_t]. *)
Definition u64 (x : Z) : Z := x mod 2 ^ 64.
Definition s64 (x : Z) : Z := (x + 2 ^ 63) mod 2 ^ 64 - 2 ^ 63.

(** A message block with its data block. *)
Record blk := Blk { db_type : Z; b_rptr : Z; b_wptr : Z }.
(** A message: its links, its band, its first block and the blocks after it. *)
Record msgb := Msgb {
  b_next : option Z; b_prev : option Z; b_band : Z; b_datap : blk; b_cont : list blk }.
#[export] Instance eta_msgb : Eta msgb := fun r =>
  Msgb r.(b_next) r.(b_prev) r.(b_band) r.(b_datap) r.(b_cont).
#[export] Instance set_b_next : Setter b_next := ltac:(mk_setter).
#[export] Instance set_b_prev : Setter b_prev := ltac:(mk_setter).
#[export] Instance set_b_band : Setter b_band := ltac:(mk_setter).

(** The flags are [QB_FULL], [QB_WANTW] and [QB_BACK]. *)
Record qband := Qband {
  qb_count : Z; qb_first : option Z; qb_last : option Z; qb_hiwat : Z; qb_lowat : Z;
  qb_full : bool; qb_wantw : bool; qb_back : bool; qb_msgs : Z }.
#[export] Instance eta_qband : Eta qband := fun r =>
  Qband r.(qb_count) r.(qb_first) r.(qb_last) r.(qb_hiwat) r.(qb_lowat)
    r.(qb_full) r.(qb_wantw) r.(qb_back) r.(qb_msgs).
#[export] Instance set_qb_count : Setter qb_count := ltac:(mk_setter).
#[export] Instance set_qb_first : Setter qb_first := ltac:(mk_setter).
#[export] Instance set_qb_last : Setter qb_last := ltac:(mk_setter).
#[export] Instance set_qb_hiwat : Setter qb_hiwat := ltac:(mk_setter).
#[export] Instance set_qb_lowat : Setter qb_lowat := ltac:(mk_setter).
#[export] Instance set_qb_full : Setter qb_full := ltac:(mk_setter).
#[export] Instance set_qb_wantw : Setter qb_wantw := ltac:(mk_setter).
#[export] Instance set_qb_back : Setter qb_back := ltac:(mk_setter).
#[export] Instance set_qb_msgs : Setter qb_msgs := ltac:(mk_setter).

(** The flags are the bits [QENAB], [QWANTR], [QWANTW], [QFULL], [QNOENB],
    [QBACK], [QPROCS] and [QSRVP] of [q_flag].  The first band of [q_bandp] is
    band [q_nband], the last is band 1. *)
Record queue := Queue {
  q_first : option Z; q_last : option Z; q_count : Z;
  q_enab : bool; q_wantr : bool; q_wantw : bool; q_full : bool; q_noenb : bool;
  q_back : bool; q_procs : bool; q_srvp : bool;
  q_minpsz : Z; q_maxpsz : Z; q_hiwat : Z; q_lowat : Z;
  q_bandp : list qband; q_nband : Z; q_blocked : Z; q_msgs : Z }.
#[export] Instance eta_queue : Eta queue := fun r =>
  Queue r.(q_first) r.(q_last) r.(q_count) r.(q_enab) r.(q_wantr) r.(q_wantw) r.(q_full)
    r.(q_noenb) r.(q_back) r.(q_procs) r.(q_srvp) r.(q_minpsz) r.(q_maxpsz) r.(q_hiwat)
    r.(q_lowat) r.(q_bandp) r.(q_nband) r.(q_blocked) r.(q_msgs).
#[export] Instance set_q_first : Setter q_first := ltac:(mk_setter).
#[export] Instance set_q_last : Setter q_last := ltac:(mk_setter).
#[export] Instance set_q_count : Setter q_count := ltac:(mk_setter).
#[export] Instance set_q_enab : Setter q_enab := ltac:(mk_setter).
#[export] Instance set_q_wantr : Setter q_wantr := ltac:(mk_setter).
#[export] Instance set_q_wantw : Setter q_wantw := ltac:(mk_setter).
#[export] Instance set_q_full : Setter q_full := ltac:(mk_setter).
#[export] Instance set_q_noenb : Setter q_noenb := ltac:(mk_setter).
#[export] Instance set_q_back : Setter q_back := ltac:(mk_setter).
#[export] Instance set_q_procs : Setter q_procs := ltac:(mk_setter).
#[export] Instance set_q_srvp : Setter q_srvp := ltac:(mk_setter).
#[export] Instance set_q_minpsz : Setter q_minpsz := ltac:(mk_setter).
#[export] Instance set_q_maxpsz : Setter q_maxpsz := ltac:(mk_setter).
#[export] Instance set_q_hiwat : Setter q_hiwat := ltac:(mk_setter).
#[export] Instance set_q_lowat : Setter q_lowat := ltac:(mk_setter).
#[export] Instance set_q_bandp : Setter q_bandp := ltac:(mk_setter).
#[export] Instance set_q_nband : Setter q_nband := ltac:(mk_setter).
#[export] Instance set_q_blocked : Setter q_blocked := ltac:(mk_setter).
#[export] Instance set_q_msgs : Setter q_msgs := ltac:(mk_setter).

(** A queue with the store its messages are in. *)
Record sq := Sq { heap : gmap Z msgb; qu : queue; kmem : list bool }.
#[export] Instance eta_sq : Eta sq := fun r => Sq r.(heap) r.(qu) r.(kmem).
#[export] Instance set_heap : Setter heap := ltac:(mk_setter).
#[export] Instance set_qu : Setter qu := ltac:(mk_setter).
#[export] Instance set_kmem : Setter kmem := ltac:(mk_setter).

(** ** Message types and sizes *)

Definition M_DATA : Z := 0x00.
Definition M_PROTO : Z := 0x01.
Definition M_DELAY : Z := 0x0c.
Definition QPCTL : Z := 0x80.
Definition M_IOCACK : Z := 0x81.
Definition M_PCPROTO : Z := 0x83.
Definition M_COPYOUT : Z := 0x8c.
Definition NBAND : nat := 256.

(** The shift is by [mod] as the processor takes it, modulo 32. *)
Definition bit32 (n : Z) : Z := Z.shiftl 1 (n mod 32).
Definition ctlmsg (type : Z) : bool :=
  let md := Z.land type (Z.lnot QPCTL) in
  Z.land (bit32 md)
    (Z.lor (bit32 M_DATA) (Z.lor (bit32 M_PROTO) (bit32 (Z.land M_PCPROTO (Z.lnot QPCTL))))) =? 0.
Definition datamsg (type : Z) : bool :=
  let md := Z.land type (Z.lnot QPCTL) in
  negb (Z.land (bit32 md)
    (Z.lor (Z.lor (Z.lor (bit32 M_DATA) (bit32 M_PROTO))
       (bit32 (Z.land M_PCPROTO (Z.lnot QPCTL)))) (bit32 M_DELAY)) =? 0).
Definition pcmsg (type : Z) : bool := negb (Z.land type QPCTL =? 0).
Definition isdatamsg (m : msgb) : bool := datamsg m.(b_datap).(db_type).

Definition add_size (size : Z) (b : blk) : Z :=
  if b.(b_rptr) <? b.(b_wptr) then u64 (size + (b.(b_wptr) - b.(b_rptr))) else size.
Definition blks_size (b : blk) (l : list blk) : Z := fold_left add_size (b :: l) 0.
Definition msgsize (m : msgb) : Z := blks_size m.(b_datap) m.(b_cont).
Definition msgdsize (m : msgb) : Z :=
  fold_left (fun size b => if b.(db_type) =? M_DATA then add_size size b else size)
    (m.(b_datap) :: m.(b_cont)) 0.
(** The two loops of [xmsgsize]; [blen] is a [size_t]. *)
Definition blen (b : blk) : Z := u64 (b.(b_wptr) - b.(b_rptr)).
Fixpoint xfirst (l : list blk) : list blk :=
  match l with
  | [] => []
  | b :: k => if 0 <? blen b then b :: k else xfirst k
  end.
Fixpoint xrest (type size : Z) (l : list blk) : Z :=
  match l with
  | [] => size
  | b :: k =>
      if 0 <? blen b
      then if b.(db_type) =? type then xrest type (u64 (size + blen b)) k else size
      else xrest type size k
  end.
Definition xmsgsize (l : list blk) : Z :=
  match xfirst l with
  | [] => 0
  | b :: k => xrest b.(db_type) (blen b) (b :: k)
  end.

(** ** Bands and enabling *)

Definition kmem_cache_alloc (kmem : list bool) : bool * list bool :=
  match kmem with [] => (true, []) | b :: k => (b, k) end.
(** The position in [q_bandp] the walk of [__find_qband] stops at. *)
Fixpoint find_idx (l : list qband) (q_nband band : Z) (i : nat) : option nat :=
  match l with
  | [] => None
  | _ :: l => if band <? q_nband then find_idx l (u8 (q_nband - 1)) band (S i) else Some i
  end.
Definition __find_qband (q : queue) (band : Z) : option nat :=
  find_idx q.(q_bandp) q.(q_nband) band 0.
Definition new_qband (q : queue) : qband :=
  Qband 0 None None q.(q_hiwat) q.(q_lowat) false false false 0.
Fixpoint get_loop (fuel : nat) (q : queue) (kmem : list bool) (band : Z) :
    option nat * queue * list bool :=
  match fuel with
  | O => (None, q, kmem)
  | S fuel =>
      let '(ok, kmem) := kmem_cache_alloc kmem in
      if negb ok then (None, q, kmem)
      else
        let q := q <| q_bandp := new_qband q :: q.(q_bandp) |> in
        let q := q <| q_nband := u8 (q.(q_nband) + 1) |> in
        if q.(q_nband) <? band then get_loop fuel q kmem band else (Some O, q, kmem)
  end.
Definition __get_qband (q : queue) (kmem : list bool) (band : Z) :
    option nat * queue * list bool :=
  if band <=? q.(q_nband) then (__find_qband q band, q, kmem)
  else get_loop NBAND q kmem band.
(** [f] applied to the band a pointer points to. *)
Definition set_band (i : nat) (f : qband → qband) (q : queue) : queue :=
  q <| q_bandp := alter f i q.(q_bandp) |>.

Definition qenable (q : queue) : queue :=
  if q.(q_srvp) then q <| q_enab := true |> else q.
Definition enableq (q : queue) : Z * queue :=
  if q.(q_srvp) && negb q.(q_noenb) then (1, qenable q) else (0, q).
Definition enableok (q : queue) : queue := q <| q_noenb := false |>.
Definition noenable (q : queue) : queue := q <| q_noenb := true |>.
Definition canenable (q : queue) : bool := negb q.(q_noenb).

(** ** Walking the messages *)

Definition hipri (m : msgb) : bool := QPCTL <=? m.(b_datap).(db_type).
(** [while (b_next && t(b_next)) { b_prev = b_next; b_next = b_prev->b_next; }] *)
Fixpoint walk (fuel : nat) (t : msgb → bool) (h : gmap Z msgb) (p n : option Z) :
    option (option Z * option Z) :=
  match fuel with
  | O => None
  | S fuel =>
      match n with
      | None => Some (p, None)
      | Some b => m ← h !! b; if t m then walk fuel t h (Some b) m.(b_next) else Some (p, Some b)
      end
  end.
Definition skip (t : msgb → bool) (s : sq) (p n : option Z) : option (option Z * option Z) :=
  walk (S (size s.(heap))) t s.(heap) p n.

Definition bcangetany (s : sq) : option Z :=
  '(_, b) ← skip hipri s None s.(qu).(q_first);
  match b with None => Some 0 | Some b => m ← s.(heap) !! b; Some m.(b_band) end.
Definition bcanget (s : sq) (band : Z) : option bool :=
  '(p, b) ← skip hipri s None s.(qu).(q_first);
  '(_, b) ← skip (fun m => band <? m.(b_band)) s p b;
  match b with None => Some false | Some b => m ← s.(heap) !! b; Some (m.(b_band) =? band) end.
Definition canget (s : sq) : option bool := bcanget s 0.
Definition qsize (q : queue) : Z := q.(q_msgs).

Definition __bcanputany (q : queue) : bool := q.(q_blocked) <? q.(q_nband).
Definition __bcanput_slow (q : queue) (band : Z) : option (bool * queue) :=
  if (band <=? q.(q_nband)) && (0 <? q.(q_blocked))
  then
    i ← __find_qband q band;
    qb ← q.(q_bandp) !! i;
    if qb.(qb_full) then Some (false, set_band i (fun qb => qb <| qb_wantw := true |>) q)
    else Some (true, q)
  else Some (true, q).
Definition __bcanput (q : queue) (band : Z) : option (bool * queue) :=
  if band =? 0
  then Some (if q.(q_full) then (false, q <| q_wantw := true |>) else (true, q))
  else __bcanput_slow q band.

(** ** Linking *)

Definition upd (b : Z) (f : msgb → msgb) (s : sq) : option sq :=
  m ← s.(heap) !! b; Some (s <| heap := <[b := f m]> s.(heap) |>).
Definition set_next (b : Z) (v : option Z) : sq → option sq := upd b (fun m => m <| b_next := v |>).
Definition set_prev (b : Z) (v : option Z) : sq → option sq := upd b (fun m => m <| b_prev := v |>).
(** [if (o) o->b_next = v], [if (o) o->b_prev = v]. *)
Definition opt_next (o v : option Z) (s : sq) : option sq :=
  match o with Some b => set_next b v s | None => Some s end.
Definition opt_prev (o v : option Z) (s : sq) : option sq :=
  match o with Some b => set_prev b v s | None => Some s end.
(** [if ((mp->b_next = b_next)) b_next->b_prev = mp;
    if ((mp->b_prev = b_prev)) b_prev->b_next = mp;] *)
Definition link_in (mp : Z) (p n : option Z) (s : sq) : option sq :=
  s ← set_next mp n s;
  s ← opt_prev n (Some mp) s;
  s ← set_prev mp p s;
  opt_next p (Some mp) s.
(** [if (q->q_last == b_prev) q->q_last = mp; if (q->q_first == b_next) q->q_first = mp;] *)
Definition mark_ends (mp : Z) (p n : option Z) (q : queue) : queue :=
  let q := if bool_decide (q.(q_last) = p) then q <| q_last := Some mp |> else q in
  if bool_decide (q.(q_first) = n) then q <| q_first := Some mp |> else q.
(** [if ((q->q_count += size) > q->q_hiwat) set_bit(QFULL_BIT, &q->q_flag);] *)
Definition add_count (size : Z) (q : queue) : queue :=
  let q := q <| q_count := u64 (q.(q_count) + size) |> in
  if q.(q_hiwat) <? q.(q_count) then q <| q_full := true |> else q.
(** [qb_msgs++], [qb_count += size] and the test against [qb_hiwat]. *)
Definition add_band (i : nat) (size : Z) (q : queue) : option queue :=
  let q := set_band i (fun qb => qb <| qb_msgs := s64 (qb.(qb_msgs) + 1) |>
                                    <| qb_count := u64 (qb.(qb_count) + size) |>) q in
  qb ← q.(q_bandp) !! i;
  if qb.(qb_hiwat) <? qb.(qb_count)
  then if negb qb.(qb_full)
       then Some (set_band i (fun qb => qb <| qb_full := true |>) q
                    <| q_blocked := u8 (q.(q_blocked) + 1) |>)
       else Some q
  else Some q.
Definition add_msg (q : queue) : queue := q <| q_msgs := s64 (q.(q_msgs) + 1) |>.
Definition on_qu (f : queue → queue) (s : sq) : sq := s <| qu := f s.(qu) |>.
Definition is_first (mp : Z) (q : queue) : bool := bool_decide (q.(q_first) = Some mp).
(** [if (qb->qb_last == l || qb->qb_last == NULL) qb->qb_last = mp;
    if (qb->qb_first == f || qb->qb_first == NULL) qb->qb_first = mp;] *)
Definition mark_band (i : nat) (mp : Z) (l f : option Z) : queue → queue :=
  set_band i (fun qb =>
    let qb := if bool_decide (qb.(qb_last) = l) || bool_decide (qb.(qb_last) = None)
              then qb <| qb_last := Some mp |> else qb in
    if bool_decide (qb.(qb_first) = f) || bool_decide (qb.(qb_first) = None)
    then qb <| qb_first := Some mp |> else qb).

(** ** Putting messages *)

Definition __putbq_pri (s : sq) (mp : Z) : option (Z * sq) :=
  s ← upd mp (fun m => m <| b_band := 0 |>) s;
  let first := s.(qu).(q_first) in
  s ← set_next mp first s;
  s ← opt_prev first (Some mp) s;
  s ← set_prev mp None s;
  let s := s <| qu; q_first := Some mp |> in
  let s := if bool_decide (s.(qu).(q_last) = None) then s <| qu; q_last := Some mp |> else s in
  let s := on_qu add_msg s in
  m ← s.(heap) !! mp;
  Some (1 + 1, on_qu (add_count (msgsize m)) s).
(** The end of [__putq_band] and [__putbq_band], from the band to the links. *)
Definition put_band (s : sq) (mp : Z) (p n : option Z) (size : Z) (idx : nat) : option sq :=
  let s := on_qu (mark_band idx mp p n) s in
  q ← add_band idx size s.(qu);
  let s := s <| qu := add_msg (mark_ends mp p n q) |> in
  link_in mp p n s.
Definition __putbq_band (s : sq) (mp : Z) : option (Z * sq) :=
  m ← s.(heap) !! mp;
  '(p, n) ← skip hipri s None s.(qu).(q_first);
  '(p, n) ← skip (fun c => m.(b_band) <? c.(b_band)) s p n;
  let '(qb, q, kmem) := __get_qband s.(qu) s.(kmem) m.(b_band) in
  let s := (s <| qu := q |>) <| StrQueue.kmem := kmem |> in
  match qb with
  | None => Some (0, s)
  | Some idx =>
      s ← put_band s mp p n (msgsize m) idx;
      let q := s.(qu) in
      Some (1 + Z.b2z (is_first mp q && negb q.(q_noenb) && q.(q_wantr)), s)
  end.
Definition __putbq_norm (s : sq) (mp : Z) : option (Z * sq) :=
  m ← s.(heap) !! mp;
  if m.(b_band) =? 0
  then
    '(p, n) ← skip hipri s None s.(qu).(q_first);
    '(p, n) ← skip (fun c => 0 <? c.(b_band)) s p n;
    s ← link_in mp p n s;
    let s := on_qu (mark_ends mp p n) s in
    let s := on_qu add_msg s in
    let s := on_qu (add_count (msgsize m)) s in
    let q := s.(qu) in
    Some (1 + Z.b2z (is_first mp q && negb q.(q_noenb) && q.(q_wantr)), s)
  else __putbq_band s mp.
Definition __putbq (s : sq) (mp : Z) : option (Z * sq) :=
  m ← s.(heap) !! mp;
  if m.(b_datap).(db_type) <? QPCTL then __putbq_norm s mp else __putbq_pri s mp.
(** The callers of [__putbq], [__putq] and [__insq]: the queue is enabled when
    the result is 2. *)
Definition put_result (r : Z) (s : sq) : Z * sq :=
  if r <? 2 then (r, s) else (1, on_qu qenable s).
Definition putbq (s : sq) (mp : Z) : option (Z * sq) :=
  '(r, s) ← __putbq s mp; Some (put_result r s).

Definition __putq_pri (s : sq) (mp : Z) (insq : bool) : option (Z * sq) :=
  '(p, n) ← skip hipri s None s.(qu).(q_first);
  s ← upd mp (fun m => m <| b_band := 0 |>) s;
  m ← s.(heap) !! mp;
  let s := on_qu (add_count (msgsize m)) s in
  let s := on_qu (mark_ends mp p n) s in
  let s := on_qu add_msg s in
  s ← link_in mp p n s;
  Some (1 + Z.b2z (negb insq || negb s.(qu).(q_noenb)), s).
Definition __putq_band (s : sq) (mp : Z) : option (Z * sq) :=
  m ← s.(heap) !! mp;
  '(p, n) ← skip hipri s None s.(qu).(q_first);
  let '(qb, q, kmem) := __get_qband s.(qu) s.(kmem) m.(b_band) in
  let s := (s <| qu := q |>) <| StrQueue.kmem := kmem |> in
  match qb with
  | None => Some (0, s)
  | Some idx =>
      '(p, n) ← skip (fun c => m.(b_band) <=? c.(b_band)) s p n;
      s ← put_band s mp p n (msgsize m) idx;
      let q := s.(qu) in
      Some (1 + Z.b2z (is_first mp q && negb q.(q_noenb)), s)
  end.
Definition __putq_norm (s : sq) (mp : Z) : option (Z * sq) :=
  m ← s.(heap) !! mp;
  if m.(b_band) =? 0
  then
    let last := s.(qu).(q_last) in
    s ← set_next mp None s;
    s ← set_prev mp last s;
    s ← opt_next last (Some mp) s;
    let s := s <| qu; q_last := Some mp |> in
    let s := if bool_decide (s.(qu).(q_first) = None)
             then s <| qu; q_first := Some mp |> else s in
    let s := on_qu add_msg s in
    let s := on_qu (add_count (msgsize m)) s in
    let q := s.(qu) in
    Some (1 + Z.b2z (is_first mp q && negb q.(q_noenb) && q.(q_wantr)), s)
  else __putq_band s mp.
Definition put_class (insq : bool) (s : sq) (mp : Z) : option (Z * sq) :=
  m ← s.(heap) !! mp;
  if m.(b_datap).(db_type) <? QPCTL then __putq_norm s mp else __putq_pri s mp insq.
Definition __putq : sq → Z → option (Z * sq) := put_class false.
Definition __putq_insq : sq → Z → option (Z * sq) := put_class true.
Definition putq (s : sq) (mp : Z) : option (Z * sq) :=
  '(r, s) ← __putq s mp; Some (put_result r s).

(** The tests of [__insq_middle] on the class and band of [nmp]; [true] is
    [out_of_order]. *)
Definition insq_order (s : sq) (e n : msgb) : option bool :=
  prev ← match e.(b_prev) with
         | Some b => p ← s.(heap) !! b; Some (Some p)
         | None => Some None
         end;
  Some
    (if hipri n
     then match prev with Some p => negb (hipri p) | None => false end
     else (hipri e || (e.(b_band) <? n.(b_band)))
          || match prev with
             | Some p => negb (hipri p) && (n.(b_band) <? p.(b_band))
             | None => false
             end).
Definition __insq_middle (s : sq) (emp nmp : Z) : option (Z * sq) :=
  e ← s.(heap) !! emp;
  n ← s.(heap) !! nmp;
  misordered ← insq_order s e n;
  if misordered : bool then Some (0, s)
  else
    '(qb, s) ←
      (if hipri n then s ← upd nmp (fun m => m <| b_band := 0 |>) s; Some (Some None, s)
       else if n.(b_band) =? 0 then Some (Some None, s)
       else
         let '(qb, q, kmem) := __get_qband s.(qu) s.(kmem) n.(b_band) in
         let s := (s <| qu := q |>) <| StrQueue.kmem := kmem |> in
         match qb with
         | None => Some (None, s)
         | Some idx => Some (Some (Some idx), on_qu (mark_band idx nmp (Some emp) e.(b_next)) s)
         end);
    match qb with
    | None => Some (0, s)
    | Some qb =>
        let s := if bool_decide (s.(qu).(q_first) = Some emp)
                 then s <| qu; q_first := Some nmp |> else s in
        s ← set_prev nmp e.(b_prev) s;
        s ← opt_next e.(b_prev) (Some nmp) s;
        s ← set_next nmp (Some emp) s;
        s ← set_prev emp (Some nmp) s;
        let s := on_qu add_msg s in
        q ← match qb with
            | None => Some (add_count (msgsize n) s.(qu))
            | Some idx => add_band idx (msgsize n) s.(qu)
            end;
        let s := s <| qu := q |> in
        Some (1 + Z.b2z (is_first nmp q && negb q.(q_noenb) && q.(q_wantr)), s)
    end.
Definition __insq (s : sq) (emp : option Z) (nmp : Z) : option (Z * sq) :=
  match emp with None => __putq_insq s nmp | Some emp => __insq_middle s emp nmp end.
Definition insq (s : sq) (emp : option Z) (nmp : Z) : option (Z * sq) :=
  '(r, s) ← __insq s emp nmp; Some (put_result r s).
Definition appq (s : sq) (emp : option Z) (nmp : Z) : option (Z * sq) :=
  emp ← match emp with
        | None => Some None
        | Some b => m ← s.(heap) !! b; Some m.(b_next)
        end;
  '(r, s) ← __insq s emp nmp; Some (put_result r s).

(** ** Removing messages *)

(** [if (count == 0 || count < lowat) if (test_and_clear_bit(QFULL_BIT))
    if (test_and_clear_bit(QWANTW_BIT)) return (true);] *)
Definition drain (q : queue) : bool * queue :=
  if (q.(q_count) =? 0) || (q.(q_count) <? q.(q_lowat))
  then if q.(q_full)
       then let q := q <| q_full := false |> in
            if q.(q_wantw) then (true, q <| q_wantw := false |>) else (false, q)
       else (false, q)
  else (false, q).
Definition drain_band (i : nat) (q : queue) : option (bool * queue) :=
  qb ← q.(q_bandp) !! i;
  Some
    (if (qb.(qb_count) =? 0) || (qb.(qb_count) <? qb.(qb_lowat))
     then if qb.(qb_full)
          then let q := set_band i (fun qb => qb <| qb_full := false |>) q in
               let q := q <| q_blocked := u8 (q.(q_blocked) - 1) |> in
               if qb.(qb_wantw)
               then (true, set_band i (fun qb => qb <| qb_wantw := false |>) q)
               else (false, q)
          else (false, q)
     else (false, q)).
Definition sub_count (size : Z) (q : queue) : queue :=
  q <| q_count := u64 (q.(q_count) - size) |>.
Definition sub_band (i : nat) (size : Z) : queue → queue :=
  set_band i (fun qb => qb <| qb_msgs := s64 (qb.(qb_msgs) - 1) |>
                           <| qb_count := u64 (qb.(qb_count) - size) |>).
Definition sub_msg (q : queue) : queue := q <| q_msgs := s64 (q.(q_msgs) - 1) |>.

(** The links of the neighbours and of [mp], then the ends of the queue. *)
Definition unlink (s : sq) (mp : Z) (p n : option Z) : option sq :=
  s ← match p with
      | Some b => s ← set_next b n s; set_prev mp None s
      | None => Some s
      end;
  s ← match n with
      | Some b => s ← set_prev b p s; set_next mp None s
      | None => Some s
      end;
  let s := if bool_decide (s.(qu).(q_first) = Some mp) then s <| qu; q_first := n |> else s in
  Some (if bool_decide (s.(qu).(q_last) = Some mp) then s <| qu; q_last := p |> else s).
Definition unmark_band (i : nat) (mp : Z) (p n : option Z) : queue → queue :=
  set_band i (fun qb =>
    if bool_decide (qb.(qb_first) = Some mp) && bool_decide (qb.(qb_last) = Some mp)
    then (qb <| qb_first := None |>) <| qb_last := None |>
    else
      let qb := if bool_decide (qb.(qb_first) = Some mp) then qb <| qb_first := n |> else qb in
      if bool_decide (qb.(qb_last) = Some mp) then qb <| qb_last := p |> else qb).
Definition __rmvq_band (s : sq) (mp : Z) : option (bool * sq) :=
  m ← s.(heap) !! mp;
  s ← unlink s mp m.(b_prev) m.(b_next);
  let s := on_qu sub_msg s in
  i ← __find_qband s.(qu) m.(b_band);
  let s := on_qu (unmark_band i mp m.(b_prev) m.(b_next)) s in
  let s := on_qu (sub_band i (msgsize m)) s in
  '(be, q) ← drain_band i s.(qu);
  Some (be, s <| qu := q |>).
Definition __rmvq_norm (s : sq) (mp : Z) : option (bool * sq) :=
  m ← s.(heap) !! mp;
  s ← unlink s mp m.(b_prev) m.(b_next);
  let s := on_qu sub_msg s in
  let s := on_qu (sub_count (msgsize m)) s in
  let '(be, q) := drain s.(qu) in
  Some (be, s <| qu := q |>).
Definition __rmvq (s : sq) (mp : Z) : option (bool * sq) :=
  m ← s.(heap) !! mp;
  if m.(b_band) =? 0 then __rmvq_norm s mp else __rmvq_band s mp.

(** The result is the message taken and whether to enable the queue behind. *)
Definition __getq (s : sq) : option (option Z * bool * sq) :=
  match s.(qu).(q_first) with
  | None => Some (None, false, s <| qu; q_wantr := true |>)
  | Some mp =>
      m ← s.(heap) !! mp;
      let s := s <| qu; q_first := m.(b_next) |> in
      s ← match m.(b_next) with
          | Some b => s ← set_prev b None s; set_next mp None s
          | None => Some s
          end;
      let s := if bool_decide (s.(qu).(q_last) = Some mp) then s <| qu; q_last := None |> else s in
      let s := on_qu sub_msg s in
      '(be, s) ←
        (if m.(b_band) =? 0
         then
           let s := on_qu (sub_count (msgsize m)) s in
           let '(be, q) := drain s.(qu) in
           Some (be, s <| qu := q |>)
         else
           i ← __find_qband s.(qu) m.(b_band);
           let first := s.(qu).(q_first) in
           let s := on_qu (set_band i (fun qb =>
                      let qb := qb <| qb_first := first |> in
                      if bool_decide (qb.(qb_last) = Some mp) then qb <| qb_last := None |>
                      else qb)) s in
           let s := on_qu (sub_band i (msgsize m)) s in
           '(be, q) ← drain_band i s.(qu);
           Some (be, s <| qu := q |>));
      Some (Some mp, be, s <| qu; q_wantr := false |>)
  end.

(** ** Flushing *)

(** The chain of messages to free: its head and the pointer [mppp] leads to,
    the head itself ([None]) or the [b_next] of a message. *)
Record chain := Chain { c_mp : option Z; c_end : option Z }.
(** [**mppp = v] *)
Definition chain_put (v : option Z) (c : chain) (s : sq) : option (chain * sq) :=
  match c.(c_end) with
  | None => Some (Chain v None, s)
  | Some b => s ← set_next b v s; Some (c, s)
  end.
(** [*mppp = &b->b_next; **mppp = NULL] *)
Definition chain_end (b : option Z) (c : chain) (s : sq) : option (chain * sq) :=
  b ← b; chain_put None (Chain c.(c_mp) (Some b)) s.
(** [if (isdatamsg(b))] the body of the loops over [FLUSHDATA]. *)
Definition flush_data (c : chain) (s : sq) (b : Z) : option (bool * chain * sq) :=
  m ← s.(heap) !! b;
  if isdatamsg m
  then
    '(be, s) ← __rmvq s b;
    '(c, s) ← chain_put (Some b) c s;
    '(c, s) ← chain_end (Some b) c s;
    Some (be, c, s)
  else Some (false, c, s).
Definition set_bit (be : bool) (b : Z) (s : sq) (bands : list Z) : option (list Z) :=
  m ← s.(heap) !! b; Some (if be then m.(b_band) :: bands else bands).
(** [while ((b = b_next)) { b_next = b->b_next; if (isdatamsg(b)) ... }]; [bands]
    is the set of bits of the bands to enable. *)
Fixpoint flush_loop (fuel : nat) (c : chain) (s : sq) (b : option Z) (bands : list Z) :
    option (list Z * chain * sq) :=
  match fuel with
  | O => None
  | S fuel =>
      match b with
      | None => Some (bands, c, s)
      | Some b =>
          m ← s.(heap) !! b;
          '(be, c, s) ← flush_data c s b;
          bands ← set_bit be b s bands;
          flush_loop fuel c s m.(b_next) bands
      end
  end.
Inductive flush_flag := FLUSHDATA | FLUSHALL.

Definition flushall_norm (c : chain) (s : sq) (b : option Z) : option (bool * chain * sq) :=
  '(c, s) ← chain_put b c s;
  match b with
  | None => Some (false, c, s)
  | Some b =>
      m ← s.(heap) !! b;
      s ← opt_next m.(b_prev) None s;
      let s := if bool_decide (s.(qu).(q_first) = Some b) then s <| qu; q_first := None |> else s in
      let s := if bool_decide (s.(qu).(q_last) = Some b)
               then s <| qu; q_last := m.(b_prev) |> else s in
      '(c, s) ← chain_end s.(qu).(q_last) c s;
      s ← set_prev b None s;
      let s := s <| qu; q_count := 0 |> in
      let s := s <| qu; q_msgs := 0 |> in
      let s := s <| qu; q_full := false |> in
      let s := s <| qu; q_wantw := false |> in
      Some (true, c, s)
  end.
Definition flushall_band (c : chain) (s : sq) (i : nat) : option (bool * chain * sq) :=
  qb ← s.(qu).(q_bandp) !! i;
  '(c, s) ← chain_put qb.(qb_first) c s;
  match qb.(qb_first) with
  | None => Some (false, c, s)
  | Some first =>
      f ← s.(heap) !! first;
      last ← qb.(qb_last);
      l ← s.(heap) !! last;
      s ← opt_next f.(b_prev) l.(b_next) s;
      l ← s.(heap) !! last;
      s ← opt_prev l.(b_next) f.(b_prev) s;
      l ← s.(heap) !! last;
      let s := if bool_decide (s.(qu).(q_first) = Some first)
               then s <| qu; q_first := l.(b_next) |> else s in
      f ← s.(heap) !! first;
      let s := if bool_decide (s.(qu).(q_last) = Some last)
               then s <| qu; q_last := f.(b_prev) |> else s in
      '(c, s) ← chain_end (Some last) c s;
      s ← set_prev first None s;
      s ← set_next last None s;
      let s := s <| qu; q_msgs := s64 (s.(qu).(q_msgs) - qb.(qb_msgs)) |> in
      let s := on_qu (set_band i (fun qb => qb <| qb_count := 0 |> <| qb_msgs := 0 |>
                 <| qb_first := None |> <| qb_last := None |>)) s in
      let s := if qb.(qb_full) then s <| qu; q_blocked := u8 (s.(qu).(q_blocked) - 1) |> else s in
      let s := on_qu (set_band i (fun qb => qb <| qb_full := false |> <| qb_wantw := false |>)) s in
      Some (true, c, s)
  end.
Definition __flushband (s : sq) (band : Z) (flag : flush_flag) (c : chain) :
    option (bool * chain * sq) :=
  let fuel := S (size s.(heap)) in
  match flag with
  | FLUSHALL =>
      if band =? 0
      then
        '(p, b) ← skip hipri s None s.(qu).(q_first);
        '(_, b) ← skip (fun m => 0 <? m.(b_band)) s p b;
        flushall_norm c s b
      else
        match __find_qband s.(qu) band with
        | None => Some (false, c, s)
        | Some i => flushall_band c s i
        end
  | FLUSHDATA =>
      if band =? 0
      then
        '(p, b) ← skip hipri s None s.(qu).(q_first);
        '(_, b) ← skip (fun m => 0 <? m.(b_band)) s p b;
        '(bands, c, s) ← flush_loop fuel c s b [];
        Some (negb (bool_decide (bands = [])), c, s)
      else
        match __find_qband s.(qu) band with
        | None => Some (false, c, s)
        | Some i =>
            qb ← s.(qu).(q_bandp) !! i;
            '(bands, c, s) ← flush_loop fuel c s qb.(qb_first) [];
            Some (negb (bool_decide (bands = [])), c, s)
        end
  end.
(** The loop of [__flushq] over the bands, the first of which is band [nb]. *)
Fixpoint clear_bands (l : list qband) (nb : Z) (bands : list Z) : list qband * list Z :=
  match l with
  | [] => ([], bands)
  | qb :: l =>
      let qb := qb <| qb_first := None |> <| qb_last := None |> <| qb_count := 0 |>
                   <| qb_msgs := 0 |> in
      let '(qb, bands) :=
        if qb.(qb_full)
        then let qb := qb <| qb_full := false |> in
             if qb.(qb_wantw) then (qb <| qb_wantw := false |>, nb :: bands) else (qb, bands)
        else (qb, bands) in
      let '(l, bands) := clear_bands l (u8 (nb - 1)) bands in
      (qb :: l, bands)
  end.
(** The ends, counts and flags when all is flushed; [q_blocked] is reset last. *)
Definition clear_queue (q : queue) : list Z * queue :=
  let q := q <| q_first := None |> <| q_last := None |> <| q_count := 0 |> <| q_msgs := 0 |> in
  let '(q, bands) :=
    if q.(q_full)
    then let q := q <| q_full := false |> in
         if q.(q_wantw) then (q <| q_wantw := false |>, [0]) else (q, [])
    else (q, []) in
  let '(l, bands) := clear_bands q.(q_bandp) q.(q_nband) bands in
  (bands, q <| q_bandp := l |> <| q_blocked := 0 |>).
Definition __flushq (s : sq) (flag : flush_flag) (c : chain) : option (list Z * chain * sq) :=
  match s.(qu).(q_first) with
  | None => Some ([], c, s)
  | Some b =>
      match flag with
      | FLUSHALL =>
          '(c, s) ← chain_put (Some b) c s;
          '(c, s) ← chain_end s.(qu).(q_last) c s;
          let '(bands, q) := clear_queue s.(qu) in
          Some (bands, c, s <| qu := q |>)
      | FLUSHDATA => flush_loop (S (size s.(heap))) c s (Some b) []
      end
  end.
(** [freechain] walks the chain and frees each message. *)
Fixpoint freechain (fuel : nat) (b : option Z) (s : sq) : option sq :=
  match fuel with
  | O => None
  | S fuel =>
      match b with
      | None => Some s
      | Some b =>
          m ← s.(heap) !! b;
          freechain fuel m.(b_next) (s <| heap := delete b s.(heap) |>)
      end
  end.

(** ** Characteristics of a queue *)

(** The fields of [strqset]; [QOTHER] stands for any other value. *)
Inductive qfields := QHIWAT | QLOWAT | QMAXPSZ | QMINPSZ | QCOUNT | QFIRST | QLAST | QFLAG | QOTHER.
Definition EPERM : Z := 1.
Definition ENOMEM : Z := 12.
Definition EINVAL : Z := 22.
Definition strqset (q : queue) (kmem : list bool) (what : qfields) (band val : Z) :
    option (Z * queue * list bool) :=
  '(qb, q, kmem) ←
    (if band =? 0 then Some (Some None, q, kmem)
     else let '(qb, q, kmem) := __get_qband q kmem band in
          Some (match qb with None => None | Some i => Some (Some i) end, q, kmem));
  match qb with
  | None => Some (ENOMEM, q, kmem)
  | Some qb =>
      Some
        (match what with
         | QMAXPSZ => (0, q <| q_maxpsz := val |>, kmem)
         | QMINPSZ => (0, q <| q_minpsz := val |>, kmem)
         | QHIWAT =>
             (0, match qb with
                 | None => q <| q_hiwat := u64 val |>
                 | Some i => set_band i (fun qb => qb <| qb_hiwat := u64 val |>) q
                 end, kmem)
         | QLOWAT =>
             (0, match qb with
                 | None => q <| q_lowat := u64 val |>
                 | Some i => set_band i (fun qb => qb <| qb_lowat := u64 val |>) q
                 end, kmem)
         | QCOUNT | QFIRST | QLAST | QFLAG => (EPERM, q, kmem)
         | QOTHER => (EINVAL, q, kmem)
         end)
  end.

(** ** Between queues

    A queue [front] and the queue behind it that has a service procedure: [q_nfsrv]
    of [back] is [front] and [q_nbsrv] of [front] is [back].  [bkmem] is the outcome
    of the allocations of bands of [back]. *)
Record pair := Pair { front : sq; back : queue; bkmem : list bool }.
#[export] Instance eta_pair : Eta pair := fun r => Pair r.(front) r.(back) r.(bkmem).
#[export] Instance set_front : Setter front := ltac:(mk_setter).
#[export] Instance set_back : Setter back := ltac:(mk_setter).
#[export] Instance set_bkmem : Setter bkmem := ltac:(mk_setter).

(** [QB_BACK] of the bands from [bnum] to 1 whose bit is set. *)
Fixpoint back_bands (n : nat) (q : queue) (kmem : list bool) (bands : list Z) : queue * list bool :=
  match n with
  | O => (q, kmem)
  | S k =>
      let '(q, kmem) :=
        if bool_decide (Z.of_nat n ∈ bands)
        then
          let '(qb, q, kmem) := __get_qband q kmem (Z.of_nat n) in
          (match qb with
           | Some i => set_band i (fun qb => qb <| qb_back := true |>) q
           | None => q
           end, kmem)
        else (q, kmem) in
      back_bands k q kmem bands
  end.
Definition __qbackenable_bands (q : queue) (kmem : list bool) (band : Z) (bands : list Z) :
    queue * list bool :=
  let q := if bool_decide (0 ∈ bands) then q <| q_back := true |> else q in
  back_bands (Z.to_nat band) q kmem bands.
(** [bands] is [None] for a single band. *)
Definition qbackenable (p : pair) (band : Z) (bands : option (list Z)) : pair :=
  if p.(front).(qu).(q_procs) then p
  else if p.(back).(q_procs) then p
  else if p.(back).(q_srvp)
  then
    let '(q, kmem) :=
      match bands with
      | None =>
          if band =? 0 then (p.(back) <| q_back := true |>, p.(bkmem))
          else
            let '(qb, q, kmem) := __get_qband p.(back) p.(bkmem) band in
            (match qb with
             | Some i => set_band i (fun qb => qb <| qb_back := true |>) q
             | None => q
             end, kmem)
      | Some bands => __qbackenable_bands p.(back) p.(bkmem) band bands
      end in
    Pair p.(front) (qenable q) kmem
  else p.
Definition __bcanputnext (p : pair) (band : Z) : option (bool * pair) :=
  if p.(front).(qu).(q_procs) then Some (false, p)
  else '(r, q) ← __bcanput p.(front).(qu) band; Some (r, p <| front; qu := q |>).
Definition bcanputnext (p : pair) (band : Z) : option (bool * pair) :=
  if p.(back).(q_procs) then Some (false, p) else __bcanputnext p band.
(** [bcanput] of the queue [front] itself, which has a service procedure or ends
    the stream. *)
Definition bcanput (p : pair) (band : Z) : option (bool * pair) := __bcanputnext p band.
Definition getq (p : pair) : option (option Z * pair) :=
  '(mp, be, s) ← __getq p.(front);
  let p := p <| front := s |> in
  if be : bool
  then b ← mp; m ← s.(heap) !! b; Some (mp, qbackenable p m.(b_band) None)
  else Some (mp, p).
Definition rmvq (p : pair) (mp : Z) : option pair :=
  '(be, s) ← __rmvq p.(front) mp;
  let p := p <| front := s |> in
  if be : bool then m ← s.(heap) !! mp; Some (qbackenable p m.(b_band) None) else Some p.
Definition free_flushed (c : chain) (p : pair) : option pair :=
  match c.(c_mp) with
  | None => Some p
  | Some mp => s ← freechain (S (size p.(front).(heap))) (Some mp) p.(front);
               Some (p <| front := s |>)
  end.
Definition flushq (p : pair) (flag : flush_flag) : option pair :=
  let q_nband := p.(front).(qu).(q_nband) in
  '(bands, c, s) ← __flushq p.(front) flag (Chain None None);
  let p := p <| front := s |> in
  free_flushed c (if bool_decide (bands = []) then p else qbackenable p q_nband (Some bands)).
Definition flushband (p : pair) (band : Z) (flag : flush_flag) : option pair :=
  '(be, c, s) ← __flushband p.(front) (u8 band) flag (Chain None None);
  let p := p <| front := s |> in
  free_flushed c (if be : bool then qbackenable p (u8 band) None else p).
