(* ===== verification/StrSpec.v ===== *)
(** * STREAMS message queues: what they promise

    The abstract queue: its messages in the order they will be read, the flow
    control of the queue and of its bands, and the messages its user holds.  The
    operations are functions on lists; [None] is a use the contract excludes, a
    message that is not the caller's to put or not on the queue to remove. *)
From S2P Require Import Prelude StrQueue.
From stdpp Require Import gmap sorting.
#[local] Open Scope Z_scope.
#[local] Open Scope os7_scope.
#[local] Set Warnings "-clear-no-such-hyp".

(** ** Data *)

Record smsg := Smsg { s_id : Z; s_band : Z; s_datap : blk; s_cont : list blk }.
Definition s_hi (m : smsg) : bool := QPCTL <=? m.(s_datap).(db_type).
Definition s_data (m : smsg) : bool := datamsg m.(s_datap).(db_type).
Definition s_size (m : smsg) : Z := blks_size m.(s_datap) m.(s_cont).
(** High priority messages come first, then the bands in decreasing order. *)
Definition key (m : smsg) : Z := if s_hi m then 256 else m.(s_band).
(** A high priority message is in no band. *)
Definition prio (m : smsg) : smsg :=
  if s_hi m then Smsg m.(s_id) 0 m.(s_datap) m.(s_cont) else m.

Record flow := Flow { f_hiwat : Z; f_lowat : Z; f_full : bool; f_wantw : bool }.
(** [a_q] is the flow control of the queue, for ordinary and high priority
    messages; [a_bands] that of its bands, the highest first; [a_held] are the
    messages off the queue. *)
Record aq := Aq {
  a_list : list smsg; a_held : list smsg; a_q : flow; a_bands : list flow;
  a_wantr : bool; a_noenb : bool; a_srvp : bool; a_enab : bool; a_kmem : list bool }.
#[export] Instance eta_aq : Eta aq := fun r =>
  Aq r.(a_list) r.(a_held) r.(a_q) r.(a_bands) r.(a_wantr) r.(a_noenb) r.(a_srvp) r.(a_enab)
    r.(a_kmem).
#[export] Instance set_a_list : Setter a_list := ltac:(mk_setter).
#[export] Instance set_a_held : Setter a_held := ltac:(mk_setter).
#[export] Instance set_a_q : Setter a_q := ltac:(mk_setter).
#[export] Instance set_a_bands : Setter a_bands := ltac:(mk_setter).
#[export] Instance set_a_wantr : Setter a_wantr := ltac:(mk_setter).
#[export] Instance set_a_noenb : Setter a_noenb := ltac:(mk_setter).
#[export] Instance set_a_srvp : Setter a_srvp := ltac:(mk_setter).
#[export] Instance set_a_enab : Setter a_enab := ltac:(mk_setter).
#[export] Instance set_a_kmem : Setter a_kmem := ltac:(mk_setter).

Definition in_band (b : Z) (l : list smsg) : list smsg := filter (fun m => m.(s_band) = b) l.
Definition sum_size (l : list smsg) : Z := foldr (fun m n => s_size m + n) 0 l.
(** The count of band [b] is that of its messages, a [size_t]. *)
Definition count (b : Z) (l : list smsg) : Z := u64 (sum_size (in_band b l)).
Definition nband (a : aq) : Z := Z.of_nat (length a.(a_bands)).
Definition idx (a : aq) (b : Z) : nat := Z.to_nat (nband a - b).

(** ** Flow control *)

Definition raise (c : Z) (f : flow) : flow :=
  if f.(f_hiwat) <? c then Flow f.(f_hiwat) f.(f_lowat) true f.(f_wantw) else f.
Definition drains (c : Z) (f : flow) : bool := ((c =? 0) || (c <? f.(f_lowat))) && f.(f_full).
Definition lower (c : Z) (f : flow) : flow :=
  if drains c f then Flow f.(f_hiwat) f.(f_lowat) false false else f.
(** Whether a writer waits that [lower] lets go on. *)
Definition wakes (c : Z) (f : flow) : bool := drains c f && f.(f_wantw).
Definition want (f : flow) : flow := Flow f.(f_hiwat) f.(f_lowat) f.(f_full) true.

Definition flow_at (b : Z) (a : aq) : option flow :=
  if b =? 0 then Some a.(a_q) else if b <=? nband a then a.(a_bands) !! idx a b else None.
Definition on_flow (b : Z) (g : flow → flow) (a : aq) : aq :=
  if b =? 0 then a <| a_q := g a.(a_q) |> else a <| a_bands := alter g (idx a b) a.(a_bands) |>.
Definition enable (c : bool) (a : aq) : aq :=
  if c && a.(a_srvp) then a <| a_enab := true |> else a.

(** Up to [n] allocations, until one fails. *)
Fixpoint grant (n : nat) (kmem : list bool) : nat * list bool :=
  match n with
  | O => (O, kmem)
  | S n => let '(ok, kmem) := kmem_cache_alloc kmem in
           if ok then let '(c, kmem) := grant n kmem in (S c, kmem) else (O, kmem)
  end.
Definition new_flow (f : flow) : flow := Flow f.(f_hiwat) f.(f_lowat) false false.
Definition grow (b : Z) (a : aq) : bool * aq :=
  let n := Z.to_nat (b - nband a) in
  let '(c, kmem) := grant n a.(a_kmem) in
  ((c =? n)%nat, (a <| a_bands := replicate c (new_flow a.(a_q)) ++ a.(a_bands) |>)
                   <| a_kmem := kmem |>).

(** ** Operations *)

Fixpoint span {A} (t : A → bool) (l : list A) : list A * list A :=
  match l with
  | [] => ([], [])
  | x :: k => if t x then let '(l1, l2) := span t k in (x :: l1, l2) else ([], l)
  end.
(** Behind the messages of its class and the higher ones; before its class. *)
Definition behind (m : smsg) (l : list smsg) : list smsg * list smsg :=
  span (fun x => key m <=? key x) l.
Definition before (m : smsg) (l : list smsg) : list smsg * list smsg :=
  span (fun x => key m <? key x) l.
(** The first message with the identity [i], and the others. *)
Fixpoint pick (i : Z) (l : list smsg) : option (smsg * list smsg) :=
  match l with
  | [] => None
  | m :: l => if m.(s_id) =? i then Some (m, l)
              else '(x, k) ← pick i l; Some (x, m :: k)
  end.

Definition put_at (m : smsg) (l : list smsg * list smsg) (a : aq) : aq :=
  let a := a <| a_list := l.1 ++ m :: l.2 |> in
  on_flow m.(s_band) (raise (count m.(s_band) a.(a_list))) a.
Definition put_with (place : smsg → list smsg → list smsg * list smsg)
    (enables : smsg → bool → aq → bool) (i : Z) (a : aq) : option (Z * aq) :=
  '(m, held) ← pick i a.(a_held);
  let m := prio m in
  let '(ok, a) := grow m.(s_band) a in
  if negb ok then Some (0, a)
  else
    let l := place m a.(a_list) in
    let a := put_at m l (a <| a_held := held |>) in
    Some (1, enable (enables m (bool_decide (l.1 = [])) a) a).
Definition a_putq : Z → aq → option (Z * aq) :=
  put_with behind (fun m first a =>
    s_hi m || (first && negb a.(a_noenb) && (negb (m.(s_band) =? 0) || a.(a_wantr)))).
Definition a_putbq : Z → aq → option (Z * aq) :=
  put_with before (fun m first a => s_hi m || (first && negb a.(a_noenb) && a.(a_wantr))).

Definition unqueue (m : smsg) (l : list smsg) (a : aq) : bool * aq :=
  let c := count m.(s_band) l in
  let be := match flow_at m.(s_band) a with Some f => wakes c f | None => false end in
  (be, on_flow m.(s_band) (lower c) ((a <| a_list := l |>) <| a_held := m :: a.(a_held) |>)).
Definition a_getq (a : aq) : option smsg * bool * aq :=
  match a.(a_list) with
  | [] => (None, false, a <| a_wantr := true |>)
  | m :: l => let '(be, a) := unqueue m l a in (Some m, be, a <| a_wantr := false |>)
  end.
Definition a_rmvq (i : Z) (a : aq) : option (bool * aq) :=
  '(m, l) ← pick i a.(a_list); Some (unqueue m l a).
Definition a_bcanput (b : Z) (a : aq) : bool * aq :=
  match flow_at b a with
  | Some f => if f.(f_full) then (false, on_flow b want a) else (true, a)
  | None => (true, a)
  end.

(** [FLUSHALL] empties the queue; [FLUSHDATA] removes the data messages one
    after the other.  The messages flushed are freed.  The first result is the
    bands to enable. *)
Fixpoint lower_bands (l : list flow) (nb : Z) (bands : list Z) : list flow * list Z :=
  match l with
  | [] => ([], bands)
  | f :: l => let '(l, bands) := lower_bands l (nb - 1) (if wakes 0 f then nb :: bands else bands)
              in (lower 0 f :: l, bands)
  end.
Definition a_flushall (a : aq) : list Z * aq :=
  if bool_decide (a.(a_list) = []) then ([], a)
  else
    let '(l, bands) := lower_bands a.(a_bands) (nband a) (if wakes 0 a.(a_q) then [0] else []) in
    (bands, ((a <| a_list := [] |>) <| a_q := lower 0 a.(a_q) |>) <| a_bands := l |>).
(** [done] is the part of the queue the loop has passed. *)
Fixpoint flush_datas (done rest : list smsg) (a : aq) (bands : list Z) : list Z * aq :=
  match rest with
  | [] => (bands, a)
  | m :: rest =>
      if s_data m
      then let held := a.(a_held) in
           let '(be, a) := unqueue m (done ++ rest) a in
           flush_datas done rest (a <| a_held := held |>)
             (if be then m.(s_band) :: bands else bands)
      else flush_datas (done ++ [m]) rest a bands
  end.
Definition a_flushdata (a : aq) : list Z * aq := flush_datas [] a.(a_list) a [].
Definition a_flushq (f : flush_flag) : aq → list Z * aq :=
  match f with FLUSHALL => a_flushall | FLUSHDATA => a_flushdata end.

(** ** The order of messages *)

Definition desc : list smsg → Prop := StronglySorted (fun x y => key y ≤ key x).
Definition ids (l : list smsg) : list Z := s_id <$> l.
Definition valid (m : smsg) : Prop := 0 ≤ m.(s_band) < 256.
(** A message as it stands on a queue with [n] bands. *)
Definition on_queue (n : Z) (m : smsg) : Prop :=
  m.(s_band) ≤ n ∧ (s_hi m → m.(s_band) = 0).
Record aok (a : aq) : Prop := {
  ok_ids : NoDup (ids (a.(a_list) ++ a.(a_held)));
  ok_desc : desc a.(a_list);
  ok_valid : Forall valid (a.(a_list) ++ a.(a_held));
  ok_queue : Forall (on_queue (nband a)) a.(a_list);
  ok_nband : nband a < 256 }.

Lemma desc_app l k : desc (l ++ k) ↔ desc l ∧ desc k ∧ ∀ x y, x ∈ l → y ∈ k → key y ≤ key x.
Proof. unfold desc. rewrite StronglySorted_app. naive_solver. Qed.
Lemma desc_cons x l : desc (x :: l) ↔ (∀ y, y ∈ l → key y ≤ key x) ∧ desc l.
Proof. unfold desc. by rewrite StronglySorted_cons, list.Forall_forall. Qed.
Lemma span_app {A} (t : A → bool) l : (span t l).1 ++ (span t l).2 = l.
Proof. induction l as [|x l IH]; [done|]. cbn. destruct (t x), (span t l); cbn in *; congruence. Qed.
Lemma span_fst {A} (t : A → bool) l x : x ∈ (span t l).1 → t x.
Proof.
  induction l as [|y l IH]; cbn; [intros H; inversion H|]. destruct (t y) eqn:E, (span t l); cbn.
  - intros [->|H]%elem_of_cons; [by rewrite E|auto].
  - intros H; inversion H.
Qed.
(** A test that fails on the smaller messages fails on all after the first. *)
Lemma span_snd (t : smsg → bool) l x :
  desc l → (∀ x y, key y ≤ key x → t y → t x) → x ∈ (span t l).2 → t x = false.
Proof.
  intros Hd Ht. induction l as [|y l IH]; cbn; [intros H; inversion H|].
  apply desc_cons in Hd as [Hy Hd]. destruct (t y) eqn:E.
  - destruct (span t l) eqn:El; cbn in *. auto.
  - cbn. intros [->|H]%elem_of_cons; [done|]. destruct (t x) eqn:Ex; [|done].
    exfalso. specialize (Ht y x). rewrite E, Ex in Ht. by apply Ht; [apply Hy|].
Qed.
Lemma behind_spec m l :
  desc l → ∃ l1 l2, behind m l = (l1, l2) ∧ l = l1 ++ l2 ∧
    (∀ x, x ∈ l1 → key m ≤ key x) ∧ (∀ x, x ∈ l2 → key x < key m).
Proof.
  intros Hd. set (t x := key m <=? key x). exists (span t l).1, (span t l).2.
  split; [unfold behind; by destruct (span _ _)|]. split; [by rewrite span_app|].
  split; intros x Hx.
  - apply span_fst in Hx. subst t. cbn in Hx. apply Is_true_true in Hx. lia.
  - apply span_snd in Hx; [subst t; cbn in Hx; lia|done|].
    intros u v. subst t; cbn. intros ? H%Is_true_true. apply Is_true_true. lia.
Qed.
Lemma before_spec m l :
  desc l → ∃ l1 l2, before m l = (l1, l2) ∧ l = l1 ++ l2 ∧
    (∀ x, x ∈ l1 → key m < key x) ∧ (∀ x, x ∈ l2 → key x ≤ key m).
Proof.
  intros Hd. set (t x := key m <? key x). exists (span t l).1, (span t l).2.
  split; [unfold before; by destruct (span _ _)|]. split; [by rewrite span_app|].
  split; intros x Hx.
  - apply span_fst in Hx. subst t. cbn in Hx. apply Is_true_true in Hx. lia.
  - apply span_snd in Hx; [subst t; cbn in Hx; lia|done|].
    intros u v. subst t; cbn. intros ? H%Is_true_true. apply Is_true_true. lia.
Qed.
Lemma desc_insert l1 m l2 :
  desc (l1 ++ l2) → (∀ x, x ∈ l1 → key m ≤ key x) → (∀ x, x ∈ l2 → key x ≤ key m) →
  desc (l1 ++ m :: l2).
Proof.
  intros (H1 & H2 & H12)%desc_app Hl Hr. apply desc_app. split; [done|].
  split; [by apply desc_cons|]. intros x y Hx [->|Hy]%elem_of_cons; auto.
Qed.
Lemma pick_Some i l m k :
  pick i l = Some (m, k) → ∃ l1 l2, l = l1 ++ m :: l2 ∧ k = l1 ++ l2 ∧ m.(s_id) = i.
Proof.
  revert m k; induction l as [|x l IH]; intros m k; cbn; [done|].
  destruct (Z.eqb_spec (s_id x) i).
  - intros [= -> ->]. by exists [], k.
  - destruct (pick i l) as [[y k']|]; [|done]. intros [= -> <-].
    destruct (IH m k' eq_refl) as (l1 & l2 & -> & -> & ?). by exists (x :: l1), l2.
Qed.
Lemma pick_perm i l m k : pick i l = Some (m, k) → l ≡ₚ m :: k.
Proof. intros (l1 & l2 & -> & -> & _)%pick_Some. by rewrite Permutation_middle. Qed.
Lemma pick_in i l : i ∈ ids l → ∃ m k, pick i l = Some (m, k).
Proof.
  induction l as [|x l IH]; [intros H; inversion H|]. cbn. intros [->|H]%elem_of_cons.
  - rewrite Z.eqb_refl. eauto.
  - destruct (s_id x =? i); [eauto|]. destruct (IH H) as (m & k & ->). cbn. eauto.
Qed.

Lemma prio_id m : (prio m).(s_id) = m.(s_id).
Proof. unfold prio. by destruct (s_hi m). Qed.
Lemma prio_hi m : s_hi (prio m) = s_hi m.
Proof. unfold prio. by destruct (s_hi m) eqn:E. Qed.
Lemma prio_size m : s_size (prio m) = s_size m.
Proof. unfold prio. by destruct (s_hi m). Qed.
Lemma prio_band m : s_hi m → (prio m).(s_band) = 0.
Proof. unfold prio. by destruct (s_hi m). Qed.
Lemma prio_valid m : valid m → valid (prio m).
Proof. unfold prio, valid. destruct (s_hi m); cbn; lia. Qed.

(** ** Frames *)

Create Rewrite HintDb aq.
Create HintDb aqok discriminated.
Lemma on_flow_list b g a : a_list (on_flow b g a) = a_list a.
Proof. unfold on_flow. by destruct (b =? 0). Qed.
Lemma on_flow_held b g a : a_held (on_flow b g a) = a_held a.
Proof. unfold on_flow. by destruct (b =? 0). Qed.
Lemma on_flow_nband b g a : nband (on_flow b g a) = nband a.
Proof. unfold on_flow, nband. destruct (b =? 0); [done|]. upd. by rewrite length_alter. Qed.
Lemma on_flow_noenb b g a : a_noenb (on_flow b g a) = a_noenb a.
Proof. unfold on_flow. by destruct (b =? 0). Qed.
Lemma on_flow_wantr b g a : a_wantr (on_flow b g a) = a_wantr a.
Proof. unfold on_flow. by destruct (b =? 0). Qed.
Lemma on_flow_srvp b g a : a_srvp (on_flow b g a) = a_srvp a.
Proof. unfold on_flow. by destruct (b =? 0). Qed.
Lemma on_flow_enab b g a : a_enab (on_flow b g a) = a_enab a.
Proof. unfold on_flow. by destruct (b =? 0). Qed.
Lemma on_flow_kmem b g a : a_kmem (on_flow b g a) = a_kmem a.
Proof. unfold on_flow. by destruct (b =? 0). Qed.
Lemma enable_list c a : a_list (enable c a) = a_list a.
Proof. unfold enable. by destruct (_ && _). Qed.
Lemma enable_held c a : a_held (enable c a) = a_held a.
Proof. unfold enable. by destruct (_ && _). Qed.
Lemma enable_bands c a : a_bands (enable c a) = a_bands a.
Proof. unfold enable. by destruct (_ && _). Qed.
Lemma enable_q c a : a_q (enable c a) = a_q a.
Proof. unfold enable. by destruct (_ && _). Qed.
Lemma enable_nband c a : nband (enable c a) = nband a.
Proof. unfold nband. by rewrite enable_bands. Qed.
#[export] Hint Rewrite on_flow_list on_flow_held on_flow_nband on_flow_noenb on_flow_wantr
  on_flow_srvp on_flow_enab on_flow_kmem enable_list enable_held enable_bands enable_q
  enable_nband : aq.

Lemma grant_le n k : ((grant n k).1 ≤ n)%nat.
Proof.
  revert k; induction n as [|n IH]; intros k; cbn; [lia|].
  destruct (kmem_cache_alloc k) as [[] k']; [|cbn; lia].
  specialize (IH k'). destruct (grant n k'); cbn in *; lia.
Qed.
(** What a successful or failed growth leaves: more bands, the old ones as they
    were. *)
Lemma grow_spec b a ok a' :
  grow b a = (ok, a') →
  ∃ c kmem, a' = (a <| a_bands := replicate c (new_flow a.(a_q)) ++ a.(a_bands) |>)
                   <| a_kmem := kmem |> ∧
    (Z.of_nat c ≤ b - nband a ∨ c = 0%nat) ∧ (ok → b ≤ nband a + Z.of_nat c).
Proof.
  unfold grow. pose proof (grant_le (Z.to_nat (b - nband a)) (a_kmem a)) as Hle.
  destruct (grant _ _) as [c kmem]. cbn in Hle. intros [= <- <-]. exists c, kmem.
  split; [done|]. split; [lia|]. intros H%Is_true_true. apply Nat.eqb_eq in H. lia.
Qed.
Lemma grow_nband c x kmem a :
  nband ((a <| a_bands := replicate c x ++ a.(a_bands) |>) <| a_kmem := kmem |>)
  = nband a + Z.of_nat c.
Proof. unfold nband. upd. rewrite length_app, length_replicate. lia. Qed.

Lemma on_queue_mono n n' m : on_queue n m → n ≤ n' → on_queue n' m.
Proof. unfold on_queue. naive_solver lia. Qed.
Lemma aok_grow b a ok a' : aok a → b < 256 → grow b a = (ok, a') → aok a'.
Proof.
  intros [] Hb (c & kmem & -> & Hc & _)%grow_spec. split; rewrite ?grow_nband; upd; try done.
  - eapply Forall_impl; [done|]. intros m Hm. eapply on_queue_mono; [done|lia].
  - lia.
Qed.
Lemma aok_fields a a' :
  aok a → a_list a' = a_list a → a_held a' = a_held a → nband a' = nband a → aok a'.
Proof. intros [] H1 H2 H3. by split; rewrite ?H1, ?H2, ?H3. Qed.
Lemma aok_on_flow b g a : aok a → aok (on_flow b g a).
Proof. intros H. by apply (aok_fields a); autorewrite with aq. Qed.
Lemma aok_enable c a : aok a → aok (enable c a).
Proof. intros H. by apply (aok_fields a); autorewrite with aq. Qed.
#[export] Hint Resolve aok_on_flow aok_enable : aqok.

Lemma ids_perm l k : l ≡ₚ k → NoDup (ids l) → NoDup (ids k).
Proof. intros H. unfold ids. by rewrite H. Qed.
(** The messages on the queue and off it after a message has been put. *)
Lemma insert_perm (m : smsg) l1 l2 held k :
  held ≡ₚ m :: k → (l1 ++ l2) ++ held ≡ₚ (l1 ++ m :: l2) ++ k.
Proof. intros ->. solve_Permutation. Qed.

Definition places (place : smsg → list smsg → list smsg * list smsg) : Prop :=
  ∀ m l, desc l → ∃ l1 l2, place m l = (l1, l2) ∧ l = l1 ++ l2 ∧
    (∀ x, x ∈ l1 → key m ≤ key x) ∧ (∀ x, x ∈ l2 → key x ≤ key m).
Lemma places_behind : places behind.
Proof.
  intros m l (l1 & l2 & H1 & H2 & H3 & H4)%(behind_spec m). exists l1, l2.
  repeat (split; [done|]). intros x Hx. specialize (H4 x Hx). lia.
Qed.
Lemma places_before : places before.
Proof.
  intros m l (l1 & l2 & H1 & H2 & H3 & H4)%(before_spec m). exists l1, l2.
  do 2 (split; [done|]). split; [|done]. intros x Hx. specialize (H3 x Hx). lia.
Qed.
Lemma Forall_mid {A} (P : A → Prop) l1 x l2 : Forall P (l1 ++ x :: l2) ↔ P x ∧ Forall P (l1 ++ l2).
Proof. rewrite !list.Forall_app, list.Forall_cons. tauto. Qed.
Lemma aok_put place enables i a r a' :
  places place → aok a → put_with place enables i a = Some (r, a') → aok a'.
Proof.
  intros Hp Ha. unfold put_with.
  destruct (pick i (a_held a)) as [[m held]|] eqn:Et; [|done]. cbn [mbind option_bind].
  pose proof (pick_perm _ _ _ _ Et) as Hperm.
  assert (Hm : valid m).
  { pose proof (ok_valid a Ha) as Hv. rewrite list.Forall_app, Hperm, list.Forall_cons in Hv. tauto. }
  destruct (grow (s_band (prio m)) a) as [ok b] eqn:Eg.
  pose proof (prio_valid _ Hm) as Hpv. assert (Hb : aok b) by (eapply aok_grow; [done| |done]; apply Hpv).
  apply grow_spec in Eg as (c & kmem & Eb & Hc & Hok).
  destruct ok; cbn [negb]; [|by intros [= <- <-]]. intros [= <- <-]. apply aok_enable.
  destruct (Hp (prio m) (a_list b) (ok_desc b Hb)) as (l1 & l2 & -> & El & H1 & H2).
  unfold put_at. apply aok_on_flow. assert (Hh : a_held b = a_held a) by (subst b; done).
  assert (Hn : s_band (prio m) ≤ nband b) by (subst b; rewrite grow_nband; apply Hok; done).
  destruct Hb as [Hids Hd Hv Hq Hnb]. rewrite El in Hids, Hd, Hv, Hq. rewrite Hh in Hids, Hv.
  apply (ids_perm _ _ (Permutation_app_head _ Hperm)) in Hids.
  rewrite list.Forall_app, Hperm, list.Forall_cons in Hv.
  split; unfold nband in *; upd; cbn [fst snd].
  - unfold ids in *. rewrite !fmap_app, !fmap_cons in *. rewrite prio_id.
    refine (proj1 (NoDup_Permutation_proper _ _ _) Hids). solve_Permutation.
  - by apply desc_insert.
  - rewrite list.Forall_app, Forall_mid. tauto.
  - rewrite Forall_mid. split; [|done]. split; [lia|]. rewrite prio_hi. apply prio_band.
  - done.
Qed.

Lemma on_queue_rest m l1 l2 n : Forall (on_queue n) (l1 ++ m :: l2) → Forall (on_queue n) (l1 ++ l2).
Proof. rewrite Forall_mid. tauto. Qed.
Lemma desc_remove l1 m l2 : desc (l1 ++ m :: l2) → desc (l1 ++ l2).
Proof.
  intros (H1 & [_ H2]%desc_cons & H12)%desc_app. apply desc_app. split; [done|]. split; [done|].
  intros x y Hx Hy. apply H12; [done|]. by apply elem_of_cons; right.
Qed.
(** A message is off the queue, and perhaps freed. *)
Lemma aok_removed m l1 l2 held a a' :
  aok a → a_list a = l1 ++ m :: l2 → a_list a' = l1 ++ l2 → nband a' = nband a →
  a_held a' = held → held = a_held a ∨ held = m :: a_held a → aok a'.
Proof.
  intros [Hids Hd Hv Hq Hn] El El' En Eh Hh. rewrite El in Hids, Hd, Hv, Hq.
  assert (Hsub : ∃ k, (l1 ++ m :: l2) ++ a_held a ≡ₚ k ++ (l1 ++ l2) ++ held).
  { destruct Hh as [-> | ->]; [exists [m]|exists []]; solve_Permutation. }
  destruct Hsub as [k Hk]. apply (ids_perm _ _ Hk) in Hids. rewrite Hk, list.Forall_app in Hv.
  unfold ids in Hids. rewrite fmap_app in Hids. apply NoDup_app in Hids as (_ & _ & Hids).
  split; rewrite ?El', ?En, ?Eh; [done|by apply desc_remove in Hd|tauto|by eapply on_queue_rest|done].
Qed.
Lemma aok_remove m l1 l2 a :
  aok a → a_list a = l1 ++ m :: l2 → aok (unqueue m (l1 ++ l2) a).2.
Proof.
  intros Ha El. unfold unqueue. cbn [snd]. apply aok_on_flow.
  eapply (aok_removed m l1 l2 (m :: a_held a) a); eauto.
Qed.
Lemma aok_flushed m l1 l2 a :
  aok a → a_list a = l1 ++ m :: l2 → aok ((unqueue m (l1 ++ l2) a).2 <| a_held := a.(a_held) |>).
Proof.
  intros Ha El. eapply (aok_removed m l1 l2 (a_held a) a); [done|done|..|by left]; [| |done].
  - unfold unqueue. cbn [snd]. upd. by autorewrite with aq.
  - change (nband (unqueue m (l1 ++ l2) a).2 = nband a). unfold unqueue. cbn [snd].
    by rewrite on_flow_nband.
Qed.
Lemma aok_getq a : aok a → aok (a_getq a).2.
Proof.
  intros Ha. unfold a_getq. destruct (a_list a) as [|m l] eqn:El; [by apply (aok_fields a)|].
  pose proof (aok_remove m [] l a Ha El) as H. cbn [app] in H.
  destruct (unqueue m l a) as [be b]. cbn in *. by apply (aok_fields b).
Qed.
Lemma aok_rmvq i a be a' : aok a → a_rmvq i a = Some (be, a') → aok a'.
Proof.
  intros Ha. unfold a_rmvq. destruct (pick i (a_list a)) as [[m l]|] eqn:Et; [|done]. cbn.
  apply pick_Some in Et as (l1 & l2 & El & -> & _). intros [= <- <-].
  exact (aok_remove m l1 l2 a Ha El).
Qed.
Lemma aok_bcanput b a : aok a → aok (a_bcanput b a).2.
Proof.
  intros Ha. unfold a_bcanput. destruct (flow_at b a) as [f|]; [|done].
  destruct (f_full f); [|done]. cbn. by apply aok_on_flow.
Qed.
Lemma lower_bands_length l nb bands : length (lower_bands l nb bands).1 = length l.
Proof.
  revert nb bands; induction l as [|f l IH]; intros nb bands; [done|]. cbn.
  specialize (IH (nb - 1) (if wakes 0 f then nb :: bands else bands)).
  destruct (lower_bands _ _ _). cbn in *. by rewrite IH.
Qed.
Lemma aok_flushall a : aok a → aok (a_flushall a).2.
Proof.
  intros Ha. unfold a_flushall. case_bool_decide; [done|].
  pose proof (lower_bands_length (a_bands a) (nband a) (if wakes 0 (a_q a) then [0] else [])) as Hl.
  destruct (lower_bands _ _ _) as [k bands]. cbn in *. destruct Ha as [Hids _ Hv _ Hn].
  unfold ids in Hids. rewrite fmap_app in Hids. apply NoDup_app in Hids as (_ & _ & Hids).
  apply list.Forall_app in Hv as [_ Hv].
  split; unfold nband in *; upd; try done; [apply SSorted_nil|lia].
Qed.
Lemma aok_flush_datas done rest a bands :
  aok a → a_list a = done ++ rest → aok (flush_datas done rest a bands).2.
Proof.
  revert done a bands; induction rest as [|m rest IH]; intros done a bands Ha El; [done|].
  cbn [flush_datas]. destruct (s_data m).
  - pose proof (aok_flushed m done rest a Ha El) as Hr.
    assert (Hlist : a_list (unqueue m (done ++ rest) a).2 = done ++ rest)
      by (unfold unqueue; cbn [snd]; by autorewrite with aq).
    destruct (unqueue m (done ++ rest) a) as [be b]. by apply IH.
  - apply IH; [done|]. by rewrite <- app_assoc.
Qed.
Lemma aok_flushq f a : aok a → aok (a_flushq f a).2.
Proof.
  destruct f; cbn; [|apply aok_flushall]. intros Ha. by apply aok_flush_datas.
Qed.
