(* ===== verification/StrRefine.v ===== *)
(** * STREAMS message queues refine their contract

    The linked messages, counts, flags and band structures of [StrQueue] represent
    an abstract queue of [StrSpec], and every operation that uses messages
    according to the contract reads no bad pointer, ends, and has the result and
    effect the contract states. *)
From S2P Require Import Prelude StrQueue StrSpec.
From stdpp Require Import gmap sorting.
#[local] Open Scope Z_scope.
#[local] Open Scope os7_scope.
#[local] Set Warnings "-clear-no-such-hyp".

(** ** Representation *)

Definition cell (m : smsg) (n p : option Z) : msgb := Msgb n p m.(s_band) m.(s_datap) m.(s_cont).
Definition first_id (l : list smsg) (n : option Z) : option Z :=
  match l with [] => n | m :: _ => Some m.(s_id) end.
Definition last_id (p : option Z) (l : list smsg) : option Z :=
  match list.last l with None => p | Some m => Some m.(s_id) end.
Arguments last_id : simpl never.
(** The messages of [l] follow each other; [p] is the [b_prev] of the first, [n]
    the [b_next] of the last. *)
Fixpoint linked (h : gmap Z msgb) (p : option Z) (l : list smsg) (n : option Z) : Prop :=
  match l with
  | [] => True
  | m :: l => h !! m.(s_id) = Some (cell m (first_id l n) p) ∧ linked h (Some m.(s_id)) l n
  end.
Definition held_in (h : gmap Z msgb) (m : smsg) : Prop := ∃ n p, h !! m.(s_id) = Some (cell m n p).
(** The heap and the ends of the queue. *)
Record hrepr (s : sq) (l held : list smsg) : Prop := {
  hr_first : s.(qu).(q_first) = first_id l None;
  hr_last : s.(qu).(q_last) = last_id None l;
  hr_linked : linked s.(heap) None l None;
  hr_held : Forall (held_in s.(heap)) held }.
(** Counts and flags of the queue and of a band. *)
Definition queue_ok (q : queue) (c : Z) (f : flow) : Prop :=
  q.(q_count) = c ∧ q.(q_hiwat) = f.(f_hiwat) ∧ q.(q_lowat) = f.(f_lowat) ∧
  q.(q_full) = f.(f_full) ∧ q.(q_wantw) = f.(f_wantw).
Definition band_ok (qb : qband) (l : list smsg) (f : flow) : Prop :=
  qb.(qb_count) = u64 (sum_size l) ∧ qb.(qb_msgs) = s64 (Z.of_nat (length l)) ∧
  qb.(qb_hiwat) = f.(f_hiwat) ∧ qb.(qb_lowat) = f.(f_lowat) ∧
  qb.(qb_full) = f.(f_full) ∧ qb.(qb_wantw) = f.(f_wantw).
Definition n_full (l : list flow) : Z := Z.of_nat (length (filter (fun f => f_full f = true) l)).
Record crepr (q : queue) (kmem : list bool) (a : aq) : Prop := {
  cr_queue : queue_ok q (count 0 a.(a_list)) a.(a_q);
  cr_msgs : q.(q_msgs) = s64 (Z.of_nat (length a.(a_list)));
  cr_nband : q.(q_nband) = nband a;
  cr_len : length q.(q_bandp) = length a.(a_bands);
  cr_bands : ∀ i qb f, q.(q_bandp) !! i = Some qb → a.(a_bands) !! i = Some f →
    band_ok qb (in_band (nband a - Z.of_nat i) a.(a_list)) f;
  cr_blocked : q.(q_blocked) = n_full a.(a_bands);
  cr_wantr : q.(q_wantr) = a.(a_wantr);
  cr_noenb : q.(q_noenb) = a.(a_noenb);
  cr_srvp : q.(q_srvp) = a.(a_srvp);
  cr_enab : q.(q_enab) = a.(a_enab);
  cr_kmem : kmem = a.(a_kmem);
  cr_procs : q.(q_procs) = false }.
Record repr (s : sq) (a : aq) : Prop := {
  re_heap : hrepr s a.(a_list) a.(a_held);
  re_queue : crepr s.(qu) s.(kmem) a }.

(** ** Lists of linked messages *)

Lemma ids_first_app l k n : first_id (l ++ k) n = first_id l (first_id k n).
Proof. by destruct l. Qed.
Lemma ids_last_snoc p l m : last_id p (l ++ [m]) = Some m.(s_id).
Proof. unfold last_id. by rewrite last_snoc. Qed.
Lemma ids_last_cons p m l : last_id p (m :: l) = last_id (Some m.(s_id)) l.
Proof.
  destruct l; [done|]. unfold last_id. rewrite last_cons_cons.
  destruct (last _) eqn:E; [done|]. by apply last_None in E.
Qed.
Lemma ids_last_app p l k : last_id p (l ++ k) = last_id (last_id p l) k.
Proof.
  revert p; induction l as [|m l IH]; intros p; [done|]. cbn [app]. by rewrite !ids_last_cons, IH.
Qed.
Lemma msgs_linked_app h p l k n :
  linked h p (l ++ k) n ↔ linked h p l (first_id k n) ∧ linked h (last_id p l) k n.
Proof.
  revert p; induction l as [|m l IH]; intros p; cbn [app linked]; [naive_solver|].
  rewrite IH, ids_first_app, ids_last_cons. tauto.
Qed.
(** [linked] looks at the messages of the list only. *)
Lemma linked_ext h h' p l n :
  (∀ b, b ∈ ids l → h' !! b = h !! b) → linked h p l n → linked h' p l n.
Proof.
  revert p; induction l as [|m l IH]; intros p He; cbn [linked]; [done|].
  intros [H Hl]. split.
  - rewrite He; [done|]. by apply elem_of_cons; left.
  - apply IH; [|done]. intros b Hb. apply He. by apply elem_of_cons; right.
Qed.
Lemma held_ext h h' l :
  (∀ b, b ∈ ids l → h' !! b = h !! b) → Forall (held_in h) l → Forall (held_in h') l.
Proof.
  intros He H. apply list.Forall_forall. intros m Hm. rewrite list.Forall_forall in H.
  destruct (H m Hm) as (n & p & Hl). exists n, p. rewrite He; [done|].
  by apply list_elem_of_fmap_2.
Qed.
Lemma linked_in h p l n m : linked h p l n → m ∈ l → held_in h m.
Proof.
  revert p; induction l as [|x l IH]; intros p; [intros _ H; inversion H|].
  intros [H Hl] [->|Hm]%elem_of_cons; [by do 2 eexists|by eapply IH].
Qed.
Lemma linked_size h p l n : NoDup (ids l) → linked h p l n → (length l ≤ size h)%nat.
Proof.
  intros Hn Hl. rewrite <- (size_dom (D:=gset Z) h).
  replace (length l) with (length (ids l)) by apply length_fmap.
  rewrite <- (size_list_to_set (C:=gset Z) (ids l) Hn). apply subseteq_size.
  intros b Hb. apply elem_of_list_to_set, list_elem_of_fmap in Hb as (m & -> & Hm).
  apply elem_of_dom. destruct (linked_in _ _ _ _ _ Hl Hm) as (? & ? & ->). eauto.
Qed.
Lemma upd_ok b f s c :
  s.(heap) !! b = Some c → upd b f s = Some (s <| heap := <[b := f c]> s.(heap) |>).
Proof. intros H. unfold upd. by rewrite H. Qed.

(** A walk stops between the two parts of the list. *)
Lemma walk_ok fuel t t' h p l n :
  linked h p l None → (length l < fuel)%nat →
  (∀ m n p, m ∈ l → t (cell m n p) = t' m) →
  n = first_id l None →
  walk fuel t h p n = Some (last_id p (span t' l).1, first_id (span t' l).2 None).
Proof.
  revert p l n; induction fuel as [|fuel IH]; intros p l n Hl Hf Ht ->; [lia|].
  destruct l as [|m l]; [done|]. destruct Hl as [Hm Hl]. cbn [walk first_id span].
  rewrite Hm. cbn [mbind option_bind]. rewrite Ht by (by apply elem_of_cons; left).
  destruct (t' m) eqn:E; [|done]. cbn [StrQueue.b_next cell] in *. cbn in Hf.
  rewrite (IH _ l); [|done|lia| |done].
  - destruct (span t' l); cbn. by rewrite ids_last_cons.
  - intros x ???. apply Ht. by apply elem_of_cons; right.
Qed.

(** ** Relinking *)

Definition same_but (b : option Z) (h h' : gmap Z msgb) : Prop :=
  ∀ x, b ≠ Some x → h' !! x = h !! x.
Lemma opt_next_ok s p l n v :
  linked s.(heap) p l n → NoDup (ids l) →
  ∃ h', opt_next (last_id None l) v s = Some (s <| heap := h' |>) ∧ linked h' p l v ∧
        same_but (last_id None l) s.(heap) h'.
Proof.
  intros Hl Hn. destruct l as [|m l _] using rev_ind; [by exists (heap s); destruct s|].
  rewrite ids_last_snoc. apply msgs_linked_app in Hl as [Hl [Hm _]]. cbn in Hm.
  unfold ids in Hn. rewrite fmap_app in Hn. apply NoDup_app in Hn as (Hn & Hd & _).
  cbn [opt_next]. unfold set_next. rewrite (upd_ok _ _ _ _ Hm). eexists. split; [done|]. split.
  - apply msgs_linked_app. split.
    + eapply linked_ext; [|exact Hl]. intros b Hb. rewrite lookup_insert_ne; [done|].
      intros <-. by apply (Hd _ Hb), list_elem_of_singleton.
    + cbn. by rewrite lookup_insert_eq.
  - intros x Hx. rewrite lookup_insert_ne; congruence.
Qed.
Lemma opt_prev_ok s p l n v :
  linked s.(heap) p l n → NoDup (ids l) →
  ∃ h', opt_prev (first_id l None) v s = Some (s <| heap := h' |>) ∧ linked h' v l n ∧
        same_but (first_id l None) s.(heap) h'.
Proof.
  intros Hl Hn. destruct l as [|m l]; [by exists (heap s); destruct s|].
  destruct Hl as [Hm Hl]. apply NoDup_cons in Hn as [Hd Hn].
  cbn [opt_prev first_id]. unfold set_prev. rewrite (upd_ok _ _ _ _ Hm). eexists.
  split; [done|]. split.
  - split; [by rewrite lookup_insert_eq|]. eapply linked_ext; [|exact Hl].
    intros b Hb. rewrite lookup_insert_ne; [done|]. by intros <-.
  - intros x Hx. cbn in Hx. rewrite lookup_insert_ne; congruence.
Qed.
Lemma upd_next_ok s m n p v :
  s.(heap) !! m.(s_id) = Some (cell m n p) →
  set_next m.(s_id) v s = Some (s <| heap := <[m.(s_id) := cell m v p]> s.(heap) |>).
Proof. intros H. unfold set_next. by rewrite (upd_ok _ _ _ _ H). Qed.
Lemma upd_prev_ok s m n p v :
  s.(heap) !! m.(s_id) = Some (cell m n p) →
  set_prev m.(s_id) v s = Some (s <| heap := <[m.(s_id) := cell m n v]> s.(heap) |>).
Proof. intros H. unfold set_prev. by rewrite (upd_ok _ _ _ _ H). Qed.

Lemma last_id_in l x : last_id None l = Some x → x ∈ ids l.
Proof.
  destruct l as [|m l _] using rev_ind; [done|]. rewrite ids_last_snoc. intros [= <-].
  unfold ids. rewrite fmap_app. apply elem_of_app. right. by apply list_elem_of_singleton.
Qed.
Lemma first_id_in l x : first_id l None = Some x → x ∈ ids l.
Proof. destruct l; cbn; [done|]. intros [= <-]. by apply elem_of_cons; left. Qed.
Lemma ids_app l k : ids (l ++ k) = ids l ++ ids k.
Proof. apply fmap_app. Qed.
(** The parts of a list around a message share no identity. *)
Lemma ids_mid l1 m l2 :
  NoDup (ids (l1 ++ m :: l2)) →
  NoDup (ids l1) ∧ NoDup (ids l2) ∧ (m.(s_id) ∉ ids l1) ∧ (m.(s_id) ∉ ids l2) ∧
  (∀ x, x ∈ ids l1 → x ∉ ids l2).
Proof.
  rewrite ids_app. cbn. intros (H1 & Hd & [Hm H2]%NoDup_cons)%NoDup_app.
  repeat split; try done.
  - intros Hx. apply (Hd _ Hx). by apply elem_of_cons; left.
  - intros x Hx Hy. apply (Hd _ Hx). by apply elem_of_cons; right.
Qed.
(** A heap that differs from [h] in no message of [l]. *)
Definition frame (l : list smsg) (h h' : gmap Z msgb) : Prop :=
  ∀ x, x ∉ ids l → h' !! x = h !! x.

Lemma link_in_ok s l1 m l2 n p :
  linked s.(heap) None (l1 ++ l2) None → NoDup (ids (l1 ++ m :: l2)) →
  s.(heap) !! m.(s_id) = Some (cell m n p) →
  ∃ h', link_in m.(s_id) (last_id None l1) (first_id l2 None) s = Some (s <| heap := h' |>) ∧
        linked h' None (l1 ++ m :: l2) None ∧ frame (l1 ++ m :: l2) s.(heap) h'.
Proof.
  intros [Hl1 Hl2]%msgs_linked_app Hn Hm. destruct (ids_mid _ _ _ Hn) as (N1 & N2 & D1 & D2 & D12).
  unfold link_in. rewrite (upd_next_ok _ _ _ _ _ Hm). cbn [mbind option_bind].
  set (s1 := s <| heap := _ |>).
  assert (E1 : heap s1 = <[s_id m := cell m (first_id l2 None) p]> (heap s)) by done.
  assert (L2 : linked (heap s1) (last_id None l1) l2 None).
  { eapply linked_ext; [|exact Hl2]. intros b Hb. rewrite E1, lookup_insert_ne; [done|].
    by intros <-. }
  destruct (opt_prev_ok s1 _ l2 None (Some (s_id m)) L2 N2) as (h2 & -> & L2' & S2).
  cbn [mbind option_bind].
  assert (Hm2 : h2 !! s_id m = Some (cell m (first_id l2 None) p)).
  { rewrite S2, E1; [by rewrite lookup_insert_eq|]. by intros ?%first_id_in. }
  change h2 with (heap (s1 <| heap := h2 |>)) in Hm2.
  rewrite (upd_prev_ok _ _ _ _ _ Hm2). cbn [mbind option_bind]. upd.
  set (s3 := (s1 <| heap := h2 |>) <| heap := _ |>).
  assert (E3 : heap s3 = <[s_id m := cell m (first_id l2 None) (last_id None l1)]> h2) by done.
  assert (L1 : linked (heap s3) None l1 (first_id l2 None)).
  { eapply linked_ext; [|exact Hl1]. intros b Hb. rewrite E3, lookup_insert_ne by (by intros <-).
    rewrite S2 by (by intros ?%first_id_in; apply (D12 b)).
    rewrite E1, lookup_insert_ne; [done|]. by intros <-. }
  destruct (opt_next_ok s3 _ l1 _ (Some (s_id m)) L1 N1) as (h4 & -> & L1' & S4).
  exists h4. split; [done|]. split.
  - apply msgs_linked_app. split; [done|]. split.
    + rewrite S4, E3; [by rewrite lookup_insert_eq|]. by intros ?%last_id_in.
    + eapply linked_ext; [|exact L2']. intros b Hb.
      rewrite S4 by (by intros ?%last_id_in; apply (D12 b)).
      rewrite E3, lookup_insert_ne; [done|]. by intros <-.
  - intros x Hx. rewrite ids_app in Hx. cbn in Hx. rewrite not_elem_of_app, not_elem_of_cons in Hx.
    destruct Hx as (X1 & X2 & X3). rewrite S4 by (by intros ?%last_id_in).
    rewrite E3, lookup_insert_ne, S2, E1, lookup_insert_ne; try done. by intros ?%first_id_in.
Qed.

(** ** Counts *)

Lemma u64_add a b : u64 (u64 a + b) = u64 (a + b).
Proof. unfold u64. by rewrite Zplus_mod_idemp_l. Qed.
Lemma u64_sub a b : u64 (u64 a - b) = u64 (a - b).
Proof. unfold u64. by rewrite Zminus_mod_idemp_l. Qed.
Lemma s64_add a b : s64 (s64 a + b) = s64 (a + b).
Proof.
  unfold s64. f_equal.
  replace ((a + 2 ^ 63) mod 2 ^ 64 - 2 ^ 63 + b + 2 ^ 63) with ((a + 2 ^ 63) mod 2 ^ 64 + b) by lia.
  rewrite Zplus_mod_idemp_l. f_equal. lia.
Qed.
Lemma s64_sub a b : s64 (s64 a - b) = s64 (a - b).
Proof. apply (s64_add a (- b)). Qed.
Lemma sum_size_perm l k : l ≡ₚ k → sum_size l = sum_size k.
Proof. unfold sum_size. induction 1; cbn in *; lia. Qed.
Lemma sum_size_cons m l : sum_size (m :: l) = s_size m + sum_size l.
Proof. done. Qed.
Lemma in_band_eq b l1 m l2 :
  m.(s_band) = b → in_band b (l1 ++ m :: l2) ≡ₚ m :: in_band b (l1 ++ l2).
Proof.
  intros H. unfold in_band. rewrite !filter_app, filter_cons_True by done. solve_Permutation.
Qed.
Lemma in_band_ne b l1 m l2 : m.(s_band) ≠ b → in_band b (l1 ++ m :: l2) = in_band b (l1 ++ l2).
Proof. intros H. unfold in_band. by rewrite !filter_app, filter_cons_False. Qed.
Lemma count_ne b l1 m l2 : m.(s_band) ≠ b → count b (l1 ++ m :: l2) = count b (l1 ++ l2).
Proof. intros H. unfold count. by rewrite in_band_ne. Qed.
Lemma count_eq l1 m l2 :
  count m.(s_band) (l1 ++ m :: l2) = u64 (count m.(s_band) (l1 ++ l2) + s_size m).
Proof.
  unfold count. rewrite (sum_size_perm _ _ (in_band_eq _ l1 m l2 eq_refl)), u64_add, sum_size_cons.
  f_equal. lia.
Qed.
Lemma count_eq_sub l1 m l2 :
  count m.(s_band) (l1 ++ l2) = u64 (count m.(s_band) (l1 ++ m :: l2) - s_size m).
Proof.
  rewrite count_eq, u64_sub. unfold count.
  replace (u64 (sum_size (in_band (s_band m) (l1 ++ l2))) + s_size m - s_size m)
    with (u64 (sum_size (in_band (s_band m) (l1 ++ l2))) + 0) by lia.
  rewrite u64_add. f_equal. lia.
Qed.
Lemma band_count b l : u64 (sum_size (in_band b l)) = count b l.
Proof. done. Qed.
Lemma length_mid {A} l1 (m : A) l2 : length (l1 ++ m :: l2) = S (length (l1 ++ l2)).
Proof. rewrite !length_app. cbn. lia. Qed.

Lemma n_full_alter g i l f :
  l !! i = Some f → n_full (alter g i l) = n_full l - Z.b2z (f_full f) + Z.b2z (f_full (g f)).
Proof.
  revert i; induction l as [|x l IH]; intros i H; [done|].
  assert (C : ∀ y k, n_full (y :: k) = Z.b2z (f_full y) + n_full k).
  { intros y k. unfold n_full. rewrite filter_cons. destruct (f_full y); cbn; [|done].
    rewrite decide_True by done. cbn [length]. lia. }
  destruct i as [|i]; cbn in H.
  - injection H as ->. change (alter g 0%nat (f :: l)) with (g f :: l).
    rewrite !C. lia.
  - change (alter g (S i) (x :: l)) with (x :: alter g i l). rewrite !C, (IH i H). lia.
Qed.
Lemma n_full_range l : 0 ≤ n_full l ≤ Z.of_nat (length l).
Proof. unfold n_full. pose proof (length_filter (λ f, f_full f = true) l). lia. Qed.
Lemma n_full_not l i f : l !! i = Some f → f_full f = false → n_full l < Z.of_nat (length l).
Proof.
  intros H Hf. pose proof (n_full_alter (fun f => raise (f_hiwat f + 1) f) i l f H) as Ha.
  pose proof (n_full_range (alter (fun f => raise (f_hiwat f + 1) f) i l)) as Hr.
  rewrite length_alter in Hr. rewrite Hf in Ha. unfold raise in Ha.
  replace (f_hiwat f <? f_hiwat f + 1) with true in Ha by lia. cbn in Ha. unfold raise in Hr. lia.
Qed.

(** ** Bands *)

Lemma find_idx_ok l nb b i :
  nb = Z.of_nat (length l) → nb < 256 → 1 ≤ b ≤ nb →
  find_idx l nb b i = Some (i + Z.to_nat (nb - b))%nat.
Proof.
  revert nb i; induction l as [|x l IH]; intros nb i -> Hn Hb; cbn [length find_idx] in *; [lia|].
  destruct (Z.ltb_spec b (Z.of_nat (S (length l)))).
  - unfold u8. rewrite Z.mod_small, (IH _ (S i)) by lia. f_equal. lia.
  - f_equal. lia.
Qed.
Lemma find_idx_0 l nb i :
  nb = Z.of_nat (length l) → nb < 256 → find_idx l nb 0 i = None.
Proof.
  revert nb i; induction l as [|x l IH]; intros nb i -> Hn; cbn [length find_idx] in *; [done|].
  destruct (Z.ltb_spec 0 (Z.of_nat (S (length l)))); [|lia]. unfold u8. rewrite Z.mod_small by lia.
  apply IH; lia.
Qed.
Lemma find_ok q kmem a b :
  crepr q kmem a → nband a < 256 → 1 ≤ b ≤ nband a → __find_qband q b = Some (idx a b).
Proof.
  intros [] Hn Hb. unfold __find_qband, idx. rewrite find_idx_ok; unfold nband in *.
  - f_equal. lia.
  - rewrite cr_len0. lia.
  - lia.
  - lia.
Qed.
(** A band that exists has its structure and its flow control. *)
Lemma band_at q kmem a b :
  crepr q kmem a → 1 ≤ b ≤ nband a →
  ∃ qb f, q.(q_bandp) !! idx a b = Some qb ∧ a.(a_bands) !! idx a b = Some f ∧
    band_ok qb (in_band b a.(a_list)) f.
Proof.
  intros [] Hb. assert (Hi : (idx a b < length (a_bands a))%nat) by (unfold idx, nband in *; lia).
  destruct (lookup_lt_is_Some_2 _ _ Hi) as [f Hf]. rewrite <- cr_len0 in Hi.
  destruct (lookup_lt_is_Some_2 _ _ Hi) as [qb Hqb]. exists qb, f. split; [done|]. split; [done|].
  replace b with (nband a - Z.of_nat (idx a b)) by (unfold idx; lia). eauto.
Qed.
Lemma get_loop_ok fuel n q kmem b c kmem' :
  Z.to_nat (b - q.(q_nband)) = S n → (S n ≤ fuel)%nat → 0 ≤ q.(q_nband) → b < 256 →
  grant (S n) kmem = (c, kmem') →
  get_loop fuel q kmem b =
    (if (c =? S n)%nat then Some O else None,
     (q <| q_bandp := replicate c (new_qband q) ++ q.(q_bandp) |>)
        <| q_nband := q.(q_nband) + Z.of_nat c |>, kmem').
Proof.
  revert fuel q kmem c; induction n as [|n IH]; intros fuel q kmem c Hn Hf Hq Hb Hg;
    (destruct fuel as [|fuel]; [lia|]); cbn [get_loop]; cbn [grant] in Hg;
    destruct (kmem_cache_alloc kmem) as [[] k]; cbn [negb].
  - injection Hg as <- <-. upd. unfold u8. rewrite Z.mod_small by lia.
    replace (q_nband q + 1 <? b) with false by lia. cbn. destruct q; reflexivity.
  - injection Hg as <- <-. cbn. destruct q; cbn in *. unfold fset, set_q_bandp, set_q_nband; cbn. by rewrite Z.add_0_r.
  - change (let '(c0, kmem0) := (let '(ok, kmem0) := kmem_cache_alloc k in
      if ok then let '(c0, kmem1) := grant n kmem0 in (S c0, kmem1) else (0%nat, kmem0)) in
      (S c0, kmem0)) with (let '(c0, kmem0) := grant (S n) k in (S c0, kmem0)) in Hg.
    destruct (grant (S n) k) as [c' k'] eqn:E. injection Hg as <- <-. upd. unfold u8.
    rewrite Z.mod_small by lia. replace (q_nband q + 1 <? b) with true by lia.
    set (q1 := (q <| q_bandp := _ |>) <| q_nband := _ |>).
    rewrite (IH fuel q1 k c'); [|subst q1; upd; lia|lia|subst q1; upd; lia|done|done].
    subst q1. upd. change (S c' =? S (S n))%nat with (c' =? S n)%nat. f_equal. f_equal.
    clear IH Hn Hf Hq Hb E. destruct q; unfold fset, set_q_bandp, set_q_nband, new_qband; cbn.
    f_equal; [|lia].
    change (?x :: replicate c' ?x ++ ?l) with ((x :: replicate c' x) ++ l).
    by rewrite replicate_cons_app, <- app_assoc.
  - injection Hg as <- <-. cbn. destruct q; cbn in *. unfold fset, set_q_bandp, set_q_nband; cbn. by rewrite Z.add_0_r.
Qed.
(** A band above those that exist has no message. *)
Lemma in_band_none b n l : Forall (on_queue n) l → n < b → in_band b l = [].
Proof.
  intros H Hb. unfold in_band. induction H as [|m l [Hm _] _ IH]; [done|].
  rewrite filter_cons_False by lia. done.
Qed.
Lemma crepr_grow q kmem a c kmem' :
  crepr q kmem a → aok a →
  crepr ((q <| q_bandp := replicate c (new_qband q) ++ q.(q_bandp) |>)
           <| q_nband := q.(q_nband) + Z.of_nat c |>) kmem'
    ((a <| a_bands := replicate c (new_flow a.(a_q)) ++ a.(a_bands) |>) <| a_kmem := kmem' |>) .
Proof.
  intros [] Ha. destruct cr_queue0 as (C1 & C2 & C3 & C4 & C5).
  split; rewrite ?grow_nband; upd; try done.
  - by rewrite cr_nband0.
  - by rewrite !length_app, !length_replicate, cr_len0.
  - intros i qb f Hqb Hf. upd in Hqb. upd in Hf. destruct (decide (i < c)%nat) as [Hi|Hi].
    + rewrite lookup_app_l in Hqb by (by rewrite length_replicate).
      rewrite lookup_app_l in Hf by (by rewrite length_replicate).
      apply lookup_replicate in Hqb as [-> _], Hf as [-> _].
      rewrite (in_band_none _ (nband a)); [|apply Ha|lia]. repeat split; by cbn.
    + rewrite lookup_app_r, length_replicate in Hqb by (rewrite length_replicate; lia).
      rewrite lookup_app_r, length_replicate in Hf by (rewrite length_replicate; lia).
      replace (nband a + Z.of_nat c - Z.of_nat i) with (nband a - Z.of_nat (i - c)) by lia. eauto.
  - unfold n_full in *. rewrite filter_app.
    replace (filter _ (replicate c _)) with (@nil flow); [done|].
    clear. induction c as [|c IH]; [done|]. cbn [replicate]. by rewrite filter_cons_False.
Qed.
Lemma get_ok q kmem a b ok a' :
  crepr q kmem a → aok a → 1 ≤ b < 256 → grow b a = (ok, a') →
  ∃ q', __get_qband q kmem b = (if ok then Some (idx a' b) else None, q', a'.(a_kmem)) ∧
        crepr q' a'.(a_kmem) a' ∧ q'.(q_first) = q.(q_first) ∧ q'.(q_last) = q.(q_last).
Proof.
  intros Hq Ha Hb Hg. unfold grow in Hg. unfold __get_qband.
  pose proof (cr_nband _ _ _ Hq) as Hnb. pose proof (cr_kmem _ _ _ Hq) as Hk. subst kmem.
  assert (0 ≤ nband a) by (unfold nband; lia). pose proof (ok_nband a Ha).
  destruct (Z.leb_spec b (q_nband q)).
  - rewrite Hnb in *. replace (Z.to_nat (b - nband a)) with 0%nat in Hg by lia. cbn in Hg.
    injection Hg as <- <-. exists q. rewrite (find_ok _ _ _ _ Hq) by lia. cbn. upd.
    split; [done|]. split; [|done]. destruct a; exact Hq.
  - destruct (Z.to_nat (b - nband a)) as [|n] eqn:En; [lia|].
    destruct (grant (S n) (a_kmem a)) as [c kmem'] eqn:Eg. injection Hg as <- <-.
    rewrite (get_loop_ok NBAND n q _ b c kmem'); [|by rewrite Hnb|unfold NBAND; lia|lia|lia|done].
    eexists. split; [|split; [by eapply crepr_grow|done]].
    upd. destruct (Nat.eqb_spec c (S n)); [|done]. unfold idx. rewrite grow_nband.
    replace (Z.to_nat _) with 0%nat by lia. done.
Qed.

(** ** Counters after a message has been put *)

Lemma crepr_ends q kmem a x y :
  crepr q kmem a → crepr ((q <| q_last := x |>) <| q_first := y |>) kmem a.
Proof. by intros []. Qed.
(** Fields the relation does not read. *)
Lemma crepr_same q q' kmem a :
  crepr q kmem a → q'.(q_count) = q.(q_count) → q'.(q_hiwat) = q.(q_hiwat) →
  q'.(q_lowat) = q.(q_lowat) → q'.(q_full) = q.(q_full) → q'.(q_wantw) = q.(q_wantw) →
  q'.(q_msgs) = q.(q_msgs) → q'.(q_nband) = q.(q_nband) → q'.(q_bandp) = q.(q_bandp) →
  q'.(q_blocked) = q.(q_blocked) → q'.(q_wantr) = q.(q_wantr) → q'.(q_noenb) = q.(q_noenb) →
  q'.(q_srvp) = q.(q_srvp) → q'.(q_enab) = q.(q_enab) → q'.(q_procs) = q.(q_procs) →
  crepr q' kmem a.
Proof.
  intros [] H1 H2 H3 H4 H5 H6 H7 H8 H9 H10 H11 H12 H13 H14. unfold queue_ok in *.
  split; unfold queue_ok; rewrite ?H1, ?H2, ?H3, ?H4, ?H5, ?H6, ?H7, ?H8, ?H9, ?H10, ?H11, ?H12, ?H13, ?H14;
    done.
Qed.
(** A message in no band: the counts of the queue. *)
Lemma crepr_put0 q kmem a m l1 l2 :
  crepr q kmem a → a.(a_list) = l1 ++ l2 → m.(s_band) = 0 →
  crepr (add_count (s_size m) (add_msg q)) kmem (put_at m (l1, l2) a).
Proof.
  intros [] El Hm. destruct cr_queue0 as (C1 & C2 & C3 & C4 & C5).
  unfold put_at, on_flow, add_count, add_msg, raise. rewrite Hm, Z.eqb_refl. upd.
  pose proof (count_eq l1 m l2) as Hc. rewrite Hm in Hc. rewrite El in *. cbn [fst snd].
  rewrite C1, C2, <- Hc.
  assert (Hb : ∀ b, 1 ≤ b → in_band b (l1 ++ m :: l2) = in_band b (l1 ++ l2))
    by (intros; apply in_band_ne; lia).
  assert (Hlt : ∀ i f, a_bands a !! i = Some f → 1 ≤ nband a - Z.of_nat i)
    by (intros i f Hi%lookup_lt_Some; unfold nband; lia).
  destruct (_ <? _); split; unfold nband, queue_ok in *; upd; try done;
    rewrite ?length_mid, ?cr_msgs0, ?s64_add;
    try (f_equal; lia); try (intros i qb f Hqb Hf; rewrite Hb by eauto; eauto).
Qed.

(** The fields a change of one band leaves. *)
Definition qrest (q : queue) :=
  (q.(q_count), q.(q_hiwat), q.(q_lowat), q.(q_full), q.(q_wantw), q.(q_nband),
   (q.(q_wantr), q.(q_noenb), q.(q_srvp), q.(q_enab), q.(q_procs))).
Definition arest (a : aq) := (a.(a_q), a.(a_wantr), a.(a_noenb), a.(a_srvp), a.(a_enab), a.(a_kmem)).
Lemma crepr_band_upd q q' kmem a a' b qb f G g :
  crepr q kmem a → 1 ≤ b ≤ nband a →
  q.(q_bandp) !! idx a b = Some qb → a.(a_bands) !! idx a b = Some f →
  qrest q' = qrest q → arest a' = arest a →
  q'.(q_bandp) = alter G (idx a b) q.(q_bandp) →
  a'.(a_bands) = alter g (idx a b) a.(a_bands) →
  q'.(q_blocked) = q.(q_blocked) - Z.b2z (f_full f) + Z.b2z (f_full (g f)) →
  q'.(q_msgs) = s64 (Z.of_nat (length a'.(a_list))) →
  (∀ c, c ≠ b → in_band c a'.(a_list) = in_band c a.(a_list)) →
  band_ok (G qb) (in_band b a'.(a_list)) (g f) →
  crepr q' kmem a'.
Proof.
  intros [] Hb Hqb Hf Hqr Har Hbp Hab Hbl Hm Hc Hok. unfold qrest in Hqr. unfold arest in Har.
  injection Hqr as ? ? ? ? ? ? ? ? ? ? ?. injection Har as ? ? ? ? ? ?.
  assert (Hn : nband a' = nband a) by (unfold nband; by rewrite Hab, length_alter).
  split; try congruence.
  - unfold queue_ok, count in *. rewrite Hc by lia. intuition congruence.
  - by rewrite Hbp, Hab, !length_alter.
  - intros i qb' f' Hqb' Hf'. rewrite Hn. rewrite Hbp in Hqb'. rewrite Hab in Hf'.
    destruct (decide (idx a b = i)) as [<-|Hi].
    + rewrite list_lookup_alter_eq, Hqb in Hqb'. rewrite list_lookup_alter_eq, Hf in Hf'.
      injection Hqb' as <-. injection Hf' as <-.
      replace (nband a - Z.of_nat (idx a b)) with b by (unfold idx; lia). done.
    + rewrite list_lookup_alter_ne in Hqb' by done. rewrite list_lookup_alter_ne in Hf' by done.
      rewrite Hc; [eauto|].
      apply lookup_lt_Some in Hf'. unfold idx, nband in *. lia.
  - rewrite Hbl, Hab, (n_full_alter _ _ _ _ Hf). lia.
Qed.

Lemma crepr_put_band q kmem a m l1 l2 :
  crepr q kmem a → nband a < 256 → a.(a_list) = l1 ++ l2 → 1 ≤ m.(s_band) ≤ nband a →
  ∃ q', add_band (idx a m.(s_band)) (s_size m) q = Some q' ∧
    crepr (add_msg q') kmem (put_at m (l1, l2) a) ∧
    q'.(q_first) = q.(q_first) ∧ q'.(q_last) = q.(q_last).
Proof.
  intros Hq Hn El Hb. destruct (band_at _ _ _ _ Hq Hb) as (qb & f & Hqb & Hf & B).
  set (b := s_band m) in *. set (i := idx a b) in *.
  pose proof (cr_msgs _ _ _ Hq) as Hms. pose proof (cr_blocked _ _ _ Hq) as Hbl.
  assert (Hl : Z.of_nat (length (a_list a)) + 1 = Z.of_nat (length (l1 ++ m :: l2)))
    by (rewrite El, length_mid; lia).
  destruct B as (B1 & B2 & B3 & B4 & B5 & B6). rewrite band_count, El in B1.
  pose proof (count_eq l1 m l2) as Hc. fold b in Hc. rewrite <- B1 in Hc.
  assert (Hlen : s64 (qb_msgs qb + 1) = s64 (Z.of_nat (length (in_band b (l1 ++ m :: l2))))).
  { rewrite B2, s64_add, El, (in_band_eq b l1 m l2 eq_refl). cbn [length]. f_equal. lia. }
  unfold add_band, set_band. upd. rewrite list_lookup_alter_eq, Hqb. cbn [fmap option_fmap option_map mbind option_bind].
  upd. rewrite B3, <- Hc.
  set (G := fun qb0 : qband => qb0 <| qb_msgs := s64 (qb0.(qb_msgs) + 1) |>
    <| qb_count := u64 (qb0.(qb_count) + s_size m) |>).
  assert (Hput : put_at m (l1, l2) a = (a <| a_list := l1 ++ m :: l2 |>)
      <| a_bands := alter (raise (count b (l1 ++ m :: l2))) i (a_bands a) |>).
  { unfold put_at, on_flow. fold b. replace (b =? 0) with false by lia. done. }
  assert (Hne : ∀ c, c ≠ b → in_band c (l1 ++ m :: l2) = in_band c (a_list a)).
  { intros c Hcb. rewrite El. apply in_band_ne. fold b. congruence. }
  destruct (f_hiwat f <? count b (l1 ++ m :: l2)) eqn:Eh; [destruct (qb_full qb) eqn:Ef; cbn [negb]|].
  all: eexists; split; [reflexivity|]; split; [|done]; rewrite Hput.
  - apply (crepr_band_upd q _ kmem a _ b qb f G (raise (count b (l1 ++ m :: l2))));
      try done; unfold add_msg, raise; upd; rewrite ?Eh.
    + cbn. rewrite <- B5. cbn. lia.
    + rewrite Hms, s64_add. f_equal. done.
    + unfold band_ok. subst G. cbn beta. upd. rewrite <- Hc. rewrite band_count. cbn. by repeat split.
  - assert (Hlt : n_full (a_bands a) < nband a) by (by eapply n_full_not).
    pose proof (n_full_range (a_bands a)).
    apply (crepr_band_upd q _ kmem a _ b qb f (fun x => G x <| qb_full := true |>)
             (raise (count b (l1 ++ m :: l2)))); try done; unfold add_msg, raise; upd; rewrite ?Eh.
    + by rewrite list_alter_alter_eq.
    + cbn. rewrite <- B5, Hbl. unfold u8. rewrite Z.mod_small by lia. cbn. lia.
    + rewrite Hms, s64_add. f_equal. done.
    + unfold band_ok. subst G. cbn beta. upd. rewrite <- Hc, band_count. cbn. by repeat split.
  - apply (crepr_band_upd q _ kmem a _ b qb f G (raise (count b (l1 ++ m :: l2))));
      try done; unfold add_msg, raise; upd; rewrite ?Eh.
    + lia.
    + rewrite Hms, s64_add. f_equal. done.
    + unfold band_ok. subst G. cbn beta. upd. rewrite <- Hc, band_count. by repeat split.
Qed.

(** ** Finding the place *)

Lemma span_ext {A} (t u : A → bool) l : (∀ x, x ∈ l → t x = u x) → span t l = span u l.
Proof.
  induction l as [|x l IH]; intros H; [done|]. cbn. rewrite H by (by apply elem_of_cons; left).
  rewrite IH; [done|]. intros y Hy. apply H. by apply elem_of_cons; right.
Qed.
Lemma span_two (hi t u : smsg → bool) l :
  (∀ x, x ∈ l → hi x → u x) →
  (∀ x, x ∈ (span hi l).2 → u x = t x) →
  span u l = ((span hi l).1 ++ (span t (span hi l).2).1, (span t (span hi l).2).2).
Proof.
  induction l as [|x l IH]; intros Hhi Ht; [done|]. cbn in *. destruct (hi x) eqn:E.
  - destruct (span hi l) as [l1 l2] eqn:El. cbn [fst snd] in *.
    rewrite (Is_true_true_1 (u x)) by (apply Hhi; [by apply elem_of_cons; left|by rewrite E]).
    rewrite IH; [done| |done]. intros y Hy. apply Hhi. by apply elem_of_cons; right.
  - cbn in *. rewrite Ht by (by apply elem_of_cons; left). destruct (t x); [|done].
    rewrite (span_ext u t l) by (intros y Hy; apply Ht; by apply elem_of_cons; right).
    by destruct (span t l).
Qed.
Lemma key_hi m : s_hi m → key m = 256.
Proof. unfold key. by destruct (s_hi m). Qed.
Lemma key_norm m : s_hi m = false → key m = m.(s_band).
Proof. unfold key. by intros ->. Qed.
Lemma hi_first l x :
  desc l → Forall valid l → x ∈ (span s_hi l).2 → s_hi x = false.
Proof.
  intros Hd Hv Hx. destruct (s_hi x) eqn:E; [|done].
  assert (Hs : (∀ y, y ∈ l → valid y)) by (by apply list.Forall_forall).
  clear Hv. induction l as [|y l IH]; cbn in Hx; [inversion Hx|].
  apply desc_cons in Hd as [Hy Hd]. destruct (s_hi y) eqn:Ey.
  - destruct (span s_hi l) eqn:El. cbn in *. apply IH; [done|done|].
    intros z Hz. apply Hs. by apply elem_of_cons; right.
  - cbn in Hx. apply elem_of_cons in Hx as [->|Hx]; [congruence|].
    specialize (Hy x Hx). rewrite (key_hi x), (key_norm y) in Hy by (rewrite ?E; done).
    specialize (Hs y). unfold valid in Hs. destruct Hs; [by apply elem_of_cons; left|]. lia.
Qed.
Lemma skip_hi_ok s l :
  linked s.(heap) None l None → NoDup (ids l) →
  skip hipri s None (first_id l None) =
  Some (last_id None (span s_hi l).1, first_id (span s_hi l).2 None).
Proof.
  intros Hl Hn. pose proof (linked_size _ _ _ _ Hn Hl). unfold skip.
  by apply (walk_ok _ _ s_hi _ _ l); [|lia|..].
Qed.
(** After the high priority messages the bands are passed as the key tells. *)
Lemma skip_band_ok s l t t' (u : smsg → bool) :
  linked s.(heap) None l None → NoDup (ids l) → desc l → Forall valid l →
  (∀ m n p, m ∈ l → t (cell m n p) = t' m) →
  (∀ m, m ∈ l → s_hi m → u m) → (∀ m, m ∈ l → s_hi m = false → u m = t' m) →
  skip t s (last_id None (span s_hi l).1) (first_id (span s_hi l).2 None) =
  Some (last_id None (span u l).1, first_id (span u l).2 None).
Proof.
  intros Hl Hn Hd Hv Ht Hhi Hu. pose proof (span_app s_hi l) as E.
  assert (Hin : ∀ x, x ∈ (span s_hi l).2 → x ∈ l)
    by (intros x Hx; rewrite <- E; apply elem_of_app; by right).
  rewrite (span_two s_hi t' u l Hhi) by
    (intros x Hx; apply Hu; [by apply Hin|by eapply hi_first]).
  cbn [fst snd]. rewrite ids_last_app. unfold skip. pose proof (linked_size _ _ _ _ Hn Hl).
  assert (length l = (length (span s_hi l).1 + length (span s_hi l).2)%nat)
    by (rewrite <- length_app; by rewrite E).
  rewrite <- E in Hl. apply msgs_linked_app in Hl as [_ Hl].
  apply (walk_ok _ _ t' _ _ (span s_hi l).2); [done|lia|by intros; apply Ht, Hin|done].
Qed.
Lemma skip_behind s l m :
  linked s.(heap) None l None → NoDup (ids l) → desc l → Forall valid l →
  s_hi m = false → valid m →
  skip (fun c => m.(s_band) <=? c.(b_band)) s (last_id None (span s_hi l).1)
    (first_id (span s_hi l).2 None) =
  Some (last_id None (behind m l).1, first_id (behind m l).2 None).
Proof.
  intros Hl Hn Hd Hv Hm Hvm. unfold behind.
  apply (skip_band_ok s l _ (fun x => s_band m <=? s_band x)); try done.
  - intros x Hx Hh. rewrite (key_hi x Hh), (key_norm m Hm). apply Is_true_true.
    unfold valid in Hvm. lia.
  - intros x Hx Hh. by rewrite (key_norm x Hh), (key_norm m Hm).
Qed.
Lemma skip_before s l m :
  linked s.(heap) None l None → NoDup (ids l) → desc l → Forall valid l →
  s_hi m = false → valid m →
  skip (fun c => m.(s_band) <? c.(b_band)) s (last_id None (span s_hi l).1)
    (first_id (span s_hi l).2 None) =
  Some (last_id None (before m l).1, first_id (before m l).2 None).
Proof.
  intros Hl Hn Hd Hv Hm Hvm. unfold before.
  apply (skip_band_ok s l _ (fun x => s_band m <? s_band x)); try done.
  - intros x Hx Hh. rewrite (key_hi x Hh), (key_norm m Hm). apply Is_true_true.
    unfold valid in Hvm. lia.
  - intros x Hx Hh. by rewrite (key_norm x Hh), (key_norm m Hm).
Qed.
(** A high priority message goes behind the others or in front of them, an
    ordinary one to the end. *)
Lemma behind_hi m l : s_hi m → Forall valid l → behind m l = span s_hi l.
Proof.
  intros Hm Hv. apply span_ext. intros x Hx. rewrite list.Forall_forall in Hv.
  specialize (Hv x Hx). rewrite (key_hi m Hm). unfold key, valid in *. destruct (s_hi x); lia.
Qed.
Lemma before_hi m l : s_hi m → Forall valid l → before m l = ([], l).
Proof.
  intros Hm Hv. unfold before. rewrite (key_hi m Hm). destruct l as [|x l]; [done|]. cbn.
  apply list.Forall_cons in Hv as [Hv _]. replace (256 <? key x) with false; [done|].
  symmetry. apply Z.ltb_ge. unfold key, valid in *. destruct (s_hi x); lia.
Qed.
Lemma behind_0 m l : key m = 0 → Forall valid l → behind m l = (l, []).
Proof.
  intros Hm. unfold behind. rewrite Hm. induction 1 as [|x l Hx _ IH]; [done|]. cbn.
  replace (0 <=? key x) with true; [by rewrite IH|].
  symmetry. apply Z.leb_le. unfold key, valid in *. destruct (s_hi x); lia.
Qed.

(** ** Putting messages *)

(** The identities of a queue, a message put on it and the messages still held. *)
Lemma ids_put l1 m l2 held0 held :
  NoDup (ids ((l1 ++ l2) ++ held0)) → held0 ≡ₚ m :: held →
  NoDup (ids ((l1 ++ m :: l2) ++ held)).
Proof.
  intros Hn Hp. apply (ids_perm _ _ (Permutation_app_head (l1 ++ l2) Hp)) in Hn.
  eapply ids_perm; [|exact Hn]. solve_Permutation.
Qed.
Lemma ids_app_l l k : NoDup (ids (l ++ k)) → NoDup (ids l).
Proof. rewrite ids_app. by intros (? & _ & _)%NoDup_app. Qed.
Lemma held_frame l held h h' :
  NoDup (ids (l ++ held)) → frame l h h' → Forall (held_in h) held → Forall (held_in h') held.
Proof.
  rewrite ids_app. intros (_ & Hd & _)%NoDup_app Hf. apply held_ext. intros b Hb. apply Hf.
  intros Hb'. by apply (Hd b).
Qed.
(** Linking in a message [m] whose fields in the heap are those of [m']. *)
Lemma link_put s l1 m m' l2 held0 held n p :
  linked s.(heap) None (l1 ++ l2) None → Forall (held_in s.(heap)) held →
  NoDup (ids ((l1 ++ l2) ++ held0)) → held0 ≡ₚ m :: held → m'.(s_id) = m.(s_id) →
  s.(heap) !! m.(s_id) = Some (cell m' n p) →
  ∃ h', link_in m.(s_id) (last_id None l1) (first_id l2 None) s = Some (s <| heap := h' |>) ∧
    linked h' None (l1 ++ m' :: l2) None ∧ Forall (held_in h') held.
Proof.
  intros Hl Hh Hn Hp Hid Hm. pose proof (ids_put _ _ _ _ _ Hn Hp) as Hn'.
  assert (E : ids ((l1 ++ m' :: l2) ++ held) = ids ((l1 ++ m :: l2) ++ held))
    by (rewrite !ids_app; cbn; by rewrite Hid).
  rewrite <- E in Hn'. rewrite <- Hid in Hm |- *.
  destruct (link_in_ok s l1 m' l2 n p Hl (ids_app_l _ _ Hn') Hm) as (h' & H1 & H2 & H3).
  exists h'. split; [done|]. split; [done|]. by eapply held_frame.
Qed.
Lemma mark_ends_ok m l1 l2 q :
  NoDup (ids (l1 ++ m :: l2)) → q.(q_first) = first_id (l1 ++ l2) None →
  q.(q_last) = last_id None (l1 ++ l2) →
  mark_ends m.(s_id) (last_id None l1) (first_id l2 None) q =
  (q <| q_last := last_id None (l1 ++ m :: l2) |>) <| q_first := first_id (l1 ++ m :: l2) None |>.
Proof.
  intros Hn Hf Hl. destruct (ids_mid _ _ _ Hn) as (_ & N2 & _ & _ & D12).
  unfold mark_ends. rewrite Hl, ids_last_app.
  assert (E1 : (if bool_decide (last_id (last_id None l1) l2 = last_id None l1)
                then q <| q_last := Some (s_id m) |> else q)
               = q <| q_last := last_id None (l1 ++ m :: l2) |>).
  { rewrite ids_last_app, ids_last_cons. destruct l2 as [|y l2 _] using rev_ind.
    - rewrite bool_decide_true; done.
    - rewrite !ids_last_snoc. rewrite bool_decide_false.
      + destruct q; cbn in *. rewrite Hl, ids_last_app, ids_last_snoc. done.
      + intros H. symmetry in H. apply last_id_in in H. apply (D12 _ H). rewrite ids_app.
        apply elem_of_app. right. by apply list_elem_of_singleton. }
  rewrite E1. upd. rewrite Hf. destruct l1 as [|x l1]; cbn [app first_id].
  - by rewrite bool_decide_true.
  - rewrite bool_decide_false.
    + destruct q; cbn in *. by rewrite Hf.
    + intros H. symmetry in H. apply first_id_in in H. apply (D12 (s_id x)); [|done].
      by apply elem_of_cons; left.
Qed.
(** Whether the message put is now the first. *)
Lemma is_first_ok m l1 l2 q :
  NoDup (ids (l1 ++ m :: l2)) → q.(q_first) = first_id (l1 ++ m :: l2) None →
  is_first m.(s_id) q = bool_decide (l1 = []).
Proof.
  intros Hn Hf. unfold is_first. rewrite Hf. apply bool_decide_ext. destruct l1 as [|x l1]; [done|].
  cbn [app first_id]. destruct (ids_mid _ _ _ Hn) as (_ & _ & D & _ & _).
  split; [|done]. intros [= H]. destruct D. rewrite <- H. by apply elem_of_cons; left.
Qed.
(** A held message is not on the queue. *)
Lemma held_cell s a i m held :
  repr s a → pick i a.(a_held) = Some (m, held) →
  i = m.(s_id) ∧ ∃ n p, s.(heap) !! m.(s_id) = Some (cell m n p).
Proof.
  intros [[_ _ _ Hh] _] Ht. pose proof (pick_perm _ _ _ _ Ht) as Hp. rewrite Hp in Hh.
  apply list.Forall_cons in Hh as [Hm _]. apply pick_Some in Ht as (? & ? & _ & _ & <-). done.
Qed.

Lemma grow_none b a : b ≤ nband a → grow b a = (true, a).
Proof.
  intros H. unfold grow. replace (Z.to_nat (b - nband a)) with 0%nat by lia. cbn. by destruct a.
Qed.
Lemma put_at_list m l a : a_list (put_at m l a) = l.1 ++ m :: l.2.
Proof. unfold put_at. by rewrite on_flow_list. Qed.
Lemma put_at_held m l a : a_held (put_at m l a) = a_held a.
Proof. unfold put_at. by rewrite on_flow_held. Qed.
Lemma crepr_held q kmem a held : crepr q kmem a → crepr q kmem (a <| a_held := held |>).
Proof. by intros []. Qed.
Lemma add_count_ends size q x y :
  add_count size ((q <| q_last := x |>) <| q_first := y |>) =
  ((add_count size q) <| q_last := x |>) <| q_first := y |>.
Proof. unfold add_count. upd. by destruct (_ <? _). Qed.
Lemma add_count_first size q : q_first (add_count size q) = q_first q.
Proof. unfold add_count. upd. by destruct (_ <? _). Qed.
Lemma add_count_last size q : q_last (add_count size q) = q_last q.
Proof. unfold add_count. upd. by destruct (_ <? _). Qed.

Section finish.
Context (s : sq) (a : aq) (m : smsg) (held l1 l2 : list smsg) (h' : gmap Z msgb).
Context (Hq : crepr s.(qu) s.(kmem) a) (El : a.(a_list) = l1 ++ l2).
Context (Hf : s.(qu).(q_first) = first_id (l1 ++ l2) None)
  (Hl : s.(qu).(q_last) = last_id None (l1 ++ l2)).
Context (Hn : NoDup (ids (l1 ++ m :: l2))).
Context (Hh : linked h' None (l1 ++ m :: l2) None) (Hheld : Forall (held_in h') held).
Let a' := put_at m (l1, l2) (a <| a_held := held |>).

Lemma finish_repr q : q.(q_first) = first_id (l1 ++ m :: l2) None →
  q.(q_last) = last_id None (l1 ++ m :: l2) → crepr q s.(kmem) a' → repr (Sq h' q s.(kmem)) a'.
Proof using Hh Hheld.
  intros H1 H2 H3. split; [|done]. subst a'. rewrite put_at_list, put_at_held. by split.
Qed.
Lemma finish_put0 :
  m.(s_band) = 0 →
  let q := (s.(qu) <| q_last := last_id None (l1 ++ m :: l2) |>)
             <| q_first := first_id (l1 ++ m :: l2) None |> in
  repr (Sq h' (add_count (s_size m) (add_msg q)) s.(kmem)) a'.
Proof using Hq El Hf Hl Hn Hh Hheld.
  intros Hb q. apply finish_repr; [by rewrite add_count_first|by rewrite add_count_last|].
  subst q a'. apply crepr_put0; [|by upd|done]. by apply crepr_held, crepr_ends.
Qed.
Lemma finish_band :
  nband a < 256 → 1 ≤ m.(s_band) ≤ nband a →
  ∃ q, add_band (idx a m.(s_band)) (s_size m) s.(qu) = Some q ∧
    repr (Sq h' (add_msg (mark_ends m.(s_id) (last_id None l1) (first_id l2 None) q)) s.(kmem)) a'.
Proof using Hq El Hf Hl Hn Hh Hheld.
  intros Hnb Hb.
  destruct (crepr_put_band (qu s) (kmem s) (a <| a_held := held |>) m l1 l2)
    as (q & H1 & H2 & H3 & H4); [by apply crepr_held|done|done|done|].
  exists q. split; [exact H1|].
  rewrite mark_ends_ok by congruence. apply finish_repr; [done|done|].
  by eapply crepr_same; [exact H2|..].
Qed.
End finish.

Lemma crepr_alter q kmem a i g :
  (∀ qb l f, band_ok qb l f → band_ok (g qb) l f) →
  crepr q kmem a → crepr (set_band i g q) kmem a.
Proof.
  intros Hg []. unfold set_band, queue_ok in *.
  split; unfold queue_ok; upd; try done; [by rewrite length_alter|].
  intros j qb f Hqb Hf. upd in Hqb. destruct (decide (i = j)) as [<-|Hij].
  - rewrite list_lookup_alter_eq in Hqb.
    destruct (q_bandp q !! i) as [x|] eqn:E; [|done]. cbn in Hqb. injection Hqb as <-. eauto.
  - rewrite list_lookup_alter_ne in Hqb by done. eauto.
Qed.
Lemma crepr_mark q kmem a i mp l f : crepr q kmem a → crepr (mark_band i mp l f q) kmem a.
Proof.
  apply crepr_alter. intros qb k fl H. unfold band_ok in *.
  destruct (bool_decide (qb_last qb = l) || _); upd;
    destruct (bool_decide (_ = f) || _); upd; done.
Qed.
Lemma mark_band_ends i mp l f q :
  q_first (mark_band i mp l f q) = q_first q ∧ q_last (mark_band i mp l f q) = q_last q.
Proof. done. Qed.
Lemma enable_repr s a c : repr s a →
  repr (if c : bool then on_qu qenable s else s) (enable c a).
Proof.
  intros [[] []]. unfold enable, on_qu, qenable. destruct c; cbn [andb]; [|by split; split].
  rewrite <- cr_srvp0. destruct (q_srvp (qu s)) eqn:E; split; split; unfold nband, queue_ok in *; upd;
    (done || congruence).
Qed.
Lemma put_result_ok s c :
  put_result (1 + Z.b2z c) s = (1, if c then on_qu qenable s else s).
Proof. by destruct c. Qed.

Lemma add_count_msg size q : add_count size (add_msg q) = add_msg (add_count size q).
Proof. unfold add_count, add_msg. upd. by destruct (_ <? _). Qed.
Lemma on_qu_eq f s : on_qu f s = Sq s.(heap) (f s.(qu)) s.(kmem).
Proof. done. Qed.
Lemma heap_eq h s : s <| heap := h |> = Sq h s.(qu) s.(kmem).
Proof. done. Qed.
Lemma msgsize_cell m n p : msgsize (cell m n p) = s_size m.
Proof. done. Qed.
Lemma hi_type m n p : (db_type (b_datap (cell m n p)) <? QPCTL) = negb (s_hi m).
Proof. unfold s_hi. cbn. lia. Qed.

(** A message about to be put: it is held, and the queue is as it was. *)
Record ready (s : sq) (a : aq) (m : smsg) (held : list smsg) : Prop := {
  rd_repr : repr s a;
  rd_ok : aok a;
  rd_perm : a.(a_held) ≡ₚ m :: held;
  rd_cell : ∃ n p, s.(heap) !! m.(s_id) = Some (cell m n p) }.
Lemma ready_intro s a i m held :
  repr s a → aok a → pick i a.(a_held) = Some (m, held) → i = m.(s_id) ∧ ready s a m held.
Proof.
  intros Hr Ha Ht. destruct (held_cell _ _ _ _ _ Hr Ht) as [-> Hc]. split; [done|].
  split; [done|done|by eapply pick_perm|done].
Qed.

Section ready.
Context (s : sq) (a : aq) (m : smsg) (held : list smsg) (Hready : ready s a m held).
Let l := a.(a_list).

Lemma rd_linked : linked s.(heap) None l None.
Proof using Hready. apply Hready. Qed.
Lemma rd_ids : NoDup (ids (l ++ a.(a_held))).
Proof using Hready. apply Hready. Qed.
Lemma rd_nodup : NoDup (ids l).
Proof using Hready. eapply ids_app_l, rd_ids. Qed.
Lemma rd_valid_l : Forall valid l.
Proof using Hready.
  pose proof (ok_valid _ (rd_ok _ _ _ _ Hready)) as H. by apply list.Forall_app in H as [H _].
Qed.
Lemma rd_valid : valid m.
Proof using Hready.
  pose proof (ok_valid _ (rd_ok _ _ _ _ Hready)) as H. apply list.Forall_app in H as [_ H].
  rewrite (rd_perm _ _ _ _ Hready) in H. by apply list.Forall_cons in H as [H _].
Qed.
Lemma rd_held : Forall (held_in s.(heap)) held.
Proof using Hready.
  pose proof (hr_held _ _ _ (re_heap _ _ (rd_repr _ _ _ _ Hready))) as H.
  rewrite (rd_perm _ _ _ _ Hready) in H. by apply list.Forall_cons in H as [_ H].
Qed.
Lemma rd_desc : desc l.
Proof using Hready. apply Hready. Qed.
Lemma rd_mid l1 l2 : l = l1 ++ l2 → NoDup (ids ((l1 ++ m :: l2) ++ held)).
Proof using Hready.
  intros E. eapply ids_put; [|apply (rd_perm _ _ _ _ Hready)]. rewrite <- E. apply rd_ids.
Qed.
Lemma rd_first : s.(qu).(q_first) = first_id l None.
Proof using Hready. apply Hready. Qed.
Lemma rd_last : s.(qu).(q_last) = last_id None l.
Proof using Hready. apply Hready. Qed.
Lemma rd_crepr : crepr s.(qu) s.(kmem) a.
Proof using Hready. apply Hready. Qed.
(** The band of the message set to that of [m']. *)
Lemma rd_zero m' h :
  m'.(s_id) = m.(s_id) → (∀ x, x ≠ m.(s_id) → h !! x = s.(heap) !! x) →
  linked h None l None ∧ Forall (held_in h) held.
Proof using Hready.
  intros Hid Hh. pose proof (rd_mid l [] (eq_sym (app_nil_r l))) as Hn.
  rewrite <- app_assoc, ids_app in Hn. cbn in Hn.
  apply NoDup_app in Hn as (_ & Hd & [Hm _]%NoDup_cons). split.
  - eapply linked_ext; [|apply rd_linked]. intros b Hb. apply Hh. intros ->.
    apply (Hd _ Hb). by apply elem_of_cons; left.
  - eapply held_ext; [|apply rd_held]. intros b Hb. apply Hh. by intros ->.
Qed.
End ready.

Lemma putq_pri_ok s a m held :
  ready s a m held → s_hi m →
  ∃ s', __putq_pri s m.(s_id) false = Some (2, s') ∧
    repr s' (put_at (prio m) (behind (prio m) a.(a_list)) (a <| a_held := held |>)).
Proof.
  intros Hr Hm. pose proof (rd_cell _ _ _ _ Hr) as (n & p & Hc).
  assert (Hp : s_hi (prio m)) by (by rewrite prio_hi).
  rewrite (behind_hi _ _ Hp (rd_valid_l _ _ _ _ Hr)).
  pose proof (span_app s_hi (a_list a)) as E. destruct (span s_hi (a_list a)) as [l1 l2] eqn:Es.
  cbn [fst snd] in E. symmetry in E. pose proof (rd_mid _ _ _ _ Hr _ _ E) as Hn.
  unfold __putq_pri. rewrite (rd_first _ _ _ _ Hr).
  rewrite (skip_hi_ok s _ (rd_linked _ _ _ _ Hr) (rd_nodup _ _ _ _ Hr)), Es. cbn [mbind option_bind fst snd].
  rewrite (upd_ok _ _ _ _ Hc). cbn [mbind option_bind]. upd. rewrite lookup_insert_eq.
  cbn [mbind option_bind].
  set (h1 := <[s_id m := _]> (heap s)).
  assert (H1 : h1 !! s_id m = Some (cell (prio m) n p)).
  { subst h1. rewrite lookup_insert_eq. unfold prio, cell. by destruct (s_hi m). }
  destruct (rd_zero s a m held Hr (prio m) h1 (prio_id m)) as [HL HH].
  { intros x Hx. subst h1. by rewrite lookup_insert_ne. }
  set (c := (cell m n p) <| b_band := 0 |>).
  assert (Hsz : msgsize c = s_size (prio m)) by (by rewrite prio_size).
  set (s2 := on_qu add_msg _).
  assert (Hs2 : heap s2 = h1) by done. clearbody h1.
  rewrite E in HL. rewrite <- Hs2 in HL, HH, H1.
  pose proof (rd_ids _ _ _ _ Hr) as Hids. rewrite E in Hids.
  destruct (link_put s2 l1 m (prio m) l2 (a_held a) held n p HL HH Hids (rd_perm _ _ _ _ Hr)
              (prio_id m) H1) as (h' & -> & HL' & HH').
  cbn [mbind option_bind negb orb]. eexists. split; [reflexivity|].
  assert (Hn' : NoDup (ids (l1 ++ prio m :: l2))).
  { apply ids_app_l in Hn. revert Hn. rewrite !ids_app. cbn. by rewrite prio_id. }
  pose proof (rd_first _ _ _ _ Hr) as Hf. pose proof (rd_last _ _ _ _ Hr) as Hl.
  rewrite E in Hf, Hl.
  pose proof (finish_put0 s a (prio m) held l1 l2 h' (rd_crepr _ _ _ _ Hr) E Hf Hl Hn' HL' HH'
    (prio_band m Hm)) as F. cbn zeta in F.
  match goal with |- repr ?x _ => match type of F with repr ?y _ => replace x with y; [exact F|] end end.
  rewrite heap_eq. subst s2. rewrite !on_qu_eq. cbn [heap qu kmem]. upd. rewrite Hsz. f_equal.
  rewrite <- (prio_id m), mark_ends_ok;
    [|done|by rewrite add_count_first|by rewrite add_count_last].
  rewrite add_count_msg, add_count_ends. done.
Qed.
(** The band of a held message is zeroed in the heap. *)
Lemma zero_band s a m held n p :
  ready s a m held → s_hi m → s.(heap) !! m.(s_id) = Some (cell m n p) →
  ∃ h1, upd m.(s_id) (fun m => m <| b_band := 0 |>) s = Some (s <| heap := h1 |>) ∧
    h1 !! m.(s_id) = Some (cell (prio m) n p) ∧
    linked h1 None a.(a_list) None ∧ Forall (held_in h1) held.
Proof.
  intros Hr Hm Hc. rewrite (upd_ok _ _ _ _ Hc). eexists. split; [done|]. split.
  - rewrite lookup_insert_eq. unfold prio, cell. by destruct (s_hi m).
  - apply (rd_zero s a m held Hr (prio m) _ (prio_id m)). intros x Hx.
    by rewrite lookup_insert_ne.
Qed.
Lemma set_last_id q x : q.(q_last) = x → q <| q_last := x |> = q.
Proof. intros <-. by destruct q. Qed.
Lemma set_first_id q x : q.(q_first) = x → q <| q_first := x |> = q.
Proof. intros <-. by destruct q. Qed.
Lemma link_front mp n s :
  link_in mp None n s =
  (s ← set_next mp n s; s ← opt_prev n (Some mp) s; set_prev mp None s).
Proof.
  unfold link_in. destruct (set_next mp n s); [|done]. cbn.
  destruct (opt_prev n (Some mp) s0); [|done]. cbn. by destruct (set_prev mp None s1).
Qed.
Lemma putbq_pri_ok s a m held :
  ready s a m held → s_hi m →
  ∃ s', __putbq_pri s m.(s_id) = Some (2, s') ∧
    repr s' (put_at (prio m) (before (prio m) a.(a_list)) (a <| a_held := held |>)).
Proof.
  intros Hr Hm. pose proof (rd_cell _ _ _ _ Hr) as (n & p & Hc).
  assert (Hp : s_hi (prio m)) by (by rewrite prio_hi).
  rewrite (before_hi _ _ Hp (rd_valid_l _ _ _ _ Hr)).
  set (l := a_list a) in *. pose proof (rd_mid _ _ _ _ Hr [] l eq_refl) as Hn.
  destruct (zero_band _ _ _ _ _ _ Hr Hm Hc) as (h1 & E1 & H1 & HL & HH).
  unfold __putbq_pri. rewrite E1. cbn [mbind option_bind]. upd. rewrite (rd_first _ _ _ _ Hr).
  fold l. set (s1 := s <| heap := h1 |>).
  assert (Hs1 : heap s1 = h1) by done. rewrite <- Hs1 in HL, HH, H1.
  destruct (link_put s1 [] m (prio m) l (a_held a) held n p HL HH
    (rd_ids _ _ _ _ Hr) (rd_perm _ _ _ _ Hr) (prio_id m) H1) as (h' & E2 & HL' & HH').
  change (last_id None []) with (@None Z) in E2. rewrite link_front in E2.
  destruct (set_next _ _ _) as [s2|]; [|done]. cbn [mbind option_bind] in E2 |- *.
  destruct (opt_prev _ _ _) as [s3|]; [|done]. cbn [mbind option_bind] in E2 |- *.
  rewrite E2. cbn [mbind option_bind]. clear E2 s2 s3.
  assert (Hn' : NoDup (ids ([] ++ prio m :: l))).
  { apply ids_app_l in Hn. revert Hn. rewrite !ids_app. cbn. by rewrite prio_id. }
  pose proof (finish_put0 s a (prio m) held [] l h' (rd_crepr _ _ _ _ Hr) eq_refl
    (rd_first _ _ _ _ Hr) (rd_last _ _ _ _ Hr) Hn' HL' HH' (prio_band m Hm)) as F.
  cbn zeta in F.
  assert (Hm' : h' !! s_id m = Some (cell (prio m) (first_id l None) None)).
  { destruct HL' as [HL' _]. by rewrite prio_id in HL'. }
  set (s4 := (s <| heap := h1 |>) <| heap := h' |>).
  set (s5 := if bool_decide _ then _ else _).
  assert (E5 : s5 = Sq h' ((s.(qu) <| q_last := last_id None (prio m :: l) |>)
                             <| q_first := Some m.(s_id) |>) s.(kmem)).
  { subst s5. pose proof (rd_last _ _ _ _ Hr) as Hl. fold l in Hl.
    change (q_last _) with (q_last (qu s)). rewrite Hl, ids_last_cons.
    destruct l as [|y l' _] using rev_ind.
    - rewrite bool_decide_true by done. rewrite prio_id. done.
    - rewrite ids_last_snoc, bool_decide_false by done.
      rewrite ids_last_snoc in Hl |- *. by rewrite set_last_id. }
  rewrite E5, on_qu_eq. cbn [heap qu kmem]. rewrite Hm'. cbn [mbind option_bind].
  rewrite msgsize_cell. eexists. split; [reflexivity|]. rewrite on_qu_eq. cbn [heap qu kmem].
  cbn [app first_id] in F. rewrite prio_id in F. exact F.
Qed.

Lemma prio_norm m : s_hi m = false → prio m = m.
Proof. unfold prio. by intros ->. Qed.
Lemma link_back mp p s :
  link_in mp p None s = (s ← set_next mp None s; s ← set_prev mp p s; opt_next p (Some mp) s).
Proof. done. Qed.
Lemma putq_norm0_ok s a m held :
  ready s a m held → s_hi m = false → m.(s_band) = 0 →
  ∃ s', __putq_norm s m.(s_id) =
      Some (1 + Z.b2z (bool_decide (a.(a_list) = []) && negb a.(a_noenb) && a.(a_wantr)), s') ∧
    repr s' (put_at m (a.(a_list), []) (a <| a_held := held |>)).
Proof.
  intros Hr Hm Hb. pose proof (rd_cell _ _ _ _ Hr) as (n & p & Hc).
  set (l := a_list a) in *. pose proof (eq_sym (app_nil_r l)) as E.
  pose proof (rd_mid _ _ _ _ Hr l [] E) as Hn. apply ids_app_l in Hn.
  pose proof (rd_linked _ _ _ _ Hr) as HL. pose proof (rd_ids _ _ _ _ Hr) as Hids.
  pose proof (rd_first _ _ _ _ Hr) as Hf. pose proof (rd_last _ _ _ _ Hr) as Hl.
  fold l in HL, Hids, Hf, Hl. rewrite E in HL, Hids.
  destruct (link_put s l m m [] (a_held a) held n p HL (rd_held _ _ _ _ Hr) Hids
    (rd_perm _ _ _ _ Hr) eq_refl Hc) as (h' & E2 & HL' & HH').
  cbn [first_id] in E2. rewrite link_back in E2.
  unfold __putq_norm. rewrite Hc. cbn [mbind option_bind StrQueue.b_band cell]. rewrite Hb.
  cbn [Z.eqb]. rewrite Hl. destruct (set_next _ _ _) as [s2|]; [|done].
  cbn [mbind option_bind] in E2 |- *. destruct (set_prev _ _ _) as [s3|]; [|done].
  cbn [mbind option_bind] in E2 |- *. rewrite E2. cbn [mbind option_bind]. clear E2 s2 s3.
  set (q' := (s.(qu) <| q_last := last_id None (l ++ [m]) |>) <| q_first := first_id (l ++ [m]) None |>).
  set (s4 := if bool_decide _ then _ else _).
  assert (E4 : s4 = Sq h' q' s.(kmem)).
  { subst s4 q'. change (q_first (qu _)) with (q_first (qu s)). rewrite Hf, ids_last_snoc.
    destruct l as [|x l']; [done|]. cbn [app first_id] in *.
    rewrite bool_decide_false by done. by rewrite set_first_id. }
  rewrite E4, !on_qu_eq. cbn [heap qu kmem]. rewrite msgsize_cell.
  eexists. split.
  - f_equal. f_equal. f_equal. f_equal.
    rewrite (is_first_ok m l []); [|done|by rewrite add_count_first].
    pose proof (rd_crepr _ _ _ _ Hr) as Hq. rewrite add_count_msg. unfold add_count, q'.
    destruct (_ <? _); unfold add_msg; upd; by rewrite (cr_noenb _ _ _ Hq), (cr_wantr _ _ _ Hq).
  - rewrite E in Hf, Hl.
    exact (finish_put0 s a m held l [] h' (rd_crepr _ _ _ _ Hr) E Hf Hl Hn HL' HH' Hb).
Qed.
(** The places of a message that is not high priority. *)
Lemma rd_behind s a m held :
  ready s a m held → s_hi m = false →
  skip (fun c => m.(s_band) <=? c.(b_band)) s (last_id None (span s_hi a.(a_list)).1)
    (first_id (span s_hi a.(a_list)).2 None) =
  Some (last_id None (behind m a.(a_list)).1, first_id (behind m a.(a_list)).2 None).
Proof.
  intros Hr Hm. apply skip_behind; [by eapply rd_linked|by eapply rd_nodup|by eapply rd_desc|
    by eapply rd_valid_l|done|by eapply rd_valid].
Qed.
Lemma rd_before s a m held :
  ready s a m held → s_hi m = false →
  skip (fun c => m.(s_band) <? c.(b_band)) s (last_id None (span s_hi a.(a_list)).1)
    (first_id (span s_hi a.(a_list)).2 None) =
  Some (last_id None (before m a.(a_list)).1, first_id (before m a.(a_list)).2 None).
Proof.
  intros Hr Hm. apply skip_before; [by eapply rd_linked|by eapply rd_nodup|by eapply rd_desc|
    by eapply rd_valid_l|done|by eapply rd_valid].
Qed.
Lemma putbq_norm0_ok s a m held :
  ready s a m held → s_hi m = false → m.(s_band) = 0 →
  ∃ s', __putbq_norm s m.(s_id) =
      Some (1 + Z.b2z (bool_decide ((before m a.(a_list)).1 = []) && negb a.(a_noenb)
                       && a.(a_wantr)), s') ∧
    repr s' (put_at m (before m a.(a_list)) (a <| a_held := held |>)).
Proof.
  intros Hr Hm Hb. pose proof (rd_cell _ _ _ _ Hr) as (n & p & Hc).
  pose proof (rd_before _ _ _ _ Hr Hm) as Hsk. rewrite Hb in Hsk.
  unfold __putbq_norm. rewrite Hc. cbn [mbind option_bind StrQueue.b_band cell]. rewrite Hb.
  cbn [Z.eqb]. rewrite (rd_first _ _ _ _ Hr).
  rewrite (skip_hi_ok s _ (rd_linked _ _ _ _ Hr) (rd_nodup _ _ _ _ Hr)). cbn [mbind option_bind].
  rewrite Hsk. cbn [mbind option_bind]. clear Hsk.
  pose proof (span_app (fun x => key m <? key x) (a_list a)) as E. fold (before m (a_list a)) in E.
  destruct (before m (a_list a)) as [l1 l2]. cbn [fst snd] in *. symmetry in E.
  pose proof (rd_mid _ _ _ _ Hr _ _ E) as Hn. apply ids_app_l in Hn.
  pose proof (rd_linked _ _ _ _ Hr) as HL. pose proof (rd_ids _ _ _ _ Hr) as Hids.
  pose proof (rd_first _ _ _ _ Hr) as Hf. pose proof (rd_last _ _ _ _ Hr) as Hl.
  rewrite E in HL, Hids, Hf, Hl.
  destruct (link_put s l1 m m l2 (a_held a) held n p HL (rd_held _ _ _ _ Hr) Hids
    (rd_perm _ _ _ _ Hr) eq_refl Hc) as (h' & E2 & HL' & HH').
  rewrite E2. cbn [mbind option_bind]. rewrite heap_eq, !on_qu_eq. cbn [heap qu kmem].
  rewrite mark_ends_ok, msgsize_cell by done. eexists. split.
  - f_equal. f_equal. f_equal. f_equal.
    rewrite (is_first_ok m l1 l2); [|done|by rewrite add_count_first].
    pose proof (rd_crepr _ _ _ _ Hr) as Hq. rewrite add_count_msg. unfold add_count.
    destruct (_ <? _); unfold add_msg; upd; by rewrite (cr_noenb _ _ _ Hq), (cr_wantr _ _ _ Hq).
  - exact (finish_put0 s a m held l1 l2 h' (rd_crepr _ _ _ _ Hr) E Hf Hl Hn HL' HH' Hb).
Qed.

Lemma repr_grow s a b ok a1 q1 :
  repr s a → grow b a = (ok, a1) → crepr q1 a1.(a_kmem) a1 →
  q1.(q_first) = s.(qu).(q_first) → q1.(q_last) = s.(qu).(q_last) →
  repr ((s <| qu := q1 |>) <| StrQueue.kmem := a1.(a_kmem) |>) a1.
Proof.
  intros [[] _] Hg Hq Hf Hl. split; [|done].
  apply grow_spec in Hg as (c & km & -> & _). split; upd; congruence.
Qed.
Lemma ready_grow s a m held ok a1 :
  ready s a m held → m.(s_band) ≠ 0 → grow m.(s_band) a = (ok, a1) →
  ∃ q1, __get_qband s.(qu) s.(kmem) m.(s_band) =
      (if ok then Some (idx a1 m.(s_band)) else None, q1, a1.(a_kmem)) ∧
    ready ((s <| qu := q1 |>) <| StrQueue.kmem := a1.(a_kmem) |>) a1 m held ∧
    a1.(a_list) = a.(a_list) ∧ a1.(a_noenb) = a.(a_noenb) ∧ a1.(a_wantr) = a.(a_wantr) ∧
    (ok → 1 ≤ m.(s_band) ≤ nband a1).
Proof.
  intros Hr Hb Hg. pose proof (rd_valid _ _ _ _ Hr) as Hv. unfold valid in Hv.
  destruct (get_ok _ _ _ _ _ _ (rd_crepr _ _ _ _ Hr) (rd_ok _ _ _ _ Hr) (ltac:(lia) : 1 ≤ s_band m < 256) Hg)
    as (q1 & H1 & H2 & H3 & H4).
  exists q1. split; [done|]. split; [split|].
  - eapply repr_grow; [by apply Hr|done|done|done|done].
  - eapply aok_grow; [by apply Hr| |done]. lia.
  - apply grow_spec in Hg as (c & km & -> & _). upd. apply Hr.
  - apply Hr.
  - apply grow_spec in Hg as (c & km & -> & _ & Hok). rewrite grow_nband. upd.
    do 3 (split; [done|]). intros H. specialize (Hok H). lia.
Qed.
Lemma put_band_ok s a m held l1 l2 :
  ready s a m held → 1 ≤ m.(s_band) ≤ nband a → a.(a_list) = l1 ++ l2 →
  let a' := put_at m (l1, l2) (a <| a_held := held |>) in
  ∃ s', put_band s m.(s_id) (last_id None l1) (first_id l2 None) (s_size m) (idx a m.(s_band))
      = Some s' ∧ repr s' a' ∧ is_first m.(s_id) s'.(qu) = bool_decide (l1 = []).
Proof.
  intros Hr Hb E a'. pose proof (rd_cell _ _ _ _ Hr) as (n & p & Hc).
  pose proof (rd_mid _ _ _ _ Hr _ _ E) as Hn. apply ids_app_l in Hn.
  pose proof (rd_linked _ _ _ _ Hr) as HL. pose proof (rd_ids _ _ _ _ Hr) as Hids.
  pose proof (rd_first _ _ _ _ Hr) as Hf. pose proof (rd_last _ _ _ _ Hr) as Hl.
  rewrite E in HL, Hids, Hf, Hl.
  set (s1 := on_qu (mark_band (idx a (s_band m)) (s_id m) (last_id None l1) (first_id l2 None)) s).
  assert (Hq1 : crepr (qu s1) (kmem s1) a) by (apply crepr_mark, Hr).
  destruct (link_put s1 l1 m m l2 (a_held a) held n p HL (rd_held _ _ _ _ Hr) Hids
    (rd_perm _ _ _ _ Hr) eq_refl Hc) as (h' & E2 & HL' & HH').
  destruct (finish_band s1 a m held l1 l2 h' Hq1 E Hf Hl Hn HL' HH'
    (ok_nband _ (rd_ok _ _ _ _ Hr)) Hb) as (q & E3 & F).
  unfold put_band. fold s1. rewrite E3. cbn [mbind option_bind].
  set (s2 := s1 <| qu := add_msg (mark_ends (s_id m) (last_id None l1) (first_id l2 None) q) |>).
  destruct (link_put s2 l1 m m l2 (a_held a) held n p HL (rd_held _ _ _ _ Hr) Hids
    (rd_perm _ _ _ _ Hr) eq_refl Hc) as (h2 & E4 & HL2 & HH2).
  destruct (finish_band s1 a m held l1 l2 h2 Hq1 E Hf Hl Hn HL2 HH2
    (ok_nband _ (rd_ok _ _ _ _ Hr)) Hb) as (q2 & E5 & F2).
  rewrite E3 in E5. injection E5 as <-.
  eexists. split; [exact E4|]. split; [exact F2|].
  apply (is_first_ok m l1 l2); [done|]. pose proof (hr_first _ _ _ (re_heap _ _ F2)) as H.
  rewrite put_at_list in H. exact H.
Qed.

Lemma put_at_noenb m l a : a_noenb (put_at m l a) = a_noenb a.
Proof. unfold put_at. by rewrite on_flow_noenb. Qed.
Lemma put_at_wantr m l a : a_wantr (put_at m l a) = a_wantr a.
Proof. unfold put_at. by rewrite on_flow_wantr. Qed.

Lemma putq_band_ok s a m held ok a1 :
  ready s a m held → s_hi m = false → m.(s_band) ≠ 0 → grow m.(s_band) a = (ok, a1) →
  let a' := if ok then put_at m (behind m a1.(a_list)) (a1 <| a_held := held |>) else a1 in
  ∃ s', __putq_band s m.(s_id) =
      Some (if ok then 1 + Z.b2z (bool_decide ((behind m a1.(a_list)).1 = []) && negb a'.(a_noenb))
            else 0, s') ∧ repr s' a'.
Proof.
  intros Hr Hm Hb Hg a'. pose proof (rd_cell _ _ _ _ Hr) as (n & p & Hc).
  destruct (ready_grow _ _ _ _ _ _ Hr Hb Hg) as (q1 & E1 & Hr1 & El & _ & _ & Hok).
  unfold __putq_band. rewrite Hc. cbn [mbind option_bind]. rewrite (rd_first _ _ _ _ Hr).
  rewrite (skip_hi_ok s _ (rd_linked _ _ _ _ Hr) (rd_nodup _ _ _ _ Hr)). cbn [mbind option_bind].
  change (b_band (cell m n p)) with (s_band m). rewrite E1. rewrite <- El.
  set (s1 := (s <| qu := q1 |>) <| StrQueue.kmem := a_kmem a1 |>) in *. subst a'.
  destruct ok; [|exists s1; split; [done|apply Hr1]].
  rewrite (rd_behind _ _ _ _ Hr1 Hm). cbn [mbind option_bind].
  pose proof (span_app (fun x => key m <=? key x) (a_list a1)) as E. fold (behind m (a_list a1)) in E.
  destruct (behind m (a_list a1)) as [l1 l2]. cbn [fst snd] in *. symmetry in E.
  destruct (put_band_ok s1 a1 m held l1 l2 Hr1 (Hok I) E) as (s' & E2 & F & Hfi).
  rewrite msgsize_cell, E2. cbn [mbind option_bind]. exists s'. split; [|done].
  by rewrite Hfi, (cr_noenb _ _ _ (re_queue _ _ F)).
Qed.
Lemma putbq_band_ok s a m held ok a1 :
  ready s a m held → s_hi m = false → m.(s_band) ≠ 0 → grow m.(s_band) a = (ok, a1) →
  let a' := if ok then put_at m (before m a1.(a_list)) (a1 <| a_held := held |>) else a1 in
  ∃ s', __putbq_band s m.(s_id) =
      Some (if ok then 1 + Z.b2z (bool_decide ((before m a1.(a_list)).1 = []) && negb a'.(a_noenb)
                                  && a'.(a_wantr))
            else 0, s') ∧ repr s' a'.
Proof.
  intros Hr Hm Hb Hg a'. pose proof (rd_cell _ _ _ _ Hr) as (n & p & Hc).
  destruct (ready_grow _ _ _ _ _ _ Hr Hb Hg) as (q1 & E1 & Hr1 & El & _ & _ & Hok).
  unfold __putbq_band. rewrite Hc. cbn [mbind option_bind]. rewrite (rd_first _ _ _ _ Hr).
  rewrite (skip_hi_ok s _ (rd_linked _ _ _ _ Hr) (rd_nodup _ _ _ _ Hr)). cbn [mbind option_bind].
  change (b_band (cell m n p)) with (s_band m). rewrite (rd_before _ _ _ _ Hr Hm).
  cbn [mbind option_bind]. rewrite E1. rewrite <- El.
  set (s1 := (s <| qu := q1 |>) <| StrQueue.kmem := a_kmem a1 |>) in *. subst a'.
  destruct ok; [|exists s1; split; [done|apply Hr1]].
  pose proof (span_app (fun x => key m <? key x) (a_list a1)) as E. fold (before m (a_list a1)) in E.
  destruct (before m (a_list a1)) as [l1 l2]. cbn [fst snd] in *. symmetry in E.
  destruct (put_band_ok s1 a1 m held l1 l2 Hr1 (Hok I) E) as (s' & E2 & F & Hfi).
  rewrite msgsize_cell, E2. cbn [mbind option_bind]. exists s'. split; [|done].
  by rewrite Hfi, (cr_noenb _ _ _ (re_queue _ _ F)), (cr_wantr _ _ _ (re_queue _ _ F)).
Qed.

(** [putq] and [putbq] do what the contract states. *)
Lemma put_enable s a c : repr s a →
  ∃ s', put_result (1 + Z.b2z c) s = (1, s') ∧ repr s' (enable c a).
Proof. intros H. rewrite put_result_ok. eexists. split; [done|]. by apply enable_repr. Qed.
Lemma putq_ok s a i r a' :
  repr s a → aok a → a_putq i a = Some (r, a') → ∃ s', putq s i = Some (r, s') ∧ repr s' a'.
Proof.
  intros Hs Ha. unfold a_putq, put_with.
  destruct (pick i (a_held a)) as [[m held]|] eqn:Et; [|done]. cbn [mbind option_bind].
  destruct (ready_intro _ _ _ _ _ Hs Ha Et) as [-> Hr].
  pose proof (rd_cell _ _ _ _ Hr) as (n & p & Hc).
  unfold putq, __putq, put_class. rewrite Hc. cbn [mbind option_bind]. rewrite hi_type, prio_hi.
  assert (0 ≤ nband a) by (unfold nband; lia).
  destruct (s_hi m) eqn:Hm; cbn [negb].
  - rewrite prio_band, grow_none by (by rewrite ?Hm). cbn [negb]. intros [= <- <-].
    destruct (putq_pri_ok s a m held Hr) as (s1 & -> & R); [by rewrite Hm|].
    cbn [mbind option_bind]. destruct (put_enable _ _ true R) as (s' & E & R').
    exists s'. by change (put_result 2 s1) with (put_result (1 + Z.b2z true) s1); rewrite E.
  - rewrite prio_norm by done. cbn [orb]. destruct (grow (s_band m) a) as [ok a1] eqn:Eg.
    destruct (Z.eqb_spec (s_band m) 0) as [Hb|Hb].
    + rewrite grow_none in Eg by lia. injection Eg as <- <-. cbn [negb].
      rewrite (behind_0 m) by (rewrite ?key_norm; done || by eapply rd_valid_l).
      intros [= <- <-]. destruct (putq_norm0_ok s a m held Hr Hm Hb) as (s1 & -> & R).
      cbn [mbind option_bind fst snd orb]. rewrite put_at_noenb, put_at_wantr. upd.
      destruct (put_enable _ _ (bool_decide (a_list a = []) && negb (a_noenb a) && a_wantr a) R)
        as (s' & E & R'). exists s'. by rewrite E.
    + destruct (putq_band_ok s a m held ok a1 Hr Hm Hb Eg) as (s1 & E1 & R).
      assert (E2 : __putq_norm s (s_id m) = __putq_band s (s_id m)).
      { unfold __putq_norm. rewrite Hc. cbn [mbind option_bind StrQueue.b_band cell].
        by replace (s_band m =? 0) with false by lia. }
      rewrite E2, E1. cbn [mbind option_bind]. destruct ok; cbn [negb].
      * intros [= <- <-]. destruct (put_enable _ _ (bool_decide ((behind m (a_list a1)).1 = [])
          && negb (a_noenb (put_at m (behind m (a_list a1)) (a1 <| a_held := held |>)))) R)
          as (s' & E & R').
        exists s'. rewrite E. cbn [orb]. rewrite andb_true_r in *. done.
      * intros [= <- <-]. by exists s1.
Qed.
Lemma putbq_ok s a i r a' :
  repr s a → aok a → a_putbq i a = Some (r, a') → ∃ s', putbq s i = Some (r, s') ∧ repr s' a'.
Proof.
  intros Hs Ha. unfold a_putbq, put_with.
  destruct (pick i (a_held a)) as [[m held]|] eqn:Et; [|done]. cbn [mbind option_bind].
  destruct (ready_intro _ _ _ _ _ Hs Ha Et) as [-> Hr].
  pose proof (rd_cell _ _ _ _ Hr) as (n & p & Hc).
  unfold putbq, __putbq. rewrite Hc. cbn [mbind option_bind]. rewrite hi_type, prio_hi.
  assert (0 ≤ nband a) by (unfold nband; lia).
  destruct (s_hi m) eqn:Hm; cbn [negb].
  - rewrite prio_band, grow_none by (by rewrite ?Hm). cbn [negb]. intros [= <- <-].
    destruct (putbq_pri_ok s a m held Hr) as (s1 & -> & R); [by rewrite Hm|].
    cbn [mbind option_bind]. destruct (put_enable _ _ true R) as (s' & E & R').
    exists s'. by change (put_result 2 s1) with (put_result (1 + Z.b2z true) s1); rewrite E.
  - rewrite prio_norm by done. cbn [orb]. destruct (grow (s_band m) a) as [ok a1] eqn:Eg.
    destruct (Z.eqb_spec (s_band m) 0) as [Hb|Hb].
    + rewrite grow_none in Eg by lia. injection Eg as <- <-. cbn [negb].
      intros [= <- <-]. destruct (putbq_norm0_ok s a m held Hr Hm Hb) as (s1 & -> & R).
      cbn [mbind option_bind]. rewrite put_at_noenb, put_at_wantr. upd.
      destruct (put_enable _ _ (bool_decide ((before m (a_list a)).1 = []) && negb (a_noenb a)
        && a_wantr a) R) as (s' & E & R'). exists s'. by rewrite E.
    + destruct (putbq_band_ok s a m held ok a1 Hr Hm Hb Eg) as (s1 & E1 & R).
      assert (E2 : __putbq_norm s (s_id m) = __putbq_band s (s_id m)).
      { unfold __putbq_norm. rewrite Hc. cbn [mbind option_bind StrQueue.b_band cell].
        by replace (s_band m =? 0) with false by lia. }
      rewrite E2, E1. cbn [mbind option_bind]. destruct ok; cbn [negb].
      * intros [= <- <-]. destruct (put_enable _ _ (bool_decide ((before m (a_list a1)).1 = [])
          && negb (a_noenb (put_at m (before m (a_list a1)) (a1 <| a_held := held |>)))
          && a_wantr (put_at m (before m (a_list a1)) (a1 <| a_held := held |>))) R)
          as (s' & E & R').
        exists s'. by rewrite E.
      * intros [= <- <-]. by exists s1.
Qed.

(** ** Removing messages *)

Lemma sub_count_ok l1 m l2 c :
  c = count m.(s_band) (l1 ++ m :: l2) → u64 (c - s_size m) = count m.(s_band) (l1 ++ l2).
Proof. intros ->. by rewrite <- count_eq_sub. Qed.
Lemma crepr_remove0 q kmem a m l1 l2 :
  crepr q kmem a → a.(a_list) = l1 ++ m :: l2 → m.(s_band) = 0 →
  ∃ q', drain (sub_count (s_size m) (sub_msg q)) = ((unqueue m (l1 ++ l2) a).1, q') ∧
    crepr q' kmem (unqueue m (l1 ++ l2) a).2 ∧
    q'.(q_first) = q.(q_first) ∧ q'.(q_last) = q.(q_last).
Proof.
  intros [] El Hm. destruct cr_queue0 as (C1 & C2 & C3 & C4 & C5).
  unfold unqueue, flow_at, on_flow, drain, sub_count, sub_msg, wakes, lower, drains. rewrite Hm, Z.eqb_refl.
  cbn [fst snd]. upd. rewrite El in *. rewrite <- Hm, (sub_count_ok l1 m l2) by (by rewrite Hm).
  rewrite C3, C4, C5.
  assert (Hb : ∀ b, 1 ≤ b → in_band b (l1 ++ m :: l2) = in_band b (l1 ++ l2))
    by (intros; apply in_band_ne; lia).
  assert (Hlt : ∀ i f, a_bands a !! i = Some f → 1 ≤ nband a - Z.of_nat i)
    by (intros i f Hi%lookup_lt_Some; unfold nband; lia).
  rewrite Hm in *.
  assert (Hms : s64 (q_msgs q - 1) = s64 (Z.of_nat (length (l1 ++ l2)))).
  { rewrite cr_msgs0, length_mid, s64_sub. f_equal. lia. }
  assert (Hbs : ∀ i qb f, q_bandp q !! i = Some qb → a_bands a !! i = Some f →
    band_ok qb (in_band (nband a - Z.of_nat i) (l1 ++ l2)) f).
  { intros i qb f Hqb Hf. rewrite <- Hb by eauto. eauto. }
  destruct ((count 0 (l1 ++ l2) =? 0) || (count 0 (l1 ++ l2) <? f_lowat (a_q a))); cbn [andb];
    [destruct (f_full (a_q a)) eqn:Ef; cbn [andb]; [destruct (f_wantw (a_q a)) eqn:Ew|]|];
    eexists; (split; [reflexivity|]); (split; [|done]);
    split; unfold nband, queue_ok in *; upd; try done; cbn; repeat split; congruence.
Qed.
Lemma crepr_remove_band q kmem a m l1 l2 :
  crepr q kmem a → nband a < 256 → a.(a_list) = l1 ++ m :: l2 → 1 ≤ m.(s_band) ≤ nband a →
  ∃ q', drain_band (idx a m.(s_band)) (sub_band (idx a m.(s_band)) (s_size m) (sub_msg q))
      = Some ((unqueue m (l1 ++ l2) a).1, q') ∧
    crepr q' kmem (unqueue m (l1 ++ l2) a).2 ∧
    q'.(q_first) = q.(q_first) ∧ q'.(q_last) = q.(q_last).
Proof.
  intros Hq Hn El Hb. destruct (band_at _ _ _ _ Hq Hb) as (qb & f & Hqb & Hf & B).
  set (b := s_band m) in *. set (i := idx a b) in *.
  pose proof (cr_msgs _ _ _ Hq) as Hms. pose proof (cr_blocked _ _ _ Hq) as Hbl.
  destruct B as (B1 & B2 & B3 & B4 & B5 & B6). rewrite band_count, El in B1.
  pose proof (sub_count_ok l1 m l2 _ B1) as Hc. fold b in Hc.
  assert (Hlen : s64 (qb_msgs qb - 1) = s64 (Z.of_nat (length (in_band b (l1 ++ l2))))).
  { rewrite B2, s64_sub, El, (in_band_eq b l1 m l2 eq_refl). cbn [length]. f_equal. lia. }
  assert (Hfl : flow_at b a = Some f).
  { unfold flow_at. replace (b =? 0) with false by lia. by replace (b <=? nband a) with true by lia. }
  set (c := count b (l1 ++ l2)) in *.
  assert (Hrm : unqueue m (l1 ++ l2) a = (wakes c f,
      ((a <| a_list := l1 ++ l2 |>) <| a_held := m :: a.(a_held) |>)
        <| a_bands := alter (lower c) i (a_bands a) |>)).
  { unfold unqueue, on_flow. fold b. rewrite Hfl. by replace (b =? 0) with false by lia. }
  rewrite Hrm. cbn [fst snd].
  set (G := fun qb0 : qband => qb0 <| qb_msgs := s64 (qb0.(qb_msgs) - 1) |>
    <| qb_count := u64 (qb0.(qb_count) - s_size m) |>).
  unfold drain_band, sub_band, set_band, sub_msg. upd. fold G.
  rewrite list_lookup_alter_eq, Hqb. cbn [fmap option_fmap option_map mbind option_bind].
  assert (HG : qb_count (G qb) = c ∧ qb_lowat (G qb) = f_lowat f ∧ qb_full (G qb) = f_full f ∧
    qb_wantw (G qb) = f_wantw f) by (subst G; cbn beta; upd; done).
  destruct HG as (-> & -> & -> & ->).
  assert (Hne : ∀ c, c ≠ b → in_band c (l1 ++ l2) = in_band c (a_list a)).
  { intros x Hx. rewrite El. symmetry. apply in_band_ne. fold b. congruence. }
  assert (Hm1 : s64 (q_msgs q - 1) = s64 (Z.of_nat (length (l1 ++ l2)))).
  { rewrite Hms, El, length_mid, s64_sub. f_equal. lia. }
  pose proof (n_full_range (a_bands a)) as Hr.
  assert (Hfull : f_full f = true → 1 ≤ n_full (a_bands a)).
  { intros E. pose proof (n_full_alter (fun _ => Flow 0 0 false false) i _ _ Hf) as H.
    pose proof (n_full_range (alter (fun _ => Flow 0 0 false false) i (a_bands a))).
    rewrite E in H. cbn in H. lia. }
  unfold wakes, drains.
  destruct ((c =? 0) || (c <? f_lowat f)) eqn:Ec; cbn [andb];
    [destruct (f_full f) eqn:Ef; cbn [andb]; [destruct (f_wantw f) eqn:Ew|]|].
  all: eexists; split; [reflexivity|]; split; [|done].
  - apply (crepr_band_upd q _ kmem a _ b qb f
             (fun x => ((G x) <| qb_full := false |>) <| qb_wantw := false |>) (lower c)); try done;
      unfold lower, drains; upd; rewrite ?Ec, ?Ef, ?Ew; cbn [andb].
    + by rewrite !list_alter_alter_eq.
    + cbn. rewrite Hbl. unfold u8. specialize (Hfull eq_refl). unfold nband in *. rewrite Z.mod_small by lia. lia.
    + unfold band_ok. subst G. cbn beta. upd. rewrite Hc, band_count. cbn. by repeat split.
  - apply (crepr_band_upd q _ kmem a _ b qb f
             (fun x => (G x) <| qb_full := false |>) (lower c)); try done;
      unfold lower, drains; upd; rewrite ?Ec, ?Ef, ?Ew; cbn [andb].
    + by rewrite !list_alter_alter_eq.
    + cbn. rewrite Hbl. unfold u8. specialize (Hfull eq_refl). unfold nband in *. rewrite Z.mod_small by lia. lia.
    + unfold band_ok. subst G. cbn beta. upd. rewrite Hc, band_count. cbn. by repeat split.
  - apply (crepr_band_upd q _ kmem a _ b qb f G (lower c)); try done;
      unfold lower, drains; upd; rewrite ?Ec, ?Ef, ?Ew; cbn [andb].
    + rewrite ?Ef. lia.
    + unfold band_ok. subst G. cbn beta. upd. rewrite Hc, band_count. rewrite ?Ef. by repeat split.
  - apply (crepr_band_upd q _ kmem a _ b qb f G (lower c)); try done;
      unfold lower, drains; upd; rewrite ?Ec; cbn [andb].
    + lia.
    + unfold band_ok. subst G. cbn beta. upd. rewrite Hc, band_count. by repeat split.
Qed.

(** The links of the next and of the previous message around a message that goes. *)
Lemma unlink_next_ok s m l p v x y :
  linked s.(heap) v l None → NoDup (ids l) → m.(s_id) ∉ ids l →
  s.(heap) !! m.(s_id) = Some (cell m x y) →
  ∃ h' x', match first_id l None with
           | Some b => s ← set_prev b p s; set_next m.(s_id) None s
           | None => Some s
           end = Some (s <| heap := h' |>) ∧
    linked h' p l None ∧ h' !! m.(s_id) = Some (cell m x' y) ∧ frame (m :: l) s.(heap) h'.
Proof.
  intros Hl Hn Hid Hm. destruct (opt_prev_ok s v l None p Hl Hn) as (h1 & E & L & S).
  destruct l as [|z l].
  - exists (heap s), x. cbn in *. by destruct s.
  - cbn [first_id opt_prev] in *. rewrite E. cbn [mbind option_bind].
    assert (Hm1 : h1 !! s_id m = Some (cell m x y)).
    { rewrite S; [done|]. intros [= H]. apply Hid. rewrite <- H. by apply elem_of_cons; left. }
    set (s1 := s <| heap := h1 |>).
    rewrite (upd_next_ok s1 m x y None Hm1). eexists _, _. split; [done|].
    split; [|split; [by rewrite lookup_insert_eq|]].
    + eapply linked_ext; [|exact L]. intros b Hb. rewrite lookup_insert_ne; [done|]. by intros <-.
    + intros b Hb. cbn in Hb. rewrite !not_elem_of_cons in Hb. destruct Hb as (B1 & B2 & _).
      rewrite lookup_insert_ne by done. apply S. congruence.
Qed.
Lemma unlink_prev_ok s m l n v x y :
  linked s.(heap) None l v → NoDup (ids l) → m.(s_id) ∉ ids l →
  s.(heap) !! m.(s_id) = Some (cell m x y) →
  ∃ h' y', match last_id None l with
           | Some b => s ← set_next b n s; set_prev m.(s_id) None s
           | None => Some s
           end = Some (s <| heap := h' |>) ∧
    linked h' None l n ∧ h' !! m.(s_id) = Some (cell m x y') ∧ frame (m :: l) s.(heap) h'.
Proof.
  intros Hl Hn Hid Hm. destruct (opt_next_ok s None l v n Hl Hn) as (h1 & E & L & S).
  destruct (last_id None l) as [b|] eqn:El.
  - cbn [opt_next] in *. rewrite E. cbn [mbind option_bind]. pose proof (last_id_in _ _ El) as Hb.
    assert (Hm1 : h1 !! s_id m = Some (cell m x y)).
    { rewrite S; [done|]. by intros [= ->]. }
    set (s1 := s <| heap := h1 |>).
    rewrite (upd_prev_ok s1 m x y None Hm1). eexists _, _. split; [done|].
    split; [|split; [by rewrite lookup_insert_eq|]].
    + eapply linked_ext; [|exact L]. intros c Hc. rewrite lookup_insert_ne; [done|]. by intros <-.
    + intros c Hc. cbn in Hc. rewrite not_elem_of_cons in Hc. destruct Hc as (B1 & B2).
      rewrite lookup_insert_ne by done. apply S. by intros [= ->].
  - exists (heap s), y. destruct l as [|z l _] using rev_ind; [by destruct s|].
    by rewrite ids_last_snoc in El.
Qed.
Lemma ends_without l1 m l2 :
  NoDup (ids (l1 ++ m :: l2)) →
  (first_id (l1 ++ m :: l2) None = Some m.(s_id) ↔ l1 = []) ∧
  (last_id None (l1 ++ m :: l2) = Some m.(s_id) ↔ l2 = []).
Proof.
  intros Hn. destruct (ids_mid _ _ _ Hn) as (_ & _ & D1 & D2 & _). split.
  - destruct l1 as [|x l1]; [done|]. split; [|done]. cbn. intros [= H]. destruct D1.
    rewrite <- H. by apply elem_of_cons; left.
  - destruct l2 as [|x l2 _] using rev_ind.
    + by rewrite ids_last_snoc.
    + rewrite app_comm_cons, app_assoc, ids_last_snoc. split; [|by destruct l2].
      intros [= H]. destruct D2. rewrite <- H. rewrite ids_app. apply elem_of_app. right.
      by apply list_elem_of_singleton.
Qed.
Lemma last_id_mid l1 m l2 : l2 ≠ [] → last_id None (l1 ++ m :: l2) = last_id None (l1 ++ l2).
Proof.
  destruct l2 as [|x l2 _] using rev_ind; [done|]. intros _.
  by rewrite app_comm_cons, !app_assoc, !ids_last_snoc.
Qed.
Lemma unlink_ok s l1 m l2 x y :
  linked s.(heap) None (l1 ++ m :: l2) None → NoDup (ids (l1 ++ m :: l2)) →
  s.(heap) !! m.(s_id) = Some (cell m x y) →
  s.(qu).(q_first) = first_id (l1 ++ m :: l2) None → s.(qu).(q_last) = last_id None (l1 ++ m :: l2) →
  ∃ h' x' y', unlink s m.(s_id) (last_id None l1) (first_id l2 None) =
      Some (Sq h' ((s.(qu) <| q_last := last_id None (l1 ++ l2) |>)
                     <| q_first := first_id (l1 ++ l2) None |>) s.(kmem)) ∧
    linked h' None (l1 ++ l2) None ∧ h' !! m.(s_id) = Some (cell m x' y') ∧
    frame (l1 ++ m :: l2) s.(heap) h'.
Proof.
  intros [L1 [_ L2]]%msgs_linked_app Hn Hm Hf Hl.
  destruct (ends_without _ _ _ Hn) as [Ef El].
  destruct (ids_mid _ _ _ Hn) as (N1 & N2 & D1 & D2 & D12).
  unfold unlink.
  destruct (unlink_prev_ok s m l1 (first_id l2 None) _ x y L1 N1 D1 Hm) as (h1 & y' & E1 & L1' & M1 & F1).
  rewrite E1. cbn [mbind option_bind]. set (s1 := s <| heap := h1 |>).
  assert (L2' : linked (heap s1) (Some (s_id m)) l2 None).
  { eapply linked_ext; [|exact L2]. intros b Hb. apply F1. cbn. rewrite not_elem_of_cons.
    split; [by intros ->|]. intros Hb'. by apply (D12 b). }
  destruct (unlink_next_ok s1 m l2 (last_id None l1) _ x y' L2' N2 D2 M1) as (h2 & x' & E2 & L2'' & M2 & F2).
  rewrite E2. cbn [mbind option_bind]. exists h2, x', y'. split; [|split; [|split]].
  - f_equal. subst s1.
    set (s2 := (s <| heap := h1 |>) <| heap := h2 |>).
    set (s3 := if bool_decide (q_first (qu s2) = _) then _ else _).
    assert (E3 : s3 = Sq h2 (s.(qu) <| q_first := first_id (l1 ++ l2) None |>) s.(kmem)).
    { subst s3. change (q_first (qu s2)) with (q_first (qu s)). rewrite Hf.
      destruct l1 as [|z l1].
      - rewrite bool_decide_true by (by apply Ef). done.
      - rewrite bool_decide_false by (by intros ?%Ef). cbn [app first_id] in *.
        by rewrite set_first_id. }
    rewrite E3. cbn [qu]. upd. rewrite Hl. destruct (decide (l2 = [])) as [->|Hl2].
    + rewrite bool_decide_true by (by apply El). by rewrite app_nil_r.
    + rewrite bool_decide_false by (by intros ?%El). rewrite last_id_mid in Hl by done.
      f_equal. by rewrite set_last_id.
  - apply msgs_linked_app. split; [|done]. eapply linked_ext; [|exact L1']. intros b Hb. apply F2.
    cbn. rewrite not_elem_of_cons. split; [by intros ->|]. by apply D12.
  - done.
  - intros b Hb. rewrite ids_app in Hb. cbn in Hb. rewrite not_elem_of_app, not_elem_of_cons in Hb.
    destruct Hb as (B1 & B2 & B3). rewrite F2, F1; cbn; rewrite ?not_elem_of_cons; done.
Qed.

Lemma unqueue_list m l a : a_list (unqueue m l a).2 = l.
Proof. unfold unqueue. cbn [snd]. by rewrite on_flow_list. Qed.
Lemma unqueue_held m l a : a_held (unqueue m l a).2 = m :: a_held a.
Proof. unfold unqueue. cbn [snd]. by rewrite on_flow_held. Qed.
Lemma linked_mid h l1 m l2 :
  linked h None (l1 ++ m :: l2) None →
  h !! m.(s_id) = Some (cell m (first_id l2 None) (last_id None l1)).
Proof. by intros [_ [H _]]%msgs_linked_app. Qed.
Lemma on_queue_mid n l1 m l2 :
  Forall (on_queue n) (l1 ++ m :: l2) → Forall valid (l1 ++ m :: l2) →
  m.(s_band) = 0 ∨ 1 ≤ m.(s_band) ≤ n.
Proof. rewrite !Forall_mid. unfold on_queue, valid. intros [[] _] [[] _]. lia. Qed.
Lemma crepr_unmark q kmem a i mp p n : crepr q kmem a → crepr (unmark_band i mp p n q) kmem a.
Proof.
  apply crepr_alter. intros qb k fl H. unfold band_ok in *. destruct (_ && _); [done|].
  destruct (bool_decide (qb_first qb = Some mp)); upd;
    destruct (bool_decide (_ = Some mp)); upd; done.
Qed.
(** What remains is represented once the counters are. *)
Lemma unqueue_repr s a l1 m l2 h' q x y :
  repr s a → aok a → a.(a_list) = l1 ++ m :: l2 →
  linked h' None (l1 ++ l2) None → h' !! m.(s_id) = Some (cell m x y) →
  frame (l1 ++ m :: l2) s.(heap) h' →
  q.(q_first) = first_id (l1 ++ l2) None → q.(q_last) = last_id None (l1 ++ l2) →
  crepr q s.(kmem) (unqueue m (l1 ++ l2) a).2 →
  repr (Sq h' q s.(kmem)) (unqueue m (l1 ++ l2) a).2.
Proof.
  intros Hr Ha El HL Hm Hf H1 H2 H3. split; [|done]. rewrite unqueue_list, unqueue_held.
  split; [done|done|done|]. apply list.Forall_cons. split; [by do 2 eexists|].
  eapply held_frame; [|exact Hf|apply Hr]. rewrite <- El. apply Ha.
Qed.
Lemma rmvq_ok s a l1 m l2 :
  repr s a → aok a → a.(a_list) = l1 ++ m :: l2 →
  ∃ s', __rmvq s m.(s_id) = Some ((unqueue m (l1 ++ l2) a).1, s') ∧
        repr s' (unqueue m (l1 ++ l2) a).2 ∧ frame (l1 ++ m :: l2) s.(heap) s'.(heap).
Proof.
  intros Hr Ha El. pose proof Hr as [[Hf Hl HL _] Hq]. rewrite El in Hf, Hl, HL.
  pose proof (ok_ids a Ha) as Hn. apply ids_app_l in Hn. rewrite El in Hn.
  pose proof (linked_mid _ _ _ _ HL) as Hm.
  destruct (unlink_ok s l1 m l2 _ _ HL Hn Hm Hf Hl) as (h' & x & y & E & HL' & Hm' & Hfr).
  pose proof (ok_queue a Ha) as Hoq. pose proof (ok_valid a Ha) as Hv.
  apply list.Forall_app in Hv as [Hv _]. rewrite El in Hoq, Hv.
  unfold __rmvq. rewrite Hm. cbn [mbind option_bind]. change (b_band (cell m _ _)) with (s_band m).
  destruct (on_queue_mid _ _ _ _ Hoq Hv) as [Hb|Hb].
  - rewrite Hb. cbn [Z.eqb]. unfold __rmvq_norm. rewrite Hm. cbn [mbind option_bind].
    change (StrQueue.b_next (cell m ?n _)) with n. change (StrQueue.b_prev (cell m _ ?p)) with p.
    rewrite E. cbn [mbind option_bind]. rewrite msgsize_cell, !on_qu_eq. cbn [heap qu kmem].
    set (q1 := ((qu s) <| q_last := _ |>) <| q_first := _ |>).
    destruct (crepr_remove0 q1 (kmem s) a m l1 l2) as (q' & E' & R & R1 & R2);
      [by apply crepr_ends|done|done|].
    rewrite E'. eexists. split; [reflexivity|].
    split; [eapply (unqueue_repr s a l1 m l2 h' q'); done|done].
  - replace (s_band m =? 0) with false by lia. unfold __rmvq_band. rewrite Hm.
    cbn [mbind option_bind]. change (StrQueue.b_next (cell m ?n _)) with n.
    change (StrQueue.b_prev (cell m _ ?p)) with p. change (b_band (cell m _ _)) with (s_band m).
    rewrite E. cbn [mbind option_bind]. rewrite msgsize_cell, !on_qu_eq. cbn [heap qu kmem].
    set (q1 := ((qu s) <| q_last := _ |>) <| q_first := _ |>).
    assert (Hq1 : crepr q1 (kmem s) a) by (by apply crepr_ends).
    assert (Hfi : __find_qband (sub_msg q1) (s_band m) = Some (idx a (s_band m)))
      by (apply (find_ok q1 (kmem s)); [done|apply Ha|done]).
    rewrite Hfi. cbn [mbind option_bind]. rewrite ?on_qu_eq. cbn [heap qu kmem].
    set (q2 := unmark_band (idx a (s_band m)) (s_id m) (last_id None l1) (first_id l2 None) q1).
    assert (Hq2 : crepr q2 (kmem s) a) by (by apply crepr_unmark).
    destruct (crepr_remove_band q2 (kmem s) a m l1 l2) as (q' & E' & R & R1 & R2);
      [done|apply Ha|done|done|].
    change (unmark_band _ _ _ _ (sub_msg q1)) with (sub_msg q2). rewrite E'.
    cbn [mbind option_bind]. eexists. split; [reflexivity|].
    split; [eapply (unqueue_repr s a l1 m l2 h' q'); done|done].
Qed.

Lemma repr_wantr s a b :
  repr s a → repr (s <| qu; q_wantr := b |>) (a <| a_wantr := b |>).
Proof. intros [[] []]. unfold queue_ok in *. split; split; upd; done. Qed.
Lemma getq_ok s a :
  repr s a → aok a →
  ∃ s', __getq s = Some (s_id <$> (a_getq a).1.1, (a_getq a).1.2, s') ∧ repr s' (a_getq a).2.
Proof.
  intros Hr Ha. pose proof Hr as [[Hf Hl HL _] Hq]. unfold __getq, a_getq.
  destruct (a_list a) as [|m l] eqn:El.
  { rewrite Hf. eexists. split; [reflexivity|]. cbn [snd]. by apply repr_wantr. }
  pose proof (ok_ids a Ha) as Hn. apply ids_app_l in Hn. rewrite El in Hn.
  pose proof (linked_mid _ [] _ _ HL) as Hm.
  destruct (ids_mid [] m l Hn) as (_ & N2 & _ & D2 & _).
  pose proof (ok_queue a Ha) as Hoq. pose proof (ok_valid a Ha) as Hv.
  apply list.Forall_app in Hv as [Hv _]. rewrite El in Hoq, Hv.
  rewrite Hf. cbn [first_id]. rewrite Hm. cbn [mbind option_bind].
  change (StrQueue.b_next (cell m ?n _)) with n.
  set (s1 := s <| qu; q_first := first_id l None |>).
  assert (L1 : linked (heap s1) (Some (s_id m)) l None) by apply HL.
  destruct (unlink_next_ok s1 m l None _ _ _ L1 N2 D2 Hm) as (h' & x & E & HL' & Hm' & Hfr).
  rewrite E. cbn [mbind option_bind].
  set (q1 := (s.(qu) <| q_last := last_id None l |>) <| q_first := first_id l None |>).
  set (s2 := if bool_decide _ then _ else _).
  assert (E2 : s2 = Sq h' q1 s.(kmem)).
  { subst s2 q1. change (q_last (qu _)) with (q_last (qu s)). rewrite Hl.
    destruct (ends_without [] m l Hn) as [_ Ee]. cbn [app] in Ee.
    destruct (decide (l = [])) as [->|Hne].
    - rewrite bool_decide_true by (by apply Ee). done.
    - rewrite bool_decide_false by (by intros ?%Ee). rewrite set_last_id; [done|].
      rewrite Hl. by apply (last_id_mid [] m l). }
  rewrite E2, on_qu_eq. cbn [heap qu kmem]. clear E2 s2 E.
  assert (Hq1 : crepr q1 (kmem s) a) by (by apply crepr_ends).
  change (b_band (cell m _ _)) with (s_band m). rewrite !msgsize_cell.
  assert (Hend : ∀ q', crepr q' (kmem s) (unqueue m l a).2 → q_first q' = first_id l None →
    q_last q' = last_id None l → repr (Sq h' q' (kmem s)) (unqueue m l a).2).
  { intros q' R1 R2 R3. eapply (unqueue_repr s a [] m l h' q'); done. }
  destruct (on_queue_mid _ [] _ _ Hoq Hv) as [Hb|Hb].
  - rewrite Hb. cbn [Z.eqb]. rewrite !on_qu_eq. cbn [heap qu kmem].
    destruct (crepr_remove0 q1 (kmem s) a m [] l Hq1 El Hb) as (q' & E' & R & R1 & R2).
    cbn [app] in E', R. rewrite E'. cbn [mbind option_bind].
    specialize (Hend q' R R1 R2). destruct (unqueue m l a) as [be a'] eqn:Eu. cbn [fst snd] in *.
    eexists. split; [reflexivity|]. exact (repr_wantr _ _ _ Hend).
  - replace (s_band m =? 0) with false by lia.
    assert (Hfi : __find_qband (sub_msg q1) (s_band m) = Some (idx a (s_band m)))
      by (apply (find_ok q1 (kmem s)); [done|apply Ha|done]).
    rewrite !on_qu_eq. cbn [heap qu kmem]. rewrite Hfi. cbn [mbind option_bind].
    rewrite !on_qu_eq. cbn [heap qu kmem].
    set (g := fun qb : qband =>
      if bool_decide (qb_last (qb <| qb_first := q_first (sub_msg q1) |>) = Some (s_id m))
      then (qb <| qb_first := q_first (sub_msg q1) |>) <| qb_last := None |>
      else qb <| qb_first := q_first (sub_msg q1) |>).
    assert (Hq2 : crepr (set_band (idx a (s_band m)) g q1) (kmem s) a).
    { apply crepr_alter; [|done]. intros qb k fl H. subst g. unfold band_ok in *. cbn beta.
      destruct (bool_decide _); upd; done. }
    destruct (crepr_remove_band _ (kmem s) a m [] l Hq2 (ok_nband _ Ha) El Hb)
      as (q' & E' & R & R1 & R2).
    cbn [app] in E', R. change (set_band _ g (sub_msg q1)) with (sub_msg (set_band (idx a (s_band m)) g q1)).
    rewrite E'. cbn [mbind option_bind].
    specialize (Hend q' R R1 R2). destruct (unqueue m l a) as [be a'] eqn:Eu. cbn [fst snd] in *.
    eexists. split; [reflexivity|]. exact (repr_wantr _ _ _ Hend).
Qed.
Lemma bcanput_ok s a b :
  repr s a → aok a → 0 ≤ b →
  ∃ q, __bcanput s.(qu) b = Some ((a_bcanput b a).1, q) ∧
       repr (s <| qu := q |>) (a_bcanput b a).2.
Proof.
  intros Hr Ha Hb. pose proof Hr as [Hh Hq]. unfold __bcanput, a_bcanput, flow_at, on_flow.
  destruct (Z.eqb_spec b 0) as [->|Hb0].
  - destruct (cr_queue _ _ _ Hq) as (C1 & C2 & C3 & C4 & C5). rewrite C4.
    destruct (f_full (a_q a)) eqn:Ef; eexists; (split; [reflexivity|]); cbn [snd].
    + destruct Hh, Hq. split; split; unfold nband, queue_ok in *; upd; try done; cbn; naive_solver.
    + by destruct s.
  - unfold __bcanput_slow. rewrite (cr_nband _ _ _ Hq), (cr_blocked _ _ _ Hq).
    pose proof (ok_nband _ Ha) as Hn.
    destruct (Z.leb_spec b (nband a)); cbn [andb].
    + destruct (band_at _ _ _ b Hq ltac:(lia)) as (qb & f & Hqb & Hf & B).
      rewrite Hf. pose proof B as (_ & _ & _ & _ & B5 & _).
      destruct (Z.ltb_spec 0 (n_full (a_bands a))).
      * rewrite (find_ok _ _ _ _ Hq) by lia. cbn [mbind option_bind]. rewrite Hqb.
        cbn [mbind option_bind]. rewrite B5.
        destruct (f_full f) eqn:Ef; eexists; (split; [reflexivity|]); cbn [snd]; [|by destruct s].
        split; [by destruct Hh|]. upd.
        apply (crepr_band_upd (qu s) _ (kmem s) a _ b qb f (fun qb => qb <| qb_wantw := true |>) want);
          try done; unfold set_band; upd; [lia|cbn; lia|apply (cr_msgs _ _ _ Hq)|].
        unfold band_ok in *. upd. cbn. naive_solver.
      * destruct (f_full f) eqn:Ef.
        { pose proof (n_full_alter (fun _ => Flow 0 0 false false) _ _ _ Hf) as Hx.
          pose proof (n_full_range (alter (fun _ => Flow 0 0 false false) (idx a b) (a_bands a))).
          rewrite Ef in Hx. cbn in Hx. lia. }
        eexists. split; [reflexivity|]. by destruct s.
    + eexists. split; [reflexivity|]. by destruct s.
Qed.

(** ** Flushing *)

(** The messages of a chain, linked by [b_next]. *)
Fixpoint chained (h : gmap Z msgb) (l : list smsg) (n : option Z) : Prop :=
  match l with
  | [] => True
  | m :: l => (∃ p, h !! m.(s_id) = Some (cell m (first_id l n) p)) ∧ chained h l n
  end.
Definition chain_of (l : list smsg) : chain := Chain (first_id l None) (last_id None l).
Lemma chained_app h l k n :
  chained h (l ++ k) n ↔ chained h l (first_id k n) ∧ chained h k n.
Proof. induction l as [|m l IH]; cbn [app chained]; [naive_solver|]. rewrite IH, ids_first_app. tauto. Qed.
Lemma chained_ext h h' l n :
  (∀ b, b ∈ ids l → h' !! b = h !! b) → chained h l n → chained h' l n.
Proof.
  induction l as [|m l IH]; intros He; cbn [chained]; [done|]. intros [[p H] Hl]. split.
  - exists p. rewrite He; [done|]. by apply elem_of_cons; left.
  - apply IH; [|done]. intros b Hb. apply He. by apply elem_of_cons; right.
Qed.
Lemma linked_chained h p l n : linked h p l n → chained h l n.
Proof. revert p; induction l as [|m l IH]; intros p; cbn; [done|]. intros [H Hl]. eauto. Qed.
(** A link that changes leaves the contents of all messages. *)
Lemma held_relink h m x y v w z :
  h !! m.(s_id) = Some (cell m x y) → held_in h z → held_in (<[m.(s_id) := cell m v w]> h) z.
Proof.
  intros Hm (n & p & Hz). unfold held_in. destruct (decide (s_id z = s_id m)) as [E|E].
  - rewrite E in Hz |- *. rewrite Hm in Hz. injection Hz as _ _ H1 H2 H3.
    exists v, w. rewrite lookup_insert_eq. unfold cell. congruence.
  - exists n, p. by rewrite lookup_insert_ne.
Qed.
(** [**mppp = b; *mppp = &b->b_next; **mppp = NULL] appends to the chain. *)
Lemma chain_add s fl m x y :
  chained s.(heap) fl None → NoDup (ids (fl ++ [m])) →
  s.(heap) !! m.(s_id) = Some (cell m x y) →
  ∃ h', ('(c, s) ← chain_put (Some m.(s_id)) (chain_of fl) s; chain_end (Some m.(s_id)) c s)
      = Some (chain_of (fl ++ [m]), s <| heap := h' |>) ∧
    chained h' (fl ++ [m]) None ∧ frame (fl ++ [m]) s.(heap) h' ∧
    (∀ z, held_in s.(heap) z → held_in h' z).
Proof.
  intros Hc Hn Hm. rewrite ids_app in Hn. apply NoDup_app in Hn as (Nf & Hd & _).
  assert (Dm : m.(s_id) ∉ ids fl).
  { intros H. apply (Hd _ H). by apply list_elem_of_singleton. }
  unfold chain_put, chain_of. cbn [c_end c_mp]. destruct fl as [|z fl _] using rev_ind.
  - change (last_id None []) with (@None Z). unfold chain_end, chain_put.
    cbn [mbind option_bind c_end c_mp]. rewrite (upd_next_ok s m x y None Hm).
    cbn [mbind option_bind]. eexists. split; [reflexivity|].
    split; [split; [|done]; exists y; by rewrite lookup_insert_eq|].
    split; [|intros z; by apply (held_relink _ m x y)].
    intros b Hb. rewrite lookup_insert_ne; [done|]. intros <-. apply Hb. by apply list_elem_of_singleton.
  - rewrite ids_last_snoc. apply chained_app in Hc as [Hc [[p Hz] _]].
    rewrite ids_app in Nf, Dm. apply NoDup_app in Nf as (Nf & Dz & _).
    cbn [first_id] in Hz. rewrite (upd_next_ok s z None p (Some (s_id m)) Hz). cbn [mbind option_bind].
    set (s1 := s <| heap := _ |>).
    assert (Dz' : s_id z ≠ s_id m).
    { intros E. apply Dm. apply elem_of_app. right. rewrite <- E. by apply list_elem_of_singleton. }
    assert (Hm1 : heap s1 !! s_id m = Some (cell m x y)).
    { subst s1. upd. by rewrite lookup_insert_ne. }
    unfold chain_end, chain_put. cbn [mbind option_bind c_end c_mp].
    rewrite (upd_next_ok s1 m x y None Hm1). cbn [mbind option_bind].
    assert (Hother : ∀ b, b ∉ ids [z] → b ∉ ids [m] →
      <[s_id m := cell m None y]> (heap s1) !! b = heap s !! b).
    { intros b B1%not_elem_of_cons B2%not_elem_of_cons. rewrite lookup_insert_ne by naive_solver.
      subst s1. upd. rewrite lookup_insert_ne by naive_solver. done. }
    eexists. split; [rewrite ids_last_snoc, !ids_first_app; cbn; by destruct fl|].
    split; [|split].
    + rewrite <- app_assoc. apply chained_app. split; [|split; [|split; [|done]]].
      * eapply chained_ext; [|exact Hc]. intros b Hb. apply Hother; [by apply Dz|].
        intros B. apply list_elem_of_singleton in B as ->. apply Dm, elem_of_app. by left.
      * exists p. rewrite lookup_insert_ne by done. subst s1. upd. by rewrite lookup_insert_eq.
      * exists y. by rewrite lookup_insert_eq.
    + intros b Hb. rewrite !ids_app, !not_elem_of_app in Hb. destruct Hb as [[_ ?] ?]. by apply Hother.
    + intros w Hw. apply (held_relink _ m x y); [done|]. by apply (held_relink _ z None p).
Qed.

Lemma repr_held s a held : repr s a → Forall (held_in s.(heap)) held → repr s (a <| a_held := held |>).
Proof. intros [[] Hq] H. split; [by split|by apply crepr_held]. Qed.
Lemma repr_set_held_id a : a <| a_held := a.(a_held) |> = a.
Proof. by destruct a. Qed.
Lemma aok_held_perm a held : aok a → held ≡ₚ a.(a_held) → aok (a <| a_held := held |>).
Proof.
  intros [Hi Hd Hv Hq Hn] Hp. split; unfold nband in *; upd; try done.
  - eapply ids_perm; [|exact Hi]. by rewrite Hp.
  - by rewrite Hp.
Qed.
Lemma unqueue_set_held m l a held :
  unqueue m l (a <| a_held := held |>)
  = ((unqueue m l a).1, (unqueue m l a).2 <| a_held := m :: held |>).
Proof.
  unfold unqueue, flow_at, on_flow, idx, nband. cbn [fst snd]. upd. f_equal.
  by destruct (s_band m =? 0).
Qed.
Lemma isdatamsg_cell m n p : isdatamsg (cell m n p) = s_data m.
Proof. done. Qed.

(** The loop of [FLUSHDATA]: [fl] is the chain, [held] the messages of the user. *)
Lemma flush_loop_ok fuel s a dn rest fl held bands :
  repr s a → aok a → a.(a_list) = dn ++ rest → a.(a_held) ≡ₚ fl ++ held →
  chained s.(heap) fl None → (length rest < fuel)%nat →
  ∃ s' a' fl', let r := flush_datas dn rest (a <| a_held := held |>) bands in
    flush_loop fuel (chain_of fl) s (first_id rest None) bands = Some (r.1, chain_of fl', s') ∧
    repr s' a' ∧ aok a' ∧ a' <| a_held := held |> = r.2 ∧ a'.(a_held) ≡ₚ fl' ++ held ∧
    chained s'.(heap) fl' None.
Proof.
  revert s a dn rest fl bands; induction fuel as [|fuel IH];
    intros s a dn rest fl bands Hr Ha El Hh Hc Hf; [lia|].
  destruct rest as [|m rest]; cbn [first_id flush_loop flush_datas]; [by exists s, a, fl|].
  pose proof (hr_linked _ _ _ (re_heap _ _ Hr)) as HL. rewrite El in HL.
  pose proof (linked_mid _ _ _ _ HL) as Hm. rewrite Hm. cbn [mbind option_bind].
  unfold flush_data. rewrite Hm. cbn [mbind option_bind]. rewrite isdatamsg_cell.
  change (StrQueue.b_next (cell m ?n _)) with n. cbn in Hf.
  destruct (s_data m) eqn:Ed.
  - destruct (rmvq_ok s a dn m rest Hr Ha El) as (s1 & E1 & R1 & F1). rewrite E1.
    cbn [mbind option_bind]. pose proof (aok_remove m dn rest a Ha El) as Ha1.
    rewrite unqueue_set_held. cbn [a_held fset].
    destruct (unqueue m (dn ++ rest) a) as [be a1] eqn:Eu.
    assert (El1 : a_list a1 = dn ++ rest) by (by rewrite <- (unqueue_list m (dn ++ rest) a), Eu).
    assert (Eh1 : a_held a1 = m :: a_held a) by (by rewrite <- (unqueue_held m (dn ++ rest) a), Eu).
    cbn [fst snd] in *.
    pose proof (ok_ids _ Ha) as Hids. rewrite El in Hids.
    apply (ids_perm _ _ (Permutation_app_head (dn ++ m :: rest) Hh)) in Hids.
    assert (Hc1 : chained (heap s1) fl None).
    { eapply chained_ext; [|exact Hc]. intros b Hb. apply F1. rewrite ids_app in Hids.
      apply NoDup_app in Hids as (_ & Hd & _). intros Hb'. apply (Hd b Hb'). rewrite ids_app.
      apply elem_of_app. by left. }
    assert (Hn1 : NoDup (ids (fl ++ [m]))).
    { assert (P : (dn ++ m :: rest) ++ fl ++ held ≡ₚ (dn ++ rest ++ held) ++ fl ++ [m])
        by solve_Permutation.
      apply (ids_perm _ _ P) in Hids. rewrite ids_app in Hids. by apply NoDup_app in Hids as (_ & _ & ?). }
    pose proof (hr_held _ _ _ (re_heap _ _ R1)) as Hheld. rewrite Eh1 in Hheld.
    apply list.Forall_cons in Hheld as Hheld'. destruct Hheld' as [(x & y & Hm1) _].
    destruct (chain_add s1 fl m x y Hc1 Hn1 Hm1) as (h2 & E2 & Hc2 & F2 & K2).
    set (s2 := s1 <| heap := h2 |>) in *.
    assert (R2 : repr s2 a1).
    { destruct R1 as [[] Q]. split; [|exact Q]. split; try done.
      - rewrite El1 in *. eapply linked_ext; [|eassumption]. intros b Hb. apply F2.
        pose proof (ok_ids _ Ha1) as Hi. rewrite El1, Eh1 in Hi.
        rewrite ids_app in Hi. apply NoDup_app in Hi as (_ & Hd & _). intros Hb'.
        apply (Hd b Hb). unfold ids in *. rewrite Hh, fmap_cons, fmap_app in *. set_solver.
      - eapply Forall_impl; [eassumption|]. done. }
    destruct (chain_put (Some (s_id m)) (chain_of fl) s1) as [[c' s1']|]; [|done].
    cbn [mbind option_bind] in E2 |- *. rewrite E2. cbn [mbind option_bind].
    assert (Hm2 : held_in (heap s2) m) by (apply K2; by do 2 eexists).
    destruct Hm2 as (x2 & y2 & Hm2). unfold set_bit. rewrite Hm2. cbn [mbind option_bind].
    change (b_band (cell m _ _)) with (s_band m).
    destruct (IH s2 a1 dn rest (fl ++ [m]) (if be then s_band m :: bands else bands) R2 Ha1 El1)
      as (s' & a' & fl' & H); [|done|lia|].
    { rewrite Eh1, Hh. solve_Permutation. }
    exists s', a', fl'. cbn zeta in H |- *.
    replace ((a1 <| a_held := m :: held |>) <| a_held := held |>) with (a1 <| a_held := held |>) by done.
    exact H.
  - cbn [mbind option_bind]. unfold set_bit. rewrite Hm. cbn [mbind option_bind].
    apply IH; [done|done|by rewrite <- app_assoc|done|done|lia].
Qed.

(** Freeing a chain deletes its messages and no other. *)
Lemma freechain_ok fuel s l :
  chained s.(heap) l None → NoDup (ids l) → (length l < fuel)%nat →
  ∃ h', freechain fuel (first_id l None) s = Some (s <| heap := h' |>) ∧
        (∀ b, b ∉ ids l → h' !! b = s.(heap) !! b) ∧ (∀ b, b ∈ ids l → h' !! b = None).
Proof.
  revert s l; induction fuel as [|fuel IH]; intros s l Hc Hn Hf; [lia|].
  destruct l as [|m l]; cbn [first_id freechain].
  { exists (heap s). split; [by destruct s|]. split; [done|]. intros b Hb. inversion Hb. }
  destruct Hc as [[p Hm] Hc]. rewrite Hm. cbn [mbind option_bind].
  change (StrQueue.b_next (cell m ?n _)) with n. apply NoDup_cons in Hn as [Hm' Hn].
  set (s1 := s <| heap := delete (s_id m) (heap s) |>).
  destruct (IH s1 l) as (h' & E & H1 & H2); [|done|cbn in Hf; lia|].
  { eapply chained_ext; [|exact Hc]. intros b Hb. subst s1. upd. rewrite lookup_delete_ne; [done|].
    by intros <-. }
  exists h'. rewrite E. split; [done|]. split.
  - intros b Hb. cbn in Hb. apply not_elem_of_cons in Hb as [Hb1 Hb2]. rewrite H1 by done.
    subst s1. upd. by rewrite lookup_delete_ne.
  - intros b [->|Hb]%elem_of_cons; [|by apply H2]. rewrite H1 by done. subst s1. upd.
    apply lookup_delete_eq.
Qed.
Lemma chained_size h l n : NoDup (ids l) → chained h l n → (length l ≤ size h)%nat.
Proof.
  intros Hn Hl. rewrite <- (size_dom (D:=gset Z) h).
  replace (length l) with (length (ids l)) by apply length_fmap.
  rewrite <- (size_list_to_set (C:=gset Z) (ids l) Hn). apply subseteq_size.
  intros b Hb. apply elem_of_list_to_set in Hb. apply elem_of_dom. clear Hn.
  induction l as [|m l IH]; [inversion Hb|]. destruct Hl as [[p Hm] Hl].
  apply elem_of_cons in Hb as [->|Hb]; [eauto|]. by apply IH.
Qed.
(** The queue after the chain of flushed messages has been freed. *)
Lemma free_ok s a fl held :
  repr s a → aok a → a.(a_held) ≡ₚ fl ++ held → chained s.(heap) fl None →
  ∃ s', match (chain_of fl).(c_mp) with
        | None => Some s
        | Some mp => freechain (S (size s.(heap))) (Some mp) s
        end = Some s' ∧ repr s' (a <| a_held := held |>) ∧ s'.(qu) = s.(qu) ∧ s'.(kmem) = s.(kmem).
Proof.
  intros Hr Ha Hh Hc. pose proof (ok_ids _ Ha) as Hids.
  apply (ids_perm _ _ (Permutation_app_head (a_list a) Hh)) in Hids.
  rewrite !ids_app in Hids. apply NoDup_app in Hids as (_ & Hd1 & Hids).
  apply NoDup_app in Hids as (Hfl & Hd2 & _).
  assert (Hheld : Forall (held_in (heap s)) held).
  { pose proof (hr_held _ _ _ (re_heap _ _ Hr)) as H. rewrite Hh in H. by apply list.Forall_app in H as [_ H]. }
  destruct fl as [|m fl].
  - exists s. split; [done|]. split; [|done]. by apply repr_held.
  - cbn [chain_of c_mp first_id]. pose proof (chained_size _ _ _ Hfl Hc).
    destruct (freechain_ok (S (size (heap s))) s (m :: fl) Hc Hfl ltac:(lia)) as (h' & E & H1 & _).
    cbn [first_id] in E. rewrite E. eexists. split; [done|]. split; [|done].
    destruct Hr as [[] Hq]. split; [|by apply crepr_held]. split; upd; try done.
    + eapply linked_ext; [|eassumption]. intros b Hb. apply H1. intros Hb'.
      apply (Hd1 b Hb). apply elem_of_app. by left.
    + eapply held_ext; [|exact Hheld]. intros b Hb. apply H1. intros Hb'. by apply (Hd2 b).
Qed.

(** [FLUSHALL]: the counters. *)
Lemma in_band_nil b : in_band b [] = [].
Proof. done. Qed.
Lemma clear_bands_ok qbs fs nb bands :
  length qbs = length fs → nb = Z.of_nat (length fs) → nb < 256 →
  (∀ i qb f, qbs !! i = Some qb → fs !! i = Some f → ∃ l, band_ok qb l f) →
  let r := clear_bands qbs nb bands in let r' := lower_bands fs nb bands in
  length r.1 = length r'.1 ∧ r.2 = r'.2 ∧ n_full r'.1 = 0 ∧
  ∀ i qb f, r.1 !! i = Some qb → r'.1 !! i = Some f → band_ok qb [] f.
Proof.
  revert fs nb bands; induction qbs as [|qb qbs IH]; intros [|f fs] nb bands Hl Hn Hnb Hok;
    cbn [length] in *; try lia; cbn zeta; [done|].
  cbn [clear_bands lower_bands]. destruct (Hok 0%nat qb f eq_refl eq_refl) as [l Hqb].
  destruct Hqb as (_ & _ & B3 & B4 & B5 & B6).
  assert (Hnext : ∀ bands', let r := clear_bands qbs (u8 (nb - 1)) bands' in
    let r' := lower_bands fs (nb - 1) bands' in
    length r.1 = length r'.1 ∧ r.2 = r'.2 ∧ n_full r'.1 = 0 ∧
    ∀ i qb f, r.1 !! i = Some qb → r'.1 !! i = Some f → band_ok qb [] f).
  { intros bands'. unfold u8. rewrite Z.mod_small by (destruct fs; cbn in *; lia).
    apply IH; [lia|lia|lia|]. intros i. exact (Hok (S i)). }
  upd. rewrite B5, B6. unfold wakes, lower, drains. cbn [Z.eqb orb andb].
  destruct (f_full f) eqn:Ef; cbn [andb]; [destruct (f_wantw f) eqn:Ew|];
    [specialize (Hnext (nb :: bands))|specialize (Hnext bands)|specialize (Hnext bands)];
    cbn zeta in Hnext;
    destruct (clear_bands qbs _ _) as [k b1], (lower_bands fs _ _) as [k' b2]; cbn [fst snd] in *;
    destruct Hnext as (H1 & H2 & H3 & H4);
    (split; [cbn; lia|]); (split; [done|]);
    (split; [unfold n_full in *; rewrite filter_cons_False; cbn; congruence|]);
    (intros [|i] x g; cbn; [|apply H4]; intros [= <-] [= <-];
     unfold band_ok; upd; cbn; repeat split; (done || congruence)).
Qed.

(** The state before the chain [fl] is freed. *)
Definition flushed (a : aq) (r : list Z * aq) (fl : list smsg) (s' : sq) (a' : aq) : Prop :=
  repr s' a' ∧ aok a' ∧ a' <| a_held := a.(a_held) |> = r.2 ∧
  a'.(a_held) ≡ₚ fl ++ a.(a_held) ∧ chained s'.(heap) fl None.
Lemma crepr_flushall q kmem a :
  crepr q kmem a → nband a < 256 → a.(a_list) ≠ [] →
  (clear_queue q).1 = (a_flushall a).1 ∧ crepr (clear_queue q).2 kmem (a_flushall a).2 ∧
  (clear_queue q).2.(q_first) = None ∧ (clear_queue q).2.(q_last) = None.
Proof.
  intros [] Hn Hne. unfold a_flushall. rewrite bool_decide_false by done.
  unfold clear_queue. upd. destruct cr_queue0 as (C1 & C2 & C3 & C4 & C5). rewrite C4, C5, ?cr_nband0.
  assert (Hok : ∀ b0, let r := clear_bands (q_bandp q) (nband a) b0 in
    let r' := lower_bands (a_bands a) (nband a) b0 in
    length r.1 = length r'.1 ∧ r.2 = r'.2 ∧ n_full r'.1 = 0 ∧
    ∀ i qb f, r.1 !! i = Some qb → r'.1 !! i = Some f → band_ok qb [] f).
  { intros b0. apply clear_bands_ok; [done|done|done|]. intros i qb f H1 H2.
    eexists. by apply (cr_bands0 i). }
  pose proof (fun b0 => lower_bands_length (a_bands a) (nband a) b0) as Hlen.
  unfold wakes, lower, drains. cbn [Z.eqb orb andb].
  destruct (f_full (a_q a)) eqn:Ef; cbn [andb]; [destruct (f_wantw (a_q a)) eqn:Ew|];
    [specialize (Hok [0]); specialize (Hlen [0])|specialize (Hok []); specialize (Hlen [])
    |specialize (Hok []); specialize (Hlen [])];
    cbn zeta in Hok; upd; rewrite ?cr_nband0;
    destruct (clear_bands (q_bandp q) _ _) as [k b1], (lower_bands (a_bands a) _ _) as [k' b2];
    cbn [fst snd] in *; destruct Hok as (H1 & H2 & H3 & H4);
    (split; [done|]); (split; [|done]);
    split; unfold nband, queue_ok in *; upd; try done; try congruence;
    cbn; repeat split; (done || congruence || eauto).
Qed.
Lemma last_id_nonempty l : l ≠ [] → ∃ z, last_id None l = Some z.
Proof.
  destruct l as [|x l _] using rev_ind; [done|]. intros _. rewrite ids_last_snoc. eauto.
Qed.
Lemma flushall_ok s a :
  repr s a → aok a →
  ∃ s' a' fl, __flushq s FLUSHALL (Chain None None) = Some ((a_flushall a).1, chain_of fl, s') ∧
    flushed a (a_flushall a) fl s' a'.
Proof.
  intros Hr Ha. pose proof Hr as [[Hf Hl HL Hh] Hq]. unfold __flushq. rewrite Hf.
  destruct (decide (a_list a = [])) as [El|Hne].
  { unfold a_flushall. rewrite El, bool_decide_true by done. exists s, a, []. split; [done|].
    split; [done|]. split; [done|]. by rewrite repr_set_held_id. }
  pose proof (ok_ids _ Ha) as Hids. pose proof (ids_app_l _ _ Hids) as Hn.
  destruct (opt_next_ok s None (a_list a) None None HL Hn) as (h' & E & HL' & Hs).
  destruct (last_id_nonempty _ Hne) as [z Ez]. rewrite Ez in *.
  destruct (first_id (a_list a) None) as [b|] eqn:Eb; [|by destruct (a_list a)].
  unfold chain_put at 1. cbn [c_end c_mp mbind option_bind]. rewrite Hl.
  unfold chain_end, chain_put. cbn [mbind option_bind c_end c_mp]. cbn [opt_next] in E. rewrite E.
  cbn [mbind option_bind]. upd.
  destruct (crepr_flushall _ _ _ Hq (ok_nband _ Ha) Hne) as (E1 & R & R1 & R2).
  destruct (clear_queue (qu s)) as [bands q'] eqn:Eq. cbn [fst snd] in *. subst bands.
  assert (Hheld : Forall (held_in h') (a_list a ++ a_held a)).
  { apply list.Forall_app. split.
    - apply list.Forall_forall. intros x Hx. by eapply linked_in.
    - eapply held_ext; [|exact Hh]. intros y Hy. apply Hs. intros [= <-].
      rewrite ids_app in Hids. apply NoDup_app in Hids as (_ & Hd & _).
      apply last_id_in in Ez. by apply (Hd z). }
  pose proof (aok_flushall a Ha) as [_ Ad _ Aq An].
  assert (Hl' : a_list (a_flushall a).2 = [] ∧ a_held (a_flushall a).2 = a_held a).
  { unfold a_flushall. rewrite bool_decide_false by done. by destruct (lower_bands _ _ _). }
  destruct Hl' as [Hl' Hh'].
  exists (Sq h' q' (kmem s)), ((a_flushall a).2 <| a_held := a_list a ++ a_held a |>), (a_list a).
  split; [unfold chain_of; by rewrite Eb, Ez|]. split; [|split; [|split; [|split]]].
  - split; [split; upd; rewrite ?Hl'; done|by apply crepr_held].
  - split; unfold nband in *; upd; rewrite ?Hl' in *; try done. apply Ha.
  - upd. rewrite <- Hh'. by destruct (a_flushall a) as [? []].
  - done.
  - by eapply linked_chained.
Qed.
Lemma flushq_ok s a flag :
  repr s a → aok a →
  ∃ s' a' fl, __flushq s flag (Chain None None) = Some ((a_flushq flag a).1, chain_of fl, s') ∧
    flushed a (a_flushq flag a) fl s' a'.
Proof.
  destruct flag; [|apply flushall_ok]. intros Hr Ha. pose proof Hr as [[Hf _ HL _] _].
  unfold __flushq, a_flushq, a_flushdata. rewrite Hf.
  pose proof (linked_size _ _ _ _ (ids_app_l _ _ (ok_ids _ Ha)) HL) as Hsz.
  destruct (flush_loop_ok (S (size (heap s))) s a [] (a_list a) [] (a_held a) [] Hr Ha)
    as (s' & a' & fl' & E & H); [done|done|done|lia|].
  rewrite repr_set_held_id in *. destruct (a_list a) as [|m l] eqn:El; cbn [first_id] in *.
  { exists s, a, []. split; [done|]. split; [done|]. split; [done|]. by rewrite repr_set_held_id. }
  exists s', a', fl'. split; [exact E|exact H].
Qed.
