(* ===== verification/StrSys.v ===== *)
(** * STREAMS message queues in use

    The queue utilities as their users call them, one after the other, on a queue
    and the queue that feeds it: every run is the run of the contract; messages
    are read by class and in the order they were put; and a writer that was told
    to wait is scheduled again. *)
From S2P Require Import Prelude StrQueue StrSpec StrRefine.
From stdpp Require Import gmap sorting.
#[local] Open Scope Z_scope.
#[local] Open Scope os7_scope.
#[local] Set Warnings "-clear-no-such-hyp".

(** ** Calls *)

Inductive call :=
  | Putq (mp : Z) | Putbq (mp : Z) | Getq | Rmvq (mp : Z) | Canput (band : Z)
  | Flushq (f : flush_flag) | Noenable | Enableok | Enableq.
Inductive result := RInt (r : Z) | RMsg (mp : option Z) | RUnit.

Definition on_front (f : sq → option (Z * sq)) (p : pair) : option (result * pair) :=
  '(r, s) ← f p.(front); Some (RInt r, p <| front := s |>).
Definition on_front_qu (f : queue → queue) (p : pair) : option (result * pair) :=
  Some (RUnit, p <| front; qu := f p.(front).(qu) |>).
Definition run_call (c : call) (p : pair) : option (result * pair) :=
  match c with
  | Putq mp => on_front (fun s => putq s mp) p
  | Putbq mp => on_front (fun s => putbq s mp) p
  | Getq => '(mp, p) ← getq p; Some (RMsg mp, p)
  | Rmvq mp => p ← rmvq p mp; Some (RUnit, p)
  | Canput band => '(r, p) ← bcanputnext p band; Some (RInt (Z.b2z r), p)
  | Flushq f => p ← flushq p f; Some (RUnit, p)
  | Noenable => on_front_qu noenable p
  | Enableok => on_front_qu enableok p
  | Enableq => let '(r, q) := enableq p.(front).(qu) in Some (RInt r, p <| front; qu := q |>)
  end.
Fixpoint run (l : list call) (p : pair) : option (list result * pair) :=
  match l with
  | [] => Some ([], p)
  | c :: l => '(r, p) ← run_call c p; '(rs, p) ← run l p; Some (r :: rs, p)
  end.

(** The same calls on the contract; the second result is the bands whose writers
    are woken. *)
Definition spec_call (c : call) (a : aq) : option (result * list Z * aq) :=
  match c with
  | Putq mp => '(r, a) ← a_putq mp a; Some (RInt r, [], a)
  | Putbq mp => '(r, a) ← a_putbq mp a; Some (RInt r, [], a)
  | Getq => let '(m, be, a) := a_getq a in
            Some (RMsg (s_id <$> m),
                  match m with Some m => if be : bool then [m.(s_band)] else [] | None => [] end, a)
  | Rmvq mp => '(m, l) ← pick mp a.(a_list);
               let '(be, a) := unqueue m l a in
               Some (RUnit, if be : bool then [m.(s_band)] else [], a)
  | Canput band => let '(r, a) := a_bcanput band a in Some (RInt (Z.b2z r), [], a)
  | Flushq f => let '(bands, a) := a_flushq f a in Some (RUnit, bands, a)
  | Noenable => Some (RUnit, [], a <| a_noenb := true |>)
  | Enableok => Some (RUnit, [], a <| a_noenb := false |>)
  | Enableq => let c := a.(a_srvp) && negb a.(a_noenb) in
               Some (RInt (Z.b2z c), [], enable c a)
  end.
Fixpoint spec_run (l : list call) (a : aq) : option (list result * list Z * aq) :=
  match l with
  | [] => Some ([], [], a)
  | c :: l => '(r, w, a) ← spec_call c a; '(rs, ws, a) ← spec_run l a; Some (r :: rs, w ++ ws, a)
  end.
(** The band of [bcanputnext] is an unsigned character. *)
Definition call_ok (c : call) : Prop := match c with Canput b => 0 ≤ b | _ => True end.

(** ** Enabling the queue behind *)

Lemma get_loop_flags fuel q kmem b i q' k' :
  get_loop fuel q kmem b = (i, q', k') →
  q'.(q_srvp) = q.(q_srvp) ∧ q'.(q_procs) = q.(q_procs) ∧ q'.(q_enab) = q.(q_enab).
Proof.
  revert q kmem; induction fuel as [|fuel IH]; intros q kmem; cbn [get_loop].
  { by intros [= _ <- _]. }
  destruct (kmem_cache_alloc kmem) as [[] k]; cbn [negb]; [|by intros [= _ <- _]].
  destruct (_ <? _).
  - intros H. apply IH in H. by upd in H.
  - by intros [= _ <- _].
Qed.
Lemma get_flags q kmem b i q' k' :
  __get_qband q kmem b = (i, q', k') →
  q'.(q_srvp) = q.(q_srvp) ∧ q'.(q_procs) = q.(q_procs) ∧ q'.(q_enab) = q.(q_enab).
Proof.
  unfold __get_qband. destruct (_ <=? _); [by intros [= _ <- _]|]. apply get_loop_flags.
Qed.
Lemma back_bands_flags n q kmem bands :
  (back_bands n q kmem bands).1.(q_srvp) = q.(q_srvp) ∧
  (back_bands n q kmem bands).1.(q_procs) = q.(q_procs).
Proof.
  revert q kmem; induction n as [|n IH]; intros q kmem; cbn [back_bands]; [done|].
  case_bool_decide; [|apply IH].
  destruct (__get_qband q kmem _) as [[i q'] k'] eqn:E. apply get_flags in E as (E1 & E2 & _).
  rewrite <- E1, <- E2.
  split; [rewrite (proj1 (IH _ _))|rewrite (proj2 (IH _ _))]; by destruct i.
Qed.
Lemma backenable_ok p band bands :
  p.(front).(qu).(q_procs) = false → p.(back).(q_procs) = false → p.(back).(q_srvp) = true →
  let p' := qbackenable p band bands in
  p'.(front) = p.(front) ∧ p'.(back).(q_enab) = true ∧ p'.(back).(q_srvp) = true ∧
  p'.(back).(q_procs) = false.
Proof.
  intros H1 H2 H3. unfold qbackenable. rewrite H1, H2, H3. cbn zeta.
  assert (Hq : ∀ q k, q_srvp q = true → q_procs q = false →
    let p' := Pair (front p) (qenable q) k in
    front p' = front p ∧ q_enab (back p') = true ∧ q_srvp (back p') = true ∧ q_procs (back p') = false).
  { intros q k E1 E2. cbn. unfold qenable. rewrite E1. by upd. }
  destruct bands as [bands|].
  - unfold __qbackenable_bands. set (q0 := if bool_decide (0 ∈ bands) then _ else _).
    pose proof (back_bands_flags (Z.to_nat band) q0 (bkmem p) bands) as [E1 E2].
    destruct (back_bands _ _ _ _) as [q k]. cbn [fst] in *.
    apply Hq; [rewrite E1|rewrite E2]; subst q0; by destruct (bool_decide _).
  - destruct (band =? 0); [by apply Hq|].
    destruct (__get_qband (back p) (bkmem p) band) as [[i q] k] eqn:E.
    apply get_flags in E as (E1 & E2 & _). apply Hq; destruct i; unfold set_band; upd; congruence.
Qed.

(** ** Every call does what the contract states *)

Record prepr (p : pair) (a : aq) : Prop := {
  pr_repr : repr p.(front) a;
  pr_ok : aok a;
  pr_srvp : p.(back).(q_srvp) = true;
  pr_procs : p.(back).(q_procs) = false }.
(** The queue behind is as before, or scheduled when a writer is woken. *)
Definition woken (w : list Z) (p p' : pair) : Prop :=
  match w with [] => p'.(back) = p.(back) | _ => p'.(back).(q_enab) = true end.

Lemma prepr_front p a s a' :
  prepr p a → repr s a' → aok a' → prepr (p <| front := s |>) a'.
Proof. by intros []. Qed.
Lemma prepr_back p a s a' band bands :
  prepr p a → repr s a' → aok a' →
  let p' := qbackenable (p <| front := s |>) band bands in
  prepr p' a' ∧ p'.(front) = s ∧ p'.(back).(q_enab) = true.
Proof.
  intros [_ _ H3 H4] Hs Ha.
  destruct (backenable_ok (p <| front := s |>) band bands) as (E1 & E2 & E3 & E4);
    [apply (cr_procs _ _ _ (re_queue _ _ Hs))|done|done|].
  split; [|done]. split; [by rewrite E1|done|done|done].
Qed.
Lemma on_front_ok f p a a' r :
  prepr p a → aok a' → (∃ s', f p.(front) = Some (r, s') ∧ repr s' a') →
  ∃ p', on_front f p = Some (RInt r, p') ∧ prepr p' a' ∧ woken [] p p'.
Proof.
  intros Hp Ha (s' & E & R). unfold on_front. rewrite E. eexists. split; [reflexivity|].
  split; [|done]. by eapply prepr_front.
Qed.
Lemma repr_noenb s a b :
  repr s a → repr (s <| qu; q_noenb := b |>) (a <| a_noenb := b |>).
Proof. intros [[] []]. unfold queue_ok in *. split; split; upd; done. Qed.
(** A message that has been removed is enabled for its band, if its writer waits. *)
Lemma removed_ok p a s m l1 l2 :
  prepr p a → a.(a_list) = l1 ++ m :: l2 → repr s (unqueue m (l1 ++ l2) a).2 →
  ∃ p', (if (unqueue m (l1 ++ l2) a).1
         then c ← s.(heap) !! m.(s_id); Some (qbackenable (p <| front := s |>) c.(b_band) None)
         else Some (p <| front := s |>)) = Some p' ∧
    prepr p' (unqueue m (l1 ++ l2) a).2 ∧
    woken (if (unqueue m (l1 ++ l2) a).1 then [m.(s_band)] else []) p p'.
Proof.
  intros Hp El Hs. pose proof (aok_remove m l1 l2 a (pr_ok _ _ Hp) El) as Ha.
  pose proof (hr_held _ _ _ (re_heap _ _ Hs)) as Hh. rewrite unqueue_held in Hh.
  apply list.Forall_cons in Hh as [(x & y & Hm) _]. rewrite Hm. cbn [mbind option_bind].
  destruct (unqueue m (l1 ++ l2) a) as [[] a']; cbn [fst snd] in *; eexists; (split; [reflexivity|]).
  - destruct (prepr_back p a s a' (b_band (cell m x y)) None Hp Hs Ha) as (H1 & H2 & H3). done.
  - split; [by eapply prepr_front|done].
Qed.
Lemma call_refines c p a r w a' :
  prepr p a → call_ok c → spec_call c a = Some (r, w, a') →
  ∃ p', run_call c p = Some (r, p') ∧ prepr p' a' ∧ woken w p p'.
Proof.
  intros Hp Hc. pose proof Hp as [Hr Ha Hs Hpr]. pose proof (cr_procs _ _ _ (re_queue _ _ Hr)) as Hfp.
  destruct c as [i|i| |i|b|f| | |]; cbn [spec_call run_call call_ok] in *.
  - destruct (a_putq i a) as [[z a1]|] eqn:E; [|done]. cbn [mbind option_bind]. intros [= <- <- <-].
    apply (on_front_ok _ p a); [done|by eapply aok_put; [apply places_behind|..]|by apply putq_ok with a].
  - destruct (a_putbq i a) as [[z a1]|] eqn:E; [|done]. cbn [mbind option_bind]. intros [= <- <- <-].
    apply (on_front_ok _ p a); [done|by eapply aok_put; [apply places_before|..]|by apply putbq_ok with a].
  - destruct (getq_ok _ _ Hr Ha) as (s' & E & R). unfold getq. rewrite E. cbn [mbind option_bind].
    clear E. unfold a_getq in *. destruct (a_list a) as [|m l] eqn:El.
    + cbn in R |- *. intros [= <- <- <-]. eexists. split; [reflexivity|]. split; [|done].
      eapply prepr_front; [done|done|]. by apply (aok_fields a).
    + pose proof (aok_remove m [] l a Ha El) as Ha'.
      pose proof (unqueue_held m l a) as Hh. cbn [app] in Ha'.
      destruct (unqueue m l a) as [be a1] eqn:Eu. cbn in R, Hh, Ha' |- *. intros [= <- <- <-].
      assert (Ha2 : aok (a1 <| a_wantr := false |>)) by (by apply (aok_fields a1)).
      pose proof (hr_held _ _ _ (re_heap _ _ R)) as Hx. upd in Hx. rewrite Hh in Hx.
      apply list.Forall_cons in Hx as [(x & y & Hm) _]. rewrite Hm. cbn [mbind option_bind].
      destruct be; eexists; (split; [reflexivity|]).
      * destruct (prepr_back p a s' _ (b_band (cell m x y)) None Hp R Ha2) as (H1 & H2 & H3). done.
      * split; [by eapply prepr_front|done].
  - destruct (pick i (a_list a)) as [[m k]|] eqn:Et; [|done]. cbn [mbind option_bind].
    apply pick_Some in Et as (l1 & l2 & El & -> & <-).
    destruct (rmvq_ok _ _ _ _ _ Hr Ha El) as (s' & E & R & _). unfold rmvq. rewrite E.
    cbn [mbind option_bind].
    destruct (removed_ok p a s' m l1 l2 Hp El R) as (p' & E' & P & W).
    cbn zeta. upd. rewrite E'. cbn [mbind option_bind].
    destruct (unqueue m (l1 ++ l2) a) as [be a1]. cbn [fst snd] in *. intros [= <- <- <-].
    by exists p'.
  - pose proof (aok_bcanput b a Ha) as Hab.
    destruct (bcanput_ok _ _ _ Hr Ha Hc) as (q & E & R). unfold bcanputnext, __bcanputnext.
    rewrite Hpr, Hfp, E. cbn [mbind option_bind]. destruct (a_bcanput b a) as [z a1]. cbn [fst snd] in *.
    intros [= <- <- <-]. eexists. split; [reflexivity|]. split; [|done]. by eapply (prepr_front p a).
  - destruct (flushq_ok _ _ f Hr Ha) as (s' & a1 & fl & E & R1 & A1 & Hh & Hp1 & Hch).
    unfold flushq. rewrite E. cbn [mbind option_bind]. clear E.
    pose proof (aok_flushq f a Ha) as Ha'.
    destruct (a_flushq f a) as [bands a2] eqn:Ef. cbn [fst snd] in *. intros [= <- <- <-].
    destruct (free_ok s' a1 fl (a_held a) R1 A1 Hp1 Hch) as (s2 & E2 & R2 & E3 & E4).
    rewrite Hh in R2. unfold free_flushed. destruct (decide (bands = [])) as [->|Hb].
    + rewrite bool_decide_true by done. upd.
      destruct (c_mp (chain_of fl)); [rewrite E2|injection E2 as <-]; cbn [mbind option_bind];
        (eexists; split; [reflexivity|]); (split; [by eapply (prepr_front p a)|done]).
    + rewrite bool_decide_false by done.
      destruct (prepr_back p a s' a1 (q_nband (qu (front p))) (Some bands) Hp R1 A1) as (P & F & B).
      set (p1 := qbackenable _ _ _) in *. rewrite F.
      destruct (c_mp (chain_of fl)); [rewrite E2|injection E2 as <-]; cbn [mbind option_bind];
        (eexists; split; [reflexivity|]);
        (split; [destruct P; by split; rewrite ?F|by destruct bands]).
  - intros [= <- <- <-]. eexists. split; [reflexivity|]. split; [|done].
    eapply prepr_front; [done|by apply repr_noenb|by apply (aok_fields a)].
  - intros [= <- <- <-]. eexists. split; [reflexivity|]. split; [|done].
    eapply prepr_front; [done|by apply repr_noenb|by apply (aok_fields a)].
  - intros [= <- <- <-]. pose proof (re_queue _ _ Hr) as Hq. unfold enableq.
    rewrite (cr_srvp _ _ _ Hq), (cr_noenb _ _ _ Hq).
    pose proof (enable_repr _ _ (a_srvp a && negb (a_noenb a)) Hr) as R.
    destruct (a_srvp a && negb (a_noenb a)); eexists; (split; [reflexivity|]); (split; [|done]);
      (eapply prepr_front; [done|destruct (front p); exact R|by apply aok_enable]).
Qed.

(** ** Runs *)

Lemma run_ok l p a rs ws a' :
  prepr p a → Forall call_ok l → spec_run l a = Some (rs, ws, a') →
  ∃ p', run l p = Some (rs, p') ∧ prepr p' a'.
Proof.
  revert p a rs ws; induction l as [|c l IH]; intros p a rs ws Hp Hl; cbn [spec_run run].
  { intros [= <- <- <-]. by exists p. }
  apply list.Forall_cons in Hl as [Hc Hl].
  destruct (spec_call c a) as [[[r w] a1]|] eqn:E; [|done]. cbn [mbind option_bind].
  destruct (spec_run l a1) as [[[rs1 ws1] a2]|] eqn:E'; [|done]. cbn [mbind option_bind].
  intros [= <- <- <-]. destruct (call_refines c p a r w a1 Hp Hc E) as (p1 & -> & Hp1 & _).
  cbn [mbind option_bind]. destruct (IH p1 a1 rs1 ws1 Hp1 Hl E') as (p2 & -> & Hp2). by exists p2.
Qed.

(** A queue with no message and no band, and messages its user holds. *)
Definition idle_queue (hiwat lowat : Z) : queue :=
  Queue None None 0 false false false false false false false true 0 0 hiwat lowat [] 0 0 0.
Definition start (hiwat lowat : Z) (ms : list smsg) (kmem : list bool) : pair :=
  Pair (Sq (list_to_map ((fun m => (m.(s_id), cell m None None)) <$> ms)) (idle_queue hiwat lowat) kmem)
    (idle_queue hiwat lowat) [].
Definition spec_start (hiwat lowat : Z) (ms : list smsg) (kmem : list bool) : aq :=
  Aq [] ms (Flow hiwat lowat false false) [] false false true false kmem.
Lemma start_ok hiwat lowat ms kmem :
  NoDup (ids ms) → Forall valid ms → prepr (start hiwat lowat ms kmem) (spec_start hiwat lowat ms kmem).
Proof.
  intros Hn Hv. split; [|split; cbn; [done|apply SSorted_nil|done|done|done]|done|done].
  split; [|by split].
  split; [done|done|done|]. apply list.Forall_forall. intros m Hm. exists None, None. cbn.
  apply elem_of_list_to_map.
  - by rewrite <- list_fmap_compose.
  - by apply list_elem_of_fmap_2'  with m.
Qed.

(** ** Order within a class *)

(** The messages put and the messages read in a run. *)
Definition put_id (c : call) (r : result) : list Z :=
  match c, r with Putq i, RInt 1 => [i] | _, _ => [] end.
Definition got_id (r : result) : list Z := match r with RMsg (Some i) => [i] | _ => [] end.
Definition puts (l : list call) (rs : list result) : list Z := mjoin (zip_with put_id l rs).
Definition gots (rs : list result) : list Z := mjoin (got_id <$> rs).
(** Calls that put at the end of a class and read, and those that move no message. *)
Definition fifo_call (c : call) : Prop :=
  match c with Putbq _ | Rmvq _ | Flushq _ => False | _ => True end.
#[export] Instance fifo_call_dec c : Decision (fifo_call c).
Proof. destruct c; cbn; apply _. Defined.
Definition of_class (cls : Z → Z) (k : Z) (l : list Z) : list Z := filter (fun i => cls i = k) l.
(** [cls] gives the class of every message, on the queue or held. *)
Definition classes (cls : Z → Z) (a : aq) : Prop :=
  ∀ m, m ∈ a.(a_list) ++ a.(a_held) → cls m.(s_id) = key m.

Lemma filter_none {A} (P : A → Prop) `{!∀ x, Decision (P x)} (l : list A) :
  (∀ x, x ∈ l → ¬ P x) → filter P l = [].
Proof.
  induction l as [|x l IH]; intros Hp; [done|]. rewrite filter_cons_False.
  - apply IH. intros y Hy. apply Hp. by apply elem_of_cons; right.
  - apply Hp. by apply elem_of_cons; left.
Qed.
Lemma of_class_app cls k l1 l2 : of_class cls k (l1 ++ l2) = of_class cls k l1 ++ of_class cls k l2.
Proof. apply filter_app. Qed.
Lemma prio_key m : key (prio m) = key m.
Proof. unfold key. rewrite prio_hi. unfold prio. by destruct (s_hi m). Qed.
Lemma grow_list b a ok a1 : grow b a = (ok, a1) → a_list a1 = a_list a ∧ a_held a1 = a_held a.
Proof. by intros (c & km & -> & _)%grow_spec. Qed.
(** What [putq] does to the messages. *)
Lemma putq_messages i a r a' :
  aok a → a_putq i a = Some (r, a') →
  (r = 0 ∧ a_list a' = a_list a ∧ a_held a' = a_held a) ∨
  (r = 1 ∧ ∃ m l1 l2, m.(s_id) = i ∧ a.(a_held) ≡ₚ m :: a'.(a_held) ∧ a.(a_list) = l1 ++ l2 ∧
     a'.(a_list) = l1 ++ prio m :: l2 ∧ ∀ x, x ∈ l2 → key x < key m).
Proof.
  intros Ha. unfold a_putq, put_with. destruct (pick i (a_held a)) as [[m held]|] eqn:Et; [|done].
  cbn [mbind option_bind]. destruct (grow _ a) as [ok a1] eqn:Eg.
  apply grow_list in Eg as [El Eh]. destruct ok; cbn [negb]; intros [= <- <-]; [right|by left].
  split; [done|]. destruct (behind_spec (prio m) (a_list a1)) as (l1 & l2 & Eb & E & _ & H2).
  { rewrite El. apply Ha. }
  exists m, l1, l2. rewrite enable_list, enable_held, put_at_list, put_at_held, Eb. upd. cbn [fst snd].
  split; [by apply pick_Some in Et as (? & ? & _ & _ & ?)|]. split; [by eapply pick_perm|].
  split; [congruence|]. split; [done|]. intros x Hx. rewrite <- (prio_key m). by apply H2.
Qed.
Lemma class_of_list cls a l k :
  classes cls a → (∀ m, m ∈ l → m ∈ a.(a_list) ++ a.(a_held)) →
  of_class cls k (ids l) = ids (filter (fun m => key m = k) l).
Proof.
  intros Hc Hl. induction l as [|m l IH]; [done|]. unfold of_class in *.
  change (ids (m :: l)) with (s_id m :: ids l).
  assert (E : cls (s_id m) = key m) by (apply Hc, Hl; by apply elem_of_cons; left).
  rewrite !filter_cons, E. rewrite IH by (intros x Hx; apply Hl; by apply elem_of_cons; right).
  case_decide; done.
Qed.
Lemma fifo_step cls k c a r w a' :
  aok a → classes cls a → fifo_call c → spec_call c a = Some (r, w, a') →
  classes cls a' ∧
  of_class cls k (ids a.(a_list)) ++ of_class cls k (put_id c r)
  = of_class cls k (got_id r) ++ of_class cls k (ids a'.(a_list)).
Proof.
  intros Ha Hc Hf. destruct c as [i|i| |i|b|f| | |]; cbn [spec_call fifo_call] in *; try done.
  - destruct (a_putq i a) as [[z a1]|] eqn:E; [|done]. cbn [mbind option_bind]. intros [= <- <- <-].
    destruct (putq_messages _ _ _ _ Ha E) as [(-> & El & Eh)|(-> & m & l1 & l2 & Hi & Hp & E1 & E2 & H2)].
    + split; [unfold classes; by rewrite El, Eh|]. cbn. by rewrite El, app_nil_r.
    + assert (Hm : cls i = key m).
      { rewrite <- Hi. apply Hc. rewrite Hp. apply elem_of_app. right. by apply elem_of_cons; left. }
      split.
      * intros x. rewrite E2. rewrite <- app_assoc. cbn. rewrite elem_of_app, elem_of_cons.
        intros [Hx|[->|Hx]].
        -- apply Hc. rewrite E1. rewrite !elem_of_app. tauto.
        -- rewrite prio_id, prio_key, Hi. done.
        -- apply Hc. rewrite E1, Hp. rewrite !elem_of_app, elem_of_cons in *. tauto.
      * rewrite E1, E2. cbn [put_id got_id of_class]. rewrite !ids_app. cbn [ids fmap list_fmap].
        rewrite prio_id, Hi. rewrite !of_class_app. change (of_class cls k []) with (@nil Z).
        cbn [app]. rewrite <- app_assoc. f_equal.
        change (i :: (s_id <$> l2)) with ([i] ++ ids l2). rewrite of_class_app.
        destruct (decide (key m = k)) as [Hk|Hk].
        -- rewrite (class_of_list cls a l2 k Hc) by
             (intros x Hx; rewrite E1, !elem_of_app; tauto).
           replace (filter (fun m => key m = k) l2) with (@nil smsg); [by rewrite app_nil_r|].
           symmetry. apply filter_none. intros x Hx Hkx. specialize (H2 x Hx). lia.
        -- replace (of_class cls k [i]) with (@nil Z); [by rewrite app_nil_r|].
           unfold of_class. rewrite filter_cons_False by congruence. done.
  - unfold a_getq. destruct (a_list a) as [|m l] eqn:El.
    + intros [= <- <- <-]. split; [done|]. cbn. upd. by rewrite El.
    + pose proof (unqueue_list m l a) as E1. pose proof (unqueue_held m l a) as E2.
      destruct (unqueue m l a) as [be a1]. cbn [snd] in *. intros [= <- <- <-]. split.
      * intros x. upd. rewrite E1, E2. intros Hx. apply Hc. rewrite El.
        rewrite elem_of_app, elem_of_cons in Hx |- *. tauto.
      * upd. rewrite E1. cbn [put_id got_id fmap option_fmap option_map].
        change (ids (m :: l)) with ([s_id m] ++ ids l). by rewrite of_class_app, app_nil_r.
  - unfold a_bcanput. destruct (flow_at b a) as [f|]; [destruct (f_full f)|]; intros [= <- <- <-];
      (split; [unfold classes; by rewrite ?on_flow_list, ?on_flow_held|]);
      rewrite ?on_flow_list; cbn; by rewrite app_nil_r.
  - intros [= <- <- <-]. split; [done|]. cbn. by rewrite app_nil_r.
  - intros [= <- <- <-]. split; [done|]. cbn. by rewrite app_nil_r.
  - intros [= <- <- <-]. split; [unfold classes; by rewrite enable_list, enable_held|].
    rewrite enable_list. cbn. by rewrite app_nil_r.
Qed.
Lemma aok_call c a r w a' : aok a → spec_call c a = Some (r, w, a') → aok a'.
Proof.
  intros Ha. destruct c as [i|i| |i|b|f| | |]; cbn [spec_call].
  - destruct (a_putq i a) as [[z a1]|] eqn:E; [|done]. intros [= <- <- <-].
    by eapply aok_put; [apply places_behind|..].
  - destruct (a_putbq i a) as [[z a1]|] eqn:E; [|done]. intros [= <- <- <-].
    by eapply aok_put; [apply places_before|..].
  - pose proof (aok_getq a Ha). destruct (a_getq a) as [[m be] a1]. by intros [= <- <- <-].
  - pose proof (aok_rmvq i a) as H. unfold a_rmvq in H.
    destruct (pick i (a_list a)) as [[m l]|]; [|done]. cbn [mbind option_bind] in *.
    destruct (unqueue m l a) as [be a1]. intros [= <- <- <-]. by apply (H be).
  - pose proof (aok_bcanput b a Ha). destruct (a_bcanput b a). by intros [= <- <- <-].
  - pose proof (aok_flushq f a Ha). destruct (a_flushq f a). by intros [= <- <- <-].
  - intros [= <- <- <-]. by apply (aok_fields a).
  - intros [= <- <- <-]. by apply (aok_fields a).
  - intros [= <- <- <-]. by apply aok_enable.
Qed.
Lemma fifo_run cls k l a rs ws a' :
  aok a → classes cls a → Forall fifo_call l → spec_run l a = Some (rs, ws, a') →
  aok a' ∧
  of_class cls k (ids a.(a_list)) ++ of_class cls k (puts l rs)
  = of_class cls k (gots rs) ++ of_class cls k (ids a'.(a_list)).
Proof.
  revert a rs ws; induction l as [|c l IH]; intros a rs ws Ha Hc Hl; cbn [spec_run].
  { intros [= <- <- <-]. split; [done|]. cbn. by rewrite app_nil_r. }
  apply list.Forall_cons in Hl as [Hf Hl].
  destruct (spec_call c a) as [[[r w] a1]|] eqn:E; [|done]. cbn [mbind option_bind].
  destruct (spec_run l a1) as [[[rs1 ws1] a2]|] eqn:E'; [|done]. cbn [mbind option_bind].
  intros [= <- <- <-]. pose proof (aok_call _ _ _ _ _ Ha E) as Ha1.
  destruct (fifo_step cls k c a r w a1 Ha Hc Hf E) as [Hc1 H1].
  destruct (IH a1 rs1 ws1 Ha1 Hc1 Hl E') as [Ha2 H2]. split; [done|].
  unfold puts, gots. cbn [zip_with fmap list_fmap mjoin list_join].
  fold (puts l rs1) (gots rs1). rewrite !of_class_app, app_assoc, H1, <- !app_assoc. f_equal.
  exact H2.
Qed.
Lemma getq_front p a :
  prepr p a → ∃ p', getq p = Some (list.head (ids a.(a_list)), p').
Proof.
  intros Hp. destruct (spec_call Getq a) as [[[r w] a']|] eqn:Es;
    [|cbn in Es; by destruct (a_getq a) as [[]]].
  destruct (call_refines Getq p a r w a' Hp I Es) as (p' & E & _). exists p'.
  cbn [run_call spec_call] in E, Es. destruct (getq p) as [[mp p1]|]; [|done].
  cbn [mbind option_bind] in E. injection E as <- <-. unfold a_getq in Es.
  destruct (a_list a) as [|m l]; [by injection Es as <- _ _|].
  destruct (unqueue m l a). by injection Es as <- _ _.
Qed.
Definition class_of (ms : list smsg) (i : Z) : Z :=
  match pick i ms with Some (m, _) => key m | None => -1 end.
Lemma classes_start hiwat lowat ms kmem :
  NoDup (ids ms) → classes (class_of ms) (spec_start hiwat lowat ms kmem).
Proof.
  intros Hn m Hm. cbn in Hm. unfold class_of. induction ms as [|x ms IH]; [inversion Hm|].
  apply NoDup_cons in Hn as [Hx Hn]. cbn [pick]. destruct (Z.eqb_spec (s_id x) (s_id m)) as [E|E].
  - apply elem_of_cons in Hm as [->|Hm]; [done|]. destruct Hx. rewrite E. by apply list_elem_of_fmap_2.
  - apply elem_of_cons in Hm as [->|Hm]; [done|]. specialize (IH Hn Hm).
    by destruct (pick (s_id m) ms) as [[]|].
Qed.

(** ** What the queue utilities promise *)

(** C4. The linked messages, counts, flags and bands refine the abstract queue: a
    sequence of calls that puts only messages the user holds and removes only
    messages on the queue runs to the end, reads no bad pointer, has the results
    of the contract and leaves a state that represents its state. *)
Theorem queue_refinement hiwat lowat ms kmem l rs ws a' :
  NoDup (ids ms) → Forall valid ms → Forall call_ok l →
  spec_run l (spec_start hiwat lowat ms kmem) = Some (rs, ws, a') →
  ∃ p', run l (start hiwat lowat ms kmem) = Some (rs, p') ∧ repr p'.(front) a' ∧ aok a'.
Proof.
  intros Hn Hv Hl H. destruct (run_ok l _ _ rs ws a' (start_ok hiwat lowat ms kmem Hn Hv) Hl H)
    as (p' & E & [Hr Ha _ _]). by exists p'.
Qed.
(** C6. Messages of a class are read in the order they were put and none is lost or
    repeated; the next message read is one of the highest class on the queue. *)
Theorem class_fifo hiwat lowat ms kmem l rs ws a' k :
  NoDup (ids ms) → Forall valid ms → Forall fifo_call l → Forall call_ok l →
  spec_run l (spec_start hiwat lowat ms kmem) = Some (rs, ws, a') →
  ∃ p' p2, run l (start hiwat lowat ms kmem) = Some (rs, p') ∧
    of_class (class_of ms) k (puts l rs)
    = of_class (class_of ms) k (gots rs) ++ of_class (class_of ms) k (ids a'.(a_list)) ∧
    getq p' = Some (list.head (ids a'.(a_list)), p2) ∧ desc a'.(a_list).
Proof.
  intros Hn Hv Hf Hl H. pose proof (start_ok hiwat lowat ms kmem Hn Hv) as Hp.
  destruct (run_ok l _ _ rs ws a' Hp Hl H) as (p' & E & Hp').
  destruct (getq_front p' a' Hp') as [p2 Eg].
  destruct (fifo_run (class_of ms) k l _ rs ws a' (pr_ok _ _ Hp) (classes_start _ _ _ _ Hn) Hf H)
    as [Ha E']. exists p', p2. split; [done|]. split; [exact E'|]. split; [done|]. apply Ha.
Qed.

(** Three messages of band 1, of no band, and of high priority. *)
Definition three : list smsg :=
  [Smsg 1 1 (Blk M_DATA 0 60) []; Smsg 2 0 (Blk M_DATA 0 30) []; Smsg 3 0 (Blk M_PCPROTO 0 8) []].
Definition three_calls : list call := [Putq 2; Putq 1; Canput 1; Putq 3; Getq; Getq; Canput 1; Getq; Getq].
Lemma queue_refinement_witness :
  ∃ p', run three_calls (start 50 20 three [])
    = Some ([RInt 1; RInt 1; RInt 0; RInt 1; RMsg (Some 3); RMsg (Some 1); RInt 1; RMsg (Some 2);
             RMsg None], p') ∧ p'.(back).(q_enab) = true.
Proof.
  edestruct (queue_refinement 50 20 three [] three_calls) as (p' & E & _);
    [by apply (bool_decide_unpack _)|repeat constructor; vm_compute; done
    |repeat constructor; vm_compute; done|vm_compute; reflexivity|].
  exists p'. split; [exact E|]. vm_compute in E. injection E as <-. reflexivity.
Defined.
Lemma class_fifo_witness :
  ∃ p' p2, run (firstn 6 three_calls) (start 50 20 three [])
    = Some ([RInt 1; RInt 1; RInt 0; RInt 1; RMsg (Some 3); RMsg (Some 1)], p') ∧
    getq p' = Some (Some 2, p2).
Proof.
  edestruct (class_fifo 50 20 three [] (firstn 6 three_calls)) with (k := 1)
    as (p' & p2 & E & _ & G & _);
    [by apply (bool_decide_unpack _)|repeat constructor; vm_compute; done|repeat constructor
    |repeat constructor; vm_compute; done|vm_compute; reflexivity|].
  exists p', p2. split; [exact E|exact G].
Defined.
