(* ===== verification/StrFlow.v ===== *)
(** * Flow control between STREAMS queues

    The water marks of a queue and of its bands: a band is full from the message
    that takes its count above the high water mark until messages are removed and
    the count is zero or below the low water mark; and a writer that was told to
    wait is scheduled when that happens. *)
From S2P Require Import Prelude StrQueue StrSpec StrRefine StrSys.
From stdpp Require Import gmap sorting.
#[local] Open Scope Z_scope.
#[local] Open Scope os7_scope.
#[local] Set Warnings "-clear-no-such-hyp".

(** ** Flow control of a band *)

(** A full band has messages, and no fewer than the low water mark. *)
Definition flow_ok (c : Z) (f : flow) : Prop :=
  0 ≤ f.(f_lowat) ≤ f.(f_hiwat) ∧
  (f.(f_full) = true → c ≠ 0 ∧ f.(f_lowat) ≤ c) ∧
  (f.(f_full) = false → c ≤ f.(f_hiwat)) ∧
  (f.(f_wantw) = true → f.(f_full) = true).
Definition all_size (a : aq) : Z := sum_size (a.(a_list) ++ a.(a_held)).
(** The messages fit in memory, and the flow control of every band is right. *)
Record fok (a : aq) : Prop := {
  fo_size : all_size a < 2 ^ 64;
  fo_flow : ∀ b f, 0 ≤ b → flow_at b a = Some f → flow_ok (count b a.(a_list)) f }.

Lemma size_nonneg m : 0 ≤ s_size m.
Proof.
  unfold s_size, blks_size. assert (H : ∀ l n, 0 ≤ n → 0 ≤ fold_left add_size l n); [|by apply H].
  induction l as [|b l IH]; intros n Hn; [done|]. apply IH. unfold add_size, u64.
  destruct (_ <? _); [|done]. apply Z.mod_pos_bound. lia.
Qed.
Lemma sum_size_nonneg l : 0 ≤ sum_size l.
Proof. induction l as [|m l IH]; [done|]. rewrite sum_size_cons. pose proof (size_nonneg m). lia. Qed.
Lemma sum_size_app l k : sum_size (l ++ k) = sum_size l + sum_size k.
Proof. induction l as [|m l IH]; [done|]. cbn [app]. rewrite !sum_size_cons. lia. Qed.
Lemma sum_in_band b l : 0 ≤ sum_size (in_band b l) ≤ sum_size l.
Proof.
  induction l as [|m l IH]; [done|]. unfold in_band in *. rewrite filter_cons, sum_size_cons.
  pose proof (size_nonneg m). case_decide; rewrite ?sum_size_cons; lia.
Qed.
(** Below the size of the memory a count is the sum it stands for. *)
Lemma count_sum b l : sum_size l < 2 ^ 64 → count b l = sum_size (in_band b l).
Proof.
  intros H. unfold count, u64. pose proof (sum_in_band b l). apply Z.mod_small. lia.
Qed.
Lemma count_put b l1 m l2 :
  sum_size (l1 ++ m :: l2) < 2 ^ 64 → count b (l1 ++ l2) ≤ count b (l1 ++ m :: l2).
Proof.
  intros H. assert (sum_size (l1 ++ l2) ≤ sum_size (l1 ++ m :: l2)).
  { rewrite !sum_size_app, sum_size_cons. pose proof (size_nonneg m). lia. }
  rewrite !count_sum by lia. unfold in_band. rewrite !filter_app, filter_cons.
  pose proof (size_nonneg m). case_decide; rewrite !sum_size_app, ?sum_size_cons; lia.
Qed.
Lemma count_removed b l1 m l2 :
  sum_size (l1 ++ m :: l2) < 2 ^ 64 → count b (l1 ++ l2) ≤ count b (l1 ++ m :: l2).
Proof. apply count_put. Qed.

Lemma raise_ok c c' f : flow_ok c f → c ≤ c' → flow_ok c' (raise c' f).
Proof.
  unfold flow_ok, raise. intros (H1 & H2 & H3 & H4) Hc. destruct (Z.ltb_spec (f_hiwat f) c'); cbn.
  - split; [done|]. split; [lia|]. done.
  - split; [done|]. split; [intros Hf; specialize (H2 Hf); lia|]. split; [lia|done].
Qed.
Lemma lower_ok c c' f : flow_ok c f → 0 ≤ c' ≤ c → flow_ok c' (lower c' f).
Proof.
  unfold flow_ok, lower, drains. intros (H1 & H2 & H3 & H4) Hc.
  destruct ((c' =? 0) || (c' <? f_lowat f)) eqn:E; cbn [andb].
  - apply orb_true_iff in E. destruct (f_full f) eqn:Ef; cbn.
    + split; [done|]. split; [done|]. split; [|done]. intros _. specialize (H2 eq_refl). lia.
    + rewrite Ef. split; [done|]. split; [done|]. split; [|done]. intros _. specialize (H3 eq_refl). lia.
  - apply orb_false_iff in E as [E1 E2]. split; [done|]. split; [lia|].
    split; [intros Hf; specialize (H3 Hf); lia|done].
Qed.

(** ** Flow control of a queue *)

Lemma flow_at_bands b a f : b ≠ 0 → flow_at b a = Some f → b ≤ nband a ∧ a.(a_bands) !! idx a b = Some f.
Proof.
  intros Hb. unfold flow_at. replace (b =? 0) with false by lia.
  destruct (Z.leb_spec b (nband a)); done.
Qed.
Lemma flow_at_eq a a' :
  a'.(a_q) = a.(a_q) → a'.(a_bands) = a.(a_bands) → ∀ b, flow_at b a' = flow_at b a.
Proof. intros H1 H2 b. unfold flow_at, idx, nband. by rewrite H1, H2. Qed.
Lemma flow_at_on_flow b c g a :
  0 ≤ b → 0 ≤ c ≤ nband a →
  flow_at b (on_flow c g a) = if b =? c then g <$> flow_at b a else flow_at b a.
Proof.
  intros Hb Hc. unfold flow_at. rewrite on_flow_nband.
  replace (idx (on_flow c g a) b) with (idx a b) by (unfold idx; by rewrite on_flow_nband).
  unfold on_flow. destruct (Z.eqb_spec c 0) as [->|Hc0]; upd.
  - by destruct (Z.eqb_spec b 0).
  - destruct (Z.eqb_spec b 0) as [->|Hb0]; [by replace (0 =? c) with false by lia|].
    destruct (Z.leb_spec b (nband a)); [|by destruct (b =? c)].
    destruct (Z.eqb_spec b c) as [->|Hne]; [apply list_lookup_alter_eq|].
    apply list_lookup_alter_ne. unfold idx. lia.
Qed.
Lemma fok_same a a' :
  fok a → a'.(a_q) = a.(a_q) → a'.(a_bands) = a.(a_bands) → a'.(a_list) = a.(a_list) →
  a'.(a_held) = a.(a_held) → fok a'.
Proof.
  intros [Hs Hf] H1 H2 H3 H4. split.
  - unfold all_size in *. by rewrite H3, H4.
  - intros b f Hb. rewrite (flow_at_eq a a' H1 H2), H3. by apply Hf.
Qed.
Lemma all_size_list a : 0 ≤ sum_size a.(a_list) ≤ all_size a.
Proof.
  unfold all_size. rewrite sum_size_app. pose proof (sum_size_nonneg (a_list a)).
  pose proof (sum_size_nonneg (a_held a)). lia.
Qed.
Lemma count_nonneg b l : 0 ≤ count b l.
Proof. unfold count, u64. apply Z.mod_pos_bound. lia. Qed.

Lemma flow_at_grow b c a ok a1 :
  grow c a = (ok, a1) → 0 ≤ b →
  (b ≤ nband a → flow_at b a1 = flow_at b a) ∧
  (nband a < b → ∀ f, flow_at b a1 = Some f → f = new_flow a.(a_q)).
Proof.
  intros (n & km & -> & _ & _)%grow_spec Hb. unfold flow_at, idx. rewrite grow_nband. upd.
  destruct (Z.eqb_spec b 0) as [->|Hb0]; [split; [done|unfold nband; lia]|]. split.
  - intros Hn. destruct (Z.leb_spec b (nband a + Z.of_nat n)); [|lia].
    destruct (Z.leb_spec b (nband a)); [|lia].
    rewrite lookup_app_r; rewrite length_replicate; [f_equal; lia|lia].
  - intros Hn f. destruct (Z.leb_spec b (nband a + Z.of_nat n)); [|done].
    rewrite lookup_app_l by (rewrite length_replicate; lia).
    intros H'. by apply lookup_replicate in H' as [-> _].
Qed.
Lemma fok_grow b a ok a1 : fok a → aok a → grow b a = (ok, a1) → fok a1.
Proof.
  intros [Hs Hf] Ha Hg. pose proof (grow_list _ _ _ _ Hg) as [El Eh]. split.
  - unfold all_size in *. by rewrite El, Eh.
  - intros c f Hc Hcf. rewrite El. destruct (flow_at_grow c b a ok a1 Hg Hc) as [H1 H2].
    destruct (Z.le_gt_cases c (nband a)); [rewrite H1 in Hcf by done; by apply Hf|].
    rewrite (H2 ltac:(lia) f Hcf). unfold count.
    rewrite (in_band_none c (nband a)); [|apply Ha|lia].
    destruct (Hf 0 (a_q a) ltac:(lia) eq_refl) as (F1 & _). change (u64 (sum_size [])) with 0.
    unfold flow_ok, new_flow. cbn. split; [done|]. split; [done|]. split; [lia|done].
Qed.
(** A message put, with its band in existence. *)
Lemma fok_put a m held l1 l2 :
  fok a → a.(a_held) ≡ₚ m :: held → a.(a_list) = l1 ++ l2 →
  0 ≤ (prio m).(s_band) ≤ nband a →
  fok (put_at (prio m) (l1, l2) (a <| a_held := held |>)).
Proof.
  intros [Hs Hf] Hp El Hb. unfold put_at. cbn [fst snd].
  set (b := s_band (prio m)) in *. set (l' := l1 ++ prio m :: l2).
  assert (Hsz : sum_size (l' ++ held) = all_size a).
  { unfold all_size, l'. rewrite !sum_size_app, (sum_size_perm _ _ Hp), El, !sum_size_cons, sum_size_app,
      prio_size. lia. }
  assert (Hl : sum_size l' < 2 ^ 64).
  { pose proof (sum_size_nonneg held). rewrite sum_size_app in Hsz. lia. }
  split.
  - unfold all_size. rewrite on_flow_list, on_flow_held. upd. by rewrite Hsz.
  - intros c f Hc. upd. rewrite flow_at_on_flow by (unfold nband in *; upd; lia).
    rewrite on_flow_list. upd. rewrite (flow_at_eq a) by done.
    pose proof (count_put c l1 (prio m) l2 Hl) as Hle. fold l' in Hle.
    destruct (Z.eqb_spec c b) as [->|Hne].
    + destruct (flow_at b a) as [f0|] eqn:E; [|done]. cbn. intros [= <-].
      apply (raise_ok (count b (l1 ++ l2))); [|done]. rewrite <- El. by apply Hf.
    + intros Hcf. unfold l'. rewrite count_ne by (fold b; congruence). rewrite <- El. by apply Hf.
Qed.
Lemma fok_unqueue a m l1 l2 held :
  fok a → a.(a_list) = l1 ++ m :: l2 → 0 ≤ m.(s_band) ≤ nband a →
  held = m :: a.(a_held) ∨ held = a.(a_held) →
  fok ((unqueue m (l1 ++ l2) a).2 <| a_held := held |>).
Proof.
  intros [Hs Hf] El Hb Hh. unfold unqueue. cbn [snd]. set (b := s_band m) in *.
  pose proof (size_nonneg m).
  assert (Hl : sum_size (l1 ++ m :: l2) < 2 ^ 64).
  { pose proof (all_size_list a). rewrite El in *. lia. }
  split.
  - unfold all_size in *. upd. rewrite on_flow_list. upd. rewrite El in Hs.
    rewrite !sum_size_app, sum_size_cons in *.
    destruct Hh as [-> | ->]; rewrite ?sum_size_cons; lia.
  - intros c f Hc. upd. rewrite on_flow_list. upd.
    rewrite (flow_at_eq (on_flow b (lower (count b (l1 ++ l2)))
      ((a <| a_list := l1 ++ l2 |>) <| a_held := m :: a_held a |>))) by done.
    rewrite flow_at_on_flow by (unfold nband in *; upd; lia). rewrite (flow_at_eq a) by done.
    pose proof (count_removed c l1 m l2 Hl) as Hle. pose proof (count_nonneg c (l1 ++ l2)).
    destruct (Z.eqb_spec c b) as [->|Hne].
    + destruct (flow_at b a) as [f0|] eqn:E; [|done]. cbn. intros [= <-].
      apply (lower_ok (count b (l1 ++ m :: l2))); [|done]. rewrite <- El. by apply Hf.
    + intros Hcf. rewrite <- (count_ne c l1 m l2) by (fold b; congruence). rewrite <- El. by apply Hf.
Qed.

(** ** Writers that wait *)

(** A writer of band [b] was told to wait and has not been woken. *)
Definition waits (b : Z) (a : aq) : Prop :=
  ∃ f, flow_at b a = Some f ∧ f.(f_full) = true ∧ f.(f_wantw) = true.
Lemma waits_eq b a a' : flow_at b a' = flow_at b a → waits b a → waits b a'.
Proof. intros E (f & H). exists f. by rewrite E. Qed.
Lemma waits_band b a : 0 ≤ b → waits b a → b ≤ nband a.
Proof.
  intros Hb (f & Hf & _). destruct (Z.eq_dec b 0) as [->|Hb0]; [unfold nband; lia|].
  by apply flow_at_bands in Hf as [? _].
Qed.
Lemma waits_on_flow b c g a :
  0 ≤ b → 0 ≤ c ≤ nband a →
  (∀ f, f_full f = true → f_wantw f = true → f_full (g f) = true ∧ f_wantw (g f) = true) →
  waits b a → waits b (on_flow c g a).
Proof.
  intros Hb Hc Hg (f & Hf & H1 & H2). unfold waits. rewrite flow_at_on_flow by done.
  destruct (b =? c); [|by exists f]. exists (g f). rewrite Hf. destruct (Hg f H1 H2). done.
Qed.
Lemma waits_unqueue b m l a held :
  0 ≤ b → 0 ≤ m.(s_band) ≤ nband a → waits b a →
  waits b ((unqueue m l a).2 <| a_held := held |>) ∨ (unqueue m l a).1 = true.
Proof.
  intros Hb Hm (f & Hf & H1 & H2). unfold unqueue. cbn [fst snd].
  destruct (Z.eq_dec b (s_band m)) as [E|Hne].
  - rewrite <- E in *. set (c := count b l). rewrite Hf. destruct (wakes c f) eqn:Ew; [by right|left].
    exists (lower c f). unfold wakes, lower in *. rewrite H2, andb_true_r in Ew. rewrite Ew.
    split; [|done]. rewrite (flow_at_eq (on_flow b (lower c)
      ((a <| a_list := l |>) <| a_held := m :: a_held a |>))) by done.
    rewrite flow_at_on_flow by (unfold nband in *; upd; lia). rewrite Z.eqb_refl.
    rewrite (flow_at_eq a), Hf by done. cbn. unfold lower. by rewrite Ew.
  - left. set (c := count (s_band m) l). exists f. split; [|done].
    rewrite (flow_at_eq (on_flow (s_band m) (lower c)
      ((a <| a_list := l |>) <| a_held := m :: a_held a |>))) by done.
    rewrite flow_at_on_flow by (unfold nband in *; upd; lia).
    replace (b =? s_band m) with false by lia. by rewrite (flow_at_eq a).
Qed.
(** What one loop of [FLUSHDATA] preserves: an invariant of the removals. *)
Lemma flush_datas_ind (P : aq → Prop) dn rest a bands :
  aok a → a.(a_list) = dn ++ rest → P a →
  (∀ m l1 l2 a, aok a → a.(a_list) = l1 ++ m :: l2 → P a →
     P ((unqueue m (l1 ++ l2) a).2 <| a_held := a.(a_held) |>)) →
  P (flush_datas dn rest a bands).2.
Proof.
  intros Ha El Hp Hstep. revert dn a bands Ha El Hp.
  induction rest as [|m rest IH]; intros dn a bands Ha El Hp; [done|]. cbn [flush_datas].
  destruct (s_data m); [|apply IH; [done|by rewrite <- app_assoc|done]].
  specialize (Hstep m dn rest a Ha El Hp). pose proof (aok_flushed m dn rest a Ha El) as Har.
  pose proof (unqueue_list m (dn ++ rest) a) as E1.
  destruct (unqueue m (dn ++ rest) a) as [be a1]. cbn [snd] in *. by apply IH.
Qed.
Lemma band_of a l1 m l2 : aok a → a.(a_list) = l1 ++ m :: l2 → 0 ≤ m.(s_band) ≤ nband a.
Proof.
  intros Ha El. pose proof (ok_queue _ Ha) as Hq. pose proof (ok_valid _ Ha) as Hv.
  apply list.Forall_app in Hv as [Hv _]. rewrite El, Forall_mid in Hq, Hv.
  destruct Hq as [[Hq _] _], Hv as [Hv _]. unfold valid in Hv. lia.
Qed.
Lemma fok_flushdata a : aok a → fok a → fok (a_flushdata a).2.
Proof.
  intros Ha Hf. unfold a_flushdata. apply (flush_datas_ind fok); [done|done|done|]. intros m l1 l2 a1 Ha1 El Hf1.
  apply fok_unqueue; [done|done|by eapply band_of|by right].
Qed.
(** The bands reported only grow in number. *)
Lemma flush_datas_bands dn rest a bands :
  bands ≠ [] → (flush_datas dn rest a bands).1 ≠ [].
Proof.
  revert dn a bands; induction rest as [|m rest IH]; intros dn a bands Hb; cbn [flush_datas]; [done|].
  destruct (s_data m); [|by apply IH]. destruct (unqueue m (dn ++ rest) a) as [[] a1]; by apply IH.
Qed.
Lemma waits_flush_datas b dn rest a bands :
  0 ≤ b → aok a → a.(a_list) = dn ++ rest → waits b a →
  waits b (flush_datas dn rest a bands).2 ∨ (flush_datas dn rest a bands).1 ≠ [].
Proof.
  intros Hb. revert dn a bands; induction rest as [|m rest IH]; intros dn a bands Ha El Hw; [by left|].
  cbn [flush_datas]. destruct (s_data m); [|apply IH; [done|by rewrite <- app_assoc|done]].
  pose proof (waits_unqueue b m (dn ++ rest) a (a_held a) Hb (band_of _ _ _ _ Ha El) Hw) as H.
  pose proof (aok_flushed m dn rest a Ha El) as Har. pose proof (unqueue_list m (dn ++ rest) a) as E1.
  destruct (unqueue m (dn ++ rest) a) as [be a1]. cbn [fst snd] in *.
  destruct H as [H| ->]; [by apply IH|right]. by apply flush_datas_bands.
Qed.
Lemma lower_bands_lookup l nb bands i :
  (lower_bands l nb bands).1 !! i = lower 0 <$> l !! i.
Proof.
  revert nb bands i; induction l as [|f l IH]; intros nb bands i; [done|]. cbn [lower_bands].
  specialize (IH (nb - 1) (if wakes 0 f then nb :: bands else bands)).
  destruct (lower_bands _ _ _) as [k b]. destruct i as [|i]; [done|]. apply IH.
Qed.
Lemma lower_bands_wakes l nb bands :
  bands ≠ [] ∨ (∃ f, f ∈ l ∧ wakes 0 f = true) → (lower_bands l nb bands).2 ≠ [].
Proof.
  revert nb bands; induction l as [|f l IH]; intros nb bands H; cbn [lower_bands].
  { destruct H as [H|(f & Hf & _)]; [done|inversion Hf]. }
  specialize (IH (nb - 1) (if wakes 0 f then nb :: bands else bands)).
  destruct (lower_bands _ _ _) as [k b]. apply IH. destruct H as [H|(g & Hg & Hw)].
  - left. by destruct (wakes 0 f).
  - apply elem_of_cons in Hg as [->|Hg]; [left; by rewrite Hw|right; eauto].
Qed.
Lemma flow_at_flushall b a f :
  a.(a_list) ≠ [] → flow_at b (a_flushall a).2 = Some f →
  ∃ g, flow_at b a = Some g ∧ f = lower 0 g.
Proof.
  intros Hne. unfold a_flushall. rewrite bool_decide_false by done.
  pose proof (lower_bands_lookup (a_bands a) (nband a) (if wakes 0 (a_q a) then [0] else [])) as Hl.
  pose proof (lower_bands_length (a_bands a) (nband a) (if wakes 0 (a_q a) then [0] else [])) as Hn.
  destruct (lower_bands _ _ _) as [k bands]. cbn [fst snd] in *. unfold flow_at, idx, nband. upd.
  rewrite Hn. destruct (b =? 0); [intros [= <-]; eauto|]. destruct (_ <=? _); [|done].
  rewrite Hl. destruct (_ !! _) as [g|] eqn:E; [|done]. cbn. intros [= <-]. eauto.
Qed.
Lemma fok_flushall a : fok a → fok (a_flushall a).2.
Proof.
  intros [Hs Hf]. destruct (decide (a_list a = [])) as [El|Hne].
  { unfold a_flushall. by rewrite bool_decide_true. }
  assert (Hl : a_list (a_flushall a).2 = [] ∧ a_held (a_flushall a).2 = a_held a).
  { unfold a_flushall. rewrite bool_decide_false by done. by destruct (lower_bands _ _ _). }
  destruct Hl as [Hl Hh]. split.
  - unfold all_size in *. rewrite Hl, Hh. cbn. rewrite sum_size_app in Hs.
    pose proof (sum_size_nonneg (a_list a)). change (sum_size (a_held a) < 2 ^ 64). lia.
  - intros b f Hb Hbf. apply flow_at_flushall in Hbf as (g & Hg & ->); [|done].
    rewrite Hl. apply (lower_ok (count b (a_list a))); [by apply Hf|].
    change (count b []) with 0. pose proof (count_nonneg b (a_list a)). lia.
Qed.
Lemma waits_flushall b a :
  0 ≤ b → waits b a → waits b (a_flushall a).2 ∨ (a_flushall a).1 ≠ [].
Proof.
  intros Hb (f & Hf & H1 & H2). destruct (decide (a_list a = [])) as [El|Hne].
  { left. unfold a_flushall. rewrite bool_decide_true by done. by exists f. }
  right. assert (Hw : wakes 0 f = true) by (unfold wakes, drains; by rewrite H1, H2).
  unfold a_flushall. rewrite bool_decide_false by done.
  pose proof (lower_bands_wakes (a_bands a) (nband a) (if wakes 0 (a_q a) then [0] else [])) as Hk.
  destruct (lower_bands _ _ _) as [k bands]. apply Hk. unfold flow_at in Hf.
  destruct (b =? 0); [injection Hf as ->; left; by rewrite Hw|].
  destruct (b <=? nband a); [|done]. right. exists f. split; [|done].
  by eapply list_elem_of_lookup_2.
Qed.

(** ** Every call *)

Lemma put_with_cases place enables i a r a' :
  places place → aok a → put_with place enables i a = Some (r, a') →
  ∃ m held b, pick i a.(a_held) = Some (m, held) ∧ aok b ∧
    (∃ ok, grow (prio m).(s_band) a = (ok, b) ∧
      if ok : bool
      then ∃ l1 l2 c, b.(a_list) = l1 ++ l2 ∧ 0 ≤ (prio m).(s_band) ≤ nband b ∧
             a' = enable c (put_at (prio m) (l1, l2) (b <| a_held := held |>))
      else a' = b).
Proof.
  intros Hp Ha. unfold put_with. destruct (pick i (a_held a)) as [[m held]|] eqn:Et; [|done].
  cbn [mbind option_bind]. destruct (grow (s_band (prio m)) a) as [ok b] eqn:Eg.
  assert (Hm : valid m).
  { pose proof (ok_valid a Ha) as Hv. rewrite list.Forall_app, (pick_perm _ _ _ _ Et), list.Forall_cons in Hv.
    tauto. }
  pose proof (prio_valid _ Hm) as Hpv.
  assert (Hb : aok b) by (eapply aok_grow; [done| |done]; apply Hpv).
  intros H. exists m, held, b. split; [done|]. split; [done|]. exists ok. split; [done|].
  destruct ok; cbn [negb] in H; injection H as <- <-; [|done].
  destruct (Hp (prio m) (a_list b) (ok_desc b Hb)) as (l1 & l2 & El & E & _). rewrite El.
  exists l1, l2. eexists. split; [done|]. split; [|reflexivity]. split; [apply Hpv|].
  apply grow_spec in Eg as (c & km & -> & _ & Hok). rewrite grow_nband. by apply Hok.
Qed.
Lemma fok_put_with place enables i a r a' :
  places place → aok a → fok a → put_with place enables i a = Some (r, a') → fok a'.
Proof.
  intros Hp Ha Hf H.
  destruct (put_with_cases _ _ _ _ _ _ Hp Ha H) as (m & held & b & Et & Hb & ok & Eg & Hok).
  pose proof (fok_grow _ _ _ _ Hf Ha Eg) as Hfb. destruct ok; [|by subst].
  destruct Hok as (l1 & l2 & c & El & Hband & ->).
  assert (Hput : fok (put_at (prio m) (l1, l2) (b <| a_held := held |>))).
  { apply fok_put; [done| |done|done]. apply grow_list in Eg as [_ ->]. by eapply pick_perm. }
  revert Hput. generalize (put_at (prio m) (l1, l2) (b <| a_held := held |>)). intros x Hx.
  by apply (fok_same x); autorewrite with aq.
Qed.
Lemma waits_put_with b place enables i a r a' :
  0 ≤ b → places place → aok a → put_with place enables i a = Some (r, a') →
  waits b a → waits b a'.
Proof.
  intros Hb Hp Ha H Hw.
  destruct (put_with_cases _ _ _ _ _ _ Hp Ha H) as (m & held & x & Et & Hx & ok & Eg & Hok).
  assert (Hwx : waits b x).
  { destruct (flow_at_grow b _ a ok x Eg Hb) as [E _]. eapply waits_eq; [|done].
    apply E. by apply waits_band. }
  destruct ok; [|by subst]. destruct Hok as (l1 & l2 & c & El & Hband & ->).
  eapply (waits_eq b (put_at (prio m) (l1, l2) (x <| a_held := held |>))).
  { by apply flow_at_eq; autorewrite with aq. }
  unfold put_at. apply waits_on_flow; [done|exact Hband| |].
  - intros f H1 H2. unfold raise. by destruct (_ <? _).
  - eapply waits_eq; [|exact Hwx]. by apply flow_at_eq.
Qed.

Lemma call_flow b c a r w a' :
  0 ≤ b → aok a → call_ok c → spec_call c a = Some (r, w, a') →
  (fok a → fok a') ∧ (waits b a → waits b a' ∨ w ≠ []).
Proof.
  intros Hb Ha Hc. destruct c as [i|i| |i|b'|f| | |]; cbn [spec_call call_ok] in *.
  - destruct (a_putq i a) as [[z a1]|] eqn:E; [|done]. cbn [mbind option_bind]. intros [= <- <- <-].
    split; intros H; [by eapply fok_put_with; [apply places_behind|..]|left].
    by eapply waits_put_with; [|apply places_behind|..].
  - destruct (a_putbq i a) as [[z a1]|] eqn:E; [|done]. cbn [mbind option_bind]. intros [= <- <- <-].
    split; intros H; [by eapply fok_put_with; [apply places_before|..]|left].
    by eapply waits_put_with; [|apply places_before|..].
  - unfold a_getq. destruct (a_list a) as [|m l] eqn:El.
    + intros [= <- <- <-]. split; intros H; [by apply (fok_same a)|left]. by eapply waits_eq; [apply flow_at_eq|].
    + pose proof (fok_unqueue a m [] l (m :: a_held a)) as Hf.
      pose proof (band_of _ [] _ _ Ha El) as Hm.
      pose proof (fun Hw => waits_unqueue b m l a (m :: a_held a) Hb Hm Hw) as Hw.
      pose proof (unqueue_held m l a) as Hh. cbn [app] in Hf.
      destruct (unqueue m l a) as [be a1]. cbn [fst snd] in *. intros [= <- <- <-].
      split; intros H; [apply (fok_same (a1 <| a_held := m :: a_held a |>)); try done;
                        apply Hf; [done|done|done|by left]|].
      destruct (Hw H) as [H'| ->]; [left|by right]. by eapply waits_eq; [apply flow_at_eq|].
  - destruct (pick i (a_list a)) as [[m l]|] eqn:Et; [|done]. cbn [mbind option_bind].
    apply pick_Some in Et as (l1 & l2 & El & -> & _).
    pose proof (fok_unqueue a m l1 l2 (m :: a_held a)) as Hf.
    pose proof (band_of _ _ _ _ Ha El) as Hm.
    pose proof (fun Hw => waits_unqueue b m (l1 ++ l2) a (m :: a_held a) Hb Hm Hw) as Hw.
    pose proof (unqueue_held m (l1 ++ l2) a) as Hh.
    destruct (unqueue m (l1 ++ l2) a) as [be a1]. cbn [fst snd] in *. intros [= <- <- <-].
    split; intros H; [apply (fok_same (a1 <| a_held := m :: a_held a |>)); try done;
                      apply Hf; [done|done|done|by left]|].
    destruct (Hw H) as [H'| ->]; [left|by right]. by eapply waits_eq; [apply flow_at_eq|].
  - unfold a_bcanput. destruct (flow_at b' a) as [f|] eqn:E; [destruct (f_full f) eqn:Ef|];
      intros [= <- <- <-]; [|by auto|by auto].
    assert (Hn : 0 ≤ b' ≤ nband a).
    { destruct (Z.eq_dec b' 0) as [->|Hn]; [unfold nband; lia|].
      apply flow_at_bands in E as [? _]; [lia|done]. }
    split; intros H; [|left; by apply waits_on_flow].
    split; [unfold all_size; rewrite on_flow_list, on_flow_held; apply H|].
    intros x g Hx. rewrite flow_at_on_flow, on_flow_list by done.
    destruct (Z.eqb_spec x b') as [->|_]; [|by apply H]. rewrite E. cbn. intros [= <-].
    destruct (fo_flow _ H b' f Hx E) as (F1 & F2 & F3 & F4). unfold flow_ok. cbn. by rewrite Ef in *.
  - destruct f; cbn [a_flushq].
    + pose proof (fok_flushdata a Ha) as Hf.
      pose proof (waits_flush_datas b [] (a_list a) a [] Hb Ha eq_refl) as Hw. fold (a_flushdata a) in Hw.
      destruct (a_flushdata a) as [bands a1]. intros [= <- <- <-]. done.
    + pose proof (fok_flushall a) as Hf. pose proof (waits_flushall b a Hb) as Hw.
      destruct (a_flushall a) as [bands a1]. intros [= <- <- <-]. done.
  - intros [= <- <- <-]. split; intros H; [by apply (fok_same a)|left]. by eapply waits_eq; [apply flow_at_eq|].
  - intros [= <- <- <-]. split; intros H; [by apply (fok_same a)|left]. by eapply waits_eq; [apply flow_at_eq|].
  - intros [= <- <- <-]. split; intros H; [by apply (fok_same a); autorewrite with aq|left].
    by eapply waits_eq; [apply flow_at_eq; autorewrite with aq|].
Qed.

(** ** Runs *)

Lemma spec_run_app l1 l2 a :
  spec_run (l1 ++ l2) a =
  ('(rs, ws, a) ← spec_run l1 a; '(rs2, ws2, a) ← spec_run l2 a; Some (rs ++ rs2, ws ++ ws2, a)).
Proof.
  revert a; induction l1 as [|c l1 IH]; intros a; cbn [app spec_run].
  { cbn. by destruct (spec_run l2 a) as [[[]]|]. }
  destruct (spec_call c a) as [[[r w] a1]|]; [|done]. cbn [mbind option_bind]. rewrite IH.
  destruct (spec_run l1 a1) as [[[rs ws] a2]|]; [|done]. cbn [mbind option_bind].
  destruct (spec_run l2 a2) as [[[]]|]; [|done]. cbn. by rewrite app_assoc.
Qed.
Lemma run_app l1 l2 p :
  run (l1 ++ l2) p = ('(rs, p) ← run l1 p; '(rs2, p) ← run l2 p; Some (rs ++ rs2, p)).
Proof.
  revert p; induction l1 as [|c l1 IH]; intros p; cbn [app run].
  { cbn. by destruct (run l2 p) as [[]|]. }
  destruct (run_call c p) as [[r p1]|]; [|done]. cbn [mbind option_bind]. rewrite IH.
  destruct (run l1 p1) as [[rs p2]|]; [|done]. cbn [mbind option_bind].
  by destruct (run l2 p2) as [[]|].
Qed.
Lemma spec_run_length l a rs ws a' : spec_run l a = Some (rs, ws, a') → length rs = length l.
Proof.
  revert a rs ws; induction l as [|c l IH]; intros a rs ws; cbn [spec_run]; [by intros [= <- _ _]|].
  destruct (spec_call c a) as [[[r w] x]|]; [|done]. cbn [mbind option_bind].
  destruct (spec_run l x) as [[[rs1 ws1] y]|] eqn:E; [|done]. intros [= <- _ ->]. cbn. f_equal.
  by eapply IH.
Qed.
(** The call that is told to wait. *)
Lemma canput_waits b a z a' :
  0 ≤ b → a_bcanput b a = (z, a') → z = false → waits b a'.
Proof.
  intros Hb Ec ->. unfold a_bcanput in Ec.
  destruct (flow_at b a) as [g|] eqn:Eg; [destruct (f_full g) eqn:Efg|]; simplify_eq.
  assert (0 ≤ b ≤ nband a).
  { destruct (Z.eq_dec b 0) as [->|Hb0]; [unfold nband; lia|].
    apply flow_at_bands in Eg as [? _]; [lia|done]. }
  exists (want g). by rewrite flow_at_on_flow, Z.eqb_refl, Eg.
Qed.
Lemma start_flow hiwat lowat ms kmem :
  0 ≤ lowat ≤ hiwat → sum_size ms < 2 ^ 64 → fok (spec_start hiwat lowat ms kmem).
Proof.
  intros Hw Hs. split; [done|]. intros b f Hb. unfold flow_at. destruct (b =? 0) eqn:E.
  - intros [= <-]. unfold flow_ok. cbn. change (count b []) with 0. split; [done|]. split; [done|].
    split; [lia|done].
  - cbn [a_bands spec_start]. rewrite lookup_nil. by destruct (b <=? _).
Qed.
Lemma run_flow l a rs ws a' :
  aok a → fok a → Forall call_ok l → spec_run l a = Some (rs, ws, a') → aok a' ∧ fok a'.
Proof.
  revert a rs ws; induction l as [|c l IH]; intros a rs ws Ha Hf Hl; cbn [spec_run].
  { by intros [= <- <- <-]. }
  apply list.Forall_cons in Hl as [Hc Hl].
  destruct (spec_call c a) as [[[r w] a1]|] eqn:E; [|done]. cbn [mbind option_bind].
  destruct (spec_run l a1) as [[[rs1 ws1] a2]|] eqn:E'; [|done]. intros [= <- <- <-].
  destruct (call_flow 0 c a r w a1 ltac:(lia) Ha Hc E) as [H1 _].
  eapply IH; [by eapply aok_call|by apply H1|done|done].
Qed.
(** While a writer waits, and until it is woken. *)
Lemma run_waits b l p a rs ws a' :
  0 ≤ b → prepr p a → Forall call_ok l → spec_run l a = Some (rs, ws, a') →
  waits b a ∨ p.(back).(q_enab) = true →
  ∃ p', run l p = Some (rs, p') ∧ prepr p' a' ∧ (waits b a' ∨ p'.(back).(q_enab) = true).
Proof.
  intros Hb. revert p a rs ws; induction l as [|c l IH]; intros p a rs ws Hp Hl; cbn [spec_run run].
  { intros [= <- <- <-] H. by exists p. }
  apply list.Forall_cons in Hl as [Hc Hl].
  destruct (spec_call c a) as [[[r w] a1]|] eqn:E; [|done]. cbn [mbind option_bind].
  destruct (spec_run l a1) as [[[rs1 ws1] a2]|] eqn:E'; [|done]. cbn [mbind option_bind].
  intros [= <- <- <-] H. destruct (call_refines c p a r w a1 Hp Hc E) as (p1 & -> & Hp1 & W).
  cbn [mbind option_bind].
  assert (H1 : waits b a1 ∨ p1.(back).(q_enab) = true).
  { destruct w as [|x w]; [|by right]. cbn [woken] in W. rewrite W. destruct H as [H|H]; [left|by right].
    destruct (call_flow b c a r [] a1 Hb (pr_ok _ _ Hp) Hc E) as [_ Hw]. by destruct (Hw H). }
  destruct (IH p1 a1 rs1 ws1 Hp1 Hl E' H1) as (p2 & -> & Hp2 & H2). by exists p2.
Qed.

(** ** What flow control promises *)

(** The count, water marks and full flag of a band, as the queue has them. *)
Definition marks (b : Z) (q : queue) : option (Z * Z * Z * bool) :=
  if b =? 0 then Some (q.(q_count), q.(q_lowat), q.(q_hiwat), q.(q_full))
  else if b <=? q.(q_nband)
  then (fun qb => (qb.(qb_count), qb.(qb_lowat), qb.(qb_hiwat), qb.(qb_full)))
         <$> q.(q_bandp) !! Z.to_nat (q.(q_nband) - b)
  else None.
Lemma marks_repr b q kmem a :
  crepr q kmem a → 0 ≤ b →
  marks b q = (fun f => (count b a.(a_list), f.(f_lowat), f.(f_hiwat), f.(f_full))) <$> flow_at b a.
Proof.
  intros H Hb. unfold marks, flow_at. destruct (Z.eqb_spec b 0) as [->|Hb0].
  - destruct (cr_queue _ _ _ H) as (-> & -> & -> & -> & _). done.
  - rewrite (cr_nband _ _ _ H). destruct (Z.leb_spec b (nband a)); [|done].
    destruct (band_at q kmem a b H) as (qb & f & E1 & E2 & (E3 & _ & E5 & E6 & E7 & _)); [lia|].
    unfold idx in E1, E2. rewrite E1. unfold idx. rewrite E2. cbn. by rewrite E3, E5, E6, E7.
Qed.

(** C12. In every state a run reaches, the count of a band is the size of the messages
    of that band on the queue; it is not above the high water mark when the band
    is not full, and neither zero nor below the low water mark when it is. *)
Theorem water_marks hiwat lowat ms kmem l rs ws a' :
  NoDup (ids ms) → Forall valid ms → 0 ≤ lowat ≤ hiwat → sum_size ms < 2 ^ 64 →
  Forall call_ok l → spec_run l (spec_start hiwat lowat ms kmem) = Some (rs, ws, a') →
  ∃ p', run l (start hiwat lowat ms kmem) = Some (rs, p') ∧
    ∀ b c lo hi full, 0 ≤ b → marks b p'.(front).(qu) = Some (c, lo, hi, full) →
      c = sum_size (in_band b a'.(a_list)) ∧ (if full : bool then c ≠ 0 ∧ lo ≤ c else c ≤ hi).
Proof.
  intros Hn Hv Hw Hs Hl H. pose proof (start_ok hiwat lowat ms kmem Hn Hv) as Hp.
  destruct (run_flow _ _ _ _ _ (pr_ok _ _ Hp) (start_flow _ _ _ _ Hw Hs) Hl H) as [Ha' [Hs' Hf']].
  destruct (run_ok l _ _ rs ws a' Hp Hl H) as (p' & E & Hp'). exists p'. split; [done|].
  intros b c lo hi full Hb. rewrite (marks_repr b _ _ _ (re_queue _ _ (pr_repr _ _ Hp')) Hb).
  destruct (flow_at b a') as [f|] eqn:Hbf; [|done]. intros [= <- <- <- <-].
  destruct (Hf' b f Hb Hbf) as (_ & F1 & F2 & _). pose proof (all_size_list a').
  rewrite count_sum in F1, F2 |- * by lia. split; [done|]. destruct (f_full f); [by apply F1|by apply F2].
Qed.
(** C5. A writer that [bcanputnext] told to wait is not forgotten: whatever is put,
    read, removed or flushed then, its queue is scheduled, or the band is still full
    with a count neither zero nor below the low water mark. *)
Theorem no_lost_wakeup hiwat lowat ms kmem l1 l2 b rs1 rs2 ws a' :
  NoDup (ids ms) → Forall valid ms → 0 ≤ lowat ≤ hiwat → sum_size ms < 2 ^ 64 →
  Forall call_ok l1 → Forall call_ok l2 → 0 ≤ b → length rs1 = length l1 →
  spec_run (l1 ++ Canput b :: l2) (spec_start hiwat lowat ms kmem)
    = Some (rs1 ++ RInt 0 :: rs2, ws, a') →
  ∃ p', run (l1 ++ Canput b :: l2) (start hiwat lowat ms kmem) = Some (rs1 ++ RInt 0 :: rs2, p') ∧
    (p'.(back).(q_enab) = true ∨
     ∃ c lo hi, marks b p'.(front).(qu) = Some (c, lo, hi, true) ∧ c ≠ 0 ∧ lo ≤ c).
Proof.
  intros Hn Hv Hw Hs Hl1 Hl2 Hb Hlen H.
  pose proof (start_ok hiwat lowat ms kmem Hn Hv) as Hp.
  pose proof (start_flow hiwat lowat ms kmem Hw Hs) as Hf.
  rewrite spec_run_app in H.
  destruct (spec_run l1 _) as [[[r1 w1] a1]|] eqn:E1; [|done]. cbn [mbind option_bind] in H.
  destruct (spec_run (Canput b :: l2) a1) as [[[r2 w2] a2]|] eqn:E2; [|done].
  cbn [mbind option_bind] in H. injection H as Hr _ ->.
  destruct (run_ok l1 _ _ r1 w1 a1 Hp Hl1 E1) as (p1 & R1 & Hp1).
  destruct (run_flow _ _ _ _ _ (pr_ok _ _ Hp) Hf Hl1 E1) as [Ha1 Hf1].
  pose proof (spec_run_length _ _ _ _ _ E1) as Hr1.
  apply app_inj_1 in Hr as [-> ->]; [|congruence].
  cbn [spec_run spec_call] in E2. destruct (a_bcanput b a1) as [z a3] eqn:Ec. cbn [mbind option_bind] in E2.
  destruct (spec_run l2 a3) as [[[r3 w3] a4]|] eqn:E3; [|done]. cbn [mbind option_bind] in E2.
  injection E2 as Ez -> _ ->.
  assert (Hc3 : spec_call (Canput b) a1 = Some (RInt (Z.b2z z), [], a3)) by (cbn; by rewrite Ec).
  destruct (call_refines (Canput b) p1 a1 _ _ _ Hp1 Hb Hc3) as (p3 & R3 & Hp3 & _).
  assert (Hw3 : waits b a3) by (eapply canput_waits; [done|exact Ec|by destruct z]).
  destruct (run_waits b l2 p3 a3 rs2 w3 a' Hb Hp3 Hl2 E3 (or_introl Hw3)) as (p' & R & Hp' & Hend).
  exists p'. rewrite run_app, R1. cbn [mbind option_bind run]. rewrite R3. cbn [mbind option_bind].
  rewrite R. cbn [mbind option_bind]. rewrite Ez. split; [done|].
  destruct Hend as [(g & Hg & G1 & _)|He]; [right|by left].
  rewrite (marks_repr b _ _ _ (re_queue _ _ (pr_repr _ _ Hp')) Hb), Hg. cbn [fmap option_fmap option_map].
  pose proof (aok_call _ _ _ _ _ Ha1 Hc3) as Ha3.
  destruct (call_flow b (Canput b) a1 _ _ _ Hb Ha1 Hb Hc3) as [Hf3 _].
  destruct (run_flow l2 a3 _ _ _ Ha3 (Hf3 Hf1) Hl2 E3) as [_ [_ Hf']].
  destruct (Hf' b g Hb Hg) as (_ & F & _). rewrite G1. eexists _, _, _. split; [done|by apply F].
Qed.

(** A message of 60 octets in band 1 fills the band; the writer waits, and is
    scheduled when the message is read. *)
Definition drain_calls : list call := [Putq 3; Getq; Getq].
Lemma no_lost_wakeup_witness :
  ∃ p', run ([Putq 1] ++ Canput 1 :: drain_calls) (start 50 20 three [])
    = Some ([RInt 1] ++ RInt 0 :: [RInt 1; RMsg (Some 3); RMsg (Some 1)], p') ∧
    (p'.(back).(q_enab) = true ∨
     ∃ c lo hi, marks 1 p'.(front).(qu) = Some (c, lo, hi, true) ∧ c ≠ 0 ∧ lo ≤ c).
Proof.
  eapply (no_lost_wakeup 50 20 three [] [Putq 1] drain_calls 1 [RInt 1]);
    [by apply (bool_decide_unpack _)|repeat constructor; vm_compute; done|lia|vm_compute; done
    |repeat constructor|repeat constructor|lia|done|vm_compute; reflexivity].
Defined.
Lemma water_marks_witness :
  ∃ p', run [Putq 1] (start 50 20 three []) = Some ([RInt 1], p') ∧
    ∀ b c lo hi full, 0 ≤ b → marks b p'.(front).(qu) = Some (c, lo, hi, full) →
      c = sum_size (in_band b [Smsg 1 1 (Blk M_DATA 0 60) []]) ∧
      (if full : bool then c ≠ 0 ∧ lo ≤ c else c ≤ hi).
Proof.
  edestruct (water_marks 50 20 three [] [Putq 1] [RInt 1]) as (p' & E & H);
    [by apply (bool_decide_unpack _)|repeat constructor; vm_compute; done|lia|vm_compute; done
    |repeat constructor|vm_compute; reflexivity|by exists p'].
Defined.
