(* ===== verification/StrFaults.v ===== *)
(** * STREAMS message queues: where the code departs from its manual pages

    Message types, sizes, insertion before a message and the flushing of a band,
    on the operations of [StrQueue] as the code has them. *)
From S2P Require Import Prelude StrQueue StrSpec StrRefine StrSys.
From stdpp Require Import gmap.
#[local] Open Scope Z_scope.
#[local] Open Scope os7_scope.

(** ** Message types *)

(** The values of [msg_type_t], without the two class marks. *)
Definition msg_types : list Z :=
  [0x00; 0x01; 0x08; 0x09; 0x0a; 0x0b; 0x0c; 0x0d; 0x0e; 0x10; 0x11; 0x12; 0x13;
   0x81; 0x82; 0x83; 0x84; 0x85; 0x86; 0x87; 0x88; 0x89; 0x8a; 0x8b; 0x8c; 0x8d; 0x8e; 0x8f;
   0x90; 0x91; 0x92; 0x93; 0x94; 0x95; 0x96; 0x97; 0x98; 0x99; 0x9a; 0x9b; 0x9c; 0x9d].
(** The data messages of the manual page. *)
Definition data_type (t : Z) : bool :=
  (t =? M_DATA) || (t =? M_PROTO) || (t =? M_PCPROTO) || (t =? M_DELAY).
(** Without its class bit [M_IOCACK] is [M_PROTO] and [M_COPYOUT] is [M_DELAY]:
    besides the data messages [datamsg] takes these two for data, [ctlmsg] only
    the first, and no other. *)
Lemma datamsg_types :
  filter (fun t => datamsg t ≠ data_type t) msg_types = [M_IOCACK; M_COPYOUT] ∧
  filter (fun t => ctlmsg t ≠ negb (data_type t || (t =? M_DELAY))) msg_types = [M_DELAY; M_IOCACK].
Proof. split; vm_compute; reflexivity. Qed.
(** A flush of data messages frees the acknowledgement of an input-output control. *)
Lemma flush_frees_iocack :
  ∃ p, run [Putq 1; Flushq FLUSHDATA] (start 50 20 [Smsg 1 0 (Blk M_IOCACK 0 8) []] [])
    = Some ([RInt 1; RUnit], p) ∧ p.(front).(heap) = ∅.
Proof. eexists. split; vm_compute; reflexivity. Qed.

(** ** Sizes *)

(** [xmsgsize] counts the first block that is not empty twice. *)
Lemma xmsgsize_twice t n :
  0 < n < 2 ^ 63 → xmsgsize [Blk t 0 n] = 2 * n ∧ blks_size (Blk t 0 n) [] = n.
Proof.
  intros Hn. unfold xmsgsize, xfirst, xrest, blks_size, fold_left, add_size, blen, u64.
  cbn [b_rptr b_wptr db_type]. rewrite !Z.sub_0_r, !(Z.mod_small n) by lia.
  replace (0 <? n) with true by lia. cbn [b_rptr b_wptr db_type].
  rewrite !Z.sub_0_r, !(Z.mod_small n), Z.eqb_refl by lia. replace (0 <? n) with true by lia.
  rewrite !Z.mod_small by lia. lia.
Qed.

(** ** Bands *)

Definition put_all (l : list Z) (p : pair) : option pair :=
  '(_, p) ← run (Putq <$> l) p; Some p.
Definition read (n : nat) (p : pair) : option pair := '(_, p) ← run (replicate n Getq) p; Some p.
(** Two messages of band 1, one of band 2, two of no band. *)
Definition five : list smsg :=
  [Smsg 1 1 (Blk M_DATA 0 8) []; Smsg 2 1 (Blk M_DATA 0 8) []; Smsg 3 2 (Blk M_DATA 0 8) [];
   Smsg 4 0 (Blk M_DATA 0 8) []; Smsg 5 0 (Blk M_DATA 0 8) []].
Definition p0 : pair := start 50 20 five [].
(** The messages from the head of the queue along [b_next]. *)
Fixpoint along (fuel : nat) (h : gmap Z msgb) (b : option Z) : list Z :=
  match fuel, b with
  | S fuel, Some b => b :: match h !! b with Some m => along fuel h m.(b_next) | None => [] end
  | _, _ => []
  end.
Definition messages (p : pair) : list Z := along 10 p.(front).(heap) p.(front).(qu).(q_first).

(** After the last message of band 1 has been read [qb_first] points to the next
    message of the queue, which is in no band, and [qb_last] is null: [flushband]
    dereferences it. *)
Lemma getq_leaves_band_first :
  ∃ p, (p ← put_all [1; 4] p0; read 1 p) = Some p ∧
    (qb_first <$> p.(front).(qu).(q_bandp)) = [Some 4] ∧
    flushband p 1 FLUSHALL = None.
Proof. eexists. split; [vm_compute; reflexivity|]. split; vm_compute; reflexivity. Qed.
(** When that message has been read too, [flushband] frees it in the hands of its
    reader, and leaves the message of the band on the queue. *)
Lemma flushband_frees_message_read :
  ∃ p p', (p ← put_all [1; 4] p0; p ← read 2 p; put_all [2] p) = Some p ∧
    flushband p 1 FLUSHALL = Some p' ∧
    p.(front).(heap) !! 4 ≠ None ∧ p'.(front).(heap) !! 4 = None ∧ messages p' = [2].
Proof.
  eexists _, _. split; [vm_compute; reflexivity|]. split; [vm_compute; reflexivity|].
  split; [vm_compute; discriminate|]. split; vm_compute; reflexivity.
Qed.
(** A flush of the data messages of band 1 goes on through the bands below it. *)
Lemma flushband_data_flushes_below :
  ∃ p p', put_all [1; 2; 3; 4; 5] p0 = Some p ∧ messages p = [3; 1; 2; 4; 5] ∧
    flushband p 1 FLUSHDATA = Some p' ∧ messages p' = [3].
Proof. eexists _, _. repeat (split; [vm_compute; reflexivity|]). vm_compute. reflexivity. Qed.
(** A flush of a band that does not exist flushes the highest that does. *)
Lemma flushband_missing_flushes_highest :
  ∃ p p', put_all [1; 2; 4] p0 = Some p ∧ p.(front).(qu).(q_nband) = 1 ∧
    flushband p 7 FLUSHALL = Some p' ∧ messages p' = [4].
Proof. eexists _, _. repeat (split; [vm_compute; reflexivity|]). vm_compute. reflexivity. Qed.
(** A flush of band 0 dereferences a null pointer when one message is on the
    queue, and leaves [q_last] at a freed message when there are more: the next
    message is not linked to the head. *)
Lemma flushband_0_breaks :
  (p ← put_all [4] p0; flushband p 0 FLUSHALL) = None ∧
  ∃ p, (p ← put_all [4; 5] p0; flushband p 0 FLUSHALL) = Some p ∧
    p.(front).(qu).(q_first) = None ∧ p.(front).(qu).(q_last) = Some 5 ∧
    p.(front).(heap) !! 5 = None.
Proof.
  split; [vm_compute; reflexivity|]. eexists. split; [vm_compute; reflexivity|].
  split; [vm_compute; reflexivity|]. split; vm_compute; reflexivity.
Qed.

(** ** Insertion *)

(** [insq] refuses to insert a message of band 2 before one of band 1, which is
    its place, and inserts one of band 1 before one of band 2, which is not. *)
Lemma insq_order_inverted :
  (∃ p, put_all [1] p0 = Some p ∧
     ((fun r => r.1) <$> insq p.(front) (Some 1) 3) = Some 0) ∧
  (∃ p s, put_all [3] p0 = Some p ∧ insq p.(front) (Some 3) 1 = Some (1, s) ∧
     messages (p <| front := s |>) = [1; 3]).
Proof.
  split; [eexists|eexists _, _]; repeat (split; [vm_compute; reflexivity|]); vm_compute; reflexivity.
Qed.
