(* ===== verification/StrPort.v ===== *)
(** * Message queues as their users see them

    The interface between the STREAMS message queues and the code that uses them:
    [Queue_ops] are the utilities a put or service procedure calls on its queue and
    on the messages it holds, [Queue_laws] that they do what the contract of
    [StrSpec] states.  The linked queues of [StrQueue] are one instance, the
    contract itself is another. *)
From S2P Require Import Prelude StrQueue StrSpec StrRefine StrSys StrFlow.
From stdpp Require Import gmap sorting.
#[local] Open Scope Z_scope.
#[local] Open Scope os7_scope.

(** ** The interface *)

(** [q_head], [q_read] and [q_write] are [q->q_first] and the fields of a message
    off the queue; [q_take] is a message that comes into the hands of the caller,
    [q_free] one that leaves them; [q_flushband] flushes the data of a band (the
    contract says nothing of it, see [StrFaults]); [q_qenable] schedules the service procedure and
    [q_run] is the scheduler that takes up a scheduled queue. *)
Class Queue_ops (Q : Type) := {
  q_call : call → Q → option (result * Q);
  q_head : Q → option Z;
  q_read : Z → Q → option smsg;
  q_write : smsg → Q → option Q;
  q_take : smsg → Q → Q;
  q_free : Z → Q → option Q;
  q_flushband : Z → Q → option Q;
  q_qenable : Q → Q;
  q_run : Q → bool * Q }.
(** The caller holds the message [m], and the messages [held] besides. *)
Definition holds (i : Z) (a : aq) (m : smsg) (held : list smsg) : Prop :=
  pick i a.(a_held) = Some (m, held).
Class Queue_laws (Q : Type) `{!Queue_ops Q} := {
  rep : Q → aq → Prop;
  rep_ok : ∀ q a, rep q a → aok a;
  q_call_ok : ∀ c q a r w a', rep q a → call_ok c → spec_call c a = Some (r, w, a') →
    ∃ q', q_call c q = Some (r, q') ∧ rep q' a';
  q_head_ok : ∀ q a, rep q a → q_head q = list.head (ids a.(a_list));
  q_read_ok : ∀ q a m, rep q a → m ∈ a.(a_list) ++ a.(a_held) → q_read m.(s_id) q = Some m;
  q_write_ok : ∀ q a m m0 held, rep q a → holds m.(s_id) a m0 held → valid m →
    ∃ q', q_write m q = Some q' ∧ rep q' (a <| a_held := m :: held |>);
  q_take_ok : ∀ q a m, rep q a → valid m → m.(s_id) ∉ ids (a.(a_list) ++ a.(a_held)) →
    rep (q_take m q) (a <| a_held := m :: a.(a_held) |>);
  q_free_ok : ∀ q a i m held, rep q a → holds i a m held →
    ∃ q', q_free i q = Some q' ∧ rep q' (a <| a_held := held |>);
  q_qenable_ok : ∀ q a, rep q a → rep (q_qenable q) (enable true a);
  q_run_ok : ∀ q a, rep q a →
    (q_run q).1 = a.(a_enab) ∧ rep (q_run q).2 (a <| a_enab := false |>) }.

(** ** The contract is an instance *)

#[export] Instance aq_ops : Queue_ops aq := {
  q_call c a := '(r, _, a) ← spec_call c a; Some (r, a);
  q_head a := list.head (ids a.(a_list));
  q_read i a := fst <$> pick i (a.(a_list) ++ a.(a_held));
  q_write m a := '(_, held) ← pick m.(s_id) a.(a_held); Some (a <| a_held := m :: held |>);
  q_take m a := a <| a_held := m :: a.(a_held) |>;
  q_free i a := '(_, held) ← pick i a.(a_held); Some (a <| a_held := held |>);
  q_flushband _ _ := None;
  q_qenable a := enable true a;
  q_run a := (a.(a_enab), a <| a_enab := false |>) }.

(** What the operations on held messages keep. *)
#[export] Instance ids_proper : Proper ((≡ₚ) ==> (≡ₚ)) ids.
Proof. intros l k. apply fmap_Permutation. Qed.
Lemma holds_perm i a m held :
  holds i a m held → a.(a_list) ++ a.(a_held) ≡ₚ m :: a.(a_list) ++ held.
Proof. intros H. apply pick_perm in H. by rewrite H, Permutation_middle. Qed.
Lemma holds_id i a m held : holds i a m held → m.(s_id) = i.
Proof. by intros (? & ? & _ & _ & ?)%pick_Some. Qed.
Lemma holds_in i a m held : holds i a m held → m ∈ a.(a_held).
Proof. intros H. apply pick_perm in H. rewrite H. apply elem_of_cons. by left. Qed.
Lemma aok_free i a m held : aok a → holds i a m held → aok (a <| a_held := held |>).
Proof.
  intros [] H. apply holds_perm in H. rewrite H in ok_ids, ok_valid.
  apply NoDup_cons in ok_ids as [_ ?]. apply list.Forall_cons in ok_valid as [_ ?]. by split.
Qed.
Lemma aok_take m a :
  aok a → valid m → m.(s_id) ∉ ids (a.(a_list) ++ a.(a_held)) → aok (a <| a_held := m :: a.(a_held) |>).
Proof.
  intros [] Hm Hi. split; [| done | | done | done]; upd.
  - rewrite <- Permutation_middle. by apply NoDup_cons.
  - rewrite <- Permutation_middle. by apply list.Forall_cons.
Qed.
Lemma aok_write m a m0 held :
  aok a → holds m.(s_id) a m0 held → valid m → aok (a <| a_held := m :: held |>).
Proof.
  intros Ha Hh Hm. pose proof (aok_free _ _ _ _ Ha Hh) as Hf.
  apply (aok_take m) in Hf; [done|done|]. cbn. destruct Ha as [Hn _ _ _ _].
  rewrite (holds_perm _ _ _ _ Hh) in Hn.
  apply NoDup_cons in Hn as [Hn _]. by rewrite (holds_id _ _ _ _ Hh) in Hn.
Qed.
Lemma pick_unique m l : NoDup (ids l) → m ∈ l → ∃ k, pick m.(s_id) l = Some (m, k).
Proof.
  intros Hn Hm. destruct (pick_in (s_id m) l) as (x & k & E).
  { by apply list_elem_of_fmap_2. }
  exists k. rewrite E. pose proof (pick_perm _ _ _ _ E) as Hp.
  apply pick_Some in E as (_ & _ & _ & _ & E). rewrite Hp in Hm, Hn.
  apply elem_of_cons in Hm as [->|Hm]; [done|]. cbn in Hn.
  apply NoDup_cons in Hn as [Hn _]. destruct Hn. rewrite E. by apply list_elem_of_fmap_2.
Qed.
Lemma aok_enab a b : aok a → aok (a <| a_enab := b |>).
Proof. by intros []. Qed.
#[export] Program Instance aq_laws : Queue_laws aq := { rep q a := q = a ∧ aok a }.
Next Obligation. by intros q a [_ H]. Qed.
Next Obligation.
  intros c q a r w a' [-> Ha] _ H. cbn. rewrite H. cbn. eexists. split; [done|]. split; [done|].
  by eapply aok_call.
Qed.
Next Obligation. by intros q a [-> _]. Qed.
Next Obligation.
  intros q a m [-> Ha] Hm. cbn. destruct (pick_unique m _ (ok_ids _ Ha) Hm) as [k ->]. done.
Qed.
Next Obligation.
  intros q a m m0 held [-> Ha] Hh Hm. cbn. rewrite Hh. cbn. eexists. split; [done|]. split; [done|].
  by eapply aok_write.
Qed.
Next Obligation. intros q a m [-> Ha] Hm Hi. split; [done|]. by apply aok_take. Qed.
Next Obligation.
  intros q a i m held [-> Ha] Hh. cbn. rewrite Hh. cbn. eexists. split; [done|]. split; [done|].
  by eapply aok_free.
Qed.
Next Obligation. intros q a [-> Ha]. split; [done|]. by apply aok_enable. Qed.
Next Obligation. intros q a [-> Ha]. split; [done|]. split; [done|]. by apply aok_enab. Qed.

(** ** The linked queues are an instance *)

Definition msg_at (i : Z) (m : msgb) : smsg := Smsg i m.(b_band) m.(b_datap) m.(b_cont).
Definition put_msg (h : gmap Z msgb → option (gmap Z msgb)) (p : pair) : option pair :=
  h ← h p.(front).(heap); Some (p <| front; heap := h |>).
#[export] Instance pair_ops : Queue_ops pair := {
  q_call := run_call;
  q_head p := p.(front).(qu).(StrQueue.q_first);
  q_read i p := msg_at i <$> p.(front).(heap) !! i;
  q_write m := put_msg (fun h => c ← h !! m.(s_id);
                 Some (<[m.(s_id) := cell m c.(b_next) c.(b_prev)]> h));
  q_take m p := p <| front; heap := <[m.(s_id) := cell m None None]> p.(front).(heap) |>;
  q_free i := put_msg (fun h => c ← h !! i; Some (delete i h));
  q_flushband band p := flushband p band FLUSHDATA;
  q_qenable p := p <| front; qu := qenable p.(front).(qu) |>;
  q_run p := (p.(front).(qu).(q_enab), p <| front; qu := p.(front).(qu) <| q_enab := false |> |>) }.

Lemma msg_at_cell m n p : msg_at m.(s_id) (cell m n p) = m.
Proof. by destruct m. Qed.
(** Every message of the queue or its user is in the store. *)
Lemma repr_cell s a m : repr s a → m ∈ a.(a_list) ++ a.(a_held) → held_in s.(heap) m.
Proof.
  intros [[_ _ Hl Hh] _] [Hm|Hm]%elem_of_app; [by eapply linked_in|].
  rewrite list.Forall_forall in Hh. by apply Hh.
Qed.
(** A store that differs only in messages the queue does not hold. *)
Lemma repr_store s a h held :
  repr s a → (∀ i, i ∈ ids a.(a_list) → h !! i = s.(heap) !! i) → Forall (held_in h) held →
  repr (s <| heap := h |>) (a <| a_held := held |>).
Proof.
  intros [[H1 H2 H3 _] Hq] Hh Hf. split; [|exact (crepr_held _ _ _ held Hq)].
  split; upd; [done|done| |done]. eapply linked_ext; [|done]. exact Hh.
Qed.
Lemma prepr_store p a h a' :
  prepr p a → repr (p.(front) <| heap := h |>) a' → aok a' → prepr (p <| front; heap := h |>) a'.
Proof. intros [] H1 H2. by split. Qed.

#[export] Program Instance pair_laws : Queue_laws pair := { rep := prepr }.
Next Obligation. by intros q a []. Qed.
Next Obligation.
  intros c q a r w a' Hq Hc H. destruct (call_refines c q a r w a' Hq Hc H) as (p & E & Hp & _).
  by exists p.
Qed.
Next Obligation. intros q a [[[H _ _ _] _] _ _ _]. cbn. rewrite H. by destruct (a_list a). Qed.
Next Obligation.
  intros q a m [Hr _ _ _] Hm. destruct (repr_cell _ _ _ Hr Hm) as (n & p & H). cbn. rewrite H.
  cbn. by rewrite msg_at_cell.
Qed.
Next Obligation.
  intros q a m m0 held Hq Hh Hm. pose proof Hq as [Hr Ha _ _].
  destruct (repr_cell _ _ m0 Hr) as (n & p & H).
  { apply elem_of_app. right. by eapply holds_in. }
  pose proof (holds_id _ _ _ _ Hh) as Hi. rewrite Hi in H.
  cbn. unfold put_msg. rewrite H. cbn. eexists. split; [done|].
  pose proof (ok_ids _ Ha) as Hn. rewrite (holds_perm _ _ _ _ Hh) in Hn. cbn in Hn. rewrite Hi, ids_app in Hn.
  apply NoDup_cons in Hn as [[Hl Hd]%not_elem_of_app _].
  apply prepr_store with a; [done| |by eapply aok_write].
  apply repr_store; [done| |].
  - intros i Hil. rewrite lookup_insert_ne; [done|]. by intros <-.
  - apply list.Forall_cons. split; [by exists n, p; rewrite lookup_insert_eq|].
    pose proof (re_heap _ _ Hr) as [_ _ _ Hf]. rewrite (pick_perm _ _ _ _ Hh) in Hf.
    apply list.Forall_cons in Hf as [_ Hf]. eapply held_ext; [|done]. intros i Hih.
    rewrite lookup_insert_ne; [done|]. by intros <-.
Qed.
Next Obligation.
  intros q a m Hq Hm Hi. pose proof Hq as [Hr Ha _ _]. cbn. rewrite ids_app in Hi.
  apply not_elem_of_app in Hi as [Hl Hd].
  apply prepr_store with a; [done| |by apply aok_take; [..|rewrite ids_app; apply not_elem_of_app]].
  apply repr_store; [done| |].
  - intros i Hil. rewrite lookup_insert_ne; [done|]. by intros <-.
  - apply list.Forall_cons. split; [by exists None, None; rewrite lookup_insert_eq|].
    pose proof (re_heap _ _ Hr) as [_ _ _ Hf]. eapply held_ext; [|done]. intros i Hih.
    rewrite lookup_insert_ne; [done|]. by intros <-.
Qed.
Next Obligation.
  intros q a i m held Hq Hh. pose proof Hq as [Hr Ha _ _].
  destruct (repr_cell _ _ m Hr) as (n & p & H).
  { apply elem_of_app. right. by eapply holds_in. }
  pose proof (holds_id _ _ _ _ Hh) as Hi. rewrite Hi in H.
  cbn. unfold put_msg. rewrite H. cbn. eexists. split; [done|].
  pose proof (ok_ids _ Ha) as Hn. rewrite (holds_perm _ _ _ _ Hh) in Hn. cbn in Hn. rewrite Hi, ids_app in Hn.
  apply NoDup_cons in Hn as [[Hl Hd]%not_elem_of_app _].
  apply prepr_store with a; [done| |by eapply aok_free].
  apply repr_store; [done| |].
  - intros j Hil. rewrite lookup_delete_ne; [done|]. by intros <-.
  - pose proof (re_heap _ _ Hr) as [_ _ _ Hf]. rewrite (pick_perm _ _ _ _ Hh) in Hf.
    apply list.Forall_cons in Hf as [_ Hf]. eapply held_ext; [|done]. intros j Hih.
    rewrite lookup_delete_ne; [done|]. by intros <-.
Qed.
Next Obligation.
  intros q a [Hr Ha Hs Hp]. pose proof (enable_repr _ _ true Hr) as H. cbn.
  split; [destruct q as [[]]; exact H|by apply aok_enable|done|done].
Qed.
Next Obligation.
  intros q a [[Hh Hq] Ha Hs Hp]. cbn. split; [by apply cr_enab in Hq|].
  split; [|by apply aok_enab|done|done].
  destruct Hh as [H1 H2 H3 H4], Hq as [[] ?]. split; split; upd; done.
Qed.
