(* ===== verification/Os7Queue.v ===== *)
(** * Queue procedures of the SS7 drivers

    The put and service procedures every driver of [src/src/kernel/os7compat.c]
    shares: the lock of the queue pair with its waiting queues, the disposition of
    a message by the result of the driver's procedure, canonical flushing.  They
    are written against the interface of [StrPort]; the driver's own procedures
    are parameters. *)
From S2P Require Import Prelude Xp StrQueue StrSpec StrRefine StrSys StrFlow StrPort.
From stdpp Require Import gmap.
#[local] Open Scope Z_scope.
#[local] Open Scope os7_scope.

Definition M_FLUSH : Z := 0x86.
Definition M_PCSIG : Z := 0x84.
Definition M_PCRSE : Z := 0x8e.
Definition M_PCCTL : Z := 0x91.
Definition M_PCSETOPTS : Z := 0x92.
Definition M_PCEVENT : Z := 0x93.
Definition M_HPDATA : Z := 0x96.
Definition M_EVENT : Z := 0x0a.
Definition M_SIG : Z := 0x0b.
Definition M_CTL : Z := 0x0d.
Definition M_SETOPTS : Z := 0x10.
Definition M_RSE : Z := 0x11.

(** The input and the output queue of the pair. *)
Inductive side := IQ | OQ.
#[export] Instance side_dec : EqDecision side.
Proof. solve_decision. Defined.
(** What became of a message: freed, kept by the procedure, freed but for its
    continuation, replied, passed to the next queue, or freed as an error. *)
Inductive fate := Done | Absorbed | Trimmed | Replied | Passed | Dropped.

(** ** The private structure *)

(** [ibusy] and [obusy] are [QSVCBUSY] of the two queues, [canput] the answers of
    [bcanputnext] to come ([true] when there are no more), [priv] the rest of the
    private structure, [fates] what became of messages, in order. *)
Record str {Q St : Type} := Str {
  iq : Q; oq : Q; users : Z; iwait : bool; owait : bool; ibusy : bool; obusy : bool;
  canput : list bool; priv : St; fates : list (side * Z * fate) }.
Arguments str : clear implicits.
Arguments Str {Q St}.
#[export] Instance eta_str {Q St} : Eta (str Q St) := fun r =>
  Str r.(iq) r.(oq) r.(users) r.(iwait) r.(owait) r.(ibusy) r.(obusy) r.(canput) r.(priv) r.(fates).
#[export] Instance set_iq {Q St} : Setter (@iq Q St) := ltac:(mk_setter).
#[export] Instance set_oq {Q St} : Setter (@oq Q St) := ltac:(mk_setter).
#[export] Instance set_users {Q St} : Setter (@users Q St) := ltac:(mk_setter).
#[export] Instance set_iwait {Q St} : Setter (@iwait Q St) := ltac:(mk_setter).
#[export] Instance set_owait {Q St} : Setter (@owait Q St) := ltac:(mk_setter).
#[export] Instance set_ibusy {Q St} : Setter (@ibusy Q St) := ltac:(mk_setter).
#[export] Instance set_obusy {Q St} : Setter (@obusy Q St) := ltac:(mk_setter).
#[export] Instance set_canput {Q St} : Setter (@canput Q St) := ltac:(mk_setter).
#[export] Instance set_priv {Q St} : Setter (@priv Q St) := ltac:(mk_setter).
#[export] Instance set_fates {Q St} : Setter (@fates Q St) := ltac:(mk_setter).

(** ** What a procedure made of a message

    The result, the message as it left it, its continuation as a message of its
    own, the queues it flushed (of one band or all), and the private structure. *)
Record outcome {St : Type} := Outcome {
  o_rtn : Z; o_band : Z; o_datap : blk; o_cont : list blk; o_rest : option (Z * blk * list blk);
  o_flush : list (side * option Z); o_priv : St }.
Arguments outcome : clear implicits.
Arguments Outcome {St}.

Section Os7.
Context {Q : Type} `{!Queue_ops Q} {St : Type}.
Notation str := (str Q St).
(** [i_prim] and [o_prim], [i_wakeup] and [o_wakeup]; whether a queue has a service
    procedure, and a next queue. *)
Context (prim : side → option (smsg → St → outcome St)) (wakeup : side → option (St → St)).
Context (srvp next : side → bool).

Definition qof (sd : side) (s : str) : Q := match sd with IQ => s.(iq) | OQ => s.(oq) end.
Definition with_q (sd : side) (q : Q) (s : str) : str :=
  match sd with IQ => s <| iq := q |> | OQ => s <| oq := q |> end.
Definition wait (sd : side) (s : str) : bool := match sd with IQ => s.(iwait) | OQ => s.(owait) end.
Definition set_wait (sd : side) (b : bool) (s : str) : str :=
  match sd with IQ => s <| iwait := b |> | OQ => s <| owait := b |> end.
Definition busy (sd : side) (s : str) : bool := match sd with IQ => s.(ibusy) | OQ => s.(obusy) end.
Definition set_busy (sd : side) (b : bool) (s : str) : str :=
  match sd with IQ => s <| ibusy := b |> | OQ => s <| obusy := b |> end.
Definition on_q (sd : side) (f : Q → option Q) (s : str) : option str :=
  q ← f (qof sd s); Some (with_q sd q s).
Definition end_of (sd : side) (mp : Z) (f : fate) (s : str) : option str :=
  s ← on_q sd (q_free mp) s; Some (s <| fates := s.(fates) ++ [(sd, mp, f)] |>).
Definition bcanputnext (s : str) : bool * str :=
  match s.(canput) with [] => (true, s) | b :: l => (b, s <| canput := l |>) end.

(** ** The lock of the queue pair *)

Definition ss7_trylockq (sd : side) (s : str) : bool * str :=
  let res := s.(users) =? 0 in
  let s := s <| users := u32 (s.(users) + 1) |> in
  if res then (true, s)
  else (false, set_wait sd true s <| users := u32 (s.(users) - 1) |>).
(** A waiting queue is scheduled, even one that may not be enabled; the service
    procedure of one that has none is to be called directly. *)
Definition wake_waiter (sd : side) (s : str) : option (list side * str) :=
  if wait sd s
  then
    let s := set_wait sd false s in
    '(r, q) ← q_call Enableq (qof sd s);
    match r with
    | RInt r =>
        if negb (r =? 0) then Some ([], with_q sd q s)
        else if srvp sd then Some ([], with_q sd (q_qenable q) s)
        else Some ([sd], with_q sd q s)
    | _ => None
    end
  else Some ([], s).
Definition ss7_unlockq (s : str) : option (list side * str) :=
  '(i, s) ← wake_waiter IQ s;
  '(o, s) ← wake_waiter OQ s;
  Some (i ++ o, s <| users := 0 |>).

(** ** Keeping messages *)

(** [if (putq(q, mp) == 0) { mp->b_band = 0; putq(q, mp); }], and so for [putbq]. *)
Definition put_must (put : Z → call) (mp : Z) (q : Q) : option Q :=
  '(r, q) ← q_call (put mp) q;
  match r with
  | RInt r =>
      if r =? 0
      then
        m ← q_read mp q;
        q ← q_write (Smsg mp 0 m.(s_datap) m.(s_cont)) q;
        '(_, q) ← q_call (put mp) q;
        Some q
      else Some q
  | _ => None
  end.
(** The continuation is what is left of the message when its first block is freed;
    it goes on under the same name. *)
Definition strip (sd : side) (put : Z → call) (mp : Z) (rest : option (Z * blk * list blk))
    (s : str) : option str :=
  match rest with
  | Some (band, datap, cont) =>
      on_q sd (fun q => q ← q_write (Smsg mp (u8 band) datap cont) q; put_must put mp q) s
  | None => end_of sd mp Trimmed s
  end.

(** [noenable(q)] *)
Definition disable (q : Q) : option Q := '(_, q) ← q_call Noenable q; Some q.
(** The results for which the message is put (back) on the queue. *)
Definition retried (rtn : Z) : bool :=
  existsb (Z.eqb rtn) [- ENOBUFS; - EBUSY; - ENOMEM; - EAGAIN].
(** The message passed on if flow control allows it. *)
Definition pass_flow (sd : side) (mp : Z) (s : str) : option (bool * str) :=
  m ← q_read mp (qof sd s);
  let '(ok, s) := if s_hi m then (true, s) else bcanputnext s in
  if ok : bool then s ← end_of sd mp Passed s; Some (true, s) else Some (false, s).

(** The first result is whether the message, or the rest of it, is on the queue. *)
Definition ss7_putq_slow (sd : side) (mp rtn : Z) (rest : option (Z * blk * list blk))
    (s : str) : option (bool * str) :=
  let over f := s ← end_of sd mp f s; Some (false, s) in
  let keep s := s ← on_q sd (put_must Putq mp) s; Some (true, s) in
  if rtn =? QR_DONE then over Done
  else if rtn =? QR_ABSORBED then over Absorbed
  else if rtn =? QR_STRIP then
    s ← strip sd Putq mp rest s; Some (match rest with Some _ => true | None => false end, s)
  else if rtn =? QR_TRIMMED then over Trimmed
  else if (rtn =? QR_LOOP) && negb (next sd) then over Replied
  else if (rtn =? QR_LOOP) || (rtn =? QR_PASSALONG) then over (if next sd then Passed else Dropped)
  else if rtn =? QR_DISABLE then keep s
  else if rtn =? QR_PASSFLOW then
    '(ok, s) ← pass_flow sd mp s;
    if ok : bool then Some (false, s) else keep s
  else if retried rtn || (rtn =? QR_RETRY) then keep s
  else over Dropped.

(** A high priority message that cannot be put back becomes the first of the
    normal ones; one of another type is lost. *)
Definition demote (type : Z) : option Z :=
  if type =? M_PCPROTO then Some M_PROTO
  else if type =? M_PCRSE then Some M_RSE
  else if type =? M_PCCTL then Some M_CTL
  else if type =? M_PCSIG then Some M_SIG
  else if type =? M_PCEVENT then Some M_EVENT
  else if type =? M_PCSETOPTS then Some M_SETOPTS
  else if type =? M_HPDATA then Some M_DATA
  else None.
(** The result is whether the service procedure goes on. *)
Definition stall (sd : side) (mp : Z) (s : str) : option (bool * str) :=
  m ← q_read mp (qof sd s);
  if negb (s_hi m) then s ← on_q sd (put_must Putbq mp) s; Some (false, s)
  else
    match demote m.(s_datap).(db_type) with
    | Some t =>
        let d := Blk t m.(s_datap).(b_rptr) m.(s_datap).(b_wptr) in
        s ← on_q sd (fun q => q ← q_write (Smsg mp 255 d m.(s_cont)) q; put_must Putq mp q) s;
        Some (false, s)
    | None => s ← end_of sd mp Dropped s; Some (true, s)
    end.
Definition ss7_srvq_slow (sd : side) (mp rtn : Z) (rest : option (Z * blk * list blk))
    (s : str) : option (bool * str) :=
  let over f := s ← end_of sd mp f s; Some (true, s) in
  if rtn =? QR_DONE then over Done
  else if rtn =? QR_ABSORBED then over Absorbed
  else if rtn =? QR_STRIP then s ← strip sd Putbq mp rest s; Some (true, s)
  else if rtn =? QR_TRIMMED then over Trimmed
  else if (rtn =? QR_LOOP) && negb (next sd) then over Replied
  else if (rtn =? QR_LOOP) || (rtn =? QR_PASSALONG) then over (if next sd then Passed else Dropped)
  else if rtn =? QR_DISABLE then
    s ← on_q sd (fun q => q ← disable q; put_must Putbq mp q) s; Some (false, s)
  else if rtn =? QR_PASSFLOW then
    '(ok, s) ← pass_flow sd mp s;
    if ok : bool then Some (true, s) else stall sd mp s
  else if retried rtn then stall sd mp s
  else if rtn =? QR_RETRY then s ← on_q sd (put_must Putbq mp) s; Some (true, s)
  else over Dropped.

(** ** Put and service procedures *)

Definition flush_one (s : str) (f : side * option Z) : option str :=
  match f with
  | (sd, None) => on_q sd (fun q => '(_, q) ← q_call (Flushq FLUSHDATA) q; Some q) s
  | (sd, Some band) => on_q sd (q_flushband band) s
  end.
(** [rtn = proc(q, mp)]: the message is read before and as it was left after. *)
Definition call_prim (sd : side) (proc : smsg → St → outcome St) (mp : Z) (s : str) :
    option (outcome St * str) :=
  m ← q_read mp (qof sd s);
  let o := proc m s.(priv) in
  let s := s <| priv := o.(o_priv) |> in
  s ← foldl (fun s f => s ← s; flush_one s f) (Some s) o.(o_flush);
  s ← on_q sd (q_write (Smsg mp (u8 o.(o_band)) o.(o_datap) o.(o_cont))) s;
  Some (o, s).
Definition procwake (sd : side) (s : str) : str :=
  match wakeup sd with Some w => s <| priv := w s.(priv) |> | None => s end.

(** [ss7_putq] up to the call of [proc]: [None] when the message was queued, else
    whether the lock is held. *)
Definition put_enter (sd : side) (mp : Z) (s : str) : option (option bool * str) :=
  m ← q_read mp (qof sd s);
  let queued s := s ← on_q sd (put_must Putq mp) s; Some (None, s) in
  if negb (s_hi m) && (negb (bool_decide (q_head (qof sd s) = None)) || busy sd s) then queued s
  else
    let '(locked, s) := ss7_trylockq sd s in
    if locked || (m.(s_datap).(db_type) =? M_FLUSH) then Some (Some locked, s) else queued s.
(** The call of [proc] and what is done with the message: whether it was refused. *)
Definition put_handle (sd : side) (proc : smsg → St → outcome St) (mp : Z) (s : str) :
    option (bool * str) :=
  '(o, s) ← call_prim sd proc mp s;
  ss7_putq_slow sd mp o.(o_rtn) o.(o_rest) s.
(** Wakeups and unlocking: the queues to service directly. *)
Definition leave (sd : side) (s : str) : option (list side * str) := ss7_unlockq (procwake sd s).
Definition ss7_putq (sd : side) (proc : smsg → St → outcome St) (mp : Z) (s : str) :
    option (list side * str) :=
  '(k, s) ← put_enter sd mp s;
  match k with
  | None => Some ([], s)
  | Some locked =>
      '(_, s) ← put_handle sd proc mp s;
      if locked : bool then leave sd s else Some ([], s)
  end.

(** One turn of the loop of [ss7_srvq]. *)
Definition srv_take (sd : side) (s : str) : option (option Z * str) :=
  '(r, q) ← q_call Getq (qof sd s);
  match r with RMsg mp => Some (mp, with_q sd q s) | _ => None end.
Definition srv_handle (sd : side) (proc : smsg → St → outcome St) (mp : Z) (s : str) :
    option (bool * str) :=
  '(o, s) ← call_prim sd proc mp s;
  ss7_srvq_slow sd mp o.(o_rtn) o.(o_rest) s.
Definition srv_turn (sd : side) (proc : smsg → St → outcome St) (s : str) : option (bool * str) :=
  '(taken, s) ← srv_take sd s;
  match taken with None => Some (false, s) | Some mp => srv_handle sd proc mp s end.
Fixpoint srv_loop (fuel : nat) (sd : side) (proc : smsg → St → outcome St) (s : str) : option str :=
  match fuel with
  | O => None
  | S fuel =>
      '(go, s) ← srv_turn sd proc s;
      if go : bool then srv_loop fuel sd proc s else Some s
  end.
Definition ss7_srvq (fuel : nat) (sd : side) (proc : smsg → St → outcome St) (s : str) :
    option (list side * str) :=
  let '(locked, s) := ss7_trylockq sd s in
  if locked : bool then s ← srv_loop fuel sd proc s; leave sd s else Some ([], s).

(** [ss7_isrv] and [ss7_osrv], given the queue [q]. *)
Definition ss7_srv (fuel : nat) (sd q : side) (s : str) : option (list side * str) :=
  match prim sd with
  | Some proc => ss7_srvq fuel sd proc s
  | None =>
      match wakeup sd with
      | Some _ => Some ([], procwake sd s)
      | None => s ← on_q q disable s; Some ([], s)
      end
  end.
(** The direct calls at the end of [ss7_unlockq]: both are given the input queue. *)
Fixpoint direct (fuel : nat) (l : list side) (s : str) : option str :=
  match fuel, l with
  | _, [] => Some s
  | O, _ => None
  | S fuel, sd :: l => '(l', s) ← ss7_srv fuel sd IQ s; direct fuel (l' ++ l) s
  end.
(** [ss7_iput] and [ss7_oput]; the result is the error. *)
Definition ss7_put (fuel : nat) (sd : side) (mp : Z) (s : str) : option (Z * str) :=
  match prim sd with
  | Some proc => '(l, s) ← ss7_putq sd proc mp s; s ← direct fuel l s; Some (0, s)
  | None =>
      if srvp sd
      then
        '(r, q) ← q_call (Putq mp) (qof sd s);
        let s := with_q sd q s in
        match r with
        | RInt r => if negb (r =? 0) then Some (0, s)
                    else s ← end_of sd mp Dropped s; Some (- EFAULT, s)
        | _ => None
        end
      else s ← end_of sd mp Dropped s; Some (- EFAULT, s)
  end.
(** The scheduler runs the service procedure of a scheduled queue ([srvp_fast]). *)
Definition srv_begin (sd : side) (s : str) : bool * str :=
  let '(enabled, q) := q_run (qof sd s) in
  let s := with_q sd q s in
  if enabled then (true, set_busy sd true s) else (false, s).
Definition srvp_fast (fuel : nat) (sd : side) (s : str) : option str :=
  let '(enabled, s) := srv_begin sd s in
  if enabled : bool
  then '(l, s) ← ss7_srv fuel sd sd s; s ← direct fuel l s; Some (set_busy sd false s)
  else Some s.
End Os7.

(** ** Canonical flushing *)

(** The first two bytes of a flush message. *)
Record flush := Flush { fl_r : bool; fl_w : bool; fl_band : option Z }.
(** What [ss7_flushq] does to a queue: the flush, if any, whether the message went
    to the next queue, and the message. *)
Definition ss7_flushq (write has_next : bool) (f : flush) : option (option Z) * bool * flush :=
  let act := if (if write then f.(fl_w) else f.(fl_r)) then Some f.(fl_band) else None in
  if f.(fl_r) || f.(fl_w)
  then
    if has_next then (act, true, f)
    else (act, false, if write then Flush f.(fl_r) false f.(fl_band)
                      else Flush false f.(fl_w) f.(fl_band))
  else (act, false, f).
(** The flushes of this queue and of its partner, and the queue whose next queue
    got the message ([true] for the write queue). *)
Definition flush_pair (write : bool) (wnext rnext : bool) (f : flush) :
    list (bool * option Z) * option (bool * flush) :=
  let one w act := match act with Some b => [(w, b)] | None => [] end in
  let '(a, sent, f) := ss7_flushq write (if write then wnext else rnext) f in
  if sent then (one write a, Some (write, f))
  else
    let '(b, sent, f) := ss7_flushq (negb write) (if write then rnext else wnext) f in
    (one write a ++ one (negb write) b, if sent : bool then Some (negb write, f) else None).
Definition ss7_w_flush : bool → bool → flush → list (bool * option Z) * option (bool * flush) :=
  flush_pair true.
Definition ss7_r_flush : bool → bool → flush → list (bool * option Z) * option (bool * flush) :=
  flush_pair false.
