(* ===== verification/Os7Laws.v ===== *)
(** * What the queue procedures do to the queues of a pair

    Each step of the put and service procedures of [Os7Queue], on any queues that
    satisfy the interface, in terms of the contract: the messages, the flags, what
    was logged.  No step follows a bad pointer. *)
From S2P Require Import Prelude Xp StrQueue StrSpec StrRefine StrSys StrFlow StrPort Os7Queue.
From stdpp Require Import gmap sorting.
#[local] Open Scope Z_scope.
#[local] Open Scope os7_scope.
#[local] Set Warnings "-clear-no-such-hyp".

(** ** Putting a message *)

(** The flags that putting keeps; the queue may be enabled. *)
Record flags (a a' : aq) : Prop := {
  fl_srvp : a'.(a_srvp) = a.(a_srvp);
  fl_noenb : a'.(a_noenb) = a.(a_noenb);
  fl_wantr : a'.(a_wantr) = a.(a_wantr);
  fl_enab : a.(a_enab) = true → a'.(a_enab) = true }.
Lemma flags_refl a : flags a a.
Proof. by split. Qed.
Lemma flags_trans a b c : flags a b → flags b c → flags a c.
Proof. intros [] []. split; [congruence..|auto]. Qed.
Lemma flags_enable c a : flags a (enable c a).
Proof. unfold enable. destruct (c && a_srvp a); by split. Qed.
Lemma flags_on_flow b g a : flags a (on_flow b g a).
Proof. unfold on_flow. destruct (b =? 0); by split. Qed.
Lemma flags_grow b a ok a' : grow b a = (ok, a') → flags a a'.
Proof. by intros (c & km & -> & _)%grow_spec. Qed.
Lemma grow_0 a : grow 0 a = (true, a).
Proof. apply grow_none. unfold nband. lia. Qed.

(** A put within the contract: it fails without effect on the messages when a band
    cannot be allocated, and so never for band 0. *)
Lemma put_with_ok place enables i a m held :
  places place → aok a → holds i a m held →
  ∃ r a', put_with place enables i a = Some (r, a') ∧ aok a' ∧ flags a a' ∧
    ((r = 0 ∧ s_band (prio m) ≠ 0 ∧ a'.(a_list) = a.(a_list) ∧ a'.(a_held) = a.(a_held)) ∨
     (r = 1 ∧ ∃ l1 l2, place (prio m) a.(a_list) = (l1, l2) ∧ a.(a_list) = l1 ++ l2 ∧
        a'.(a_list) = l1 ++ prio m :: l2 ∧ a'.(a_held) = held ∧
        ((∀ b, flags a b → enables (prio m) (bool_decide (l1 = [])) b = true) →
         a.(a_srvp) = true → a'.(a_enab) = true))).
Proof.
  intros Hp Ha Hh. destruct (put_with place enables i a) as [[r a']|] eqn:E.
  2: { unfold put_with in E. rewrite Hh in E. cbn [mbind option_bind] in E.
       destruct (grow _ a) as [[] b]; discriminate. }
  exists r, a'. split; [done|]. pose proof (aok_put _ _ _ _ _ _ Hp Ha E) as Ha'. split; [done|].
  unfold put_with in E. rewrite Hh in E. cbn [mbind option_bind] in E.
  destruct (grow (s_band (prio m)) a) as [ok b] eqn:Eg. pose proof (flags_grow _ _ _ _ Eg) as Hf.
  pose proof (grow_list _ _ _ _ Eg) as [El Eh]. destruct ok; cbn [negb] in E.
  2: { injection E as <- <-. split; [done|]. left. split; [done|]. split; [|done].
       intros E0. by rewrite E0, grow_0 in Eg. }
  destruct (Hp (prio m) (a_list b) ltac:(rewrite El; apply Ha)) as (l1 & l2 & Ep & E12 & _).
  rewrite Ep in E. cbn [fst] in E. set (b1 := put_at _ _ _) in E.
  assert (Hb1 : flags a b1).
  { eapply flags_trans; [exact Hf|]. subst b1. unfold put_at.
    eapply flags_trans; [|apply flags_on_flow]. by split. }
  injection E as <- <-. split; [eapply flags_trans; [done|apply flags_enable]|]. right. split; [done|].
  exists l1, l2. rewrite <- El. do 2 (split; [done|]).
  rewrite enable_list, enable_held. subst b1. rewrite put_at_list, put_at_held. do 2 (split; [done|]).
  intros Hen Hs. rewrite (Hen _ Hb1). unfold enable. cbn [andb]. by rewrite (fl_srvp _ _ Hb1), Hs.
Qed.

(** [put_must] puts the message in any case, as it was or without its band. *)
Record put_done (place : smsg → list smsg → list smsg * list smsg) (m : smsg) (held : list smsg)
    (a a' : aq) (m' : smsg) (l1 l2 : list smsg) : Prop := {
  pd_list : a.(a_list) = l1 ++ l2;
  pd_list' : a'.(a_list) = l1 ++ m' :: l2;
  pd_held : a'.(a_held) = held;
  pd_flags : flags a a';
  pd_id : m'.(s_id) = m.(s_id);
  pd_hi : s_hi m' = s_hi m;
  pd_same : s_band m = 0 → m' = m;
  pd_datap : m'.(s_datap) = m.(s_datap);
  pd_place : place m' (l1 ++ l2) = (l1, l2) }.
Lemma prio_0 m : s_band m = 0 → prio m = m.
Proof. intros H. unfold prio. destruct (s_hi m); [|done]. destruct m; cbn in H. by subst. Qed.
Lemma prio_datap m : (prio m).(s_datap) = m.(s_datap).
Proof. unfold prio. by destruct (s_hi m). Qed.
Lemma prio_norm_eq m : s_hi m = false → prio m = m.
Proof. unfold prio. by intros ->. Qed.

Lemma pick_head m l i : m.(s_id) = i → pick i (m :: l) = Some (m, l).
Proof. intros <-. cbn [pick]. by rewrite Z.eqb_refl. Qed.

Section laws.
Context {Q : Type} `{!Queue_ops Q, !Queue_laws Q}.

Lemma put_must_ok place enables put q a m held :
  places place → (∀ i, put i = Putq i ∨ put i = Putbq i) →
  (∀ i a, spec_call (put i) a = '(r, a) ← put_with place enables i a; Some (RInt r, [], a)) →
  rep q a → holds m.(s_id) a m held →
  ∃ q' a' m' l1 l2, put_must put m.(s_id) q = Some q' ∧ rep q' a' ∧
    put_done place m held a a' m' l1 l2 ∧
    ((∀ b m', flags a b → s_hi m' = s_hi m → (s_band m = 0 → m' = m) →
        enables m' (bool_decide (l1 = [])) b = true) →
      a.(a_srvp) = true → a'.(a_enab) = true).
Proof.
  intros Hp Hput Hspec Hr Hh. pose proof (rep_ok _ _ Hr) as Ha.
  assert (Hok : ∀ i, call_ok (put i)) by (intros i; destruct (Hput i) as [-> | ->]; done).
  destruct (put_with_ok place enables _ a m held Hp Ha Hh) as (r & a1 & E & Ha1 & Hf & H).
  destruct (q_call_ok (put (s_id m)) q a (RInt r) [] a1 Hr (Hok _)) as (q1 & E1 & Hr1).
  { by rewrite Hspec, E. }
  unfold put_must. rewrite E1. cbn [mbind option_bind].
  destruct H as [(-> & Hb & El & Eh)|(-> & l1 & l2 & Ep & E12 & El & Eh & Hen)].
  - (* no band: the message goes without *)
    assert (Hhi : s_hi m = false).
    { destruct (s_hi m) eqn:Eq; [|done]. destruct Hb. apply prio_band. by rewrite Eq. }
    rewrite Z.eqb_refl.
    assert (Hh1 : holds (s_id m) a1 m held) by (unfold holds; by rewrite Eh).
    rewrite (q_read_ok q1 a1 m Hr1) by (apply elem_of_app; right; by eapply holds_in).
    cbn [mbind option_bind]. set (m0 := Smsg _ 0 _ _).
    destruct (q_write_ok q1 a1 m0 m held Hr1 Hh1) as (q2 & E2 & Hr2); [by split|].
    rewrite E2. cbn [mbind option_bind].
    assert (Hh2 : holds (s_id m) (a1 <| a_held := m0 :: held |>) m0 held).
    { by apply pick_head. }
    destruct (put_with_ok place enables _ _ m0 held Hp (rep_ok _ _ Hr2) Hh2) as (r & a3 & E3 & Ha3 & Hf3 & H).
    destruct (q_call_ok (put (s_id m)) q2 _ (RInt r) [] a3 Hr2 (Hok _)) as (q3 & E4 & Hr3).
    { by rewrite Hspec, E3. }
    rewrite E4. cbn [mbind option_bind].
    assert (Hpm : prio m0 = m0) by (by apply prio_0).
    destruct H as [(_ & Hb3 & _)|(-> & l1 & l2 & Ep & E12 & El3 & Eh3 & Hen)]; [by rewrite Hpm in Hb3|].
    upd in Ep. upd in E12. rewrite Hpm in *.
    assert (Hfa : flags a a3).
    { eapply flags_trans; [exact Hf|]. eapply flags_trans; [|exact Hf3]. by split. }
    exists q3, a3, m0, l1, l2. split; [done|]. split; [done|]. split.
    + split; [congruence|done|done|done|done|done| |done|by rewrite <- E12].
      intros E0. by rewrite (prio_norm_eq m Hhi) in Hb.
    + intros Hn Hs. apply Hen; [|upd; by rewrite (fl_srvp _ _ Hf)]. intros b Hb'. apply Hn; [|done|].
      * eapply flags_trans; [exact Hf|]. eapply flags_trans; [|exact Hb']. by split.
      * intros E0. by rewrite (prio_norm_eq m Hhi) in Hb.
  - exists q1, a1, (prio m), l1, l2. split; [done|]. split; [done|]. split.
    + split; [done|done|done|done|apply prio_id|apply prio_hi|apply prio_0|apply prio_datap|by rewrite <- E12].
    + intros Hn Hs. apply Hen; [|done]. intros b Hb. apply Hn; [done|apply prio_hi|apply prio_0].
Qed.
Lemma putq_must_ok q a m held :
  rep q a → holds m.(s_id) a m held →
  ∃ q' a' m' l1 l2, put_must Putq m.(s_id) q = Some q' ∧ rep q' a' ∧
    put_done behind m held a a' m' l1 l2 ∧
    (a.(a_list) = [] → a.(a_wantr) = true → a.(a_noenb) = false → a.(a_srvp) = true →
     a'.(a_enab) = true).
Proof.
  intros Hr Hh. destruct (put_must_ok behind _ Putq q a m held places_behind
    ltac:(by left) ltac:(done) Hr Hh) as (q' & a' & m' & l1 & l2 & E & Hr' & Hd & Hen).
  exists q', a', m', l1, l2. do 3 (split; [done|]). intros El Hw Hn Hs. apply Hen; [|done].
  intros b x Hb _ _. pose proof (pd_list _ _ _ _ _ _ _ _ Hd) as E12. rewrite El in E12.
  symmetry in E12. apply app_eq_nil in E12 as [-> _]. rewrite bool_decide_true by done.
  rewrite (fl_noenb _ _ Hb), (fl_wantr _ _ Hb), Hn, Hw. cbn. by rewrite orb_true_r, orb_true_r.
Qed.
Lemma putbq_must_ok q a m held :
  rep q a → holds m.(s_id) a m held →
  ∃ q' a' m' l1 l2, put_must Putbq m.(s_id) q = Some q' ∧ rep q' a' ∧
    put_done before m held a a' m' l1 l2.
Proof.
  intros Hr Hh. destruct (put_must_ok before _ Putbq q a m held places_before
    ltac:(by right) ltac:(done) Hr Hh) as (q' & a' & m' & l1 & l2 & E & Hr' & Hd & Hen).
  by exists q', a', m', l1, l2.
Qed.
(** Reading: nothing, or the first message. *)
Lemma getq_must_ok q a :
  rep q a →
  ∃ q' a', q_call Getq q = Some (RMsg (list.head (ids a.(a_list))), q') ∧ rep q' a' ∧
    a'.(a_srvp) = a.(a_srvp) ∧ a'.(a_noenb) = a.(a_noenb) ∧ a'.(a_enab) = a.(a_enab) ∧
    match a.(a_list) with
    | [] => a'.(a_list) = [] ∧ a'.(a_held) = a.(a_held) ∧ a'.(a_wantr) = true
    | m :: l => a'.(a_list) = l ∧ a'.(a_held) = m :: a.(a_held)
    end.
Proof.
  intros Hr. destruct (spec_call Getq a) as [[[r w] a']|] eqn:Es;
    [|cbn in Es; by destruct (a_getq a) as [[]]].
  destruct (q_call_ok Getq q a r w a' Hr I Es) as (q' & E & Hr'). rewrite E.
  cbn [spec_call] in Es. unfold a_getq in Es. destruct (a_list a) as [|m l] eqn:El.
  - injection Es as <- _ <-. exists q', (a <| a_wantr := true |>). upd. by rewrite El.
  - pose proof (unqueue_list m l a) as E1. pose proof (unqueue_held m l a) as E2.
    assert (Hf : flags a (unqueue m l a).2).
    { unfold unqueue. cbn [snd]. eapply flags_trans; [|apply flags_on_flow]. by split. }
    assert (He : a_enab (unqueue m l a).2 = a_enab a).
    { unfold unqueue. cbn [snd]. unfold on_flow. by destruct (_ =? 0). }
    destruct (unqueue m l a) as [be a1]. cbn [snd] in *. injection Es as <- _ <-.
    eexists q', _. split; [done|]. split; [done|]. upd. destruct Hf. done.
Qed.
End laws.

(** ** The pair of queues *)

(** The contracts of the two queues. *)
Definition setA (sd : side) (a : aq) (A : side → aq) : side → aq :=
  fun x => if decide (x = sd) then a else A x.
Lemma setA_eq sd a A : setA sd a A sd = a.
Proof. unfold setA. by rewrite decide_True. Qed.
Lemma setA_ne sd x a A : x ≠ sd → setA sd a A x = A x.
Proof. unfold setA. intros H. by rewrite decide_False. Qed.
(** The lock, the waiting and the serviced queues. *)
Definition ctl {Q St} (s : str Q St) := (s.(users), s.(iwait), s.(owait), s.(ibusy), s.(obusy)).
(** What is left of the flags of a queue whatever is done to it. *)
Record weak (a a' : aq) : Prop := {
  wk_srvp : a'.(a_srvp) = a.(a_srvp);
  wk_noenb : a.(a_noenb) = true → a'.(a_noenb) = true;
  wk_wantr : a'.(a_wantr) = a.(a_wantr);
  wk_enab : a.(a_enab) = true → a'.(a_enab) = true }.
Lemma flags_weak a a' : flags a a' → weak a a'.
Proof. intros []. split; [done|congruence|done|done]. Qed.
Lemma weak_refl a : weak a a.
Proof. by split. Qed.
Lemma weak_trans a b c : weak a b → weak b c → weak a c.
Proof. intros [] []. split; [congruence|auto|congruence|auto]. Qed.

Definition not_flush (m : smsg) : Prop := m.(s_datap).(db_type) ≠ M_FLUSH.
(** What rewriting a message keeps: its name, that it is normal and in no band,
    that it is not a flush. *)
Record alike (m m' : smsg) : Prop := {
  ak_id : m'.(s_id) = m.(s_id);
  ak_key : key m = 0 → key m' = 0;
  ak_flush : not_flush m → not_flush m' }.
Lemma alike_refl m : alike m m.
Proof. by split. Qed.
Lemma alike_trans m1 m2 m3 : alike m1 m2 → alike m2 m3 → alike m1 m3.
Proof. intros [] []. split; [congruence|auto|auto]. Qed.
(** A message that is over, or put on the queue: in front of the messages of its
    class, or behind them. *)
Inductive disposed (held : list smsg) (front : bool) (m : smsg) (a a' : aq) : option fate → Prop :=
  | Disp_over f :
      a'.(a_list) = a.(a_list) → a'.(a_held) = held → weak a a' → disposed held front m a a' (Some f)
  | Disp_kept m' l1 l2 :
      a.(a_list) = l1 ++ l2 → a'.(a_list) = l1 ++ m' :: l2 → a'.(a_held) = held → weak a a' →
      alike m m' →
      (key m = 0 → if front : bool then Forall (fun x => key x ≠ 0) l1 else l2 = []) →
      disposed held front m a a' None.
Definition fated (sd : side) (mp : Z) (o : option fate) : list (side * Z * fate) :=
  match o with Some f => [(sd, mp, f)] | None => [] end.

(** A procedure that leaves the class of a message as it was: a message that it
    refuses goes back among those it came from.  Only [M_FLUSH] messages flush. *)
Definition same_class (m : smsg) (band : Z) (d : blk) : Prop :=
  u8 band = m.(s_band) ∧ (QPCTL <=? d.(db_type)) = s_hi m ∧
  (not_flush m → d.(db_type) ≠ M_FLUSH).
Record well_behaved {St} (proc : smsg → St → outcome St) : Prop := {
  wb_class : ∀ m st, valid m → same_class m (proc m st).(o_band) (proc m st).(o_datap);
  wb_rest : ∀ m st b d c, valid m → (proc m st).(o_rest) = Some (b, d, c) → same_class m b d;
  wb_flush : ∀ m st, not_flush m → (proc m st).(o_flush) = [] }.

Section pairs.
Context {Q : Type} `{!Queue_ops Q, !Queue_laws Q} {St : Type}.
Notation str := (str Q St).
Context (next : side → bool).
(** What the callers hold besides the message in question. *)
Context (held : list smsg).
Notation disposed := (disposed held).
Definition Rep (s : str) (A : side → aq) : Prop := ∀ sd, rep (qof sd s) (A sd).

Lemma qof_with sd q (s : str) : qof sd (with_q sd q s) = q.
Proof. by destruct sd. Qed.
Lemma qof_with_ne sd x q (s : str) : x ≠ sd → qof x (with_q sd q s) = qof x s.
Proof. by destruct sd, x. Qed.
Lemma ctl_with sd q (s : str) : ctl (with_q sd q s) = ctl s.
Proof. by destruct sd. Qed.
Lemma fates_with sd q (s : str) : fates (with_q sd q s) = fates s.
Proof. by destruct sd. Qed.
Lemma priv_with sd q (s : str) : priv (with_q sd q s) = priv s.
Proof. by destruct sd. Qed.
Lemma Rep_with sd q s a A : Rep s A → rep q a → Rep (with_q sd q s) (setA sd a A).
Proof.
  intros H Hq x. destruct (decide (x = sd)) as [->|Hne].
  - by rewrite qof_with, setA_eq.
  - by rewrite qof_with_ne, setA_ne.
Qed.
Lemma Rep_same s s' A : Rep s A → iq s' = iq s → oq s' = oq s → Rep s' A.
Proof. intros H E1 E2 x. specialize (H x). by destruct x; cbn in *; rewrite ?E1, ?E2. Qed.
Lemma on_q_ok sd f s A a :
  Rep s A → (∃ q, f (qof sd s) = Some q ∧ rep q a) →
  ∃ s', on_q sd f s = Some s' ∧ Rep s' (setA sd a A) ∧ ctl s' = ctl s ∧ fates s' = fates s.
Proof.
  intros H (q & E & Hq). unfold on_q. rewrite E. cbn. eexists. split; [done|].
  split; [by apply Rep_with|]. by rewrite ctl_with, fates_with.
Qed.
Lemma end_of_ok sd mp f s A m :
  Rep s A → holds mp (A sd) m held →
  ∃ s', end_of sd mp f s = Some s' ∧ Rep s' (setA sd ((A sd) <| a_held := held |>) A) ∧
    ctl s' = ctl s ∧ fates s' = fates s ++ [(sd, mp, f)].
Proof.
  intros H Hh. destruct (q_free_ok _ _ _ _ _ (H sd) Hh) as (q & E & Hq).
  destruct (on_q_ok sd (q_free mp) s A _ H (ex_intro _ q (conj E Hq))) as (s' & E' & Hr & Hc & Hf).
  unfold end_of. rewrite E'. cbn. eexists. split; [done|]. split; [by eapply Rep_same|].
  upd. by rewrite Hf.
Qed.

(** *** Dispositions *)

Lemma key_0 m : key m = 0 → s_hi m = false ∧ s_band m = 0.
Proof. unfold key. by destruct (s_hi m). Qed.
Lemma disposed_from front m m2 a a2 a' o :
  a2.(a_list) = a.(a_list) → weak a a2 → alike m m2 →
  disposed front m2 a2 a' o → disposed front m a a' o.
Proof.
  intros El Hw Hk [f E1 E2 W|m' l1 l2 E1 E2 E3 W E4 E5].
  - apply Disp_over; [congruence|done|by eapply weak_trans].
  - eapply Disp_kept with (m' := m') (l1 := l1) (l2 := l2);
      [congruence|done|done|by eapply weak_trans|by eapply alike_trans|].
    intros H. by apply E5, Hk.
Qed.
Lemma done_alike place m a a' m' l1 l2 : put_done place m held a a' m' l1 l2 → alike m m'.
Proof.
  intros []. split; [done| |unfold not_flush; by rewrite pd_datap0].
  intros H. pose proof (key_0 _ H) as [_ Hb]. by rewrite (pd_same0 Hb).
Qed.
Lemma done_behind m a a' m' l1 l2 :
  aok a → put_done behind m held a a' m' l1 l2 → disposed false m a a' None.
Proof.
  intros Ha Hd. pose proof (done_alike _ _ _ _ _ _ _ Hd) as Hk. destruct Hd.
  eapply Disp_kept; [done|done|done|by apply flags_weak|done|].
  intros [Hh Hb]%key_0; rewrite pd_same0 in * by done.
  rewrite behind_0 in pd_place0; [by injection pd_place0|by unfold key; rewrite Hh|].
  rewrite <- pd_list0. destruct Ha as [_ _ Hv _ _]. by apply list.Forall_app in Hv as [? _].
Qed.
Lemma done_before m a a' m' l1 l2 :
  put_done before m held a a' m' l1 l2 → disposed true m a a' None.
Proof.
  intros Hd. pose proof (done_alike _ _ _ _ _ _ _ Hd) as Hk. destruct Hd.
  eapply Disp_kept; [done|done|done|by apply flags_weak|done|].
  intros [Hh Hb]%key_0; rewrite pd_same0 in * by done.
  apply list.Forall_forall. intros x Hx. assert (Hs : x ∈ (before m (l1 ++ l2)).1) by (by rewrite pd_place0).
    apply span_fst in Hs. cbn in Hs. apply Is_true_true in Hs. unfold key in Hs at 1. rewrite Hh in Hs. lia.
Qed.

(** The message is over. *)
Lemma over_ok front sd f s A m :
  Rep s A → (A sd).(a_held) = m :: held →
  ∃ s' a', end_of sd m.(s_id) f s = Some s' ∧ Rep s' (setA sd a' A) ∧ ctl s' = ctl s ∧
    fates s' = fates s ++ [(sd, m.(s_id), f)] ∧ disposed front m (A sd) a' (Some f).
Proof.
  intros H Hm. assert (Hh : holds (s_id m) (A sd) m held).
  { unfold holds. rewrite Hm. by apply pick_head. }
  destruct (end_of_ok sd _ f s A m H Hh) as (s' & E & Hr & Hc & Hf).
  exists s', ((A sd) <| a_held := held |>). do 4 (split; [done|]). by apply Disp_over.
Qed.
(** The message, rewritten in its class or not, is put behind or before its class. *)
Lemma keep_ok sd s A m (g : Q → option Q) m2 :
  Rep s A → (A sd).(a_held) = m :: held → alike m m2 →
  (∃ q, g (qof sd s) = Some q ∧ rep q ((A sd) <| a_held := m2 :: held |>)) →
  ∃ s' a', on_q sd (fun q => q ← g q; put_must Putq m.(s_id) q) s = Some s' ∧
    Rep s' (setA sd a' A) ∧ ctl s' = ctl s ∧ fates s' = fates s ∧ disposed false m (A sd) a' None.
Proof.
  intros H Hm Hk (q & Eq & Hq). pose proof (ak_id _ _ Hk) as Hi.
  assert (Hh : holds (s_id m2) ((A sd) <| a_held := m2 :: held |>) m2 held) by (unfold holds; by apply pick_head).
  destruct (putq_must_ok q _ m2 held Hq Hh) as (q' & a' & m' & l1 & l2 & E & Hr' & Hd & _).
  rewrite Hi in E.
  destruct (on_q_ok sd (fun q => q ← g q; put_must Putq m.(s_id) q) s A a' H) as (s' & E' & Hr & Hc & Hf).
  { exists q'. rewrite Eq. by split. }
  exists s', a'. do 4 (split; [done|]). apply done_behind in Hd; [|by eapply rep_ok].
  eapply disposed_from; [| |done|exact Hd]; [done|by split].
Qed.
Lemma keepb_ok sd s A m (g : Q → option Q) m2 :
  Rep s A → (A sd).(a_held) = m :: held → alike m m2 →
  (∃ q a2, g (qof sd s) = Some q ∧ rep q a2 ∧ a2.(a_list) = (A sd).(a_list) ∧ a2.(a_held) = m2 :: held ∧
     weak (A sd) a2) →
  ∃ s' a', on_q sd (fun q => q ← g q; put_must Putbq m.(s_id) q) s = Some s' ∧
    Rep s' (setA sd a' A) ∧ ctl s' = ctl s ∧ fates s' = fates s ∧ disposed true m (A sd) a' None.
Proof.
  intros H Hm Hk (q & a2 & Eq & Hq & El & Eh & Hw). pose proof (ak_id _ _ Hk) as Hi.
  assert (Hh : holds (s_id m2) a2 m2 held) by (unfold holds; rewrite Eh; by apply pick_head).
  destruct (putbq_must_ok q _ m2 held Hq Hh) as (q' & a' & m' & l1 & l2 & E & Hr' & Hd).
  rewrite Hi in E.
  destruct (on_q_ok sd (fun q => q ← g q; put_must Putbq m.(s_id) q) s A a' H) as (s' & E' & Hr & Hc & Hf).
  { exists q'. rewrite Eq. by split. }
  exists s', a'. do 4 (split; [done|]). apply done_before in Hd.
  by eapply disposed_from.
Qed.
(** Writing the one message that is held. *)
Lemma write_ok sd s A m m2 :
  Rep s A → (A sd).(a_held) = m :: held → s_id m2 = s_id m → valid m2 →
  ∃ q, q_write m2 (qof sd s) = Some q ∧ rep q ((A sd) <| a_held := m2 :: held |>).
Proof.
  intros H Hm Hi Hv. apply (q_write_ok _ _ _ m held); [by apply H| |done].
  unfold holds. rewrite Hm. by apply pick_head.
Qed.
Lemma rep_held_id a m : a.(a_held) = m :: held → a <| a_held := m :: held |> = a.
Proof. intros <-. by destruct a. Qed.
Lemma held_valid sd s A m : Rep s A → (A sd).(a_held) = m :: held → valid m.
Proof.
  intros H Hm. pose proof (rep_ok _ _ (H sd)) as [_ _ Hv _ _].
  rewrite Hm, list.Forall_app, list.Forall_cons in Hv. tauto.
Qed.
Lemma u8_valid b : 0 ≤ u8 b < 256.
Proof. unfold u8. apply Z.mod_pos_bound. lia. Qed.

Lemma keep_same_ok sd s A m :
  Rep s A → (A sd).(a_held) = m :: held →
  ∃ s' a', on_q sd (put_must Putq m.(s_id)) s = Some s' ∧ Rep s' (setA sd a' A) ∧ ctl s' = ctl s ∧
    fates s' = fates s ∧ disposed false m (A sd) a' None.
Proof.
  intros H Hm. apply (keep_ok sd s A m Some m H Hm); [by split|]. exists (qof sd s). split; [done|].
  rewrite rep_held_id by done. apply H.
Qed.
Lemma keepb_same_ok sd s A m :
  Rep s A → (A sd).(a_held) = m :: held →
  ∃ s' a', on_q sd (put_must Putbq m.(s_id)) s = Some s' ∧ Rep s' (setA sd a' A) ∧ ctl s' = ctl s ∧
    fates s' = fates s ∧ disposed true m (A sd) a' None.
Proof.
  intros H Hm. apply (keepb_ok sd s A m Some m H Hm); [by split|]. exists (qof sd s), (A sd).
  split; [done|]. split; [apply H|]. split; [done|]. split; [done|apply weak_refl].
Qed.
Lemma same_class_alike m band d cont :
  same_class m band d → alike m (Smsg m.(s_id) (u8 band) d cont).
Proof.
  intros (H1 & H2 & H3). split; [done| |exact H3]. unfold key, s_hi. cbn. by rewrite H1, H2.
Qed.
Definition rest_ok (m : smsg) (rest : option (Z * blk * list blk)) : Prop :=
  ∀ b d c, rest = Some (b, d, c) → same_class m b d.
Lemma strip_ok front sd s A m rest :
  Rep s A → (A sd).(a_held) = m :: held → rest_ok m rest →
  ∃ s' a' o, strip sd (if front : bool then Putbq else Putq) m.(s_id) rest s = Some s' ∧
    Rep s' (setA sd a' A) ∧ ctl s' = ctl s ∧ fates s' = fates s ++ fated sd m.(s_id) o ∧
    disposed front m (A sd) a' o ∧
    match rest with Some _ => o = None | None => o = Some Trimmed end.
Proof.
  intros H Hm Hrest. unfold strip. destruct rest as [[[b d] c]|].
  - set (m2 := Smsg (s_id m) (u8 b) d c). destruct (write_ok sd s A m m2 H Hm) as (q & Eq & Hq);
      [done|apply u8_valid|].
    assert (Hk : alike m m2) by (apply same_class_alike; by eapply Hrest).
    destruct front.
    + destruct (keepb_ok sd s A m (q_write m2) m2 H Hm Hk) as (s' & a' & E & Hr & Hc & Hf & Hd).
      { exists q, ((A sd) <| a_held := m2 :: held |>). split; [done|]. split; [done|]. by split; [|split]. }
      exists s', a', None. cbn [fated]. rewrite app_nil_r. done.
    + destruct (keep_ok sd s A m (q_write m2) m2 H Hm Hk) as (s' & a' & E & Hr & Hc & Hf & Hd).
      { by exists q. }
      exists s', a', None. cbn [fated]. rewrite app_nil_r. done.
  - destruct (over_ok front sd Trimmed s A m H Hm) as (s' & a' & E & Hr & Hc & Hf & Hd).
    by exists s', a', (Some Trimmed).
Qed.
(** Flow control of the next queue. *)
Lemma pass_flow_ok sd s A m :
  Rep s A → (A sd).(a_held) = m :: held →
  ∃ ok s', pass_flow sd m.(s_id) s = Some (ok, s') ∧
    (if ok : bool
     then ∃ a', Rep s' (setA sd a' A) ∧ ctl s' = ctl s ∧
            fates s' = fates s ++ [(sd, m.(s_id), Passed)] ∧
            ∀ front, disposed front m (A sd) a' (Some Passed)
     else Rep s' A ∧ ctl s' = ctl s ∧ fates s' = fates s).
Proof.
  intros H Hm. unfold pass_flow.
  rewrite (q_read_ok _ _ m (H sd)) by (apply elem_of_app; right; rewrite Hm; by apply elem_of_cons; left).
  cbn [mbind option_bind].
  destruct (if s_hi m then _ else _) as [ok s1] eqn:Es.
  assert (H1 : Rep s1 A ∧ ctl s1 = ctl s ∧ fates s1 = fates s).
  { destruct (s_hi m); [by injection Es as _ <-|]. unfold bcanputnext in Es.
    destruct (canput s) as [|b l]; injection Es as _ <-; [done|]. split; [by eapply Rep_same|done]. }
  destruct H1 as (H1 & Hc1 & Hf1). destruct ok; [|by exists false, s1].
  assert (Hh : holds (s_id m) (A sd) m held) by (unfold holds; rewrite Hm; by apply pick_head).
  destruct (end_of_ok sd _ Passed s1 A m H1 Hh) as (s' & E & Hr & Hc & Hf). rewrite E.
  cbn [mbind option_bind]. exists true, s'. split; [done|]. exists ((A sd) <| a_held := held |>).
  split; [done|]. split; [congruence|]. split; [congruence|]. intros front. by apply Disp_over.
Qed.

(** What [ss7_putq_slow] and [ss7_srvq_slow] come to. *)
Definition settled (front : bool) (sd : side) (m : smsg) (s : str) (A : side → aq)
    (r : option (bool * str)) (P : bool → option fate → Prop) : Prop :=
  ∃ b s' a' o, r = Some (b, s') ∧ Rep s' (setA sd a' A) ∧ ctl s' = ctl s ∧
    fates s' = fates s ++ fated sd m.(s_id) o ∧ disposed front m (A sd) a' o ∧ P b o.
Lemma settled_over front sd f s A m b (P : bool → option fate → Prop) :
  Rep s A → (A sd).(a_held) = m :: held → P b (Some f) →
  settled front sd m s A (s ← end_of sd m.(s_id) f s; Some (b, s)) P.
Proof.
  intros H Hm HP. destruct (over_ok front sd f s A m H Hm) as (s' & a' & E & Hr & Hc & Hf & Hd).
  rewrite E. by exists b, s', a', (Some f).
Qed.
Lemma settled_on front sd (g : Q → option Q) s A m b (P : bool → option fate → Prop) :
  (∃ s' a', on_q sd g s = Some s' ∧ Rep s' (setA sd a' A) ∧ ctl s' = ctl s ∧
     fates s' = fates s ∧ disposed front m (A sd) a' None) → P b None →
  settled front sd m s A (s ← on_q sd g s; Some (b, s)) P.
Proof.
  intros (s' & a' & E & Hr & Hc & Hf & Hd) HP. rewrite E. exists b, s', a', None.
  cbn [fated]. by rewrite app_nil_r.
Qed.
Lemma settled_ctl front sd m s s1 A r P :
  ctl s1 = ctl s → fates s1 = fates s → settled front sd m s1 A r P → settled front sd m s A r P.
Proof.
  intros Hc Hf (b & s' & a' & o & H). exists b, s', a', o. rewrite <- Hc, <- Hf. exact H.
Qed.
(** In the put procedure: on the queue exactly when so reported. *)
Lemma putq_slow_ok sd m rtn rest s A :
  Rep s A → (A sd).(a_held) = m :: held → rest_ok m rest →
  settled false sd m s A (ss7_putq_slow next sd m.(s_id) rtn rest s)
    (fun kept o => kept = match o with None => true | Some _ => false end).
Proof.
  intros H Hm Hrest. unfold ss7_putq_slow.
  assert (Hover : ∀ f, settled false sd m s A (s ← end_of sd m.(s_id) f s; Some (false, s))
            (fun kept o => kept = match o with None => true | Some _ => false end))
    by (intros f; by apply settled_over).
  assert (Hkeep : ∀ s1, Rep s1 A → ctl s1 = ctl s → fates s1 = fates s →
    settled false sd m s A (s ← on_q sd (put_must Putq m.(s_id)) s1; Some (true, s))
            (fun kept o => kept = match o with None => true | Some _ => false end)).
  { intros s1 H1 Hc Hf. apply (settled_ctl _ _ _ _ s1); [done|done|].
    apply settled_on; [by apply keep_same_ok|done]. }
  destruct (rtn =? QR_DONE); [done|]. destruct (rtn =? QR_ABSORBED); [done|].
  destruct (rtn =? QR_STRIP).
  { destruct (strip_ok false sd s A m rest H Hm Hrest) as (s' & a' & o & E & Hr & Hc & Hf & Hd & Ho).
    rewrite E. eexists _, s', a', o. do 5 (split; [done|]). by destruct rest; subst. }
  destruct (rtn =? QR_TRIMMED); [done|].
  destruct ((rtn =? QR_LOOP) && negb (next sd)); [done|].
  destruct ((rtn =? QR_LOOP) || (rtn =? QR_PASSALONG)); [by destruct (next sd)|].
  destruct (rtn =? QR_DISABLE); [by apply Hkeep|].
  destruct (rtn =? QR_PASSFLOW).
  { destruct (pass_flow_ok sd s A m H Hm) as ([] & s1 & E & H1); rewrite E; cbn [mbind option_bind].
    - destruct H1 as (a' & Hr & Hc & Hf & Hd). by exists false, s1, a', (Some Passed).
    - destruct H1 as (Hr & Hc & Hf). by apply Hkeep. }
  destruct (retried rtn || (rtn =? QR_RETRY)); [by apply Hkeep|done].
Qed.

(** In the service procedure: it stops only when the message is back on the queue,
    and goes on with the message back on the queue only when told so. *)
Definition again (rtn : Z) : Prop := rtn = QR_STRIP ∨ rtn = QR_RETRY.
Definition stops (rtn : Z) (go : bool) (o : option fate) : Prop :=
  (go = false → o = None) ∧ (go = true → o = None → again rtn).
Lemma disposed_any f g m a a' o : key m ≠ 0 → disposed f m a a' o → disposed g m a a' o.
Proof. intros Hk [x E1 E2 W|m' l1 l2]; [by apply Disp_over|by eapply Disp_kept]. Qed.
Lemma key_hi_ne m : s_hi m = true → key m ≠ 0.
Proof. unfold key. intros ->. lia. Qed.
Lemma demote_flush t t' : demote t = Some t' → t' ≠ M_FLUSH.
Proof. unfold demote. repeat (destruct (_ =? _); [by intros [= <-]|]). done. Qed.
Lemma stall_ok sd m rtn s A :
  Rep s A → (A sd).(a_held) = m :: held → settled true sd m s A (stall sd m.(s_id) s) (stops rtn).
Proof.
  intros H Hm. unfold stall.
  rewrite (q_read_ok _ _ m (H sd)) by (apply elem_of_app; right; rewrite Hm; by apply elem_of_cons; left).
  cbn [mbind option_bind]. destruct (s_hi m) eqn:Eh; cbn [negb].
  - destruct (demote (db_type (s_datap m))) as [t|] eqn:Ed; [|by apply settled_over].
    set (m2 := Smsg _ 255 _ _). destruct (write_ok sd s A m m2 H Hm) as (q & Eq & Hq); [done|by split|].
    assert (Hk : alike m m2).
    { split; [done|by intros E; apply key_hi_ne in Eh|intros _; by eapply demote_flush]. }
    apply settled_on; [|done].
    destruct (keep_ok sd s A m (q_write m2) m2 H Hm Hk) as (s' & a' & E & Hr & Hc & Hf & Hd).
    { by exists q. }
    exists s', a'. do 4 (split; [done|]). eapply disposed_any; [by apply key_hi_ne|done].
  - apply settled_on; [by apply keepb_same_ok|done].
Qed.
Lemma srvq_slow_ok sd m rtn rest s A :
  Rep s A → (A sd).(a_held) = m :: held → rest_ok m rest →
  settled true sd m s A (ss7_srvq_slow next sd m.(s_id) rtn rest s) (stops rtn).
Proof.
  intros H Hm Hrest. unfold ss7_srvq_slow.
  assert (Hover : ∀ f, settled true sd m s A (s ← end_of sd m.(s_id) f s; Some (true, s)) (stops rtn))
    by (intros f; by apply settled_over).
  destruct (rtn =? QR_DONE); [done|]. destruct (rtn =? QR_ABSORBED); [done|].
  destruct (Z.eqb_spec rtn QR_STRIP) as [Hs|_].
  { destruct (strip_ok true sd s A m rest H Hm Hrest) as (s' & a' & o & E & Hr & Hc & Hf & Hd & Ho).
    rewrite E. eexists _, s', a', o. do 5 (split; [done|]). split; [done|]. by left. }
  destruct (rtn =? QR_TRIMMED); [done|].
  destruct ((rtn =? QR_LOOP) && negb (next sd)); [done|].
  destruct ((rtn =? QR_LOOP) || (rtn =? QR_PASSALONG)); [by destruct (next sd)|].
  destruct (rtn =? QR_DISABLE).
  { apply settled_on; [|done]. apply (keepb_ok sd s A m disable m H Hm); [by split|].
    destruct (q_call_ok Noenable _ _ RUnit [] ((A sd) <| a_noenb := true |>) (H sd) I eq_refl)
      as (q & E & Hq).
    exists q, ((A sd) <| a_noenb := true |>). unfold disable. rewrite E. do 4 (split; [done|]). by split. }
  destruct (rtn =? QR_PASSFLOW).
  { destruct (pass_flow_ok sd s A m H Hm) as ([] & s1 & E & H1); rewrite E; cbn [mbind option_bind].
    - destruct H1 as (a' & Hr & Hc & Hf & Hd). by exists true, s1, a', (Some Passed).
    - destruct H1 as (Hr & Hc & Hf). apply (settled_ctl _ _ _ _ s1); [done|done|]. by apply stall_ok. }
  destruct (retried rtn); [by apply stall_ok|].
  destruct (Z.eqb_spec rtn QR_RETRY) as [Hs|_]; [|done]. apply settled_on; [by apply keepb_same_ok|].
  split; [done|]. by right.
Qed.

(** *** The call of a procedure *)

Lemma call_prim_ok sd (proc : smsg → St → outcome St) m s A :
  Rep s A → (A sd).(a_held) = m :: held → well_behaved proc → not_flush m →
  ∃ s' m2, call_prim sd proc m.(s_id) s = Some (proc m s.(priv), s') ∧
    Rep s' (setA sd ((A sd) <| a_held := m2 :: held |>) A) ∧ ctl s' = ctl s ∧ fates s' = fates s ∧
    alike m m2 ∧ s_band m2 = s_band m ∧ s_hi m2 = s_hi m.
Proof.
  intros H Hm Hw Ht. pose proof (held_valid _ _ _ _ H Hm) as Hv. unfold call_prim.
  rewrite (q_read_ok _ _ m (H sd)) by (apply elem_of_app; right; rewrite Hm; by apply elem_of_cons; left).
  cbn [mbind option_bind]. rewrite (wb_flush _ Hw m (priv s) Ht). cbn [foldl mbind option_bind].
  set (s1 := s <| priv := _ |>). assert (H1 : Rep s1 A) by (by eapply Rep_same).
  destruct (wb_class _ Hw m (priv s) Hv) as (Hb & Hh & Hf0).
  set (m2 := Smsg _ _ _ _). destruct (write_ok sd s1 A m m2 H1 Hm) as (q & Eq & Hq); [done|apply u8_valid|].
  destruct (on_q_ok sd (q_write m2) s1 A _ H1 (ex_intro _ q (conj Eq Hq))) as (s' & E & Hr & Hc & Hf).
  rewrite E. cbn [mbind option_bind]. exists s', m2. do 4 (split; [done|]).
  split; [|done]. by apply same_class_alike, (wb_class _ Hw).
Qed.

Lemma setA_setA sd a b A x : setA sd a (setA sd b A) x = setA sd a A x.
Proof. unfold setA. by case_decide. Qed.
Lemma Rep_ext s A B : Rep s A → (∀ x, A x = B x) → Rep s B.
Proof. intros H E x. rewrite <- E. apply H. Qed.
(** A message goes through a procedure and the switch on its result. *)
Lemma prim_ok front sd (proc : smsg → St → outcome St) m s A (P : Z → bool → option fate → Prop)
    (slow : Z → option (Z * blk * list blk) → str → option (bool * str)) :
  Rep s A → (A sd).(a_held) = m :: held → well_behaved proc → not_flush m →
  (∀ m2 rtn rest s A, s_id m2 = s_id m → Rep s A → (A sd).(a_held) = m2 :: held → rest_ok m2 rest →
     settled front sd m2 s A (slow rtn rest s) (P rtn)) →
  settled front sd m s A ('(o, s) ← call_prim sd proc m.(s_id) s; slow o.(o_rtn) o.(o_rest) s)
    (P (proc m s.(priv)).(o_rtn)).
Proof.
  intros H Hm Hw Hf Hslow.
  destruct (call_prim_ok sd proc m s A H Hm Hw Hf) as (s1 & m2 & E & H1 & Hc & Hl & Hk & Hb & Hh).
  rewrite E. cbn [mbind option_bind].
  destruct (Hslow m2 (o_rtn (proc m (priv s))) (o_rest (proc m (priv s))) s1 _ (ak_id _ _ Hk) H1)
    as (b & s' & a' & o & E' & Hr & Hc' & Hl' & Hd & HP).
  { by rewrite setA_eq. }
  { intros x d c Hx.
    destruct (wb_rest _ Hw m (priv s) x d c (held_valid _ _ _ _ H Hm) Hx) as (Q1 & Q2 & Q3).
    split; [congruence|]. split; [congruence|]. intros Hn. apply Q3. done. }
  exists b, s', a', o. split; [done|]. split.
  { eapply Rep_ext; [done|]. intros x. apply setA_setA. }
  split; [congruence|]. rewrite (ak_id _ _ Hk) in Hl'. split; [congruence|]. split; [|done].
  rewrite setA_eq in Hd. eapply disposed_from; [| |done|exact Hd]; [done|by split].
Qed.
Lemma put_handle_ok sd (proc : smsg → St → outcome St) m s A :
  Rep s A → (A sd).(a_held) = m :: held → well_behaved proc → not_flush m →
  settled false sd m s A (put_handle next sd proc m.(s_id) s)
    (fun kept o => kept = match o with None => true | Some _ => false end).
Proof.
  intros H Hm Hw Hf. pose proof (fun P => prim_ok false sd proc m s A P
    (ss7_putq_slow next sd (s_id m)) H Hm Hw Hf) as Hp.
  apply (Hp (fun _ kept o => kept = match o with None => true | Some _ => false end)).
  intros m2 rtn rest s1 A1 <- H1 Hm1 Hr. by apply putq_slow_ok.
Qed.
Lemma srv_handle_ok sd (proc : smsg → St → outcome St) m s A :
  Rep s A → (A sd).(a_held) = m :: held → well_behaved proc → not_flush m →
  settled true sd m s A (srv_handle next sd proc m.(s_id) s) (stops (proc m s.(priv)).(o_rtn)).
Proof.
  intros H Hm Hw Hf. pose proof (fun P => prim_ok true sd proc m s A P
    (ss7_srvq_slow next sd (s_id m)) H Hm Hw Hf) as Hp.
  apply (Hp stops).
  intros m2 rtn rest s1 A1 <- H1 Hm1 Hr. by apply srvq_slow_ok.
Qed.

(** *** The lock *)

Context (srvp : side → bool) (Hsrvp : ∀ sd, srvp sd = true).
Lemma wait_with x sd q (s : str) : wait x (with_q sd q s) = wait x s.
Proof. by destruct x, sd. Qed.
Lemma wake_ok sd s A :
  Rep s A → (A sd).(a_srvp) = true →
  ∃ s' a', wake_waiter srvp sd s = Some ([], s') ∧ Rep s' (setA sd a' A) ∧
    ctl s' = ctl (set_wait sd false s) ∧ fates s' = fates s ∧
    a'.(a_list) = (A sd).(a_list) ∧ a'.(a_held) = (A sd).(a_held) ∧ flags (A sd) a' ∧
    (wait sd s = true → a'.(a_enab) = true).
Proof.
  intros H Hs. unfold wake_waiter. destruct (wait sd s) eqn:Ew.
  2: { exists s, (A sd). split; [done|]. split.
       { eapply Rep_ext; [done|]. intros x. unfold setA. case_decide; by subst. }
       split; [|by split; [|split; [|split; [|split; [apply flags_refl|]]]]].
       destruct sd; cbn in Ew; unfold ctl, set_wait; upd; by rewrite Ew. }
  set (s1 := set_wait sd false s).
  assert (H1 : Rep s1 A) by (eapply Rep_same; [done|by destruct sd..]).
  set (c := a_srvp (A sd) && negb (a_noenb (A sd))).
  destruct (q_call_ok Enableq _ _ (RInt (Z.b2z c)) [] (enable c (A sd)) (H1 sd) I eq_refl) as (q & E & Hq).
  rewrite E. cbn [mbind option_bind].
  assert (Hfin : ∀ q' a', rep q' a' → a_list a' = a_list (A sd) → a_held a' = a_held (A sd) →
    flags (A sd) a' → a_enab a' = true →
    ∃ s' a', Some (@nil side, with_q sd q' s1) = Some ([], s') ∧ Rep s' (setA sd a' A) ∧
    ctl s' = ctl (set_wait sd false s) ∧ fates s' = fates s ∧
    a'.(a_list) = (A sd).(a_list) ∧ a'.(a_held) = (A sd).(a_held) ∧ flags (A sd) a' ∧
    (true = true → a'.(a_enab) = true)).
  { intros q' a' Hq' El Eh Hf He. eexists _, a'. split; [done|]. split; [by apply Rep_with|].
    rewrite ctl_with, fates_with. split; [done|]. split; [by destruct sd|]. done. }
  destruct c eqn:Ec; cbn [Z.b2z Z.eqb negb].
  - apply (Hfin q (enable true (A sd))); [done|apply enable_list|apply enable_held|apply flags_enable|].
    unfold enable. by rewrite Hs.
  - rewrite Hsrvp.
    apply (Hfin (q_qenable q) (enable true (enable false (A sd)))); [by apply q_qenable_ok| | | |].
    + by rewrite !enable_list.
    + by rewrite !enable_held.
    + eapply flags_trans; apply flags_enable.
    + unfold enable. cbn. by rewrite Hs.
Qed.
(** A queue that waited is scheduled, the lock is free. *)
Lemma unlock_ok s A :
  Rep s A → (∀ sd, (A sd).(a_srvp) = true) →
  ∃ s' A', ss7_unlockq srvp s = Some ([], s') ∧ Rep s' A' ∧
    ctl s' = (0, false, false, s.(ibusy), s.(obusy)) ∧ fates s' = fates s ∧
    ∀ sd, (A' sd).(a_list) = (A sd).(a_list) ∧ (A' sd).(a_held) = (A sd).(a_held) ∧
      flags (A sd) (A' sd) ∧ (wait sd s = true → (A' sd).(a_enab) = true).
Proof.
  intros H Hs. unfold ss7_unlockq.
  destruct (wake_ok IQ s A H (Hs IQ)) as (s1 & ai & E1 & H1 & C1 & F1 & L1 & K1 & G1 & W1).
  rewrite E1. cbn [mbind option_bind].
  destruct (wake_ok OQ s1 _ H1) as (s2 & ao & E2 & H2 & C2 & F2 & L2 & K2 & G2 & W2).
  { by rewrite setA_ne. }
  rewrite E2. cbn [mbind option_bind app]. rewrite setA_ne in L2, K2, G2 by done.
  eexists _, _. split; [done|]. split; [by eapply Rep_same|].
  assert (E : iwait s1 = false ∧ owait s1 = owait s ∧ ibusy s1 = ibusy s ∧ obusy s1 = obusy s).
  { unfold ctl, set_wait in C1. upd in C1. by injection C1 as _ -> -> -> ->. }
  destruct E as (E3 & E4 & E5 & E6).
  split. { unfold ctl, set_wait in *. upd in C2. upd. injection C2 as _ -> -> -> ->. by rewrite E3, E5, E6. }
  split; [upd; congruence|]. intros [].
  - rewrite setA_ne, setA_eq by done. done.
  - rewrite setA_eq. cbn in W2 |- *. rewrite E4 in W2. done.
Qed.

(** *** The put procedure up to the call *)

(** A message is queued behind its class; the queue is scheduled if its service
    procedure waits for a message. *)
Lemma queued_ok sd s A m :
  Rep s A → (A sd).(a_held) = m :: held →
  ∃ s' a', on_q sd (put_must Putq m.(s_id)) s = Some s' ∧ Rep s' (setA sd a' A) ∧ ctl s' = ctl s ∧
    fates s' = fates s ∧ disposed false m (A sd) a' None ∧
    ((A sd).(a_list) = [] → (A sd).(a_wantr) = true → (A sd).(a_noenb) = false →
     (A sd).(a_srvp) = true → a'.(a_enab) = true).
Proof.
  intros H Hm. assert (Hh : holds (s_id m) (A sd) m held) by (unfold holds; rewrite Hm; by apply pick_head).
  destruct (putq_must_ok _ _ m held (H sd) Hh) as (q' & a' & m' & l1 & l2 & E & Hr' & Hd & Hen).
  destruct (on_q_ok sd (put_must Putq m.(s_id)) s A a' H) as (s' & E' & Hr & Hc & Hf); [by exists q'|].
  exists s', a'. do 4 (split; [done|]). split; [|done]. apply done_behind in Hd; [done|].
  by eapply rep_ok.
Qed.
Definition queued (sd : side) (m : smsg) (s : str) (A : side → aq) (s' : str) : Prop :=
  ∃ a', Rep s' (setA sd a' A) ∧ fates s' = fates s ∧ disposed false m (A sd) a' None ∧
    ((A sd).(a_list) = [] → (A sd).(a_wantr) = true → (A sd).(a_noenb) = false →
     (A sd).(a_srvp) = true → a'.(a_enab) = true) ∧
    ((((A sd).(a_list) ≠ [] ∨ busy sd s = true) ∧ ctl s' = ctl s) ∨
     (s.(users) ≠ 0 ∧ ctl s' = ctl (set_wait sd true s))).
Definition entered (sd : side) (m : smsg) (s : str) (A : side → aq) (s' : str) : Prop :=
  Rep s' A ∧ fates s' = fates s ∧ s.(users) = 0 ∧ ctl s' = ctl (s <| users := 1 |>) ∧
  (s_hi m = false → (A sd).(a_list) = [] ∧ busy sd s = false).
Lemma trylock_ok sd (s : str) :
  s.(users) = 0 ∨ s.(users) = 1 →
  ss7_trylockq sd s = (s.(users) =? 0, if s.(users) =? 0 then s <| users := 1 |> else set_wait sd true s).
Proof.
  intros [Hu|Hu]; unfold ss7_trylockq; rewrite Hu; cbn [Z.eqb]; [done|]. upd.
  change (u32 (u32 (1 + 1) - 1)) with 1. rewrite <- Hu. destruct s, sd; cbn in *; by subst.
Qed.
Lemma put_enter_ok sd m s A :
  Rep s A → (A sd).(a_held) = m :: held → not_flush m → s.(users) = 0 ∨ s.(users) = 1 →
  ∃ k s', put_enter sd m.(s_id) s = Some (k, s') ∧
    match k with
    | None => queued sd m s A s'
    | Some locked => locked = true ∧ entered sd m s A s'
    end.
Proof.
  intros H Hm Hf Hu. unfold put_enter.
  rewrite (q_read_ok _ _ m (H sd)) by (apply elem_of_app; right; rewrite Hm; by apply elem_of_cons; left).
  cbn [mbind option_bind]. rewrite (q_head_ok _ _ (H sd)).
  destruct (negb (s_hi m) && _) eqn:Ec.
  - destruct (queued_ok sd s A m H Hm) as (s' & a' & E & Hr & Hc & Hl & Hd & Hen). rewrite E.
    cbn [mbind option_bind]. exists None, s'. split; [done|]. exists a'. do 4 (split; [done|]).
    left. split; [|done]. apply andb_true_iff in Ec as [_ Ec]. apply orb_true_iff in Ec as [Ec|Ec].
    + left. intros El. by rewrite El in Ec.
    + by right.
  - rewrite (trylock_ok sd s Hu). destruct (Z.eqb_spec (users s) 0) as [Hu0|Hu0]; cbn [orb].
    + exists (Some true), (s <| users := 1 |>). split; [done|]. split; [done|].
      split; [by eapply Rep_same|]. do 3 (split; [done|]). intros Hh. rewrite Hh in Ec. cbn [negb andb] in Ec.
      apply orb_false_iff in Ec as [E1 E2]. split; [|done]. by destruct (a_list (A sd)).
    + replace (db_type (s_datap m) =? M_FLUSH) with false by (symmetry; by apply Z.eqb_neq).
      destruct (queued_ok sd (set_wait sd true s) A m) as (s' & a' & E & Hr & Hc & Hl & Hd & Hen);
        [eapply Rep_same; [done|by destruct sd..]|done|].
      rewrite E. cbn [mbind option_bind]. exists None, s'. split; [done|]. exists a'. split; [done|].
      split; [rewrite Hl; by destruct sd|]. do 2 (split; [done|]). by right.
Qed.
End pairs.
