(* ===== verification/Os7Order.v ===== *)
(** * Order and progress through the queue procedures

    The queue pair of a driver with messages arriving, being put and serviced, at
    the granularity at which they interleave: a put or a service procedure that
    holds the lock is suspended around the driver's procedure while messages
    arrive on either queue and queues are scheduled.  On any queues that satisfy
    the interface: no step follows a bad pointer, no message is lost or doubled,
    normal messages keep their order, no message is left on a queue that nothing
    will service. *)
From S2P Require Import Prelude Xp StrQueue StrSpec StrRefine StrSys StrFlow StrPort Os7Queue Os7Laws.
From stdpp Require Import gmap sorting.
#[local] Open Scope Z_scope.
#[local] Open Scope os7_scope.
#[local] Set Warnings "-clear-no-such-hyp".

(** ** The machine *)

(** Who holds the lock: nobody, a put procedure in the driver's procedure for a
    message, a service procedure between two messages or in the driver's procedure
    for one, a procedure that is about to unlock ([true] for a service procedure). *)
Inductive work :=
  | Idle | Putting (sd : side) (mp : Z) | Serving (sd : side) | Handling (sd : side) (mp : Z)
  | Leaving (sd : side) (srv : bool).
(** [c_in] is what arrived, [c_calm] that no put was refused behind another
    message, [c_stall] that a message was refused since service last began. *)
Record cfg {Q St : Type} := Cfg {
  c_s : str Q St; c_w : work; c_in : list (side * Z); c_calm : side → bool; c_stall : side → bool }.
Arguments cfg : clear implicits.
Arguments Cfg {Q St}.
#[export] Instance eta_cfg {Q St} : Eta (cfg Q St) := fun r =>
  Cfg r.(c_s) r.(c_w) r.(c_in) r.(c_calm) r.(c_stall).
#[export] Instance set_c_s {Q St} : Setter (@c_s Q St) := ltac:(mk_setter).
#[export] Instance set_c_w {Q St} : Setter (@c_w Q St) := ltac:(mk_setter).
#[export] Instance set_c_in {Q St} : Setter (@c_in Q St) := ltac:(mk_setter).
#[export] Instance set_c_calm {Q St} : Setter (@c_calm Q St) := ltac:(mk_setter).
#[export] Instance set_c_stall {Q St} : Setter (@c_stall Q St) := ltac:(mk_setter).

Inductive event :=
  | Arrive (sd : side) (m : smsg) | Process | Schedule (sd : side) | Take | Handle | Leave
  | Enable (sd : side).
Definition upd_side (sd : side) (b : bool) (f : side → bool) : side → bool :=
  fun x => if decide (x = sd) then b else f x.
Definition of_side (sd : side) (l : list (side * Z)) : list Z :=
  (filter (fun x => x.1 = sd) l).*2.
Definition arrived {Q St} (sd : side) (c : cfg Q St) : list Z := of_side sd c.(c_in).
(** The messages that are over, in order. *)
Definition finished {Q St} (sd : side) (c : cfg Q St) : list Z := of_side sd c.(c_s).(fates).*1.
Definition hand (sd : side) (w : work) : list Z :=
  match w with
  | Putting x mp | Handling x mp => if decide (x = sd) then [mp] else []
  | _ => []
  end.
Definition in_service (sd : side) (w : work) : bool :=
  match w with
  | Serving x | Handling x _ | Leaving x true => bool_decide (x = sd)
  | _ => false
  end.

Section machine.
Context {Q : Type} `{!Queue_ops Q} {St : Type}.
Notation str := (str Q St).
Notation cfg := (cfg Q St).
Context (proc : side → smsg → St → outcome St) (wakeup : side → option (St → St)).
Context (srvp next : side → bool).

(** The scheduler runs one service procedure of a queue at a time. *)
Definition exec (e : event) (c : cfg) : option cfg :=
  match e with
  | Arrive sd m =>
      let s := with_q sd (q_take m (qof sd c.(c_s))) c.(c_s) in
      '(k, s) ← put_enter sd m.(s_id) s;
      let c := c <| c_s := s |> <| c_in := c.(c_in) ++ [(sd, m.(s_id))] |> in
      Some (match k with None => c | Some _ => c <| c_w := Putting sd m.(s_id) |> end)
  | Process =>
      match c.(c_w) with
      | Putting sd mp =>
          let alone := bool_decide (q_head (qof sd c.(c_s)) = None) in
          '(kept, s) ← put_handle next sd (proc sd) mp c.(c_s);
          let c := c <| c_s := s |> <| c_w := Leaving sd false |> in
          Some (if kept : bool
                then c <| c_calm := upd_side sd (c.(c_calm) sd && alone) c.(c_calm) |>
                       <| c_stall := upd_side sd true c.(c_stall) |>
                else c)
      | _ => None
      end
  | Schedule sd =>
      if busy sd c.(c_s) then None
      else
        let '(enabled, s) := srv_begin sd c.(c_s) in
        if enabled : bool
        then
          let '(locked, s) := ss7_trylockq sd s in
          Some (if locked : bool
                then c <| c_s := s |> <| c_w := Serving sd |>
                       <| c_stall := upd_side sd false c.(c_stall) |>
                else c <| c_s := set_busy sd false s |>)
        else Some (c <| c_s := s |>)
  | Take =>
      match c.(c_w) with
      | Serving sd =>
          '(r, s) ← srv_take sd c.(c_s);
          Some (c <| c_s := s |> <| c_w := match r with None => Leaving sd true | Some mp => Handling sd mp end |>)
      | _ => None
      end
  | Handle =>
      match c.(c_w) with
      | Handling sd mp =>
          '(go, s) ← srv_handle next sd (proc sd) mp c.(c_s);
          let c := c <| c_s := s |> in
          Some (if go : bool then c <| c_w := Serving sd |>
                else c <| c_w := Leaving sd true |> <| c_stall := upd_side sd true c.(c_stall) |>)
      | _ => None
      end
  | Leave =>
      match c.(c_w) with
      | Leaving sd srv =>
          '(l, s) ← leave wakeup srvp sd c.(c_s);
          match l with
          | [] => Some (c <| c_s := if srv : bool then set_busy sd false s else s |> <| c_w := Idle |>)
          | _ => None
          end
      | _ => None
      end
  | Enable sd => Some (c <| c_s := with_q sd (q_qenable (qof sd c.(c_s))) c.(c_s) |>)
  end.
Fixpoint run (l : list event) (c : cfg) : option cfg :=
  match l with [] => Some c | e :: l => c ← exec e c; run l c end.
End machine.

(** ** The messages of one queue *)

Lemma of_side_app sd l k : of_side sd (l ++ k) = of_side sd l ++ of_side sd k.
Proof. unfold of_side. by rewrite filter_app, fmap_app. Qed.
Lemma of_side_one sd x i : of_side sd [(x, i)] = if decide (x = sd) then [i] else [].
Proof. unfold of_side. rewrite filter_cons. cbn. by case_decide. Qed.

Section messages.
(** The messages that are to keep their order: normal ones in no band. *)
Context (norm : Z → bool).
Notation ordered := (filter (fun i => norm i = true)).
Definition msg_ok (m : smsg) : Prop := not_flush m ∧ (norm m.(s_id) = true → key m = 0).
Record side_ok (arr over hnd : list Z) (calm : bool) (a : aq) : Prop := {
  so_hand : ids a.(a_held) = hnd;
  so_msgs : Forall msg_ok (a.(a_list) ++ a.(a_held));
  so_perm : arr ≡ₚ over ++ hnd ++ ids a.(a_list);
  so_fifo : calm = true → ordered arr = ordered (over ++ hnd ++ ids a.(a_list)) }.

Lemma alike_ok m m' : alike m m' → msg_ok m → msg_ok m'.
Proof. intros [Hi Hk Hf] [H1 H2]. split; [auto|]. rewrite Hi. auto. Qed.
Lemma ordered_none l : Forall msg_ok l → Forall (fun x => key x ≠ 0) l → ordered (ids l) = [].
Proof.
  induction l as [|m l IH]; intros H1 H2; [done|].
  apply list.Forall_cons in H1 as [H1 H3]. apply list.Forall_cons in H2 as [H2 H4].
  unfold ids. cbn. rewrite decide_False; [by apply IH|]. intros Hn. by apply H2, H1.
Qed.
(** A message put in front of its class, or behind it. *)
Lemma kept_ids held front m a a' :
  disposed held front m a a' None → Forall msg_ok a.(a_list) → msg_ok m →
  Forall msg_ok a'.(a_list) ∧ a'.(a_held) = held ∧ ids a'.(a_list) ≡ₚ m.(s_id) :: ids a.(a_list) ∧
  ordered (ids a'.(a_list)) = ordered (if front then m.(s_id) :: ids a.(a_list)
                                       else ids a.(a_list) ++ [m.(s_id)]).
Proof.
  intros H Hl Hm. inversion H as [|m' l1 l2 E1 E2 E3 W Hk Hp]; subst.
  pose proof (alike_ok _ _ Hk Hm) as Hm'. rewrite E1, E2 in *.
  apply list.Forall_app in Hl as [Hl1 Hl2].
  split; [by apply list.Forall_app; split; [|apply list.Forall_cons]|]. split; [done|].
  rewrite !ids_app. cbn [ids fmap list_fmap]. rewrite (ak_id _ _ Hk).
  split; [by rewrite Permutation_middle|].
  destruct (norm (s_id m)) eqn:En.
  - specialize (Hp (proj2 Hm En)). destruct front.
    + change (ordered (ids l1 ++ ([s_id m] ++ ids l2)) = ordered ([s_id m] ++ (ids l1 ++ ids l2))).
      rewrite !filter_app, (ordered_none l1 Hl1 Hp). done.
    + subst l2. cbn. by rewrite app_nil_r.
  - assert (E : ordered [s_id m] = []) by (rewrite filter_cons_False; [done|congruence]).
    change (ordered (ids l1 ++ ([s_id m] ++ ids l2)) =
            ordered (if front then [s_id m] ++ (ids l1 ++ ids l2) else (ids l1 ++ ids l2) ++ [s_id m])).
    destruct front; rewrite !filter_app, E; by rewrite ?app_nil_r.
Qed.
(** The steps of a message: it arrives and is queued, it arrives and is put, it is
    taken off the queue, it is handled. *)
Lemma side_queued arr over hnd calm a m a0 a' :
  side_ok arr over hnd calm a → msg_ok m → a0.(a_list) = a.(a_list) →
  disposed a.(a_held) false m a0 a' None → side_ok (arr ++ [m.(s_id)]) over hnd calm a'.
Proof.
  intros [H1 H2 H3 H4] Hm E Hd. apply list.Forall_app in H2 as [Hl Hh].
  destruct (kept_ids _ _ _ _ _ Hd) as (F & G & P & O); [by rewrite E|done|]. rewrite E in P, O.
  split; [by rewrite G|by apply list.Forall_app; rewrite G| |].
  - rewrite P, H3, <- !app_assoc. do 2 f_equiv. apply Permutation_app_comm.
  - intros Hc. rewrite filter_app, (H4 Hc), !filter_app, O, filter_app. by rewrite !app_assoc.
Qed.
Lemma side_entered arr over calm a m a' :
  side_ok arr over [] calm a → msg_ok m → (s_hi m = false → a.(a_list) = []) →
  a'.(a_list) = a.(a_list) → a'.(a_held) = [m] →
  side_ok (arr ++ [m.(s_id)]) over [m.(s_id)] calm a'.
Proof.
  intros [H1 H2 H3 H4] Hm He El Eh. apply list.Forall_app in H2 as [Hl Hh].
  split; [by rewrite Eh|rewrite El, Eh; by apply list.Forall_app; split; [|apply list.Forall_singleton]| |].
  - rewrite El, H3, <- !app_assoc. cbn [app]. f_equiv. apply Permutation_app_comm.
  - intros Hc. rewrite El, filter_app, (H4 Hc), !filter_app. cbn [app].
    destruct (norm (s_id m)) eqn:En.
    + rewrite He; [by rewrite !app_nil_r|]. by apply key_0, Hm.
    + rewrite filter_cons_False by congruence. by rewrite app_nil_r.
Qed.
Lemma side_taken arr over calm a m l a' :
  side_ok arr over [] calm a → a.(a_list) = m :: l → a'.(a_list) = l → a'.(a_held) = m :: a.(a_held) →
  side_ok arr over [m.(s_id)] calm a'.
Proof.
  intros [H1 H2 H3 H4] E El Eh. apply fmap_nil_inv in H1. rewrite E, H1 in *. rewrite app_nil_r in H2.
  split; [by rewrite Eh| |by rewrite H3, <- El|intros Hc; rewrite (H4 Hc), <- El; done].
  rewrite Eh. apply list.Forall_cons in H2 as [? ?].
  apply list.Forall_app; split; [by rewrite El|by apply list.Forall_singleton].
Qed.
Lemma side_handled front arr over calm calm' a m a' sd o :
  side_ok arr over [m.(s_id)] calm a → a.(a_held) = [m] → disposed [] front m a a' o →
  (calm' = true → calm = true) →
  (front = false → o = None → calm' = true → a.(a_list) = []) →
  side_ok arr (over ++ (fated sd m.(s_id) o).*1.*2) [] calm' a'.
Proof.
  intros [H1 H2 H3 H4] Eh Hd Hc He. apply list.Forall_app in H2 as [Hl Hh]. rewrite Eh, list.Forall_singleton in Hh.
  destruct o as [f|]; cbn.
  - inversion Hd as [f' El Eh' W|]; subst f'.
    split; [by rewrite Eh'|by rewrite El, Eh', app_nil_r|by rewrite El, H3, <- app_assoc|].
    intros Hx. rewrite El, <- app_assoc. by apply H4, Hc.
  - destruct (kept_ids _ _ _ _ _ Hd Hl Hh) as (F & G & P & O).
    rewrite app_nil_r. split; [by rewrite G|by rewrite G, app_nil_r|by rewrite P, H3|].
    intros Hx. rewrite (H4 (Hc Hx)), !filter_app. cbn [app]. rewrite O. f_equal. destruct front.
    + by rewrite <- filter_app.
    + rewrite (He eq_refl eq_refl Hx). by rewrite <- filter_app.
Qed.
End messages.

(** ** The invariant *)

Definition serving (sd : side) (w : work) : bool :=
  match w with Serving x | Handling x _ => bool_decide (x = sd) | _ => false end.
(** A queue with messages will be serviced, may not be, or was refused; a service
    procedure that leaves its queue empty is told of the next message. *)
Record live (w : work) (sd : side) (wt stl : bool) (a : aq) : Prop := {
  lv_live : a.(a_list) ≠ [] → a.(a_enab) = true ∨ a.(a_noenb) = true ∨ serving sd w = true ∨
                              wt = true ∨ stl = true;
  lv_leave : w = Leaving sd true → a.(a_list) = [] → a.(a_wantr) = true }.

Lemma disposed_weak held front m a a' o : disposed held front m a a' o → weak a a'.
Proof. by intros []. Qed.
Lemma disposed_over held front m a a' f : disposed held front m a a' (Some f) → a'.(a_list) = a.(a_list).
Proof. by inversion 1. Qed.
Lemma live_weak w w' sd wt stl stl' a a' :
  live w sd wt stl a → weak a a' → (a'.(a_list) ≠ [] → a.(a_list) ≠ []) →
  (serving sd w = true → serving sd w' = true) → (stl = true → stl' = true) →
  (w' = Leaving sd true → w = Leaving sd true) → (a.(a_list) ≠ [] → a'.(a_list) ≠ []) →
  live w' sd wt stl' a'.
Proof.
  intros [H1 H2] [W1 W2 W3 W4] Hl Hs Ht Hw Hl'. split.
  - intros H. destruct (H1 (Hl H)) as [?|[?|[?|[?|?]]]]; tauto.
  - intros E El. rewrite W3. apply H2; [by apply Hw|]. destruct (a_list a); [done|]. by destruct Hl'.
Qed.

Section reach.
Context {Q : Type} `{!Queue_ops Q, !Queue_laws Q} {St : Type}.
Notation str := (str Q St).
Notation cfg := (cfg Q St).
Context (proc : side → smsg → St → outcome St) (wakeup : side → option (St → St)).
Context (srvp next : side → bool) (norm : Z → bool).
Context (Hproc : ∀ sd, well_behaved (proc sd)) (Hsrvp : ∀ sd, srvp sd = true).
Notation exec := (exec proc wakeup srvp next).
Notation run := (run proc wakeup srvp next).

Definition can (e : event) (c : cfg) : Prop :=
  match e with
  | Arrive sd m =>
      valid m ∧ not_flush m ∧ norm m.(s_id) = (key m =? 0) ∧ m.(s_id) ∉ arrived sd c
  | Process => ∃ sd mp, c.(c_w) = Putting sd mp
  | Schedule sd => busy sd c.(c_s) = false
  | Take => ∃ sd, c.(c_w) = Serving sd
  | Handle => ∃ sd mp, c.(c_w) = Handling sd mp
  | Leave => ∃ sd srv, c.(c_w) = Leaving sd srv
  | Enable sd => True
  end.
Definition idle (w : work) : bool := match w with Idle => true | _ => false end.
Record Inv (c : cfg) (A : side → aq) : Prop := {
  iv_rep : Rep c.(c_s) A;
  iv_side : ∀ sd, side_ok norm (arrived sd c) (finished sd c) (hand sd c.(c_w)) (c.(c_calm) sd) (A sd);
  iv_live : ∀ sd, live c.(c_w) sd (wait sd c.(c_s)) (c.(c_stall) sd) (A sd);
  iv_srvp : ∀ sd, (A sd).(a_srvp) = true;
  iv_busy : ∀ sd, busy sd c.(c_s) = in_service sd c.(c_w);
  iv_users : c.(c_s).(users) = if idle c.(c_w) then 0 else 1;
  iv_wait : c.(c_w) = Idle → ∀ sd, wait sd c.(c_s) = false }.
Definition steps_ok (e : event) (c : cfg) : Prop := ∃ c' A', exec e c = Some c' ∧ Inv c' A'.

Lemma ctl_eq (s s' : str) : ctl s' = ctl s →
  s'.(users) = s.(users) ∧ (∀ sd, wait sd s' = wait sd s) ∧ (∀ sd, busy sd s' = busy sd s).
Proof. unfold ctl. intros [= E1 E2 E3 E4 E5]. split; [done|]. by split; intros []. Qed.
Lemma upd_side_eq sd b f : upd_side sd b f sd = b.
Proof. unfold upd_side. by rewrite decide_True. Qed.
Lemma upd_side_ne sd x b f : x ≠ sd → upd_side sd b f x = f x.
Proof. unfold upd_side. intros H. by rewrite decide_False. Qed.
Lemma in_arrived c A sd m : Inv c A → m ∈ (A sd).(a_list) ++ (A sd).(a_held) → m.(s_id) ∈ arrived sd c.
Proof.
  intros H Hm. destruct (iv_side _ _ H sd) as [H1 _ H3 _]. rewrite H3, <- H1, !elem_of_app.
  apply elem_of_app in Hm as [Hm|Hm]; [do 2 right|right; left]; by apply list_elem_of_fmap_2.
Qed.
(** The queue on which something happened, and the other one. *)
Lemma each_side (P : side → Prop) sd : P sd → (∀ x, x ≠ sd → P x) → ∀ x, P x.
Proof. intros H1 H2 x. destruct (decide (x = sd)) as [->|]; auto. Qed.
Lemma srvp_setA sd a A :
  (∀ x, (A x).(a_srvp) = true) → weak (A sd) a → ∀ x, (setA sd a A x).(a_srvp) = true.
Proof.
  intros H W. apply (each_side _ sd); [by rewrite setA_eq, (wk_srvp _ _ W)|].
  intros x Hx. by rewrite setA_ne.
Qed.

(** *** A message arrives *)

Lemma take_rep c A sd m :
  Inv c A → valid m → m.(s_id) ∉ arrived sd c →
  Rep (with_q sd (q_take m (qof sd c.(c_s))) c.(c_s))
      (setA sd ((A sd) <| a_held := m :: (A sd).(a_held) |>) A).
Proof.
  intros H Hv Hi. apply Rep_with; [apply H|]. apply q_take_ok; [apply H|done|].
  intros Hin. destruct Hi. unfold ids in Hin. apply list_elem_of_fmap_1 in Hin as (x & -> & Hx).
  by eapply in_arrived.
Qed.
Lemma arrived_step (c c' : cfg) sd i x :
  c'.(c_in) = c.(c_in) ++ [(sd, i)] →
  arrived x c' = if decide (sd = x) then arrived x c ++ [i] else arrived x c.
Proof.
  unfold arrived. intros ->. rewrite of_side_app, of_side_one.
  case_decide; [done|by rewrite app_nil_r].
Qed.
Lemma arrive_queued c A sd m s' :
  Inv c A → msg_ok norm m →
  let A0 := setA sd ((A sd) <| a_held := m :: (A sd).(a_held) |>) A in
  queued (A sd).(a_held) sd m (with_q sd (q_take m (qof sd c.(c_s))) c.(c_s)) A0 s' →
  ∃ A', Inv (c <| c_s := s' |> <| c_in := c.(c_in) ++ [(sd, m.(s_id))] |>) A'.
Proof.
  intros H Hm A0 (a' & Hr & Hl & Hd & He & Hc). subst A0. rewrite setA_eq in Hd, He, Hc.
  exists (setA sd a' A).
  assert (Hw : weak (A sd) a') by (eapply weak_trans; [|by eapply disposed_weak]; by split).
  assert (Hwt : wait sd c.(c_s) = true → wait sd s' = true).
  { destruct Hc as [[_ Hc]|[_ Hc]]; apply ctl_eq in Hc as (_ & -> & _); by destruct sd. }
  assert (Hwx : ∀ x, x ≠ sd → wait x s' = wait x c.(c_s)).
  { intros x Hx. destruct Hc as [[_ Hc]|[_ Hc]]; apply ctl_eq in Hc as (_ & -> & _); by destruct sd, x. }
  assert (Hb : (∀ x, busy x s' = busy x c.(c_s)) ∧ users s' = users c.(c_s)).
  { destruct Hc as [[_ Hc]|[_ Hc]]; apply ctl_eq in Hc as (-> & _ & Hb);
      (split; [intros x; rewrite Hb; by destruct sd, x|by destruct sd]). }
  assert (Hfin : ∀ x, finished x (c <| c_s := s' |> <| c_in := c.(c_in) ++ [(sd, m.(s_id))] |>) = finished x c).
  { intros x. unfold finished. upd. by rewrite Hl, fates_with. }
  split; upd.
  - eapply Rep_ext; [done|]. intros x. apply setA_setA.
  - apply (each_side _ sd).
    + rewrite (arrived_step c _ sd (s_id m)), decide_True, Hfin, setA_eq by done.
      eapply side_queued; [apply H|done| |exact Hd]. done.
    + intros x Hx. rewrite (arrived_step c _ sd (s_id m)), decide_False, Hfin, setA_ne by done. apply H.
  - apply (each_side _ sd); [|intros x Hx; rewrite Hwx, setA_ne by done; apply H].
    rewrite setA_eq. destruct (iv_live _ _ H sd) as [H1 H2]. split.
    + intros _. destruct (decide (a_list (A sd) = [])) as [El|El].
      2: { destruct (H1 El) as [?|[?|[?|[?|?]]]]; destruct Hw; tauto. }
      destruct (a_noenb (A sd)) eqn:En; [right; left; by apply (wk_noenb _ _ Hw)|].
      destruct Hc as [[[?|Hbu] _]|[Hu Hc]]; [done| |].
      * assert (Hs : in_service sd c.(c_w) = true) by (rewrite <- (iv_busy _ _ H); by destruct sd).
        destruct (c_w c) as [|?|x|x mp|x []] eqn:Ew; cbn in Hs; try discriminate; [by right; right; left..|].
        apply bool_decide_eq_true in Hs as ->. left. apply He; [done|by apply H2|done|apply H].
      * right. right. right. left. apply ctl_eq in Hc as (_ & -> & _). by destruct sd.
    + intros Ew El. exfalso. inversion Hd as [|m' l1 l2 E1 E2]. rewrite E2 in El.
      by destruct l1.
  - apply srvp_setA; [apply H|done].
  - intros x. rewrite (proj1 Hb). apply H.
  - rewrite (proj2 Hb). apply H.
  - intros Ew x. destruct (decide (x = sd)) as [->|Hx]; [|rewrite Hwx by done; by apply H].
    destruct Hc as [[_ Hc]|[Hu _]].
    + apply ctl_eq in Hc as (_ & -> & _). rewrite <- (iv_wait _ _ H Ew sd). by destruct sd.
    + pose proof (iv_users _ _ H) as Hu0. rewrite Ew in Hu0. by destruct sd.
Qed.
Lemma arrive_entered c A sd m s' :
  Inv c A → msg_ok norm m →
  let A0 := setA sd ((A sd) <| a_held := m :: (A sd).(a_held) |>) A in
  entered sd m (with_q sd (q_take m (qof sd c.(c_s))) c.(c_s)) A0 s' →
  Inv (c <| c_s := s' |> <| c_in := c.(c_in) ++ [(sd, m.(s_id))] |> <| c_w := Putting sd m.(s_id) |>) A0.
Proof.
  intros H Hm A0 (Hr & Hl & Hu & Hc & Hn). subst A0. rewrite setA_eq in Hn.
  assert (Ew : c.(c_w) = Idle).
  { assert (Hu' : users (c_s c) = 0) by (by destruct sd). rewrite (iv_users _ _ H) in Hu'.
    by destruct (c_w c). }
  assert (Hfin : ∀ x, of_side x s'.(fates).*1 = finished x c).
  { intros x. unfold finished. by rewrite Hl, fates_with. }
  assert (Hh : ∀ x, hand x c.(c_w) = []) by (intros x; by rewrite Ew).
  assert (Hhd : (A sd).(a_held) = []).
  { pose proof (so_hand _ _ _ _ _ _ (iv_side _ _ H sd)) as E. rewrite Hh in E. by apply fmap_nil_inv in E. }
  apply ctl_eq in Hc as (Hcu & Hcw & Hcb).
  split; upd.
  - done.
  - apply (each_side _ sd).
    + rewrite (arrived_step c _ sd (s_id m)), decide_True, setA_eq by done.
      unfold finished; upd. rewrite Hfin. cbn [hand]. rewrite decide_True by done.
      eapply side_entered; [rewrite <- (Hh sd); apply H|done|by apply Hn|done|by rewrite Hhd].
    + intros x Hx. rewrite (arrived_step c _ sd (s_id m)), decide_False, setA_ne by done.
      unfold finished; upd. rewrite Hfin. cbn [hand]. rewrite decide_False by done.
      rewrite <- (Hh x). apply H.
  - apply (each_side _ sd).
    + rewrite setA_eq. replace (wait sd s') with (wait sd (c_s c)) by (rewrite Hcw; by destruct sd).
      eapply live_weak; [apply H|by split|done|rewrite Ew; done|done|done|done].
    + intros x Hx. rewrite setA_ne by done.
      replace (wait x s') with (wait x (c_s c)) by (rewrite Hcw; by destruct sd, x).
      eapply live_weak; [apply H|by split|done|rewrite Ew; done|done|done|done].
  - apply srvp_setA; [apply H|by split].
  - intros x. rewrite Hcb. replace (busy x _) with (busy x (c_s c)) by (by destruct sd, x).
    rewrite (iv_busy _ _ H), Ew. done.
  - done.
  - done.
Qed.
Lemma arrive_ok c A sd m : Inv c A → can (Arrive sd m) c → steps_ok (Arrive sd m) c.
Proof.
  intros H (Hv & Hf & Hk & Hi). assert (Hm : msg_ok norm m).
  { split; [done|]. rewrite Hk. apply Z.eqb_eq. }
  pose proof (take_rep _ _ _ _ H Hv Hi) as Hr.
  destruct (put_enter_ok (A sd).(a_held) sd m _ _ Hr) as (k & s' & E & Hk').
  { by rewrite setA_eq. } { done. }
  { replace (users _) with (users (c_s c)) by (by destruct sd). rewrite (iv_users _ _ H).
    destruct (idle _); tauto. }
  unfold steps_ok. cbn [exec]. rewrite E. cbn [mbind option_bind]. destruct k as [locked|].
  - destruct Hk' as [_ Hk']. eexists _, _. split; [done|]. by apply arrive_entered.
  - destruct (arrive_queued c A sd m s' H Hm Hk') as [A' HA]. by eexists _, A'.
Qed.

(** *** A message is handled *)

Definition handing (front : bool) (sd : side) (mp : Z) (w w' : work) : Prop :=
  if front then w = Handling sd mp ∧ (w' = Serving sd ∨ w' = Leaving sd true)
  else w = Putting sd mp ∧ w' = Leaving sd false.
Lemma held_one c A sd mp :
  Inv c A → hand sd c.(c_w) = [mp] → ∃ m, (A sd).(a_held) = [m] ∧ m.(s_id) = mp ∧ msg_ok norm m.
Proof.
  intros H E. destruct (iv_side _ _ H sd) as [H1 H2 _ _]. rewrite E in H1.
  apply list.Forall_app in H2 as [_ H2].
  destruct (a_held (A sd)) as [|m [|]]; try discriminate. injection H1 as <-. exists m.
  split; [done|]. split; [done|]. by apply list.Forall_singleton.
Qed.
Lemma held_none c A sd : Inv c A → hand sd c.(c_w) = [] → (A sd).(a_held) = [].
Proof. intros H E. destruct (iv_side _ _ H sd) as [H1 _ _ _]. rewrite E in H1. by apply fmap_nil_inv in H1. Qed.
Lemma handled_inv front c A sd m s' a' o w' calm' stl' :
  Inv c A → (A sd).(a_held) = [m] → Rep s' (setA sd a' A) → ctl s' = ctl c.(c_s) →
  fates s' = fates c.(c_s) ++ fated sd m.(s_id) o → disposed [] front m (A sd) a' o →
  handing front sd m.(s_id) c.(c_w) w' →
  (∀ x, x ≠ sd → calm' x = c.(c_calm) x ∧ stl' x = c.(c_stall) x) →
  (calm' sd = true → c.(c_calm) sd = true ∧ (front = false → o = None → (A sd).(a_list) = [])) →
  live w' sd (wait sd c.(c_s)) (stl' sd) a' →
  Inv (Cfg s' w' c.(c_in) calm' stl') (setA sd a' A).
Proof.
  intros H Hh Hr Hc Hf Hd Hw Hx Hcalm Hlv. apply ctl_eq in Hc as (Hcu & Hcw & Hcb).
  assert (Hn : ∀ x, hand x w' = [] ∧ in_service x w' = in_service x c.(c_w) ∧ idle c.(c_w) = false ∧
                 idle w' = false).
  { intros x. destruct front; destruct Hw as [-> Hw]; [destruct Hw as [-> | ->]|subst]; done. }
  assert (Hnx : ∀ x, x ≠ sd → hand x c.(c_w) = [] ∧ serving x c.(c_w) = false ∧ w' ≠ Leaving x true).
  { intros x Hne. assert (sd ≠ x) by done. destruct front; destruct Hw as [-> Hw];
      [destruct Hw as [-> | ->]|subst]; cbn; rewrite decide_False by done;
      rewrite ?bool_decide_false by done; (do 2 (split; [done|])); congruence. }
  assert (Hnd : hand sd c.(c_w) = [m.(s_id)]).
  { destruct front; destruct Hw as [-> Hw]; cbn; by rewrite decide_True. }
  assert (Hfin : ∀ x, finished x (Cfg s' w' c.(c_in) calm' stl') =
            if decide (x = sd) then finished x c ++ (fated sd m.(s_id) o).*1.*2 else finished x c).
  { intros x. unfold finished. cbn [c_s]. rewrite Hf, fmap_app, of_side_app.
    destruct o as [f|]; cbn [fated fmap list_fmap fst snd].
    - rewrite of_side_one. case_decide as E; [subst; by rewrite decide_True|].
      rewrite app_nil_r. by rewrite decide_False.
    - change (of_side x []) with (@nil Z). rewrite !app_nil_r. by case_decide. }
  split; cbn [c_s c_w c_in c_calm c_stall].
  - done.
  - apply (each_side _ sd).
    + rewrite Hfin, setA_eq, (proj1 (Hn sd)), decide_True by done.
      eapply side_handled; [rewrite <- Hnd; apply H|done|done|apply Hcalm|].
      intros E1 E2 E3. by apply (proj2 (Hcalm E3)).
    + intros x Hne. rewrite Hfin, setA_ne, (proj1 (Hn x)), decide_False by done.
      rewrite (proj1 (Hx x Hne)), <- (proj1 (Hnx x Hne)). apply H.
  - apply (each_side _ sd); [by rewrite setA_eq, Hcw|].
    intros x Hne. rewrite setA_ne, Hcw, (proj2 (Hx x Hne)) by done.
    destruct (Hnx x Hne) as (_ & Hs & Hl).
    eapply live_weak; [apply H|by split|done|by rewrite Hs|done|done|done].
  - apply srvp_setA; [apply H|by eapply disposed_weak].
  - intros x. rewrite Hcb, (iv_busy _ _ H). by destruct (Hn x) as (_ & -> & _).
  - rewrite Hcu, (iv_users _ _ H). by destruct (Hn sd) as (_ & _ & -> & ->).
  - intros ->. by destruct (Hn sd) as (_ & _ & _ & ?).
Qed.
Lemma kept_nonempty held front m a a' : disposed held front m a a' None → a'.(a_list) ≠ [].
Proof. inversion 1 as [|m' l1 l2 E1 E2]. rewrite E2. by destruct l1. Qed.
Lemma process_ok c A sd mp : Inv c A → c.(c_w) = Putting sd mp → steps_ok Process c.
Proof.
  intros H Ew. destruct (held_one c A sd mp H) as (m & Hh & <- & Hm).
  { rewrite Ew. cbn. by rewrite decide_True. }
  destruct (put_handle_ok next [] sd (proc sd) m c.(c_s) A (iv_rep _ _ H) Hh (Hproc sd) (proj1 Hm))
    as (kept & s' & a' & o & E & Hr & Hc & Hf & Hd & Hk).
  unfold steps_ok. cbn [exec]. rewrite Ew, E. cbn [mbind option_bind].
  rewrite (q_head_ok _ _ (iv_rep _ _ H sd)).
  destruct (iv_live _ _ H sd) as [H1 _]. rewrite Ew in H1. cbn in H1.
  eexists _, (setA sd a' A). split; [done|]. subst kept. destruct o as [f|].
  - apply (handled_inv false c A sd m s' a' (Some f) (Leaving sd false) c.(c_calm) c.(c_stall));
      [done..|by rewrite Ew|done|done|].
    split; [|done]. rewrite (disposed_over _ _ _ _ _ _ Hd). intros Hl.
    destruct (disposed_weak _ _ _ _ _ _ Hd). cbn. specialize (H1 Hl). naive_solver.
  - apply (handled_inv false c A sd m s' a' None (Leaving sd false)
      (upd_side sd (c_calm c sd && bool_decide (list.head (ids (a_list (A sd))) = None)) (c_calm c))
      (upd_side sd true (c_stall c))); try done.
    + intros x Hx. by rewrite !upd_side_ne.
    + rewrite upd_side_eq. intros [? Hb]%andb_true_iff. split; [done|]. intros _ _.
      apply bool_decide_eq_true in Hb. by destruct (a_list (A sd)).
    + rewrite upd_side_eq. split; [|done]. tauto.
Qed.
Lemma handle_ok c A sd mp : Inv c A → c.(c_w) = Handling sd mp → steps_ok Handle c.
Proof.
  intros H Ew. destruct (held_one c A sd mp H) as (m & Hh & <- & Hm).
  { rewrite Ew. cbn. by rewrite decide_True. }
  destruct (srv_handle_ok next [] sd (proc sd) m c.(c_s) A (iv_rep _ _ H) Hh (Hproc sd) (proj1 Hm))
    as (go & s' & a' & o & E & Hr & Hc & Hf & Hd & [Hk _]).
  unfold steps_ok. cbn [exec]. rewrite Ew, E. cbn [mbind option_bind].
  eexists _, (setA sd a' A). split; [done|]. destruct go.
  - apply (handled_inv true c A sd m s' a' o (Serving sd) c.(c_calm) c.(c_stall)); try done.
    + rewrite Ew. split; [done|by left].
    + split; [|done]. intros _. cbn. rewrite bool_decide_true by done. tauto.
  - apply (handled_inv true c A sd m s' a' o (Leaving sd true) c.(c_calm)
      (upd_side sd true (c_stall c))); try done.
    + rewrite Ew. split; [done|by right].
    + intros x Hx. by rewrite upd_side_ne.
    + rewrite upd_side_eq. split; [tauto|]. intros _ El. rewrite Hk in Hd by done.
      by destruct (kept_nonempty _ _ _ _ _ Hd).
Qed.

(** *** Service begins and ends *)

(** A step that moves no message. *)
Lemma same_inv c A s' w' stl' A' :
  Inv c A → Rep s' A' → fates s' = fates c.(c_s) →
  (∀ x, (A' x).(a_list) = (A x).(a_list) ∧ (A' x).(a_held) = (A x).(a_held) ∧ (A' x).(a_srvp) = true ∧
     hand x w' = hand x c.(c_w) ∧ live w' x (wait x s') (stl' x) (A' x) ∧ busy x s' = in_service x w') →
  users s' = (if idle w' then 0 else 1) → (w' = Idle → ∀ x, wait x s' = false) →
  Inv (Cfg s' w' c.(c_in) c.(c_calm) stl') A'.
Proof.
  intros H Hr Hf Hx Hu Hi. split; cbn [c_s c_w c_in c_calm c_stall]; try done; intros x;
    destruct (Hx x) as (E1 & E2 & E3 & E4 & E5 & E6); [|done..].
  rewrite E4. unfold finished. cbn [c_s]. rewrite Hf. destruct (iv_side _ _ H x).
  split; by rewrite ?E1, ?E2.
Qed.
Lemma enab_off a : a.(a_enab) = false → a <| a_enab := false |> = a.
Proof. destruct a. cbn. by intros ->. Qed.
Lemma busy_with x sd q (s : str) : busy x (with_q sd q s) = busy x s.
Proof. by destruct x, sd. Qed.
Lemma schedule_ok c A sd : Inv c A → busy sd c.(c_s) = false → steps_ok (Schedule sd) c.
Proof.
  intros H Hb. unfold steps_ok. cbn [exec]. rewrite Hb. unfold srv_begin.
  destruct (q_run_ok _ _ (iv_rep _ _ H sd)) as [E Hq].
  destruct (q_run (qof sd (c_s c))) as [enabled q]. cbn [fst snd] in *. subst enabled.
  set (a' := (A sd) <| a_enab := false |>) in *.
  assert (Hr : Rep (with_q sd q (c_s c)) (setA sd a' A)) by (apply Rep_with; [apply H|done]).
  destruct (a_enab (A sd)) eqn:Ee.
  2: { eexists _, A. split; [done|].
       apply (same_inv c A _ c.(c_w) c.(c_stall) A H); cbn [c_s].
       - eapply Rep_ext; [done|]. apply (each_side _ sd); [by rewrite setA_eq; apply enab_off|].
         intros x Hx. by rewrite setA_ne.
       - apply fates_with.
       - intros x. do 2 (split; [done|]). split; [apply H|]. split; [done|].
         rewrite wait_with, busy_with. split; apply H.
       - rewrite <- (iv_users _ _ H). by destruct sd.
       - intros Ew x. rewrite wait_with. by apply H. }
  set (s1 := set_busy sd true (with_q sd q (c_s c))).
  assert (Hu : users s1 = users (c_s c)) by (by destruct sd).
  rewrite (trylock_ok sd s1); [|rewrite Hu, (iv_users _ _ H); destruct (idle _); tauto].
  rewrite Hu, (iv_users _ _ H).
  assert (Hlx : ∀ x, x ≠ sd → (setA sd a' A x) = A x) by (intros; by apply setA_ne).
  assert (Hw1 : ∀ x, wait x s1 = wait x (c_s c)) by (by intros []; destruct sd).
  destruct (idle (c_w c)) eqn:Ei; cbn [Z.eqb]; (eexists _, (setA sd a' A); split; [done|]).
  - assert (Ew : c_w c = Idle) by (by destruct (c_w c)).
    apply (same_inv c A (s1 <| users := 1 |>) (Serving sd) (upd_side sd false (c_stall c)) _ H);
      [by destruct sd; eapply Rep_same|by rewrite <- (fates_with sd q); destruct sd| |done|done].
    apply (each_side _ sd).
    + rewrite setA_eq. do 2 (split; [done|]). split; [apply H|]. rewrite Ew. split; [done|].
      split; [|cbn; rewrite bool_decide_true by done; by destruct sd].
      split; [|done]. cbn. rewrite bool_decide_true by done. tauto.
    + intros x Hx. rewrite (Hlx x Hx). do 2 (split; [done|]). split; [apply H|]. rewrite Ew. split; [done|].
      split.
      * rewrite upd_side_ne by done. replace (wait x _) with (wait x (c_s c)) by (by destruct x, sd).
        eapply live_weak; [apply H|apply weak_refl|done|by rewrite Ew|done|by rewrite Ew|done].
      * pose proof (iv_busy _ _ H x) as Hbx. rewrite Ew in Hbx. cbn.
        rewrite bool_decide_false by done. by destruct x, sd.
  - apply (same_inv c A (set_busy sd false (set_wait sd true s1)) (c_w c) (c_stall c) _ H);
      [by destruct sd; eapply Rep_same|by rewrite <- (fates_with sd q); destruct sd| | |].
    + apply (each_side _ sd).
      * rewrite setA_eq. do 2 (split; [done|]). split; [apply H|]. split; [done|].
        replace (wait sd _) with true by (by destruct sd).
        split; [split; [tauto|apply H]|]. rewrite <- (iv_busy _ _ H), Hb. by destruct sd.
      * intros x Hx. rewrite (Hlx x Hx). do 2 (split; [done|]). split; [apply H|]. split; [done|].
        replace (wait x _) with (wait x (c_s c)) by (by destruct x, sd).
        split; [apply H|]. rewrite <- (iv_busy _ _ H). by destruct x, sd.
    + transitivity (users (c_s c)); [by destruct sd|]. by rewrite (iv_users _ _ H).
    + intros Ew. by rewrite Ew in Ei.
Qed.

Lemma take_ok c A sd : Inv c A → c.(c_w) = Serving sd → steps_ok Take c.
Proof.
  intros H Ew. destruct (getq_must_ok _ _ (iv_rep _ _ H sd)) as (q & a' & E & Hq & F1 & F2 & F3 & F4).
  unfold steps_ok. cbn [exec]. rewrite Ew. unfold srv_take. rewrite E. cbn [mbind option_bind].
  pose proof (iv_side _ _ H sd) as Hs. rewrite Ew in Hs.
  assert (Hr : Rep (with_q sd q (c_s c)) (setA sd a' A)) by (apply Rep_with; [apply H|done]).
  assert (Hu : users (with_q sd q (c_s c)) = 1).
  { transitivity (users (c_s c)); [by destruct sd|]. by rewrite (iv_users _ _ H), Ew. }
  assert (Hx : ∀ x w', x ≠ sd → serving x w' = false → w' ≠ Leaving x true →
            live w' x (wait x (c_s c)) (c_stall c x) (A x)).
  { intros x w' Hne Hsv Hl. eapply live_weak; [apply H|apply weak_refl|done| |done|done|done].
    rewrite Ew. cbn. by rewrite bool_decide_false. }
  eexists _, (setA sd a' A). split; [done|].
  destruct (a_list (A sd)) as [|m l] eqn:El; cbn [ids fmap list_fmap list.head].
  - destruct F4 as (F4 & F5 & F6).
    apply (same_inv c A (with_q sd q (c_s c)) (Leaving sd true) c.(c_stall) _ H);
      [done|apply fates_with| |done|done].
    apply (each_side _ sd).
    + rewrite setA_eq, El, F4. do 2 (split; [done|]). split; [rewrite F1; apply H|].
      rewrite Ew. split; [done|]. rewrite wait_with. split; [by split|].
      rewrite busy_with, (iv_busy _ _ H), Ew. done.
    + intros x Hne. rewrite setA_ne by done. do 2 (split; [done|]). split; [apply H|].
      rewrite Ew. split; [done|]. rewrite wait_with. split; [apply Hx; [done|done|congruence]|].
      rewrite busy_with, (iv_busy _ _ H), Ew. done.
  - destruct F4 as (F4 & F5).
    change (Inv (Cfg (with_q sd q (c_s c)) (Handling sd (s_id m)) c.(c_in) c.(c_calm) c.(c_stall))
                (setA sd a' A)).
    split; cbn [c_s c_w c_in c_calm c_stall].
    + done.
    + unfold finished. cbn [c_s]. rewrite fates_with. apply (each_side _ sd).
      * rewrite setA_eq. cbn [hand]. rewrite decide_True by done. by eapply side_taken.
      * intros x Hne. rewrite setA_ne by done. cbn [hand]. rewrite decide_False by done.
        pose proof (iv_side _ _ H x) as Hsx. by rewrite Ew in Hsx.
    + apply (each_side _ sd).
      * rewrite setA_eq. split; [|done]. intros _. right. right. left. cbn. by rewrite bool_decide_true.
      * intros x Hne. rewrite setA_ne, wait_with by done.
        apply Hx; [done|cbn; by rewrite bool_decide_false|done].
    + apply (each_side _ sd); [rewrite setA_eq, F1; apply H|]. intros x Hne. rewrite setA_ne by done. apply H.
    + intros x. rewrite busy_with, (iv_busy _ _ H), Ew. done.
    + done.
    + done.
Qed.
Lemma leave_ok c A sd srv : Inv c A → c.(c_w) = Leaving sd srv → steps_ok Leave c.
Proof.
  intros H Ew. unfold steps_ok. cbn [exec]. rewrite Ew. unfold leave.
  set (s0 := procwake wakeup sd (c_s c)).
  assert (H0 : iq s0 = iq (c_s c) ∧ oq s0 = oq (c_s c) ∧ ctl s0 = ctl (c_s c) ∧ fates s0 = fates (c_s c)).
  { subst s0. unfold procwake. by destruct (wakeup sd). }
  destruct H0 as (E1 & E2 & E3 & E4).
  destruct (unlock_ok srvp Hsrvp s0 A) as (s' & A' & E & Hr & Hc & Hf & Ha);
    [by eapply Rep_same; [apply H|..]|apply H|].
  rewrite E. cbn [mbind option_bind].
  set (s2 := if srv then set_busy sd false s' else s').
  assert (F : users s2 = 0 ∧ (∀ x, wait x s2 = false) ∧ fates s2 = fates (c_s c) ∧ Rep s2 A' ∧
            ∀ x, busy x s2 = false).
  { apply ctl_eq in E3 as (_ & _ & E3). unfold ctl in Hc. injection Hc as C1 C2 C3 C4 C5.
    assert (Hbs : ∀ x, busy x s' = in_service x (Leaving sd srv)).
    { intros x. rewrite <- Ew, <- (iv_busy _ _ H), <- E3. by destruct x. }
    subst s2. destruct srv.
    - split; [by destruct sd|]. split; [by intros []; destruct sd|].
      split; [rewrite <- E4, <- Hf; by destruct sd|]. split; [destruct sd; by eapply Rep_same|].
      apply (each_side _ sd); [by destruct sd|]. intros x Hx. specialize (Hbs x). cbn in Hbs.
      rewrite bool_decide_false in Hbs by done. by destruct x, sd.
    - split; [done|]. split; [by intros []|]. split; [congruence|]. by split. }
  destruct F as (F1 & F2 & F3 & F4 & F5).
  eexists _, A'. split; [done|].
  apply (same_inv c A s2 Idle c.(c_stall) A' H); [done|done| |done|done].
  intros x. destruct (Ha x) as (G1 & G2 & G3 & G4).
  do 2 (split; [done|]). split; [rewrite (fl_srvp _ _ G3); apply H|]. rewrite Ew. split; [done|].
  split; [|done]. rewrite F2. split; [|done]. rewrite G1. intros Hl.
  destruct (lv_live _ _ _ _ _ (iv_live _ _ H x) Hl) as [?|[?|[Hs|[Hw|?]]]].
  - left. by apply (fl_enab _ _ G3).
  - right. left. by rewrite (fl_noenb _ _ G3).
  - by rewrite Ew in Hs.
  - left. apply G4. apply ctl_eq in E3 as (_ & E3 & _). by rewrite E3.
  - tauto.
Qed.
Lemma enable_ok c A sd : Inv c A → steps_ok (Enable sd) c.
Proof.
  intros H. unfold steps_ok. cbn [exec]. set (a' := enable true (A sd)).
  assert (Hr : Rep (with_q sd (q_qenable (qof sd (c_s c))) (c_s c)) (setA sd a' A)).
  { apply Rep_with; [apply H|]. apply q_qenable_ok, H. }
  eexists _, (setA sd a' A). split; [done|].
  apply (same_inv c A _ c.(c_w) c.(c_stall) _ H); [done|apply fates_with| | |].
  - apply (each_side _ sd).
    + rewrite setA_eq. subst a'. rewrite enable_list, enable_held. do 2 (split; [done|]).
      split; [rewrite (fl_srvp _ _ (flags_enable true (A sd))); apply H|]. split; [done|].
      rewrite wait_with, busy_with. split; [|apply H].
      eapply live_weak; [apply H|apply flags_weak, flags_enable|by rewrite enable_list|done|done|done|].
      by rewrite enable_list.
    + intros x Hx. rewrite setA_ne by done. do 2 (split; [done|]). split; [apply H|]. split; [done|].
      rewrite wait_with, busy_with. split; apply H.
  - rewrite <- (iv_users _ _ H). by destruct sd.
  - intros Ew x. rewrite wait_with. by apply H.
Qed.

(** Every step that can be taken succeeds and keeps the invariant. *)
Lemma inv_step e c A : Inv c A → can e c → steps_ok e c.
Proof.
  intros H. destruct e as [sd m| |sd| | | |sd]; cbn [can]; intros Hc.
  - by eapply arrive_ok.
  - destruct Hc as (sd & mp & Ew). by eapply process_ok.
  - by eapply schedule_ok.
  - destruct Hc as (sd & Ew). by eapply take_ok.
  - destruct Hc as (sd & mp & Ew). by eapply handle_ok.
  - destruct Hc as (sd & srv & Ew). by eapply leave_ok.
  - by eapply enable_ok.
Qed.

(** ** Reachable states *)

Inductive reach (c0 : cfg) : cfg → Prop :=
  | reach_start : reach c0 c0
  | reach_step c e c' : reach c0 c → can e c → exec e c = Some c' → reach c0 c'.
Definition quiet (q : Q) : Prop :=
  ∃ a, rep q a ∧ a.(a_list) = [] ∧ a.(a_held) = [] ∧ a.(a_srvp) = true.
(** An open queue pair: the answers of flow control and the private structure are any. *)
Definition opened (qi qo : Q) (answers : list bool) (st : St) : cfg :=
  Cfg (Str qi qo 0 false false false false answers st []) Idle [] (fun _ => true) (fun _ => false).

Lemma opened_inv qi qo answers st : quiet qi → quiet qo → ∃ A, Inv (opened qi qo answers st) A.
Proof.
  intros (ai & Hi & Li & Ki & Si) (ao & Ho & Lo & Ko & So).
  exists (fun sd => match sd with IQ => ai | OQ => ao end).
  split; try done; [by intros []|..|by intros []|by intros []|by intros _ []]; intros sd.
  - split; destruct sd; cbn; rewrite ?Li, ?Lo, ?Ki, ?Ko; done.
  - split; [|done]. destruct sd; by rewrite ?Li, ?Lo.
Qed.
Lemma reach_inv c0 c : reach c0 c → (∃ A, Inv c0 A) → ∃ A, Inv c A.
Proof.
  induction 1 as [|c e c' Hr IH Hc E]; intros H0; [done|]. destruct (IH H0) as [A HA].
  destruct (inv_step e c A HA Hc) as (c'' & A' & E' & H'). rewrite E in E'. injection E' as <-. by exists A'.
Qed.
Lemma reach_opened qi qo answers st c :
  quiet qi → quiet qo → reach (opened qi qo answers st) c → ∃ A, Inv c A.
Proof. intros Hi Ho Hr. eapply reach_inv; [done|by apply opened_inv]. Qed.



End reach.
