(* ===== verification/Os7Run.v ===== *)
(** * The queue procedures as they run

    The put and service procedures of [Os7Queue] as runs of the machine of
    [Os7Order]; the service procedure ends; concrete runs, on the linked queues,
    of the theorems of [Os7Order], and a run in which a refused message loses its
    place. *)
From S2P Require Import Prelude Xp StrQueue StrSpec StrRefine StrSys StrFlow StrPort Os7Queue Os7Laws Os7Order.
From stdpp Require Import gmap sorting.
#[local] Open Scope Z_scope.
#[local] Open Scope os7_scope.

Section runs.
Context {Q : Type} `{!Queue_ops Q, !Queue_laws Q} {St : Type}.
Notation str := (str Q St).
Notation cfg := (cfg Q St).
Context (proc : side → smsg → St → outcome St) (wakeup : side → option (St → St)).
Context (srvp next : side → bool) (norm : Z → bool).
Context (Hproc : ∀ sd, well_behaved (proc sd)) (Hsrvp : ∀ sd, srvp sd = true).
Notation exec := (exec proc wakeup srvp next).
Notation run := (run proc wakeup srvp next).
Notation reach := (reach proc wakeup srvp next norm).
Notation can := (can norm).
Notation Inv := (Inv norm).

Lemma events_app l k c : run (l ++ k) c = c ← run l c; run k c.
Proof.
  revert c. induction l as [|e l IH]; intros c; [done|]. cbn [run app].
  destruct (exec e c) as [c'|]; cbn [mbind option_bind]; [apply IH|done].
Qed.

(** ** The procedures are runs of the machine *)

Lemma wake_none sd (s : str) l s' : wake_waiter srvp sd s = Some (l, s') → l = [].
Proof.
  unfold wake_waiter. destruct (wait sd s); [|by intros [= <- _]].
  destruct (q_call _ _) as [[[r| |] q]|]; cbn [mbind option_bind]; [|done..].
  rewrite Hsrvp. by destruct (negb _); intros [= <- _].
Qed.
Lemma leave_none sd (s : str) l s' : leave wakeup srvp sd s = Some (l, s') → l = [].
Proof.
  unfold leave, ss7_unlockq. destruct (wake_waiter _ IQ _) as [[i s1]|] eqn:E1; [|done].
  cbn [mbind option_bind]. destruct (wake_waiter _ OQ _) as [[o s2]|] eqn:E2; [|done].
  cbn [mbind option_bind]. apply wake_none in E1 as ->. apply wake_none in E2 as ->. by intros [= <- _].
Qed.
Lemma exec_handle c sd mp go s :
  c.(c_w) = Handling sd mp → srv_handle next sd (proc sd) mp c.(c_s) = Some (go, s) →
  exec Handle c = Some (if go : bool then c <| c_s := s |> <| c_w := Serving sd |>
    else c <| c_s := s |> <| c_w := Leaving sd true |> <| c_stall := upd_side sd true c.(c_stall) |>).
Proof. intros Ew E. cbn. by rewrite Ew, E. Qed.
Lemma loop_run fuel sd s s' c :
  srv_loop next fuel sd (proc sd) s = Some s' → c.(c_s) = s → c.(c_w) = Serving sd →
  ∃ l c', run l c = Some c' ∧ c'.(c_s) = s' ∧ c'.(c_w) = Leaving sd true.
Proof.
  revert s c. induction fuel as [|fuel IH]; [done|]. intros s c E <- Ew. cbn [srv_loop] in E.
  unfold srv_turn in E. destruct (srv_take sd (c_s c)) as [[[mp|] s1]|] eqn:Et;
    cbn [mbind option_bind] in E; [| |done].
  - destruct (srv_handle next sd (proc sd) mp s1) as [[go s2]|] eqn:Eh; cbn [mbind option_bind] in E; [|done].
    set (c1 := c <| c_s := s1 |> <| c_w := Handling sd mp |>).
    assert (E1 : run [Take] c = Some c1) by (cbn; by rewrite Ew, Et).
    pose proof (exec_handle c1 sd mp go s2 eq_refl Eh) as Ex. destruct go.
    + destruct (IH s2 (c1 <| c_s := s2 |> <| c_w := Serving sd |>) E) as (l & c' & E' & H); [done..|].
      exists ([Take] ++ Handle :: l), c'. split; [|exact H]. rewrite events_app, E1.
      cbn [mbind option_bind Os7Order.run]. rewrite Ex. exact E'.
    + injection E as <-. exists ([Take] ++ [Handle]). eexists. split.
      * rewrite events_app, E1. cbn [mbind option_bind Os7Order.run]. by rewrite Ex.
      * done.
  - injection E as <-. exists [Take]. eexists. split; [cbn; by rewrite Ew, Et|done].
Qed.

Definition prims (sd : side) : option (smsg → St → outcome St) := Some (proc sd).
Notation do_put := (Os7Queue.ss7_put prims wakeup srvp next).
Notation do_srvp := (Os7Queue.srvp_fast prims wakeup srvp next).

Lemma direct_nil fuel (s : str) : direct prims wakeup srvp next fuel [] s = Some s.
Proof. by destruct fuel. Qed.
Lemma srvp_run fuel sd c s' :
  busy sd c.(c_s) = false → users c.(c_s) = (if idle c.(c_w) then 0 else 1) →
  do_srvp fuel sd c.(c_s) = Some s' → ∃ l c', run (Schedule sd :: l) c = Some c' ∧ c'.(c_s) = s'.
Proof.
  intros Hb Hu E. unfold Os7Queue.srvp_fast in E.
  destruct (srv_begin sd (c_s c)) as [enabled s1] eqn:Eb. destruct enabled.
  2: { injection E as <-. exists []. eexists. split; [cbn; by rewrite Hb, Eb|done]. }
  cbn [Os7Queue.ss7_srv prims] in E. unfold ss7_srv, prims, ss7_srvq in E.
  destruct (ss7_trylockq sd s1) as [lk s2] eqn:El. destruct lk.
  2: { cbn [mbind option_bind] in E. rewrite direct_nil in E. injection E as <-. exists [].
       eexists. split; [cbn; by rewrite Hb, Eb, El|done]. }
  destruct (srv_loop next fuel sd (proc sd) s2) as [s3|] eqn:Eo; cbn [mbind option_bind] in E; [|done].
  destruct (leave wakeup srvp sd s3) as [[l s4]|] eqn:Ev; cbn [mbind option_bind] in E; [|done].
  pose proof (leave_none _ _ _ _ Ev) as ->. rewrite direct_nil in E. injection E as <-.
  set (c1 := c <| c_s := s2 |> <| c_w := Serving sd |> <| c_stall := upd_side sd false c.(c_stall) |>).
  destruct (loop_run fuel sd s2 s3 c1 Eo) as (l & c2 & E2 & Es & Ew); [done..|].
  exists (l ++ [Leave]). eexists. split.
  - change (Schedule sd :: l ++ [Leave]) with ([Schedule sd] ++ (l ++ [Leave])).
    rewrite events_app. replace (run [Schedule sd] c) with (Some c1) by (cbn; by rewrite Hb, Eb, El).
    cbn [mbind option_bind]. rewrite events_app, E2. cbn [mbind option_bind run]. cbn [Os7Order.exec].
    rewrite Ew, Es, Ev. done.
  - done.
Qed.
Lemma exec_process c sd mp kept s :
  c.(c_w) = Putting sd mp → put_handle next sd (proc sd) mp c.(c_s) = Some (kept, s) →
  ∃ c', exec Process c = Some c' ∧ c'.(c_s) = s ∧ c'.(c_w) = Leaving sd false.
Proof. intros Ew E. cbn. rewrite Ew, E. by destruct kept; eexists. Qed.
Lemma exec_leave c sd srv s :
  c.(c_w) = Leaving sd srv → leave wakeup srvp sd c.(c_s) = Some ([], s) →
  ∃ c', exec Leave c = Some c' ∧ c'.(c_s) = if srv : bool then set_busy sd false s else s.
Proof. intros Ew E. cbn. rewrite Ew, E. by eexists. Qed.
Lemma put_run fuel c A sd m r s' :
  Inv c A → can (Arrive sd m) c →
  do_put fuel sd m.(s_id) (with_q sd (q_take m (qof sd c.(c_s))) c.(c_s)) = Some (r, s') →
  r = 0 ∧ ∃ l c', run (Arrive sd m :: l) c = Some c' ∧ c'.(c_s) = s'.
Proof.
  intros H (Hv & Hf & _ & Hi) E. pose proof (take_rep norm _ _ _ _ H Hv Hi) as Hr.
  unfold Os7Queue.ss7_put, prims, ss7_putq in E.
  set (s0 := with_q sd (q_take m (qof sd (c_s c))) (c_s c)) in *.
  destruct (put_enter_ok (A sd).(a_held) sd m _ _ Hr) as (k & s1 & Ee & Hk).
  { by rewrite setA_eq. } { done. }
  { replace (users s0) with (users (c_s c)) by (by destruct sd). rewrite (iv_users _ _ _ H).
    destruct (idle _); tauto. }
  rewrite Ee in E. cbn [mbind option_bind] in E. destruct k as [lk|].
  2: { cbn [mbind option_bind] in E. rewrite direct_nil in E. injection E as <- <-. split; [done|].
       exists []. eexists. split; [cbn [Os7Order.run Os7Order.exec]; by fold s0; rewrite Ee|done]. }
  destruct Hk as [-> _].
  destruct (put_handle next sd (proc sd) (s_id m) s1) as [[kept s2]|] eqn:Eh; [|done].
  cbn [mbind option_bind] in E. destruct (leave wakeup srvp sd s2) as [[l s3]|] eqn:El; [|done].
  cbn [mbind option_bind] in E. pose proof (leave_none _ _ _ _ El) as ->.
  rewrite direct_nil in E. injection E as <- <-. split; [done|].
  set (c1 := c <| c_s := s1 |> <| c_in := c.(c_in) ++ [(sd, m.(s_id))] |> <| c_w := Putting sd m.(s_id) |>).
  assert (E1 : exec (Arrive sd m) c = Some c1).
  { cbn [Os7Order.exec]. fold s0. by rewrite Ee. }
  destruct (exec_process c1 sd m.(s_id) kept s2) as (c2 & E2 & <- & Ew); [done..|].
  destruct (exec_leave c2 sd false s3) as (c3 & E3 & Es); [done..|].
  exists [Process; Leave], c3. split; [|done]. cbn [Os7Order.run].
  rewrite E1. cbn [mbind option_bind]. rewrite E2. cbn [mbind option_bind]. by rewrite E3.
Qed.


(** ** The service procedure ends *)

Lemma loop_ends l A s sd :
  Rep s A → (A sd).(a_list) = l → (A sd).(a_held) = [] → Forall not_flush l →
  (∀ m st, ¬ again (proc sd m st).(o_rtn)) →
  ∃ s' a', srv_loop next (S (length l)) sd (proc sd) s = Some s' ∧ Rep s' (setA sd a' A) ∧
    ctl s' = ctl s ∧ a'.(a_srvp) = (A sd).(a_srvp).
Proof.
  intros H El Eh Hf Hn. revert A s H El Eh Hf. induction l as [|m l IH]; intros A s H El Eh Hf.
  all: destruct (getq_must_ok _ _ (H sd)) as (q & a1 & E & Hq & F1 & F2 & F3 & F4); rewrite El in *.
  all: cbn [length srv_loop]; unfold srv_turn, srv_take; rewrite E; cbn [mbind option_bind ids fmap list_fmap list.head].
  - exists (with_q sd q s), a1. split; [done|]. split; [by apply Rep_with|]. split; [apply ctl_with|done].
  - destruct F4 as [F4 F5]. rewrite Eh in F5. apply list.Forall_cons in Hf as [Hm Hf].
    assert (Hr : Rep (with_q sd q s) (setA sd a1 A)) by (by apply Rep_with).
    destruct (srv_handle_ok next [] sd (proc sd) m _ _ Hr) as (go & s2 & a2 & o & E2 & H2 & C2 & _ & D2 & P1 & P2);
      [by rewrite setA_eq|done..|].
    rewrite E2. cbn [mbind option_bind]. rewrite setA_eq in D2. rewrite ctl_with in C2.
    assert (W : a2.(a_srvp) = (A sd).(a_srvp)) by (destruct (disposed_weak _ _ _ _ _ _ D2); congruence).
    assert (H2' : Rep s2 (setA sd a2 A)) by (eapply Rep_ext; [done|]; intros x; apply setA_setA).
    destruct go; [|by exists s2, a2].
    destruct o as [f|]; [|by destruct (Hn m (priv (with_q sd q s))); apply P2].
    inversion D2 as [f' L2 K2 _|]; subst f'.
    destruct (IH (setA sd a2 A) s2 H2') as (s' & a' & E' & H' & C' & W'); [by rewrite setA_eq, L2|by rewrite setA_eq|done|].
    exists s', a'. split; [exact E'|]. split; [eapply Rep_ext; [done|]; intros x; apply setA_setA|].
    rewrite setA_eq in W'. split; congruence.
Qed.
(** C13: The service procedure ends: when nobody holds the lock, one more turn than
    there are messages on the queue is enough, unless the driver's procedure has the
    message put back and service go on ([QR_RETRY], [QR_STRIP]); it leaves the lock
    free and has nothing to call directly. *)
Theorem service_ends qi qo answers st c sd :
  quiet qi → quiet qo → reach (opened qi qo answers st) c → c.(c_w) = Idle →
  (∀ m st, ¬ again (proc sd m st).(o_rtn)) →
  ∃ a, rep (qof sd c.(c_s)) a ∧
    ∃ s', ss7_srvq wakeup srvp next (S (length a.(a_list))) sd (proc sd) c.(c_s) = Some ([], s') ∧
      users s' = 0.
Proof.
  intros Hi Ho Hr Ew Hn. destruct (reach_opened _ _ _ _ norm Hproc Hsrvp _ _ _ _ _ Hi Ho Hr) as [A H].
  exists (A sd). split; [apply H|]. pose proof (iv_users _ _ _ H) as Hu. rewrite Ew in Hu. cbn in Hu.
  unfold ss7_srvq. rewrite (trylock_ok sd (c_s c)) by (by left). rewrite Hu. cbn [Z.eqb].
  pose proof (iv_side _ _ _ H sd) as [_ Hm _ _]. apply list.Forall_app in Hm as [Hm _].
  destruct (loop_ends (a_list (A sd)) A ((c_s c) <| users := 1 |>) sd) as (s1 & a1 & E & H1 & _ & W);
    [eapply Rep_same; [apply H|done..]|done|apply (held_none norm c); [done|by rewrite Ew]
    |by eapply list.Forall_impl; [exact Hm|by intros x [? _]]|done|].
  rewrite E. cbn [mbind option_bind]. unfold leave.
  destruct (unlock_ok srvp Hsrvp (procwake wakeup sd s1) (setA sd a1 A)) as (s2 & A2 & E2 & _ & C2 & _).
  - unfold procwake. destruct (wakeup sd); [by eapply Rep_same|done].
  - apply (each_side _ sd); [rewrite setA_eq, W; apply H|]. intros x Hx. rewrite setA_ne by done. apply H.
  - exists s2. split; [done|]. unfold ctl in C2. by injection C2.
Qed.
End runs.

(** ** Concrete runs, on the linked queues *)

(** A procedure that leaves messages as they are and gives the answers in store,
    then [QR_DONE]. *)
Definition answering (m : smsg) (answers : list Z) : outcome (list Z) :=
  Outcome (default QR_DONE (list.head answers)) m.(s_band) m.(s_datap) m.(s_cont) None [] (list.tail answers).
Lemma answering_ok : well_behaved answering.
Proof.
  split; [|done|done]. intros m st Hv. split; [|done]. cbn. unfold u8. by apply Z.mod_small.
Qed.
Definition asked (_ : side) : smsg → list Z → outcome (list Z) := answering.
(** One that is done with every message. *)
Definition finishing (_ : side) (m : smsg) (st : list Z) : outcome (list Z) :=
  Outcome QR_DONE m.(s_band) m.(s_datap) m.(s_cont) None [] st.
Lemma finishing_ok sd : well_behaved (finishing sd).
Proof.
  split; [|done|done]. intros m st Hv. split; [|done]. cbn. unfold u8. by apply Z.mod_small.
Qed.
Definition yes (_ : side) : bool := true.
Definition no_wakeup (_ : side) : option (list Z → list Z) := None.
Definition all_normal (_ : Z) : bool := true.

Lemma start_quiet hiwat lowat : quiet (start hiwat lowat [] []).
Proof. exists (spec_start hiwat lowat [] []). split; [by apply start_ok; [apply NoDup_nil|]|done]. Qed.
(** Runs in which each step can be taken. *)
Section able.
Context (proc : side → smsg → list Z → outcome (list Z)).
Notation exec := (exec proc no_wakeup yes yes).
Notation reach := (reach proc no_wakeup yes yes all_normal).
Definition canb (e : event) (c : cfg pair (list Z)) : bool :=
  match e with
  | Arrive sd m => bool_decide (valid m) && negb (m.(s_datap).(db_type) =? M_FLUSH) && (key m =? 0) &&
                   bool_decide (m.(s_id) ∉ arrived sd c)
  | Process => match c.(c_w) with Putting _ _ => true | _ => false end
  | Schedule sd => negb (busy sd c.(c_s))
  | Take => match c.(c_w) with Serving _ => true | _ => false end
  | Handle => match c.(c_w) with Handling _ _ => true | _ => false end
  | Leave => match c.(c_w) with Leaving _ _ => true | _ => false end
  | Enable _ => true
  end.
Fixpoint able (l : list event) (c : cfg pair (list Z)) : option (cfg pair (list Z)) :=
  match l with
  | [] => Some c
  | e :: l => if canb e c then c ← exec e c; able l c else None
  end.
Lemma canb_ok e c : canb e c = true → can all_normal e c.
Proof.
  destruct e as [sd m| |sd| | | |sd]; cbn [canb can].
  - intros [[[H1 H2]%andb_true_iff H3]%andb_true_iff H4]%andb_true_iff.
    apply bool_decide_eq_true in H1, H4. apply negb_true_iff, Z.eqb_neq in H2.
    do 2 (split; [done|]). by rewrite H3.
  - destruct (c_w c); [done|by eauto|done..].
  - by intros ?%negb_true_iff.
  - destruct (c_w c); [done..|by eauto|done|done].
  - destruct (c_w c); [done..|by eauto|done].
  - destruct (c_w c); [done..|by eauto].
  - done.
Qed.
Lemma able_reach l c0 c c' :
  reach c0 c → able l c = Some c' →
  reach c0 c'.
Proof.
  revert c. induction l as [|e l IH]; intros c Hr E; [by injection E as <-|].
  cbn [able] in E. destruct (canb e c) eqn:Hc; [|done].
  destruct (exec e c) as [c1|] eqn:E1; [|done].
  apply (IH c1); [|done]. eapply reach_step; [done|by apply canb_ok|done].
Qed.
Definition after (l : list event) (c0 : cfg pair (list Z)) : cfg pair (list Z) := default c0 (able l c0).
Lemma after_reach l c0 : reach c0 (after l c0).
Proof.
  unfold after. destruct (able l c0) as [c|] eqn:E; [|apply reach_start].
  by eapply able_reach; [apply reach_start|].
Qed.
End able.
Definition pm (i : Z) : smsg := Smsg i 0 (Blk M_PROTO 0 8) [].
Definition two_queues (answers : list Z) : cfg pair (list Z) :=
  opened (start 50 20 [] []) (start 50 20 [] []) [] answers.
Definition refused : cfg pair (list Z) := two_queues [- EBUSY].
Definition answered : cfg pair (list Z) := two_queues [QR_DONE; - EAGAIN].

(** A message arrives while the first is put, and a third while the second is
    handled by the service procedure, which is refused and goes back in front. *)
Definition orderly : list event :=
  [Arrive IQ (pm 1); Arrive IQ (pm 2); Process; Leave; Schedule IQ; Take; Arrive IQ (pm 3); Handle; Leave].
Lemma service_ends_witness :
  let c := after finishing [Arrive IQ (pm 1); Arrive IQ (pm 2); Process; Leave] answered in
  ∃ a, rep (qof IQ c.(c_s)) a ∧
    ∃ s', ss7_srvq no_wakeup yes yes (S (length a.(a_list))) IQ (finishing IQ) c.(c_s) = Some ([], s') ∧
      users s' = 0.
Proof.
  intros c. apply (service_ends finishing no_wakeup yes yes all_normal finishing_ok
    (fun _ => eq_refl) _ _ _ _ c IQ (start_quiet 50 20) (start_quiet 50 20) (after_reach finishing _ answered));
    [by vm_compute|]. intros m st [H|H]; vm_compute in H; done.
Defined.

(** The comment of [ss7_putq] says that queueing behind the messages of the queue and
    while it is serviced keeps the order of normal messages.  A message whose put
    procedure is refused goes behind the ones that arrived meanwhile. *)
Definition refused_put : list event :=
  [Arrive IQ (pm 1); Arrive IQ (pm 2); Process; Leave; Schedule IQ; Take; Handle; Take; Handle; Take; Leave].
Lemma refused_put_reorders :
  let c := after asked refused_put refused in
  arrived IQ c = [1; 2] ∧ finished IQ c = [2; 1] ∧ c.(c_calm) IQ = false.
Proof. by vm_compute. Qed.
