(* ===== verification/SdlConfig.v ===== *)
(** * Configuration of a channel, its span and its card

    The state the input-output controls work on - channels, the spans and cards they
    are attached to, the lock of a channel - and the test and the commit of a
    configuration ([drivers/sl_x100p.c]: [sdt_test_config], [sdt_commit_config],
    [sdl_test_config], [sdl_commit_config]). *)
From S2P Require Import Prelude Bufq Xp Prims Timers Lsc Requests Lmi.
From stdpp Require Import gmap.
#[local] Open Scope Z_scope.
#[local] Open Scope os7_scope.

Definition SDL_TYPE_NONE : Z := 0.
Definition SDL_MODE_NONE : Z := 0.
Definition SDL_MODE_ECHO : Z := 8.
Definition SDL_MODE_REM_LB : Z := 9.
Definition SDL_MODE_LOC_LB : Z := 10.
Definition SDL_MODE_LB_ECHO : Z := 11.
Definition SDL_MODE_TEST : Z := 12.
Definition SDL_GMODE_NONE : Z := 0.
Definition SDL_GMODE_LOC_LB : Z := 1.
Definition SDL_GTYPE_NONE : Z := 0.
Definition SDL_GCRC_NONE : Z := 0.
Definition SDL_GCRC_CRC4 : Z := 1.
Definition SDL_GCRC_CRC5 : Z := 2.
Definition SDL_GCRC_CRC6 : Z := 3.
Definition SDL_CLOCK_NONE : Z := 0.
Definition SDL_CLOCK_INT : Z := 1.
Definition SDL_CLOCK_EXT : Z := 2.
Definition SDL_CLOCK_LOOP : Z := 3.
Definition SDL_CLOCK_MASTER : Z := 4.
Definition SDL_CLOCK_SLAVE : Z := 5.
Definition SDL_CODING_NONE : Z := 0.
Definition SDL_CODING_AMI : Z := 3.
Definition SDL_CODING_B8ZS : Z := 5.
Definition SDL_CODING_HDB3 : Z := 6.
Definition SDL_FRAMING_NONE : Z := 0.
Definition SDL_FRAMING_CCS : Z := 1.
Definition SDL_FRAMING_CAS : Z := 2.
Definition SDL_FRAMING_SF : Z := 3.
Definition SDL_FRAMING_ESF : Z := 4.
Definition SDL_SYNCS : nat := 4.

(** ** State *)

(** [lmi_sta_t]; the statistics with the counters the rest of the driver does not
    touch: for [sl_stats_t] the twelve of duration and volume and the four durations
    of congestion, for [sdt_stats_t] the three of the carrier. *)
Record lmi_sta := LmiSta { object_id : Z; colperiod : Z; timestamp : Z }.
Record sl_stats_t := SlStatsT {
  sl_header : lmi_sta; sl_volumes : list Z; sl_dur_cong : list Z; sl_counts : sl_stats }.
Record sdt_stats_f := SdtStatsF {
  sdt_header : lmi_sta; sdt_counts : sdt_stats_t; sdt_carrier : list Z }.
Record sdl_stats_f := SdlStatsF { sdl_header : lmi_sta; sdl_counts : sdl_stats_t }.
(** [sdl_config_t] with its sources of synchronization; the name is not used. *)
Record sdl_config_t := SdlConfigT { c_conf : sdl_config; c_sync : list Z }.
#[export] Instance eta_sdl_config_t : Eta sdl_config_t := fun r => SdlConfigT r.(c_conf) r.(c_sync).
#[export] Instance set_c_conf : Setter c_conf := ltac:(mk_setter).
#[export] Instance set_c_sync : Setter c_sync := ltac:(mk_setter).

(** A channel with the members of [struct xp] that only input-output controls use:
    [k_state] is the [state] of [HEAD_DECLARATION], [k_sync] [sdl.config.ifsyncsrc],
    [k_slstats], [k_sdtstats], [k_sdlstats] the statistics of [struct xp] but for the
    counters [xp] already has. *)
Record channel := Channel {
  k_xp : xp; k_lock : bool; k_state : Z; k_sync : list Z;
  k_slvol : lmi_sta * list Z * list Z; k_sdtcar : lmi_sta * list Z; k_sdlhdr : lmi_sta;
  k_slstatsp : sl_stats_t; k_sdtstatsp : sdt_stats_f; k_sdlstatsp : sdl_stats_f;
  k_sdtnotify : Z; k_sdlnotify : Z }.
#[export] Instance eta_channel : Eta channel := fun r =>
  Channel r.(k_xp) r.(k_lock) r.(k_state) r.(k_sync) r.(k_slvol) r.(k_sdtcar) r.(k_sdlhdr)
    r.(k_slstatsp) r.(k_sdtstatsp) r.(k_sdlstatsp) r.(k_sdtnotify) r.(k_sdlnotify).
#[export] Instance set_k_xp : Setter k_xp := ltac:(mk_setter).
#[export] Instance set_k_lock : Setter k_lock := ltac:(mk_setter).
#[export] Instance set_k_state : Setter k_state := ltac:(mk_setter).
#[export] Instance set_k_sync : Setter k_sync := ltac:(mk_setter).
#[export] Instance set_k_slvol : Setter k_slvol := ltac:(mk_setter).
#[export] Instance set_k_sdtcar : Setter k_sdtcar := ltac:(mk_setter).
#[export] Instance set_k_sdlhdr : Setter k_sdlhdr := ltac:(mk_setter).
#[export] Instance set_k_slstatsp : Setter k_slstatsp := ltac:(mk_setter).
#[export] Instance set_k_sdtstatsp : Setter k_sdtstatsp := ltac:(mk_setter).
#[export] Instance set_k_sdlstatsp : Setter k_sdlstatsp := ltac:(mk_setter).
#[export] Instance set_k_sdtnotify : Setter k_sdtnotify := ltac:(mk_setter).
#[export] Instance set_k_sdlnotify : Setter k_sdlnotify := ltac:(mk_setter).

(** A card: [d_regs] what was written to the registers of the framer. *)
Record device := Device { d_card : card; d_sync : list Z; d_eval : bool; d_regs : list (Z * Z) }.
#[export] Instance eta_device : Eta device := fun r => Device r.(d_card) r.(d_sync) r.(d_eval) r.(d_regs).
#[export] Instance set_d_card : Setter d_card := ltac:(mk_setter).
#[export] Instance set_d_sync : Setter d_sync := ltac:(mk_setter).
#[export] Instance set_d_eval : Setter d_eval := ltac:(mk_setter).
#[export] Instance set_d_regs : Setter d_regs := ltac:(mk_setter).
(** All channels, by minor, and all cards, by number. *)
Record world := World { w_chans : gmap Z channel; w_devs : gmap Z device }.
#[export] Instance eta_world : Eta world := fun r => World r.(w_chans) r.(w_devs).
#[export] Instance set_w_chans : Setter w_chans := ltac:(mk_setter).
#[export] Instance set_w_devs : Setter w_devs := ltac:(mk_setter).

(** ** Computations *)

(** What ends the kernel: a lock taken twice, a bad pointer, an access beyond the
    data of a message. *)
Inductive crash := Deadlock | BadPointer | Overrun.
Definition M (A : Type) : Type := world → crash + A * world.
#[export] Instance M_ret : MRet M := fun A x w => inr (x, w).
#[export] Instance M_bind : MBind M := fun A B f m w =>
  match m w with inl c => inl c | inr (x, w) => f x w end.
Definition die {A} (c : crash) : M A := fun _ => inl c.
Definition the_world : M world := fun w => inr (w, w).
Definition chan_of (i : Z) : M channel := fun w =>
  match w.(w_chans) !! i with Some c => inr (c, w) | None => inl BadPointer end.
Definition on_chan (i : Z) (f : channel → channel) : M () := fun w =>
  inr ((), w <| w_chans := alter f i w.(w_chans) |>).
Definition on_dev (n : Z) (f : device → device) : M () := fun w =>
  inr ((), w <| w_devs := alter f n w.(w_devs) |>).
(** [spin_lock_irqsave(&xp->lock, flags)] and the critical section. *)
Definition locked {A} (i : Z) (m : M A) : M A :=
  c ← chan_of i;
  if c.(k_lock) then die Deadlock
  else
    _ ← on_chan i (fun c => c <| k_lock := true |>);
    r ← m;
    _ ← on_chan i (fun c => c <| k_lock := false |>);
    mret r.
(** [xp->sp], with the number of its card. *)
Definition span_of (c : channel) : M (option (Z * device * span)) := fun w =>
  match c.(k_xp).(xp_sp) with
  | None => inr (None, w)
  | Some n =>
      match w.(w_devs) !! n with
      | Some d => match d.(d_card).(cd_span0) with
                  | Some sp => inr (Some (n, d, sp), w)
                  | None => inl BadPointer
                  end
      | None => inl BadPointer
      end
  end.
Definition on_span (n : Z) (f : span → span) : M () :=
  on_dev n (fun d => d <| d_card; cd_span0 := f <$> d.(d_card).(cd_span0) |>).

(** ** Test and commit of the SDT configuration *)

Definition or_else (x d : Z) : Z := if x =? 0 then d else x.
Definition sdt_fill (own a : sdt_config) : sdt_config :=
  SdtConfig (or_else a.(cf_t8) own.(cf_t8)) (or_else a.(Tin) own.(Tin)) (or_else a.(Tie) own.(Tie))
    (or_else a.(cf_T) own.(cf_T)) (or_else a.(cf_D) own.(cf_D)) (or_else a.(Te) own.(Te))
    (or_else a.(De) own.(De)) (or_else a.(Ue) own.(Ue)) (or_else a.(cf_N) own.(cf_N))
    (or_else a.(cf_m) own.(cf_m)) (or_else a.(cf_b) own.(cf_b)) a.(cf_f).
(** The result and the argument as it is left. *)
Definition sdt_test_config (i : Z) (a : sdt_config) : M (Z * sdt_config) :=
  locked i (
    c ← chan_of i;
    let own := c.(k_xp).(sdt_conf) in
    mret (if negb (a.(cf_b) =? 0) && negb (a.(cf_b) =? own.(cf_b)) then - EINVAL else 0,
          sdt_fill own a)).
Definition sdt_commit_config (i : Z) (a : sdt_config) : M (Z * sdt_config) :=
  locked i (
    '(_, a) ← sdt_test_config i a;
    _ ← on_chan i (fun c => c <| k_xp; sdt_conf := a |>);
    mret (0, a)).

(** ** Test of the SDL configuration *)

Section test.
(** The configurations of the channel and of its span, and what is to be tested. *)
Context (own : sdl_config) (sp : option sdl_config).
Notation a_set f v a := (a <| c_conf; f := v |>).
Definition among (x : Z) (l : list Z) : bool := existsb (Z.eqb x) l.
Definition unless (b : bool) (a : sdl_config_t) : Z * sdl_config_t := (if b then 0 else - EINVAL, a).
Definition test_iftype (a : sdl_config_t) : option (Z * sdl_config_t) :=
  let t := a.(c_conf).(iftype) in
  if t =? SDL_TYPE_NONE then Some (0, a_set iftype own.(iftype) a)
  else if among t [SDL_TYPE_DS0; SDL_TYPE_DS0A] then Some (0, a)
  else if t =? SDL_TYPE_E1 then sp ← sp; Some (unless (sp.(ifgtype) =? SDL_GTYPE_E1) a)
  else if t =? SDL_TYPE_T1 then sp ← sp; Some (unless (sp.(ifgtype) =? SDL_GTYPE_T1) a)
  else Some (- EINVAL, a).
Definition test_ifmode (a : sdl_config_t) : Z * sdl_config_t :=
  let m := a.(c_conf).(ifmode) in
  if m =? SDL_MODE_NONE then (0, a_set ifmode own.(ifmode) a)
  else unless (among m [SDL_MODE_PEER; SDL_MODE_ECHO; SDL_MODE_REM_LB; SDL_MODE_LOC_LB;
                        SDL_MODE_LB_ECHO; SDL_MODE_TEST]) a.
Definition test_ifgmode (a : sdl_config_t) : Z * sdl_config_t :=
  unless (among a.(c_conf).(ifgmode) [SDL_GMODE_NONE; SDL_GMODE_LOC_LB]) a.

Definition test_ifgtype (sp : sdl_config) (a : sdl_config_t) : Z * sdl_config_t :=
  let g := a.(c_conf).(ifgtype) in
  if g =? SDL_GTYPE_NONE then (0, a_set ifgtype sp.(ifgtype) a)
  else unless (among g [SDL_GTYPE_T1; SDL_GTYPE_E1] && (g =? sp.(ifgtype))) a.
Definition test_ifgcrc (a : sdl_config_t) : Z * sdl_config_t :=
  let g := a.(c_conf).(ifgtype) in
  let c := a.(c_conf).(ifgcrc) in
  if c =? SDL_GCRC_NONE
  then
    if g =? SDL_GTYPE_E1 then (0, a_set ifgcrc SDL_GCRC_CRC5 a)
    else if g =? SDL_GTYPE_T1 then (0, a_set ifgcrc SDL_GCRC_CRC6 a)
    else (- EINVAL, a)
  else if among c [SDL_GCRC_CRC4; SDL_GCRC_CRC5] then unless (g =? SDL_GTYPE_E1) a
  else if c =? SDL_GCRC_CRC6 then unless (g =? SDL_GTYPE_T1) a
  else (- EINVAL, a).
Definition test_ifclock (sp : sdl_config) (a : sdl_config_t) : Z * sdl_config_t :=
  let c := a.(c_conf).(ifclock) in
  if c =? SDL_CLOCK_NONE then (0, a_set ifclock sp.(ifclock) a)
  else if among c [SDL_CLOCK_INT; SDL_CLOCK_MASTER] then (0, a_set ifclock SDL_CLOCK_MASTER a)
  else if among c [SDL_CLOCK_EXT; SDL_CLOCK_SLAVE] then (0, a_set ifclock SDL_CLOCK_SLAVE a)
  else unless (c =? SDL_CLOCK_LOOP) a.
Definition test_ifcoding (sp : sdl_config) (a : sdl_config_t) : Z * sdl_config_t :=
  let g := a.(c_conf).(ifgtype) in
  let c := a.(c_conf).(ifcoding) in
  if c =? SDL_CODING_NONE then (0, a_set ifcoding sp.(ifcoding) a)
  else if c =? SDL_CODING_AMI then (0, a)
  else if c =? SDL_CODING_B8ZS then unless (g =? SDL_GTYPE_T1) a
  else if c =? SDL_CODING_HDB3 then unless (g =? SDL_GTYPE_E1) a
  else (- EINVAL, a).
Definition test_ifframing (sp : sdl_config) (a : sdl_config_t) : Z * sdl_config_t :=
  let g := a.(c_conf).(ifgtype) in
  let f := a.(c_conf).(ifframing) in
  if f =? SDL_FRAMING_NONE then (0, a_set ifframing sp.(ifframing) a)
  else if among f [SDL_FRAMING_CCS; SDL_FRAMING_CAS] then unless (g =? SDL_GTYPE_E1) a
  else if among f [SDL_FRAMING_SF; SDL_FRAMING_ESF] then unless (g =? SDL_GTYPE_T1) a
  else (- EINVAL, a).
Definition test_iftxlevel (sp : sdl_config) (a : sdl_config_t) : Z * sdl_config_t :=
  let l := a.(c_conf).(iftxlevel) in
  if l =? 0 then (0, a_set iftxlevel sp.(iftxlevel) a)
  else unless (among l [1; 2; 3; 4; 5]) a.
Definition test_ifsyncsrc (a : sdl_config_t) : Z * sdl_config_t :=
  unless (forallb (fun x => negb ((x <? 0) || (4 <? x))) (firstn SDL_SYNCS a.(c_sync))) a.
End test.
Notation "'test?' a := e 'in' k" :=
  (let '(r, a) := e in if negb (r =? 0) then (r, a) else k)
  (at level 200, a name, e at level 100, k at level 200) : os7_scope.

(** The card of a span is not missing in the model, so that the test of [xp->sp->cd]
    always succeeds. *)
Definition test_group (sp : sdl_config) (a : sdl_config_t) : Z * sdl_config_t :=
  test? a := test_ifgtype sp a in
  test? a := test_ifgcrc a in
  test? a := test_ifclock sp a in
  test? a := test_ifcoding sp a in
  test? a := test_ifframing sp a in
  test? a := test_iftxlevel sp a in
  test_ifsyncsrc a.
Definition sdl_test (own : sdl_config) (sp : option sdl_config) (a : sdl_config_t) :
    option (Z * sdl_config_t) :=
  if negb (a.(c_conf).(ifflags) =? 0) then Some (- EINVAL, a)
  else
    r ← test_iftype own sp a;
    Some (test? a := r in
          let '(r1, a) := test_ifmode own a in
          let '(r2, a) := test_ifgmode a in
          if negb (r1 =? 0) || negb (r2 =? 0) then (- EINVAL, a)
          else match sp with Some sp => test_group sp a | None => (- EFAULT, a) end).
Definition sdl_test_config (i : Z) (a : sdl_config_t) : M (Z * sdl_config_t) :=
  locked i (
    c ← chan_of i;
    sp ← span_of c;
    match sdl_test c.(k_xp).(sdl_conf) ((fun x : Z * device * span => x.2.(sp_conf)) <$> sp) a with
    | Some r => mret r
    | None => die BadPointer
    end).

(** ** Commit of the SDL configuration *)

Definition set_conf (f : sdl_config → sdl_config) (c : channel) : channel :=
  c <| k_xp; sdl_conf := f c.(k_xp).(sdl_conf) |>.
(** All channels that have a timeslot of the span. *)
Definition on_slots (sp : span) (f : channel → channel) : M () := fun w =>
  inr ((), w <| w_chans := foldl (fun m s => match s with Some i => alter f i m | None => m end)
                             w.(w_chans) sp.(sp_slots) |>).
(** The part of the channel: whether it is to be reconfigured. *)
Definition rate_of (t old : Z) : Z :=
  if t =? SDL_TYPE_DS0A then 56000 else if t =? SDL_TYPE_DS0 then 64000
  else if t =? SDL_TYPE_T1 then 1544000 else if t =? SDL_TYPE_E1 then 2048000 else old.
Definition commit_chan (i : Z) (a : sdl_config) : M bool :=
  c ← chan_of i;
  let own := c.(k_xp).(sdl_conf) in
  let ty := negb (own.(iftype) =? a.(iftype)) in
  let ra := negb (rate_of a.(iftype) own.(ifrate) =? a.(ifrate)) in
  let mo := negb (own.(ifmode) =? a.(ifmode)) in
  _ ← on_chan i (set_conf (fun f => ((f <| iftype := a.(iftype) |>) <| ifrate := a.(ifrate) |>)
                                      <| ifmode := a.(ifmode) |>));
  mret (ty || ra || mo).
(** A member that all channels of the span share. *)
Definition commit_shared (n : Z) (sp : span) (get : sdl_config → Z)
    (put : sdl_config → sdl_config) (v : Z) : M bool :=
  if get sp.(sp_conf) =? v then mret false
  else
    _ ← on_slots sp (set_conf put);
    _ ← on_span n (fun sp => sp <| sp_conf := put sp.(sp_conf) |>);
    mret true.
Definition commit_span (n : Z) (sp : span) (a : sdl_config) : M bool :=
  b1 ← commit_shared n sp ifgcrc (fun f => f <| ifgcrc := a.(ifgcrc) |>) a.(ifgcrc);
  b2 ← commit_shared n sp ifgmode (fun f => f <| ifgmode := a.(ifgmode) |>) a.(ifgmode);
  b3 ← commit_shared n sp ifclock (fun f => f <| ifclock := a.(ifclock) |>) a.(ifclock);
  b4 ← commit_shared n sp ifcoding (fun f => f <| ifcoding := a.(ifcoding) |>) a.(ifcoding);
  b5 ← commit_shared n sp ifframing (fun f => f <| ifframing := a.(ifframing) |>) a.(ifframing);
  b6 ← commit_shared n sp iftxlevel (fun f => f <| iftxlevel := a.(iftxlevel) |>) a.(iftxlevel);
  mret (b1 || b2 || b3 || b4 || b5 || b6).
(** The sources of synchronization of the card. *)
Fixpoint commit_sync (n : Z) (d : device) (sp : span) (srcs : list nat) (vs : list Z) : M bool :=
  match srcs with
  | [] => mret false
  | src :: srcs =>
      let v := nth src vs 0 in
      b ← (if nth src d.(d_sync) 0 =? v then mret false
           else
             _ ← on_slots sp (fun c => c <| k_sync := <[src := v]> c.(k_sync) |>);
             _ ← on_dev n (fun d => d <| d_sync := <[src := v]> d.(d_sync) |>);
             mret true);
      r ← commit_sync n d sp srcs vs;
      mret (b || r)
  end.
(** The timeslot of the channel. *)
Definition new_slot (gtype chan slot : Z) : Z :=
  if negb (chan =? 0)
  then
    if gtype =? SDL_GTYPE_E1 then slot_of xp_e1_tx_chan_map (chan - 1)
    else if gtype =? SDL_GTYPE_T1 then slot_of xp_t1_tx_chan_map (chan - 1)
    else slot
  else if (gtype =? SDL_GTYPE_E1) || (gtype =? SDL_GTYPE_T1) then 0 else slot.

(** [fr_outb_p]: the value is written as an octet. *)
Definition fr_outb_p (n reg val : Z) : M () :=
  on_dev n (fun d => d <| d_regs := d.(d_regs) ++ [(reg, u8 val)] |>).
Definition e1_tcr1 (framing : Z) : Z :=
  if framing =? SDL_FRAMING_CAS then Z.lor 0x09 0x20 else 0x09.
Definition e1_ccr1 (framing coding crc : Z) : Z :=
  let c := if framing =? SDL_FRAMING_CAS then 0 else 0x08 in
  let c := if coding =? SDL_CODING_HDB3 then Z.lor c 0x44 else c in
  if crc =? SDL_GCRC_CRC4 then Z.lor c 0x11 else c.
Definition t1_ccr1 (framing coding : Z) : Z :=
  let v := if framing =? SDL_FRAMING_ESF then 0x88 else 0x20 in
  if coding =? SDL_CODING_B8ZS then Z.lor v 0x44 else v.
(** The clear channel registers: [mask] goes on from octet to octet. *)
Fixpoint clear_loop (n : Z) (clear : Z → bool) (cs : list Z) (mask : Z) : M () :=
  match cs with
  | [] => mret ()
  | c :: cs =>
      let mask := if clear c then Z.land (Z.lor mask (Z.shiftl 1 (c mod 8))) (2 ^ 16 - 1) else mask in
      _ ← (if c mod 8 =? 7 then fr_outb_p n (0x39 + Z.shiftr c 3) mask else mret ());
      clear_loop n clear cs mask
  end.
Definition clear_chan (w : world) (sp : span) (c : Z) : bool :=
  match nth (Z.to_nat (slot_of xp_t1_tx_chan_map c)) sp.(sp_slots) None with
  | None => true
  | Some i =>
      match w.(w_chans) !! i with
      | Some k => negb (k.(k_xp).(sdl_conf).(iftype) =? SDL_TYPE_DS0A)
      | None => true
      end
  end.
Definition channels24 : list Z := seqZ 0 24.
Definition reconfigure_span (n gtype : Z) (sp : span) : M () :=
  let f := sp.(sp_conf) in
  if gtype =? SDL_GTYPE_E1
  then
    _ ← on_dev n (fun d => d <| d_eval := true |>);
    _ ← fr_outb_p n 0x12 (e1_tcr1 f.(ifframing));
    _ ← fr_outb_p n 0x14 (e1_ccr1 f.(ifframing) f.(ifcoding) f.(ifgcrc));
    fr_outb_p n 0x18 0x20
  else if gtype =? SDL_GTYPE_T1
  then
    _ ← on_dev n (fun d => d <| d_eval := true |>);
    _ ← fr_outb_p n 0x38 (t1_ccr1 f.(ifframing) f.(ifcoding));
    _ ← (if f.(ifcoding) =? SDL_CODING_B8ZS then mret () else fr_outb_p n 0x7e 0x1c);
    _ ← fr_outb_p n 0x7c (Z.shiftl f.(iftxlevel) 5);
    w ← the_world;
    clear_loop n (clear_chan w sp) channels24 0
  else mret ().

Definition sdl_commit_config (i : Z) (a : sdl_config_t) : M () :=
  locked i (
    chan_reconfig ← commit_chan i a.(c_conf);
    c ← chan_of i;
    sp ← span_of c;
    match sp with
    | None => mret ()
    | Some (n, d, sp) =>
        let cf := d.(d_card).(cd_conf) in
        span_reconfig ← commit_span n sp a.(c_conf);
        card_reconfig ← commit_sync n d sp (seq 0 SDL_SYNCS) a.(c_sync);
        _ ← (if chan_reconfig && bit_set c.(k_xp).(sdl_conf).(ifflags) SDL_IF_UP
             then on_chan i (fun c => c <| k_xp; slot := new_slot cf.(ifgtype) c.(k_xp).(chan) c.(k_xp).(slot) |>)
             else mret ());
        c ← chan_of i;
        new ← span_of c;
        _ ← (match new with
             | Some (_, _, sp) =>
                 if span_reconfig && bit_set sp.(sp_conf).(ifflags) SDL_IF_UP
                 then reconfigure_span n cf.(ifgtype) sp else mret ()
             | None => mret ()
             end);
        if card_reconfig && bit_set cf.(ifflags) SDL_IF_UP
        then on_dev n (fun d => d <| d_eval := true |>) else mret ()
    end).
