(* ===== verification/Ioctl.v ===== *)
(** * Input-output controls

    The commands of the SL, SDT and SDL interfaces ([include/ss7/sli_ioctl.h],
    [sdti_ioctl.h], [sdli_ioctl.h]), their handlers and [xp_w_ioctl]
    ([drivers/sl_x100p.c]).  A command carries its type, number and size as the
    kernel's [_IOC] encodes them; sizes are those of a kernel with pointers of eight
    octets. *)
From S2P Require Import Prelude Bufq Xp Prims Timers Lsc Requests Lmi SdlConfig.
From stdpp Require Import gmap.
#[local] Open Scope Z_scope.
#[local] Open Scope os7_scope.

(** ** Commands *)

(** The structures that commands carry, what they hold and their sizes. *)
Inductive ctype :=
  | T_none | T_option | T_sta | T_notify
  | T_sl_config | T_sl_statem | T_sl_stats
  | T_sdt_config | T_sdt_statem | T_sdt_stats
  | T_sdl_config | T_sdl_statem | T_sdl_stats.
Definition den (t : ctype) : Type :=
  match t with
  | T_none => unit | T_option => lmi_option | T_sta => lmi_sta | T_notify => Z
  | T_sl_config => sl_config | T_sl_statem => sl_statem_t | T_sl_stats => sl_stats_t
  | T_sdt_config => sdt_config | T_sdt_statem => sdt_statem_t | T_sdt_stats => sdt_stats_f
  | T_sdl_config => sdl_config_t | T_sdl_statem => sdl_statem_t | T_sdl_stats => sdl_stats_f
  end.
Definition sizeof (t : ctype) : Z :=
  match t with
  | T_none => 0 | T_option => 8 | T_sta => 12 | T_notify => 4
  | T_sl_config => 100 | T_sl_statem => 272 | T_sl_stats => 108
  | T_sdt_config => 48 | T_sdt_statem => 56 | T_sdt_stats => 116
  | T_sdl_config => 96 | T_sdl_statem => 8 | T_sdl_stats => 48
  end.

Definition SL_IOC_MAGIC : Z := 108.
Definition SDT_IOC_MAGIC : Z := 116.
Definition SDL_IOC_MAGIC : Z := 100.
Definition SID : Z := Z.shiftl 83 8.
Definition IOC (dir type nr size : Z) : Z :=
  Z.lor (Z.lor (Z.shiftl dir 30) (Z.shiftl type 8)) (Z.lor nr (Z.shiftl size 16)).
Definition IO (type nr : Z) : Z := IOC 0 type nr 0.
Definition IOW (type nr : Z) (t : ctype) : Z := IOC 1 type nr (sizeof t).
Definition IOR (type nr : Z) (t : ctype) : Z := IOC 2 type nr (sizeof t).
Definition IOWR (type nr : Z) (t : ctype) : Z := IOC 3 type nr (sizeof t).
Definition IOC_TYPE (cmd : Z) : Z := Z.land (Z.shiftr cmd 8) 0xff.
Definition IOC_SIZE (cmd : Z) : Z := Z.land (Z.shiftr cmd 16) 0x3fff.

Inductive command :=
  | SL_IOCGOPTIONS | SL_IOCSOPTIONS | SL_IOCGCONFIG | SL_IOCSCONFIG | SL_IOCTCONFIG | SL_IOCCCONFIG
  | SL_IOCGSTATEM | SL_IOCCMRESET | SL_IOCGSTATSP | SL_IOCSSTATSP | SL_IOCGSTATS | SL_IOCCSTATS
  | SL_IOCGNOTIFY | SL_IOCSNOTIFY | SL_IOCCNOTIFY
  | SDT_IOCGOPTIONS | SDT_IOCSOPTIONS | SDT_IOCGCONFIG | SDT_IOCSCONFIG | SDT_IOCTCONFIG | SDT_IOCCCONFIG
  | SDT_IOCGSTATEM | SDT_IOCCMRESET | SDT_IOCGSTATSP | SDT_IOCSSTATSP | SDT_IOCGSTATS | SDT_IOCCSTATS
  | SDT_IOCGNOTIFY | SDT_IOCSNOTIFY | SDT_IOCCNOTIFY | SDT_IOCCABORT
  | SDL_IOCGOPTIONS | SDL_IOCSOPTIONS | SDL_IOCGCONFIG | SDL_IOCSCONFIG | SDL_IOCTCONFIG | SDL_IOCCCONFIG
  | SDL_IOCGSTATEM | SDL_IOCCMRESET | SDL_IOCGSTATSP | SDL_IOCSSTATSP | SDL_IOCGSTATS | SDL_IOCCSTATS
  | SDL_IOCGNOTIFY | SDL_IOCSNOTIFY | SDL_IOCCNOTIFY | SDL_IOCCDISCTX | SDL_IOCCCONNTX.
#[export] Instance command_dec : EqDecision command.
Proof. solve_decision. Defined.
Definition commands : list command :=
  [SL_IOCGOPTIONS; SL_IOCSOPTIONS; SL_IOCGCONFIG; SL_IOCSCONFIG; SL_IOCTCONFIG; SL_IOCCCONFIG;
   SL_IOCGSTATEM; SL_IOCCMRESET; SL_IOCGSTATSP; SL_IOCSSTATSP; SL_IOCGSTATS; SL_IOCCSTATS;
   SL_IOCGNOTIFY; SL_IOCSNOTIFY; SL_IOCCNOTIFY;
   SDT_IOCGOPTIONS; SDT_IOCSOPTIONS; SDT_IOCGCONFIG; SDT_IOCSCONFIG; SDT_IOCTCONFIG; SDT_IOCCCONFIG;
   SDT_IOCGSTATEM; SDT_IOCCMRESET; SDT_IOCGSTATSP; SDT_IOCSSTATSP; SDT_IOCGSTATS; SDT_IOCCSTATS;
   SDT_IOCGNOTIFY; SDT_IOCSNOTIFY; SDT_IOCCNOTIFY; SDT_IOCCABORT;
   SDL_IOCGOPTIONS; SDL_IOCSOPTIONS; SDL_IOCGCONFIG; SDL_IOCSCONFIG; SDL_IOCTCONFIG; SDL_IOCCCONFIG;
   SDL_IOCGSTATEM; SDL_IOCCMRESET; SDL_IOCGSTATSP; SDL_IOCSSTATSP; SDL_IOCGSTATS; SDL_IOCCSTATS;
   SDL_IOCGNOTIFY; SDL_IOCSNOTIFY; SDL_IOCCNOTIFY; SDL_IOCCDISCTX; SDL_IOCCCONNTX].
Definition ioc_code (c : command) : Z :=
  match c with
  | SL_IOCGOPTIONS => IOR SL_IOC_MAGIC 0 T_option | SL_IOCSOPTIONS => IOW SL_IOC_MAGIC 1 T_option
  | SL_IOCGCONFIG => IOWR SL_IOC_MAGIC 2 T_sl_config | SL_IOCSCONFIG => IOWR SL_IOC_MAGIC 3 T_sl_config
  | SL_IOCTCONFIG => IOWR SL_IOC_MAGIC 4 T_sl_config | SL_IOCCCONFIG => IOWR SL_IOC_MAGIC 5 T_sl_config
  | SL_IOCGSTATEM => IOR SL_IOC_MAGIC 6 T_sl_statem | SL_IOCCMRESET => IOR SL_IOC_MAGIC 7 T_sl_statem
  | SL_IOCGSTATSP => IOR SL_IOC_MAGIC 8 T_sta | SL_IOCSSTATSP => IOWR SL_IOC_MAGIC 9 T_sta
  | SL_IOCGSTATS => IOR SL_IOC_MAGIC 10 T_sl_stats | SL_IOCCSTATS => IOW SL_IOC_MAGIC 11 T_sl_stats
  | SL_IOCGNOTIFY => IOR SL_IOC_MAGIC 12 T_notify | SL_IOCSNOTIFY => IOW SL_IOC_MAGIC 13 T_notify
  | SL_IOCCNOTIFY => IOW SL_IOC_MAGIC 14 T_notify
  | SDT_IOCGOPTIONS => IOR SDT_IOC_MAGIC 0 T_option | SDT_IOCSOPTIONS => IOW SDT_IOC_MAGIC 1 T_option
  | SDT_IOCGCONFIG => IOWR SDT_IOC_MAGIC 2 T_sdt_config | SDT_IOCSCONFIG => IOWR SDT_IOC_MAGIC 3 T_sdt_config
  | SDT_IOCTCONFIG => IOWR SDT_IOC_MAGIC 4 T_sdt_config | SDT_IOCCCONFIG => IOWR SDT_IOC_MAGIC 5 T_sdt_config
  | SDT_IOCGSTATEM => IOR SDT_IOC_MAGIC 6 T_sdt_statem | SDT_IOCCMRESET => IOR SDT_IOC_MAGIC 7 T_sdt_statem
  | SDT_IOCGSTATSP => IOR SDT_IOC_MAGIC 8 T_sta | SDT_IOCSSTATSP => IOWR SDT_IOC_MAGIC 9 T_sta
  | SDT_IOCGSTATS => IOR SDT_IOC_MAGIC 10 T_sdt_stats | SDT_IOCCSTATS => IOW SDT_IOC_MAGIC 11 T_sdt_stats
  | SDT_IOCGNOTIFY => IOR SDT_IOC_MAGIC 12 T_notify | SDT_IOCSNOTIFY => IOW SDT_IOC_MAGIC 13 T_notify
  | SDT_IOCCNOTIFY => IOW SDT_IOC_MAGIC 14 T_notify | SDT_IOCCABORT => IO SDT_IOC_MAGIC 16
  | SDL_IOCGOPTIONS => IOR SDL_IOC_MAGIC 0 T_option | SDL_IOCSOPTIONS => IOW SDL_IOC_MAGIC 1 T_option
  | SDL_IOCGCONFIG => IOR SDL_IOC_MAGIC 2 T_sdl_config | SDL_IOCSCONFIG => IOWR SDL_IOC_MAGIC 3 T_sdl_config
  | SDL_IOCTCONFIG => IOWR SDL_IOC_MAGIC 4 T_sdl_config | SDL_IOCCCONFIG => IOR SDL_IOC_MAGIC 5 T_sdl_config
  | SDL_IOCGSTATEM => IOR SDL_IOC_MAGIC 6 T_sdl_statem | SDL_IOCCMRESET => IOR SDL_IOC_MAGIC 7 T_sdl_statem
  | SDL_IOCGSTATSP => IOR SDL_IOC_MAGIC 8 T_sdl_stats | SDL_IOCSSTATSP => IOWR SDL_IOC_MAGIC 9 T_sdl_stats
  | SDL_IOCGSTATS => IOR SDL_IOC_MAGIC 10 T_sdl_stats | SDL_IOCCSTATS => IOW SDL_IOC_MAGIC 11 T_sdl_stats
  | SDL_IOCGNOTIFY => IOR SDL_IOC_MAGIC 12 T_notify | SDL_IOCSNOTIFY => IOW SDL_IOC_MAGIC 13 T_notify
  | SDL_IOCCNOTIFY => IOW SDL_IOC_MAGIC 14 T_notify
  | SDL_IOCCDISCTX => IO SDL_IOC_MAGIC 16 | SDL_IOCCCONNTX => IO SDL_IOC_MAGIC 17
  end.

(** What the handler reads and writes of the data: not always the structure whose
    size the command encodes. *)
Definition use_type (c : command) : ctype :=
  match c with
  | SL_IOCGOPTIONS | SL_IOCSOPTIONS | SDT_IOCGOPTIONS | SDT_IOCSOPTIONS
  | SDL_IOCGOPTIONS | SDL_IOCSOPTIONS => T_option
  | SL_IOCGCONFIG | SL_IOCSCONFIG => T_sl_config
  | SL_IOCGSTATEM | SL_IOCCMRESET => T_sl_statem
  | SL_IOCGSTATSP | SL_IOCSSTATSP | SL_IOCGSTATS => T_sl_stats
  | SDT_IOCGCONFIG | SDT_IOCSCONFIG | SDT_IOCTCONFIG | SDT_IOCCCONFIG => T_sdt_config
  | SDT_IOCGSTATEM => T_sdt_statem
  | SDT_IOCGSTATSP | SDT_IOCSSTATSP | SDT_IOCGSTATS => T_sdt_stats
  | SDL_IOCGCONFIG | SDL_IOCSCONFIG | SDL_IOCTCONFIG | SDL_IOCCCONFIG => T_sdl_config
  | SDL_IOCGSTATEM => T_sdl_statem
  | SDL_IOCGSTATSP | SDL_IOCSSTATSP | SDL_IOCGSTATS => T_sdl_stats
  | SL_IOCGNOTIFY | SL_IOCSNOTIFY | SL_IOCCNOTIFY | SDT_IOCGNOTIFY | SDT_IOCSNOTIFY | SDT_IOCCNOTIFY
  | SDL_IOCGNOTIFY | SDL_IOCSNOTIFY | SDL_IOCCNOTIFY => T_notify
  | SL_IOCTCONFIG | SL_IOCCCONFIG | SL_IOCCSTATS | SDT_IOCCMRESET | SDT_IOCCSTATS | SDT_IOCCABORT
  | SDL_IOCCMRESET | SDL_IOCCSTATS | SDL_IOCCDISCTX | SDL_IOCCCONNTX => T_none
  end.

(** ** Handlers *)

(** The data of the message, [mp->b_cont]: the octets there are, and what they hold. *)
Record buf (t : ctype) := Buf { b_len : Z; b_val : den t }.
Arguments Buf t : clear implicits.
Arguments b_len {t}.
Arguments b_val {t}.
(** A handler of the channel [i] is given the data, if there are any, and returns the
    result and the data as it left them. *)
Definition handler (t : ctype) : Type := option (buf t) → M (Z * option (buf t)).
Definition access {t} (b : buf t) : M () := if b.(b_len) <? sizeof t then die Overrun else mret ().
Definition with_arg (t : ctype) (f : buf t → M (Z * buf t)) : handler t := fun mp =>
  match mp with
  | Some b => _ ← access b; '(r, b) ← f b; mret (r, Some b)
  | None => mret (- EINVAL, None)
  end.

Section handlers.
Context (i : Z).
(** [*arg = ...], and changes of the channel by the argument, under the lock. *)
Definition get_as (t : ctype) (f : channel → den t) : handler t :=
  with_arg t (fun b => v ← locked i (c ← chan_of i; mret (f c)); mret (0, Buf t b.(b_len) v)).
Definition set_as (t : ctype) (f : den t → channel → channel) : handler t :=
  with_arg t (fun b => _ ← locked i (on_chan i (f b.(b_val))); mret (0, b)).
(** Nothing of the data is used: there must be some. *)
Definition refuse : handler T_none := fun mp =>
  match mp with
  | Some b => r ← locked i (mret (- EOPNOTSUPP)); mret (r, Some b)
  | None => mret (- EINVAL, None)
  end.

Definition sl_iocgoptions : handler T_option := get_as T_option (fun c => c.(k_xp).(xoption)).
Definition sl_iocsoptions : handler T_option := set_as T_option (fun v c => c <| k_xp; xoption := v |>).
Definition sl_iocgconfig : handler T_sl_config := get_as T_sl_config (fun c => c.(k_xp).(sl_conf)).
Definition sl_iocsconfig : handler T_sl_config := set_as T_sl_config (fun v c => c <| k_xp; sl_conf := v |>).
Definition sl_ioctconfig : handler T_none := refuse.
Definition sl_ioccconfig : handler T_none := refuse.
Definition sl_iocgstatem : handler T_sl_statem := get_as T_sl_statem (fun c => c.(k_xp).(sl_statem)).
Definition sl_ioccmreset : handler T_sl_statem := set_as T_sl_statem (fun v c => c <| k_xp; sl_statem := v |>).
Definition sl_iocgstatsp : handler T_sl_stats := get_as T_sl_stats k_slstatsp.
Definition sl_iocsstatsp : handler T_sl_stats := set_as T_sl_stats (fun v c => c <| k_slstatsp := v |>).
Definition sl_iocgstats : handler T_sl_stats := get_as T_sl_stats (fun c =>
  let '(h, v, d) := c.(k_slvol) in SlStatsT h v d c.(k_xp).(sl_stat)).
Definition no_sta : lmi_sta := LmiSta 0 0 0.
Definition clear_sl_stats (c : channel) : channel :=
  (c <| k_xp; sl_stat := SlStats [0; 0; 0; 0] [0; 0; 0; 0] |>)
    <| k_slvol := (no_sta, replicate 12 0, [0; 0; 0; 0]) |>.
Definition sl_ioccstats : handler T_none := fun mp =>
  match mp with
  | Some b => _ ← locked i (on_chan i clear_sl_stats); mret (0, Some b)
  | None => mret (- EINVAL, None)
  end.
Definition sl_iocgnotify : handler T_notify := get_as T_notify (fun c => c.(k_xp).(sl_notify)).
Definition sl_iocsnotify : handler T_notify :=
  set_as T_notify (fun v c => c <| k_xp; sl_notify := Z.lor c.(k_xp).(sl_notify) v |>).
Definition sl_ioccnotify : handler T_notify :=
  set_as T_notify (fun v c => c <| k_xp; sl_notify := clear_flag c.(k_xp).(sl_notify) v |>).

Definition sdt_iocgoptions : handler T_option := get_as T_option (fun c => c.(k_xp).(xoption)).
Definition sdt_iocsoptions : handler T_option := set_as T_option (fun v c => c <| k_xp; xoption := v |>).
Definition sdt_iocgconfig : handler T_sdt_config := get_as T_sdt_config (fun c => c.(k_xp).(sdt_conf)).
Definition sdt_iocsconfig : handler T_sdt_config := set_as T_sdt_config (fun v c => c <| k_xp; sdt_conf := v |>).
Definition sdt_ioctconfig : handler T_sdt_config :=
  with_arg T_sdt_config (fun b => '(r, v) ← sdt_test_config i b.(b_val); mret (r, Buf T_sdt_config b.(b_len) v)).
Definition sdt_ioccconfig : handler T_sdt_config :=
  with_arg T_sdt_config (fun b => '(r, v) ← sdt_commit_config i b.(b_val); mret (r, Buf T_sdt_config b.(b_len) v)).
Definition sdt_iocgstatem : handler T_sdt_statem := get_as T_sdt_statem (fun c => c.(k_xp).(sdt_statem)).
Definition sdt_ioccmreset : handler T_none := fun mp => mret (- EOPNOTSUPP, mp).
Definition sdt_iocgstatsp : handler T_sdt_stats := get_as T_sdt_stats k_sdtstatsp.
Definition sdt_iocsstatsp : handler T_sdt_stats := set_as T_sdt_stats (fun v c => c <| k_sdtstatsp := v |>).
Definition sdt_iocgstats : handler T_sdt_stats := get_as T_sdt_stats (fun c =>
  SdtStatsF c.(k_sdtcar).1 c.(k_xp).(sdt_stats) c.(k_sdtcar).2).
Definition clear_sdt_stats (c : channel) : channel :=
  (c <| k_xp; sdt_stats := SdtStats 0 0 0 0 0 0 0 0 0 0 0 0 0 0 0 0 0 0 0 0 0 0 0 |>)
    <| k_sdtcar := (no_sta, [0; 0; 0]) |>.
(** A change of the channel, whatever the data. *)
Definition always (f : channel → channel) : handler T_none := fun mp =>
  _ ← locked i (on_chan i f); mret (0, mp).
Definition sdt_ioccstats : handler T_none := always clear_sdt_stats.
Definition sdt_iocgnotify : handler T_notify := get_as T_notify k_sdtnotify.
Definition sdt_iocsnotify : handler T_notify := set_as T_notify (fun v c => c <| k_sdtnotify := v |>).
Definition sdt_ioccnotify : handler T_notify :=
  set_as T_notify (fun v c => c <| k_sdtnotify := clear_flag c.(k_sdtnotify) v |>).
Definition sdt_abort (c : channel) : channel :=
  let t := c.(k_xp).(xp_tx) in
  (c <| k_xp; xp_tx; tx_residue := u32 (Z.lor t.(tx_residue) (Z.shiftl 0x7f t.(tx_rbits))) |>)
    <| k_xp; xp_tx; tx_rbits := u32 (t.(tx_rbits) + 7) |>.
Definition sdt_ioccabort : handler T_none := always sdt_abort.

Definition sdl_iocgoptions : handler T_option := get_as T_option (fun c => c.(k_xp).(xoption)).
Definition sdl_iocsoptions : handler T_option := set_as T_option (fun v c => c <| k_xp; xoption := v |>).
(** The argument is cleared; the members of the group are those of the span. *)
Definition sdl_gather (own : sdl_config) (g : option (sdl_config * (Z * list Z))) : sdl_config_t :=
  let z := SdlConfig own.(ifflags) own.(iftype) own.(ifrate) 0 0 own.(ifmode) 0 0 0 0 0
             own.(ifblksize) 0 0 0 0 0 0 in
  match g with
  | None => SdlConfigT z [0; 0; 0; 0]
  | Some (s, (sync, srcs)) =>
      SdlConfigT (SdlConfig own.(ifflags) own.(iftype) own.(ifrate) s.(ifgtype) s.(ifgrate) own.(ifmode)
                    s.(ifgmode) s.(ifgcrc) s.(ifclock) s.(ifcoding) s.(ifframing) own.(ifblksize) 0 0
                    s.(ifalarms) s.(ifrxlevel) s.(iftxlevel) sync) srcs
  end.
Definition sdl_iocgconfig : handler T_sdl_config :=
  with_arg T_sdl_config (fun b =>
    v ← locked i (
          c ← chan_of i;
          sp ← span_of c;
          mret (sdl_gather c.(k_xp).(sdl_conf)
                  ((fun x : Z * device * span =>
                      (x.2.(sp_conf), (x.1.2.(d_card).(cd_conf).(ifsync), x.1.2.(d_sync)))) <$> sp)));
    mret (0, Buf T_sdl_config b.(b_len) v)).
Definition sdl_iocsconfig : handler T_sdl_config :=
  with_arg T_sdl_config (fun b =>
    '(r, v) ← sdl_test_config i b.(b_val);
    if negb (r =? 0) then mret (r, Buf T_sdl_config b.(b_len) v)
    else _ ← sdl_commit_config i v; mret (0, Buf T_sdl_config b.(b_len) v)).
Definition sdl_ioctconfig : handler T_sdl_config :=
  with_arg T_sdl_config (fun b => '(r, v) ← sdl_test_config i b.(b_val); mret (r, Buf T_sdl_config b.(b_len) v)).
Definition sdl_ioccconfig : handler T_sdl_config :=
  with_arg T_sdl_config (fun b => _ ← sdl_commit_config i b.(b_val); mret (0, b)).
Definition sdl_iocgstatem : handler T_sdl_statem := get_as T_sdl_statem (fun c => c.(k_xp).(sdl_statem)).
Definition sdl_ioccmreset : handler T_none := fun mp => mret (- EOPNOTSUPP, mp).
Definition sdl_iocgstatsp : handler T_sdl_stats := get_as T_sdl_stats k_sdlstatsp.
Definition sdl_iocsstatsp : handler T_sdl_stats := set_as T_sdl_stats (fun v c => c <| k_sdlstatsp := v |>).
Definition sdl_iocgstats : handler T_sdl_stats := get_as T_sdl_stats (fun c => SdlStatsF c.(k_sdlhdr) c.(k_xp).(sdl_stats)).
Definition clear_sdl_stats (c : channel) : channel :=
  (c <| k_xp; sdl_stats := SdlStats 0 0 0 0 0 0 0 0 0 |>) <| k_sdlhdr := no_sta |>.
Definition sdl_ioccstats : handler T_none := always clear_sdl_stats.
Definition sdl_iocgnotify : handler T_notify := get_as T_notify k_sdlnotify.
Definition sdl_iocsnotify : handler T_notify :=
  set_as T_notify (fun v c => c <| k_sdlnotify := Z.lor c.(k_sdlnotify) v |>).
Definition sdl_ioccnotify : handler T_notify :=
  set_as T_notify (fun v c => c <| k_sdlnotify := clear_flag c.(k_sdlnotify) v |>).
Definition tx_running (b : bool) (f : sdl_config) : sdl_config :=
  f <| ifflags := if b then Z.lor f.(ifflags) SDL_IF_TX_RUNNING else clear_flag f.(ifflags) SDL_IF_TX_RUNNING |>.
Definition sdl_ioccdisctx : handler T_none := always (set_conf (tx_running false)).
Definition sdl_ioccconntx : handler T_none := always (set_conf (tx_running true)).

(** ** Dispatch *)

Definition handle (c : command) : handler (use_type c) :=
  match c with
  | SL_IOCGOPTIONS => sl_iocgoptions | SL_IOCSOPTIONS => sl_iocsoptions
  | SL_IOCGCONFIG => sl_iocgconfig | SL_IOCSCONFIG => sl_iocsconfig
  | SL_IOCTCONFIG => sl_ioctconfig | SL_IOCCCONFIG => sl_ioccconfig
  | SL_IOCGSTATEM => sl_iocgstatem | SL_IOCCMRESET => sl_ioccmreset
  | SL_IOCGSTATSP => sl_iocgstatsp | SL_IOCSSTATSP => sl_iocsstatsp
  | SL_IOCGSTATS => sl_iocgstats | SL_IOCCSTATS => sl_ioccstats
  | SL_IOCGNOTIFY => sl_iocgnotify | SL_IOCSNOTIFY => sl_iocsnotify | SL_IOCCNOTIFY => sl_ioccnotify
  | SDT_IOCGOPTIONS => sdt_iocgoptions | SDT_IOCSOPTIONS => sdt_iocsoptions
  | SDT_IOCGCONFIG => sdt_iocgconfig | SDT_IOCSCONFIG => sdt_iocsconfig
  | SDT_IOCTCONFIG => sdt_ioctconfig | SDT_IOCCCONFIG => sdt_ioccconfig
  | SDT_IOCGSTATEM => sdt_iocgstatem | SDT_IOCCMRESET => sdt_ioccmreset
  | SDT_IOCGSTATSP => sdt_iocgstatsp | SDT_IOCSSTATSP => sdt_iocsstatsp
  | SDT_IOCGSTATS => sdt_iocgstats | SDT_IOCCSTATS => sdt_ioccstats
  | SDT_IOCGNOTIFY => sdt_iocgnotify | SDT_IOCSNOTIFY => sdt_iocsnotify
  | SDT_IOCCNOTIFY => sdt_ioccnotify | SDT_IOCCABORT => sdt_ioccabort
  | SDL_IOCGOPTIONS => sdl_iocgoptions | SDL_IOCSOPTIONS => sdl_iocsoptions
  | SDL_IOCGCONFIG => sdl_iocgconfig | SDL_IOCSCONFIG => sdl_iocsconfig
  | SDL_IOCTCONFIG => sdl_ioctconfig | SDL_IOCCCONFIG => sdl_ioccconfig
  | SDL_IOCGSTATEM => sdl_iocgstatem | SDL_IOCCMRESET => sdl_ioccmreset
  | SDL_IOCGSTATSP => sdl_iocgstatsp | SDL_IOCSSTATSP => sdl_iocsstatsp
  | SDL_IOCGSTATS => sdl_iocgstats | SDL_IOCCSTATS => sdl_ioccstats
  | SDL_IOCGNOTIFY => sdl_iocgnotify | SDL_IOCSNOTIFY => sdl_iocsnotify
  | SDL_IOCCNOTIFY => sdl_ioccnotify
  | SDL_IOCCDISCTX => sdl_ioccdisctx | SDL_IOCCCONNTX => sdl_ioccconntx
  end.
Definition decode (cmd : Z) : option command := List.find (fun c => ioc_code c =? cmd) commands.
Definition arg_type (cmd : Z) : ctype :=
  match decode cmd with Some c => use_type c | None => T_none end.
Definition handle_code (cmd : Z) : handler (arg_type cmd) :=
  match decode cmd as d
    return handler (match d with Some c => use_type c | None => T_none end) with
  | Some c => handle c
  | None => fun mp => mret (- EOPNOTSUPP, mp)
  end.

(** [M_IOCACK] or [M_IOCNAK] with the error, sent back to the user. *)
Inductive answer := Iocack | Iocnak (ioc_error : Z).
Definition answer_of (ret : Z) : answer := if 0 <=? ret then Iocack else Iocnak (- ret).
(** The result of the procedure, the reply if there is one, and the data. *)
Definition xp_w_ioctl (cmd count : Z) (mp : option (buf (arg_type cmd))) :
    M (Z * option answer * option (buf (arg_type cmd))) :=
  let type := IOC_TYPE cmd in
  let small := count <? IOC_SIZE cmd in
  let reply r := mret (QR_ABSORBED, Some (answer_of r.1), r.2) in
  c ← chan_of i;
  if type =? SID then reply (- EOPNOTSUPP, mp)
  else if type =? SL_IOC_MAGIC then
    if small || (c.(k_state) =? lmi_code LMI_UNATTACHED) then mret (- EINVAL, None, mp)
    else r ← handle_code cmd mp; reply r
  else if type =? SDT_IOC_MAGIC then
    if small || (c.(k_state) =? lmi_code LMI_UNATTACHED) then reply (- EINVAL, mp)
    else r ← handle_code cmd mp; reply r
  else if type =? SDL_IOC_MAGIC then
    if small || (c.(k_xp).(i_state) =s LMI_UNATTACHED) then reply (- EINVAL, mp)
    else r ← handle_code cmd mp; reply r
  else mret (QR_PASSALONG, None, mp).
End handlers.
