(* ===== verification/IoctlLaws.v ===== *)
(** * What input-output controls do

    The handlers of [Ioctl] as they run: which commands read, change the channel,
    commit a configuration, fail or crash; configurations stay well typed and shared
    by the channels of a span. *)
From S2P Require Import Prelude Bufq Xp Prims Timers Lsc Requests Lmi SdlConfig Ioctl.
From stdpp Require Import gmap.
#[local] Open Scope Z_scope.
#[local] Open Scope os7_scope.

(** ** Well-formed worlds *)

(** What other channels and the span see of a channel, and of a span. *)
Definition shared (f : sdl_config) : list Z :=
  [f.(ifgcrc); f.(ifgmode); f.(ifclock); f.(ifcoding); f.(ifframing); f.(iftxlevel)].
Definition lockw (i : Z) (b : bool) (w : world) : world :=
  w <| w_chans := alter (fun c => c <| k_lock := b |>) i w.(w_chans) |>.
Definition the_span (w : world) (n : Z) : option span :=
  d ← w.(w_devs) !! n; d.(d_card).(cd_span0).
(** The lock that is held; a channel is attached to a span there is; the slots of a
    span have channels that are attached to it. *)
Record wf (l : option Z) (w : world) : Prop := {
  wf_lock : ∀ i c, w.(w_chans) !! i = Some c → c.(k_lock) = bool_decide (l = Some i);
  wf_sp : ∀ i c n, w.(w_chans) !! i = Some c → c.(k_xp).(xp_sp) = Some n → is_Some (the_span w n);
  wf_own : ∀ n sp s i, the_span w n = Some sp → sp.(sp_slots) !! s = Some (Some i) →
    ∃ c, w.(w_chans) !! i = Some c ∧ c.(k_xp).(xp_sp) = Some n }.
(** The channels of a span agree with it. *)
Definition coherent (w : world) : Prop :=
  ∀ n sp s i c, the_span w n = Some sp → sp.(sp_slots) !! s = Some (Some i) →
    w.(w_chans) !! i = Some c → shared c.(k_xp).(sdl_conf) = shared sp.(sp_conf).
(** The members of a span's configuration fit its type; so do those of a channel. *)
Definition span_typed (f : sdl_config) : bool :=
  let e1 := f.(ifgtype) =? SDL_GTYPE_E1 in
  (e1 || (f.(ifgtype) =? SDL_GTYPE_T1)) &&
  among f.(ifgcrc) (if e1 then [SDL_GCRC_CRC4; SDL_GCRC_CRC5] else [SDL_GCRC_CRC6]) &&
  among f.(ifgmode) [SDL_GMODE_NONE; SDL_GMODE_LOC_LB] &&
  among f.(ifclock) [SDL_CLOCK_LOOP; SDL_CLOCK_MASTER; SDL_CLOCK_SLAVE] &&
  among f.(ifcoding) [SDL_CODING_AMI; if e1 then SDL_CODING_HDB3 else SDL_CODING_B8ZS] &&
  among f.(ifframing) (if e1 then [SDL_FRAMING_CCS; SDL_FRAMING_CAS] else [SDL_FRAMING_SF; SDL_FRAMING_ESF]) &&
  among f.(iftxlevel) [0; 1; 2; 3; 4; 5].
Definition chan_typed (gtype : Z) (f : sdl_config) : bool :=
  among f.(iftype) [SDL_TYPE_DS0; SDL_TYPE_DS0A;
                    if gtype =? SDL_GTYPE_E1 then SDL_TYPE_E1 else SDL_TYPE_T1] &&
  among f.(ifmode) [SDL_MODE_PEER; SDL_MODE_ECHO; SDL_MODE_REM_LB; SDL_MODE_LOC_LB; SDL_MODE_LB_ECHO;
                    SDL_MODE_TEST].
Definition typed (w : world) : Prop :=
  (∀ n sp, the_span w n = Some sp → span_typed sp.(sp_conf) = true) ∧
  (∀ i c n sp, w.(w_chans) !! i = Some c → c.(k_xp).(xp_sp) = Some n → the_span w n = Some sp →
     chan_typed sp.(sp_conf).(ifgtype) c.(k_xp).(sdl_conf) = true).

(** ** Locks *)

Lemma alter_found {A} (f : A → A) (m : gmap Z A) i x : m !! i = Some x → alter f i m !! i = Some (f x).
Proof. intros H. by rewrite lookup_alter_eq, H. Qed.
Lemma world_eq w w' : w.(w_chans) = w'.(w_chans) → w.(w_devs) = w'.(w_devs) → w = w'.
Proof. destruct w, w'. cbn. by intros -> ->. Qed.
Lemma lockw_undo i c w :
  w.(w_chans) !! i = Some c → c.(k_lock) = false → lockw i false (lockw i true w) = w.
Proof.
  intros H Hl. apply world_eq; unfold lockw; upd; [|done]. rewrite alter_alter_eq. apply alter_id.
  intros x Hx. rewrite H in Hx. injection Hx as <-. destruct c. cbn in *. by subst.
Qed.
Lemma locked_run {A} i c w (m : M A) :
  w.(w_chans) !! i = Some c → c.(k_lock) = false →
  locked i m w = match m (lockw i true w) with
                 | inl e => inl e
                 | inr (x, w') => inr (x, lockw i false w')
                 end.
Proof.
  intros H Hl. unfold locked, mbind, M_bind, chan_of. rewrite H, Hl. unfold on_chan at 1. fold (lockw i true w).
  by destruct (m (lockw i true w)) as [e|[x w']].
Qed.
(** What is read under the lock is what there is, but for the lock. *)
Lemma locked_read {A} i c w (m : M A) x :
  w.(w_chans) !! i = Some c → c.(k_lock) = false →
  m (lockw i true w) = inr (x, lockw i true w) → locked i m w = inr (x, w).
Proof. intros H Hl E. by rewrite (locked_run _ _ _ _ H Hl), E, (lockw_undo _ _ _ H Hl). Qed.
Lemma locked_crash {A} i c w (m : M A) e :
  w.(w_chans) !! i = Some c → c.(k_lock) = false → m (lockw i true w) = inl e → locked i m w = inl e.
Proof. intros H Hl E. by rewrite (locked_run _ _ _ _ H Hl), E. Qed.
(** A change of the channel that is the same whether it is locked. *)
Definition unlock_blind (f : channel → channel) : Prop :=
  ∀ c b, f (c <| k_lock := b |>) = (f c) <| k_lock := b |> ∧ (f c).(k_lock) = c.(k_lock).
Lemma locked_change i c w f :
  w.(w_chans) !! i = Some c → c.(k_lock) = false → unlock_blind f →
  locked i (on_chan i f) w = inr ((), w <| w_chans := alter f i w.(w_chans) |>).
Proof.
  intros H Hl Hf. rewrite (locked_run _ _ _ _ H Hl). unfold on_chan. f_equal. f_equal.
  apply world_eq; unfold lockw; upd; [|done]. rewrite !alter_alter_eq. apply alter_ext.
  intros x Hx. rewrite H in Hx. injection Hx as <-. unfold compose.
  destruct (Hf c true) as [-> E]. rewrite Hl in E. destruct (f c). cbn in *. by subst.
Qed.

(** ** What a handler comes to *)

#[local] Arguments sdl_test : simpl never.

Definition view (c : channel) := (c.(k_xp).(xp_sp), c.(k_xp).(sdl_conf).(iftype),
  c.(k_xp).(sdl_conf).(ifrate), c.(k_xp).(sdl_conf).(ifmode), shared c.(k_xp).(sdl_conf)).
(** A change of what only the channel sees. *)
Definition own_change (f : channel → channel) : Prop := unlock_blind f ∧ ∀ c, view (f c) = view c.
(** The test of a configuration, given the channel and its span. *)
Definition span_conf (w : world) (c : channel) : option sdl_config :=
  n ← c.(k_xp).(xp_sp); sp_conf <$> the_span w n.
Definition tests (w : world) (c : channel) (a : sdl_config_t) : option (Z * sdl_config_t) :=
  sdl_test c.(k_xp).(sdl_conf) (span_conf w c) a.
(** The reasons to crash: the data are shorter than what is accessed, the lock is
    taken twice, the span that is missing is consulted. *)
Definition short (c : command) (len : option Z) : Prop := ∃ l, len = Some l ∧ l < sizeof (use_type c).
Definition no_span (c : channel) : Prop := c.(k_xp).(xp_sp) = None.
(** The result and the world, without the data. *)
Definition forget {A} (o : crash + (Z * A) * world) : crash + Z * world :=
  match o with inl e => inl e | inr ((r, _), w) => inr (r, w) end.
Inductive ran (i : Z) (k : channel) (w : world) (c : command) (len : option Z) : crash + Z * world → Prop :=
  | Ran_error r : r < 0 → ran i k w c len (inr (r, w))
  | Ran_read : ran i k w c len (inr (0, w))
  | Ran_change f : own_change f →
      ran i k w c len (inr (0, w <| w_chans := alter f i w.(w_chans) |>))
  | Ran_commit a w' :
      sdl_commit_config i a w = inr ((), w') →
      (c = SDL_IOCCCONFIG ∨ ∃ a0, tests w k a0 = Some (0, a)) → ran i k w c len (inr (0, w'))
  | Ran_overrun : short c len → ran i k w c len (inl Overrun)
  | Ran_deadlock : c = SDT_IOCCCONFIG → ran i k w c len (inl Deadlock)
  | Ran_bad : no_span k → c ∈ [SDL_IOCSCONFIG; SDL_IOCTCONFIG] → ran i k w c len (inl BadPointer)
  | Ran_stuck a e : sdl_commit_config i a w = inl e → ran i k w c len (inl e).

(** The results of the tests are 0 or errors. *)
Lemma iftype_sign own sp a r a' : test_iftype own sp a = Some (r, a') → r ≤ 0.
Proof.
  unfold test_iftype, unless. repeat (case_match; [by intros [= <- _]|]).
  repeat (case_match; [destruct sp; [|done]; cbn; case_match; by intros [= <- _]|]). by intros [= <- _].
Qed.
Lemma unless_sign b a : (unless b a).1 ≤ 0.
Proof. by destruct b. Qed.
Lemma if_sign (b : bool) (p q : Z * sdl_config_t) : p.1 ≤ 0 → q.1 ≤ 0 → (if b then p else q).1 ≤ 0.
Proof. by destruct b. Qed.
Lemma test_sign (p : Z * sdl_config_t) f : p.1 ≤ 0 → (∀ a, (f a).1 ≤ 0) → (test? a := p in f a).1 ≤ 0.
Proof. destruct p as [r a]. intros Hp Hf. by destruct (negb (r =? 0)). Qed.
Lemma group_sign sp a r a' : test_group sp a = (r, a') → r ≤ 0.
Proof.
  intros E. change r with (r, a').1. rewrite <- E. unfold test_group.
  repeat (apply test_sign; [|intros ?]);
    unfold test_ifgtype, test_ifgcrc, test_ifclock, test_ifcoding, test_ifframing, test_iftxlevel, test_ifsyncsrc;
    cbv zeta; repeat apply if_sign; try done; apply unless_sign.
Qed.

Section run.
Context (i : Z) (k : channel) (w : world).
Context (Hk : w.(w_chans) !! i = Some k) (Hl : k.(k_lock) = false) (Hw : wf None w).
Lemma chan_locked : (lockw i true w).(w_chans) !! i = Some (k <| k_lock := true |>).
Proof. unfold lockw. upd. by apply alter_found. Qed.
Lemma lock_devs b : (lockw i b w).(w_devs) = w.(w_devs).
Proof. done. Qed.

Lemma with_arg_ran t (f : buf t → M (Z * buf t)) mp :
  with_arg t f mp w =
    match mp with
    | None => inr ((- EINVAL, None), w)
    | Some b => if b.(b_len) <? sizeof t then inl Overrun
                else match f b w with inl e => inl e | inr ((r, b), w') => inr ((r, Some b), w') end
    end.
Proof.
  unfold with_arg, access. destruct mp as [b|]; [|done]. unfold mbind, M_bind.
  destruct (b_len b <? sizeof t); [done|]. cbn. by destruct (f b w) as [e|[[r b'] w']].
Qed.
Lemma arg_ran c (f : buf (use_type c) → M (Z * buf (use_type c))) mp :
  (∀ b, mp = Some b → match f b w with
     | inl e => ran i k w c (Some b.(b_len)) (inl e)
     | inr ((r, b'), w') => ran i k w c (Some b.(b_len)) (inr (r, w')) end) →
  ran i k w c (b_len <$> mp) (forget (with_arg (use_type c) f mp w)).
Proof.
  intros Hf. rewrite with_arg_ran. destruct mp as [b|]; [|by apply Ran_error].
  destruct (Z.ltb_spec (b_len b) (sizeof (use_type c))); [apply Ran_overrun; by exists b.(b_len)|].
  specialize (Hf b eq_refl). by destruct (f b w) as [e|[[r b'] w']].
Qed.
Lemma get_ran c (f : channel → den (use_type c)) mp :
  (∀ b, f (k <| k_lock := b |>) = f k) → ran i k w c (b_len <$> mp) (forget (get_as i (use_type c) f mp w)).
Proof.
  intros Hf. apply arg_ran. intros b ->.
  unfold mbind, M_bind at 1. rewrite (locked_read i k w _ (f k) Hk Hl); [by apply Ran_read|].
  unfold mbind, M_bind, chan_of. rewrite chan_locked. cbn. by rewrite Hf.
Qed.
Lemma set_ran c (f : den (use_type c) → channel → channel) mp :
  (∀ v, own_change (f v)) → ran i k w c (b_len <$> mp) (forget (set_as i (use_type c) f mp w)).
Proof.
  intros Hf. apply arg_ran. intros b ->.
  unfold mbind, M_bind at 1. rewrite (locked_change i k w _ Hk Hl (proj1 (Hf (b_val b)))).
  apply (Ran_change _ _ _ _ _ _ (Hf (b_val b))).
Qed.
Lemma refuse_ran mp : refuse i mp w = inr ((match mp with Some _ => - EOPNOTSUPP | None => - EINVAL end, mp), w).
Proof.
  unfold refuse. destruct mp as [b|]; [|done]. unfold mbind, M_bind at 1.
  by rewrite (locked_read i k w _ (- EOPNOTSUPP) Hk Hl).
Qed.
Lemma always_ran f mp :
  own_change f → always i f mp w = inr ((0, mp), w <| w_chans := alter f i w.(w_chans) |>).
Proof.
  intros Hf. unfold always. unfold mbind, M_bind at 1. by rewrite (locked_change i k w _ Hk Hl (proj1 Hf)).
Qed.
(** The span of a channel is there. *)
Lemma span_of_ran (c : channel) (w' : world) :
  w'.(w_devs) = w.(w_devs) → c.(k_xp).(xp_sp) = k.(k_xp).(xp_sp) →
  ∃ r, span_of c w' = inr (r, w') ∧
    (fun x : Z * device * span => x.2.(sp_conf)) <$> r = span_conf w k ∧
    (r = None ↔ no_span k) ∧
    ∀ n d sp, r = Some (n, d, sp) → k.(k_xp).(xp_sp) = Some n ∧ w.(w_devs) !! n = Some d ∧
      d.(d_card).(cd_span0) = Some sp ∧ the_span w n = Some sp.
Proof.
  intros Ed Es. unfold span_of, span_conf, no_span. rewrite Ed, Es.
  destruct (xp_sp (k_xp k)) as [n|] eqn:En; [|by exists None].
  destruct (wf_sp _ _ Hw i k n Hk En) as [sp Hs]. pose proof Hs as Hs'. unfold the_span in Hs.
  destruct (w_devs w !! n) as [d|] eqn:Ew; [|done]. cbn in Hs. rewrite Hs.
  eexists. split; [done|]. cbn. rewrite Hs'. split; [done|]. split; [done|].
  by intros ? ? ? [= <- <- <-].
Qed.
Lemma test_ran a :
  sdl_test_config i a w = match tests w k a with Some r => inr (r, w) | None => inl BadPointer end.
Proof.
  unfold sdl_test_config, tests.
  destruct (span_of_ran (k <| k_lock := true |>) (lockw i true w)) as (r & E & Ec & _); [done..|].
  destruct (sdl_test (sdl_conf (k_xp k)) (span_conf w k) a) as [x|] eqn:Et.
  - apply (locked_read i k w _ x Hk Hl). unfold mbind, M_bind, chan_of at 1. rewrite chan_locked, E.
    cbn. upd. by rewrite Ec, Et.
  - apply (locked_crash i k w _ BadPointer Hk Hl). unfold mbind, M_bind, chan_of at 1.
    rewrite chan_locked, E. cbn. upd. by rewrite Ec, Et.
Qed.
Lemma tests_span a : tests w k a = None → no_span k.
Proof.
  unfold tests, sdl_test, span_conf, no_span. destruct (negb _); [done|].
  destruct (xp_sp (k_xp k)) as [n|] eqn:En; [|done]. cbn.
  destruct (wf_sp _ _ Hw i k n Hk En) as [sp ->]. cbn. unfold test_iftype.
  repeat (destruct (_ =? _) || destruct (among _ _)); done.
Qed.

Ltac blind := let x := fresh "x" in let b := fresh "b" in intros x b; split; destruct x; reflexivity.
Ltac own := intros; split; [blind|let x := fresh "x" in intros x; destruct x; reflexivity].
Lemma sdt_test_ran a : ∃ r v, sdt_test_config i a w = inr ((r, v), w) ∧ r ≤ 0.
Proof.
  unfold sdt_test_config. eexists _, _. split.
  - apply (locked_read i k w _ (_, _) Hk Hl). unfold mbind, M_bind, chan_of. rewrite chan_locked. done.
  - by destruct (_ && _).
Qed.
(** The lock is taken by the test inside the commit. *)
Lemma sdt_commit_ran a : sdt_commit_config i a w = inl Deadlock.
Proof.
  unfold sdt_commit_config. apply (locked_crash i k w _ _ Hk Hl).
  unfold sdt_test_config, locked, mbind, M_bind, chan_of at 1. by rewrite chan_locked.
Qed.
Lemma gather_ran mp : ran i k w SDL_IOCGCONFIG (b_len <$> mp) (forget (sdl_iocgconfig i mp w)).
Proof.
  apply (arg_ran SDL_IOCGCONFIG). intros b ->.
  destruct (span_of_ran (k <| k_lock := true |>) (lockw i true w)) as (r & E & _); [done..|].
  unfold mbind, M_bind at 1. erewrite (locked_read i k w _ _ Hk Hl); [by apply Ran_read|].
  unfold mbind, M_bind, chan_of. rewrite chan_locked, E. reflexivity.
Qed.
(** The handlers, in terms of the ways they are written. *)
Ltac handlers :=
  unfold sl_iocgoptions, sl_iocsoptions, sl_iocgconfig, sl_iocsconfig, sl_ioctconfig,
    sl_ioccconfig, sl_iocgstatem, sl_ioccmreset, sl_iocgstatsp, sl_iocsstatsp, sl_iocgstats,
    sl_ioccstats, sl_iocgnotify, sl_iocsnotify, sl_ioccnotify, sdt_iocgoptions, sdt_iocsoptions,
    sdt_iocgconfig, sdt_iocsconfig, sdt_ioctconfig, sdt_ioccconfig, sdt_iocgstatem,
    sdt_ioccmreset, sdt_iocgstatsp, sdt_iocsstatsp, sdt_iocgstats, sdt_ioccstats,
    sdt_iocgnotify, sdt_iocsnotify, sdt_ioccnotify, sdt_ioccabort, sdl_iocgoptions,
    sdl_iocsoptions, sdl_iocgconfig, sdl_iocsconfig, sdl_ioctconfig, sdl_ioccconfig,
    sdl_iocgstatem, sdl_ioccmreset, sdl_iocgstatsp, sdl_iocsstatsp, sdl_iocgstats,
    sdl_ioccstats, sdl_iocgnotify, sdl_iocsnotify, sdl_ioccnotify, sdl_ioccdisctx,
    sdl_ioccconntx.
Ltac simple_ran :=
  lazymatch goal with
  | |- ran _ _ _ _ _ (forget (get_as _ _ _ _ _)) => apply get_ran; intros b; reflexivity
  | |- ran _ _ _ _ _ (forget (set_as _ _ _ _ _)) => apply set_ran; own
  | |- ran _ _ _ _ _ (forget (refuse _ _ _)) => rewrite refuse_ran; apply Ran_error; case_match; reflexivity
  | |- ran _ _ _ _ _ (forget (always _ _ _ _)) => rewrite always_ran by own; apply Ran_change; own
  | |- ran _ _ _ _ _ (forget (mret _ _)) => apply Ran_error; reflexivity
  | |- _ => idtac
  end.
Lemma tests_sign a r a' : tests w k a = Some (r, a') → r ≤ 0.
Proof.
  unfold tests, sdl_test. destruct (negb (ifflags _ =? 0)); [by intros [= <- _]|].
  destruct (test_iftype _ _ a) as [[r0 a0]|] eqn:E0; [|done]. cbn [mbind option_bind].
  destruct (negb (r0 =? 0)); [intros [= <- _]; by eapply iftype_sign|].
  destruct (test_ifmode _ _) as [r1 a1]. destruct (test_ifgmode _) as [r2 a2].
  destruct (negb (r1 =? 0) || _); [by intros [= <- _]|].
  destruct (span_conf w k) as [sp|]; [|by intros [= <- _]]. intros [= E]. by eapply group_sign.
Qed.
Lemma handle_ran c mp : ran i k w c (b_len <$> mp) (forget (handle i c mp w)).
Proof.
  destruct c; cbn [handle]; try apply gather_ran; handlers; simple_ran.
  - destruct mp as [b|]; [|by apply Ran_error]. unfold mbind, M_bind at 1.
    rewrite (locked_change i k w clear_sl_stats Hk Hl); [|blind]. apply Ran_change. own.
  - apply (arg_ran SDT_IOCTCONFIG). intros b ->. unfold mbind, M_bind.
    destruct (sdt_test_ran (@b_val T_sdt_config b)) as (r & v & -> & Hr). cbn.
    destruct (decide (r = 0)) as [->|]; [by apply Ran_read|apply Ran_error; lia].
  - apply (arg_ran SDT_IOCCCONFIG). intros b ->. unfold mbind, M_bind. rewrite sdt_commit_ran.
    by apply Ran_deadlock.
  - apply (arg_ran SDL_IOCSCONFIG). intros b ->. unfold mbind, M_bind at 1. rewrite test_ran.
    destruct (tests w k (@b_val T_sdl_config b)) as [[r v]|] eqn:Et.
    2: { apply Ran_bad; [by eapply tests_span|set_solver]. }
    destruct (Z.eqb_spec r 0) as [->|Hr]; cbn [negb].
    + unfold mbind, M_bind. destruct (sdl_commit_config i v w) as [e|[[] w']] eqn:Ec.
      * by eapply Ran_stuck.
      * eapply Ran_commit; [done|]. right. by eexists.
    + apply tests_sign in Et. apply Ran_error. lia.
  - apply (arg_ran SDL_IOCTCONFIG). intros b ->. unfold mbind, M_bind. rewrite test_ran.
    destruct (tests w k (@b_val T_sdl_config b)) as [[r v]|] eqn:Et.
    2: { apply Ran_bad; [by eapply tests_span|set_solver]. }
    cbn. destruct (decide (r = 0)) as [->|]; [by apply Ran_read|].
    apply tests_sign in Et. apply Ran_error. lia.
  - apply (arg_ran SDL_IOCCCONFIG). intros b ->. unfold mbind, M_bind.
    destruct (sdl_commit_config i (@b_val T_sdl_config b) w) as [e|[[] w']] eqn:Ec.
    + by eapply Ran_stuck.
    + eapply Ran_commit; [done|]. by left.
Qed.
End run.
