(* ===== verification/CommitLaws.v ===== *)
(** * What a commit of a configuration does

    [sdl_commit_config] never fails on a well-formed world, and what it leaves: the
    configuration of the channel and of its span, spread to the channels of the span. *)
From S2P Require Import Prelude Bufq Xp Prims Timers Lsc Requests Lmi SdlConfig Ioctl IoctlLaws.
From stdpp Require Import gmap.
#[local] Open Scope Z_scope.
#[local] Open Scope os7_scope.

(** ** Worlds that differ in configurations only *)

Definition tie (c : channel) := (c.(k_xp).(xp_sp), c.(k_lock)).
Definition kind (c : channel) :=
  (c.(k_xp).(sdl_conf).(iftype), c.(k_xp).(sdl_conf).(ifrate), c.(k_xp).(sdl_conf).(ifmode)).
Definition face (c : channel) := shared c.(k_xp).(sdl_conf).
Definition same_ties (w w' : world) : Prop :=
  (∀ j, tie <$> w'.(w_chans) !! j = tie <$> w.(w_chans) !! j) ∧
  (∀ m, sp_slots <$> the_span w' m = sp_slots <$> the_span w m).
(** [g] was applied to the configuration of span [n], if that is a span; the types
    of the channels are as they were. *)
Record moved (n : option Z) (g : sdl_config → sdl_config) (w w' : world) : Prop := {
  mv_ties : same_ties w w';
  mv_coh : coherent w → coherent w';
  mv_kind : ∀ j, kind <$> w'.(w_chans) !! j = kind <$> w.(w_chans) !! j;
  mv_conf : ∀ m, sp_conf <$> the_span w' m =
    (if bool_decide (n = Some m) then g else id) ∘ sp_conf <$> the_span w m }.

#[export] Instance same_ties_preorder : PreOrder same_ties.
Proof.
  split; [done|]. intros x y z [H1 H2] [H3 H4].
  split; intros; [by rewrite H3, H1|by rewrite H4, H2].
Qed.
Lemma ties_chan w w' j c :
  same_ties w w' → w.(w_chans) !! j = Some c → ∃ c', w'.(w_chans) !! j = Some c' ∧ tie c' = tie c.
Proof.
  intros [H _] E. specialize (H j). rewrite E in H. cbn in H.
  apply fmap_Some in H as (c' & -> & H). by exists c'.
Qed.
Lemma ties_span w w' m sp :
  same_ties w w' → the_span w m = Some sp →
  ∃ sp', the_span w' m = Some sp' ∧ sp'.(sp_slots) = sp.(sp_slots).
Proof.
  intros [_ H] E. specialize (H m). rewrite E in H. cbn in H.
  apply fmap_Some in H as (c' & -> & H). by exists c'.
Qed.
Lemma same_ties_sym w w' : same_ties w w' → same_ties w' w.
Proof. by intros [H1 H2]. Qed.
Lemma wf_ties l w w' : same_ties w w' → wf l w → wf l w'.
Proof.
  intros T H. pose proof (same_ties_sym _ _ T) as T'. split.
  - intros j c E. destruct (ties_chan _ _ _ _ T' E) as (c' & E' & [= _ <-]). by apply (wf_lock _ _ H).
  - intros j c n E Hn. destruct (ties_chan _ _ _ _ T' E) as (c' & E' & Et). injection Et as Et _.
    destruct (wf_sp _ _ H j c' n E') as [sp Hs]; [by rewrite Et|].
    by destruct (ties_span _ _ _ _ T Hs) as (? & -> & _).
  - intros n sp s j E Hs. destruct (ties_span _ _ _ _ T' E) as (sp' & E' & Es). rewrite <- Es in Hs.
    destruct (wf_own _ _ H n sp' s j E' Hs) as (c & Ec & Hc).
    destruct (ties_chan _ _ _ _ T Ec) as (c' & -> & [= Et _]). exists c'. by rewrite Et.
Qed.
Lemma moved_refl n w : moved n id w w.
Proof. split; [done..|]. intros m. by case_match. Qed.
Lemma moved_trans n g h w1 w2 w3 : moved n g w1 w2 → moved n h w2 w3 → moved n (h ∘ g) w1 w3.
Proof.
  intros H1 H2. split.
  - etrans; [apply H1|apply H2].
  - intros H. by apply H2, H1.
  - intros j. by rewrite (mv_kind _ _ _ _ H2), (mv_kind _ _ _ _ H1).
  - intros m. rewrite (mv_conf _ _ _ _ H2). rewrite option_fmap_compose, (mv_conf _ _ _ _ H1).
    rewrite <- option_fmap_compose. by case_match.
Qed.

(** ** Changes of channels and spans *)

Lemma the_span_dev n f w m :
  the_span (w <| w_devs := alter f n w.(w_devs) |>) m =
  if decide (n = m) then d ← w.(w_devs) !! m; (f d).(d_card).(cd_span0) else the_span w m.
Proof.
  unfold the_span. upd. case_decide as E.
  - subst. rewrite lookup_alter_eq. by destruct (w_devs w !! m).
  - by rewrite lookup_alter_ne.
Qed.
Lemma alter_sees {A} (p : channel → A) f i (cs : gmap Z channel) j :
  (∀ c, p (f c) = p c) → p <$> alter f i cs !! j = p <$> cs !! j.
Proof.
  intros Hp. destruct (decide (i = j)) as [<-|]; [|by rewrite lookup_alter_ne].
  rewrite lookup_alter_eq. destruct (_ !! i); [|done]. cbn. by rewrite Hp.
Qed.
Lemma coherent_ext w w' :
  (∀ j, face <$> w'.(w_chans) !! j = face <$> w.(w_chans) !! j) → w'.(w_devs) = w.(w_devs) →
  coherent w → coherent w'.
Proof.
  intros Hf Hd H m sp s j c Hm Hs Hc. specialize (Hf j). rewrite Hc in Hf. symmetry in Hf.
  apply fmap_Some in Hf as (c' & E & Hf). unfold face in Hf. rewrite Hf. unfold the_span in Hm.
  rewrite Hd in Hm. by apply (H m sp s j c').
Qed.
(** A change of a channel that neither its span nor the others see. *)
Lemma moved_chan n i f w :
  (∀ c, tie (f c) = tie c ∧ kind (f c) = kind c ∧ face (f c) = face c) →
  moved n id w (w <| w_chans := alter f i w.(w_chans) |>).
Proof.
  intros Hf. split.
  - split; [|done]. intros j. apply alter_sees. intros c. apply Hf.
  - apply coherent_ext; [|done]. intros j. apply alter_sees. intros c. apply Hf.
  - intros j. apply alter_sees. intros c. apply Hf.
  - intros m. by case_bool_decide.
Qed.
(** A change of a card but not of its span. *)
Lemma moved_dev n k f w :
  (∀ d, (f d).(d_card).(cd_span0) = d.(d_card).(cd_span0)) →
  moved n id w (w <| w_devs := alter f k w.(w_devs) |>).
Proof.
  intros Hf.
  assert (L : ∀ m, the_span (w <| w_devs := alter f k w.(w_devs) |>) m = the_span w m).
  { intros m. rewrite the_span_dev. case_decide; [|done]. unfold the_span.
    destruct (_ !! m); [|done]. by apply Hf. }
  split.
  - split; [done|]. intros m. by rewrite L.
  - intros H m sp s j c. rewrite L. by apply H.
  - done.
  - intros m. rewrite L. by case_match.
Qed.
(** The same change of all channels with timeslots, however often. *)
Lemma on_slots_lookup (f : channel → channel) (l : list (option Z)) (m : gmap Z channel) j :
  (∀ c, f (f c) = f c) →
  foldl (fun m s => match s with Some i => alter f i m | None => m end) m l !! j =
  if decide (Some j ∈ l) then f <$> m !! j else m !! j.
Proof.
  intros Hf. revert m. induction l as [|[k|] l IH]; intros m; cbn [foldl].
  - by rewrite decide_False by (by intros ?%elem_of_nil).
  - rewrite IH. destruct (decide (k = j)) as [->|Hk].
    + rewrite lookup_alter_eq. rewrite (decide_True (P := Some j ∈ Some j :: l)) by apply elem_of_cons, or_introl, eq_refl.
      case_decide; [|done]. destruct (m !! j); [|done]. cbn. by rewrite Hf.
    + rewrite lookup_alter_ne by done. apply decide_ext. rewrite elem_of_cons. naive_solver.
  - rewrite IH. apply decide_ext. rewrite elem_of_cons. naive_solver.
Qed.
(** A member that is shared, put in all channels of a span and in the span: [put]
    sees of a configuration and changes what the others see only. *)
Record sharing (put : sdl_config → sdl_config) : Prop := {
  sh_idem : ∀ f, put (put f) = put f;
  sh_face : ∀ f g, shared f = shared g → shared (put f) = shared (put g);
  sh_type : ∀ f, (put f).(iftype) = f.(iftype) ∧ (put f).(ifrate) = f.(ifrate) ∧ (put f).(ifmode) = f.(ifmode) }.
Definition put_slots (l : list (option Z)) (f : channel → channel) (w : world) : world :=
  w <| w_chans := foldl (fun m s => match s with Some i => alter f i m | None => m end) w.(w_chans) l |>.
Definition put_span (n : Z) (f : span → span) (w : world) : world :=
  w <| w_devs := alter (fun d => d <| d_card; cd_span0 := f <$> d.(d_card).(cd_span0) |>) n w.(w_devs) |>.
Lemma the_span_put n f w m :
  the_span (put_span n f w) m = if decide (n = m) then f <$> the_span w m else the_span w m.
Proof.
  unfold put_span. rewrite the_span_dev. case_decide; [|done]. subst. unfold the_span.
  by destruct (w_devs w !! m).
Qed.
Lemma put_slots_lookup l f w j :
  (∀ c, f (f c) = f c) →
  (put_slots l f w).(w_chans) !! j =
  if decide (Some j ∈ l) then f <$> w.(w_chans) !! j else w.(w_chans) !! j.
Proof. intros Hf. unfold put_slots. upd. by apply on_slots_lookup. Qed.
Lemma set_conf_twice put : sharing put → ∀ c, set_conf put (set_conf put c) = set_conf put c.
Proof.
  intros H c. trans (set_conf (λ f, put (put f)) c); [destruct c as [[]]; reflexivity|].
  unfold set_conf. by rewrite (sh_idem _ H).
Qed.
Lemma set_conf_sees put c :
  tie (set_conf put c) = tie c ∧ (set_conf put c).(k_xp).(sdl_conf) = put c.(k_xp).(sdl_conf).
Proof. destruct c as [[]]. split; reflexivity. Qed.
Lemma moved_shared l n sp put w :
  wf l w → sharing put → sp_slots <$> the_span w n = Some sp.(sp_slots) →
  moved (Some n) put w
    (put_span n (fun sp => sp <| sp_conf := put sp.(sp_conf) |>) (put_slots sp.(sp_slots) (set_conf put) w)).
Proof.
  intros Hw Hp Hsp.
  assert (LC : ∀ j, (put_span n (fun sp => sp <| sp_conf := put sp.(sp_conf) |>)
      (put_slots sp.(sp_slots) (set_conf put) w)).(w_chans) !! j =
      if decide (Some j ∈ sp.(sp_slots)) then set_conf put <$> w.(w_chans) !! j else w.(w_chans) !! j).
  { intros j. apply (put_slots_lookup _ _ _ _ (set_conf_twice put Hp)). }
  assert (LS : ∀ m, the_span (put_span n (fun sp => sp <| sp_conf := put sp.(sp_conf) |>)
      (put_slots sp.(sp_slots) (set_conf put) w)) m =
      if decide (n = m) then (fun sp => sp <| sp_conf := put sp.(sp_conf) |>) <$> the_span w m else the_span w m).
  { intros m. rewrite the_span_put. done. }
  split.
  - split.
    + intros j. rewrite LC. case_decide; [|done]. by destruct (_ !! j).
    + intros m. rewrite LS. case_decide; [|done]. by destruct (the_span w m).
  - intros H m s t j c. rewrite LS, LC. intros Hm Ht Hc.
    destruct (decide (n = m)) as [<-|En].
    + destruct (the_span w n) as [s0|] eqn:E0; [|done]. cbn in Hm, Hsp. injection Hm as <-.
      injection Hsp as Hsp. upd in Ht. rewrite decide_True in Hc
        by (rewrite <- Hsp; by eapply list_elem_of_lookup_2).
      destruct (w_chans w !! j) as [c0|] eqn:Ec; [|done]. injection Hc as <-.
      rewrite (proj2 (set_conf_sees put c0)). upd. apply (sh_face _ Hp). by eapply H.
    + destruct (decide (Some j ∈ sp_slots sp)) as [Ej|]; [|by eapply H].
      apply fmap_Some in Hsp as (s0 & E0 & Es). apply list_elem_of_lookup in Ej as [u Hu].
      rewrite Es in Hu. destruct (wf_own _ _ Hw n s0 u j E0 Hu) as (c1 & E1 & Hn).
      destruct (wf_own _ _ Hw m s t j Hm Ht) as (c2 & E2 & Hm'). congruence.
  - intros j. rewrite LC. case_decide; [|done]. destruct (_ !! j); [|done]. cbn. f_equal. unfold kind.
    rewrite !(proj2 (set_conf_sees put _)). by destruct (sh_type _ Hp (sdl_conf (k_xp c))) as (-> & -> & ->).
  - intros m. rewrite LS. case_decide; case_bool_decide; simplify_eq; try done.
    by destruct (the_span w m).
Qed.

(** ** The commit *)

(** The computation returns, and the result is right. *)
Definition wp {A} (m : M A) (w : world) (Q : A → world → Prop) : Prop :=
  match m w with inr (x, w') => Q x w' | inl _ => False end.
Lemma wp_bind {A B} (m : M A) (f : A → M B) w Q :
  wp m w (fun x w' => wp (f x) w' Q) → wp (m ≫= f) w Q.
Proof. unfold wp, mbind, M_bind. by destruct (m w) as [e|[x w']]. Qed.
Lemma wp_mono {A} (m : M A) w (P Q : A → world → Prop) :
  (∀ x w', P x w' → Q x w') → wp m w P → wp m w Q.
Proof. unfold wp. destruct (m w) as [e|[x w']]; [done|]. by intros H ?%H. Qed.

Definition put_gcrc a f := f <| ifgcrc := a.(ifgcrc) |>.
Definition put_gmode a f := f <| ifgmode := a.(ifgmode) |>.
Definition put_clock a f := f <| ifclock := a.(ifclock) |>.
Definition put_coding a f := f <| ifcoding := a.(ifcoding) |>.
Definition put_framing a f := f <| ifframing := a.(ifframing) |>.
Definition put_txlevel a f := f <| iftxlevel := a.(iftxlevel) |>.
(** The configuration of the span after the commit. *)
Definition conf_after (a : sdl_config) : sdl_config → sdl_config :=
  put_txlevel a ∘ (put_framing a ∘ (put_coding a ∘ (put_clock a ∘ (put_gmode a ∘ put_gcrc a)))).
Ltac share :=
  split; [by intros []| |by intros []];
  intros [] [] H; unfold shared in *; cbn in *; injection H; intros; subst; reflexivity.
Lemma sharing_gcrc a : sharing (put_gcrc a).
Proof. share. Qed.
Lemma sharing_gmode a : sharing (put_gmode a).
Proof. share. Qed.
Lemma sharing_clock a : sharing (put_clock a).
Proof. share. Qed.
Lemma sharing_coding a : sharing (put_coding a).
Proof. share. Qed.
Lemma sharing_framing a : sharing (put_framing a).
Proof. share. Qed.
Lemma sharing_txlevel a : sharing (put_txlevel a).
Proof. share. Qed.

Section commit.
Context (l : option Z) (w0 : world) (Hw0 : wf l w0).
Context (n : Z) (sp : span) (Hsp : the_span w0 n = Some sp).
Lemma moved_span g w : moved (Some n) g w0 w →
  ∃ s, the_span w n = Some s ∧ s.(sp_slots) = sp.(sp_slots) ∧ s.(sp_conf) = g sp.(sp_conf).
Proof.
  intros H. pose proof (mv_conf _ _ _ _ H n) as Hc. pose proof (proj2 (mv_ties _ _ _ _ H) n) as Hs.
  rewrite Hsp in Hc, Hs. rewrite bool_decide_true in Hc by done.
  destruct (the_span w n) as [s|]; [|done]. cbn in Hc, Hs. exists s. split; [done|]. by simplify_eq.
Qed.
Lemma shared_wp get put v g w :
  sharing put → (get sp.(sp_conf) = v → put (g sp.(sp_conf)) = g sp.(sp_conf)) →
  moved (Some n) g w0 w →
  wp (commit_shared n sp get put v) w (fun _ w' => moved (Some n) (put ∘ g) w0 w').
Proof.
  intros Hp Hv H. pose proof (moved_span _ _ H) as (s & Hs & Es & Ec).
  unfold wp, commit_shared. destruct (Z.eqb_spec (get (sp_conf sp)) v) as [Ev|Ev].
  - cbn. split; try apply H. intros m. rewrite (mv_conf _ _ _ _ H).
    case_bool_decide; [|done]. simplify_eq. rewrite Hsp. cbn. by rewrite Hv.
  - eapply moved_trans; [apply H|]. eapply moved_shared; [eapply wf_ties; [apply H|done]|done|].
    rewrite Hs. cbn. by rewrite Es.
Qed.
Ltac share_step L S :=
  apply wp_bind; eapply wp_mono;
    [|eapply L; [apply S|
                |eassumption]];
    [cbn beta; intros ? ? ?
    |unfold compose, put_gcrc, put_gmode, put_clock, put_coding, put_framing, put_txlevel;
     intros <-; by destruct (sp_conf sp)].
Lemma span_wp a w :
  moved (Some n) id w0 w →
  wp (commit_span n sp a) w (fun _ w' => moved (Some n) (conf_after a) w0 w').
Proof.
  intros H. unfold commit_span.
  share_step (shared_wp ifgcrc (put_gcrc a) (ifgcrc a) id) sharing_gcrc.
  share_step (shared_wp ifgmode (put_gmode a) (ifgmode a)) sharing_gmode.
  share_step (shared_wp ifclock (put_clock a) (ifclock a)) sharing_clock.
  share_step (shared_wp ifcoding (put_coding a) (ifcoding a)) sharing_coding.
  share_step (shared_wp ifframing (put_framing a) (ifframing a)) sharing_framing.
  share_step (shared_wp iftxlevel (put_txlevel a) (iftxlevel a)) sharing_txlevel.
  done.
Qed.
End commit.

(** *** The registers, the slot and the sources of synchronization: nothing of a
    configuration changes. *)

Definition unseen (f : channel → channel) : Prop :=
  ∀ c, tie (f c) = tie c ∧ kind (f c) = kind c ∧ face (f c) = face c.
Lemma moved_step n g w1 w2 w3 : moved n g w1 w2 → moved n id w2 w3 → moved n g w1 w3.
Proof. apply (moved_trans n g id). Qed.
Lemma moved_slots n f l w : unseen f → moved n id w (put_slots l f w).
Proof.
  intros Hf. unfold put_slots. destruct w as [cs ds]. revert cs.
  induction l as [|[j|] l IH]; intros cs; [apply moved_refl| |apply IH].
  eapply (moved_step n id); [exact (moved_chan n j f (World cs ds) Hf)|exact (IH (alter f j cs))].
Qed.
Section quiet.
Context (n : option Z) (g : sdl_config → sdl_config) (w0 : world).
Definition quiet {A} (m : M A) : Prop := ∀ w, moved n g w0 w → wp m w (fun _ w' => moved n g w0 w').
Lemma quiet_bind {A B} (m : M A) (f : A → M B) : quiet m → (∀ x, quiet (f x)) → quiet (m ≫= f).
Proof. intros Hm Hf w H. apply wp_bind. eapply wp_mono; [|by apply Hm]. intros x w'. apply Hf. Qed.
Lemma quiet_ret {A} (x : A) : quiet (mret x).
Proof. by intros w H. Qed.
Lemma quiet_dev k f : (∀ d, (f d).(d_card) = d.(d_card)) → quiet (on_dev k f).
Proof. intros Hf w H. eapply moved_step; [done|]. apply moved_dev. intros d. by rewrite Hf. Qed.
Lemma quiet_chan j f : unseen f → quiet (on_chan j f).
Proof. intros Hf w H. eapply moved_step; [done|]. by apply moved_chan. Qed.
Lemma quiet_slots sp f : unseen f → quiet (on_slots sp f).
Proof. intros Hf w H. eapply moved_step; [done|]. by apply moved_slots. Qed.
Lemma quiet_world : quiet the_world.
Proof. by intros w H. Qed.
Create HintDb quiet.
#[local] Hint Resolve quiet_ret quiet_dev quiet_chan quiet_slots quiet_world : quiet.
Lemma quiet_reg k r v : quiet (fr_outb_p k r v).
Proof. by apply quiet_dev. Qed.
#[local] Hint Resolve quiet_reg : quiet.
Lemma quiet_sync k d sp srcs vs : quiet (commit_sync k d sp srcs vs).
Proof.
  induction srcs as [|src srcs IH]; cbn [commit_sync]; [auto with quiet|].
  apply quiet_bind; [|intros; apply quiet_bind; [done|auto with quiet]]. case_match; [auto with quiet|].
  apply quiet_bind; [apply quiet_slots; by intros [[]]|intros].
  apply quiet_bind; [by apply quiet_dev|auto with quiet].
Qed.
Lemma quiet_clear k clear cs mask : quiet (clear_loop k clear cs mask).
Proof.
  revert mask. induction cs; intros mask; cbn [clear_loop]; [auto with quiet|].
  apply quiet_bind; [case_match; auto with quiet|intros; apply IHcs].
Qed.
Lemma quiet_reconfigure k gtype sp : quiet (reconfigure_span k gtype sp).
Proof.
  unfold reconfigure_span. destruct (gtype =? SDL_GTYPE_E1).
  { apply quiet_bind; [by apply quiet_dev|intros]. apply quiet_bind; [apply quiet_reg|intros].
    apply quiet_bind; intros; apply quiet_reg. }
  destruct (gtype =? SDL_GTYPE_T1); [|apply quiet_ret].
  apply quiet_bind; [by apply quiet_dev|intros]. apply quiet_bind; [apply quiet_reg|intros].
  apply quiet_bind; [case_match; [apply quiet_ret|apply quiet_reg]|intros].
  apply quiet_bind; [apply quiet_reg|intros]. apply quiet_bind; [apply quiet_world|intros].
  apply quiet_clear.
Qed.
End quiet.

(** *** What a commit leaves *)

Record committed (i : Z) (sp : option Z) (a : sdl_config) (w w' : world) : Prop := {
  cm_ties : same_ties w w';
  cm_coh : coherent w → coherent w';
  cm_kind : ∀ j, kind <$> w'.(w_chans) !! j =
    if decide (i = j) then Some (a.(iftype), a.(ifrate), a.(ifmode)) else kind <$> w.(w_chans) !! j;
  cm_conf : ∀ m, sp_conf <$> the_span w' m =
    (if bool_decide (sp = Some m) then conf_after a else id) ∘ sp_conf <$> the_span w m }.

Lemma chan_wp i c w Q : w.(w_chans) !! i = Some c → Q c w → wp (chan_of i) w Q.
Proof. intros H HQ. unfold wp, chan_of. by rewrite H. Qed.
Lemma span_wp_none c w Q : c.(k_xp).(xp_sp) = None → Q None w → wp (span_of c) w Q.
Proof. intros H HQ. unfold wp, span_of. by rewrite H. Qed.
Lemma span_wp_some c n w sp Q :
  c.(k_xp).(xp_sp) = Some n → the_span w n = Some sp → (∀ d, Q (Some (n, d, sp)) w) → wp (span_of c) w Q.
Proof.
  intros H Hs HQ. unfold wp, span_of. rewrite H. unfold the_span in Hs.
  destruct (_ !! n) as [d|]; [|done]. cbn in Hs. by rewrite Hs.
Qed.
Section body.
Context (i n : Z) (a : sdl_config_t) (l : option Z) (w : world) (Hw : wf l w).
(** After the part of the channel, for a channel of span [n]. *)
Lemma moved_of g w' c :
  moved (Some n) g w w' → w.(w_chans) !! i = Some c → c.(k_xp).(xp_sp) = Some n →
  ∃ c' sp', w'.(w_chans) !! i = Some c' ∧ c'.(k_xp).(xp_sp) = Some n ∧ the_span w' n = Some sp'.
Proof.
  intros H Hc Hn. destruct (ties_chan _ _ _ _ (mv_ties _ _ _ _ H) Hc) as (c' & E & [= Et _]).
  destruct (wf_sp _ _ Hw i c n Hc Hn) as [sp Hs].
  destruct (ties_span _ _ _ _ (mv_ties _ _ _ _ H) Hs) as (sp' & E' & _). exists c', sp'. by rewrite Et.
Qed.
Lemma shared_part_wp c d sp b :
  w.(w_chans) !! i = Some c → c.(k_xp).(xp_sp) = Some n → the_span w n = Some sp →
  wp (let cf := d.(d_card).(cd_conf) in
      span_reconfig ← commit_span n sp a.(c_conf);
      card_reconfig ← commit_sync n d sp (seq 0 SDL_SYNCS) a.(c_sync);
      _ ← (if b && bit_set c.(k_xp).(sdl_conf).(ifflags) SDL_IF_UP
           then on_chan i (fun c => c <| k_xp; slot := new_slot cf.(ifgtype) c.(k_xp).(chan) c.(k_xp).(slot) |>)
           else mret ());
      c ← chan_of i;
      new ← span_of c;
      _ ← (match new with
           | Some (_, _, sp) =>
               if span_reconfig && bit_set sp.(sp_conf).(ifflags) SDL_IF_UP
               then reconfigure_span n cf.(ifgtype) sp else mret ()
           | None => mret ()
           end);
      if card_reconfig && bit_set cf.(ifflags) SDL_IF_UP
      then on_dev n (fun d => d <| d_eval := true |>) else mret ()) w
    (fun _ w' => moved (Some n) (conf_after a.(c_conf)) w w').
Proof.
  intros Hc Hn Hs. cbn zeta.
  apply wp_bind. eapply wp_mono; [|by apply (span_wp l w Hw n sp Hs), moved_refl]. intros b1 w1 H1.
  apply wp_bind. eapply wp_mono; [|exact (quiet_sync _ _ _ _ _ _ _ _ _ H1)]. intros b2 w2 H2.
  apply wp_bind. eapply wp_mono with (P := fun _ w' => moved (Some n) (conf_after a.(c_conf)) w w').
  2: { destruct (_ && _); [|exact H2]. eapply moved_step; [exact H2|]. apply moved_chan. by intros [[]]. }
  intros _ w3 H3. destruct (moved_of _ _ _ H3 Hc Hn) as (c' & sp' & Hc' & Hn' & Hs').
  apply wp_bind, (chan_wp _ _ _ _ Hc'). apply wp_bind, (span_wp_some _ _ _ _ _ Hn' Hs'). intros d'.
  apply wp_bind. eapply wp_mono with (P := fun _ w' => moved (Some n) (conf_after a.(c_conf)) w w').
  2: { destruct (_ && _); [|exact H3]. exact (quiet_reconfigure _ _ _ _ _ _ _ H3). }
  intros _ w4 H4. destruct (_ && _); [|exact H4]. by refine (quiet_dev _ _ _ _ _ _ _ H4).
Qed.
End body.
(** The part of the channel. *)
Definition chan_part (a : sdl_config) : channel → channel :=
  set_conf (fun f => ((f <| iftype := a.(iftype) |>) <| ifrate := a.(ifrate) |>) <| ifmode := a.(ifmode) |>).
Lemma chan_part_sees a c :
  tie (chan_part a c) = tie c ∧ kind (chan_part a c) = (a.(iftype), a.(ifrate), a.(ifmode)) ∧ face (chan_part a c) = face c.
Proof. by destruct c as [[]]. Qed.
Lemma commit_chan_wp i a w c Q :
  w.(w_chans) !! i = Some c →
  (∀ b, Q b (w <| w_chans := alter (chan_part a) i w.(w_chans) |>)) → wp (commit_chan i a) w Q.
Proof. intros Hc HQ. apply wp_bind, (chan_wp _ _ _ _ Hc). apply wp_bind. apply HQ. Qed.

Lemma chan_part_world i c a w :
  w.(w_chans) !! i = Some c →
  committed i None a w (w <| w_chans := alter (chan_part a) i w.(w_chans) |>).
Proof.
  intros Hc. split.
  - split; [|done]. intros j. apply alter_sees. intros. apply chan_part_sees.
  - apply coherent_ext; [|done]. intros j. apply alter_sees. intros. apply chan_part_sees.
  - intros j. upd. destruct (decide (i = j)) as [<-|].
    + rewrite lookup_alter_eq, Hc. cbn. f_equal; apply chan_part_sees.
    + by rewrite lookup_alter_ne.
  - intros m. by case_bool_decide.
Qed.
Lemma committed_moved i n a w1 w2 w3 :
  committed i None a w1 w2 → moved n (conf_after a) w2 w3 → committed i n a w1 w3.
Proof.
  intros H1 H2. split.
  - etrans; [apply H1|apply H2].
  - intros H. by apply H2, H1.
  - intros j. by rewrite (mv_kind _ _ _ _ H2), (cm_kind _ _ _ _ _ H1).
  - intros m. rewrite (mv_conf _ _ _ _ H2), option_fmap_compose, (cm_conf _ _ _ _ _ H1).
    by rewrite <- option_fmap_compose.
Qed.
Lemma lockw_sees {A} (p : channel → A) i b w j :
  (∀ c, p (c <| k_lock := b |>) = p c) → p <$> (lockw i b w).(w_chans) !! j = p <$> w.(w_chans) !! j.
Proof. apply alter_sees. Qed.
Lemma wf_lockw i w : wf None w → wf (Some i) (lockw i true w).
Proof.
  intros H.
  assert (L : ∀ j c, (lockw i true w).(w_chans) !! j = Some c → ∃ c0, w.(w_chans) !! j = Some c0 ∧
    c.(k_xp) = c0.(k_xp) ∧ c.(k_lock) = if decide (i = j) then true else c0.(k_lock)).
  { intros j c. unfold lockw. upd. destruct (decide (i = j)) as [<-|].
    - rewrite lookup_alter_eq. intros (c0 & E & ->)%fmap_Some. by exists c0.
    - rewrite lookup_alter_ne by done. intros E. by exists c. }
  split.
  - intros j c (c0 & E & _ & ->)%L. rewrite (wf_lock _ _ H j c0 E).
    destruct (decide (i = j)); repeat case_bool_decide; by simplify_eq.
  - intros j c n (c0 & E & -> & _)%L Hn. exact (wf_sp _ _ H j c0 n E Hn).
  - intros n sp s j Hn Hs. destruct (wf_own _ _ H n sp s j Hn Hs) as (c & E & Hc).
    destruct (decide (i = j)) as [<-|Hij].
    + exists (c <| k_lock := true |>). unfold lockw. upd. by rewrite lookup_alter_eq, E.
    + exists c. unfold lockw. upd. by rewrite lookup_alter_ne.
Qed.
Lemma committed_lockw i k sp a w w' :
  w.(w_chans) !! i = Some k → k.(k_lock) = false →
  committed i sp a (lockw i true w) w' → committed i sp a w (lockw i false w').
Proof.
  intros Hk Hl H. split.
  - split; [|intros m; apply (proj2 (cm_ties _ _ _ _ _ H) m)].
    intros j. pose proof (proj1 (cm_ties _ _ _ _ _ H) j) as Hj. unfold lockw in *. upd. upd in Hj.
    destruct (decide (i = j)) as [<-|]; [|by rewrite !lookup_alter_ne in * by done].
    rewrite lookup_alter_eq, Hk in Hj. rewrite lookup_alter_eq, Hk.
    destruct (w_chans w' !! i) as [c|]; [|done]. injection Hj as Hj. cbn. f_equal. unfold tie. upd.
    by rewrite Hj, Hl.
  - intros Hc. eapply coherent_ext; [intros j; by apply lockw_sees|done|]. apply H.
    eapply coherent_ext; [intros j; by apply lockw_sees|done|done].
  - intros j. rewrite lockw_sees by done. rewrite (cm_kind _ _ _ _ _ H). by rewrite lockw_sees.
  - apply H.
Qed.
(** A commit succeeds and leaves [committed]. *)
Lemma commit_ran i k a w :
  w.(w_chans) !! i = Some k → k.(k_lock) = false → wf None w →
  ∃ w', sdl_commit_config i a w = inr ((), w') ∧ committed i k.(k_xp).(xp_sp) a.(c_conf) w w'.
Proof.
  intros Hk Hl Hw. unfold sdl_commit_config. rewrite (locked_run _ _ _ _ Hk Hl).
  set (w1 := lockw i true w). set (c1 := k <| k_lock := true |>).
  assert (H1 : w1.(w_chans) !! i = Some c1) by (unfold w1, lockw; upd; by apply alter_found).
  set (w2 := w1 <| w_chans := alter (chan_part a.(c_conf)) i w1.(w_chans) |>).
  set (c2 := chan_part a.(c_conf) c1).
  pose proof (chan_part_world i c1 a.(c_conf) w1 H1 : committed _ _ _ _ w2) as HC.
  assert (H2 : w2.(w_chans) !! i = Some c2) by (unfold w2; upd; by apply alter_found).
  assert (W2 : wf (Some i) w2) by (eapply wf_ties; [apply HC|by apply wf_lockw]).
  assert (Es : c2.(k_xp).(xp_sp) = k.(k_xp).(xp_sp)) by (by destruct k as [[]]).
  match goal with |- context [match ?m w1 with _ => _ end] =>
    assert (B : wp m w1 (fun _ w' => committed i k.(k_xp).(xp_sp) a.(c_conf) w1 w')) end.
  { apply wp_bind, (commit_chan_wp _ _ _ _ _ H1). intros b. apply wp_bind, (chan_wp _ _ _ _ H2).
    apply wp_bind. destruct (xp_sp (k_xp k)) as [n|] eqn:En.
    - destruct (wf_sp _ _ W2 i c2 n H2 Es) as [sp Hs]. apply (span_wp_some _ _ _ _ _ Es Hs). intros d.
      eapply wp_mono; [|exact (shared_part_wp i n a _ w2 W2 c2 d sp b H2 Es Hs)].
      intros ? w3 H3. by eapply committed_moved.
    - apply (span_wp_none _ _ _ Es). exact HC. }
  unfold wp in B. match goal with |- context [match ?r with _ => _ end] => destruct r as [e|[[] w']] end; [done|].
  eexists. split; [done|]. by eapply committed_lockw.
Qed.
