(* ===== verification/IoctlOk.v ===== *)
(** * Correctness of input-output controls

    What [xp_w_ioctl] promises of every command: an error changes nothing, a world
    that is well formed stays so and the kernel survives but for the commands that
    are named, configurations stay well typed, and what was configured is read back. *)
From stdpp Require Import gmap.
From S2P Require Import Prelude Bufq Xp Prims Timers Lsc Requests Lmi SdlConfig Ioctl IoctlLaws CommitLaws.
#[local] Open Scope Z_scope.
#[local] Open Scope os7_scope.

(** ** From commands to [xp_w_ioctl] *)

Lemma decode_code cmd c : decode cmd = Some c → cmd = ioc_code c.
Proof. intros [_ H]%List.find_some. lia. Qed.
Lemma wf_unlocked w i k : wf None w → w.(w_chans) !! i = Some k → k.(k_lock) = false.
Proof. intros H Hk. by rewrite (wf_lock _ _ H i k Hk). Qed.
Lemma own_moved n f i w : own_change f → moved n id w (w <| w_chans := alter f i w.(w_chans) |>).
Proof.
  intros [Hb Hv]. apply moved_chan. intros c. specialize (Hv c). destruct (Hb c true) as [_ Hl].
  unfold view, tie, kind, face in *. rewrite !pair_equal_spec in Hv.
  destruct Hv as [[[[-> ->] ->] ->] ->]. by rewrite Hl.
Qed.

Section dispatch.
Context (i : Z) (k : channel) (w : world).
Context (Hk : w.(w_chans) !! i = Some k) (Hw : wf None w).
Lemma code_ran cmd mp :
  match decode cmd with
  | Some c => ran i k w c (b_len <$> mp) (forget (handle_code i cmd mp w))
  | None => forget (handle_code i cmd mp w) = inr (- EOPNOTSUPP, w)
  end.
Proof.
  unfold handle_code. revert mp. unfold arg_type. destruct (decode cmd) as [c|]; intros mp; [|done].
  apply handle_ran; [done|by eapply wf_unlocked|done].
Qed.
(** No handler is run; or one is, and is answered. *)
Definition refused cmd (mp : option (buf (arg_type cmd))) (o : crash + Z * option answer * option (buf (arg_type cmd)) * world)
    : Prop :=
  ∃ rtn ans mp', o = inr ((rtn, ans, mp'), w) ∧ ans ≠ Some Iocack.
Definition run cmd count (mp : option (buf (arg_type cmd)))
    (o : crash + Z * option answer * option (buf (arg_type cmd)) * world) : Prop :=
  ∃ c r, decode cmd = Some c ∧ IOC_SIZE cmd ≤ count ∧ ran i k w c (b_len <$> mp) r ∧
    match r with
    | inl e => o = inl e
    | inr (r, w') => ∃ mp', o = inr ((QR_ABSORBED, Some (answer_of r), mp'), w')
    end.
Lemma nack_not_ack r : r < 0 → answer_of r ≠ Iocack.
Proof. unfold answer_of. by destruct (Z.leb_spec 0 r); [lia|]. Qed.
Lemma reply_cases cmd count mp :
  IOC_SIZE cmd ≤ count →
  let o := (r ← handle_code i cmd mp; mret (QR_ABSORBED, Some (answer_of r.1), r.2) : M _) w in
  refused cmd mp o ∨ run cmd count mp o.
Proof.
  intros Hc. pose proof (code_ran cmd mp) as H. unfold mbind, M_bind. cbn zeta.
  destruct (decode cmd) as [c|] eqn:Ec.
  - right. exists c, (forget (handle_code i cmd mp w)). repeat (split; [done|]).
    destruct (handle_code i cmd mp w) as [e|[[r mp'] w']]; [done|]. by exists mp'.
  - left. destruct (handle_code i cmd mp w) as [e|[[r mp'] w']]; [done|]. cbn in H. injection H as -> ->.
    eexists _, _, _. split; [done|]. by intros [=].
Qed.
Lemma refused_reply cmd mp r :
  r < 0 → refused cmd mp ((mret (QR_ABSORBED, Some (answer_of r), mp) : M _) w).
Proof.
  intros Hr. eexists _, _, _. split; [done|]. intros [= E]. revert E. by apply nack_not_ack.
Qed.
Lemma ioctl_cases cmd count mp :
  refused cmd mp (xp_w_ioctl i cmd count mp w) ∨ run cmd count mp (xp_w_ioctl i cmd count mp w).
Proof.
  remember (xp_w_ioctl i cmd count mp w) as o eqn:E.
  unfold xp_w_ioctl in E. unfold mbind at 1, M_bind at 1, chan_of in E. rewrite Hk in E. cbv zeta in E.
  assert (Hs : (count <? IOC_SIZE cmd) = false → IOC_SIZE cmd ≤ count) by lia.
  destruct (IOC_TYPE cmd =? SID); [subst o; left; by apply refused_reply|].
  destruct (IOC_TYPE cmd =? SL_IOC_MAGIC); [|destruct (IOC_TYPE cmd =? SDT_IOC_MAGIC);
    [|destruct (IOC_TYPE cmd =? SDL_IOC_MAGIC); [|subst o; left; by eexists _, _, _]]];
    (destruct (_ || _) eqn:Eb in E; subst o;
      [left|apply orb_false_iff in Eb as [Eb _]; apply reply_cases; by apply Hs]).
  - by eexists _, _, _.
  - by apply refused_reply.
  - by apply refused_reply.
Qed.
End dispatch.

(** ** A configuration that passes the test *)

Abbreviation set_in f v a := (a <| c_conf; f := v |>).
(** What a test leaves of the member [f] that it is of: it is as it was, or a default. *)
Ltac of_member f :=
  unfold unless; repeat case_match; intros; simplify_eq; try lia;
  match goal with
  | |- ∃ v, ?a = fset _ _ ?a ∧ _ => exists (f a.(c_conf)); split; [by destruct a as [[]]|]
  | |- _ => eexists; split; [reflexivity|]
  end.
Lemma iftype_ok own s a a' :
  test_iftype own (Some s) a = Some (0, a') →
  ∃ v, a' = set_in iftype v a ∧
    (v = own.(iftype) ∨ among v [SDL_TYPE_DS0; SDL_TYPE_DS0A] = true ∨
     v = SDL_TYPE_E1 ∧ s.(ifgtype) = SDL_GTYPE_E1 ∨ v = SDL_TYPE_T1 ∧ s.(ifgtype) = SDL_GTYPE_T1).
Proof. unfold test_iftype. cbn [mbind option_bind]. of_member iftype; auto; lia. Qed.
Lemma ifmode_ok own a a' :
  test_ifmode own a = (0, a') →
  ∃ v, a' = set_in ifmode v a ∧
    (v = own.(ifmode) ∨ among v [SDL_MODE_PEER; SDL_MODE_ECHO; SDL_MODE_REM_LB; SDL_MODE_LOC_LB;
                                 SDL_MODE_LB_ECHO; SDL_MODE_TEST] = true).
Proof. unfold test_ifmode. of_member ifmode; auto. Qed.
Lemma ifgmode_ok a a' :
  test_ifgmode a = (0, a') → a' = a ∧ among a.(c_conf).(ifgmode) [SDL_GMODE_NONE; SDL_GMODE_LOC_LB] = true.
Proof. unfold test_ifgmode, unless. by case_match; intros [= <-]. Qed.
Lemma ifgtype_ok s a a' :
  test_ifgtype s a = (0, a') → ∃ v, a' = set_in ifgtype v a ∧ v = s.(ifgtype).
Proof. unfold test_ifgtype. of_member ifgtype; [done|lia]. Qed.
Section members.
(** The span is E1 or T1, and the configuration is for it. *)
Context (s : sdl_config) (a a' : sdl_config_t).
Context (Hs : span_typed s = true) (Hg : a.(c_conf).(ifgtype) = s.(ifgtype)).
Lemma e1_or_t1 : s.(ifgtype) = SDL_GTYPE_E1 ∨ s.(ifgtype) = SDL_GTYPE_T1.
Proof. revert Hs. unfold span_typed. cbv zeta. lia. Qed.
Ltac of_shared f :=
  destruct e1_or_t1 as [G|G]; rewrite ?Hg, G; cbn [Z.eqb Pos.eqb SDL_GTYPE_E1 SDL_GTYPE_T1];
  of_member f; unfold among, existsb in *; try done; lia.
Lemma ifgcrc_ok : test_ifgcrc a = (0, a') →
  ∃ v, a' = set_in ifgcrc v a ∧
    among v (if s.(ifgtype) =? SDL_GTYPE_E1 then [SDL_GCRC_CRC4; SDL_GCRC_CRC5] else [SDL_GCRC_CRC6]) = true.
Proof. unfold test_ifgcrc. of_shared ifgcrc. Qed.
Lemma ifclock_ok : test_ifclock s a = (0, a') →
  ∃ v, a' = set_in ifclock v a ∧ among v [SDL_CLOCK_LOOP; SDL_CLOCK_MASTER; SDL_CLOCK_SLAVE] = true.
Proof.
  generalize Hs. unfold test_ifclock, span_typed. cbv zeta. intros Ht. of_member ifclock; try done;
    unfold among, existsb in *; lia.
Qed.
Lemma ifcoding_ok : test_ifcoding s a = (0, a') →
  ∃ v, a' = set_in ifcoding v a ∧
    among v [SDL_CODING_AMI; if s.(ifgtype) =? SDL_GTYPE_E1 then SDL_CODING_HDB3 else SDL_CODING_B8ZS] = true.
Proof. generalize Hs. unfold test_ifcoding, span_typed. cbv zeta. of_shared ifcoding. Qed.
Lemma ifframing_ok : test_ifframing s a = (0, a') →
  ∃ v, a' = set_in ifframing v a ∧
    among v (if s.(ifgtype) =? SDL_GTYPE_E1 then [SDL_FRAMING_CCS; SDL_FRAMING_CAS]
             else [SDL_FRAMING_SF; SDL_FRAMING_ESF]) = true.
Proof. generalize Hs. unfold test_ifframing, span_typed. cbv zeta. of_shared ifframing. Qed.
Lemma iftxlevel_ok : test_iftxlevel s a = (0, a') →
  ∃ v, a' = set_in iftxlevel v a ∧ among v [0; 1; 2; 3; 4; 5] = true.
Proof.
  generalize Hs. unfold test_iftxlevel, span_typed. cbv zeta. intros Ht. of_member iftxlevel; try done;
    unfold among, existsb in *; lia.
Qed.
End members.
(** One test after another. *)
Lemma then_ok (e : Z * sdl_config_t) (f : sdl_config_t → Z * sdl_config_t) a' :
  (test? a := e in f a) = (0, a') → ∃ a, e = (0, a) ∧ f a = (0, a').
Proof.
  destruct e as [r a]. destruct (Z.eqb_spec r 0) as [->|H]; cbn; [by exists a|]. by intros [= -> _].
Qed.
Lemma typed_after f s :
  span_typed (conf_after f s) = span_typed (f <| ifgtype := s.(ifgtype) |>).
Proof. by destruct f, s. Qed.
Lemma group_ok s a a' :
  span_typed s = true → test_group s a = (0, a') →
  a'.(c_conf).(iftype) = a.(c_conf).(iftype) ∧ a'.(c_conf).(ifmode) = a.(c_conf).(ifmode) ∧
  a'.(c_conf).(ifgmode) = a.(c_conf).(ifgmode) ∧ a'.(c_conf).(ifgtype) = s.(ifgtype) ∧
  (among a.(c_conf).(ifgmode) [SDL_GMODE_NONE; SDL_GMODE_LOC_LB] = true →
   span_typed (conf_after a'.(c_conf) s) = true).
Proof.
  intros Hs H. unfold test_group in H.
  apply then_ok in H as (a1 & (v1 & -> & G)%ifgtype_ok & H). subst v1.
  apply then_ok in H as (a2 & (v2 & -> & C2)%(ifgcrc_ok s) & H); try done.
  apply then_ok in H as (a3 & (v3 & -> & C3)%ifclock_ok & H); try done.
  apply then_ok in H as (a4 & (v4 & -> & C4)%(ifcoding_ok s) & H); try done.
  apply then_ok in H as (a5 & (v5 & -> & C5)%(ifframing_ok s) & H); try done.
  apply then_ok in H as (a6 & (v6 & -> & C6)%iftxlevel_ok & H); try done.
  unfold test_ifsyncsrc, unless in H. injection H as _ <-. upd. repeat (split; [done|]). intros Cm.
  rewrite typed_after. upd. unfold span_typed. cbv zeta. upd. rewrite C2, C3, C4, C5, C6, Cm.
  by destruct (e1_or_t1 s Hs) as [-> | ->].
Qed.
Lemma sdl_test_ok own spc a0 a :
  sdl_test own spc a0 = Some (0, a) → ∃ s, spc = Some s ∧
    (span_typed s = true →
     a.(c_conf).(ifgtype) = s.(ifgtype) ∧ span_typed (conf_after a.(c_conf) s) = true ∧
     (chan_typed s.(ifgtype) own = true → chan_typed s.(ifgtype) a.(c_conf) = true)).
Proof.
  unfold sdl_test. destruct (negb _); [done|]. destruct spc as [s|].
  2: { destruct (test_iftype own None a0) as [[r a1]|]; [|done]. cbn [mbind option_bind].
       destruct (negb (r =? 0)) eqn:Er; [intros [= -> _]; discriminate|].
       destruct (test_ifmode own a1) as [r1 a2], (test_ifgmode a2) as [r2 a3].
       by destruct (_ || _). }
  destruct (test_iftype own (Some s) a0) as [[r a1]|] eqn:E1; [|done]. cbn [mbind option_bind].
  intros H%(inj Some). exists s. split; [done|]. intros Hs.
  destruct (Z.eqb_spec r 0) as [->|Er]; [|cbn in H; injection H as -> _; done]. cbn [negb] in H.
  apply iftype_ok in E1 as (t & -> & Ct).
  destruct (test_ifmode _ _) as [r1 a2] eqn:E2, (test_ifgmode a2) as [r2 a3] eqn:E3.
  destruct (Z.eqb_spec r1 0) as [->|]; [|discriminate]. destruct (Z.eqb_spec r2 0) as [->|]; [|discriminate].
  apply ifmode_ok in E2 as (m & -> & Cm). apply ifgmode_ok in E3 as (-> & Cg). cbn [negb] in H.
  apply group_ok in H as (Ht & Hm & Hgm & Hgt & Hty); [|done]. split; [done|]. split; [by apply Hty|].
  intros Ho. unfold chan_typed in *. rewrite Ht, Hm. upd. rewrite andb_true_iff in Ho. destruct Ho as [H1 H2].
  rewrite andb_true_iff. split; [|by destruct Cm as [->|]].
  assert (N : SDL_GTYPE_T1 ≠ SDL_GTYPE_E1) by done. clear - Ct H1 N. unfold among, existsb in *.
  destruct (Z.eqb_spec s.(ifgtype) SDL_GTYPE_E1); destruct Ct as [->|[?|[[? ?]|[? ?]]]]; lia.
Qed.

(** ** What a command preserves *)

Lemma chan_typed_kind g c c' :
  kind c = kind c' → chan_typed g c.(k_xp).(sdl_conf) = chan_typed g c'.(k_xp).(sdl_conf).
Proof. unfold kind, chan_typed. by intros [= -> _ ->]. Qed.
Lemma conf_after_gtype a f : (conf_after a f).(ifgtype) = f.(ifgtype).
Proof. by destruct f. Qed.
(** Channels and spans of the world that is left, in terms of those that were. *)
Lemma ties_back w w' j c' :
  same_ties w w' → w'.(w_chans) !! j = Some c' → ∃ c, w.(w_chans) !! j = Some c ∧ tie c = tie c'.
Proof. intros H. apply (ties_chan w' w j c'), same_ties_sym, H. Qed.
Lemma fmap_back {A B} (f : A → B) (g : B → B) (x y : option A) v :
  f <$> y = g ∘ f <$> x → y = Some v → ∃ u, x = Some u ∧ f v = g (f u).
Proof. intros H ->. destruct x as [u|]; [|done]. injection H as H. by exists u. Qed.
Lemma typed_moved n w w' : moved n id w w' → typed w → typed w'.
Proof.
  intros H [Ts Tc].
  assert (B : ∀ m sp', the_span w' m = Some sp' → ∃ sp, the_span w m = Some sp ∧ sp'.(sp_conf) = sp.(sp_conf)).
  { intros m sp' Hm. destruct (fmap_back _ _ _ _ _ (mv_conf _ _ _ _ H m) Hm) as (sp & E & Ec).
    exists sp. split; [done|]. by case_bool_decide. }
  split.
  - intros m sp' (sp & E & ->)%B. by apply (Ts m).
  - intros j c' m sp' Hj Hn (sp & E & ->)%B.
    destruct (ties_back _ _ _ _ (mv_ties _ _ _ _ H) Hj) as (c & Ec & Et). injection Et as Et _.
    pose proof (mv_kind _ _ _ _ H j) as K. rewrite Hj, Ec in K. apply (inj Some) in K.
    rewrite (chan_typed_kind _ c' c K). apply (Tc j c m sp Ec); [congruence|done].
Qed.
Lemma typed_committed i k a0 a w w' :
  w.(w_chans) !! i = Some k → tests w k a0 = Some (0, a) →
  committed i k.(k_xp).(xp_sp) a.(c_conf) w w' → typed w → typed w'.
Proof.
  intros Hk Ht H [Ts Tc]. apply sdl_test_ok in Ht as (s & Hs & Ht). unfold span_conf in Hs.
  destruct (xp_sp (k_xp k)) as [n|] eqn:En; [|done]. cbn in Hs. apply fmap_Some in Hs as (sp & Hn & ->).
  destruct (Ht (Ts n sp Hn)) as (Hg & Hst & Hct). clear Ht. specialize (Hct (Tc i k n sp Hk En Hn)).
  assert (B : ∀ m sp', the_span w' m = Some sp' → ∃ sp0, the_span w m = Some sp0 ∧
    sp'.(sp_conf) = (if bool_decide (n = m) then conf_after a.(c_conf) else id) sp0.(sp_conf)).
  { intros m sp' Hm. destruct (fmap_back _ _ _ _ _ (cm_conf _ _ _ _ _ H m) Hm) as (sp0 & E & Ec).
    exists sp0. split; [done|]. by repeat case_bool_decide; simplify_eq. }
  split.
  - intros m sp' (sp0 & E & ->)%B. case_bool_decide as Em; [|by apply (Ts m)].
    subst m. rewrite Hn in E. by injection E as <-.
  - intros j c' m sp' Hj Hm (sp0 & E & Ec)%B.
    destruct (ties_back _ _ _ _ (cm_ties _ _ _ _ _ H) Hj) as (c & Ej & Et). injection Et as Et _.
    assert (G : sp'.(sp_conf).(ifgtype) = sp0.(sp_conf).(ifgtype)).
    { rewrite Ec. case_bool_decide; [apply conf_after_gtype|done]. }
    rewrite G. pose proof (cm_kind _ _ _ _ _ H j) as K. rewrite Hj, Ej in K. cbn in K.
    destruct (decide (i = j)) as [<-|Hij].
    + rewrite Hk in Ej. injection Ej as <-. assert (m = n) as -> by congruence.
      rewrite Hn in E. injection E as <-. injection K as K1 _ K2. unfold chan_typed in *. by rewrite K1, K2.
    + apply (inj Some) in K. rewrite (chan_typed_kind _ c' c K).
      apply (Tc j c m sp0 Ej); [congruence|done].
Qed.
(** What a command does to a world that is well formed. *)
Lemma ran_keeps i k w c len r w' :
  w.(w_chans) !! i = Some k → wf None w → ran i k w c len (inr (r, w')) →
  wf None w' ∧ (coherent w → coherent w') ∧ (c ≠ SDL_IOCCCONFIG → typed w → typed w') ∧ (r ≠ 0 → w' = w).
Proof.
  intros Hk Hw H. inversion H as [? Hr| |f Hf|a ? Hc Ha| | | |]; subst.
  - by split_and!.
  - by split_and!.
  - pose proof (own_moved None f i w Hf) as M. split_and!; [eapply wf_ties; [apply M|done]|apply M|intros _; by eapply typed_moved|done].
  - destruct (commit_ran i k a w Hk (wf_unlocked _ _ _ Hw Hk) Hw) as (w1 & E & C).
    rewrite Hc in E. injection E as <-.
    split_and!; [eapply wf_ties; [apply C|done]|apply C| |done].
    intros Hn T. destruct Ha as [->|[a0 Ha]]; [done|]. by eapply typed_committed.
Qed.

(** ** The theorems *)

Section commands.
Context (i cmd count : Z) (mp : option (buf (arg_type cmd))) (w : world) (Hw : wf None w).
Lemma no_channel : w.(w_chans) !! i = None → xp_w_ioctl i cmd count mp w = inl BadPointer.
Proof. intros H. unfold xp_w_ioctl, mbind at 1, M_bind at 1, chan_of. by rewrite H. Qed.
Lemma ioctl_keeps rtn ans mp' w' :
  xp_w_ioctl i cmd count mp w = inr ((rtn, ans, mp'), w') →
  wf None w' ∧ (coherent w → coherent w') ∧ (cmd ≠ ioc_code SDL_IOCCCONFIG → typed w → typed w') ∧
  (ans ≠ Some Iocack → w' = w).
Proof.
  intros E. destruct (w_chans w !! i) as [k|] eqn:Hk; [|by rewrite no_channel in E].
  destruct (ioctl_cases i k w Hk Hw cmd count mp) as [(? & ? & ? & E' & _)|(c & r & Hc & _ & H & E')].
  { rewrite E in E'. injection E' as _ _ _ ->. by split_and!. }
  destruct r as [e|[r w1]]; [by rewrite E in E'|]. destruct E' as [mp1 E']. rewrite E in E'.
  injection E' as _ -> _ ->. destruct (ran_keeps _ _ _ _ _ _ _ Hk Hw H) as (H1 & H2 & H3 & H4).
  split_and!; [done|done| |].
  - intros Hn. apply H3. intros ->. by apply decode_code in Hc.
  - intros Ha. apply H4. intros ->. by apply Ha.
Qed.
End commands.

(** C17: an input-output control that is not acknowledged - an unknown command, data
    that are missing or too short, a value that the test of a configuration refuses -
    has changed nothing, of no channel and of no card. *)
Theorem ioctl_error_unchanged i cmd count mp w rtn ans mp' w' :
  wf None w → xp_w_ioctl i cmd count mp w = inr ((rtn, ans, mp'), w') → ans ≠ Some Iocack → w' = w.
Proof. intros Hw E. by apply (ioctl_keeps _ _ _ _ _ Hw _ _ _ _ E). Qed.

(** C16: after whatever input-output control but the commit without a test
    ([SDL_IOCCCONFIG]), the configuration of each span fits its type - the check
    sequence, coding and framing are of an E1 span for E1 and of a T1 span for T1 -
    and that of each channel the type of its span. *)
Theorem ioctl_keeps_types i cmd count mp w r w' :
  wf None w → typed w → cmd ≠ ioc_code SDL_IOCCCONFIG →
  xp_w_ioctl i cmd count mp w = inr (r, w') → typed w'.
Proof. destruct r as [[rtn ans] mp']. intros Hw Ht Hc E. by apply (ioctl_keeps _ _ _ _ _ Hw _ _ _ _ E). Qed.

(** The commands that may crash: those that access more than their size says, the
    commit that takes a lock twice, the test that consults a span there is not. *)
Definition oversized : list command := [SL_IOCGSTATSP; SL_IOCSSTATSP; SDT_IOCGSTATSP; SDT_IOCSSTATSP].
Definition harmful (k : channel) (c : command) : Prop :=
  c ∈ oversized ∨ c = SDT_IOCCCONFIG ∨ no_span k ∧ c ∈ [SDL_IOCSCONFIG; SDL_IOCTCONFIG].
Lemma sizes_fit c : c ∈ oversized ∨ sizeof (use_type c) ≤ IOC_SIZE (ioc_code c).
Proof. destruct c; first [by right|left; unfold oversized; set_solver]. Qed.

(** C18: with the other commands, and data as long as the stream head says, the
    kernel survives: no access is beyond the data, no lock is taken twice, no pointer
    is bad; locks are released, channels and spans stay attached as they were, and
    the channels of a span keep agreeing with it on what they share. *)
Theorem ioctl_safe i cmd count mp w k :
  wf None w → w.(w_chans) !! i = Some k → (∀ b, mp = Some b → count ≤ b.(b_len)) →
  (∀ c, decode cmd = Some c → ¬ harmful k c) →
  ∃ r w', xp_w_ioctl i cmd count mp w = inr (r, w') ∧ wf None w' ∧ (coherent w → coherent w').
Proof.
  intros Hw Hk Hb Hh.
  assert (S : ∃ r, xp_w_ioctl i cmd count mp w = inr r).
  { destruct (ioctl_cases i k w Hk Hw cmd count mp) as [(? & ? & ? & -> & _)|(c & r & Hc & Hn & H & E)]; [by eexists|].
    specialize (Hh c Hc). destruct r as [e|[r w']]; [|destruct E as [? ->]; by eexists]. exfalso. apply Hh.
    inversion H as [ | | | |(l & El & Hl)|Hd|Hs Hi|a ? Ha]; subst.
    - left. destruct (sizes_fit c) as [?|Hf]; [done|]. apply decode_code in Hc. subst cmd.
      destruct mp as [b|]; [|done]. injection El as <-. specialize (Hb b eq_refl). lia.
    - right. by left.
    - right. by right.
    - destruct (commit_ran i k a w Hk (wf_unlocked _ _ _ Hw Hk) Hw) as (w1 & E' & _). congruence. }
  destruct S as [[[[rtn ans] mp'] w'] E]. exists (rtn, ans, mp'), w'. split; [done|].
  destruct (ioctl_keeps _ _ _ _ _ Hw _ _ _ _ E) as (H1 & H2 & _). by split.
Qed.

(** The members of a configuration that a user can set. *)
Definition members : list (sdl_config → Z) :=
  [iftype; ifrate; ifmode; ifgtype; ifgmode; ifgcrc; ifclock; ifcoding; ifframing; iftxlevel].

Lemma set_config_ran i k b v w w1 :
  wf None w → w.(w_chans) !! i = Some k → sdl_iocsconfig i (Some b) w = inr ((0, v), w1) →
  ∃ a set, v = Some (Buf T_sdl_config b.(b_len) set) ∧ tests w k a = Some (0, set) ∧
    committed i k.(k_xp).(xp_sp) set.(c_conf) w w1.
Proof.
  intros Hw Hk. pose proof (wf_unlocked _ _ _ Hw Hk) as Hl. unfold sdl_iocsconfig. rewrite with_arg_ran.
  destruct (b_len b <? _); [done|]. unfold mbind at 1, M_bind at 1. rewrite (test_ran i k w Hk Hl Hw).
  destruct (tests w k (b_val b)) as [[r set]|] eqn:Et; [|done].
  destruct (Z.eqb_spec r 0) as [->|Hr]; cbn [negb]; [|by intros [= -> _ _]].
  destruct (commit_ran i k set w Hk Hl Hw) as (w' & E & C). unfold mbind, M_bind. rewrite E.
  intros [= <- <-]. by exists (b_val b), set.
Qed.
Lemma get_config_ran i k w n sp b :
  wf None w → w.(w_chans) !! i = Some k → k.(k_xp).(xp_sp) = Some n → the_span w n = Some sp →
  sizeof T_sdl_config ≤ b.(b_len) →
  ∃ got, sdl_iocgconfig i (Some b) w = inr ((0, Some (Buf T_sdl_config b.(b_len) got)), w) ∧
    map (fun f => f got.(c_conf)) members =
    let f := k.(k_xp).(sdl_conf) in let g := sp.(sp_conf) in
    [f.(iftype); f.(ifrate); f.(ifmode); g.(ifgtype); g.(ifgmode); g.(ifgcrc); g.(ifclock); g.(ifcoding);
     g.(ifframing); g.(iftxlevel)].
Proof.
  intros Hw Hk Hn Hs Hb. pose proof (wf_unlocked _ _ _ Hw Hk) as Hl.
  destruct (span_of_ran i k w Hk Hw (k <| k_lock := true |>) (lockw i true w)) as (r & E & Ec & _ & Hr); [done..|].
  unfold span_conf in Ec. rewrite Hn in Ec. cbn in Ec. rewrite Hs in Ec.
  destruct r as [[[m d] sp']|]; [|done]. destruct (Hr _ _ _ eq_refl) as (_ & _ & _ & Hs').
  eexists. split.
  - unfold sdl_iocgconfig. rewrite with_arg_ran. destruct (Z.ltb_spec (b_len b) (sizeof T_sdl_config)); [lia|].
    unfold mbind at 1, M_bind at 1. erewrite (locked_read i k w _ _ Hk Hl); [done|].
    unfold mbind, M_bind, chan_of. rewrite (chan_locked i k w Hk), E. reflexivity.
  - injection Ec as Ec. cbn. rewrite Ec. done.
Qed.

