(* ===== verification/IoctlFaults.v ===== *)
(** * Examples of input-output controls

    A world of one channel on an E1 card at which the theorems of [IoctlOk] apply, and
    the commands that they except: each does there what it is excepted for. *)
From stdpp Require Import gmap.
From S2P Require Import Prelude Bufq Xp Prims Timers Lsc Requests Lmi SdlConfig Ioctl IoctlLaws CommitLaws IoctlOk.
#[local] Open Scope Z_scope.
#[local] Open Scope os7_scope.

(** ** The world *)

Definition ex_chan (sp : option Z) : channel :=
  let s := xp_alloc_priv 100 (Env [] [] 0 [] [] [] false false) in
  Channel (((s <| xp_sp := sp |>) <| sdl_conf := sdl_default_e1_chan |>) <| i_state := LMI_DISABLED |>)
    false 0 [0; 0; 0; 0] (no_sta, replicate 12 0, [0; 0; 0; 0]) (no_sta, [0; 0; 0]) no_sta
    (SlStatsT no_sta (replicate 12 0) [0; 0; 0; 0] (SlStats [0; 0; 0; 0] [0; 0; 0; 0]))
    (SdtStatsF no_sta s.(sdt_stats) [0; 0; 0]) (SdlStatsF no_sta s.(sdl_stats)) 0 0.
Definition ex_span : span :=
  Span 0 sdl_default_e1_chan ([None; None; Some 1] ++ replicate 29 None).
Definition ex_dev : device := Device (Card 0 sdl_default_e1_chan (Some ex_span)) [1; 0; 0; 0] false [].
Definition ex_world : world := World {[1 := ex_chan (Some 0)]} {[0 := ex_dev]}.
(** The channel before it is attached. *)
Definition ex_loose : world := World {[1 := ex_chan None]} {[0 := ex_dev <| d_card; cd_span0 := None |>]}.

Lemma ex_chan_only sp l j c :
  ({[1 := ex_chan sp]} : gmap Z channel) !! j = Some c → l = None → c = ex_chan sp ∧ c.(k_lock) = bool_decide (l = Some j).
Proof. intros [<- <-]%lookup_singleton_Some ->. done. Qed.
Lemma ex_span_only m sp : the_span ex_world m = Some sp → m = 0 ∧ sp = ex_span.
Proof.
  unfold the_span, ex_world. cbn [w_devs]. destruct (decide (0 = m)) as [<-|Hm].
  - rewrite lookup_singleton_eq. by intros [= <-].
  - by rewrite lookup_singleton_ne.
Qed.
Lemma ex_slot s j : ex_span.(sp_slots) !! s = Some (Some j) → j = 1.
Proof.
  cbn. do 3 (destruct s as [|s]; [cbn; by intros [= <-]|]). cbn [lookup list_lookup].
  intros [H _]%(lookup_replicate_1 29 None (Some j) s). done.
Qed.
Lemma ex_world_wf : wf None ex_world.
Proof.
  split.
  - intros j c H. by apply (ex_chan_only _ None _ _ H).
  - intros j c n H. destruct (ex_chan_only _ None _ _ H eq_refl) as [-> _]. cbn. intros [= <-]. by exists ex_span.
  - intros n sp s j [-> ->]%ex_span_only ->%ex_slot. by exists (ex_chan (Some 0)).
Qed.
Lemma ex_world_coherent : coherent ex_world.
Proof.
  intros n sp s j c [-> ->]%ex_span_only _ H. destruct (ex_chan_only _ None _ _ H eq_refl) as [-> _]. done.
Qed.
Lemma ex_world_typed : typed ex_world.
Proof.
  split.
  - by intros n sp [-> ->]%ex_span_only.
  - intros j c n sp H _ [-> ->]%ex_span_only. destruct (ex_chan_only _ None _ _ H eq_refl) as [-> _]. done.
Qed.
Lemma ex_loose_wf : wf None ex_loose.
Proof.
  assert (S : ∀ n, the_span ex_loose n = None).
  { intros n. unfold the_span, ex_loose. cbn [w_devs]. destruct (decide (0 = n)) as [<-|].
    - by rewrite lookup_singleton_eq.
    - by rewrite lookup_singleton_ne. }
  split.
  - intros j c H. by apply (ex_chan_only _ None _ _ H).
  - intros j c n H. by destruct (ex_chan_only _ None _ _ H eq_refl) as [-> _].
  - intros n sp s j. by rewrite S.
Qed.

(** ** Witnesses *)

(** A configuration with defaults, of AMI coding; one that is not of an E1 span. *)
Definition ex_conf (coding : Z) : sdl_config_t :=
  SdlConfigT (SdlConfig 0 0 64000 0 0 0 0 0 0 coding 0 0 0 0 0 0 0 0) [1; 0; 0; 0].
Definition ex_buf (coding : Z) : buf T_sdl_config := Buf T_sdl_config 96 (ex_conf coding).
Definition ex_ioctl (c : command) (len : Z) (mp : option (buf (arg_type (ioc_code c)))) (w : world) :=
  xp_w_ioctl 1 (ioc_code c) len mp w.
Definition result_of {A B} (o : crash + (A * option answer * B) * world) : crash + option answer :=
  match o with inl e => inl e | inr ((_, a, _), _) => inr a end.

Lemma ioctl_error_unchanged_witness :
  result_of (ex_ioctl SDL_IOCSCONFIG 96 (Some (ex_buf SDL_CODING_B8ZS)) ex_world) = inr (Some (Iocnak 22)) ∧
  ∀ rtn ans mp' w', ex_ioctl SDL_IOCSCONFIG 96 (Some (ex_buf SDL_CODING_B8ZS)) ex_world = inr ((rtn, ans, mp'), w') →
    ans ≠ Some Iocack → w' = ex_world.
Proof.
  split; [vm_compute; reflexivity|].
  intros rtn ans mp' w'. exact (ioctl_error_unchanged 1 _ 96 _ ex_world rtn ans mp' w' ex_world_wf).
Defined.
Lemma ioctl_keeps_types_witness :
  result_of (ex_ioctl SDL_IOCSCONFIG 96 (Some (ex_buf SDL_CODING_AMI)) ex_world) = inr (Some Iocack) ∧
  ∀ r w', ex_ioctl SDL_IOCSCONFIG 96 (Some (ex_buf SDL_CODING_AMI)) ex_world = inr (r, w') → typed w'.
Proof.
  split; [vm_compute; reflexivity|]. intros r w'.
  apply (ioctl_keeps_types 1 _ 96 _ ex_world r w' ex_world_wf ex_world_typed). vm_compute. discriminate.
Defined.
Lemma ioctl_safe_witness :
  ∃ r w', ex_ioctl SDL_IOCSCONFIG 96 (Some (ex_buf SDL_CODING_AMI)) ex_world = inr (r, w') ∧
    wf None w' ∧ (coherent ex_world → coherent w').
Proof.
  apply (ioctl_safe 1 _ 96 _ ex_world (ex_chan (Some 0)) ex_world_wf).
  - reflexivity.
  - intros b [= <-]. vm_compute. discriminate.
  - intros c Hc H. assert (c = SDL_IOCSCONFIG) as -> by (revert Hc; vm_compute; congruence).
    destruct H as [H|[H|[H _]]]; [|discriminate..].
    unfold oversized in H. rewrite !elem_of_cons in H. decompose [or] H; try discriminate.
    by apply elem_of_nil in H1.
Defined.

(** ** The commands that are excepted *)

(** Data as long as the command says, [sizeof(lmi_sta_t)], are too short. *)
Lemma statistics_periods_overrun :
  Forall (fun c => ∀ mp, b_len <$> mp = Some (IOC_SIZE (ioc_code c)) →
    result_of (ex_ioctl c (IOC_SIZE (ioc_code c)) mp ex_world) = inl Overrun) oversized.
Proof. repeat constructor; intros [[l v]|]; cbn; intros [= ->]; vm_compute; reflexivity. Qed.
Lemma sdt_commit_deadlocks b :
  b.(b_len) = 48 → result_of (ex_ioctl SDT_IOCCCONFIG 48 (Some b) ex_world) = inl Deadlock.
Proof. destruct b as [l v]. cbn. intros ->. vm_compute. reflexivity. Qed.
(** E1 asked for on a channel that has no span. *)
Lemma test_without_span_crashes :
  result_of (ex_ioctl SDL_IOCTCONFIG 96 (Some (Buf T_sdl_config 96 (SdlConfigT
    (SdlConfig 0 SDL_TYPE_E1 0 0 0 0 0 0 0 0 0 0 0 0 0 0 0 0) [0; 0; 0; 0]))) ex_loose) = inl BadPointer.
Proof. vm_compute. reflexivity. Qed.
(** What is committed without a test need not fit. *)
Lemma untested_commit_breaks_types :
  ∃ r w', ex_ioctl SDL_IOCCCONFIG 96 (Some (ex_buf 99)) ex_world = inr (r, w') ∧ ¬ typed w'.
Proof.
  eexists _, _. split; [vm_compute; reflexivity|]. intros [T _].
  specialize (T 0 _ eq_refl). vm_compute in T. discriminate.
Qed.
(** The SL branch leaves short data without an answer; streams that are attached to
    nothing are let through, since [state] is never set; other ioctls get none. *)
Lemma short_sl_ioctl_unanswered mp :
  result_of (ex_ioctl SL_IOCGOPTIONS 0 mp ex_world) = inr None.
Proof. vm_compute. reflexivity. Qed.
Lemma unknown_ioctl_unanswered mp : result_of (xp_w_ioctl 1 (Z.lor SID 2) 0 mp ex_world) = inr None.
Proof. vm_compute. reflexivity. Qed.
(** The mask of the clear channels of an octet keeps those of the octets before:
    with only channel 0 clear all three registers say that their first is. *)
Lemma clear_mask_carries :
  (fun r => map d_regs (map snd (map_to_list r.2.(w_devs)))) <$>
    (match clear_loop 0 (Z.eqb 0) channels24 0 ex_world with inr r => Some r | inl _ => None end) =
  Some [[(0x39, 1); (0x3a, 1); (0x3b, 1)]].
Proof. vm_compute. reflexivity. Qed.
