(* ===== verification/Isr.v ===== *)
(** * The interrupt routine of a card

    [xp_e1_interrupt] and [xp_t1_interrupt] of [drivers/sl_x100p.c]: the burst of the
    elastic buffer, the settling of alarms and clock, the status of the framer every 64
    interrupts, loop codes, lamps, bipolar violations and the source of
    synchronization.  What is read of the registers is an argument; what is written,
    in order, is part of the result. *)
From S2P Require Import Prelude Bufq Xp Prims Timers Txc Lsc Rc LscCtl Monitors Requests Lmi Hdlc SoftHdlc Spans SdlConfig.
From stdpp Require Import gmap.
#[local] Open Scope Z_scope.
#[local] Open Scope os7_scope.
#[local] Set Warnings "-clear-no-such-hyp".

Definition SDL_GMODE_REM_LB : Z := 2.
Definition SDL_ALARM_RED : Z := 1.
Definition SDL_ALARM_BLU : Z := 2.
Definition SDL_ALARM_YEL : Z := 4.
Definition SDL_ALARM_REC : Z := 8.
Definition X100P_SDL_ALARM_SETTLE_TIME : Z := 5000.
Definition X100P_SDL_CLOCK_SETTLE_TIME : Z := 100.
Definition XP_CLOCK : Z := 0.
Definition XP_LEDTEST : Z := 1.
Definition XP_LED0 : Z := 1.
Definition XP_LED1 : Z := 2.

(** ** State *)

(** What the routine keeps of a card and of its span: [b_sync] is [config.ifsync],
    [b_src] the first of [config.ifsyncsrc], [b_eval] [eval_syncsrc], [b_chans] the
    channels by minor. *)
Record board := Board {
  b_ring : card_buf; b_frame : Z; b_leds : Z; b_clocksettle : Z; b_eval : bool;
  b_sync : Z; b_src : Z; b_span : option span; b_recover : Z; b_loopcnt : Z;
  b_chans : gmap Z xp }.
#[export] Instance eta_board : Eta board := fun r =>
  Board r.(b_ring) r.(b_frame) r.(b_leds) r.(b_clocksettle) r.(b_eval) r.(b_sync) r.(b_src)
    r.(b_span) r.(b_recover) r.(b_loopcnt) r.(b_chans).
#[export] Instance set_b_ring : Setter b_ring := ltac:(mk_setter).
#[export] Instance set_b_frame : Setter b_frame := ltac:(mk_setter).
#[export] Instance set_b_leds : Setter b_leds := ltac:(mk_setter).
#[export] Instance set_b_clocksettle : Setter b_clocksettle := ltac:(mk_setter).
#[export] Instance set_b_eval : Setter b_eval := ltac:(mk_setter).
#[export] Instance set_b_sync : Setter b_sync := ltac:(mk_setter).
#[export] Instance set_b_src : Setter b_src := ltac:(mk_setter).
#[export] Instance set_b_span : Setter b_span := ltac:(mk_setter).
#[export] Instance set_b_recover : Setter b_recover := ltac:(mk_setter).
#[export] Instance set_b_loopcnt : Setter b_loopcnt := ltac:(mk_setter).
#[export] Instance set_b_chans : Setter b_chans := ltac:(mk_setter).

(** What is written: to the interrupt status, to the registers of the card and of the
    framer; a block to the card; the tasklet is scheduled. *)
Inductive out :=
  | Ack (v : Z) | Cr (reg v : Z) | Fr (reg v : Z) | Burst (frmoff : Z) (block : list Z) | Schedule.
(** A part of the routine. *)
Definition act : Type := board → list out * board.
Definition nothing : act := fun b => ([], b).
Definition change (f : board → board) : act := fun b => ([], f b).
Definition emit (f : board → out) : act := fun b => ([f b], b).
Definition andthen (f g : act) : act := fun b =>
  let '(o1, b) := f b in let '(o2, b) := g b in (o1 ++ o2, b).
Definition if_ (c : board → bool) (f g : act) : act := fun b => if c b then f b else g b.
Notation "f ;> g" := (andthen f g) (at level 60, right associativity) : os7_scope.
Definition when (c : board → bool) (f : act) : act := if_ c f nothing.
(** Writes of octets, [cr_outb_p] and [fr_outb_p]. *)
Definition cr_outb (reg : Z) (v : board → Z) : act := emit (fun b => Cr reg (u8 (v b))).
Definition fr_outb (reg v : Z) : act := emit (fun _ => Fr reg (u8 v)).

(** The configuration of the span, of which there is one; without it nothing of the
    configuration is consulted. *)
Definition conf_of (b : board) : sdl_config :=
  match b.(b_span) with
  | Some sp => sp.(sp_conf)
  | None => SdlConfig 0 0 0 0 0 0 0 0 0 0 0 0 0 0 0 0 0 0
  end.
Definition on_conf (f : sdl_config → sdl_config) : act :=
  change (fun b => b <| b_span := (fun sp => sp <| sp_conf := f sp.(sp_conf) |>) <$> b.(b_span) |>).

Section interrupt.
(** The type of the card, the interrupt status, the block in the memory of the card and
    what the registers of the framer hold. *)
Context (e1 : bool) (intstatus : Z) (rd : list Z) (fr_inb_p : Z → Z).

(** ** The parts *)

Definition frmoff : Z := if bit_set intstatus 0x04 then 0 else 256.
Definition burst : act := fun b =>
  match interrupt_burst rd b.(b_ring) with
  | (Some block, ring) => ([Burst frmoff block; Schedule], b <| b_ring := ring |>)
  | (None, _) => ([], b <| b_chans := xp_overflow b.(b_span) b.(b_chans) |>)
  end.
(** [x && !--x]: whether the countdown ends. *)
Definition ends (x : Z) : bool := x =? 1.
Definition down (x : Z) : Z := if x =? 0 then 0 else x - 1.
Definition clock_settling : act :=
  if_ (fun b => ends b.(b_clocksettle))
    (change (fun b => b <| b_clocksettle := 0 |>) ;>
     cr_outb XP_CLOCK (fun b => Z.lor (if e1 then 0x10 else 0x00) b.(b_src)))
    (change (fun b => b <| b_clocksettle := down b.(b_clocksettle) |>)).
Definition yellow (on : bool) : act :=
  if e1 then fr_outb 0x21 (if on then 0x7f else 0x5f) else fr_outb 0x35 (if on then 0x11 else 0x10).
Definition alarm_recovery : act :=
  if_ (fun b => ends b.(b_recover))
    (change (fun b => b <| b_recover := 0 |>) ;>
     on_conf (fun f => f <| ifalarms := clear_flag f.(ifalarms) SDL_ALARM_REC |>) ;>
     yellow false ;>
     change (fun b => b <| b_eval := true |>))
    (change (fun b => b <| b_recover := down b.(b_recover) |>)).
(** The codes that ask for a remote loop and end it, of T1 only. *)
Definition loop_code (status bit : Z) (test : Z → bool) (reg : Z) (f : sdl_config → sdl_config) : act :=
  if_ (fun b => bit_set status bit && negb (bit_set (conf_of b).(ifgmode) SDL_GMODE_LOC_LB))
    (when (fun b => (80 <? b.(b_loopcnt)) && test (conf_of b).(ifgmode))
       (fr_outb 0x1e 0x00 ;> fr_outb 0x40 reg ;> on_conf f) ;>
     change (fun b => b <| b_loopcnt := (b.(b_loopcnt) + 1) mod 2 ^ 64 |>))
    (change (fun b => b <| b_loopcnt := 0 |>)).
Definition loop_up (status : Z) : act :=
  loop_code status 0x80 (fun m => negb (bit_set m SDL_GMODE_REM_LB)) 0x40
    (fun f => f <| ifgmode := Z.lor f.(ifgmode) SDL_GMODE_REM_LB |>).
Definition loop_down (status : Z) : act :=
  loop_code status 0x40 (fun m => bit_set m SDL_GMODE_REM_LB) 0x00
    (fun f => f <| ifgmode := clear_flag f.(ifgmode) SDL_GMODE_REM_LB |>).
Definition in_alarm (b : board) : bool := bit_set (conf_of b).(ifalarms) (Z.lor SDL_ALARM_RED SDL_ALARM_BLU).
(** Red and blue alarms of the status. *)
Definition alarms_of (status : Z) : Z :=
  let alarms := if bit_set status (if e1 then 0x09 else 0x03) then SDL_ALARM_RED else 0 in
  if bit_set status (if e1 then 0x02 else 0x08) then Z.lor alarms SDL_ALARM_BLU else alarms.
Definition set_alarms (alarms status : Z) : act :=
  let alarms := if bit_set status 0x04 then Z.lor alarms SDL_ALARM_YEL else alarms in
  on_conf (fun f => f <| ifalarms := alarms |>).
Definition process_alarms (status : Z) : act :=
  let alarms := alarms_of status in
  if negb (alarms =? 0)
  then
    when (fun b => negb (in_alarm b))
      (yellow true ;> change (fun b => b <| b_eval := true |>)) ;>
    set_alarms alarms status
  else
    if_ in_alarm
      (change (fun b => b <| b_recover := X100P_SDL_ALARM_SETTLE_TIME |>) ;>
       set_alarms SDL_ALARM_REC status)
      (set_alarms 0 status).
Definition status_frame (b : board) : bool := Z.land (Z.shiftr b.(b_frame) 3) 0x3f - 50 =? 0.
Definition process_status : act :=
  if e1
  then fr_outb 0x06 0xff ;> process_alarms (fr_inb_p 0x06)
  else
    on_conf (fun f => f <| ifrxlevel := Z.shiftr (fr_inb_p 0x31) 6 |>) ;>
    fr_outb 0x20 0xff ;>
    loop_up (fr_inb_p 0x20) ;> loop_down (fr_inb_p 0x20) ;>
    process_alarms (fr_inb_p 0x20).
(** The lamps, of which the other bits are kept. *)
Definition lamps (b : board) : Z :=
  if in_alarm b then XP_LED1
  else if bit_set (conf_of b).(ifalarms) SDL_ALARM_YEL
       then if bit_set b.(b_frame) 0x1 then XP_LED0 else XP_LED1
       else XP_LED0.
Definition count_violations : act :=
  when (fun b => Z.land b.(b_frame) 0x1fff =? 0)
    (on_conf (fun f => f <| ifbpv :=
       u32 (f.(ifbpv) + (fr_inb_p (if e1 then 0x01 else 0x24)
                         + Z.shiftl (fr_inb_p (if e1 then 0x00 else 0x23)) 8)) |>)).
Definition span_is_up (b : board) : bool :=
  match b.(b_span) with Some sp => bit_set sp.(sp_conf).(ifflags) SDL_IF_UP | None => false end.
(** The part for a span that is up, and the lamps it asks for. *)
Definition span_part : act := alarm_recovery ;> when status_frame process_status.
Definition set_leds (leds : board → Z) : act :=
  when (fun b => negb (b.(b_leds) =? leds b))
    (cr_outb XP_LEDTEST leds ;> change (fun b => b <| b_leds := leds b |>)).
Definition kept (b : board) : Z := clear_flag b.(b_leds) (Z.lor XP_LED0 XP_LED1).
Definition wanted (b : board) : Z :=
  if (b.(b_src) =? 1) && bool_decide (b.(b_span) ≠ None) &&
     negb ((conf_of b).(ifclock) =? SDL_CLOCK_LOOP) && negb (in_alarm b)
  then b.(b_src) else 0.
Definition eval_syncsrc : act :=
  when b_eval
    (change (fun b => b <| b_eval := false |>) ;>
     when (fun b => negb (b.(b_sync) =? wanted b))
       (change (fun b => b <| b_sync := wanted b |>) ;>
        cr_outb XP_CLOCK (fun b => Z.lor (if e1 then 0x12 else 0x02) b.(b_src)) ;>
        change (fun b => b <| b_clocksettle := X100P_SDL_CLOCK_SETTLE_TIME |>))).
Definition frame_part : act :=
  burst ;> clock_settling ;>
  if_ span_is_up
    (span_part ;> count_violations ;> set_leds (fun b => Z.lor (kept b) (lamps b)))
    (set_leds kept) ;>
  eval_syncsrc ;>
  change (fun b => b <| b_frame := u32 (b.(b_frame) + 8) |>).
(** The result says whether the interrupt was of this card. *)
Definition xp_interrupt (b : board) : bool * list out * board :=
  if intstatus =? 0 then (false, [], b)
  else
    let '(o, b) := (emit (fun _ => Ack intstatus) ;> when (fun _ => bit_set intstatus 0x0f) frame_part) b in
    (true, o, b).
End interrupt.
Definition xp_e1_interrupt := xp_interrupt true.
Definition xp_t1_interrupt := xp_interrupt false.
