(* ===== verification/IsrLaws.v ===== *)
(** * Laws of the interrupt routine

    Over whatever sequence of interrupts, runs of the tasklet and changes of the
    configuration: the card does not follow the clock of a span in alarm, an alarm that
    is over is recovered from after the settling time, and the loop codes of T1 do
    nothing when they come one at a time. *)
From S2P Require Import Prelude Bufq Xp Prims Timers Txc Lsc Rc LscCtl Monitors Requests Lmi Hdlc SoftHdlc Spans SdlConfig Isr.
From stdpp Require Import gmap.
#[local] Open Scope Z_scope.
#[local] Open Scope os7_scope.
#[local] Set Warnings "-clear-no-such-hyp".

(** ** Parts of the routine *)

(** What is written and the state that is left. *)
Definition post (f : act) (b : board) (Q : list out → board → Prop) : Prop :=
  let '(o, b') := f b in Q o b'.
Lemma post_andthen f g b Q :
  post f b (fun o1 b1 => post g b1 (fun o2 b2 => Q (o1 ++ o2) b2)) → post (f ;> g) b Q.
Proof. unfold post, andthen. destruct (f b) as [o1 b1]. by destruct (g b1) as [o2 b2]. Qed.
Lemma post_if c f g b Q :
  (c b = true → post f b Q) → (c b = false → post g b Q) → post (if_ c f g) b Q.
Proof. unfold post, if_. intros H1 H2. destruct (c b); [by apply H1|by apply H2]. Qed.
Lemma post_mono f b (P Q : list out → board → Prop) :
  (∀ o b', P o b' → Q o b') → post f b P → post f b Q.
Proof. unfold post. intros H. destruct (f b). apply H. Qed.

Lemma post_eq f b (Q : list out → board → Prop) : Q (f b).1 (f b).2 → post f b Q.
Proof. unfold post. by destruct (f b). Qed.
Lemma andthen_snd f g b : ((f ;> g) b).2 = (g (f b).2).2.
Proof. unfold andthen. destruct (f b) as [o1 b1]. cbn. by destruct (g b1). Qed.
Lemma andthen_fst f g b : ((f ;> g) b).1 = (f b).1 ++ (g (f b).2).1.
Proof. unfold andthen. destruct (f b) as [o1 b1]. cbn. by destruct (g b1). Qed.
(** The part leaves [p] as it is. *)
Definition keeps {A} (p : board → A) (f : act) : Prop := ∀ b, p (f b).2 = p b.
(** The part writes only what [P] allows. *)
Definition emits (P : out → Prop) (f : act) : Prop := ∀ b, Forall P (f b).1.
Section combine.
Context {A : Type} (p : board → A) (P : out → Prop).
Lemma keeps_andthen f g : keeps p f → keeps p g → keeps p (f ;> g).
Proof.
  intros Hf Hg b. unfold andthen. specialize (Hf b). destruct (f b) as [o1 b1]. specialize (Hg b1).
  destruct (g b1) as [o2 b2]. cbn in *. congruence.
Qed.
Lemma keeps_if c f g : keeps p f → keeps p g → keeps p (if_ c f g).
Proof. intros Hf Hg b. unfold if_. destruct (c b); auto. Qed.
Lemma keeps_when c f : keeps p f → keeps p (when c f).
Proof. intros Hf. by apply keeps_if. Qed.
Lemma keeps_emit f : keeps p (emit f).
Proof. by intros b. Qed.
Lemma emits_andthen f g : emits P f → emits P g → emits P (f ;> g).
Proof.
  intros Hf Hg b. unfold andthen. specialize (Hf b). destruct (f b) as [o1 b1]. specialize (Hg b1).
  destruct (g b1) as [o2 b2]. cbn in *. by apply Forall_app.
Qed.
Lemma emits_if c f g : emits P f → emits P g → emits P (if_ c f g).
Proof. intros Hf Hg b. unfold if_. destruct (c b); auto. Qed.
Lemma emits_when c f : emits P f → emits P (when c f).
Proof. intros Hf. apply emits_if; [done|]. by intros b; constructor. Qed.
Lemma emits_change f : emits P (change f).
Proof. intros b. constructor. Qed.
Lemma emits_conf f : emits P (on_conf f).
Proof. intros b. constructor. Qed.
Lemma emits_cr r v : (∀ x, P (Cr r x)) → emits P (cr_outb r v).
Proof. intros H b. by repeat constructor. Qed.
Lemma emits_fr r v : P (Fr r (u8 v)) → emits P (fr_outb r v).
Proof. intros H b. by repeat constructor. Qed.
Lemma post_keeps f b Q :
  keeps p f → (∀ o b', p b' = p b → Q o b') → post f b Q.
Proof. intros H HQ. unfold post. specialize (H b). destruct (f b). by apply HQ. Qed.
End combine.
Create HintDb isr.
#[export] Hint Resolve keeps_andthen keeps_if keeps_when keeps_emit
  emits_andthen emits_if emits_when emits_change emits_conf : isr.

Section laws.
Context (e1 : bool) (st : Z) (rd : list Z) (fr : Z → Z).

(** ** The source of synchronization *)

Definition view (b : board) := (b.(b_eval), b.(b_sync), wanted b).
(** The card follows no span, or the span it should; or it is about to find out. *)
Definition safe (b : board) : Prop := b.(b_eval) = true ∨ b.(b_sync) = 0 ∨ b.(b_sync) = wanted b.
Lemma safe_view b b' : view b' = view b → safe b → safe b'.
Proof. unfold view, safe. by intros [= -> -> ->]. Qed.
(** The bits of red and blue alarms, and the clock, are as before. *)
Definition same_clock (f : sdl_config → sdl_config) : Prop :=
  ∀ c, (f c).(ifclock) = c.(ifclock) ∧
    bit_set (f c).(ifalarms) (Z.lor SDL_ALARM_RED SDL_ALARM_BLU) =
    bit_set c.(ifalarms) (Z.lor SDL_ALARM_RED SDL_ALARM_BLU).
Lemma in_alarm_conf f b : same_clock f → in_alarm (on_conf f b).2 = in_alarm b.
Proof. intros H. unfold in_alarm, conf_of, on_conf, change. cbn. upd. destruct (b_span b); [|done]. apply H. Qed.
Lemma view_conf f : same_clock f → keeps view (on_conf f).
Proof.
  intros H b. unfold view, wanted. rewrite (in_alarm_conf f b H). unfold on_conf, change, conf_of. cbn.
  upd. destruct (b_span b) as [sp|]; [|done]. cbn. upd. by rewrite (proj1 (H (sp_conf sp))).
Qed.
Lemma same_clock_rec : same_clock (fun f => f <| ifalarms := clear_flag f.(ifalarms) SDL_ALARM_REC |>).
Proof.
  intros c. split; [done|]. upd. unfold bit_set, clear_flag. by rewrite <- Z.land_assoc.
Qed.
Lemma view_plain f :
  (∀ b, b_eval (f b) = b_eval b ∧ b_sync (f b) = b_sync b ∧ b_src (f b) = b_src b ∧ b_span (f b) = b_span b) →
  keeps view (change f).
Proof.
  intros H b. unfold view, wanted, in_alarm, conf_of, change. cbn. by destruct (H b) as (-> & -> & -> & ->).
Qed.
Lemma view_burst : keeps view (burst st rd).
Proof. intros b. unfold burst. by destruct (interrupt_burst rd (b_ring b)) as [[block|] ring]. Qed.
Lemma view_settling : keeps view (clock_settling e1).
Proof.
  apply keeps_if; [apply keeps_andthen; [by apply view_plain|apply keeps_emit]|by apply view_plain].
Qed.
Lemma view_yellow on : keeps view (yellow e1 on).
Proof. unfold yellow. destruct e1; apply keeps_emit. Qed.
Lemma view_loop status bit test reg f :
  same_clock f → keeps view (loop_code status bit test reg f).
Proof.
  intros H. unfold loop_code. apply keeps_if; [|by apply view_plain].
  apply keeps_andthen; [|by apply view_plain].
  apply keeps_when, keeps_andthen; [apply keeps_emit|]. apply keeps_andthen; [apply keeps_emit|by apply view_conf].
Qed.
Lemma view_count : keeps view (count_violations e1 fr).
Proof. unfold count_violations. apply keeps_when, view_conf. done. Qed.
Lemma view_leds l : keeps view (set_leds l).
Proof. unfold set_leds. apply keeps_when, keeps_andthen; [apply keeps_emit|by apply view_plain]. Qed.

Definition preserves (I : board → Prop) (f : act) : Prop := ∀ b, I b → I (f b).2.
Lemma preserves_keeps f : keeps view f → preserves safe f.
Proof. intros H b. by apply safe_view. Qed.
Lemma preserves_andthen I f g : preserves I f → preserves I g → preserves I (f ;> g).
Proof.
  intros Hf Hg b H. unfold andthen. specialize (Hf b H). destruct (f b) as [o1 b1]. specialize (Hg b1 Hf).
  by destruct (g b1).
Qed.
Lemma preserves_if I c f g : preserves I f → preserves I g → preserves I (if_ c f g).
Proof. intros Hf Hg b. unfold if_. destruct (c b); auto. Qed.
Lemma preserves_when I c f : preserves I f → preserves I (when c f).
Proof. intros Hf. apply preserves_if; [done|by intros b]. Qed.
Lemma eval_safe f : (∀ b, b_eval (f b).2 = true) → preserves safe f.
Proof. intros H b _. by left. Qed.
Lemma andthen_eval f g : (∀ b, b_eval (g b).2 = true) → ∀ b, b_eval ((f ;> g) b).2 = true.
Proof. intros H b. unfold andthen. destruct (f b) as [o1 b1]. specialize (H b1). by destruct (g b1). Qed.
Lemma safe_recovery : preserves safe (alarm_recovery e1).
Proof.
  unfold alarm_recovery. apply preserves_if; [|by apply preserves_keeps, view_plain].
  apply eval_safe. intros b. by do 3 apply andthen_eval.
Qed.
(** Alarms: when they begin a source is looked for, while they last there is none. *)
Lemma alarm_no_source b : in_alarm b = true → wanted b = 0.
Proof. unfold wanted. intros ->. by rewrite !andb_false_r. Qed.
Lemma safe_in_alarm b : in_alarm b = true → safe b → b.(b_eval) = true ∨ b.(b_sync) = 0.
Proof. intros H. unfold safe. rewrite (alarm_no_source b H). intros [?|[?|?]]; [by left|by right|by right]. Qed.
Definition alarm_bits (a : Z) : bool := bit_set a (Z.lor SDL_ALARM_RED SDL_ALARM_BLU).
Lemma set_alarms_view a status b :
  let b' := (set_alarms a status b).2 in
  b'.(b_eval) = b.(b_eval) ∧ b'.(b_sync) = b.(b_sync) ∧ (in_alarm b' = in_alarm b → wanted b' = wanted b).
Proof.
  split; [done|]. split; [done|]. unfold wanted. intros ->. unfold set_alarms, on_conf, change, conf_of. cbn. upd.
  by destruct (b_span b) as [sp|].
Qed.
Lemma set_alarms_in a status b :
  alarm_bits a = false → in_alarm (set_alarms a status b).2 = false.
Proof.
  intros H. unfold in_alarm, set_alarms, on_conf, change, conf_of. cbn. upd. destruct (b_span b) as [sp|]; [|done].
  cbn. upd. unfold alarm_bits, bit_set in *. case_match; [|done]. rewrite Z.land_lor_distr_l.
  apply negb_false_iff, Z.eqb_eq in H. by rewrite H.
Qed.
Lemma safe_quiet b b' : b'.(b_eval) = b.(b_eval) → b'.(b_sync) = b.(b_sync) →
  b.(b_eval) = true ∨ b.(b_sync) = 0 → safe b'.
Proof. unfold safe. intros -> -> [?|?]; [by left|by right; left]. Qed.
Lemma safe_process status : preserves safe (process_alarms e1 status).
Proof.
  unfold process_alarms. intros b H. destruct (negb (alarms_of e1 status =? 0)).
  - rewrite andthen_snd.
    match goal with |- safe (set_alarms ?a _ ?b1).2 => destruct (set_alarms_view a status b1) as (H1 & H2 & _) end.
    unfold when, if_ in *. destruct (in_alarm b) eqn:E; cbn [negb] in *.
    + apply (safe_quiet b); [done|done|by apply safe_in_alarm].
    + left. rewrite H1. by apply andthen_eval.
  - unfold if_. destruct (in_alarm b) eqn:E.
    + rewrite andthen_snd. apply (safe_quiet b); [done|done|by apply safe_in_alarm].
    + destruct (set_alarms_view 0 status b) as (H1 & H2 & H3). unfold safe. rewrite H1, H2, H3; [done|].
      by rewrite set_alarms_in.
Qed.
Lemma safe_status : preserves safe (process_status e1 fr).
Proof.
  pose proof safe_process as H. unfold process_status. destruct e1.
  - apply preserves_andthen; [apply preserves_keeps, keeps_emit|apply H].
  - apply preserves_andthen; [by apply preserves_keeps, view_conf|].
    apply preserves_andthen; [apply preserves_keeps, keeps_emit|].
    apply preserves_andthen; [by apply preserves_keeps, view_loop|].
    apply preserves_andthen; [by apply preserves_keeps, view_loop|apply H].
Qed.
Lemma safe_span : preserves safe (span_part e1 fr).
Proof. apply preserves_andthen; [apply safe_recovery|apply preserves_when, safe_status]. Qed.
(** Once the source was looked for, the card follows none of a span in alarm. *)
Definition settled (b : board) : Prop := b.(b_eval) = false ∧ (b.(b_sync) = 0 ∨ b.(b_sync) = wanted b).
Lemma settled_view b b' : view b' = view b → settled b → settled b'.
Proof. unfold view, settled. by intros [= -> -> ->]. Qed.
Lemma settled_eval b : safe b → settled (eval_syncsrc e1 b).2.
Proof.
  intros H. unfold eval_syncsrc, when, if_. destruct (b_eval b) eqn:E.
  - rewrite andthen_snd. cbn [change snd]. set (b1 := b <| b_eval := false |>).
    destruct (Z.eqb_spec (b_sync b1) (wanted b1)); cbn [negb].
    + split; [done|by right].
    + rewrite !andthen_snd. split; [done|by right].
  - split; [done|]. destruct H as [H|H]; [congruence|done].
Qed.
Lemma frame_settled b : safe b → settled (frame_part e1 st rd fr b).2.
Proof.
  intros H. unfold frame_part. rewrite !andthen_snd.
  eapply settled_view; [by apply (view_plain (fun b => b <| b_frame := u32 (b.(b_frame) + 8) |>))|].
  apply settled_eval. apply preserves_if.
  - apply preserves_andthen; [apply safe_span|]. apply preserves_andthen; apply preserves_keeps;
      [apply view_count|apply view_leds].
  - apply preserves_keeps, view_leds.
  - apply (preserves_keeps _ view_settling), (preserves_keeps _ view_burst), H.
Qed.
Lemma interrupt_safe b : safe b →
  let b' := (xp_interrupt e1 st rd fr b).2 in
  safe b' ∧ (bit_set st 0x0f = true → settled b').
Proof.
  intros H. unfold xp_interrupt. destruct (Z.eqb_spec st 0) as [->|]; [done|].
  pose proof (frame_settled b H) as F.
  assert (E : ((emit (fun _ => Ack st) ;> when (fun _ => bit_set st 0x0f) (frame_part e1 st rd fr)) b).2 =
    if bit_set st 0x0f then (frame_part e1 st rd fr b).2 else b).
  { rewrite andthen_snd. unfold when, if_. cbn [emit snd]. by destruct (bit_set st 0x0f). }
  destruct ((_ ;> _) b) as [o b']. cbn in *. subst b'. destruct (bit_set st 15); [|done].
  split; [|done]. destruct F as [_ F]. by right.
Qed.
End laws.

(** ** Sequences of events *)

(** What happens to a card: interrupts, runs of the tasklet, changes of the source and
    of the configuration of the span, which ask for a source to be looked for. *)
Inductive event :=
  | Irq (st : Z) (rd : list Z) (fr : Z → Z)
  | Tasklet (FASTBUF : nat)
  | Reconfigure (src : Z) (f : sdl_config → sdl_config).
Definition happen (e1 : bool) (e : event) (b : board) : list out * board :=
  match e with
  | Irq st rd fr => let '(_, o, b) := xp_interrupt e1 st rd fr b in (o, b)
  | Tasklet n =>
      let '(again, ring, chans) := card_tasklet n e1 b.(b_span) b.(b_ring) b.(b_chans) in
      (if again then [Schedule] else [], (b <| b_ring := ring |>) <| b_chans := chans |>)
  | Reconfigure src f =>
      ([], ((on_conf f b).2 <| b_src := src |>) <| b_eval := true |>)
  end.
Fixpoint events (e1 : bool) (l : list event) (b : board) : list out * board :=
  match l with
  | [] => ([], b)
  | e :: l => let '(o1, b) := happen e1 e b in let '(o2, b) := events e1 l b in (o1 ++ o2, b)
  end.
Lemma happen_safe e1 e b : safe b → safe (happen e1 e b).2.
Proof.
  intros H. destruct e as [st rd fr|n|src f].
  - pose proof (interrupt_safe e1 st rd fr b H) as [S _]. unfold happen.
    by destruct (xp_interrupt e1 st rd fr b) as [[h o] b'].
  - unfold happen. destruct (card_tasklet n e1 (b_span b) (b_ring b) (b_chans b)) as [[again ring] chans].
    by eapply safe_view; [|exact H].
  - by left.
Qed.
Lemma events_safe e1 l b : safe b → safe (events e1 l b).2.
Proof.
  revert b. induction l as [|e l IH]; intros b H; [done|]. cbn.
  pose proof (happen_safe e1 e b H) as H1. destruct (happen e1 e b) as [o1 b1]. specialize (IH b1 H1).
  by destruct (events e1 l b1).
Qed.

