(* ===== verification/IsrRecover.v ===== *)
(** * Recovery from alarms

    After an alarm is over the yellow alarm is sent for the settling time and then
    switched off, and the card looks for its source of synchronization again. *)
From S2P Require Import Prelude Bufq Xp Prims Timers Txc Lsc Rc LscCtl Monitors Requests Lmi Hdlc SoftHdlc Spans SdlConfig Isr IsrLaws.
From stdpp Require Import gmap.
#[local] Open Scope Z_scope.
#[local] Open Scope os7_scope.
#[local] Set Warnings "-clear-no-such-hyp".

Definition yellow_off (e1 : bool) : out := if e1 then Fr 0x21 0x5f else Fr 0x35 0x10.
(** What decides over the recovery. *)
Definition front (b : board) := (b.(b_recover), span_is_up b, in_alarm b).

Section recover.
Context (e1 : bool) (st : Z) (rd : list Z) (fr : Z → Z).

(** ** What the parts leave and write *)

Definition same_front (f : sdl_config → sdl_config) : Prop :=
  ∀ c, (f c).(ifflags) = c.(ifflags) ∧ alarm_bits (f c).(ifalarms) = alarm_bits c.(ifalarms).
Lemma front_conf f : same_front f → keeps front (on_conf f).
Proof.
  intros H b. unfold front, span_is_up, in_alarm, conf_of, on_conf, change. cbn. upd.
  destruct (b_span b) as [sp|]; [|done]. cbn. upd. destruct (H (sp_conf sp)) as [-> E].
  unfold alarm_bits in E. by rewrite E.
Qed.
Lemma front_plain f :
  (∀ b, b_recover (f b) = b_recover b ∧ b_span (f b) = b_span b) → keeps front (change f).
Proof.
  intros H b. unfold front, span_is_up, in_alarm, conf_of, change. cbn. by destruct (H b) as (-> & ->).
Qed.
Lemma front_burst : keeps front (burst st rd).
Proof. intros b. unfold burst. by destruct (interrupt_burst rd (b_ring b)) as [[block|] ring]. Qed.
Lemma front_settling : keeps front (clock_settling e1).
Proof.
  apply keeps_if; [apply keeps_andthen; [by apply front_plain|apply keeps_emit]|by apply front_plain].
Qed.
Lemma front_loop status bit test reg f :
  same_front f → keeps front (loop_code status bit test reg f).
Proof.
  intros H. unfold loop_code. apply keeps_if; [|by apply front_plain].
  apply keeps_andthen; [|by apply front_plain].
  apply keeps_when, keeps_andthen; [apply keeps_emit|]. apply keeps_andthen; [apply keeps_emit|by apply front_conf].
Qed.
Lemma front_count : keeps front (count_violations e1 fr).
Proof. by apply keeps_when, front_conf. Qed.
Lemma front_leds l : keeps front (set_leds l).
Proof. apply keeps_when, keeps_andthen; [apply keeps_emit|by apply front_plain]. Qed.
Lemma front_eval : keeps front (eval_syncsrc e1).
Proof.
  apply keeps_when, keeps_andthen; [by apply front_plain|].
  apply keeps_when, keeps_andthen; [by apply front_plain|].
  apply keeps_andthen; [apply keeps_emit|by apply front_plain].
Qed.
Definition not_off (o : out) : Prop := o ≠ yellow_off e1.
Lemma cr_not_off r x : not_off (Cr r x).
Proof. unfold not_off, yellow_off. by destruct e1. Qed.
Lemma fr_not_off r x : r ∉ [0x21; 0x35] → not_off (Fr r x).
Proof. unfold not_off, yellow_off. intros H. destruct e1; intros [= -> ->]; apply H; set_solver. Qed.
Lemma off_burst : emits not_off (burst st rd).
Proof.
  intros b. unfold burst, not_off, yellow_off.
  destruct (interrupt_burst rd (b_ring b)) as [[block|] ring]; repeat constructor; by destruct e1.
Qed.
Lemma off_settling : emits not_off (clock_settling e1).
Proof. apply emits_if; [apply emits_andthen; [apply emits_change|apply emits_cr, cr_not_off]|apply emits_change]. Qed.
Lemma off_loop status bit test reg f : emits not_off (loop_code status bit test reg f).
Proof.
  apply emits_if; [|apply emits_change]. apply emits_andthen; [|apply emits_change].
  apply emits_when, emits_andthen; [|apply emits_andthen; [|apply emits_conf]];
    apply emits_fr, fr_not_off; set_solver.
Qed.
Lemma off_leds l : emits not_off (set_leds l).
Proof. apply emits_when, emits_andthen; [apply emits_cr, cr_not_off|apply emits_change]. Qed.
Lemma off_eval : emits not_off (eval_syncsrc e1).
Proof.
  apply emits_when, emits_andthen; [apply emits_change|].
  apply emits_when, emits_andthen; [apply emits_change|].
  apply emits_andthen; [apply emits_cr, cr_not_off|apply emits_change].
Qed.
Lemma off_process status : emits not_off (process_alarms e1 status).
Proof.
  unfold process_alarms. case_match.
  - apply emits_andthen; [|apply emits_conf]. apply emits_when, emits_andthen; [|apply emits_change].
    unfold yellow, not_off, yellow_off. destruct e1; by apply emits_fr.
  - apply emits_if; [apply emits_andthen; [apply emits_change|]|]; apply emits_conf.
Qed.
Lemma off_status : emits not_off (process_status e1 fr).
Proof.
  pose proof off_process as P. pose proof off_loop as L. pose proof fr_not_off as F.
  unfold process_status. destruct e1.
  - apply emits_andthen; [apply emits_fr, F; set_solver|apply P].
  - apply emits_andthen; [apply emits_conf|]. apply emits_andthen; [apply emits_fr, F; set_solver|].
    apply emits_andthen; [apply L|]. apply emits_andthen; [apply L|apply P].
Qed.
(** ** A frame without alarms *)

Definition status_reg : Z := if e1 then 0x06 else 0x20.
Definition no_alarms : Prop := alarms_of e1 (fr status_reg) = 0.
Lemma front_set_alarms a status b :
  alarm_bits a = false → front (set_alarms a status b).2 = (b.(b_recover), span_is_up b, false).
Proof.
  intros H. unfold front. rewrite set_alarms_in by done. f_equal. f_equal.
  unfold span_is_up, set_alarms, on_conf, change. cbn. upd. by destruct (b_span b).
Qed.
Lemma process_quiet status b n up :
  alarms_of e1 status = 0 → front b = (n, up, false) → front (process_alarms e1 status b).2 = (n, up, false).
Proof.
  intros Ha [= Hn Hu Hi]. unfold process_alarms. rewrite Ha. cbn [Z.eqb negb]. unfold if_. rewrite Hi.
  rewrite front_set_alarms by done. by rewrite Hn, Hu.
Qed.
(** The parts before the status is processed. *)
Lemma eval_loop status bit test reg f : keeps b_eval (loop_code status bit test reg f).
Proof.
  apply keeps_if; [|by intros b]. apply keeps_andthen; [|by intros b].
  apply keeps_when, keeps_andthen; [apply keeps_emit|]. apply keeps_andthen; [apply keeps_emit|by intros b].
Qed.
Lemma status_front (Q : board → Prop) b :
  (∀ b1, front b1 = front b → b1.(b_eval) = b.(b_eval) → Q (process_alarms e1 (fr status_reg) b1).2) →
  Q (process_status e1 fr b).2.
Proof.
  pose proof front_loop as L. pose proof eval_loop as E. pose proof front_conf as C.
  intros HQ. unfold process_status, status_reg in *. destruct e1.
  - rewrite andthen_snd. by apply HQ.
  - rewrite !andthen_snd. apply HQ.
    + etrans; [by apply L|]. etrans; [by apply L|]. by apply (C (fun f => f <| ifrxlevel := _ |>)).
    + etrans; [by apply E|]. by etrans; [apply E|].
Qed.
Lemma status_quiet b n up :
  no_alarms → front b = (n, up, false) →
  front (process_status e1 fr b).2 = (n, up, false) ∧
  (b.(b_eval) = true → b_eval (process_status e1 fr b).2 = true).
Proof.
  intros Ha Hf. apply (status_front (fun b' => front b' = (n, up, false) ∧ (b.(b_eval) = true → b'.(b_eval) = true))).
  intros b1 H1 H2. split.
  - apply process_quiet; [done|congruence].
  - intros Hb. unfold process_alarms. rewrite Ha. cbn [Z.eqb negb]. unfold if_.
    rewrite <- H2 in Hb. by destruct (in_alarm b1).
Qed.
(** What a frame without alarms leaves when [n] are left of the recovery: before the
    source of synchronization is looked for, and after. *)
Definition recovering (n : Z) (o : list out) (b : board) : Prop :=
  front b = (n - 1, true, false) ∧ (n = 1 → yellow_off e1 ∈ o ∧ b.(b_eval) = true) ∧ (n ≠ 1 → Forall not_off o).
Definition recovered (n : Z) (o : list out) (b : board) : Prop :=
  front b = (n - 1, true, false) ∧ (n = 1 → yellow_off e1 ∈ o ∧ b.(b_sync) = wanted b) ∧ (n ≠ 1 → Forall not_off o).
Lemma span_quiet b n :
  no_alarms → front b = (n, true, false) → 1 ≤ n →
  post (span_part e1 fr) b (recovering n).
Proof.
  intros Ha Hf Hn. apply post_andthen.
  eapply post_mono with (P := recovering n).
  - intros o1 b1 (H1 & H2 & H3). unfold post.
    pose proof (emits_when _ status_frame _ off_status b1) as E.
    destruct (when status_frame (process_status e1 fr) b1) as [o2 b2] eqn:Ew. unfold when, if_ in Ew.
    assert (G : front b2 = (n - 1, true, false) ∧ (b1.(b_eval) = true → b2.(b_eval) = true)).
    { destruct (status_frame b1); [|by injection Ew as <- <-].
      replace b2 with (process_status e1 fr b1).2 by (by rewrite Ew). by apply status_quiet. }
    destruct G as [G1 G2]. split; [done|]. split.
    + intros H. destruct (H2 H) as [? ?]. split; [apply elem_of_app; by left|by apply G2].
    + intros H. apply Forall_app. split; [by apply H3|done].
  - injection Hf as Hr Hu Hi. unfold alarm_recovery. apply post_if; unfold ends; rewrite Hr.
    + intros ->%Z.eqb_eq. apply post_eq. rewrite !andthen_snd, !andthen_fst. split; [|split; [|done]].
      * etrans; [by apply (front_plain (fun b => b <| b_eval := true |>))|].
        assert (Hy : ∀ b, (yellow e1 false b).2 = b) by (intros x; unfold yellow; by destruct e1). rewrite Hy.
        etrans; [by apply front_conf; intros c; split; [done|apply same_clock_rec]|].
        unfold front. f_equal; [f_equal|]; done.
      * intros _. split; [|done]. unfold yellow, yellow_off. destruct e1; cbn; by left.
    + intros H%Z.eqb_neq. apply post_eq. split; [|split; [done|by constructor]].
      unfold front, change, down. cbn. rewrite Hr. rewrite (proj2 (Z.eqb_neq n 0)) by lia. f_equal; [f_equal|]; done.
Qed.
Lemma recovering_then f n o b :
  keeps front f → keeps b_eval f → emits not_off f → recovering n o b →
  post f b (fun o' b' => recovering n (o ++ o') b').
Proof.
  intros Hf He Ho (H1 & H2 & H3). apply post_eq. split; [by rewrite Hf|]. split.
  - intros H. destruct (H2 H). split; [apply elem_of_app; by left|by rewrite He].
  - intros H. apply Forall_app. split; [by apply H3|apply Ho].
Qed.
Lemma recovered_prefix n o1 o b : Forall not_off o1 → recovered n o b → recovered n (o1 ++ o) b.
Proof.
  intros Ho (H1 & H2 & H3). split; [done|]. split.
  - intros H. destruct (H2 H). split; [apply elem_of_app; by right|done].
  - intros H. apply Forall_app. split; [done|by apply H3].
Qed.
Lemma then_recovered n f g b :
  keeps front f → emits not_off f → (∀ b1, front b1 = front b → post g b1 (recovered n)) →
  post (f ;> g) b (recovered n).
Proof.
  intros Hf Ho Hg. apply post_andthen, post_eq. specialize (Hg (f b).2 (Hf b)).
  eapply post_mono; [|exact Hg]. intros o b'. by apply recovered_prefix.
Qed.
Lemma eval_wanted b : b.(b_eval) = true → b_sync (eval_syncsrc e1 b).2 = wanted (eval_syncsrc e1 b).2.
Proof.
  intros E. unfold eval_syncsrc, when, if_. rewrite E, !andthen_snd. cbn [change snd].
  set (b1 := b <| b_eval := false |>).
  destruct (Z.eqb_spec (b_sync b1) (wanted b1)) as [E1|E1]; cbn [negb]; [exact E1|]. by rewrite !andthen_snd.
Qed.
Lemma count_then_leds l n o b :
  recovering n o b → post (count_violations e1 fr ;> set_leds l) b (fun o' b' => recovering n (o ++ o') b').
Proof.
  apply recovering_then.
  - apply keeps_andthen; [apply front_count|apply front_leds].
  - apply keeps_andthen; [apply keeps_when; by intros x|].
    apply keeps_when, keeps_andthen; [apply keeps_emit|by intros x].
  - apply emits_andthen; [apply emits_when, emits_conf|apply off_leds].
Qed.
Lemma frame_quiet b n :
  no_alarms → front b = (n, true, false) → 1 ≤ n → post (frame_part e1 st rd fr) b (recovered n).
Proof.
  intros Ha Hf Hn. apply then_recovered; [apply front_burst|apply off_burst|]. intros b1 H1.
  apply then_recovered; [apply front_settling|apply off_settling|]. intros b2 H2. apply post_andthen.
  assert (F : front b2 = (n, true, false)) by congruence. injection F as Fr Fu Fi.
  apply post_if; [intros _|congruence]. apply post_andthen.
  eapply post_mono; [|apply span_quiet; [done|by unfold front; rewrite Fr, Fu, Fi|done]].
  intros o3 b3 H3. eapply post_mono; [|by apply count_then_leds]. intros o4 b4 (G1 & G2 & G3).
  apply post_eq. rewrite andthen_snd, andthen_fst. cbn [change fst snd]. rewrite app_nil_r. split; [|split].
  - trans (front (eval_syncsrc e1 b4).2); [done|]. by rewrite front_eval.
  - intros H. destruct (G2 H) as [G4 G5]. split; [apply elem_of_app; by left|].
    pose proof (eval_wanted b4 G5) as W. exact W.
  - intros H. apply Forall_app. split; [by apply G3|apply off_eval].
Qed.

(** ** The frame in which alarms end *)

Definition sight (b : board) := (b.(b_frame), span_is_up b, in_alarm b).
Lemma sight_front b b' : b'.(b_frame) = b.(b_frame) → front b' = front b → sight b' = sight b.
Proof. unfold sight, front. by intros -> [= _ -> ->]. Qed.
Lemma sight_recovery : keeps sight (alarm_recovery e1).
Proof.
  intros b. unfold alarm_recovery, if_. destruct (ends (b_recover b)); [|done]. rewrite !andthen_snd.
  assert (Hy : ∀ b, (yellow e1 false b).2 = b) by (intros x; unfold yellow; by destruct e1). rewrite Hy.
  trans (sight (b <| b_recover := 0 |>)); [|done]. 
  apply (sight_front (b <| b_recover := 0 |>)); [done|]. 
  trans (front (on_conf (fun f => f <| ifalarms := clear_flag f.(ifalarms) SDL_ALARM_REC |>) (b <| b_recover := 0 |>)).2);
    [done|]. apply front_conf. intros c. split; [done|apply same_clock_rec].
Qed.
Lemma process_end status b :
  alarms_of e1 status = 0 → in_alarm b = true →
  front (process_alarms e1 status b).2 = (X100P_SDL_ALARM_SETTLE_TIME, span_is_up b, false).
Proof.
  intros Ha Hi. unfold process_alarms. rewrite Ha. cbn [Z.eqb negb]. unfold if_. rewrite Hi, andthen_snd.
  by rewrite front_set_alarms.
Qed.
Lemma alarm_ends b :
  no_alarms → in_alarm b = true → span_is_up b = true → status_frame b = true →
  front (frame_part e1 st rd fr b).2 = (X100P_SDL_ALARM_SETTLE_TIME, true, false).
Proof.
  intros Ha Hi Hu Hs. unfold frame_part. rewrite !andthen_snd.
  trans (front (if_ span_is_up (span_part e1 fr ;> count_violations e1 fr ;> set_leds (fun b => Z.lor (kept b) (lamps b)))
    (set_leds kept) (clock_settling e1 (burst st rd b).2).2).2);
    [match goal with |- _ = front ?x => exact (front_eval x) end|].
  assert (S : sight (clock_settling e1 (burst st rd b).2).2 = sight b).
  { apply sight_front; [|by rewrite front_settling, front_burst].
    unfold clock_settling, if_, burst. by repeat case_match. }
  revert S. generalize (clock_settling e1 (burst st rd b).2).2. intros b1 [= S1 S2 S3].
  unfold if_. rewrite S2, Hu, !andthen_snd, front_leds, front_count. unfold span_part. rewrite andthen_snd.
  pose proof (sight_recovery b1) as [= R1 R2 R3]. revert R1 R2 R3. generalize (alarm_recovery e1 b1).2.
  intros b2 R1 R2 R3. unfold when, if_.
  assert (status_frame b2 = true) as -> by (unfold status_frame in *; by rewrite R1, S1).
  apply (status_front (fun b' => front b' = (X100P_SDL_ALARM_SETTLE_TIME, true, false))).
  intros b3 [= _ F2 F3] _. rewrite process_end; [|done|congruence]. by rewrite F2, R2, S2, Hu.
Qed.
End recover.

(** ** Sequences of events *)

(** Interrupts for a frame whose status shows no alarm, and the tasklet. *)
Definition quiet (e1 : bool) (e : event) : Prop :=
  match e with
  | Irq st _ fr => bit_set st 0x0f = true ∧ no_alarms e1 fr
  | Tasklet _ => True
  | Reconfigure _ _ => False
  end.
Fixpoint frames (l : list event) : Z :=
  match l with [] => 0 | Irq _ _ _ :: l => 1 + frames l | _ :: l => frames l end.
Lemma happen_irq e1 st rd fr b :
  bit_set st 0x0f = true →
  happen e1 (Irq st rd fr) b = (Ack st :: (frame_part e1 st rd fr b).1, (frame_part e1 st rd fr b).2).
Proof.
  intros H. unfold happen, xp_interrupt. destruct (Z.eqb_spec st 0) as [->|]; [done|].
  unfold andthen, when, if_. cbn. rewrite H. by destruct (frame_part e1 st rd fr b).
Qed.
Lemma quiet_irq e1 st rd fr b n :
  quiet e1 (Irq st rd fr) → front b = (n, true, false) → 1 ≤ n →
  recovered e1 n (happen e1 (Irq st rd fr) b).1 (happen e1 (Irq st rd fr) b).2.
Proof.
  intros [Hs Ha] Hf Hn. rewrite happen_irq by done. cbn [fst snd].
  apply (recovered_prefix e1 n [Ack st]).
  - constructor; [|done]. unfold not_off, yellow_off. by destruct e1.
  - pose proof (frame_quiet e1 st rd fr b n Ha Hf Hn) as P. unfold post in P.
    by destruct (frame_part e1 st rd fr b).
Qed.
Lemma quiet_tasklet e1 k b :
  front (happen e1 (Tasklet k) b).2 = front b ∧ Forall (not_off e1) (happen e1 (Tasklet k) b).1.
Proof.
  unfold happen. destruct (card_tasklet k e1 (b_span b) (b_ring b) (b_chans b)) as [[again ring] chans].
  split; [done|]. destruct again; repeat constructor. unfold not_off, yellow_off. by destruct e1.
Qed.
Lemma frames_nonneg l : 0 ≤ frames l.
Proof. induction l as [|[] l]; cbn; lia. Qed.
Lemma quiet_events e1 l b n :
  Forall (quiet e1) l → front b = (n, true, false) → frames l < n →
  front (events e1 l b).2 = (n - frames l, true, false) ∧ Forall (not_off e1) (events e1 l b).1.
Proof.
  revert b n. induction l as [|e l IH]; intros b n Hl Hf Hn.
  - cbn. split; [by rewrite Z.sub_0_r|done].
  - apply Forall_cons in Hl as [He Hl]. pose proof (frames_nonneg l) as Hp. cbn [events].
    destruct e as [st rd fr|k|]; [| |done]; cbn [frames] in *.
    + destruct (quiet_irq e1 st rd fr b n He Hf) as (H1 & _ & H3); [lia|].
      destruct (happen e1 (Irq st rd fr) b) as [o1 b1]. cbn [fst snd] in *.
      destruct (IH b1 (n - 1) Hl H1) as [G1 G2]; [lia|]. destruct (events e1 l b1) as [o2 b2]. cbn [fst snd] in *.
      split; [rewrite G1; do 2 f_equal; lia|]. apply Forall_app. split; [apply H3; lia|done].
    + destruct (quiet_tasklet e1 k b) as [H1 H3]. destruct (happen e1 (Tasklet k) b) as [o1 b1]. cbn [fst snd] in *.
      destruct (IH b1 n Hl) as [G1 G2]; [congruence|lia|]. destruct (events e1 l b1) as [o2 b2].
      split; [done|]. by apply Forall_app.
Qed.

