(* ===== verification/IsrLoop.v ===== *)
(** * The loop codes of T1

    The branch of the code that is not received resets the count that the other has
    just advanced, so that a loop is neither set up nor taken down unless both codes are
    seen at once. *)
From S2P Require Import Prelude Bufq Xp Prims Timers Txc Lsc Rc LscCtl Monitors Requests Lmi Hdlc SoftHdlc.
From S2P Require Import Spans SdlConfig Isr IsrLaws.
From stdpp Require Import gmap.
#[local] Open Scope Z_scope.
#[local] Open Scope os7_scope.
#[local] Set Warnings "-clear-no-such-hyp".

(** Not a write to the registers of the local and the remote loop. *)
Definition no_loop (o : out) : Prop := match o with Fr reg _ => reg ≠ 0x1e ∧ reg ≠ 0x40 | _ => True end.
Definition remote_loop (b : board) : bool := bit_set (conf_of b).(ifgmode) SDL_GMODE_REM_LB.
Definition loops (b : board) := (b.(b_loopcnt), remote_loop b).

Section loop.
Context (st : Z) (rd : list Z) (fr : Z → Z).
Definition same_mode (f : sdl_config → sdl_config) : Prop := ∀ c, (f c).(ifgmode) = c.(ifgmode).
Lemma loops_conf f : same_mode f → keeps loops (on_conf f).
Proof.
  intros H b. unfold loops, remote_loop, conf_of, on_conf, change. cbn. upd.
  destruct (b_span b) as [sp|]; [|done]. cbn. upd. by rewrite H.
Qed.
Lemma loops_plain f :
  (∀ b, b_loopcnt (f b) = b_loopcnt b ∧ b_span (f b) = b_span b) → keeps loops (change f).
Proof.
  intros H b. unfold loops, remote_loop, conf_of, change. cbn. by destruct (H b) as (-> & ->).
Qed.
Lemma loops_burst : keeps loops (burst st rd).
Proof. intros b. unfold burst. by destruct (interrupt_burst rd (b_ring b)) as [[block|] ring]. Qed.
Lemma loops_settling : keeps loops (clock_settling false).
Proof.
  apply keeps_if; [apply keeps_andthen; [by apply loops_plain|apply keeps_emit]|by apply loops_plain].
Qed.
Lemma loops_recovery : keeps loops (alarm_recovery false).
Proof.
  apply keeps_if; [|by apply loops_plain]. apply keeps_andthen; [by apply loops_plain|].
  apply keeps_andthen; [by apply loops_conf|]. apply keeps_andthen; [apply keeps_emit|by apply loops_plain].
Qed.
Lemma loops_process status : keeps loops (process_alarms false status).
Proof.
  unfold process_alarms. case_match.
  - apply keeps_andthen; [|by apply loops_conf]. apply keeps_when, keeps_andthen; [apply keeps_emit|by apply loops_plain].
  - apply keeps_if; [|by apply loops_conf]. apply keeps_andthen; [by apply loops_plain|by apply loops_conf].
Qed.
Lemma loops_leds l : keeps loops (set_leds l).
Proof. apply keeps_when, keeps_andthen; [apply keeps_emit|by apply loops_plain]. Qed.
Lemma loops_eval : keeps loops (eval_syncsrc false).
Proof.
  apply keeps_when, keeps_andthen; [by apply loops_plain|].
  apply keeps_when, keeps_andthen; [by apply loops_plain|].
  apply keeps_andthen; [apply keeps_emit|by apply loops_plain].
Qed.
(** A code that is not received resets the count; one that is advances it. *)
Lemma code_absent status bit test reg f b :
  bit_set status bit = false → loop_code status bit test reg f b = ([], b <| b_loopcnt := 0 |>).
Proof. intros H. unfold loop_code, if_. by rewrite H. Qed.
Lemma code_few status bit test reg f b :
  0 ≤ b.(b_loopcnt) ≤ 1 →
  (loop_code status bit test reg f b).1 = [] ∧
  remote_loop (loop_code status bit test reg f b).2 = remote_loop b ∧
  0 ≤ b_loopcnt (loop_code status bit test reg f b).2 ≤ b.(b_loopcnt) + 1.
Proof.
  intros H. unfold loop_code, if_. case_match; [|split; [done|split; [done|cbn; upd; lia]]].
  assert (E : (80 <? b_loopcnt b) = false) by lia.
  rewrite andthen_fst, andthen_snd. unfold when, if_. rewrite E. cbn [andb]. split; [done|]. split; [done|].
  cbn. upd. rewrite Z.mod_small; lia.
Qed.
(** A status without both codes. *)
Definition one_code : Prop := bit_set (fr 0x20) 0x80 && bit_set (fr 0x20) 0x40 = false.
Lemma loops_codes b :
  one_code → 0 ≤ b.(b_loopcnt) ≤ 1 →
  post (loop_up (fr 0x20) ;> loop_down (fr 0x20)) b
    (fun o b' => o = [] ∧ remote_loop b' = remote_loop b ∧ 0 ≤ b'.(b_loopcnt) ≤ 1).
Proof.
  unfold one_code. intros Ho Hb. apply post_eq. rewrite andthen_fst, andthen_snd.
  destruct (bit_set (fr 32) 0x80) eqn:E1; cbn [andb] in Ho.
  - destruct (code_few (fr 32) 0x80 (fun m => negb (bit_set m SDL_GMODE_REM_LB)) 0x40
      (fun f => f <| ifgmode := Z.lor f.(ifgmode) SDL_GMODE_REM_LB |>) b Hb) as (H1 & H2 & H3).
    fold (loop_up (fr 32)) in *. unfold loop_down. rewrite H1, code_absent by done. split; [done|]. split; [done|].
    cbn. upd. lia.
  - unfold loop_up. rewrite code_absent by done. cbn [fst snd app].
    destruct (code_few (fr 32) 0x40 (fun m => bit_set m SDL_GMODE_REM_LB) 0x00
      (fun f => f <| ifgmode := clear_flag f.(ifgmode) SDL_GMODE_REM_LB |>) (b <| b_loopcnt := 0 |>)) as (H1 & H2 & H3);
      [upd; lia|].
    fold (loop_down (fr 32)) in *. split; [done|]. split; [done|]. revert H3. upd. lia.
Qed.

(** ** A frame *)

Definition few (b : board) : Prop := 0 ≤ b.(b_loopcnt) ≤ 1.
Definition inert (f : act) : Prop := ∀ b, few b →
  Forall no_loop (f b).1 ∧ remote_loop (f b).2 = remote_loop b ∧ few (f b).2.
Lemma inert_keeps f : keeps loops f → emits no_loop f → inert f.
Proof. intros Hk He b H. specialize (Hk b). injection Hk as H1 H2. unfold few. rewrite H1, H2. split; [apply He|done]. Qed.
Lemma inert_andthen f g : inert f → inert g → inert (f ;> g).
Proof.
  intros Hf Hg b H. rewrite andthen_fst, andthen_snd. destruct (Hf b H) as (F1 & F2 & F3).
  destruct (Hg _ F3) as (G1 & G2 & G3). split_and!; [by apply Forall_app|congruence|done].
Qed.
Lemma inert_if c f g : inert f → inert g → inert (if_ c f g).
Proof. intros Hf Hg b. unfold if_. destruct (c b); auto. Qed.
Lemma inert_when c f : inert f → inert (when c f).
Proof. intros Hf. apply inert_if; [done|]. apply inert_keeps; [by intros b|intros b; constructor]. Qed.
Lemma inert_codes h : one_code → inert h → inert (loop_up (fr 0x20) ;> loop_down (fr 0x20) ;> h).
Proof.
  intros Ho Hh b H. rewrite !andthen_fst, !andthen_snd.
  pose proof (loops_codes b Ho H) as P. unfold post in P.
  pose proof (andthen_fst (loop_up (fr 32)) (loop_down (fr 32)) b) as E1.
  pose proof (andthen_snd (loop_up (fr 32)) (loop_down (fr 32)) b) as E2.
  destruct ((loop_up (fr 32) ;> loop_down (fr 32)) b) as [o b']. cbn [fst snd] in *. subst b'.
  destruct P as (-> & P1 & P2). symmetry in E1. apply app_nil in E1 as [-> ->]. cbn [app].
  destruct (Hh _ P2) as (H1 & H2 & H3). split_and!; [done|congruence|done].
Qed.
Lemma inert_process status : inert (process_alarms false status).
Proof.
  apply inert_keeps; [apply loops_process|]. unfold process_alarms. case_match.
  - apply emits_andthen; [|apply emits_conf]. apply emits_when, emits_andthen; [|apply emits_change].
    by apply emits_fr.
  - apply emits_if; [apply emits_andthen; [apply emits_change|]|]; apply emits_conf.
Qed.
Lemma inert_status : one_code → inert (process_status false fr).
Proof.
  intros Ho. unfold process_status. apply inert_andthen; [apply inert_keeps; [by apply loops_conf|apply emits_conf]|].
  apply inert_andthen; [apply inert_keeps; [apply keeps_emit|by apply emits_fr]|].
  apply inert_codes; [done|apply inert_process].
Qed.
Lemma inert_leds l : inert (set_leds l).
Proof.
  apply inert_keeps; [apply loops_leds|].
  apply emits_when, emits_andthen; [by apply emits_cr|apply emits_change].
Qed.
Lemma inert_frame : one_code → inert (frame_part false st rd fr).
Proof.
  intros Ho. unfold frame_part.
  apply inert_andthen.
  { apply inert_keeps; [apply loops_burst|]. intros b. unfold burst.
    destruct (interrupt_burst rd (b_ring b)) as [[block|] ring]; by repeat constructor. }
  apply inert_andthen.
  { apply inert_keeps; [apply loops_settling|].
    apply emits_if; [apply emits_andthen; [apply emits_change|by apply emits_cr]|apply emits_change]. }
  apply inert_andthen; [apply inert_if; [|apply inert_leds]|].
  - apply inert_andthen; [apply inert_andthen|].
    + apply inert_keeps; [apply loops_recovery|]. apply emits_if; [|apply emits_change].
      apply emits_andthen; [apply emits_change|]. apply emits_andthen; [apply emits_conf|].
      apply emits_andthen; [by apply emits_fr|apply emits_change].
    + by apply inert_when, inert_status.
    + apply inert_andthen; [|apply inert_leds].
      apply inert_keeps; [by apply keeps_when, loops_conf|apply emits_when, emits_conf].
  - apply inert_andthen; apply inert_keeps; [apply loops_eval| |by apply loops_plain|apply emits_change].
    apply emits_when, emits_andthen; [apply emits_change|].
    apply emits_when, emits_andthen; [apply emits_change|].
    apply emits_andthen; [by apply emits_cr|apply emits_change].
Qed.
Lemma inert_interrupt b :
  one_code → few b →
  let '(_, o, b') := xp_t1_interrupt st rd fr b in
  Forall no_loop o ∧ remote_loop b' = remote_loop b ∧ few b'.
Proof.
  intros Ho H. unfold xp_t1_interrupt, xp_interrupt. destruct (st =? 0); [by repeat split; try apply H|].
  assert (I : inert (emit (fun _ => Ack st) ;> when (fun _ => bit_set st 0x0f) (frame_part false st rd fr))).
  { apply inert_andthen; [apply inert_keeps; [apply keeps_emit|intros x; by repeat constructor]|].
    by apply inert_when, inert_frame. }
  specialize (I b H). by destruct ((_ ;> _) b) as [o b'].
Qed.
End loop.

(** Interrupts whose status does not have both codes, and the tasklet. *)
Definition single (e : event) : Prop :=
  match e with Irq _ _ fr => one_code fr | Tasklet _ => True | Reconfigure _ _ => False end.

(** C33: on a T1 card the loop codes have no effect: as long as no status has both the
    loop up and the loop down code, no loop is switched on or off and the mode of the
    span says nothing else of a remote loop, however often either code is received. *)
Theorem loop_codes_inert l b o b' :
  Forall single l → 0 ≤ b.(b_loopcnt) ≤ 1 → events false l b = (o, b') →
  Forall no_loop o ∧ remote_loop b' = remote_loop b ∧ b'.(b_loopcnt) ≤ 1.
Proof.
  intros Hl Hb E.
  assert (G : Forall no_loop (events false l b).1 ∧ remote_loop (events false l b).2 = remote_loop b ∧
    few (events false l b).2).
  { clear E. revert b Hb. induction l as [|e l IH]; intros b Hb; [by repeat split; try apply Hb|].
    apply Forall_cons in Hl as [He Hl]. cbn [events].
    assert (S : Forall no_loop (happen false e b).1 ∧ remote_loop (happen false e b).2 = remote_loop b ∧
      few (happen false e b).2).
    { destruct e as [st rd fr|k|]; [| |done].
      - pose proof (inert_interrupt st rd fr b He Hb) as I. unfold happen, xp_t1_interrupt in *.
        by destruct (xp_interrupt false st rd fr b) as [[h o1] b1].
      - unfold happen. destruct (card_tasklet k false (b_span b) (b_ring b) (b_chans b)) as [[again ring] chans].
        split; [destruct again; by repeat constructor|done]. }
    destruct (happen false e b) as [o1 b1]. destruct S as (S1 & S2 & S3). cbn [fst snd] in *.
    destruct (IH Hl b1 S3) as (I1 & I2 & I3). destruct (events false l b1) as [o2 b2]. cbn [fst snd] in *.
    split_and!; [by apply Forall_app|congruence|done]. }
  rewrite E in G. destruct G as (G1 & G2 & G3). split_and!; [done|done|apply G3].
Qed.
