(* ===== verification/IsrFaults.v ===== *)
(** * Examples of interrupts

    Cards at which the theorems on the interrupt routine apply, and what goes wrong
    with alarms that come again, the recovery flag, the clock register and the lamps. *)
From S2P Require Import Prelude Bufq Xp Prims Timers Txc Lsc Rc LscCtl Monitors Requests Lmi Hdlc SoftHdlc.
From S2P Require Import Spans SdlConfig Isr IsrLaws IsrRecover IsrLoop.
From stdpp Require Import gmap.
#[local] Open Scope Z_scope.
#[local] Open Scope os7_scope.

(** A card with its span up, at a frame whose status is processed. *)
Definition ex_board (c : sdl_config) : board :=
  Board (CardBuf 0 0 (replicate 128 []) (replicate 128 [])) 400 0 0 true 0 1
    (Some (Span 0 (c <| ifflags := SDL_IF_UP |>) (replicate 32 None))) 0 0 ∅.
Definition ex_e1 : board := ex_board sdl_default_e1_chan.
Definition ex_t1 : board := ex_board sdl_default_t1_chan.
(** An interrupt at which all registers of the framer hold [status]. *)
Definition poll (status : Z) : event := Irq 1 [] (fun _ => status).
(** A status is processed every 64 interrupts: red alarm for one status. *)
Definition ex_alarm : board := (events true (replicate 64 (poll 1)) ex_e1).2.

(** ** Witnesses *)

Lemma loop_codes_inert_witness :
  ∃ o b', events false (replicate 4992 (poll 0x80)) ex_t1 = (o, b') ∧
    Forall no_loop o ∧ remote_loop b' = remote_loop ex_t1 ∧ b'.(b_loopcnt) ≤ 1.
Proof.
  destruct (events false (replicate 4992 (poll 0x80)) ex_t1) as [o b'] eqn:E. exists o, b'. split; [done|].
  apply (loop_codes_inert (replicate 4992 (poll 0x80)) ex_t1 o b'); [|split; vm_compute; discriminate|exact E].
  by apply Forall_replicate.
Defined.

(** ** What goes wrong *)

Definition has_out (x : out) (l : list out) : bool :=
  existsb (fun o => match o, x with Fr r v, Fr r' v' | Cr r v, Cr r' v' => (r =? r') && (v =? v') | _, _ => false end) l.
(** An alarm that comes again while the last is recovered from: the recovery ends and
    switches the yellow alarm off, and it stays off although the alarm lasts. *)
Lemma alarm_again_switched_off :
  let '(_, b) := events true (replicate 64 (poll 0) ++ replicate 4936 (poll 1)) ex_alarm in
  let '(o, b') := happen true (poll 1) b in
  let '(o', b'') := events true (replicate 640 (poll 1)) b' in
  in_alarm b = true ∧ has_out (yellow_off true) o = true ∧ in_alarm b'' = true ∧ has_out (Fr 0x21 0x7f) o' = false.
Proof. vm_compute. by repeat split. Qed.
(** The flag of the recovery goes with the next status, long before the recovery ends. *)
Lemma recovery_flag_lost :
  let b1 := (events true [poll 0] ex_alarm).2 in
  let b2 := (events true (replicate 65 (poll 0)) ex_alarm).2 in
  bit_set (conf_of b1).(ifalarms) SDL_ALARM_REC = true ∧
  bit_set (conf_of b2).(ifalarms) SDL_ALARM_REC = false ∧ b2.(b_recover) = 4936.
Proof. vm_compute. by repeat split. Qed.
(** The clock register is written with the configured source whether it is followed. *)
Lemma clock_register_keeps_source :
  let '(o1, b1) := events true [poll 0] ex_e1 in
  let '(o2, b2) := events true (replicate 64 (poll 1)) b1 in
  b1.(b_sync) = 1 ∧ has_out (Cr XP_CLOCK 0x13) o1 = true ∧ b2.(b_sync) = 0 ∧ has_out (Cr XP_CLOCK 0x13) o2 = true ∧
  has_out (Cr XP_CLOCK 0x12) o2 = false.
Proof. vm_compute. by repeat split. Qed.
(** Frames are counted by eight, so that a yellow alarm never shows green. *)
Lemma yellow_never_blinks b :
  b.(b_frame) mod 8 = 0 → in_alarm b = false → bit_set (conf_of b).(ifalarms) SDL_ALARM_YEL = true →
  lamps b = XP_LED1 ∧ u32 (b.(b_frame) + 8) mod 8 = 0.
Proof.
  intros Hf Hi Hy. apply Z.mod_divide in Hf; [|done]. destruct Hf as [k Hk]. unfold lamps. rewrite Hi, Hy, Hk. split.
  - assert (E : bit_set (k * 8) 1 = false); [|by rewrite E].
    unfold bit_set. apply negb_false_iff, Z.eqb_eq. change 1 with (Z.ones 1). rewrite Z.land_ones by lia.
    change (2 ^ 1) with 2. replace (k * 8) with (k * 4 * 2) by lia. apply Z_mod_mult.
  - unfold u32. apply Z.mod_divide; [done|]. rewrite Z.mod_eq by done. exists (k + 1 - 2 ^ 29 * ((k * 8 + 8) / 2 ^ 32)). lia.
Qed.
