(* ===== verification/Partial.v ===== *)
(** * Computations on a store that may fail

    A computation on a store [S] gives a result and the store it leaves, or [None]: an
    access to memory that is not allocated. *)
From S2P Require Import Prelude.

Definition partial (S A : Type) : Type := S → option (A * S).
#[export] Instance partial_ret S : MRet (partial S) := fun A x s => Some (x, s).
#[export] Instance partial_bind S : MBind (partial S) := fun A B f m s => '(x, s) ← m s; f x s.

Section partial.
Context {S A B : Type}.
(** A computation that goes through is followed by the next. *)
Lemma bind_ok (m : partial S A) (f : A → partial S B) s s' x : m s = Some (x, s') → mbind f m s = f x s'.
Proof. intros E. unfold mbind, partial_bind. by rewrite E. Qed.
Lemma bind_some (m : partial S A) (f : A → partial S B) s y s2 :
  mbind f m s = Some (y, s2) → ∃ x s1, m s = Some (x, s1) ∧ f x s1 = Some (y, s2).
Proof. unfold mbind, partial_bind. destruct (m s) as [[x s1]|] eqn:E; [|done]. intros H. by exists x, s1. Qed.
End partial.
