(* ===== verification/Life.v ===== *)
(** * The life of channels, spans and cards

    [xp_open] and [xp_close] with the choice of a device number, the allocation and
    freeing of channels, spans and cards and the counts of the references to them
    ([drivers/sl_x100p.c]).  An address that is not in the heap was never allocated or
    has been freed: an access to it ends the computation.  The list of open channels is
    modelled by the addresses it links, in order. *)
From S2P Require Import Prelude Partial Bufq Xp Prims Timers Lmi.
From stdpp Require Import gmap.
#[local] Open Scope Z_scope.
#[local] Open Scope os7_scope.

(** ** State *)

(** A channel: the count of references, its device number, its span, and the private
    structure the rest of the driver works on. *)
Record chan_obj := ChanObj { x_ref : Z; x_dev : Z * Z; x_sp : option Z; x_data : xp }.
#[export] Instance eta_chan_obj : Eta chan_obj := fun r => ChanObj r.(x_ref) r.(x_dev) r.(x_sp) r.(x_data).
#[export] Instance set_x_ref : Setter x_ref := ltac:(mk_setter).
#[export] Instance set_x_dev : Setter x_dev := ltac:(mk_setter).
#[export] Instance set_x_sp : Setter x_sp := ltac:(mk_setter).
#[export] Instance set_x_data : Setter x_data := ltac:(mk_setter).
(** A span: [s_slots] its timeslots. *)
Record span_obj := SpanObj { s_ref : Z; s_cd : option Z; s_slots : list (option Z) }.
#[export] Instance eta_span_obj : Eta span_obj := fun r => SpanObj r.(s_ref) r.(s_cd) r.(s_slots).
#[export] Instance set_s_ref : Setter s_ref := ltac:(mk_setter).
#[export] Instance set_s_cd : Setter s_cd := ltac:(mk_setter).
#[export] Instance set_s_slots : Setter s_slots := ltac:(mk_setter).
(** A card: its span, its elastic buffers while they are allocated. *)
Record card_obj := CardObj {
  c_ref : Z; c_card : Z; c_gtype : Z; c_span : option Z; c_wbuf : option (list (list Z)); c_rbuf : option (list (list Z)) }.
#[export] Instance eta_card_obj : Eta card_obj := fun r =>
  CardObj r.(c_ref) r.(c_card) r.(c_gtype) r.(c_span) r.(c_wbuf) r.(c_rbuf).
#[export] Instance set_c_ref : Setter c_ref := ltac:(mk_setter).
#[export] Instance set_c_card : Setter c_card := ltac:(mk_setter).
#[export] Instance set_c_gtype : Setter c_gtype := ltac:(mk_setter).
#[export] Instance set_c_span : Setter c_span := ltac:(mk_setter).
#[export] Instance set_c_wbuf : Setter c_wbuf := ltac:(mk_setter).
#[export] Instance set_c_rbuf : Setter c_rbuf := ltac:(mk_setter).
(** The heap, [xp_list], [x100p_cards], [x100p_boards] and the blocks reserved of
    [xp_bufpool]. *)
Record heap := Heap {
  h_xp : gmap Z chan_obj; h_sp : gmap Z span_obj; h_cd : gmap Z card_obj;
  h_list : list Z; h_cards : list Z; h_boards : Z; h_reserve : Z }.
#[export] Instance eta_heap : Eta heap := fun r =>
  Heap r.(h_xp) r.(h_sp) r.(h_cd) r.(h_list) r.(h_cards) r.(h_boards) r.(h_reserve).
#[export] Instance set_h_xp : Setter h_xp := ltac:(mk_setter).
#[export] Instance set_h_sp : Setter h_sp := ltac:(mk_setter).
#[export] Instance set_h_cd : Setter h_cd := ltac:(mk_setter).
#[export] Instance set_h_list : Setter h_list := ltac:(mk_setter).
#[export] Instance set_h_cards : Setter h_cards := ltac:(mk_setter).
#[export] Instance set_h_boards : Setter h_boards := ltac:(mk_setter).
#[export] Instance set_h_reserve : Setter h_reserve := ltac:(mk_setter).

(** ** Computations *)

Definition the_xp (a : Z) : partial heap chan_obj := fun h => x ← h.(h_xp) !! a; Some (x, h).
Definition the_sp (a : Z) : partial heap span_obj := fun h => x ← h.(h_sp) !! a; Some (x, h).
Definition the_cd (a : Z) : partial heap card_obj := fun h => x ← h.(h_cd) !! a; Some (x, h).
Definition put_xp (a : Z) (x : chan_obj) : partial heap () := fun h => Some ((), h <| h_xp := <[a := x]> h.(h_xp) |>).
Definition put_sp (a : Z) (x : span_obj) : partial heap () := fun h => Some ((), h <| h_sp := <[a := x]> h.(h_sp) |>).
Definition put_cd (a : Z) (x : card_obj) : partial heap () := fun h => Some ((), h <| h_cd := <[a := x]> h.(h_cd) |>).
Definition free_xp (a : Z) : partial heap () := fun h => Some ((), h <| h_xp := delete a h.(h_xp) |>).
Definition free_sp (a : Z) : partial heap () := fun h => Some ((), h <| h_sp := delete a h.(h_sp) |>).
Definition free_cd (a : Z) : partial heap () := fun h => Some ((), h <| h_cd := delete a h.(h_cd) |>).
Definition with_heap (f : heap → heap) : partial heap () := fun h => Some ((), f h).
Definition get_heap : partial heap heap := fun h => Some (h, h).
Definition on_xp (a : Z) (f : chan_obj → chan_obj) : partial heap () := x ← the_xp a; put_xp a (f x).
Definition on_sp (a : Z) (f : span_obj → span_obj) : partial heap () := x ← the_sp a; put_sp a (f x).
Definition on_cd (a : Z) (f : card_obj → card_obj) : partial heap () := x ← the_cd a; put_cd a (f x).

(** ** References *)

Definition xp_get (a : Z) : partial heap () := on_xp a (fun x => x <| x_ref := x.(x_ref) + 1 |>).
Definition xp_put (a : Z) : partial heap () :=
  x ← the_xp a;
  if x.(x_ref) - 1 =? 0 then free_xp a else put_xp a (x <| x_ref := x.(x_ref) - 1 |>).
Definition sp_get (a : Z) : partial heap () := on_sp a (fun x => x <| s_ref := x.(s_ref) + 1 |>).
Definition sp_put (a : Z) : partial heap () :=
  x ← the_sp a;
  if x.(s_ref) - 1 =? 0 then free_sp a else put_sp a (x <| s_ref := x.(s_ref) - 1 |>).
Definition cd_get (a : Z) : partial heap () := on_cd a (fun x => x <| c_ref := x.(c_ref) + 1 |>).
Definition cd_put (a : Z) : partial heap () :=
  x ← the_cd a;
  if x.(c_ref) - 1 =? 0 then free_cd a else put_cd a (x <| c_ref := x.(c_ref) - 1 |>).

(** ** Timeslots *)

Definition slot_at (s : Z) (i : nat) : partial heap (option Z) := sp ← the_sp s; mret (nth i sp.(s_slots) None).
Definition set_slot (s : Z) (i : nat) (v : option Z) : partial heap () := on_sp s (fun sp => sp <| s_slots := <[i := v]> sp.(s_slots) |>).
(** The commit of an attachment: the timeslots [l] are given to the channel. *)
Fixpoint take_slots (a s : Z) (l : list nat) : partial heap () :=
  match l with
  | [] => mret ()
  | i :: l => _ ← xp_get a; _ ← set_slot s i (Some a); take_slots a s l
  end.
Definition attach (a s : Z) (l : list nat) : partial heap () :=
  _ ← take_slots a s l;
  _ ← sp_get s;
  on_xp a (fun x => x <| x_sp := Some s |>).
(** [xp_put(xchg(&sp->slots[slot], NULL))] for the slots of the channel; [each] is done
    for them too. *)
Fixpoint leave_slots (each : nat → partial heap ()) (a s : Z) (l : list nat) : partial heap () :=
  match l with
  | [] => mret ()
  | i :: l =>
      v ← slot_at s i;
      _ ← (if bool_decide (v = Some a)
           then _ ← set_slot s i None; _ ← xp_put a; each i
           else mret ());
      leave_slots each a s l
  end.
Definition all_slots : list nat := seq 0 32.
(** [sp_put(xchg(&xp->sp, NULL))]. *)
Definition leave_span (a : Z) : partial heap () :=
  x ← the_xp a;
  _ ← put_xp a (x <| x_sp := None |>);
  match x.(x_sp) with Some s => sp_put s | None => mret () end.
Definition detach (a s : Z) : partial heap () :=
  _ ← leave_slots (fun _ => mret ()) a s all_slots;
  leave_span a.

(** ** Channels *)

Definition xp_alloc_priv (HZ : Z) (v : env) (mem : option Z) (pos : nat) (dev : Z * Z) : partial heap (option Z) :=
  match mem with
  | None => mret None
  | Some a =>
      _ ← put_xp a (ChanObj 0 dev None (Lmi.xp_alloc_priv HZ v));
      _ ← xp_get a;
      _ ← xp_get a;
      _ ← xp_get a;
      _ ← with_heap (fun h => h <| h_list := take pos h.(h_list) ++ a :: drop pos h.(h_list) |>);
      _ ← xp_get a;
      _ ← with_heap (fun h => h <| h_reserve := h.(h_reserve) + 2 |>);
      mret (Some a)
  end.
(** The octets of a timeslot in all blocks of the buffer. *)
Definition idle_slot (idle : Z) (i : nat) (buf : list (list Z)) : list (list Z) :=
  map (fun blk => <[(i * 4)%nat := idle]> blk) buf.
(** Timers, messages and queues.  A message that is at its first block is freed through
    [cmp], and its pointer [msg] is left as it was: no code reads it any more. *)
Definition release_data (s : xp) : xp :=
  let s := xp_timer_stop tall s in
  let s := s <| xp_tx := (s.(xp_tx) <| tx_msg := None |>) <| tx_cmp := None |> |> in
  let s := s <| xp_rx := ((s.(xp_rx) <| rx_msg := None |>) <| rx_nxt := None |>) <| rx_cmp := None |> |> in
  let s := s <| sdl_tb := bufq_purge s.(sdl_tb) |> in
  let s := s <| sdt_tb := bufq_purge s.(sdt_tb) |> in
  let s := s <| sl_rb := bufq_purge s.(sl_rb) |> in
  let s := s <| sl_tb := bufq_purge s.(sl_tb) |> in
  s <| sl_rtb := bufq_purge s.(sl_rtb) |>.
Definition leave_card_slots (a s c : Z) : partial heap () :=
  cd ← the_cd c;
  let idle := if cd.(c_gtype) =? SDL_GTYPE_T1 then 0x7f else 0xff in
  leave_slots (fun i => on_cd c (fun cd => cd <| c_wbuf := idle_slot idle i <$> cd.(c_wbuf) |>)) a s all_slots.
(** The part of [xp_free_priv] that unlinks the channel from its span. *)
Definition unlink_span (a : Z) : partial heap () :=
  x ← the_xp a;
  match x.(x_sp) with
  | Some s =>
      sp ← the_sp s;
      _ ← match sp.(s_cd) with
          | Some c => leave_card_slots a s c
          | None => leave_slots (fun _ => mret ()) a s all_slots
          end;
      leave_span a
  | None => mret ()
  end.
Definition xp_free_priv (a : Z) : partial heap () :=
  _ ← unlink_span a;
  _ ← on_xp a (fun x => x <| x_data := release_data x.(x_data) |>);
  _ ← with_heap (fun h => h <| h_reserve := h.(h_reserve) - 2 |>);
  h ← get_heap;
  _ ← (if bool_decide (a ∈ h.(h_list))
       then _ ← with_heap (fun h => h <| h_list := base.filter (.≠ a) h.(h_list) |>); xp_put a
       else mret ());
  xp_put a.

(** ** Spans and cards *)

Definition xp_alloc_sp (mem : option Z) (c : Z) : partial heap (option Z) :=
  match mem with
  | None => mret None
  | Some s =>
      _ ← put_sp s (SpanObj 0 None (replicate 32 None));
      _ ← cd_get c;
      _ ← sp_get s;
      _ ← on_cd c (fun cd => cd <| c_span := Some s |>);
      _ ← cd_get c;
      _ ← on_sp s (fun sp => sp <| s_cd := Some c |>);
      mret (Some s)
  end.
Fixpoint unlink_slots (s : Z) (l : list nat) : partial heap () :=
  match l with
  | [] => mret ()
  | i :: l =>
      v ← slot_at s i;
      _ ← match v with
          | Some a =>
              _ ← leave_span a;
              _ ← the_sp s;
              _ ← set_slot s i None;
              xp_put a
          | None => mret ()
          end;
      unlink_slots s l
  end.
Definition xp_free_sp (s : Z) : partial heap () :=
  sp ← the_sp s;
  match sp.(s_cd) with
  | Some c =>
      cd ← the_cd c;
      _ ← put_cd c (cd <| c_span := None |>);
      _ ← match cd.(c_span) with Some s' => sp_put s' | None => mret () end;
      _ ← on_sp s (fun sp => sp <| s_cd := None |>);
      _ ← cd_put c;
      _ ← the_sp s;
      unlink_slots s all_slots
  | None => mret ()
  end.
(** The address of the card and the blocks of its two buffers, as they were allocated. *)
Definition xp_alloc_cd (mem : option Z) (wmem rmem : option (list (list Z))) : partial heap (option Z) :=
  match mem, wmem, rmem with
  | Some c, Some wbuf, Some rbuf =>
      h ← get_heap;
      _ ← put_cd c (CardObj 0 h.(h_boards) 0 None None None);
      _ ← cd_get c;
      _ ← with_heap (fun h => (h <| h_boards := h.(h_boards) + 1 |>) <| h_cards := c :: h.(h_cards) |>);
      _ ← cd_get c;
      _ ← on_cd c (fun cd => (cd <| c_wbuf := Some wbuf |>) <| c_rbuf := Some rbuf |>);
      mret (Some c)
  | _, _, _ => mret None
  end.
Definition xp_free_cd (c : Z) : partial heap () :=
  cd ← the_cd c;
  _ ← put_cd c ((cd <| c_rbuf := None |>) <| c_wbuf := None |>);
  _ ← match cd.(c_span) with Some s => xp_free_sp s | None => mret () end;
  _ ← the_cd c;
  _ ← with_heap (fun h => h <| h_cards := base.filter (.≠ c) h.(h_cards) |>);
  _ ← cd_put c;
  _ ← the_cd c;
  cd_put c.

(** ** Opening and closing *)

Definition CLONEOPEN : Z := 2.
Definition MODOPEN : Z := 1.
Section open.
(** The numbers of minors and the major numbers of the driver. *)
Context (NMINORS : Z) (xp_majors : list Z).
(** The walk along the device numbers in use: the number, how many majors were used up,
    and where in the list to link the channel; [None] when there is no other major. *)
Fixpoint find_minor (mindex : nat) (cmajor cminor : Z) (l : list (Z * Z)) : option (Z * Z) * nat :=
  match l with
  | [] => (Some (cmajor, cminor), 0%nat)
  | (dmajor, dminor) :: l' =>
      if negb (cmajor =? dmajor) then (Some (cmajor, cminor), 0%nat)
      else if cminor <? dminor then (Some (cmajor, cminor), 0%nat)
      else
        let next mindex cmajor cminor :=
          let '(r, pos) := find_minor mindex cmajor cminor l' in (r, S pos) in
        if dminor <? cminor then next mindex cmajor cminor
        else if NMINORS <=? cminor + 1 then
          match nth (S mindex) xp_majors 0 with
          | 0 => (None, 0%nat)
          | cmajor => next (S mindex) cmajor 0
          end
        else next mindex cmajor (cminor + 1)
  end.
Definition devices (h : heap) : list (Z * Z) :=
  omap (fun a => x_dev <$> h.(h_xp) !! a) h.(h_list).
(** What is known of the queue: its private structure, and whether it is of a module. *)
Definition xp_open (HZ : Z) (v : env) (mem : option Z) (opened : option Z) (below : bool) (dev : Z * Z) (sflag : Z) :
    partial heap (Z * option Z) :=
  match opened with
  | Some a => mret (0, Some a)
  | None =>
      if (sflag =? MODOPEN) || below then mret (EIO, None)
      else
        let '(cmajor, cminor) := dev in
        let clone := (cminor =? 0) || (sflag =? CLONEOPEN) in
        h ← get_heap;
        match find_minor 0 cmajor (if clone then 1 else cminor) (devices h) with
        | (None, _) => mret (ENXIO, None)
        | (Some (cmajor, cminor), pos) =>
            if cmajor =? 0 then mret (ENXIO, None)
            else
              r ← xp_alloc_priv HZ v mem pos (cmajor, cminor);
              match r with Some a => mret (0, Some a) | None => mret (ENOMEM, None) end
        end
  end.
Definition xp_close (a : Z) : partial heap Z := _ ← xp_free_priv a; mret 0.
End open.
