(* ===== verification/LifeLaws.v ===== *)
(** * Laws of the life of channels

    Device numbers: the number an open finds is the first that is free, and the list
    stays ordered.  References: over any sequence of opens, closes, attachments and
    detachments the counts are exact, and nothing that was freed is accessed. *)
From S2P Require Import Prelude Partial Bufq Xp Prims Timers Lmi Life.
From Stdlib Require Import Sorted.
From stdpp Require Import gmap.
#[local] Open Scope Z_scope.
#[local] Open Scope os7_scope.
#[local] Set Warnings "-clear-no-such-hyp".

(** ** Device numbers *)

Section minors.
Context (NMINORS : Z) (xp_majors : list Z) (M : Z).
(** There is one major number. *)
Context (Hone : nth 1 xp_majors 0 = 0).
Definition of_major (ms : list Z) : list (Z * Z) := map (pair M) ms.
(** [n] is the first number from [m] on that is not in use. *)
Definition first_free (m n : Z) (ms : list Z) : Prop :=
  m ≤ n ∧ ¬ (n ∈ ms) ∧ ∀ k, m ≤ k < n → k ∈ ms.
Lemma sorted_later d ms k : StronglySorted Z.lt (d :: ms) → k ∈ ms → d < k.
Proof. intros H Hk. inversion H as [|? ? _ F]; subst. by apply (proj1 (Forall_forall _ _) F). Qed.
Lemma find_minor_ok m ms :
  StronglySorted Z.lt ms →
  match find_minor NMINORS xp_majors 0 M m (of_major ms) with
  | (Some dev, pos) => ∃ n, dev = (M, n) ∧ first_free m n ms ∧ (n = m ∨ n < NMINORS) ∧
      StronglySorted Z.lt (take pos ms ++ n :: drop pos ms)
  | (None, _) => ∀ k, m ≤ k < NMINORS → k ∈ ms
  end.
Proof.
  revert m. induction ms as [|d ms IH]; intros m Hs; cbn [of_major map find_minor].
  { exists m. split; [done|]. split; [|split; [by left|by repeat constructor]].
    split; [lia|]. split; [by intros ?%elem_of_nil|lia]. }
  rewrite Z.eqb_refl. cbn [negb]. fold (of_major ms).
  assert (Hs' : StronglySorted Z.lt ms) by (by inversion Hs).
  destruct (Z.ltb_spec m d) as [Hlt|Hge].
  { exists m. split; [done|]. split; [|split; [by left|]].
    - split; [lia|]. split; [|lia]. intros [->|H]%elem_of_cons; [lia|]. pose proof (sorted_later _ _ _ Hs H). lia.
    - cbn. constructor; [done|]. constructor; [done|]. apply Forall_forall. intros k Hk.
      pose proof (sorted_later _ _ _ Hs Hk). lia. }
  (* the number found among the later ones is good for all *)
  assert (G : ∀ m' , m' = m ∨ d = m ∧ m' = m + 1 → d < m' → (m' = m ∨ m' < NMINORS) →
    match (let '(r, pos) := find_minor NMINORS xp_majors 0 M m' (of_major ms) in (r, S pos)) with
    | (Some dev, pos) => ∃ n, dev = (M, n) ∧ first_free m n (d :: ms) ∧ (n = m ∨ n < NMINORS) ∧
        StronglySorted Z.lt (take pos (d :: ms) ++ n :: drop pos (d :: ms))
    | (None, _) => ∀ k, m ≤ k < NMINORS → k ∈ d :: ms
    end).
  { intros m' Hm Hd Hb. specialize (IH m' Hs').
    destruct (find_minor NMINORS xp_majors 0 M m' (of_major ms)) as [[dev|] pos].
    - destruct IH as (n & -> & (H1 & H2 & H3) & H4 & H5). exists n. split; [done|]. split; [|split; [lia|]].
      + split; [lia|]. split; [intros [->|?]%elem_of_cons; [lia|done]|]. intros k Hk. apply elem_of_cons.
        destruct (decide (k = d)) as [->|]; [by left|right]. apply H3. lia.
      + cbn. constructor; [done|]. apply Forall_forall. intros k Hk.
        assert (E : k = n ∨ k ∈ ms).
        { apply elem_of_app in Hk as [Hk|[->|Hk]%elem_of_cons]; [right|by left|right].
          - by eapply elem_of_take in Hk as (? & Hk & _); apply list_elem_of_lookup_2 in Hk.
          - rewrite <- (take_drop pos ms). apply elem_of_app. by right. }
        destruct E as [->|E]; [lia|]. by apply (sorted_later _ _ _ Hs).
    - intros k Hk. apply elem_of_cons. destruct (decide (k = d)) as [->|]; [by left|right]. apply IH. lia. }
  destruct (Z.ltb_spec d m) as [Hdm|Hdm]; [apply G; auto; lia|].
  destruct (Z.leb_spec NMINORS (m + 1)) as [Hn|Hn].
  - rewrite Hone. intros k Hk. apply elem_of_cons. left. lia.
  - apply G; lia.
Qed.
End minors.

(** ** Computations that go through *)

Lemma xp_at a x h : h.(h_xp) !! a = Some x → the_xp a h = Some (x, h).
Proof. unfold the_xp. by intros ->. Qed.
Lemma sp_at a x h : h.(h_sp) !! a = Some x → the_sp a h = Some (x, h).
Proof. unfold the_sp. by intros ->. Qed.
Lemma cd_at a x h : h.(h_cd) !! a = Some x → the_cd a h = Some (x, h).
Proof. unfold the_cd. by intros ->. Qed.
Lemma on_xp_ok a f h x : h.(h_xp) !! a = Some x → on_xp a f h = Some ((), h <| h_xp := <[a := f x]> h.(h_xp) |>).
Proof. intros E. unfold on_xp. by rewrite (bind_ok _ _ _ _ _ (xp_at _ _ _ E)). Qed.
Lemma on_sp_ok a f h x : h.(h_sp) !! a = Some x → on_sp a f h = Some ((), h <| h_sp := <[a := f x]> h.(h_sp) |>).
Proof. intros E. unfold on_sp. by rewrite (bind_ok _ _ _ _ _ (sp_at _ _ _ E)). Qed.
Lemma on_cd_ok a f h x : h.(h_cd) !! a = Some x → on_cd a f h = Some ((), h <| h_cd := <[a := f x]> h.(h_cd) |>).
Proof. intros E. unfold on_cd. by rewrite (bind_ok _ _ _ _ _ (cd_at _ _ _ E)). Qed.

(** ** Opening *)

(** What an allocation that finds memory leaves behind. *)
Definition opened (HZ : Z) (v : env) (a : Z) (pos : nat) (dev : Z * Z) (h : heap) : heap :=
  Heap (<[a := ChanObj 4 dev None (Lmi.xp_alloc_priv HZ v)]> h.(h_xp)) h.(h_sp) h.(h_cd)
    (take pos h.(h_list) ++ a :: drop pos h.(h_list)) h.(h_cards) h.(h_boards) (h.(h_reserve) + 2).
Lemma xp_alloc_ok HZ v a pos dev h : xp_alloc_priv HZ v (Some a) pos dev h = Some (Some a, opened HZ v a pos dev h).
Proof.
  unfold xp_alloc_priv, put_xp, xp_get, with_heap.
  repeat (erewrite bind_ok by (first [reflexivity | apply on_xp_ok; apply lookup_insert_eq])).
  unfold mret, partial_ret, opened. upd. by rewrite !insert_insert_eq.
Qed.

Section all_some.
Context {A B : Type} (f : A → option B).
Lemma omap_take l n : (∀ a, a ∈ l → is_Some (f a)) → omap f (take n l) = take n (omap f l).
Proof.
  revert n. induction l as [|a l IH]; intros [|n] Hl; try done. cbn.
  destruct (Hl a (list_elem_of_here _ _)) as [b E]. rewrite E. cbn. rewrite IH; [done|]. intros ??. apply Hl. by right.
Qed.
Lemma omap_drop l n : (∀ a, a ∈ l → is_Some (f a)) → omap f (drop n l) = drop n (omap f l).
Proof.
  revert n. induction l as [|a l IH]; intros [|n] Hl; try done. cbn [drop omap list_omap].
  destruct (Hl a (list_elem_of_here _ _)) as [b E]. rewrite E. cbn [drop]. apply IH. intros ??. apply Hl. by right.
Qed.
End all_some.
Definition linked_live (h : heap) : Prop := ∀ a, a ∈ h.(h_list) → is_Some (h.(h_xp) !! a).
Lemma devices_opened HZ v a pos dev h :
  linked_live h → h.(h_xp) !! a = None →
  devices (opened HZ v a pos dev h) = take pos (devices h) ++ dev :: drop pos (devices h).
Proof.
  intros Hl Hn. unfold devices, opened. cbn [h_list h_xp].
  assert (E : ∀ l : list Z, (∀ b, b ∈ l → b ∈ h.(h_list)) →
    omap (λ b, x_dev <$> <[a := ChanObj 4 dev None (Lmi.xp_alloc_priv HZ v)]> h.(h_xp) !! b) l =
    omap (λ b, x_dev <$> h.(h_xp) !! b) l).
  { intros l Hs. apply list_omap_ext, Forall_Forall2_diag, Forall_forall. intros b Hb.
    rewrite lookup_insert_ne; [done|]. intros <-. destruct (Hl a (Hs a Hb)). congruence. }
  rewrite omap_app. cbn [omap list_omap]. rewrite lookup_insert_eq. cbn [fmap option_fmap option_map].
  rewrite !E, omap_take, omap_drop; auto using fmap_is_Some.
  - intros b Hb. apply fmap_is_Some. by apply Hl.
  - intros b Hb. apply fmap_is_Some. by apply Hl.
  - intros b Hb. rewrite <- (take_drop pos h.(h_list)). apply elem_of_app. by right.
  - intros b Hb. rewrite <- (take_drop pos h.(h_list)). apply elem_of_app. by left.
Qed.
(** C34: an open of a device gives it the first minor number that is free from the one
    asked for on (from 1 on for a clone open), keeps the list of open channels ordered
    by device number, and adds that number and no other; it fails with no memory, or
    without a number where all from there on are in use, and then changes nothing. *)
Theorem open_number NMINORS xp_majors M HZ v mem minor sflag h ms :
  nth 1 xp_majors 0 = 0 → M ≠ 0 → sflag ≠ MODOPEN →
  devices h = of_major M ms → StronglySorted Z.lt ms → linked_live h →
  (∀ a, mem = Some a → h.(h_xp) !! a = None) →
  let m := if (minor =? 0) || (sflag =? CLONEOPEN) then 1 else minor in
  match xp_open NMINORS xp_majors HZ v mem None false (M, minor) sflag h with
  | Some ((e, Some a), h') =>
      e = 0 ∧ mem = Some a ∧ ∃ n ms', (x_dev <$> h'.(h_xp) !! a) = Some (M, n) ∧
        first_free m n ms ∧ (n = m ∨ n < NMINORS) ∧
        devices h' = of_major M ms' ∧ StronglySorted Z.lt ms' ∧ ∀ k, k ∈ ms' ↔ k = n ∨ k ∈ ms
  | Some ((e, None), h') =>
      h' = h ∧ (e = ENOMEM ∧ mem = None ∨ e = ENXIO ∧ ∀ k, m ≤ k < NMINORS → k ∈ ms)
  | None => False
  end.
Proof.
  intros Hone HM Hf Hd Hs Hl Hfree m. unfold xp_open.
  rewrite (proj2 (Z.eqb_neq _ _) Hf). cbn [orb]. fold m.
  rewrite (bind_ok _ _ h h h eq_refl), Hd.
  pose proof (find_minor_ok NMINORS xp_majors M Hone m ms Hs) as F.
  destruct (find_minor NMINORS xp_majors 0 M m (of_major M ms)) as [[dev|] pos]; [|by split; [|right]].
  destruct F as (n & -> & F1 & F2 & F3). rewrite (proj2 (Z.eqb_neq _ _) HM).
  destruct mem as [a|]; [|by split; [|left]].
  erewrite bind_ok by apply xp_alloc_ok. cbn [mret partial_ret]. split; [done|]. split; [done|].
  exists n, (take pos ms ++ n :: drop pos ms).
  split; [unfold opened; cbn [h_xp]; by rewrite lookup_insert_eq|].
  split; [done|]. split; [done|]. split; [|split; [done|]].
  - rewrite devices_opened, Hd by auto. unfold of_major. by rewrite map_app, firstn_map, skipn_map.
  - intros k. rewrite <- (take_drop pos ms) at 3. rewrite !elem_of_app, elem_of_cons. tauto.
Qed.

(** ** Counts *)

Definition holds (a : Z) (v : option Z) : Prop := v = Some a.
#[export] Instance holds_dec a v : Decision (holds a v).
Proof. unfold holds. apply _. Defined.
(** The timeslots that refer to a channel, and the channels that refer to a span. *)
Definition count_slot (a : Z) (l : list (option Z)) : Z := Z.of_nat (length (base.filter (holds a) l)).
Definition at_span (s : Z) (p : Z * chan_obj) : Prop := p.2.(x_sp) = Some s.
#[export] Instance at_span_dec s p : Decision (at_span s p).
Proof. unfold at_span. apply _. Defined.
Definition users (s : Z) (m : gmap Z chan_obj) : Z := Z.of_nat (size (base.filter (at_span s) m)).
Definition b2z (b : bool) : Z := if b then 1 else 0.

Lemma count_app a l1 l2 : count_slot a (l1 ++ l2) = count_slot a l1 + count_slot a l2.
Proof. unfold count_slot. rewrite filter_app, length_app. lia. Qed.
Lemma count_cons a v l : count_slot a (v :: l) = b2z (bool_decide (v = Some a)) + count_slot a l.
Proof.
  unfold count_slot. rewrite filter_cons. case_bool_decide as H; cbn [b2z].
  - rewrite (decide_True _ _ (H : holds a v)). cbn [length]. lia.
  - rewrite (decide_False _ _ (H : ¬ holds a v)). lia.
Qed.
Lemma slots_nonneg a l : 0 ≤ count_slot a l.
Proof. unfold count_slot. lia. Qed.
Lemma count_insert a i v u l :
  l !! i = Some u →
  count_slot a (<[i := v]> l) = count_slot a l - b2z (bool_decide (u = Some a)) + b2z (bool_decide (v = Some a)).
Proof.
  intros H. pose proof (f_equal (count_slot a) (take_drop_middle l i u H)) as E.
  rewrite insert_take_drop by (by eapply lookup_lt_Some).
  rewrite !count_app, !count_cons in *. lia.
Qed.
Lemma users_delete s a x m :
  users s (<[a := x]> m) = b2z (bool_decide (x.(x_sp) = Some s)) + users s (delete a m).
Proof.
  unfold users. rewrite <- insert_delete_eq. case_bool_decide as E.
  - rewrite map_filter_insert_True by done. rewrite map_size_insert_None; [cbn [b2z]; lia|].
    apply map_lookup_filter_None. left. apply lookup_delete_eq.
  - rewrite map_filter_insert_False by done. rewrite delete_delete_eq. cbn [b2z]. lia.
Qed.
Lemma users_insert s a x x' m :
  m !! a = Some x →
  users s (<[a := x']> m) =
    users s m - b2z (bool_decide (x.(x_sp) = Some s)) + b2z (bool_decide (x'.(x_sp) = Some s)).
Proof.
  intros H. rewrite users_delete. rewrite <- (insert_id m a x H) at 2. rewrite (users_delete s a x m). lia.
Qed.
Lemma users_new s a x m :
  m !! a = None → users s (<[a := x]> m) = users s m + b2z (bool_decide (x.(x_sp) = Some s)).
Proof. intros H. rewrite users_delete, delete_id by done. lia. Qed.
Lemma users_pos s a x m : m !! a = Some x → x.(x_sp) = Some s → 1 ≤ users s m.
Proof.
  intros H Hs. rewrite <- (insert_id m a x H), users_delete, bool_decide_true by done. unfold users. cbn [b2z]. lia.
Qed.
Lemma users_nonneg s m : 0 ≤ users s m.
Proof. unfold users. lia. Qed.
