(* ===== verification/LifeRefs.v ===== *)
(** * References of channels and spans

    Over any sequence of opens, closes, attachments and detachments the counts of
    references are exact: a channel counts its place in the list of open channels, its
    queue pair and its timeslots, a span its card and the channels attached to it.
    Nothing that was freed is accessed. *)
From S2P Require Import Prelude Partial Bufq Xp Prims Timers Lmi Life LifeLaws.
From stdpp Require Import gmap.
#[local] Open Scope Z_scope.
#[local] Open Scope os7_scope.
#[local] Set Warnings "-clear-no-such-hyp".

(** ** Timeslots *)

(** The timeslots [l] taken from a channel, and given to it. *)
Definition clear (a : Z) (l : list nat) (sl : list (option Z)) : list (option Z) :=
  foldl (λ sl i, if bool_decide (nth i sl None = Some a) then <[i := None]> sl else sl) sl l.
Definition give (a : Z) (l : list nat) (sl : list (option Z)) : list (option Z) :=
  foldl (λ sl i, <[i := Some a]> sl) sl l.

Lemma nth_some_lookup (sl : list (option Z)) i a : nth i sl None = Some a ↔ sl !! i = Some (Some a).
Proof.
  rewrite nth_lookup. destruct (sl !! i) as [v|]; cbn; [|done]. split; [by intros ->|congruence].
Qed.
Lemma clear_length a l sl : length (clear a l sl) = length sl.
Proof.
  revert sl. induction l as [|i l IH]; intros sl; [done|]. cbn [clear foldl].
  fold (clear a l). unfold clear in IH |- *. rewrite IH. case_bool_decide; [|done]. by rewrite length_insert.
Qed.
Lemma clear_lookup a l sl i :
  clear a l sl !! i = if bool_decide (i ∈ l ∧ sl !! i = Some (Some a)) then Some None else sl !! i.
Proof.
  revert sl. induction l as [|j l IH]; intros sl.
  { rewrite bool_decide_false; [done|]. by intros [?%elem_of_nil _]. }
  change (clear a (j :: l) sl) with (clear a l (if bool_decide (nth j sl None = Some a) then <[j := None]> sl else sl)).
  case_bool_decide as E; rewrite nth_some_lookup in E; rewrite IH.
  - destruct (decide (i = j)) as [->|N].
    + rewrite (list_lookup_insert_eq sl j None) by (by eapply lookup_lt_Some).
      rewrite bool_decide_false by (by intros [_ ?]). rewrite bool_decide_true; [done|]. split; [by left|done].
    + rewrite list_lookup_insert_ne by done.
      repeat case_bool_decide; rewrite ?elem_of_cons in *; naive_solver.
  - repeat case_bool_decide; rewrite ?elem_of_cons in *; naive_solver.
Qed.
Lemma slots_zero a sl : (∀ i, sl !! i ≠ Some (Some a)) → count_slot a sl = 0.
Proof.
  induction sl as [|v sl IH]; intros Hn; [done|]. rewrite count_cons, IH by (intros i; apply (Hn (S i))).
  rewrite bool_decide_false; [done|]. intros ->. by apply (Hn 0%nat).
Qed.
(** A count does not depend on what is not counted. *)
Lemma count_agree b sl sl' :
  length sl = length sl' → (∀ i, sl !! i = Some (Some b) ↔ sl' !! i = Some (Some b)) →
  count_slot b sl = count_slot b sl'.
Proof.
  revert sl'. induction sl as [|v sl IH]; intros [|v' sl'] Hl Hi; try done. rewrite !count_cons.
  rewrite (IH sl'); [|by injection Hl|intros i; apply (Hi (S i))].
  f_equal. f_equal. apply bool_decide_ext. specialize (Hi 0%nat). cbn in Hi. naive_solver.
Qed.
Lemma clear_all a sl i : length sl = 32%nat → clear a all_slots sl !! i ≠ Some (Some a).
Proof.
  intros Hl. rewrite clear_lookup. case_bool_decide as E; [done|]. intros H. apply E. split; [|done].
  apply elem_of_seq. apply lookup_lt_Some in H. lia.
Qed.
Lemma clear_keeps a b l sl i : a ≠ b → clear a l sl !! i = Some (Some b) ↔ sl !! i = Some (Some b).
Proof. intros N. rewrite clear_lookup. case_bool_decide as E; [|done]. naive_solver. Qed.
Lemma clear_other a b l sl : a ≠ b → count_slot b (clear a l sl) = count_slot b sl.
Proof. intros N. apply count_agree; [apply clear_length|]. intros i. by apply clear_keeps. Qed.

Lemma give_length a l sl : length (give a l sl) = length sl.
Proof.
  revert sl. induction l as [|i l IH]; intros sl; [done|].
  change (give a (i :: l) sl) with (give a l (<[i := Some a]> sl)). by rewrite IH, length_insert.
Qed.
Lemma give_lookup a l sl i :
  give a l sl !! i = if bool_decide (i ∈ l ∧ is_Some (sl !! i)) then Some (Some a) else sl !! i.
Proof.
  revert sl. induction l as [|j l IH]; intros sl.
  { rewrite bool_decide_false; [done|]. by intros [?%elem_of_nil _]. }
  change (give a (j :: l) sl) with (give a l (<[j := Some a]> sl)). rewrite IH.
  destruct (decide (i = j)) as [->|N].
  - destruct (sl !! j) as [v|] eqn:E.
    + rewrite list_lookup_insert_eq by (by eapply lookup_lt_Some).
      repeat case_bool_decide; rewrite ?elem_of_cons in *; naive_solver.
    + rewrite list_insert_ge by (by apply lookup_ge_None). rewrite E.
      repeat case_bool_decide; rewrite ?elem_of_cons in *; naive_solver.
  - rewrite list_lookup_insert_ne by done.
    repeat case_bool_decide; rewrite ?elem_of_cons in *; naive_solver.
Qed.
Lemma give_keeps a b l sl i :
  a ≠ b → (∀ j, j ∈ l → sl !! j = Some None) → give a l sl !! i = Some (Some b) ↔ sl !! i = Some (Some b).
Proof. intros N Hf. rewrite give_lookup. case_bool_decide as E; [|done]. naive_solver. Qed.
Lemma give_other a b l sl :
  a ≠ b → (∀ j, j ∈ l → sl !! j = Some None) → count_slot b (give a l sl) = count_slot b sl.
Proof. intros N Hf. apply count_agree; [apply give_length|]. intros i. by apply give_keeps. Qed.
Lemma give_count a l sl :
  NoDup l → (∀ j, j ∈ l → sl !! j = Some None) →
  count_slot a (give a l sl) = count_slot a sl + Z.of_nat (length l).
Proof.
  revert sl. induction l as [|j l IH]; intros sl Hd Hf; [cbn; lia|]. apply NoDup_cons in Hd as [Hj Hd].
  change (give a (j :: l) sl) with (give a l (<[j := Some a]> sl)). rewrite IH; [|done|].
  - erewrite count_insert by (apply Hf; by left). rewrite bool_decide_false, bool_decide_true by done.
    cbn [b2z length]. lia.
  - intros k Hk. rewrite list_lookup_insert_ne by (by intros ->). apply Hf. by right.
Qed.

(** ** The loops over the timeslots *)

Lemma take_slots_ok a s l X S C L K B R x sp :
  X !! a = Some x → S !! s = Some sp →
  take_slots a s l (Heap X S C L K B R) =
    Some ((), Heap (<[a := x <| x_ref := x.(x_ref) + Z.of_nat (length l) |>]> X)
                (<[s := sp <| s_slots := give a l sp.(s_slots) |>]> S) C L K B R).
Proof.
  revert X S x sp. induction l as [|i l IH]; intros X S x sp Hx Hs.
  - cbn. rewrite Z.add_0_r. destruct x, sp. cbn. by rewrite !insert_id.
  - cbn [take_slots]. erewrite bind_ok by (apply on_xp_ok; exact Hx).
    erewrite bind_ok by (apply on_sp_ok; exact Hs).
    change (take_slots a s l (Heap (<[a := x <| x_ref := x.(x_ref) + 1 |>]> X)
      (<[s := sp <| s_slots := <[i := Some a]> sp.(s_slots) |>]> S) C L K B R) = Some ((),
      Heap (<[a := x <| x_ref := x.(x_ref) + Z.of_nat (length (i :: l)) |>]> X)
        (<[s := sp <| s_slots := give a l (<[i := Some a]> sp.(s_slots)) |>]> S) C L K B R)).
    erewrite IH by apply lookup_insert_eq. rewrite !insert_insert_eq. upd.
    cbn [length]. rewrite Nat2Z.inj_succ, <- Z.add_1_l, Z.add_assoc. done.
Qed.

(** What is done for each timeslot changes cards only, and keeps them. *)
Definition on_cards (each : nat → partial heap ()) (D : gset Z) : Prop :=
  ∀ i h, dom h.(h_cd) = D → ∃ C, dom C = D ∧ each i h = Some ((), h <| h_cd := C |>).
Lemma nothing_on_cards D : on_cards (λ _, mret ()) D.
Proof. intros i h Hd. exists h.(h_cd). split; [done|]. by destruct h. Qed.
Lemma leave_slots_ok each a s l X S C L K B R x sp :
  on_cards each (dom C) → X !! a = Some x → S !! s = Some sp → count_slot a sp.(s_slots) < x.(x_ref) →
  ∃ C', dom C' = dom C ∧ leave_slots each a s l (Heap X S C L K B R) =
    Some ((), Heap (<[a := x <| x_ref := x.(x_ref) - (count_slot a sp.(s_slots) - count_slot a (clear a l sp.(s_slots))) |>]> X)
                (<[s := sp <| s_slots := clear a l sp.(s_slots) |>]> S) C' L K B R).
Proof.
  intros He. remember (dom C) as D eqn:HD. revert X S C HD x sp.
  induction l as [|i l IH]; intros X S C HD x sp Hx Hs Hc.
  { exists C. split; [done|]. cbn. rewrite Z.sub_diag, Z.sub_0_r. destruct x, sp. cbn. by rewrite !insert_id. }
  cbn [leave_slots]. unfold slot_at at 1. erewrite bind_ok by (erewrite bind_ok by (apply sp_at; exact Hs); reflexivity).
  change (clear a (i :: l) sp.(s_slots)) with (clear a l
    (if bool_decide (nth i sp.(s_slots) None = Some a) then <[i := None]> sp.(s_slots) else sp.(s_slots))).
  destruct (decide (nth i sp.(s_slots) None = Some a)) as [E|E].
  2: { rewrite !bool_decide_false by done. destruct (IH X S C HD x sp Hx Hs Hc) as (C' & HC' & E'). exists C'. split; [done|].
       erewrite bind_ok by reflexivity. exact E'. }
  rewrite !bool_decide_true by done. rewrite nth_some_lookup in E.
  pose proof (count_insert a i None _ _ E) as Hn. rewrite bool_decide_true, bool_decide_false in Hn by done. cbn [b2z] in Hn.
  pose proof (slots_nonneg a (<[i := None]> sp.(s_slots))).
  set (x1 := x <| x_ref := x.(x_ref) - 1 |>). set (sp1 := sp <| s_slots := <[i := None]> sp.(s_slots) |>).
  destruct (He i (Heap (<[a := x1]> X) (<[s := sp1]> S) C L K B R)) as (C1 & HC1 & E1); [done|].
  destruct (IH (<[a := x1]> X) (<[s := sp1]> S) C1 (eq_sym HC1) x1 sp1) as (C' & HC' & E'); try apply lookup_insert_eq.
  { unfold x1, sp1. upd. lia. }
  exists C'. split; [done|]. erewrite bind_ok.
  2: { erewrite bind_ok by (apply on_sp_ok; exact Hs). erewrite bind_ok; [exact E1|].
       unfold xp_put. erewrite bind_ok by (apply xp_at; exact Hx).
       rewrite (proj2 (Z.eqb_neq _ _)) by lia. reflexivity. }
  etransitivity; [exact E'|]. unfold x1, sp1. rewrite !insert_insert_eq. upd.
  rewrite Hn, Z.add_0_r.
  assert (Q : ∀ n, x.(x_ref) - 1 - (count_slot a sp.(s_slots) - 1 - n) = x.(x_ref) - (count_slot a sp.(s_slots) - n))
    by lia.
  by rewrite Q.
Qed.

(** ** Exact counts *)

(** The timeslots a channel holds at its span. *)
Definition held (a : Z) (x : chan_obj) (S : gmap Z span_obj) : Z :=
  match x.(x_sp) with
  | Some s => match S !! s with Some sp => count_slot a sp.(s_slots) | None => 0 end
  | None => 0
  end.
Definition in_list (a : Z) (l : list Z) : Z := if bool_decide (a ∈ l) then 2 else 0.
(** A channel: the first reference and that of [xp_list] until it is closed, one for
    either queue, one for each timeslot. *)
Definition chan_exact (h : heap) (a : Z) (x : chan_obj) : Prop :=
  x.(x_ref) = 2 + in_list a h.(h_list) + held a x h.(h_sp) ∧
  ∀ s, x.(x_sp) = Some s → a ∈ h.(h_list) ∧ is_Some (h.(h_sp) !! s).
(** A span: one for its card, one for each channel attached to it. *)
Definition span_exact (h : heap) (s : Z) (sp : span_obj) : Prop :=
  sp.(s_ref) = 1 + users s h.(h_xp) ∧ length sp.(s_slots) = 32%nat ∧
  (∀ c, sp.(s_cd) = Some c → c ∈ dom h.(h_cd)) ∧
  ∀ i a, sp.(s_slots) !! i = Some (Some a) → ∃ x, h.(h_xp) !! a = Some x ∧ x.(x_sp) = Some s.
Record exact (h : heap) : Prop := Exact {
  ex_nodup : NoDup h.(h_list);
  ex_live : linked_live h;
  ex_xp : ∀ a x, h.(h_xp) !! a = Some x → chan_exact h a x;
  ex_sp : ∀ s sp, h.(h_sp) !! s = Some sp → span_exact h s sp }.

(** One channel and one span change, in agreement with each other. *)
Section change.
Context (X : gmap Z chan_obj) (S : gmap Z span_obj) (C : gmap Z card_obj) (L K : list Z) (B R : Z).
Context (C' : gmap Z card_obj) (L' K' : list Z) (B' R' : Z).
Context (a s : Z) (x x' : chan_obj) (sp sp' : span_obj).
Context (Hex : exact (Heap X S C L K B R)) (Hx : X !! a = Some x) (Hs : S !! s = Some sp).
Context (HC : dom C' = dom C) (HL : ∀ b, b ≠ a → b ∈ L' ↔ b ∈ L) (HL' : NoDup L').
Context (Hat : x.(x_sp) = None ∨ x.(x_sp) = Some s) (Hat' : x'.(x_sp) = None ∨ x'.(x_sp) = Some s ∧ a ∈ L').
Context (Hcd : sp'.(s_cd) = sp.(s_cd)) (Hlen : length sp'.(s_slots) = 32%nat).
Context (Hslots : ∀ i b, b ≠ a → sp'.(s_slots) !! i = Some (Some b) ↔ sp.(s_slots) !! i = Some (Some b)).
Context (Hnone : x'.(x_sp) = None → ∀ i, sp'.(s_slots) !! i ≠ Some (Some a)).
Context (Hsref : sp'.(s_ref) = sp.(s_ref) - b2z (bool_decide (x.(x_sp) = Some s)) + b2z (bool_decide (x'.(x_sp) = Some s))).
Context (Href : x'.(x_ref) = 2 + in_list a L' + held a x' (<[s := sp']> S)).
Lemma exact_change : exact (Heap (<[a := x']> X) (<[s := sp']> S) C' L' K' B' R').
Proof using All.
  destruct Hex as [Hnd Hlv Hxp Hsp]. unfold linked_live in Hlv. cbn in Hnd, Hlv, Hxp, Hsp.
  destruct (Hsp s sp Hs) as (Rs & Rl & Rc & Ri). cbn in Rs, Rc, Ri.
  constructor; [exact HL'|..].
  - intros b Hb. cbn in *. destruct (decide (b = a)) as [->|N]; [by rewrite lookup_insert_eq|].
    rewrite lookup_insert_ne by done. apply Hlv. by apply HL.
  - intros b y. cbn [h_xp]. destruct (decide (b = a)) as [->|N].
    + rewrite lookup_insert_eq. intros [= <-]. split; [exact Href|]. intros t Ht. cbn.
      destruct Hat' as [Q|[Q ?]]; [congruence|]. split; [done|]. replace t with s by congruence. by rewrite lookup_insert_eq.
    + rewrite lookup_insert_ne by done. intros Hy. destruct (Hxp b y Hy) as [F1 F2]. cbn in F1, F2. split; cbn.
      * rewrite F1. f_equal; [f_equal; unfold in_list; erewrite bool_decide_ext; [done|by rewrite HL]|].
        unfold held. destruct (x_sp y) as [t|]; [|done]. destruct (decide (t = s)) as [->|M].
        -- rewrite lookup_insert_eq, Hs. apply count_agree; [congruence|]. intros i. by rewrite Hslots.
        -- by rewrite lookup_insert_ne.
      * intros t Ht. destruct (F2 t Ht) as [G1 G2]. split; [by apply HL|].
        destruct (decide (t = s)) as [->|M]; [by rewrite lookup_insert_eq|by rewrite lookup_insert_ne].
  - intros t tp. cbn [h_sp]. destruct (decide (t = s)) as [->|N].
    + rewrite lookup_insert_eq. intros [= <-]. split; cbn; [|split; [done|split]].
      * rewrite (users_insert _ _ _ _ _ Hx). lia.
      * intros c Hc. rewrite HC. apply Rc. congruence.
      * intros i b Hb. destruct (decide (b = a)) as [->|M].
        -- rewrite lookup_insert_eq. exists x'. split; [done|]. destruct Hat' as [Q|[Q ?]]; [|done].
           by destruct (Hnone Q i).
        -- rewrite lookup_insert_ne by done. apply (Ri i). by apply Hslots.
    + rewrite lookup_insert_ne by done. intros Ht. destruct (Hsp t tp Ht) as (G1 & G2 & G3 & G4). cbn in G1, G3, G4.
      split; cbn; [|split; [done|split]].
      * rewrite (users_insert _ _ _ _ _ Hx), !bool_decide_false; [cbn [b2z]; lia|..].
        -- destruct Hat' as [Q|[Q _]]; rewrite Q; congruence.
        -- destruct Hat as [Q|Q]; rewrite Q; congruence.
      * intros c Hc. rewrite HC. by apply G3.
      * intros i b Hb. destruct (G4 i b Hb) as (y & Hy & Hys). destruct (decide (b = a)) as [->|M].
        -- rewrite Hx in Hy. injection Hy as <-. destruct Hat; congruence.
        -- rewrite lookup_insert_ne by done. by exists y.
Qed.
End change.

(** The same where the channel is at no span. *)
Lemma exact_apart X S C L K B R C' L' K' B' R' a x' :
  exact (Heap X S C L K B R) → (∀ x, X !! a = Some x → x.(x_sp) = None) → dom C' = dom C →
  (∀ b, b ≠ a → b ∈ L' ↔ b ∈ L) → NoDup L' → x'.(x_sp) = None → x'.(x_ref) = 2 + in_list a L' →
  exact (Heap (<[a := x']> X) S C' L' K' B' R').
Proof.
  intros [Hnd Hlv Hxp Hsp] Hx HC HL HL' Hat' Href. unfold linked_live in Hlv. cbn in Hnd, Hlv, Hxp, Hsp.
  constructor; [exact HL'|..].
  - intros b Hb. cbn in *. destruct (decide (b = a)) as [->|N]; [by rewrite lookup_insert_eq|].
    rewrite lookup_insert_ne by done. apply Hlv. by apply HL.
  - intros b y. cbn [h_xp]. destruct (decide (b = a)) as [->|N].
    + rewrite lookup_insert_eq. intros [= <-]. split; cbn; [unfold held; rewrite Hat'; lia|congruence].
    + rewrite lookup_insert_ne by done. intros Hy. destruct (Hxp b y Hy) as [F1 F2]. cbn in F1, F2. split; cbn.
      * rewrite F1. f_equal. f_equal. unfold in_list. erewrite bool_decide_ext; [done|by rewrite HL].
      * intros t Ht. destruct (F2 t Ht) as [G1 G2]. split; [by apply HL|done].
  - intros t tp Ht. destruct (Hsp t tp Ht) as (G1 & G2 & G3 & G4). cbn in G1, G3, G4.
    split; cbn; [|split; [done|split]].
    + rewrite users_delete, bool_decide_false by congruence. cbn [b2z]. rewrite G1. f_equal.
      destruct (X !! a) as [x|] eqn:E; [|by rewrite delete_id]. rewrite <- (insert_id X a x E) at 1.
      by rewrite users_delete, bool_decide_false by (rewrite (Hx x eq_refl); congruence).
    + intros c Hc. rewrite HC. by apply G3.
    + intros i b Hb. destruct (G4 i b Hb) as (y & Hy & Hys). exists y. split; [|done].
      rewrite lookup_insert_ne; [done|]. intros <-. rewrite (Hx y Hy) in Hys. congruence.
Qed.

(** ** The operations *)

Lemma in_list_yes a l : a ∈ l → in_list a l = 2.
Proof. intros. unfold in_list. by rewrite bool_decide_true. Qed.
Lemma in_list_no a l : ¬ (a ∈ l) → in_list a l = 0.
Proof. intros. unfold in_list. by rewrite bool_decide_false. Qed.
Lemma opened_exact HZ v a pos dev h : exact h → h.(h_xp) !! a = None → exact (opened HZ v a pos dev h).
Proof.
  destruct h as [X S C L K B R]. intros Hex Ha. unfold opened. cbn in *.
  assert (HP : ∀ b, b ∈ take pos L ++ a :: drop pos L ↔ b = a ∨ b ∈ L).
  { intros b. rewrite <- (take_drop pos L) at 3. rewrite !elem_of_app, elem_of_cons. tauto. }
  assert (Hn : ¬ (a ∈ L)) by (intros F; destruct (ex_live _ Hex a F); cbn in *; congruence).
  apply (exact_apart _ _ _ _ _ _ _ _ _ _ _ _ _ _ Hex); try done; cbn.
  - congruence.
  - intros b N. rewrite HP. tauto.
  - assert (P : take pos L ++ a :: drop pos L ≡ₚ a :: L) by (by rewrite <- Permutation_middle, take_drop).
    rewrite P. apply NoDup_cons. split; [done|]. apply (ex_nodup _ Hex).
  - rewrite in_list_yes; [done|]. apply HP. by left.
Qed.
Section heaps.
Context (X : gmap Z chan_obj) (S : gmap Z span_obj) (C : gmap Z card_obj) (L K : list Z) (B R : Z).
Lemma on_xp_heap a f x : X !! a = Some x → on_xp a f (Heap X S C L K B R) = Some ((), Heap (<[a := f x]> X) S C L K B R).
Proof. intros E. by rewrite (on_xp_ok _ _ (Heap X S C L K B R) x E). Qed.
Lemma on_sp_heap a f x : S !! a = Some x → on_sp a f (Heap X S C L K B R) = Some ((), Heap X (<[a := f x]> S) C L K B R).
Proof. intros E. by rewrite (on_sp_ok _ _ (Heap X S C L K B R) x E). Qed.
End heaps.
(** What an attachment is made under: the channel has no span, its timeslots are free. *)
Definition attachable (h : heap) (a s : Z) (l : list nat) : Prop :=
  a ∈ h.(h_list) ∧ (x_sp <$> h.(h_xp) !! a) = Some None ∧ NoDup l ∧
  ∃ sp, h.(h_sp) !! s = Some sp ∧ ∀ j, j ∈ l → sp.(s_slots) !! j = Some None.
Lemma attach_exact a s l h :
  exact h → attachable h a s l → ∃ h', attach a s l h = Some ((), h') ∧ exact h'.
Proof.
  destruct h as [X S C L K B R]. intros Hex (Ha & Hx & Hd & sp & Hs & Hf). cbn in Ha, Hx, Hs.
  apply fmap_Some in Hx as (x & Hx & Hxs). symmetry in Hxs.
  pose proof (ex_xp _ Hex a x Hx) as [F1 _]. pose proof (ex_sp _ Hex s sp Hs) as (G1 & G2 & G3 & G4). cbn in F1, G1, G4.
  unfold held in F1. rewrite Hxs, in_list_yes in F1 by done.
  eexists. split.
  { unfold attach. erewrite bind_ok by (by apply take_slots_ok). erewrite bind_ok by (apply on_sp_heap, lookup_insert_eq).
    apply on_xp_heap. apply lookup_insert_eq. }
  rewrite !insert_insert_eq.
  assert (Z0 : count_slot a sp.(s_slots) = 0).
  { apply slots_zero. intros i Hi. destruct (G4 i a Hi) as (y & Hy & Hys). rewrite Hx in Hy. congruence. }
  apply (exact_change _ _ _ _ _ _ _ _ _ _ _ _ _ _ x _ sp _ Hex Hx Hs); upd; try done.
  - apply (ex_nodup _ Hex).
  - by left.
  - by right.
  - by rewrite give_length.
  - intros i b N. by apply give_keeps.
  - rewrite bool_decide_false, bool_decide_true by congruence. cbn [b2z]. lia.
  - unfold held. upd. rewrite lookup_insert_eq. upd. rewrite give_count, in_list_yes by done. lia.
Qed.
Lemma leave_span_ok a s X S C L K B R x sp :
  X !! a = Some x → S !! s = Some sp → x.(x_sp) = Some s → sp.(s_ref) ≠ 1 →
  leave_span a (Heap X S C L K B R) =
    Some ((), Heap (<[a := x <| x_sp := None |>]> X) (<[s := sp <| s_ref := sp.(s_ref) - 1 |>]> S) C L K B R).
Proof.
  intros Hx Hs Hxs Hr. unfold leave_span. erewrite bind_ok by (apply xp_at; exact Hx). rewrite Hxs.
  erewrite bind_ok by reflexivity. unfold sp_put. erewrite bind_ok by (apply sp_at; exact Hs).
  rewrite (proj2 (Z.eqb_neq _ _)) by lia. reflexivity.
Qed.
(** A channel leaves its timeslots and its span. *)
Lemma leave_exact each a s X S C L K B R x :
  exact (Heap X S C L K B R) → on_cards each (dom C) → X !! a = Some x → x.(x_sp) = Some s →
  ∃ h', (leave_slots each a s all_slots (Heap X S C L K B R) ≫= (λ p, leave_span a p.2)) = Some ((), h') ∧
    exact h' ∧ h'.(h_list) = L ∧ (x_sp <$> h'.(h_xp) !! a) = Some None.
Proof.
  intros Hex He Hx Hxs.
  pose proof (ex_xp _ Hex a x Hx) as [F1 F2]. cbn in F1, F2. destruct (F2 s Hxs) as [Ha [sp Hs]].
  pose proof (ex_sp _ Hex s sp Hs) as (G1 & G2 & G3 & G4). cbn in G1.
  pose proof (users_pos s a x X Hx Hxs).
  unfold held in F1. rewrite Hxs, Hs, in_list_yes in F1 by done. pose proof (slots_nonneg a sp.(s_slots)).
  destruct (leave_slots_ok each a s all_slots X S C L K B R x sp He Hx Hs ltac:(lia)) as (C' & HC' & E).
  assert (Z0 : count_slot a (clear a all_slots sp.(s_slots)) = 0).
  { apply slots_zero. intros i. by apply clear_all. }
  eexists. split; [|split; [|split]].
  - rewrite E. apply leave_span_ok; [apply lookup_insert_eq|apply lookup_insert_eq|by upd|]. upd. lia.
  - rewrite !insert_insert_eq. apply (exact_change _ _ _ _ _ _ _ _ _ _ _ _ a s x _ sp _ Hex Hx Hs); upd; try done.
    + apply (ex_nodup _ Hex).
    + by right.
    + by left.
    + by rewrite clear_length.
    + intros i b N. by apply clear_keeps.
    + intros _ i. by apply clear_all.
    + rewrite bool_decide_true, bool_decide_false by done. cbn [b2z]. lia.
    + unfold held. upd. rewrite in_list_yes by done. lia.
  - done.
  - cbn [h_xp]. rewrite lookup_insert_eq. by upd.
Qed.
Lemma detach_exact a s h :
  exact h → (x_sp <$> h.(h_xp) !! a) = Some (Some s) → ∃ h', detach a s h = Some ((), h') ∧ exact h'.
Proof.
  destruct h as [X S C L K B R]. intros Hex Hx. cbn in Hx. apply fmap_Some in Hx as (x & Hx & Hxs). symmetry in Hxs.
  destruct (leave_exact _ a s X S C L K B R x Hex (nothing_on_cards _) Hx Hxs) as (h' & E & Hex' & _).
  exists h'. split; [|done]. rewrite <- E. unfold detach, mbind, partial_bind.
  by destruct (leave_slots _ a s all_slots _) as [[[] h1]|].
Qed.

Lemma unlink_exact a h x :
  exact h → h.(h_xp) !! a = Some x →
  ∃ h', unlink_span a h = Some ((), h') ∧ exact h' ∧ h'.(h_list) = h.(h_list) ∧ (x_sp <$> h'.(h_xp) !! a) = Some None.
Proof.
  destruct h as [X S C L K B R]. intros Hex Hx. cbn [h_xp] in Hx. unfold unlink_span.
  erewrite bind_ok by (apply xp_at; exact Hx). destruct (x_sp x) as [s|] eqn:Hxs.
  2: { eexists. split; [reflexivity|]. split; [done|]. split; [done|]. cbn [h_xp]. by rewrite Hx, <- Hxs. }
  destruct (ex_xp _ Hex a x Hx) as [_ F2]. destruct (F2 s Hxs) as [_ [sp Hs]]. cbn [h_sp] in Hs.
  destruct (ex_sp _ Hex s sp Hs) as (_ & _ & G3 & _). cbn [h_cd] in G3.
  erewrite bind_ok by (apply sp_at; exact Hs).
  assert (E : ∃ each, on_cards each (dom C) ∧
    (match s_cd sp with Some c => leave_card_slots a s c | None => leave_slots (λ _, mret ()) a s all_slots end)
      (Heap X S C L K B R) = leave_slots each a s all_slots (Heap X S C L K B R)).
  { destruct (s_cd sp) as [c|]; [|eexists; split; [apply nothing_on_cards|reflexivity]].
    specialize (G3 c eq_refl). pose proof G3 as [cd Hc]%elem_of_dom.
    unfold leave_card_slots. erewrite bind_ok by (apply cd_at; exact Hc).
    eexists. split; [|reflexivity]. intros i h0 Hd.
    assert (Hc0 : c ∈ dom h0.(h_cd)) by (by rewrite Hd). apply elem_of_dom in Hc0 as [cd0 Hc0].
    eexists. split; [|apply on_cd_ok; exact Hc0]. rewrite dom_insert_L, Hd. set_solver. }
  destruct E as (each & He & E).
  destruct (leave_exact each a s X S C L K B R x Hex He Hx Hxs) as (h' & Eh & Q). exists h'. split; [|exact Q].
  rewrite <- Eh. unfold mbind at 1, partial_bind. rewrite E. unfold mbind, option_bind.
  by destruct (leave_slots each a s all_slots _) as [[[] h1]|].
Qed.
(** A close: the channel is no longer linked, and no timeslot or span counts it. *)
Lemma close_exact a h :
  exact h → a ∈ h.(h_list) →
  ∃ h', xp_close a h = Some (0, h') ∧ exact h' ∧ ¬ (a ∈ h'.(h_list)).
Proof.
  intros Hex Ha. destruct (ex_live _ Hex a Ha) as [x Hx].
  destruct (unlink_exact a h x Hex Hx) as (h1 & E1 & Hex1 & HL1 & Hsp1). rewrite <- HL1 in Ha. clear x Hx HL1 Hex.
  destruct h1 as [X S C L K B R]. cbn [h_xp h_list] in *.
  apply fmap_Some in Hsp1 as (x & Hx & Hxs). symmetry in Hxs.
  destruct (ex_xp _ Hex1 a x Hx) as [F1 _]. cbn [h_list h_sp] in F1. unfold held in F1. rewrite Hxs, in_list_yes in F1 by done.
  set (x1 := x <| x_data := release_data x.(x_data) |>).
  set (L' := base.filter (.≠ a) L).
  assert (HL' : ¬ (a ∈ L')) by (unfold L'; intros [? _]%list_elem_of_filter; done).
  exists (Heap (<[a := x1 <| x_ref := 2 |>]> X) S C L' K B (R - 2)). split; [|split; [|exact HL']].
  - unfold xp_close, xp_free_priv. erewrite bind_ok; [reflexivity|]. erewrite bind_ok by exact E1.
    erewrite bind_ok by (apply on_xp_heap; exact Hx). fold x1. cbv beta.
    erewrite (bind_ok (with_heap _)) by reflexivity.
    erewrite (bind_ok get_heap) by reflexivity. rewrite bool_decide_true by exact Ha.
    erewrite bind_ok.
    2: { erewrite (bind_ok (with_heap _)) by reflexivity. unfold xp_put. erewrite bind_ok by (apply xp_at, lookup_insert_eq).
         unfold x1. upd. rewrite F1. reflexivity. }
    unfold xp_put. erewrite bind_ok by (apply xp_at, lookup_insert_eq). upd.
    transitivity (Some ((), Heap (<[a := x1 <| x_ref := 2 |>]> (<[a := x1 <| x_ref := 3 |>]> (<[a := x1]> X)))
      S C L' K B (R - 2))); [reflexivity|by rewrite !insert_insert_eq].
  - apply (exact_apart _ _ _ _ _ _ _ _ _ _ _ _ _ _ Hex1); upd; try done.
    + congruence.
    + intros b N. unfold L'. rewrite list_elem_of_filter. tauto.
    + apply NoDup_filter, (ex_nodup _ Hex1).
    + by rewrite in_list_no.
Qed.

(** ** Cards and spans *)

Lemma cards_exact X S C L K B R C' K' B' :
  exact (Heap X S C L K B R) → dom C ⊆ dom C' → exact (Heap X S C' L K' B' R).
Proof.
  intros [Hnd Hlv Hxp Hsp] Hd. constructor; [exact Hnd|exact Hlv|exact Hxp|].
  intros t tp Ht. destruct (Hsp t tp Ht) as (G1 & G2 & G3 & G4). split; [exact G1|]. split; [exact G2|].
  split; [|exact G4]. intros c Hc. apply Hd. by apply G3.
Qed.
Lemma alloc_cd_exact mem wbuf rbuf h :
  exact h → ∃ r h', xp_alloc_cd mem wbuf rbuf h = Some (r, h') ∧ exact h'.
Proof.
  intros Hex. destruct h as [X S C L K B R].
  assert (N : ∃ r h', (mret None : partial heap (option Z)) (Heap X S C L K B R) = Some (r, h') ∧ exact h').
  { eexists _, _. by split; [reflexivity|]. }
  destruct mem as [c|]; [|exact N]. destruct wbuf as [w|]; [|exact N]. destruct rbuf as [r|]; [|exact N].
  eexists _, _. split.
  { unfold xp_alloc_cd, put_cd, cd_get, with_heap, get_heap.
    repeat (erewrite bind_ok by (first [reflexivity | apply on_cd_ok; apply lookup_insert_eq])). reflexivity. }
  eapply cards_exact; [exact Hex|]. cbn [h_cd]. etransitivity; [|apply dom_insert_subseteq].
  repeat (etransitivity; [|apply dom_insert_subseteq]). done.
Qed.
Lemma alloc_sp_exact mem c h :
  exact h → c ∈ dom h.(h_cd) → (∀ s, mem = Some s → h.(h_sp) !! s = None) →
  ∃ r h', xp_alloc_sp mem c h = Some (r, h') ∧ exact h'.
Proof.
  intros Hex Hc Hfree. destruct mem as [s|]; [|by eexists _, _; split; [reflexivity|]].
  specialize (Hfree s eq_refl). destruct h as [X S C L K B R]. cbn [h_sp h_cd] in *.
  apply elem_of_dom in Hc as [cd Hc].
  exists (Some s).
  exists (Heap X (<[s := SpanObj 1 (Some c) (replicate 32 None)]> S)
    (<[c := (cd <| c_ref := cd.(c_ref) + 1 + 1 |>) <| c_span := Some s |>]> C) L K B R).
  split.
  { unfold xp_alloc_sp, put_sp, cd_get, sp_get.
    erewrite bind_ok by reflexivity. erewrite bind_ok by (apply on_cd_ok; exact Hc).
    erewrite bind_ok by (apply on_sp_ok, lookup_insert_eq).
    do 2 (erewrite bind_ok by (apply on_cd_ok, lookup_insert_eq)).
    erewrite bind_ok by (apply on_sp_ok, lookup_insert_eq).
    unfold mret, partial_ret. do 2 f_equal. unfold fset. cbn. by rewrite !insert_insert_eq. }
  apply (cards_exact _ _ C _ K B); [|apply dom_insert_subseteq].
  destruct Hex as [Hnd Hlv Hxp Hsp].
  assert (Hno : ∀ a x, X !! a = Some x → x.(x_sp) ≠ Some s).
  { intros a x Hx E. destruct (Hxp a x Hx) as [_ F]. destruct (F s E) as [_ [? F']]. cbn in F'. congruence. }
  constructor; [exact Hnd|exact Hlv|..].
  - intros a x Hx. destruct (Hxp a x Hx) as [F1 F2]. cbn in F1, F2. split; cbn.
    + rewrite F1. f_equal. unfold held. destruct (x_sp x) as [t|] eqn:E; [|done].
      rewrite lookup_insert_ne; [done|]. intros <-. by apply (Hno a x Hx).
    + intros t Ht. destruct (F2 t Ht) as [? [tp Htp]]. split; [done|].
      rewrite lookup_insert_ne; [by exists tp|]. intros <-. by apply (Hno a x Hx).
  - intros t tp. cbn [h_sp]. destruct (decide (t = s)) as [->|M].
    + rewrite lookup_insert_eq. intros [= <-]. split; cbn [s_ref s_slots s_cd h_xp h_cd]; [|split; [done|split]].
      * unfold users. rewrite map_empty_filter_2; [done|]. intros a x Hx E. by apply (Hno a x Hx).
      * intros c' [= <-]. apply elem_of_dom. by exists cd.
      * intros i a Hi. change (replicate 32 None !! i = Some (Some a)) in Hi. by apply lookup_replicate in Hi as [? _].
    + rewrite lookup_insert_ne by done. intros Ht. exact (Hsp t tp Ht).
Qed.

(** ** The life of the driver *)

Section life.
Context (NMINORS : Z) (xp_majors : list Z) (HZ : Z) (v : env).
Inductive event :=
  | Card (mem : option Z) (wbuf rbuf : option (list (list Z)))
  | Span (mem : option Z) (c : Z)
  | Open (mem : option Z) (below : bool) (dev : Z * Z) (sflag : Z)
  | Close (a : Z)
  | Attach (a s : Z) (l : list nat)
  | Detach (a s : Z).
Definition happen (e : event) : partial heap () :=
  match e with
  | Card mem wbuf rbuf => _ ← xp_alloc_cd mem wbuf rbuf; mret ()
  | Span mem c => _ ← xp_alloc_sp mem c; mret ()
  | Open mem below dev sflag => _ ← xp_open NMINORS xp_majors HZ v mem None below dev sflag; mret ()
  | Close a => _ ← xp_close a; mret ()
  | Attach a s l => attach a s l
  | Detach a s => detach a s
  end.
(** What the caller sees to: memory that is allocated was free, a stream is closed once,
    an attachment is made under the conditions of [lmi_attach_req]. *)
Definition ready (h : heap) (e : event) : Prop :=
  match e with
  | Card mem _ _ => ∀ c, mem = Some c → h.(h_cd) !! c = None
  | Span mem c => c ∈ dom h.(h_cd) ∧ ∀ s, mem = Some s → h.(h_sp) !! s = None
  | Open mem _ _ _ => ∀ a, mem = Some a → h.(h_xp) !! a = None
  | Close a => a ∈ h.(h_list)
  | Attach a s l => attachable h a s l
  | Detach a s => (x_sp <$> h.(h_xp) !! a) = Some (Some s)
  end.
Fixpoint life (es : list event) : partial heap () :=
  match es with [] => mret () | e :: es => _ ← happen e; life es end.
Fixpoint orderly (es : list event) (h : heap) : Prop :=
  match es with
  | [] => True
  | e :: es => ready h e ∧ ∀ h', happen e h = Some ((), h') → orderly es h'
  end.
Lemma open_exact mem below dev sflag h :
  exact h → (∀ a, mem = Some a → h.(h_xp) !! a = None) →
  ∃ r h', xp_open NMINORS xp_majors HZ v mem None below dev sflag h = Some (r, h') ∧ exact h'.
Proof.
  intros Hex Hfree. unfold xp_open. destruct ((sflag =? MODOPEN) || below); [by eexists _, _; split; [reflexivity|]|].
  destruct dev as [cmajor cminor]. rewrite (bind_ok _ _ h h h eq_refl).
  destruct (find_minor _ _ _ _ _ _) as [[[cmajor' cminor']|] pos]; [|by eexists _, _; split; [reflexivity|]].
  destruct (cmajor' =? 0); [by eexists _, _; split; [reflexivity|]|].
  destruct mem as [a|]; [|by eexists _, _; split; [reflexivity|]].
  erewrite bind_ok by apply xp_alloc_ok. eexists _, _. split; [reflexivity|]. apply opened_exact; auto.
Qed.
Lemma happen_exact e h : exact h → ready h e → ∃ h', happen e h = Some ((), h') ∧ exact h'.
Proof.
  intros Hex Hr. destruct e as [mem w r|mem c|mem below dev sflag|a|a s l|a s]; cbn [happen].
  - destruct (alloc_cd_exact mem w r h Hex) as (x & h' & E & ?). exists h'. by erewrite bind_ok.
  - destruct Hr as [Hc Hr]. destruct (alloc_sp_exact mem c h Hex Hc Hr) as (x & h' & E & ?). exists h'. by erewrite bind_ok.
  - destruct (open_exact mem below dev sflag h Hex Hr) as (x & h' & E & ?). exists h'. by erewrite bind_ok.
  - destruct (close_exact a h Hex Hr) as (h' & E & ? & _). exists h'. by erewrite bind_ok.
  - by apply attach_exact.
  - by apply detach_exact.
Qed.
End life.
Lemma empty_exact : exact (Heap ∅ ∅ ∅ [] [] 0 0).
Proof.
  constructor; cbn; [constructor|by intros a ?%elem_of_nil|by intros a x ?%lookup_empty_Some|].
  by intros s sp ?%lookup_empty_Some.
Qed.
