(* ===== verification/LifeFaults.v ===== *)
(** * Examples of the life of channels

    Heaps at which the theorems on device numbers and references apply, and what goes
    wrong: a closed channel is never freed, a span is used after it is freed, and two
    open channels get one device number where the driver has several majors. *)
From S2P Require Import Prelude Partial Bufq Xp Prims Timers Lmi Life LifeLaws LifeRefs.
From Stdlib Require Import Sorted.
From stdpp Require Import gmap.
#[local] Open Scope Z_scope.
#[local] Open Scope os7_scope.
#[local] Set Warnings "-clear-no-such-hyp".

Definition ex_life_env : env := Env [] [] 0 [] [] [] false false.
(** Clone opens of one major, at given addresses. *)
Definition ex_open (a : Z) : event := Open (Some a) false (231, 0) 0.
Definition ex_life (maj : list Z) (es : list event) : option heap :=
  snd <$> life 255 maj 100 ex_life_env es (Heap ∅ ∅ ∅ [] [] 0 0).
Definition ex_card : list event := [Card (Some 1) (Some []) (Some []); Span (Some 2) 1].
(** A channel: its references and its span. *)
Definition chan_at (a : Z) (h : heap) : option (Z * option Z) := (fun x => (x.(x_ref), x.(x_sp))) <$> h.(h_xp) !! a.

(** ** Witnesses *)

Definition ex_three : heap :=
  Heap (<[10 := ChanObj 4 (231, 1) None (Lmi.xp_alloc_priv 100 ex_life_env)]>
         (<[12 := ChanObj 4 (231, 2) None (Lmi.xp_alloc_priv 100 ex_life_env)]>
           (<[11 := ChanObj 4 (231, 4) None (Lmi.xp_alloc_priv 100 ex_life_env)]> ∅)))
    ∅ ∅ [10; 12; 11] [] 0 6.
Lemma open_number_witness :
  ∃ h', xp_open 255 [231] 100 ex_life_env (Some 13) None false (231, 0) 0 ex_three = Some ((0, Some 13), h') ∧
    devices h' = [(231, 1); (231, 2); (231, 3); (231, 4)] ∧ ∃ n, (x_dev <$> h'.(h_xp) !! 13) = Some (231, n) ∧
    first_free 1 n [1; 2; 4].
Proof.
  assert (E : xp_open 255 [231] 100 ex_life_env (Some 13) None false (231, 0) 0 ex_three =
    Some ((0, Some 13), opened 100 ex_life_env 13 2 (231, 3) ex_three)) by (vm_compute; reflexivity).
  exists (opened 100 ex_life_env 13 2 (231, 3) ex_three). split; [exact E|]. split; [vm_compute; reflexivity|].
  assert (S : StronglySorted Z.lt [1; 2; 4]) by (repeat constructor).
  assert (Lv : linked_live ex_three).
  { intros a Ha. unfold ex_three in Ha. cbn [h_list] in Ha. rewrite !elem_of_cons, elem_of_nil in Ha.
    destruct Ha as [->|[->|[->|[]]]]; by eexists. }
  pose proof (open_number 255 [231] 231 100 ex_life_env (Some 13) 0 0 ex_three [1; 2; 4]
    eq_refl ltac:(discriminate) ltac:(discriminate) ltac:(vm_compute; reflexivity) S Lv ltac:(by intros a [= <-])) as T.
  cbv zeta in T. rewrite E in T. destruct T as (_ & _ & n & ms' & H1 & H2 & _).
  exists n. split; [exact H1|exact H2].
Defined.
Definition ex_orderly : list event := ex_card ++ [ex_open 10; ex_open 11; Attach 10 2 [1%nat]; Detach 10 2; Close 10].
Lemma orderly_step maj e es h h' :
  ready h e → happen 255 maj 100 ex_life_env e h = Some ((), h') → orderly 255 maj 100 ex_life_env es h' →
  orderly 255 maj 100 ex_life_env (e :: es) h.
Proof. intros Hr He Ho. split; [exact Hr|]. rewrite He. by intros h1 [= <-]. Qed.
#[local] Ltac step_with tac := eapply orderly_step; [tac|vm_compute; reflexivity|].

(** ** What goes wrong *)

(** The references of the queue pair are never put: a closed channel keeps two, and
    its memory is not freed. *)
Lemma closed_channel_leaks :
  (ex_life [231] [ex_open 10; Close 10] ≫= chan_at 10) = Some (2, None) ∧
  (h_list <$> ex_life [231] [ex_open 10; Close 10]) = Some [].
Proof. split; vm_compute; reflexivity. Qed.
(** [xp_alloc_sp] takes its first reference of the card instead of the span: to remove
    the span frees it and then accesses it. *)
Lemma freed_span_used :
  (ex_life [231] ex_card ≫= fun h => s_ref <$> h.(h_sp) !! 2) = Some 1 ∧
  (ex_life [231] ex_card ≫= xp_free_sp 2) = None ∧ (ex_life [231] ex_card ≫= xp_free_cd 1) = None.
Proof. split; [|split]; vm_compute; reflexivity. Qed.
(** With two majors, an open of the second puts its channel before those of the first,
    and the next clone open of the first gets a number that is in use. *)
Lemma numbers_twice :
  (devices <$> ex_life [231; 232] [ex_open 10; Open (Some 11) false (232, 0) 0; ex_open 12]) =
    Some [(231, 1); (232, 1); (231, 1)].
Proof. vm_compute. reflexivity. Qed.
