(* ===== verification/Msg.v ===== *)
(** * STREAMS message blocks

    The allocation, duplication, copying, linking, trimming and freeing of messages
    ([src/src/kernel/strutil.c], [include/sys/openss7/stream.h]).  A combined block
    ([struct mdbblock]) holds a message block, a data block and a short buffer; a message
    block may refer to the data block of another one.  It is free when neither its
    message block nor its data block is in use.  An access to memory that is free, or
    beyond a buffer, ends the computation ([Partial]). *)
From S2P Require Import Prelude Partial.
From stdpp Require Import gmap.
#[local] Open Scope Z_scope.
#[local] Open Scope os7_scope.

(** ** Memory *)

(** An octet of a buffer, unless it was never written. *)
Definition octet : Type := option Z.
(** The buffer within a combined block, and memory of another allocator. *)
Inductive bufid := Own (a : Z) | Mem (k : Z).
#[export] Instance bufid_eq : EqDecision bufid.
Proof. solve_decision. Defined.
Record ptr := Ptr { p_buf : bufid; p_off : Z }.
#[export] Instance ptr_eq : EqDecision ptr.
Proof. solve_decision. Defined.
Definition ptr_add (p : ptr) (n : Z) : ptr := Ptr p.(p_buf) (p.(p_off) + n).
(** What [db_frtnp] calls: [freeb_skb], or a routine of the user with its argument. *)
Inductive frtn := Free_skb (k : Z) | Free_user (arg : Z).
(** [struct mdbblock].  [b_datap] names the block whose data block is referred to. *)
Record mdb := Mdb {
  b_datap : option Z; b_cont : option Z; b_rptr : ptr; b_wptr : ptr; b_band : Z; b_flag : Z; b_csum : Z;
  db_base : ptr; db_lim : ptr; db_ref : Z; db_type : Z; db_size : Z; db_frtnp : option frtn; databuf : list octet }.
#[export] Instance eta_mdb : Eta mdb := fun r =>
  Mdb r.(b_datap) r.(b_cont) r.(b_rptr) r.(b_wptr) r.(b_band) r.(b_flag) r.(b_csum)
    r.(db_base) r.(db_lim) r.(db_ref) r.(db_type) r.(db_size) r.(db_frtnp) r.(databuf).
#[export] Instance set_b_datap : Setter b_datap := ltac:(mk_setter).
#[export] Instance set_b_cont : Setter b_cont := ltac:(mk_setter).
#[export] Instance set_b_rptr : Setter b_rptr := ltac:(mk_setter).
#[export] Instance set_b_wptr : Setter b_wptr := ltac:(mk_setter).
#[export] Instance set_b_band : Setter b_band := ltac:(mk_setter).
#[export] Instance set_b_flag : Setter b_flag := ltac:(mk_setter).
#[export] Instance set_b_csum : Setter b_csum := ltac:(mk_setter).
#[export] Instance set_db_base : Setter db_base := ltac:(mk_setter).
#[export] Instance set_db_lim : Setter db_lim := ltac:(mk_setter).
#[export] Instance set_db_ref : Setter db_ref := ltac:(mk_setter).
#[export] Instance set_db_type : Setter db_type := ltac:(mk_setter).
#[export] Instance set_db_size : Setter db_size := ltac:(mk_setter).
#[export] Instance set_db_frtnp : Setter db_frtnp := ltac:(mk_setter).
#[export] Instance set_databuf : Setter databuf := ltac:(mk_setter).
(** The blocks, the other memory, the next address, which allocations are granted, and
    the free routines of users that were called. *)
Record mheap := MHeap {
  m_md : gmap Z mdb; m_mem : gmap Z (list octet); m_next : Z; m_grant : list bool; m_called : list Z }.
#[export] Instance eta_mheap : Eta mheap := fun r =>
  MHeap r.(m_md) r.(m_mem) r.(m_next) r.(m_grant) r.(m_called).
#[export] Instance set_m_md : Setter m_md := ltac:(mk_setter).
#[export] Instance set_m_mem : Setter m_mem := ltac:(mk_setter).
#[export] Instance set_m_next : Setter m_next := ltac:(mk_setter).
#[export] Instance set_m_grant : Setter m_grant := ltac:(mk_setter).
#[export] Instance set_m_called : Setter m_called := ltac:(mk_setter).

Definition fault {A} : partial mheap A := fun _ => None.
Definition the_md (a : Z) : partial mheap mdb := fun h => m ← h.(m_md) !! a; Some (m, h).
Definition put_md (a : Z) (m : mdb) : partial mheap () := fun h => Some ((), h <| m_md := <[a := m]> h.(m_md) |>).
Definition on_md (a : Z) (f : mdb → mdb) : partial mheap () := m ← the_md a; put_md a (f m).
Definition with_mheap (f : mheap → mheap) : partial mheap () := fun h => Some ((), f h).
(** The walk along a message has one turn more than there are blocks. *)
Definition turns : partial mheap nat := fun h => Some (S (size h.(m_md)), h).
Definition the_buf (b : bufid) : partial mheap (list octet) :=
  match b with
  | Own a => m ← the_md a; mret m.(databuf)
  | Mem k => fun h => l ← h.(m_mem) !! k; Some (l, h)
  end.
Definition put_buf (b : bufid) (l : list octet) : partial mheap () :=
  match b with
  | Own a => on_md a (fun m => m <| databuf := l |>)
  | Mem k => with_mheap (fun h => h <| m_mem := <[k := l]> h.(m_mem) |>)
  end.
(** The difference of pointers, and octets from a pointer on. *)
Definition ptr_sub (q p : ptr) : partial mheap Z :=
  if bool_decide (q.(p_buf) = p.(p_buf)) then mret (q.(p_off) - p.(p_off)) else fault.
Definition within (p : ptr) (n : Z) (l : list octet) : bool :=
  (0 <=? p.(p_off)) && (p.(p_off) + n <=? Z.of_nat (length l)).
Definition octets_at (p : ptr) (n : Z) (l : list octet) : list octet :=
  take (Z.to_nat n) (drop (Z.to_nat p.(p_off)) l).
Definition put_at (p : ptr) (x l : list octet) : list octet :=
  take (Z.to_nat p.(p_off)) l ++ x ++ drop (Z.to_nat p.(p_off) + length x) l.
(** The size of [bcopy] is unsigned. *)
Definition bcopy (p q : ptr) (n : Z) : partial mheap () :=
  if n =? 0 then mret ()
  else
    l ← the_buf p.(p_buf);
    if negb ((0 <=? n) && within p n l) then fault
    else
      l' ← the_buf q.(p_buf);
      if negb (within q n l') then fault
      else put_buf q.(p_buf) (put_at q (octets_at p n l) l').

(** ** Allocation *)

Definition M_DATA : Z := 0.
Definition BPRI_MED : Z := 2.
Definition BPRI_SKBUFF : Z := 2 ^ 8.
Definition granted : partial mheap bool := fun h =>
  match h.(m_grant) with [] => Some (true, h) | b :: g => Some (b, h <| m_grant := g |>) end.
Definition new_address : partial mheap Z := fun h => Some (h.(m_next), h <| m_next := h.(m_next) + 1 |>).
Definition kmem_free (p : ptr) : partial mheap () :=
  match p with
  | Ptr (Mem k) 0 => _ ← the_buf (Mem k); with_mheap (fun h => h <| m_mem := delete k h.(m_mem) |>)
  | _ => fault
  end.
Definition mdbblock_free (a : Z) : partial mheap () :=
  _ ← the_md a; with_mheap (fun h => h <| m_md := delete a h.(m_md) |>).

Section alloc.
(** The size of the buffer of a combined block, the octets the kernel makes usable for
    those that were asked for, and the size of the data area of a socket buffer. *)
Context (FASTBUF : Z) (ktruesize skb_size : Z → Z).
Definition mdbblock_alloc : partial mheap (option Z) :=
  ok ← granted;
  if negb ok then mret None
  else
    a ← new_address;
    _ ← put_md a (Mdb (Some a) None (Ptr (Own a) 0) (Ptr (Own a) 0) 0 0 0 (Ptr (Own a) 0) (Ptr (Own a) FASTBUF)
                    1 M_DATA FASTBUF None (replicate (Z.to_nat FASTBUF) None));
    mret (Some a).
Definition kmem_alloc (size : Z) : partial mheap (option Z) :=
  ok ← granted;
  if negb ok then mret None
  else
    k ← new_address;
    _ ← put_buf (Mem k) (replicate (Z.to_nat (ktruesize size)) None);
    mret (Some k).
Definition alloc_skb (size : Z) : partial mheap (option Z) :=
  ok ← granted;
  if negb ok then mret None
  else
    k ← new_address;
    _ ← put_buf (Mem k) (replicate (Z.to_nat (skb_size size)) None);
    mret (Some k).
(** A socket buffer: its memory, [data], [tail] and [end]. *)
Definition skballoc (k data tail end_ : Z) : partial mheap (option Z) :=
  r ← mdbblock_alloc;
  match r with
  | None => mret None
  | Some a =>
      _ ← on_md a (fun m => (m <| b_rptr := Ptr (Mem k) data |>) <| b_wptr := Ptr (Mem k) tail |>);
      _ ← on_md a (fun m => ((((m <| db_frtnp := Some (Free_skb k) |>) <| db_base := Ptr (Mem k) 0 |>)
                               <| db_lim := Ptr (Mem k) end_ |>) <| db_size := end_ |>));
      mret (Some a)
  end.
(** The buffer of a user: its memory and the free routine's argument. *)
Definition esballoc (k size arg : Z) : partial mheap (option Z) :=
  r ← mdbblock_alloc;
  match r with
  | None => mret None
  | Some a =>
      _ ← on_md a (fun m => (m <| b_rptr := Ptr (Mem k) 0 |>) <| b_wptr := Ptr (Mem k) 0 |>);
      _ ← on_md a (fun m => ((((m <| db_frtnp := Some (Free_user arg) |>) <| db_base := Ptr (Mem k) 0 |>)
                               <| db_lim := Ptr (Mem k) size |>) <| db_size := size |>));
      mret (Some a)
  end.
Definition allocb_skb (size : Z) : partial mheap (option Z) :=
  r ← alloc_skb size;
  match r with
  | None => mret None
  | Some k =>
      r ← skballoc k 0 0 (skb_size size);
      match r with Some a => mret (Some a) | None => _ ← kmem_free (Ptr (Mem k) 0); mret None end
  end.
Definition allocb_fast (size : Z) : partial mheap (option Z) :=
  r ← mdbblock_alloc;
  match r with
  | None => mret None
  | Some a =>
      _ ← on_md a (fun m => (m <| b_rptr := Ptr (Own a) 0 |>) <| b_wptr := Ptr (Own a) 0 |>);
      _ ← on_md a (fun m => ((m <| db_base := Ptr (Own a) 0 |>) <| db_lim := Ptr (Own a) FASTBUF |>) <| db_size := size |>);
      mret (Some a)
  end.
Definition allocb_kmem (size : Z) : partial mheap (option Z) :=
  r ← kmem_alloc size;
  match r with
  | None => mret None
  | Some k =>
      r ← mdbblock_alloc;
      match r with
      | Some a =>
          _ ← on_md a (fun m => (m <| b_rptr := Ptr (Mem k) 0 |>) <| b_wptr := Ptr (Mem k) 0 |>);
          _ ← on_md a (fun m => ((m <| db_base := Ptr (Mem k) 0 |>) <| db_lim := Ptr (Mem k) (ktruesize size) |>)
                                  <| db_size := size |>);
          mret (Some a)
      | None => _ ← kmem_free (Ptr (Mem k) 0); mret None
      end
  end.
Definition allocb (size priority : Z) : partial mheap (option Z) :=
  if negb (Z.land priority BPRI_SKBUFF =? 0) then allocb_skb size
  else if size <=? FASTBUF then allocb_fast size
  else allocb_kmem size.

(** ** Blocks *)

(** The count of references is an unsigned char. *)
Definition db_inc (d : Z) : partial mheap bool :=
  m ← the_md d;
  if m.(db_ref) =? 255 then mret false
  else _ ← put_md d (m <| db_ref := m.(db_ref) + 1 |>); mret true.
Definition db_dec_and_test (d : Z) : partial mheap bool :=
  m ← the_md d;
  let r := (m.(db_ref) - 1) mod 2 ^ 8 in
  _ ← put_md d (m <| db_ref := r |>);
  mret (r =? 0).
Definition call_free (f : frtn) : partial mheap () :=
  match f with
  | Free_skb k => kmem_free (Ptr (Mem k) 0)
  | Free_user arg => with_mheap (fun h => h <| m_called := arg :: h.(m_called) |>)
  end.
Definition freedb (d : Z) : partial mheap () :=
  last ← db_dec_and_test d;
  if (last : bool)
  then
    m ← the_md d;
    _ ← (if negb (bool_decide (m.(db_base) = Ptr (Own d) 0))
         then match m.(db_frtnp) with Some f => call_free f | None => kmem_free m.(db_base) end
         else mret ());
    m ← the_md d;
    if bool_decide (m.(b_datap) = None) then mdbblock_free d else mret ()
  else mret ().
Definition freeb (a : Z) : partial mheap () :=
  m ← the_md a;
  _ ← put_md a (m <| b_datap := None |>);
  match m.(b_datap) with
  | None => fault
  | Some d =>
      _ ← freedb d;
      if negb (bool_decide (d = a))
      then m ← the_md a; if m.(db_ref) =? 0 then mdbblock_free a else mret ()
      else mret ()
  end.
(** The data block of a message block. *)
Definition datab (m : mdb) : partial mheap mdb :=
  match m.(b_datap) with Some d => the_md d | None => fault end.
Definition dupb (b : Z) : partial mheap (option Z) :=
  r ← mdbblock_alloc;
  match r with
  | None => mret None
  | Some a =>
      m ← the_md b;
      match m.(b_datap) with
      | None => fault
      | Some d =>
          ok ← db_inc d;
          if (ok : bool)
          then
            _ ← on_md a (fun x => (((((x <| b_rptr := m.(b_rptr) |>) <| b_wptr := m.(b_wptr) |>) <| b_datap := m.(b_datap) |>)
                                     <| b_band := m.(b_band) |>) <| b_flag := m.(b_flag) |>) <| b_csum := m.(b_csum) |>);
            _ ← on_md a (fun x => x <| db_ref := 0 |>);
            mret (Some a)
          else _ ← freeb a; mret None
      end
  end.
Definition blen (m : mdb) : partial mheap Z := ptr_sub m.(b_wptr) m.(b_rptr).
Definition copyb (mp : option Z) : partial mheap (option Z) :=
  match mp with
  | None => mret None
  | Some b =>
      m ← the_md b;
      n ← blen m;
      let size := if 0 <? n then n else 0 in
      r ← allocb size BPRI_MED;
      match r with
      | None => mret None
      | Some a =>
          x ← the_md a;
          _ ← bcopy m.(b_rptr) x.(b_wptr) size;
          _ ← on_md a (fun x => x <| b_wptr := ptr_add x.(b_wptr) size |>);
          t ← datab m;
          x ← the_md a;
          _ ← match x.(b_datap) with Some d => on_md d (fun y => y <| db_type := t.(db_type) |>) | None => fault end;
          _ ← on_md a (fun x => ((x <| b_band := m.(b_band) |>) <| b_flag := m.(b_flag) |>) <| b_csum := m.(b_csum) |>);
          mret (Some a)
      end
  end.
Definition testb (size priority : Z) : partial mheap bool :=
  r ← allocb size priority;
  match r with Some a => _ ← freeb a; mret true | None => mret false end.

(** ** Messages *)

Fixpoint free_loop (n : nat) (b : option Z) : partial mheap () :=
  match b, n with
  | None, _ => mret ()
  | Some _, O => fault
  | Some a, S n => m ← the_md a; _ ← freeb a; free_loop n m.(b_cont)
  end.
Definition freemsg (mp : option Z) : partial mheap () := n ← turns; free_loop n mp.
(** Where a pointer to a block is kept: in the variable [msg] or in a block. *)
Definition set_link (bp : option Z) (r : option Z) : partial mheap () :=
  match bp with None => mret () | Some a => on_md a (fun m => m <| b_cont := r |>) end.
(** The loop of [copymsg] and [dupmsg]: whether it got to the end, and [msg]. *)
Fixpoint each_block (op : Z → partial mheap (option Z)) (n : nat) (b bp msg : option Z) :
    partial mheap (bool * option Z) :=
  match b, n with
  | None, _ => mret (true, msg)
  | Some _, O => fault
  | Some a, S n =>
      r ← op a;
      _ ← set_link bp r;
      let msg := match bp with None => r | Some _ => msg end in
      match r with
      | None => mret (false, msg)
      | Some _ => m ← the_md a; each_block op n m.(b_cont) r msg
      end
  end.
Definition copymsg (mp : option Z) : partial mheap (option Z) :=
  n ← turns;
  '(ok, msg) ← each_block (fun a => copyb (Some a)) n mp None None;
  if (ok : bool) then mret msg else _ ← freemsg mp; mret None.
Definition dupmsg (mp : option Z) : partial mheap (option Z) :=
  n ← turns;
  '(ok, msg) ← each_block dupb n mp None None;
  if (ok : bool) then mret msg else _ ← freemsg msg; mret None.
Fixpoint link_loop (n : nat) (a : Z) (mp2 : option Z) : partial mheap () :=
  match n with
  | O => fault
  | S n => m ← the_md a; match m.(b_cont) with None => set_link (Some a) mp2 | Some b => link_loop n b mp2 end
  end.
Definition linkb (mp1 mp2 : option Z) : partial mheap () :=
  n ← turns; match mp1 with None => mret () | Some a => link_loop n a mp2 end.
Definition linkmsg (mp1 mp2 : option Z) : partial mheap (option Z) :=
  match mp1 with Some _ => _ ← linkb mp1 mp2; mret mp1 | None => mret mp2 end.
Definition unlinkb (mp : option Z) : partial mheap (option Z) :=
  match mp with
  | Some a => m ← the_md a; _ ← put_md a (m <| b_cont := None |>); mret m.(b_cont)
  | None => mret None
  end.
(** The result [None] is the pointer of minus one. *)
Fixpoint rmvb_loop (n : nat) (p mpp : option Z) (mp : option Z) (bp : Z) : partial mheap (option (option Z)) :=
  match mpp, n with
  | None, _ => mret None
  | Some _, O => fault
  | Some a, S n =>
      m ← the_md a;
      if a =? bp
      then
        _ ← set_link p m.(b_cont);
        _ ← on_md bp (fun m => m <| b_cont := None |>);
        mret (Some (match p with None => m.(b_cont) | Some _ => mp end))
      else rmvb_loop n (Some a) m.(b_cont) mp bp
  end.
Definition rmvb (mp bp : option Z) : partial mheap (option (option Z)) :=
  match bp with None => mret None | Some b => n ← turns; rmvb_loop n None mp mp b end.
Definition unlinkmsg (mp bp : option Z) : partial mheap (option Z) :=
  if bool_decide (mp = bp) then unlinkb bp else _ ← rmvb mp bp; mret mp.
Fixpoint dsize_loop (n : nat) (b : option Z) (size : Z) : partial mheap Z :=
  match b, n with
  | None, _ => mret size
  | Some _, O => fault
  | Some a, S n =>
      m ← the_md a;
      d ← datab m;
      l ← (if d.(db_type) =? M_DATA then blen m else mret 0);
      dsize_loop n m.(b_cont) (if 0 <? l then size + l else size)
  end.
Definition msgdsize (mp : option Z) : partial mheap Z := n ← turns; dsize_loop n mp 0.

(** ** Trimming *)

Fixpoint head_check (n : nat) (b : option Z) (type size : Z) : partial mheap bool :=
  match b, n with
  | None, _ => mret false
  | Some _, O => fault
  | Some a, S n =>
      m ← the_md a;
      d ← datab m;
      if negb (d.(db_type) =? type) then mret false
      else
        l ← blen m;
        if l <=? 0 then head_check n m.(b_cont) type size
        else if size - l <=? 0 then mret true
        else head_check n m.(b_cont) type (size - l)
  end.
Fixpoint head_trim (n : nat) (b : option Z) (size : Z) : partial mheap Z :=
  match b, n with
  | None, _ => mret 0
  | Some _, O => fault
  | Some a, S n =>
      m ← the_md a;
      l ← blen m;
      if l <=? 0 then head_trim n m.(b_cont) size
      else
        let size := size - l in
        if size <? 0
        then _ ← put_md a (m <| b_rptr := ptr_add m.(b_rptr) (l + size) |>); mret 1
        else _ ← put_md a (m <| b_rptr := ptr_add m.(b_rptr) l |>); head_trim n m.(b_cont) size
  end.
(** [size] and [bp] at the end of the first loop for a tail. *)
Fixpoint tail_check (n : nat) (b : option Z) (type size : Z) (bp : option Z) : partial mheap (Z * option Z) :=
  match b, n with
  | None, _ => mret (size, bp)
  | Some _, O => fault
  | Some a, S n =>
      m ← the_md a;
      d ← datab m;
      let '(type, size, bp) :=
        if negb (d.(db_type) =? type) then (d.(db_type), 0, b) else (type, size, bp) in
      l ← blen m;
      tail_check n m.(b_cont) type (if l <=? 0 then size else size + l) bp
  end.
Fixpoint tail_trim (n : nat) (b : option Z) (size length : Z) : partial mheap () :=
  match b, n with
  | None, _ => mret ()
  | Some _, O => fault
  | Some a, S n =>
      m ← the_md a;
      l ← blen m;
      if l <=? 0 then tail_trim n m.(b_cont) size length
      else
        let cut :=
          if size <? - length then Some m.(b_rptr)
          else if size - l <? - length then Some (ptr_add m.(b_wptr) (length + (size - l)))
          else None in
        _ ← match cut with Some w => put_md a (m <| b_wptr := w |>) | None => mret () end;
        tail_trim n m.(b_cont) (size - l) length
  end.
Definition adjmsg (mp : option Z) (length : Z) : partial mheap Z :=
  match mp with
  | None => mret 0
  | Some a =>
      m ← the_md a;
      d ← datab m;
      n ← turns;
      if length =? 0 then mret 1
      else if 0 <? length
      then
        ok ← head_check n mp d.(db_type) length;
        if (ok : bool) then head_trim n mp length else mret 0
      else
        '(size, bp) ← tail_check n mp d.(db_type) 0 None;
        if - length <=? size then _ ← tail_trim n bp size length; mret 0 else mret 0
  end.

(** ** Pulling up *)

(** The sum of the sizes of the blocks of one type, and whether it got beyond [len].
    A [len] of zero may be one to get beyond in [pullupmsg] only ([zero]). *)
Fixpoint pull_check (zero : bool) (n : nat) (b : option Z) (type size len : Z) : partial mheap (Z * bool) :=
  match b, n with
  | None, _ => mret (size, false)
  | Some _, O => fault
  | Some a, S n =>
      m ← the_md a;
      l ← blen m;
      if l <=? 0 then pull_check zero n m.(b_cont) type size len
      else
        d ← datab m;
        if negb (d.(db_type) =? type) then mret (size, false)
        else if (len <? size + l) && (if zero then 0 <=? len else 0 <? len) then mret (size + l, true)
        else pull_check zero n m.(b_cont) type (size + l) len
  end.
(** [len] octets from [p] on go behind those of [msg]. *)
Definition append (msg : Z) (p : ptr) (n : Z) : partial mheap () :=
  m ← the_md msg;
  _ ← bcopy p m.(b_wptr) n;
  on_md msg (fun m => m <| b_wptr := ptr_add m.(b_wptr) n |>).
(** The second loop of [msgpullup]: the block it ends at and where a copy is to be
    linked; [None] when an allocation failed. *)
Fixpoint pull_loop (n : nat) (msg type : Z) (b : option Z) (bp len : Z) : partial mheap (option (option Z * Z)) :=
  match b, n with
  | None, _ => mret (Some (None, bp))
  | Some _, O => fault
  | Some a, S n =>
      m ← the_md a;
      l ← blen m;
      if l <=? 0 then pull_loop n msg type m.(b_cont) bp len
      else
        d ← datab m;
        if negb (d.(db_type) =? type) then mret (Some (b, bp))
        else if l - len <=? 0
        then _ ← append msg m.(b_rptr) l; pull_loop n msg type m.(b_cont) bp (len - l)
        else
          _ ← append msg m.(b_rptr) len;
          r ← copyb b;
          _ ← set_link (Some bp) r;
          match r with
          | None => mret None
          | Some c =>
              x ← the_md c;
              _ ← match x.(b_datap) with Some e => on_md e (fun y => y <| db_type := d.(db_type) |>) | None => fault end;
              _ ← on_md c (fun x => x <| b_rptr := ptr_add x.(b_rptr) (l - len) |>);
              m ← the_md a;
              mret (Some (m.(b_cont), c))
          end
  end.
Definition msgpullup (mp : option Z) (length : Z) : partial mheap (option Z) :=
  match mp with
  | None => mret None
  | Some a =>
      if length =? 0 then mret None
      else
        m ← the_md a;
        d ← datab m;
        n ← turns;
        '(size, found) ← pull_check false n mp d.(db_type) 0 length;
        if negb found && (size <=? length) then mret None
        else
          let len := if negb found && (length <? 0) then size else length in
          r ← allocb len BPRI_MED;
          match r with
          | None => mret None
          | Some msg =>
              n ← turns;
              r ← pull_loop n msg d.(db_type) (Some msg) msg len;
              match r with
              | None => _ ← freemsg (Some msg); mret (Some msg)
              | Some (None, _) => mret (Some msg)
              | Some (b, bp) =>
                  r ← copymsg b;
                  _ ← set_link (Some bp) r;
                  match r with
                  | None => _ ← freemsg (Some msg); mret (Some msg)
                  | Some _ => mret (Some msg)
                  end
              end
          end
  end.
(** The loop of [pullupmsg] over the blocks after the first; what is left of [size]. *)
Fixpoint pullup_loop (n : nat) (mp type size : Z) : partial mheap Z :=
  match n with
  | O => fault
  | S n =>
      x ← the_md mp;
      match x.(b_cont) with
      | None => mret size
      | Some b =>
          m ← the_md b;
          l ← blen m;
          let l := if 0 <? l then l else 0 in
          other ← (if 0 <? l then d ← datab m; mret (negb (d.(db_type) =? type)) else mret false);
          if (other : bool) then mret size
          else if l <=? size
          then
            _ ← append mp m.(b_rptr) l;
            _ ← on_md mp (fun x => x <| b_cont := m.(b_cont) |>);
            _ ← freeb b;
            if size - l <=? 0 then mret (size - l) else pullup_loop n mp type (size - l)
          else
            _ ← append mp m.(b_rptr) size;
            _ ← on_md b (fun m => m <| b_rptr := ptr_add m.(b_rptr) size |>);
            mret 0
      end
  end.
(** [aligned] says of a pointer that its address is one of a cache line. *)
Definition pullupmsg (aligned : ptr → bool) (mp : option Z) (len : Z) : partial mheap Z :=
  match mp with
  | None => mret 0
  | Some a =>
      if len <? -1 then mret 0
      else
        m ← the_md a;
        l ← blen m;
        if (len =? 0) || ((len <=? l) && (0 <=? len) && aligned m.(b_rptr)) then mret 1
        else
          d ← datab m;
          n ← turns;
          '(size, found) ← pull_check true n mp d.(db_type) 0 len;
          if negb found && (size <=? len) then mret 0
          else
            r ← mdbblock_alloc;
            match r with
            | None => mret 0
            | Some md =>
                k ← kmem_alloc size;
                match k with
                | None => _ ← mdbblock_free md; mret 0
                | Some k =>
                    _ ← on_md md (fun x => x <| b_datap := None |>);
                    _ ← on_md md (fun x => ((((x <| db_base := Ptr (Mem k) 0 |>)
                          <| db_lim := Ptr (Mem k) (ktruesize size) |>) <| db_type := d.(db_type) |>) <| db_size := size |>));
                    let l := if 0 <? l then l else 0 in
                    _ ← bcopy m.(b_rptr) (Ptr (Mem k) 0) l;
                    _ ← on_md a (fun m => ((m <| b_rptr := d.(db_base) |>) <| b_wptr := ptr_add d.(db_base) l |>)
                                           <| b_datap := Some md |>);
                    _ ← match m.(b_datap) with Some d => freedb d | None => fault end;
                    n ← turns;
                    size ← pullup_loop n a d.(db_type) (size - l);
                    mret (if size =? 0 then 1 else 0)
                end
            end
  end.
End alloc.
