(* ===== verification/MsgLaws.v ===== *)
(** * Message blocks that share buffers

    What a message block shows - the block it is linked to, its type and marks and the
    octets between its pointers - does not depend on which data block it refers to:
    allocating, duplicating, copying and freeing blocks act on what they show as on a
    finite map, while the counts of references stay exact. *)
From S2P Require Import Prelude Partial Msg.
From stdpp Require Import gmap.
#[local] Open Scope Z_scope.
#[local] Open Scope os7_scope.
#[local] Set Warnings "-clear-no-such-hyp".

(** ** What a block shows *)

Record blk := Blk { k_type : Z; k_band : Z; k_flag : Z; k_csum : Z; k_data : list octet }.
Definition buf_of (M : gmap Z mdb) (B : gmap Z (list octet)) (b : bufid) : option (list octet) :=
  match b with Own a => databuf <$> M !! a | Mem k => B !! k end.
Definition data_of (M : gmap Z mdb) (B : gmap Z (list octet)) (p q : ptr) : list octet :=
  match buf_of M B p.(p_buf) with
  | Some l => octets_at p (q.(p_off) - p.(p_off)) l
  | None => []
  end.
Definition shows (M : gmap Z mdb) (B : gmap Z (list octet)) (m : mdb) : option (option Z * blk) :=
  d ← m.(b_datap);
  x ← M !! d;
  Some (m.(b_cont), Blk x.(db_type) m.(b_band) m.(b_flag) m.(b_csum) (data_of M B m.(b_rptr) m.(b_wptr))).
(** The message blocks in use. *)
Definition view (h : mheap) : gmap Z (option Z * blk) := omap (shows h.(m_md) h.(m_mem)) h.(m_md).

(** ** Exact counts *)

Definition refers (d : Z) (p : Z * mdb) : Prop := p.2.(b_datap) = Some d.
#[export] Instance refers_dec d p : Decision (refers d p).
Proof. unfold refers. apply _. Defined.
Definition refs (d : Z) (M : gmap Z mdb) : Z := Z.of_nat (size (base.filter (refers d) M)).
(** The buffer of a data block in use is its own, or memory that is released with it. *)
Definition owns (a : Z) (m : mdb) (B : gmap Z (list octet)) : Prop :=
  m.(db_base) = Ptr (Own a) 0 ∨
  ∃ k, m.(db_base) = Ptr (Mem k) 0 ∧ is_Some (B !! k) ∧ (m.(db_frtnp) = None ∨ m.(db_frtnp) = Some (Free_skb k)).
(** The pointers of a message block are within the buffer of its data block. *)
Definition points (M : gmap Z mdb) (B : gmap Z (list octet)) (m x : mdb) : Prop :=
  m.(b_rptr).(p_buf) = x.(db_base).(p_buf) ∧ m.(b_wptr).(p_buf) = x.(db_base).(p_buf) ∧
  ∃ l, buf_of M B x.(db_base).(p_buf) = Some l ∧
    0 ≤ m.(b_rptr).(p_off) ∧ 0 ≤ m.(b_wptr).(p_off) ≤ Z.of_nat (length l).
Record md_ok (M : gmap Z mdb) (B : gmap Z (list octet)) (a : Z) (m : mdb) : Prop := Md_ok {
  ok_used : m.(b_datap) ≠ None ∨ 0 < m.(db_ref);
  ok_refs : m.(db_ref) = refs a M ∧ m.(db_ref) ≤ 255;
  ok_owns : 0 < m.(db_ref) → owns a m B;
  ok_points : ∀ d, m.(b_datap) = Some d → ∃ x, M !! d = Some x ∧ points M B m x }.
Record exact_mem (h : mheap) : Prop := Exact_mem {
  em_md : ∀ a m, h.(m_md) !! a = Some m → a < h.(m_next) ∧ md_ok h.(m_md) h.(m_mem) a m;
  em_one : ∀ a a' m m' k, h.(m_md) !! a = Some m → h.(m_md) !! a' = Some m' → 0 < m.(db_ref) → 0 < m'.(db_ref) →
    m.(db_base) = Ptr (Mem k) 0 → m'.(db_base) = Ptr (Mem k) 0 → a = a';
  em_mem : ∀ k, is_Some (h.(m_mem) !! k) → k < h.(m_next) ∧
    ∃ a m, h.(m_md) !! a = Some m ∧ 0 < m.(db_ref) ∧ m.(db_base) = Ptr (Mem k) 0 }.

(** ** Counting *)

Definition one (b : bool) : Z := if b then 1 else 0.
Lemma refs_nonneg d M : 0 ≤ refs d M.
Proof. unfold refs. lia. Qed.
Lemma refs_split d a m M : refs d (<[a := m]> M) = one (bool_decide (m.(b_datap) = Some d)) + refs d (delete a M).
Proof.
  unfold refs. rewrite <- insert_delete_eq. case_bool_decide as E.
  - rewrite map_filter_insert_True by done. rewrite map_size_insert_None; [cbn [one]; lia|].
    apply map_lookup_filter_None. left. apply lookup_delete_eq.
  - rewrite map_filter_insert_False by done. rewrite delete_delete_eq. cbn [one]. lia.
Qed.
Lemma refs_new d a m M : M !! a = None → refs d (<[a := m]> M) = one (bool_decide (m.(b_datap) = Some d)) + refs d M.
Proof. intros H. by rewrite refs_split, delete_id. Qed.
Lemma refs_change d a m m' M :
  M !! a = Some m →
  refs d (<[a := m']> M) = refs d M - one (bool_decide (m.(b_datap) = Some d)) + one (bool_decide (m'.(b_datap) = Some d)).
Proof. intros H. rewrite refs_split. rewrite <- (insert_id M a m H) at 2. rewrite (refs_split d a m M). lia. Qed.
Lemma refs_same d a m m' M : M !! a = Some m → m'.(b_datap) = m.(b_datap) → refs d (<[a := m']> M) = refs d M.
Proof. intros H E. rewrite (refs_change _ _ _ _ _ H), E. lia. Qed.
Lemma refs_delete d a m M : M !! a = Some m → m.(b_datap) = None → refs d (delete a M) = refs d M.
Proof.
  intros H E. rewrite <- (insert_id M a m H) at 2. rewrite refs_split, bool_decide_false by (rewrite E; done). done.
Qed.
Lemma refs_pos d a m M : M !! a = Some m → m.(b_datap) = Some d → 1 ≤ refs d M.
Proof.
  intros H E. rewrite <- (insert_id M a m H), refs_split, bool_decide_true by done. cbn [one].
  pose proof (refs_nonneg d (delete a M)). lia.
Qed.
Lemma refs_none d M : (∀ a m, M !! a = Some m → m.(b_datap) ≠ Some d) → refs d M = 0.
Proof. intros H. unfold refs. rewrite map_empty_filter_2; [done|]. intros a m Hm E. by apply (H a m). Qed.

(** ** Frames *)

Lemma view_at h a : view h !! a = (m ← h.(m_md) !! a; shows h.(m_md) h.(m_mem) m).
Proof. unfold view. by rewrite lookup_omap. Qed.
Lemma shows_same M B M' B' m d x x' :
  m.(b_datap) = Some d → M !! d = Some x → M' !! d = Some x' → x'.(db_type) = x.(db_type) → points M B m x →
  buf_of M' B' x.(db_base).(p_buf) = buf_of M B x.(db_base).(p_buf) → shows M' B' m = shows M B m.
Proof.
  intros Hd Hx Hx' Ht (P1 & P2 & _) Hb. unfold shows. rewrite Hd. cbn. rewrite Hx, Hx'. cbn.
  unfold data_of. by rewrite Ht, P1, Hb.
Qed.
Lemma points_same M B M' B' m x x' :
  points M B m x → x'.(db_base) = x.(db_base) →
  buf_of M' B' x.(db_base).(p_buf) = buf_of M B x.(db_base).(p_buf) → points M' B' m x'.
Proof. intros (P1 & P2 & l & P3 & P4) Hx Hb. unfold points. rewrite Hx, Hb. split; [done|]. split; [done|]. by exists l. Qed.
(** The data block a message block in use refers to, and its buffer. *)
Lemma in_use h a m d :
  exact_mem h → h.(m_md) !! a = Some m → m.(b_datap) = Some d →
  ∃ x, h.(m_md) !! d = Some x ∧ 1 ≤ x.(db_ref) ≤ 255 ∧ owns d x h.(m_mem) ∧ points h.(m_md) h.(m_mem) m x ∧
    d < h.(m_next).
Proof.
  intros Hex Ha Hd. destruct (em_md h Hex a m Ha) as [_ Ok]. destruct (ok_points _ _ _ _ Ok d Hd) as (x & Hx & Hp).
  exists x. destruct (em_md h Hex d x Hx) as [Hn Okx]. destruct (ok_refs _ _ _ _ Okx) as [R1 R2].
  pose proof (refs_pos d a m _ Ha Hd). split; [done|]. split; [lia|]. split; [apply (ok_owns _ _ _ _ Okx); lia|done].
Qed.
Lemma refs_fresh h a : exact_mem h → h.(m_next) ≤ a → refs a h.(m_md) = 0.
Proof.
  intros Hex Ha. apply refs_none. intros b m Hb Hd. destruct (in_use h b m a Hex Hb Hd) as (x & _ & _ & _ & _ & ?). lia.
Qed.
Lemma fresh_md h a : exact_mem h → h.(m_next) ≤ a → h.(m_md) !! a = None.
Proof.
  intros Hex Ha. destruct (h.(m_md) !! a) as [m|] eqn:E; [|done]. destruct (em_md h Hex a m E) as [? _]. lia.
Qed.
Lemma fresh_mem h k : exact_mem h → h.(m_next) ≤ k → h.(m_mem) !! k = None.
Proof.
  intros Hex Hk. destruct (h.(m_mem) !! k) as [l|] eqn:E; [|done]. destruct (em_mem h Hex k ltac:(by exists l)) as [? _]. lia.
Qed.

(** ** A new block *)

(** [h'] is [h] with the block [m] at [a], whose message block refers to its own data
    block, with the buffer [l]. *)
Record adds (h : mheap) (a : Z) (m : mdb) (l : list octet) (h' : mheap) : Prop := Adds {
  ad_next : h.(m_next) ≤ a < h'.(m_next);
  ad_md : h'.(m_md) = <[a := m]> h.(m_md);
  ad_self : m.(b_datap) = Some a ∧ m.(db_ref) = 1;
  ad_ptrs : m.(b_rptr).(p_buf) = m.(db_base).(p_buf) ∧ m.(b_wptr).(p_buf) = m.(db_base).(p_buf) ∧
    0 ≤ m.(b_rptr).(p_off) ∧ 0 ≤ m.(b_wptr).(p_off) ≤ Z.of_nat (length l);
  ad_buf : (m.(db_base) = Ptr (Own a) 0 ∧ m.(databuf) = l ∧ h'.(m_mem) = h.(m_mem)) ∨
    ∃ k, m.(db_base) = Ptr (Mem k) 0 ∧ h.(m_next) ≤ k < h'.(m_next) ∧
      (m.(db_frtnp) = None ∨ m.(db_frtnp) = Some (Free_skb k)) ∧ h'.(m_mem) = <[k := l]> h.(m_mem) }.
Section adds.
Context (h : mheap) (a : Z) (m : mdb) (l : list octet) (h' : mheap).
Context (Hex : exact_mem h) (Had : adds h a m l h').
Lemma adds_fresh : h.(m_md) !! a = None.
Proof using All. apply fresh_md; [done|]. by destruct (ad_next _ _ _ _ _ Had). Qed.
Lemma adds_buf : buf_of h'.(m_md) h'.(m_mem) m.(db_base).(p_buf) = Some l.
Proof using All.
  destruct (ad_buf _ _ _ _ _ Had) as [(-> & E & _)|(k & -> & _ & _ & E)]; cbn.
  - rewrite (ad_md _ _ _ _ _ Had), lookup_insert_eq. cbn. by rewrite E.
  - by rewrite E, lookup_insert_eq.
Qed.
(** The buffers of the other blocks are as they were. *)
Lemma adds_other d x : h.(m_md) !! d = Some x → owns d x h.(m_mem) →
  buf_of h'.(m_md) h'.(m_mem) x.(db_base).(p_buf) = buf_of h.(m_md) h.(m_mem) x.(db_base).(p_buf).
Proof using All.
  intros Hd [E|(k & E & Hk & _)]; rewrite E; cbn.
  - rewrite (ad_md _ _ _ _ _ Had), lookup_insert_ne; [done|]. intros <-. by rewrite adds_fresh in Hd.
  - destruct (ad_buf _ _ _ _ _ Had) as [(_ & _ & ->)|(k' & _ & [Hk' _] & _ & ->)]; [done|].
    rewrite lookup_insert_ne; [done|]. intros <-. destruct Hk as [? Hk]. by rewrite (fresh_mem _ _ Hex Hk') in Hk.
Qed.
Lemma adds_owns d x : owns d x h.(m_mem) → owns d x h'.(m_mem).
Proof using All.
  intros [E|(k & E & Hk & Hf)]; [by left|right]. exists k. split; [done|]. split; [|done].
  destruct (ad_buf _ _ _ _ _ Had) as [(_ & _ & ->)|(k' & _ & _ & _ & ->)]; [done|].
  destruct (decide (k' = k)) as [->|]; [rewrite lookup_insert_eq; by eexists|by rewrite lookup_insert_ne].
Qed.
Lemma adds_md_ok b y : h.(m_md) !! b = Some y → md_ok h'.(m_md) h'.(m_mem) b y.
Proof using All.
  intros Hb. destruct (em_md h Hex b y Hb) as [_ [U R O P]]. assert (N : b ≠ a) by (intros ->; by rewrite adds_fresh in Hb).
  constructor; [done| | |].
  - rewrite (ad_md _ _ _ _ _ Had), refs_new by apply adds_fresh. destruct (ad_self _ _ _ _ _ Had) as [-> _].
    rewrite bool_decide_false by congruence. cbn [one]. by rewrite Z.add_0_l.
  - intros H. by apply adds_owns, O.
  - intros d Hd. destruct (in_use h b y d Hex Hb Hd) as (x & Hx & _ & Ho & Hp & _). exists x. split.
    + rewrite (ad_md _ _ _ _ _ Had), lookup_insert_ne; [done|]. intros <-. by rewrite adds_fresh in Hx.
    + eapply points_same; [exact Hp|done|]. by apply (adds_other d).
Qed.
Lemma adds_new_ok : md_ok h'.(m_md) h'.(m_mem) a m.
Proof using All.
  destruct (ad_self _ _ _ _ _ Had) as [S1 S2]. constructor.
  - left. by rewrite S1.
  - rewrite (ad_md _ _ _ _ _ Had), refs_new by apply adds_fresh. rewrite S1, bool_decide_true by done.
    rewrite refs_fresh by (try done; by destruct (ad_next _ _ _ _ _ Had)). cbn [one]. lia.
  - intros _. destruct (ad_buf _ _ _ _ _ Had) as [(E & _ & _)|(k & E & _ & F & Q)]; [by left|right].
    exists k. rewrite Q, lookup_insert_eq. split; [done|]. split; [by eexists|done].
  - intros d Hd. exists m. rewrite (ad_md _ _ _ _ _ Had). replace d with a by congruence. rewrite lookup_insert_eq.
    split; [done|]. destruct (ad_ptrs _ _ _ _ _ Had) as (P1 & P2 & P3 & P4). split; [done|]. split; [done|].
    exists l. split; [|done]. rewrite <- (ad_md _ _ _ _ _ Had). apply adds_buf.
Qed.
Lemma adds_exact : exact_mem h'.
Proof using All.
  destruct (ad_next _ _ _ _ _ Had) as [N1 N2]. pose proof (ad_md _ _ _ _ _ Had) as HM. pose proof adds_fresh as Hf.
  assert (L : ∀ b y, h'.(m_md) !! b = Some y → b = a ∧ y = m ∨ b ≠ a ∧ h.(m_md) !! b = Some y).
  { intros b y. rewrite HM. destruct (decide (b = a)) as [->|N]; [rewrite lookup_insert_eq|rewrite lookup_insert_ne by done].
    - intros [= <-]. by left.
    - by right. }
  (* the memory of the old blocks is not that of the new one *)
  assert (D : ∀ b y k, h.(m_md) !! b = Some y → 0 < y.(db_ref) → y.(db_base) = Ptr (Mem k) 0 → m.(db_base) ≠ Ptr (Mem k) 0).
  { intros b y k Hb Hr E E'. destruct (em_md h Hex b y Hb) as [_ Ok]. destruct (ok_owns _ _ _ _ Ok Hr) as [Q|(k' & Q & [x Hx] & _)].
    - congruence.
    - destruct (ad_buf _ _ _ _ _ Had) as [(Q' & _)|(k'' & Q' & [? _] & _)]; [congruence|].
      assert (k' = k'') as -> by congruence. by rewrite (fresh_mem h k'' Hex) in Hx. }
  constructor.
  - intros b y Hb. destruct (L b y Hb) as [[-> ->]|[N Hb']]; [split; [lia|apply adds_new_ok]|].
    destruct (em_md h Hex b y Hb') as [? _]. split; [lia|by apply adds_md_ok].
  - intros b b' y y' k Hb Hb' Hr Hr' E E'.
    destruct (L b y Hb) as [[-> ->]|[N Hb0]], (L b' y' Hb') as [[-> ->]|[N' Hb0']]; try done.
    + by destruct (D _ _ _ Hb0' Hr' E').
    + by destruct (D _ _ _ Hb0 Hr E).
    + by apply (em_one h Hex b b' y y' k).
  - intros k Hk. assert (K : (∃ b y, h.(m_md) !! b = Some y ∧ 0 < y.(db_ref) ∧ y.(db_base) = Ptr (Mem k) 0) →
      ∃ b y, h'.(m_md) !! b = Some y ∧ 0 < y.(db_ref) ∧ y.(db_base) = Ptr (Mem k) 0).
    { intros (b & y & Hb & Q). exists b, y. split; [|done]. rewrite HM, lookup_insert_ne; [done|]. intros <-. congruence. }
    destruct (ad_buf _ _ _ _ _ Had) as [(_ & _ & Q)|(k' & Q & Hn & _ & Q')].
    + rewrite Q in Hk. destruct (em_mem h Hex k Hk) as [? E]. split; [lia|by apply K].
    + rewrite Q' in Hk. destruct (decide (k = k')) as [->|N].
      * split; [lia|]. exists a, m. rewrite HM, lookup_insert_eq. destruct (ad_self _ _ _ _ _ Had) as [_ ->]. done.
      * rewrite lookup_insert_ne in Hk by done. destruct (em_mem h Hex k Hk) as [? E]. split; [lia|by apply K].
Qed.
Lemma adds_view : view h' = <[a := (m.(b_cont), Blk m.(db_type) m.(b_band) m.(b_flag) m.(b_csum)
    (octets_at m.(b_rptr) (m.(b_wptr).(p_off) - m.(b_rptr).(p_off)) l))]> (view h).
Proof using All.
  pose proof (ad_md _ _ _ _ _ Had) as HM. pose proof adds_fresh as Hf. apply map_eq. intros b. rewrite view_at.
  destruct (decide (b = a)) as [->|N].
  - rewrite HM, !lookup_insert_eq. cbn. unfold shows. destruct (ad_self _ _ _ _ _ Had) as [-> _]. cbn.
    rewrite lookup_insert_eq. cbn. unfold data_of. destruct (ad_ptrs _ _ _ _ _ Had) as (-> & _).
    by rewrite <- HM, adds_buf.
  - rewrite (lookup_insert_ne (view h)), view_at by done. rewrite HM at 1. rewrite lookup_insert_ne by done.
    destruct (h.(m_md) !! b) as [y|] eqn:Hb; [|done]. cbn.
    destruct (b_datap y) as [d|] eqn:Hd; [|unfold shows; by rewrite Hd].
    destruct (in_use h b y d Hex Hb Hd) as (x & Hx & _ & Ho & Hp & _).
    apply (shows_same _ _ _ _ y d x x); try done; [|by apply (adds_other d)].
    rewrite HM, lookup_insert_ne; [done|]. intros <-. congruence.
Qed.
End adds.

(** ** Allocation *)

(** [h'] holds what [h] does. *)
Definition same_mem (h h' : mheap) : Prop :=
  h'.(m_md) = h.(m_md) ∧ h'.(m_mem) = h.(m_mem) ∧ h.(m_next) ≤ h'.(m_next).
Lemma same_exact h h' : exact_mem h → same_mem h h' → exact_mem h'.
Proof.
  intros [E1 E2 E3] (S1 & S2 & S3). constructor; rewrite ?S1, ?S2.
  - intros a m Ha. destruct (E1 a m Ha). split; [lia|done].
  - exact E2.
  - intros k Hk. destruct (E3 k Hk). split; [lia|done].
Qed.
Lemma same_view h h' : same_mem h h' → view h' = view h.
Proof. intros (S1 & S2 & _). unfold view. by rewrite S1, S2. Qed.
Lemma granted_ok h : ∃ b g, granted h = Some (b, h <| m_grant := g |>).
Proof. unfold granted. destruct h as [M B N [|b g] C]; cbn; by eexists _, _. Qed.
Lemma md_at a m h : h.(m_md) !! a = Some m → the_md a h = Some (m, h).
Proof. unfold the_md. by intros ->. Qed.
Lemma on_md_ok a f h m : h.(m_md) !! a = Some m → on_md a f h = Some ((), h <| m_md := <[a := f m]> h.(m_md) |>).
Proof. intros E. unfold on_md. by rewrite (bind_ok _ _ _ _ _ (md_at _ _ _ E)). Qed.
Lemma adds_on f h a m l h' :
  adds h a m l h' → (f m).(b_datap) = m.(b_datap) → (f m).(db_ref) = m.(db_ref) → (f m).(db_base) = m.(db_base) →
  (f m).(db_frtnp) = m.(db_frtnp) → (f m).(databuf) = m.(databuf) →
  (f m).(b_rptr).(p_buf) = m.(db_base).(p_buf) ∧ (f m).(b_wptr).(p_buf) = m.(db_base).(p_buf) ∧
    0 ≤ (f m).(b_rptr).(p_off) ∧ 0 ≤ (f m).(b_wptr).(p_off) ≤ Z.of_nat (length l) →
  ∃ h2, on_md a f h' = Some ((), h2) ∧ adds h a (f m) l h2.
Proof.
  intros [N M S P B] E1 E2 E3 E4 E5 E6. eexists. split; [apply on_md_ok; rewrite M; apply lookup_insert_eq|].
  constructor; upd; try done.
  - by rewrite M, insert_insert_eq.
  - by rewrite E1, E2.
  - by rewrite E3.
  - rewrite E3, E4, E5. done.
Qed.
Lemma adds_the h a m l h' : adds h a m l h' → the_md a h' = Some (m, h').
Proof. intros [_ M _ _ _]. apply md_at. rewrite M. apply lookup_insert_eq. Qed.
Lemma adds_put l2 h a m l h' :
  adds h a m l h' → length l2 = length l →
  ∃ h2 m2, put_buf m.(db_base).(p_buf) l2 h' = Some ((), h2) ∧ adds h a m2 l2 h2 ∧ m2 <| databuf := [] |> = m <| databuf := [] |>.
Proof.
  intros Had Hl. pose proof Had as [N M S P B]. destruct B as [(E & Q & Q')|(k & E & K1 & K2 & K3)]; rewrite E; cbn.
  - destruct (on_md_ok a (fun m => m <| databuf := l2 |>) h' m) as [] ; [rewrite M; apply lookup_insert_eq|].
    eexists _, (m <| databuf := l2 |>). split; [apply on_md_ok; rewrite M; apply lookup_insert_eq|]. split; [|done].
    constructor; upd; try done.
    + by rewrite M, insert_insert_eq.
    + by rewrite Hl.
    + left. done.
  - eexists _, m. split; [reflexivity|]. split; [|done]. constructor; upd; try done.
    + by rewrite Hl.
    + right. exists k. split; [done|]. split; [done|]. split; [done|]. by rewrite K3, insert_insert_eq.
Qed.

Section alloc.
Context (FASTBUF : Z) (ktruesize skb_size : Z → Z).
Context (Hfast : 0 ≤ FASTBUF) (Hkmem : ∀ n, 0 ≤ n → n ≤ ktruesize n) (Hskb : ∀ n, 0 ≤ n → n ≤ skb_size n).
(** The combined block as it is taken from the free list, in memory [N]. *)
Definition clean (a : Z) : mdb :=
  Mdb (Some a) None (Ptr (Own a) 0) (Ptr (Own a) 0) 0 0 0 (Ptr (Own a) 0) (Ptr (Own a) FASTBUF)
    1 M_DATA FASTBUF None (replicate (Z.to_nat FASTBUF) None).
Lemma mdbblock_alloc_ok h :
  (∃ g, mdbblock_alloc FASTBUF h = Some (None, h <| m_grant := g |>)) ∨
  ∃ g, mdbblock_alloc FASTBUF h = Some (Some h.(m_next),
    MHeap (<[h.(m_next) := clean h.(m_next)]> h.(m_md)) h.(m_mem) (h.(m_next) + 1) g h.(m_called)).
Proof.
  destruct (granted_ok h) as (b & g & E). unfold mdbblock_alloc. rewrite (bind_ok _ _ _ _ _ E). destruct b; cbn [negb].
  - right. exists g. reflexivity.
  - left. exists g. reflexivity.
Qed.
Definition alloc_post (h : mheap) (size : Z) (r : option Z) (h' : mheap) : Prop :=
  match r with
  | None => same_mem h h'
  | Some a => ∃ m n, adds h a m (replicate n None) h' ∧ size ≤ Z.of_nat n ∧
      m.(b_rptr) = m.(db_base) ∧ m.(b_wptr) = m.(db_base) ∧ m.(b_cont) = None ∧ m.(b_band) = 0 ∧ m.(b_flag) = 0 ∧
      m.(b_csum) = 0 ∧ m.(db_type) = M_DATA
  end.
Lemma allocb_fast_ok size h : size ≤ FASTBUF → ∃ r h', allocb_fast FASTBUF size h = Some (r, h') ∧ alloc_post h size r h'.
Proof.
  intros Hs. unfold allocb_fast. destruct (mdbblock_alloc_ok h) as [[g E]|[g E]]; rewrite (bind_ok _ _ _ _ _ E).
  - eexists None, _. split; [reflexivity|]. by repeat split; cbn.
  - erewrite bind_ok by (apply on_md_ok, lookup_insert_eq). erewrite bind_ok by (apply on_md_ok, lookup_insert_eq).
    eexists (Some _), _. split; [reflexivity|].
    exists ((((clean h.(m_next)) <| b_rptr := Ptr (Own h.(m_next)) 0 |>) <| b_wptr := Ptr (Own h.(m_next)) 0 |>)
      <| db_base := Ptr (Own h.(m_next)) 0 |> <| db_lim := Ptr (Own h.(m_next)) FASTBUF |> <| db_size := size |>).
    exists (Z.to_nat FASTBUF). split; [|split; [lia|by repeat split]]. constructor; upd.
    + cbn. lia.
    + cbn. by rewrite !insert_insert_eq.
    + done.
    + cbn. rewrite length_replicate. split_and!; try done; lia.
    + by left.
Qed.
(** A block with other memory as buffer. *)
Lemma other_buffer size n k h h1 (f g : mdb → mdb) :
  h1.(m_md) = h.(m_md) → h1.(m_mem) = <[k := replicate n None]> h.(m_mem) → h1.(m_next) = h.(m_next) + 1 → k = h.(m_next) →
  size ≤ Z.of_nat n →
  (∀ a, let m := g (f (clean a)) in m.(b_datap) = Some a ∧ m.(db_ref) = 1 ∧ m.(db_base) = Ptr (Mem k) 0 ∧
    m.(b_rptr) = m.(db_base) ∧ m.(b_wptr) = m.(db_base) ∧ m.(b_cont) = None ∧ m.(b_band) = 0 ∧ m.(b_flag) = 0 ∧
    m.(b_csum) = 0 ∧ m.(db_type) = M_DATA ∧ (m.(db_frtnp) = None ∨ m.(db_frtnp) = Some (Free_skb k))) →
  (∃ g', mdbblock_alloc FASTBUF h1 = Some (None, h1 <| m_grant := g' |>)) ∨
  ∃ a h2 h', mdbblock_alloc FASTBUF h1 = Some (Some a, h2) ∧
    (_ ← on_md a f; _ ← on_md a g; mret (Some a)) h2 = Some (Some a, h') ∧ alloc_post h size (Some a) h'.
Proof.
  intros H1 H2 H3 -> Hs Hm. destruct (mdbblock_alloc_ok h1) as [[g' E]|[g' E]]; [left; by exists g'|right].
  eexists _, _, _. split; [exact E|]. split.
  { erewrite bind_ok by (apply on_md_ok, lookup_insert_eq). erewrite bind_ok by (apply on_md_ok, lookup_insert_eq). reflexivity. }
  destruct (Hm h1.(m_next)) as (M1 & M2 & M3 & M4 & M5 & M6 & M7 & M8 & M9 & M10 & M11).
  exists (g (f (clean h1.(m_next)))), n. split; [|split; [exact Hs|split_and!; assumption]].
  constructor; upd; cbn [m_md m_mem m_next].
  - lia.
  - by rewrite !insert_insert_eq, H1.
  - done.
  - rewrite M4, M5, M3. cbn. split_and!; try done; lia.
  - right. eexists. split; [exact M3|]. split; [lia|]. by split.
Qed.
Lemma kmem_free_ok k l h :
  h.(m_mem) !! k = Some l → kmem_free (Ptr (Mem k) 0) h = Some ((), h <| m_mem := delete k h.(m_mem) |>).
Proof. intros E. unfold kmem_free. erewrite bind_ok; [reflexivity|]. unfold the_buf. by rewrite E. Qed.
Lemma undo_mem k n h h1 g :
  exact_mem h → h1.(m_md) = h.(m_md) → h1.(m_mem) = <[k := replicate n None]> h.(m_mem) →
  h1.(m_next) = h.(m_next) + 1 → k = h.(m_next) →
  ∃ h', kmem_free (Ptr (Mem k) 0) (h1 <| m_grant := g |>) = Some ((), h') ∧ same_mem h h'.
Proof.
  intros Hex H1 H2 H3 ->. eexists. split; [eapply kmem_free_ok; upd; rewrite H2; apply lookup_insert_eq|].
  split; upd; [done|]. split; upd; [|lia]. rewrite H2, delete_insert_id; [done|]. by apply fresh_mem.
Qed.
Lemma allocb_kmem_ok size h :
  exact_mem h → 0 ≤ size → ∃ r h', allocb_kmem FASTBUF ktruesize size h = Some (r, h') ∧ alloc_post h size r h'.
Proof using Hkmem.
  intros Hex Hs. pose proof (Hkmem size Hs). unfold allocb_kmem, kmem_alloc.
  destruct (granted_ok h) as (b & g & E). destruct b.
  2: { erewrite bind_ok by (rewrite (bind_ok _ _ _ _ _ E); reflexivity). eexists None, _. split; [reflexivity|]. by repeat split; cbn. }
  erewrite bind_ok by (rewrite (bind_ok _ _ _ _ _ E); reflexivity).
  match goal with |- context [fset m_mem ?u ?x] => set (h1 := fset m_mem u x) end. cbv beta iota.
  destruct (other_buffer size (Z.to_nat (ktruesize size)) h.(m_next) h h1
    (fun m => (m <| b_rptr := Ptr (Mem h.(m_next)) 0 |>) <| b_wptr := Ptr (Mem h.(m_next)) 0 |>)
    (fun m => ((m <| db_base := Ptr (Mem h.(m_next)) 0 |>) <| db_lim := Ptr (Mem h.(m_next)) (ktruesize size) |>) <| db_size := size |>))
    as [[g' E']|(a & h2 & h' & E1 & E2 & P)]; try done; [lia|by intros a; repeat split; left| |].
  - rewrite (bind_ok _ _ _ _ _ E'). destruct (undo_mem h.(m_next) (Z.to_nat (ktruesize size)) h h1 g' Hex) as (h' & E2 & S); try done.
    exists None, h'. split; [|done]. by rewrite (bind_ok _ _ _ _ _ E2).
  - rewrite (bind_ok _ _ _ _ _ E1). exists (Some a), h'. by split.
Qed.
Lemma allocb_skb_ok size h :
  exact_mem h → 0 ≤ size → ∃ r h', allocb_skb FASTBUF skb_size size h = Some (r, h') ∧ alloc_post h size r h'.
Proof using Hskb.
  intros Hex Hs. pose proof (Hskb size Hs). unfold allocb_skb, alloc_skb.
  destruct (granted_ok h) as (b & g & E). destruct b.
  2: { erewrite bind_ok by (rewrite (bind_ok _ _ _ _ _ E); reflexivity). eexists None, _. split; [reflexivity|]. by repeat split; cbn. }
  erewrite bind_ok by (rewrite (bind_ok _ _ _ _ _ E); reflexivity).
  match goal with |- context [fset m_mem ?u ?x] => set (h1 := fset m_mem u x) end. cbv beta iota. unfold skballoc.
  destruct (other_buffer size (Z.to_nat (skb_size size)) h.(m_next) h h1
    (fun m => (m <| b_rptr := Ptr (Mem h.(m_next)) 0 |>) <| b_wptr := Ptr (Mem h.(m_next)) 0 |>)
    (fun m => ((((m <| db_frtnp := Some (Free_skb h.(m_next)) |>) <| db_base := Ptr (Mem h.(m_next)) 0 |>)
                  <| db_lim := Ptr (Mem h.(m_next)) (skb_size size) |>) <| db_size := skb_size size |>)))
    as [[g' E']|(a & h2 & h' & E1 & E2 & P)]; try done; [lia|by intros a; repeat split; right| |].
  - erewrite bind_ok by (rewrite (bind_ok _ _ _ _ _ E'); reflexivity).
    destruct (undo_mem h.(m_next) (Z.to_nat (skb_size size)) h h1 g' Hex) as (h' & E2 & S); try done.
    exists None, h'. split; [|done]. by rewrite (bind_ok _ _ _ _ _ E2).
  - erewrite bind_ok by (rewrite (bind_ok _ _ _ _ _ E1); exact E2). exists (Some a), h'. by split.
Qed.
Lemma allocb_ok size pri h :
  exact_mem h → 0 ≤ size → ∃ r h', allocb FASTBUF ktruesize skb_size size pri h = Some (r, h') ∧ alloc_post h size r h'.
Proof using All.
  intros Hex Hs. unfold allocb. destruct (negb _); [by apply allocb_skb_ok|].
  destruct (Z.leb_spec size FASTBUF); [by apply allocb_fast_ok|by apply allocb_kmem_ok].
Qed.

(** ** Copies *)

Lemma the_buf_ok b l h : buf_of h.(m_md) h.(m_mem) b = Some l → the_buf b h = Some (l, h).
Proof.
  destruct b as [a|k]; cbn; [|by intros ->]. destruct (h.(m_md) !! a) as [m|] eqn:E; [|done]. intros [= <-].
  by rewrite (bind_ok _ _ _ _ _ (md_at _ _ _ E)).
Qed.
Lemma octets_length p n l : 0 ≤ p.(p_off) → 0 ≤ n → p.(p_off) + n ≤ Z.of_nat (length l) → length (octets_at p n l) = Z.to_nat n.
Proof. intros. unfold octets_at. rewrite length_take, length_drop. lia. Qed.
Lemma octets_put p x l :
  p.(p_off) = 0 → Z.of_nat (length x) ≤ Z.of_nat (length l) → octets_at p (Z.of_nat (length x)) (put_at p x l) = x.
Proof.
  intros E H. unfold octets_at, put_at. rewrite E, Nat2Z.id. change (Z.to_nat 0) with 0%nat. by rewrite drop_0, take_0, app_nil_l, take_app_length.
Qed.
Lemma put_length p x l : p.(p_off) = 0 → Z.of_nat (length x) ≤ Z.of_nat (length l) → length (put_at p x l) = length l.
Proof. intros E H. unfold put_at. rewrite E, !length_app, length_take, length_drop. lia. Qed.
(** Octets copied to the start of a new block. *)
Lemma bcopy_new h a m n h' p len l :
  adds h a m (replicate n None) h' → m.(b_wptr) = m.(db_base) → m.(db_base).(p_off) = 0 →
  buf_of h'.(m_md) h'.(m_mem) p.(p_buf) = Some l → 0 ≤ p.(p_off) → 0 ≤ len → p.(p_off) + len ≤ Z.of_nat (length l) ∨ len = 0 →
  len ≤ Z.of_nat n → exact_mem h →
  ∃ h2 m2 l2, bcopy p m.(b_wptr) len h' = Some ((), h2) ∧ adds h a m2 l2 h2 ∧ length l2 = n ∧
    m2 <| databuf := [] |> = m <| databuf := [] |> ∧ octets_at m.(db_base) len l2 = octets_at p len l.
Proof.
  intros Had Hw Ho Hp H1 H2 H3 H4 Hex. unfold bcopy. destruct (Z.eqb_spec len 0) as [->|N].
  { exists h', m, (replicate n None). split; [done|]. split; [done|]. split; [apply length_replicate|]. done. }
  destruct H3 as [H3|]; [|done].
  pose proof (octets_length p len l H1 H2 H3) as HL.
  rewrite (bind_ok _ _ _ _ _ (the_buf_ok _ _ _ Hp)).
  replace (negb ((0 <=? len) && within p len l)) with false by (unfold within; symmetry; apply negb_false_iff; rewrite !andb_true_iff, !Z.leb_le; lia).
  rewrite Hw. pose proof (adds_buf h a m _ h' Hex Had) as Hb. rewrite (bind_ok _ _ _ _ _ (the_buf_ok _ _ _ Hb)).
  replace (within m.(db_base) len (replicate n None)) with true
    by (unfold within; symmetry; rewrite length_replicate, andb_true_iff, !Z.leb_le; lia). cbn [negb].
  destruct (adds_put (put_at m.(db_base) (octets_at p len l) (replicate n None)) _ _ _ _ _ Had) as (h2 & m2 & E & A & Q).
  { apply put_length; [done|]. rewrite length_replicate. lia. }
  exists h2, m2, (put_at m.(db_base) (octets_at p len l) (replicate n None)).
  split; [exact E|]. split; [exact A|]. split; [rewrite put_length; rewrite ?length_replicate; lia|]. split; [exact Q|].
  replace len with (Z.of_nat (length (octets_at p len l))) at 1 by lia. apply octets_put; [done|]. rewrite length_replicate. lia.
Qed.
(** What a block in use shows, in terms of its fields. *)
Lemma view_some h b c k :
  exact_mem h → view h !! b = Some (c, k) →
  ∃ m d x l, h.(m_md) !! b = Some m ∧ m.(b_datap) = Some d ∧ h.(m_md) !! d = Some x ∧ 1 ≤ x.(db_ref) ≤ 255 ∧
    owns d x h.(m_mem) ∧ points h.(m_md) h.(m_mem) m x ∧ buf_of h.(m_md) h.(m_mem) x.(db_base).(p_buf) = Some l ∧
    0 ≤ m.(b_rptr).(p_off) ∧ 0 ≤ m.(b_wptr).(p_off) ≤ Z.of_nat (length l) ∧ c = m.(b_cont) ∧
    k = Blk x.(db_type) m.(b_band) m.(b_flag) m.(b_csum) (octets_at m.(b_rptr) (m.(b_wptr).(p_off) - m.(b_rptr).(p_off)) l).
Proof.
  intros Hex. rewrite view_at. destruct (h.(m_md) !! b) as [m|] eqn:Hb; [|done]. cbn. unfold shows.
  destruct (b_datap m) as [d|] eqn:Hd; [|done]. destruct (in_use h b m d Hex Hb Hd) as (x & Hx & Hr & Ho & Hp & Hn).
  cbn. rewrite Hx. cbn. intros [= <- <-]. pose proof Hp as (P1 & P2 & l & P3 & P4 & P5). exists m, d, x, l.
  split_and!; try done; try lia. unfold data_of. by rewrite P1, P3.
Qed.
Lemma size_octets p n l : octets_at p n l = octets_at p (if 0 <? n then n else 0) l.
Proof. destruct (Z.ltb_spec 0 n); [done|]. unfold octets_at. by replace (Z.to_nat n) with 0%nat by lia. Qed.
Lemma blen_ok m x h M B : points M B m x → blen m h = Some (m.(b_wptr).(p_off) - m.(b_rptr).(p_off), h).
Proof. intros (P1 & P2 & _). unfold blen, ptr_sub. by rewrite bool_decide_true by congruence. Qed.
(** A new block is not one of those in use. *)
Definition new_block (h : mheap) (r : option Z) (c : option Z) (k : blk) (h' : mheap) : Prop :=
  exact_mem h' ∧ h.(m_next) ≤ h'.(m_next) ∧
  match r with
  | None => view h' = view h
  | Some a => h.(m_next) ≤ a < h'.(m_next) ∧ view h' = <[a := (c, k)]> (view h)
  end.
Lemma copyb_ok b c k h :
  exact_mem h → view h !! b = Some (c, k) →
  ∃ r h', copyb FASTBUF ktruesize skb_size (Some b) h = Some (r, h') ∧ new_block h r None k h'.
Proof using All.
  intros Hex Hv. destruct (view_some h b c k Hex Hv) as (m & d & x & l & Hb & Hd & Hx & _ & Ho & Hp & Hl & Q1 & Q2 & _ & ->).
  unfold copyb. rewrite (bind_ok _ _ _ _ _ (md_at _ _ _ Hb)), (bind_ok _ _ _ _ _ (blen_ok _ _ _ _ _ Hp)). cbv beta zeta.
  rewrite size_octets. set (size := if 0 <? _ then _ else 0).
  assert (Hs : 0 ≤ size ∧ (size = 0 ∨ size = m.(b_wptr).(p_off) - m.(b_rptr).(p_off)))
    by (unfold size; destruct (Z.ltb_spec 0 (m.(b_wptr).(p_off) - m.(b_rptr).(p_off))); lia).
  destruct (allocb_ok size BPRI_MED h Hex (proj1 Hs)) as (r & h1 & E & P). rewrite (bind_ok _ _ _ _ _ E).
  destruct r as [a|].
  2: { exists None, h1. split; [done|]. split; [by apply (same_exact h)|]. split; [apply P|]. by apply same_view. }
  destruct P as (m0 & n & A & Hn & R1 & R2 & R3 & R4 & R5 & R6 & R7).
  rewrite (bind_ok _ _ _ _ _ (adds_the _ _ _ _ _ A)).
  assert (O0 : m0.(db_base).(p_off) = 0) by (destruct (ad_buf _ _ _ _ _ A) as [(-> & _)|(? & -> & _)]; done).
  pose proof Hp as (P1 & P2 & _).
  destruct (bcopy_new h a m0 n h1 m.(b_rptr) size l A R2 O0) as (h2 & m2 & l2 & E2 & A2 & L2 & S2 & D2); try done; try lia.
  { rewrite P1, <- Hl. by apply (adds_other h a m0 _ h1 Hex A d). }
  rewrite (bind_ok _ _ _ _ _ E2).
  assert (F : m2.(b_wptr) = m0.(db_base) ∧ m2.(b_rptr) = m0.(db_base) ∧ m2.(db_base) = m0.(db_base) ∧ m2.(b_cont) = None).
  { repeat split; [rewrite <- R2|rewrite <- R1| |rewrite <- R3]; [exact (f_equal b_wptr S2)|exact (f_equal b_rptr S2)|exact (f_equal db_base S2)|exact (f_equal b_cont S2)]. }
  destruct F as (F1 & F2 & F3 & F4).
  destruct (adds_on (fun x => x <| b_wptr := ptr_add x.(b_wptr) size |>) _ _ _ _ _ A2) as (h3 & E3 & A3); upd; try done.
  { rewrite F1, F2, F3. cbn. rewrite O0, L2. split_and!; try done; lia. }
  rewrite (bind_ok _ _ _ _ _ E3).
  assert (Hd3 : h3.(m_md) !! d = Some x).
  { rewrite (ad_md _ _ _ _ _ A3), lookup_insert_ne; [done|]. intros <-. pose proof (adds_fresh h a m0 _ h1 Hex A). congruence. }
  erewrite bind_ok by (unfold datab; rewrite Hd; apply md_at; exact Hd3).
  rewrite (bind_ok _ _ _ _ _ (adds_the _ _ _ _ _ A3)). destruct (ad_self _ _ _ _ _ A3) as [S3 _]. upd in S3. upd. rewrite S3.
  destruct (adds_on (fun y => y <| db_type := x.(db_type) |>) _ _ _ _ _ A3) as (h4 & E4 & A4); upd; try done.
  { apply (ad_ptrs _ _ _ _ _ A3). }
  rewrite (bind_ok _ _ _ _ _ E4).
  destruct (adds_on (fun x => ((x <| b_band := m.(b_band) |>) <| b_flag := m.(b_flag) |>) <| b_csum := m.(b_csum) |>) _ _ _ _ _ A4)
    as (h5 & E5 & A5); upd; try done.
  { apply (ad_ptrs _ _ _ _ _ A4). }
  rewrite (bind_ok _ _ _ _ _ E5). exists (Some a), h5. split; [done|]. split; [by apply (adds_exact _ _ _ _ _ Hex A5)|].
  destruct (ad_next _ _ _ _ _ A5) as [N1 N2]. split; [lia|]. split; [done|]. rewrite (adds_view _ _ _ _ _ Hex A5). upd.
  rewrite F1, F2, F4. cbn [ptr_add p_off]. rewrite O0. replace (0 + size - 0) with size by lia. by rewrite D2.
Qed.
End alloc.
