(* ===== verification/MsgRefs.v ===== *)
(** * References to data blocks

    Duplicating a message block counts a reference to its data block, freeing it takes
    one back; a combined block is released when nothing of it is in use, and a buffer
    with the last reference to its data block. *)
From S2P Require Import Prelude Partial Msg MsgLaws.
From stdpp Require Import gmap.
#[local] Open Scope Z_scope.
#[local] Open Scope os7_scope.
#[local] Set Warnings "-clear-no-such-hyp".

(** ** Data blocks that stay *)

Definition same_data (M : gmap Z mdb) (B : gmap Z (list octet)) (M' : gmap Z mdb) (B' : gmap Z (list octet)) (d : Z) (x : mdb) : Prop :=
  ∃ x', M' !! d = Some x' ∧ x'.(db_base) = x.(db_base) ∧ x'.(db_type) = x.(db_type) ∧ x'.(db_frtnp) = x.(db_frtnp) ∧
    x'.(databuf) = x.(databuf) ∧ ∀ k, x.(db_base) = Ptr (Mem k) 0 → B' !! k = B !! k.
Section same_data.
Context (M : gmap Z mdb) (B : gmap Z (list octet)) (M' : gmap Z mdb) (B' : gmap Z (list octet)) (d : Z) (x : mdb).
Context (Hx : M !! d = Some x) (Hs : same_data M B M' B' d x) (Ho : owns d x B).
Lemma same_buf : buf_of M' B' x.(db_base).(p_buf) = buf_of M B x.(db_base).(p_buf).
Proof using All.
  destruct Hs as (x' & H1 & _ & _ & _ & H2 & H3). destruct Ho as [E|(k & E & _)]; rewrite E; cbn; [|by apply H3].
  rewrite H1, Hx. cbn. by rewrite H2.
Qed.
Lemma same_shows m m' : m'.(b_datap) = Some d → m.(b_datap) = Some d → points M B m x →
  m'.(b_cont) = m.(b_cont) → m'.(b_rptr) = m.(b_rptr) → m'.(b_wptr) = m.(b_wptr) → m'.(b_band) = m.(b_band) →
  m'.(b_flag) = m.(b_flag) → m'.(b_csum) = m.(b_csum) → shows M' B' m' = shows M B m.
Proof using All.
  intros D' D P E1 E2 E3 E4 E5 E6. destruct Hs as (x' & H1 & H2 & H3 & _). unfold shows. rewrite D, D'. cbn. rewrite Hx, H1. cbn.
  unfold data_of. rewrite E1, E2, E3, E4, E5, E6, H3. destruct P as (-> & _). by rewrite same_buf.
Qed.
Lemma same_points m m' : points M B m x → m'.(b_rptr) = m.(b_rptr) → m'.(b_wptr) = m.(b_wptr) →
  ∃ x', M' !! d = Some x' ∧ points M' B' m' x'.
Proof using All.
  intros (P1 & P2 & l & P3 & P4) E2 E3. pose proof same_buf as Q. destruct Hs as (x' & H1 & H2 & _). exists x'. split; [done|].
  unfold points. rewrite E2, E3, H2, Q. split; [done|]. split; [done|]. by exists l.
Qed.
Lemma same_owns x' : M' !! d = Some x' → owns d x' B'.
Proof using All.
  intros H. destruct Hs as (x2 & H1 & H2 & _ & H4 & _ & H3). rewrite H1 in H. injection H as <-. unfold owns. rewrite H2, H4.
  destruct Ho as [E|(k & E & K & F)]; [by left|right]. exists k. by rewrite (H3 k E).
Qed.
End same_data.

(** ** Duplication *)

Section dup.
Context (h : mheap) (b d : Z) (m x m' : mdb) (g : list bool) (a : Z).
Context (Hex : exact_mem h) (Hb : h.(m_md) !! b = Some m) (Hd : m.(b_datap) = Some d) (Hx : h.(m_md) !! d = Some x).
Context (Hr : x.(db_ref) < 255) (Ha : a = h.(m_next)).
Context (D1 : m'.(b_datap) = Some d) (D2 : m'.(db_ref) = 0) (D3 : m'.(b_rptr) = m.(b_rptr)) (D4 : m'.(b_wptr) = m.(b_wptr)).
Context (D5 : m'.(b_band) = m.(b_band)) (D6 : m'.(b_flag) = m.(b_flag)) (D7 : m'.(b_csum) = m.(b_csum)) (D8 : m'.(b_cont) = None).
Let x' := x <| db_ref := x.(db_ref) + 1 |>.
Let M' := <[a := m']> (<[d := x']> h.(m_md)).
Let h' := MHeap M' h.(m_mem) (h.(m_next) + 1) g h.(m_called).
Lemma dup_fresh : h.(m_md) !! a = None.
Proof using Hex Ha. apply fresh_md; [done|lia]. Qed.
Lemma dup_ne : a ≠ d ∧ a ≠ b.
Proof using All. split; intros E; pose proof dup_fresh; congruence. Qed.
Lemma dup_lookup e y : h.(m_md) !! e = Some y → ∃ y', M' !! e = Some y' ∧ (e = d ∧ y' = x' ∧ y = x ∨ e ≠ d ∧ y' = y).
Proof using All.
  intros He. unfold M'. rewrite lookup_insert_ne by (intros <-; rewrite dup_fresh in He; done).
  destruct (decide (d = e)) as [<-|N]; [rewrite lookup_insert_eq; exists x'; split; [done|left]|rewrite lookup_insert_ne by done].
  - split; [done|]. split; [done|congruence].
  - exists y. split; [done|by right].
Qed.
Lemma dup_same e y : h.(m_md) !! e = Some y → same_data h.(m_md) h.(m_mem) M' h.(m_mem) e y.
Proof using All.
  intros He. destruct (dup_lookup e y He) as (y' & E & [(-> & -> & ->)|(_ & ->)]).
  - exists x'. by split_and!.
  - exists y. by split_and!.
Qed.
Lemma dup_old e y' : M' !! e = Some y' → e = a ∧ y' = m' ∨ ∃ y, h.(m_md) !! e = Some y ∧ (e = d ∧ y' = x' ∧ y = x ∨ e ≠ d ∧ y' = y).
Proof using All.
  unfold M'. destruct (decide (a = e)) as [<-|N]; [rewrite lookup_insert_eq; intros [= <-]; by left|].
  rewrite lookup_insert_ne by done. right. destruct (decide (d = e)) as [<-|N'].
  - rewrite lookup_insert_eq in H. injection H as <-. exists x. split; [done|by left].
  - rewrite lookup_insert_ne in H by done. exists y'. split; [done|by right].
Qed.
Lemma dup_refs e : refs e M' = refs e h.(m_md) + one (bool_decide (d = e)).
Proof using All.
  unfold M'. rewrite refs_new.
  - rewrite (refs_same e d x x') by done. rewrite D1. rewrite Z.add_comm. f_equal. f_equal. apply bool_decide_ext. naive_solver.
  - rewrite lookup_insert_ne; [apply dup_fresh|]. by destruct dup_ne.
Qed.
Lemma dup_exact : exact_mem h'.
Proof using All.
  destruct dup_ne as [N1 N2]. destruct (in_use h b m d Hex Hb Hd) as (x0 & Hx0 & R & Ho & Hp & Hn).
  assert (x0 = x) as -> by congruence. constructor.
  - intros e y' He. cbn in He |- *. destruct (dup_old e y' He) as [[-> ->]|(y & Hy & Q)].
    + split; [lia|]. constructor.
      * left. by rewrite D1.
      * rewrite dup_refs, D2, bool_decide_false by done. rewrite refs_fresh by (try done; lia). cbn [one]. lia.
      * lia.
      * intros d' Hd'. replace d' with d by congruence. by apply (same_points h.(m_md) h.(m_mem) _ _ d x Hx (dup_same d x Hx) Ho m).
    + destruct (em_md h Hex e y Hy) as [L [U [R1 R2] O P]]. split; [lia|].
      assert (G : y'.(b_datap) = y.(b_datap) ∧ y'.(b_rptr) = y.(b_rptr) ∧ y'.(b_wptr) = y.(b_wptr) ∧
        y'.(db_ref) = y.(db_ref) + one (bool_decide (d = e)) ∧ y'.(db_ref) ≤ 255).
      { destruct Q as [(-> & -> & ->)|(N & ->)]; [rewrite bool_decide_true by done|rewrite bool_decide_false by done];
          unfold x'; upd; cbn [one]; split_and!; try done; lia. }
      destruct G as (G1 & G2 & G3 & G4 & G5). constructor.
      * rewrite G1, G4. destruct U as [?|?]; [by left|right]. destruct (bool_decide (d = e)); cbn [one]; lia.
      * rewrite dup_refs. split; [by rewrite G4, R1|done].
      * intros Hpos. pose proof (refs_nonneg e h.(m_md)). destruct (decide (0 < db_ref y)) as [Hy0|Hy0].
        -- by apply (same_owns h.(m_md) h.(m_mem) M' h.(m_mem) e y Hy (dup_same e y Hy) (O Hy0)).
        -- destruct Q as [(-> & -> & ->)|(N & ->)]; [lia|done].
      * rewrite G1. intros d' Hd'. destruct (in_use h e y d' Hex Hy Hd') as (z & Hz & _ & Hoz & Hpz & _).
        by apply (same_points h.(m_md) h.(m_mem) _ _ d' z Hz (dup_same d' z Hz) Hoz y).
  - intros e e' y y' k He He' Hy Hy' E E'. cbn in He, He'.
    destruct (dup_old e y He) as [[-> ->]|(z & Hz & Q)]; [lia|]. destruct (dup_old e' y' He') as [[-> ->]|(z' & Hz' & Q')]; [lia|].
    apply (em_one h Hex e e' z z' k Hz Hz').
    + destruct Q as [(-> & -> & ->)|(N & ->)]; [lia|done].
    + destruct Q' as [(-> & -> & ->)|(N & ->)]; [lia|done].
    + destruct Q as [(-> & -> & ->)|(N & ->)]; done.
    + destruct Q' as [(-> & -> & ->)|(N & ->)]; done.
  - intros k Hk. cbn in Hk |- *. destruct (em_mem h Hex k Hk) as [L (e & y & He & Hy & E)]. split; [lia|].
    destruct (dup_lookup e y He) as (y' & He' & [(-> & -> & ->)|(_ & ->)]); [exists d, x'|exists e, y]; split_and!; try done.
    unfold x'. upd. lia.
Qed.
Lemma dup_view c k : view h !! b = Some (c, k) → view h' = <[a := (None, k)]> (view h).
Proof using All.
  destruct dup_ne as [N1 N2]. destruct (in_use h b m d Hex Hb Hd) as (x0 & Hx0 & R & Ho & Hp & Hn).
  assert (x0 = x) as -> by congruence. rewrite view_at, Hb. cbn [mbind option_bind]. intros Hk. apply map_eq. intros e.
  rewrite view_at. destruct (decide (a = e)) as [<-|N].
  - rewrite lookup_insert_eq. unfold h'. cbn [m_md m_mem].
    assert (Hma : M' !! a = Some m') by (unfold M'; apply lookup_insert_eq). rewrite Hma. cbn [mbind option_bind].
    pose proof (same_shows h.(m_md) h.(m_mem) M' h.(m_mem) d x Hx (dup_same d x Hx) Ho m (m' <| b_cont := m.(b_cont) |>)) as Q.
    specialize (Q D1 Hd Hp eq_refl D3 D4 D5 D6 D7). rewrite Hk in Q. unfold shows in Q |- *. upd in Q. rewrite D1 in Q |- *.
    cbn in Q |- *. destruct (M' !! d) as [z|]; [|done]. cbn in Q |- *. rewrite D8. injection Q as _ <-. by upd.
  - rewrite lookup_insert_ne, view_at by done. unfold h'. cbn [m_md m_mem]. destruct (h.(m_md) !! e) as [y|] eqn:He.
    + destruct (dup_lookup e y He) as (y' & He' & Q). rewrite He'. cbn [mbind option_bind].
      assert (G : y'.(b_datap) = y.(b_datap) ∧ y'.(b_cont) = y.(b_cont) ∧ y'.(b_rptr) = y.(b_rptr) ∧ y'.(b_wptr) = y.(b_wptr) ∧
        y'.(b_band) = y.(b_band) ∧ y'.(b_flag) = y.(b_flag) ∧ y'.(b_csum) = y.(b_csum))
        by (destruct Q as [(-> & -> & ->)|(_ & ->)]; by split_and!).
      destruct G as (G1 & G2 & G3 & G4 & G5 & G6 & G7). destruct (b_datap y) as [d'|] eqn:Hd'.
      * destruct (in_use h e y d' Hex He Hd') as (z & Hz & _ & Hoz & Hpz & _).
        by apply (same_shows h.(m_md) h.(m_mem) _ _ d' z Hz (dup_same d' z Hz) Hoz).
      * unfold shows. by rewrite G1, Hd'.
    + destruct (M' !! e) as [y'|] eqn:He'; [|done]. destruct (dup_old e y' He') as [[? _]|(y & Hy & _)]; congruence.
Qed.
End dup.

(** ** Freeing *)

(** Nothing of the combined block is in use. *)
Definition idle (m : mdb) : bool := bool_decide (m.(b_datap) = None) && (m.(db_ref) =? 0).
Definition live (p : Z * mdb) : Prop := idle p.2 = false.
#[export] Instance live_dec p : Decision (live p).
Proof. unfold live. apply _. Defined.
Definition swept (M : gmap Z mdb) : gmap Z mdb := base.filter live M.
Lemma swept_at M e y : swept M !! e = Some y ↔ M !! e = Some y ∧ idle y = false.
Proof. unfold swept. by rewrite map_lookup_filter_Some. Qed.
Lemma swept_refs d M : refs d (swept M) = refs d M.
Proof.
  unfold refs, swept. rewrite map_filter_filter. f_equal. f_equal. apply map_filter_ext. intros e y _. unfold refers, live, idle. cbn.
  split; [by intros [? _]|]. intros ->. by rewrite bool_decide_false.
Qed.
Lemma swept_none M : (∀ e y, M !! e = Some y → idle y = false) → swept M = M.
Proof. intros H. apply map_eq. intros e. apply option_eq. intros y. rewrite swept_at. naive_solver. Qed.
Lemma swept_delete M e y : M !! e = Some y → idle y = true → swept M = swept (delete e M).
Proof.
  intros He Hy. apply map_eq. intros e'. apply option_eq. intros y'. rewrite !swept_at. destruct (decide (e = e')) as [<-|N].
  - rewrite lookup_delete_eq. split; [|by intros [? _]]. intros [Q1 Q2]. congruence.
  - by rewrite lookup_delete_ne.
Qed.
(** Blocks that differ in what is in use of them. *)
Definition alike (y y' : mdb) : Prop :=
  (y' <| b_datap := None |>) <| db_ref := 0 |> = (y <| b_datap := None |>) <| db_ref := 0 |>.
Section freed.
Context (h : mheap) (a d : Z) (m x : mdb) (g : list bool).
Context (Hex : exact_mem h) (Ha : h.(m_md) !! a = Some m) (Hd : m.(b_datap) = Some d) (Hx : h.(m_md) !! d = Some x).
Let r := x.(db_ref) - 1.
Let x1 := if decide (d = a) then m <| b_datap := None |> else x.
Let x2 := x1 <| db_ref := r |>.
Let M2 := <[d := x2]> (<[a := m <| b_datap := None |>]> h.(m_md)).
Let B' := if r =? 0 then match x.(db_base).(p_buf) with Mem k => delete k h.(m_mem) | Own _ => h.(m_mem) end else h.(m_mem).
Let M' := swept M2.
Let h' := MHeap M' B' h.(m_next) g h.(m_called).
Lemma free_x1 : <[a := m <| b_datap := None |>]> h.(m_md) !! d = Some x1.
Proof using All.
  unfold x1. destruct (decide (d = a)) as [->|N]; [by rewrite lookup_insert_eq|by rewrite lookup_insert_ne].
Qed.
Lemma free_fields e y : h.(m_md) !! e = Some y → ∃ y', M2 !! e = Some y' ∧ alike y y' ∧
  y'.(b_datap) = (if decide (e = a) then None else y.(b_datap)) ∧ y'.(db_ref) = y.(db_ref) - one (bool_decide (d = e)).
Proof using All.
  intros He. unfold M2. destruct (decide (d = e)) as [<-|N].
  - rewrite lookup_insert_eq. exists x2. split; [done|]. assert (y = x) as -> by congruence. unfold x2, x1.
    destruct (decide (d = a)) as [->|N']; [|upd; by rewrite bool_decide_true].
    assert (m = x) as -> by congruence. upd. rewrite bool_decide_true by done. done.
  - rewrite lookup_insert_ne by done. rewrite bool_decide_false by done. destruct (decide (e = a)) as [->|N'].
    + rewrite lookup_insert_eq. eexists. split; [done|]. assert (y = m) as -> by congruence. upd. cbn [one]. split_and!; try done. lia.
    + rewrite lookup_insert_ne by done. exists y. cbn [one]. split_and!; try done. lia.
Qed.
Lemma free_old e y' : M2 !! e = Some y' → ∃ y, h.(m_md) !! e = Some y.
Proof using All.
  unfold M2. destruct (decide (d = e)) as [<-|N]; [by exists x|]. rewrite lookup_insert_ne by done.
  destruct (decide (a = e)) as [<-|N']; [by exists m|]. rewrite lookup_insert_ne by done. by exists y'.
Qed.
Lemma free_refs e : refs e M' = refs e h.(m_md) - one (bool_decide (d = e)).
Proof using All.
  unfold M'. rewrite swept_refs. unfold M2. rewrite (refs_same e d x1 x2) by (try apply free_x1; done).
  rewrite (refs_change e a m _ _ Ha). upd. rewrite Hd. rewrite (bool_decide_false (None = Some e)) by done.
  replace (bool_decide (Some d = Some e)) with (bool_decide (d = e)) by (apply bool_decide_ext; naive_solver). cbn [one]. lia.
Qed.
(** A block is in use after as it was before, but for what was freed. *)
Lemma free_at e y' : M' !! e = Some y' → ∃ y, h.(m_md) !! e = Some y ∧ alike y y' ∧
  y'.(b_datap) = (if decide (e = a) then None else y.(b_datap)) ∧ y'.(db_ref) = y.(db_ref) - one (bool_decide (d = e)) ∧ idle y' = false.
Proof using All.
  unfold M'. rewrite swept_at. intros [H1 H2]. destruct (free_old e y' H1) as [y Hy].
  destruct (free_fields e y Hy) as (z & Hz & Q1 & Q2 & Q3). assert (z = y') as -> by congruence. by exists y.
Qed.
Lemma free_same e y : h.(m_md) !! e = Some y → 0 < y.(db_ref) - one (bool_decide (d = e)) →
  same_data h.(m_md) h.(m_mem) M' B' e y.
Proof using All.
  intros He Hp. destruct (free_fields e y He) as (y' & He' & Al & _ & Hr'). exists y'. split_and!.
  - unfold M'. apply swept_at. split; [done|]. unfold idle. apply andb_false_iff. right. apply Z.eqb_neq. lia.
  - exact (f_equal db_base Al).
  - exact (f_equal db_type Al).
  - exact (f_equal db_frtnp Al).
  - exact (f_equal databuf Al).
  - intros k Hk. unfold B'. destruct (Z.eqb_spec r 0) as [R|R]; [|done]. destruct (p_buf (db_base x)) as [o|k'] eqn:E; [done|].
    rewrite lookup_delete_ne; [done|]. intros ->. destruct (in_use h a m d Hex Ha Hd) as (x0 & Hx0 & Rx & Ho & _).
    assert (x0 = x) as -> by congruence. destruct Ho as [Q|(k0 & Q & _)]; rewrite Q in E; cbn in E; [done|].
    assert (k0 = k) as -> by congruence.
    assert (e = d) as -> by (apply (em_one h Hex e d y x k He Hx); try done; destruct (bool_decide (d = e)); cbn [one] in Hp; lia).
    rewrite bool_decide_true in Hp by done. cbn [one] in Hp. assert (y = x) as -> by congruence. unfold r in R. lia.
Qed.
Lemma free_exact : exact_mem h'.
Proof using All.
  constructor; unfold h'; cbn [m_md m_mem m_next].
  - intros e y' He. destruct (free_at e y' He) as (y & Hy & Al & Hd' & Hr & Hi).
    destruct (em_md h Hex e y Hy) as [L [U [R1 R2] O P]]. split; [done|]. pose proof (refs_nonneg e M') as NN.
    rewrite free_refs, <- R1, <- Hr in NN. constructor.
    + unfold idle in Hi. apply andb_false_iff in Hi as [Hi|Hi]; [left; by apply bool_decide_eq_false_1 in Hi|right].
      apply Z.eqb_neq in Hi. lia.
    + rewrite free_refs, <- R1. split; [done|]. destruct (bool_decide (d = e)); cbn [one] in Hr; lia.
    + intros Hp. rewrite Hr in Hp. assert (Hy0 : 0 < db_ref y) by (destruct (bool_decide (d = e)); cbn [one] in Hp; lia).
      by apply (same_owns h.(m_md) h.(m_mem) M' B' e y Hy (free_same e y Hy Hp) (O Hy0)).
    + intros t Ht. rewrite Hd' in Ht. destruct (decide (e = a)) as [|N]; [done|].
      destruct (in_use h e y t Hex Hy Ht) as (z & Hz & _ & Hoz & Hpz & _).
      assert (Hpos : 1 ≤ refs t M') by (apply (refs_pos t e y' M' He); rewrite Hd'; destruct (decide (e = a)); done).
      destruct (em_md h Hex t z Hz) as [_ [_ [T1 _] _ _]]. rewrite free_refs, <- T1 in Hpos.
      apply (same_points h.(m_md) h.(m_mem) M' B' t z Hz (free_same t z Hz ltac:(lia)) Hoz y y' Hpz);
        [exact (f_equal b_rptr Al)|exact (f_equal b_wptr Al)].
  - intros e e' y y' k He He' Hy Hy' E E'. destruct (free_at e y He) as (z & Hz & Al & _ & Hr & _).
    destruct (free_at e' y' He') as (z' & Hz' & Al' & _ & Hr' & _).
    apply (em_one h Hex e e' z z' k Hz Hz').
    + destruct (bool_decide (d = e)); cbn [one] in Hr; lia.
    + destruct (bool_decide (d = e')); cbn [one] in Hr'; lia.
    + rewrite <- E. symmetry. exact (f_equal db_base Al).
    + rewrite <- E'. symmetry. exact (f_equal db_base Al').
  - intros k Hk. assert (Hk0 : is_Some (h.(m_mem) !! k)).
    { unfold B' in Hk. destruct (r =? 0); [|done]. destruct (p_buf (db_base x)) as [o|k']; [done|]. by apply lookup_delete_is_Some in Hk as [_ ?]. }
    destruct (em_mem h Hex k Hk0) as [L (e & y & He & Hy & E)]. split; [done|].
    assert (Hp : 0 < y.(db_ref) - one (bool_decide (d = e))).
    { case_bool_decide as Q; cbn [one]; [|lia]. subst e. assert (y = x) as -> by congruence. destruct (decide (db_ref x = 1)) as [R|R]; [|lia].
      exfalso. unfold B' in Hk. replace (r =? 0) with true in Hk by (symmetry; apply Z.eqb_eq; unfold r; lia).
      rewrite E in Hk. cbn in Hk. rewrite lookup_delete_eq in Hk. by destruct Hk. }
    destruct (free_same e y He Hp) as (y' & He' & E1 & _). exists e, y'. split; [done|]. split; [|congruence].
    destruct (free_at e y' He') as (z & Hz & _ & _ & -> & _). by assert (z = y) as -> by congruence.
Qed.
Lemma free_view : view h' = delete a (view h).
Proof using All.
  apply map_eq. intros e. rewrite view_at. unfold h'. cbn [m_md m_mem]. destruct (decide (a = e)) as [<-|N].
  - rewrite lookup_delete_eq. destruct (M' !! a) as [y'|] eqn:E; [|done]. destruct (free_at a y' E) as (y & _ & _ & Q & _).
    cbn. unfold shows. rewrite Q. by destruct (decide (a = a)).
  - rewrite lookup_delete_ne, view_at by done. destruct (M' !! e) as [y'|] eqn:E.
    + destruct (free_at e y' E) as (y & Hy & Al & Q & _). rewrite Hy. cbn [mbind option_bind].
      rewrite decide_False in Q by done. destruct (b_datap y) as [t|] eqn:Ht; [|unfold shows; by rewrite Q, Ht].
      destruct (in_use h e y t Hex Hy Ht) as (z & Hz & _ & Hoz & Hpz & _).
      assert (Hpos : 1 ≤ refs t M') by (apply (refs_pos t e y' M' E); done).
      destruct (em_md h Hex t z Hz) as [_ [_ [T1 _] _ _]]. rewrite free_refs, <- T1 in Hpos.
      apply (same_shows h.(m_md) h.(m_mem) M' B' t z Hz (free_same t z Hz ltac:(lia)) Hoz y y'); try done;
        [exact (f_equal b_cont Al)|exact (f_equal b_rptr Al)|exact (f_equal b_wptr Al)|exact (f_equal b_band Al)
        |exact (f_equal b_flag Al)|exact (f_equal b_csum Al)].
    + destruct (h.(m_md) !! e) as [y|] eqn:Hy; [|done]. destruct (free_fields e y Hy) as (y' & Hy' & _ & Q & _).
      rewrite decide_False in Q by done. destruct (idle y') eqn:I.
      * unfold idle in I. apply andb_true_iff in I as [I _]. apply bool_decide_eq_true_1 in I. cbn. unfold shows.
        by rewrite <- Q, I.
      * assert (M' !! e = Some y') by (by apply swept_at). congruence.
Qed.
End freed.

Lemma swept_two M a d ya yd :
  M !! d = Some yd → M !! a = Some ya → (∀ e y, e ≠ a → e ≠ d → M !! e = Some y → idle y = false) →
  swept M = (let M1 := if idle yd then delete d M else M in
             if negb (bool_decide (d = a)) && idle ya then delete a M1 else M1).
Proof.
  intros Hd Ha Ho. cbv zeta. destruct (decide (d = a)) as [->|N].
  - rewrite bool_decide_true by done. cbn [negb andb]. assert (ya = yd) as -> by congruence. destruct (idle yd) eqn:I.
    + rewrite (swept_delete M a yd Hd I). apply swept_none. intros e y [N He]%lookup_delete_Some. by apply (Ho e).
    + apply swept_none. intros e y He. destruct (decide (e = a)) as [->|]; [congruence|by apply (Ho e)].
  - rewrite bool_decide_false by done. cbn [negb andb].
    assert (G : ∀ M1, M1 !! a = Some ya → (∀ e y, e ≠ a → M1 !! e = Some y → idle y = false) →
      swept M1 = if idle ya then delete a M1 else M1).
    { intros M1 H1 H2. destruct (idle ya) eqn:I.
      - rewrite (swept_delete M1 a ya H1 I). apply swept_none. intros e y [Q He]%lookup_delete_Some. by apply (H2 e).
      - apply swept_none. intros e y He. destruct (decide (e = a)) as [->|]; [congruence|by apply (H2 e)]. }
    destruct (idle yd) eqn:I.
    + rewrite (swept_delete M d yd Hd I). apply G; [by rewrite lookup_delete_ne|].
      intros e y Q [Q' He]%lookup_delete_Some. by apply (Ho e).
    + apply G; [done|]. intros e y Q He. destruct (decide (e = d)) as [->|]; [congruence|by apply (Ho e)].
Qed.
Lemma mdbblock_free_ok a y M B N g C :
  M !! a = Some y → mdbblock_free a (MHeap M B N g C) = Some ((), MHeap (delete a M) B N g C).
Proof. intros E. unfold mdbblock_free. by rewrite (bind_ok _ _ _ _ _ (md_at _ _ (MHeap M B N g C) E)). Qed.
(** The data block loses a reference, and with the last one its buffer. *)
Lemma freedb_ok d x M B N g C :
  M !! d = Some x → 1 ≤ x.(db_ref) ≤ 255 → owns d x B →
  freedb d (MHeap M B N g C) = Some ((),
    let r := x.(db_ref) - 1 in
    let x2 := x <| db_ref := r |> in
    let M2 := <[d := x2]> M in
    MHeap (if idle x2 then delete d M2 else M2)
      (if r =? 0 then match x.(db_base).(p_buf) with Mem k => delete k B | Own _ => B end else B) N g C).
Proof.
  intros Hx Hr Ho. cbv zeta. set (r := x.(db_ref) - 1). set (x2 := x <| db_ref := r |>). set (M2 := <[d := x2]> M).
  unfold freedb, db_dec_and_test. erewrite bind_ok.
  2: { rewrite (bind_ok _ _ _ _ _ (md_at _ _ (MHeap M B N g C) Hx)). cbv zeta.
       rewrite (Z.mod_small (db_ref x - 1) (2 ^ 8)) by lia. reflexivity. }
  fold r. assert (I : idle x2 = bool_decide (x.(b_datap) = None) && (r =? 0)) by done. rewrite I.
  change ((MHeap M B N g C) <| m_md := <[d := x <| db_ref := r |>]> (m_md (MHeap M B N g C)) |>) with (MHeap M2 B N g C).
  destruct (r =? 0); [|by rewrite andb_false_r]. rewrite andb_true_r.
  assert (L : M2 !! d = Some x2) by apply lookup_insert_eq.
  rewrite (bind_ok _ _ _ _ _ (md_at _ _ (MHeap M2 B N g C) L)).
  set (B1 := match p_buf (db_base x) with Own _ => B | Mem k => delete k B end).
  rewrite (bind_ok _ _ (MHeap M2 B N g C) (MHeap M2 B1 N g C) ()).
  - rewrite (bind_ok _ _ _ _ _ (md_at _ _ (MHeap M2 B1 N g C) L)).
    change (b_datap x2) with (b_datap x). case_bool_decide; [|done]. by apply (mdbblock_free_ok d x2).
  - unfold x2. upd. unfold B1. destruct Ho as [E|(k & E & [l Hl] & F)]; rewrite E.
    + by rewrite bool_decide_true.
    + rewrite bool_decide_false by done. cbn [negb p_buf].
      assert (K : kmem_free (Ptr (Mem k) 0) (MHeap M2 B N g C) = Some ((), MHeap M2 (delete k B) N g C))
        by (by rewrite (kmem_free_ok k l)). destruct F as [F|F]; rewrite F; exact K.
Qed.
Lemma freeb_ok a c k h :
  exact_mem h → view h !! a = Some (c, k) →
  ∃ h', freeb a h = Some ((), h') ∧ exact_mem h' ∧ h'.(m_next) = h.(m_next) ∧ view h' = delete a (view h).
Proof.
  intros Hex Hv. destruct (view_some h a c k Hex Hv) as (m & d & x & _ & Ha & Hd & Hx & Hr & Ho & _).
  eexists. split; [|split; [exact (free_exact h a d m x h.(m_grant) Hex Ha Hd Hx)|split; [done|]];
    exact (free_view h a d m x h.(m_grant) Hex Ha Hd Hx)].
  pose proof (free_x1 h a d m x h.(m_grant) Hex Ha Hd Hx) as H1.
  set (x1 := if decide (d = a) then m <| b_datap := None |> else x) in *.
  assert (S : x1.(db_ref) = x.(db_ref) ∧ x1.(db_base) = x.(db_base) ∧ x1.(db_frtnp) = x.(db_frtnp)).
  { unfold x1. destruct (decide (d = a)) as [->|]; [|done]. by assert (m = x) as -> by congruence. }
  destruct S as (S1 & S2 & S3).
  set (M2 := <[d := x1 <| db_ref := x.(db_ref) - 1 |>]> (<[a := m <| b_datap := None |>]> h.(m_md))).
  assert (Sw : swept M2 = (let M1 := if idle (x1 <| db_ref := x.(db_ref) - 1 |>) then delete d M2 else M2 in
    if negb (bool_decide (d = a)) && idle (m <| b_datap := None |>) then delete a M1 else M1)).
  { destruct (decide (d = a)) as [->|N].
    - rewrite (swept_two M2 a a (x1 <| db_ref := x.(db_ref) - 1 |>) (x1 <| db_ref := x.(db_ref) - 1 |>)); try apply lookup_insert_eq.
      + by rewrite bool_decide_true.
      + intros e y N _. unfold M2. rewrite !lookup_insert_ne by done. intros He. destruct (em_md h Hex e y He) as [_ [U _ _ _]].
        unfold idle. apply andb_false_iff. destruct U; [left; by rewrite bool_decide_false|right; apply Z.eqb_neq; lia].
    - apply swept_two; [apply lookup_insert_eq|unfold M2; rewrite lookup_insert_ne by done; apply lookup_insert_eq|].
      intros e y N1 N2. unfold M2. rewrite !lookup_insert_ne by done. intros He. destruct (em_md h Hex e y He) as [_ [U _ _ _]].
      unfold idle. apply andb_false_iff. destruct U; [left; by rewrite bool_decide_false|right; apply Z.eqb_neq; lia]. }
  rewrite Sw. unfold freeb. rewrite (bind_ok _ _ _ _ _ (md_at _ _ _ Ha)). erewrite (bind_ok (put_md _ _)) by reflexivity.
  rewrite Hd. destruct h as [M B N g C]. cbn [m_md m_mem m_next m_grant m_called] in *.
  erewrite bind_ok; [|apply (freedb_ok d x1); [exact H1|lia|]].
  2: { unfold owns. by rewrite S2, S3. }
  cbv zeta. rewrite S1, S2. fold M2.
  set (M3 := if idle (x1 <| db_ref := x.(db_ref) - 1 |>) then delete d M2 else M2).
  case_bool_decide as Q; [done|]. cbn [negb andb].
  assert (L : M3 !! a = Some (m <| b_datap := None |>)).
  { unfold M3. destruct (idle (x1 <| db_ref := x.(db_ref) - 1 |>)); [rewrite lookup_delete_ne by done|]; unfold M2; rewrite lookup_insert_ne by done; apply lookup_insert_eq. }
  erewrite bind_ok by (apply md_at; exact L). unfold idle at 1. upd. rewrite bool_decide_true by done. cbn [andb].
  destruct (db_ref m =? 0); [|done]. by apply (mdbblock_free_ok a (m <| b_datap := None |>)).
Qed.
Lemma mheap_eq h h' :
  h.(m_md) = h'.(m_md) → h.(m_mem) = h'.(m_mem) → h.(m_next) = h'.(m_next) → h.(m_grant) = h'.(m_grant) →
  h.(m_called) = h'.(m_called) → h = h'.
Proof. destruct h, h'. cbn. by intros -> -> -> -> ->. Qed.
Section dupb.
Context (FASTBUF : Z) (Hfast : 0 ≤ FASTBUF).
Lemma clean_adds h g :
  adds h h.(m_next) (clean FASTBUF h.(m_next)) (replicate (Z.to_nat FASTBUF) None)
    (MHeap (<[h.(m_next) := clean FASTBUF h.(m_next)]> h.(m_md)) h.(m_mem) (h.(m_next) + 1) g h.(m_called)).
Proof. constructor; cbn; [lia|done|done|split_and!; try done; lia|by left]. Qed.
Lemma dupb_ok b c k h :
  exact_mem h → view h !! b = Some (c, k) →
  ∃ r h', dupb FASTBUF b h = Some (r, h') ∧ new_block h r None k h'.
Proof using All.
  intros Hex Hv. destruct (view_some h b c k Hex Hv) as (m & d & x & _ & Hb & Hd & Hx & Hr & _).
  pose proof (fresh_md h h.(m_next) Hex ltac:(lia)) as Hf.
  unfold dupb. destruct (mdbblock_alloc_ok FASTBUF h) as [[g E]|[g E]]; rewrite (bind_ok _ _ _ _ _ E).
  { exists None, (h <| m_grant := g |>). split; [done|].
    assert (S : same_mem h (h <| m_grant := g |>)) by (by split_and!).
    split; [by apply (same_exact h)|]. split; [done|]. by apply same_view. }
  pose proof (clean_adds h g) as A. set (h1 := MHeap _ _ _ _ _) in *.
  assert (Hb1 : h1.(m_md) !! b = Some m) by (unfold h1; cbn; rewrite lookup_insert_ne; [done|congruence]).
  assert (Hx1 : h1.(m_md) !! d = Some x) by (unfold h1; cbn; rewrite lookup_insert_ne; [done|congruence]).
  rewrite (bind_ok _ _ _ _ _ (md_at _ _ _ Hb1)), Hd. unfold db_inc.
  destruct (Z.eqb_spec (db_ref x) 255) as [R|R].
  - erewrite bind_ok by (rewrite (bind_ok _ _ _ _ _ (md_at _ _ _ Hx1)), R; reflexivity).
    pose proof (adds_view _ _ _ _ _ Hex A) as V. destruct (freeb_ok h.(m_next) _ _ h1 (adds_exact _ _ _ _ _ Hex A)
      ltac:(rewrite V; apply lookup_insert_eq)) as (h2 & E2 & X2 & N2 & V2).
    exists None, h2. split; [by rewrite (bind_ok _ _ _ _ _ E2)|]. split; [done|]. split; [rewrite N2; cbn; lia|].
    rewrite V2, V, delete_insert_id; [done|]. by rewrite view_at, Hf.
  - erewrite bind_ok by (rewrite (bind_ok _ _ _ _ _ (md_at _ _ _ Hx1)); rewrite (proj2 (Z.eqb_neq _ _) R); reflexivity).
    set (x' := x <| db_ref := x.(db_ref) + 1 |>).
    set (m' := (((((((clean FASTBUF h.(m_next)) <| b_rptr := m.(b_rptr) |>) <| b_wptr := m.(b_wptr) |>) <| b_datap := m.(b_datap) |>)
        <| b_band := m.(b_band) |>) <| b_flag := m.(b_flag) |>) <| b_csum := m.(b_csum) |>) <| db_ref := 0 |>).
    assert (N : h.(m_next) ≠ d) by congruence.
    eexists (Some h.(m_next)), (MHeap (<[h.(m_next) := m']> (<[d := x']> h.(m_md))) h.(m_mem) (h.(m_next) + 1) g h.(m_called)).
    split; [|split; [|split; [cbn; lia|split; [cbn; lia|]]]].
    + erewrite bind_ok by (apply on_md_ok; upd; unfold h1; cbn [m_md]; rewrite lookup_insert_ne by done; apply lookup_insert_eq).
      erewrite bind_ok by (apply on_md_ok; apply lookup_insert_eq). unfold mret, partial_ret. do 2 f_equal.
      apply mheap_eq; try done. unfold h1. upd. cbn [m_md]. rewrite insert_insert_eq, (insert_insert_ne _ d) by done.
      rewrite insert_insert_eq. unfold m'. by rewrite Hd.
    + apply (dup_exact h b d m x m' g h.(m_next)); try done. lia.
    + apply (dup_view h b d m x m' g h.(m_next) Hex Hb Hd Hx ltac:(lia) eq_refl) with c; done.
Qed.
End dupb.
