(* ===== verification/MsgOk.v ===== *)
(** * Messages refine lists of blocks

    The operations on whole messages act on lists of blocks, one list for each message,
    that share nothing: what is done to a message is not seen in another, though
    duplicates share their buffers. *)
From S2P Require Import Prelude Partial Msg MsgLaws MsgRefs.
From stdpp Require Import gmap.
#[local] Open Scope Z_scope.
#[local] Open Scope os7_scope.
#[local] Set Warnings "-clear-no-such-hyp".

(** ** The link and the pointers of a block *)

Section touch.
Context (h : mheap) (a d : Z) (m m' x : mdb) (l : list octet).
Context (Hex : exact_mem h) (Ha : h.(m_md) !! a = Some m) (Hd : m.(b_datap) = Some d) (Hx : h.(m_md) !! d = Some x).
Context (Hl : buf_of h.(m_md) h.(m_mem) x.(db_base).(p_buf) = Some l).
Context (T1 : m'.(b_datap) = m.(b_datap)) (T2 : m'.(db_ref) = m.(db_ref)) (T3 : m'.(db_base) = m.(db_base)).
Context (T4 : m'.(db_type) = m.(db_type)) (T5 : m'.(db_frtnp) = m.(db_frtnp)) (T6 : m'.(databuf) = m.(databuf)).
Context (P1 : m'.(b_rptr).(p_buf) = x.(db_base).(p_buf)) (P2 : m'.(b_wptr).(p_buf) = x.(db_base).(p_buf)).
Context (P3 : 0 ≤ m'.(b_rptr).(p_off)) (P4 : 0 ≤ m'.(b_wptr).(p_off) ≤ Z.of_nat (length l)).
Let M' := <[a := m']> h.(m_md).
Let h' := h <| m_md := M' |>.
Lemma touch_same e y : h.(m_md) !! e = Some y → same_data h.(m_md) h.(m_mem) M' h.(m_mem) e y.
Proof using All.
  intros He. unfold M'. destruct (decide (a = e)) as [<-|N].
  - exists m'. assert (y = m) as -> by congruence. rewrite lookup_insert_eq. by split_and!.
  - exists y. rewrite lookup_insert_ne by done. by split_and!.
Qed.
Lemma touch_old e y' : M' !! e = Some y' → ∃ y, h.(m_md) !! e = Some y ∧ y'.(b_datap) = y.(b_datap) ∧
  y'.(db_ref) = y.(db_ref) ∧ y'.(db_base) = y.(db_base) ∧ (e = a ∧ y' = m' ∨ e ≠ a ∧ y' = y).
Proof using All.
  unfold M'. destruct (decide (a = e)) as [<-|N].
  - rewrite lookup_insert_eq. intros [= <-]. exists m. split_and!; try done. by left.
  - rewrite lookup_insert_ne by done. intros He. exists y'. split_and!; try done. by right.
Qed.
Lemma touch_refs e : refs e M' = refs e h.(m_md).
Proof using All. by apply (refs_same e a m m'). Qed.
Lemma touch_points : ∃ x', M' !! d = Some x' ∧ points M' h.(m_mem) m' x'.
Proof using All.
  destruct (in_use h a m d Hex Ha Hd) as (x0 & Hx0 & _ & Ho & _). assert (x0 = x) as -> by congruence.
  pose proof (same_buf h.(m_md) h.(m_mem) M' h.(m_mem) d x Hx (touch_same d x Hx) Ho) as Q.
  destruct (touch_same d x Hx) as (x' & H1 & H2 & _). exists x'. split; [done|]. unfold points. rewrite H2, Q.
  split; [done|]. split; [done|]. by exists l.
Qed.
Lemma touch_exact : exact_mem h'.
Proof using All.
  constructor; unfold h'; upd.
  - intros e y' He. destruct (touch_old e y' He) as (y & Hy & E1 & E2 & E3 & Q).
    destruct (em_md h Hex e y Hy) as [L [U [R1 R2] O P]]. split; [done|]. constructor.
    + by rewrite E1, E2.
    + by rewrite touch_refs, E2.
    + rewrite E2. intros Hr. by apply (same_owns h.(m_md) h.(m_mem) M' h.(m_mem) e y Hy (touch_same e y Hy) (O Hr)).
    + intros t Ht. destruct Q as [[-> ->]|[N ->]].
      * assert (t = d) as -> by congruence. apply touch_points.
      * destruct (in_use h e y t Hex Hy Ht) as (z & Hz & _ & Hoz & Hpz & _).
        by apply (same_points h.(m_md) h.(m_mem) M' h.(m_mem) t z Hz (touch_same t z Hz) Hoz y).
  - intros e e' y y' k He He' Hr Hr' E E'. destruct (touch_old e y He) as (z & Hz & _ & Q2 & Q3 & _).
    destruct (touch_old e' y' He') as (z' & Hz' & _ & Q2' & Q3' & _). apply (em_one h Hex e e' z z' k Hz Hz'); congruence.
  - intros k Hk. destruct (em_mem h Hex k Hk) as [L (e & y & He & Hr & E)]. split; [done|].
    destruct (touch_same e y He) as (y' & He' & E' & _). exists e, y'. split; [done|].
    destruct (touch_old e y' He') as (z & Hz & _ & Q2 & Q3 & _). assert (z = y) as -> by congruence. by rewrite Q2, Q3.
Qed.
Lemma touch_view : view h' = <[a := (m'.(b_cont), Blk x.(db_type) m'.(b_band) m'.(b_flag) m'.(b_csum)
    (octets_at m'.(b_rptr) (m'.(b_wptr).(p_off) - m'.(b_rptr).(p_off)) l))]> (view h).
Proof using All.
  destruct (in_use h a m d Hex Ha Hd) as (x0 & Hx0 & _ & Ho & _). assert (x0 = x) as -> by congruence.
  apply map_eq. intros e. rewrite view_at. unfold h'. upd. destruct (decide (a = e)) as [<-|N].
  - rewrite lookup_insert_eq. assert (Q : M' !! a = Some m') by (unfold M'; apply lookup_insert_eq). rewrite Q. cbn.
    unfold shows. rewrite T1, Hd. cbn. destruct (touch_same d x Hx) as (x' & H1 & H2 & H3 & _). rewrite H1. cbn.
    unfold data_of. rewrite P1, (same_buf h.(m_md) h.(m_mem) M' h.(m_mem) d x Hx (touch_same d x Hx) Ho), Hl, H3. done.
  - rewrite lookup_insert_ne, view_at by done.
    assert (Q : M' !! e = h.(m_md) !! e) by (unfold M'; by rewrite lookup_insert_ne). rewrite Q.
    destruct (h.(m_md) !! e) as [y|] eqn:Hy; [|done]. cbn [mbind option_bind].
    destruct (b_datap y) as [t|] eqn:Ht; [|unfold shows; by rewrite Ht].
    destruct (in_use h e y t Hex Hy Ht) as (z & Hz & _ & Hoz & Hpz & _).
    by apply (same_shows h.(m_md) h.(m_mem) M' h.(m_mem) t z Hz (touch_same t z Hz) Hoz y y).
Qed.
End touch.
(** Linking a block. *)
Lemma set_link_ok a r c k h :
  exact_mem h → view h !! a = Some (c, k) →
  ∃ h', set_link (Some a) r h = Some ((), h') ∧ exact_mem h' ∧ h'.(m_next) = h.(m_next) ∧ view h' = <[a := (r, k)]> (view h).
Proof.
  intros Hex Hv. destruct (view_some h a c k Hex Hv) as (m & d & x & l & Ha & Hd & Hx & _ & _ & (P1 & P2 & _) & Hl & Q1 & Q2 & _ & ->).
  eexists. split; [by apply on_md_ok|].
  split; [by apply (touch_exact h a d m (m <| b_cont := r |>) x l)|]. split; [done|].
  by rewrite (touch_view h a d m (m <| b_cont := r |>) x l) by done.
Qed.

(** ** Messages *)

(** The message at [mp]: its blocks, their addresses and what they show. *)
Fixpoint is_msg (V : gmap Z (option Z * blk)) (mp : option Z) (l : list (Z * blk)) : Prop :=
  match l with
  | [] => mp = None
  | (a, k) :: l => mp = Some a ∧ ∃ c, V !! a = Some (c, k) ∧ is_msg V c l
  end.
Lemma is_msg_frame V V' mp l :
  (∀ a, a ∈ l.*1 → V' !! a = V !! a) → is_msg V mp l → is_msg V' mp l.
Proof.
  revert mp. induction l as [|[a k] l IH]; intros mp Hf; [done|]. intros [-> (c & Hc & Hl)]. split; [done|].
  exists c. split; [rewrite Hf; [done|by left]|]. apply IH; [|done]. intros b Hb. apply Hf. by right.
Qed.
Lemma is_msg_in V mp l a : is_msg V mp l → a ∈ l.*1 → is_Some (V !! a).
Proof.
  revert mp. induction l as [|[b k] l IH]; intros mp; [intros _ H; by apply elem_of_nil in H|].
  intros [_ (c & Hc & Hl)] [->|Hi]%elem_of_cons; [by eexists|by apply (IH c)].
Qed.
(** The last block of a message is linked to another message. *)
Lemma is_msg_link V mp l a k r l2 :
  is_msg V mp (l ++ [(a, k)]) → ¬ (a ∈ l.*1) → is_msg V r l2 → ¬ (a ∈ l2.*1) →
  is_msg (<[a := (r, k)]> V) mp (l ++ (a, k) :: l2).
Proof.
  intros Hm Hn H2 Hn2. revert mp Hm. induction l as [|[b kb] l IH]; intros mp.
  - intros [-> _]. split; [done|]. exists r. rewrite lookup_insert_eq. split; [done|].
    eapply is_msg_frame; [|exact H2]. intros e He. rewrite lookup_insert_ne; [done|]. by intros ->.
  - intros [-> (c & Hc & Hl)]. split; [done|]. exists c. cbn in Hn. rewrite lookup_insert_ne; [split; [done|]|].
    + apply IH; [|done]. intros Q. apply Hn. by right.
    + intros ->. apply Hn. by left.
Qed.
Lemma is_msg_last V mp l a k : is_msg V mp (l ++ [(a, k)]) → V !! a = Some (None, k).
Proof.
  revert mp. induction l as [|[b kb] l IH]; intros mp.
  - intros [_ (c & Hc & E)]. cbn in E. by rewrite <- E.
  - intros [_ (c & _ & Hl)]. by apply (IH c).
Qed.
Lemma view_next h a p : exact_mem h → view h !! a = Some p → a < h.(m_next).
Proof.
  intros Hex. rewrite view_at. destruct (h.(m_md) !! a) as [m|] eqn:E; [|done]. intros _. by destruct (em_md h Hex a m E).
Qed.
Lemma msg_next h mp l a : exact_mem h → is_msg (view h) mp l → a ∈ l.*1 → a < h.(m_next).
Proof. intros Hex Hm Ha. destruct (is_msg_in _ _ _ _ Hm Ha) as [p Hp]. by apply (view_next h a p). Qed.
(** There are turns enough for every message. *)
Lemma msg_turns h mp l : is_msg (view h) mp l → NoDup l.*1 → (length l ≤ size h.(m_md))%nat.
Proof.
  intros Hm Hd. rewrite <- (size_dom (D := gset Z)), <- (length_fmap fst l), <- (size_list_to_set (C := gset Z)) by done.
  apply subseteq_size. intros a Ha. apply elem_of_list_to_set in Ha. destruct (is_msg_in _ _ _ _ Hm Ha) as [p Hp].
  rewrite view_at in Hp. apply elem_of_dom. destruct (h.(m_md) !! a); [by eexists|done].
Qed.
Lemma the_cont h a c k : exact_mem h → view h !! a = Some (c, k) → ∃ m, the_md a h = Some (m, h) ∧ m.(b_cont) = c.
Proof.
  intros Hex Hv. destruct (view_some h a c k Hex Hv) as (m & d & x & l & Ha & _ & _ & _ & _ & _ & _ & _ & _ & E & _).
  exists m. split; [by apply md_at|done].
Qed.

(** ** Duplicates and copies *)

Definition clones (op : Z → partial mheap (option Z)) : Prop :=
  ∀ b c k h, exact_mem h → view h !! b = Some (c, k) → ∃ r h', op b h = Some (r, h') ∧ new_block h r None k h'.
Section clones.
Context (op : Z → partial mheap (option Z)) (Hop : clones op).
(** What is built of the copy is [dst], of which [bp] is the last block. *)
Definition built (V : gmap Z (option Z * blk)) (msg bp : option Z) (dst : list (Z * blk)) : Prop :=
  is_msg V msg dst ∧ NoDup dst.*1 ∧
  (dst = [] ∧ bp = None ∨ ∃ dst0 z kz, dst = dst0 ++ [(z, kz)] ∧ bp = Some z).
Lemma built_link msg bp dst r k h :
  exact_mem h → built (view h) msg bp dst →
  match r with None => True | Some c => view h !! c = Some (None, k) ∧ ¬ (c ∈ dst.*1) end →
  let dst' := match r with None => dst | Some c => dst ++ [(c, k)] end in
  ∃ h', set_link bp r h = Some ((), h') ∧ exact_mem h' ∧ h'.(m_next) = h.(m_next) ∧
    built (view h') (match bp with None => r | Some _ => msg end) (match r with None => bp | Some _ => r end) dst' ∧
    ∀ e, ¬ (e ∈ dst.*1) → view h' !! e = view h !! e.
Proof using.
  intros Hex (Hm & Hd & [[-> ->]|(dst0 & z & kz & -> & ->)]) Hr dst'.
  - exists h. split; [done|]. split; [done|]. split; [done|]. split; [|done]. cbn in Hm. subst msg. unfold dst'. destruct r as [c|].
    + destruct Hr as [Hc _]. split; [|split; [apply NoDup_singleton|right; by exists [], c, k]]. split; [done|]. by exists None.
    + split; [done|]. split; [done|by left].
  - pose proof (is_msg_last _ _ _ _ _ Hm) as Hz. destruct (set_link_ok z r None kz h Hex Hz) as (h' & E & X & N & V).
    exists h'. split; [done|]. split; [done|]. split; [done|]. rewrite fmap_app in Hd. apply NoDup_app in Hd as (D1 & D2 & D3).
    assert (Dz : ¬ (z ∈ dst0.*1)) by (intros Q; apply (D2 z Q); by left).
    split; [|intros e He; rewrite V, lookup_insert_ne; [done|]; intros <-; apply He; rewrite fmap_app, elem_of_app; right; by left].
    unfold dst'. rewrite V. destruct r as [c|].
    + destruct Hr as [Hc Hn]. rewrite fmap_app, elem_of_app in Hn. split; [|split].
      * rewrite <- app_assoc. cbn. apply is_msg_link; [done|done|by split; [|exists None]|]. cbn. rewrite list_elem_of_singleton.
        intros <-. apply Hn. right. by left.
      * rewrite !fmap_app. apply NoDup_app. split; [by apply NoDup_app|]. split; [|apply NoDup_singleton].
        intros e He. cbn. rewrite list_elem_of_singleton. intros ->. apply Hn. by rewrite elem_of_app in He.
      * right. by exists (dst0 ++ [(z, kz)]), c, k.
    + split; [by rewrite insert_id|]. split; [by rewrite fmap_app; apply NoDup_app|]. right. by exists dst0, z, kz.
Qed.
(** What the loop makes of a heap: [dst] grows to [dst'], nothing else changes. *)
Definition grown (h h' : mheap) (dst dst' : list (Z * blk)) : Prop :=
  exact_mem h' ∧ h.(m_next) ≤ h'.(m_next) ∧ (∀ a, a ∈ dst'.*1 → a ∈ dst.*1 ∨ h.(m_next) ≤ a) ∧
  (∀ a, a ∈ dst.*1 → a ∈ dst'.*1) ∧ ∀ e, ¬ (e ∈ dst'.*1) → view h' !! e = view h !! e.
Lemma grown_trans h h1 h2 d d1 d2 : grown h h1 d d1 → grown h1 h2 d1 d2 → grown h h2 d d2.
Proof using.
  intros (_ & A2 & A3 & A4 & A5) (B1 & B2 & B3 & B4 & B5). split; [done|]. split; [lia|]. split; [|split].
  - intros a Ha. destruct (B3 a Ha) as [Q|Q]; [apply A3; exact Q|right; lia].
  - intros a Ha. by apply B4, A4.
  - intros e He. rewrite B5 by done. apply A5. intros Q. by apply He, B4.
Qed.
(** One turn of the loop. *)
Lemma clone_turn a k c src bp msg dst h :
  exact_mem h → is_msg (view h) (Some a) ((a, k) :: src) → view h !! a = Some (c, k) →
  built (view h) msg bp dst → (∀ e, e ∈ dst.*1 → ¬ (e ∈ ((a, k) :: src).*1)) →
  ∃ r h1 h2, op a h = Some (r, h1) ∧ set_link bp r h1 = Some ((), h2) ∧
    let dst' := match r with None => dst | Some z => dst ++ [(z, k)] end in
    grown h h2 dst dst' ∧ built (view h2) (match bp with None => r | Some _ => msg end) (match r with None => bp | Some _ => r end) dst' ∧
    (∀ e, e ∈ dst'.*1 → ¬ (e ∈ ((a, k) :: src).*1)).
Proof using All.
  intros Hex Hm Ha Hb Hds. destruct (Hop a c k h Hex Ha) as (r & h1 & E1 & X1 & N1 & V1).
  assert (Old : ∀ e, e ∈ dst.*1 ∨ e ∈ ((a, k) :: src).*1 → e < h.(m_next)).
  { intros e [Q|Q]; [by apply (msg_next h msg dst e Hex (proj1 Hb))|by apply (msg_next h (Some a) ((a, k) :: src) e Hex Hm)]. }
  assert (F : ∀ e, e < h.(m_next) → view h1 !! e = view h !! e).
  { intros e He. destruct r as [z|]; [destruct V1 as [? ->]; rewrite lookup_insert_ne by lia; done|by rewrite V1]. }
  assert (Hb1 : built (view h1) msg bp dst).
  { destruct Hb as (B1 & B2 & B3). split; [|by split]. eapply is_msg_frame; [|exact B1]. intros e He. apply F, Old. by left. }
  destruct (built_link msg bp dst r k h1 X1 Hb1) as (h2 & E2 & X2 & N2 & B2 & F2).
  { destruct r as [z|]; [|done]. destruct V1 as [Hz ->]. rewrite lookup_insert_eq. split; [done|]. intros Q.
    pose proof (Old z (or_introl Q)). lia. }
  exists r, h1, h2. split; [done|]. split; [done|]. cbv zeta. split; [|split; [done|]].
  - split; [done|]. split; [lia|]. destruct r as [z|]; [destruct V1 as [Hz V1]|].
    + split; [|split].
      * intros e. rewrite fmap_app, elem_of_app. cbn. rewrite list_elem_of_singleton. intros [?| ->]; [by left|right; lia].
      * intros e He. rewrite fmap_app, elem_of_app. by left.
      * intros e. rewrite fmap_app, elem_of_app. cbn. rewrite list_elem_of_singleton. intros He.
        rewrite F2 by tauto. rewrite V1, lookup_insert_ne; [done|]. intros ->. tauto.
    + split; [by left|]. split; [done|]. intros e He. by rewrite F2, V1.
  - destruct r as [z|]; [|done]. intros e. rewrite fmap_app, elem_of_app. cbn [fmap list_fmap fst]. rewrite list_elem_of_singleton.
    intros [?| ->]; [by apply Hds|]. intros Q. pose proof (Old z (or_intror Q)). lia.
Qed.
Lemma each_block_ok n b src bp msg dst h :
  exact_mem h → is_msg (view h) b src → built (view h) msg bp dst → (∀ e, e ∈ dst.*1 → ¬ (e ∈ src.*1)) → (length src ≤ n)%nat →
  ∃ ok msg' bp' dst' h', each_block op n b bp msg h = Some ((ok, msg'), h') ∧ grown h h' dst dst' ∧
    built (view h') msg' bp' dst' ∧ (ok = true → dst'.*2 = dst.*2 ++ src.*2).
Proof using All.
  revert n b bp msg dst h. induction src as [|[a k] src IH]; intros n b bp msg dst h Hex Hm Hb Hds Hn.
  { cbn in Hm. subst b. exists true, msg, bp, dst, h. split; [by destruct n|]. split; [|split; [done|by rewrite app_nil_r]].
    split; [done|]. split; [lia|]. split; [by left|]. by split. }
  pose proof Hm as [-> (c & Ha & Hs)]. destruct n as [|n]; [cbn in Hn; lia|].
  destruct (clone_turn a k c src bp msg dst h Hex Hm Ha Hb Hds) as (r & h1 & h2 & E1 & E2 & G & B & D).
  cbn [each_block]. rewrite (bind_ok _ _ _ _ _ E1), (bind_ok _ _ _ _ _ E2). cbv zeta in *. destruct r as [z|].
  2: { eexists false, _, bp, dst, h2. split; [reflexivity|]. split; [exact G|]. by split. }
  assert (F : ∀ e, e ∈ ((a, k) :: src).*1 → view h2 !! e = view h !! e).
  { intros e He. apply G. intros Q. by apply (D e Q). }
  destruct (the_cont h2 a c k (proj1 G)) as (m & Em & Cm); [rewrite F; [done|by left]|].
  rewrite (bind_ok _ _ _ _ _ Em), Cm.
  destruct (IH n c (Some z) (match bp with Some _ => msg | None => Some z end) (dst ++ [(z, k)]) h2) as (ok & msg' & bp' & dst' & h3 & E3 & G3 & B3 & K3).
  - apply G.
  - eapply is_msg_frame; [|exact Hs]. intros e He. apply F. by right.
  - exact B.
  - intros e He Q. apply (D e He). by right.
  - cbn in Hn. lia.
  - exists ok, msg', bp', dst', h3. split; [exact E3|]. split; [by apply (grown_trans _ _ _ _ _ _ G)|]. split; [done|].
    intros Hk. rewrite (K3 Hk), fmap_app, <- app_assoc. done.
Qed.
End clones.

(** ** Freeing *)

Lemma free_loop_ok n mp l h :
  exact_mem h → is_msg (view h) mp l → NoDup l.*1 → (length l ≤ n)%nat →
  ∃ h', free_loop n mp h = Some ((), h') ∧ exact_mem h' ∧ h'.(m_next) = h.(m_next) ∧
    (∀ e, e ∈ l.*1 → view h' !! e = None) ∧ ∀ e, ¬ (e ∈ l.*1) → view h' !! e = view h !! e.
Proof.
  revert n mp h. induction l as [|[a k] l IH]; intros n mp h Hex Hm Hd Hn.
  { cbn in Hm. subst mp. exists h. split; [by destruct n|]. split; [done|]. split; [done|]. split; [|done]. by intros e ?%elem_of_nil. }
  destruct Hm as [-> (c & Ha & Hl)]. destruct n as [|n]; [cbn in Hn; lia|]. cbn [free_loop]. cbn in Hd.
  apply NoDup_cons in Hd as [Hna Hd].
  destruct (the_cont h a c k Hex Ha) as (m & Em & Cm). rewrite (bind_ok _ _ _ _ _ Em), Cm.
  destruct (freeb_ok a c k h Hex Ha) as (h1 & E1 & X1 & N1 & V1). rewrite (bind_ok _ _ _ _ _ E1).
  destruct (IH n c h1 X1) as (h2 & E2 & X2 & N2 & W1 & W2); [|done|cbn in Hn; lia|].
  { eapply is_msg_frame; [|exact Hl]. intros e He. rewrite V1, lookup_delete_ne; [done|]. by intros ->. }
  exists h2. split; [done|]. split; [done|]. split; [lia|]. split.
  - intros e [->|He]%elem_of_cons; [|by apply W1]. by rewrite W2, V1, lookup_delete_eq.
  - intros e He. cbn in He. rewrite elem_of_cons in He. rewrite W2, V1, lookup_delete_ne by naive_solver. done.
Qed.
Lemma turns_ok h : turns h = Some (S (size h.(m_md)), h).
Proof. done. Qed.
Lemma freemsg_ok mp l h :
  exact_mem h → is_msg (view h) mp l → NoDup l.*1 →
  ∃ h', freemsg mp h = Some ((), h') ∧ exact_mem h' ∧ h'.(m_next) = h.(m_next) ∧
    (∀ e, e ∈ l.*1 → view h' !! e = None) ∧ ∀ e, ¬ (e ∈ l.*1) → view h' !! e = view h !! e.
Proof.
  intros Hex Hm Hd. unfold freemsg. rewrite (bind_ok _ _ _ _ _ (turns_ok h)). apply free_loop_ok; try done.
  pose proof (msg_turns _ _ _ Hm Hd). lia.
Qed.
