(* ===== verification/MsgRefine.v ===== *)
(** * Sequences of calls on messages

    Every sequence of calls on messages is one on lists of blocks of which each message
    is a list of its own ([messages_refine]), and gives all memory back when all
    messages are freed. *)
From S2P Require Import Prelude Partial Msg MsgLaws MsgRefs MsgOk.
From stdpp Require Import gmap.
#[local] Open Scope Z_scope.
#[local] Open Scope os7_scope.
#[local] Set Warnings "-clear-no-such-hyp".

(** ** Copying, linking, unlinking *)

(** A new message at [r] with the blocks of [l]; nothing else has changed. *)
Definition copied (h h' : mheap) (r : option Z) (l : list (Z * blk)) : Prop :=
  ∃ l', is_msg (view h') r l' ∧ l'.*2 = l.*2 ∧ NoDup l'.*1 ∧ (∀ a, a ∈ l'.*1 → h.(m_next) ≤ a) ∧
    ∀ e, ¬ (e ∈ l'.*1) → view h' !! e = view h !! e.
Lemma built_nil V : built V None None [].
Proof. split; [done|]. split; [constructor|by left]. Qed.
Section loops.
Context (FASTBUF : Z) (ktruesize skb_size : Z → Z).
Context (Hfast : 0 ≤ FASTBUF) (Hkmem : ∀ n, 0 ≤ n → n ≤ ktruesize n) (Hskb : ∀ n, 0 ≤ n → n ≤ skb_size n).
Lemma clone_loop op mp l h :
  clones op → exact_mem h → is_msg (view h) mp l → NoDup l.*1 →
  ∃ ok msg h', each_block op (S (size h.(m_md))) mp None None h = Some ((ok, msg), h') ∧ exact_mem h' ∧
    h.(m_next) ≤ h'.(m_next) ∧
    if ok : bool then copied h h' msg l
    else ∃ l', is_msg (view h') msg l' ∧ NoDup l'.*1 ∧ (∀ a, a ∈ l'.*1 → h.(m_next) ≤ a) ∧
           ∀ e, ¬ (e ∈ l'.*1) → view h' !! e = view h !! e.
Proof using.
  intros Hop Hex Hm Hd. pose proof (msg_turns _ _ _ Hm Hd).
  destruct (each_block_ok op Hop (S (size h.(m_md))) mp l None None [] h Hex Hm (built_nil _)) as
    (ok & msg & bp & dst & h' & E & (G1 & G2 & G3 & _ & G5) & (B1 & B2 & _) & K).
  { by intros e ?%elem_of_nil. } { lia. }
  assert (N : ∀ a, a ∈ dst.*1 → h.(m_next) ≤ a) by (intros a Ha; destruct (G3 a Ha) as [Q|?]; [by apply elem_of_nil in Q|done]).
  exists ok, msg, h'. split; [done|]. split; [done|]. split; [done|]. destruct ok; exists dst; [|done].
  split; [done|]. split; [by apply K|done].
Qed.
Lemma dupmsg_ok mp l h :
  exact_mem h → is_msg (view h) mp l → NoDup l.*1 →
  ∃ r h', dupmsg FASTBUF mp h = Some (r, h') ∧ exact_mem h' ∧ h.(m_next) ≤ h'.(m_next) ∧
    (r = None ∧ view h' = view h ∨ copied h h' r l).
Proof using Hfast.
  intros Hex Hm Hd. unfold dupmsg. rewrite (bind_ok _ _ _ _ _ (turns_ok h)).
  destruct (clone_loop (dupb FASTBUF) mp l h) as (ok & msg & h1 & E & X & N & K); try done.
  { intros b c k h0. by apply dupb_ok. }
  rewrite (bind_ok _ _ _ _ _ E). destruct ok; [exists msg, h1; by auto|]. destruct K as (l' & K1 & K2 & K3 & K4).
  destruct (freemsg_ok msg l' h1 X K1 K2) as (h2 & E2 & X2 & N2 & W1 & W2). exists None, h2.
  split; [by rewrite (bind_ok _ _ _ _ _ E2)|]. split; [done|]. split; [lia|]. left. split; [done|]. apply map_eq. intros e.
  destruct (decide (e ∈ l'.*1)) as [Q|Q]; [|by rewrite W2, K4]. rewrite W1 by done.
  destruct (view h !! e) as [p|] eqn:V; [|done]. pose proof (view_next h e p Hex V). pose proof (K3 e Q). lia.
Qed.
(** A copy that fails frees the message it was to copy. *)
Lemma copymsg_ok mp l h :
  exact_mem h → is_msg (view h) mp l → NoDup l.*1 → l ≠ [] →
  ∃ r h', copymsg FASTBUF ktruesize skb_size mp h = Some (r, h') ∧ exact_mem h' ∧ h.(m_next) ≤ h'.(m_next) ∧
    (r = None ∧ (∀ e, e ∈ l.*1 → view h' !! e = None) ∧
       (∀ e, e < h.(m_next) → ¬ (e ∈ l.*1) → view h' !! e = view h !! e) ∨
     r ≠ None ∧ copied h h' r l).
Proof using All.
  intros Hex Hm Hd Hl. unfold copymsg. rewrite (bind_ok _ _ _ _ _ (turns_ok h)).
  destruct (clone_loop (λ a, copyb FASTBUF ktruesize skb_size (Some a)) mp l h) as (ok & msg & h1 & E & X & N & K); try done.
  { intros b c k h0. by apply copyb_ok. }
  rewrite (bind_ok _ _ _ _ _ E). destruct ok.
  - exists msg, h1. split; [done|]. split; [done|]. split; [done|]. right. split; [|done]. intros ->.
    destruct K as (l' & K1 & K2 & _). destruct l' as [|[a k] l']; [|by destruct K1]. by destruct l.
  - destruct K as (l' & K1 & K2 & K3 & K4).
    assert (F : ∀ e, e < h.(m_next) → view h1 !! e = view h !! e) by (intros e He; apply K4; intros Q; pose proof (K3 e Q); lia).
    destruct (freemsg_ok mp l h1 X) as (h2 & E2 & X2 & N2 & W1 & W2); [|done|].
    { eapply is_msg_frame; [|exact Hm]. intros e He. by apply F, (msg_next h mp l e). }
    exists None, h2. split; [by rewrite (bind_ok _ _ _ _ _ E2)|]. split; [done|]. split; [lia|]. left. split; [done|].
    split; [done|]. intros e He Q. by rewrite W2, F.
Qed.
End loops.
Lemma link_loop_ok n a l z kz mp2 h :
  exact_mem h → is_msg (view h) (Some a) (l ++ [(z, kz)]) → (length l < n)%nat →
  ∃ h', link_loop n a mp2 h = Some ((), h') ∧ exact_mem h' ∧ h'.(m_next) = h.(m_next) ∧ view h' = <[z := (mp2, kz)]> (view h).
Proof.
  revert n a. induction l as [|[b kb] l IH]; intros n a Hex Hm Hn; (destruct n as [|n]; [cbn in Hn; lia|]); cbn [link_loop].
  - destruct Hm as [[= ->] (c & Hc & E)]. cbn in E. subst c. destruct (the_cont h z None kz Hex Hc) as (m & Em & Cm).
    rewrite (bind_ok _ _ _ _ _ Em), Cm. by apply (set_link_ok z mp2 None kz h).
  - destruct Hm as [[= ->] (c & Hc & Hl)]. destruct (the_cont h b c kb Hex Hc) as (m & Em & Cm).
    rewrite (bind_ok _ _ _ _ _ Em), Cm. destruct c as [c|]; [|by destruct l as [|[? ?] ?], Hl].
    apply IH; [done|done|cbn in Hn; lia].
Qed.
Lemma linkb_ok a l1 mp2 l2 h :
  exact_mem h → is_msg (view h) (Some a) l1 → is_msg (view h) mp2 l2 → NoDup (l1.*1 ++ l2.*1) →
  ∃ h', linkb (Some a) mp2 h = Some ((), h') ∧ exact_mem h' ∧ h'.(m_next) = h.(m_next) ∧ is_msg (view h') (Some a) (l1 ++ l2) ∧
    ∀ e, ¬ (e ∈ l1.*1) → view h' !! e = view h !! e.
Proof.
  intros Hex H1 H2 Hd. apply NoDup_app in Hd as (D1 & D2 & D3). pose proof (msg_turns _ _ _ H1 D1) as T.
  destruct l1 as [|[z kz] l0 _] using rev_ind; [done|].
  rewrite length_app in T. cbn in T. unfold linkb. rewrite (bind_ok _ _ _ _ _ (turns_ok h)).
  destruct (link_loop_ok (S (size h.(m_md))) a l0 z kz mp2 h Hex H1) as (h' & E & X & N & V); [lia|].
  exists h'. split; [done|]. split; [done|]. split; [done|]. rewrite fmap_app in D1, D2. apply NoDup_app in D1 as (D4 & D5 & _).
  split.
  - rewrite <- app_assoc. cbn. rewrite V. apply is_msg_link; [done| |done|].
    + intros Q. apply (D5 z Q). by left.
    + apply D2, elem_of_app. right. by left.
  - intros e He. rewrite V, lookup_insert_ne; [done|]. intros <-. apply He. rewrite fmap_app, elem_of_app. right. by left.
Qed.
Lemma unlinkb_ok a k l h :
  exact_mem h → is_msg (view h) (Some a) ((a, k) :: l) → ¬ (a ∈ l.*1) →
  ∃ r h', unlinkb (Some a) h = Some (r, h') ∧ exact_mem h' ∧ h'.(m_next) = h.(m_next) ∧
    is_msg (view h') (Some a) [(a, k)] ∧ is_msg (view h') r l ∧ ∀ e, e ≠ a → view h' !! e = view h !! e.
Proof.
  intros Hex [_ (c & Hc & Hl)] Hn. destruct (the_cont h a c k Hex Hc) as (m & Em & Cm).
  destruct (set_link_ok a None c k h Hex Hc) as (h' & E & X & N & V). exists c, h'.
  split; [|split; [done|split; [done|split; [|split]]]].
  - unfold unlinkb. rewrite (bind_ok _ _ _ _ _ Em). cbn in E. unfold on_md in E. rewrite (bind_ok _ _ _ _ _ Em) in E.
    by rewrite (bind_ok _ _ _ _ _ E), Cm.
  - split; [done|]. exists None. by rewrite V, lookup_insert_eq.
  - eapply is_msg_frame; [|exact Hl]. intros e He. rewrite V, lookup_insert_ne; [done|]. by intros ->.
  - intros e He. by rewrite V, lookup_insert_ne.
Qed.

(** ** Trimming *)

Definition k_len (k : blk) : Z := Z.of_nat (length k.(k_data)).
Definition with_data (x : list octet) (k : blk) : blk := Blk k.(k_type) k.(k_band) k.(k_flag) k.(k_csum) x.
(** The blocks up to the [n]th octet are of one type. *)
Fixpoint of_type (type n : Z) (l : list blk) : bool :=
  match l with
  | [] => false
  | k :: l => (k.(k_type) =? type) && ((0 <? k_len k) && (n <=? k_len k) || of_type type (n - k_len k) l)
  end.
(** [n] octets less at the head. *)
Fixpoint drop_head (n : Z) (l : list blk) : list blk :=
  match l with
  | [] => []
  | k :: l =>
      if n <? k_len k then with_data (drop (Z.to_nat n) k.(k_data)) k :: l
      else with_data [] k :: drop_head (n - k_len k) l
  end.
Definition trim_head (n : Z) (l : list blk) : list blk :=
  match l with k :: _ => if of_type k.(k_type) n l then drop_head n l else l | [] => [] end.

(** A block in use, with the length [blen] finds. *)
Lemma the_block h a c k :
  exact_mem h → view h !! a = Some (c, k) →
  ∃ m d x, the_md a h = Some (m, h) ∧ h.(m_md) !! a = Some m ∧ m.(b_cont) = c ∧ m.(b_datap) = Some d ∧
    datab m h = Some (x, h) ∧ x.(db_type) = k.(k_type) ∧ ∃ l, blen m h = Some (l, h) ∧ k_len k = (if 0 <? l then l else 0) ∧
    ∀ n, 0 ≤ n ≤ l → ∃ h', put_md a (m <| b_rptr := ptr_add m.(b_rptr) n |>) h = Some ((), h') ∧ exact_mem h' ∧
      h'.(m_next) = h.(m_next) ∧ view h' = <[a := (c, with_data (drop (Z.to_nat n) k.(k_data)) k)]> (view h).
Proof.
  intros Hex Hv. destruct (view_some h a c k Hex Hv) as (m & d & x & l & Ha & Hd & Hx & _ & _ & Hp & Hl & Q1 & Q2 & -> & ->).
  pose proof Hp as (P1 & P2 & _). exists m, d, x. split; [by apply md_at|]. split; [done|]. split; [done|]. split; [done|].
  split; [unfold datab; rewrite Hd; by apply md_at|]. split; [done|]. eexists. split; [exact (blen_ok m x h _ _ Hp)|]. split.
  - unfold k_len. cbn [k_data]. unfold octets_at. rewrite length_take, length_drop.
    destruct (Z.ltb_spec 0 (p_off (b_wptr m) - p_off (b_rptr m))); lia.
  - intros n Hn. eexists. split; [reflexivity|]. set (m' := m <| b_rptr := ptr_add (b_rptr m) n |>).
    split; [apply (touch_exact h a d m m' x l); try done; unfold m'; upd; cbn; lia|]. split; [done|].
    change (view (h <| m_md := <[a := m']> h.(m_md) |>) = <[a := (b_cont m, with_data (drop (Z.to_nat n)
      (octets_at (b_rptr m) (p_off (b_wptr m) - p_off (b_rptr m)) l)) (Blk (db_type x) (b_band m) (b_flag m) (b_csum m) []))]> (view h)).
    rewrite (touch_view h a d m m' x l) by (try done; unfold m'; upd; cbn; lia). unfold m', with_data. upd. cbn [ptr_add p_off k_type k_band k_flag k_csum].
    do 4 f_equal. unfold octets_at. cbn [p_off ptr_add]. rewrite skipn_firstn_comm, drop_drop. f_equal; [|f_equal]; lia.
Qed.
Lemma head_check_ok n mp l type size h :
  exact_mem h → is_msg (view h) mp l → (length l ≤ n)%nat → 0 < size →
  head_check n mp type size h = Some (of_type type size l.*2, h).
Proof.
  intros Hex. revert n mp size. induction l as [|[a k] l IH]; intros n mp size Hm Hn Hs; [cbn in Hm; subst mp; by destruct n|].
  destruct Hm as [-> (c & Hc & Hl)]. destruct n as [|n]; [cbn in Hn; lia|]. cbn [head_check].
  destruct (the_block h a c k Hex Hc) as (m & d & x & Em & _ & Cm & _ & Ed & Et & len & El & Ek & _).
  rewrite (bind_ok _ _ _ _ _ Em), (bind_ok _ _ _ _ _ Ed), Et. cbn [fmap list_fmap snd of_type].
  destruct (Z.eqb_spec (k_type k) type) as [E|E]; [|done]. cbn [negb andb]. rewrite (bind_ok _ _ _ _ _ El), Cm.
  destruct (Z.leb_spec len 0) as [L|L].
  - replace (0 <? len) with false in Ek by (symmetry; apply Z.ltb_ge; lia). rewrite Ek, Z.sub_0_r. cbn [andb orb Z.ltb].
    apply IH; try done. cbn in Hn. lia.
  - rewrite (proj2 (Z.ltb_lt 0 len)) in Ek by lia. rewrite Ek, (proj2 (Z.ltb_lt 0 len)) by lia. cbn [andb].
    destruct (Z.leb_spec (size - len) 0) as [T|T].
    + by rewrite (proj2 (Z.leb_le size len)) by lia.
    + rewrite (proj2 (Z.leb_gt size len)) by lia. cbn [orb]. apply IH; try done; cbn in Hn; lia.
Qed.
Lemma with_data_same k : with_data k.(k_data) k = k.
Proof. by destruct k. Qed.
Lemma head_trim_ok n mp l size h :
  exact_mem h → is_msg (view h) mp l → NoDup l.*1 → (length l ≤ n)%nat → 0 ≤ size →
  ∃ r h' l', head_trim n mp size h = Some (r, h') ∧ exact_mem h' ∧ h'.(m_next) = h.(m_next) ∧ is_msg (view h') mp l' ∧
    l'.*1 = l.*1 ∧ l'.*2 = drop_head size l.*2 ∧ ∀ e, ¬ (e ∈ l.*1) → view h' !! e = view h !! e.
Proof.
  revert n mp size h. induction l as [|[a k] l IH]; intros n mp size h Hex Hm Hd Hn Hs.
  { cbn in Hm. subst mp. exists 0, h, []. split; [by destruct n|]. by split_and!. }
  destruct Hm as [-> (c & Hc & Hl)]. destruct n as [|n]; [cbn in Hn; lia|]. cbn [head_trim]. cbn in Hd.
  apply NoDup_cons in Hd as [Hna Hd].
  destruct (the_block h a c k Hex Hc) as (m & d & x & Em & _ & Cm & _ & _ & _ & len & El & Ek & Adv).
  rewrite (bind_ok _ _ _ _ _ Em), (bind_ok _ _ _ _ _ El), Cm. cbn [fmap list_fmap snd drop_head].
  (* the rest of the message *)
  assert (Rest : ∀ h1 k1 s, exact_mem h1 → h1.(m_next) = h.(m_next) → 0 ≤ s → view h1 = <[a := (c, k1)]> (view h) →
    ∃ r h' l', head_trim n c s h1 = Some (r, h') ∧ exact_mem h' ∧ h'.(m_next) = h.(m_next) ∧ is_msg (view h') (Some a) ((a, k1) :: l') ∧
      l'.*1 = l.*1 ∧ l'.*2 = drop_head s l.*2 ∧ ∀ e, ¬ (e ∈ ((a, k) :: l).*1) → view h' !! e = view h !! e).
  { intros h1 k1 s X1 N1 S1 V1. destruct (IH n c s h1 X1) as (r & h2 & l' & E2 & X2 & N2 & M2 & D2 & K2 & F2); try done; [|cbn in Hn; lia|].
    - eapply is_msg_frame; [|exact Hl]. intros e He. rewrite V1, lookup_insert_ne; [done|]. by intros ->.
    - exists r, h2, l'. split; [done|]. split; [done|]. split; [lia|]. split; [|split; [done|split; [done|]]].
      + split; [done|]. exists c. by rewrite F2, V1, lookup_insert_eq.
      + intros e He. cbn in He. rewrite elem_of_cons in He. rewrite F2, V1, lookup_insert_ne by naive_solver. done. }
  destruct (Z.leb_spec len 0) as [L|L].
  - rewrite (proj2 (Z.ltb_ge 0 len)) in Ek by lia. rewrite Ek, (proj2 (Z.ltb_ge size 0)), Z.sub_0_r by lia.
    assert (K0 : with_data [] k = k) by (unfold k_len in Ek; rewrite <- (with_data_same k) at 2; f_equal; symmetry; apply length_zero_iff_nil; lia).
    destruct (Rest h k size) as (r & h' & l' & E & X & N & M & D & K & F); try done; [by rewrite insert_id|].
    exists r, h', ((a, k) :: l'). rewrite K0. split_and!; try done; cbn; by f_equal.
  - rewrite (proj2 (Z.ltb_lt 0 len)) in Ek by lia. cbv zeta. destruct (Z.ltb_spec (size - len) 0) as [T|T].
    + destruct (Adv size) as (h1 & E1 & X1 & N1 & V1); [lia|]. replace (len + (size - len)) with size by lia.
      rewrite (bind_ok _ _ _ _ _ E1), Ek, (proj2 (Z.ltb_lt size len)) by lia.
      exists 1, h1, ((a, with_data (drop (Z.to_nat size) (k_data k)) k) :: l). split; [done|]. split; [done|]. split; [done|].
      split; [|split; [done|split; [done|]]].
      * split; [done|]. exists c. rewrite V1, lookup_insert_eq. split; [done|]. eapply is_msg_frame; [|exact Hl].
        intros e He. rewrite lookup_insert_ne; [done|]. by intros ->.
      * intros e He. cbn in He. rewrite elem_of_cons in He. rewrite V1, lookup_insert_ne by naive_solver. done.
    + destruct (Adv len) as (h1 & E1 & X1 & N1 & V1); [lia|]. rewrite (bind_ok _ _ _ _ _ E1), Ek, (proj2 (Z.ltb_ge size len)) by lia.
      destruct (Rest h1 (with_data (drop (Z.to_nat len) (k_data k)) k) (size - len)) as (r & h' & l' & E & X & N & M & D & K & F); try done; try lia.
      assert (K0 : drop (Z.to_nat len) (k_data k) = []) by (apply drop_ge; unfold k_len in Ek; lia). rewrite K0 in M.
      exists r, h', ((a, with_data [] k) :: l'). split_and!; try done; cbn; by f_equal.
Qed.
Lemma adjmsg_head a l n h :
  exact_mem h → is_msg (view h) (Some a) l → NoDup l.*1 → 0 < n →
  ∃ r h' l', adjmsg (Some a) n h = Some (r, h') ∧ exact_mem h' ∧ h'.(m_next) = h.(m_next) ∧ is_msg (view h') (Some a) l' ∧
    l'.*1 = l.*1 ∧ l'.*2 = trim_head n l.*2 ∧ ∀ e, ¬ (e ∈ l.*1) → view h' !! e = view h !! e.
Proof.
  intros Hex Hm Hd Hn. pose proof (msg_turns _ _ _ Hm Hd) as T. destruct l as [|[b k] l]; [done|].
  pose proof Hm as [[= ->] (c & Hc & _)].
  destruct (the_block h b c k Hex Hc) as (m & d & x & Em & _ & _ & _ & Ed & Et & _).
  unfold adjmsg. rewrite (bind_ok _ _ _ _ _ Em), (bind_ok _ _ _ _ _ Ed), (bind_ok _ _ _ _ _ (turns_ok h)), Et.
  rewrite (proj2 (Z.eqb_neq n 0)), (proj2 (Z.ltb_lt 0 n)) by lia.
  rewrite (bind_ok _ _ _ _ _ (head_check_ok (S (size h.(m_md))) (Some b) ((b, k) :: l) (k_type k) n h Hex Hm ltac:(lia) Hn)).
  cbn [fmap list_fmap snd trim_head]. fold ((fmap (M := list)) (snd (A := Z) (B := blk)) l).
  destruct (of_type (k_type k) n (k :: l.*2)) eqn:O.
  - apply (head_trim_ok _ (Some b) ((b, k) :: l)); try done; lia.
  - exists 0, h, ((b, k) :: l). by split_and!.
Qed.

(** ** Calls *)

(** A program holds messages, each by its first block, in an order of its own: a call
    takes messages out and puts its results at the end.  [whole] says that no copy has
    failed, which leaks the blocks that were copied already. *)
Record pool := Pool { roots : list Z; whole : bool }.
Inductive call :=
  | Allocb (size : nat) (priority : Z)
  | Dupmsg (i : nat)
  | Copymsg (i : nat)
  | Freemsg (i : nat)
  | Linkb (i j : nat)
  | Unlinkb (i : nat)
  | Adjmsg (i : nat) (n : Z).
Definition opt_list {A} (r : option A) : list A := match r with Some a => [a] | None => [] end.
Definition empty_blk : blk := Blk M_DATA 0 0 0 [].
(** What a call may do to the lists of blocks. *)
Definition spec (c : call) (ms ms' : list (list blk)) : Prop :=
  match c with
  | Allocb _ _ => ms' = ms ∨ ms' = ms ++ [[empty_blk]]
  | Dupmsg i => match ms !! i with
      | Some l => ms' = delete i ms ++ [l] ∨ ms' = delete i ms ++ [l; l]
      | None => ms' = ms end
  | Copymsg i => match ms !! i with
      | Some l => ms' = delete i ms ∨ ms' = delete i ms ++ [l; l]
      | None => ms' = ms end
  | Freemsg i => ms' = delete i ms
  | Linkb i j => match ms !! i, delete i ms !! j with
      | Some l1, Some l2 => ms' = delete j (delete i ms) ++ [l1 ++ l2]
      | _, _ => ms' = ms end
  | Unlinkb i => match ms !! i with
      | Some (k :: l) => ms' = delete i ms ++ [k] :: match l with [] => [] | _ => [l] end
      | _ => ms' = ms end
  | Adjmsg i n => match ms !! i with
      | Some l => if 0 <? n then ms' = delete i ms ++ [trim_head n l] else ms' = ms
      | None => ms' = ms end
  end.
Inductive specs : list call → list (list blk) → list (list blk) → Prop :=
  | specs_nil ms : specs [] ms ms
  | specs_cons c cs ms ms1 ms2 : spec c ms ms1 → specs cs ms1 ms2 → specs (c :: cs) ms ms2.

(** ** What a program holds *)

Definition addrs (ls : list (list (Z * blk))) : list Z := flat_map (λ l, l.*1) ls.
Definition shown (ls : list (list (Z * blk))) : list (list blk) := (λ l, l.*2) <$> ls.
Definition holds (V : gmap Z (option Z * blk)) (rs : list Z) (ls : list (list (Z * blk))) : Prop :=
  Forall2 (λ a l, is_msg V (Some a) l) rs ls.
(** The messages of a pool share no block, and if it is whole there are no others. *)
Definition kept (h : mheap) (p : pool) (ls : list (list (Z * blk))) : Prop :=
  exact_mem h ∧ holds (view h) p.(roots) ls ∧ NoDup (addrs ls) ∧
  (p.(whole) = true → ∀ e, is_Some (view h !! e) → e ∈ addrs ls).
Definition repr (h : mheap) (p : pool) (ms : list (list blk)) : Prop := ∃ ls, kept h p ls ∧ ms = shown ls.
Lemma addrs_app l1 l2 : addrs (l1 ++ l2) = addrs l1 ++ addrs l2.
Proof. apply flat_map_app. Qed.
Lemma addrs_cons l ls : addrs (l :: ls) = l.*1 ++ addrs ls.
Proof. done. Qed.
Lemma shown_delete i ls : shown (delete i ls) = delete i (shown ls).
Proof. unfold shown. by rewrite !delete_take_drop, fmap_app, fmap_take, fmap_drop. Qed.
Lemma shown_app l1 l2 : shown (l1 ++ l2) = shown l1 ++ shown l2.
Proof. apply fmap_app. Qed.
Lemma shown_at i ls l : ls !! i = Some l → shown ls !! i = Some l.*2.
Proof. intros H. unfold shown. by rewrite list_lookup_fmap, H. Qed.
Lemma shown_none i ls : ls !! i = None → shown ls !! i = None.
Proof. intros H. unfold shown. by rewrite list_lookup_fmap, H. Qed.
Lemma addrs_delete i ls l : ls !! i = Some l → addrs ls ≡ₚ l.*1 ++ addrs (delete i ls).
Proof.
  intros H. rewrite (delete_take_drop ls i), <- (take_drop_middle ls i l H) at 1. rewrite !addrs_app, addrs_cons. solve_Permutation.
Qed.
Lemma holds_frame V V' rs ls : (∀ e, e ∈ addrs ls → V' !! e = V !! e) → holds V rs ls → holds V' rs ls.
Proof.
  intros Hf Hh. induction Hh as [|a l rs ls Hm Hh IH]; constructor.
  - eapply is_msg_frame; [|exact Hm]. intros e He. apply Hf. rewrite addrs_cons, elem_of_app. by left.
  - apply IH. intros e He. apply Hf. rewrite addrs_cons, elem_of_app. by right.
Qed.
Lemma holds_delete V rs ls i : holds V rs ls → holds V (delete i rs) (delete i ls).
Proof. intros H. rewrite !delete_take_drop. apply Forall2_app; [by apply Forall2_take|by apply Forall2_drop]. Qed.
Lemma holds_next h rs ls e : exact_mem h → holds (view h) rs ls → e ∈ addrs ls → e < h.(m_next).
Proof.
  intros Hex Hh. induction Hh as [|a l rs ls Hm Hh IH]; [intros Q; by apply elem_of_nil in Q|].
  rewrite addrs_cons, elem_of_app. intros [Q|Q]; [by apply (msg_next h (Some a) l e)|by apply IH].
Qed.
(** A message taken out of the pool. *)
Lemma kept_take h p ls i a :
  kept h p ls → p.(roots) !! i = Some a →
  ∃ l, ls !! i = Some l ∧ is_msg (view h) (Some a) l ∧ holds (view h) (delete i p.(roots)) (delete i ls) ∧
    NoDup (l.*1 ++ addrs (delete i ls)) ∧ (p.(whole) = true → ∀ e, is_Some (view h !! e) → e ∈ l.*1 ++ addrs (delete i ls)).
Proof.
  intros (Hex & Hh & Hd & Hw) Ha. destruct (Forall2_lookup_l _ _ _ _ _ Hh Ha) as (l & Hl & Hm).
  exists l. split; [done|]. split; [done|]. split; [by apply holds_delete|].
  rewrite <- (addrs_delete i ls l Hl). split; [done|]. intros W e He. rewrite <- (addrs_delete i ls l Hl). by apply Hw.
Qed.
Lemma kept_none h p ls i : kept h p ls → p.(roots) !! i = None → ls !! i = None.
Proof.
  intros (_ & Hh & _) Hn. destruct (ls !! i) as [l|] eqn:E; [|done].
  destruct (Forall2_lookup_r _ _ _ _ _ Hh E) as (a & Ha & _). congruence.
Qed.
Lemma kept_put h h' R LS nr nl w :
  holds (view h) R LS → (∀ e, e ∈ addrs LS → view h' !! e = view h !! e) → exact_mem h' → holds (view h') nr nl →
  NoDup (addrs nl ++ addrs LS) → (w = true → ∀ e, is_Some (view h' !! e) → e ∈ addrs nl ++ addrs LS) →
  kept h' (Pool (R ++ nr) w) (LS ++ nl).
Proof.
  intros Hh Hf Hex Hn Hd Hw. assert (P : addrs (LS ++ nl) ≡ₚ addrs nl ++ addrs LS) by (rewrite addrs_app; apply Permutation_app_comm).
  split; [done|]. split; [apply Forall2_app; [by apply (holds_frame (view h))|done]|]. rewrite P. split; [done|].
  intros W e He. rewrite P. by apply Hw.
Qed.
Lemma holds_one V a l : is_msg V (Some a) l → holds V [a] [l].
Proof. intros H. by constructor. Qed.
Lemma addrs_one l : addrs [l] = l.*1.
Proof. apply app_nil_r. Qed.

Section calls.
Context (FASTBUF : Z) (ktruesize skb_size : Z → Z).
Context (Hfast : 0 ≤ FASTBUF) (Hkmem : ∀ n, 0 ≤ n → n ≤ ktruesize n) (Hskb : ∀ n, 0 ≤ n → n ≤ skb_size n).
Definition perform (c : call) (p : pool) : partial mheap pool :=
  match c with
  | Allocb size priority =>
      r ← allocb FASTBUF ktruesize skb_size (Z.of_nat size) priority;
      mret (Pool (p.(roots) ++ opt_list r) p.(whole))
  | Dupmsg i => match p.(roots) !! i with
      | Some a => r ← dupmsg FASTBUF (Some a); mret (Pool (delete i p.(roots) ++ a :: opt_list r) p.(whole))
      | None => mret p end
  | Copymsg i => match p.(roots) !! i with
      | Some a =>
          r ← copymsg FASTBUF ktruesize skb_size (Some a);
          mret match r with
               | Some b => Pool (delete i p.(roots) ++ [a; b]) p.(whole)
               | None => Pool (delete i p.(roots) ++ []) false end
      | None => mret p end
  | Freemsg i => match p.(roots) !! i with
      | Some a => _ ← freemsg (Some a); mret (Pool (delete i p.(roots) ++ []) p.(whole))
      | None => mret p end
  | Linkb i j => match p.(roots) !! i, delete i p.(roots) !! j with
      | Some a, Some b => _ ← linkb (Some a) (Some b); mret (Pool (delete j (delete i p.(roots)) ++ [a]) p.(whole))
      | _, _ => mret p end
  | Unlinkb i => match p.(roots) !! i with
      | Some a => r ← unlinkb (Some a); mret (Pool (delete i p.(roots) ++ a :: opt_list r) p.(whole))
      | None => mret p end
  | Adjmsg i n => match p.(roots) !! i with
      | Some a =>
          if 0 <? n then _ ← adjmsg (Some a) n; mret (Pool (delete i p.(roots) ++ [a]) p.(whole)) else mret p
      | None => mret p end
  end.
(** The call goes through, and does what is specified. *)
Definition refines (c : call) (h : mheap) (p : pool) (ls : list (list (Z * blk))) : Prop :=
  ∃ p' h' ls', perform c p h = Some (p', h') ∧ kept h' p' ls' ∧ spec c (shown ls) (shown ls').
Lemma refines_none c h p ls :
  perform c p = mret p → kept h p ls → spec c (shown ls) (shown ls) → refines c h p ls.
Proof using. intros E K S. exists p, h, ls. by rewrite E. Qed.
Lemma allocb_refines size priority h p ls : kept h p ls → refines (Allocb size priority) h p ls.
Proof using All.
  intros (Hex & Hh & Hd & Hw).
  destruct (allocb_ok FASTBUF ktruesize skb_size Hfast Hkmem Hskb (Z.of_nat size) priority h Hex ltac:(lia)) as (r & h' & E & P).
  exists (Pool (p.(roots) ++ opt_list r) p.(whole)), h'. destruct r as [a|].
  - destruct P as (m & n & A & _ & R1 & R2 & R3 & R4 & R5 & R6 & R7). pose proof (adds_view _ _ _ _ _ Hex A) as V.
    rewrite R1, R2, R3, R4, R5, R6, R7, Z.sub_diag in V.
    change (octets_at (db_base m) 0 (replicate n None)) with (@nil octet) in V. fold empty_blk in V.
    assert (N : ∀ e, e ∈ addrs ls → e ≠ a).
    { intros e He ->. pose proof (holds_next h _ _ a Hex Hh He). destruct (ad_next _ _ _ _ _ A). lia. }
    exists (ls ++ [[(a, empty_blk)]]). split; [cbn [perform]; by rewrite (bind_ok _ _ _ _ _ E)|]. split.
    + apply (kept_put h); try done.
      * intros e He. rewrite V, lookup_insert_ne; [done|]. apply not_eq_sym. by apply N.
      * by apply (adds_exact h a m (replicate n None)).
      * apply holds_one. split; [done|]. exists None. by rewrite V, lookup_insert_eq.
      * cbn. apply NoDup_cons. split; [intros Q; by apply (N a Q)|done].
      * intros W e. rewrite V. cbn. rewrite elem_of_cons. destruct (decide (e = a)) as [->|M]; [by left|].
        rewrite lookup_insert_ne by done. intros He. right. by apply Hw.
    + right. by rewrite shown_app.
  - exists ls. split; [cbn [perform]; by rewrite (bind_ok _ _ _ _ _ E)|]. pose proof (same_view _ _ P) as V. split; [|by left].
    cbn [opt_list]. rewrite app_nil_r. split; [by apply (same_exact h)|]. by rewrite V.
Qed.
Lemma freemsg_refines i h p ls : kept h p ls → refines (Freemsg i) h p ls.
Proof using.
  intros K. destruct (p.(roots) !! i) as [a|] eqn:Ha.
  - destruct (kept_take h p ls i a K Ha) as (l & Hl & Hm & Hr & Hd & Hw). pose proof K as [Hex _].
    apply NoDup_app in Hd as (D1 & D2 & D3). destruct (freemsg_ok (Some a) l h Hex Hm D1) as (h' & E & X & N & W1 & W2).
    exists (Pool (delete i p.(roots) ++ []) p.(whole)), h', (delete i ls ++ []). split; [cbn [perform]; rewrite Ha; by rewrite (bind_ok _ _ _ _ _ E)|].
    split; [|cbn; by rewrite app_nil_r, shown_delete]. apply (kept_put h); try done.
    + intros e He. apply W2. intros Q. by apply (D2 e Q).
    + constructor.
    + intros W e [q He]. cbn. destruct (decide (e ∈ l.*1)) as [Q|Q]; [rewrite W1 in He; done|]. rewrite W2 in He by done.
      destruct (proj1 (elem_of_app _ _ _) (Hw W e ltac:(by exists q))) as [?|?]; done.
  - apply refines_none; [cbn; by rewrite Ha|done|]. cbn. pose proof (shown_none _ _ (kept_none h p ls i K Ha)) as Q.
    rewrite delete_take_drop. apply lookup_ge_None in Q. by rewrite take_ge, drop_ge, app_nil_r by lia.
Qed.
Lemma unlinkb_refines i h p ls : kept h p ls → refines (Unlinkb i) h p ls.
Proof using.
  intros K. destruct (p.(roots) !! i) as [a|] eqn:Ha.
  - destruct (kept_take h p ls i a K Ha) as (l & Hl & Hm & Hr & Hd & Hw). pose proof K as [Hex _].
    apply NoDup_app in Hd as (D1 & D2 & D3). destruct l as [|[a' k] l]; [done|]. pose proof Hm as [[= <-] _].
    cbn in D1. apply NoDup_cons in D1 as [D1 D4].
    destruct (unlinkb_ok a k l h Hex Hm D1) as (r & h' & E & X & N & M1 & M2 & F).
    exists (Pool (delete i p.(roots) ++ a :: opt_list r) p.(whole)), h', (delete i ls ++ [(a, k)] :: match l with [] => [] | _ => [l] end).
    split; [cbn [perform]; rewrite Ha; by rewrite (bind_ok _ _ _ _ _ E)|].
    assert (AD : addrs ([(a, k)] :: match l with [] => [] | _ => [l] end) = ((a, k) :: l).*1)
      by (destruct l; cbn; [done|by rewrite app_nil_r]).
    split.
    + apply (kept_put h); try done.
      * intros e He. apply F. intros ->. apply (D2 a); [by left|done].
      * constructor; [done|]. destruct l as [|[b kb] l]; [cbn in M2; subst r; constructor|]. pose proof M2 as [-> _]. by constructor.
      * rewrite AD. apply NoDup_app. split; [by apply NoDup_cons|done].
      * intros W e He. rewrite AD. apply Hw; [done|]. destruct (decide (e = a)) as [->|Q]; [|by rewrite <- F].
        destruct Hm as [_ (c & -> & _)]. by eexists.
    + cbn [spec]. rewrite (shown_at i ls _ Hl). cbn [fmap list_fmap snd]. rewrite shown_app, shown_delete. f_equal. unfold shown. cbn. f_equal.
      by destruct l.
  - apply refines_none; [cbn; by rewrite Ha|done|]. cbn. by rewrite (shown_none _ _ (kept_none h p ls i K Ha)).
Qed.
Lemma adjmsg_refines i n h p ls : kept h p ls → refines (Adjmsg i n) h p ls.
Proof using.
  intros K. destruct (p.(roots) !! i) as [a|] eqn:Ha.
  2: { apply refines_none; [cbn; by rewrite Ha|done|]. cbn. by rewrite (shown_none _ _ (kept_none h p ls i K Ha)). }
  destruct (kept_take h p ls i a K Ha) as (l & Hl & Hm & Hr & Hd & Hw). pose proof K as [Hex _].
  destruct (0 <? n) eqn:Hn.
  2: { apply refines_none; [cbn; by rewrite Ha, Hn|done|]. cbn. by rewrite (shown_at i ls _ Hl), Hn. }
  apply Z.ltb_lt in Hn as Hn'. apply NoDup_app in Hd as (D1 & D2 & D3).
  destruct (adjmsg_head a l n h Hex Hm D1 Hn') as (r & h' & l' & E & X & N & M & A1 & A2 & F).
  exists (Pool (delete i p.(roots) ++ [a]) p.(whole)), h', (delete i ls ++ [l']).
  split; [cbn [perform]; rewrite Ha, Hn; by rewrite (bind_ok _ _ _ _ _ E)|]. split.
  - apply (kept_put h); try done.
    + intros e He. apply F. intros Q. by apply (D2 e Q).
    + by apply holds_one.
    + rewrite addrs_one, A1. by apply NoDup_app.
    + intros W e He. rewrite addrs_one, A1. apply Hw; [done|]. destruct (decide (e ∈ l.*1)) as [Q|Q]; [|by rewrite <- F].
      by apply (is_msg_in _ (Some a) l).
  - cbn [spec]. rewrite (shown_at i ls _ Hl), Hn, shown_app, shown_delete. cbn. by rewrite A2.
Qed.
(** A message and a new one with the same blocks, in place of the message. *)
Lemma kept_copied h h' p ls i a l r :
  kept h p ls → p.(roots) !! i = Some a → ls !! i = Some l → exact_mem h' → copied h h' r l →
  ∃ b l', r = Some b ∧ kept h' (Pool (delete i p.(roots) ++ [a; b]) p.(whole)) (delete i ls ++ [l; l']) ∧ l'.*2 = l.*2.
Proof using.
  intros K Ha Hl0 X (l' & C1 & C2 & C3 & C4 & C5).
  destruct (kept_take h p ls i a K Ha) as (l1 & Hl & Hm & Hr & Hd & Hw). assert (l1 = l) as -> by congruence. pose proof K as [Hex _].
  destruct l as [|[a0 k] l]; [done|]. destruct l' as [|[b kb] l']; [done|]. pose proof C1 as [-> _]. exists b, ((b, kb) :: l').
  split; [done|]. split; [|done]. set (L := (a0, k) :: l) in *. set (L' := (b, kb) :: l') in *.
  assert (Old : ∀ e, e ∈ L.*1 ++ addrs (delete i ls) → e < h.(m_next)).
  { intros e. rewrite elem_of_app. intros [Q|Q]; [by apply (msg_next h (Some a) L)|by apply (holds_next h (delete i p.(roots)) (delete i ls))]. }
  assert (F : ∀ e, e ∈ L.*1 ++ addrs (delete i ls) → view h' !! e = view h !! e).
  { intros e He. apply C5. intros Q. pose proof (Old e He). pose proof (C4 e Q). lia. }
  assert (AD : addrs [L; L'] = L.*1 ++ L'.*1) by (cbn; by rewrite app_nil_r).
  assert (P : (L.*1 ++ L'.*1) ++ addrs (delete i ls) ≡ₚ L'.*1 ++ L.*1 ++ addrs (delete i ls)) by solve_Permutation.
  apply (kept_put h); try done.
  - intros e He. apply F, elem_of_app. by right.
  - constructor; [|by constructor]. eapply is_msg_frame; [|exact Hm]. intros e He. apply F, elem_of_app. by left.
  - rewrite AD, P. apply NoDup_app. split; [done|]. split; [|done]. intros e He Q. pose proof (C4 e He). pose proof (Old e Q). lia.
  - intros W e He. rewrite AD, P. destruct (decide (e ∈ L'.*1)) as [Q|Q]; apply elem_of_app; [by left|right].
    apply Hw; [done|]. by rewrite <- C5.
Qed.
Lemma dupmsg_refines i h p ls : kept h p ls → refines (Dupmsg i) h p ls.
Proof using All.
  intros K. destruct (p.(roots) !! i) as [a|] eqn:Ha.
  2: { apply refines_none; [cbn; by rewrite Ha|done|]. cbn. by rewrite (shown_none _ _ (kept_none h p ls i K Ha)). }
  destruct (kept_take h p ls i a K Ha) as (l & Hl & Hm & Hr & Hd & Hw). pose proof K as [Hex _].
  destruct (dupmsg_ok FASTBUF Hfast (Some a) l h Hex Hm) as (r & h' & E & X & N & D); [by apply NoDup_app in Hd as (? & _ & _)|].
  assert (Ep : perform (Dupmsg i) p h = Some (Pool (delete i p.(roots) ++ a :: opt_list r) p.(whole), h'))
    by (cbn [perform]; rewrite Ha; by rewrite (bind_ok _ _ _ _ _ E)).
  destruct D as [[-> V]|C].
  - exists (Pool (delete i p.(roots) ++ [a]) p.(whole)), h', (delete i ls ++ [l]). split; [done|]. split.
    + apply (kept_put h); rewrite ?V; try done; [by apply holds_one|by rewrite addrs_one|]. intros W e. rewrite addrs_one. by apply Hw.
    + cbn [spec]. rewrite (shown_at i ls _ Hl), shown_app, shown_delete. by left.
  - destruct (kept_copied h h' p ls i a l r K Ha Hl X C) as (b & l' & -> & K' & E').
    eexists _, h', _. split; [exact Ep|]. split; [exact K'|].
    cbn [spec]. rewrite (shown_at i ls _ Hl), shown_app, shown_delete. right. cbn. by rewrite E'.
Qed.
Lemma copymsg_refines i h p ls : kept h p ls → refines (Copymsg i) h p ls.
Proof using All.
  intros K. destruct (p.(roots) !! i) as [a|] eqn:Ha.
  2: { apply refines_none; [cbn; by rewrite Ha|done|]. cbn. by rewrite (shown_none _ _ (kept_none h p ls i K Ha)). }
  destruct (kept_take h p ls i a K Ha) as (l & Hl & Hm & Hr & Hd & Hw). pose proof K as [Hex _].
  pose proof (proj1 (proj1 (NoDup_app _ _) Hd)) as D1. assert (Hne : l ≠ []) by (intros ->; done).
  destruct (copymsg_ok FASTBUF ktruesize skb_size Hfast Hkmem Hskb (Some a) l h Hex Hm D1 Hne) as (r & h' & E & X & N & D).
  destruct D as [(-> & W1 & W2)|[Hr' C]].
  - exists (Pool (delete i p.(roots) ++ []) false), h', (delete i ls ++ []). split; [cbn [perform]; rewrite Ha; by rewrite (bind_ok _ _ _ _ _ E)|].
    apply NoDup_app in Hd as (_ & D2 & D3). split.
    + apply (kept_put h); try done; [|constructor]. intros e He. apply W2; [by apply (holds_next h (delete i p.(roots)) (delete i ls))|].
      intros Q. by apply (D2 e Q).
    + cbn [spec]. rewrite (shown_at i ls _ Hl), app_nil_r, shown_delete. by left.
  - destruct (kept_copied h h' p ls i a l r K Ha Hl X C) as (b & l' & -> & K' & E').
    eexists _, h', _. split; [cbn [perform]; rewrite Ha; by rewrite (bind_ok _ _ _ _ _ E)|]. split; [exact K'|].
    cbn [spec]. rewrite (shown_at i ls _ Hl), shown_app, shown_delete. right. cbn. by rewrite E'.
Qed.
Lemma linkb_refines i j h p ls : kept h p ls → refines (Linkb i j) h p ls.
Proof using.
  intros K. destruct (p.(roots) !! i) as [a|] eqn:Ha.
  2: { apply refines_none; [cbn; by rewrite Ha|done|]. cbn. by rewrite (shown_none _ _ (kept_none h p ls i K Ha)). }
  destruct (kept_take h p ls i a K Ha) as (l1 & Hl1 & Hm1 & Hr1 & Hd1 & Hw1). pose proof K as [Hex _].
  pose proof (proj1 (NoDup_app _ _) Hd1) as (_ & _ & Hd0).
  assert (K1 : kept h (Pool (delete i p.(roots)) false) (delete i ls)) by done.
  destruct (delete i p.(roots) !! j) as [b|] eqn:Hb.
  2: { apply refines_none; [cbn; by rewrite Ha, Hb|done|]. cbn. rewrite (shown_at i ls _ Hl1), <- shown_delete.
       by rewrite (shown_none _ _ (kept_none h _ (delete i ls) j K1 Hb)). }
  destruct (kept_take h _ (delete i ls) j b K1 Hb) as (l2 & Hl2 & Hm2 & Hr2 & Hd2 & _). cbn [roots] in Hr2.
  pose proof (addrs_delete j (delete i ls) l2 Hl2) as P. rewrite P in Hd1.
  assert (Hd3 : NoDup ((l1.*1 ++ l2.*1) ++ addrs (delete j (delete i ls)))) by (by rewrite <- app_assoc).
  apply NoDup_app in Hd3 as (D1 & D2 & D3).
  destruct (linkb_ok a l1 (Some b) l2 h Hex Hm1 Hm2 D1) as (h' & E & X & N & M & F).
  assert (AD : addrs [l1 ++ l2] = l1.*1 ++ l2.*1) by (by rewrite addrs_one, fmap_app).
  exists (Pool (delete j (delete i p.(roots)) ++ [a]) p.(whole)), h', (delete j (delete i ls) ++ [l1 ++ l2]).
  split; [cbn [perform]; rewrite Ha, Hb; by rewrite (bind_ok _ _ _ _ _ E)|]. split.
  - apply (kept_put h); try done.
    + intros e He. apply F. intros Q. apply (D2 e); [apply elem_of_app; by left|done].
    + by apply holds_one.
    + rewrite AD. by apply NoDup_app.
    + intros W e He. rewrite AD, <- app_assoc, <- P. apply Hw1; [done|]. destruct (decide (e ∈ l1.*1)) as [Q|Q]; [|by rewrite <- F].
      by apply (is_msg_in _ (Some a) l1).
  - cbn [spec]. rewrite (shown_at i ls _ Hl1), <- shown_delete, (shown_at j _ _ Hl2), shown_app, <- shown_delete. cbn. by rewrite fmap_app.
Qed.
Lemma any_call_refines c h p ls : kept h p ls → refines c h p ls.
Proof using All.
  destruct c; [apply allocb_refines|apply dupmsg_refines|apply copymsg_refines|apply freemsg_refines|apply linkb_refines
    |apply unlinkb_refines|apply adjmsg_refines].
Qed.
Fixpoint performs (cs : list call) (p : pool) : partial mheap pool :=
  match cs with [] => mret p | c :: cs => p ← perform c p; performs cs p end.
End calls.
Lemma empty_repr g : repr (MHeap ∅ ∅ 0 g []) (Pool [] true) [].
Proof.
  exists []. split; [|done]. split; [|split; [constructor|split; [constructor|]]].
  - constructor; cbn.
    + by intros a m Q.
    + by intros a a' m m' k Q.
    + by intros k [l Q].
  - intros _ e [q Q]. by rewrite view_at in Q.
Qed.
