(* ===== verification/MsgFaults.v ===== *)
(** * Examples of messages

    Calls at which the theorems on messages apply, and what goes wrong with trimming
    and pulling up. *)
From S2P Require Import Prelude Partial Msg MsgLaws MsgRefs MsgOk MsgRefine.
From stdpp Require Import gmap.
#[local] Open Scope Z_scope.
#[local] Open Scope os7_scope.

(** Short buffers of 64 octets, and no more of the others than was asked for. *)
Definition ex_perform : list call → pool → partial mheap pool := performs 64 (λ n, n) (λ n, n).
Definition ex_heap (g : list bool) : mheap := MHeap ∅ ∅ 0 g [].

(** ** Witnesses *)

(** A message of two blocks and its duplicate, of which one is taken apart and freed;
    the copy of the other is made after an allocation has failed. *)
Definition ex_calls : list call :=
  [Allocb 10 0; Allocb 100 0; Linkb 0 0; Dupmsg 0; Unlinkb 0; Freemsg 1; Copymsg 0; Adjmsg 1 5; Freemsg 0; Freemsg 0].
Definition ex_all : list call := [Allocb 10 0; Allocb 100 0; Linkb 0 0; Dupmsg 0; Unlinkb 0; Freemsg 0; Freemsg 0; Freemsg 0].

(** ** What goes wrong *)

(** A block of [size] octets with [x] in it, from offset [from] on. *)
Definition ex_block (size from : Z) (x : list Z) : partial mheap (option Z) :=
  r ← allocb 64 (λ n, n) (λ n, n) size 0;
  match r with
  | None => mret None
  | Some a =>
      _ ← on_md a (fun m => (m <| b_rptr := ptr_add m.(b_rptr) from |>) <| b_wptr := ptr_add m.(b_wptr) (from + Z.of_nat (length x)) |>);
      m ← the_md a;
      l ← the_buf m.(b_rptr).(p_buf);
      _ ← put_buf m.(b_rptr).(p_buf) (put_at m.(b_rptr) (Some <$> x) l);
      mret (Some a)
  end.
(** A message of two blocks. *)
Definition ex_pair (size from : Z) (x y : list Z) : partial mheap (option Z) :=
  a ← ex_block size from x; b ← ex_block 10 0 y; linkmsg a b.
(** The octets of the blocks of a message. *)
Fixpoint ex_data (n : nat) (V : gmap Z (option Z * blk)) (mp : option Z) : list (list octet) :=
  match n, mp with
  | S n, Some a => match V !! a with Some (c, k) => k.(k_data) :: ex_data n V c | None => [] end
  | _, _ => []
  end.
(** The result of a call on the pair, and what its result and the pair show. *)
Definition ex_after {A} (size from : Z) (x y : list Z) (f : option Z → partial mheap A) : option (A * list (list octet)) :=
  (λ r : A * option Z * mheap, (r.1.1, ex_data 4 (view r.2) r.1.2)) <$>
    (mp ← ex_pair size from x y; r ← f mp; mret (r, mp)) (ex_heap []).

(** All octets trimmed from the head, or some from the end: [adjmsg] reports failure,
    though it trimmed them in the one case; in the other it did nothing. *)
Lemma adjmsg_all :
  ex_after 10 0 [1; 2] [3] (λ mp, adjmsg mp 3) = Some (0, [[]; []]) ∧
  ex_after 10 0 [1; 2] [3] (λ mp, adjmsg mp 2) = Some (1, [[]; [Some 3]]).
Proof. split; vm_compute; reflexivity. Qed.
Lemma adjmsg_tail :
  ex_after 10 0 [1; 2] [3] (λ mp, adjmsg mp (-1)) = Some (0, [[Some 1; Some 2]; [Some 3]]).
Proof. vm_compute. reflexivity. Qed.
(** [pullupmsg] and [msgpullup] refuse exactly the length of the message. *)
Lemma pullup_all :
  ex_after 10 0 [1; 2] [3; 4] (λ mp, pullupmsg 64 (λ n, n) (λ _, false) mp 4) = Some (0, [[Some 1; Some 2]; [Some 3; Some 4]]).
Proof. vm_compute. reflexivity. Qed.
(** The second loop of [msgpullup] goes along the new message in place of the old one:
    the result is empty. *)
Lemma msgpullup_empty :
  (λ r : option Z * mheap, ex_data 4 (view r.2) r.1) <$>
    (mp ← ex_pair 10 0 [1; 2] [3; 4]; msgpullup 64 (λ n, n) (λ n, n) mp 3) (ex_heap []) = Some [[]].
Proof. vm_compute. reflexivity. Qed.
(** [pullupmsg] points the message to the old buffer: it writes to memory it has freed,
    and shows octets from before the message where the message did not start the buffer. *)
Lemma pullupmsg_old_buffer :
  ex_after 100 0 [1; 2] [3; 4] (λ mp, pullupmsg 64 (λ n, n) (λ _, false) mp 3) = None ∧
  ex_after 10 1 [1; 2] [3; 4] (λ mp, pullupmsg 64 (λ n, n) (λ _, false) mp 3) = Some (1, [[None; Some 1; Some 3; Some 4]]).
Proof. split; vm_compute; reflexivity. Qed.
(** A copy that fails frees the message, and loses the blocks it copied. *)
Lemma failed_copy_leaks :
  (λ r : pool * mheap, (r.1.(roots), size r.2.(m_md))) <$>
    ex_perform [Allocb 10 0; Allocb 10 0; Linkb 0 0; Copymsg 0] (Pool [] true) (ex_heap [true; true; true; false]) = Some ([], 1%nat).
Proof. vm_compute. reflexivity. Qed.
